(* ===== verification/_CoqProject ===== *)
-Q . S2P
Prelude.v
PyStr.v
PyDict.v
PyNum.v
PyFloat.v
PyStats.v
Config.v
MetricsData.v
Metrics.v
FileSys.v
ConfigLoad.v
PerfDerived.v
Platforms.v
PerfEvents.v
PerfUncore.v
Allocations.v
Cgroups.v
Resctrl.v
Wss.v
SysStats.v
World.v
ResctrlAllocations.v
ResctrlShared.v
CgroupsAllocations.v
Tasks.v
Json.v
Kubernetes.v
Storage.v
LogStorage.v
Containers.v
ContainerManager.v
MeasurementRunner.v
RunnerLoop.v
Detection.v
Startup.v
Logging.v
Services.v
NumaAllocator.v
NumaSpec.v
StaticAllocator.v
Nodes.v
AllocationRunner.v
Agent.v
SchedBase.v
SchedAlgorithms.v
SchedFit.v
Simulator.v
SimulatorSpec.v
SimulatorFit.v
SchedScore.v
SchedHierBar.v
SimulatorScore.v
ClusterData.v
SchedServer.v
Analyzer.v
Admission.v
Base64.v
Databases.v
Transport.v
Regex.v
Docs.v
ExternalPackage.v
Wrapper.v
WrapperParsers.v
WrapperMain.v
Manifests.v
WorkloadTools.v
Experiments.v
Scenarios.v
ExperimentSets.v
AnalyzerView.v
AnalyzerStages.v
AnalyzerReport.v
