(* ===== verification/Prelude.v ===== *)
(** * Workload Collocation Agent (WCA)

    The agent runs on a node of a cluster.  In every iteration it finds the tasks of
    the orchestrator, keeps a container object for each of them, measures the tasks and
    the platform, asks an allocator for resource allocations, validates them, performs
    what changes through control files of the kernel (cgroups and resctrl) and sends
    metrics.  Beside it the repository has an extender of the Kubernetes scheduler, with
    several algorithms and a simulator of a cluster, and an admission controller.  Under
    src/examples there are the wrapper that runs benchmarks, the scripts that describe them
    to Kubernetes, the experiments on memory and the analyzer of their results.  The Python
    sources are translated into functions, and theorems about these functions say what the
    programs do.

    ** How the code is translated

    - A call returns a value or raises: [result], with the exceptions as [exn] (this
      file).  Code that changes state is a function of type [M S A]: state to outcome and
      state.  The state survives an exception, as in Python, so the theorems on error
      paths speak of what was done before the exception.  [within R m] says that [m] only
      relates states by [R] however it ends, [stable P] that it keeps [P]; the tactic
      [within] follows the structure of a computation.  The messages of exceptions are not
      kept, and the log only where it is the subject (Logging, Services).
    - [int] is Z and [float] is binary64 computed by SpecFloat (PyNum, PyFloat for
      [float(s)], PyStats for [statistics] of Python 3.6, the version the agent is
      packaged with).  A value that may be either is a [num].
    - A dict is an association list in insertion order (PyDict); [gmap] is used where
      only look-ups happen.  Strings and bytes are sequences of 8-bit characters (PyStr);
      texts are ASCII.  JSON is the type [json] (Json), Base64 follows the loop of
      binascii (Base64).
    - Objects that are shared and mutated are positions in a store: the [RDTGroups] of
      World, the tasks and nodes of Simulator.  Where the code mutates an object that
      nothing else looks at, a new value is passed on.
    - Python chooses the order of iteration over a set: it is a parameter ([set_order]),
      and where it matters a theorem quantifies over it.
    - Loops are recursion on a list.  The only fuel is in [digits_fuel] (PyStr, the
      logarithm of the number bounds its digits), in [no_parent_loop] (Config, the length
      of the path; [no_parent_loop_terminates] proves that it is enough), in the loops of
      the benchmark wrapper (Wrapper, one pass more than there are lines, by
      [parse_loop_ends], and seven steps for each parsed metric, by
      [service_level_iterates_parsed]), in the random searches and the repeated switching
      of the extender in Experiments, which need not end, in the loops that connect to
      Zookeeper (Transport, [connect_loop_ends]: as often as the clock can be read before
      the limit) and to a database (WorkloadTools), and in the number of iterations of the
      runners, of the wrapper and of the simulator, which the code leaves to the outside.

    ** What is a parameter

    The kernel and everything outside the repository: the class [FileSystem] (FileSys)
    with the laws [ControlFiles] of ordinary files and the instance [memfs]; the system
    calls of perf ([PerfKernel], [PerfBackend]) and of migrate_pages ([Syscalls]); the
    identity of the process ([Process], [EffectiveUser], [FileStat]); the clock and
    sleeping; HTTP requests ([Requests], [EtcdRequests], or a computation that returns
    JSON); sockets, TLS contexts and the clients of Kafka and Zookeeper ([Http],
    [Sockets], Transport); compiled regular expressions and [re.match]; [repr] of a float
    ([PyFloatRepr]); the logarithms of the C library ([MathLog]); the output of ipmctl and dmidecode; [os.access]; Flask, jsonpatch, the
    parser of YAML, which gives a tree of nodes (ConfigLoad); drawing with LaTeX.
    Hypotheses on a parameter are laws of its class, and the instance of each class in
    the same file (for example [memfs], [example_etcd_server]) shows that they can hold.

    ** The files, in the order they are checked

    Python and its library: Prelude, PyStr, PyDict, PyNum, PyFloat, PyStats, Json, Base64,
    Regex (the matcher of the module re, with a relation that says what a pattern matches).

    - Config: src/wca/config.py.  Semantic types, [assure_type] with a declarative typing
      relation [has_type], creation of configured objects.
    - MetricsData, Metrics: src/wca/metrics.py.  Metric names and metadata, merging of
      measurements, differences, export.
    - FileSys: the file system interface.  ConfigLoad: the rest of src/wca/config.py and
      components.py, the registry of classes, construction from YAML nodes, loading.
    - PerfDerived, PerfEvents, PerfUncore: src/wca/perf.py, perf_const.py, perf_uncore.py,
      pmembw.py.  Event attributes, opening and reading of counters, scaling, derived
      metrics.
    - Platforms: src/wca/platforms.py.  Parsers, topology, RDT capabilities, list format.
    - Allocations: src/wca/allocators.py and allocations.py.  The interface
      [AllocationValue] with [AllocationValueLaws], lifted over dictionaries.
    - Cgroups, Resctrl, Wss, SysStats: src/wca/cgroups.py, resctrl.py, wss.py,
      sched_stats.py, vmstats.py, zoneinfo.py.
    - World, ResctrlAllocations, CgroupsAllocations: src/wca/resctrl_allocations.py and
      cgroups_allocations.py, the two families of allocation values; both are instances
      of [AllocationValue] and discharge its laws.  ResctrlShared: the values of the tasks
      of one round on the groups that they share.
    - Tasks: src/wca/nodes.py, detectors.py.  Kubernetes: src/wca/kubernetes.py,
      resources.py.  Nodes: src/wca/extra/static_node.py, mesos.py.
    - Storage, LogStorage: src/wca/storage.py.
    - Containers, ContainerManager: src/wca/containers.py.
    - MeasurementRunner: src/wca/runners/measurement.py, profiling.py.  RunnerLoop: what
      its loop keeps, for any callback.  Detection: src/wca/runners/detection.py.
      AllocationRunner: src/wca/runners/allocation.py.  Agent: the measurement runner with
      the allocation runner as callback on one state of the machine.
    - Startup: src/wca/main.py.  Logging: src/wca/logger.py, the tree of loggers.  Services:
      the start of the scheduler and of the admission controller.
    - NumaAllocator, NumaSpec, StaticAllocator: src/wca/extra.
    - SchedBase, SchedAlgorithms, SchedFit, SchedScore, SchedHierBar:
      src/wca/scheduler/algorithms.  The interface [DataProvider]; a concrete algorithm is
      a record of callbacks, and [SplitsNodes] is what the common code needs of them.
    - Simulator, SimulatorSpec, SimulatorFit: src/wca/scheduler/cluster_simulator.py.
      SimulatorScore: its data provider for Score, and Score in the simulator.
    - ClusterData: src/wca/prometheus.py, src/wca/scheduler/kubeapi.py and data_providers:
      the instance of [DataProvider] on JSON.  SchedServer: src/wca/scheduler/server.py.
    - Admission: src/wca/admission_controller.
    - Databases: src/wca/databases.py, security.py.  The interface [DatabaseSpec] says
      that a database is a map; files and etcd implement it.  Transport: the requests of
      all components with their certificates, TLS options, src/wca/security_kazoo.py.
    - Docs: src/util/docs.py, the tables of metrics.  ExternalPackage:
      src/examples/external_package.py, http_storage.py and workloads/common.py.
    - Wrapper, WrapperParsers: src/examples/workloads/wrapper/wrapper.  The loop around a
      benchmark, the service level metrics, storing with retries; the parsers of the
      benchmarks, each a computation on the lines left to read.  WrapperMain: its arguments
      and main function.
    - Manifests: src/examples/workloads, the pods and commands of the benchmarks, read by
      shell and wrapper.  WorkloadTools: the scripts beside them.
    - Experiments, Scenarios: src/examples/kubernetes/scripts/hmem_experiments.  The
      choice of workloads, their start in stages and steps, the table of scenarios.  The
      shell, the clock and the random numbers are the class [Lab], with a trace of
      commands ([trace_lab]) and a small cluster ([sim_lab]) as instances.  ExperimentSets:
      the sets of experiments and their directories.
    - Analyzer: src/examples/kubernetes/scripts/analyzer, queries and the model of the
      cluster.  AnalyzerView: view.py.  AnalyzerStages: runner_analyzer.py.
      AnalyzerReport: results.py, from the files of an experiment to the diagrams.

    Every definition that translates code is preceded by the file, the lines and the name
    it translates.

    ** What the theorems show

    - Allocations: invalid allocations change nothing and valid ones are performed in
      full; a changeset is computed key by key, is empty when the same allocations come
      again, and reapplying them writes nothing (AllocationRunner, Allocations).  RDT masks
      are accepted exactly when they are one block of ones, bandwidth is raised to the
      least multiple (ResctrlAllocations), the values of a round write schemata only
      for the first value of each group (ResctrlShared); quota, shares, cpusets and page
      masks read back what was set (Cgroups, CgroupsAllocations).
    - Measurements: merging does not depend on the order of containers, counters are sums
      (Metrics); cgroup counters, and the working set size, which only changes at the end of
      a stable period (Cgroups, Wss).
    - The container manager watches exactly the tasks of the orchestrator; Kubernetes tasks
      are exactly the ready pods, with their class, paths and resources (ContainerManager,
      Kubernetes).
    - The agent as a whole: when the start succeeds, the containers it keeps after every
      iteration of a run are exactly those of the tasks, and none when it fails (Agent); a
      cpuset that is performed settles, unless a write is denied (CgroupsAllocations).
    - Logging: whatever loggers are configured and however often, a record of a configured
      logger is written once and counted once; one of any other logger is written from
      WARNING on and not counted (Logging), also when a service fails to start (Services).
    - Output: the text of the labels of a metric is read back as these labels, metrics are
      grouped without loss, the file of the last metrics is replaced as a whole or not at
      all (Storage, LogStorage).
    - Allocators: a later static rule wins; the NUMA allocator pins at most one unpinned
      task in an iteration, and one while a task waits, if the iteration ends without an
      exception (StaticAllocator, NumaSpec).
    - Scheduler: filtering splits the nodes, prioritising scores each once, [Fit] accepts
      exactly what fits and never exceeds a capacity (in whole numbers, without memory
      bandwidth), HierBAR takes the best class, Score reschedules only misplaced tasks; the
      simulator refines an abstract cluster and never overloads a node that no task names,
      and tasks leave in time; the service counts what it answers; the counting of pods
      loses none (SchedBase to SchedServer, Simulator, ClusterData).
    - Configuration and databases: [assure_type] passes only values of the type, and all of
      them when the type can be checked, the search for parent directories terminates, the last value set for a key is the one that is read from a
      cluster of etcd servers (Config, Databases); the admission controller touches only
      its own annotations (Admission).  A configuration is loaded only with registered
      classes whose arguments have their types (ConfigLoad); connections are only made
      with the secure ciphers and options (Transport).
    - Benchmark wrapper: the loop ends with the output of the workload for the parsers that
      look for its end and never for the others, the service level metrics are those of
      the parsed metrics, a delivery is tried five times (Wrapper, WrapperParsers).
    - Experiments: workloads are started once for each instance, the chosen workloads are
      within the limits, every scenario measures the instances of its steps under the
      kernel settings of its type and leaves nothing running (Experiments, Scenarios).
    - Analyzer: a task keeps the last answer to each query; the tasks of an experiment are
      found under the number with which they were started (Analyzer, AnalyzerReport).
    - Documentation: reading back the tables of metrics gives every metric once; the texts
      the model computes are the files docs/metrics.csv and docs/metrics.rst (Docs).
    - Manifests: one is made exactly when the variables it needs are set, and the labels
      reach the wrapper as they are unless they hold a quote (ExternalPackage, Manifests).
    - Where the code does something else than it means to, a theorem or an example shows
      it on a concrete run, for instance that the end of a divided Kafka message is lost
      (Storage), that every query to Prometheus with certificates fails (ClusterData), or
      that the exit code of a failed start is dropped (Startup).

    ** Limits

    - A resource of a task that is a text becomes a measurement that is a text, as in the
      code (MeasurementRunner); the arithmetic of the runner is on numbers only.
    - The table of metadata of the metrics is the class [Metadata] (MetricsData).  The runner
      changes it when it is made and when it starts (MeasurementRunner); theorems hold for
      any table unless they say that they are about the one of the source.
    - Keys and labels of JSON are strings where Kubernetes says so; a value of another kind
      is a [TypeError].
    - Objects that two metrics share (a dictionary of labels) are copied.

    - The tree of YAML nodes has no anchors, and a logger is configured by its level.
    - Abbreviated options, values behind an equals sign and negative numbers are left out of
      the arguments of the wrapper.

    Not modelled: the format of a log record, argparse beyond the options the sources
    declare, the drawing of diagrams with LaTeX and pandas (the tables that are drawn are
    modelled), the debugger that main starts on request, and two runners under src/examples
    that print a line.  The process of the workload that the wrapper starts is the class
    [Workloads].

    Possible extensions: the ends of the random searches of Experiments, and Regex in place
    of the parameters for compiled regular expressions. *)
From Stdlib Require Import ZArith Lia.
From stdpp Require Export base option list gmap strings sets fin_maps.

#[global] Open Scope Z_scope.

(** ** Python exceptions

    One constructor per exception class the modelled code raises or catches.
    The message of an exception is only ever logged, so it is not kept;
    [OSError] keeps its [errno], which [wca/resctrl.py] inspects. *)
Inductive exn : Type :=
  | InvalidAllocations
  | MissingAllocationException
  | MissingMeasurementException
  | ValueError
  | KeyError
  | IndexError
  | TypeError
  | AttributeError
  | AssertionError
  | ZeroDivisionError
  | OverflowError
  | NotImplementedError
  | OSError (errno : Z)
  | FileNotFoundError
  | PermissionError
  | ProcessLookupError
  | OutOfClosidsException
  | UnableToMigratePages
  | OtherException (name : string).

(** Reading a local variable that no statement has bound. *)
Definition UnboundLocalError : exn := OtherException "UnboundLocalError".

#[export] Instance exn_eq_dec : EqDecision exn.
Proof. solve_decision. Defined.

(** ** Results: a Python call returns a value or raises *)
Inductive result (A : Type) : Type :=
  | Ok (a : A)
  | Raise (e : exn).
Arguments Ok {A} _.
Arguments Raise {A} _.

#[export] Instance result_eq_dec {A} `{EqDecision A} : EqDecision (result A).
Proof. solve_decision. Defined.

#[export] Instance result_ret : MRet result := @Ok.
#[export] Instance result_bind : MBind result :=
  λ A B f r, match r with Ok a => f a | Raise e => Raise e end.
#[export] Instance result_fmap : FMap result :=
  λ A B f r, match r with Ok a => Ok (f a) | Raise e => Raise e end.

Definition is_Ok {A} (r : result A) : bool :=
  match r with Ok _ => true | Raise _ => false end.

(** [assert b] of Python. *)
Definition py_assert (b : bool) : result unit :=
  if b then Ok tt else Raise AssertionError.

(** [d[k]] on a lookup that may fail. *)
Definition or_raise {A} (e : exn) (o : option A) : result A :=
  match o with Some a => Ok a | None => Raise e end.

(** A [for] loop whose body threads an accumulator and may raise. *)
Fixpoint foldM {A B} (f : A → B → result A) (acc : A) (l : list B) : result A :=
  match l with
  | [] => Ok acc
  | x :: l' => acc' ← f acc x; foldM f acc' l'
  end.

(** ** Stateful code

    A statement may change the state and then raise: the state survives the
    exception, as in Python. *)
Definition M (S A : Type) : Type := S → result A * S.

#[export] Instance M_ret {S} : MRet (M S) := λ A a s, (Ok a, s).
#[export] Instance M_bind {S} : MBind (M S) :=
  λ A B f m s, match m s with
               | (Ok a, s') => f a s'
               | (Raise e, s') => (Raise e, s')
               end.

Definition raise {S A} (e : exn) : M S A := λ s, (Raise e, s).
Definition lift {S A} (r : result A) : M S A := λ s, (r, s).
Definition get_state {S} : M S S := λ s, (Ok s, s).
Definition put_state {S} (s : S) : M S unit := λ _, (Ok tt, s).
Definition modify {S} (f : S → S) : M S unit := λ s, (Ok tt, f s).

(** [try: m except ...: h]: the handler [h] answers [None] for an exception it
    does not catch, which is then re-raised. *)
Definition try_except {S A} (m : M S A) (h : exn → option (M S A)) : M S A :=
  λ s, match m s with
       | (Ok a, s') => (Ok a, s')
       | (Raise e, s') => match h e with
                          | Some k => k s'
                          | None => (Raise e, s')
                          end
       end.

(** [try: m finally: f]: an exception of [f] replaces the outcome of [m]. *)
Definition try_finally {S A} (m : M S A) (f : M S unit) : M S A :=
  λ s, let '(r, s1) := m s in
       match f s1 with
       | (Ok _, s2) => (r, s2)
       | (Raise e, s2) => (Raise e, s2)
       end.

(** The classes below [OSError] in Python's hierarchy. *)
Definition is_OSError (e : exn) : bool :=
  match e with
  | OSError _ | FileNotFoundError | PermissionError | ProcessLookupError => true
  | _ => false
  end.
Definition errno_of (e : exn) : option Z :=
  match e with
  | OSError n => Some n
  | FileNotFoundError => Some 2
  | PermissionError => Some 13
  | ProcessLookupError => Some 3
  | _ => None
  end.
(** [except OSError: log] *)
Definition ignore_OSError {S} (m : M S unit) : M S unit :=
  try_except m (λ e, if is_OSError e then Some (mret tt) else None).

Definition catch {A} (r : result A) (h : exn → option (result A)) : result A :=
  match r with
  | Ok a => Ok a
  | Raise e => match h e with Some k => k | None => Raise e end
  end.

(** [for x in l: f(x)] over stateful code. *)
Fixpoint forM_ {S B} (l : list B) (f : B → M S unit) : M S unit :=
  match l with
  | [] => mret tt
  | x :: l' => f x ≫= λ _, forM_ l' f
  end.

(** A stateful loop with an accumulator. *)
Fixpoint foldMS {S A B} (f : A → B → M S A) (acc : A) (l : list B) : M S A :=
  match l with
  | [] => mret acc
  | x :: l' => f acc x ≫= λ acc', foldMS f acc' l'
  end.

(** Run a computation on one half of a paired state. *)
Definition on_fst {S T A} (m : M S A) : M (S * T) A :=
  λ s, let '(r, s') := m s.1 in (r, (s', s.2)).
Definition on_snd {S T A} (m : M T A) : M (S * T) A :=
  λ s, let '(r, s') := m s.2 in (r, (s.1, s')).

(** ** Lemmas on results *)
Lemma bind_Ok_iff {A B} (r : result A) (f : A → result B) b :
  r ≫= f = Ok b ↔ ∃ a, r = Ok a ∧ f a = Ok b.
Proof. destruct r; naive_solver. Qed.

Lemma bind_Raise_iff {A B} (r : result A) (f : A → result B) e :
  r ≫= f = Raise e ↔ r = Raise e ∨ ∃ a, r = Ok a ∧ f a = Raise e.
Proof. destruct r; naive_solver. Qed.

Lemma or_raise_Ok {A} e (o : option A) a : or_raise e o = Ok a ↔ o = Some a.
Proof. destruct o; naive_solver. Qed.

Lemma py_assert_Ok b u : py_assert b = Ok u ↔ b = true.
Proof. destruct b, u; naive_solver. Qed.

Lemma M_bind_Ok_iff {S A B} (m : M S A) (f : A → M S B) s b s'' :
  (m ≫= f) s = (Ok b, s'') ↔ ∃ a s', m s = (Ok a, s') ∧ f a s' = (Ok b, s'').
Proof.
  unfold mbind, M_bind. destruct (m s) as [[a|e] s'] eqn:E; naive_solver.
Qed.

Lemma lift_Ok_iff {S A} (r : result A) (s s' : S) a :
  lift r s = (Ok a, s') ↔ r = Ok a ∧ s' = s.
Proof. unfold lift. naive_solver. Qed.

Lemma M_ret_Ok_iff {S A} (a b : A) (s s' : S) :
  (mret a : M S A) s = (Ok b, s') ↔ a = b ∧ s' = s.
Proof. unfold mret, M_ret. naive_solver. Qed.

Lemma is_Ok_true {A} (r : result A) : is_Ok r = true ↔ ∃ a, r = Ok a.
Proof. destruct r; naive_solver. Qed.

(** A loop keeps an invariant that its body keeps. *)
Lemma foldM_inv {A B} (P : A → Prop) (f : A → B → result A) l acc acc' :
  (∀ a x a', x ∈ l → P a → f a x = Ok a' → P a') →
  P acc → foldM f acc l = Ok acc' → P acc'.
Proof.
  revert acc. induction l as [|x l IH]; simpl; intros acc Hf HP Heq; [naive_solver|].
  apply bind_Ok_iff in Heq as (a & Ha & Heq).
  eapply IH; [|eapply Hf; [|exact HP|exact Ha]; set_solver|exact Heq].
  intros; eapply Hf; eauto; set_solver.
Qed.

Lemma foldM_app {A B} (f : A → B → result A) acc l1 l2 :
  foldM f acc (l1 ++ l2) = foldM f acc l1 ≫= λ a, foldM f a l2.
Proof.
  revert acc. induction l1 as [|x l1 IH]; simpl; intros acc; [done|].
  destruct (f acc x); simpl; [apply IH|done].
Qed.

Lemma foldM_ext {A B} (f g : A → B → result A) acc l :
  (∀ a x, x ∈ l → f a x = g a x) → foldM f acc l = foldM g acc l.
Proof.
  revert acc. induction l as [|x l IH]; simpl; intros acc Hfg; [done|].
  rewrite Hfg by set_solver. destruct (g acc x); simpl; [|done]. apply IH.
  intros; apply Hfg; set_solver.
Qed.

(** A loop whose body never raises is a fold. *)
Lemma foldM_total {A B} (g : A → B → A) (f : A → B → result A) acc l :
  (∀ a x, x ∈ l → f a x = Ok (g a x)) → foldM f acc l = Ok (foldl g acc l).
Proof.
  revert acc. induction l as [|x l IH]; simpl; intros acc Hf; [done|].
  rewrite Hf by set_solver. simpl. apply IH. intros; apply Hf; set_solver.
Qed.

Lemma mapM_Ok_Forall2 {A B} (f : A → result B) l l' :
  mapM f l = Ok l' ↔ Forall2 (λ x y, f x = Ok y) l l'.
Proof.
  revert l'. induction l as [|x l IH]; intros l'; simpl.
  - split; [intros [= <-]; constructor|by inversion 1].
  - rewrite bind_Ok_iff. split.
    + intros (y & Hy & H). apply bind_Ok_iff in H as (ys & Hys & [= <-]).
      constructor; [done|by apply IH].
    + inversion 1 as [|? y ? ys Hy Hys]; subst.
      exists y. split; [done|]. apply bind_Ok_iff. exists ys. split; [by apply IH|done].
Qed.

Lemma mapM_Ok_ext {A B} (f : A → result B) (g : A → B) l :
  (∀ x, x ∈ l → f x = Ok (g x)) → mapM f l = Ok (g <$> l).
Proof.
  induction l as [|x l IH]; simpl; intros Hf; [done|].
  rewrite Hf by set_solver. simpl. rewrite IH by set_solver. done.
Qed.

Lemma mapM_fmap {A B C} (f : B → result C) (g : A → B) l :
  mapM f (g <$> l) = mapM (f ∘ g) l.
Proof.
  induction l as [|x l IH]; [done|]. rewrite fmap_cons. cbn [mapM]. by rewrite IH.
Qed.

(** ** Relations between the states before and after

    [within R m]: whatever the outcome of [m], the state it leaves is related to the one
    it was given.  A [PreOrder] is kept by every composition of steps that keep it. *)
Section within.
  Context {S : Type} (R : relation S).

Definition within {A} (m : M S A) : Prop := ∀ s, R s (m s).2.

Lemma within_lift `{!Reflexive R} {A} (r : result A) : within (lift r).
Proof. by intros s. Qed.
Lemma within_ret `{!Reflexive R} {A} (a : A) : within (mret a).
Proof. by intros s. Qed.
Lemma within_raise `{!Reflexive R} {A} e : within (raise e : M S A).
Proof. by intros s. Qed.
Lemma within_get_state `{!Reflexive R} : within get_state.
Proof. by intros s. Qed.
Lemma within_modify f : (∀ s, R s (f s)) → within (modify f).
Proof. by intros Hf s. Qed.

Lemma within_outcome {A} (m : M S A) s r s' : within m → m s = (r, s') → R s s'.
Proof. intros Hm E. specialize (Hm s). by rewrite E in Hm. Qed.

Context `{!PreOrder R}.

Lemma within_bind {A B} (m : M S A) (f : A → M S B) :
  within m → (∀ a, within (f a)) → within (m ≫= f).
Proof.
  intros Hm Hf s. unfold mbind, M_bind. specialize (Hm s).
  destruct (m s) as [[a|e] s']; [|done]. by etransitivity; [|apply Hf].
Qed.
Lemma within_try {A} (m : M S A) h :
  within m → (∀ e k, h e = Some k → within k) → within (try_except m h).
Proof.
  intros Hm Hh s. unfold try_except. specialize (Hm s).
  destruct (m s) as [[a|e] s']; [done|]. destruct (h e) as [k|] eqn:E; [|done].
  etransitivity; [done|]. by apply (Hh e).
Qed.
Lemma within_foldMS_elem {A B} (f : A → B → M S A) a l :
  (∀ a x, x ∈ l → within (f a x)) → within (foldMS f a l).
Proof.
  revert a. induction l as [|x l IH]; intros a Hf; [apply within_ret|].
  apply within_bind; [apply Hf; by left|intros a'; apply IH; intros; apply Hf; by right].
Qed.
Lemma within_foldMS {A B} (f : A → B → M S A) a l :
  (∀ a x, within (f a x)) → within (foldMS f a l).
Proof. intros Hf. by apply within_foldMS_elem. Qed.
Lemma within_forM {B} (f : B → M S unit) l : (∀ x, within (f x)) → within (forM_ l f).
Proof.
  intros Hf. induction l as [|x l IH]; [apply within_ret|]. by apply within_bind.
Qed.
End within.
Arguments within {S} R {A} m.

(** Nothing that [f] shows of the state changes. *)
Definition keeps {S T} (f : S → T) : relation S := λ s s', f s' = f s.
#[export] Instance keeps_preorder {S T} (f : S → T) : PreOrder (keeps f).
Proof. split; [by intros s|]. intros s1 s2 s3 H1 H2. unfold keeps in *. congruence. Qed.

(** A property of the state that held before holds after. *)
Definition stable {S} (P : S → Prop) : relation S := λ s s', P s → P s'.
#[export] Instance stable_preorder {S} (P : S → Prop) : PreOrder (stable P).
Proof. split; [by intros s ?|]. intros s1 s2 s3 H1 H2 H. by apply H2, H1. Qed.

(** What is kept is a stable fact. *)
Lemma within_keeps_stable {S T A} (f : S → T) x (m : M S A) :
  within (keeps f) m → within (stable (λ s, f s = x)) m.
Proof. intros Hm s <-. apply Hm. Qed.

Lemma within_on_snd {S T A} (R : relation (S * T)) (m : M T A) :
  (∀ s t t', R (s, t) (s, t')) → within R (on_snd m).
Proof. intros HR [s t]. unfold on_snd. cbn. destruct (m t). apply HR. Qed.

(** ** Outcomes of concrete runs

    Splitting an outcome into its parts lets a run be evaluated to its verdict
    alone, without computing the normal form of the final state. *)
Definition result_get {A} (d : A) (r : result A) : A := match r with Ok a => a | Raise _ => d end.

Lemma outcome_Ok {A S} d (p : result A * S) : is_Ok p.1 = true → p = (Ok (result_get d p.1), p.2).
Proof. by destruct p as [[a|e] s]. Qed.
Lemma result_Ok_pair {A B} d1 d2 (r : result (A * B)) :
  is_Ok r = true → r = Ok ((result_get (d1, d2) r).1, (result_get (d1, d2) r).2).
Proof. by destruct r as [[a b]|e]. Qed.
Lemma outcome_Ok_pair {A B S} d1 d2 (p : result (A * B) * S) :
  is_Ok p.1 = true →
  p = (Ok ((result_get (d1, d2) p.1).1, (result_get (d1, d2) p.1).2), p.2).
Proof. by destruct p as [[[a b]|e] s]. Qed.
Lemma outcome_is {A S} (p : result A * S) r : p.1 = r → p = (r, p.2).
Proof. by destruct p; simpl; intros ->. Qed.

(** ** Shared automation *)
Create HintDb wca.
Create Rewrite HintDb wca.
#[export] Hint Rewrite @bind_Ok_iff @or_raise_Ok @py_assert_Ok @M_bind_Ok_iff : wca.

(** Turn a hypothesis "this computation succeeded" into its steps. *)
Ltac inv_ok :=
  repeat match goal with
  | H : (_ ≫= _) = Ok _ |- _ => apply bind_Ok_iff in H as (? & ? & H)
  | H : or_raise _ _ = Ok _ |- _ => apply or_raise_Ok in H
  | H : py_assert _ = Ok _ |- _ => apply py_assert_Ok in H
  | H : Ok _ = Ok _ |- _ => injection H as H
  | H : Raise _ = Ok _ |- _ => discriminate H
  | H : Ok _ = Raise _ |- _ => discriminate H
  end; subst.

(** The same for a stateful computation applied to a state. *)
Ltac inv_M :=
  repeat match goal with
  | H : (_ ≫= _) _ = (Ok _, _) |- _ => apply M_bind_Ok_iff in H as (? & ? & ? & H)
  | H : lift _ _ = (Ok _, _) |- _ => apply lift_Ok_iff in H as [? ?]
  | H : mret _ _ = (Ok _, _) |- _ => apply M_ret_Ok_iff in H as [? ?]
  | H : raise _ _ = (Ok _, _) |- _ => discriminate H
  end; inv_ok; subst.

#[export] Hint Extern 1 (within _ (on_snd _)) => apply within_on_snd; intros; reflexivity : wca.

(** Take a computation apart and show step by step that it stays within a relation. *)
Ltac within_step :=
  lazymatch goal with
  | |- ∀ _, _ => intros ?
  | |- within _ (mret _) => apply within_ret; typeclasses eauto
  | |- within _ (lift _) => apply within_lift; typeclasses eauto
  | |- within _ (raise _) => apply within_raise; typeclasses eauto
  | |- within _ get_state => apply within_get_state; typeclasses eauto
  | |- within _ (mbind _ _) => apply within_bind; [typeclasses eauto| |intros ?]
  | |- within _ (foldMS _ _ _) => apply within_foldMS; [typeclasses eauto|intros ? ?]
  | |- within _ (forM_ _ _) => apply within_forM; [typeclasses eauto|intros ?]
  | |- within _ (if ?b then _ else _) => destruct b eqn:?
  | |- within _ (match ?x with _ => _ end) => destruct x
  | |- within _ _ => solve [eauto with wca | apply within_ret; typeclasses eauto]
  end.
Ltac within := repeat within_step.

(** Booleans of the code to propositions, as far as the goal shows them. *)
Ltac to_prop :=
  repeat match goal with
  | H : (_ && _) = true |- _ => apply andb_true_iff in H as [? H]
  | H : (_ || _) = false |- _ => apply orb_false_iff in H as [? H]
  | H : negb _ = true |- _ => apply negb_true_iff in H
  | H : negb _ = false |- _ => apply negb_false_iff in H
  | H : bool_decide _ = true |- _ => apply bool_decide_eq_true in H
  | H : bool_decide _ = false |- _ => apply bool_decide_eq_false in H
  | H : (_ <? _)%Z = true |- _ => apply Z.ltb_lt in H
  | H : (_ <? _)%Z = false |- _ => apply Z.ltb_ge in H
  | H : (_ <=? _)%Z = true |- _ => apply Z.leb_le in H
  | H : (_ <=? _)%Z = false |- _ => apply Z.leb_gt in H
  | H : (_ =? _)%Z = true |- _ => apply Z.eqb_eq in H
  | H : (_ =? _)%Z = false |- _ => apply Z.eqb_neq in H
  | H : (_ >? _)%Z = _ |- _ => rewrite Z.gtb_ltb in H
  | H : (_ >=? _)%Z = _ |- _ => rewrite Z.geb_leb in H
  | H : String.eqb _ _ = true |- _ => apply String.eqb_eq in H
  | H : String.eqb _ _ = false |- _ => apply String.eqb_neq in H
  end.
