(* ===== verification/PyStr.v ===== *)
(** * Python strings

    The string operations of the Python language and standard library that the
    modelled code uses: [str.split], [str.strip], [str.join], [int(s)],
    [int(s, 16)], [str(n)], [format(n, 'b')].  Strings are ASCII. *)
From Stdlib Require Export ZArith Lia Ascii String.
From S2P Require Export Prelude.

#[global] Open Scope string_scope.
#[global] Open Scope Z_scope.

#[global] Arguments String.append : simpl nomatch.

(** ** Characters *)
Definition ascii_eqb (a b : ascii) : bool := Ascii.eqb a b.

(** [str.isspace] on ASCII characters. *)
Definition is_space (c : ascii) : bool :=
  let n := N_of_ascii c in
  ((9 <=? n) && (n <=? 13) || (28 <=? n) && (n <=? 32))%N.

(** Value of a digit character in the largest base, 36. *)
Definition digit_val (c : ascii) : option Z :=
  let n := Z.of_N (N_of_ascii c) in
  if (48 <=? n) && (n <=? 57) then Some (n - 48)
  else if (97 <=? n) && (n <=? 122) then Some (n - 87)
  else if (65 <=? n) && (n <=? 90) then Some (n - 55)
  else None.

Definition digit_char (d : Z) : ascii :=
  ascii_of_N (Z.to_N (if d <? 10 then d + 48 else d + 87)).

(** ** Lengths, prefixes, slices *)
Definition py_len (s : string) : Z := Z.of_nat (String.length s).

(** [s.startswith(p)] *)
Fixpoint startswith (p s : string) : bool :=
  match p, s with
  | EmptyString, _ => true
  | String a p', String b s' => ascii_eqb a b && startswith p' s'
  | _, _ => false
  end.

Fixpoint str_rev_app (s acc : string) : string :=
  match s with
  | EmptyString => acc
  | String c s' => str_rev_app s' (String c acc)
  end.
Definition str_rev (s : string) : string := str_rev_app s "".

(** [s.endswith(p)] *)
Definition endswith (p s : string) : bool := startswith (str_rev p) (str_rev s).

(** [sub in s] *)
Fixpoint str_contains (sub s : string) : bool :=
  startswith sub s ||
  match s with
  | EmptyString => false
  | String _ s' => str_contains sub s'
  end.

(** [s[n:]] for [n >= 0] *)
Fixpoint str_drop (n : nat) (s : string) : string :=
  match n, s with
  | O, _ => s
  | S n', String _ s' => str_drop n' s'
  | S _, EmptyString => EmptyString
  end.

(** [s[:n]] for [n >= 0] *)
Fixpoint str_take (n : nat) (s : string) : string :=
  match n, s with
  | O, _ => EmptyString
  | S n', String c s' => String c (str_take n' s')
  | S _, EmptyString => EmptyString
  end.

(** [c in s] and [s.find(c)] for a single character. *)
Fixpoint find_char (c : ascii) (s : string) : option nat :=
  match s with
  | EmptyString => None
  | String x s' => if ascii_eqb x c then Some O else S <$> find_char c s'
  end.
Definition has_char (c : ascii) (s : string) : bool :=
  match find_char c s with Some _ => true | None => false end.

(** ** Stripping *)
Fixpoint lstrip_if (p : ascii → bool) (s : string) : string :=
  match s with
  | EmptyString => EmptyString
  | String c s' => if p c then lstrip_if p s' else s
  end.
(** [s.lstrip(chars)] *)
Definition lstrip_chars (chars s : string) : string :=
  lstrip_if (λ c, has_char c chars) s.
Definition rstrip_if (p : ascii → bool) (s : string) : string :=
  str_rev (lstrip_if p (str_rev s)).
(** [s.strip()] *)
Definition strip (s : string) : string := rstrip_if is_space (lstrip_if is_space s).

(** ** Splitting and joining *)
Fixpoint split_on (c : ascii) (s : string) : list string :=
  match s with
  | EmptyString => [EmptyString]
  | String x s' =>
      if ascii_eqb x c then EmptyString :: split_on c s'
      else match split_on c s' with
           | [] => [String x EmptyString]
           | w :: ws => String x w :: ws
           end
  end.

(** [s.split()]: split at runs of white space, no empty words. *)
Fixpoint words_aux (s cur : string) : list string :=
  match s with
  | EmptyString => if String.eqb cur "" then [] else [str_rev cur]
  | String c s' =>
      if is_space c then
        (if String.eqb cur "" then words_aux s' "" else str_rev cur :: words_aux s' "")
      else words_aux s' (String c cur)
  end.
Definition words (s : string) : list string := words_aux s "".

(** [s.split(sep)] for a non-empty separator of any length; [skip] characters
    of a separator already found are still to be dropped. *)
Fixpoint split_sub_aux (sep : string) (skip : nat) (s cur : string) : list string :=
  match s with
  | EmptyString => [str_rev cur]
  | String c s' =>
      match skip with
      | S k => split_sub_aux sep k s' cur
      | O => if startswith sep s
             then str_rev cur :: split_sub_aux sep (pred (String.length sep)) s' ""
             else split_sub_aux sep O s' (String c cur)
      end
  end.
Definition split_sub (sep s : string) : list string := split_sub_aux sep O s "".

(** [sep.join(l)] *)
Fixpoint str_join (sep : string) (l : list string) : string :=
  match l with
  | [] => EmptyString
  | [x] => x
  | x :: l' => x +:+ sep +:+ str_join sep l'
  end.

(** [s.replace(a, b)] for a single character [a] *)
Definition str_replace (a : ascii) (b s : string) : string := str_join b (split_on a s).

Definition newline : ascii := "010"%char.

(** Iterating over a text file: lines keep their newline; the last line is
    absent when the file ends in one. *)
Fixpoint readlines_aux (s cur : string) : list string :=
  match s with
  | EmptyString => if String.eqb cur "" then [] else [str_rev cur]
  | String c s' =>
      if ascii_eqb c newline then str_rev (String c cur) :: readlines_aux s' ""
      else readlines_aux s' (String c cur)
  end.
Definition readlines (s : string) : list string := readlines_aux s "".

(** [s.splitlines()] for text whose only line separator is the newline. *)
Fixpoint splitlines_aux (s cur : string) : list string :=
  match s with
  | EmptyString => if String.eqb cur "" then [] else [str_rev cur]
  | String c s' =>
      if ascii_eqb c newline then str_rev cur :: splitlines_aux s' ""
      else splitlines_aux s' (String c cur)
  end.
Definition splitlines (s : string) : list string := splitlines_aux s "".

(** ** Integers and strings *)

(** The digits of [int(s, base)]; a single underscore may separate digits.
    [us] says that no underscore may come next. *)
Fixpoint int_digits (base : Z) (us : bool) (acc : Z) (s : string) : option Z :=
  match s with
  | EmptyString => if us then None else Some acc
  | String c s' =>
      if ascii_eqb c "_" then (if us then None else int_digits base true acc s')
      else match digit_val c with
           | Some d => if d <? base then int_digits base false (acc * base + d) s' else None
           | None => None
           end
  end.

(** Optional prefix [0x] of base 16, after which one underscore is allowed. *)
Definition int_unsigned (base : Z) (s : string) : option Z :=
  if base =? 16 then
    match s with
    | String "0" (String x s') =>
        if ascii_eqb x "x" || ascii_eqb x "X" then
          match s' with
          | String "_" s'' => int_digits base true 0 s''
          | _ => int_digits base true 0 s'
          end
        else int_digits base true 0 s
    | _ => int_digits base true 0 s
    end
  else int_digits base true 0 s.

Definition py_int_base (base : Z) (s : string) : result Z :=
  or_raise ValueError
    match strip s with
    | String c s' =>
        if ascii_eqb c "-" then Z.opp <$> int_unsigned base s'
        else if ascii_eqb c "+" then int_unsigned base s'
        else int_unsigned base (String c s')
    | EmptyString => None
    end.

(** [int(s)] and [int(s, 16)] *)
Definition py_int (s : string) : result Z := py_int_base 10 s.
Definition py_int16 (s : string) : result Z := py_int_base 16 s.

Fixpoint digits_fuel (base : Z) (fuel : nat) (n : Z) (acc : string) : string :=
  let acc' := String (digit_char (n mod base)) acc in
  if n <? base then acc'
  else match fuel with
       | O => acc'
       | S f => digits_fuel base f (n / base) acc'
       end.

(** A number below [2^k] has at most [k] digits in any base, hence the fuel. *)
Definition digits (base n : Z) : string := digits_fuel base (Z.to_nat (Z.log2 n)) n "".

Definition format_base (base n : Z) : string :=
  if n <? 0 then String "-" (digits base (- n)) else digits base n.
(** [str(n)] and [format(n, 'b')] of an integer *)
Definition str_of_Z (n : Z) : string := format_base 10 n.
Definition format_b (n : Z) : string := format_base 2 n.

(** ** Lemmas *)
(** [str.upper] on ASCII characters. *)
Definition upper_char (c : ascii) : ascii :=
  let n := nat_of_ascii c in
  if Nat.leb 97 n && Nat.leb n 122 then ascii_of_nat (n - 32) else c.
Fixpoint str_upper (s : string) : string :=
  match s with EmptyString => EmptyString | String c s' => String (upper_char c) (str_upper s') end.

Fixpoint str_forallb (p : ascii → bool) (s : string) : bool :=
  match s with
  | EmptyString => true
  | String c s' => p c && str_forallb p s'
  end.

Lemma ascii_eqb_eq a b : ascii_eqb a b = true ↔ a = b.
Proof. apply Ascii.eqb_eq. Qed.

Lemma ascii_eqb_refl a : ascii_eqb a a = true.
Proof. by apply ascii_eqb_eq. Qed.

Lemma ascii_eqb_neq a b : ascii_eqb a b = false ↔ a ≠ b.
Proof. apply Ascii.eqb_neq. Qed.

Lemma str_app_nil_r s : s +:+ "" = s.
Proof. induction s as [|c s IH]; simpl; [done|by rewrite IH]. Qed.

Lemma str_app_assoc s1 s2 s3 : (s1 +:+ s2) +:+ s3 = s1 +:+ (s2 +:+ s3).
Proof. induction s1 as [|c s IH]; simpl; [done|by rewrite IH]. Qed.

Lemma str_rev_app_spec s acc : str_rev_app s acc = str_rev s +:+ acc.
Proof.
  unfold str_rev. revert acc. induction s as [|c s IH]; simpl; intros acc; [done|].
  rewrite IH, (IH (String c "")), str_app_assoc. done.
Qed.

Lemma str_rev_cons c s : str_rev (String c s) = str_rev s +:+ String c "".
Proof. apply (str_rev_app_spec s). Qed.

Lemma str_rev_append s1 s2 : str_rev (s1 +:+ s2) = str_rev s2 +:+ str_rev s1.
Proof.
  induction s1 as [|c s1 IH]; simpl; [by rewrite str_app_nil_r|].
  by rewrite !str_rev_cons, IH, str_app_assoc.
Qed.

Lemma str_rev_involutive s : str_rev (str_rev s) = s.
Proof.
  induction s as [|c s IH]; [done|].
  rewrite str_rev_cons, str_rev_append. simpl. by rewrite IH.
Qed.

Lemma str_forallb_app p s1 s2 :
  str_forallb p (s1 +:+ s2) = str_forallb p s1 && str_forallb p s2.
Proof. induction s1 as [|c s1 IH]; simpl; [done|]. by rewrite IH, andb_assoc. Qed.

Lemma str_forallb_rev p s : str_forallb p (str_rev s) = str_forallb p s.
Proof.
  induction s as [|c s IH]; [done|].
  rewrite str_rev_cons, str_forallb_app. simpl. rewrite IH, andb_true_r. apply andb_comm.
Qed.

Lemma str_forallb_impl (p q : ascii → bool) s :
  (∀ c, p c = true → q c = true) → str_forallb p s = true → str_forallb q s = true.
Proof.
  intros Hpq. induction s as [|c s IH]; simpl; [done|].
  rewrite !andb_true_iff. naive_solver.
Qed.

Lemma lstrip_if_none p s : str_forallb (λ c, negb (p c)) s = true → lstrip_if p s = s.
Proof.
  destruct s as [|c s]; simpl; [done|].
  rewrite andb_true_iff, negb_true_iff. intros [-> _]. done.
Qed.

Lemma strip_none s : str_forallb (λ c, negb (is_space c)) s = true → strip s = s.
Proof.
  intros Hs. unfold strip, rstrip_if. rewrite (lstrip_if_none _ s) by done.
  rewrite lstrip_if_none by (by rewrite str_forallb_rev). apply str_rev_involutive.
Qed.

(** *** Prefixes *)
Lemma startswith_spec p s : startswith p s = true ↔ ∃ r, s = p +:+ r.
Proof.
  revert s. induction p as [|a p IH]; intros s; simpl.
  - split; [by exists s|done].
  - destruct s as [|b s]; simpl; [split; [done|by intros []]|].
    rewrite andb_true_iff, ascii_eqb_eq, IH. split.
    + intros [-> [r ->]]. by exists r.
    + intros [r [= -> ->]]. split; [done|by exists r].
Qed.

Lemma startswith_app p s : startswith p (p +:+ s) = true.
Proof. apply startswith_spec. by exists s. Qed.

(** *** [split] and [str_join] *)
Definition no_char (c : ascii) (s : string) : bool := str_forallb (λ x, negb (ascii_eqb x c)) s.

Lemma split_on_not_nil c s : split_on c s ≠ [].
Proof.
  induction s as [|x s IH]; simpl; [done|].
  destruct (ascii_eqb x c); [done|]. by destruct (split_on c s).
Qed.

Lemma split_on_no_char c s : no_char c s = true → split_on c s = [s].
Proof.
  unfold no_char. induction s as [|x s IH]; simpl; [done|].
  rewrite andb_true_iff, negb_true_iff. intros [-> Hs]. by rewrite IH.
Qed.

Lemma split_on_app_sep c w s :
  no_char c w = true → split_on c (w +:+ String c s) = w :: split_on c s.
Proof.
  unfold no_char. induction w as [|x w IH]; simpl.
  - by rewrite ascii_eqb_refl.
  - rewrite andb_true_iff, negb_true_iff. intros [-> Hw]. by rewrite IH.
Qed.

Lemma split_join c ws :
  ws ≠ [] → Forall (λ w, no_char c w = true) ws →
  split_on c (str_join (String c "") ws) = ws.
Proof.
  intros Hne Hall. induction Hall as [|w ws Hw Hall IH]; [done|].
  destruct ws as [|w' ws].
  - by apply split_on_no_char.
  - change (str_join (String c "") (w :: w' :: ws))
      with (w +:+ String c (str_join (String c "") (w' :: ws))).
    rewrite split_on_app_sep by done. by rewrite IH.
Qed.

Lemma join_split c s : str_join (String c "") (split_on c s) = s.
Proof.
  induction s as [|x s IH]; simpl; [done|].
  destruct (ascii_eqb x c) eqn:E.
  - apply ascii_eqb_eq in E as ->.
    destruct (split_on c s) eqn:Es; [by apply split_on_not_nil in Es|].
    simpl in *. by rewrite IH.
  - destruct (split_on c s) as [|w [|w' ws]] eqn:Es;
      [by apply split_on_not_nil in Es| |]; simpl in *; by rewrite IH.
Qed.

Lemma split_on_words_no_char c s : Forall (λ w, no_char c w = true) (split_on c s).
Proof.
  induction s as [|x s IH]; simpl; [by repeat constructor|].
  destruct (ascii_eqb x c) eqn:E; [by constructor|].
  destruct (split_on c s) as [|w ws]; [|inversion IH; subst];
    repeat constructor; unfold no_char in *; simpl; by rewrite ?E.
Qed.

(** *** Digits *)
Lemma digit_val_char d : 0 ≤ d < 36 → digit_val (digit_char d) = Some d.
Proof.
  intros Hd. assert (d = 0 ∨ d = 1 ∨ d = 2 ∨ d = 3 ∨ d = 4 ∨ d = 5 ∨ d = 6 ∨ d = 7 ∨ d = 8 ∨
    d = 9 ∨ d = 10 ∨ d = 11 ∨ d = 12 ∨ d = 13 ∨ d = 14 ∨ d = 15 ∨ d = 16 ∨ d = 17 ∨ d = 18 ∨
    d = 19 ∨ d = 20 ∨ d = 21 ∨ d = 22 ∨ d = 23 ∨ d = 24 ∨ d = 25 ∨ d = 26 ∨ d = 27 ∨ d = 28 ∨
    d = 29 ∨ d = 30 ∨ d = 31 ∨ d = 32 ∨ d = 33 ∨ d = 34 ∨ d = 35) as Hc by lia.
  repeat (destruct Hc as [->|Hc]; [reflexivity|]). by subst.
Qed.

(** [c.isdecimal()] of an ASCII character, and [s.isdecimal()] *)
Definition is_decimal_char (c : ascii) : bool :=
  match digit_val c with Some d => d <? 10 | None => false end.
Definition is_decimal (s : string) : bool := negb (String.eqb s "") && str_forallb is_decimal_char s.

(** Characters that a number in a base up to 16 is written with. *)
Definition is_digit_char (c : ascii) : bool :=
  match digit_val c with Some d => d <? 16 | None => false end.

Lemma is_digit_char_plain c :
  is_digit_char c = true →
  is_space c = false ∧ ascii_eqb c "_" = false ∧ ascii_eqb c "-" = false ∧
  ascii_eqb c "+" = false ∧ ascii_eqb c "," = false ∧ ascii_eqb c "=" = false ∧
  ascii_eqb c ";" = false ∧ ascii_eqb c ":" = false.
Proof.
  destruct c as [b0 b1 b2 b3 b4 b5 b6 b7].
  destruct b0, b1, b2, b3, b4, b5, b6, b7; by intros H; try discriminate H.
Qed.

Lemma is_digit_char_digit d : 0 ≤ d < 16 → is_digit_char (digit_char d) = true.
Proof.
  intros Hd. unfold is_digit_char. rewrite digit_val_char by lia. apply Z.ltb_lt. lia.
Qed.

Lemma digits_fuel_spec base us fuel n s :
  2 ≤ base ≤ 16 → 0 ≤ n < 2 ^ (Z.of_nat fuel + 1) →
  int_digits base us 0 (digits_fuel base fuel n s) = int_digits base false n s.
Proof.
  intros Hb. revert us n s. induction fuel as [|fuel IH]; intros us n s Hn; simpl.
  all: pose proof (Z.mod_pos_bound n base) as Hmod.
  all: pose proof (is_digit_char_plain _ (is_digit_char_digit (n mod base) ltac:(lia)))
         as (_ & Hus & _).
  all: destruct (n <? base) eqn:Hlt.
  all: try (apply Z.ltb_lt in Hlt; simpl; rewrite Hus, digit_val_char by lia;
            rewrite Z.mod_small by lia;
            rewrite (proj2 (Z.ltb_lt n base)) by lia; done).
  - apply Z.ltb_ge in Hlt. simpl in Hn. lia.
  - apply Z.ltb_ge in Hlt.
    rewrite IH.
    + simpl. rewrite Hus, digit_val_char by lia.
      rewrite (proj2 (Z.ltb_lt _ base)) by lia.
      f_equal. rewrite (Z.div_mod n base) at 3 by lia. lia.
    + split; [apply Z.div_pos; lia|].
      apply Z.div_lt_upper_bound; [lia|].
      replace (Z.of_nat (S fuel) + 1) with (Z.succ (Z.of_nat fuel + 1)) in Hn by lia.
      rewrite Z.pow_succ_r in Hn by lia. nia.
Qed.

Lemma int_digits_digits base us n :
  2 ≤ base ≤ 16 → 0 ≤ n → int_digits base us 0 (digits base n) = Some n.
Proof.
  intros Hb Hn. unfold digits. rewrite digits_fuel_spec; [done|lia|].
  split; [lia|]. rewrite Z2Nat.id by apply Z.log2_nonneg.
  destruct (decide (n = 0)) as [->|]; [done|].
  rewrite Z.add_1_r. apply Z.log2_spec. lia.
Qed.

Lemma digits_fuel_all base fuel n s :
  2 ≤ base ≤ 16 → 0 ≤ n → str_forallb is_digit_char s = true →
  str_forallb is_digit_char (digits_fuel base fuel n s) = true.
Proof.
  intros Hb. revert n s. induction fuel as [|fuel IH]; intros n s Hn Hs; simpl;
    pose proof (Z.mod_pos_bound n base);
    assert (str_forallb is_digit_char (String (digit_char (n mod base)) s) = true)
      by (simpl; rewrite is_digit_char_digit by lia; done);
    destruct (n <? base); try done.
  apply IH; [|done]. apply Z.div_pos; lia.
Qed.

Lemma digits_all base n :
  2 ≤ base ≤ 16 → 0 ≤ n → str_forallb is_digit_char (digits base n) = true.
Proof. intros. by apply digits_fuel_all. Qed.

Lemma digits_fuel_not_nil base fuel n s : digits_fuel base fuel n s ≠ "".
Proof.
  revert n s. induction fuel as [|fuel IH]; intros n s; simpl; by destruct (n <? base).
Qed.

Lemma str_forallb_digit_no_char c n :
  0 ≤ n → is_digit_char c = false → no_char c (digits 10 n) = true.
Proof.
  intros Hn Hc. eapply str_forallb_impl; [|apply (digits_all 10 n); lia].
  intros x Hx. simpl. apply negb_true_iff, ascii_eqb_neq. congruence.
Qed.

Lemma py_int_str_of_Z n : 0 ≤ n → py_int (str_of_Z n) = Ok n.
Proof.
  intros Hn. unfold py_int, py_int_base, str_of_Z, format_base.
  rewrite (proj2 (Z.ltb_ge n 0)) by lia.
  pose proof (digits_all 10 n ltac:(lia) Hn) as Hall.
  rewrite strip_none.
  - destruct (digits 10 n) as [|c s] eqn:E; [by apply digits_fuel_not_nil in E|].
    simpl in Hall. apply andb_true_iff in Hall as [Hc _].
    apply is_digit_char_plain in Hc as (_ & _ & -> & -> & _).
    rewrite <-E. unfold int_unsigned. simpl. by rewrite int_digits_digits.
  - eapply str_forallb_impl; [|exact Hall].
    intros c Hc. apply is_digit_char_plain in Hc as (-> & _). done.
Qed.


Lemma digits_fuel_acc base fuel n s :
  digits_fuel base fuel n s = digits_fuel base fuel n "" +:+ s.
Proof.
  revert n s. induction fuel as [|fuel IH]; intros n s; simpl; destruct (n <? base); try done.
  rewrite IH, (IH _ (String _ "")), str_app_assoc. done.
Qed.

(** The binary digits of a number end with its parity. *)
Lemma digits2_step m b : 0 < m → b = 0 ∨ b = 1 →
  digits 2 (2 * m + b) = digits 2 m +:+ String (digit_char b) "".
Proof.
  intros Hm Hb. unfold digits.
  assert (Hlog : Z.to_nat (Z.log2 (2 * m + b)) = S (Z.to_nat (Z.log2 m))).
  { destruct Hb as [-> | ->].
    - rewrite Z.add_0_r, Z.log2_double by lia. pose proof (Z.log2_nonneg m). lia.
    - rewrite Z.log2_succ_double by lia. pose proof (Z.log2_nonneg m). lia. }
  rewrite Hlog. cbn [digits_fuel].
  assert ((2 * m + b) mod 2 = b) as -> by (symmetry; apply (Z.mod_unique_pos _ _ m); lia).
  assert ((2 * m + b) / 2 = m) as -> by (symmetry; apply (Z.div_unique_pos _ _ _ b); lia).
  rewrite (proj2 (Z.ltb_ge (2 * m + b) 2)) by lia. by rewrite digits_fuel_acc.
Qed.

Lemma list_ascii_app s1 s2 :
  String.list_ascii_of_string (s1 +:+ s2) =
  (String.list_ascii_of_string s1 ++ String.list_ascii_of_string s2)%list.
Proof. induction s1 as [|c s1 IH]; simpl; [done|]. f_equal. exact IH. Qed.
