(* ===== verification/PyDict.v ===== *)
(** * Python dictionaries

    A [dict] iterates over its keys in insertion order, and updating a key
    keeps its place: an association list with distinct keys.  Where the code
    only looks up and never iterates, the models use [gmap] instead. *)
From Stdlib Require Export Sorted.
From S2P Require Export Prelude.

Section dict.
  Context {K : Type} `{EqDecision K}.

Definition dict (V : Type) : Type := list (K * V).

  Section ops.
  Context {V : Type}.
  Implicit Types (d : dict V) (k : K) (v : V).

  (** [d.get(k)] *)
Fixpoint dget d k : option V :=
    match d with
    | [] => None
    | (k', v) :: d' => if decide (k = k') then Some v else dget d' k
    end.

  (** [d[k]], which raises [KeyError] *)
Definition dgetitem d k : result V := or_raise KeyError (dget d k).

  (** [k in d] *)
Definition dmem d k : bool := match dget d k with Some _ => true | None => false end.

  (** [d[k] = v] *)
Fixpoint dset d k v : dict V :=
    match d with
    | [] => [(k, v)]
    | (k', v') :: d' => if decide (k = k') then (k', v) :: d' else (k', v') :: dset d' k v
    end.

  (** [del d[k]] for a present key *)
Fixpoint ddel d k : dict V :=
    match d with
    | [] => []
    | (k', v') :: d' => if decide (k = k') then d' else (k', v') :: ddel d' k
    end.

Definition dkeys d : list K := fst <$> d.
Definition dvalues d : list V := snd <$> d.

  (** [dict(pairs)] and dictionary displays and comprehensions *)
Definition dict_of (l : list (K * V)) : dict V :=
    foldl (λ d kv, dset d kv.1 kv.2) [] l.

  (** [d.update(d2)] and [{**d, **d2}] *)
Definition dupdate d d2 : dict V := foldl (λ d kv, dset d kv.1 kv.2) d d2.

  (** The invariant of a dictionary: distinct keys. *)
Definition dict_wf d : Prop := NoDup (dkeys d).

  (** ** Lookup laws *)
Lemma dget_dset_eq d k v : dget (dset d k v) k = Some v.
  Proof.
    induction d as [|[k' v'] d IH]; simpl; [by rewrite decide_True|].
    destruct (decide (k = k')); simpl; [by rewrite decide_True|by rewrite decide_False].
  Qed.

Lemma dget_dset_ne d k k' v : k ≠ k' → dget (dset d k v) k' = dget d k'.
  Proof.
    intros Hne. induction d as [|[k0 v0] d IH]; simpl.
    - by rewrite decide_False.
    - destruct (decide (k = k0)) as [->|]; simpl.
      + by rewrite !decide_False.
      + by rewrite IH.
  Qed.

Lemma dget_dset d k k' v :
    dget (dset d k v) k' = if decide (k = k') then Some v else dget d k'.
  Proof. case_decide; subst; [apply dget_dset_eq|by apply dget_dset_ne]. Qed.

Lemma dget_Some_in d k v : dget d k = Some v → (k, v) ∈ d.
  Proof.
    induction d as [|[k' v'] d IH]; simpl; [done|].
    case_decide; [intros [= ->]; subst|]; set_solver.
  Qed.

Lemma dget_None d k : dget d k = None ↔ k ∉ dkeys d.
  Proof.
    induction d as [|[k' v'] d IH]; simpl; [set_solver|].
    unfold dkeys in *. simpl. rewrite not_elem_of_cons.
    case_decide; naive_solver.
  Qed.

Lemma dget_is_Some d k : is_Some (dget d k) ↔ k ∈ dkeys d.
  Proof.
    destruct (dget d k) as [v|] eqn:E.
    - split; [intros _|by eexists]. apply dget_Some_in in E.
      apply list_elem_of_fmap. by exists (k, v).
    - split; [by intros []|]. by apply dget_None in E.
  Qed.

Lemma dmem_true d k : dmem d k = true ↔ k ∈ dkeys d.
  Proof.
    rewrite <-dget_is_Some. unfold dmem, is_Some. destruct (dget d k); naive_solver.
  Qed.

Lemma dget_in d k v : dict_wf d → (k, v) ∈ d → dget d k = Some v.
  Proof.
    unfold dict_wf, dkeys. induction d as [|[k' v'] d IH]; simpl; [set_solver|].
    rewrite NoDup_cons, elem_of_cons. intros [Hni Hnd] [[= -> ->]|Hin].
    - by rewrite decide_True.
    - rewrite decide_False; [auto|]. intros ->. apply Hni.
      apply list_elem_of_fmap. by exists (k', v).
  Qed.

Lemma dkeys_dset d k v :
    dkeys (dset d k v) = if decide (k ∈ dkeys d) then dkeys d else dkeys d ++ [k].
  Proof.
    induction d as [|[k' v'] d IH].
    - rewrite decide_False; [done|]. unfold dkeys. set_solver.
    - change (dkeys ((k', v') :: d)) with (k' :: dkeys d).
      cbn [dset]. destruct (decide (k = k')) as [->|Hne].
      + rewrite decide_True; [done|set_solver].
      + change (dkeys ((k', v') :: dset d k v)) with (k' :: dkeys (dset d k v)).
        rewrite IH. do 2 case_decide; try done; set_solver.
  Qed.

Lemma dkeys_dset_elem d k v k' : k' ∈ dkeys (dset d k v) ↔ k' = k ∨ k' ∈ dkeys d.
  Proof. rewrite dkeys_dset. case_decide; set_solver. Qed.

Lemma dset_wf d k v : dict_wf d → dict_wf (dset d k v).
  Proof.
    unfold dict_wf. rewrite dkeys_dset. case_decide; [done|].
    intros. apply NoDup_app. split; [done|]. split; [set_solver|]. apply NoDup_singleton.
  Qed.

Lemma dset_fresh d k v : k ∉ dkeys d → dset d k v = d ++ [(k, v)].
  Proof.
    unfold dkeys. induction d as [|[k' v'] d IH]; simpl; [done|].
    rewrite not_elem_of_cons. intros [Hne Hni]. rewrite decide_False by done.
    by rewrite IH.
  Qed.

Lemma elem_of_dset d k v k' v' : (k', v') ∈ dset d k v → (k' = k ∧ v' = v) ∨ (k', v') ∈ d.
  Proof.
    induction d as [|[k0 v0] d IH]; simpl; [set_solver|].
    case_decide; subst; rewrite !elem_of_cons; naive_solver.
  Qed.

Lemma elem_of_ddel d k kv : kv ∈ ddel d k → kv ∈ d.
  Proof.
    induction d as [|[k' v'] d IH]; simpl; [done|].
    case_decide; rewrite ?elem_of_cons; naive_solver.
  Qed.

Lemma ddel_wf d k : dict_wf d → dict_wf (ddel d k).
  Proof.
    unfold dict_wf, dkeys. induction d as [|[k' v'] d IH]; simpl; [done|].
    rewrite NoDup_cons. intros [Hni Hnd]. case_decide; [done|]. simpl.
    apply NoDup_cons. split; [|by apply IH]. intros (kv & -> & Hin)%list_elem_of_fmap.
    apply Hni, list_elem_of_fmap. exists kv. split; [done|]. by eapply elem_of_ddel.
  Qed.

Lemma dget_ddel_eq d k : dict_wf d → dget (ddel d k) k = None.
  Proof.
    unfold dict_wf, dkeys. induction d as [|[k' v'] d IH]; simpl; [done|].
    rewrite NoDup_cons. intros [Hni Hnd]. case_decide; subst; simpl.
    - by apply dget_None.
    - rewrite decide_False by done. auto.
  Qed.

Lemma dget_ddel_ne d k k' : k ≠ k' → dget (ddel d k) k' = dget d k'.
  Proof.
    intros Hne. induction d as [|[k0 v0] d IH]; simpl; [done|].
    destruct (decide (k = k0)) as [->|]; simpl.
    - by rewrite decide_False.
    - by rewrite IH.
  Qed.

  (** ** Bulk operations *)
Lemma dupdate_wf d d2 : dict_wf d → dict_wf (dupdate d d2).
  Proof.
    unfold dupdate. revert d. induction d2 as [|[k v] d2 IH]; simpl; intros d Hd; [done|].
    by apply IH, dset_wf.
  Qed.

Lemma dict_of_wf l : dict_wf (dict_of l).
  Proof. apply dupdate_wf. unfold dict_wf, dkeys. simpl. constructor. Qed.

Lemma dupdate_fresh_aux d l : dict_wf (d ++ l) → dupdate d l = d ++ l.
  Proof.
    unfold dict_wf, dkeys, dupdate. revert d.
    induction l as [|[k v] l IH]; simpl; intros d Hd; [by rewrite app_nil_r|].
    rewrite dset_fresh.
    - rewrite IH; rewrite <-app_assoc; done.
    - unfold dkeys. rewrite fmap_app in Hd. apply NoDup_app in Hd as (_ & Hd & _).
      intros Hk. apply (Hd _ Hk). simpl. set_solver.
  Qed.

  (** Building a dictionary from pairs with distinct keys keeps them all, in order. *)
Lemma dict_of_NoDup l : dict_wf l → dict_of l = l.
  Proof. apply (dupdate_fresh_aux []). Qed.

Lemma dget_dupdate d d2 k :
    dict_wf d2 →
    dget (dupdate d d2) k = match dget d2 k with Some v => Some v | None => dget d k end.
  Proof.
    unfold dict_wf, dkeys, dupdate. revert d.
    induction d2 as [|[k' v'] d2 IH]; simpl; intros d; [done|].
    rewrite NoDup_cons. intros [Hni Hnd]. rewrite IH by done.
    case_decide as Heq; subst.
    - assert (dget d2 k' = None) as -> by (by apply dget_None). apply dget_dset_eq.
    - destruct (dget d2 k); [done|]. by apply dget_dset_ne.
  Qed.
  End ops.

  (** [{k: f(v) for k, v in d.items()}] keeps keys and order. *)
Definition dmap {V W} (f : V → W) (d : dict V) : dict W := prod_map id f <$> d.

Lemma dkeys_dmap {V W} (f : V → W) d : dkeys (dmap f d) = dkeys d.
  Proof.
    unfold dkeys, dmap. induction d as [|[k v] d IH]; simpl; [done|]. f_equal. exact IH.
  Qed.

Lemma dget_dmap {V W} (f : V → W) d k : dget (dmap f d) k = f <$> dget d k.
  Proof.
    unfold dmap. induction d as [|[k' v] d IH]; simpl; [done|]. case_decide; done.
  Qed.
End dict.

Arguments dict _ _ : clear implicits.
#[export] Hint Resolve dset_wf ddel_wf dupdate_wf dict_of_wf dget_dset_eq : wca.
#[export] Hint Rewrite @dget_dset_eq @dkeys_dmap @dget_dmap : wca.

(** [collections.Counter] and [defaultdict(int)]: a missing key reads as 0. *)
Definition dget0 {K} `{EqDecision K} (d : dict K Z) (k : K) : Z := default 0 (dget d k).

(** [set(xs)] keeps one copy of each element; the order in which Python then
    iterates over the set is unspecified, and the models below do not use it. *)
Definition py_set {A} `{EqDecision A} (l : list A) : list A := remove_dups l.

(** [sorted(l, key=...)] is stable: insertion into a sorted list, after equals. *)
Section sort.
  Context {A : Type} (ltb : A → A → bool).
Fixpoint insert_sorted (x : A) (l : list A) : list A :=
    match l with
    | [] => [x]
    | y :: l' => if ltb x y then x :: l else y :: insert_sorted x l'
    end.
  (** elements are inserted from left to right, each after the ones equal to it *)
Definition py_sorted (l : list A) : list A := foldl (λ acc x, insert_sorted x acc) [] l.

Lemma insert_sorted_Permutation x l : insert_sorted x l ≡ₚ x :: l.
  Proof.
    induction l as [|y l IH]; simpl; [done|]. destruct (ltb x y); [done|].
    rewrite IH. apply Permutation_swap.
  Qed.

Lemma py_sorted_Permutation l : py_sorted l ≡ₚ l.
  Proof.
    unfold py_sorted. rewrite <-(app_nil_l l) at 2. generalize (@nil A).
    induction l as [|x l IH]; simpl; intros acc; [by rewrite app_nil_r|].
    rewrite IH, insert_sorted_Permutation. simpl. by rewrite Permutation_middle.
  Qed.

Lemma py_sorted_elem l x : x ∈ py_sorted l ↔ x ∈ l.
  Proof. by rewrite py_sorted_Permutation. Qed.
End sort.

(** Sorting by a key gives a list in the order of the keys, when the keys of the
    elements at hand ([P]) are in total order. *)
Section sort_key.
  Context {A : Type} (ltb : A → A → bool) (le : A → A → Prop) (P : A → Prop).
  Context (Htrans : ∀ x y z, P x → P y → P z → le x y → le y z → le x z).
  Context (Hlt : ∀ x y, P x → P y → ltb x y = true → le x y).
  Context (Hge : ∀ x y, P x → P y → ltb x y = false → le y x).

Lemma insert_sorted_sorted_on x l :
  P x → Forall P l → StronglySorted le l → StronglySorted le (insert_sorted ltb x l).
Proof.
  intros Hx. induction l as [|y l IH]; intros HP Hl; simpl; [by repeat constructor|].
  apply Forall_cons in HP as [Hy HP]. inversion Hl as [|? ? Hs Hall]; subst. destruct (ltb x y) eqn:E.
  - constructor; [done|]. constructor; [by apply Hlt|].
    rewrite Forall_forall in Hall, HP |- *. intros z Hz. apply (Htrans x y z); auto.
  - constructor; [by apply IH|]. rewrite insert_sorted_Permutation. constructor; [by apply Hge|done].
Qed.

Lemma py_sorted_sorted_on l : Forall P l → StronglySorted le (py_sorted ltb l).
Proof.
  unfold py_sorted. assert (Hgen : ∀ acc, Forall P acc → Forall P l → StronglySorted le acc →
    StronglySorted le (foldl (λ acc x, insert_sorted ltb x acc) acc l)).
  { induction l as [|x l IH]; simpl; intros acc Ha HP Hacc; [done|].
    apply Forall_cons in HP as [Hx HP].
    apply IH; [rewrite insert_sorted_Permutation; by constructor|done|by apply insert_sorted_sorted_on]. }
  intros HP. by apply Hgen; [constructor| |constructor].
Qed.
End sort_key.

Lemma py_sorted_sorted {A} (ltb : A → A → bool) (le : A → A → Prop) l :
  (∀ x y z, le x y → le y z → le x z) → (∀ x y, ltb x y = true → le x y) →
  (∀ x y, ltb x y = false → le y x) → StronglySorted le (py_sorted ltb l).
Proof.
  intros Ht Hlt Hge. apply (py_sorted_sorted_on ltb le (λ _, True)); eauto.
  by apply Forall_true.
Qed.

(** Two sorted lists with the same elements are equal when the order is
    antisymmetric: the result of [sorted] does not depend on the input order. *)
Lemma py_sorted_Z_sorted l : StronglySorted Z.le (py_sorted Z.ltb l).
Proof.
  apply py_sorted_sorted; intros x y.
  - intros; lia.
  - intros ?%Z.ltb_lt; lia.
  - intros ?%Z.ltb_ge; lia.
Qed.

(** A loop [for k, v in a.items(): c[k] = h(k, v)]. *)
Lemma foldM_dset_map {K V W} `{EqDecision K} (h : K → V → result W) (g : K → W)
    (c0 : dict K W) (a : dict K V) :
  dict_wf a → dict_wf c0 → (∀ k v, (k, v) ∈ a → h k v = Ok (g k)) →
  ∃ c, foldM (λ c '(k, v), y ← h k v; Ok (dset c k y)) c0 a = Ok c ∧ dict_wf c ∧
       ∀ k, dget c k = if decide (k ∈ dkeys a) then Some (g k) else dget c0 k.
Proof.
  revert c0. induction a as [|[k v] a IH]; intros c0 Ha Hc0 Hh.
  - exists c0. done.
  - unfold dict_wf, dkeys in Ha. rewrite fmap_cons in Ha. apply NoDup_cons in Ha as [Hk Ha].
    cbn [foldM]. rewrite (Hh k v) by set_solver. cbn [mbind result_bind].
    destruct (IH (dset c0 k (g k))) as (c & Hc & Hwf & Hget).
    + done.
    + by apply dset_wf.
    + intros k' v' Hin. apply Hh. set_solver.
    + exists c. split; [done|]. split; [done|]. intros k'. rewrite Hget.
      unfold dkeys. rewrite fmap_cons. cbn [fst].
      destruct (decide (k' ∈ a.*1)) as [Hin|Hni].
      * by rewrite decide_True by set_solver.
      * destruct (decide (k = k')) as [<-|Hne].
        -- rewrite dget_dset_eq, decide_True by set_solver. done.
        -- rewrite dget_dset_ne, decide_False by set_solver. done.
Qed.
