(* ===== verification/PyNum.v ===== *)
(** * Python numbers

    [int] is unbounded; [float] is IEEE 754 binary64, computed with the
    executable specification of the Standard Library ([SpecFloat], precision 53,
    maximal exponent 1024, rounding to nearest even).  [num] is a value the code
    annotates as "int or float": its arithmetic follows the rules of Python
    (integer arithmetic is exact, a mixed operation converts the integer, the
    division [/] of two integers is correctly rounded, comparing an integer with
    a float is exact). *)
From Stdlib Require Export ZArith Lia.
From Stdlib Require Export SpecFloat.
From S2P Require Export Prelude.
#[global] Open Scope Z_scope.

(** ** Floats *)
Abbreviation float := spec_float.

#[export] Instance float_eq_dec : EqDecision float.
Proof. solve_decision. Defined.

Definition fadd : float → float → float := SFadd 53 1024.
Definition fsub : float → float → float := SFsub 53 1024.
Definition fmul : float → float → float := SFmul 53 1024.
Definition fdiv_raw : float → float → float := SFdiv 53 1024.
Definition fsqrt : float → float := SFsqrt 53 1024.
Definition fabs : float → float := SFabs.
Definition fneg : float → float := SFopp.

Definition fzero : float := S754_zero false.
Definition finf : float := S754_infinity false.
Definition fneg_inf : float := S754_infinity true.

Definition is_zero (f : float) : bool := match f with S754_zero _ => true | _ => false end.
Definition is_inf (f : float) : bool := match f with S754_infinity _ => true | _ => false end.
Definition is_nan (f : float) : bool := match f with S754_nan => true | _ => false end.
Definition is_finite (f : float) : bool :=
  match f with S754_zero _ | S754_finite _ _ _ => true | _ => false end.

(** [x / y] on floats *)
Definition fdiv (x y : float) : result float :=
  if is_zero y then Raise ZeroDivisionError else Ok (fdiv_raw x y).

(** The float nearest to [p / q], for [q > 0]; also the value of the literal
    that denotes this decimal fraction. *)
Definition float_of_ratio (p q : Z) : float :=
  match p, q with
  | Z0, _ => fzero
  | Zpos m, Zpos n =>
      let '(mz, ez, lz) := SFdiv_core_binary 53 1024 (Zpos m) 0 (Zpos n) 0 in
      binary_round_aux 53 1024 false mz ez lz
  | Zneg m, Zpos n =>
      let '(mz, ez, lz) := SFdiv_core_binary 53 1024 (Zpos m) 0 (Zpos n) 0 in
      binary_round_aux 53 1024 true mz ez lz
  | _, _ => S754_nan
  end.

(** [float(n)] of an integer *)
Definition float_of_Z (n : Z) : result float :=
  let f := binary_normalize 53 1024 n 0 false in
  if is_inf f then Raise OverflowError else Ok f.

(** Mantissa and exponent of a finite float: its value is [m * 2^e]. *)
Definition float_me (f : float) : option (Z * Z) :=
  match f with
  | S754_zero _ => Some (0, 0)
  | S754_finite s m e => Some (cond_Zopp s (Zpos m), e)
  | _ => None
  end.

Definition shift_down (m e : Z) : Z * Z :=  (* m * 2^e as numerator, denominator *)
  if 0 <=? e then (m * 2 ^ e, 1) else (m, 2 ^ (- e)).

(** Rounding of [p / q], [q > 0], to the nearest integer, ties to even. *)
Definition round_half_even (p q : Z) : Z :=
  let d := p / q in
  let r := p mod q in
  match 2 * r ?= q with
  | Lt => d
  | Gt => d + 1
  | Eq => if Z.even d then d else d + 1
  end.

Definition float_int (conv : Z → Z → Z) (f : float) : result Z :=
  match float_me f with
  | Some (m, e) => let '(p, q) := shift_down m e in Ok (conv p q)
  | None => if is_nan f then Raise ValueError else Raise OverflowError
  end.

(** [int(f)], [math.ceil(f)], [round(f)] *)
Definition float_trunc : float → result Z := float_int Z.quot.
Definition float_ceil : float → result Z := float_int (λ p q, - ((- p) / q)).
Definition float_round : float → result Z := float_int round_half_even.

(** [round(f, n)], n >= 0: correctly rounded through the decimal fraction. *)
Definition float_round_n (n : Z) (f : float) : float :=
  match float_me f with
  | Some (m, e) =>
      let '(p, q) := shift_down m e in
      match float_of_ratio (round_half_even (p * 10 ^ n) q) (10 ^ n) with
      | S754_zero _ => match f with
                       | S754_zero s => S754_zero s
                       | S754_finite s _ _ => S754_zero s
                       | _ => fzero
                       end
      | r => r
      end
  | None => f
  end.

(** ** Comparisons *)
Definition feqb : float → float → bool := SFeqb.
Definition fltb : float → float → bool := SFltb.
Definition fleb : float → float → bool := SFleb.

(** [math.isclose(a, b, abs_tol=t)] with the default relative tolerance 1e-9 *)
Definition rel_tol : float := float_of_ratio 1 1000000000.
Definition isclose (a b abs_tol : float) : bool :=
  if feqb a b then true
  else if is_inf a || is_inf b then false
  else let diff := fabs (fsub b a) in
       fleb diff (fabs (fmul rel_tol b)) || fleb diff (fabs (fmul rel_tol a))
       || fleb diff abs_tol.

(** ** Numbers: int or float *)
Inductive num : Type :=
  | PInt (z : Z)
  | PFloat (f : float).

#[export] Instance num_eq_dec : EqDecision num.
Proof. solve_decision. Defined.

Definition to_float (x : num) : result float :=
  match x with PInt z => float_of_Z z | PFloat f => Ok f end.

Definition num_op (iop : Z → Z → Z) (fop : float → float → float) (x y : num) : result num :=
  match x, y with
  | PInt a, PInt b => Ok (PInt (iop a b))
  | _, _ => a ← to_float x; b ← to_float y; Ok (PFloat (fop a b))
  end.

Definition nadd : num → num → result num := num_op Z.add fadd.
Definition nsub : num → num → result num := num_op Z.sub fsub.
Definition nmul : num → num → result num := num_op Z.mul fmul.

(** [a / b] of two integers: the quotient is rounded once. *)
Definition int_div (a b : Z) : result float :=
  if b =? 0 then Raise ZeroDivisionError
  else let f := if 0 <? b then float_of_ratio a b
                else if a =? 0 then S754_zero true else float_of_ratio (- a) (- b) in
       if is_inf f then Raise OverflowError else Ok f.

(** [x / y] *)
Definition ndiv (x y : num) : result num :=
  match x, y with
  | PInt a, PInt b => PFloat <$> int_div a b
  | _, _ => a ← to_float x; b ← to_float y; PFloat <$> fdiv a b
  end.

(** [int(x)] and [math.ceil(x)] *)
Definition num_trunc (x : num) : result Z :=
  match x with PInt z => Ok z | PFloat f => float_trunc f end.
Definition num_ceil (x : num) : result Z :=
  match x with PInt z => Ok z | PFloat f => float_ceil f end.

Definition compare_Z_float (z : Z) (f : float) : option comparison :=
  match f with
  | S754_nan => None
  | S754_infinity s => Some (if s then Gt else Lt)
  | _ => match float_me f with
         | Some (m, e) => let '(p, q) := shift_down m e in Some (z * q ?= p)
         | None => None
         end
  end.

Definition ncompare (x y : num) : option comparison :=
  match x, y with
  | PInt a, PInt b => Some (a ?= b)
  | PInt a, PFloat g => compare_Z_float a g
  | PFloat f, PInt b => CompOpp <$> compare_Z_float b f
  | PFloat f, PFloat g => SFcompare f g
  end.

(** [x < y], [x <= y], [x == y], [x > y], [x >= y] *)
Definition nltb (x y : num) : bool := match ncompare x y with Some Lt => true | _ => false end.
Definition nleb (x y : num) : bool :=
  match ncompare x y with Some (Lt | Eq) => true | _ => false end.
Definition neqb (x y : num) : bool := match ncompare x y with Some Eq => true | _ => false end.
Definition ngtb (x y : num) : bool := nltb y x.
Definition ngeb (x y : num) : bool := nleb y x.
(** truth value of a number *)
Definition num_true (x : num) : bool := negb (neqb x (PInt 0)).
Definition num_is_nan (x : num) : bool := match x with PFloat f => is_nan f | _ => false end.

(** [sum(l)]: starts from the integer 0. *)
Definition nsum (l : list num) : result num := foldM nadd (PInt 0) l.

(** [math.isclose] on numbers *)
Definition nisclose (a b abs_tol : num) : result bool :=
  a ← to_float a; b ← to_float b; t ← to_float abs_tol; Ok (isclose a b t).

(** ** Lemmas *)
Lemma SFcompare_swap x y : SFcompare y x = CompOpp <$> SFcompare x y.
Proof.
  destruct x as [sx|sx| |sx mx ex], y as [sy|sy| |sy my ey];
    try (repeat match goal with b : bool |- _ => destruct b end; done).
  simpl. rewrite (Z.compare_antisym ex ey).
  change (Pos.compare_cont Eq my mx) with (my ?= mx)%positive.
  change (Pos.compare_cont Eq mx my) with (mx ?= my)%positive.
  rewrite (Pos.compare_antisym mx my).
  destruct sx, sy, (ex ?= ey), (mx ?= my)%positive; done.
Qed.

Lemma SFcompare_refl x : is_nan x = false → SFcompare x x = Some Eq.
Proof.
  destruct x as [s|s| |s m e]; simpl; try done; try by destruct s.
  intros _. rewrite Z.compare_refl.
  change (Pos.compare_cont Eq m m) with (m ?= m)%positive. rewrite Pos.compare_refl.
  by destruct s.
Qed.

Lemma SFcompare_nan x y : SFcompare x y = None ↔ is_nan x = true ∨ is_nan y = true.
Proof.
  destruct x as [sx|sx| |sx mx ex], y as [sy|sy| |sy my ey]; simpl; naive_solver.
Qed.

Lemma ncompare_swap x y : ncompare y x = CompOpp <$> ncompare x y.
Proof.
  destruct x as [a|f], y as [b|g]; simpl.
  - by rewrite Z.compare_antisym.
  - done.
  - destruct (compare_Z_float b f) as [[]|]; done.
  - apply SFcompare_swap.
Qed.

Lemma ncompare_refl x : num_is_nan x = false → ncompare x x = Some Eq.
Proof.
  destruct x as [a|f]; simpl; [by rewrite Z.compare_refl|apply SFcompare_refl].
Qed.

Lemma ncompare_nan x y : ncompare x y = None ↔ num_is_nan x = true ∨ num_is_nan y = true.
Proof.
  assert (Hc : ∀ z f, compare_Z_float z f = None ↔ is_nan f = true).
  { intros z [| | |s m e]; simpl; try done. by destruct (shift_down _ _). }
  destruct x as [a|f], y as [b|g]; simpl.
  - split; [done|by intros [|]].
  - rewrite Hc. naive_solver.
  - rewrite <-(Hc b f). destruct (compare_Z_float b f); naive_solver.
  - apply SFcompare_nan.
Qed.

(** Comparisons of numbers that are not NaN are total. *)
Lemma nltb_nleb x y :
  num_is_nan x = false → num_is_nan y = false → nltb x y = negb (nleb y x).
Proof.
  intros Hx Hy. unfold nltb, nleb. rewrite (ncompare_swap x y).
  destruct (ncompare x y) as [[]|] eqn:E; try done.
  apply ncompare_nan in E as [E|E]; congruence.
Qed.

Lemma nleb_refl x : num_is_nan x = false → nleb x x = true.
Proof. intros Hx. unfold nleb. by rewrite ncompare_refl. Qed.

Lemma nltb_irrefl x : nltb x x = false.
Proof.
  unfold nltb. destruct (num_is_nan x) eqn:E.
  - rewrite (proj2 (ncompare_nan x x)); auto.
  - by rewrite ncompare_refl.
Qed.

Lemma nltb_asym x y : nltb x y = true → nltb y x = false.
Proof. unfold nltb. rewrite (ncompare_swap x y). by destruct (ncompare x y) as [[]|]. Qed.

Lemma nltb_PInt a b : nltb (PInt a) (PInt b) = (a <? b).
Proof. done. Qed.
Lemma nleb_PInt a b : nleb (PInt a) (PInt b) = (a <=? b).
Proof. done. Qed.

(** A float minus itself, and its absolute difference to itself, is zero. *)
Lemma fsub_diag x : is_finite x = true → fsub x x = fzero.
Proof.
  destruct x as [s| | |s m e]; simpl; try done; [by destruct s|].
  intros _. unfold fsub, SFsub. rewrite Z.sub_diag. done.
Qed.

Lemma feqb_refl x : is_nan x = false → feqb x x = true.
Proof. intros H. unfold feqb, SFeqb. by rewrite SFcompare_refl. Qed.

Lemma feqb_sym x y : feqb x y = feqb y x.
Proof.
  unfold feqb, SFeqb. rewrite (SFcompare_swap x y). by destruct (SFcompare x y) as [[]|].
Qed.

(** Comparing floats is comparing sign, exponent and mantissa, one after the other. *)
Definition fkey (f : float) : Z * Z * Z :=
  match f with
  | S754_infinity true => (-2, 0, 0)
  | S754_finite true m e => (-1, - e, Zneg m)
  | S754_zero _ | S754_nan => (0, 0, 0)
  | S754_finite false m e => (1, e, Zpos m)
  | S754_infinity false => (2, 0, 0)
  end.
Definition key_compare (a b : Z * Z * Z) : comparison :=
  match a.1.1 ?= b.1.1 with
  | Eq => match a.1.2 ?= b.1.2 with Eq => a.2 ?= b.2 | c => c end
  | c => c
  end.

Lemma SFcompare_key x y :
  is_nan x = false → is_nan y = false → SFcompare x y = Some (key_compare (fkey x) (fkey y)).
Proof.
  destruct x as [[]|[]| |[] mx ex], y as [[]|[]| |[] my ey]; simpl; intros; try done.
  unfold key_compare. simpl. rewrite Z.compare_opp, (Z.compare_antisym ex ey).
  change (Pos.compare_cont Eq mx my) with (mx ?= my)%positive.
  by destruct (ex ?= ey), (mx ?= my)%positive.
Qed.

Definition key_le (a b : Z * Z * Z) : Prop := key_compare a b ≠ Gt.

Lemma key_le_trans a b c : key_le a b → key_le b c → key_le a c.
Proof.
  unfold key_le, key_compare. destruct a as [[a1 a2] a3], b as [[b1 b2] b3], c as [[c1 c2] c3]. simpl.
  repeat match goal with |- context [?x ?= ?y] => destruct (Z.compare_spec x y) end;
    subst; simpl; try congruence; lia.
Qed.

Definition fle (x y : float) : Prop := key_le (fkey x) (fkey y).

Lemma fltb_key x y :
  is_nan x = false → is_nan y = false →
  fltb x y = match key_compare (fkey x) (fkey y) with Lt => true | _ => false end.
Proof. intros Hx Hy. unfold fltb, SFltb. by rewrite SFcompare_key. Qed.

Lemma fltb_true_fle x y : is_nan x = false → is_nan y = false → fltb x y = true → fle x y.
Proof. intros Hx Hy. rewrite fltb_key by done. unfold fle, key_le. by destruct (key_compare _ _). Qed.

Lemma fltb_false_fle x y : is_nan x = false → is_nan y = false → fltb x y = false ↔ fle y x.
Proof.
  intros Hx Hy. rewrite fltb_key by done. unfold fle, key_le.
  assert (Hs : key_compare (fkey y) (fkey x) = CompOpp (key_compare (fkey x) (fkey y))).
  { pose proof (SFcompare_swap x y) as Hs. rewrite !SFcompare_key in Hs by done. by injection Hs. }
  rewrite Hs. by destruct (key_compare (fkey x) (fkey y)).
Qed.

(** [abs(x)] *)
Definition nabs (x : num) : num := match x with PInt z => PInt (Z.abs z) | PFloat f => PFloat (fabs f) end.
