(* ===== verification/PyFloat.v ===== *)
(** * Parsing floats

    [float(s)] of a string: the grammar of Python (blanks around, sign, digits with
    single underscores between them, fraction, exponent, [inf] and [nan]), rounded
    correctly to the nearest binary64. *)
From S2P Require Export PyStr PyNum.

(** Digits in front of [s]: their value appended to [acc], how many, and the rest. *)
Fixpoint dec_digits (after_digit : bool) (acc n : Z) (s : string) : option (Z * Z * string) :=
  match s with
  | EmptyString => Some (acc, n, s)
  | String c s' =>
      if ascii_eqb c "_" then
        match s' with
        | String d _ => if after_digit && is_decimal_char d then dec_digits false acc n s' else None
        | EmptyString => None
        end
      else match digit_val c with
           | Some d => if d <? 10 then dec_digits true (acc * 10 + d) (n + 1) s'
                       else Some (acc, n, s)
           | None => Some (acc, n, s)
           end
  end.

(** The exponent at the end of a number. *)
Definition dec_exponent (s : string) : option Z :=
  match s with
  | EmptyString => Some 0
  | String c s' =>
      if ascii_eqb c "e" || ascii_eqb c "E" then
        let '(neg, digits) :=
          match s' with
          | String x t => if ascii_eqb x "-" then (true, t)
                          else if ascii_eqb x "+" then (false, t) else (false, s')
          | EmptyString => (false, s')
          end in
        match dec_digits false 0 0 digits with
        | Some (e, n, EmptyString) => if 0 <? n then Some (if neg : bool then - e else e) else None
        | _ => None
        end
      else None
  end.

(** [m * 10^e], correctly rounded *)
Definition float_of_decimal (m e : Z) : float :=
  if 0 <=? e then float_of_ratio (m * 10 ^ e) 1 else float_of_ratio m (10 ^ (- e)).

Definition lower_char (c : ascii) : ascii :=
  let n := nat_of_ascii c in
  if Nat.leb 65 n && Nat.leb n 90 then ascii_of_nat (n + 32) else c.
Fixpoint str_lower (s : string) : string :=
  match s with EmptyString => EmptyString | String c s' => String (lower_char c) (str_lower s') end.

Definition float_unsigned (s : string) : option float :=
  let l := str_lower s in
  if String.eqb l "inf" || String.eqb l "infinity" then Some finf
  else if String.eqb l "nan" then Some S754_nan
  else
    '(m1, n1, r1) ← dec_digits false 0 0 s;
    '(m2, n2, r2) ← match r1 with
                    | String c r => if ascii_eqb c "." then dec_digits false m1 0 r
                                    else Some (m1, 0, r1)
                    | EmptyString => Some (m1, 0, r1)
                    end;
    e ← dec_exponent r2;
    if 0 <? n1 + n2 then Some (float_of_decimal m2 (e - n2)) else None.

(** [float(s)] *)
Definition py_float (s : string) : result float :=
  or_raise ValueError
    match strip s with
    | String c s' =>
        if ascii_eqb c "-" then fneg <$> float_unsigned s'
        else if ascii_eqb c "+" then float_unsigned s'
        else float_unsigned (String c s')
    | EmptyString => None
    end.

Example py_float_half : py_float " -1_0.5e-1 " = Ok (fneg (float_of_ratio 105 100)).
Proof. vm_compute. reflexivity. Qed.
Example py_float_bad : py_float "1__0" = Raise ValueError ∧ py_float "." = Raise ValueError.
Proof. split; reflexivity. Qed.
