(* ===== verification/PyStats.v ===== *)
(** * statistics.stdev and the format "%.0f"

    The standard deviation as CPython 3.6 computes it, the version the agent is
    packaged with: sums are exact fractions, every single deviation and the mean are
    binary64, and the result is the root of the correctly rounded variance. *)
From S2P Require Export PyStr PyNum.

Definition StatisticsError : exn := OtherException "StatisticsError".

(** A finite float times [2^1074], an integer. *)
Definition scaled (f : float) : Z :=
  match float_me f with Some (m, e) => m * 2 ^ (e + 1074) | None => 0 end.
Definition scale : Z := 2 ^ 1074.

(** The exact sum, scaled. *)
Definition exact_sum (l : list float) : Z := foldr (λ f s, scaled f + s) 0 l.

(** [p / q] of integers, as a float. *)
Definition to_nearest (p q : Z) : result float :=
  let f := float_of_ratio p q in if is_inf f then Raise OverflowError else Ok f.

(** [(x - c) ** 2] *)
Definition squared_deviation (c x : float) : result float :=
  let d := fsub x c in
  let sq := fmul d d in
  if is_inf sq && is_finite d then Raise OverflowError else Ok sq.

(** [statistics.stdev(data)] of floats. A value that is not finite makes the mean
    and every sum of deviations a NaN. *)
Definition stdev (data : list float) : result float :=
  let n := Z.of_nat (length data) in
  if n <? 2 then Raise StatisticsError
  else if forallb is_finite data then
    c ← to_nearest (exact_sum data) (n * scale);
    squares ← mapM (squared_deviation c) data;
    let total := exact_sum squares in
    let total2 := exact_sum ((λ x, fsub x c) <$> data) in
    var ← to_nearest (total * scale * n - total2 * total2) (scale * scale * n * (n - 1));
    Ok (fsqrt var)
  else Ok S754_nan.

Definition sign_bit (f : float) : bool :=
  match f with S754_zero s | S754_infinity s | S754_finite s _ _ => s | S754_nan => false end.

(** ["%.0f" % x] *)
Definition format_0f (x : num) : result string :=
  f ← to_float x;
  let sign := if sign_bit f then "-" else "" in
  if is_nan f then Ok "nan"
  else if is_inf f then Ok (sign +:+ "inf")
  else n ← float_round (fabs f); Ok (sign +:+ str_of_Z n).

Example stdev_pair : stdev [float_of_ratio 1 1; float_of_ratio 3 1] = Ok (fsqrt (float_of_ratio 2 1)).
Proof. vm_compute. reflexivity. Qed.
Example stdev_equal : stdev [float_of_ratio 1 3; float_of_ratio 1 3; float_of_ratio 1 3] = Ok fzero.
Proof. vm_compute. reflexivity. Qed.
Example format_0f_half : format_0f (PFloat (float_of_ratio 5 2)) = Ok "2".
Proof. vm_compute. reflexivity. Qed.
