(* ===== verification/Config.v ===== *)
(** * Types of the configuration

    The checks of [src/wca/config.py]: semantic types (texts, numbers, URLs, paths and
    addresses within bounds), the recursive [assure_type] of a value against a type
    annotation, and the creation of a configured object.  Reading YAML is the work of
    a library; a value read is a [pyval].  [os.access] is a parameter. *)
From S2P Require Export PyStr PyDict PyNum.

(** src/wca/config.py:64-78 [ConfigLoadError, ValidationError, WeakValidationError] *)
Definition ConfigLoadError : exn := OtherException "ConfigLoadError".
Definition ValidationError : exn := OtherException "ValidationError".
Definition WeakValidationError : exn := OtherException "WeakValidationError".

(** [except ValidationError] also catches its subclass. *)
Definition is_validation (e : exn) : bool :=
  bool_decide (e = ValidationError) || bool_decide (e = WeakValidationError).

(** ** Values and types *)

(** What YAML and the constructors of registered classes make.  A member of an enumeration
    has the name of its class, its own name and its value, of any type; of an enumeration that
    also derives from [str], or from [int] or [float], it is a text or a number itself. *)
#[warnings="-register-all"]
Inductive pyval :=
  | VNone
  | VBool (b : bool)
  | VNum (n : num)
  | VStr (s : string)
  | VList (l : list pyval)
  | VDict (d : list (pyval * pyval))
  | VEnum (cls name : string) (value : pyval)
  | VStrEnum (cls name value : string)
  | VNumEnum (cls name : string) (value : num)
  | VObj (cls : string) (bases : list string).

Definition num_classes (n : num) : list string :=
  match n with PInt _ => ["int"; "object"] | PFloat _ => ["float"; "object"] end.

(** The classes of a value. *)
Definition classes (v : pyval) : list string :=
  match v with
  | VNone => ["NoneType"; "object"]
  | VBool _ => ["bool"; "int"; "object"]
  | VNum n => num_classes n
  | VStr _ => ["str"; "object"]
  | VList _ => ["list"; "object"]
  | VDict _ => ["dict"; "object"]
  | VEnum cls _ _ => [cls; "Enum"; "object"]
  | VStrEnum cls _ _ => [cls; "Enum"; "str"; "object"]
  | VNumEnum cls _ n => cls :: "Enum" :: num_classes n
  | VObj cls bases => cls :: bases ++ ["object"]
  end.
Definition isinstance (v : pyval) (cls : string) : bool := bool_decide (cls ∈ classes v).

(** The text of a [str], the number of an [int] or [float]. *)
Definition text_of (v : pyval) : option string :=
  match v with
  | VStr s | VStrEnum _ _ s => Some s
  | _ => None
  end.
Definition number_of (v : pyval) : option num :=
  match v with
  | VBool b => Some (PInt (if b then 1 else 0))
  | VNum n | VNumEnum _ _ n => Some n
  | _ => None
  end.

(** The class and the name of a member of an enumeration. *)
Definition member_id (v : pyval) : option (string * string) :=
  match v with
  | VEnum c n _ | VStrEnum c n _ | VNumEnum c n _ => Some (c, n)
  | _ => None
  end.
Definition member_value (v : pyval) : pyval :=
  match v with
  | VEnum _ _ w => w | VStrEnum _ _ s => VStr s | VNumEnum _ _ n => VNum n
  | _ => v
  end.

(** [a == b].  Texts and numbers are compared as such, also those of enumerations; a member of
    any other enumeration is only itself.  Objects are compared by identity, and no two of
    the values here are the same object. *)
Fixpoint py_eqb (a b : pyval) {struct a} : bool :=
  match a, b with
  | VNone, VNone => true
  | VList l, VList m =>
      (fix go (l m : list pyval) : bool :=
         match l, m with
         | [], [] => true
         | x :: l, y :: m => py_eqb x y && go l m
         | _, _ => false
         end) l m
  | VDict d, VDict e =>
      Nat.eqb (length d) (length e) &&
      forallb (λ kv, existsb (λ kw, py_eqb kv.1 kw.1 && py_eqb kv.2 kw.2) e) d
  | VEnum c n _, VEnum c' n' _ => String.eqb c c' && String.eqb n n'
  | _, _ =>
      match number_of a, number_of b, text_of a, text_of b with
      | Some x, Some y, _, _ => neqb x y
      | _, _, Some s, Some t => String.eqb s t
      | _, _, _, _ => false
      end
  end.

(** [v in l]: an element that is the same member, or equal. *)
Definition py_in (v : pyval) (l : list pyval) : bool :=
  existsb (λ w, match member_id v with
                | Some i => bool_decide (member_id w = Some i)
                | None => false
                end || py_eqb v w) l.

(** ** Simple checks *)

(** src/wca/config.py:81-88 [assure_base_types] of [str], giving the text *)
Definition assure_str (v : pyval) : result string := or_raise ValidationError (text_of v).
(** src/wca/config.py:81-88 [assure_base_types] of [int] and [float], giving the number *)
Definition assure_number (v : pyval) : result num := or_raise ValidationError (number_of v).

(** src/wca/config.py:91-96 [assure_max_str_length] *)
Definition assure_max_str_length (value : string) (max_size : Z) : result unit :=
  if py_len value >? max_size then Raise ValidationError else Ok tt.

(** src/wca/config.py:99-102 [assure_max_numeric_value] *)
Definition assure_max_numeric_value (value max_value : num) : result unit :=
  if ngtb value max_value then Raise ValidationError else Ok tt.

(** src/wca/config.py:105-108 [assure_min_numeric_value] *)
Definition assure_min_numeric_value (value min_value : num) : result unit :=
  if nltb value min_value then Raise ValidationError else Ok tt.

(** src/wca/config.py:111-116 [assure_absolute_path] *)
Definition isabs (value : string) : bool := startswith "/" value.
Definition assure_absolute_path (value : string) : result unit :=
  if isabs value then Ok tt else Raise ValidationError.

(** [os.path.split(p)] *)
Definition is_slash (c : ascii) : bool := ascii_eqb c "/".
Definition path_split (p : string) : string * string :=
  match rev (split_on "/" p) with
  | [] | [_] => ("", p)
  | tail :: heads =>
      let head := str_join "/" (rev heads) +:+ "/" in
      (if str_forallb is_slash head then head else rstrip_if is_slash head, tail)
  end.

(** src/wca/config.py:128-134 [assure_no_parent_directory_access], the loop
    The head of a split is shorter than the path, so the length bounds the rounds. *)
Fixpoint no_parent_loop (fuel : nat) (split_value : string * string) : result unit :=
  let '(head, tail) := split_value in
  if String.eqb head "" || String.eqb tail "" then Ok tt
  else if String.eqb head ".." || String.eqb tail ".." then Raise ValidationError
  else match fuel with
       | O => Raise (OtherException "fuel")
       | S fuel => no_parent_loop fuel (path_split head)
       end.

(** src/wca/config.py:126-134 [assure_no_parent_directory_access] *)
Definition assure_no_parent_directory_access (value : string) : result unit :=
  no_parent_loop (String.length value) (path_split value).

(** *** Addresses *)

(** [urllib.parse.urlsplit(url)]: scheme, netloc and path. *)
Definition scheme_char (c : ascii) : bool :=
  match digit_val c with
  | Some _ => true
  | None => has_char c "+-."
  end.

Definition to_lower (c : ascii) : ascii :=
  let n := Ascii.N_of_ascii c in
  if (65 <=? n)%N && (n <=? 90)%N then Ascii.ascii_of_N (n + 32)%N else c.
Fixpoint map_string (f : ascii → ascii) (s : string) : string :=
  match s with EmptyString => EmptyString | String c s => String (f c) (map_string f s) end.

(** The longest part without the characters of [stop], and what follows. *)
Fixpoint cut_at (stop : string) (s : string) : string * string :=
  match s with
  | EmptyString => (EmptyString, EmptyString)
  | String c s' =>
      if has_char c stop then (EmptyString, s)
      else let '(a, b) := cut_at stop s' in (String c a, b)
  end.

Record parsed_url := mkUrl { url_scheme : string; url_netloc : string; url_path : string }.

Definition url_scheme_rest (url : string) : string * string :=
  match find_char ":" url with
  | Some (S n) =>
      let scheme := str_take (S n) url in
      let rest := str_drop (S (S n)) url in
      if String.eqb scheme "http" then ("http", rest)
      else if str_forallb scheme_char scheme &&
              (String.eqb rest "" || negb (str_forallb (λ c, has_char c "0123456789") rest))
      then (map_string to_lower scheme, rest)
      else ("", url)
  | _ => ("", url)
  end.

Definition urlparse (url : string) : result parsed_url :=
  let '(scheme, rest) := url_scheme_rest url in
  let '(netloc, rest) := if startswith "//" rest then cut_at "/?#" (str_drop 2 rest) else ("", rest) in
  if xorb (has_char "[" netloc) (has_char "]" netloc) then Raise ValueError
  else Ok (mkUrl scheme netloc (cut_at "?#" rest).1).

(** src/wca/config.py:137-141 [assure_scheme_in_url] *)
Definition assure_scheme_in_url (url : parsed_url) (supported_schemes : list string) : result unit :=
  if bool_decide (url_scheme url ∈ supported_schemes) then Ok tt else Raise ValidationError.

(** src/wca/config.py:144-146 [assure_netloc_in_url] *)
Definition assure_netloc_in_url (url : parsed_url) : result unit :=
  if String.eqb (url_netloc url) "" then Raise ValidationError else Ok tt.

(** src/wca/config.py:149-152 [assure_path_in_url] *)
Definition assure_path_in_url (url : parsed_url) : result unit :=
  if String.eqb (url_path url) "" then Raise ValidationError else Ok tt.

(** A part of an IP address of version 4 as [ipaddress] reads it: one to three digits,
    no octal look, at most 255. *)
Definition ip_octet (s : string) : bool :=
  (0 <? py_len s) && (py_len s <=? 3) && str_forallb (λ c, has_char c "0123456789") s &&
  match py_int s with
  | Ok n => negb ((n >? 7) && startswith "0" s) && (n <=? 255)
  | Raise _ => false
  end.

(** src/wca/config.py:155-160 [assure_ip_format]
    The text has no colon, so it is no address of version 6. *)
Definition assure_ip_format (ip : string) : result unit :=
  let octets := split_on "." ip in
  if (length octets =? 4)%nat && forallb ip_octet octets then Ok tt else Raise ValidationError.

(** src/wca/config.py:163-168 [assure_port_format] *)
Definition assure_port_format (port : string) : result unit :=
  if is_Ok (py_int port) then Ok tt else Raise ValidationError.

(** ** Semantic types *)

(** src/wca/config.py:171-266 [Str, Numeric, Url, Path, IpPort] *)
Inductive semantic :=
  | SStr (max_size : Z)
  | SNumeric (min_value max_value : num)
  | SUrl (max_size : Z) (supported_schemes : list string) (is_path_obligatory : bool)
  | SPath (absolute : bool) (max_size : Z) (mode : option Z)
  | SIpPort (max_size : Z).

(** src/wca/config.py:184-185 [Str] *)
Definition Str : semantic := SStr 400.
(** src/wca/config.py:218-223 [Url] *)
Definition Url : semantic := SUrl 400 ["http"; "https"] false.
(** src/wca/config.py:241-246 [Path] *)
Definition Path : semantic := SPath false 400 None.
(** src/wca/config.py:264-266 [IpPort] *)
Definition IpPort : semantic := SIpPort 400.

Section config.
  Context (access : string → Z → bool).

(** src/wca/config.py:119-123 [assure_permission_path] *)
Definition assure_permission_path (value : string) (permission : Z) : result unit :=
  if access value permission then Ok tt else Raise ValidationError.

(** src/wca/config.py:178-181 [_StrType.assure] *)
Definition str_assure (max_size : Z) (v : pyval) : result unit :=
  s ← assure_str v; assure_max_str_length s max_size.

(** src/wca/config.py:191-195 [_NumericType.assure] *)
Definition numeric_assure (min_value max_value : num) (v : pyval) : result unit :=
  n ← assure_number v; _ ← assure_min_numeric_value n min_value; assure_max_numeric_value n max_value.

(** src/wca/config.py:206-215 [_UrlType.assure] *)
Definition url_assure (max_size : Z) (supported_schemes : list string) (is_path_obligatory : bool)
    (v : pyval) : result unit :=
  s ← assure_str v; _ ← assure_max_str_length s max_size;
  url ← urlparse s;
  _ ← assure_scheme_in_url url supported_schemes; _ ← assure_netloc_in_url url;
  if is_path_obligatory then assure_path_in_url url else Ok tt.

(** src/wca/config.py:229-238 [_PathType.assure] *)
Definition path_assure (absolute : bool) (max_size : Z) (mode : option Z) (v : pyval) : result unit :=
  s ← assure_str v; _ ← assure_max_str_length s max_size;
  _ ← assure_no_parent_directory_access s;
  _ ← (if absolute then assure_absolute_path s else Ok tt);
  match mode with
  | None | Some 0 => Ok tt
  | Some m => assure_permission_path s m
  end.

(** src/wca/config.py:252-261 [_IpPort.assure] *)
Definition ipport_assure (max_size : Z) (v : pyval) : result unit :=
  s ← assure_str v; _ ← assure_max_str_length s max_size;
  let value := split_on ":" s in
  ip ← or_raise IndexError (value !! 0%nat); port ← or_raise IndexError (value !! 1%nat);
  _ ← assure_ip_format ip; assure_port_format port.

Definition semantic_assure (s : semantic) (v : pyval) : result unit :=
  match s with
  | SStr n => str_assure n v
  | SNumeric lo hi => numeric_assure lo hi v
  | SUrl n schemes p => url_assure n schemes p v
  | SPath a n m => path_assure a n m v
  | SIpPort n => ipport_assure n v
  end.
End config.

(** ** Types *)

(** What an annotation can be: none, generic types of [typing], unions, enumerations (by their
    members), semantic types and classes. *)
#[warnings="-register-all"]
Inductive ty :=
  | TyMissing
  | TyList (item : ty)
  | TyDict (key value : ty)
  | TyGeneric (name : string)
  | TyUnion (types : list ty)
  | TyEnum (members : list pyval)
  | TySemantic (s : semantic)
  | TyClass (cls : string).

(** src/wca/config.py:322-339 [_assure_enum_type] *)
Definition assure_enum_type (allowed_enum_instances : list pyval) (value : pyval) : result unit :=
  if py_in value allowed_enum_instances then Ok tt
  else
    let allowed_enum_values := member_value <$> allowed_enum_instances in
    if py_in value allowed_enum_values then Ok tt
    else Raise ValidationError.

(** A [ValidationError] of an element is one of the whole, and no longer a weak one. *)
Definition revalidate (r : result unit) : result unit :=
  match r with
  | Raise e => if is_validation e then Raise ValidationError else Raise e
  | Ok u => Ok u
  end.

Fixpoint all_ok {A} (f : A → result unit) (l : list A) : result unit :=
  match l with [] => Ok tt | x :: l => _ ← f x; all_ok f l end.

(** src/wca/config.py:305-319 [_assure_union_type] *)
Fixpoint any_ok {A} (f : A → result unit) (l : list A) : result unit :=
  match l with
  | [] => Raise ValidationError
  | x :: l => match f x with
              | Ok _ => Ok tt
              | Raise e => if is_validation e then any_ok f l else Raise e
              end
  end.

Section types.
  Context (access : string → Z → bool).

(** src/wca/config.py:269-383 [assure_type, _assure_list_type, _assure_dict_type] *)
Fixpoint assure_type (expected_type : ty) (value : pyval) {struct expected_type} : result unit :=
  match expected_type with
  | TyMissing | TyGeneric _ => Raise WeakValidationError
  | TyList item_type =>
      match value with
      | VList l => all_ok (λ item, revalidate (assure_type item_type item)) l
      | _ => Raise ValidationError
      end
  | TyDict key_type value_type =>
      match value with
      | VDict d => all_ok (λ kv, _ ← revalidate (assure_type key_type kv.1);
                                 revalidate (assure_type value_type kv.2)) d
      | _ => Raise ValidationError
      end
  | TyUnion types => any_ok (λ t, assure_type t value) types
  | TyEnum members => assure_enum_type members value
  | TySemantic s => semantic_assure access s value
  | TyClass cls => if isinstance value cls then Ok tt else Raise ValidationError
  end.

(** src/wca/config.py:420-451 [_constructor], the check of the arguments *)
Definition check_arguments (strict_mode : bool) (signature : list (string * ty))
    (arguments : dict string pyval) : result unit :=
  all_ok (λ '(name, expected_type),
    match dget arguments name with
    | None => Ok tt
    | Some value =>
        match assure_type expected_type value with
        | Ok _ => Ok tt
        | Raise e =>
            if bool_decide (e = WeakValidationError) then
              if strict_mode then Raise ConfigLoadError else Ok tt
            else if is_validation e then Raise ConfigLoadError else Raise e
        end
    end) signature.

(** src/wca/config.py:401-469 [_constructor]
    [node] is the mapping of a YAML node, or [None] for a scalar; [init] stands for
    the [__init__] of the class. *)
Definition constructor {A} (strict_mode : bool) (signature : list (string * ty))
    (init : dict string pyval → result A) (node : option (dict string pyval)) : result A :=
  let arguments := default [] node in
  _ ← check_arguments strict_mode signature arguments;
  match init arguments with
  | Ok a => Ok a
  | Raise _ => Raise ConfigLoadError
  end.
End types.

(** ** Parent directories *)

(** Paths as the reversed list of their components. *)
Definition join_path (comps : list string) : string := str_join "/" (rev comps).
Definition component (w : string) : Prop := no_char "/" w = true.

Fixpoint drop_empty (l : list string) : list string :=
  match l with "" :: l => drop_empty l | _ => l end.

Lemma drop_empty_suffix l : ∃ n, l = replicate n "" ++ drop_empty l.
Proof.
  induction l as [|w l [n IH]]; [by exists 0%nat|]. destruct w; [|by exists 0%nat].
  exists (S n). cbn. by rewrite <-IH.
Qed.

Lemma drop_empty_head l w l' : drop_empty l = w :: l' → w ≠ "".
Proof. induction l as [|[|c w'] l IH]; [done|apply IH|]. by intros [= <- <-]. Qed.

Lemma join_snoc (l : list string) x : l ≠ [] → str_join "/" (l ++ [x]) = str_join "/" l +:+ "/" +:+ x.
Proof.
  intros Hl. induction l as [|y l IH]; [done|]. destruct l as [|z l]; [done|].
  change (y +:+ "/" +:+ str_join "/" ((z :: l) ++ [x]) = (y +:+ "/" +:+ str_join "/" (z :: l)) +:+ "/" +:+ x).
  rewrite IH by done. by rewrite !str_app_assoc.
Qed.

Lemma join_path_cons t heads : heads ≠ [] → join_path (t :: heads) = join_path heads +:+ "/" +:+ t.
Proof.
  intros Hh. unfold join_path. cbn [rev]. apply join_snoc. intros Hr%(f_equal length).
  rewrite length_rev in Hr. by destruct heads.
Qed.

Lemma rstrip_last p s c : rstrip_if p (s +:+ String c "") = if p c then rstrip_if p s else s +:+ String c "".
Proof.
  unfold rstrip_if. rewrite str_rev_append. cbn [str_rev str_rev_app append].
  change (str_rev (String c "")) with (String c ""). cbn [append lstrip_if].
  destruct (p c); [done|]. rewrite str_rev_cons. by rewrite str_rev_involutive.
Qed.

(** A component that is not empty ends in no slash. *)
Lemma component_last w : component w → w ≠ "" → ∃ u c, w = u +:+ String c "" ∧ is_slash c = false.
Proof.
  unfold component, no_char. intros Hw Hne. rewrite <-str_forallb_rev in Hw.
  destruct (str_rev w) as [|c u] eqn:E.
  { apply (f_equal str_rev) in E. by rewrite str_rev_involutive in E. }
  exists (str_rev u), c. split.
  - rewrite <-str_rev_cons, <-E. by rewrite str_rev_involutive.
  - cbn in Hw. apply andb_true_iff in Hw as [Hc _]. by apply negb_true_iff in Hc.
Qed.

Lemma rstrip_component s w : component w → w ≠ "" → rstrip_if is_slash (s +:+ w) = s +:+ w.
Proof.
  intros Hw Hne. destruct (component_last w Hw Hne) as (u & c & -> & Hc).
  by rewrite <-str_app_assoc, rstrip_last, Hc.
Qed.

Lemma rstrip_join_path rl :
  Forall component rl → drop_empty rl ≠ [] → rstrip_if is_slash (join_path rl) = join_path (drop_empty rl).
Proof.
  induction 1 as [|w rl Hw Hrl IH]; [done|]. destruct w as [|c w].
  - cbn [drop_empty]. intros Hne. destruct rl as [|w' rl]; [done|].
    rewrite join_path_cons by done. rewrite (rstrip_last _ _ "/"). exact (IH Hne).
  - intros _. cbn [drop_empty]. destruct rl as [|w' rl].
    + apply (rstrip_component ""); [done|done].
    + rewrite join_path_cons by done. rewrite <-str_app_assoc. by apply rstrip_component.
Qed.

Lemma slashes_component w : component w → str_forallb is_slash w = String.eqb w "".
Proof. destruct w as [|c w]; [done|]. unfold component, no_char, is_slash. cbn.
  destruct (ascii_eqb c "/"); cbn; [by intros [=]|done]. Qed.

Lemma slashes_join_path rl :
  Forall component rl → str_forallb is_slash (join_path rl) = bool_decide (drop_empty rl = []).
Proof.
  induction 1 as [|w rl Hw Hrl IH]; [done|]. destruct rl as [|w' rl].
  { unfold join_path. cbn. rewrite slashes_component by done. by destruct w. }
  rewrite join_path_cons by done. rewrite !str_forallb_app, (slashes_component w) by done. rewrite IH.
  destruct w as [|c w]; [cbn; by rewrite andb_true_r|]. cbn. by rewrite !andb_false_r.
Qed.

Lemma split_join_path rl : rl ≠ [] → Forall component rl → split_on "/" (join_path rl) = rev rl.
Proof.
  intros Hne Hrl. apply (split_join "/").
  - intros Hr%(f_equal length). rewrite length_rev in Hr. by destruct rl.
  - apply Forall_forall. intros w Hw%list_elem_of_In%in_rev%list_elem_of_In.
    by apply (proj1 (Forall_forall _ _) Hrl).
Qed.

Lemma path_split_join t heads :
  heads ≠ [] → Forall component (t :: heads) →
  path_split (join_path (t :: heads)) =
    (if bool_decide (drop_empty heads = []) then join_path heads +:+ "/" else join_path (drop_empty heads), t).
Proof.
  intros Hne Hall. unfold path_split. rewrite split_join_path, rev_involutive by done.
  destruct heads as [|h heads]; [done|]. f_equal. change (str_join "/" (rev (h :: heads))) with (join_path (h :: heads)).
  apply Forall_cons_1 in Hall as [_ Hh].
  rewrite str_forallb_app, slashes_join_path by done. cbn [str_forallb]. rewrite andb_true_r.
  case_bool_decide as Hd; [done|]. rewrite (rstrip_last _ _ "/"). by apply rstrip_join_path.
Qed.

Lemma join_path_one w : join_path [w] = w.
Proof. done. Qed.

Lemma path_split_one w : component w → path_split w = ("", w).
Proof. intros Hw. unfold path_split. by rewrite split_on_no_char. Qed.

Lemma join_path_has_slash x y l : ∃ a b, join_path (x :: y :: l) = a +:+ "/" +:+ b.
Proof. rewrite join_path_cons by done. by exists (join_path (y :: l)), x. Qed.

(** The text of one component. *)
Lemma join_path_component x l w : Forall component (x :: l) → component w → join_path (x :: l) = w → l = [] ∧ x = w.
Proof.
  intros Hall Hw Heq. apply (f_equal (split_on "/")) in Heq.
  rewrite split_join_path, (split_on_no_char _ w) in Heq by done.
  apply (f_equal (@rev string)) in Heq. rewrite rev_involutive in Heq. by injection Heq as -> ->.
Qed.

Lemma join_path_nonempty x l : Forall component (x :: l) → x ≠ "" → join_path (x :: l) ≠ "".
Proof. intros Hall Hx Heq. apply join_path_component in Heq as [_ ->]; done. Qed.

(** Once the tail is empty, or no head is left, the loop ends. *)
Lemma loop_ends fuel head tail : head = "" ∨ tail = "" → no_parent_loop fuel (head, tail) = Ok tt.
Proof. destruct fuel; intros [->| ->]; cbn; try done; by rewrite orb_true_r. Qed.

Lemma split_slash_end heads :
  Forall component heads → heads ≠ [] → split_on "/" (join_path heads +:+ "/") = rev heads ++ [""].
Proof.
  intros Hall Hne. pose proof (split_join_path ("" :: heads)) as Hs. rewrite join_path_cons in Hs by done.
  apply Hs; [done|by constructor].
Qed.

Lemma loop_slashes fuel heads :
  Forall component heads → heads ≠ [] → drop_empty heads = [] →
  no_parent_loop fuel (path_split (join_path heads +:+ "/")) = Ok tt.
Proof.
  intros Hall Hne Hd. change "/" with ("/" +:+ "") at 1. rewrite <-(join_path_cons "" heads) by done.
  rewrite path_split_join; [|done|by constructor]. apply loop_ends. by right.
Qed.

Lemma drop_empty_component l : Forall component l → Forall component (drop_empty l).
Proof. destruct (drop_empty_suffix l) as [n Hn]. rewrite Hn at 1. by intros [_ ?]%Forall_app. Qed.

Lemma drop_empty_elem l w : w ≠ "" → w ∈ drop_empty l ↔ w ∈ l.
Proof.
  intros Hw. destruct (drop_empty_suffix l) as [n Hn]. rewrite Hn at 2. rewrite elem_of_app. split; [by right|].
  intros [Hin|]; [|done]. by apply elem_of_replicate in Hin as [-> _].
Qed.

Lemma drop_empty_length l : (length (drop_empty l) ≤ length l)%nat.
Proof. destruct (drop_empty_suffix l) as [n Hn]. rewrite Hn at 2. rewrite length_app. lia. Qed.

(** The loop finds a parent directory among the components; as many rounds as there
    are slashes are enough. *)
Lemma loop_finds fuel t heads :
  Forall component (t :: heads) → t ≠ "" → heads ≠ [] → (length heads ≤ fuel)%nat →
  no_parent_loop fuel (path_split (join_path (t :: heads))) =
    if bool_decide (".." ∈ t :: heads) then Raise ValidationError else Ok tt.
Proof.
  revert t heads. induction fuel as [|fuel IH]; intros t heads Hall Ht Hne Hlen.
  { destruct heads; [done|cbn in Hlen; lia]. }
  rewrite path_split_join by done. apply Forall_cons_1 in Hall as [Hct Hall].
  pose proof (drop_empty_elem heads "..") as Helem. pose proof (drop_empty_component heads Hall) as Hdc.
  pose proof (drop_empty_length heads) as Hdl. case_bool_decide as Hd.
  - cbn [no_parent_loop]. assert (Hin : ".." ∈ t :: heads ↔ t = "..").
    { rewrite elem_of_cons, <-Helem, Hd, elem_of_nil by done. naive_solver. }
    assert (Hh : String.eqb (join_path heads +:+ "/") "" = false ∧ String.eqb (join_path heads +:+ "/") ".." = false).
    { rewrite !String.eqb_neq. split; intros Heq%(f_equal (length ∘ split_on "/")); unfold compose in Heq;
        rewrite split_slash_end, length_app, length_rev in Heq by done; destruct heads; cbn in Heq; (done || lia). }
    destruct Hh as [-> ->]. rewrite (proj2 (String.eqb_neq t "") Ht). cbn [orb].
    rewrite loop_slashes by done.
    destruct (String.eqb t "..") eqn:E; case_bool_decide as Hb; try done; rewrite Hin in Hb.
    + by apply String.eqb_eq in E.
    + by apply String.eqb_neq in E.
  - cbn [no_parent_loop]. destruct (drop_empty heads) as [|x l] eqn:Ed; [done|].
    pose proof (drop_empty_head _ _ _ Ed) as Hx.
    rewrite (proj2 (String.eqb_neq _ "") (join_path_nonempty x l Hdc Hx)).
    rewrite (proj2 (String.eqb_neq t "") Ht). cbn [orb].
    assert (Hin : ".." ∈ t :: heads ↔ t = ".." ∨ ".." ∈ x :: l) by (rewrite elem_of_cons, Helem; naive_solver).
    destruct l as [|y l].
    + rewrite join_path_one. apply Forall_cons_1 in Hdc as [Hcx _].
      rewrite path_split_one, loop_ends by (done || by left).
      rewrite list_elem_of_singleton in Hin.
      destruct (String.eqb_spec x "..") as [->|Hx2], (String.eqb_spec t "..") as [->|Ht2]; cbn;
        case_bool_decide; naive_solver.
    + assert (Hj : String.eqb (join_path (x :: y :: l)) ".." = false).
      { apply String.eqb_neq. intros [? _]%join_path_component; done. }
      rewrite Hj. cbn [orb]. rewrite IH; [|done..|cbn in Hdl |- *; lia].
      destruct (String.eqb_spec t "..") as [->|Ht2]; repeat case_bool_decide; naive_solver.
Qed.

Lemma split_on_length c s : (length (split_on c s) ≤ S (String.length s))%nat.
Proof.
  induction s as [|x s IH]; [done|]. cbn [split_on]. destruct (ascii_eqb x c); [cbn in *; lia|].
  destruct (split_on c s); cbn in *; lia.
Qed.

(** A path whose components lead to the parent of a directory, as the check sees it. *)
Definition leads_to_parent (value : string) : bool :=
  let comps := split_on "/" value in
  (1 <? Z.of_nat (length comps)) && negb (String.eqb (List.last comps "") "") && bool_decide (".." ∈ comps).

Lemma no_parent_facts value :
  assure_no_parent_directory_access value = (if leads_to_parent value then Raise ValidationError else Ok tt) ∧
  ∀ fuel, (String.length value ≤ fuel)%nat →
    no_parent_loop fuel (path_split value) = if leads_to_parent value then Raise ValidationError else Ok tt.
Proof.
  assert (Hloop : ∀ fuel, (String.length value ≤ fuel)%nat → no_parent_loop fuel (path_split value) =
    if leads_to_parent value then Raise ValidationError else Ok tt); [|split; [by apply Hloop|done]].
  intros fuel Hf. pose proof (split_on_length "/" value) as Hlen.
  pose proof (split_on_words_no_char "/" value) as Hall. pose proof (join_split "/" value) as Hj.
  unfold leads_to_parent. destruct (rev (split_on "/" value)) as [|t heads] eqn:E;
    apply (f_equal (@rev string)) in E; rewrite rev_involutive in E.
  { by apply split_on_not_nil in E. }
  rewrite E in Hlen, Hall, Hj |- *. cbn [rev] in *. rewrite last_last. rewrite length_app, length_rev in *.
  assert (Hc : Forall component (t :: heads)).
  { apply Forall_app in Hall as [Hh Ht]. apply Forall_cons. split; [by inversion Ht|].
    apply Forall_forall. intros w Hw. apply (proj1 (Forall_forall _ _) Hh).
    by apply list_elem_of_In, in_rev; rewrite rev_involutive; apply list_elem_of_In. }
  assert (Hv : value = join_path (t :: heads)) by done. clear Hj.
  destruct heads as [|h heads].
  { rewrite Hv, join_path_one, path_split_one, loop_ends by (done || (by left) || by inversion Hc). done. }
  assert (Hlt : (1 <? Z.of_nat (length (h :: heads) + length [t])) = true) by (apply Z.ltb_lt; cbn [length]; lia).
  rewrite Hlt. cbn [andb]. destruct (String.eqb_spec t "") as [->|Ht].
  - cbn [negb andb]. rewrite Hv, path_split_join by done. apply loop_ends. by right.
  - cbn [negb andb]. rewrite Hv, loop_finds by (done || (cbn in *; lia)).
    assert (Hin : ".." ∈ rev (h :: heads) ++ [t] ↔ ".." ∈ t :: h :: heads).
    { rewrite elem_of_app, list_elem_of_singleton, (elem_of_cons _ _ t), list_elem_of_In, <-in_rev, <-list_elem_of_In.
      naive_solver. }
    repeat case_bool_decide; naive_solver.
Qed.

(** C40 (termination): the loop that looks for parent directories ends within as many
    rounds as the path has characters, whatever the path, and refuses exactly the
    paths of at least two components that do not end in a slash and have [..] among
    their components. *)
Theorem no_parent_loop_terminates value fuel :
  (String.length value ≤ fuel)%nat →
  no_parent_loop fuel (path_split value) = (if leads_to_parent value then Raise ValidationError else Ok tt) ∧
  assure_no_parent_directory_access value = no_parent_loop fuel (path_split value).
Proof.
  intros Hf. destruct (no_parent_facts value) as [-> Hl]. by rewrite Hl.
Qed.

Lemma no_parent_loop_terminates_witness :
  no_parent_loop 20 (path_split "/safe/../../etc") = (if leads_to_parent "/safe/../../etc" then Raise ValidationError else Ok tt) ∧
  assure_no_parent_directory_access "/safe/../../etc" = no_parent_loop 20 (path_split "/safe/../../etc").
Proof. apply (no_parent_loop_terminates "/safe/../../etc" 20). vm_compute. lia. Defined.

(** The check stops at an empty tail: with a slash at its end every path passes; so
    does the parent directory itself. *)
Example trailing_slash_passes :
  assure_no_parent_directory_access "/safe/../../etc" = Raise ValidationError ∧
  assure_no_parent_directory_access "/safe/../../etc/" = Ok tt ∧
  assure_no_parent_directory_access ".." = Ok tt.
Proof. vm_compute. done. Qed.

(** ** What [assure_type] accepts *)

Lemma ty_nested_ind (P : ty → Prop) :
  P TyMissing → (∀ t, P t → P (TyList t)) → (∀ k v, P k → P v → P (TyDict k v)) →
  (∀ g, P (TyGeneric g)) → (∀ ts, Forall P ts → P (TyUnion ts)) → (∀ ms, P (TyEnum ms)) → (∀ s, P (TySemantic s)) →
  (∀ c, P (TyClass c)) → ∀ t, P t.
Proof.
  intros Hm Hl Hd Hg Hu He Hs Hc. fix IH 1.
  intros [|t|k v|g|ts|ms|s|c];
    [exact Hm|apply Hl, IH|apply Hd; apply IH|apply Hg| |apply He|apply Hs|apply Hc].
  apply Hu. induction ts as [|t ts IHts]; constructor; [apply IH|exact IHts].
Qed.

Section typing.
  Context (access : string → Z → bool).
  (** The values of a generic type that the code does not know, such as [Iterable[int]]. *)
  Context (generic : string → pyval → Prop).

(** A number within bounds; not a number is on neither side of a bound, and has none. *)
Definition in_bounds (lo n hi : num) : Prop :=
  (nleb lo n = true ∨ num_is_nan lo = true ∨ num_is_nan n = true) ∧
  (nleb n hi = true ∨ num_is_nan n = true ∨ num_is_nan hi = true).

(** The meaning of a semantic type. *)
Definition in_semantic (s : semantic) (v : pyval) : Prop :=
  match s with
  | SStr max_size => ∃ x, text_of v = Some x ∧ py_len x ≤ max_size
  | SNumeric lo hi => ∃ n, number_of v = Some n ∧ in_bounds lo n hi
  | SUrl max_size schemes path => ∃ x u, text_of v = Some x ∧ py_len x ≤ max_size ∧ urlparse x = Ok u ∧
      url_scheme u ∈ schemes ∧ url_netloc u ≠ "" ∧ (path = true → url_path u ≠ "")
  | SPath absolute max_size mode => ∃ x, text_of v = Some x ∧ py_len x ≤ max_size ∧
      leads_to_parent x = false ∧ (absolute = true → isabs x = true) ∧
      (∀ m, mode = Some m → m ≠ 0 → access x m = true)
  | SIpPort max_size => ∃ x ip port rest n, text_of v = Some x ∧ py_len x ≤ max_size ∧
      split_on ":" x = ip :: port :: rest ∧ length (split_on "." ip) = 4%nat ∧
      Forall (λ o, ip_octet o = true) (split_on "." ip) ∧ py_int port = Ok n
  end.

(** Values of a type.  Without an annotation any value is right; a generic type has values
    that the code does not look at; an enumeration has its members, and whatever is equal
    to the value of one. *)
#[warnings="-register-all"]
Inductive has_type : ty → pyval → Prop :=
  | ht_missing v : has_type TyMissing v
  | ht_generic g v : generic g v → has_type (TyGeneric g) v
  | ht_list t l : Forall (has_type t) l → has_type (TyList t) (VList l)
  | ht_dict k v d : Forall (λ kv, has_type k kv.1 ∧ has_type v kv.2) d → has_type (TyDict k v) (VDict d)
  | ht_union t ts v : t ∈ ts → has_type t v → has_type (TyUnion ts) v
  | ht_member ms m v i : m ∈ ms → member_id m = Some i → member_id v = Some i → has_type (TyEnum ms) v
  | ht_enum_value ms m v : m ∈ ms → py_in v [member_value m] = true → has_type (TyEnum ms) v
  | ht_semantic s v : in_semantic s v → has_type (TySemantic s) v
  | ht_class c v : c ∈ classes v → has_type (TyClass c) v.

(** A type with nothing in it that the code does not check. *)
Fixpoint checkable (t : ty) : bool :=
  match t with
  | TyMissing | TyGeneric _ => false
  | TyList t => checkable t
  | TyDict k v => checkable k && checkable v
  | TyUnion ts => forallb checkable ts
  | TyEnum _ | TySemantic _ | TyClass _ => true
  end.

(** A check decides a property, unless it raises another exception. *)
Definition decides (r : result unit) (P : Prop) : Prop :=
  match r with
  | Ok _ => P
  | Raise e => is_validation e = true → ¬ P
  end.

Lemma decides_iff r P Q : (P ↔ Q) → decides r P → decides r Q.
Proof. intros HPQ. destruct r; cbn; [tauto|]. intros H He. rewrite <-HPQ. auto. Qed.

Lemma decides_if (b : bool) P : (b = true ↔ P) → decides (if b then Ok tt else Raise ValidationError) P.
Proof. intros HP. destruct b; cbn; [by apply HP|]. intros _ H. by apply HP in H. Qed.

Lemma decides_unless (b : bool) P : (b = false ↔ P) → decides (if b then Raise ValidationError else Ok tt) P.
Proof. intros HP. destruct b; cbn; [|by apply HP]. intros _ H. by apply HP in H. Qed.

Lemma decides_and r k P Q : decides r P → (P → decides k Q) → decides (_ ← r; k) (P ∧ Q).
Proof.
  intros Hr Hk. destruct r as [[]|e]; cbn in *; [|intros He [HP _]; by apply Hr].
  destruct k; cbn in *; [auto|]. intros He [HP HQ]. by apply Hk.
Qed.

Lemma decides_option {A} (o : option A) (k : A → result unit) (P : A → Prop) :
  (∀ x, o = Some x → decides (k x) (P x)) → decides (x ← or_raise ValidationError o; k x) (∃ x, o = Some x ∧ P x).
Proof.
  intros Hk. destruct o as [x|]; cbn.
  - eapply decides_iff; [|by apply Hk]. naive_solver.
  - intros _ (x & ? & _). done.
Qed.

Lemma decides_revalidate r P : decides r P → decides (revalidate r) P.
Proof. destruct r as [|e]; cbn; [done|]. destruct (is_validation e) eqn:E; cbn; [auto|]. by rewrite E. Qed.

Lemma decides_all {A} (f : A → result unit) (P : A → Prop) l :
  (∀ x, x ∈ l → decides (f x) (P x)) → decides (all_ok f l) (Forall P l).
Proof.
  induction l as [|x l IH]; intros Hf; [by constructor|]. cbn [all_ok].
  eapply decides_iff; [symmetry; apply Forall_cons|]. apply decides_and; [apply Hf; by left|].
  intros _. apply IH. intros y Hy. apply Hf. by right.
Qed.

Lemma decides_any {A} (f : A → result unit) (P : A → Prop) l :
  Forall (λ x, decides (f x) (P x)) l → decides (any_ok f l) (∃ x, x ∈ l ∧ P x).
Proof.
  induction 1 as [|x l Hx Hl IH]; cbn [any_ok]; [intros _ (x & []%not_elem_of_nil & _)|].
  destruct (f x) as [[]|e]; cbn in Hx; [exists x; split; [by left|done]|].
  destruct (is_validation e) eqn:E; [|cbn; by rewrite E].
  eapply decides_iff; [|exact IH]. split; [intros (y & ? & ?); exists y; split; [by right|done]|].
  intros (y & [->|Hy]%elem_of_cons & HP); [by destruct (Hx eq_refl)|by exists y].
Qed.

Lemma decides_length s n : decides (assure_max_str_length s n) (py_len s ≤ n).
Proof. apply decides_unless. rewrite Z.gtb_ltb, Z.ltb_ge. done. Qed.

Lemma decides_path absolute max_size mode v :
  decides (path_assure access absolute max_size mode v) (in_semantic (SPath absolute max_size mode) v).
Proof.
  apply (decides_option (text_of v)). intros x _. apply decides_and; [apply decides_length|intros _].
  apply decides_and.
  { destruct (no_parent_facts x) as [Hx _]. rewrite Hx. by apply decides_unless. }
  intros _. apply decides_and.
  { destruct absolute; [apply decides_if; naive_solver|by cbn]. }
  intros _. destruct mode as [m|]; [|by cbn]. destruct (decide (m = 0)) as [->|Hm]; [by cbn; naive_solver|].
  assert (Heq : match m with 0 => Ok tt | _ => assure_permission_path access x m end = assure_permission_path access x m)
    by (by destruct m). rewrite Heq. apply decides_if. naive_solver.
Qed.

Lemma decides_url max_size schemes path v :
  decides (url_assure max_size schemes path v) (in_semantic (SUrl max_size schemes path) v).
Proof.
  eapply decides_iff; [|apply (decides_option (text_of v) _ (λ x, py_len x ≤ max_size ∧ ∃ u, urlparse x = Ok u ∧
      url_scheme u ∈ schemes ∧ url_netloc u ≠ "" ∧ (path = true → url_path u ≠ "")))].
  { cbn. naive_solver. }
  intros x _. apply decides_and; [apply decides_length|intros _].
  destruct (urlparse x) as [u|e] eqn:E.
  2: { intros _ (u & ? & _). done. }
  apply (decides_iff _ (url_scheme u ∈ schemes ∧ url_netloc u ≠ "" ∧ (path = true → url_path u ≠ "")));
    [|apply decides_and; [|intros _; apply decides_and; [|intros _]]].
  - split; [intros (H1 & H2 & H3); exists u; split; [done|exact (conj H1 (conj H2 H3))]|].
    intros (u' & [= <-] & H1 & H2 & H3). exact (conj H1 (conj H2 H3)).
  - apply decides_if. apply bool_decide_eq_true.
  - apply decides_unless. apply String.eqb_neq.
  - destruct path; [|by cbn]. apply decides_unless. rewrite String.eqb_neq. naive_solver.
Qed.

Lemma decides_ipport max_size v :
  decides (ipport_assure max_size v) (in_semantic (SIpPort max_size) v).
Proof.
  eapply decides_iff; [|apply (decides_option (text_of v) _ (λ x, py_len x ≤ max_size ∧ ∃ ip port rest n,
      split_on ":" x = ip :: port :: rest ∧ length (split_on "." ip) = 4%nat ∧
      Forall (λ o, ip_octet o = true) (split_on "." ip) ∧ py_int port = Ok n))].
  { cbn. naive_solver. }
  intros x _. apply decides_and; [apply decides_length|intros _].
  destruct (split_on ":" x) as [|ip [|port rest]]; [by cbn..|]. cbn [lookup list_lookup or_raise mbind result_bind].
  apply (decides_iff _ ((length (split_on "." ip) = 4%nat ∧ Forall (λ o, ip_octet o = true) (split_on "." ip)) ∧
    ∃ n, py_int port = Ok n)); [|apply decides_and; [|intros _]].
  - split; [|intros (ip' & port' & rest' & n & [= <- <- <-] & H1 & H2 & H3);
      exact (conj (conj H1 H2) (ex_intro _ n H3))].
    intros ((H1 & H2) & n & H3). by exists ip, port, rest, n.
  - apply decides_if. rewrite andb_true_iff, Nat.eqb_eq, forallb_forall, Forall_forall.
    by setoid_rewrite list_elem_of_In.
  - apply decides_if. rewrite is_Ok_true. done.
Qed.

Lemma decides_semantic s v : decides (semantic_assure access s v) (in_semantic s v).
Proof.
  destruct s as [n|lo hi|n schemes p|a n m|n]; cbn [semantic_assure].
  - apply (decides_option (text_of v)). intros x _. apply decides_length.
  - apply (decides_option (number_of v)). intros x _.
    assert (Hle : ∀ a b, nltb b a = false ↔ nleb a b = true ∨ num_is_nan a = true ∨ num_is_nan b = true).
    { intros a b. destruct (num_is_nan a) eqn:Ea, (num_is_nan b) eqn:Eb;
        try (split; [intros _; by auto|]; intros _; unfold nltb; by rewrite (proj2 (ncompare_nan b a)); auto).
      rewrite nltb_nleb, negb_false_iff by done. naive_solver. }
    apply decides_and; [|intros _]; apply decides_unless; [apply Hle|apply (Hle x hi)].
  - apply decides_url.
  - apply decides_path.
  - apply decides_ipport.
Qed.

Lemma py_in_one v w : py_in v [w] = true ↔ (∃ i, member_id v = Some i ∧ member_id w = Some i) ∨ py_eqb v w = true.
Proof.
  unfold py_in. cbn [existsb]. rewrite orb_false_r, orb_true_iff.
  destruct (member_id v) as [i|]; [rewrite bool_decide_eq_true|]; naive_solver.
Qed.

Lemma py_in_true v l : py_in v l = true ↔ ∃ w, w ∈ l ∧ py_in v [w] = true.
Proof.
  unfold py_in at 1. rewrite existsb_exists. setoid_rewrite <-list_elem_of_In.
  apply exist_proper. intros w. apply and_iff_compat_l. unfold py_in. cbn [existsb]. by rewrite orb_false_r.
Qed.

(** What is equal to a member is that member, or equal to its value. *)
Lemma py_eqb_member v m i :
  member_id m = Some i → py_eqb v m = true → member_id v = Some i ∨ py_eqb v (member_value m) = true.
Proof.
  destruct m as [| | | | | |c n w|c n s|c n x|]; try done; intros [= <-].
  - destruct v; try done; cbn; [by repeat case_match..|]. intros [->%String.eqb_eq ->%String.eqb_eq]%andb_true_iff.
    by left.
  - intros Hv. right. destruct v; exact Hv.
  - intros Hv. right. destruct v; exact Hv.
Qed.

Lemma decides_enum ms v : decides (assure_enum_type ms v) (has_type (TyEnum ms) v).
Proof.
  unfold assure_enum_type.
  assert (Hinv : has_type (TyEnum ms) v ↔ py_in v ms = true ∨ py_in v (member_value <$> ms) = true).
  { rewrite !py_in_true. split.
    - inversion 1 as [| | | | |? m ? i|? m| |]; subst.
      + left. exists m. split; [done|]. apply py_in_one. by left; exists i.
      + right. exists (member_value m). split; [|done]. apply list_elem_of_fmap. by exists m.
    - intros [(m & Hm & Hin)|(w & (m & -> & Hm)%list_elem_of_fmap & Hin)]; [|by eapply ht_enum_value].
      apply py_in_one in Hin as [(i & Hv & Hi)|Heq]; [by eapply ht_member|].
      destruct (member_id m) as [i|] eqn:Ei.
      + destruct (py_eqb_member v m i Ei Heq) as [Hv|Hv]; [by eapply ht_member|].
        eapply ht_enum_value; [done|]. apply py_in_one. by right.
      + eapply ht_enum_value; [done|]. apply py_in_one. right. by destruct m. }
  eapply decides_iff; [symmetry; exact Hinv|].
  destruct (py_in v ms); [by left|]. apply decides_if. naive_solver.
Qed.

Lemma all_ok_Forall {A} (f : A → result unit) l : all_ok f l = Ok tt → Forall (λ x, f x = Ok tt) l.
Proof.
  induction l as [|x l IH]; [constructor|]. cbn [all_ok]. intros ([] & Hx & Hl)%bind_Ok_iff.
  constructor; [done|by apply IH].
Qed.
Lemma any_ok_Exists {A} (f : A → result unit) l : any_ok f l = Ok tt → ∃ x, x ∈ l ∧ f x = Ok tt.
Proof.
  induction l as [|x l IH]; [done|]. cbn [any_ok]. destruct (f x) as [[]|e] eqn:E.
  - intros _. exists x. split; [by left|done].
  - destruct (is_validation e); [|done]. intros (y & Hy & Hf)%IH. exists y. split; [by right|done].
Qed.
Lemma revalidate_Ok r : revalidate r = Ok tt → r = Ok tt.
Proof. destruct r as [[]|e]; [done|]. cbn. by destruct (is_validation e). Qed.

(** What passes is of the type. *)
Lemma assure_type_sound t v : assure_type access t v = Ok tt → has_type t v.
Proof.
  revert v. induction t as [|t IH|k w IHk IHw|g|ts IH|ms|s|c] using ty_nested_ind; intros v; cbn [assure_type];
    try done.
  - destruct v; try done. intros Hall%all_ok_Forall. apply ht_list. eapply Forall_impl; [exact Hall|].
    intros x Hx%revalidate_Ok. by apply IH.
  - destruct v as [| | | | |d| | | |]; try done. intros Hall%all_ok_Forall. apply ht_dict.
    eapply Forall_impl; [exact Hall|]. intros x ([] & Hk%revalidate_Ok & Hw%revalidate_Ok)%bind_Ok_iff. auto.
  - intros (t & Ht & Hok)%any_ok_Exists. rewrite Forall_forall in IH. apply (ht_union t); [done|by apply IH].
  - intros Hok. pose proof (decides_enum ms v) as Hd. by rewrite Hok in Hd.
  - intros Hok. pose proof (decides_semantic s v) as Hd. rewrite Hok in Hd. by apply ht_semantic.
  - unfold isinstance. case_bool_decide; [|done]. by intros _; apply ht_class.
Qed.

Lemma assure_type_holds t v : checkable t = true → decides (assure_type access t v) (has_type t v).
Proof.
  revert v. induction t as [|t IH|k w IHk IHw|g|ts IH|ms|s|c] using ty_nested_ind; intros v; cbn [assure_type checkable];
    intros Hc; try done.
  - destruct v; try (intros _ H; by inversion H). eapply decides_iff; [|apply decides_all].
    + split; [by constructor|by inversion 1].
    + intros x _. by apply decides_revalidate, IH.
  - apply andb_true_iff in Hc as [Hk Hw].
    destruct v as [| | | | |d| | | |]; try (intros _ H; by inversion H). eapply decides_iff; [|apply decides_all].
    + split; [apply ht_dict|by inversion 1].
    + intros x _. cbn. apply decides_and; [|intros _]; apply decides_revalidate; auto.
  - eapply decides_iff; [|apply (decides_any _ (λ t, has_type t v))].
    + split; [intros (t & Ht & Hv); by eapply ht_union|inversion 1; eauto].
    + rewrite Forall_forall in IH |- *. rewrite forallb_forall in Hc. intros t Ht. apply IH; [done|].
      by apply Hc, list_elem_of_In.
  - apply decides_enum.
  - eapply decides_iff; [|apply decides_semantic]. split; [by constructor|by inversion 1].
  - apply decides_if. unfold isinstance. rewrite bool_decide_eq_true. split; [by constructor|by inversion 1].
Qed.

(** The exceptions of a check: a validation error, those of an address without a port and of a
    URL with a bracket, and for what cannot be checked the weak error. *)
Definition raises_only {A} (P : exn → Prop) (r : result A) : Prop := ∀ e, r = Raise e → P e.
Definition check_error (e : exn) : Prop := e = ValidationError ∨ e = IndexError ∨ e = ValueError.

Lemma raises_bind {A B} P (m : result A) (k : A → result B) :
  raises_only P m → (∀ a, raises_only P (k a)) → raises_only P (m ≫= k).
Proof. intros Hm Hk e. destruct m as [a|e']; cbn; [by apply Hk|]. intros [= <-]. by apply Hm. Qed.
Lemma raises_or_raise {A} (P : exn → Prop) e (o : option A) : P e → raises_only P (or_raise e o).
Proof. intros He e'. destruct o; [done|]. by intros [= <-]. Qed.
Lemma raises_Ok {A} P (a : A) : raises_only P (Ok a).
Proof. by intros e. Qed.
Lemma raises_Raise {A} (P : exn → Prop) e : P e → raises_only P (@Raise A e).
Proof. by intros He e' [= <-]. Qed.

Lemma check_ValidationError : check_error ValidationError. Proof. by left. Qed.
Lemma check_IndexError : check_error IndexError. Proof. by right; left. Qed.
Lemma check_ValueError : check_error ValueError. Proof. by right; right. Qed.
#[local] Hint Resolve raises_bind raises_or_raise raises_Ok raises_Raise
  check_ValidationError check_IndexError check_ValueError : core.

Lemma semantic_errors s v : raises_only check_error (semantic_assure access s v).
Proof.
  assert (Hl : ∀ x n, raises_only check_error (assure_max_str_length x n)).
  { intros x n. unfold assure_max_str_length. by case_match; auto. }
  assert (Hs : raises_only check_error (assure_str v)) by (apply raises_or_raise; auto).
  assert (Hn : raises_only check_error (assure_number v)) by (apply raises_or_raise; auto).
  destruct s; cbn [semantic_assure]; unfold str_assure, numeric_assure, url_assure, path_assure, ipport_assure;
    (apply raises_bind; [done|intros x]); [done|..];
    (apply raises_bind; [try apply Hl|intros _]).
  - unfold assure_min_numeric_value. by case_match; auto.
  - unfold assure_max_numeric_value. by case_match; auto.
  - apply raises_bind; [|intros u; apply raises_bind; [|intros _; apply raises_bind; [|intros _]]].
    + unfold urlparse. by repeat case_match; auto.
    + unfold assure_scheme_in_url. by case_match; auto.
    + unfold assure_netloc_in_url. by case_match; auto.
    + unfold assure_path_in_url. by repeat case_match; auto.
  - apply raises_bind; [|intros _; apply raises_bind; [|intros _]].
    + destruct (no_parent_facts x) as [-> _]. by case_match; auto.
    + unfold assure_absolute_path. by repeat case_match; auto.
    + unfold assure_permission_path. by repeat case_match; auto.
  - apply raises_bind; [auto|intros ip]. apply raises_bind; [auto|intros port].
    apply raises_bind; [|intros _]; [unfold assure_ip_format|unfold assure_port_format]; by case_match; auto.
Qed.

Lemma all_ok_errors {A} (f : A → result unit) l :
  (∀ x, raises_only check_error (f x)) → raises_only check_error (all_ok f l).
Proof. intros Hf. induction l as [|x l IH]; cbn [all_ok]; auto. Qed.

(** The annotations that are not looked at. *)
Definition unchecked (t : ty) : bool := match t with TyMissing | TyGeneric _ => true | _ => false end.

Lemma assure_type_errors t v :
  raises_only (λ e, if unchecked t then e = WeakValidationError else check_error e) (assure_type access t v).
Proof.
  assert (Hre : ∀ t v, raises_only (λ e, if unchecked t then e = WeakValidationError else check_error e)
                         (assure_type access t v) → raises_only check_error (revalidate (assure_type access t v))).
  { intros t' v' Ht e. destruct (assure_type access t' v') as [|e']; cbn; [done|]. specialize (Ht e' eq_refl).
    destruct (is_validation e') eqn:E; intros [= <-]; [auto|]. destruct (unchecked t'); [by subst e'|done]. }
  revert v. induction t as [|t IH|k w IHk IHw|g|ts IH|ms|s|c] using ty_nested_ind; intros v;
    cbn [assure_type unchecked]; try (by apply raises_Raise).
  - destruct v; auto. apply all_ok_errors. auto.
  - destruct v as [| | | | |d| | | |]; auto. apply all_ok_errors. auto.
  - induction IH as [|t ts Ht _ IHts]; cbn [any_ok]; auto.
    destruct (assure_type access t v) as [|e] eqn:E; auto. destruct (is_validation e) eqn:Ee; auto.
    apply raises_Raise. specialize (Ht v e E). destruct (unchecked t); [by subst e|done].
  - unfold assure_enum_type. by repeat case_match; auto.
  - apply semantic_errors.
  - by case_match; auto.
Qed.

(** C37 (type): the recursive check of a configured value against its annotation passes only
    values of the type, whatever the nesting of lists, dictionaries, unions and enumerations
    of any values (not a number being within all bounds).  An annotation that is missing, or
    a generic type the code does not know, is refused with the weak error; any other check that
    does not pass ends with a validation error, or with the error of an address without a port
    or of a URL with a bracket.  A validation error means that the value is not of the type,
    provided that all parts of the type can be checked. *)
Theorem assure_type_decides t v :
  match assure_type access t v with
  | Ok _ => has_type t v
  | Raise e =>
      if unchecked t then e = WeakValidationError
      else e = ValidationError ∧ (checkable t = true → ¬ has_type t v) ∨ e = IndexError ∨ e = ValueError
  end.
Proof.
  pose proof (assure_type_errors t v) as He. pose proof (assure_type_sound t v) as Hs.
  pose proof (assure_type_holds t v) as Hc.
  destruct (assure_type access t v) as [[]|e]; [by apply Hs|]. specialize (He e eq_refl). cbn beta in He.
  destruct (unchecked t); [done|]. destruct He as [->|[->| ->]]; [left|by right; left|by right; right].
  split; [done|]. intros Hck. by apply Hc.
Qed.

(** What a configured object was given has the types of its constructor; without the
    strict mode an annotation that cannot be checked is let through. *)
Lemma constructor_checked {A} strict_mode signature (init : dict string pyval → result A) node a :
  constructor access strict_mode signature init node = Ok a →
  ∀ name t v, (name, t) ∈ signature → dget (default [] node) name = Some v →
    has_type t v ∨ (strict_mode = false ∧ assure_type access t v = Raise WeakValidationError).
Proof.
  unfold constructor, check_arguments. intros (u & Hc & _)%bind_Ok_iff name t v Hin Hv.
  revert Hc. generalize (default [] node) as arguments, Hv. clear Hv. intros arguments Hv Hc.
  induction signature as [|[name' t'] signature IH]; [by apply not_elem_of_nil in Hin|].
  cbn [all_ok] in Hc. apply bind_Ok_iff in Hc as (u' & Hfirst & Hc).
  apply elem_of_cons in Hin as [[= <- <-]|Hin]; [|by apply IH]. rewrite Hv in Hfirst.
  pose proof (assure_type_sound t v) as Hd.
  destruct (assure_type access t v) as [[]|e]; [left; by apply Hd|]. right. case_bool_decide as He.
  - subst e. by destruct strict_mode.
  - by destruct (is_validation e).
Qed.
End typing.

(** ** Examples *)

(** [Union[List[Numeric(0, 1)], Dict[Str, CgroupDriverType]]] *)
Definition example_type : ty :=
  TyUnion [TyList (TySemantic (SNumeric (PInt 0) (PInt 1)));
           TyDict (TySemantic Str) (TyEnum [VStrEnum "CgroupDriverType" "SYSTEMD" "systemd";
                                            VStrEnum "CgroupDriverType" "CGROUPFS" "cgroupfs"])].

Example example_type_checks :
  assure_type (λ _ _, false) example_type (VList [VNum (PInt 1); VBool true]) = Ok tt ∧
  assure_type (λ _ _, false) example_type (VDict [(VStr "d", VStr "cgroupfs")]) = Ok tt ∧
  assure_type (λ _ _, false) example_type (VList [VNum (PInt 2)]) = Raise ValidationError ∧
  assure_type (λ _ _, false) (TySemantic IpPort) (VStr "127.0.0.1:80") = Ok tt ∧
  assure_type (λ _ _, false) (TySemantic Url) (VStr "https://host:80/x?y") = Ok tt.
Proof. vm_compute. done. Qed.

(** An address without a port raises [IndexError], which no caller expects. *)
Example ipport_without_port : assure_type (λ _ _, false) (TySemantic IpPort) (VStr "127.0.0.1") = Raise IndexError.
Proof. vm_compute. done. Qed.

(** Not a number is within all bounds. *)
Example nan_is_numeric :
  assure_type (λ _ _, false) (TySemantic (SNumeric (PInt 0) (PInt 60))) (VNum (PFloat S754_nan)) = Ok tt.
Proof. vm_compute. done. Qed.

(** A weak error inside a list is a strong one. *)
Example weak_error_in_list :
  assure_type (λ _ _, false) (TyGeneric "Iterable[int]") (VList [VNum (PInt 1)]) = Raise WeakValidationError ∧
  assure_type (λ _ _, false) (TyList (TyGeneric "Iterable[int]")) (VList [VNone]) = Raise ValidationError.
Proof. vm_compute. done. Qed.

(** An enumeration of numbers takes its members and what is equal to their values. *)
Definition FooEnum : list pyval := [VEnum "FooEnum" "BAR" (VNum (PInt 1)); VEnum "FooEnum" "BAZ" (VNum (PInt 2))].
Example enum_of_numbers :
  assure_type (λ _ _, false) (TyEnum FooEnum) (VEnum "FooEnum" "BAR" (VNum (PInt 1))) = Ok tt ∧
  assure_type (λ _ _, false) (TyEnum FooEnum) (VNum (PInt 1)) = Ok tt ∧
  assure_type (λ _ _, false) (TyEnum FooEnum) (VBool true) = Ok tt ∧
  assure_type (λ _ _, false) (TyEnum FooEnum) (VNum (PInt 3)) = Raise ValidationError ∧
  assure_type (λ _ _, false) (TyEnum FooEnum) (VStr "foo") = Raise ValidationError.
Proof. vm_compute. done. Qed.
