(* ===== verification/MetricsData.v ===== *)
(** * Metric names and their metadata

    The [MetricName] enumeration and the [METRICS_METADATA] table of
    [src/wca/metrics.py].  A metric name is the string the enumeration member
    stands for, because the code also uses plain strings (event names) as keys
    of measurements; the table is in the order of the source, cut into parts. *)
From S2P Require Export PyStr PyDict.

(** src/wca/metrics.py:177-182 [MetricType] *)
Inductive MetricType := GAUGE | COUNTER.
(** src/wca/metrics.py:188-194 [MetricGranularity] *)
Inductive MetricGranularity := G_PLATFORM | G_TASK | G_INTERNAL.
(** src/wca/metrics.py:197-206 [MetricUnit] *)
Inductive MetricUnit := U_BYTES | U_BYTES_PER_SECOND | U_SECONDS | U_NUMERIC | U_TIMESTAMP | U_WATTS.
(** src/wca/metrics.py:209-224 [MetricSource] *)
Inductive MetricSource :=
  | S_PERF_SUBSYSTEM_WITH_CGROUPS | S_PERF_SUBSYSTEM_UNCORE | S_RESCTRL | S_CGROUP | S_PROCFS
  | S_SYSFS | S_INTERNAL | S_DERIVED_PERF_WITH_CGROUPS | S_DERIVED_PERF_UNCORE | S_ORCHESTRATOR
  | S_DMIDECODE_BINARY | S_IPMCTL_BINARY
  | S_other (text : string). (* entries that give a path instead of a member *)

#[export] Instance MetricType_eq : EqDecision MetricType.
Proof. solve_decision. Defined.
#[export] Instance MetricGranularity_eq : EqDecision MetricGranularity.
Proof. solve_decision. Defined.
#[export] Instance MetricUnit_eq : EqDecision MetricUnit.
Proof. solve_decision. Defined.

(** src/wca/metrics.py:228-240 [MetricMetadata]
    The default [merge_operation], [sum], is the only one in the source; metrics
    registered by [add_metric] use it too. *)
Record MetricMetadata := mkMetadata {
  md_help : string;
  md_type : MetricType;
  md_unit : option MetricUnit;
  md_source : MetricSource;
  md_granularity : MetricGranularity;
  md_levels : list string;
  md_enabled : string
}.

Module MetricName.
(** src/wca/metrics.py:28-28 [MetricName.TASK_INSTRUCTIONS] *)
Definition TASK_INSTRUCTIONS : string := "task_instructions".
(** src/wca/metrics.py:29-29 [MetricName.TASK_CYCLES] *)
Definition TASK_CYCLES : string := "task_cycles".
(** src/wca/metrics.py:30-30 [MetricName.TASK_CACHE_MISSES] *)
Definition TASK_CACHE_MISSES : string := "task_cache_misses".
(** src/wca/metrics.py:31-31 [MetricName.TASK_CACHE_REFERENCES] *)
Definition TASK_CACHE_REFERENCES : string := "task_cache_references".
(** src/wca/metrics.py:32-32 [MetricName.TASK_STALLED_MEM_LOADS] *)
Definition TASK_STALLED_MEM_LOADS : string := "task_stalled_mem_loads".
(** src/wca/metrics.py:35-35 [MetricName.TASK_OFFCORE_REQUESTS_L3_MISS_DEMAND_DATA_RD] *)
Definition TASK_OFFCORE_REQUESTS_L3_MISS_DEMAND_DATA_RD : string := "task_offcore_requests_l3_miss_demand_data_rd".
(** src/wca/metrics.py:36-36 [MetricName.TASK_OFFCORE_REQUESTS_DEMAND_DATA_RD] *)
Definition TASK_OFFCORE_REQUESTS_DEMAND_DATA_RD : string := "task_offcore_requests_demand_data_rd".
(** src/wca/metrics.py:37-37 [MetricName.TASK_OFFCORE_REQUESTS_DEMAND_RFO] *)
Definition TASK_OFFCORE_REQUESTS_DEMAND_RFO : string := "task_offcore_requests_demand_rfo".
(** src/wca/metrics.py:38-39 [MetricName.TASK_OFFCORE_REQUESTS_OUTSTANDING_L3_MISS_DEMAND_DATA_RD] *)
Definition TASK_OFFCORE_REQUESTS_OUTSTANDING_L3_MISS_DEMAND_DATA_RD : string := "task_offcore_requests_outstanding_l3_miss_demand_data_rd".
(** src/wca/metrics.py:40-40 [MetricName.TASK_MEM_LOAD_RETIRED_LOCAL_PMM] *)
Definition TASK_MEM_LOAD_RETIRED_LOCAL_PMM : string := "task_mem_load_retired_local_pmm".
(** src/wca/metrics.py:41-41 [MetricName.TASK_MEM_LOAD_RETIRED_LOCAL_DRAM] *)
Definition TASK_MEM_LOAD_RETIRED_LOCAL_DRAM : string := "task_mem_load_retired_local_dram".
(** src/wca/metrics.py:42-42 [MetricName.TASK_MEM_LOAD_RETIRED_REMOTE_DRAM] *)
Definition TASK_MEM_LOAD_RETIRED_REMOTE_DRAM : string := "task_mem_load_retired_remote_dram".
(** src/wca/metrics.py:43-43 [MetricName.TASK_MEM_INST_RETIRED_LOADS] *)
Definition TASK_MEM_INST_RETIRED_LOADS : string := "task_mem_inst_retired_loads".
(** src/wca/metrics.py:44-44 [MetricName.TASK_MEM_INST_RETIRED_STORES] *)
Definition TASK_MEM_INST_RETIRED_STORES : string := "task_mem_inst_retired_stores".
(** src/wca/metrics.py:45-45 [MetricName.TASK_DTLB_LOAD_MISSES] *)
Definition TASK_DTLB_LOAD_MISSES : string := "task_dtlb_load_misses".
(** src/wca/metrics.py:47-47 [MetricName.TASK_SCALING_FACTOR_AVG] *)
Definition TASK_SCALING_FACTOR_AVG : string := "task_scaling_factor_avg".
(** src/wca/metrics.py:48-48 [MetricName.TASK_SCALING_FACTOR_MAX] *)
Definition TASK_SCALING_FACTOR_MAX : string := "task_scaling_factor_max".
(** src/wca/metrics.py:51-51 [MetricName.TASK_IPS] *)
Definition TASK_IPS : string := "task_ips".
(** src/wca/metrics.py:53-53 [MetricName.TASK_IPC] *)
Definition TASK_IPC : string := "task_ipc".
(** src/wca/metrics.py:55-55 [MetricName.TASK_CACHE_HIT_RATIO] *)
Definition TASK_CACHE_HIT_RATIO : string := "task_cache_hit_ratio".
(** src/wca/metrics.py:57-57 [MetricName.TASK_CACHE_MISSES_PER_KILO_INSTRUCTIONS] *)
Definition TASK_CACHE_MISSES_PER_KILO_INSTRUCTIONS : string := "task_cache_misses_per_kilo_instructions".
(** src/wca/metrics.py:60-60 [MetricName.TASK_LLC_OCCUPANCY_BYTES] *)
Definition TASK_LLC_OCCUPANCY_BYTES : string := "task_llc_occupancy_bytes".
(** src/wca/metrics.py:61-61 [MetricName.TASK_MEM_BANDWIDTH_BYTES] *)
Definition TASK_MEM_BANDWIDTH_BYTES : string := "task_mem_bandwidth_bytes".
(** src/wca/metrics.py:62-62 [MetricName.TASK_MEM_BANDWIDTH_LOCAL_BYTES] *)
Definition TASK_MEM_BANDWIDTH_LOCAL_BYTES : string := "task_mem_bandwidth_local_bytes".
(** src/wca/metrics.py:63-63 [MetricName.TASK_MEM_BANDWIDTH_REMOTE_BYTES] *)
Definition TASK_MEM_BANDWIDTH_REMOTE_BYTES : string := "task_mem_bandwidth_remote_bytes".
(** src/wca/metrics.py:66-66 [MetricName.TASK_CPU_USAGE_SECONDS] *)
Definition TASK_CPU_USAGE_SECONDS : string := "task_cpu_usage_seconds".
(** src/wca/metrics.py:67-67 [MetricName.TASK_MEM_USAGE_BYTES] *)
Definition TASK_MEM_USAGE_BYTES : string := "task_mem_usage_bytes".
(** src/wca/metrics.py:68-68 [MetricName.TASK_MEM_MAX_USAGE_BYTES] *)
Definition TASK_MEM_MAX_USAGE_BYTES : string := "task_mem_max_usage_bytes".
(** src/wca/metrics.py:69-69 [MetricName.TASK_MEM_LIMIT_BYTES] *)
Definition TASK_MEM_LIMIT_BYTES : string := "task_mem_limit_bytes".
(** src/wca/metrics.py:70-70 [MetricName.TASK_MEM_SOFT_LIMIT_BYTES] *)
Definition TASK_MEM_SOFT_LIMIT_BYTES : string := "task_mem_soft_limit_bytes".
(** src/wca/metrics.py:71-71 [MetricName.TASK_MEM_NUMA_PAGES] *)
Definition TASK_MEM_NUMA_PAGES : string := "task_mem_numa_pages".
(** src/wca/metrics.py:72-72 [MetricName.TASK_MEM_PAGE_FAULTS] *)
Definition TASK_MEM_PAGE_FAULTS : string := "task_mem_page_faults".
(** src/wca/metrics.py:75-75 [MetricName.TASK_WSS_REFERENCED_BYTES] *)
Definition TASK_WSS_REFERENCED_BYTES : string := "task_wss_referenced_bytes".
(** src/wca/metrics.py:76-76 [MetricName.TASK_WORKING_SET_SIZE_BYTES] *)
Definition TASK_WORKING_SET_SIZE_BYTES : string := "task_working_set_size_bytes".
(** src/wca/metrics.py:77-77 [MetricName.TASK_WSS_MEASURE_OVERHEAD_SECONDS] *)
Definition TASK_WSS_MEASURE_OVERHEAD_SECONDS : string := "task_wss_measure_overhead_seconds".
(** src/wca/metrics.py:78-78 [MetricName.TASK_SCHED_STAT] *)
Definition TASK_SCHED_STAT : string := "task_sched_stat".
(** src/wca/metrics.py:79-79 [MetricName.TASK_SCHED_STAT_NUMA_FAULTS] *)
Definition TASK_SCHED_STAT_NUMA_FAULTS : string := "task_sched_stat_numa_faults".
(** src/wca/metrics.py:83-83 [MetricName.TASK_REQUESTED_CPUS] *)
Definition TASK_REQUESTED_CPUS : string := "task_requested_cpus".
(** src/wca/metrics.py:84-84 [MetricName.TASK_REQUESTED_MEM_BYTES] *)
Definition TASK_REQUESTED_MEM_BYTES : string := "task_requested_mem_bytes".
(** src/wca/metrics.py:87-87 [MetricName.TASK_LAST_SEEN] *)
Definition TASK_LAST_SEEN : string := "task_last_seen".
(** src/wca/metrics.py:88-88 [MetricName.TASK_UP] *)
Definition TASK_UP : string := "task_up".
(** src/wca/metrics.py:89-89 [MetricName.TASK_SUBCONTAINERS] *)
Definition TASK_SUBCONTAINERS : string := "task_subcontainers".
(** src/wca/metrics.py:93-93 [MetricName.PLATFORM_TOPOLOGY_CORES] *)
Definition PLATFORM_TOPOLOGY_CORES : string := "platform_topology_cores".
(** src/wca/metrics.py:94-94 [MetricName.PLATFORM_TOPOLOGY_CPUS] *)
Definition PLATFORM_TOPOLOGY_CPUS : string := "platform_topology_cpus".
(** src/wca/metrics.py:95-95 [MetricName.PLATFORM_TOPOLOGY_SOCKETS] *)
Definition PLATFORM_TOPOLOGY_SOCKETS : string := "platform_topology_sockets".
(** src/wca/metrics.py:97-97 [MetricName.PLATFORM_DIMM_COUNT] *)
Definition PLATFORM_DIMM_COUNT : string := "platform_dimm_count".
(** src/wca/metrics.py:98-98 [MetricName.PLATFORM_DIMM_TOTAL_SIZE_BYTES] *)
Definition PLATFORM_DIMM_TOTAL_SIZE_BYTES : string := "platform_dimm_total_size_bytes".
(** src/wca/metrics.py:99-99 [MetricName.PLATFORM_MEM_MODE_SIZE_BYTES] *)
Definition PLATFORM_MEM_MODE_SIZE_BYTES : string := "platform_mem_mode_size_bytes".
(** src/wca/metrics.py:100-100 [MetricName.PLATFORM_DIMM_SPEED_BYTES_PER_SECOND] *)
Definition PLATFORM_DIMM_SPEED_BYTES_PER_SECOND : string := "platform_dimm_speed_bytes_per_second".
(** src/wca/metrics.py:105-105 [MetricName.PLATFORM_CPU_USAGE] *)
Definition PLATFORM_CPU_USAGE : string := "platform_cpu_usage".
(** src/wca/metrics.py:108-108 [MetricName.PLATFORM_MEM_USAGE_BYTES] *)
Definition PLATFORM_MEM_USAGE_BYTES : string := "platform_mem_usage_bytes".
(** src/wca/metrics.py:111-111 [MetricName.PLATFORM_MEM_NUMA_FREE_BYTES] *)
Definition PLATFORM_MEM_NUMA_FREE_BYTES : string := "platform_mem_numa_free_bytes".
(** src/wca/metrics.py:112-112 [MetricName.PLATFORM_MEM_NUMA_USED_BYTES] *)
Definition PLATFORM_MEM_NUMA_USED_BYTES : string := "platform_mem_numa_used_bytes".
(** src/wca/metrics.py:115-115 [MetricName.PLATFORM_VMSTAT_NUMA_PAGES_MIGRATED] *)
Definition PLATFORM_VMSTAT_NUMA_PAGES_MIGRATED : string := "platform_vmstat_numa_pages_migrated".
(** src/wca/metrics.py:116-116 [MetricName.PLATFORM_VMSTAT_PGMIGRATE_SUCCESS] *)
Definition PLATFORM_VMSTAT_PGMIGRATE_SUCCESS : string := "platform_vmstat_pgmigrate_success".
(** src/wca/metrics.py:117-117 [MetricName.PLATFORM_VMSTAT_PGMIGRATE_FAIL] *)
Definition PLATFORM_VMSTAT_PGMIGRATE_FAIL : string := "platform_vmstat_pgmigrate_fail".
(** src/wca/metrics.py:118-118 [MetricName.PLATFORM_VMSTAT_NUMA_HINT_FAULTS] *)
Definition PLATFORM_VMSTAT_NUMA_HINT_FAULTS : string := "platform_vmstat_numa_hint_faults".
(** src/wca/metrics.py:119-119 [MetricName.PLATFORM_VMSTAT_NUMA_HINT_FAULTS_LOCAL] *)
Definition PLATFORM_VMSTAT_NUMA_HINT_FAULTS_LOCAL : string := "platform_vmstat_numa_hint_faults_local".
(** src/wca/metrics.py:120-120 [MetricName.PLATFORM_VMSTAT_PGFAULTS] *)
Definition PLATFORM_VMSTAT_PGFAULTS : string := "platform_vmstat_pgfaults".
(** src/wca/metrics.py:121-121 [MetricName.PLATFORM_VMSTAT] *)
Definition PLATFORM_VMSTAT : string := "platform_vmstat".
(** src/wca/metrics.py:122-122 [MetricName.PLATFORM_NODE_VMSTAT] *)
Definition PLATFORM_NODE_VMSTAT : string := "platform_node_vmstat".
(** src/wca/metrics.py:125-125 [MetricName.PLATFORM_PMM_BANDWIDTH_READS] *)
Definition PLATFORM_PMM_BANDWIDTH_READS : string := "platform_pmm_bandwidth_reads".
(** src/wca/metrics.py:126-126 [MetricName.PLATFORM_PMM_BANDWIDTH_WRITES] *)
Definition PLATFORM_PMM_BANDWIDTH_WRITES : string := "platform_pmm_bandwidth_writes".
(** src/wca/metrics.py:127-127 [MetricName.PLATFORM_CAS_COUNT_READS] *)
Definition PLATFORM_CAS_COUNT_READS : string := "platform_cas_count_reads".
(** src/wca/metrics.py:128-128 [MetricName.PLATFORM_CAS_COUNT_WRITES] *)
Definition PLATFORM_CAS_COUNT_WRITES : string := "platform_cas_count_writes".
(** src/wca/metrics.py:129-129 [MetricName.PLATFORM_UPI_RXL_FLITS] *)
Definition PLATFORM_UPI_RXL_FLITS : string := "platform_upi_rxl_flits".
(** src/wca/metrics.py:130-130 [MetricName.PLATFORM_UPI_TXL_FLITS] *)
Definition PLATFORM_UPI_TXL_FLITS : string := "platform_upi_txl_flits".
(** src/wca/metrics.py:131-131 [MetricName.PLATFORM_RPQ_OCCUPANCY] *)
Definition PLATFORM_RPQ_OCCUPANCY : string := "platform_rpq_occupancy".
(** src/wca/metrics.py:132-132 [MetricName.PLATFORM_RPQ_INSERTS] *)
Definition PLATFORM_RPQ_INSERTS : string := "platform_rpq_inserts".
(** src/wca/metrics.py:133-133 [MetricName.PLATFORM_IMC_CLOCKTICKS] *)
Definition PLATFORM_IMC_CLOCKTICKS : string := "platform_imc_clockticks".
(** src/wca/metrics.py:134-134 [MetricName.PLATFORM_RPQ_READ_LATENCY_SECONDS] *)
Definition PLATFORM_RPQ_READ_LATENCY_SECONDS : string := "platform_rpq_read_latency_seconds".
(** src/wca/metrics.py:136-136 [MetricName.PLATFORM_PMM_READS_BYTES_PER_SECOND] *)
Definition PLATFORM_PMM_READS_BYTES_PER_SECOND : string := "platform_pmm_reads_bytes_per_second".
(** src/wca/metrics.py:137-137 [MetricName.PLATFORM_PMM_WRITES_BYTES_PER_SECOND] *)
Definition PLATFORM_PMM_WRITES_BYTES_PER_SECOND : string := "platform_pmm_writes_bytes_per_second".
(** src/wca/metrics.py:138-138 [MetricName.PLATFORM_PMM_TOTAL_BYTES_PER_SECOND] *)
Definition PLATFORM_PMM_TOTAL_BYTES_PER_SECOND : string := "platform_pmm_total_bytes_per_second".
(** src/wca/metrics.py:139-139 [MetricName.PLATFORM_DRAM_READS_BYTES_PER_SECOND] *)
Definition PLATFORM_DRAM_READS_BYTES_PER_SECOND : string := "platform_dram_reads_bytes_per_second".
(** src/wca/metrics.py:140-140 [MetricName.PLATFORM_DRAM_WRITES_BYTES_PER_SECOND] *)
Definition PLATFORM_DRAM_WRITES_BYTES_PER_SECOND : string := "platform_dram_writes_bytes_per_second".
(** src/wca/metrics.py:141-141 [MetricName.PLATFORM_DRAM_TOTAL_BYTES_PER_SECOND] *)
Definition PLATFORM_DRAM_TOTAL_BYTES_PER_SECOND : string := "platform_dram_total_bytes_per_second".
(** src/wca/metrics.py:142-142 [MetricName.PLATFORM_DRAM_HIT_RATIO] *)
Definition PLATFORM_DRAM_HIT_RATIO : string := "platform_dram_hit_ratio".
(** src/wca/metrics.py:144-144 [MetricName.PLATFORM_UPI_BANDWIDTH_BYTES_PER_SECOND] *)
Definition PLATFORM_UPI_BANDWIDTH_BYTES_PER_SECOND : string := "platform_upi_bandwidth_bytes_per_second".
(** src/wca/metrics.py:146-146 [MetricName.PLATFORM_SCALING_UNCORE_FACTOR] *)
Definition PLATFORM_SCALING_UNCORE_FACTOR : string := "platform_scaling_uncore_factor".
(** src/wca/metrics.py:149-149 [MetricName.PLATFORM_ZONEINFO] *)
Definition PLATFORM_ZONEINFO : string := "platform_zoneinfo".
(** src/wca/metrics.py:152-152 [MetricName.PLATFORM_LAST_SEEN] *)
Definition PLATFORM_LAST_SEEN : string := "platform_last_seen".
(** src/wca/metrics.py:155-155 [MetricName.WCA_UP] *)
Definition WCA_UP : string := "wca_up".
(** src/wca/metrics.py:156-156 [MetricName.WCA_INFORMATION] *)
Definition WCA_INFORMATION : string := "wca_information".
(** src/wca/metrics.py:157-157 [MetricName.WCA_TASKS] *)
Definition WCA_TASKS : string := "wca_tasks".
(** src/wca/metrics.py:158-158 [MetricName.WCA_MEM_USAGE_BYTES] *)
Definition WCA_MEM_USAGE_BYTES : string := "wca_mem_usage_bytes".
(** src/wca/metrics.py:159-159 [MetricName.WCA_DURATION_SECONDS] *)
Definition WCA_DURATION_SECONDS : string := "wca_duration_seconds".
(** src/wca/metrics.py:160-160 [MetricName.WCA_DURATION_SECONDS_AVG] *)
Definition WCA_DURATION_SECONDS_AVG : string := "wca_duration_seconds_avg".
(** src/wca/metrics.py:162-162 [MetricName.PLATFORM_CAPACITY_PER_NVDIMM_BYTES] *)
Definition PLATFORM_CAPACITY_PER_NVDIMM_BYTES : string := "platform_capacity_per_nvdimm_bytes".
(** src/wca/metrics.py:163-163 [MetricName.PLATFORM_AVG_POWER_PER_NVDIMM_WATTS] *)
Definition PLATFORM_AVG_POWER_PER_NVDIMM_WATTS : string := "platform_avg_power_per_nvdimm_watts".
(** src/wca/metrics.py:164-165 [MetricName.PLATFORM_NVDIMM_READ_BANDWIDTH_BYTES_PER_SECOND] *)
Definition PLATFORM_NVDIMM_READ_BANDWIDTH_BYTES_PER_SECOND : string := "platform_nvdimm_read_bandwidth_bytes_per_second".
(** src/wca/metrics.py:166-167 [MetricName.PLATFORM_NVDIMM_WRITE_BANDWIDTH_BYTES_PER_SECOND] *)
Definition PLATFORM_NVDIMM_WRITE_BANDWIDTH_BYTES_PER_SECOND : string := "platform_nvdimm_write_bandwidth_bytes_per_second".

(** src/wca/metrics.py:25-174 [MetricName] The members in order. *)
Definition members : list string :=
  [ TASK_INSTRUCTIONS;
    TASK_CYCLES;
    TASK_CACHE_MISSES;
    TASK_CACHE_REFERENCES;
    TASK_STALLED_MEM_LOADS;
    TASK_OFFCORE_REQUESTS_L3_MISS_DEMAND_DATA_RD;
    TASK_OFFCORE_REQUESTS_DEMAND_DATA_RD;
    TASK_OFFCORE_REQUESTS_DEMAND_RFO;
    TASK_OFFCORE_REQUESTS_OUTSTANDING_L3_MISS_DEMAND_DATA_RD;
    TASK_MEM_LOAD_RETIRED_LOCAL_PMM;
    TASK_MEM_LOAD_RETIRED_LOCAL_DRAM;
    TASK_MEM_LOAD_RETIRED_REMOTE_DRAM;
    TASK_MEM_INST_RETIRED_LOADS;
    TASK_MEM_INST_RETIRED_STORES;
    TASK_DTLB_LOAD_MISSES;
    TASK_SCALING_FACTOR_AVG;
    TASK_SCALING_FACTOR_MAX;
    TASK_IPS;
    TASK_IPC;
    TASK_CACHE_HIT_RATIO;
    TASK_CACHE_MISSES_PER_KILO_INSTRUCTIONS;
    TASK_LLC_OCCUPANCY_BYTES;
    TASK_MEM_BANDWIDTH_BYTES;
    TASK_MEM_BANDWIDTH_LOCAL_BYTES;
    TASK_MEM_BANDWIDTH_REMOTE_BYTES;
    TASK_CPU_USAGE_SECONDS;
    TASK_MEM_USAGE_BYTES;
    TASK_MEM_MAX_USAGE_BYTES;
    TASK_MEM_LIMIT_BYTES;
    TASK_MEM_SOFT_LIMIT_BYTES;
    TASK_MEM_NUMA_PAGES;
    TASK_MEM_PAGE_FAULTS;
    TASK_WSS_REFERENCED_BYTES;
    TASK_WORKING_SET_SIZE_BYTES;
    TASK_WSS_MEASURE_OVERHEAD_SECONDS;
    TASK_SCHED_STAT;
    TASK_SCHED_STAT_NUMA_FAULTS;
    TASK_REQUESTED_CPUS;
    TASK_REQUESTED_MEM_BYTES;
    TASK_LAST_SEEN;
    TASK_UP;
    TASK_SUBCONTAINERS;
    PLATFORM_TOPOLOGY_CORES;
    PLATFORM_TOPOLOGY_CPUS;
    PLATFORM_TOPOLOGY_SOCKETS;
    PLATFORM_DIMM_COUNT;
    PLATFORM_DIMM_TOTAL_SIZE_BYTES;
    PLATFORM_MEM_MODE_SIZE_BYTES;
    PLATFORM_DIMM_SPEED_BYTES_PER_SECOND;
    PLATFORM_CPU_USAGE;
    PLATFORM_MEM_USAGE_BYTES;
    PLATFORM_MEM_NUMA_FREE_BYTES;
    PLATFORM_MEM_NUMA_USED_BYTES;
    PLATFORM_VMSTAT_NUMA_PAGES_MIGRATED;
    PLATFORM_VMSTAT_PGMIGRATE_SUCCESS;
    PLATFORM_VMSTAT_PGMIGRATE_FAIL;
    PLATFORM_VMSTAT_NUMA_HINT_FAULTS;
    PLATFORM_VMSTAT_NUMA_HINT_FAULTS_LOCAL;
    PLATFORM_VMSTAT_PGFAULTS;
    PLATFORM_VMSTAT;
    PLATFORM_NODE_VMSTAT;
    PLATFORM_PMM_BANDWIDTH_READS;
    PLATFORM_PMM_BANDWIDTH_WRITES;
    PLATFORM_CAS_COUNT_READS;
    PLATFORM_CAS_COUNT_WRITES;
    PLATFORM_UPI_RXL_FLITS;
    PLATFORM_UPI_TXL_FLITS;
    PLATFORM_RPQ_OCCUPANCY;
    PLATFORM_RPQ_INSERTS;
    PLATFORM_IMC_CLOCKTICKS;
    PLATFORM_RPQ_READ_LATENCY_SECONDS;
    PLATFORM_PMM_READS_BYTES_PER_SECOND;
    PLATFORM_PMM_WRITES_BYTES_PER_SECOND;
    PLATFORM_PMM_TOTAL_BYTES_PER_SECOND;
    PLATFORM_DRAM_READS_BYTES_PER_SECOND;
    PLATFORM_DRAM_WRITES_BYTES_PER_SECOND;
    PLATFORM_DRAM_TOTAL_BYTES_PER_SECOND;
    PLATFORM_DRAM_HIT_RATIO;
    PLATFORM_UPI_BANDWIDTH_BYTES_PER_SECOND;
    PLATFORM_SCALING_UNCORE_FACTOR;
    PLATFORM_ZONEINFO;
    PLATFORM_LAST_SEEN;
    WCA_UP;
    WCA_INFORMATION;
    WCA_TASKS;
    WCA_MEM_USAGE_BYTES;
    WCA_DURATION_SECONDS;
    WCA_DURATION_SECONDS_AVG;
    PLATFORM_CAPACITY_PER_NVDIMM_BYTES;
    PLATFORM_AVG_POWER_PER_NVDIMM_WATTS;
    PLATFORM_NVDIMM_READ_BANDWIDTH_BYTES_PER_SECOND;
    PLATFORM_NVDIMM_WRITE_BANDWIDTH_BYTES_PER_SECOND ].
End MetricName.

(** src/wca/metrics.py:244-382 [METRICS_METADATA] part 1 *)
Definition metadata_1 : list (string * MetricMetadata) :=
  [ (MetricName.TASK_INSTRUCTIONS,
     mkMetadata "Hardware PMU counter for number of instructions (PERF_COUNT_HW_INSTRUCTIONS). Fixed counter. Predefined perf PERF_TYPE_HARDWARE. Please man perf_event_open for more details."
       COUNTER (Some U_NUMERIC) S_PERF_SUBSYSTEM_WITH_CGROUPS G_TASK [] "no (event_names)");
    (MetricName.TASK_CYCLES,
     mkMetadata "Hardware PMU counter for number of cycles (PERF_COUNT_HW_CPU_CYCLES). Fixed counter. Predefined perf PERF_TYPE_HARDWARE. Please man perf_event_open for more details."
       COUNTER (Some U_NUMERIC) S_PERF_SUBSYSTEM_WITH_CGROUPS G_TASK [] "no (event_names)");
    (MetricName.TASK_CACHE_MISSES,
     mkMetadata "Hardware PMU counter for cache-misses (PERF_COUNT_HW_CACHE_MISSES).Predefined perf PERF_TYPE_HARDWARE. Please man perf_event_open for more details."
       COUNTER (Some U_NUMERIC) S_PERF_SUBSYSTEM_WITH_CGROUPS G_TASK [] "no (event_names)");
    (MetricName.TASK_CACHE_REFERENCES,
     mkMetadata "Hardware PMU counter for number of cache references (PERF_COUNT_HW_CACHE_REFERENCES).Predefined perf PERF_TYPE_HARDWARE. Please man perf_event_open for more details."
       COUNTER (Some U_NUMERIC) S_PERF_SUBSYSTEM_WITH_CGROUPS G_TASK [] "no (event_names)");
    (MetricName.TASK_STALLED_MEM_LOADS,
     mkMetadata "Execution stalls while memory subsystem has an outstanding load.CYCLE_ACTIVITY.STALLS_MEM_ANYIntel SDM October 2019 19-24 Vol. 3B, Table 19-3"
       COUNTER (Some U_NUMERIC) S_PERF_SUBSYSTEM_WITH_CGROUPS G_TASK [] "no (event_names)");
    (MetricName.TASK_OFFCORE_REQUESTS_L3_MISS_DEMAND_DATA_RD,
     mkMetadata "Increment each cycle of the number of offcore outstanding demand data read requests from SQ that missed L3.Counts number of Offcore outstanding Demand Data Read requests that miss L3 cache in the superQ every cycle.OFFCORE_REQUESTS_OUTSTANDING.L3_MISS_DEMAND_DATA_RDIntel SDM October 2019 19-24 Vol. 3B, Table 19-3"
       COUNTER (Some U_NUMERIC) S_PERF_SUBSYSTEM_WITH_CGROUPS G_TASK [] "no (event_names)");
    (MetricName.TASK_OFFCORE_REQUESTS_DEMAND_DATA_RD,
     mkMetadata "Counts the Demand Data Read requests sent to uncore. OFFCORE_REQUESTS.DEMAND_DATA_RD Intel SDM October 2019 19-24 Vol. 3B, Table 19-3"
       COUNTER (Some U_NUMERIC) S_PERF_SUBSYSTEM_WITH_CGROUPS G_TASK [] "no (event_names)");
    (MetricName.TASK_OFFCORE_REQUESTS_DEMAND_RFO,
     mkMetadata "Demand RFO read requests sent to uncore, including regular RFOs, locks, ItoM. OFFCORE_REQUESTS.DEMAND_RFO Intel SDM October 2019 19-24 Vol. 3B, Table 19-3"
       COUNTER (Some U_NUMERIC) S_PERF_SUBSYSTEM_WITH_CGROUPS G_TASK [] "no (event_names)");
    (MetricName.TASK_OFFCORE_REQUESTS_OUTSTANDING_L3_MISS_DEMAND_DATA_RD,
     mkMetadata "Demand Data Read requests who miss L3 cache. OFFCORE_REQUESTS.L3_MISS_DEMAND_DATA_RD.Intel SDM October 2019 19-24 Vol. 3B, Table 19-3"
       COUNTER (Some U_NUMERIC) S_PERF_SUBSYSTEM_WITH_CGROUPS G_TASK [] "no (event_names)");
    (MetricName.TASK_MEM_LOAD_RETIRED_LOCAL_PMM,
     mkMetadata "Retired load instructions with local Intel® Optane™ DC persistent memory as the data source and the datarequest missed L3 (AppDirect or Memory Mode), and DRAM cache (Memory Mode). MEM_LOAD_RETIRED.LOCAL_PMM (Mnemonic) For CLX, Intel SDM October 2019 19-24 Vol. 3B, Table 19-4"
       COUNTER (Some U_NUMERIC) S_PERF_SUBSYSTEM_WITH_CGROUPS G_TASK [] "no (event_names)");
    (MetricName.TASK_MEM_LOAD_RETIRED_LOCAL_DRAM,
     mkMetadata "Retired load instructions which data sources missed L3 but serviced from local DRAM.MEM_LOAD_L3_MISS_RETIRED.LOCAL_DRAM Intel SDM October 2019 Chapters 19-24 Vol. 3B Table 19-3"
       COUNTER (Some U_NUMERIC) S_PERF_SUBSYSTEM_WITH_CGROUPS G_TASK [] "no (event_names)") ].

(** src/wca/metrics.py:383-520 [METRICS_METADATA] part 2 *)
Definition metadata_2 : list (string * MetricMetadata) :=
  [ (MetricName.TASK_MEM_LOAD_RETIRED_REMOTE_DRAM,
     mkMetadata "Retired load instructions which data sources missed L3 but serviced from remote dram. MEM_LOAD_L3_MISS_RETIRED.REMOTE_DRAMIntel SDM October 2019 Chapters 19-24 Vol. 3B Table 19-3"
       COUNTER (Some U_NUMERIC) S_PERF_SUBSYSTEM_WITH_CGROUPS G_TASK [] "no (event_names)");
    (MetricName.TASK_MEM_INST_RETIRED_LOADS,
     mkMetadata "MEM_INST_RETIRED.ALL_LOADS All retired load instructions. Intel SDM October 2019 Chapters 19-24 Vol. 3B Table 19-3"
       COUNTER (Some U_NUMERIC) S_PERF_SUBSYSTEM_WITH_CGROUPS G_TASK [] "no (event_names)");
    (MetricName.TASK_MEM_INST_RETIRED_STORES,
     mkMetadata "MEM_INST_RETIRED.ALL_STORES All retired store instructions. Intel SDM October 2019 Chapters 19-24 Vol. 3B Table 19-3"
       COUNTER (Some U_NUMERIC) S_PERF_SUBSYSTEM_WITH_CGROUPS G_TASK [] "no (event_names)");
    (MetricName.TASK_DTLB_LOAD_MISSES,
     mkMetadata "DTLB_LOAD_MISSES.WALK_COMPLETEDCounts demand data loads that caused a completedpage walk of any page size (4K/2M/4M/1G). This impliesit missed in all TLB levels. The page walk can end withor without a faultIntel SDM October 2019 Chapters 19-24 Vol. 3B Table 19-3"
       COUNTER (Some U_NUMERIC) S_PERF_SUBSYSTEM_WITH_CGROUPS G_TASK [] "no (event_names)");
    (MetricName.TASK_SCALING_FACTOR_AVG,
     mkMetadata "Perf subsystem metric scaling factor, averaged value of all events and cpus (value 1.0 is the best, meaning that there is no scaling at all for any metric)."
       GAUGE (Some U_NUMERIC) S_PERF_SUBSYSTEM_WITH_CGROUPS G_TASK [] "auto (depending on event_names)");
    (MetricName.TASK_SCALING_FACTOR_MAX,
     mkMetadata "Perf subsystem metric scaling factor, maximum value of all events and cpus (value 1.0 is the best, meaning that there is no scaling at all for any metric)."
       GAUGE (Some U_NUMERIC) S_PERF_SUBSYSTEM_WITH_CGROUPS G_TASK [] "auto (depending on event_names)");
    (MetricName.TASK_IPS,
     mkMetadata "Instructions per second."
       GAUGE (Some U_NUMERIC) S_DERIVED_PERF_WITH_CGROUPS G_TASK [] "no (enable_derived_metrics)");
    (MetricName.TASK_IPC,
     mkMetadata "Instructions per cycle."
       GAUGE (Some U_NUMERIC) S_DERIVED_PERF_WITH_CGROUPS G_TASK [] "no (enable_derived_metrics)");
    (MetricName.TASK_CACHE_HIT_RATIO,
     mkMetadata "Cache hit ratio, based on cache-misses and cache-references."
       GAUGE (Some U_NUMERIC) S_DERIVED_PERF_WITH_CGROUPS G_TASK [] "no (enable_derived_metrics)");
    (MetricName.TASK_CACHE_MISSES_PER_KILO_INSTRUCTIONS,
     mkMetadata "Cache misses per kilo instructions."
       GAUGE (Some U_NUMERIC) S_DERIVED_PERF_WITH_CGROUPS G_TASK [] "no (enable_derived_metrics)");
    (MetricName.TASK_LLC_OCCUPANCY_BYTES,
     mkMetadata "LLC occupancy from resctrl filesystem based on Intel RDT technology."
       GAUGE (Some U_BYTES) S_RESCTRL G_TASK [] "auto (rdt_enabled)");
    (MetricName.TASK_MEM_BANDWIDTH_BYTES,
     mkMetadata "Total memory bandwidth using Memory Bandwidth Monitoring."
       COUNTER (Some U_BYTES) S_RESCTRL G_TASK [] "auto (rdt_enabled)") ].

(** src/wca/metrics.py:521-655 [METRICS_METADATA] part 3 *)
Definition metadata_3 : list (string * MetricMetadata) :=
  [ (MetricName.TASK_MEM_BANDWIDTH_LOCAL_BYTES,
     mkMetadata "Total local memory bandwidth using Memory Bandwidth Monitoring."
       COUNTER (Some U_BYTES) S_RESCTRL G_TASK [] "auto (rdt_enabled)");
    (MetricName.TASK_MEM_BANDWIDTH_REMOTE_BYTES,
     mkMetadata "Total remote memory bandwidth using Memory Bandwidth Monitoring."
       COUNTER (Some U_BYTES) S_RESCTRL G_TASK [] "auto (rdt_enabled)");
    (MetricName.TASK_CPU_USAGE_SECONDS,
     mkMetadata "Time taken by task based on cpuacct.usage (total kernel and user space)."
       COUNTER (Some U_SECONDS) S_CGROUP G_TASK [] "yes");
    (MetricName.TASK_MEM_USAGE_BYTES,
     mkMetadata "Memory usage_in_bytes per tasks returned from cgroup memory subsystem."
       GAUGE (Some U_BYTES) S_CGROUP G_TASK [] "yes");
    (MetricName.TASK_MEM_MAX_USAGE_BYTES,
     mkMetadata "Memory max_usage_in_bytes per tasks returned from cgroup memory subsystem."
       GAUGE (Some U_BYTES) S_CGROUP G_TASK [] "yes");
    (MetricName.TASK_MEM_LIMIT_BYTES,
     mkMetadata "Memory limit_in_bytes per tasks returned from cgroup memory subsystem."
       GAUGE (Some U_BYTES) S_CGROUP G_TASK [] "yes");
    (MetricName.TASK_MEM_SOFT_LIMIT_BYTES,
     mkMetadata "Memory soft_limit_in_bytes per tasks returned from cgroup memory subsystem."
       GAUGE (Some U_BYTES) S_CGROUP G_TASK [] "yes");
    (MetricName.TASK_MEM_NUMA_PAGES,
     mkMetadata "Number of used pages per NUMA node(key: hierarchical_total is used if available or justtotal with warning), from cgroup memory controller from memory.numa_stat file."
       GAUGE (Some U_NUMERIC) S_CGROUP G_TASK ["numa_node"] "yes");
    (MetricName.TASK_MEM_PAGE_FAULTS,
     mkMetadata "Number of page faults for task."
       COUNTER (Some U_NUMERIC) S_CGROUP G_TASK [] "yes");
    (MetricName.TASK_WSS_REFERENCED_BYTES,
     mkMetadata "Task referenced bytes during last measurements cycle based on /proc/smaps Referenced field, with /proc/PIDs/clear_refs set to after task gets stable.Warning: this is intrusive collection, because can influence kernel page reclaim policy and add latency.Refer to https://github.com/brendangregg/wss#wsspl-referenced-page-flag for more details."
       GAUGE (Some U_BYTES) (S_other "/proc/PIDS/smaps") G_TASK [] "no (wss_reset_cycles)");
    (MetricName.TASK_WORKING_SET_SIZE_BYTES,
     mkMetadata "Task referenced bytes during last stable measurements cycle based on /proc/smaps Referenced field, with /proc/PIDs/clear_refs set to after task gets stable.Warning: this is intrusive collection, because can influence kernel page reclaim policy and add latency.Refer to https://github.com/brendangregg/wss#wsspl-referenced-page-flag for more details."
       GAUGE (Some U_BYTES) (S_other "/proc/PIDS/smaps") G_TASK [] "no (wss_reset_cycles)");
    (MetricName.TASK_WSS_MEASURE_OVERHEAD_SECONDS,
     mkMetadata "Seconds that WCA agent spent (kernel time) waiting for /proc/smapsor reseting accessed_bits "
       COUNTER (Some U_SECONDS) (S_other "/proc/PIDS/smaps /proc/PIDS/clear_refs") G_TASK [] "no (wss_reset_cycles)") ].

(** src/wca/metrics.py:656-791 [METRICS_METADATA] part 4 *)
Definition metadata_4 : list (string * MetricMetadata) :=
  [ (MetricName.TASK_SCHED_STAT,
     mkMetadata "Aggregated statistics for all pids in task (sum from all pids) from /proc/PID/sched. Each field is represented by its own key label"
       COUNTER None (S_other "/proc/PIDS/sched") G_TASK ["key"] "no (sched)");
    (MetricName.TASK_SCHED_STAT_NUMA_FAULTS,
     mkMetadata "Aggregated statistics for all pids in task from /proc/PID/sched only but only numa_faults line (sum is used as default aggregation function). Different numa_fault fields are represented by fault_type and numa_node labels"
       COUNTER None (S_other "/proc/PIDS/sched") G_TASK ["numa_node"; "fault_type"] "no (sched)");
    (MetricName.TASK_REQUESTED_CPUS,
     mkMetadata "Tasks resources cpus initial requests."
       GAUGE (Some U_NUMERIC) S_ORCHESTRATOR G_TASK [] "yes");
    (MetricName.TASK_REQUESTED_MEM_BYTES,
     mkMetadata "Tasks resources memory initial requests."
       GAUGE (Some U_BYTES) S_ORCHESTRATOR G_TASK [] "yes");
    (MetricName.TASK_LAST_SEEN,
     mkMetadata "Time the task was last seen."
       COUNTER (Some U_TIMESTAMP) S_INTERNAL G_TASK [] "yes");
    (MetricName.TASK_UP,
     mkMetadata "Always returns 1 for running task."
       COUNTER (Some U_NUMERIC) S_INTERNAL G_TASK [] "yes");
    (MetricName.TASK_SUBCONTAINERS,
     mkMetadata "Returns number of Kubernetes Pod Containers or 0 for others."
       GAUGE (Some U_NUMERIC) S_INTERNAL G_TASK [] "yes");
    (MetricName.PLATFORM_TOPOLOGY_CORES,
     mkMetadata "Platform information about number of physical cores"
       GAUGE (Some U_NUMERIC) S_INTERNAL G_PLATFORM [] "yes");
    (MetricName.PLATFORM_TOPOLOGY_CPUS,
     mkMetadata "Platform information about number of logical cpus"
       GAUGE (Some U_NUMERIC) S_INTERNAL G_PLATFORM [] "yes");
    (MetricName.PLATFORM_TOPOLOGY_SOCKETS,
     mkMetadata "Platform information about number of sockets"
       GAUGE (Some U_NUMERIC) S_INTERNAL G_PLATFORM [] "yes");
    (MetricName.PLATFORM_DIMM_COUNT,
     mkMetadata "Number of RAM DIMM (all types memory modules)"
       GAUGE (Some U_NUMERIC) S_DMIDECODE_BINARY G_PLATFORM ["dimm_type"] "no (gather_hw_mm_topology)");
    (MetricName.PLATFORM_DIMM_TOTAL_SIZE_BYTES,
     mkMetadata "Total RAM size (all types memory modules)"
       GAUGE (Some U_BYTES) S_DMIDECODE_BINARY G_PLATFORM ["dimm_type"] "no (gather_hw_mm_topology)");
    (MetricName.PLATFORM_MEM_MODE_SIZE_BYTES,
     mkMetadata "Size of RAM (Persistent memory) configured in memory mode."
       GAUGE (Some U_NUMERIC) S_IPMCTL_BINARY G_PLATFORM [] "no (gather_hw_mm_topology)") ].

(** src/wca/metrics.py:792-928 [METRICS_METADATA] part 5 *)
Definition metadata_5 : list (string * MetricMetadata) :=
  [ (MetricName.PLATFORM_DIMM_SPEED_BYTES_PER_SECOND,
     mkMetadata "Total platform DRAM speed"
       GAUGE (Some U_BYTES_PER_SECOND) S_DMIDECODE_BINARY G_PLATFORM [] "no (gather_hw_mm_topology)");
    (MetricName.PLATFORM_CPU_USAGE,
     mkMetadata "Logical CPU usage in 1/USER_HZ (usually 10ms).Calculated using values based on /proc/stat."
       COUNTER (Some U_NUMERIC) S_PROCFS G_PLATFORM ["cpu"] "yes");
    (MetricName.PLATFORM_MEM_USAGE_BYTES,
     mkMetadata "Total memory used by platform in bytes based on /proc/meminfo and uses heuristic based on linux free tool (total - free - buffers - cache)."
       GAUGE (Some U_BYTES) S_PROCFS G_PLATFORM [] "yes");
    (MetricName.PLATFORM_MEM_NUMA_FREE_BYTES,
     mkMetadata "NUMA memory free per NUMA node based on /sys/devices/system/node/* (MemFree:)"
       GAUGE (Some U_BYTES) S_SYSFS G_PLATFORM ["numa_node"] "yes");
    (MetricName.PLATFORM_MEM_NUMA_USED_BYTES,
     mkMetadata "NUMA memory free per NUMA used based on /sys/devices/system/node/* (MemUsed:)"
       GAUGE (Some U_BYTES) S_SYSFS G_PLATFORM ["numa_node"] "yes");
    (MetricName.PLATFORM_VMSTAT_NUMA_PAGES_MIGRATED,
     mkMetadata "Virtual Memory stats based on /proc/vmstat for number of migrates pages (autonuma)"
       COUNTER (Some U_NUMERIC) S_PROCFS G_PLATFORM [] "yes");
    (MetricName.PLATFORM_VMSTAT_PGMIGRATE_SUCCESS,
     mkMetadata "Virtual Memory stats based on /proc/vmstat for number of migrates pages (succeed)"
       COUNTER (Some U_NUMERIC) S_PROCFS G_PLATFORM [] "yes");
    (MetricName.PLATFORM_VMSTAT_PGMIGRATE_FAIL,
     mkMetadata "Virtual Memory stats based on /proc/vmstat for number of migrates pages (failed)"
       COUNTER (Some U_NUMERIC) S_PROCFS G_PLATFORM [] "yes");
    (MetricName.PLATFORM_VMSTAT_NUMA_HINT_FAULTS,
     mkMetadata "Virtual Memory stats based on /proc/vmstat for pgfaults for migration hints"
       COUNTER (Some U_NUMERIC) S_PROCFS G_PLATFORM [] "yes");
    (MetricName.PLATFORM_VMSTAT_NUMA_HINT_FAULTS_LOCAL,
     mkMetadata "Virtual Memory stats based on /proc/vmstat: pgfaults for migration hints (local)"
       COUNTER (Some U_NUMERIC) S_PROCFS G_PLATFORM [] "yes");
    (MetricName.PLATFORM_VMSTAT_PGFAULTS,
     mkMetadata "Virtual Memory stats based on /proc/vmstat:number of page faults"
       COUNTER (Some U_NUMERIC) S_PROCFS G_PLATFORM [] "yes");
    (MetricName.PLATFORM_VMSTAT,
     mkMetadata "Virtual Memory stats based on /proc/vmstat - all possible keys or matching regexp"
       COUNTER (Some U_NUMERIC) S_PROCFS G_PLATFORM ["key"] "yes (vmstat)");
    (MetricName.PLATFORM_NODE_VMSTAT,
     mkMetadata "Virtual Memory stats based on /sys/devices/system/node/nodeX/vmstat all keys or matching regexp"
       COUNTER (Some U_NUMERIC) S_PROCFS G_PLATFORM ["numa_node"; "key"] "yes (vmstat)") ].

(** src/wca/metrics.py:930-1064 [METRICS_METADATA] part 6 *)
Definition metadata_6 : list (string * MetricMetadata) :=
  [ (MetricName.PLATFORM_PMM_BANDWIDTH_READS,
     mkMetadata "Persistent memory module number of reads."
       COUNTER (Some U_NUMERIC) S_PERF_SUBSYSTEM_UNCORE G_PLATFORM ["socket"; "pmu_type"] "no (uncore_event_names)");
    (MetricName.PLATFORM_PMM_BANDWIDTH_WRITES,
     mkMetadata "Persistent memory module number of writes."
       COUNTER (Some U_NUMERIC) S_PERF_SUBSYSTEM_UNCORE G_PLATFORM ["socket"; "pmu_type"] "no (uncore_event_names)");
    (MetricName.PLATFORM_CAS_COUNT_READS,
     mkMetadata "Column adress select number of reads"
       COUNTER (Some U_NUMERIC) S_PERF_SUBSYSTEM_UNCORE G_PLATFORM ["socket"; "pmu_type"] "no (uncore_event_names)");
    (MetricName.PLATFORM_CAS_COUNT_WRITES,
     mkMetadata "Column adress select number of writes"
       COUNTER (Some U_NUMERIC) S_PERF_SUBSYSTEM_UNCORE G_PLATFORM ["socket"; "pmu_type"] "no (uncore_event_names)");
    (MetricName.PLATFORM_UPI_RXL_FLITS,
     mkMetadata "TBD"
       COUNTER (Some U_NUMERIC) S_PERF_SUBSYSTEM_UNCORE G_PLATFORM ["socket"; "pmu_type"] "no (uncore_event_names)");
    (MetricName.PLATFORM_UPI_TXL_FLITS,
     mkMetadata "TBD"
       COUNTER (Some U_NUMERIC) S_PERF_SUBSYSTEM_UNCORE G_PLATFORM ["socket"; "pmu_type"] "no (uncore_event_names)");
    (MetricName.PLATFORM_RPQ_OCCUPANCY,
     mkMetadata "Pending queue occupancy"
       GAUGE (Some U_NUMERIC) S_PERF_SUBSYSTEM_UNCORE G_PLATFORM ["socket"; "pmu_type"] "no (uncore_event_names)");
    (MetricName.PLATFORM_RPQ_INSERTS,
     mkMetadata "Pending queue allocations"
       GAUGE (Some U_NUMERIC) S_PERF_SUBSYSTEM_UNCORE G_PLATFORM ["socket"; "pmu_type"] "no (uncore_event_names)");
    (MetricName.PLATFORM_IMC_CLOCKTICKS,
     mkMetadata "IMC clockticks"
       COUNTER (Some U_NUMERIC) S_PERF_SUBSYSTEM_UNCORE G_PLATFORM ["socket"; "pmu_type"] "no (uncore_event_names)");
    (MetricName.PLATFORM_RPQ_READ_LATENCY_SECONDS,
     mkMetadata "Read latency"
       GAUGE (Some U_SECONDS) S_DERIVED_PERF_UNCORE G_PLATFORM ["socket"] "no (uncore_event_names: platform_imc_clockticks, platform_rpq_occupancy, platform_rpq_inserts and set enable_derived_metrics)");
    (MetricName.PLATFORM_PMM_READS_BYTES_PER_SECOND,
     mkMetadata "TBD"
       GAUGE (Some U_NUMERIC) S_DERIVED_PERF_UNCORE G_PLATFORM ["socket"; "pmu_type"] "no (uncore_event_names: platform_pmm_bandwidth_reads and set enable_derived_metrics)");
    (MetricName.PLATFORM_PMM_WRITES_BYTES_PER_SECOND,
     mkMetadata "TBD"
       GAUGE (Some U_NUMERIC) S_DERIVED_PERF_UNCORE G_PLATFORM ["socket"; "pmu_type"] "no (uncore_event_names: platform_pmm_bandwidth_writes and set enable_derived_metrics)");
    (MetricName.PLATFORM_PMM_TOTAL_BYTES_PER_SECOND,
     mkMetadata "TBD"
       GAUGE (Some U_NUMERIC) S_DERIVED_PERF_UNCORE G_PLATFORM ["socket"; "pmu_type"] "no (uncore_event_names: platform_pmm_bandwidth_reads, platform_pmm_bandwidth_writes and set enable_derived_metrics)") ].

(** src/wca/metrics.py:1065-1203 [METRICS_METADATA] part 7 *)
Definition metadata_7 : list (string * MetricMetadata) :=
  [ (MetricName.PLATFORM_DRAM_READS_BYTES_PER_SECOND,
     mkMetadata "TBD"
       GAUGE (Some U_NUMERIC) S_DERIVED_PERF_UNCORE G_PLATFORM ["socket"; "pmu_type"] "no (uncore_event_names: platform_cas_count_reads and set enable_derived_metrics)");
    (MetricName.PLATFORM_DRAM_WRITES_BYTES_PER_SECOND,
     mkMetadata "TBD"
       GAUGE (Some U_NUMERIC) S_DERIVED_PERF_UNCORE G_PLATFORM ["socket"; "pmu_type"] "no (uncore_event_names: platform_cas_count_writes and set enable_derived_metrics)");
    (MetricName.PLATFORM_DRAM_TOTAL_BYTES_PER_SECOND,
     mkMetadata "TBD"
       GAUGE (Some U_NUMERIC) S_DERIVED_PERF_UNCORE G_PLATFORM ["socket"; "pmu_type"] "no (uncore_event_names: platform_cas_count_reads, platform_cas_count_writes and set enable_derived_metrics)");
    (MetricName.PLATFORM_DRAM_HIT_RATIO,
     mkMetadata "TBD"
       GAUGE (Some U_NUMERIC) S_DERIVED_PERF_UNCORE G_PLATFORM ["socket"; "pmu_type"] "no (uncore_event_names: platform_cas_count_reads, platform_cas_count_writes and set enable_derived_metrics)");
    (MetricName.PLATFORM_UPI_BANDWIDTH_BYTES_PER_SECOND,
     mkMetadata "TBD"
       COUNTER (Some U_NUMERIC) S_DERIVED_PERF_UNCORE G_PLATFORM ["socket"; "pmu_type"] "no (uncore_event_names: platform_upi_txl_flits, platform_upi_rxl_flits and set enable_derived_metrics)");
    (MetricName.PLATFORM_SCALING_UNCORE_FACTOR,
     mkMetadata "Perf uncore subsystem metric scaling factor(value 1.0 is the best, meaning that there is no scaling at all for any uncore metric)"
       GAUGE (Some U_NUMERIC) S_PERF_SUBSYSTEM_UNCORE G_PLATFORM ["socket"; "pmu_type"] "auto, (depending on uncore_event_names)");
    (MetricName.PLATFORM_ZONEINFO,
     mkMetadata "Dynamic metric with many keys based on fields from /proc/zoneinfo grouped by numa_node and zone (only Normal zone)"
       GAUGE (Some U_NUMERIC) S_PROCFS G_PLATFORM ["numa_node"; "zone"; "key"] "yes (zoneinfo option)");
    (MetricName.PLATFORM_LAST_SEEN,
     mkMetadata "Timestamp the information about platform was last collected"
       COUNTER (Some U_TIMESTAMP) S_INTERNAL G_PLATFORM [] "yes");
    (MetricName.WCA_UP,
     mkMetadata "Health check for WCA returning timestamps of last iteration"
       COUNTER (Some U_TIMESTAMP) S_INTERNAL G_INTERNAL [] "yes");
    (MetricName.WCA_INFORMATION,
     mkMetadata "Special metric to cover some meta information like wca_version or cpu_model or platform topology (to be used instead of include_optional_labels)"
       GAUGE (Some U_NUMERIC) S_INTERNAL G_INTERNAL [] "yes");
    (MetricName.WCA_TASKS,
     mkMetadata "Number of discovered tasks"
       GAUGE (Some U_NUMERIC) S_INTERNAL G_INTERNAL [] "yes");
    (MetricName.WCA_MEM_USAGE_BYTES,
     mkMetadata "Memory usage by WCA itself (getrusage for self and children)."
       GAUGE (Some U_BYTES) S_INTERNAL G_INTERNAL [] "yes");
    (MetricName.WCA_DURATION_SECONDS,
     mkMetadata "Internal WCA function call duration metric for profiling"
       GAUGE (Some U_NUMERIC) S_INTERNAL G_INTERNAL [] "yes") ].

(** src/wca/metrics.py:1204-1254 [METRICS_METADATA] part 8 *)
Definition metadata_8 : list (string * MetricMetadata) :=
  [ (MetricName.WCA_DURATION_SECONDS_AVG,
     mkMetadata "Internal WCA function call duration metric for profiling (average from last restart)"
       GAUGE (Some U_NUMERIC) S_INTERNAL G_INTERNAL [] "yes");
    (MetricName.PLATFORM_CAPACITY_PER_NVDIMM_BYTES,
     mkMetadata "Platform capacity per NVDIMM"
       GAUGE (Some U_BYTES) S_INTERNAL G_PLATFORM [] "yes");
    (MetricName.PLATFORM_AVG_POWER_PER_NVDIMM_WATTS,
     mkMetadata "Average power used by NVDIMM on the platform"
       GAUGE (Some U_WATTS) S_INTERNAL G_PLATFORM [] "yes");
    (MetricName.PLATFORM_NVDIMM_READ_BANDWIDTH_BYTES_PER_SECOND,
     mkMetadata "Theoretical reads bandwidth per platform"
       GAUGE (Some U_BYTES_PER_SECOND) S_INTERNAL G_PLATFORM ["socket"] "yes");
    (MetricName.PLATFORM_NVDIMM_WRITE_BANDWIDTH_BYTES_PER_SECOND,
     mkMetadata "Theoretical writes bandwidth per platform"
       GAUGE (Some U_BYTES_PER_SECOND) S_INTERNAL G_PLATFORM ["socket"] "yes") ].

Definition METRICS_METADATA : dict string MetricMetadata :=
  metadata_1 ++ metadata_2 ++ metadata_3 ++ metadata_4 ++ metadata_5 ++ metadata_6 ++ metadata_7 ++ metadata_8.

(** src/wca/metrics.py:1258-1260 [order check]
    The check the module runs when it is imported: [zip] compares the names
    pairwise, up to the shorter of the two. *)
Definition same_order : bool :=
  forallb (λ p : string * string, String.eqb p.1 p.2)
    (zip MetricName.members (dkeys METRICS_METADATA)).

(** ** The table while the agent runs

    A runner adds entries to the table and changes levels when it starts, so the
    definitions that look a metric up are given the table as it is then. *)
Class Metadata : Type := metrics_metadata : dict string MetricMetadata.

(** The table of a process in which no runner has started. *)
Definition static_metadata : Metadata := METRICS_METADATA.

(** [metric_name in METRICS_METADATA] and [METRICS_METADATA[metric_name]] *)
Definition metadata_of `{Metadata} (metric_name : string) : option MetricMetadata :=
  dget metrics_metadata metric_name.

(** Levels of a metric; a name that is not in the table has none. *)
Definition levels_of `{Metadata} (metric_name : string) : list string :=
  match metadata_of metric_name with Some m => md_levels m | None => [] end.

Definition with_levels (levels : list string) (m : MetricMetadata) : MetricMetadata :=
  mkMetadata (md_help m) (md_type m) (md_unit m) (md_source m) (md_granularity m) levels (md_enabled m).

(** src/wca/metrics.py:1504-1506 [add_metric]
    The name of a member is its value in upper case; a member of an enumeration cannot be
    assigned again. *)
Definition add_metric (metric_name : string) (m : MetricMetadata) (table : Metadata) : result Metadata :=
  if bool_decide (str_upper metric_name ∈ str_upper <$> MetricName.members) then Raise AttributeError
  else Ok (dset table metric_name m).

(** The metrics of the enumeration keep what the table says of them. *)
Lemma add_metric_Ok name m table table' : add_metric name m table = Ok table' →
  name ∉ MetricName.members ∧ table' = dset table name m.
Proof.
  unfold add_metric. case_bool_decide as Hn; [done|]. intros [= <-]. split; [|done].
  intros Hin. apply Hn, list_elem_of_fmap. by exists name.
Qed.
