(* ===== verification/Metrics.v ===== *)
(** * Metrics and measurements

    [src/wca/metrics.py]: the [Metric] record, merging the measurements of the
    containers of a pod, the difference of two hierarchical measurements, the
    base class of derived metrics and the export of measurements as metrics. *)
From S2P Require Export PyStr PyDict PyNum MetricsData.

(** ** Measurements
    A measurement is a number (a text when a resource of the task is given as text) or, for a metric with levels, a dictionary per
    level; merging uses lists of values at the leaves. *)
Inductive mkey : Type := KStr (s : string) | KInt (z : Z).
#[export] Instance mkey_eq_dec : EqDecision mkey.
Proof. solve_decision. Defined.

#[warnings="-register-all"]
Inductive mval : Type :=
  | MNum (n : num)
  | MStr (s : string)
  | MList (l : list mval)
  | MDict (d : list (mkey * mval)).

Definition measurements : Type := dict string mval.

(** [str(key)] of a label value *)
Definition str_of_key (k : mkey) : string :=
  match k with KStr s => s | KInt z => str_of_Z z end.

(** src/wca/metrics.py:1263-1271 [Metric] *)
Record Metric := mkMetric {
  m_name : string;
  m_value : mval;
  m_labels : dict string string;
  m_unit : option MetricUnit;
  m_type : option MetricType;
  m_help : option string;
  m_granularity : option MetricGranularity
}.

(** src/wca/metrics.py:1273-1286 [Metric.create_metric_with_metadata] *)
Definition create_metric_with_metadata `{Metadata} (name : string) (value : mval)
    (labels : dict string string) (granularity : option MetricGranularity) : Metric :=
  match metadata_of name with
  | Some md => mkMetric name value labels (md_unit md) (Some (md_type md)) (Some (md_help md))
                 (Some (md_granularity md))
  | None => mkMetric name value labels None None None granularity
  end.

(** ** Merging measurements *)

(** [sum(l)] over the values collected for a metric *)
Definition sum_vals (l : list mval) : result mval :=
  MNum <$> foldM (λ acc v, match v with MNum n => nadd acc n | _ => Raise TypeError end)
             (PInt 0) l.

(** [sum] of a collected list *)
Definition sum_list (v : mval) : result mval :=
  match v with MList l => sum_vals l | _ => Raise TypeError end.

(** src/wca/metrics.py:1342-1357 [_list_leveled_metrics]
    [d] is [max_depth - 1 - depth]: the values are at this level when it is 0. *)
Fixpoint list_leveled_metrics (d : nat) (aggregated : list (mkey * mval)) (new_metric : mval)
    : result (list (mkey * mval)) :=
  match new_metric with
  | MDict items =>
      foldM (λ agg (kv : mkey * mval),
        let '(key, value) := kv in
        match d with
        | O =>
            match dget agg key with
            | Some (MList l) => Ok (dset agg key (MList (l ++ [value])))
            | _ => Ok (dset agg key (MList [value]))
            end
        | S d' =>
            match default (MDict []) (dget agg key) with
            | MDict sub => sub' ← list_leveled_metrics d' sub value;
                           Ok (dset agg key (MDict sub'))
            | _ => Raise TypeError
            end
        end) aggregated items
  | _ => Raise AttributeError (* no [items] *)
  end.

Fixpoint dmapM {K V W} (f : V → result W) (d : list (K * V)) : result (list (K * W)) :=
  match d with
  | [] => Ok []
  | (k, v) :: d' => w ← f v; ws ← dmapM f d'; Ok ((k, w) :: ws)
  end.

(** src/wca/metrics.py:1360-1370 [_operation_on_leveled_metric] *)
Fixpoint operation_on_leveled_metric (operation : mval → result mval) (d : nat)
    (aggregated : list (mkey * mval)) : result (list (mkey * mval)) :=
  dmapM (λ value,
    match d with
    | O => operation value
    | S d' => match value with
              | MDict sub => MDict <$> operation_on_leveled_metric operation d' sub
              | _ => Raise AttributeError
              end
    end) aggregated.

(** The values of one metric in all the measurements that have it. *)
Definition values_of (metric_name : string) (ms : list measurements) : list mval :=
  omap (λ m, dget m metric_name) ms.

(** src/wca/metrics.py:1313-1337 [merge_measurements]
    One iteration of the loop over the names. *)
Definition merge_metric `{Metadata} (ms : list measurements) (metric_name : string) : result mval :=
  match levels_of metric_name with
  | [] => sum_vals (values_of metric_name ms)
  | levels =>
      let d := pred (length levels) in
      summed ← foldM (list_leveled_metrics d) [] (values_of metric_name ms);
      MDict <$> operation_on_leveled_metric sum_list d summed
  end.

(** src/wca/metrics.py:1303-1339 [merge_measurements]
    [set_order] is the order in which Python iterates over a set of names. *)
Definition merge_measurements `{Metadata} (set_order : list string → list string)
    (ms : list measurements) : result measurements :=
  let all_metrics_names := py_set (ms ≫= dkeys) in
  foldM (λ summed_metrics metric_name,
    v ← merge_metric ms metric_name; Ok (dset summed_metrics metric_name v))
    [] (set_order all_metrics_names).

(** src/wca/metrics.py:1373-1388 [_operation_on_leveled_dicts] *)
Fixpoint operation_on_leveled_dicts (operation : mval → mval → result mval) (d : nat)
    (a b : mval) : result (list (mkey * mval)) :=
  match a with
  | MDict items =>
      foldM (λ res (kv : mkey * mval),
        let '(key, va) := kv in
        vb ← match b with
             | MDict bd => dgetitem bd key
             | _ => Raise TypeError
             end;
        match d with
        | O => match operation va vb with
               | Ok v => Ok (dset res key v)
               | Raise ZeroDivisionError => Ok res
               | Raise e => Raise e
               end
        | S d' => sub ← operation_on_leveled_dicts operation d' va vb;
                  Ok (dset res key (MDict sub))
        end) [] items
  | _ => Raise AttributeError
  end.

Definition num_binop (op : num → num → result num) (a b : mval) : result mval :=
  match a, b with
  | MNum x, MNum y => MNum <$> op x y
  | _, _ => Raise TypeError
  end.

(** ** Derived metrics *)

(** src/wca/metrics.py:1400-1403 [BaseDerivedMetricsGenerator.__init__] *)
Record derived_state := mkDerived {
  prev_measurements : option measurements;
  prev_ts : float
}.

Definition derived_init : derived_state := mkDerived None fzero.

(** src/wca/metrics.py:1416-1417 [available] *)
Definition available (ms prev : measurements) (names : list string) : bool :=
  forallb (λ name, dmem ms name && dmem prev name) names.

(** src/wca/metrics.py:1419-1435 [delta]
    [None] is the result 0 for names that are not available. *)
Definition delta `{Metadata} (ms prev : measurements) (names : list string) : result (option (list mval)) :=
  if negb (available ms prev names) then Ok None
  else Some <$> mapM (λ metric_name,
         cur ← dgetitem ms metric_name;
         old ← dgetitem prev metric_name;
         match levels_of metric_name with
         | [] => num_binop nsub cur old
         | levels => MDict <$> operation_on_leveled_dicts (num_binop nsub)
                                 (pred (length levels)) cur old
         end) names.

Section derived.
  (** [_derive] of a subclass: the measurements it extends, the previous ones
      (through [delta] and [available]) and the time between them. *)
  Context (derive : measurements → measurements → float → result measurements).

  (** src/wca/metrics.py:1405-1445 [BaseDerivedMetricsGenerator.get_measurements]
      The returned object is also the one kept for the next call. *)
Definition get_measurements_with_derived (now : float) (ms : measurements)
      : M derived_state measurements :=
    st ← get_state;
    ms' ← lift match prev_measurements st with
               | Some prev => derive ms prev (fsub now (prev_ts st))
               | None => Ok ms
               end;
    put_state (mkDerived (Some ms') now) ≫= λ _, mret ms'.
End derived.

(** ** Export *)

(** src/wca/metrics.py:1475-1492 [recursive_create_metric] *)
Fixpoint recursive_create_metric `{Metadata} (metric_name : string) (levels : list string)
    (parent_labels : dict string string) (node : mval) : result (list Metric) :=
  match levels with
  | [] => Ok [create_metric_with_metadata metric_name node parent_labels None]
  | level :: levels' =>
      match node with
      | MDict items =>
          @concat _ <$> mapM (λ kv : mkey * mval,
            recursive_create_metric metric_name levels'
              (dset parent_labels level (str_of_key kv.1)) kv.2) items
      | _ => Raise (OtherException "Exception")
      end
  end.

(** src/wca/metrics.py:1456-1501 [export_metrics_from_measurements] *)
Definition export_metrics_from_measurements `{Metadata} (ms : measurements) : result (list Metric) :=
  @concat _ <$> mapM (λ kv : string * mval,
    let '(metric_name, metric_node) := kv in
    match levels_of metric_name with
    | [] => Ok [create_metric_with_metadata metric_name metric_node [] None]
    | levels => recursive_create_metric metric_name levels [] metric_node
    end) ms.

(** ** Properties *)

(** Path lookup: the value reached from [v] by following keys. *)
Fixpoint leaf (v : mval) (p : list mkey) : option mval :=
  match p with
  | [] => Some v
  | k :: p' => match v with
               | MDict items => dget items k ≫= λ c, leaf c p'
               | _ => None
               end
  end.

(** A tree of dictionaries of depth [S d] with integer leaves. *)
Fixpoint int_tree (d : nat) (v : mval) : Prop :=
  match v with
  | MDict items =>
      dict_wf items ∧
      Forall (λ kv : mkey * mval,
        match d with
        | O => ∃ z, kv.2 = MNum (PInt z)
        | S d' => int_tree d' kv.2
        end) items
  | _ => False
  end.

(** A tree of lists of integers, as [_list_leveled_metrics] builds it. *)
Definition int_list (v : mval) (zs : list Z) : Prop :=
  zs ≠ [] ∧ v = MList ((λ z, MNum (PInt z)) <$> zs).
Fixpoint list_tree (d : nat) (items : list (mkey * mval)) : Prop :=
  dict_wf items ∧
  Forall (λ kv : mkey * mval,
    match d with
    | O => ∃ zs, int_list kv.2 zs
    | S d' => match kv.2 with MDict sub => list_tree d' sub | _ => False end
    end) items.

Definition int_of (v : mval) : option Z :=
  match v with MNum (PInt z) => Some z | _ => None end.

(** The integers found under path [p] in some trees, in order. *)
Definition collect (p : list mkey) (vs : list mval) : list Z :=
  omap (λ v, leaf v p ≫= int_of) vs.

(** What the list tree holds under a path, as a list of integers. *)
Definition collected (items : list (mkey * mval)) (p : list mkey) : list Z :=
  match leaf (MDict items) p with
  | Some (MList l) => omap int_of l
  | _ => []
  end.

Lemma omap_int_of (zs : list Z) : omap int_of ((λ z, MNum (PInt z)) <$> zs) = zs.
Proof. induction zs as [|z zs IH]; [done|]. simpl. f_equal. exact IH. Qed.

Lemma Forall_dset {V} (P : mkey * V → Prop) d k v :
  Forall P d → (∀ k', P (k', v)) → Forall P (dset d k v).
Proof.
  intros Hd Hv. induction Hd as [|[k' v'] d Hp Hd IH]; simpl; [by repeat constructor|].
  case_decide; by constructor.
Qed.

Lemma Forall_dget {V} (P : mkey * V → Prop) d k v :
  Forall P d → dget d k = Some v → P (k, v).
Proof. intros Hd Hk. apply dget_Some_in in Hk. rewrite Forall_forall in Hd. auto. Qed.

Lemma leaf_dset items k v k' p :
  leaf (MDict (dset items k v)) (k' :: p) =
  if decide (k = k') then leaf v p else leaf (MDict items) (k' :: p).
Proof. simpl. rewrite dget_dset. by case_decide. Qed.

Lemma list_tree_dict_wf d items : list_tree d items → dict_wf items.
Proof. destruct d; by intros []. Qed.

Definition opt_list (o : option Z) : list Z := match o with Some z => [z] | None => [] end.

(** Adding the entries of a dictionary one key at a time. *)
Lemma fold_items_spec d (step : list (mkey * mval) → mkey * mval → result (list (mkey * mval)))
    items :
  dict_wf items →
  (∀ agg k val, (k, val) ∈ items → list_tree d agg →
    ∃ agg', step agg (k, val) = Ok agg' ∧ list_tree d agg' ∧
      ∀ k' p, length p = d →
        collected agg' (k' :: p) =
        collected agg (k' :: p) ++ (if decide (k = k') then opt_list (leaf val p ≫= int_of) else [])) →
  ∀ agg, list_tree d agg →
    ∃ agg', foldM step agg items = Ok agg' ∧ list_tree d agg' ∧
      ∀ k' p, length p = d →
        collected agg' (k' :: p) =
        collected agg (k' :: p) ++ opt_list (dget items k' ≫= λ c, leaf c p ≫= int_of).
Proof.
  unfold dict_wf, dkeys. intros Hnd Hstep.
  induction items as [|[k val] items IH]; intros agg Hagg.
  - exists agg. split; [done|]. split; [done|]. intros. simpl. by rewrite app_nil_r.
  - simpl in Hnd. apply NoDup_cons in Hnd as [Hni Hnd].
    destruct (Hstep agg k val) as (agg1 & Hs & Hagg1 & Hc1); [set_solver|done|].
    destruct (IH Hnd) with (agg := agg1) as (agg' & Hf & Hagg' & Hc'); [|done|].
    { intros; eapply Hstep; [set_solver|done]. }
    exists agg'. simpl. rewrite Hs. split; [exact Hf|]. split; [done|].
    intros k' p Hp. rewrite Hc', Hc1 by done. rewrite <-app_assoc. f_equal.
    simpl. destruct (decide (k = k')) as [->|Hne].
    + rewrite decide_True by done. rewrite (proj2 (dget_None items k')) by exact Hni.
      simpl. by rewrite app_nil_r.
    + rewrite decide_False by congruence. done.
Qed.

Lemma list_tree_dset d items k v :
  list_tree d items →
  match d with
  | O => ∃ zs, int_list v zs
  | S d' => match v with MDict sub => list_tree d' sub | _ => False end
  end →
  list_tree d (dset items k v).
Proof.
  destruct d as [|d]; simpl; intros [Hwf Hall] Hv; (split; [by apply dset_wf|]);
    by apply Forall_dset.
Qed.

Lemma collected_dset items k v k' p :
  collected (dset items k v) (k' :: p) =
  if decide (k = k') then match leaf v p with Some (MList l) => omap int_of l | _ => [] end
  else collected items (k' :: p).
Proof. unfold collected. rewrite leaf_dset. by case_decide. Qed.

Lemma collected_paths d agg agg' items :
  (∀ k' p, length p = d → collected agg' (k' :: p) =
     collected agg (k' :: p) ++ opt_list (dget items k' ≫= λ c, leaf c p ≫= int_of)) →
  ∀ p, length p = S d →
    collected agg' p = collected agg p ++ opt_list (leaf (MDict items) p ≫= int_of).
Proof.
  intros Hc [|k' p] Hp; [done|]. rewrite Hc by (simpl in Hp; lia).
  f_equal. simpl. by destruct (dget items k').
Qed.

Lemma list_leveled_spec d agg v :
  list_tree d agg → int_tree d v →
  ∃ agg', list_leveled_metrics d agg v = Ok agg' ∧ list_tree d agg' ∧
    ∀ p, length p = S d → collected agg' p = collected agg p ++ opt_list (leaf v p ≫= int_of).
Proof.
  revert agg v. induction d as [|d IH]; intros agg v Hagg Hv;
    (destruct v as [| |l|items]; [destruct Hv|destruct Hv|destruct Hv|]); destruct Hv as [Hwf Hall];
    cbn [list_leveled_metrics];
    (edestruct fold_items_spec as (agg' & Hf & Ha & Hc); [exact Hwf| |exact Hagg|
       exists agg'; split; [exact Hf|]; split; [exact Ha|]; exact (collected_paths _ _ _ _ Hc)]);
    clear agg Hagg.
  - intros agg k val Hin Hagg. simpl.
    rewrite Forall_forall in Hall. destruct (Hall _ Hin) as [z Hz]. simpl in Hz. subst val.
    assert (∃ zs, (dget agg k = Some (MList ((λ z, MNum (PInt z)) <$> zs)) ∧ zs ≠ []) ∨
                  (dget agg k = None ∧ zs = [])) as [zs Hzs].
    { destruct (dget agg k) as [w|] eqn:E; [|by exists []; right].
      destruct Hagg as [_ Hall']. apply (Forall_dget _ _ _ _ Hall') in E as [zs [Hne Heq]].
      simpl in Heq. subst w. exists zs. by left. }
    exists (dset agg k (MList ((λ z, MNum (PInt z)) <$> (zs ++ [z])))). split; [|split].
    + destruct Hzs as [[-> _]|[-> ->]]; [by rewrite fmap_app|done].
    + apply (list_tree_dset 0); [done|]. exists (zs ++ [z]). split; [by destruct zs|done].
    + intros k' [|] Hp; [|done]. rewrite collected_dset. case_decide; [|by rewrite app_nil_r].
      subst k'. cbn [leaf]. rewrite omap_int_of. f_equal. unfold collected. simpl.
      destruct Hzs as [[-> _]|[-> ->]]; simpl; [by rewrite omap_int_of|done].
  - intros agg k val Hin Hagg. simpl.
    rewrite Forall_forall in Hall. pose proof (Hall _ Hin) as Hval. simpl in Hval.
    assert (∃ sub, default (MDict []) (dget agg k) = MDict sub ∧ list_tree d sub ∧
              ∀ p, collected agg (k :: p) = collected sub p) as (sub & Hd & Hsub & Hcol).
    { unfold collected. simpl. destruct (dget agg k) as [w|] eqn:E; simpl.
      - destruct Hagg as [_ Hall']. apply (Forall_dget _ _ _ _ Hall') in E. simpl in E.
        destruct w; try done. by eexists.
      - exists []. split; [done|]. split; [|by intros [|]].
        destruct d; (split; [constructor|constructor]). }
    rewrite Hd. destruct (IH sub val Hsub Hval) as (sub' & -> & Hsub' & Hc'). simpl.
    eexists. split; [done|]. split; [by apply (list_tree_dset (S d))|].
    intros k' p Hp. rewrite collected_dset. case_decide; [|by rewrite app_nil_r].
    subst k'. rewrite Hcol, <-Hc' by done. done.
Qed.

Definition zsum (zs : list Z) : Z := foldl Z.add 0 zs.

Lemma sum_vals_ints zs : sum_vals ((λ z, MNum (PInt z)) <$> zs) = Ok (MNum (PInt (zsum zs))).
Proof.
  unfold sum_vals, zsum. generalize 0. induction zs as [|z zs IH]; intros a; [done|].
  simpl. apply IH.
Qed.

Lemma fold_leveled_spec d vs agg :
  Forall (int_tree d) vs → list_tree d agg →
  ∃ agg', foldM (list_leveled_metrics d) agg vs = Ok agg' ∧ list_tree d agg' ∧
    ∀ p, length p = S d → collected agg' p = collected agg p ++ collect p vs.
Proof.
  intros Hvs. revert agg. induction Hvs as [|v vs Hv Hvs IH]; intros agg Hagg; simpl.
  - exists agg. split; [done|]. split; [done|]. intros. by rewrite app_nil_r.
  - destruct (list_leveled_spec d agg v Hagg Hv) as (agg1 & -> & Hagg1 & Hc1).
    destruct (IH agg1 Hagg1) as (agg' & Hf & Hagg' & Hc'). exists agg'.
    split; [exact Hf|]. split; [done|]. intros p Hp.
    rewrite Hc', Hc1, <-app_assoc by done. f_equal. simpl.
    destruct (leaf v p ≫= int_of); done.
Qed.

Lemma dmapM_Ok {V W} (f : V → result W) (d : list (mkey * V)) :
  (∀ k v, (k, v) ∈ d → ∃ w, f v = Ok w) →
  ∃ d', dmapM f d = Ok d' ∧
    ∀ k, match dget d k, dget d' k with
         | Some v, Some w => f v = Ok w
         | None, None => True
         | _, _ => False
         end.
Proof.
  induction d as [|[k v] d IH]; simpl; intros Hf; [by exists []|].
  destruct (Hf k v) as [w Hw]; [set_solver|]. rewrite Hw. simpl.
  destruct IH as (d' & -> & Hd); [intros k0 v0 ?; apply (Hf k0 v0); set_solver|]. simpl.
  exists ((k, w) :: d'). split; [done|]. intros k'. simpl. case_decide; [done|apply Hd].
Qed.

Lemma operation_spec d agg :
  list_tree d agg →
  ∃ r, operation_on_leveled_metric sum_list d agg = Ok r ∧
    ∀ p, length p = S d →
      leaf (MDict r) p = match collected agg p with
                         | [] => None
                         | zs => Some (MNum (PInt (zsum zs)))
                         end.
Proof.
  revert agg. induction d as [|d IH]; intros agg [Hwf Hall]; cbn [operation_on_leveled_metric];
    rewrite Forall_forall in Hall;
    match goal with
    | |- ∃ _, dmapM ?f ?x = _ ∧ _ =>
        destruct (dmapM_Ok f x) as (r & Hr & Hg); [|exists r; split; [exact Hr|]]
    end.
  - intros k v Hin. destruct (Hall _ Hin) as [zs [_ Hz]]. simpl in Hz. subst v.
    eexists. apply sum_vals_ints.
  - intros [|k [|]] Hp; try done. specialize (Hg k). unfold collected. simpl.
    destruct (dget agg k) as [v|] eqn:E, (dget r k) as [w|]; try done. simpl.
    apply dget_Some_in in E. destruct (Hall _ E) as [zs [Hne Hz]]. simpl in Hz. subst v.
    rewrite omap_int_of. cbn [sum_list] in Hg. rewrite sum_vals_ints in Hg. injection Hg as <-.
    destruct zs; [done|]. done.
  - intros k v Hin. specialize (Hall _ Hin). simpl in Hall. destruct v as [| | |sub]; try done.
    destruct (IH sub Hall) as (r & -> & _). by eexists.
  - intros [|k p] Hp; [done|]. specialize (Hg k). unfold collected.
    cbn [leaf]. destruct (dget agg k) as [v|] eqn:E, (dget r k) as [w|]; try done. simpl.
    apply dget_Some_in in E. specialize (Hall _ E). simpl in Hall.
    destruct v as [| | |sub]; try done.
    destruct (IH sub Hall) as (r' & Hr' & Hl). rewrite Hr' in Hg. injection Hg as <-.
    apply (Hl p). simpl in Hp. lia.
Qed.

(** The value of each metric depends only on the measurements that have it. *)
Lemma merge_measurements_lookup `{Metadata} so ms r name :
  (∀ l, so l ≡ₚ l) → merge_measurements so ms = Ok r →
  dget r name = if decide (name ∈ ms ≫= dkeys)
                then match merge_metric ms name with Ok v => Some v | Raise _ => None end
                else None.
Proof.
  intros Hso. unfold merge_measurements.
  assert (Hmem : ∀ n, n ∈ so (py_set (ms ≫= dkeys)) ↔ n ∈ ms ≫= dkeys).
  { intros n. rewrite Hso. apply elem_of_remove_dups. }
  assert (Hgen : ∀ names acc, foldM (λ summed n, v ← merge_metric ms n; Ok (dset summed n v)) acc names
    = Ok r → dget r name = if decide (name ∈ names)
       then match merge_metric ms name with Ok v => Some v | Raise _ => None end
       else dget acc name).
  { induction names as [|n names IH]; cbn [foldM]; intros acc Hr.
    - injection Hr as ->. rewrite decide_False; [done|set_solver].
    - apply bind_Ok_iff in Hr as (acc' & Hacc & Hr). apply IH in Hr as ->.
      apply bind_Ok_iff in Hacc as (v & Hv & [= <-]). rewrite dget_dset.
      destruct (decide (name ∈ names)).
      + rewrite decide_True; [done|set_solver].
      + case_decide as Hn.
        * subst. rewrite decide_True by set_solver. by rewrite Hv.
        * rewrite decide_False; [done|set_solver]. }
  intros Hr%Hgen. rewrite Hr. do 2 case_decide; try done; by rewrite Hmem in *.
Qed.

Definition metric_depth `{Metadata} (name : string) : nat := pred (length (levels_of name)).

Lemma levels_of_known `{Metadata} name : levels_of name ≠ [] → ∃ md, metadata_of name = Some md.
Proof. unfold levels_of. destruct (metadata_of name); [eauto|done]. Qed.

(** C14 (functional): merging the measurements of several containers succeeds on
    integer measurements and gives, at every path of levels of a metric, the sum
    of the values the containers report there, and nothing elsewhere, whatever table
    of metrics the runner has left. *)
Theorem merge_metric_sums `{Metadata} ms name p :
  levels_of name ≠ [] →
  Forall (int_tree (metric_depth name)) (values_of name ms) →
  length p = length (levels_of name) →
  ∃ v, merge_metric ms name = Ok v ∧
    leaf v p = match collect p (values_of name ms) with
               | [] => None
               | zs => Some (MNum (PInt (zsum zs)))
               end.
Proof.
  unfold merge_metric, metric_depth. intros Hl Hvs Hp.
  destruct (levels_of name) as [|lv lvs] eqn:E; [done|].
  cbn [length pred] in *.
  destruct (fold_leveled_spec (length lvs) (values_of name ms) []) as (agg & -> & Hagg & Hc);
    [done|by destruct lvs; split; constructor|].
  simpl. destruct (operation_spec _ _ Hagg) as (r & -> & Hr).
  exists (MDict r). split; [done|]. rewrite Hr, Hc by done.
  replace (collected [] p) with (@nil Z) by (by destruct p). done.
Qed.

Lemma fold_dset_ok (g : string → result mval) names acc :
  (∃ r, foldM (λ summed n, v ← g n; Ok (dset summed n v)) acc names = Ok r) ↔
  ∀ n, n ∈ names → ∃ v, g n = Ok v.
Proof.
  revert acc. induction names as [|n names IH]; cbn [foldM]; intros acc.
  - split; [set_solver|by eexists].
  - destruct (g n) as [v|e] eqn:E; simpl.
    + rewrite IH. split; [|set_solver]. intros H n'. rewrite elem_of_cons.
      intros [->|]; eauto.
    + split; [by intros []|]. intros H. destruct (H n) as [v Hv]; [set_solver|congruence].
Qed.

(** The order in which the interpreter iterates over the set of
    metric names does not matter: if merging succeeds under one order it
    succeeds under every order, and both results agree on every metric. *)
Theorem merge_order_irrelevant `{Metadata} so1 so2 ms r1 :
  (∀ l, so1 l ≡ₚ l) → (∀ l, so2 l ≡ₚ l) →
  merge_measurements so1 ms = Ok r1 →
  ∃ r2, merge_measurements so2 ms = Ok r2 ∧ ∀ name, dget r1 name = dget r2 name.
Proof.
  intros H1 H2 Hr1.
  assert (∃ r2, merge_measurements so2 ms = Ok r2) as [r2 Hr2].
  { apply fold_dset_ok. intros n Hn. rewrite H2 in Hn.
    apply (proj1 (fold_dset_ok (merge_metric ms) (so1 (py_set (ms ≫= dkeys))) [])); [|by rewrite H1].
    by exists r1. }
  exists r2. split; [done|]. intros name.
  by rewrite (merge_measurements_lookup so1 ms r1 name H1 Hr1),
             (merge_measurements_lookup so2 ms r2 name H2 Hr2).
Qed.

(** Two containers of a pod, with memory on two NUMA nodes. *)
Definition example_measurements : list measurements :=
  [ [("task_mem_numa_pages", MDict [(KStr "0", MNum (PInt 5)); (KStr "1", MNum (PInt 7))])];
    [("task_mem_numa_pages", MDict [(KStr "1", MNum (PInt 11))])] ].

#[local] Existing Instance static_metadata.

Lemma merge_metric_sums_witness :
  levels_of "task_mem_numa_pages" ≠ [] ∧
  ∃ v, merge_metric example_measurements "task_mem_numa_pages" = Ok v ∧
    leaf v [KStr "1"] =
      match collect [KStr "1"] (values_of "task_mem_numa_pages" example_measurements) with
      | [] => None
      | zs => Some (MNum (PInt (zsum zs)))
      end.
Proof.
  split; [done|].
  apply (merge_metric_sums example_measurements "task_mem_numa_pages" [KStr "1"]); [done| |done].
  repeat constructor; try (apply (bool_decide_eq_true_1 _); reflexivity); by eexists.
Defined.

Lemma merge_order_irrelevant_witness :
  ∃ r2, merge_measurements (λ l, rev l) example_measurements = Ok r2 ∧
    ∀ name, dget (result_get [] (merge_measurements id example_measurements)) name = dget r2 name.
Proof.
  apply (merge_order_irrelevant id (λ l, rev l) example_measurements).
  - done.
  - intros l. symmetry. apply Permutation_rev.
  - vm_compute. reflexivity.
Defined.
