(* ===== verification/FileSys.v ===== *)
(** * The file system interface

    The code reads and writes control files of [/sys/fs/cgroup], [/sys/fs/resctrl],
    [/proc] and [/sys/devices].  The kernel behind them is not part of the
    repository: it is the class [FileSystem] on an abstract state, with the
    operations the code calls; each may raise.  [ControlFiles] states what the
    code relies on for ordinary control files, and [memfs] is an instance, used
    by the witnesses. *)
From S2P Require Export PyStr PyDict.

Class FileSystem (F : Type) : Type := {
  (** [open(path).read()] *)
  fs_read : string → F → result string;
  (** [os.listdir], [os.path.isdir], [os.path.exists] *)
  fs_listdir : string → F → result (list string);
  fs_isdir : string → F → bool;
  fs_exists : string → F → bool;
  (** [open(path, 'w')]; then each [write] followed by [flush]; then [close] *)
  fs_open_w : string → M F unit;
  fs_append : string → string → M F unit;
  fs_close : string → M F unit;
  (** [os.makedirs(path, exist_ok=True)] and [os.rmdir(path)] *)
  fs_makedirs : string → M F unit;
  fs_rmdir : string → M F unit
}.

(** [with open(path, 'w') as f: f.write(data)] *)
Definition fs_write {F} `{FileSystem F} (path data : string) : M F unit :=
  fs_open_w path ≫= λ _, fs_append path data ≫= λ _, fs_close path.

Definition read_file {F} `{FileSystem F} (path : string) : M F string :=
  λ fs, (fs_read path fs, fs).
Definition list_dir {F} `{FileSystem F} (path : string) : M F (list string) :=
  λ fs, (fs_listdir path fs, fs).

Lemma read_file_Ok_iff {F} `{FileSystem F} path (fs fs' : F) c :
  read_file path fs = (Ok c, fs') ↔ fs_read path fs = Ok c ∧ fs' = fs.
Proof. unfold read_file. split; [by intros [= -> ->]|by intros [-> ->]]. Qed.

(** Reading back a control file gives what was written, and writing one file
    does not change another. *)
Class ControlFiles (F : Type) `{FileSystem F} : Prop := {
  read_after_write path data fs fs' :
    fs_write path data fs = (Ok tt, fs') → fs_read path fs' = Ok data;
  read_other path path' data fs fs' r :
    fs_write path data fs = (r, fs') → path ≠ path' → fs_read path' fs' = fs_read path' fs
}.

(** [os.path.join(a, b)] *)
Definition path_join (a b : string) : string :=
  if startswith "/" b then b
  else if String.eqb a "" || endswith "/" a then a +:+ b
  else a +:+ "/" +:+ b.

(** ** An in-memory file system *)
Record memfs := mkMem {
  mem_files : gmap string string;
  mem_dirs : gset string
}.

Definition mem_prefix (path : string) : string := path +:+ "/".

(** name of the entry of [path] that leads to [p], if [p] lies below [path] *)
Definition mem_child (path p : string) : option string :=
  if startswith (mem_prefix path) p
  then head (split_on "/" (str_drop (String.length (mem_prefix path)) p))
  else None.

Definition mem_under (path p : string) : bool :=
  String.eqb path p || startswith (mem_prefix path) p.

#[export] Instance memfs_fs : FileSystem memfs := {
  fs_read path m := or_raise FileNotFoundError (mem_files m !! path);
  fs_listdir path m :=
    if bool_decide (path ∈ mem_dirs m)
    then Ok (remove_dups (omap (mem_child path)
               ((map_to_list (mem_files m)).*1 ++ elements (mem_dirs m))))
    else Raise FileNotFoundError;
  fs_isdir path m := bool_decide (path ∈ mem_dirs m);
  fs_exists path m :=
    bool_decide (path ∈ mem_dirs m) || match mem_files m !! path with Some _ => true | None => false end;
  fs_open_w path := λ m,
    match mem_files m !! path with
    | Some _ => (Ok tt, mkMem (<[path := ""]> (mem_files m)) (mem_dirs m))
    | None => (Raise FileNotFoundError, m)
    end;
  fs_append path data := λ m,
    match mem_files m !! path with
    | Some c => (Ok tt, mkMem (<[path := c +:+ data]> (mem_files m)) (mem_dirs m))
    | None => (Raise FileNotFoundError, m)
    end;
  fs_close path := mret tt;
  fs_makedirs path := λ m, (Ok tt, mkMem (mem_files m) ({[path]} ∪ mem_dirs m));
  fs_rmdir path := λ m,
    (Ok tt, mkMem (filter (λ kv, mem_under path kv.1 = false) (mem_files m))
                  (filter (λ d, mem_under path d = false) (mem_dirs m)))
}.

#[export] Instance memfs_control : ControlFiles memfs.
Proof.
  split.
  - intros path data m m'. unfold fs_write, mbind, M_bind. simpl.
    destruct (mem_files m !! path); simpl; [|done].
    rewrite lookup_insert_eq. simpl. intros [= <-]. simpl. by rewrite lookup_insert_eq.
  - intros path path' data m m' r. unfold fs_write, mbind, M_bind. simpl.
    destruct (mem_files m !! path); simpl; [|by intros [= <- <-]].
    rewrite lookup_insert_eq. simpl. intros [= <- <-] Hne. simpl.
    by rewrite !lookup_insert_ne.
Qed.
