(* ===== verification/ConfigLoad.v ===== *)
(** * Loading of the configuration

    The rest of [src/wca/config.py] with [src/wca/components.py]: the registration of
    classes, the tags of a YAML file and the objects that are made of them.  The library
    turns the text of a file into nodes, which is a parameter; anchors are left out. *)
From S2P Require Export Config FileSys.

(** ** Nodes and classes *)

(** A node of a YAML file: plain values, sequences and mappings, and the same with the tag
    of a class; [!Env] has a tag of its own. *)
#[warnings="-register-all"]
Inductive ynode :=
  | YScalar (v : pyval)
  | YSeq (l : list ynode)
  | YMap (fields : list (string * ynode))
  | YEnv (name : string)
  | YTagScalar (tag text : string)
  | YTagMap (tag : string) (fields : list (string * ynode)).

(** A class that can be registered: its name, the annotated parameters of its constructor
    and the constructor. *)
Record class_spec := mkClass {
  cs_name : string; cs_signature : list (string * ty); cs_init : dict string pyval → result pyval
}.

(** The constructors that were added to the library: by tag, the class and whether weak
    errors count. *)
Definition registry : Type := dict string (class_spec * bool).

(** src/wca/config.py:474-521 [register]
    A class registered again replaces the one before; a tag is the name of its class. *)
Definition register (strict_mode : bool) (cls : class_spec) : M registry unit :=
  modify (λ r, dset r (cs_name cls) (cls, strict_mode)).

(** src/wca/components.py:37-55 [REGISTERED_COMPONENTS] *)
Definition REGISTERED_COMPONENTS : list string :=
  ["MeasurementRunner"; "AllocationRunner"; "DetectionRunner"; "MesosNode"; "KubernetesNode"; "LogStorage";
   "KafkaStorage"; "FilterStorage"; "NOPAnomalyDetector"; "NOPAllocator"; "AllocationConfiguration";
   "CgroupDriverType"; "StaticNode"; "NUMAAllocator"; "StaticAllocator"; "SSL"; "TaskLabelRegexGenerator"].

(** src/wca/components.py:58-66 [register_components]
    [spec_of] is the class of a name, [resolve] loads an external one. *)
Definition register_components (spec_of : string → class_spec) (resolve : string → result class_spec)
    (extra_components : list string) : M registry unit :=
  _ ← forM_ REGISTERED_COMPONENTS (λ name, register true (spec_of name));
  forM_ extra_components (λ component, cls ← lift (resolve component); register true cls).

(** ** Construction *)
Section load.
  Context (access : string → Z → bool) (environ : string → option string).

(** src/wca/config.py:54-57 [_read_env] *)
Definition read_env (value : string) : pyval := VStr (default "" (environ value)).

(** The constructor of a registered class; an unknown tag is an error of the library, which
    [_parse] turns into a [ConfigLoadError]. *)
Definition construct_tagged (r : registry) (tag : string) (node : option (dict string pyval)) : result pyval :=
  match dget r tag with
  | Some (cls, strict_mode) => constructor access strict_mode (cs_signature cls) (cs_init cls) node
  | None => Raise ConfigLoadError
  end.

(** src/wca/config.py:386-471 [_constructor]
    The objects below a node are made and initialised before it; of a scalar with a tag only
    the tag counts. *)
Fixpoint construct (r : registry) (n : ynode) : result pyval :=
  match n with
  | YScalar v => Ok v
  | YSeq l => VList <$> mapM (construct r) l
  | YMap fields => (λ d, VDict ((λ kv, (VStr kv.1, kv.2)) <$> d)) <$>
                     mapM (λ kn, v ← construct r kn.2; Ok (kn.1, v)) fields
  | YEnv name => Ok (read_env name)
  | YTagScalar tag _ => construct_tagged r tag None
  | YTagMap tag fields =>
      arguments ← mapM (λ kn, v ← construct r kn.2; Ok (kn.1, v)) fields;
      construct_tagged r tag (Some (dict_of arguments))
  end.

(** src/wca/config.py:524-532 [_parse] *)
Definition parse (yaml_nodes : string → result ynode) (r : registry) (yaml_body : string) : result pyval :=
  n ← yaml_nodes yaml_body; construct r n.

(** src/wca/config.py:535-544 [load_config] *)
Definition load_config {W} `{FileSystem W} (yaml_nodes : string → result ynode) (r : registry) (filename : string)
    : M W pyval := λ w,
  if fs_exists filename w then (text ← read_file filename; lift (parse yaml_nodes r text)) w
  else (Raise ConfigLoadError, w).

(** ** Theorems *)

(** A tag that was registered is found, with the class that was registered last for it. *)
Lemma registered_tag strict_mode cls r :
  dget (register strict_mode cls r).2 (cs_name cls) = Some (cls, strict_mode) ∧
  ∀ tag, tag ≠ cs_name cls → dget (register strict_mode cls r).2 tag = dget r tag.
Proof. cbn. split; [apply dget_dset_eq|]. intros tag Hne. by apply dget_dset_ne. Qed.

Lemma all_ok_forall {A} (f : A → result unit) l : all_ok f l = Ok tt → ∀ x, x ∈ l → f x = Ok tt.
Proof.
  induction l as [|y l IH]; intros Hf x Hx; [by apply not_elem_of_nil in Hx|].
  cbn in Hf. apply bind_Ok_iff in Hf as ([] & Hy & Hf). apply elem_of_cons in Hx as [->|Hx]; [done|by apply IH].
Qed.

(** An object that was made of a tagged mapping belongs to the class of its tag: the class
    is registered, every value its constructor was given fits the annotation of its
    parameter, or only weakly fails to where the class is not strict, and the object is what
    the constructor returned. *)
Lemma constructed_object r tag fields v :
  construct r (YTagMap tag fields) = Ok v →
  ∃ cls strict_mode arguments,
    dget r tag = Some (cls, strict_mode) ∧
    mapM (λ kn, v ← construct r kn.2; Ok (kn.1, v)) fields = Ok arguments ∧
    cs_init cls (dict_of arguments) = Ok v ∧
    ∀ name expected_type value, (name, expected_type) ∈ cs_signature cls →
      dget (dict_of arguments) name = Some value →
      assure_type access expected_type value = Ok tt ∨
      strict_mode = false ∧ assure_type access expected_type value = Raise WeakValidationError.
Proof.
  cbn [construct]. intros (arguments & Ha & Hc)%bind_Ok_iff. unfold construct_tagged in Hc.
  destruct (dget r tag) as [[cls strict_mode]|]; [|done]. exists cls, strict_mode, arguments.
  unfold constructor in Hc. apply bind_Ok_iff in Hc as ([] & Hchk & Hi). cbn [from_option] in Hchk, Hi.
  split_and!; [done|done|by destruct (cs_init cls _)|].
  intros name t value Hsig Hv. apply (all_ok_forall _ _ Hchk) in Hsig. cbn in Hsig. rewrite Hv in Hsig.
  destruct (assure_type access t value) as [[]|e]; [by left|]. right.
  destruct (bool_decide (e = WeakValidationError)) eqn:E; [|by destruct (is_validation e)].
  apply bool_decide_eq_true in E as ->. by destruct strict_mode.
Qed.

Lemma unknown_tag r tag fields arguments :
  dget r tag = None → mapM (λ kn, v ← construct r kn.2; Ok (kn.1, v)) fields = Ok arguments →
  construct r (YTagMap tag fields) = Raise ConfigLoadError.
Proof. intros Ht Ha. cbn [construct]. rewrite Ha. cbn [mbind result_bind]. unfold construct_tagged. by rewrite Ht. Qed.
End load.

(** ** A concrete configuration *)
Definition example_class (name : string) (signature : list (string * ty)) : class_spec :=
  mkClass name signature (λ args, if forallb (λ k, bool_decide (k ∈ signature.*1)) (dkeys args)
                                  then Ok (VObj name []) else Raise TypeError).
Definition example_spec (name : string) : class_spec :=
  if String.eqb name "MeasurementRunner"
  then example_class name [("node", TyClass "MesosNode"); ("interval", TySemantic (SNumeric (PInt 0) (PInt 60)))]
  else example_class name [].
Definition example_registry : registry := (register_components example_spec (λ _, Raise ValueError) [] []).2.
Definition example_construct : ynode → result pyval := construct (λ _ _, true) (λ _, None) example_registry.

Example configurations :
  example_construct (YMap [("runner", YTagMap "MeasurementRunner"
    [("node", YTagScalar "MesosNode" "ignored"); ("interval", YScalar (VNum (PInt 5)))])]) =
  Ok (VDict [(VStr "runner", VObj "MeasurementRunner" [])]) ∧
  example_construct (YTagMap "MeasurementRunner" [("node", YTagScalar "LogStorage" "")]) = Raise ConfigLoadError ∧
  example_construct (YTagMap "MeasurementRunner" [("interval", YScalar (VNum (PInt 61)))]) = Raise ConfigLoadError ∧
  example_construct (YTagMap "MeasurementRunner" [("delay", YScalar (VNum (PInt 1)))]) = Raise ConfigLoadError ∧
  example_construct (YTagMap "Nobody" []) = Raise ConfigLoadError ∧
  example_construct (YEnv "HOME") = Ok (VStr "").
Proof. vm_compute. done. Qed.
