(* ===== verification/PerfDerived.v ===== *)
(** * Derived metrics of performance counters

    [PerfCgroupDerivedMetricsGenerator] of [src/wca/perf.py]: instructions per cycle
    and per second, cache misses per thousand instructions and the cache hit ratio,
    from the differences of counters between two measurements.  Opening and reading
    the counters themselves is the class [PerfBackend]. *)
From S2P Require Export Metrics.

(** [perf.PerfCounters] of one cgroup, by the number of the opened object. *)
Class PerfBackend (W : Type) : Type := {
  perf_open : string → list string → bool → M W nat;
  perf_get_measurements : nat → M W measurements;
  perf_cleanup : nat → M W unit
}.

Definition mnum (v : mval) : result num := match v with MNum n => Ok n | _ => Raise TypeError end.

(** [float(a) / b] *)
Definition float_ratio (a b : mval) : result mval :=
  x ← mnum a; f ← to_float x; y ← mnum b; MNum <$> ndiv (PFloat f) y.

(** src/wca/perf.py:401-402 [PerfCgroupDerivedMetricsGenerator._derive.rate] *)
Definition rate (time_delta : float) (value : mval) : result mval :=
  float_ratio value (MNum (PFloat time_delta)).

(** src/wca/perf.py:427-428 [PerfCgroupDerivedMetricsGenerator._derive.times1000] *)
Definition times1000 (x : mval) : result mval := num_binop nmul x (MNum (PInt 1000)).

Definition mdict (v : mval) : result (list (mkey * mval)) :=
  match v with MDict d => Ok d | _ => Raise AttributeError end.

(** src/wca/perf.py:404-419 [PerfCgroupDerivedMetricsGenerator._derive], instructions
    per cycle and per second *)
Definition derive_ipc `{Metadata} (ms : measurements) (inst_delta cycles_delta : mval) (time_delta : float)
    : result measurements :=
  match length (levels_of MetricName.TASK_INSTRUCTIONS) with
  | O =>
      c ← mnum cycles_delta;
      ms ← (if ngtb c (PInt 0) then
              v ← float_ratio inst_delta cycles_delta; Ok (dset ms MetricName.TASK_IPC v)
            else Ok ms);
      if fltb fzero time_delta then
        v ← rate time_delta inst_delta; Ok (dset ms MetricName.TASK_IPS v)
      else Ok ms
  | S d =>
      ipc ← operation_on_leveled_dicts (num_binop ndiv) d inst_delta cycles_delta;
      let ms := dset ms MetricName.TASK_IPC (MDict ipc) in
      if fltb fzero time_delta then
        items ← mdict inst_delta;
        ips ← operation_on_leveled_metric (rate time_delta) d items;
        Ok (dset ms MetricName.TASK_IPS (MDict ips))
      else Ok ms
  end.

(** src/wca/perf.py:425-439 [PerfCgroupDerivedMetricsGenerator._derive], misses *)
Definition derive_mpki `{Metadata} (ms : measurements) (inst_delta cache_misses_delta : mval)
    : result measurements :=
  match length (levels_of MetricName.TASK_CACHE_MISSES) with
  | O => r ← float_ratio cache_misses_delta inst_delta; mpki ← times1000 r;
         Ok (dset ms MetricName.TASK_CACHE_MISSES_PER_KILO_INSTRUCTIONS mpki)
  | S d =>
      divided ← operation_on_leveled_dicts (num_binop ndiv) d cache_misses_delta inst_delta;
      mpki ← operation_on_leveled_metric times1000 d divided;
      Ok (dset ms MetricName.TASK_CACHE_MISSES_PER_KILO_INSTRUCTIONS (MDict mpki))
  end.

(** src/wca/perf.py:444-455 [PerfCgroupDerivedMetricsGenerator._derive], hit ratio *)
Definition derive_hit_ratio `{Metadata} (ms : measurements) (cache_ref_delta cache_misses_delta : mval)
    : result measurements :=
  match length (levels_of MetricName.TASK_CACHE_MISSES) with
  | O => cache_hits ← num_binop nsub cache_ref_delta cache_misses_delta;
         v ← float_ratio cache_hits cache_ref_delta;
         Ok (dset ms MetricName.TASK_CACHE_HIT_RATIO v)
  | S d =>
      hits ← operation_on_leveled_dicts (num_binop nsub) d cache_ref_delta cache_misses_delta;
      v ← operation_on_leveled_dicts (num_binop ndiv) d (MDict hits) cache_ref_delta;
      Ok (dset ms MetricName.TASK_CACHE_HIT_RATIO (MDict v))
  end.

(** The differences of two counters, when both measurements have both. *)
Definition delta2 `{Metadata} (ms prev : measurements) (a b : string) : result (option (mval * mval)) :=
  d ← delta ms prev [a; b];
  match d with
  | None => Ok None
  | Some [x; y] => Ok (Some (x, y))
  | Some _ => Raise ValueError
  end.

(** src/wca/perf.py:398-455 [PerfCgroupDerivedMetricsGenerator._derive] *)
Definition perf_derive `{Metadata} (ms prev : measurements) (time_delta : float) : result measurements :=
  d ← delta2 ms prev MetricName.TASK_INSTRUCTIONS MetricName.TASK_CYCLES;
  ms ← match d with Some (i, c) => derive_ipc ms i c time_delta | None => Ok ms end;
  d ← delta2 ms prev MetricName.TASK_INSTRUCTIONS MetricName.TASK_CACHE_MISSES;
  ms ← match d with Some (i, m) => derive_mpki ms i m | None => Ok ms end;
  d ← delta2 ms prev MetricName.TASK_CACHE_REFERENCES MetricName.TASK_CACHE_MISSES;
  match d with Some (r, m) => derive_hit_ratio ms r m | None => Ok ms end.

(** ** Properties

    With the table of a process that aggregates over processors. *)
#[local] Existing Instance static_metadata.

(** A task that executed no instruction since the last measurement: unlike the
    number of cycles, the number of instructions is not checked before dividing. *)
Example idle_task_raises prev_misses misses t :
  perf_derive
    [(MetricName.TASK_INSTRUCTIONS, MNum (PInt 5)); (MetricName.TASK_CACHE_MISSES, MNum (PInt misses))]
    [(MetricName.TASK_INSTRUCTIONS, MNum (PInt 5)); (MetricName.TASK_CACHE_MISSES, MNum (PInt prev_misses))] t
  = (f ← float_of_Z (misses - prev_misses); Raise ZeroDivisionError).
Proof.
  unfold perf_derive. simpl. unfold derive_mpki, float_ratio. simpl.
  by destruct (float_of_Z (misses - prev_misses)).
Qed.

(** With a level for the processors, as the runner sets it when it does not aggregate over
    them, a processor without instructions is left out instead. *)
Definition cpu_levels : Metadata := dmap (with_levels ["cpu"]) METRICS_METADATA.
Definition per_cpu (l : list Z) : mval :=
  MDict (imap (λ i v, (KInt (Z.of_nat i), MNum (PInt v))) l).
Example idle_cpu_left_out :
  let '(ms, prev) :=
    ([(MetricName.TASK_INSTRUCTIONS, per_cpu [5; 2005]); (MetricName.TASK_CACHE_MISSES, per_cpu [1; 5])],
     [(MetricName.TASK_INSTRUCTIONS, per_cpu [5; 5]); (MetricName.TASK_CACHE_MISSES, per_cpu [1; 1])]) in
  (v ← perf_derive (H := cpu_levels) ms prev fzero;
   dgetitem v MetricName.TASK_CACHE_MISSES_PER_KILO_INSTRUCTIONS) =
  Ok (MDict [(KInt 1, MNum (PFloat (float_of_ratio 2 1)))]).
Proof. vm_compute. reflexivity. Qed.

Definition derived_names : list string :=
  [MetricName.TASK_IPC; MetricName.TASK_IPS;
   MetricName.TASK_CACHE_MISSES_PER_KILO_INSTRUCTIONS; MetricName.TASK_CACHE_HIT_RATIO].

Lemma dget_dset_derived (ms : measurements) name v k :
  name ∈ derived_names → k ∉ derived_names → dget (dset ms name v) k = dget ms k.
Proof. intros Hn Hk. rewrite dget_dset_ne; [done|]. by intros ->. Qed.

Lemma derive_ipc_others ms i c t ms' k :
  k ∉ derived_names → derive_ipc ms i c t = Ok ms' → dget ms' k = dget ms k.
Proof.
  unfold derive_ipc. change (length (levels_of MetricName.TASK_INSTRUCTIONS)) with O.
  cbv beta iota. intros Hk Hd.
  apply bind_Ok_iff in Hd as (cn & _ & Hd). apply bind_Ok_iff in Hd as (ms1 & H1 & Hd).
  assert (dget ms1 k = dget ms k) as <-.
  { destruct (ngtb cn (PInt 0)); inv_ok; [|done]. apply dget_dset_derived; [set_solver|done]. }
  destruct (fltb fzero t); inv_ok; [|done]. apply dget_dset_derived; [set_solver|done].
Qed.

Lemma derive_mpki_other ms i m ms' k :
  k ≠ MetricName.TASK_CACHE_MISSES_PER_KILO_INSTRUCTIONS → derive_mpki ms i m = Ok ms' →
  dget ms' k = dget ms k.
Proof.
  unfold derive_mpki. change (length (levels_of MetricName.TASK_CACHE_MISSES)) with O.
  cbv beta iota. intros Hk Hd. inv_ok. by rewrite dget_dset_ne.
Qed.

Lemma derive_hit_ratio_other ms r m ms' k :
  k ≠ MetricName.TASK_CACHE_HIT_RATIO → derive_hit_ratio ms r m = Ok ms' → dget ms' k = dget ms k.
Proof.
  unfold derive_hit_ratio. change (length (levels_of MetricName.TASK_CACHE_MISSES)) with O.
  cbv beta iota. intros Hk Hd. inv_ok. by rewrite dget_dset_ne.
Qed.

(** The steps of [perf_derive] after the first. *)
Lemma perf_derive_steps ms prev t ms' :
  perf_derive ms prev t = Ok ms' →
  ∃ d ms1, delta2 ms prev MetricName.TASK_INSTRUCTIONS MetricName.TASK_CYCLES = Ok d ∧
    match d with Some (i, c) => derive_ipc ms i c t | None => Ok ms end = Ok ms1 ∧
    ∀ k, k ≠ MetricName.TASK_CACHE_MISSES_PER_KILO_INSTRUCTIONS →
         k ≠ MetricName.TASK_CACHE_HIT_RATIO → dget ms' k = dget ms1 k.
Proof.
  unfold perf_derive. intros Hd. apply bind_Ok_iff in Hd as (d & Hd1 & Hd).
  apply bind_Ok_iff in Hd as (ms1 & H1 & Hd). apply bind_Ok_iff in Hd as (d2 & _ & Hd).
  apply bind_Ok_iff in Hd as (ms2 & H2 & Hd). apply bind_Ok_iff in Hd as (d3 & _ & Hd).
  exists d, ms1. split; [done|]. split; [done|]. intros k Hk1 Hk2. transitivity (dget ms2 k).
  - destruct d3 as [[r m]|]; [by eapply derive_hit_ratio_other|by injection Hd as ->].
  - destruct d2 as [[i m]|]; [by eapply derive_mpki_other|by injection H2 as ->].
Qed.

(** Deriving adds or changes only the four derived metrics; the
    instructions per cycle are the difference of instructions, as a float, divided
    by the difference of cycles, and are reported only when cycles have advanced. *)
Theorem perf_derive_values ms prev t ms' i0 i1 c0 c1 :
  dget ms MetricName.TASK_INSTRUCTIONS = Some (MNum (PInt i1)) →
  dget prev MetricName.TASK_INSTRUCTIONS = Some (MNum (PInt i0)) →
  dget ms MetricName.TASK_CYCLES = Some (MNum (PInt c1)) →
  dget prev MetricName.TASK_CYCLES = Some (MNum (PInt c0)) →
  perf_derive ms prev t = Ok ms' →
  (∀ k, k ∉ derived_names → dget ms' k = dget ms k) ∧
  (c0 < c1 → ∃ f q, float_of_Z (i1 - i0) = Ok f ∧ ndiv (PFloat f) (PInt (c1 - c0)) = Ok q ∧
     dget ms' MetricName.TASK_IPC = Some (MNum q)) ∧
  (c1 ≤ c0 → dget ms' MetricName.TASK_IPC = dget ms MetricName.TASK_IPC).
Proof.
  intros Hi1 Hi0 Hc1 Hc0 (d & ms1 & Hd & H1 & Hrest)%perf_derive_steps.
  assert (Hdelta : d = Some (MNum (PInt (i1 - i0)), MNum (PInt (c1 - c0)))).
  { unfold delta2, delta, available, dmem in Hd. simpl in Hd.
    rewrite Hi1, Hi0, Hc1, Hc0 in Hd. simpl in Hd. unfold dgetitem in Hd.
    rewrite Hi1, Hi0, Hc1, Hc0 in Hd. simpl in Hd. by injection Hd as <-. }
  subst d. split.
  { intros k Hk. rewrite Hrest by (intros ->; apply Hk; set_solver).
    by apply (derive_ipc_others _ _ _ _ _ _ Hk H1). }
  rewrite (Hrest MetricName.TASK_IPC) by done.
  unfold derive_ipc in H1. change (length (levels_of MetricName.TASK_INSTRUCTIONS)) with O in H1.
  cbn [mnum mbind result_bind] in H1. apply bind_Ok_iff in H1 as (ms2 & H2 & H1).
  assert (Hipc : dget ms1 MetricName.TASK_IPC = dget ms2 MetricName.TASK_IPC).
  { destruct (fltb fzero t); inv_ok; [|done]. by rewrite dget_dset_ne. }
  rewrite Hipc. unfold ngtb in H2. rewrite nltb_PInt in H2.
  destruct (0 <? c1 - c0) eqn:E; to_prop; (split; intros Hlt; [|try lia]); try lia.
  - unfold float_ratio in H2. apply bind_Ok_iff in H2 as (v & Hv & [= <-]).
    cbn [mnum mbind result_bind to_float] in Hv. apply bind_Ok_iff in Hv as (f & Hf & Hv).
    destruct (ndiv (PFloat f) (PInt (c1 - c0))) as [q|] eqn:Hq; [|done]. injection Hv as <-.
    exists f, q. by rewrite dget_dset_eq.
  - by injection H2 as <-.
Qed.

Definition example_counters (i c : Z) : measurements :=
  [(MetricName.TASK_INSTRUCTIONS, MNum (PInt i)); (MetricName.TASK_CYCLES, MNum (PInt c))].
Definition example_derived : measurements :=
  result_get [] (perf_derive (example_counters 30 20) (example_counters 10 10) (float_of_ratio 1 1)).

Lemma perf_derive_values_witness :
  dget example_derived MetricName.TASK_IPC = Some (MNum (PFloat (float_of_ratio 2 1))) ∧
  (∀ k, k ∉ derived_names → dget example_derived k = dget (example_counters 30 20) k) ∧
  (10 < 20 → ∃ f q, float_of_Z (30 - 10) = Ok f ∧ ndiv (PFloat f) (PInt (20 - 10)) = Ok q ∧
     dget example_derived MetricName.TASK_IPC = Some (MNum q)) ∧
  (20 ≤ 10 → dget example_derived MetricName.TASK_IPC =
             dget (example_counters 30 20) MetricName.TASK_IPC).
Proof.
  split; [vm_compute; reflexivity|].
  apply (perf_derive_values (example_counters 30 20) (example_counters 10 10) (float_of_ratio 1 1)
           example_derived 10 30 10 20); try reflexivity.
Defined.
