(* ===== verification/Platforms.v ===== *)
(** * Platform information

    [src/wca/platforms.py]: parsers of [/proc] and [/sys] files, the topology,
    RDT capabilities and the "list format" of cpusets.  Outputs of [dmidecode]
    and [ipmctl], the host name, the clock and the installed version are
    parameters. *)
From S2P Require Export PyStr PyDict PyNum Metrics FileSys.

(** ** List format *)

Definition sorted_Z : list Z → list Z := py_sorted Z.ltb.

(** The integers of one range of the list, [a] or [a-b]. *)
Definition decode_range (r : string) : result (list Z) :=
  match split_on "-" r with
  | [b0] => n ← py_int (strip b0); Ok [n]
  | [b0; b1] => start ← py_int (strip b0); last ← py_int (strip b1);
                Ok (seqZ start (last + 1 - start))
  | _ => Ok []
  end.

(** src/wca/platforms.py:692-717 [decode_listformat] *)
Definition decode_listformat (value : string) : result (gset Z) :=
  if String.eqb value "" || String.eqb (strip value) "" then Ok ∅
  else foldM (λ cores r, ns ← decode_range r; Ok (cores ∪ list_to_set ns))
         ∅ (split_on "," value).

(** src/wca/platforms.py:720-727 [encode_listformat] *)
Definition encode_listformat (ints : gset Z) : string :=
  str_join "," (str_of_Z <$> sorted_Z (elements ints)).

(** ** Platform data *)

(** src/wca/platforms.py:40-48 [CPUCodeName] *)
Inductive CPUCodeName :=
  | UNKNOWN | HASWELL | BROADWELL | SKYLAKE | CASCADE_LAKE | COOPER_LAKE | ICE_LAKE.
#[export] Instance CPUCodeName_eq : EqDecision CPUCodeName.
Proof. solve_decision. Defined.

(** src/wca/platforms.py:64-84 [get_cpu_codename] *)
Definition get_cpu_codename (model stepping : Z) : CPUCodeName :=
  if bool_decide (model ∈ [0x4E; 0x5E; 0x55]) then
    if stepping >? 4 then CASCADE_LAKE else SKYLAKE
  else if bool_decide (model ∈ [0x3D; 0x47; 0x4F; 0x56]) then BROADWELL
  else UNKNOWN.

(** src/wca/platforms.py:110-130 [RDTInformation] *)
Record RDTInformation := mkRDTInformation {
  rdt_cache_monitoring_enabled : bool;
  rdt_mb_monitoring_enabled : bool;
  rdt_cache_control_enabled : bool;
  rdt_mb_control_enabled : bool;
  cbm_mask : option string;
  min_cbm_bits : option string;
  num_closids : option Z;
  mb_bandwidth_gran : option Z;
  mb_min_bandwidth : option Z
}.

(** src/wca/platforms.py:132-133 [RDTInformation.is_control_enabled] *)
Definition is_control_enabled (r : RDTInformation) : bool :=
  rdt_mb_control_enabled r || rdt_cache_control_enabled r.
(** src/wca/platforms.py:135-136 [RDTInformation.is_monitoring_enabled] *)
Definition is_monitoring_enabled (r : RDTInformation) : bool :=
  rdt_mb_monitoring_enabled r || rdt_cache_monitoring_enabled r.

Definition topology_t : Type := dict Z (dict Z (list Z)).

(** src/wca/platforms.py:139-167 [Platform] *)
Record Platform := mkPlatform {
  sockets : Z;
  cores : Z;
  cpus : Z;
  numa_nodes : Z;
  topology : topology_t;
  cpu_model : string;
  cpu_model_number : Z;
  cpu_codename : CPUCodeName;
  timestamp : float;
  rdt_information : option RDTInformation;
  node_cpus : dict Z (gset Z);
  node_distances : dict Z (dict Z Z);
  platform_measurements : measurements;
  swap_enabled : bool
}.

(** ** Parsers *)

(** A [list(map(str.strip, line.split(':')))] that [dict] takes as a pair. *)
Definition cpuinfo_line (line : string) : result (string * string) :=
  match strip <$> split_on ":" line with
  | [k; v] => Ok (k, v)
  | _ => Raise ValueError
  end.

(** src/wca/platforms.py:51-61 [_parse_cpuinfo] *)
Definition parse_cpuinfo (cpuinfo_string : string) : result (list (dict string string)) :=
  mapM (λ cpu, dict_of <$> mapM cpuinfo_line (split_on newline cpu))
       (List.filter (λ cpu, negb (String.eqb cpu "")) (split_sub (String newline (String newline "")) cpuinfo_string)).

(** The [n]-th word of a line; [IndexError] when there is none. *)
Definition nth_item {A} (l : list A) (n : nat) : result A := or_raise IndexError (l !! n).

(** src/wca/platforms.py:185-228 [_parse_dmidecode_output], one line of the loop.
    The state holds the five counters, whether a device section is being read
    and what was read of it. *)
Record dmi_state := mkDmi {
  nvm_dimm_count : Z; ram_dimm_count : Z;
  nvm_dimm_size : num; ram_dimm_size : num; ram_dimm_speed : option string;
  found_memory_device : bool;
  dev_size : option (string * string);  (* value, unit *)
  dev_type : option string;
  dev_speed : option string
}.

Definition dmi_init : dmi_state :=
  mkDmi 0 0 (PInt 0) (PInt 0) None false None None None.

(** [units[unit]]: the table of the function *)
Definition dmi_unit (u : string) : result num :=
  if String.eqb u "GB" then Ok (PFloat (float_of_ratio (10 ^ 9) 1))
  else if String.eqb u "MB" then Ok (PFloat (float_of_ratio (10 ^ 6) 1))
  else if String.eqb u "B" then Ok (PInt 1)
  else Raise KeyError.

Definition ddr_types : list string := ["DDR4"; "DDR3"].
Definition is_ddr (t : string) : bool := bool_decide (t ∈ ddr_types).

(** Lines 200-210: what a line of a device section adds to its parameters. *)
Definition dmi_read (line : string) (st : dmi_state) : result dmi_state :=
  let '(mkDmi nc rc ns rs sp found sz ty spd) := st in
  let split_line := words line in
  if str_contains "Size:" line then
    v ← nth_item split_line 1; u ← nth_item split_line 2;
    Ok (mkDmi nc rc ns rs sp found (Some (v, u)) ty spd)
  else
    let type_line := str_contains "Type:" line in
    ddr ← (if type_line then is_ddr <$> nth_item split_line 1 else Ok false : result bool);
    if (ddr : bool) then t ← nth_item split_line 1; Ok (mkDmi nc rc ns rs sp found sz (Some t) spd)
    else if str_contains "Type Detail:" line && str_contains "Non-Volatile" line then
      Ok (mkDmi nc rc ns rs sp found sz (Some "Non-Volatile") spd)
    else if str_contains "Speed:" line && negb (str_contains "Configured" line)
            && negb (str_contains "Unknown" line) then
      s ← nth_item split_line 1; Ok (mkDmi nc rc ns rs sp found sz ty (Some s))
    else Ok st.

(** Lines 212-225: a complete device is counted and its section left. *)
Definition dmi_count (st : dmi_state) : result dmi_state :=
  let '(mkDmi nc rc ns rs sp found sz ty spd) := st in
  match sz, ty, spd with
  | Some (v, u), Some t, Some s =>
      if String.eqb t "" || String.eqb s "" then Ok st
      else if is_ddr t then
        n ← py_int v; k ← dmi_unit u; sz' ← nmul (PInt n) k; rs' ← nadd rs sz';
        Ok (mkDmi nc (rc + 1) ns rs' (Some s) false None None None)
      else if String.eqb t "Non-Volatile" then
        n ← py_int v; k ← dmi_unit u; sz' ← nmul (PInt n) k; ns' ← nadd ns sz';
        Ok (mkDmi (nc + 1) rc ns' rs sp false None None None)
      else Ok (mkDmi nc rc ns rs sp false None None None)
  | _, _, _ => Ok st
  end.

Definition dmi_step (st : dmi_state) (line : string) : result dmi_state :=
  if startswith "Memory Device" line then
    let '(mkDmi nc rc ns rs sp _ sz ty spd) := st in
    Ok (mkDmi nc rc ns rs sp true sz ty spd)
  else st' ← (if found_memory_device st then dmi_read line st else Ok st); dmi_count st'.

(** src/wca/platforms.py:185-228 [_parse_dmidecode_output] *)
Definition parse_dmidecode_output (dmidecode_str : string) : result dmi_state :=
  foldM dmi_step dmi_init (split_on newline dmidecode_str).

(** src/wca/platforms.py:364-366 [get_value_from_line] *)
Definition get_value_from_line (line : string) : result Z :=
  w ← nth_item (words line) 1; py_int w.

Record meminfo := mkMeminfo { mi_total : Z; mi_free : Z; mi_buffers : Z; mi_cache : Z }.

Definition meminfo_line (m : meminfo) (line : string) : result meminfo :=
  if startswith "MemTotal" line then
    v ← get_value_from_line line; Ok (mkMeminfo v (mi_free m) (mi_buffers m) (mi_cache m))
  else if startswith "MemFree" line then
    v ← get_value_from_line line; Ok (mkMeminfo (mi_total m) v (mi_buffers m) (mi_cache m))
  else if startswith "Buffers" line then
    v ← get_value_from_line line; Ok (mkMeminfo (mi_total m) (mi_free m) v (mi_cache m))
  else if startswith "Cached" line then
    v ← get_value_from_line line; Ok (mkMeminfo (mi_total m) (mi_free m) (mi_buffers m) v)
  else Ok m.

(** src/wca/platforms.py:354-383 [parse_proc_meminfo] *)
Definition parse_proc_meminfo (proc_meminfo_output : string) : result Z :=
  m ← foldM meminfo_line (mkMeminfo 0 0 0 0) (split_on newline proc_meminfo_output);
  Ok (Z.shiftl (mi_total m - mi_free m - mi_buffers m - mi_cache m) 10).

(** src/wca/platforms.py:730-738 [is_swap_enabled] *)
Definition is_swap_enabled (mem_info : string) : result bool :=
  match List.find (startswith "SwapTotal") (split_on newline mem_info) with
  | Some line => value ← nth_item (words line) 1; Ok (negb (startswith "0" value))
  | None => Ok false
  end.

(** src/wca/platforms.py:482-513 [parse_proc_stat] *)
Definition proc_stat_line (cpus_usage : dict Z Z) (line : string) : result (dict Z Z) :=
  if negb (String.eqb line "") && startswith "cpu" line then
    let f := split_on " " line in
    f0 ← nth_item f 0;
    if String.eqb (str_drop 3 f0) "" then Ok cpus_usage
    else
      cpu_id ← py_int (str_drop 3 f0);
      user ← nth_item f 1 ≫= py_int;
      nice ← nth_item f 2 ≫= py_int;
      system ← nth_item f 3 ≫= py_int;
      irq ← nth_item f 6 ≫= py_int;
      softirq ← nth_item f 7 ≫= py_int;
      steal ← nth_item f 8 ≫= py_int;
      Ok (dset cpus_usage cpu_id (user + nice + system + irq + softirq + steal))
  else Ok cpus_usage.

Definition parse_proc_stat (proc_stat_output : string) : result (dict Z Z) :=
  foldM proc_stat_line [] (split_on newline proc_stat_output).

(** src/wca/platforms.py:442-449 [VMSTAT_METRICS] *)
Definition VMSTAT_METRICS : list (string * string) :=
  [ (MetricName.PLATFORM_VMSTAT_NUMA_PAGES_MIGRATED, "numa_pages_migrated");
    (MetricName.PLATFORM_VMSTAT_PGMIGRATE_SUCCESS, "pgmigrate_success");
    (MetricName.PLATFORM_VMSTAT_PGMIGRATE_FAIL, "pgmigrate_fail");
    (MetricName.PLATFORM_VMSTAT_NUMA_HINT_FAULTS, "numa_hint_faults");
    (MetricName.PLATFORM_VMSTAT_NUMA_HINT_FAULTS_LOCAL, "numa_hint_faults_local");
    (MetricName.PLATFORM_VMSTAT_PGFAULTS, "pgfault") ].

(** src/wca/platforms.py:452-460 [parse_proc_vmstat] the body, on the content of
    [/proc/vmstat] *)
Definition parse_proc_vmstat (content : string) : result measurements :=
  foldM (λ ms line,
    foldM (λ ms (mk : string * string),
      if startswith mk.2 line then
        v ← nth_item (words line) 1 ≫= py_int; Ok (dset ms mk.1 (MNum (PInt v)))
      else Ok ms) ms VMSTAT_METRICS)
    [] (readlines content).

(** *** Files of [/sys/devices/system/node] *)
Section nodes.
  Context {F : Type} `{FileSystem F}.

Definition BASE_SYSFS_NODES_PATH : string := "/sys/devices/system/node".

Definition node_dirs : M F (list string) :=
    l ← list_dir BASE_SYSFS_NODES_PATH; mret (List.filter (startswith "node") l).

  (** src/wca/platforms.py:396-402 [get_numa_nodes_count] *)
Definition get_numa_nodes_count : M F Z :=
    l ← node_dirs; mret (Z.of_nat (length l)).

Definition node_file (nodedir name : string) : string :=
    path_join (path_join BASE_SYSFS_NODES_PATH nodedir) name.

  (** One line of a node's [meminfo]. *)
Definition node_meminfo_line (acc : dict Z Z * dict Z Z) (line : string)
      : result (dict Z Z * dict Z Z) :=
    let s := words line in
    match s with
    | [_; s1; s2; s3; _] =>
        acc1 ← (if String.eqb s2 "MemFree:" then
                  n ← py_int s1; v ← py_int s3; Ok (dset acc.1 n (Z.shiftl v 10), acc.2)
                else Ok acc : result (dict Z Z * dict Z Z));
        if String.eqb s2 "MemUsed:" then
          n ← py_int s1; v ← py_int s3; Ok (acc1.1, dset acc1.2 n (Z.shiftl v 10))
        else Ok acc1
    | _ => Ok acc
    end.

  (** src/wca/platforms.py:405-423 [parse_node_meminfo] *)
Definition parse_node_meminfo : M F (dict Z Z * dict Z Z) :=
    dirs ← node_dirs;
    foldMS (λ acc nodedir,
      content ← read_file (node_file nodedir "meminfo");
      lift (foldM node_meminfo_line acc (readlines content))) ([], []) dirs.

  (** src/wca/platforms.py:426-439 [parse_node_cpus] *)
Definition parse_node_cpus : M F (dict Z (gset Z)) :=
    dirs ← node_dirs;
    foldMS (λ node_cpus nodedir,
      node_id ← lift (py_int (str_drop 4 nodedir));
      content ← read_file (node_file nodedir "cpulist");
      cs ← lift (decode_listformat content);
      mret (dset node_cpus node_id cs)) [] dirs.

  (** [{i: int(val) for i, val in enumerate(words)}] *)
Definition distance_row (line : string) : result (dict Z Z) :=
    imap (λ i d, (Z.of_nat i, d)) <$> mapM py_int (words line).

  (** src/wca/platforms.py:463-479 [parse_node_distances] *)
Definition parse_node_distances : M F (dict Z (dict Z Z)) :=
    dirs ← node_dirs;
    foldMS (λ node_distances nodedir,
      node_id ← lift (py_int (str_drop 4 nodedir));
      content ← read_file (node_file nodedir "distance");
      row ← lift (distance_row (default "" (head (readlines content))));
      mret (dset node_distances node_id row)) [] dirs.
End nodes.

(** *** Topology *)

(** [itertools.groupby]: runs of consecutive elements with equal keys. *)
Fixpoint groupby {A} (l : list (Z * A)) : list (Z * list A) :=
  match l with
  | [] => []
  | (k, a) :: l' =>
      match groupby l' with
      | (k', g) :: gs => if k =? k' then (k', a :: g) :: gs else (k, [a]) :: (k', g) :: gs
      | [] => [(k, [a])]
      end
  end.

(** [groupby(sorted(l, key=key), key=key)] *)
Definition grouped_by {A} (key : A → result Z) (l : list A) : result (list (Z * list A)) :=
  keyed ← mapM (λ a, k ← key a; Ok (k, a)) l;
  Ok (groupby (py_sorted (λ x y : Z * A, x.1 <? y.1) keyed)).

Definition int_field (name : string) (processor : dict string string) : result Z :=
  dgetitem processor name ≫= py_int.

(** src/wca/platforms.py:544-547 [collect_topology_information], the inner loop:
    the cores of one socket. *)
Definition socket_cores (socket_processors : list (dict string string))
    : result (dict Z (list Z)) :=
  by_core ← grouped_by (int_field "core id") socket_processors;
  foldM (λ cs (cg : Z * list (dict string string)),
    ps ← mapM (int_field "processor") cg.2; Ok (dset cs cg.1 ps)) [] by_core.

(** src/wca/platforms.py:523-556 [collect_topology_information] *)
Definition collect_topology_information (parsed_cpuinfo : list (dict string string))
    : result (Z * Z * Z * topology_t) :=
  by_socket ← grouped_by (int_field "physical id") parsed_cpuinfo;
  topology ← foldM (λ topo (sg : Z * list (dict string string)),
      cores ← socket_cores sg.2; Ok (dset topo sg.1 cores)) [] by_socket;
  let nr_of_cores := foldl (λ n cs, n + Z.of_nat (length cs)) 0 (dvalues topology) in
  Ok (Z.of_nat (length parsed_cpuinfo), nr_of_cores, Z.of_nat (length topology), topology).

(** *** RDT capabilities *)
Section rdt.
  Context {F : Type} `{FileSystem F}.

Definition BASE_RESCTRL_PATH : string := "/sys/fs/resctrl".

  (** src/wca/platforms.py:576-578 [_read_value] *)
Definition read_value (subpath : string) : M F string :=
    s ← read_file (path_join BASE_RESCTRL_PATH subpath); mret (strip s).
Definition read_int_value (subpath : string) : M F Z :=
    s ← read_value subpath; lift (py_int s).

  (** [min(filter(None, [a, b]))]: [filter(None)] drops [None] and 0. *)
Definition min_closids (a b : option Z) : result Z :=
    match List.filter (λ z, negb (z =? 0)) (option_list a ++ option_list b) with
    | [] => Raise ValueError
    | z :: zs => Ok (foldl Z.min z zs)
    end.

Definition file_exists (path : string) : M F bool := λ fs, (Ok (fs_exists path fs), fs).

  (** src/wca/platforms.py:566-612 [_collect_rdt_information] *)
Definition collect_rdt_information : M F RDTInformation :=
    cache_mon ← file_exists (path_join (path_join BASE_RESCTRL_PATH "mon_data/mon_L3_00")
                               "llc_occupancy");
    mb_mon ← file_exists (path_join (path_join BASE_RESCTRL_PATH "mon_data/mon_L3_00")
                            "mbm_total_bytes");
    schemata_body ← read_value "schemata";
    let cache_control := str_contains "L3" schemata_body in
    cache ← (if cache_control then
               mask ← read_value "info/L3/cbm_mask";
               bits ← read_value "info/L3/min_cbm_bits";
               n ← read_int_value "info/L3/num_closids";
               mret (Some mask, Some bits, Some n)
             else mret (None, None, None)
             : M F (option string * option string * option Z));
    let mb_control := str_contains "MB:" schemata_body in
    mb ← (if mb_control then
            gran ← read_int_value "info/MB/bandwidth_gran";
            mn ← read_int_value "info/MB/min_bandwidth";
            n ← read_int_value "info/MB/num_closids";
            mret (Some gran, Some mn, Some n)
          else mret (None, None, None)
          : M F (option Z * option Z * option Z));
    let '(mask, bits, cache_n) := (cache : option string * option string * option Z) in
    let '(gran, mn, mb_n) := (mb : option Z * option Z * option Z) in
    num ← (if cache_control || mb_control then n ← lift (min_closids cache_n mb_n); mret (Some n)
           else mret None : M F (option Z));
    mret (mkRDTInformation cache_mon mb_mon cache_control mb_control mask bits num gran mn).
End rdt.

(** *** Static information, read once *)

(** src/wca/platforms.py:174-175 [_platform_static_information] *)
Record static_state := mkStatic { static_initialized : bool; static_information : measurements }.

(** src/wca/platforms.py:180-182 [data_transfer_rate] *)
Definition mega : float := float_of_ratio (10 ^ 6) 1.
Definition data_transfer_rate : list (string * float) :=
  let times (p q : Z) := fmul (float_of_ratio p q) mega in
  [ ("1600", times 12800 1); ("1866", times 1493333 100); ("2133", times 1706667 100);
    ("2400", times 19200 1); ("2666", times 2133333 100); ("2933", times 2346667 100);
    ("3200", times 25600 1) ].

Definition set_static (name : string) (v : mval) : M static_state unit :=
  modify (λ st, mkStatic (static_initialized st) (dset (static_information st) name v)).

(** The memory mode size found in the output of [ipmctl]: 0, or the text of the
    last line that has one. *)
Definition memorymode_size (ipmctl_output : string) : result Z :=
  foldM (λ (size : result Z) line,
    if str_contains "MemoryCapacity" line then
      right ← nth_item (split_on "=" line) 1;
      w ← nth_item (split_on " " right) 0; Ok (py_int w)
    else Ok size) (Ok 0) (splitlines ipmctl_output) ≫= id.

Definition mdict2 (ram nvm : Z) : mval :=
  MDict [(KStr "ram", MNum (PInt ram)); (KStr "nvm", MNum (PInt nvm))].

(** src/wca/platforms.py:231-290 [get_platform_static_information]
    [ipmctl] and [dmidecode] are the outputs of the binaries, or the
    [FileNotFoundError] of a missing one. *)
Definition get_platform_static_information (ipmctl dmidecode : result string)
    (strict_mode : bool) : M static_state measurements :=
  let missing : M static_state unit :=
    if strict_mode then raise (OtherException "MissingPlatformStaticInformation") else mret tt in
  let on_missing e : option (M static_state unit) :=
    match e with FileNotFoundError => Some missing | _ => None end in
  st ← get_state;
  (if static_initialized st then mret tt
   else
     try_except (out ← lift ipmctl; size ← lift (memorymode_size out);
                 set_static MetricName.PLATFORM_MEM_MODE_SIZE_BYTES (MNum (PInt size)))
       on_missing ≫= λ _,
     try_except
       (out ← lift dmidecode;
        d ← lift (parse_dmidecode_output out);
        set_static MetricName.PLATFORM_DIMM_COUNT (mdict2 (ram_dimm_count d) (nvm_dimm_count d)) ≫= λ _,
        ram ← lift (num_trunc (ram_dimm_size d));
        nvm ← lift (num_trunc (nvm_dimm_size d));
        set_static MetricName.PLATFORM_DIMM_TOTAL_SIZE_BYTES (mdict2 ram nvm) ≫= λ _,
        rate ← lift (match ram_dimm_speed d with
                     | Some s => dgetitem data_transfer_rate s
                     | None => Raise KeyError
                     end);
        n ← lift (nmul (PFloat rate) (PInt (ram_dimm_count d)));
        set_static MetricName.PLATFORM_DIMM_SPEED_BYTES_PER_SECOND (MNum n))
       on_missing ≫= λ _,
     modify (λ st, mkStatic true (static_information st))) ≫= λ _,
  st ← get_state; mret (static_information st).

(** *** The platform object *)

(** src/wca/platforms.py:338-351 [common_optional_labels] *)
Definition common_optional_labels (wca_version : string) (p : Platform) : dict string string :=
  dict_of [ ("sockets", str_of_Z (sockets p)); ("cores", str_of_Z (cores p));
            ("cpus", str_of_Z (cpus p)); ("cpu_model", cpu_model p);
            ("cpu_model_number", str_of_Z (cpu_model_number p));
            ("wca_version", wca_version) ].

(** src/wca/platforms.py:322-335 [create_labels] *)
Definition create_labels (hostname wca_version : string) (p : Platform)
    (include_optional_labels : bool) : dict string string :=
  let labels := dset [] "host" hostname in
  if include_optional_labels then dupdate labels (common_optional_labels wca_version p) else labels.

(** src/wca/platforms.py:293-319 [create_metrics] *)
Definition create_metrics `{Metadata} (wca_version : string) (now : float) (p : Platform)
    : result (list Metric) :=
  let mk name v := create_metric_with_metadata name (MNum v) [] None in
  exported ← export_metrics_from_measurements (platform_measurements p);
  Ok ([ mk MetricName.PLATFORM_TOPOLOGY_CORES (PInt (cores p));
        mk MetricName.PLATFORM_TOPOLOGY_CPUS (PInt (cpus p));
        mk MetricName.PLATFORM_TOPOLOGY_SOCKETS (PInt (sockets p));
        mk MetricName.PLATFORM_LAST_SEEN (PFloat now) ]
      ++ exported
      ++ [ create_metric_with_metadata MetricName.WCA_INFORMATION (MNum (PInt 1))
             (common_optional_labels wca_version p) None ]).

Definition mdict_of (d : dict Z Z) : mval :=
  MDict ((λ kv : Z * Z, (KInt kv.1, MNum (PInt kv.2))) <$> d).

(** What the process environment provides to [collect_platform_information]. *)
Record environment := mkEnv {
  env_now : float; env_hostname : string; env_version : string;
  env_ipmctl : result string; env_dmidecode : result string
}.

Section collect.
  Context {F : Type} `{FileSystem F} `{Metadata}.

  (** src/wca/platforms.py:616-689 [collect_platform_information] *)
Definition collect_platform_information (env : environment) (rdt_enabled : bool)
      (gather_hw_mm_topology : option bool) (extra_platform_measurements : option measurements)
      (include_optional_labels : bool)
      : M (F * static_state) (Platform * list Metric * dict string string) :=
    cpuinfo ← on_fst (read_file "/proc/cpuinfo");
    cpu_info ← lift (parse_cpuinfo cpuinfo);
    topo ← lift (collect_topology_information cpu_info);
    rdt ← (if rdt_enabled then r ← on_fst collect_rdt_information; mret (Some r) else mret None
           : M (F * static_state) (option RDTInformation));
    cpu0 ← lift (nth_item cpu_info 0);
    model_name ← lift (dgetitem cpu0 "model name");
    model ← lift (int_field "model" cpu0);
    stepping ← lift (int_field "stepping" cpu0);
    proc_stat ← on_fst (read_file "/proc/stat");
    cpu_usage ← lift (parse_proc_stat proc_stat);
    meminfo ← on_fst (read_file "/proc/meminfo");
    used ← lift (parse_proc_meminfo meminfo);
    node_mem ← on_fst parse_node_meminfo;
    let ms0 : measurements :=
      dset (dset (dset (dset [] MetricName.PLATFORM_CPU_USAGE (mdict_of cpu_usage))
        MetricName.PLATFORM_MEM_USAGE_BYTES (MNum (PInt used)))
        MetricName.PLATFORM_MEM_NUMA_FREE_BYTES (mdict_of node_mem.1))
        MetricName.PLATFORM_MEM_NUMA_USED_BYTES (mdict_of node_mem.2) in
    let ms1 := dupdate ms0 (default [] extra_platform_measurements) in
    static ← on_snd match gather_hw_mm_topology with
                    | None => get_platform_static_information (env_ipmctl env) (env_dmidecode env) false
                    | Some true => get_platform_static_information (env_ipmctl env) (env_dmidecode env) true
                    | Some false => mret []
                    end;
    vmstat ← on_fst (read_file "/proc/vmstat");
    vm ← lift (parse_proc_vmstat vmstat);
    let ms := dupdate (dupdate ms1 static) vm in
    nodes ← on_fst get_numa_nodes_count;
    ncpus ← on_fst parse_node_cpus;
    distances ← on_fst parse_node_distances;
    meminfo2 ← on_fst (read_file "/proc/meminfo");
    swap ← lift (is_swap_enabled meminfo2);
    let '(nr_of_cpus, nr_of_cores, no_of_sockets, topology) := (topo : Z * Z * Z * topology_t) in
    let p := mkPlatform no_of_sockets nr_of_cores nr_of_cpus nodes topology model_name model
               (get_cpu_codename model stepping) (env_now env) rdt ncpus distances ms swap in
    usage ← lift (dgetitem ms MetricName.PLATFORM_CPU_USAGE);
    len ← lift (match usage with
                | MDict d => Ok (Z.of_nat (length d))
                | MList l => Ok (Z.of_nat (length l))
                | MStr s => Ok (py_len s)
                | MNum _ => Raise TypeError
                end);
    lift (py_assert (len =? nr_of_cpus)) ≫= λ _,
    metrics ← lift (create_metrics (env_version env) (env_now env) p);
    mret (p, metrics, create_labels (env_hostname env) (env_version env) p include_optional_labels).
End collect.

(** ** Properties *)

(** *** List format *)
Lemma str_of_Z_nonneg n : 0 ≤ n → str_of_Z n = digits 10 n.
Proof. intros. unfold str_of_Z, format_base. by rewrite (proj2 (Z.ltb_ge n 0)) by lia. Qed.

Lemma strip_str_of_Z n : 0 ≤ n → strip (str_of_Z n) = str_of_Z n.
Proof.
  intros Hn. rewrite str_of_Z_nonneg by done. apply strip_none.
  eapply str_forallb_impl; [|apply (digits_all 10 n); lia].
  intros c Hc. by apply is_digit_char_plain in Hc as (-> & _).
Qed.

Lemma decode_range_str_of_Z n : 0 ≤ n → decode_range (str_of_Z n) = Ok [n].
Proof.
  intros Hn. unfold decode_range.
  rewrite split_on_no_char by (rewrite str_of_Z_nonneg by done; by apply str_forallb_digit_no_char).
  by rewrite strip_str_of_Z, py_int_str_of_Z.
Qed.

Lemma decode_ranges_str_of_Z (l : list Z) (acc : gset Z) :
  Forall (λ n, 0 ≤ n) l →
  foldM (λ cores r, ns ← decode_range r; Ok (cores ∪ list_to_set ns)) acc (str_of_Z <$> l) =
  Ok (acc ∪ list_to_set l).
Proof.
  intros Hl. revert acc. induction Hl as [|n l Hn Hl IH]; intros acc; simpl.
  - f_equal. set_solver.
  - rewrite decode_range_str_of_Z by done. simpl. rewrite IH. f_equal. set_solver.
Qed.

Lemma str_join_nonempty sep w ws : w ≠ "" → str_join sep (w :: ws) ≠ "".
Proof. destruct w, ws; done. Qed.

Lemma join_digits_no_space (l : list Z) :
  Forall (λ n, 0 ≤ n) l →
  str_forallb (λ c, negb (is_space c)) (str_join "," (str_of_Z <$> l)) = true.
Proof.
  intros Hl. induction Hl as [|n l Hn Hl IH]; [done|].
  assert (Hd : str_forallb (λ c, negb (is_space c)) (str_of_Z n) = true).
  { rewrite str_of_Z_nonneg by done.
    eapply str_forallb_impl; [|apply (digits_all 10 n); lia].
    intros c Hc. by apply is_digit_char_plain in Hc as (-> & _). }
  destruct l as [|n' l]; [done|].
  change (str_join "," (str_of_Z <$> n :: n' :: l))
    with (str_of_Z n +:+ "," +:+ str_join "," (str_of_Z <$> n' :: l)).
  rewrite !str_forallb_app, Hd, IH. done.
Qed.

Lemma strip_join_digits (l : list Z) :
  l ≠ [] → Forall (λ n, 0 ≤ n) l → strip (str_join "," (str_of_Z <$> l)) ≠ "".
Proof.
  intros Hne Hl. rewrite strip_none by by apply join_digits_no_space.
  destruct l as [|n l]; [done|]. apply str_join_nonempty.
  inversion Hl; subst. rewrite str_of_Z_nonneg by done. apply digits_fuel_not_nil.
Qed.

Lemma elements_sorted_Z (s : gset Z) (x : Z) : x ∈ sorted_Z (elements s) ↔ x ∈ s.
Proof. unfold sorted_Z. by rewrite py_sorted_elem, elem_of_elements. Qed.

(** Decoding the list format of a set of CPU or node numbers gives the set back. *)
Lemma decode_encode_listformat (s : gset Z) :
  (∀ n, n ∈ s → 0 ≤ n) → decode_listformat (encode_listformat s) = Ok s.
Proof.
  intros Hs. unfold decode_listformat, encode_listformat.
  set (l := sorted_Z (elements s)).
  assert (Hl : Forall (λ n, 0 ≤ n) l).
  { apply Forall_forall. intros n Hn%elements_sorted_Z. auto. }
  assert (Heq : list_to_set l = s).
  { apply set_eq. intros n. rewrite elem_of_list_to_set. apply elements_sorted_Z. }
  destruct (decide (l = [])) as [E|Hne].
  - rewrite E in *. simpl in *. by rewrite <-Heq.
  - pose proof (strip_join_digits l Hne Hl) as Hstrip.
    destruct (String.eqb (str_join "," (str_of_Z <$> l)) "") eqn:E1; to_prop.
    { rewrite E1 in Hstrip. done. }
    rewrite (proj2 (String.eqb_neq _ _) Hstrip). simpl.
    rewrite split_join.
    + rewrite decode_ranges_str_of_Z by done. f_equal. rewrite Heq. set_solver.
    + by destruct l.
    + apply Forall_fmap. eapply Forall_impl; [exact Hl|]. intros n Hn. simpl.
      rewrite str_of_Z_nonneg by done. by apply str_forallb_digit_no_char.
Qed.

Lemma strip_encode_listformat (s : gset Z) :
  (∀ n, n ∈ s → 0 ≤ n) → strip (encode_listformat s) = encode_listformat s.
Proof.
  intros Hs. apply strip_none, join_digits_no_space, Forall_forall.
  intros n Hn%elements_sorted_Z. auto.
Qed.

(** *** Topology *)
Lemma groupby_concat {A} (l : list (Z * A)) : concat (snd <$> groupby l) = snd <$> l.
Proof.
  induction l as [|[k a] l IH]; [done|].
  change (snd <$> (k, a) :: l) with (a :: (snd <$> l)). rewrite <-IH. simpl.
  destruct (groupby l) as [|[k' g] gs]; [done|]. by destruct (k =? k').
Qed.

Lemma groupby_keys {A} (l : list (Z * A)) k : k ∈ (groupby l).*1 → k ∈ l.*1.
Proof.
  induction l as [|[k0 a] l IH]; simpl; [done|].
  destruct (groupby l) as [|[k' g] gs]; simpl in *; [set_solver|].
  destruct (k0 =? k') eqn:E; to_prop; simpl; set_solver.
Qed.

Lemma groupby_distinct {A} (l : list (Z * A)) :
  StronglySorted (λ x y, x.1 ≤ y.1) l → NoDup (groupby l).*1.
Proof.
  induction 1 as [|[k a] l Hl IH Hall]; simpl; [constructor|].
  pose proof (groupby_keys l) as Hkeys.
  destruct (groupby l) as [|[k' g] gs] eqn:Eg; simpl in *; [by constructor; [set_solver|]|].
  destruct (k =? k') eqn:E; to_prop; subst; simpl; [done|].
  constructor; [|done]. rewrite elem_of_cons. intros [->|Hin]; [done|].
  (* [k] would come back after the larger key [k'] *)
  assert (Hk' : k' ∈ l.*1) by (apply Hkeys; set_solver).
  rewrite Forall_forall in Hall.
  apply list_elem_of_fmap in Hk' as ([k1 a1] & Heq1 & Hin1). simpl in Heq1. subst k1.
  specialize (Hall _ Hin1) as Hle. simpl in Hle.
  assert (Hgt : ∀ q, q ∈ gs.*1 → k' < q).
  { clear -Eg Hl. revert k' g gs Eg. induction Hl as [|[k1 a1] l Hl IH Hall]; intros k' g gs; simpl; [done|].
    pose proof (groupby_keys l) as Hkeys.
    destruct (groupby l) as [|[k2 g2] gs2] eqn:Eg2; [intros [= <- <- <-]; set_solver|].
    destruct (k1 =? k2) eqn:E; to_prop; intros [= <- <- <-] q Hq.
    - subst. by apply (IH _ _ _ eq_refl).
    - simpl in Hq. assert (k2 ∈ l.*1) as Hk2 by (apply Hkeys; simpl; set_solver).
      apply list_elem_of_fmap in Hk2 as ([k3 a3] & Heq & Hin). simpl in Heq. subst k3.
      rewrite Forall_forall in Hall. specialize (Hall _ Hin). simpl in Hall.
      apply elem_of_cons in Hq as [->|Hq]; [lia|]. specialize (IH _ _ _ eq_refl _ Hq). lia. }
  specialize (Hgt _ Hin). lia.
Qed.

Lemma grouped_by_spec {A} (key : A → result Z) l gs :
  grouped_by key l = Ok gs → concat (snd <$> gs) ≡ₚ l ∧ NoDup gs.*1.
Proof.
  unfold grouped_by. intros H. apply bind_Ok_iff in H as (keyed & Hk & [= <-]). split.
  - rewrite groupby_concat, py_sorted_Permutation.
    apply mapM_Ok_Forall2 in Hk. clear -Hk. induction Hk as [|a ka l keyed Ha Hk IH]; [done|].
    apply bind_Ok_iff in Ha as (k & _ & [= <-]). simpl. by f_equiv.
  - apply groupby_distinct, py_sorted_sorted; intros [x ?] [y ?]; simpl.
    + intros [z ?] ??. simpl in *. lia.
    + intros ?%Z.ltb_lt. lia.
    + intros ?%Z.ltb_ge. lia.
Qed.

(** A loop [for k, v in items: d[k] = f(v)] over distinct keys collects the
    values in order. *)
Lemma fold_dset_values {B V} (f : B → result V) (gs : list (Z * B)) (d : dict Z V) r :
  NoDup (d.*1 ++ gs.*1) →
  foldM (λ d g, v ← f g.2; Ok (dset d g.1 v)) d gs = Ok r →
  ∃ vs, mapM (f ∘ snd) gs = Ok vs ∧ dvalues r = dvalues d ++ vs.
Proof.
  revert d. induction gs as [|[k b] gs IH]; simpl; intros d Hnd Hr.
  - injection Hr as <-. exists []. by rewrite app_nil_r.
  - apply bind_Ok_iff in Hr as (d' & Hd & Hr). apply bind_Ok_iff in Hd as (v & Hv & [= <-]).
    simpl in Hv. assert (Hfresh : k ∉ dkeys d).
    { apply NoDup_app in Hnd as (_ & Hd & _). intros Hin. apply (Hd k Hin). set_solver. }
    rewrite (dset_fresh d k v Hfresh) in Hr.
    apply IH in Hr as (vs & Hvs & Hdv).
    + exists (v :: vs). rewrite Hv. simpl. rewrite Hvs. split; [done|].
      rewrite Hdv. unfold dvalues. rewrite fmap_app, <-app_assoc. done.
    + rewrite fmap_app. simpl. rewrite <-app_assoc. done.
Qed.

Definition topology_cpus (topo : topology_t) : list Z :=
  concat ((λ d, concat (dvalues d)) <$> dvalues topo).

Lemma mapM_perm {A B} (f : A → result B) l1 l2 r1 :
  l1 ≡ₚ l2 → mapM f l1 = Ok r1 → ∃ r2, mapM f l2 = Ok r2 ∧ r1 ≡ₚ r2.
Proof.
  intros Hp. revert r1. induction Hp as [|x l1 l2 Hp IH|x y l|l1 l2 l3 _ IH1 _ IH2]; intros r1 Hr.
  - exists r1. done.
  - simpl in Hr. apply bind_Ok_iff in Hr as (y & Hy & Hr).
    apply bind_Ok_iff in Hr as (ys & Hys & [= <-]).
    destruct (IH _ Hys) as (r2 & Hr2 & Hp2). exists (y :: r2). simpl. rewrite Hy. simpl.
    rewrite Hr2. split; [done|by f_equiv].
  - simpl in Hr. apply bind_Ok_iff in Hr as (b & Hb & Hr).
    apply bind_Ok_iff in Hr as (ys & Hr & [= <-]).
    apply bind_Ok_iff in Hr as (a & Ha & Hr). apply bind_Ok_iff in Hr as (zs & Hzs & [= <-]).
    exists (a :: b :: zs). simpl. rewrite Ha. simpl. rewrite Hb. simpl. rewrite Hzs.
    split; [done|apply Permutation_swap].
  - destruct (IH1 _ Hr) as (r2 & Hr2 & Hp2). destruct (IH2 _ Hr2) as (r3 & Hr3 & Hp3).
    exists r3. split; [done|]. by rewrite Hp2.
Qed.

Lemma mapM_concat {A B} (f : A → result B) (ls : list (list A)) rs :
  mapM (mapM f) ls = Ok rs → mapM f (concat ls) = Ok (concat rs).
Proof.
  revert rs. induction ls as [|l ls IH]; simpl; intros rs Hr; [by injection Hr as <-|].
  apply bind_Ok_iff in Hr as (r & Hl & Hr). apply bind_Ok_iff in Hr as (rs' & Hrs & [= <-]).
  specialize (IH _ Hrs). clear Hrs. simpl. revert r Hl.
  induction l as [|a l IHl]; simpl; intros r Hl; [by injection Hl as <-|].
  apply bind_Ok_iff in Hl as (b & Hb & Hl). apply bind_Ok_iff in Hl as (bs & Hbs & [= <-]).
  rewrite Hb. simpl. by rewrite (IHl _ Hbs).
Qed.

(** The cores of one socket: all its processors, each once. *)
Lemma socket_cores_spec ps cores :
  socket_cores ps = Ok cores →
  ∃ ids, mapM (int_field "processor") ps = Ok ids ∧ concat (dvalues cores) ≡ₚ ids.
Proof.
  intros H. apply bind_Ok_iff in H as (by_core & Hg & Hf).
  apply grouped_by_spec in Hg as [Hperm Hnd].
  apply (fold_dset_values (mapM (int_field "processor")) by_core []) in Hf as (vs & Hvs & Hdv);
    [|by simpl]. simpl in Hdv. rewrite Hdv.
  rewrite <-mapM_fmap in Hvs. apply mapM_concat in Hvs.
  eapply mapM_perm in Hvs as (ids & Hids & Hp); [|exact Hperm]. by exists ids.
Qed.

Lemma sockets_cores_spec gs cs :
  mapM socket_cores gs = Ok cs →
  ∃ idss, mapM (mapM (int_field "processor")) gs = Ok idss ∧
    concat ((λ d, concat (dvalues d)) <$> cs) ≡ₚ concat idss.
Proof.
  revert cs. induction gs as [|g gs IH]; cbn [mapM]; intros cs H.
  - injection H as <-. by exists [].
  - apply bind_Ok_iff in H as (c & Hc & H). apply bind_Ok_iff in H as (cs' & Hcs & [= <-]).
    destruct (socket_cores_spec _ _ Hc) as (ids & Hids & Hp).
    destruct (IH _ Hcs) as (idss & Hidss & Hps). exists (ids :: idss).
    rewrite Hids. simpl. rewrite Hidss. split; [done|]. simpl. by rewrite Hp, Hps.
Qed.

(** C20 (invariant): the topology lists every processor of [/proc/cpuinfo] exactly
    once, and the reported number of CPUs is the number of processors listed. *)
Theorem topology_partition infos n c s topo :
  collect_topology_information infos = Ok (n, c, s, topo) →
  ∃ ids, mapM (int_field "processor") infos = Ok ids ∧ topology_cpus topo ≡ₚ ids ∧
         n = Z.of_nat (length (topology_cpus topo)).
Proof.
  unfold collect_topology_information. intros H.
  apply bind_Ok_iff in H as (by_socket & Hg & H). apply bind_Ok_iff in H as (topo' & Hf & H).
  injection H as <- _ _ <-. apply grouped_by_spec in Hg as [Hperm Hnd].
  apply (fold_dset_values socket_cores by_socket []) in Hf as (vs & Hvs & Hdv); [|by simpl].
  simpl in Hdv. rewrite <-mapM_fmap in Hvs.
  destruct (sockets_cores_spec _ _ Hvs) as (idss & Hidss & Hps).
  apply mapM_concat in Hidss.
  eapply mapM_perm in Hidss as (ids & Hids & Hp); [|exact Hperm].
  exists ids. split; [done|].
  assert (Hall : topology_cpus topo' ≡ₚ ids) by (unfold topology_cpus; rewrite Hdv, Hps; done).
  split; [done|]. f_equal. rewrite Hall. apply mapM_Ok_Forall2, Forall2_length in Hids. done.
Qed.

(** A two-socket machine with two cores of two threads each. *)
Definition cpu (p s c : string) : dict string string :=
  [("processor", p); ("physical id", s); ("core id", c)].
Definition two_sockets : list (dict string string) :=
  [cpu "0" "0" "0"; cpu "1" "1" "0"; cpu "2" "0" "1"; cpu "3" "1" "1";
   cpu "4" "0" "0"; cpu "5" "1" "0"; cpu "6" "0" "1"; cpu "7" "1" "1"].

Example two_sockets_topology :
  collect_topology_information two_sockets =
  Ok (8, 4, 2, [(0, [(0, [0; 4]); (1, [2; 6])]); (1, [(0, [1; 5]); (1, [3; 7])])]).
Proof. vm_compute. reflexivity. Qed.

Lemma topology_partition_witness :
  ∃ ids, mapM (int_field "processor") two_sockets = Ok ids ∧
    topology_cpus [(0, [(0, [0; 4]); (1, [2; 6])]); (1, [(0, [1; 5]); (1, [3; 7])])] ≡ₚ ids ∧
    8 = Z.of_nat (length (topology_cpus
          [(0, [(0, [0; 4]); (1, [2; 6])]); (1, [(0, [1; 5]); (1, [3; 7])])])).
Proof.
  apply (topology_partition two_sockets 8 4 2). vm_compute. reflexivity.
Defined.
