(* ===== verification/PerfEvents.v ===== *)
(** * Performance counters

    [src/wca/perf.py] and [src/wca/perf_const.py]: the attributes of an event, opening
    and reading the counters of a cgroup on all processors, scaling of multiplexed
    counters.  The system calls are the class [PerfKernel]; what a counter file holds
    is the list of 64-bit integers that successive reads return. *)
From S2P Require Export Metrics FileSys Platforms PyStats.

(** ** Constants *)

(** src/wca/perf_const.py:24-43 [constants] *)
Definition PERF_ATTR_SIZE_VER5 : Z := 0x70.
Definition PERF_EVENT_IOC_ENABLE : Z := 0x2400.
Definition PERF_EVENT_IOC_RESET : Z := 0x2403.
Definition PERF_FLAG_PID_CGROUP : Z := Z.shiftl 1 2.
Definition PERF_FLAG_FD_CLOEXEC : Z := Z.shiftl 1 3.
Definition PERF_FORMAT_GROUP : Z := Z.shiftl 1 3.
Definition PERF_FORMAT_TOTAL_TIME_ENABLED : Z := Z.shiftl 1 0.
Definition PERF_FORMAT_TOTAL_TIME_RUNNING : Z := Z.shiftl 1 1.
Definition PERF_FORMAT_ID : Z := Z.shiftl 1 2.
Definition PERF_SAMPLE_IDENTIFIER : Z := Z.shiftl 1 16.

(** src/wca/perf_const.py:151-161 [PerfType] *)
Definition PERF_TYPE_HARDWARE : Z := 0.
Definition PERF_TYPE_RAW : Z := 4.

(** src/wca/perf_const.py:164-184 [AttrFlags] *)
Definition flag_disabled : Z := Z.shiftl 1 0.
Definition flag_inherit : Z := Z.shiftl 1 1.
Definition flag_exclude_guest : Z := Z.shiftl 1 19.

(** src/wca/perf_const.py:81-99 [HardwareEventNameMap] *)
Definition HardwareEventNameMap : dict string Z :=
  [(MetricName.TASK_CYCLES, 0); (MetricName.TASK_INSTRUCTIONS, 1);
   (MetricName.TASK_CACHE_MISSES, 3); (MetricName.TASK_CACHE_REFERENCES, 2)].

(** src/wca/perf_const.py:102-148 [PREDEFINED_RAW_EVENTS] *)
Definition PREDEFINED_RAW_EVENTS : dict string (dict CPUCodeName (Z * Z * Z)) :=
  let both c := [(SKYLAKE, c); (CASCADE_LAKE, c)] in
  [(MetricName.TASK_STALLED_MEM_LOADS,
    [(SKYLAKE, (0xA3, 0x14, 20)); (CASCADE_LAKE, (0xA3, 0x14, 20)); (BROADWELL, (0xA3, 0x06, 6))]);
   (MetricName.TASK_OFFCORE_REQUESTS_L3_MISS_DEMAND_DATA_RD, both (0xB0, 0x10, 0));
   (MetricName.TASK_OFFCORE_REQUESTS_DEMAND_DATA_RD, both (0xB0, 0x01, 0));
   (MetricName.TASK_OFFCORE_REQUESTS_DEMAND_RFO, both (0xB0, 0x04, 0));
   (MetricName.TASK_OFFCORE_REQUESTS_OUTSTANDING_L3_MISS_DEMAND_DATA_RD, both (0x60, 0x10, 0));
   (MetricName.TASK_MEM_LOAD_RETIRED_LOCAL_PMM, [(CASCADE_LAKE, (0xd1, 0x80, 0))]);
   (MetricName.TASK_MEM_LOAD_RETIRED_LOCAL_DRAM, both (0xd3, 0x01, 0));
   (MetricName.TASK_MEM_LOAD_RETIRED_REMOTE_DRAM, both (0xd3, 0x02, 0));
   (MetricName.TASK_MEM_INST_RETIRED_LOADS, both (0xd0, 0x81, 0));
   (MetricName.TASK_MEM_INST_RETIRED_STORES, both (0xd0, 0x82, 0));
   (MetricName.TASK_DTLB_LOAD_MISSES, both (0x08, 0x0e, 0))].

(** ** Attributes of an event *)

(** src/wca/perf_const.py:53-71 [PerfEventAttr], the fields the code sets: [ctypes]
    keeps the lower 32 or 64 bits of what is assigned. *)
Record PerfEventAttr := mkAttr {
  attr_type : Z; attr_size : Z; attr_config : Z; attr_sample_type : Z;
  attr_read_format : Z; attr_flags : Z; attr_config1 : Z
}.
Definition c_uint (z : Z) : Z := z mod 2 ^ 32.
Definition c_ulong (z : Z) : Z := z mod 2 ^ 64.

(** [event | (umask << 8) | (cmask << 24)] *)
Definition raw_config (event umask cmask : Z) : Z :=
  Z.lor (Z.lor event (Z.shiftl umask 8)) (Z.shiftl cmask 24).

(** src/wca/perf.py:38-40 [_get_event_config] *)
Definition get_event_config (cpu : CPUCodeName) (event_name : string) : result Z :=
  by_cpu ← dgetitem PREDEFINED_RAW_EVENTS event_name;
  e ← dgetitem by_cpu cpu;
  let '(event, umask, cmask) := e in Ok (raw_config event umask cmask).

(** [raise Exception(...)] *)
Definition PlainException : exn := OtherException "Exception".

(** [s[a:b]] *)
Definition str_slice (a b : nat) (s : string) : string := str_take (b - a) (str_drop a s).

(** src/wca/perf.py:172-188 [_parse_raw_event_name], the encoding of the bits *)
Definition parse_raw_bits (bits : string) : result (Z * Z) :=
  c ← (match String.length bits with
      | 16%nat => cmask ← py_int16 (str_slice 4 6 bits); config1 ← py_int16 (str_slice 6 16 bits);
              Ok (cmask, config1)
      | 6%nat => cmask ← py_int16 (str_slice 4 6 bits); Ok (cmask, 0)
      | 4%nat => Ok (0, 0)
      | _ => Raise PlainException
      end : result (Z * Z));
  event ← py_int16 (str_slice 0 2 bits);
  umask ← py_int16 (str_slice 2 4 bits);
  Ok (raw_config event umask c.1, c.2).

(** src/wca/perf.py:153-188 [_parse_raw_event_name]
    With more than one [__r] the unpacking fails before [bits] is bound, which the
    handler of the error then uses. *)
Definition parse_raw_event_name (event_name : string) : result (Z * Z) :=
  if negb (str_contains "__r" event_name) then Raise PlainException
  else match split_sub "__r" event_name with
       | [_; bits] =>
           match parse_raw_bits bits with
           | Raise ValueError => Raise PlainException
           | r => r
           end
       | _ => Raise UnboundLocalError
       end.

(** src/wca/perf.py:191-223 [_create_event_attributes] *)
Definition create_event_attributes (event_name : string) (disabled : bool)
    (cpu_code_name : CPUCodeName) : result PerfEventAttr :=
  c ← (if dmem PREDEFINED_RAW_EVENTS event_name then
         config ← get_event_config cpu_code_name event_name; Ok (PERF_TYPE_RAW, config, 0)
       else match dget HardwareEventNameMap event_name with
            | Some config => Ok (PERF_TYPE_HARDWARE, config, 0)
            | None =>
                if str_contains "__r" event_name then
                  cc ← parse_raw_event_name event_name; Ok (PERF_TYPE_RAW, cc.1, cc.2)
                else Raise PlainException
            end);
  let '(type, config, config1) := c in
  let flags := Z.lor flag_exclude_guest flag_inherit in
  Ok (mkAttr (c_uint type) (c_uint PERF_ATTR_SIZE_VER5) (c_ulong config) (c_ulong PERF_SAMPLE_IDENTIFIER)
        (c_ulong (Z.lor (Z.lor (Z.lor PERF_FORMAT_GROUP PERF_FORMAT_TOTAL_TIME_ENABLED)
           PERF_FORMAT_TOTAL_TIME_RUNNING) PERF_FORMAT_ID))
        (c_ulong (if disabled then Z.lor flags flag_disabled else flags)) (c_ulong config1)).

(** ** Reading counters *)

(** [float(n)] of a 64-bit integer cannot overflow. *)
Definition f64 (n : Z) : float := match float_of_Z n with Ok f => f | Raise _ => finf end.

(** src/wca/perf.py:131-150 [_scale_counter_value] *)
Definition scale_counter_value (raw_value time_enabled time_running : Z) : result (num * float) :=
  if time_running =? 0 then Ok (PFloat fzero, fzero)
  else if time_enabled =? 0 then Ok (PFloat fzero, fzero)
  else if negb (time_running =? time_enabled) then
    scaling_factor ← fdiv (f64 time_enabled) (f64 time_running);
    v ← float_round (fmul (f64 raw_value) scaling_factor);
    Ok (PInt v, scaling_factor)
  else Ok (PFloat (f64 raw_value), f64 1).

(** [statistics.mean] of floats, as CPython 3.6 computes it. *)
Definition mean (data : list float) : result float :=
  match data with
  | [] => Raise StatisticsError
  | _ => if forallb is_finite data
         then to_nearest (exact_sum data) (Z.of_nat (length data) * scale)
         else Ok (fdiv_raw (foldl fadd fzero data) (f64 (Z.of_nat (length data))))
  end.

(** [max] of floats: a later one replaces the first when it is greater. *)
Definition float_max (x : float) (l : list float) : float := foldl (λ m y, if fltb m y then y else m) x l.

(** src/wca/perf.py:66-76 [_get_measurements_for_scaling_info] *)
Definition get_measurements_for_scaling_info (scaling_factors : list float) : result measurements :=
  match scaling_factors with
  | [] => Ok [(MetricName.TASK_SCALING_FACTOR_AVG, MNum (PFloat (f64 1)));
              (MetricName.TASK_SCALING_FACTOR_MAX, MNum (PFloat (f64 1)))]
  | x :: l =>
      avg ← mean scaling_factors;
      Ok [(MetricName.TASK_SCALING_FACTOR_AVG, MNum (PFloat avg));
          (MetricName.TASK_SCALING_FACTOR_MAX, MNum (PFloat (float_max x l)))]
  end.

Definition struct_error : exn := OtherException "struct.error".

(** src/wca/perf.py:89-106 [_parse_event_groups], the events of the group *)
Fixpoint parse_events (get_scaling_info : list float → result measurements) (event_names : list string)
    (time_enabled time_running : Z) (file : list Z) (ms : measurements) (scaling_factors : list float)
    : result measurements :=
  match event_names with
  | [] => Ok ms
  | event_name :: event_names =>
      match file with
      | raw_value :: rest =>
          mf ← scale_counter_value raw_value time_enabled time_running;
          let ms := dset ms event_name (MNum mf.1) in
          let scaling_factors := if feqb mf.2 fzero then scaling_factors else scaling_factors ++ [mf.2] in
          match rest with
          | _ :: rest =>
              info ← get_scaling_info scaling_factors;
              parse_events get_scaling_info event_names time_enabled time_running rest
                (dupdate ms info) scaling_factors
          | [] => Raise struct_error
          end
      | [] => Raise struct_error
      end
  end.

(** src/wca/perf.py:79-108 [_parse_event_groups] *)
Definition parse_event_groups (get_scaling_info : list float → result measurements)
    (file : list Z) (event_names : list string) : result measurements :=
  match file with
  | size :: rest =>
      _ ← py_assert (size =? Z.of_nat (length event_names));
      match rest with
      | time_enabled :: time_running :: rest =>
          parse_events get_scaling_info event_names time_enabled time_running rest [] []
      | _ => Raise struct_error
      end
  | [] => Raise struct_error
  end.

(** src/wca/perf.py:51-63 [_parse_online_cpus_string] *)
Definition parse_online_cpus_string (raw_string : string) : result (list Z) :=
  foldM (λ cpus nr,
    if negb (str_contains "-" nr) then n ← py_int nr; Ok (cpus ++ [n])
    else match split_on "-" nr with
         | [start; end_] => s ← py_int start; e ← py_int end_;
                            Ok (cpus ++ ((λ i, s + Z.of_nat i) <$> seq 0 (Z.to_nat (e + 1 - s))))
         | _ => Raise ValueError
         end) [] (split_on "," raw_string).

(** ** The counters of a cgroup *)

(** The system calls: [perf_event_open], [ioctl], and files of the kernel. *)
Class PerfKernel (W : Type) : Type := {
  sys_perf_event_open : PerfEventAttr → Z → Z → Z → Z → M W Z;
  sys_ioctl : Z → Z → M W Z;
  sys_open_dir : string → M W Z;
  sys_close : Z → M W unit;
  sys_read_longs : Z → M W (list Z)
}.

(** src/wca/perf.py:394-395 [UnableToOpenPerfEvents] *)
Definition UnableToOpenPerfEvents : exn := OtherException "UnableToOpenPerfEvents".

(** src/wca/perf.py:251-277 [PerfCounters] *)
Record PerfCounters := mkPerfCounters {
  pc_cgroup_fd : Z;
  pc_event_files : list Z;
  pc_leaders : dict Z Z;
  pc_event_names : list string;
  pc_aggregate : bool
}.

Section counters.
  Context {W : Type} `{FileSystem W} `{PerfKernel W} (cpu_codename : CPUCodeName).

(** src/wca/perf.py:43-48 [_get_online_cpus] *)
Definition get_online_cpus : M W (list Z) :=
  content ← read_file "/sys/devices/system/cpu/online"; lift (parse_online_cpus_string content).

(** src/wca/perf.py:117-128 [_get_cgroup_fd] *)
Definition get_cgroup_fd (cgroup : string) : M W Z :=
  try_except (sys_open_dir (path_join "/sys/fs/cgroup/perf_event" cgroup))
    (λ e, if bool_decide (e = FileNotFoundError) then Some (raise MissingMeasurementException) else None).

(** src/wca/perf.py:226-245 [_create_file_from_fd] *)
Definition create_file_from_fd (pfd : Z) : result Z :=
  if pfd =? -1 then Raise UnableToOpenPerfEvents else Ok pfd.

(** [self] of the object under construction *)
Definition on_kernel {A} (m : M W A) : M (PerfCounters * W) A := on_snd m.
Definition with_files (event_files : list Z) (leaders : dict Z Z) (c : PerfCounters) : PerfCounters :=
  mkPerfCounters (pc_cgroup_fd c) event_files leaders (pc_event_names c) (pc_aggregate c).
Definition perf_self : M (PerfCounters * W) PerfCounters := λ st, (Ok st.1, st).
Definition perf_update (f : PerfCounters → PerfCounters) : M (PerfCounters * W) unit :=
  λ st, (Ok tt, (f st.1, st.2)).

(** src/wca/perf.py:288-340 [PerfCounters._open_for_cpu] *)
Definition open_for_cpu (event_name : string) (cpu : Z) : M (PerfCounters * W) unit :=
  self ← perf_self;
  let group_file := dget (pc_leaders self) cpu in
  let is_group_leader := match group_file with None => true | Some _ => false end in
  let pid := if is_group_leader then pc_cgroup_fd self else -1 in
  let flags := if is_group_leader then Z.lor PERF_FLAG_PID_CGROUP PERF_FLAG_FD_CLOEXEC
               else PERF_FLAG_FD_CLOEXEC in
  let group_fd := default (-1) group_file in
  attr ← lift (create_event_attributes event_name is_group_leader cpu_codename);
  pfd ← on_kernel (sys_perf_event_open attr pid cpu group_fd flags);
  perf_event_file ← lift (create_file_from_fd pfd);
  perf_update (λ c, if is_group_leader
                    then with_files (pc_event_files c) (dset (pc_leaders c) cpu perf_event_file) c
                    else with_files (pc_event_files c ++ [perf_event_file]) (pc_leaders c) c).

(** src/wca/perf.py:349-354 [PerfCounters._reset_and_enable_group_event_leaders] *)
Definition reset_and_enable (fds : list Z) : M W unit :=
  forM_ fds (λ fd,
    r ← sys_ioctl fd PERF_EVENT_IOC_RESET;
    _ ← lift (if r <? 0 then Raise (OSError 0) else Ok tt);
    r ← sys_ioctl fd PERF_EVENT_IOC_ENABLE;
    lift (if r <? 0 then Raise (OSError 0) else Ok tt)).

(** src/wca/perf.py:342-347 [PerfCounters._open] *)
Definition perf_open_all : M (PerfCounters * W) unit :=
  self ← perf_self;
  _ ← forM_ (pc_event_names self) (λ event_name,
        cpus ← on_kernel get_online_cpus;
        forM_ cpus (open_for_cpu event_name));
  self ← perf_self;
  on_kernel (reset_and_enable (dvalues (pc_leaders self))).

(** src/wca/perf.py:251-277 [PerfCounters.__init__] *)
Definition make_perf_counters (cgroup_path : string) (event_names : list string) (aggregate : bool)
    : M W PerfCounters :=
  _ ← lift (py_assert (startswith "/" cgroup_path));
  fd ← get_cgroup_fd (str_drop 1 cgroup_path);
  (λ w, let '(r, (c, w')) := perf_open_all (mkPerfCounters fd [] [] event_names aggregate, w) in
        (match r with Ok _ => Ok c | Raise e => Raise e end, w')) : M W PerfCounters.

(** src/wca/perf.py:279-286 [PerfCounters.cleanup] *)
Definition perf_counters_cleanup (c : PerfCounters) : M W unit :=
  _ ← forM_ (dvalues (pc_leaders c)) sys_close;
  _ ← forM_ (pc_event_files c) sys_close;
  sys_close (pc_cgroup_fd c).

Definition mfloat (v : mval) : result float :=
  match v with MNum n => to_float n | _ => Raise TypeError end.

(** src/wca/perf.py:372-377 [PerfCounters.get_measurements], the values of a processor:
    by metric and processor, and the sums *)
Definition add_cpu (cpu : Z) (acc : dict string (dict mkey mval) * dict string float) (kv : string * mval)
    : result (dict string (dict mkey mval) * dict string float) :=
  let '(metric_name, metric_value) := kv in
  x ← mfloat metric_value;
  Ok (dset acc.1 metric_name (dset (default [] (dget acc.1 metric_name)) (KInt cpu) metric_value),
      dset acc.2 metric_name (fadd (default fzero (dget acc.2 metric_name)) x)).

Record totals := mkTotals {
  tt_per_cpu : dict string (dict mkey mval); tt_sum : dict string float;
  tt_max : list float; tt_avg : list float
}.

(** src/wca/perf.py:368-379 [PerfCounters.get_measurements], one processor *)
Definition read_cpu (event_names : list string) (acc : totals) (cpu_file : Z * Z) : M W totals :=
  let '(cpu, event_leader_file) := cpu_file in
  longs ← sys_read_longs event_leader_file;
  per_cpu ← lift (parse_event_groups get_measurements_for_scaling_info longs event_names);
  sums ← lift (foldM (add_cpu cpu) (tt_per_cpu acc, tt_sum acc) per_cpu);
  max_value ← lift (v ← dgetitem per_cpu MetricName.TASK_SCALING_FACTOR_MAX; mfloat v);
  avg_value ← lift (v ← dgetitem per_cpu MetricName.TASK_SCALING_FACTOR_AVG; mfloat v);
  mret (mkTotals sums.1 sums.2 (tt_max acc ++ [max_value]) (tt_avg acc ++ [avg_value])).

(** src/wca/perf.py:381-391 [PerfCounters.get_measurements], the result *)
Definition summarise (aggregate : bool) (t : totals) : result measurements :=
  match aggregate, tt_avg t, tt_max t with
  | true, _ :: _, m :: ms =>
      avg ← mean (tt_avg t);
      let per_metric := dset (dset (tt_sum t) MetricName.TASK_SCALING_FACTOR_AVG avg)
                          MetricName.TASK_SCALING_FACTOR_MAX (float_max m ms) in
      Ok ((λ kv, (kv.1, MNum (PFloat kv.2))) <$> per_metric)
  | _, _, _ => Ok ((λ kv, (kv.1, MDict kv.2)) <$> tt_per_cpu t)
  end.

(** src/wca/perf.py:356-391 [PerfCounters.get_measurements] *)
Definition perf_counters_get_measurements (c : PerfCounters) : M W measurements :=
  t ← foldMS (read_cpu (pc_event_names c)) (mkTotals [] [] [] []) (pc_leaders c);
  lift (summarise (pc_aggregate c) t).
End counters.

(** ** Choice of events *)

(** src/wca/perf.py:458-483 [check_perf_event_count_limit] *)
Definition check_perf_event_count_limit (event_names : list string) (platform_cpus platform_cores : Z)
    : bool :=
  let number_of_events := Z.of_nat (length (List.filter (λ e,
    negb (bool_decide (e ∈ [MetricName.TASK_INSTRUCTIONS; MetricName.TASK_CYCLES]))) event_names)) in
  let ht_enabled := negb (platform_cpus =? platform_cores) in
  let max_number_of_events := if ht_enabled then 4 else 8 in
  negb (number_of_events >? max_number_of_events).

(** src/wca/perf.py:486-508 [filter_out_event_names_for_cpu] *)
Definition filter_out_event_names_for_cpu (event_names : list string) (cpu_codename : CPUCodeName)
    : result (list string) :=
  foldM (λ filtered event_name,
    if dmem HardwareEventNameMap event_name then Ok (filtered ++ [event_name])
    else match dget PREDEFINED_RAW_EVENTS event_name with
         | Some by_cpu => Ok (if dmem by_cpu cpu_codename then filtered ++ [event_name] else filtered)
         | None => if str_contains "__r" event_name then Ok (filtered ++ [event_name])
                   else Raise PlainException
         end) [] event_names.

(** ** The encoding of an event *)

Lemma land_ones_low a b n : 0 ≤ n → 0 ≤ a < 2 ^ n → Z.land (Z.lor a (Z.shiftl b n)) (Z.ones n) = a.
Proof.
  intros Hn Ha. apply Z.bits_inj'. intros i Hi. rewrite Z.land_spec, Z.lor_spec.
  destruct (Z.lt_ge_cases i n) as [Hlt|Hge].
  - rewrite Z.shiftl_spec_low, Z.ones_spec_low by lia. by rewrite orb_false_r, andb_true_r.
  - rewrite Z.ones_spec_high, andb_false_r by lia. symmetry. rewrite <-(Z.mod_small a (2 ^ n)) by lia.
    by apply Z.mod_pow2_bits_high.
Qed.

Lemma shiftr_low a b n : 0 ≤ n → 0 ≤ a < 2 ^ n → Z.shiftr (Z.lor a (Z.shiftl b n)) n = b.
Proof.
  intros Hn Ha. rewrite Z.shiftr_lor, Z.shiftr_shiftl_l, Z.sub_diag, Z.shiftl_0_r by lia.
  rewrite (Z.shiftr_div_pow2 a), Z.div_small by lia. apply Z.lor_0_l.
Qed.

Lemma lor_bound a b n : 0 ≤ a < 2 ^ n → 0 ≤ b < 2 ^ n → 0 ≤ Z.lor a b < 2 ^ n.
Proof.
  intros Ha Hb. destruct (Z.lt_ge_cases 0 n) as [Hn|Hn].
  - split; [apply Z.lor_nonneg; lia|].
    destruct (Z.eq_dec (Z.lor a b) 0) as [->|Hne]; [lia|].
    apply Z.log2_lt_pow2; [pose proof (proj2 (Z.lor_nonneg a b)); lia|].
    rewrite Z.log2_lor by lia. apply Z.max_lub_lt.
    + destruct (Z.eq_dec a 0) as [->|]; [done|]. apply Z.log2_lt_pow2; lia.
    + destruct (Z.eq_dec b 0) as [->|]; [done|]. apply Z.log2_lt_pow2; lia.
  - destruct (Z.eq_dec n 0) as [->|Hn0]; [|rewrite Z.pow_neg_r in * by lia; lia].
    assert (a = 0) as -> by lia. assert (b = 0) as -> by lia. done.
Qed.

(** Event select, unit mask and counter mask lie in bits 0-7, 8-15 and 24-31. *)
Lemma raw_config_fields event umask cmask :
  0 ≤ event < 256 → 0 ≤ umask < 256 → 0 ≤ cmask →
  let config := raw_config event umask cmask in
  Z.land config (Z.ones 8) = event ∧ Z.land (Z.shiftr config 8) (Z.ones 8) = umask ∧
  Z.shiftr config 24 = cmask.
Proof.
  intros He Hu Hc. unfold raw_config. cbv zeta.
  assert (Hb : 0 ≤ Z.lor event (Z.shiftl umask 8) < 2 ^ 16).
  { apply lor_bound; [lia|]. rewrite Z.shiftl_mul_pow2 by lia. lia. }
  assert (Hs : Z.shiftl cmask 24 = Z.shiftl (Z.shiftl cmask 16) 8) by (by rewrite Z.shiftl_shiftl by lia).
  split_and!.
  - rewrite Hs, <-Z.lor_assoc, <-Z.shiftl_lor. by apply land_ones_low.
  - rewrite Hs, <-Z.lor_assoc, <-Z.shiftl_lor, shiftr_low by done.
    change 16 with (8 + 8). rewrite <-Z.shiftl_shiftl by lia. by apply land_ones_low.
  - apply shiftr_low; lia.
Qed.

(** Two digits of base 16. *)
Definition hex2 (n : Z) : string := String (digit_char (n / 16)) (String (digit_char (n mod 16)) "").

Lemma py_int16_hex2 n : 0 ≤ n < 256 → py_int16 (hex2 n) = Ok n.
Proof.
  intros Hn.
  assert (Hall : forallb (λ i, bool_decide (py_int16 (hex2 (Z.of_nat i)) = Ok (Z.of_nat i))) (seq 0 256) = true)
    by (vm_compute; reflexivity).
  rewrite forallb_forall in Hall. specialize (Hall (Z.to_nat n)). rewrite in_seq in Hall.
  specialize (Hall ltac:(lia)). apply bool_decide_eq_true in Hall. by rewrite Z2Nat.id in Hall by lia.
Qed.

(** Reading the bits of a raw event gives the event that was printed. *)
Lemma parse_raw_bits_print event umask cmask :
  0 ≤ event < 256 → 0 ≤ umask < 256 → 0 ≤ cmask < 256 →
  parse_raw_bits (hex2 event +:+ hex2 umask) = Ok (raw_config event umask 0, 0) ∧
  parse_raw_bits (hex2 event +:+ hex2 umask +:+ hex2 cmask) = Ok (raw_config event umask cmask, 0).
Proof.
  intros He Hu Hc. unfold parse_raw_bits.
  change (String.length (hex2 event +:+ hex2 umask)) with 4%nat.
  change (String.length (hex2 event +:+ hex2 umask +:+ hex2 cmask)) with 6%nat. cbv iota.
  change (str_slice 4 6 (hex2 event +:+ hex2 umask +:+ hex2 cmask)) with (hex2 cmask).
  change (str_slice 0 2 (hex2 event +:+ hex2 umask +:+ hex2 cmask)) with (hex2 event).
  change (str_slice 2 4 (hex2 event +:+ hex2 umask +:+ hex2 cmask)) with (hex2 umask).
  change (str_slice 0 2 (hex2 event +:+ hex2 umask)) with (hex2 event).
  change (str_slice 2 4 (hex2 event +:+ hex2 umask)) with (hex2 umask).
  by rewrite !py_int16_hex2 by done.
Qed.

(** ** One group for every processor *)
Section groups.
  Context {W : Type} `{FileSystem W} `{PerfKernel W} (cpu_codename : CPUCodeName).

Definition opened (c : PerfCounters) : nat := length (pc_leaders c) + length (pc_event_files c).

(** Opening an event on a processor adds one file: the leader of the processor when it
    has none yet, a member of its group otherwise; leaders never change. *)
Lemma open_for_cpu_group event_name cpu c (w : W) c' w' :
  open_for_cpu cpu_codename event_name cpu (c, w) = (Ok tt, (c', w')) →
  dict_wf (pc_leaders c) →
  dict_wf (pc_leaders c') ∧ dmem (pc_leaders c') cpu = true ∧ opened c' = S (opened c) ∧
  (∀ k fd, dget (pc_leaders c) k = Some fd → dget (pc_leaders c') k = Some fd) ∧
  pc_cgroup_fd c' = pc_cgroup_fd c ∧ pc_event_names c' = pc_event_names c.
Proof.
  unfold open_for_cpu. intros Ho Hwf.
  apply M_bind_Ok_iff in Ho as (self & st & Hs & Ho). injection Hs as <- <-. cbv zeta in Ho.
  apply M_bind_Ok_iff in Ho as (attr & st & Ha & Ho). apply lift_Ok_iff in Ha as [_ ->].
  apply M_bind_Ok_iff in Ho as (pfd & [c1 w1] & Hp & Ho).
  assert (c1 = c) as ->.
  { unfold on_kernel, on_snd in Hp. cbn in Hp. destruct (sys_perf_event_open _ _ _ _ _ w). by injection Hp as _ <- _. }
  apply M_bind_Ok_iff in Ho as (fd & st & Hf & Ho). apply lift_Ok_iff in Hf as [_ ->].
  cbn in Ho. destruct (dget (pc_leaders c) cpu) as [g|] eqn:E; injection Ho as <- <-; cbn.
  - split; [done|]. split; [unfold dmem; by rewrite E|]. split; [|done].
    unfold opened. cbn. rewrite length_app. cbn. lia.
  - split; [by apply dset_wf|]. split; [unfold dmem; by rewrite dget_dset_eq|]. split.
    { unfold opened. cbn. rewrite dset_fresh by (by apply dget_None). rewrite length_app. cbn. lia. }
    split; [|done]. intros k fd' Hk. rewrite dget_dset_ne by congruence. done.
Qed.
End groups.

(** ** Examples *)
Example raw_events :
  parse_raw_event_name "some__r0302ff" = Ok (0xff000203, 0) ∧
  parse_raw_event_name "some__rc000" = Ok (0xc0, 0) ∧
  parse_raw_event_name "some__r0000xx" = Raise PlainException.
Proof. vm_compute. done. Qed.

(** A name with the marker twice leaves a variable of the error message unbound. *)
Example two_markers : parse_raw_event_name "a__rb__r0302" = Raise UnboundLocalError.
Proof. vm_compute. done. Qed.

(** Two events, the group ran half of the time. *)
Example half_time :
  parse_event_groups get_measurements_for_scaling_info [2; 200; 100; 7; 0; 9; 1] ["a"; "b"] =
  Ok [("a", MNum (PInt 14)); (MetricName.TASK_SCALING_FACTOR_AVG, MNum (PFloat (f64 2)));
      (MetricName.TASK_SCALING_FACTOR_MAX, MNum (PFloat (f64 2))); ("b", MNum (PInt 18))].
Proof. vm_compute. done. Qed.
