(* ===== verification/PerfUncore.v ===== *)
(** * Uncore counters

    [src/wca/perf_uncore.py] and [src/wca/pmembw.py]: counters of the memory
    controllers and links by socket and unit, the bandwidths derived from them, and
    the bandwidth of persistent memory from the output of [ipmctl]. *)
From S2P Require Export PerfEvents PerfDerived.

(** ** Events *)

(** src/wca/perf_uncore.py:36-42 [Event] *)
Record Event := mkEvent {
  ev_name : string; ev_event : Z; ev_umask : Z; ev_config : Z; ev_config1 : Z
}.

(** src/wca/perf_uncore.py:44-55 [Event.__post_init__] *)
Definition make_event (name : string) (event umask config config1 : Z) : result Event :=
  _ ← (if negb (config =? 0) then py_assert ((event =? 0) && (umask =? 0)) else Ok tt);
  Ok (mkEvent name event umask
        (if negb (event =? 0) then Z.lor event (Z.shiftl umask 8) else config) config1).

(** An event whose configuration is in the source. *)
Definition static_event (name : string) (event umask : Z) : Event :=
  mkEvent name event umask (if event =? 0 then 0 else Z.lor event (Z.shiftl umask 8)) 0.

(** src/wca/perf_uncore.py:191-208 [UNCORE_IMC_EVENTS] *)
Definition UNCORE_IMC_EVENTS : dict string Event :=
  (λ '(name, event, umask), (name, static_event name event umask)) <$>
  [(MetricName.PLATFORM_PMM_BANDWIDTH_READS, 0xe3, 0); (MetricName.PLATFORM_PMM_BANDWIDTH_WRITES, 0xe7, 0);
   (MetricName.PLATFORM_CAS_COUNT_READS, 0x04, 0x3); (MetricName.PLATFORM_CAS_COUNT_WRITES, 0x04, 0xc);
   (MetricName.PLATFORM_RPQ_OCCUPANCY, 0x80, 0); (MetricName.PLATFORM_RPQ_INSERTS, 0x10, 0);
   (MetricName.PLATFORM_IMC_CLOCKTICKS, 0x0, 0)].

(** src/wca/perf_uncore.py:210-215 [UNCORE_UPI_EVENTS] *)
Definition UNCORE_UPI_EVENTS : dict string Event :=
  (λ '(name, event, umask), (name, static_event name event umask)) <$>
  [(MetricName.PLATFORM_UPI_RXL_FLITS, 0x3, 0xf); (MetricName.PLATFORM_UPI_TXL_FLITS, 0x2, 0xf)].

(** src/wca/perf_uncore.py:58-76 [_create_event_attributes] *)
Definition uncore_event_attributes (pmu_type : Z) (disabled : bool) (event : Event) : PerfEventAttr :=
  mkAttr (c_uint pmu_type) (c_uint PERF_ATTR_SIZE_VER5) (c_ulong (ev_config event))
    (c_ulong PERF_SAMPLE_IDENTIFIER)
    (c_ulong (Z.lor (Z.lor (Z.lor PERF_FORMAT_GROUP PERF_FORMAT_TOTAL_TIME_ENABLED)
       PERF_FORMAT_TOTAL_TIME_RUNNING) PERF_FORMAT_ID))
    (c_ulong (if disabled then Z.lor flag_inherit flag_disabled else flag_inherit))
    (c_ulong (ev_config1 event)).

(** src/wca/perf_uncore.py:79-86 [_get_measurements_for_scaling_info]
    [MetricName] has no attribute [PLATFORM_SCALING_UNCORE_FACTOR_AVG]. *)
Definition uncore_scaling_info (scaling_factors : list float) : result measurements :=
  match scaling_factors with
  | [] => Raise AttributeError
  | _ => avg ← mean scaling_factors;
         Ok [(MetricName.PLATFORM_SCALING_UNCORE_FACTOR, MNum (PFloat avg))]
  end.

(** ** Counters *)

(** src/wca/perf_uncore.py:89-103 [UncorePerfCounters] *)
Record UncorePerfCounters := mkUncore {
  uc_event_files : list Z;
  uc_leaders : dict Z (dict Z Z)
}.

(** [d[a][b] = v] of a [defaultdict] *)
Definition dset_nested {A B V} `{EqDecision A} `{EqDecision B} (d : dict A (dict B V)) (a : A) (b : B) (v : V)
    : dict A (dict B V) := dset d a (dset (default [] (dget d a)) b v).

Section uncore.
  Context {W : Type} `{FileSystem W} `{PerfKernel W}.

Definition uc_self : M (UncorePerfCounters * W) UncorePerfCounters := λ st, (Ok st.1, st).
Definition uc_update (f : UncorePerfCounters → UncorePerfCounters) : M (UncorePerfCounters * W) unit :=
  λ st, (Ok tt, (f st.1, st.2)).

(** src/wca/perf_uncore.py:136-173 [UncorePerfCounters._open_for_cpu] *)
Definition uncore_open_for_cpu (pmu cpu : Z) (event : Event) : M (UncorePerfCounters * W) unit :=
  self ← uc_self;
  let group_file := dget (default [] (dget (uc_leaders self) pmu)) cpu in
  let is_group_leader := match group_file with None => true | Some _ => false end in
  pfd ← on_snd (sys_perf_event_open (uncore_event_attributes pmu is_group_leader event) (-1) cpu
                  (default (-1) group_file) 0);
  perf_event_file ← lift (create_file_from_fd pfd);
  uc_update (λ c, if is_group_leader
                  then mkUncore (uc_event_files c) (dset_nested (uc_leaders c) pmu cpu perf_event_file)
                  else mkUncore (uc_event_files c ++ [perf_event_file]) (uc_leaders c)).

(** src/wca/perf_uncore.py:175-188 [UncorePerfCounters._open]
    Reading the leaders of a unit without any makes an empty entry. *)
Definition uncore_open (cpus : list Z) (pmu_events : dict Z (list Event)) : M (UncorePerfCounters * W) unit :=
  forM_ pmu_events (λ '(pmu, events),
    _ ← forM_ events (λ event, forM_ cpus (λ cpu, uncore_open_for_cpu pmu cpu event));
    _ ← uc_update (λ c, mkUncore (uc_event_files c)
          (if dmem (uc_leaders c) pmu then uc_leaders c else dset (uc_leaders c) pmu []));
    self ← uc_self;
    on_snd (reset_and_enable (dvalues (default [] (dget (uc_leaders self) pmu))))).

(** src/wca/perf_uncore.py:96-103 [UncorePerfCounters.__post_init__] *)
Definition make_uncore (cpus : list Z) (pmu_events : dict Z (list Event)) : M W UncorePerfCounters :=
  (λ w, let '(r, (c, w')) := uncore_open cpus pmu_events (mkUncore [] [], w) in
        (match r with Ok _ => Ok c | Raise e => Raise e end, w')) : M W UncorePerfCounters.

(** src/wca/perf_uncore.py:109-113 [UncorePerfCounters.get_measurements] *)
Definition cpu_to_socket (topo : topology_t) : dict Z Z :=
  foldl (λ d '(socket_id, cores),
    foldl (λ d '(_, cpu_ids), foldl (λ d cpu_id, dset d cpu_id socket_id) d cpu_ids) d cores) [] topo.

(** [measurements_per_socket[metric][socket][pmu]] *)
Definition per_socket : Type := dict string (dict mkey (dict mkey mval)).

(** src/wca/perf_uncore.py:118-124 [UncorePerfCounters.get_measurements], one processor *)
Definition uncore_read_cpu (sockets : dict Z Z) (pmu : Z) (event_names : list string) (acc : per_socket)
    (cpu_file : Z * Z) : M W per_socket :=
  let '(cpu, event_leader_file) := cpu_file in
  longs ← sys_read_longs event_leader_file;
  ms ← lift (parse_event_groups uncore_scaling_info longs event_names);
  lift (foldM (λ acc '(metric, value),
    socket ← dgetitem sockets cpu;
    let by_socket := default [] (dget acc metric) in
    Ok (dset acc metric (dset_nested by_socket (KInt socket) (KInt pmu) value))) acc ms).

(** src/wca/perf_uncore.py:105-126 [UncorePerfCounters.get_measurements] *)
Definition uncore_get_measurements (topo : topology_t) (pmu_events : dict Z (list Event))
    (c : UncorePerfCounters) : M W measurements :=
  ms ← foldMS (λ acc '(pmu, events),
    foldMS (uncore_read_cpu (cpu_to_socket topo) pmu (ev_name <$> events)) acc
      (default [] (dget (uc_leaders c) pmu))) [] pmu_events;
  mret ((λ kv, (kv.1, MDict ((λ sd, (sd.1, MDict sd.2)) <$> kv.2))) <$> ms).

(** src/wca/perf_uncore.py:218-223 [PMUNotAvailable, UncoreEventConfigError] *)
Definition PMUNotAvailable : exn := OtherException "PMUNotAvailable".
Definition UncoreEventConfigError : exn := OtherException "UncoreEventConfigError".

(** src/wca/perf_uncore.py:226-246 [_discover_pmu_uncore_config]
    [list] of the set of processors is their order. *)
Definition discover_pmu_uncore_config (set_order : list Z → list Z) (events : list Event)
    (dir_prefix : string) : M W (list Z * dict Z (list Event)) :=
  let base_path := "/sys/devices" in
  dirs ← list_dir base_path;
  let pmus := List.filter (startswith dir_prefix) dirs in
  pmu_types ← foldMS (λ l imc, s ← read_file (path_join (path_join base_path imc) "type");
                               n ← lift (py_int s); mret (l ++ [n])) [] pmus;
  masks ← foldMS (λ l imc, s ← read_file (path_join (path_join base_path imc) "cpumask");
                           mret (l ++ [rstrip_if is_space s])) [] pmus;
  match py_set masks with
  | [] => raise PMUNotAvailable
  | [pmu_cpus_csv] =>
      cpus ← lift (decode_listformat pmu_cpus_csv);
      mret (set_order (elements cpus), dict_of ((λ pmu, (pmu, events)) <$> pmu_types))
  | _ => raise AssertionError
  end.
End uncore.

(** ** Derived metrics *)

(** src/wca/perf_uncore.py:253-256 [UncoreDerivedMetricsGenerator._derive.rate] *)
Definition uncore_rate (time_delta : float) (value : mval) : result mval :=
  x ← num_binop nmul value (MNum (PInt 64)); num_binop ndiv x (MNum (PFloat time_delta)).

(** src/wca/perf_uncore.py:343-344 [UncoreDerivedMetricsGenerator._derive.rate_for_upi] *)
Definition rate_for_upi (time_delta : float) (value : mval) : result mval :=
  x ← num_binop ndiv value (MNum (PFloat time_delta));
  y ← num_binop ndiv x (MNum (PInt 9)); num_binop nmul y (MNum (PInt 64)).

(** [max_depth] of a metric: its levels are the socket and the unit. *)
Definition max_depth `{Metadata} (name : string) : nat := length (levels_of name).
Definition uncore_depth `{Metadata} : nat := max_depth MetricName.PLATFORM_PMM_BANDWIDTH_WRITES.

(** Applying a function to the leaves changes the dictionary itself. *)
Definition leaves_to (depth : nat) (f : mval → result mval) (v : mval) : result mval :=
  items ← mdict v; MDict <$> operation_on_leveled_metric f (pred depth) items.
Definition leaf_by_leaf_to (depth : nat) (op : num → num → result num) (a b : mval) : result mval :=
  MDict <$> operation_on_leveled_dicts (num_binop op) (pred depth) a b.
Definition leaves `{Metadata} := leaves_to uncore_depth.
Definition leaf_by_leaf `{Metadata} := leaf_by_leaf_to uncore_depth.

(** src/wca/perf_uncore.py:265-282 [UncoreDerivedMetricsGenerator._derive], DRAM: the
    measurements and the total *)
Definition derive_dram `{Metadata} (ms prev : measurements) (time_delta : float)
    : result (measurements * option mval) :=
  d ← delta2 ms prev MetricName.PLATFORM_CAS_COUNT_READS MetricName.PLATFORM_CAS_COUNT_WRITES;
  match d with
  | None => Ok (ms, None)
  | Some (dram_read, dram_write) =>
      dram_read ← leaves (uncore_rate time_delta) dram_read;
      dram_write ← leaves (uncore_rate time_delta) dram_write;
      total ← leaf_by_leaf nadd dram_read dram_write;
      Ok (dset (dset (dset ms MetricName.PLATFORM_DRAM_READS_BYTES_PER_SECOND dram_read)
                 MetricName.PLATFORM_DRAM_WRITES_BYTES_PER_SECOND dram_write)
            MetricName.PLATFORM_DRAM_TOTAL_BYTES_PER_SECOND total, Some total)
  end.

(** src/wca/perf_uncore.py:286-319 [UncoreDerivedMetricsGenerator._derive], persistent
    memory and the DRAM hit ratio *)
Definition derive_pmm `{Metadata} (ms prev : measurements) (time_delta : float) (total_dram_bps : option mval)
    : result measurements :=
  d ← delta2 ms prev MetricName.PLATFORM_PMM_BANDWIDTH_READS MetricName.PLATFORM_PMM_BANDWIDTH_WRITES;
  match d with
  | None => Ok ms
  | Some (pmm_read, pmm_write) =>
      pmm_read ← leaves (uncore_rate time_delta) pmm_read;
      pmm_write ← leaves (uncore_rate time_delta) pmm_write;
      total_pmm_bps ← leaf_by_leaf nadd pmm_read pmm_write;
      total_dram_bps ← or_raise UnboundLocalError total_dram_bps;
      all ← leaf_by_leaf nadd total_pmm_bps total_dram_bps;
      dram_hit ← leaf_by_leaf ndiv total_dram_bps all;
      Ok (dset (dset (dset (dset ms MetricName.PLATFORM_PMM_READS_BYTES_PER_SECOND pmm_read)
                   MetricName.PLATFORM_PMM_WRITES_BYTES_PER_SECOND pmm_write)
                 MetricName.PLATFORM_PMM_TOTAL_BYTES_PER_SECOND total_pmm_bps)
            MetricName.PLATFORM_DRAM_HIT_RATIO dram_hit)
  end.

(** src/wca/perf_uncore.py:321-352 [UncoreDerivedMetricsGenerator._derive], UPI *)
Definition derive_upi `{Metadata} (ms prev : measurements) (time_delta : float) : result measurements :=
  d ← delta2 ms prev MetricName.PLATFORM_UPI_RXL_FLITS MetricName.PLATFORM_UPI_TXL_FLITS;
  match d with
  | None => Ok ms
  | Some (rxl_flits, txl_flits) =>
      let depth := max_depth MetricName.PLATFORM_UPI_TXL_FLITS in
      bandwidth ← leaf_by_leaf_to depth nadd rxl_flits txl_flits;
      bandwidth ← leaves_to depth (rate_for_upi time_delta) bandwidth;
      Ok (dset ms MetricName.PLATFORM_UPI_BANDWIDTH_BYTES_PER_SECOND bandwidth)
  end.

(** [ms[name][socket][channel]] *)
Definition uncore_value (ms : measurements) (name : string) (socket channel : mkey) : result num :=
  v ← dgetitem ms name; d ← mdict v; v ← dgetitem d socket; d ← mdict v; v ← dgetitem d channel; mnum v.

(** src/wca/perf_uncore.py:359-374 [UncoreDerivedMetricsGenerator._derive], one socket *)
Definition rpq_latency (ms : measurements) (socket : mkey) (channels : list mkey) : result num :=
  sums ← foldM (λ '(occupancy, inserts, clockticks) channel,
    o ← uncore_value ms MetricName.PLATFORM_RPQ_OCCUPANCY socket channel; occupancy ← nadd occupancy o;
    i ← uncore_value ms MetricName.PLATFORM_RPQ_INSERTS socket channel; inserts ← nadd inserts i;
    c ← uncore_value ms MetricName.PLATFORM_IMC_CLOCKTICKS socket channel; clockticks ← nadd clockticks c;
    Ok (occupancy, inserts, clockticks)) (PInt 0, PInt 0, PInt 0) channels;
  let '(occupancy, inserts, clockticks) := sums in
  a ← ndiv occupancy inserts;
  b ← ndiv clockticks (PInt (Z.of_nat (length channels)));
  ndiv a b.

(** src/wca/perf_uncore.py:354-376 [UncoreDerivedMetricsGenerator._derive], read latency *)
Definition derive_rpq (ms prev : measurements) : result measurements :=
  if available ms prev [MetricName.PLATFORM_RPQ_INSERTS; MetricName.PLATFORM_RPQ_OCCUPANCY;
                        MetricName.PLATFORM_IMC_CLOCKTICKS] then
    v ← dgetitem ms MetricName.PLATFORM_RPQ_OCCUPANCY; occupancy ← mdict v;
    latencies ← mapM (λ '(socket, v), channels ← mdict v;
                      l ← rpq_latency ms socket (dkeys channels); Ok (socket, MNum l)) occupancy;
    Ok (dset ms MetricName.PLATFORM_RPQ_READ_LATENCY_SECONDS (MDict latencies))
  else Ok ms.

(** src/wca/perf_uncore.py:251-376 [UncoreDerivedMetricsGenerator._derive] *)
Definition uncore_derive `{Metadata} (ms prev : measurements) (time_delta : float) : result measurements :=
  _ ← py_assert (uncore_depth =? max_depth MetricName.PLATFORM_CAS_COUNT_READS)%nat;
  _ ← py_assert (uncore_depth =? max_depth MetricName.PLATFORM_PMM_TOTAL_BYTES_PER_SECOND)%nat;
  dram ← derive_dram ms prev time_delta;
  ms ← derive_pmm dram.1 prev time_delta dram.2;
  ms ← derive_upi ms prev time_delta;
  derive_rpq ms prev.

(** src/wca/perf_uncore.py:128-134 [UncorePerfCounters.cleanup]
    The loop goes over the values of the dictionary but takes each for a pair: the
    entry of a unit with two processors unpacks to two numbers, any other not at all. *)
Definition uncore_cleanup {W} `{PerfKernel W} (c : UncorePerfCounters) : M W unit :=
  match uc_leaders c with
  | [] => forM_ (uc_event_files c) sys_close
  | (_, files) :: _ => raise (if (length files =? 2)%nat then AttributeError else ValueError)
  end.

(** ** Bandwidth of persistent memory *)

(** A literal with two decimals. *)
Definition cents (n : Z) : num := if n =? 0 then PInt 0 else PFloat (float_of_ratio n 100).

(** src/wca/pmembw.py:30-36 [_calculate_bandwidth], the tables *)
Definition power_set : list Z := [10; 12; 15; 18].
Definition read_sdp : list num := cents <$> [240; 430; 680; 0].
Definition write_sdp : list num := cents <$> [88; 148; 185; 0].
Definition read_ddp : list num := cents <$> [0; 410; 680; 830].
Definition write_ddp : list num := cents <$> [0; 145; 230; 300].
Definition read_qdp : list num := cents <$> [0; 265; 530; 780].
Definition write_qdp : list num := cents <$> [0; 102; 189; 268].

(** src/wca/pmembw.py:38-41 [_calculate_bandwidth] *)
Definition use_power_index (power : Z) : nat :=
  foldl (λ use '(index, it_power), if power >=? it_power then index else use) 0%nat
    (zip (seq 0 (length power_set)) power_set).

(** [round(count * x, 2)] *)
Definition round2 (count : Z) (x : num) : result num :=
  v ← nmul (PInt count) x;
  Ok match v with PInt z => PInt z | PFloat f => PFloat (float_round_n 2 f) end.

(** src/wca/pmembw.py:27-56 [_calculate_bandwidth] *)
Definition calculate_bandwidth (power : option float) (count : Z) (size : float) : result (num * num) :=
  power ← or_raise TypeError power;
  power ← float_trunc power;
  let i := use_power_index power in
  let '(reads, writes) :=
    if fltb size (f64 200) then (read_sdp, write_sdp)
    else if fleb (f64 200) size && fltb size (f64 500) then (read_ddp, write_ddp)
    else (read_qdp, write_qdp) in
  read ← or_raise IndexError (reads !! i); write ← or_raise IndexError (writes !! i);
  read ← round2 count read; write ← round2 count write;
  Ok (read, write).

(** [line.split('=')[1]] *)
Definition after_equals (line : string) : result string := or_raise IndexError (split_on "=" line !! 1%nat).

(** src/wca/pmembw.py:59-102 [_get_ipmctl]
    [check_output] runs a command and gives what it prints; no command is nothing to read. *)
Definition get_ipmctl {W} (check_output : string → M W string) : M W (option (string * string)) :=
  try_except
    (ipmctl_region ← check_output "ipmctl show -a -u B -region";
     ipmctl_dimm ← check_output "ipmctl show -u B -d AvgPowerBudget,Capacity,SocketID -dimm";
     mret (Some (ipmctl_region, ipmctl_dimm)))
    (λ e, if bool_decide (e = FileNotFoundError) || bool_decide (e = OtherException "CalledProcessError")
          then Some (mret None) else None).

(** src/wca/pmembw.py:105-122 [_get_ipmctl_dimm_info] *)
Record dimm_info := mkDimmInfo {
  avg_power_per_nvdimm : option float; capacity_per_nvdimm : option string; socket_nvdimms : dict string Z
}.

(** src/wca/pmembw.py:109-121 [_get_ipmctl_dimm_info], one word *)
Definition dimm_word (d : dimm_info) (line : string) : result dimm_info :=
  if startswith "Capacity" line then
    c ← after_equals line; Ok (mkDimmInfo (avg_power_per_nvdimm d) (Some c) (socket_nvdimms d))
  else if startswith "AvgPowerBudget" line then
    s ← after_equals line; n ← py_int s; p ← ndiv (PInt n) (PInt 1000); f ← to_float p;
    Ok (mkDimmInfo (Some f) (capacity_per_nvdimm d) (socket_nvdimms d))
  else if startswith "SocketID" line then
    s ← after_equals line;
    Ok (mkDimmInfo (avg_power_per_nvdimm d) (capacity_per_nvdimm d)
          (dset (socket_nvdimms d) s (default 0 (dget (socket_nvdimms d) s) + 1)))
  else Ok d.

(** src/wca/pmembw.py:105-122 [_get_ipmctl_dimm_info]
    Without a capacity [int(None)] raises. *)
Definition get_ipmctl_dimm_info (ipmctl_dimm : string) : result (option float * Z * dict string Z) :=
  d ← foldM dimm_word (mkDimmInfo None None []) (words ipmctl_dimm);
  c ← or_raise TypeError (capacity_per_nvdimm d);
  capacity ← py_int c;
  Ok (avg_power_per_nvdimm d, capacity, socket_nvdimms d).

(** src/wca/pmembw.py:125-140 [_get_ipmctl_region_info] *)
Record region := mkRegion { rg_socket : option string; rg_capacity : option string; rg_dimms : option (list string) }.

(** src/wca/pmembw.py:129-139 [_get_ipmctl_region_info], one line *)
Definition region_line (acc : dict string region * string) (line : string)
    : result (dict string region * string) :=
  let '(regions, iset_id) := acc in
  if startswith "---ISetID" line then
    s ← after_equals line;
    let iset_id := str_replace "-" "" s in
    Ok (dset regions iset_id (mkRegion None None None), iset_id)
  else
    let update (f : region → string → region) :=
      r ← dgetitem regions iset_id; s ← after_equals line; Ok (dset regions iset_id (f r s), iset_id) in
    if startswith "SocketID" line then update (λ r s, mkRegion (Some s) (rg_capacity r) (rg_dimms r))
    else if startswith "Capacity" line then
      update (λ r s, mkRegion (rg_socket r) (Some (str_join "" (split_sub " B" s))) (rg_dimms r))
    else if startswith "DimmID" line then
      update (λ r s, mkRegion (rg_socket r) (rg_capacity r) (Some (split_sub ", " s)))
    else Ok acc.

(** src/wca/pmembw.py:125-140 [_get_ipmctl_region_info] *)
Definition get_ipmctl_region_info (ipmctl_region : string) : result (dict string region) :=
  fst <$> foldM region_line ([], "")
            (split_on newline (str_join "" (split_sub "   " ipmctl_region))).

(** src/wca/pmembw.py:166-189 [get_bandwidth], the bandwidths of a socket *)
Definition add_bandwidth (power : option float) (size : float) (acc : dict mkey mval * dict mkey mval)
    (socket_count : string * Z) : result (dict mkey mval * dict mkey mval) :=
  let '(socket, count) := socket_count in
  rwt ← calculate_bandwidth power count size;
  n ← py_int16 socket;
  let socket_label := KStr (str_of_Z n) in
  let GB := PFloat (f64 (10 ^ 9)) in
  r ← nmul rwt.1 GB; w ← nmul rwt.2 GB;
  Ok (dset acc.1 socket_label (MNum r), dset acc.2 socket_label (MNum w)).

(** src/wca/pmembw.py:148-194 [get_bandwidth]
    The outputs of the two [ipmctl] commands, [None] when the command is missing or
    fails.  A power that is not reported is [None] in the code and left out here. *)
Definition get_bandwidth (ipmctl : option (string * string)) : result measurements :=
  match ipmctl with
  | None => Ok []
  | Some (ipmctl_region, ipmctl_dimm) =>
      info ← get_ipmctl_dimm_info ipmctl_dimm;
      let '(power, capacity, socket_nvdimms) := info in
      regions ← get_ipmctl_region_info ipmctl_region;
      size ← ndiv (PInt capacity) (PFloat (f64 (10 ^ 9))); size ← to_float size;
      rw ← foldM (λ acc '(_, r),
             dimms ← or_raise KeyError (rg_dimms r);
             socket ← or_raise KeyError (rg_socket r);
             add_bandwidth power size acc (socket, Z.of_nat (length dimms))) ([], []) regions;
      rw ← match regions with
           | [] => foldM (add_bandwidth power size) rw socket_nvdimms
           | _ => Ok rw
           end;
      Ok ([(MetricName.PLATFORM_NVDIMM_READ_BANDWIDTH_BYTES_PER_SECOND, MDict rw.1);
          (MetricName.PLATFORM_NVDIMM_WRITE_BANDWIDTH_BYTES_PER_SECOND, MDict rw.2);
          (MetricName.PLATFORM_CAPACITY_PER_NVDIMM_BYTES, MNum (PInt capacity))] ++
          match power with
          | Some p => [(MetricName.PLATFORM_AVG_POWER_PER_NVDIMM_WATTS, MNum (PFloat p))]
          | None => []
          end)
  end.

(** ** Properties *)

(** The index chosen for a power is that of the greatest class not above it. *)
Lemma use_power_index_spec power :
  (use_power_index power < 4)%nat ∧
  (10 ≤ power → ∃ p, power_set !! use_power_index power = Some p ∧ p ≤ power ∧
     ∀ q, q ∈ power_set → q ≤ power → q ≤ p).
Proof.
  unfold use_power_index. cbn.
  destruct (power >=? 10) eqn:E1, (power >=? 12) eqn:E2, (power >=? 15) eqn:E3, (power >=? 18) eqn:E4;
    to_prop; try lia; (split; [lia|]); intros Hp; try lia; eexists; (split; [reflexivity|]); (split; [lia|]);
    intros q Hq; unfold power_set in Hq; rewrite !elem_of_cons, elem_of_nil in Hq; lia.
Qed.

(** Deriving changes only the derived metrics. *)
Definition uncore_derived_names : list string :=
  [MetricName.PLATFORM_DRAM_READS_BYTES_PER_SECOND; MetricName.PLATFORM_DRAM_WRITES_BYTES_PER_SECOND;
   MetricName.PLATFORM_DRAM_TOTAL_BYTES_PER_SECOND; MetricName.PLATFORM_PMM_READS_BYTES_PER_SECOND;
   MetricName.PLATFORM_PMM_WRITES_BYTES_PER_SECOND; MetricName.PLATFORM_PMM_TOTAL_BYTES_PER_SECOND;
   MetricName.PLATFORM_DRAM_HIT_RATIO; MetricName.PLATFORM_UPI_BANDWIDTH_BYTES_PER_SECOND;
   MetricName.PLATFORM_RPQ_READ_LATENCY_SECONDS].

Lemma dget_dset_uncore (ms : measurements) name v k :
  name ∈ uncore_derived_names → k ∉ uncore_derived_names → dget (dset ms name v) k = dget ms k.
Proof. intros Hn Hk. rewrite dget_dset_ne; [done|]. by intros ->. Qed.

Ltac known_name := apply (bool_decide_unpack _); vm_compute; exact I.

Lemma uncore_derive_others `{Metadata} ms prev t ms' k :
  k ∉ uncore_derived_names → uncore_derive ms prev t = Ok ms' → dget ms' k = dget ms k.
Proof.
  intros Hk Hd. unfold uncore_derive in Hd. apply bind_Ok_iff in Hd as ([] & _ & Hd).
  apply bind_Ok_iff in Hd as ([] & _ & Hd). apply bind_Ok_iff in Hd as ([ms1 total] & H1 & Hd). apply bind_Ok_iff in Hd as (ms2 & H2 & Hd).
  apply bind_Ok_iff in Hd as (ms3 & H3 & Hd). cbn [fst snd] in *.
  transitivity (dget ms3 k); [|transitivity (dget ms2 k); [|transitivity (dget ms1 k)]].
  - unfold derive_rpq in Hd. destruct (available ms3 prev _); inv_ok; [|done].
    by apply dget_dset_uncore; [known_name|].
  - unfold derive_upi in H3. apply bind_Ok_iff in H3 as ([[a b]|] & _ & H3); inv_ok; [|done].
    by apply dget_dset_uncore; [known_name|].
  - unfold derive_pmm in H2. apply bind_Ok_iff in H2 as ([[a b]|] & _ & H2); inv_ok; [|done].
    by rewrite !dget_dset_uncore by (assumption || known_name).
  - unfold derive_dram in H1. apply bind_Ok_iff in H1 as ([[a b]|] & _ & H1); inv_ok; [|done].
    by rewrite !dget_dset_uncore by (assumption || known_name).
Qed.

(** ** Examples *)
#[local] Existing Instance static_metadata.

Example bandwidths :
  calculate_bandwidth (Some (f64 15)) 2 (f64 20) = Ok (PFloat (float_of_ratio 136 10), PFloat (float_of_ratio 37 10)) ∧
  calculate_bandwidth (Some (f64 15)) 2 (f64 201) = Ok (PFloat (float_of_ratio 136 10), PFloat (float_of_ratio 46 10)) ∧
  calculate_bandwidth (Some (f64 15)) 2 (f64 500) = Ok (PFloat (float_of_ratio 106 10), PFloat (float_of_ratio 378 100)).
Proof. vm_compute. done. Qed.

(** The counters of a unit that has not run yet end the measurement. *)
Example not_run_yet : parse_event_groups uncore_scaling_info [1; 0; 0; 0; 5] ["a"] = Raise AttributeError.
Proof. vm_compute. done. Qed.

Definition socket_unit (name : string) (v : Z) : string * mval :=
  (name, MDict [(KInt 0, MDict [(KInt 13, MNum (PInt v))])]).

(** Counters of persistent memory without those of DRAM. *)
Example pmm_without_dram :
  uncore_derive [socket_unit MetricName.PLATFORM_PMM_BANDWIDTH_READS 7; socket_unit MetricName.PLATFORM_PMM_BANDWIDTH_WRITES 9]
    [socket_unit MetricName.PLATFORM_PMM_BANDWIDTH_READS 1; socket_unit MetricName.PLATFORM_PMM_BANDWIDTH_WRITES 1]
    (f64 1) = Raise UnboundLocalError.
Proof. vm_compute. done. Qed.
