(* ===== verification/Allocations.v ===== *)
(** * Allocation values

    [src/wca/allocators.py] and [src/wca/allocations.py]: the raw allocations an
    allocator returns, the interface every boxed allocation implements, the
    dictionary that lifts it over tasks and over resources, and boxed numbers.

    The Python interface [AllocationValue] is the class [AllocationValue];
    what the runner relies on (an allocation needs no change with respect to
    itself, nor once it has been applied) is [AllocationValueLaws]. *)
From S2P Require Export PyStr PyDict PyNum Metrics.

(** ** Raw allocations *)

(** src/wca/allocators.py:30-40 [AllocationType] *)
Inductive AllocationType :=
  | QUOTA | SHARES | RDT | CPUSET_CPUS | CPUSET_MEMS | CPUSET_MEMORY_MIGRATE | MIGRATE_PAGES.
#[export] Instance AllocationType_eq : EqDecision AllocationType.
Proof. solve_decision. Defined.

Definition AllocationType_value (t : AllocationType) : string :=
  match t with
  | QUOTA => "cpu_quota" | SHARES => "cpu_shares" | RDT => "rdt"
  | CPUSET_CPUS => "cpuset_cpus" | CPUSET_MEMS => "cpuset_mems"
  | CPUSET_MEMORY_MIGRATE => "cpuset_memory_migrate" | MIGRATE_PAGES => "migrate_pages"
  end.

(** src/wca/allocators.py:43-52 [RDTAllocation] *)
Record RDTAllocation := mkRDTAllocation {
  rdt_name : option string;
  rdt_l3 : option string;
  rdt_mb : option string
}.
#[export] Instance RDTAllocation_eq : EqDecision RDTAllocation.
Proof. solve_decision. Defined.

(** [Union[float, int, RDTAllocation, str]] *)
Inductive raw_value :=
  | RawNum (n : num)
  | RawStr (s : string)
  | RawRDT (r : RDTAllocation).

(** src/wca/allocators.py:55-55 [TaskAllocations] *)
Definition TaskAllocations : Type := dict AllocationType raw_value.
(** src/wca/allocators.py:56-56 [TasksAllocations] *)
Definition TasksAllocations : Type := dict string TaskAllocations.

(** src/wca/allocators.py:59-102 [AllocationConfiguration] *)
Record AllocationConfiguration := mkAllocationConfiguration {
  cpu_quota_period : Z;
  cpu_shares_unit : Z;
  default_rdt_l3 : option string;
  default_rdt_mb : option string
}.
Definition default_AllocationConfiguration : AllocationConfiguration :=
  mkAllocationConfiguration 1000 1000 None None.

(** ** The interface of allocation values *)

(** src/wca/allocations.py:28-49 [AllocationValue] *)
Class AllocationValue (W V : Type) : Type := {
  calculate_changeset : V → option V → result (V * option V);
  generate_metrics : V → result (list Metric);
  validate : V → M W unit;
  perform_allocations : V → M W unit
}.
Arguments calculate_changeset W {V _} _ _.
Arguments generate_metrics W {V _} _.

(** What holds of the values that passed validation. *)
Class AllocationValueLaws (W V : Type) `{AllocationValue W V} : Type := {
  value_ok : V → Prop;
  changeset_refl v :
    value_ok v → ∃ t, calculate_changeset W v (Some v) = Ok (t, None);
  changeset_stable new cur t c :
    value_ok new → calculate_changeset W new (Some cur) = Ok (t, c) →
    ∃ t', calculate_changeset W new (Some t) = Ok (t', None)
}.

(** ** Dictionaries of allocation values *)
Section allocations_dict.
  Context {K W V : Type} `{EqDecision K} `{AllocationValue W V}.

(** src/wca/allocations.py:70-88 [AllocationsDict.calculate_changeset]
    Body of the loop: the target and the changeset accumulated so far. *)
Definition changeset_step (current : dict K V) (acc : dict K V * dict K V) (kv : K * V)
    : result (dict K V * dict K V) :=
  let '(target, changeset) := acc in
  let '(key, new_value) := kv in
  match dget current key with
  | None => Ok (dset target key new_value, dset changeset key new_value)
  | Some current_value =>
      tc ← calculate_changeset W new_value (Some current_value);
      let '(target_value, value_changeset) := tc in
      let target := dset target key target_value in
      match value_changeset with
      | Some vc => Ok (target, dset changeset key vc)
      | None => Ok (target, changeset)
      end
  end.

(** src/wca/allocations.py:61-95 [AllocationsDict.calculate_changeset] *)
Definition dict_calculate_changeset (self : dict K V) (current : option (dict K V))
    : result (dict K V * option (dict K V)) :=
  current ← or_raise AssertionError current;
  tc ← foldM (changeset_step current) (current, []) self;
  let '(target, changeset) := tc in
  Ok (target, match changeset with [] => None | _ => Some changeset end).

(** src/wca/allocations.py:97-101 [AllocationsDict.generate_metrics] *)
Definition dict_generate_metrics (self : dict K V) : result (list Metric) :=
  foldM (λ metrics value, ms ← generate_metrics W value; Ok (metrics ++ ms)) [] (dvalues self).

(** src/wca/allocations.py:103-105 [AllocationsDict.perform_allocations] *)
Definition dict_perform_allocations (self : dict K V) : M W unit :=
  forM_ (dvalues self) perform_allocations.

(** src/wca/allocations.py:107-109 [AllocationsDict.validate] *)
Definition dict_validate (self : dict K V) : M W unit :=
  forM_ (dvalues self) validate.

(** src/wca/allocations.py:52-59 [AllocationsDict] *)
#[export] Instance AllocationsDict : AllocationValue W (dict K V) := {
  calculate_changeset := dict_calculate_changeset;
  generate_metrics := dict_generate_metrics;
  validate := dict_validate;
  perform_allocations := dict_perform_allocations
}.
End allocations_dict.
Arguments changeset_step {K} W {V _ _} _ _ _.
Arguments dict_calculate_changeset {K} W {V _ _} _ _.

(** ** Boxed numbers *)

(** src/wca/allocations.py:118-121 [LabelsUpdater.update_labels] *)
Definition update_labels (common_labels : dict string string) (metrics : list Metric)
    : list Metric :=
  (λ m, mkMetric (m_name m) (m_value m) (dupdate (m_labels m) common_labels) (m_unit m)
          (m_type m) (m_help m) (m_granularity m)) <$> metrics.

(** The attributes set by [BoxedNumeric.__init__]. *)
Record BoxedNumeric := mkBoxedNumeric {
  bn_value : num;
  bn_sensitivity : num;
  bn_min_value : num;
  bn_max_value : num;
  bn_labels : dict string string
}.

(** src/wca/allocations.py:131-131 [VALUE_CHANGE_SENSITIVITY] *)
Definition VALUE_CHANGE_SENSITIVITY : num := PFloat (float_of_ratio 5 100).

(** src/wca/allocations.py:133-146 [BoxedNumeric.__init__] *)
Definition boxed_numeric (value : num) (common_labels : dict string string)
    (min_value max_value : option num) (value_change_sensitivity : num) : BoxedNumeric :=
  mkBoxedNumeric value value_change_sensitivity
    (default (PFloat fneg_inf) min_value) (default (PFloat finf) max_value) common_labels.

(** src/wca/allocations.py:151-156 [BoxedNumeric.__eq__] *)
Definition boxed_eq (self other : BoxedNumeric) : result bool :=
  nisclose (bn_value self) (bn_value other) (bn_sensitivity self).

(** src/wca/allocations.py:158-169 [BoxedNumeric.generate_metrics] *)
Definition boxed_generate_metrics (self : BoxedNumeric) : list Metric :=
  update_labels (bn_labels self)
    [mkMetric "allocation_numeric" (MNum (bn_value self)) [("allocation_type", "numeric")]
       None (Some GAUGE) None None].

(** src/wca/allocations.py:171-174 [BoxedNumeric.validate] *)
Definition boxed_validate (self : BoxedNumeric) : result unit :=
  if nltb (bn_value self) (bn_min_value self) || ngtb (bn_value self) (bn_max_value self)
  then Raise InvalidAllocations
  else Ok tt.

(** src/wca/allocations.py:176-194 [BoxedNumeric.calculate_changeset] *)
Definition boxed_calculate_changeset (self : BoxedNumeric) (current : option BoxedNumeric)
    : result (BoxedNumeric * option BoxedNumeric) :=
  value_changed ← match current with
                  | None => Ok true
                  | Some cur => negb <$> boxed_eq self cur
                  end;
  match value_changed : bool, current with
  | true, _ => Ok (self, Some self)
  | false, Some cur => Ok (cur, None)
  | false, None => Ok (self, None) (* not reached: no current value is a change *)
  end.

(** ** Properties of dictionaries of allocations *)
Section dict_laws.
  Context {K W V : Type} `{EqDecision K} `{AllocationValue W V}.
  Implicit Types (d cur new target changeset : dict K V).

(** Target and change of one entry. *)
Definition merged cur (k : K) (nv : V) : result (V * option V) :=
  match dget cur k with
  | None => Ok (nv, Some nv)
  | Some cv => calculate_changeset W nv (Some cv)
  end.

Definition record_change changeset (k : K) (vc : option V) : dict K V :=
  match vc with Some c => dset changeset k c | None => changeset end.

Lemma changeset_step_merged cur target changeset k nv :
  changeset_step W cur (target, changeset) (k, nv) =
  tv ← merged cur k nv; Ok (dset target k tv.1, record_change changeset k tv.2).
Proof.
  unfold changeset_step, merged. destruct (dget cur k) as [cv|]; [|done].
  destruct (calculate_changeset W nv (Some cv)) as [[tv [vc|]]|e]; done.
Qed.

Lemma dget_record_change changeset k vc k' :
  dget (record_change changeset k vc) k' =
  if decide (k = k') then match vc with Some c => Some c | None => dget changeset k' end
  else dget changeset k'.
Proof.
  destruct vc as [c|]; simpl; [|by case_decide]. rewrite dget_dset. by case_decide.
Qed.

Lemma changeset_fold_spec cur new t0 c0 target changeset :
  dict_wf new → foldM (changeset_step W cur) (t0, c0) new = Ok (target, changeset) →
  ∀ k, match dget new k with
       | None => dget target k = dget t0 k ∧ dget changeset k = dget c0 k
       | Some nv => ∃ tv vc, merged cur k nv = Ok (tv, vc) ∧ dget target k = Some tv ∧
           dget changeset k = match vc with Some c => Some c | None => dget c0 k end
       end.
Proof.
  revert t0 c0. induction new as [|[k nv] new IH]; intros t0 c0 Hwf Hf k'.
  - cbn in Hf. injection Hf as -> ->. done.
  - cbn [foldM] in Hf. rewrite changeset_step_merged in Hf.
    unfold dict_wf in Hwf. apply NoDup_cons in Hwf as [Hk Hwf].
    apply bind_Ok_iff in Hf as (tc & Hm & Hf). apply bind_Ok_iff in Hm as ([tv vc] & Hm & [= <-]).
    specialize (IH _ _ Hwf Hf k'). cbn [dget].
    destruct (decide (k' = k)) as [->|Hne].
    + assert (Hnone : dget new k = None) by (by apply dget_None).
      rewrite Hnone in IH. destruct IH as [-> ->]. exists tv, vc.
      rewrite dget_dset_eq, dget_record_change, decide_True by done. done.
    + destruct (dget new k') as [nv'|]; cbn [fst snd] in IH;
        rewrite ?dget_dset_ne, dget_record_change, decide_False in IH by congruence; done.
Qed.

Lemma changeset_fold_total cur new t0 c0 :
  (∀ k nv, (k, nv) ∈ new → is_Ok (merged cur k nv) = true) →
  ∃ tc, foldM (changeset_step W cur) (t0, c0) new = Ok tc.
Proof.
  revert t0 c0. induction new as [|[k nv] new IH]; intros t0 c0 Hok; [by eexists|].
  cbn [foldM]. rewrite changeset_step_merged.
  destruct (proj1 (is_Ok_true _) (Hok k nv ltac:(set_solver))) as [[tv vc] ->]. simpl.
  apply IH. intros k' nv' Hin. apply Hok. set_solver.
Qed.

(** The change of a dictionary is [None] exactly when no entry changes. *)
Lemma changeset_fold_none cur new t0 :
  (∀ k nv, (k, nv) ∈ new → ∃ tv, merged cur k nv = Ok (tv, None)) →
  ∃ t, foldM (changeset_step W cur) (t0, []) new = Ok (t, []).
Proof.
  revert t0. induction new as [|[k nv] new IH]; intros t0 Hnone; [by eexists|].
  cbn [foldM]. rewrite changeset_step_merged.
  destruct (Hnone k nv ltac:(set_solver)) as [tv ->]. simpl.
  apply IH. intros k' nv' Hin. apply Hnone. set_solver.
Qed.

Lemma dict_changeset_Ok cur new t c :
  dict_calculate_changeset W new (Some cur) = Ok (t, c) ↔
  ∃ cs, foldM (changeset_step W cur) (cur, []) new = Ok (t, cs) ∧
        c = match cs with [] => None | _ => Some cs end.
Proof.
  unfold dict_calculate_changeset. simpl. rewrite bind_Ok_iff. split.
  - intros ([t' cs] & Hf & [= <- <-]). eauto.
  - intros (cs & Hf & ->). exists (t, cs). done.
Qed.

Context `{!AllocationValueLaws W V}.

Definition dict_ok d : Prop := dict_wf d ∧ ∀ k v, dget d k = Some v → value_ok v.

Lemma dict_changeset_refl d :
  dict_ok d → ∃ t, dict_calculate_changeset W d (Some d) = Ok (t, None).
Proof.
  intros [Hwf Hok]. destruct (changeset_fold_none d d d) as [t Ht].
  - intros k v Hin. apply dget_in in Hin; [|done]. unfold merged. rewrite Hin.
    by apply changeset_refl, (Hok k).
  - exists t. apply dict_changeset_Ok. eauto.
Qed.

Lemma dict_changeset_stable new cur t c :
  dict_ok new → dict_calculate_changeset W new (Some cur) = Ok (t, c) →
  ∃ t', dict_calculate_changeset W new (Some t) = Ok (t', None).
Proof.
  intros [Hwf Hok] (cs & Hf & ->)%dict_changeset_Ok.
  destruct (changeset_fold_none t new t) as [t' Ht'].
  - intros k nv Hin. apply dget_in in Hin; [|done].
    pose proof (changeset_fold_spec _ _ _ _ _ _ Hwf Hf k) as Hk. rewrite Hin in Hk.
    destruct Hk as (tv & vc & Hm & Ht & _). unfold merged in *. rewrite Ht.
    destruct (dget cur k) as [cv|].
    + by apply (changeset_stable nv cv tv vc); [apply (Hok k)|].
    + injection Hm as <- _. by apply changeset_refl, (Hok k).
  - exists t'. apply dict_changeset_Ok. eauto.
Qed.

#[export] Instance AllocationsDict_laws : AllocationValueLaws W (dict K V) := {
  value_ok := dict_ok;
  changeset_refl := dict_changeset_refl;
  changeset_stable := dict_changeset_stable
}.
End dict_laws.
Arguments merged {K} W {V _ _} _ _ _.

(** ** Properties of boxed numbers *)

(** A value [math.isclose] can compare: it fits in a float and is not NaN. *)
Definition boxed_ok (b : BoxedNumeric) : Prop :=
  (∃ f, to_float (bn_value b) = Ok f ∧ is_nan f = false) ∧ is_Ok (to_float (bn_sensitivity b)) = true.

Lemma nisclose_refl x t : (∃ f, to_float x = Ok f ∧ is_nan f = false) →
  is_Ok (to_float t) = true → nisclose x x t = Ok true.
Proof.
  intros (f & Hf & Hn) (ft & Ht)%is_Ok_true. unfold nisclose. rewrite Hf, Ht. simpl.
  unfold isclose. by rewrite feqb_refl.
Qed.

Lemma boxed_changeset_refl b : boxed_ok b → boxed_calculate_changeset b (Some b) = Ok (b, None).
Proof.
  intros [Hv Ht]. unfold boxed_calculate_changeset, boxed_eq. by rewrite nisclose_refl.
Qed.

Lemma boxed_changeset_stable new cur t c :
  boxed_ok new → boxed_calculate_changeset new (Some cur) = Ok (t, c) →
  ∃ t', boxed_calculate_changeset new (Some t) = Ok (t', None).
Proof.
  intros Hok. unfold boxed_calculate_changeset at 1.
  destruct (boxed_eq new cur) as [[|]|e] eqn:Heq; simpl; intros [= <- <-].
  - exists cur. unfold boxed_calculate_changeset. by rewrite Heq.
  - exists new. by apply boxed_changeset_refl.
Qed.

(** Validation of a boxed number accepts exactly the values of its range. *)
Lemma boxed_validate_range b :
  num_is_nan (bn_value b) = false → num_is_nan (bn_min_value b) = false →
  num_is_nan (bn_max_value b) = false →
  boxed_validate b = Ok tt ↔
  nleb (bn_min_value b) (bn_value b) = true ∧ nleb (bn_value b) (bn_max_value b) = true.
Proof.
  intros Hv Hmin Hmax. unfold boxed_validate, ngtb.
  rewrite !nltb_nleb by done. rewrite <-negb_andb.
  destruct (nleb _ _), (nleb _ _); naive_solver.
Qed.
