(* ===== verification/Cgroups.v ===== *)
(** * Control groups

    [src/wca/cgroups.py]: reading measurements from the files of a cgroup and
    reading and writing its CPU, cpuset and memory controls.  The kernel is the
    class [FileSystem]; quota and shares are normalised with the configured
    period and unit. *)
From S2P Require Export PyStr PyDict PyNum Metrics FileSys Platforms Allocations.

(** [str(x)] of a float is not used on the paths the properties are about; it
    is an operation of the class. *)
Class PyFloatRepr : Type := float_repr : float → string.
Definition num_str `{PyFloatRepr} (n : num) : string :=
  match n with PInt z => str_of_Z z | PFloat f => float_repr f end.

(** ** Constants *)

(** src/wca/cgroups.py:30-31 [TASKS, PROCS] *)
Definition TASKS : string := "tasks".
Definition PROCS : string := "cgroup.procs".

(** src/wca/cgroups.py:36-36 [MIN_SHARES] *)
Definition MIN_SHARES : Z := 2.
(** src/wca/cgroups.py:37-37 [QUOTA_NOT_SET] *)
Definition QUOTA_NOT_SET : Z := -1.
(** src/wca/cgroups.py:38-38 [QUOTA_MINIMUM_VALUE] *)
Definition QUOTA_MINIMUM_VALUE : Z := 1000.
(** src/wca/cgroups.py:39-39 [QUOTA_NORMALIZED_MAX] *)
Definition QUOTA_NORMALIZED_MAX : num := PFloat (float_of_ratio 1 1).

(** src/wca/cgroups.py:42-49 [CgroupSubsystem] *)
Module CgroupSubsystem.
Definition CPU : string := "/sys/fs/cgroup/cpu".
Definition CPUSET : string := "/sys/fs/cgroup/cpuset".
Definition PERF_EVENT : string := "/sys/fs/cgroup/perf_event".
Definition MEMORY : string := "/sys/fs/cgroup/memory".
End CgroupSubsystem.

(** src/wca/cgroups.py:52-59 [CgroupType] *)
Inductive CgroupType := CT_CPU | CT_CPUSET | CT_PERF_EVENT | CT_MEMORY.

(** src/wca/cgroups.py:62-78 [CgroupResource] *)
Inductive CgroupResource :=
  | CPU_USAGE | CPU_QUOTA | CPU_PERIOD | CPU_SHARES | R_CPUSET_CPUS | R_CPUSET_MEMS
  | R_CPUSET_MEMORY_MIGRATE | MEMORY_USAGE | MEMORY_MAX_USAGE | MEMORY_LIMIT
  | MEMORY_SOFT_LIMIT | NUMA_STAT | MEMORY_STAT.

(** src/wca/cgroups.py:63-75 [CgroupResource.value] *)
Definition resource_file (r : CgroupResource) : string :=
  match r with
  | CPU_USAGE => "cpuacct.usage"
  | CPU_QUOTA => "cpu.cfs_quota_us"
  | CPU_PERIOD => "cpu.cfs_period_us"
  | CPU_SHARES => "cpu.shares"
  | R_CPUSET_CPUS => "cpuset.cpus"
  | R_CPUSET_MEMS => "cpuset.mems"
  | R_CPUSET_MEMORY_MIGRATE => "cpuset.memory_migrate"
  | MEMORY_USAGE => "memory.usage_in_bytes"
  | MEMORY_MAX_USAGE => "memory.max_usage_in_bytes"
  | MEMORY_LIMIT => "memory.limit_in_bytes"
  | MEMORY_SOFT_LIMIT => "memory.soft_limit_in_bytes"
  | NUMA_STAT => "memory.numa_stat"
  | MEMORY_STAT => "memory.stat"
  end.

(** src/wca/cgroups.py:81-87 [Cgroup] *)
Record Cgroup := mkCgroup {
  cgroup_path : string;
  allocation_configuration : option AllocationConfiguration;
  cg_platform : option Platform
}.

(** src/wca/cgroups.py:89-97 [Cgroup.__post_init__]: the assertion; the
    directories are the functions below. *)
Definition make_cgroup (path : string) (conf : option AllocationConfiguration)
    (p : option Platform) : result Cgroup :=
  u ← py_assert (startswith "/" path); Ok (mkCgroup path conf p).

Definition relative_cgroup_path (c : Cgroup) : string := str_drop 1 (cgroup_path c).
Definition cgroup_cpu_fullpath (c : Cgroup) : string :=
  path_join CgroupSubsystem.CPU (relative_cgroup_path c).
Definition cgroup_cpuset_fullpath (c : Cgroup) : string :=
  path_join CgroupSubsystem.CPUSET (relative_cgroup_path c).
Definition cgroup_perf_event_fullpath (c : Cgroup) : string :=
  path_join CgroupSubsystem.PERF_EVENT (relative_cgroup_path c).
Definition cgroup_memory_fullpath (c : Cgroup) : string :=
  path_join CgroupSubsystem.MEMORY (relative_cgroup_path c).

Definition billion : num := PFloat (float_of_ratio 1000000000 1).

(** [except FileNotFoundError: raise e] *)
Definition on_missing {W A} (e : exn) (m : M W A) : M W A :=
  try_except m (λ x, match x with FileNotFoundError => Some (raise e) | _ => None end).

(** ** Pure parsers of the measurement files *)

(** src/wca/cgroups.py:156-160 [Cgroup.get_measurements], the [pgfault] loop. *)
Fixpoint parse_memory_stat (lines : list string) : result (option Z) :=
  match lines with
  | [] => Ok None
  | line :: lines' =>
      if startswith "pgfault" line
      then match words line with
           | [_; value] => Some <$> py_int value
           | _ => Raise ValueError
           end
      else parse_memory_stat lines'
  end.

(** src/wca/cgroups.py:171-177 [Cgroup.get_measurements.get_metric], one node *)
Definition numa_stat_entry (ms : measurements) (stat : string) : result measurements :=
  match split_on "=" stat with
  | [k; v] =>
      k ← py_int (str_drop 1 k); v ← py_int v;
      match dget ms MetricName.TASK_MEM_NUMA_PAGES with
      | None => Ok (dset ms MetricName.TASK_MEM_NUMA_PAGES (MDict [(KInt k, MNum (PInt v))]))
      | Some (MDict d) =>
          Ok (dset ms MetricName.TASK_MEM_NUMA_PAGES (MDict (dset d (KInt k) (MNum (PInt v)))))
      | Some _ => Raise TypeError
      end
  | _ => Raise ValueError
  end.

(** src/wca/cgroups.py:165-178 [Cgroup.get_measurements.get_metric] *)
Fixpoint get_metric (metric : string) (ms : measurements) (lines : list string)
    : result measurements :=
  match lines with
  | [] => Ok ms
  | line :: lines' =>
      if startswith metric line then foldM numa_stat_entry ms (tail (words line))
      else get_metric metric ms lines'
  end.

Section cgroup.
  Context {W : Type} `{FileSystem W} `{PyFloatRepr}.

(** src/wca/cgroups.py:99-123 [Cgroup.reset_counters] *)
Definition reset_counters (self : Cgroup) : M W unit :=
  on_missing MissingMeasurementException
    (fs_write (path_join (cgroup_cpu_fullpath self) (resource_file CPU_USAGE)) "0").

(** src/wca/cgroups.py:137-150 [Cgroup.get_measurements], the memory counters *)
Definition read_memory_counter (self : Cgroup) (ms : measurements)
    (rm : CgroupResource * string) : M W measurements :=
  let '(cgroup_resource, metric_name) := rm in
  on_missing MissingMeasurementException
    (content ← read_file (path_join (cgroup_memory_fullpath self) (resource_file cgroup_resource));
     value ← lift (py_int content);
     mret (dset ms metric_name (MNum (PInt value)))).

Definition memory_counters : list (CgroupResource * string) :=
  [(MEMORY_USAGE, MetricName.TASK_MEM_USAGE_BYTES);
   (MEMORY_MAX_USAGE, MetricName.TASK_MEM_MAX_USAGE_BYTES);
   (MEMORY_LIMIT, MetricName.TASK_MEM_LIMIT_BYTES);
   (MEMORY_SOFT_LIMIT, MetricName.TASK_MEM_SOFT_LIMIT_BYTES)].

(** src/wca/cgroups.py:125-209 [Cgroup.get_measurements] *)
Definition cgroup_get_measurements (self : Cgroup) : M W measurements :=
  cpu_usage ← on_missing MissingMeasurementException
    (content ← read_file (path_join (cgroup_cpu_fullpath self) (resource_file CPU_USAGE));
     lift (n ← py_int content; ndiv (PInt n) billion));
  let ms := [(MetricName.TASK_CPU_USAGE_SECONDS, MNum cpu_usage)] in
  ms ← foldMS (read_memory_counter self) ms memory_counters;
  ms ← on_missing MissingMeasurementException
    (content ← read_file (path_join (cgroup_memory_fullpath self) (resource_file MEMORY_STAT));
     pgfault ← lift (parse_memory_stat (readlines content));
     mret match pgfault with
          | Some v => dset ms MetricName.TASK_MEM_PAGE_FAULTS (MNum (PInt v))
          | None => ms
          end);
  let numa_path := path_join (cgroup_memory_fullpath self) (resource_file NUMA_STAT) in
  ms ← on_missing MissingMeasurementException
    (content ← read_file numa_path;
     ms ← lift (get_metric "hierarchical_total=" ms (readlines content));
     content ← read_file numa_path;
     lift (get_metric "total=" ms (readlines content)));
  (* the check of the NUMA node numbers only warns, but reads the platform *)
  if dmem ms MetricName.TASK_MEM_NUMA_PAGES
  then p ← lift (or_raise AttributeError (cg_platform self)); mret ms
  else mret ms.

(** src/wca/cgroups.py:211-223 [Cgroup._get_proper_path] *)
Definition get_proper_path (self : Cgroup) (cgroup_control_file : string)
    (cgroup_control_type : CgroupType) : string :=
  match cgroup_control_type with
  | CT_CPU => path_join (cgroup_cpu_fullpath self) cgroup_control_file
  | CT_PERF_EVENT => path_join (cgroup_perf_event_fullpath self) cgroup_control_file
  | CT_CPUSET => path_join (cgroup_cpuset_fullpath self) cgroup_control_file
  | CT_MEMORY => path_join (cgroup_cpuset_fullpath self) cgroup_control_file
  end.

(** src/wca/cgroups.py:225-236 [Cgroup._read_raw] *)
Definition cgroup_read_raw (self : Cgroup) (r : CgroupResource) (t : CgroupType) : M W string :=
  on_missing MissingAllocationException (read_file (get_proper_path self (resource_file r) t)).

(** src/wca/cgroups.py:238-242 [Cgroup._read] *)
Definition cgroup_read (self : Cgroup) (r : CgroupResource) (t : CgroupType) : M W Z :=
  raw_value ← cgroup_read_raw self r t; lift (py_int raw_value).

(** src/wca/cgroups.py:244-252 [Cgroup._write] *)
Definition cgroup_write (self : Cgroup) (r : CgroupResource) (value : string) (t : CgroupType)
    : M W unit :=
  fs_write (get_proper_path self (resource_file r) t) value.

(** src/wca/cgroups.py:254-259 [Cgroup._get_normalized_shares] *)
Definition get_normalized_shares (self : Cgroup) : M W num :=
  conf ← lift (or_raise AssertionError (allocation_configuration self));
  shares ← cgroup_read self CPU_SHARES CT_CPU;
  lift (ndiv (PInt shares) (PInt (cpu_shares_unit conf))).

(** src/wca/cgroups.py:261-271 [Cgroup._get_normalized_quota] *)
Definition get_normalized_quota (self : Cgroup) : M W num :=
  conf ← lift (or_raise AssertionError (allocation_configuration self));
  current_quota ← cgroup_read self CPU_QUOTA CT_CPU;
  current_period ← cgroup_read self CPU_PERIOD CT_CPU;
  if current_quota =? QUOTA_NOT_SET then mret QUOTA_NORMALIZED_MAX
  else lift (q ← ndiv (PInt current_quota) (PInt current_period);
             p ← or_raise AttributeError (cg_platform self);
             ndiv q (PInt (cpus p))).

(** src/wca/cgroups.py:349-351 [Cgroup._read_listformat] *)
Definition read_listformat (self : Cgroup) (r : CgroupResource) (t : CgroupType) : M W string :=
  raw ← cgroup_read_raw self r t;
  listformat ← lift (decode_listformat (strip raw));
  mret (encode_listformat listformat).

(** src/wca/cgroups.py:361-363 [Cgroup._get_cpuset_cpus] *)
Definition get_cpuset_cpus (self : Cgroup) : M W string := read_listformat self R_CPUSET_CPUS CT_CPUSET.
(** src/wca/cgroups.py:365-367 [Cgroup._get_cpuset_mems] *)
Definition get_cpuset_mems (self : Cgroup) : M W string := read_listformat self R_CPUSET_MEMS CT_CPUSET.
(** src/wca/cgroups.py:372-373 [Cgroup._get_memory_migrate] *)
Definition get_memory_migrate (self : Cgroup) : M W Z :=
  cgroup_read self R_CPUSET_MEMORY_MIGRATE CT_CPUSET.

(** src/wca/cgroups.py:273-282 [Cgroup.get_allocations] *)
Definition cgroup_get_allocations (self : Cgroup) : M W TaskAllocations :=
  conf ← lift (or_raise AssertionError (allocation_configuration self));
  quota ← get_normalized_quota self;
  shares ← get_normalized_shares self;
  cpus ← get_cpuset_cpus self;
  mems ← get_cpuset_mems self;
  migrate ← get_memory_migrate self;
  mret [(QUOTA, RawNum quota); (SHARES, RawNum shares); (CPUSET_CPUS, RawStr cpus);
        (CPUSET_MEMS, RawStr mems); (CPUSET_MEMORY_MIGRATE, RawNum (PInt migrate))].

(** src/wca/cgroups.py:284-294 [Cgroup.get_pids] *)
Definition cgroup_get_pids (self : Cgroup) (include_threads : bool) : M W (list string) :=
  let file := if include_threads then TASKS else PROCS in
  try_except
    (content ← read_file (path_join (cgroup_cpu_fullpath self) file);
     mret (splitlines content))
    (λ e, match e with FileNotFoundError => Some (mret []) | _ => None end).

(** src/wca/cgroups.py:296-309 [Cgroup.set_shares] *)
Definition set_shares (self : Cgroup) (normalized_shares : num) : M W unit :=
  conf ← lift (or_raise AssertionError (allocation_configuration self));
  shares ← lift (x ← nmul normalized_shares (PInt (cpu_shares_unit conf)); num_trunc x);
  let shares := if shares <? MIN_SHARES then MIN_SHARES else shares in
  cgroup_write self CPU_SHARES (str_of_Z shares) CT_CPU.

(** src/wca/cgroups.py:321-335 [Cgroup.set_quota], the quota *)
Definition quota_value (normalized_quota : num) (period : Z) (p : option Platform) : result Z :=
  if ngeb normalized_quota QUOTA_NORMALIZED_MAX then Ok QUOTA_NOT_SET
  else
    x ← nmul normalized_quota (PInt period);
    p ← or_raise AttributeError p;
    y ← nmul x (PInt (cpus p));
    quota ← num_trunc y;
    Ok (if quota <? QUOTA_MINIMUM_VALUE then QUOTA_MINIMUM_VALUE else quota).

(** src/wca/cgroups.py:311-337 [Cgroup.set_quota] *)
Definition set_quota (self : Cgroup) (normalized_quota : num) : M W unit :=
  conf ← lift (or_raise AssertionError (allocation_configuration self));
  current_period ← cgroup_read self CPU_PERIOD CT_CPU;
  _ ← (if current_period =? cpu_quota_period conf then mret tt
       else cgroup_write self CPU_PERIOD (str_of_Z (cpu_quota_period conf)) CT_CPU : M W unit);
  quota ← lift (quota_value normalized_quota (cpu_quota_period conf) (cg_platform self));
  cgroup_write self CPU_QUOTA (str_of_Z quota) CT_CPU.

(** src/wca/cgroups.py:339-347 [Cgroup._write_listformat] *)
Definition write_listformat (self : Cgroup) (intset : gset Z) (r : CgroupResource)
    (t : CgroupType) : M W unit :=
  let encoded_value := encode_listformat intset in
  try_except (cgroup_write self r encoded_value t)
    (λ e, match e with PermissionError => Some (mret tt) | _ => None end).

(** src/wca/cgroups.py:353-355 [Cgroup.set_cpuset_cpus] *)
Definition set_cpuset_cpus (self : Cgroup) (cpus : gset Z) : M W unit :=
  write_listformat self cpus R_CPUSET_CPUS CT_CPUSET.
(** src/wca/cgroups.py:357-359 [Cgroup.set_cpuset_mems] *)
Definition set_cpuset_mems (self : Cgroup) (mems : gset Z) : M W unit :=
  write_listformat self mems R_CPUSET_MEMS CT_CPUSET.
(** src/wca/cgroups.py:369-370 [Cgroup._set_memory_migrate] *)
Definition set_memory_migrate (self : Cgroup) (value : num) : M W unit :=
  cgroup_write self R_CPUSET_MEMORY_MIGRATE (num_str value) CT_CPUSET.
End cgroup.

(** src/wca/cgroups.py:376-381 [build_cpu_to_socket_mapping]
    Used for lookups only, so the result is a finite map. *)
Definition build_cpu_to_socket_mapping (node_cpus : dict Z (gset Z)) : gmap Z Z :=
  foldl (λ mapping nc, set_fold (λ cpu m, <[cpu := nc.1]> m) mapping nc.2) ∅ node_cpus.

(** ** Properties *)

Lemma on_missing_Ok_iff {W A} e (m : M W A) s a s' :
  on_missing e m s = (Ok a, s') ↔ m s = (Ok a, s').
Proof.
  unfold on_missing, try_except. destruct (m s) as [[x|[]] s1]; naive_solver.
Qed.

Section cgroup_spec.
  Context {W : Type} `{FileSystem W} `{!ControlFiles W}.
  Implicit Types (s : W) (c : Cgroup).

Lemma cgroup_read_raw_Ok_iff c r t s raw s' :
  cgroup_read_raw c r t s = (Ok raw, s') ↔
  fs_read (get_proper_path c (resource_file r) t) s = Ok raw ∧ s' = s.
Proof. unfold cgroup_read_raw. by rewrite on_missing_Ok_iff, read_file_Ok_iff. Qed.

Lemma cgroup_read_Ok_iff c r t s n s' :
  cgroup_read c r t s = (Ok n, s') ↔
  (∃ raw, fs_read (get_proper_path c (resource_file r) t) s = Ok raw ∧ py_int raw = Ok n) ∧ s' = s.
Proof.
  unfold cgroup_read. rewrite M_bind_Ok_iff. split.
  - intros (raw & s1 & Hr & Hl). apply cgroup_read_raw_Ok_iff in Hr as [Hr ->].
    apply lift_Ok_iff in Hl as [Hl ->]. eauto.
  - intros ((raw & Hr & Hi) & ->). exists raw, s. by rewrite cgroup_read_raw_Ok_iff, lift_Ok_iff.
Qed.

(** The quota written is "not set" or at least the smallest quota. *)
Lemma quota_value_range q period p quota :
  quota_value q period p = Ok quota → quota = QUOTA_NOT_SET ∨ QUOTA_MINIMUM_VALUE ≤ quota.
Proof.
  unfold quota_value. destruct (ngeb _ _); intros H0; inv_ok; [by left|right].
  case_match; to_prop; unfold QUOTA_MINIMUM_VALUE in *; lia.
Qed.

(** The quota for a normalised one: -1 ("not set") from 1.0 on, otherwise the normalised quota
    times the period times the number of CPUs, truncated, and at least 1000. *)
Definition quota_of (normalized_quota : num) (period cpus quota : Z) : Prop :=
  if ngeb normalized_quota (PFloat (float_of_ratio 1 1)) then quota = -1
  else ∃ t, (x ← nmul normalized_quota (PInt period); y ← nmul x (PInt cpus); num_trunc y) = Ok t ∧
            quota = Z.max 1000 t.

Lemma quota_value_of q period p quota :
  quota_value q period (Some p) = Ok quota → quota_of q period (cpus p) quota.
Proof.
  unfold quota_value, quota_of. fold QUOTA_NORMALIZED_MAX. destruct (ngeb _ _); intros Hq; [by injection Hq as <-|].
  apply bind_Ok_iff in Hq as (x & Hx & Hq). cbn [or_raise mbind result_bind] in Hq.
  apply bind_Ok_iff in Hq as (y & Hy & Hq). apply bind_Ok_iff in Hq as (t & Ht & Hq).
  exists t. rewrite Hx. cbn [mbind result_bind]. rewrite Hy. cbn [mbind result_bind].
  split; [done|]. injection Hq as <-. unfold QUOTA_MINIMUM_VALUE.
  destruct (Z.ltb_spec t 1000); lia.
Qed.

Lemma py_int_quota quota :
  quota = QUOTA_NOT_SET ∨ QUOTA_MINIMUM_VALUE ≤ quota → py_int (str_of_Z quota) = Ok quota.
Proof.
  intros [->|Hge]; [reflexivity|]. apply py_int_str_of_Z. unfold QUOTA_MINIMUM_VALUE in Hge. lia.
Qed.

Lemma resource_paths_ne c :
  get_proper_path c (resource_file CPU_QUOTA) CT_CPU ≠
  get_proper_path c (resource_file CPU_PERIOD) CT_CPU.
Proof.
  simpl. unfold path_join. simpl.
  destruct (_ || _); intros Heq.
  - by apply (inj (String.append (cgroup_cpu_fullpath c))) in Heq.
  - by apply (inj (String.append (cgroup_cpu_fullpath c))) in Heq.
Qed.

Lemma cgroup_write_reads c r v t s s' :
  cgroup_write c r v t s = (Ok tt, s') →
  fs_read (get_proper_path c (resource_file r) t) s' = Ok v.
Proof. apply read_after_write. Qed.

Lemma cgroup_write_keeps c r v t s s' path :
  cgroup_write c r v t s = (Ok tt, s') → get_proper_path c (resource_file r) t ≠ path →
  fs_read path s' = fs_read path s.
Proof. intros Hw Hne. by eapply read_other. Qed.

(** C9 (roundtrip): after a successful [set_quota] of a configured cgroup (period not
    negative) the quota file holds "not set" (-1) when the normalised quota is at least 1.0,
    and otherwise the product of normalised quota, period and CPUs truncated and raised to at
    least 1000; the period file holds the configured period, and reading the normalised quota
    back divides by the same period and CPUs (1.0 for "not set"). *)
Theorem set_quota_get_quota c conf p q s s' :
  allocation_configuration c = Some conf → cg_platform c = Some p → 0 ≤ cpu_quota_period conf →
  set_quota c q s = (Ok tt, s') →
  ∃ quota, quota_of q (cpu_quota_period conf) (cpus p) quota ∧
    fs_read (get_proper_path c (resource_file CPU_QUOTA) CT_CPU) s' = Ok (str_of_Z quota) ∧
    cgroup_read c CPU_PERIOD CT_CPU s' = (Ok (cpu_quota_period conf), s') ∧
    get_normalized_quota c s' =
      (if quota =? QUOTA_NOT_SET then Ok QUOTA_NORMALIZED_MAX
       else x ← ndiv (PInt quota) (PInt (cpu_quota_period conf)); ndiv x (PInt (cpus p)), s').
Proof.
  intros Hconf Hp Hperiod Hset. unfold set_quota in Hset. rewrite Hconf, Hp in Hset.
  apply M_bind_Ok_iff in Hset as (conf' & s0 & Hc & Hset).
  apply lift_Ok_iff in Hc as [[= <-] ->].
  apply M_bind_Ok_iff in Hset as (period & s0 & Hread & Hset).
  apply cgroup_read_Ok_iff in Hread as [Hread ->].
  apply M_bind_Ok_iff in Hset as ([] & s1 & Hsync & Hset).
  apply M_bind_Ok_iff in Hset as (quota & s2 & Hq & Hset).
  apply lift_Ok_iff in Hq as [Hquota ->].
  exists quota. pose proof (quota_value_of _ _ _ _ Hquota) as Hspec.
  pose proof (quota_value_range _ _ _ _ Hquota) as Hrange.
  pose proof (cgroup_write_reads _ _ _ _ _ _ Hset) as Hqr.
  assert (Hpr : cgroup_read c CPU_PERIOD CT_CPU s' = (Ok (cpu_quota_period conf), s')).
  { apply cgroup_read_Ok_iff. split; [|done].
    rewrite (cgroup_write_keeps _ _ _ _ _ _ _ Hset (resource_paths_ne c)).
    destruct (period =? _) eqn:Hb; inv_M; to_prop; [by subst|].
    apply cgroup_write_reads in Hsync. eexists. split; [exact Hsync|]. by apply py_int_str_of_Z. }
  repeat split; [done..|].
  assert (Hqi : cgroup_read c CPU_QUOTA CT_CPU s' = (Ok quota, s')).
  { apply cgroup_read_Ok_iff. split; [|done]. eexists. split; [exact Hqr|]. by apply py_int_quota. }
  unfold get_normalized_quota. rewrite Hconf, Hp. unfold mbind, M_bind.
  cbn [or_raise lift]. rewrite Hqi, Hpr. by destruct (quota =? QUOTA_NOT_SET).
Qed.

(** [set_shares] writes the requested weight in units,
    truncated and never below 2, and the weight read back is that number divided
    by the unit. *)
Theorem set_shares_get_shares c conf x s s' :
  allocation_configuration c = Some conf →
  set_shares c x s = (Ok tt, s') →
  ∃ y n, nmul x (PInt (cpu_shares_unit conf)) = Ok y ∧ num_trunc y = Ok n ∧
    fs_read (get_proper_path c (resource_file CPU_SHARES) CT_CPU) s' =
      Ok (str_of_Z (Z.max MIN_SHARES n)) ∧
    get_normalized_shares c s' =
      (ndiv (PInt (Z.max MIN_SHARES n)) (PInt (cpu_shares_unit conf)), s').
Proof.
  intros Hconf Hset. unfold set_shares in Hset. rewrite Hconf in Hset.
  apply M_bind_Ok_iff in Hset as (conf' & s0 & Hc & Hset).
  apply lift_Ok_iff in Hc as [[= <-] ->].
  apply M_bind_Ok_iff in Hset as (n & s1 & Hn & Hset).
  apply lift_Ok_iff in Hn as [Hn ->]. apply bind_Ok_iff in Hn as (y & Hy & Hn).
  assert (Hmax : (if n <? MIN_SHARES then MIN_SHARES else n) = Z.max MIN_SHARES n).
  { destruct (n <? MIN_SHARES) eqn:E; to_prop; lia. }
  rewrite Hmax in Hset. apply cgroup_write_reads in Hset as Hread.
  exists y, n. repeat split; [done..|].
  assert (Hrd : cgroup_read c CPU_SHARES CT_CPU s' = (Ok (Z.max MIN_SHARES n), s')).
  { apply cgroup_read_Ok_iff. split; [|done]. eexists. split; [exact Hread|].
    apply py_int_str_of_Z. unfold MIN_SHARES. lia. }
  unfold get_normalized_shares. rewrite Hconf. unfold mbind, M_bind.
  cbn [or_raise lift]. by rewrite Hrd.
Qed.

(** A cpuset written by [set_cpuset_cpus] (or [set_cpuset_mems],
    which only differs in the file) is the one read back, in the normal form of
    the list format; when the kernel denies the write nothing is raised. *)
Theorem cpuset_write_read c r ints s r1 s' :
  (∀ n, n ∈ ints → 0 ≤ n) →
  cgroup_write c r (encode_listformat ints) CT_CPUSET s = (r1, s') →
  match r1 with
  | Ok _ => write_listformat c ints r CT_CPUSET s = (Ok tt, s') ∧
            read_listformat c r CT_CPUSET s' = (Ok (encode_listformat ints), s') ∧
            decode_listformat (encode_listformat ints) = Ok ints
  | Raise PermissionError => write_listformat c ints r CT_CPUSET s = (Ok tt, s')
  | Raise e => write_listformat c ints r CT_CPUSET s = (Raise e, s')
  end.
Proof.
  intros Hints Hw. unfold write_listformat, try_except. rewrite Hw.
  destruct r1 as [[]|e]; [|by destruct e].
  apply cgroup_write_reads in Hw. split; [done|].
  split; [|by apply decode_encode_listformat].
  unfold read_listformat. apply M_bind_Ok_iff. eexists _, _. split.
  - apply cgroup_read_raw_Ok_iff. split; [exact Hw|done].
  - rewrite strip_encode_listformat, decode_encode_listformat by done. done.
Qed.
End cgroup_spec.

(** The type [MEMORY] is resolved in the directory of the cpuset controller,
    not in the memory controller's. *)
Lemma memory_type_path c f :
  get_proper_path c f CT_MEMORY = path_join (cgroup_cpuset_fullpath c) f.
Proof. reflexivity. Qed.

(** *** Measurements *)
Lemma numa_stat_entry_other ms stat ms' name :
  numa_stat_entry ms stat = Ok ms' → name ≠ MetricName.TASK_MEM_NUMA_PAGES →
  dget ms' name = dget ms name.
Proof.
  unfold numa_stat_entry. intros Hs Hne.
  destruct (split_on "=" stat) as [|k [|v []]]; try done. inv_ok.
  destruct (dget ms MetricName.TASK_MEM_NUMA_PAGES) as [[]|]; inv_ok;
    by rewrite dget_dset_ne by congruence.
Qed.

Lemma get_metric_other metric ms lines ms' name :
  get_metric metric ms lines = Ok ms' → name ≠ MetricName.TASK_MEM_NUMA_PAGES →
  dget ms' name = dget ms name.
Proof.
  intros Hg Hne. induction lines as [|line lines IH]; simpl in Hg; [by inv_ok|].
  destruct (startswith metric line); [|auto].
  apply (foldM_inv (λ m, dget m name = dget ms name)) in Hg; [done| |done].
  intros a x a' _ Ha Hx. by rewrite (numa_stat_entry_other _ _ _ _ Hx Hne).
Qed.

Section measurements_spec.
  Context {W : Type} `{FileSystem W}.
  Implicit Types (s : W) (c : Cgroup).

(** The integer in a memory counter file. *)
Definition counter_file c r s (n : Z) : Prop :=
  ∃ content, fs_read (path_join (cgroup_memory_fullpath c) (resource_file r)) s = Ok content ∧
             py_int content = Ok n.

Lemma read_memory_counter_Ok c ms rm s ms' s' :
  read_memory_counter c ms rm s = (Ok ms', s') ↔
  s' = s ∧ ∃ n, counter_file c rm.1 s n ∧ ms' = dset ms rm.2 (MNum (PInt n)).
Proof.
  destruct rm as [r name]. unfold read_memory_counter. rewrite on_missing_Ok_iff. split.
  - intros Hm. apply M_bind_Ok_iff in Hm as (content & s1 & Hr & Hm).
    apply read_file_Ok_iff in Hr as [Hr ->]. inv_M. split; [done|].
    eexists. split; [by eexists|done].
  - intros (-> & n & (content & Hr & Hn) & ->). apply M_bind_Ok_iff. eexists _, _.
    split; [by apply read_file_Ok_iff|]. apply M_bind_Ok_iff. eexists _, _.
    split; [by apply lift_Ok_iff|done].
Qed.

Lemma memory_counters_spec c l ms s ms' s' :
  NoDup l.*2 → foldMS (read_memory_counter c) ms l s = (Ok ms', s') →
  s' = s ∧ (∀ r name, (r, name) ∈ l →
              ∃ n, counter_file c r s n ∧ dget ms' name = Some (MNum (PInt n))) ∧
  (∀ name, name ∉ l.*2 → dget ms' name = dget ms name).
Proof.
  revert ms. induction l as [|[r name] l IH]; intros ms Hnd Hf.
  - apply M_ret_Ok_iff in Hf as [-> ->]. set_solver.
  - rewrite fmap_cons in Hnd. apply NoDup_cons in Hnd as [Hni Hnd]. cbn [foldMS] in Hf.
    apply M_bind_Ok_iff in Hf as (ms1 & s1 & H1 & Hf).
    apply read_memory_counter_Ok in H1 as (-> & n & Hn & ->).
    apply (IH _ Hnd) in Hf as (-> & Hin & Hout). split; [done|]. split.
    + intros r' name' [[= -> ->]|Hl]%elem_of_cons; [|auto].
      exists n. by rewrite Hout, dget_dset_eq.
    + intros name' Hni'. rewrite fmap_cons, elem_of_cons in Hni'.
      rewrite Hout, dget_dset_ne by naive_solver. done.
Qed.

Lemma counters_names_ne :
  MetricName.TASK_MEM_NUMA_PAGES ∉ (memory_counters.*2) ∧
  MetricName.TASK_MEM_PAGE_FAULTS ∉ (memory_counters.*2) ∧
  MetricName.TASK_CPU_USAGE_SECONDS ∉ (memory_counters.*2).
Proof. apply (bool_decide_eq_true _). vm_compute. reflexivity. Qed.

(** C16 (functional): the measurements of a cgroup leave the file system as it
    is, report every memory counter as the integer of its own file and the CPU
    time of [cpuacct.usage] in seconds, whatever the NUMA and fault statistics
    contain. *)
Theorem cgroup_measurements_counters c s ms s' :
  cgroup_get_measurements c s = (Ok ms, s') →
  s' = s ∧
  (∀ r name, (r, name) ∈ memory_counters →
     ∃ n, counter_file c r s n ∧ dget ms name = Some (MNum (PInt n))) ∧
  (∃ content n t,
     fs_read (path_join (cgroup_cpu_fullpath c) (resource_file CPU_USAGE)) s = Ok content ∧
     py_int content = Ok n ∧ ndiv (PInt n) billion = Ok t ∧
     dget ms MetricName.TASK_CPU_USAGE_SECONDS = Some (MNum t)).
Proof.
  unfold cgroup_get_measurements. intros Hm.
  apply M_bind_Ok_iff in Hm as (t & s1 & Hcpu & Hm).
  rewrite on_missing_Ok_iff in Hcpu. apply M_bind_Ok_iff in Hcpu as (content & s2 & Hr & Hcpu).
  apply read_file_Ok_iff in Hr as [Hr ->]. apply lift_Ok_iff in Hcpu as [Ht ->].
  apply bind_Ok_iff in Ht as (n & Hn & Ht).
  apply M_bind_Ok_iff in Hm as (ms1 & s1 & Hmem & Hm).
  apply memory_counters_spec in Hmem as (-> & Hin & Hout);
    [|apply (bool_decide_eq_true _); vm_compute; reflexivity].
  apply M_bind_Ok_iff in Hm as (ms2 & s1 & Hpf & Hm). rewrite on_missing_Ok_iff in Hpf.
  apply M_bind_Ok_iff in Hpf as (c2 & s2 & Hr2 & Hpf). apply read_file_Ok_iff in Hr2 as [_ ->].
  apply M_bind_Ok_iff in Hpf as (pf & s2 & Hpf1 & Hpf). apply lift_Ok_iff in Hpf1 as [_ ->].
  apply M_ret_Ok_iff in Hpf as [Hms2 ->].
  apply M_bind_Ok_iff in Hm as (ms3 & s1 & Hnuma & Hm). rewrite on_missing_Ok_iff in Hnuma.
  apply M_bind_Ok_iff in Hnuma as (c3 & s2 & Hr3 & Hnuma). apply read_file_Ok_iff in Hr3 as [_ ->].
  apply M_bind_Ok_iff in Hnuma as (ms2' & s2 & Hg1 & Hnuma). apply lift_Ok_iff in Hg1 as [Hg1 ->].
  apply M_bind_Ok_iff in Hnuma as (c4 & s2 & Hr4 & Hnuma). apply read_file_Ok_iff in Hr4 as [_ ->].
  apply lift_Ok_iff in Hnuma as [Hg2 ->].
  assert (ms = ms3 ∧ s' = s) as [-> ->]
    by (destruct (dmem ms3 _); inv_M; done).
  assert (Hkeep : ∀ name, name ≠ MetricName.TASK_MEM_NUMA_PAGES →
            name ≠ MetricName.TASK_MEM_PAGE_FAULTS → dget ms3 name = dget ms1 name).
  { intros name H1 H2. rewrite (get_metric_other _ _ _ _ _ Hg2 H1), (get_metric_other _ _ _ _ _ Hg1 H1).
    rewrite <-Hms2. destruct pf; [|done]. by rewrite dget_dset_ne by congruence. }
  split; [done|]. split.
  - intros r name Hrn. assert (Hname : name ∈ memory_counters.*2)
      by (apply list_elem_of_fmap; by exists (r, name)).
    rewrite Hkeep; [by apply Hin|intros ->..]; revert Hname; apply counters_names_ne.
  - exists content, n, t. split_and!; [done..|].
    rewrite Hkeep, Hout by (done || apply counters_names_ne).
    apply dget_dset_eq with (d := []).
Qed.
End measurements_spec.

(** ** A container of one machine, for the witnesses *)

Definition example_platform : Platform :=
  mkPlatform 1 2 4 1 [] "" 0 UNKNOWN fzero None [(0, {[0; 1; 2; 3]})] [] [] false.

Definition example_cgroup : Cgroup :=
  mkCgroup "/t1" (Some default_AllocationConfiguration) (Some example_platform).

Definition example_fs : memfs :=
  mkMem (list_to_map
    [("/sys/fs/cgroup/cpu/t1/cpu.cfs_quota_us", "-1"); ("/sys/fs/cgroup/cpu/t1/cpu.cfs_period_us", "1000");
     ("/sys/fs/cgroup/cpu/t1/cpu.shares", "1024"); ("/sys/fs/cgroup/cpuset/t1/cpuset.cpus", "0-3");
     ("/sys/fs/cgroup/cpuset/t1/cpuset.mems", "0"); ("/sys/fs/cgroup/cpuset/t1/cpuset.memory_migrate", "0");
     ("/sys/fs/cgroup/cpu/t1/cpuacct.usage", "2500000000"); ("/sys/fs/cgroup/memory/t1/memory.usage_in_bytes", "4096");
     ("/sys/fs/cgroup/memory/t1/memory.max_usage_in_bytes", "8192"); ("/sys/fs/cgroup/memory/t1/memory.limit_in_bytes", "1048576");
     ("/sys/fs/cgroup/memory/t1/memory.soft_limit_in_bytes", "65536"); ("/sys/fs/cgroup/memory/t1/memory.stat", "pgfault 12");
     ("/sys/fs/cgroup/memory/t1/memory.numa_stat", "total=1 N0=1")]) ∅.

Lemma set_quota_get_quota_witness :
  ∃ quota, quota_of (PFloat (float_of_ratio 1 2)) 1000 4 quota ∧
    let s' := (set_quota example_cgroup (PFloat (float_of_ratio 1 2)) example_fs).2 in
    fs_read (get_proper_path example_cgroup (resource_file CPU_QUOTA) CT_CPU) s' = Ok (str_of_Z quota) ∧
    cgroup_read example_cgroup CPU_PERIOD CT_CPU s' = (Ok 1000, s') ∧
    get_normalized_quota example_cgroup s' =
      (if quota =? QUOTA_NOT_SET then Ok QUOTA_NORMALIZED_MAX
       else x ← ndiv (PInt quota) (PInt 1000); ndiv x (PInt 4), s').
Proof.
  apply (set_quota_get_quota example_cgroup default_AllocationConfiguration example_platform
           (PFloat (float_of_ratio 1 2)) example_fs); [done|done|done|].
  apply outcome_is. vm_compute. reflexivity.
Defined.

Lemma set_shares_get_shares_witness :
  ∃ y n, nmul (PFloat (float_of_ratio 1 1000)) (PInt 1000) = Ok y ∧ num_trunc y = Ok n ∧
    let s' := (set_shares example_cgroup (PFloat (float_of_ratio 1 1000)) example_fs).2 in
    fs_read (get_proper_path example_cgroup (resource_file CPU_SHARES) CT_CPU) s' =
      Ok (str_of_Z (Z.max MIN_SHARES n)) ∧
    get_normalized_shares example_cgroup s' = (ndiv (PInt (Z.max MIN_SHARES n)) (PInt 1000), s').
Proof.
  apply (set_shares_get_shares example_cgroup default_AllocationConfiguration
           (PFloat (float_of_ratio 1 1000)) example_fs); [done|].
  apply outcome_is. vm_compute. reflexivity.
Defined.

Lemma cpuset_write_read_witness :
  let ints : gset Z := {[1; 3]} in
  let s' := (cgroup_write example_cgroup R_CPUSET_CPUS (encode_listformat ints) CT_CPUSET example_fs).2 in
  write_listformat example_cgroup ints R_CPUSET_CPUS CT_CPUSET example_fs = (Ok tt, s') ∧
  read_listformat example_cgroup R_CPUSET_CPUS CT_CPUSET s' = (Ok (encode_listformat ints), s') ∧
  decode_listformat (encode_listformat ints) = Ok ints.
Proof.
  apply (cpuset_write_read example_cgroup R_CPUSET_CPUS {[1; 3]} example_fs (Ok tt)).
  - intros n Hn. assert (n = 1 ∨ n = 3) by set_solver. lia.
  - apply outcome_is. vm_compute. reflexivity.
Defined.

Lemma cgroup_measurements_counters_witness :
  ∃ ms, cgroup_get_measurements example_cgroup example_fs = (Ok ms, example_fs) ∧
  (∀ r name, (r, name) ∈ memory_counters →
     ∃ n, counter_file example_cgroup r example_fs n ∧ dget ms name = Some (MNum (PInt n))).
Proof.
  assert (Hm : cgroup_get_measurements example_cgroup example_fs =
               (Ok (result_get [] (cgroup_get_measurements example_cgroup example_fs).1),
                (cgroup_get_measurements example_cgroup example_fs).2))
    by (apply outcome_Ok; vm_compute; reflexivity).
  destruct (cgroup_measurements_counters example_cgroup example_fs _ _ Hm) as (Hs & Hc & _).
  eexists. split; [rewrite Hs in Hm; exact Hm|exact Hc].
Defined.
