(* ===== verification/Resctrl.v ===== *)
(** * The resctrl file system

    [src/wca/resctrl.py]: resource control groups and their monitoring groups as
    directories below [/sys/fs/resctrl].  Everything the kernel does is an
    operation of the class [FileSystem]. *)
From S2P Require Export PyStr PyDict PyNum Metrics FileSys Allocations.

(** src/wca/resctrl.py:29-41 [constants] *)
Definition RESCTRL_ROOT_NAME : string := "".
Definition BASE_RESCTRL_PATH : string := "/sys/fs/resctrl".
Definition MON_GROUPS : string := "mon_groups".
Definition TASKS_FILENAME : string := "tasks".
Definition SCHEMATA : string := "schemata".
Definition MON_DATA : string := "mon_data".
Definition MBM_TOTAL : string := "mbm_total_bytes".
Definition MBM_LOCAL : string := "mbm_local_bytes".
Definition LLC_OCCUPANCY : string := "llc_occupancy".

Definition ENOSPC : Z := 28.
Definition EBUSY : Z := 16.

(** src/wca/resctrl.py:52-58 [ResGroup] *)
Record ResGroup := mkResGroup { rg_name : string }.
#[export] Instance ResGroup_eq : EqDecision ResGroup.
Proof. solve_decision. Defined.

(** src/wca/resctrl.py:59-59 [ResGroup.fullpath] *)
Definition fullpath (g : ResGroup) : string :=
  BASE_RESCTRL_PATH +:+ (if String.eqb (rg_name g) "" then "" else "/" +:+ rg_name g).

(** src/wca/resctrl.py:64-65 [ResGroup._get_mongroup_fullpath] *)
Definition get_mongroup_fullpath (g : ResGroup) (mongroup_name : string) : string :=
  path_join (path_join (fullpath g) MON_GROUPS) mongroup_name.

(** src/wca/resctrl.py:207-209 [ResGroup.get_event_file] *)
Definition get_event_file (g : ResGroup) (socket_dir event_name mongroup_name : string) : string :=
  path_join (path_join (path_join (get_mongroup_fullpath g mongroup_name) MON_DATA) socket_dir)
    event_name.

Section resgroup.
  Context {W : Type} `{FileSystem W}.

(** src/wca/resctrl.py:67-71 [ResGroup._read_pids_from_tasks_file] *)
Definition read_pids_from_tasks_file (tasks_filepath : string) : M W (list string) :=
  content ← read_file tasks_filepath;
  mret (strip <$> List.filter (λ line, negb (String.eqb line "")) (readlines content)).

(** src/wca/resctrl.py:73-126 [ResGroup._add_pids_to_tasks_file]
    Each pid is written and flushed; every [OSError] is logged, and closing the
    file is tried in any case. *)
Definition add_pids_to_tasks_file (pids : list string) (tasks_filepath : string) : M W unit :=
  match pids with
  | [] => mret tt
  | _ =>
      opened ← try_except (_ ← fs_open_w tasks_filepath; mret true)
                 (λ e, if is_OSError e then Some (mret false) else None);
      if opened : bool then
        try_finally (ignore_OSError (forM_ pids (fs_append tasks_filepath)))
          (ignore_OSError (fs_close tasks_filepath))
      else mret tt
  end.

(** src/wca/resctrl.py:128-137 [ResGroup._create_controlgroup_directory] *)
Definition create_controlgroup_directory (self : ResGroup) : M W unit :=
  try_except (fs_makedirs (fullpath self))
    (λ e, if bool_decide (errno_of e = Some ENOSPC) then Some (raise OutOfClosidsException)
          else None).

(** src/wca/resctrl.py:156-171 [ResGroup.add_pids], making the mon group *)
Definition make_mongroup (mongroup_fullpath : string) : M W unit :=
  try_except (fs_makedirs mongroup_fullpath)
    (λ e, if bool_decide (errno_of e = Some ENOSPC) || bool_decide (errno_of e = Some EBUSY)
          then Some (raise (OtherException "Exception")) else None).

(** src/wca/resctrl.py:139-174 [ResGroup.add_pids] *)
Definition add_pids (self : ResGroup) (pids : list string) (mongroup_name : string) : M W unit :=
  _ ← lift (py_assert (negb (String.eqb mongroup_name "")));
  _ ← (if String.eqb (rg_name self) RESCTRL_ROOT_NAME then mret tt
       else create_controlgroup_directory self : M W unit);
  _ ← add_pids_to_tasks_file pids (path_join (fullpath self) TASKS_FILENAME);
  let mongroup_fullpath := get_mongroup_fullpath self mongroup_name in
  _ ← make_mongroup mongroup_fullpath;
  add_pids_to_tasks_file pids (path_join mongroup_fullpath TASKS_FILENAME).

(** src/wca/resctrl.py:292-294 [ResGroup.get_mon_groups] *)
Definition get_mon_groups (self : ResGroup) : M W (list string) :=
  list_dir (path_join (path_join BASE_RESCTRL_PATH (rg_name self)) MON_GROUPS).

(** src/wca/resctrl.py:176-201 [ResGroup.remove] *)
Definition resgroup_remove (self : ResGroup) (mongroup_name : string) : M W unit :=
  dir_to_remove ←
    (if String.eqb (rg_name self) RESCTRL_ROOT_NAME
     then mret (get_mongroup_fullpath self mongroup_name)
     else
       groups ← get_mon_groups self;
       mret (if Nat.eqb (length groups) 1 then fullpath self
             else get_mongroup_fullpath self mongroup_name) : M W string);
  s ← get_state;
  if fs_exists dir_to_remove s then fs_rmdir dir_to_remove else mret tt.

(** src/wca/resctrl.py:203-205 [ResGroup.get_socket_dirs] *)
Definition get_socket_dirs (self : ResGroup) (mongroup_name : string) : M W (list string) :=
  list_dir (path_join (get_mongroup_fullpath self mongroup_name) MON_DATA).

Definition read_event (self : ResGroup) (mongroup_name socket_dir event : string) : M W Z :=
  content ← read_file (get_event_file self socket_dir event mongroup_name);
  lift (py_int content).

(** src/wca/resctrl.py:228-240 [ResGroup.get_measurements], one socket *)
Definition socket_measurements (self : ResGroup) (mongroup_name : string)
    (mb_monitoring_enabled cache_monitoring_enabled : bool) (acc : Z * Z * Z)
    (socket_dir : string) : M W (Z * Z * Z) :=
  let '(mbm_total, mbm_local, llc_occupancy) := acc in
  tl ← (if mb_monitoring_enabled then
          t ← read_event self mongroup_name socket_dir MBM_TOTAL;
          l ← read_event self mongroup_name socket_dir MBM_LOCAL;
          mret (mbm_total + t, mbm_local + l)
        else mret (mbm_total, mbm_local) : M W (Z * Z));
  llc ← (if cache_monitoring_enabled then
           o ← read_event self mongroup_name socket_dir LLC_OCCUPANCY; mret (llc_occupancy + o)
         else mret llc_occupancy : M W Z);
  mret (tl, llc).

(** src/wca/resctrl.py:211-253 [ResGroup.get_measurements] *)
Definition resgroup_get_measurements (self : ResGroup) (mongroup_name : string)
    (mb_monitoring_enabled cache_monitoring_enabled : bool) : M W measurements :=
  sums ← try_except
    (dirs ← get_socket_dirs self mongroup_name;
     foldMS (socket_measurements self mongroup_name mb_monitoring_enabled cache_monitoring_enabled)
       (0, 0, 0) dirs)
    (λ e, match e with FileNotFoundError => Some (raise MissingMeasurementException) | _ => None end);
  let '(mbm_total, mbm_local, llc_occupancy) := sums in
  let ms := [] in
  let ms := if mb_monitoring_enabled then
      dset (dset (dset ms MetricName.TASK_MEM_BANDWIDTH_BYTES (MNum (PInt mbm_total)))
                 MetricName.TASK_MEM_BANDWIDTH_LOCAL_BYTES (MNum (PInt mbm_local)))
           MetricName.TASK_MEM_BANDWIDTH_REMOTE_BYTES (MNum (PInt (mbm_total - mbm_local)))
    else ms in
  let ms := if cache_monitoring_enabled then
      dset ms MetricName.TASK_LLC_OCCUPANCY_BYTES (MNum (PInt llc_occupancy))
    else ms in
  mret ms.

(** src/wca/resctrl.py:257-264 [ResGroup.get_allocations], the loop over lines *)
Definition parse_schemata (content : string) : option string * option string :=
  foldl (λ '(mb, l3) line,
    if str_contains "MB:" line then (Some (strip line), l3)
    else if str_contains "L3:" line then (mb, Some (strip line))
    else (mb, l3)) (None, None) (readlines content).

(** src/wca/resctrl.py:255-274 [ResGroup.get_allocations] *)
Definition resgroup_get_allocations (self : ResGroup) : M W TaskAllocations :=
  content ← try_except (read_file (path_join (fullpath self) SCHEMATA))
    (λ e, match e with FileNotFoundError => Some (raise MissingAllocationException) | _ => None end);
  let '(rdt_allocations_mb, rdt_allocations_l3) := parse_schemata content in
  mret [(RDT, RawRDT (mkRDTAllocation (Some (rg_name self)) rdt_allocations_l3 rdt_allocations_mb))].

(** src/wca/resctrl.py:276-290 [ResGroup.write_schemata] *)
Definition write_schemata (self : ResGroup) (lines : list string) : M W unit :=
  let path := path_join (fullpath self) SCHEMATA in
  _ ← fs_open_w path;
  try_finally
    (forM_ lines (λ value, ignore_OSError (fs_append path (value +:+ String newline ""))))
    (fs_close path).
End resgroup.

(** ** Start-up *)
Section init.
  Context {W : Type} `{FileSystem W}.

(** src/wca/resctrl.py:305-321 [cleanup_resctrl._remove_folders] *)
Definition remove_folders (initialdir subfolder : string) : M W unit :=
  entries ← list_dir (path_join initialdir subfolder);
  forM_ entries (λ entry,
    let directory_path := path_join (path_join BASE_RESCTRL_PATH subfolder) entry in
    s ← get_state;
    if fs_isdir directory_path s && fs_exists (path_join directory_path TASKS_FILENAME) s
    then fs_rmdir directory_path
    else mret tt).

(** src/wca/resctrl.py:329-337 [cleanup_resctrl], writing one root schemata line *)
Definition write_root_schemata (value : string) : M W unit :=
  let path := path_join BASE_RESCTRL_PATH SCHEMATA in
  _ ← fs_open_w path;
  try_finally
    (try_except (fs_append path (value +:+ String newline ""))
       (λ e, if is_OSError e then Some (raise InvalidAllocations) else None))
    (fs_close path).

(** src/wca/resctrl.py:297-347 [cleanup_resctrl] *)
Definition cleanup_resctrl (root_rdt_l3 root_rdt_mb : option string) (reset_resctrl : bool)
    : M W unit :=
  _ ← (if reset_resctrl then
         _ ← remove_folders BASE_RESCTRL_PATH MON_GROUPS;
         remove_folders BASE_RESCTRL_PATH ""
       else mret tt : M W unit);
  _ ← match root_rdt_l3 with Some l3 => write_root_schemata l3 | None => mret tt end;
  match root_rdt_mb with Some mb => write_root_schemata mb | None => mret tt end.

(** src/wca/resctrl.py:371-387 [check_resctrl] *)
Definition check_resctrl : M W bool :=
  try_except (_ ← read_file (path_join BASE_RESCTRL_PATH TASKS_FILENAME); mret true)
    (λ e, if is_OSError e then Some (mret false) else None).

(** src/wca/resctrl.py:390-412 [read_mon_groups_relation] *)
Definition read_mon_groups_relation : M W (dict string (list string)) :=
  let root_mon_group_dir := path_join BASE_RESCTRL_PATH MON_GROUPS in
  s ← get_state;
  _ ← lift (py_assert (fs_isdir root_mon_group_dir s));
  root_mon_groups ← list_dir root_mon_group_dir;
  ctrl_group_names ← list_dir BASE_RESCTRL_PATH;
  foldMS (λ relation ctrl_group_name,
    let ctrl_group_dir := path_join BASE_RESCTRL_PATH ctrl_group_name in
    let mon_group_dir := path_join ctrl_group_dir MON_GROUPS in
    if fs_isdir ctrl_group_dir s && fs_isdir mon_group_dir s
    then groups ← list_dir mon_group_dir; mret (dset relation ctrl_group_name groups)
    else mret relation) [("", root_mon_groups)] ctrl_group_names.

(** src/wca/resctrl.py:420-440 [clean_taskless_groups], one monitoring group *)
Definition clean_mon_group (relation : dict string (list string)) (ctrl_group mon_group : string)
    : M W unit :=
  let ctrl_group_dir := path_join BASE_RESCTRL_PATH ctrl_group in
  let mon_group_dir := path_join (path_join ctrl_group_dir MON_GROUPS) mon_group in
  content ← read_file (path_join mon_group_dir TASKS_FILENAME);
  let mon_groups_to_remove := if String.eqb content "" then [mon_group_dir] else [] in
  match mon_groups_to_remove with
  | [] => mret tt
  | _ =>
      all_groups ← lift (dgetitem relation ctrl_group);
      if negb (String.eqb ctrl_group "")
         && Nat.eqb (length mon_groups_to_remove) (length all_groups)
      then fs_rmdir ctrl_group_dir
      else forM_ mon_groups_to_remove fs_rmdir
  end.

(** src/wca/resctrl.py:415-440 [clean_taskless_groups] *)
Definition clean_taskless_groups (mon_groups_relation : dict string (list string)) : M W unit :=
  forM_ mon_groups_relation (λ '(ctrl_group, mon_groups),
    forM_ mon_groups (clean_mon_group mon_groups_relation ctrl_group)).
End init.

(** src/wca/resctrl.py:350-368 [get_max_rdt_values]
    A missing mask prints as "None". *)
Definition get_max_rdt_values (cbm_mask : option string) (platform_sockets : Z)
    (rdt_mb_control_enabled rdt_cache_control_enabled : bool) : option string * option string :=
  let dom_ids := seqZ 0 platform_sockets in
  let l3 := (λ dom_id, str_of_Z dom_id +:+ "=" +:+ default "None" cbm_mask) <$> dom_ids in
  let mb := (λ dom_id, str_of_Z dom_id +:+ "=100") <$> dom_ids in
  (if rdt_cache_control_enabled then Some ("L3:" +:+ str_join ";" l3) else None,
   if rdt_mb_control_enabled then Some ("MB:" +:+ str_join ";" mb) else None).
