(* ===== verification/Wss.v ===== *)
(** * Working set size

    [src/wca/wss.py]: referenced bytes of the processes of a task, and the
    heuristic that waits for a stable number of them.  The object [WSS] is a record
    next to the state of the machine; pids, clock and the order of iteration over a
    set of pids are parameters. *)
From S2P Require Export PyStr PyDict PyNum Metrics FileSys.

(** The arguments of the constructor. *)
Record WSSConfig := mkWSSConfig {
  wss_interval : Z;
  wss_reset_cycles : option Z;
  wss_stable_cycles : Z;
  wss_membw_threshold : option num
}.

(** src/wca/wss.py:29-68 [WSS.__init__], the attributes that change *)
Record WSS := mkWSS {
  overhead_seconds : num;
  cycle : Z;
  prev_referenced : option Z;
  prev_membw_counter : option mval;
  started_cycle : float;
  started_total : float;
  stable_cycles_counter : Z;
  first_stable_referenced : option Z;
  last_stable_wss : option num;
  first_wss : bool
}.

Definition wss_init (now : float) : WSS := mkWSS (PInt 0) 0 None None now now 0 None None true.

Definition set_overhead (x : num) (s : WSS) : WSS :=
  mkWSS x (cycle s) (prev_referenced s) (prev_membw_counter s) (started_cycle s) (started_total s)
    (stable_cycles_counter s) (first_stable_referenced s) (last_stable_wss s) (first_wss s).
Definition set_cycle (x : Z) (s : WSS) : WSS :=
  mkWSS (overhead_seconds s) x (prev_referenced s) (prev_membw_counter s) (started_cycle s)
    (started_total s) (stable_cycles_counter s) (first_stable_referenced s) (last_stable_wss s)
    (first_wss s).
Definition set_prev (r : option Z) (m : option mval) (s : WSS) : WSS :=
  mkWSS (overhead_seconds s) (cycle s) r m (started_cycle s) (started_total s)
    (stable_cycles_counter s) (first_stable_referenced s) (last_stable_wss s) (first_wss s).
Definition set_counter (x : Z) (s : WSS) : WSS :=
  mkWSS (overhead_seconds s) (cycle s) (prev_referenced s) (prev_membw_counter s) (started_cycle s)
    (started_total s) x (first_stable_referenced s) (last_stable_wss s) (first_wss s).
Definition set_first_stable (x : option Z) (s : WSS) : WSS :=
  mkWSS (overhead_seconds s) (cycle s) (prev_referenced s) (prev_membw_counter s) (started_cycle s)
    (started_total s) (stable_cycles_counter s) x (last_stable_wss s) (first_wss s).
Definition set_last_wss (x : option num) (s : WSS) : WSS :=
  mkWSS (overhead_seconds s) (cycle s) (prev_referenced s) (prev_membw_counter s) (started_cycle s)
    (started_total s) (stable_cycles_counter s) (first_stable_referenced s) x (first_wss s).
Definition set_first_wss (x : bool) (s : WSS) : WSS :=
  mkWSS (overhead_seconds s) (cycle s) (prev_referenced s) (prev_membw_counter s) (started_cycle s)
    (started_total s) (stable_cycles_counter s) (first_stable_referenced s) (last_stable_wss s) x.
Definition set_started_cycle (x : float) (s : WSS) : WSS :=
  mkWSS (overhead_seconds s) (cycle s) (prev_referenced s) (prev_membw_counter s) x
    (started_total s) (stable_cycles_counter s) (first_stable_referenced s) (last_stable_wss s)
    (first_wss s).

(** ** Referenced bytes *)

(** One line of [smaps]: [line.split('Referenced:')[1].split()[0]] in kilobytes. *)
Definition add_referenced (referenced : Z) (line : string) : result Z :=
  if str_contains "Referenced" line then
    rest ← or_raise IndexError (split_sub "Referenced:" line !! 1%nat);
    word ← or_raise IndexError (words rest !! 0%nat);
    n ← py_int word;
    Ok (referenced + n)
  else Ok referenced.

Section wss.
  Context {W : Type} `{FileSystem W}.
  Context (now : M W float) (get_pids : bool → M W (list string)).
  Context (set_order : list string → list string) (cfg : WSSConfig).

(** The object and the machine. *)
Definition wss_state : Type := WSS * W.
Definition on_machine {A} (m : M W A) : M wss_state A :=
  λ st, let '(r, w) := m st.2 in (r, (st.1, w)).
Definition self : M wss_state WSS := λ st, (Ok st.1, st).
Definition update (f : WSS → WSS) : M wss_state unit := λ st, (Ok tt, (f st.1, st.2)).

(** src/wca/wss.py:71-76 [WSS._discover_pids] *)
Definition discover_pids : M W (list string) :=
  pids ← get_pids false;
  all_pids ← list_dir "/proc";
  let all_pids := List.filter is_decimal all_pids in
  mret (set_order (List.filter (λ p, bool_decide (p ∈ all_pids)) (py_set pids))).

(** src/wca/wss.py:134-144 [WSS._get_referenced], one process *)
Definition referenced_of (pid : string) : M W Z :=
  content ← try_except (c ← read_file ("/proc/" +:+ pid +:+ "/smaps"); mret (readlines c))
              (λ e, match e with
                    | ProcessLookupError | FileNotFoundError => Some (mret [])
                    | _ => None
                    end);
  lift (foldM add_referenced 0 content).

(** src/wca/wss.py:130-147 [WSS._get_referenced] *)
Definition get_referenced (pids : list string) : M W Z :=
  total ← foldMS (λ total pid, r ← referenced_of pid; mret (total + r)) 0 pids;
  mret (total * 1000).

(** src/wca/wss.py:150-157 [WSS._clear_refs] *)
Definition clear_refs (pids : list string) : M W unit :=
  forM_ pids (λ pid,
    try_except (fs_write ("/proc/" +:+ pid +:+ "/clear_refs") ("1" +:+ String newline ""))
      (λ e, match e with FileNotFoundError => Some (mret tt) | _ => None end)).

(** ** Stability *)

(** src/wca/wss.py:91-99 [WSS._check_stability]
    The growth that counts: [None] when the referenced bytes went down by 2% or
    more, 0 for a smaller decrease. *)
Definition counted_growth (curr_referenced_delta : float) (curr_referenced : Z)
    : result (option num) :=
  if fleb fzero curr_referenced_delta then Ok (Some (PFloat curr_referenced_delta))
  else
    limit ← int_div curr_referenced 50;
    Ok (if fltb (fabs curr_referenced_delta) limit then
          Some (if fltb curr_referenced_delta fzero then PInt 0 else PFloat curr_referenced_delta)
        else None).

(** src/wca/wss.py:78-127 [WSS._check_stability]
    The log line at the end divides by the interval. *)
Definition check_stability (curr_membw_counter : mval) (curr_referenced prev_ref : Z)
    (prev_membw : mval) (threshold : num) : M wss_state unit :=
  d ← lift (num_binop nsub curr_membw_counter prev_membw);
  curr_membw_delta ← lift match d with MNum n => to_float n | _ => Raise TypeError end;
  curr_referenced_delta ← lift (float_of_Z (curr_referenced - prev_ref));
  membw_threshold_bytes ← lift (nmul (PFloat curr_membw_delta) threshold);
  growth ← lift (counted_growth curr_referenced_delta curr_referenced);
  s ← self;
  _ ← match growth with
      | Some g =>
          if nltb g membw_threshold_bytes then
            _ ← (if stable_cycles_counter s =? 0
                 then update (set_first_stable (Some curr_referenced)) else mret tt
                 : M wss_state unit);
            update (set_counter (stable_cycles_counter s + 1))
          else update (set_counter 0)
      | None => update (set_counter 0)
      end : M wss_state unit;
  _ ← on_machine now;
  if wss_interval cfg =? 0 then raise ZeroDivisionError else mret tt.

(** src/wca/wss.py:183-196 [WSS.get_measurements]
    Following memory bandwidth and referenced bytes; [false] when the metric of the
    bandwidth is missing. *)
Definition follow_stability (threshold : num) (rdt_measurements : measurements)
    (curr_referenced : Z) : M wss_state bool :=
  match dget rdt_measurements MetricName.TASK_MEM_BANDWIDTH_BYTES with
  | None => mret false
  | Some curr_membw_counter =>
      s ← self;
      _ ← match prev_referenced s, prev_membw_counter s with
          | Some r, Some m =>
              if stable_cycles_counter s <? Z.abs (wss_stable_cycles cfg)
              then check_stability curr_membw_counter curr_referenced r m threshold
              else mret tt
          | _, _ => mret tt
          end : M wss_state unit;
      _ ← update (set_prev (Some curr_referenced) (Some curr_membw_counter));
      mret true
  end.

(** src/wca/wss.py:198-222 [WSS.get_measurements]
    At the end of a stable period: whether the references should be reset. *)
Definition stable_period (curr_referenced : Z) : M wss_state bool :=
  s ← self;
  if stable_cycles_counter s =? Z.abs (wss_stable_cycles cfg) then
    first ← lift (or_raise TypeError (first_stable_referenced s));
    _ ← (if first_wss s then update (set_first_wss false)
         else wss ← lift (ndiv (PInt (first + curr_referenced)) (PInt 2));
              update (set_last_wss (Some wss)) : M wss_state unit);
    _ ← update (set_counter (stable_cycles_counter s + 1));
    mret (bool_decide (wss_reset_cycles cfg = Some 0) && (wss_stable_cycles cfg >? 0))
  else mret false.

(** src/wca/wss.py:181-226 [WSS.get_measurements]
    [None] when the method returns early, else whether to reset. *)
Definition stability (rdt_measurements : measurements) (curr_referenced : Z)
    : M wss_state (option bool) :=
  match wss_membw_threshold cfg with
  | Some threshold =>
      if wss_stable_cycles cfg =? 0 then mret (Some false)
      else
        available ← follow_stability threshold rdt_measurements curr_referenced;
        if available : bool then r ← stable_period curr_referenced; mret (Some r) else mret None
  | None => mret (Some false)
  end.

(** src/wca/wss.py:228-232 [WSS.get_measurements], the cyclic reset *)
Definition cyclic_reset (cycle : Z) : bool :=
  match wss_reset_cycles cfg with
  | Some n => (n >? 0) && (cycle mod n =? 0)
  | None => false
  end.

(** src/wca/wss.py:234-246 [WSS.get_measurements], the reset *)
Definition reset_references (pids : list string) : M wss_state unit :=
  rstart ← on_machine now;
  _ ← on_machine (clear_refs pids);
  rend ← on_machine now;
  s ← self;
  overhead ← lift (nadd (overhead_seconds s) (PFloat (fsub rend rstart)));
  _ ← update (set_overhead overhead);
  _ ← update (λ s, set_prev None (prev_membw_counter s) (set_counter 0 s));
  t ← on_machine now;
  update (set_started_cycle t).

(** src/wca/wss.py:161-176 [WSS.get_measurements], measuring *)
Definition measure_referenced : M wss_state (list string * Z) :=
  _ ← update (λ s, set_cycle (cycle s + 1) s);
  pids ← on_machine discover_pids;
  rstart ← on_machine now;
  curr_referenced ← on_machine (get_referenced pids);
  rend ← on_machine now;
  s ← self;
  overhead ← lift (nadd (overhead_seconds s) (PFloat (fsub rend rstart)));
  _ ← update (set_overhead overhead);
  t ← on_machine now;
  _ ← lift (ndiv overhead (PFloat (fsub t (started_total s))));
  _ ← on_machine now;
  mret (pids, curr_referenced).

(** src/wca/wss.py:159-248 [WSS.get_measurements] *)
Definition wss_get_measurements (rdt_measurements : measurements) : M wss_state measurements :=
  pr ← measure_referenced;
  let '(pids, curr_referenced) := pr in
  s ← self;
  let ms := [(MetricName.TASK_WSS_REFERENCED_BYTES, MNum (PInt curr_referenced));
             (MetricName.TASK_WSS_MEASURE_OVERHEAD_SECONDS, MNum (overhead_seconds s))] in
  should_reset ← stability rdt_measurements curr_referenced;
  match should_reset with
  | None => mret ms
  | Some should_reset =>
      s ← self;
      let ms := match wss_membw_threshold cfg, last_stable_wss s with
                | Some _, Some wss =>
                    if wss_stable_cycles cfg =? 0 then ms
                    else dset ms MetricName.TASK_WORKING_SET_SIZE_BYTES (MNum wss)
                | _, _ => ms
                end in
      _ ← (if should_reset || cyclic_reset (cycle s) then reset_references pids else mret tt
           : M wss_state unit);
      mret ms
  end.
End wss.

(** ** The stability counter *)
Section wss_spec.
  Context {W : Type} `{FileSystem W}.
  Context (now : M W float) (get_pids : bool → M W (list string)).
  Context (set_order : list string → list string) (cfg : WSSConfig).

(** The counter stays between 0 and one above the number of stable cycles, and the
    first stable value is known while it is positive. *)
Definition wss_ok (s : WSS) : Prop :=
  0 ≤ stable_cycles_counter s ≤ Z.abs (wss_stable_cycles cfg) + 1 ∧
  (0 < stable_cycles_counter s → is_Some (first_stable_referenced s)).

(** The object has [P] after if it had it before, whether the code returns or raises. *)
Definition still (P : WSS → Prop) : relation (wss_state (W := W)) := stable (λ st, P st.1).
#[local] Instance still_preorder P : PreOrder (still P) := stable_preorder _.

Lemma still_machine P {A} (m : M W A) : within (still P) (on_machine m).
Proof. intros [s w] Hst. unfold on_machine. simpl in *. by destruct (m w). Qed.
Lemma still_update P f : (∀ s, P s → P (f s)) → within (still P) (update f).
Proof. intros Hf [s w] Hs. by apply Hf. Qed.

(** Reading the object and going on. *)
Lemma still_self P {A} (f : WSS → M wss_state A) :
  (∀ s w, P s → P (f s (s, w)).2.1) → within (still P) (self ≫= f).
Proof. intros Hf [s w] Hs. by apply Hf. Qed.

Lemma still_read P : within (still P) self.
Proof. by intros st. Qed.

Hint Resolve still_machine still_read : wca.

Lemma check_stability_ok cm cr r m t s w :
  stable_cycles_counter s < Z.abs (wss_stable_cycles cfg) → wss_ok s →
  wss_ok (check_stability now cfg cm cr r m t (s, w)).2.1.
Proof.
  intros Hlt [Hc Hf]. unfold check_stability, mbind, M_bind, lift, self, update, on_machine.
  destruct (num_binop nsub cm m) as [d|]; [|done].
  destruct (match d with MNum n => to_float n | _ => Raise TypeError end) as [md|]; [|done].
  destruct (float_of_Z (cr - r)) as [rd|]; [|done]. destruct (nmul (PFloat md) t) as [mt|]; [|done].
  destruct (counted_growth rd cr) as [[g|]|]; [| |done].
  - cbn [fst snd]. destruct (nltb g mt); [destruct (stable_cycles_counter s =? 0) eqn:E|]; simpl;
      destruct (now w) as [[?|?] w']; simpl; try destruct (wss_interval cfg =? 0);
      unfold wss_ok; simpl; to_prop; split; try lia; intros; try done; apply Hf; lia.
  - simpl. destruct (now w) as [[?|?] w']; simpl; try destruct (wss_interval cfg =? 0);
      unfold wss_ok; simpl; split; lia.
Qed.

Lemma follow_stability_ok t rdt cr : within (still wss_ok) (follow_stability now cfg t rdt cr).
Proof.
  unfold follow_stability. destruct (dget rdt _) as [cm|]; [|within].
  apply still_self. intros s w Hs.
  assert (Hkeep : within (still wss_ok) (_ ← update (set_prev (Some cr) (Some cm)); mret true)).
  { within. }
  destruct (prev_referenced s) as [r|], (prev_membw_counter s) as [m|]; try by apply Hkeep.
  destruct (stable_cycles_counter s <? Z.abs (wss_stable_cycles cfg)) eqn:E; [|by apply Hkeep].
  to_prop. pose proof (check_stability_ok cm cr r m t s w E Hs) as Hck.
  unfold mbind at 1, M_bind at 1. destruct (check_stability _ _ _ _ _ _ _ _) as [[?|?] st']; [|done].
  by apply Hkeep.
Qed.

Lemma stable_period_ok cr : wss_stable_cycles cfg ≠ 0 → within (still wss_ok) (stable_period cfg cr).
Proof.
  intros Hn. apply still_self. intros s w [Hc Hf].
  destruct (stable_cycles_counter s =? Z.abs (wss_stable_cycles cfg)) eqn:E; [|done]. to_prop.
  destruct Hf as [first Hfirst]; [lia|]. unfold mbind, M_bind, lift, update. rewrite Hfirst. simpl.
  destruct (first_wss s); simpl; [|destruct (int_div (first + cr) 2); simpl]; unfold wss_ok; simpl;
    rewrite ?Hfirst; split; try lia; intros; by eexists.
Qed.

Lemma measure_referenced_ok : within (still wss_ok) (measure_referenced now get_pids set_order).
Proof. unfold measure_referenced. within; by apply still_update. Qed.

Lemma reset_references_ok pids : within (still wss_ok) (reset_references now pids).
Proof.
  unfold reset_references. within; apply still_update; intros s [Hc Hf]; unfold wss_ok; simpl;
    (split; [lia|done || lia]).
Qed.

(** Whatever a measurement of the working set meets (missing
    processes, a missing bandwidth, any exception), the counter of stable cycles
    stays between 0 and one above the configured number, and a first stable value
    is known whenever the counter is positive. *)
Theorem wss_counter_bounded rdts (s : WSS) (w : W) :
  wss_ok s →
  wss_ok (foldl (λ st rdt, (wss_get_measurements now get_pids set_order cfg rdt st).2) (s, w) rdts).1.
Proof.
  intros Hs. change s with (s, w).1 in Hs. revert Hs. generalize (s, w).
  induction rdts as [|rdt rdts IH]; intros st Hst; [done|]. cbn [foldl]. apply IH.
  cut (within (still wss_ok) (wss_get_measurements now get_pids set_order cfg rdt)); [intros Hk; by apply Hk|].
  unfold wss_get_measurements, stability. within;
    try (apply measure_referenced_ok || apply reset_references_ok || apply follow_stability_ok).
  apply stable_period_ok. by to_prop.
Qed.
(** ** What is reported *)

Lemma self_Ok (st st' : wss_state (W := W)) x : self st = (Ok x, st') ↔ x = st.1 ∧ st' = st.
Proof. unfold self. naive_solver. Qed.
Lemma update_Ok f (st st' : wss_state (W := W)) u :
  update f st = (Ok u, st') ↔ st' = (f st.1, st.2).
Proof. unfold update. destruct u. naive_solver. Qed.
Lemma on_machine_Ok {A} (m : M W A) (st st' : wss_state (W := W)) a :
  on_machine m st = (Ok a, st') ↔ ∃ w', m st.2 = (Ok a, w') ∧ st' = (st.1, w').
Proof. unfold on_machine. destruct (m st.2) as [r w']. naive_solver. Qed.

Ltac inv_wss :=
  repeat (match goal with
  | H : self _ = (Ok _, _) |- _ => apply self_Ok in H as [? ?]
  | H : update _ _ = (Ok _, _) |- _ => apply update_Ok in H
  | H : on_machine _ _ = (Ok _, _) |- _ => apply on_machine_Ok in H as (? & ? & ?)
  end || (progress inv_M)); subst; cbn [fst snd] in *.

(** *** The stability check as a function

    What the object remembers: the counter, the first value of the stable period, the working
    set size, whether no period has ended yet, and the values of the cycle before. *)
Definition stability_state : Type := Z * option Z * option num * bool * option Z * option mval.
Definition stability_of (s : WSS) : stability_state :=
  (stable_cycles_counter s, first_stable_referenced s, last_stable_wss s, first_wss s,
   prev_referenced s, prev_membw_counter s).

(** Both settings of the check are given. *)
Definition followed : option num := if wss_stable_cycles cfg =? 0 then None else wss_membw_threshold cfg.

(** A cycle is stable when the referenced bytes went down by less than 2%, or grew by less than
    the threshold's part of the bytes that moved through the memory. *)
Definition stable_cycle (threshold : num) (curr prev : Z) (membw prev_membw : mval) : result bool :=
  d ← num_binop nsub membw prev_membw;
  moved ← match d with MNum n => to_float n | _ => Raise TypeError end;
  delta ← float_of_Z (curr - prev);
  limit ← nmul (PFloat moved) threshold;
  growth ← counted_growth delta curr;
  Ok match growth with Some g => nltb g limit | None => false end.

(** The counter and the first value after the check of one cycle: there is one while both values
    of the cycle before are known and the period has not ended. *)
Definition checked (threshold : num) (curr : Z) (membw : mval) (s : WSS) : result (Z * option Z) :=
  let counter := stable_cycles_counter s in
  match prev_referenced s, prev_membw_counter s with
  | Some prev, Some prev_membw =>
      if counter <? Z.abs (wss_stable_cycles cfg) then
        stable ← stable_cycle threshold curr prev membw prev_membw;
        Ok (if stable : bool
            then (counter + 1, if counter =? 0 then Some curr else first_stable_referenced s)
            else (0, first_stable_referenced s))
      else Ok (counter, first_stable_referenced s)
  | _, _ => Ok (counter, first_stable_referenced s)
  end.

(** After a reset of the references the check starts again. *)
Definition restarted (reset : bool) (st : stability_state) : stability_state :=
  let '(counter, first, last, first_wss, prev, prev_membw) := st in
  if reset then (0, first, last, first_wss, None, prev_membw) else st.

(** What is remembered after a cycle with [curr] referenced bytes: a period ends in the cycle
    that brings the counter to the number of stable cycles, and only there the working set size
    becomes the mean of the first and the last value, unless it is the first period. *)
Definition next_stability (rdt : measurements) (curr : Z) (cyclic : bool) (s : WSS) : result stability_state :=
  match followed, dget rdt MetricName.TASK_MEM_BANDWIDTH_BYTES with
  | None, _ => Ok (restarted cyclic (stability_of s))
  | Some _, None => Ok (stability_of s)
  | Some threshold, Some membw =>
      '(counter, first) ← checked threshold curr membw s;
      if counter =? Z.abs (wss_stable_cycles cfg) then
        last ← (if first_wss s then Ok (last_stable_wss s)
                else f ← or_raise TypeError first; mean ← ndiv (PInt (f + curr)) (PInt 2); Ok (Some mean));
        let reset := (bool_decide (wss_reset_cycles cfg = Some 0) && (wss_stable_cycles cfg >? 0)) || cyclic in
        Ok (restarted reset (counter + 1, first, last, false, Some curr, Some membw))
      else Ok (restarted cyclic (counter, first, last_stable_wss s, first_wss s, Some curr, Some membw))
  end.

Lemma bind_run_Ok {A B} (m : result A) (f : A → result B) a : m = Ok a → m ≫= f = f a.
Proof. by intros ->. Qed.

(** The rest of the object stays. *)
Definition same_cycle (s s' : WSS) : Prop :=
  cycle s' = cycle s ∧ overhead_seconds s' = overhead_seconds s.

Lemma check_stability_spec cm cr r m t s (w : W) u s' w' :
  check_stability now cfg cm cr r m t (s, w) = (Ok u, (s', w')) →
  ∃ stable, stable_cycle t cr r cm m = Ok stable ∧ same_cycle s s' ∧
    stability_of s' =
      (if stable : bool
       then (stable_cycles_counter s + 1,
             if stable_cycles_counter s =? 0 then Some cr else first_stable_referenced s)
       else (0, first_stable_referenced s), last_stable_wss s, first_wss s, prev_referenced s, prev_membw_counter s).
Proof.
  unfold check_stability, stable_cycle, stability_of, same_cycle. intros Hc.
  apply M_bind_Ok_iff in Hc as (d & st & [Hd ->]%lift_Ok_iff & Hc). rewrite (bind_run_Ok _ _ _ Hd).
  apply M_bind_Ok_iff in Hc as (moved & st & [Hm ->]%lift_Ok_iff & Hc). rewrite (bind_run_Ok _ _ _ Hm).
  apply M_bind_Ok_iff in Hc as (delta & st & [Hde ->]%lift_Ok_iff & Hc). rewrite (bind_run_Ok _ _ _ Hde).
  apply M_bind_Ok_iff in Hc as (limit & st & [Hl ->]%lift_Ok_iff & Hc). rewrite (bind_run_Ok _ _ _ Hl).
  apply M_bind_Ok_iff in Hc as (growth & st & [Hg ->]%lift_Ok_iff & Hc). rewrite (bind_run_Ok _ _ _ Hg).
  eexists. split; [done|]. inv_wss.
  match goal with Hif : (if wss_interval cfg =? 0 then _ else _) _ = _ |- _ => rename Hif into Hend end.
  destruct (wss_interval cfg =? 0); inv_wss; simplify_eq.
  destruct growth as [g|]; [destruct (nltb g limit)|]; inv_wss; simplify_eq; try done.
  destruct (stable_cycles_counter s =? 0) eqn:E; inv_wss; simplify_eq; cbn; rewrite ?E; done.
Qed.

Lemma follow_stability_spec t rdt cr s (w : W) b s' w' :
  follow_stability now cfg t rdt cr (s, w) = (Ok b, (s', w')) →
  b = dmem rdt MetricName.TASK_MEM_BANDWIDTH_BYTES ∧ same_cycle s s' ∧
  match dget rdt MetricName.TASK_MEM_BANDWIDTH_BYTES with
  | Some cm => ∃ cf, checked t cr cm s = Ok cf ∧
                 stability_of s' = (cf, last_stable_wss s, first_wss s, Some cr, Some cm)
  | None => stability_of s' = stability_of s
  end.
Proof.
  unfold follow_stability, dmem, checked. intros Hf. destruct (dget rdt _) as [cm|]; [|by inv_wss; simplify_eq].
  apply M_bind_Ok_iff in Hf as (s1 & st & Hself & Hf). apply self_Ok in Hself as [-> ->]. cbn [fst] in Hf.
  apply M_bind_Ok_iff in Hf as (u & [s2 w2] & Hcheck & Hf).
  assert (Hs' : s' = set_prev (Some cr) (Some cm) s2 ∧ b = true) by (inv_wss; by simplify_eq).
  destruct Hs' as [-> ->]. clear Hf. split; [done|].
  assert (Hno : (mret tt : M (wss_state (W := W)) unit) (s, w) = (Ok u, (s2, w2)) →
    same_cycle s (set_prev (Some cr) (Some cm) s2) ∧
    ∃ cf, Ok (stable_cycles_counter s, first_stable_referenced s) = Ok cf ∧
      stability_of (set_prev (Some cr) (Some cm) s2) = (cf, last_stable_wss s, first_wss s, Some cr, Some cm)).
  { intros [_ [= -> ->]]%M_ret_Ok_iff. split; [done|]. by eexists. }
  destruct (prev_referenced s) as [r|]; [|by apply Hno]. destruct (prev_membw_counter s) as [m|]; [|by apply Hno].
  destruct (_ <? _); [|by apply Hno].
  apply check_stability_spec in Hcheck as (stable & -> & [Hcy Ho] & Hst). split; [by split|].
  cbn [mbind result_bind]. eexists. split; [done|]. unfold stability_of in *. cbn. by destruct stable; simplify_eq; cbn; congruence.
Qed.

Lemma stable_period_spec cr s (w : W) b s' w' :
  stable_period cfg cr (s, w) = (Ok b, (s', w')) →
  same_cycle s s' ∧
  (if stable_cycles_counter s =? Z.abs (wss_stable_cycles cfg)
   then b = bool_decide (wss_reset_cycles cfg = Some 0) && (wss_stable_cycles cfg >? 0) ∧
     ∃ last, (if first_wss s then Ok (last_stable_wss s)
              else f ← or_raise TypeError (first_stable_referenced s);
                   mean ← ndiv (PInt (f + cr)) (PInt 2); Ok (Some mean)) = Ok last ∧
       stability_of s' = (stable_cycles_counter s + 1, first_stable_referenced s, last, false,
                          prev_referenced s, prev_membw_counter s)
   else b = false ∧ s' = s).
Proof.
  unfold stable_period. intros Hs.
  apply M_bind_Ok_iff in Hs as (s1 & st & Hself & Hs). apply self_Ok in Hself as [-> ->]. cbn [fst] in Hs.
  destruct (_ =? _); [|by inv_wss; simplify_eq].
  apply M_bind_Ok_iff in Hs as (first & st & [Hf ->]%lift_Ok_iff & Hs). rewrite (bind_run_Ok _ _ _ Hf).
  destruct (first_wss s) eqn:Efw; inv_wss; simplify_eq.
  - split; [done|]. split; [done|]. eexists. by split.
  - split; [done|]. split; [done|]. eexists. split.
    + match goal with Hd : ndiv _ _ = Ok _ |- _ => by rewrite (bind_run_Ok _ _ _ Hd) end.
    + unfold stability_of. cbn. by rewrite Efw.
Qed.

Lemma stability_spec rdt cr s (w : W) r s' w' :
  stability now cfg rdt cr (s, w) = (Ok r, (s', w')) →
  same_cycle s s' ∧
  match r with
  | None => is_Some followed ∧ dget rdt MetricName.TASK_MEM_BANDWIDTH_BYTES = None ∧ stability_of s' = stability_of s
  | Some reset => (followed = None ∨ dmem rdt MetricName.TASK_MEM_BANDWIDTH_BYTES = true) ∧
      ∀ cyclic st, restarted (reset || cyclic) (stability_of s') = st →
        next_stability rdt cr cyclic s = Ok st
  end.
Proof.
  unfold stability, next_stability, followed. intros Hs.
  destruct (wss_membw_threshold cfg) as [t|].
  2:{ inv_wss. simplify_eq. split; [done|]. destruct (_ =? 0); (split; [by left|]); by intros ? ? <-. }
  destruct (wss_stable_cycles cfg =? 0).
  { inv_wss. simplify_eq. split; [done|]. split; [by left|]. by intros ? ? <-. }
  apply M_bind_Ok_iff in Hs as (b & [s1 w1] & Hfollow & Hs).
  apply follow_stability_spec in Hfollow as (-> & [Hc1 Ho1] & Hst). unfold dmem in Hs |- *.
  destruct (dget rdt _) as [cm|]; [|inv_wss; simplify_eq; split; [by split|]; split; [by eexists|]; split; [done|]; unfold stability_of in *; congruence].
  destruct Hst as ([counter first] & Hcheck & Hst).
  apply M_bind_Ok_iff in Hs as (b & [s2 w2] & Hsp & Hs). apply M_ret_Ok_iff in Hs as [<- [= -> ->]].
  apply stable_period_spec in Hsp as [[Hc2 Ho2] Hsp]. split; [split; congruence|]. split; [by right|].
  unfold stability_of in Hst. injection Hst as Ecounter Efirst Elast Efw Eprev Emembw.
  rewrite Ecounter in Hsp. intros cyclic st Hst. rewrite (bind_run_Ok _ _ _ Hcheck).
  destruct (counter =? _).
  - destruct Hsp as (-> & last & Hlast & Hs2). rewrite Efw, Efirst, Elast in Hlast.
    rewrite (bind_run_Ok _ _ _ Hlast). rewrite Hs2, Efirst, Eprev, Emembw in Hst. cbv zeta. by rewrite <-Hst.
  - destruct Hsp as [-> ->]. unfold stability_of in Hst.
    rewrite Ecounter, Efirst, Elast, Efw, Eprev, Emembw in Hst. by rewrite <-Hst.
Qed.

(** The pids, and then the referenced bytes of these pids, are read from the machine. *)
Definition referenced_now (w : W) (pids : list string) (curr : Z) : Prop :=
  ∃ wa t wb wc, discover_pids get_pids set_order w = (Ok pids, wa) ∧ now wa = (Ok t, wb) ∧
    get_referenced pids wb = (Ok curr, wc).

(** C26 (functional): a successful measurement counts one cycle and reports the bytes its
    processes have referenced, as it has just read them; the working set size it reports is
    the remembered one (nothing when the check is not configured or the bandwidth is missing).
    What is remembered afterwards is given by [next_stability]: the counter grows with every
    stable cycle and is 0 after an unstable one; a stable period ends in the cycle in which
    the counter comes to the configured number, and only there, and not in the first period,
    the working set size changes, to the mean of the period's first and last referenced bytes;
    a reset (at the end of a period, or a cyclic one that is due) starts the check again. *)
Theorem wss_reports_last_mean rdt s w ms s' w' :
  wss_get_measurements now get_pids set_order cfg rdt (s, w) = (Ok ms, (s', w')) →
  ∃ pids curr, referenced_now w pids curr ∧
    dget ms MetricName.TASK_WSS_REFERENCED_BYTES = Some (MNum (PInt curr)) ∧
    cycle s' = cycle s + 1 ∧
    dget ms MetricName.TASK_WORKING_SET_SIZE_BYTES =
      (if bool_decide (is_Some followed) && dmem rdt MetricName.TASK_MEM_BANDWIDTH_BYTES
       then MNum <$> last_stable_wss s' else None) ∧
    next_stability rdt curr (cyclic_reset cfg (cycle s')) s = Ok (stability_of s').
Proof.
  unfold wss_get_measurements. intros Hm.
  apply M_bind_Ok_iff in Hm as ([pids cr] & [s1 w1] & Hmeas & Hm). exists pids, cr.
  assert (Hs1 : cycle s1 = cycle s + 1 ∧ stability_of s1 = stability_of s ∧ referenced_now w pids cr).
  { unfold measure_referenced in Hmeas. inv_wss. simplify_eq. split; [done|]. split; [done|].
    by eexists _, _, _, _. }
  destruct Hs1 as (Hc1 & Hst1 & Href). split; [done|].
  assert (Hnext : ∀ cyclic, next_stability rdt cr cyclic s1 = next_stability rdt cr cyclic s).
  { intros cyclic. pose proof Hst1 as Hst1'. unfold stability_of in Hst1.
    unfold next_stability, checked. rewrite Hst1'. injection Hst1 as E1 E2 E3 E4 E5 E6. by rewrite E1, E2, E3, E4, E5, E6. }
  apply M_bind_Ok_iff in Hm as (s1' & st & Hself & Hm). apply self_Ok in Hself as [-> ->].
  apply M_bind_Ok_iff in Hm as (r & [s2 w2] & Hstab & Hm). cbn [fst snd] in *.
  apply stability_spec in Hstab as [[Hc2 _] Hr]. destruct r as [should_reset|].
  - destruct Hr as [Hav Hr].
    apply M_bind_Ok_iff in Hm as (s2' & st & Hself & Hm). apply self_Ok in Hself as [-> ->].
    cbn [fst snd] in *. apply M_bind_Ok_iff in Hm as ([] & [s3 w3] & Hreset & Hm).
    apply M_ret_Ok_iff in Hm as [<- [= -> ->]].
    assert (H3 : cycle s3 = cycle s2 ∧
                 restarted (should_reset || cyclic_reset cfg (cycle s2)) (stability_of s2) = stability_of s3).
    { destruct (should_reset || cyclic_reset cfg (cycle s2)).
      - unfold reset_references in Hreset. inv_wss. by simplify_eq.
      - inv_wss. by simplify_eq. }
    destruct H3 as [Hc3 Hst3]. rewrite <-Hnext, Hc3.
    split_and!; [| congruence | |by apply Hr].
    + destruct (wss_membw_threshold cfg), (last_stable_wss s2), (wss_stable_cycles cfg =? 0); done.
    + assert (Hl : last_stable_wss s3 = last_stable_wss s2).
      { revert Hst3. unfold stability_of. by destruct (_ || _); cbn; intros [= _ _ -> _ _ _]. }
      rewrite Hl. revert Hav. unfold followed.
      destruct (wss_membw_threshold cfg), (wss_stable_cycles cfg =? 0), (last_stable_wss s2);
        (intros [Hf|Hd]; [done|try rewrite Hd]; done).
  - apply M_ret_Ok_iff in Hm as [<- [= -> ->]]. destruct Hr as ([t Ht] & Hd & Hst2).
    split_and!; [done|congruence| |].
    + unfold dmem. by rewrite Hd, andb_false_r.
    + unfold next_stability. by rewrite Ht, Hd, Hst2, Hst1.
Qed.
End wss_spec.

(** ** A concrete task *)
Definition example_proc : memfs :=
  mkMem {[ "/proc/7/smaps" := "Referenced:            4 kB" ; "/proc/7/clear_refs" := "" ]}
        {[ "/proc"; "/proc/7" ]}.
Definition example_now : M memfs float := mret (float_of_ratio 10 1).
Definition example_pids (_ : bool) : M memfs (list string) := mret ["7"].
Definition example_wss_cfg : WSSConfig :=
  mkWSSConfig 5 (Some 2) 1 (Some (PFloat (float_of_ratio 1 10))).
Definition example_wss : WSS :=
  mkWSS (PInt 0) 1 (Some 4000) (Some (MNum (PInt 0))) fzero fzero 0 None None false.
Definition example_rdt : measurements :=
  [(MetricName.TASK_MEM_BANDWIDTH_BYTES, MNum (PInt 1000000000))].

Lemma wss_counter_bounded_witness :
  wss_ok example_wss_cfg
    (foldl (λ st rdt, (wss_get_measurements example_now example_pids id example_wss_cfg rdt st).2)
       (example_wss, example_proc) [example_rdt; []]).1.
Proof.
  apply (wss_counter_bounded example_now example_pids id example_wss_cfg [example_rdt; []]
           example_wss example_proc).
  split; [simpl; lia|simpl; lia].
Defined.

Lemma wss_reports_last_mean_witness :
  let o := wss_get_measurements example_now example_pids id example_wss_cfg example_rdt
             (example_wss, example_proc) in
  let ms := result_get [] o.1 in
  let s' := o.2.1 in
  last_stable_wss s' = Some (PFloat (float_of_ratio 4000 1)) ∧
  ∃ pids curr, referenced_now example_now example_pids id example_proc pids curr ∧
    dget ms MetricName.TASK_WSS_REFERENCED_BYTES = Some (MNum (PInt curr)) ∧
    cycle s' = cycle example_wss + 1 ∧
    dget ms MetricName.TASK_WORKING_SET_SIZE_BYTES =
      (if bool_decide (is_Some (followed example_wss_cfg)) && dmem example_rdt MetricName.TASK_MEM_BANDWIDTH_BYTES
       then MNum <$> last_stable_wss s' else None) ∧
    next_stability example_wss_cfg example_rdt curr (cyclic_reset example_wss_cfg (cycle s')) example_wss =
      Ok (stability_of s').
Proof.
  intros o ms s'. split; [vm_compute; reflexivity|].
  apply (wss_reports_last_mean example_now example_pids id example_wss_cfg example_rdt
           example_wss example_proc ms s' o.2.2).
  unfold s'. rewrite <-surjective_pairing. apply outcome_Ok. vm_compute. reflexivity.
Defined.
