(* ===== verification/SysStats.v ===== *)
(** * Kernel statistics

    [src/wca/sched_stats.py], [src/wca/vmstats.py] and [src/wca/zoneinfo.py]: the
    parsers of [/proc/PID/sched], [vmstat] and [/proc/zoneinfo].  A compiled regular
    expression is a function: whether it matches at the start of a string, or the
    two groups it finds there. *)
From S2P Require Export PyFloat PyDict Metrics FileSys.

Definition matches : Type := string → bool.

(** [pattern is not None and not pattern.match(key)] *)
Definition skipped (pattern : option matches) (key : string) : bool :=
  match pattern with Some m => negb (m key) | None => false end.

(** ** sched *)

(** src/wca/sched_stats.py:42-48 [_parse_proc_sched], one field of [numa_faults] *)
Definition numa_fault_field (numa_node : string) (faults : dict string (dict string Z))
    (field : string) : result (dict string (dict string Z)) :=
  match split_on "=" field with
  | [field_type; raw] =>
      field_value ← py_int raw;
      Ok (dset faults numa_node (dset (default [] (dget faults numa_node)) field_type field_value))
  | _ => Raise ValueError
  end.

(** src/wca/sched_stats.py:30-50 [_parse_proc_sched], a line [numa_faults] *)
Definition numa_faults_line (faults : dict string (dict string Z)) (line : string)
    : result (dict string (dict string Z)) :=
  match words line with
  | [_; numa_node_raw; f1; f2; f3; f4] =>
      match split_on "=" numa_node_raw with
      | [numa_node_key; numa_node] =>
          _ ← py_assert (String.eqb numa_node_key "node");
          n ← py_int numa_node;
          foldM (numa_fault_field (str_of_Z n)) faults [f1; f2; f3; f4]
      | _ => Raise ValueError
      end
  | _ => Ok faults
  end.

(** [float(value)] of the text after the colon: a float with a dot, else an integer. *)
Definition sched_value (value_str : string) : result float :=
  let value_str := strip value_str in
  if str_contains "." value_str then py_float value_str
  else z ← py_int value_str; float_of_Z z.

(** src/wca/sched_stats.py:26-69 [_parse_proc_sched], one line *)
Definition sched_line (pattern : option matches)
    (acc : dict string float * dict string (dict string Z)) (line : string)
    : result (dict string float * dict string (dict string Z)) :=
  if str_contains "#threads" line then Ok acc
  else if startswith "numa_faults " line then
    faults ← numa_faults_line acc.2 line; Ok (acc.1, faults)
  else if negb (str_contains ":" line) then Ok acc
  else
    match split_on ":" line with
    | [key; value_str] =>
        let key := strip key in
        if skipped pattern key then Ok acc
        else value ← sched_value value_str; Ok (dset acc.1 key value, acc.2)
    | _ => Raise ValueError
    end.

Definition float_tree (d : dict string float) : mval :=
  MDict ((λ '(k, v), (KStr k, MNum (PFloat v))) <$> d).
Definition int_level (d : dict string Z) : mval := MDict ((λ '(k, v), (KStr k, MNum (PInt v))) <$> d).

Section files.
  Context {W : Type} `{FileSystem W}.

(** src/wca/sched_stats.py:20-71 [_parse_proc_sched] *)
Definition parse_proc_sched (sched_filename : string) (pattern : option matches)
    : M W (dict string float * dict string (dict string Z)) :=
  content ← read_file sched_filename;
  lift (foldM (sched_line pattern) ([], []) (readlines content)).

(** src/wca/sched_stats.py:74-79 [_get_pid_sched_measurements] *)
Definition get_pid_sched_measurements (pid : Z) (pattern : option matches) : M W measurements :=
  r ← parse_proc_sched ("/proc/" +:+ str_of_Z pid +:+ "/sched") pattern;
  mret [(MetricName.TASK_SCHED_STAT, float_tree r.1);
        (MetricName.TASK_SCHED_STAT_NUMA_FAULTS,
         MDict ((λ '(k, d), (KStr k, int_level d)) <$> r.2))].

(** src/wca/sched_stats.py:82-89 [get_pids_sched_measurements] *)
Definition get_pids_sched_measurements `{Metadata} (set_order : list string → list string) (pids : list Z)
    (pattern : option matches) : M W measurements :=
  ms ← foldMS (λ ms pid, m ← get_pid_sched_measurements pid pattern; mret (ms ++ [m])) [] pids;
  lift (merge_measurements set_order ms).

(** ** vmstat *)

(** src/wca/vmstats.py:22-31 [_parse_vmstat] *)
Definition parse_vmstat (vmstat_filename : string) (regexp : option matches) : M W (dict string Z) :=
  content ← read_file vmstat_filename;
  lift (foldM (λ ms line,
    match words line with
    | [key; value] => if skipped regexp key then Ok ms
                      else v ← py_int value; Ok (dset ms key v)
    | _ => Raise ValueError
    end) [] (readlines content)).

(** src/wca/vmstats.py:34-34 [BASE_SYSFS_NODES_PATH] *)
Definition BASE_SYSFS_NODES_PATH : string := "/sys/devices/system/node".

(** src/wca/vmstats.py:37-46 [parse_node_vmstat_keys] *)
Definition parse_node_vmstat_keys (regexp : option matches) : M W measurements :=
  dirs ← list_dir BASE_SYSFS_NODES_PATH;
  ms ← foldMS (λ ms nodedir,
         if startswith "node" nodedir then
           node_id ← lift (py_int (str_drop 4 nodedir));
           v ← parse_vmstat (path_join (path_join BASE_SYSFS_NODES_PATH nodedir) "vmstat") regexp;
           mret (dset ms (KInt node_id) (int_level v))
         else mret ms) [] dirs;
  mret [(MetricName.PLATFORM_NODE_VMSTAT, MDict ms)].

(** src/wca/vmstats.py:49-51 [parse_proc_vmstat_keys] *)
Definition parse_proc_vmstat_keys (regexp : option matches) : M W measurements :=
  v ← parse_vmstat "/proc/vmstat" regexp; mret [(MetricName.PLATFORM_VMSTAT, int_level v)].
End files.

(** ** zoneinfo *)

(** The variables of the loop; [None] is a variable that is not bound yet. *)
Record zone_state := mkZoneState {
  z_node : option string;
  z_zone : option string;
  z_prev_zone : option string;
  z_measurements : dict string (dict string (dict string float))
}.

Definition PER_NODE_STATS : string := "per-node-stats".

(** [m[node][zone][key] = value] with the dictionaries on the way created. *)
Definition zone_set (m : dict string (dict string (dict string float))) (node zone key : string)
    (value : float) : dict string (dict string (dict string float)) :=
  let zones := default [] (dget m node) in
  dset m node (dset zones zone (dset (default [] (dget zones zone)) key value)).

(** src/wca/zoneinfo.py:56-71 [get_zoneinfo_measurements], a line with a value *)
Definition zone_value_line (zoneinfo_regexp : string → option (string * string)) (s : zone_state)
    (line : string) : result zone_state :=
  match zoneinfo_regexp line with
  | None => Ok s
  | Some (key, text) =>
      match py_float text with
      | Raise ValueError => Ok s
      | Raise e => Raise e
      | Ok value =>
          node ← or_raise UnboundLocalError (z_node s);
          zone ← or_raise UnboundLocalError (z_zone s);
          Ok (mkZoneState (Some node) (Some zone) (z_prev_zone s)
                (zone_set (z_measurements s) node zone key value))
      end
  end.

Definition rstrip_comma (s : string) : string := rstrip_if (ascii_eqb ",") s.

(** src/wca/zoneinfo.py:36-71 [get_zoneinfo_measurements], one line *)
Definition zone_line (zoneinfo_regexp : string → option (string * string)) (s : zone_state)
    (line : string) : result zone_state :=
  if startswith "Node " line then
    let parts := words line in
    node ← or_raise IndexError (parts !! 1%nat);
    n ← py_int (rstrip_comma node);
    zone ← or_raise IndexError (parts !! 3%nat);
    Ok (mkZoneState (Some (str_of_Z n)) (Some (rstrip_comma zone)) (z_prev_zone s) (z_measurements s))
  else if startswith "  per-node stats" line then
    zone ← or_raise UnboundLocalError (z_zone s);
    Ok (mkZoneState (z_node s) (Some PER_NODE_STATS) (Some zone) (z_measurements s))
  else if startswith "  pages" line then
    let line := " " +:+ lstrip_chars "  pages" line in
    zone ← or_raise UnboundLocalError (z_zone s);
    zone ← (if String.eqb zone PER_NODE_STATS then or_raise AssertionError (z_prev_zone s)
            else Ok zone);
    zone_value_line zoneinfo_regexp
      (mkZoneState (z_node s) (Some zone) (z_prev_zone s) (z_measurements s)) line
  else zone_value_line zoneinfo_regexp s line.

(** src/wca/zoneinfo.py:24-73 [get_zoneinfo_measurements] *)
Definition get_zoneinfo_measurements {W} `{FileSystem W}
    (zoneinfo_regexp : string → option (string * string)) : M W measurements :=
  content ← read_file "/proc/zoneinfo";
  s ← lift (foldM (zone_line zoneinfo_regexp) (mkZoneState None None None []) (readlines content));
  mret [(MetricName.PLATFORM_ZONEINFO,
         MDict ((λ '(node, zones), (KStr node,
                   MDict ((λ '(zone, d), (KStr zone, float_tree d)) <$> zones))) <$> z_measurements s))].
