(* ===== verification/World.v ===== *)
(** * The state the allocation code works on

    The file system of the kernel, together with the [RDTGroups] objects that
    the allocation values of one iteration share: an [RDTAllocationValue] holds
    a reference into [w_rdt_groups], so two values that share an object see each
    other's updates. *)
From S2P Require Export FileSys PyNum Platforms Resctrl Cgroups.

(** The [migrate_pages] system call: pid, number of nodes plus one, the masks
    of old and new nodes; -1 on error. *)
Class Syscalls (F : Type) : Type :=
  sys_migrate_pages : Z → Z → Z → Z → M F Z.

(** src/wca/resctrl_allocations.py:35-38 [RDTGroups] *)
Record RDTGroups := mkRDTGroups {
  closids_limit : Z;
  already_executed_resgroup_names : gset string;
  existing_groups : gset string
}.

Record world (F : Type) := mkWorld { w_fs : F; w_rdt_groups : list RDTGroups }.
Arguments mkWorld {F} _ _.
Arguments w_fs {F} _.
Arguments w_rdt_groups {F} _.

(** Run an operation of the file system inside the world. *)
Definition on_fs {F A} (m : M F A) : M (world F) A :=
  λ w, let '(r, fs) := m (w_fs w) in (r, mkWorld fs (w_rdt_groups w)).

#[export] Instance world_fs {F} `{FileSystem F} : FileSystem (world F) := {
  fs_read path w := fs_read path (w_fs w);
  fs_listdir path w := fs_listdir path (w_fs w);
  fs_isdir path w := fs_isdir path (w_fs w);
  fs_exists path w := fs_exists path (w_fs w);
  fs_open_w path := on_fs (fs_open_w path);
  fs_append path data := on_fs (fs_append path data);
  fs_close path := on_fs (fs_close path);
  fs_makedirs path := on_fs (fs_makedirs path);
  fs_rmdir path := on_fs (fs_rmdir path)
}.

#[export] Instance world_syscalls {F} `{Syscalls F} : Syscalls (world F) :=
  λ pid n old new, on_fs (sys_migrate_pages pid n old new).

Lemma on_fs_write {F} `{FileSystem F} path data (w : world F) :
  fs_write path data w = on_fs (fs_write path data) w.
Proof.
  unfold fs_write, mbind, M_bind, on_fs. simpl. unfold on_fs.
  destruct (fs_open_w path (w_fs w)) as [[[]|] fs1]; simpl; [|done].
  destruct (fs_append path data fs1) as [[[]|] fs2]; simpl; [|done]. done.
Qed.

(** The control files of the kernel stay control files inside the world. *)
#[export] Instance world_control {F} `{FileSystem F} `{!ControlFiles F} : ControlFiles (world F).
Proof.
  split.
  - intros path data w w'. rewrite on_fs_write. unfold on_fs.
    destruct (fs_write path data (w_fs w)) as [r fs'] eqn:E. intros [= -> <-]. simpl.
    by eapply read_after_write.
  - intros path path' data w w' r. rewrite on_fs_write. unfold on_fs.
    destruct (fs_write path data (w_fs w)) as [r' fs'] eqn:E. intros [= -> <-] Hne. simpl.
    by eapply read_other.
Qed.
