(* ===== verification/ResctrlAllocations.v ===== *)
(** * RDT allocations

    [src/wca/resctrl_allocations.py]: parsing, validating and normalising the
    rows of a schemata file, and the allocation value that moves tasks between
    resource groups and writes their schemata. *)
From S2P Require Export World Allocations.

(** ** Rows of a schemata file *)

Definition str_true (s : option string) : bool :=
  match s with Some s => negb (String.eqb s "") | None => false end.

(** [a or b] on optional strings *)
Definition or_str (a b : option string) : option string := if str_true a then a else b.

(** [line[line.find(c) + 1:]] *)
Definition after_char (c : ascii) (line : string) : string :=
  match find_char c line with Some n => str_drop (S n) line | None => line end.

(** src/wca/resctrl_allocations.py:320-336 [_parse_schemata_file_row], one domain *)
Definition parse_domain (domains : dict string string) (domain_with_value : string)
    : result (dict string string) :=
  if String.eqb domain_with_value "" then Raise ValueError
  else match find_char "=" domain_with_value with
       | None => Raise ValueError
       | Some separator_position =>
           let domain_id := str_take separator_position domain_with_value in
           if String.eqb domain_id "" then Raise ValueError
           else
             let value := str_drop (S separator_position) domain_with_value in
             if String.eqb value "" then Raise ValueError
             else if dmem domains domain_id then Raise ValueError
             else Ok (dset domains domain_id value)
       end.

(** src/wca/resctrl_allocations.py:295-338 [_parse_schemata_file_row] *)
Definition parse_schemata_file_row (line : string) : result (dict string string) :=
  if String.eqb line "" then Ok []
  else foldM parse_domain [] (split_on ";" (after_char ":" line)).

(** src/wca/resctrl_allocations.py:350-351 [_is_equal] *)
Definition is_equal (first second : string) : bool :=
  String.eqb (lstrip_chars " 0" first) (lstrip_chars " 0" second).

(** src/wca/resctrl_allocations.py:341-364 [_is_rdt_suballocation_changed] *)
Definition is_rdt_suballocation_changed (current new : option string) : result bool :=
  match current, new with
  | _, None => Ok false
  | None, Some _ => Raise AssertionError
  | Some current, Some new =>
      current_domains ← parse_schemata_file_row current;
      new_domains ← parse_schemata_file_row new;
      _ ← py_assert (forallb (dmem current_domains) (dkeys new_domains));
      Ok (existsb (λ kv, match dget current_domains kv.1 with
                         | Some cv => negb (is_equal cv kv.2)
                         | None => false
                         end) new_domains)
  end.

(** src/wca/resctrl_allocations.py:367-377 [_validate_domains] *)
Definition validate_domains (domains : list string) (platform_sockets : Z) : result unit :=
  foldM (λ _ domain,
    match py_int domain with
    | Ok domain_int =>
        if (0 <=? domain_int) && (domain_int <? platform_sockets) then Ok tt
        else Raise InvalidAllocations
    | Raise ValueError => Raise InvalidAllocations
    | Raise e => Raise e
    end) tt domains.

(** src/wca/resctrl_allocations.py:455-467 [check_cbm_mask], one bit: number of
    ones, whether the series of ones has ended, and the previous bit. *)
Definition cbm_bit (st : Z * bool * bool) (bit : ascii) : result (Z * bool * bool) :=
  let '(number_of_cbm_bits, series_of_ones_finished, previous) := st in
  if ascii_eqb bit "1" then
    if series_of_ones_finished then Raise InvalidAllocations
    else Ok (number_of_cbm_bits + 1, series_of_ones_finished, true)
  else if ascii_eqb bit "0" then
    Ok (number_of_cbm_bits, series_of_ones_finished || previous, false)
  else Ok st.

(** src/wca/resctrl_allocations.py:444-472 [check_cbm_mask] *)
Definition check_cbm_mask (mask cbm_mask min_cbm_bits : string) : result unit :=
  mask ← py_int16 mask;
  cbm_mask ← py_int16 cbm_mask;
  if mask >? cbm_mask then Raise InvalidAllocations
  else
    st ← foldM cbm_bit (0, false, false) (String.list_ascii_of_string (format_b mask));
    let '(number_of_cbm_bits, _, _) := st in
    min_cbm_bits ← py_int min_cbm_bits;
    if number_of_cbm_bits <? min_cbm_bits then Raise InvalidAllocations else Ok tt.

(** src/wca/resctrl_allocations.py:380-392 [validate_l3_string] *)
Definition validate_l3_string (l3 : string) (platform_sockets : Z)
    (rdt_cbm_mask rdt_min_cbm_bits : option string) : result unit :=
  cbm ← or_raise AssertionError rdt_cbm_mask;
  min_bits ← or_raise AssertionError rdt_min_cbm_bits;
  if negb (startswith "L3:" l3) then Raise InvalidAllocations
  else
    domains ← parse_schemata_file_row l3;
    _ ← validate_domains (dkeys domains) platform_sockets;
    foldM (λ _ mask_value, check_cbm_mask mask_value cbm min_bits) tt (dvalues domains).

(** src/wca/resctrl_allocations.py:422-432 [_normalize_mb_value] *)
Definition normalize_mb_value (mb_value mb_min_bandwidth mb_bandwidth_gran : Z) : result Z :=
  if mb_value <? mb_min_bandwidth then Raise InvalidAllocations
  else if mb_bandwidth_gran >? 0 then
    q ← int_div mb_value mb_bandwidth_gran;
    c ← float_ceil q;
    Ok (c * mb_bandwidth_gran)
  else Ok mb_value.

(** The normalised value of one domain. *)
Definition normalize_domain (mb_min_bandwidth mb_bandwidth_gran : Z) (acc : string)
    (kv : string * string) : result string :=
  let '(domain, value) := kv in
  mb_value ← catch (py_int value)
               (λ e, match e with ValueError => Some (Raise InvalidAllocations) | _ => None end);
  normalized ← normalize_mb_value mb_value mb_min_bandwidth mb_bandwidth_gran;
  Ok (acc +:+ domain +:+ "=" +:+ str_of_Z normalized +:+ ";").

(** [s[:-1]] *)
Definition drop_last (s : string) : string := str_take (pred (String.length s)) s.

(** src/wca/resctrl_allocations.py:395-419 [normalize_mb_string] *)
Definition normalize_mb_string (mb : string) (platform_sockets : Z)
    (mb_min_bandwidth mb_bandwidth_gran : option Z) : result string :=
  mb_min ← or_raise AssertionError mb_min_bandwidth;
  gran ← or_raise AssertionError mb_bandwidth_gran;
  if negb (startswith "MB:" mb) then Raise InvalidAllocations
  else
    domains ← parse_schemata_file_row mb;
    _ ← validate_domains (dkeys domains) platform_sockets;
    s ← foldM (normalize_domain mb_min gran) "MB:" domains;
    Ok (drop_last s).

Fixpoint count_char (c : ascii) (s : string) : Z :=
  match s with
  | EmptyString => 0
  | String x s' => (if ascii_eqb x c then 1 else 0) + count_char c s'
  end.

(** src/wca/resctrl_allocations.py:435-441 [_count_enabled_bits] *)
Definition count_enabled_bits (hexstr : string) : result Z :=
  if String.eqb hexstr "" then Ok 0
  else value_int ← py_int16 hexstr; Ok (count_char "1" (format_b value_int)).

(** ** Groups shared by the values of one iteration *)
Section rdt_groups.
  Context {F : Type}.

Definition with_rdt_groups {A} (ref : nat) (f : RDTGroups → result A * RDTGroups)
    : M (world F) A :=
  λ w, match w_rdt_groups w !! ref with
       | Some g => let '(r, g') := f g in
                   (r, mkWorld (w_fs w) (<[ref := g']> (w_rdt_groups w)))
       | None => (Raise AttributeError, w)
       end.

(** src/wca/resctrl_allocations.py:40-47 [RDTGroups.should_perform_schemata_write] *)
Definition should_perform_schemata_write (ref : nat) (resgroup_name : string)
    : M (world F) bool :=
  with_rdt_groups ref (λ g,
    if bool_decide (resgroup_name ∈ already_executed_resgroup_names g) then (Ok false, g)
    else (Ok true, mkRDTGroups (closids_limit g)
                     ({[resgroup_name]} ∪ already_executed_resgroup_names g) (existing_groups g))).

(** src/wca/resctrl_allocations.py:49-54 [RDTGroups.validate] *)
Definition rdt_groups_validate (ref : nat) (resgroup_name : string) : M (world F) unit :=
  with_rdt_groups ref (λ g,
    let groups := {[resgroup_name]} ∪ existing_groups g in
    (if Z.of_nat (size groups) >? closids_limit g then Raise InvalidAllocations else Ok tt,
     mkRDTGroups (closids_limit g) (already_executed_resgroup_names g) groups)).
End rdt_groups.

(** ** The allocation value *)

(** src/wca/resctrl_allocations.py:57-79 [RDTAllocationValue] *)
Record RDTAllocationValue (F : Type) := mkRDTAllocationValue {
  rv_container_name : string;
  rv_allocation : RDTAllocation;
  rv_resgroup : ResGroup;
  rv_get_pids : M (world F) (list string);
  rv_platform_sockets : Z;
  rv_rdt_information : RDTInformation;
  rv_rdt_groups : nat;
  rv_common_labels : dict string string;
  rv_source_resgroup : option ResGroup
}.
Arguments mkRDTAllocationValue {F} _ _ _ _ _ _ _ _ _.
Arguments rv_container_name {F} _.
Arguments rv_allocation {F} _.
Arguments rv_resgroup {F} _.
Arguments rv_get_pids {F} _.
Arguments rv_platform_sockets {F} _.
Arguments rv_rdt_information {F} _.
Arguments rv_rdt_groups {F} _.
Arguments rv_common_labels {F} _.
Arguments rv_source_resgroup {F} _.

Section rdt_value.
  Context {F : Type} `{FileSystem F}.
  Implicit Types (self new current : RDTAllocationValue F).

(** src/wca/resctrl_allocations.py:84-96 [RDTAllocationValue._copy] *)
Definition rdt_copy self (a : RDTAllocation) (source_resgroup resgroup : option ResGroup)
    : RDTAllocationValue F :=
  mkRDTAllocationValue (rv_container_name self) a (default (rv_resgroup self) resgroup)
    (rv_get_pids self) (rv_platform_sockets self) (rv_rdt_information self)
    (rv_rdt_groups self) (rv_common_labels self) source_resgroup.

(** src/wca/resctrl_allocations.py:154-157 [RDTAllocationValue.get_resgroup_name] *)
Definition get_resgroup_name self : string :=
  default (rv_container_name self) (rdt_name (rv_allocation self)).

Definition rdt_metric self (name : string) (value : Z) (allocation_type domain_id : string)
    : Metric :=
  mkMetric name (MNum (PInt value))
    [("allocation_type", allocation_type); ("group_name", get_resgroup_name self);
     ("domain_id", domain_id); ("container_name", rv_container_name self)]
    None (Some GAUGE) None None.

(** src/wca/resctrl_allocations.py:112-133 [RDTAllocationValue.generate_metrics], L3 *)
Definition rdt_l3_metrics self (l3 : string) : result (list Metric) :=
  domains ← parse_schemata_file_row l3;
  foldM (λ metrics '(domain_id, raw_value),
    ways ← count_enabled_bits raw_value;
    mask ← py_int16 raw_value;
    Ok (metrics ++ [rdt_metric self "allocation_rdt_l3_cache_ways" ways "rdt_l3_cache_ways" domain_id;
                    rdt_metric self "allocation_rdt_l3_mask" mask "rdt_l3_mask" domain_id]))
    [] domains.

(** src/wca/resctrl_allocations.py:135-148 [RDTAllocationValue.generate_metrics], MB *)
Definition rdt_mb_metrics self (mb : string) : result (list Metric) :=
  domains ← parse_schemata_file_row mb;
  foldM (λ metrics '(domain_id, raw_value),
    value ← py_int raw_value;
    Ok (metrics ++ [rdt_metric self "allocation_rdt_mb" value "rdt_mb" domain_id]))
    [] domains.

(** src/wca/resctrl_allocations.py:98-152 [RDTAllocationValue.generate_metrics] *)
Definition rdt_generate_metrics self : result (list Metric) :=
  let a := rv_allocation self in
  l3 ← (if str_true (rdt_l3 a) then rdt_l3_metrics self (default "" (rdt_l3 a)) else Ok []);
  mb ← (if str_true (rdt_mb a) then rdt_mb_metrics self (default "" (rdt_mb a)) else Ok []);
  Ok (update_labels (rv_common_labels self) (l3 ++ mb)).

(** src/wca/resctrl_allocations.py:159-235 [RDTAllocationValue.calculate_changeset] *)
Definition rdt_calculate_changeset new (current : option (RDTAllocationValue F))
    : result (RDTAllocationValue F * option (RDTAllocationValue F)) :=
  let new_group_name := get_resgroup_name new in
  let move_from source :=
    (new, Some (rdt_copy new (rv_allocation new) (Some (mkResGroup source))
                  (Some (mkResGroup new_group_name)))) in
  match current with
  | None => Ok (move_from "")
  | Some current =>
      let current_group_name := get_resgroup_name current in
      if negb (String.eqb current_group_name new_group_name) then Ok (move_from current_group_name)
      else
        let na := rv_allocation new in
        let ca := rv_allocation current in
        let target := rdt_copy current
          (mkRDTAllocation (rdt_name ca) (or_str (rdt_l3 na) (rdt_l3 ca))
             (or_str (rdt_mb na) (rdt_mb ca))) None None in
        l3_changed ← is_rdt_suballocation_changed (rdt_l3 ca) (rdt_l3 na);
        let new_l3 := if l3_changed : bool then rdt_l3 na else None in
        mb_changed ← is_rdt_suballocation_changed (rdt_mb ca) (rdt_mb na);
        let new_mb := if mb_changed : bool then rdt_mb na else None in
        if str_true new_l3 || str_true new_mb then
          Ok (target, Some (rdt_copy current (mkRDTAllocation (rdt_name na) new_l3 new_mb) None None))
        else Ok (target, None)
  end.

(** src/wca/resctrl_allocations.py:237-260 [RDTAllocationValue.validate]
    The result of [replace(self.rdt_allocation, mb=...)] is not kept. *)
Definition rdt_validate self : M (world F) unit :=
  let a := rv_allocation self in
  let info := rv_rdt_information self in
  _ ← lift (if str_true (rdt_l3 a) then
              if negb (rdt_cache_control_enabled info) then Raise InvalidAllocations
              else validate_l3_string (default "" (rdt_l3 a)) (rv_platform_sockets self)
                     (cbm_mask info) (min_cbm_bits info)
            else Ok tt);
  _ ← lift (if str_true (rdt_mb a) then
              if negb (rdt_mb_control_enabled info) then Raise InvalidAllocations
              else _ ← normalize_mb_string (default "" (rdt_mb a)) (rv_platform_sockets self)
                         (mb_min_bandwidth info) (mb_bandwidth_gran info); Ok tt
            else Ok tt);
  rdt_groups_validate (rv_rdt_groups self) (get_resgroup_name self).

(** src/wca/resctrl_allocations.py:262-292 [RDTAllocationValue.perform_allocations] *)
Definition rdt_perform_allocations self : M (world F) unit :=
  _ ← match rv_source_resgroup self with
      | Some source =>
          pids ← rv_get_pids self;
          _ ← add_pids (rv_resgroup self) pids (rv_container_name self);
          groups ← get_mon_groups source;
          if Nat.eqb (length groups) 1 then resgroup_remove source (rv_container_name self)
          else mret tt
      | None => mret tt
      end : M (world F) unit;
  write ← should_perform_schemata_write (rv_rdt_groups self) (get_resgroup_name self);
  if write : bool then
    let a := rv_allocation self in
    let info := rv_rdt_information self in
    let lines :=
      (if str_true (rdt_l3 a) && rdt_cache_control_enabled info then [default "" (rdt_l3 a)] else [])
      ++ (if str_true (rdt_mb a) && rdt_mb_control_enabled info then [default "" (rdt_mb a)] else []) in
    match lines with
    | [] => mret tt
    | _ => write_schemata (rv_resgroup self) lines
    end
  else mret tt.
End rdt_value.

(** ** Properties: capacity masks *)

(** A mask is one block of [n] ones followed by [lo] zeros. *)
Definition cbm_block (m n lo : Z) : Prop := 0 < n ∧ 0 ≤ lo ∧ m = Z.ones n * 2 ^ lo.

Definition scan_bits (m : Z) : result (Z * bool * bool) :=
  foldM cbm_bit (0, false, false) (String.list_ascii_of_string (digits 2 m)).

Lemma scan_bits_step m b : 0 < m → b = 0 ∨ b = 1 →
  scan_bits (2 * m + b) = st ← scan_bits m; cbm_bit st (digit_char b).
Proof.
  intros Hm Hb. unfold scan_bits. rewrite digits2_step by done.
  rewrite list_ascii_app, foldM_app. simpl.
  destruct (foldM _ _ _); simpl; [|done]. by destruct (cbm_bit _ _).
Qed.

Lemma ones_succ n : 0 < n → Z.ones n = 2 * Z.ones (n - 1) + 1.
Proof.
  intros Hn. rewrite !Z.ones_equiv. rewrite <-(Z.succ_pred n) at 1.
  rewrite Z.pow_succ_r by lia. replace (n - 1) with (Z.pred n) by lia. lia.
Qed.

Lemma cbm_block_odd m n lo : 0 < m → cbm_block (2 * m + 1) n lo ↔
  lo = 0 ∧ cbm_block m (n - 1) 0.
Proof.
  intros Hm. unfold cbm_block. split.
  - intros (Hn & Hlo & Heq).
    assert (lo = 0) as ->.
    { destruct (decide (lo = 0)) as [|Hne]; [done|]. exfalso.
      rewrite <-(Z.succ_pred lo), Z.pow_succ_r in Heq by lia. lia. }
    rewrite Z.pow_0_r, Z.mul_1_r in *. pose proof (ones_succ n Hn) as Ho.
    assert (n ≠ 1) by (intros ->; change (Z.ones 1) with 1 in Heq; lia). lia.
  - intros (-> & Hn & _ & Heq). rewrite Z.pow_0_r, Z.mul_1_r in *.
    pose proof (ones_succ n ltac:(lia)). lia.
Qed.

Lemma cbm_block_even m n lo : 0 < m → cbm_block (2 * m) n lo ↔ 0 < lo ∧ cbm_block m n (lo - 1).
Proof.
  intros Hm. unfold cbm_block. split.
  - intros (Hn & Hlo & Heq).
    assert (lo ≠ 0).
    { intros ->. pose proof (ones_succ n Hn) as Ho. lia. }
    rewrite <-(Z.succ_pred lo), Z.pow_succ_r in Heq by lia.
    replace (lo - 1) with (Z.pred lo) by lia. lia.
  - intros (Hlo & Hn & _ & ->).
    assert (2 ^ lo = 2 * 2 ^ (lo - 1)) as ->
      by (rewrite <-Z.pow_succ_r by lia; f_equal; lia). lia.
Qed.

(** The scan of the digits succeeds exactly on blocks, and counts their ones. *)
Lemma scan_bits_spec p :
  match scan_bits (Zpos p) with
  | Ok (n, fin, prev) => ∃ lo, cbm_block (Zpos p) n lo ∧
                               fin = (0 <? lo) ∧ prev = (lo =? 0)
  | Raise e => e = InvalidAllocations ∧ ∀ n lo, ¬ cbm_block (Zpos p) n lo
  end.
Proof.
  induction p as [p IH|p IH|].
  - rewrite Pos2Z.inj_xI, scan_bits_step by (lia || auto).
    destruct (scan_bits (Zpos p)) as [[[n fin] prev]|e]; simpl.
    + destruct IH as (lo & Hb & -> & ->). destruct (0 <? lo) eqn:Hlo; to_prop.
      * split; [done|]. intros n' lo' Hb'. apply cbm_block_odd in Hb' as [-> Hb']; [|done].
        destruct Hb as (Hn & _ & Heq), Hb' as (Hn' & _ & Heq').
        rewrite Z.pow_0_r, Z.mul_1_r in Heq'. rewrite Heq' in Heq.
        rewrite <-(Z.succ_pred lo), Z.pow_succ_r in Heq by lia.
        pose proof (ones_succ _ Hn'). lia.
      * assert (lo = 0) as -> by (destruct Hb; lia).
        exists 0. split; [|done]. apply cbm_block_odd; [done|]. split; [done|].
        by replace (n + 1 - 1) with n by lia.
    + destruct IH as [-> IH]. split; [done|]. intros n lo Hb.
      apply cbm_block_odd in Hb as [_ Hb]; [|done]. by apply IH in Hb.
  - rewrite Pos2Z.inj_xO. rewrite <-(Z.add_0_r (2 * _)), scan_bits_step by (lia || auto).
    rewrite Z.add_0_r. destruct (scan_bits (Zpos p)) as [[[n fin] prev]|e]; simpl.
    + destruct IH as (lo & Hb & -> & ->). exists (lo + 1). pose proof Hb as (_ & Hlo & _).
      split_and!.
      * apply cbm_block_even; [done|]. split; [lia|]. by replace (lo + 1 - 1) with lo by lia.
      * destruct (0 <? lo) eqn:E1, (lo =? 0) eqn:E2, (0 <? lo + 1) eqn:E3; to_prop; done || lia.
      * symmetry. apply Z.eqb_neq. lia.
    + destruct IH as [-> IH]. split; [done|]. intros n lo Hb.
      apply cbm_block_even in Hb as [_ Hb]; [|done]. by apply IH in Hb.
  - exists 0. split; [|done]. repeat split; lia.
Qed.

Lemma cbm_block_unique m n lo n' lo' : 0 < m → cbm_block m n lo → cbm_block m n' lo' → n = n'.
Proof.
  intros Hm. destruct m as [|p|p]; try done. clear Hm.
  revert n lo n' lo'. induction p as [p IH|p IH|]; intros n lo n' lo'.
  - rewrite Pos2Z.inj_xI, !cbm_block_odd by done. intros [_ H1] [_ H2].
    pose proof (IH _ _ _ _ H1 H2). lia.
  - rewrite Pos2Z.inj_xO, !cbm_block_even by done. intros [_ H1] [_ H2]. eauto.
  - assert (Hone : ∀ k l, cbm_block 1 k l → k = 1).
    { intros k l (Hk & Hl & Heq). pose proof (ones_succ k Hk) as Ho.
      destruct (decide (k = 1)) as [|Hne]; [done|exfalso].
      assert (1 ≤ Z.ones (k - 1)).
      { rewrite Z.ones_equiv. assert (2 ^ 1 ≤ 2 ^ (k - 1)) by (apply Z.pow_le_mono_r; lia). lia. }
      assert (1 ≤ 2 ^ l) by (pose proof (Z.pow_pos_nonneg 2 l); lia). nia. }
    intros H1 H2. by rewrite (Hone _ _ H1), (Hone _ _ H2).
Qed.

(** What the scan of a mask says about its ones: a mask without ones has none, and the
    sign of a mask is skipped. *)
Definition cbm_ones (m n : Z) : Prop :=
  (m = 0 ∧ n = 0) ∨ ∃ lo, cbm_block (Z.abs m) n lo.

Lemma format_b_abs m :
  foldM cbm_bit (0, false, false) (String.list_ascii_of_string (format_b m)) = scan_bits (Z.abs m).
Proof.
  unfold format_b, format_base, scan_bits. destruct (Z.ltb_spec m 0) as [Hm|Hm].
  - by rewrite Z.abs_neq by lia.
  - by rewrite Z.abs_eq.
Qed.

Lemma scan_bits_ones m :
  match scan_bits (Z.abs m) with
  | Ok (n, _, _) => cbm_ones m n
  | Raise e => e = InvalidAllocations ∧ ∀ n, ¬ cbm_ones m n
  end.
Proof.
  unfold cbm_ones. destruct (decide (m = 0)) as [->|Hne]; [by left|].
  destruct (Z.abs m) as [|p|p] eqn:E; [lia| |lia]. pose proof (scan_bits_spec p) as Hs.
  destruct (scan_bits (Zpos p)) as [[[n fin] prev]|e].
  - destruct Hs as (lo & Hb & _). right. by exists lo.
  - destruct Hs as [-> Hno]. split; [done|]. intros n [[-> _]|(lo & Hb)]; [done|by eapply Hno].
Qed.

Lemma cbm_ones_unique m n n' : cbm_ones m n → cbm_ones m n' → n = n'.
Proof.
  assert (H0 : ∀ k lo, ¬ cbm_block (Z.abs 0) k lo).
  { intros k lo (Hk & Hlo & Heq). pose proof (Z.pow_pos_nonneg 2 lo ltac:(lia) Hlo).
    assert (0 < Z.ones k); [|simpl in Heq; nia].
    rewrite Z.ones_equiv. pose proof (Z.pow_gt_1 2 k ltac:(lia)). lia. }
  intros [[-> ->]|(lo & Hb)] [[Hm ->]|(lo' & Hb')]; [done|..].
  - by destruct (H0 _ _ Hb').
  - subst m. by destruct (H0 _ _ Hb).
  - eapply cbm_block_unique; [|done..]. destruct (decide (m = 0)) as [->|]; [|lia].
    by destruct (H0 _ _ Hb).
Qed.

Lemma py_int_base_raises base s e : py_int_base base s = Raise e → e = ValueError.
Proof. unfold py_int_base, or_raise. intros H. by repeat case_match; inversion H. Qed.

(** C5 (functional): for every text of a mask, of the platform's mask and of the least
    number of bits: a mask that is a hexadecimal number is accepted exactly when it does not
    exceed the mask of the platform and its ones form one block of at least [min_cbm_bits]
    ones (0 has no ones, a minus sign is skipped), and is otherwise rejected as invalid; a
    mask, or platform's mask, that is no hexadecimal number raises ValueError, and so does a
    [min_cbm_bits] that is no number, once the mask has passed the other checks. *)
Theorem check_cbm_mask_block mask cbm min_bits :
  let r := check_cbm_mask mask cbm min_bits in
  match py_int16 mask, py_int16 cbm, py_int min_bits with
  | Ok m, Ok c, Ok k =>
      (r = Ok tt ↔ m ≤ c ∧ ∃ n, cbm_ones m n ∧ k ≤ n) ∧ (r = Ok tt ∨ r = Raise InvalidAllocations)
  | Ok m, Ok c, Raise _ =>
      (r = Raise ValueError ↔ m ≤ c ∧ ∃ n, cbm_ones m n) ∧
      (r = Raise ValueError ∨ r = Raise InvalidAllocations)
  | _, _, _ => r = Raise ValueError
  end.
Proof.
  intros r. subst r. unfold check_cbm_mask.
  destruct (py_int16 mask) as [m|e] eqn:Hm; [|simpl; f_equal; by eapply py_int_base_raises].
  destruct (py_int16 cbm) as [c|e] eqn:Hc; [|simpl; f_equal; by eapply py_int_base_raises].
  cbn [mbind result_bind]. rewrite format_b_abs. pose proof (scan_bits_ones m) as Hs.
  destruct (m >? c) eqn:Hgt; to_prop.
  { destruct (py_int min_bits); split; auto; split; done || lia. }
  destruct (scan_bits (Z.abs m)) as [[[n fin] prev]|e]; cbn [mbind result_bind].
  - destruct (py_int min_bits) as [k|e] eqn:Hk; cbn [mbind result_bind].
    + destruct (n <? k) eqn:Hn; to_prop; (split; [|by auto]); split; try done.
      * intros (_ & n' & Hn' & Hk'). rewrite (cbm_ones_unique _ _ _ Hn' Hs) in Hk'. lia.
      * intros _. split; [lia|]. by exists n.
    + assert (e = ValueError) as -> by by eapply py_int_base_raises.
      split; [|by left]. split; [|done]. intros _. split; [lia|]. by exists n.
  - destruct Hs as [-> Hno].
    destruct (py_int min_bits); (split; [|by right]); split; try done; naive_solver.
Qed.

(** ** Properties: rows *)

(** Writing a row back: [prefix:id=value;id=value...] *)
Definition print_domain (kv : string * string) : string := kv.1 +:+ "=" +:+ kv.2.
Definition print_row (prefix : string) (domains : dict string string) : string :=
  prefix +:+ ":" +:+ str_join ";" (print_domain <$> domains).

(** Domain ids and values that a row can carry. *)
Definition row_domain (kv : string * string) : Prop :=
  kv.1 ≠ "" ∧ kv.2 ≠ "" ∧ no_char "=" kv.1 = true ∧
  no_char ";" kv.1 = true ∧ no_char ";" kv.2 = true.

Lemma find_char_app c p s : no_char c p = true →
  find_char c (p +:+ String c s) = Some (String.length p).
Proof.
  unfold no_char. induction p as [|x p IH]; simpl; intros Hp; [by rewrite ascii_eqb_refl|].
  apply andb_true_iff in Hp as [Hx Hp]. apply negb_true_iff in Hx. rewrite Hx, IH by done. done.
Qed.

Lemma str_drop_app p s : str_drop (String.length p) (p +:+ s) = s.
Proof. induction p; done. Qed.
Lemma str_drop_app_S p c s : str_drop (S (String.length p)) (p +:+ String c s) = s.
Proof. induction p as [|x p IH]; simpl; [done|]. exact IH. Qed.
Lemma str_take_app p s : str_take (String.length p) (p +:+ s) = p.
Proof. induction p as [|x p IH]; simpl; [done|]. f_equal. exact IH. Qed.

Lemma parse_domain_print domains kv :
  row_domain kv → kv.1 ∉ dkeys domains →
  parse_domain domains (print_domain kv) = Ok (dset domains kv.1 kv.2).
Proof.
  destruct kv as [k v]. intros (Hk & Hv & Heq & _ & _) Hni. cbn [fst snd] in *.
  unfold parse_domain, print_domain. cbn [fst snd].
  change ("=" +:+ v) with (String "=" v). rewrite find_char_app by done.
  rewrite str_take_app, str_drop_app_S.
  rewrite (proj2 (String.eqb_neq (k +:+ _) "")) by by destruct k.
  rewrite (proj2 (String.eqb_neq k "") Hk), (proj2 (String.eqb_neq v "") Hv).
  destruct (dmem domains k) eqn:E; [|done]. by apply dmem_true in E.
Qed.

Lemma parse_domains_print done_ todo :
  Forall row_domain todo → dict_wf (done_ ++ todo) →
  foldM parse_domain done_ (print_domain <$> todo) = Ok (done_ ++ todo).
Proof.
  revert done_. induction todo as [|[k v] todo IH]; intros done_ Hrow Hwf.
  - simpl. by rewrite app_nil_r.
  - apply Forall_cons in Hrow as [Hkv Hrow]. rewrite fmap_cons. cbn [foldM].
    assert (Hni : k ∉ dkeys done_).
    { unfold dict_wf, dkeys in Hwf. rewrite fmap_app in Hwf.
      apply NoDup_app in Hwf as (_ & Hd & _). intros Hin. apply (Hd _ Hin). set_solver. }
    rewrite parse_domain_print by done. cbn [fst snd]. rewrite dset_fresh by done.
    change (mbind ?f (Ok ?x)) with (f x). cbn beta.
    rewrite IH; [by rewrite <-app_assoc|done|]. by rewrite <-app_assoc.
Qed.

Lemma no_char_print_domain kv : row_domain kv → no_char ";" (print_domain kv) = true.
Proof.
  intros (_ & _ & _ & H1 & H2). unfold print_domain, no_char in *.
  rewrite !str_forallb_app, H1, H2. done.
Qed.

Lemma parse_print_row prefix domains :
  no_char ":" prefix = true → domains ≠ [] → dict_wf domains → Forall row_domain domains →
  parse_schemata_file_row (print_row prefix domains) = Ok domains.
Proof.
  intros Hp Hne Hwf Hrow. unfold parse_schemata_file_row, print_row.
  rewrite (proj2 (String.eqb_neq _ "")) by by destruct prefix.
  unfold after_char. change (":" +:+ ?x) with (String ":" x).
  rewrite find_char_app by done. rewrite str_drop_app_S, split_join.
  - by apply (parse_domains_print []).
  - by destruct domains.
  - apply Forall_fmap. eapply Forall_impl; [exact Hrow|]. apply no_char_print_domain.
Qed.

(** ** Properties: memory bandwidth *)

(** The code divides as floats; on percentages the quotient rounded up is the
    exact one (checked for every pair of the range). *)
Definition float_ceil_div (a b : Z) : result Z := q ← int_div a b; float_ceil q.

Lemma float_ceil_div_range :
  forallb (λ b, forallb (λ a, bool_decide (float_ceil_div a b = Ok (- ((- a) / b))))
                 (seqZ 0 501)) (seqZ 1 100) = true.
Proof. vm_compute. reflexivity. Qed.

Lemma float_ceil_div_small a b : 0 ≤ a ≤ 500 → 1 ≤ b ≤ 100 →
  float_ceil_div a b = Ok (- ((- a) / b)).
Proof.
  intros Ha Hb. pose proof float_ceil_div_range as Hall.
  rewrite forallb_forall in Hall. specialize (Hall b).
  rewrite forallb_forall in Hall.
  apply (bool_decide_eq_true _), Hall; apply list_elem_of_In, elem_of_seqZ; lia.
Qed.

Lemma ceil_div_bounds a b : 0 < b → a ≤ - ((- a) / b) * b < a + b.
Proof.
  intros Hb. pose proof (Z.div_mod (- a) b ltac:(lia)). pose proof (Z.mod_pos_bound (- a) b Hb).
  nia.
Qed.

(** C6 (bounds): for values from 0 to 400 and granularities from 1 to 100, which covers
    percentages (the float quotient of the code rounds up as the exact one does there), a requested
    bandwidth is raised to the least multiple of the granularity that
    is not below it, and normalising again changes nothing; a request below the
    minimum is rejected as invalid. *)
Theorem normalize_mb_value_least v mn gran :
  0 ≤ v ≤ 400 → 1 ≤ gran ≤ 100 →
  (v < mn → normalize_mb_value v mn gran = Raise InvalidAllocations) ∧
  (mn ≤ v → ∃ r, normalize_mb_value v mn gran = Ok r ∧ v ≤ r < v + gran ∧ (gran | r) ∧
                 normalize_mb_value r mn gran = Ok r).
Proof.
  intros Hv Hg. unfold normalize_mb_value. split; intros Hmn.
  - by rewrite (proj2 (Z.ltb_lt v mn)).
  - set (r := - ((- v) / gran) * gran). pose proof (ceil_div_bounds v gran ltac:(lia)) as Hr.
    fold r in Hr. exists r.
    assert (Heq : ∀ x, 0 ≤ x ≤ 500 →
              (q ← int_div x gran; c ← float_ceil q; Ok (c * gran)) = Ok (- ((- x) / gran) * gran)).
    { intros x Hx. pose proof (float_ceil_div_small x gran Hx Hg) as Hc.
      unfold float_ceil_div in Hc. apply bind_Ok_iff in Hc as (q & -> & Hc). simpl.
      by rewrite Hc. }
    rewrite (proj2 (Z.ltb_ge v mn)), (proj2 (Z.ltb_ge r mn)) by lia.
    assert (gran >? 0 = true) as -> by (rewrite Z.gtb_ltb; apply Z.ltb_lt; lia).
    rewrite !Heq by lia. split_and!; [done|lia|lia|by exists (- ((- v) / gran))|].
    f_equal. unfold r. rewrite <-Z.mul_opp_l, Z.div_mul by lia. lia.
Qed.

(** ** Properties: start-up defaults *)

Lemma str_of_Z_row i : 0 ≤ i →
  str_of_Z i ≠ "" ∧ no_char "=" (str_of_Z i) = true ∧ no_char ";" (str_of_Z i) = true.
Proof.
  intros Hi. rewrite str_of_Z_nonneg by done.
  split; [apply digits_fuel_not_nil|]. split; by apply str_forallb_digit_no_char.
Qed.

Lemma str_of_Z_inj_nonneg i j : 0 ≤ i → 0 ≤ j → str_of_Z i = str_of_Z j → i = j.
Proof.
  intros Hi Hj Heq. apply (f_equal py_int) in Heq. rewrite !py_int_str_of_Z in Heq by done.
  by injection Heq.
Qed.

(** The same value for every domain [0 .. n-1]. *)
Definition uniform_domains (n : Z) (value : string) : dict string string :=
  (λ i, (str_of_Z i, value)) <$> seqZ 0 n.

Lemma uniform_domains_keys n value : dkeys (uniform_domains n value) = str_of_Z <$> seqZ 0 n.
Proof. unfold dkeys, uniform_domains. rewrite <-list_fmap_compose. done. Qed.

Lemma uniform_domains_wf n value : dict_wf (uniform_domains n value).
Proof.
  unfold dict_wf. rewrite uniform_domains_keys. apply NoDup_fmap_2_strong; [|apply NoDup_seqZ].
  intros i j Hi%elem_of_seqZ Hj%elem_of_seqZ. apply str_of_Z_inj_nonneg; lia.
Qed.

Lemma uniform_domains_rows n value :
  value ≠ "" → no_char ";" value = true → Forall row_domain (uniform_domains n value).
Proof.
  intros Hv Hc. apply Forall_fmap, Forall_forall. intros i Hi%elem_of_seqZ.
  destruct (str_of_Z_row i ltac:(lia)) as (? & ? & ?). done.
Qed.

Lemma uniform_domains_not_nil n value : 0 < n → uniform_domains n value ≠ [].
Proof. intros Hn. unfold uniform_domains. rewrite seqZ_cons by done. done. Qed.

Lemma foldM_const {A} (f : unit → A → result unit) l :
  (∀ x, x ∈ l → f tt x = Ok tt) → foldM f tt l = Ok tt.
Proof.
  intros Hf. rewrite (foldM_total (λ _ _, tt)); [by destruct (foldl _ _ _)|].
  intros [] x Hx. by apply Hf.
Qed.

Lemma validate_uniform_domains n value :
  validate_domains (dkeys (uniform_domains n value)) n = Ok tt.
Proof.
  rewrite uniform_domains_keys. apply foldM_const.
  intros s (i & -> & Hi%elem_of_seqZ)%list_elem_of_fmap. rewrite py_int_str_of_Z by lia.
  by rewrite (proj2 (Z.leb_le 0 i)), (proj2 (Z.ltb_lt i n)) by lia.
Qed.

Lemma get_max_rdt_values_rows cbm n :
  get_max_rdt_values (Some cbm) n true true =
  (Some (print_row "L3" (uniform_domains n cbm)), Some (print_row "MB" (uniform_domains n "100"))).
Proof.
  unfold get_max_rdt_values, print_row, uniform_domains.
  by rewrite <-!list_fmap_compose.
Qed.

(** The default root allocations computed at start-up pass the
    checks applied to them, on any number of sockets: the L3 row when the mask of
    the platform is itself a valid mask, and the bandwidth row (100%) when the
    minimum bandwidth is at most 100. *)
Theorem max_rdt_values_valid cbm n min_bits mn gran l3 mb :
  0 < n → cbm ≠ "" → no_char ";" cbm = true → check_cbm_mask cbm cbm min_bits = Ok tt →
  mn ≤ 100 → 1 ≤ gran ≤ 100 →
  get_max_rdt_values (Some cbm) n true true = (Some l3, Some mb) →
  validate_l3_string l3 n (Some cbm) (Some min_bits) = Ok tt ∧
  is_Ok (normalize_mb_string mb n (Some mn) (Some gran)) = true.
Proof.
  intros Hn Hne Hc Hcheck Hmn Hg. rewrite get_max_rdt_values_rows. intros [= <- <-]. split.
  - unfold validate_l3_string. cbn [or_raise mbind result_bind].
    change (startswith "L3:" _) with true. cbn [negb].
    rewrite parse_print_row; [|done|by apply uniform_domains_not_nil|
      apply uniform_domains_wf|by apply uniform_domains_rows].
    cbn [mbind result_bind]. rewrite validate_uniform_domains. cbn [mbind result_bind].
    apply foldM_const. intros v Hv. unfold dvalues, uniform_domains in Hv.
    rewrite <-list_fmap_compose in Hv. by apply list_elem_of_fmap in Hv as (i & -> & _).
  - unfold normalize_mb_string. cbn [or_raise mbind result_bind].
    change (startswith "MB:" _) with true. cbn [negb].
    rewrite parse_print_row; [|done|by apply uniform_domains_not_nil|
      apply uniform_domains_wf|by apply uniform_domains_rows].
    cbn [mbind result_bind]. rewrite validate_uniform_domains. cbn [mbind result_bind].
    pose proof (float_ceil_div_small 100 gran ltac:(lia) Hg) as Hceil.
    apply bind_Ok_iff in Hceil as (q & Hq & Hceil).
    rewrite (foldM_total (λ acc kv, acc +:+ kv.1 +:+ "=" +:+
                                    str_of_Z (- (- (100) / gran) * gran) +:+ ";")); [done|].
    intros acc [k v] Hin. apply list_elem_of_fmap in Hin as (i & [= -> ->] & _).
    unfold normalize_domain. change (py_int "100") with (Ok 100).
    cbn [catch mbind result_bind]. unfold normalize_mb_value.
    rewrite (proj2 (Z.ltb_ge 100 mn)) by lia.
    assert (gran >? 0 = true) as -> by (rewrite Z.gtb_ltb; apply Z.ltb_lt; lia).
    rewrite Hq. cbn [mbind result_bind]. rewrite Hceil. done.
Qed.

(** ** Properties: changes of RDT allocations *)

Lemma parse_row_wf line d : parse_schemata_file_row line = Ok d → dict_wf d.
Proof.
  unfold parse_schemata_file_row. destruct (String.eqb line "").
  { intros [= <-]. apply NoDup_nil_2. }
  apply (foldM_inv dict_wf); [|apply NoDup_nil_2].
  intros a x a' _ Ha. unfold parse_domain.
  destruct (String.eqb x ""); [done|]. destruct (find_char "=" x) as [n|]; [|done].
  destruct (String.eqb _ ""); [done|]. destruct (String.eqb _ ""); [done|].
  destruct (dmem _ _); [done|]. intros [= <-]. by apply dset_wf.
Qed.

Lemma suballocation_unchanged s d :
  parse_schemata_file_row s = Ok d → is_rdt_suballocation_changed (Some s) (Some s) = Ok false.
Proof.
  intros Hs. pose proof (parse_row_wf _ _ Hs) as Hwf.
  unfold is_rdt_suballocation_changed. rewrite Hs. cbn [mbind result_bind].
  assert (forallb (dmem d) (dkeys d) = true) as ->.
  { apply forallb_forall. intros k Hk%list_elem_of_In. by apply dmem_true. }
  cbn [py_assert mbind result_bind]. f_equal. apply not_true_iff_false.
  rewrite existsb_exists. intros ([k v] & Hin%list_elem_of_In & Hx). simpl in Hx.
  rewrite (dget_in _ _ _ Hwf Hin) in Hx. unfold is_equal in Hx. by rewrite String.eqb_refl in Hx.
Qed.

Definition row_parses (o : option string) : Prop :=
  match o with Some s => is_Ok (parse_schemata_file_row s) = true | None => True end.

Lemma suballocation_refl o : row_parses o → is_rdt_suballocation_changed o o = Ok false.
Proof.
  destruct o as [s|]; simpl; [|done]. intros (d & Hd)%is_Ok_true.
  change (is_rdt_suballocation_changed (Some s) (Some s) = Ok false).
  by eapply suballocation_unchanged.
Qed.

(** Once merged into the target, the new row is no change any more. *)
Lemma suballocation_merged cur new b :
  row_parses new → is_rdt_suballocation_changed cur new = Ok b →
  is_rdt_suballocation_changed (or_str new cur) new = Ok false.
Proof.
  intros Hnew Hb. destruct new as [s|].
  - unfold or_str. destruct (str_true (Some s)) eqn:Htrue.
    + by apply suballocation_refl.
    + cbn [str_true] in Htrue. apply negb_false_iff, String.eqb_eq in Htrue as ->.
      destruct cur as [c|]; [|done]. unfold is_rdt_suballocation_changed in *.
      destruct (parse_schemata_file_row c); [|done]. simpl in *. done.
  - by destruct (or_str None cur).
Qed.

Section rdt_laws.
  Context {F : Type}.
  Implicit Types (new cur v : RDTAllocationValue F).

Definition rdt_ok v : Prop :=
  row_parses (rdt_l3 (rv_allocation v)) ∧ row_parses (rdt_mb (rv_allocation v)).

Lemma rdt_changeset_none new cur :
  get_resgroup_name cur = get_resgroup_name new →
  is_rdt_suballocation_changed (rdt_l3 (rv_allocation cur)) (rdt_l3 (rv_allocation new)) = Ok false →
  is_rdt_suballocation_changed (rdt_mb (rv_allocation cur)) (rdt_mb (rv_allocation new)) = Ok false →
  ∃ t, rdt_calculate_changeset new (Some cur) = Ok (t, None).
Proof.
  intros Hname Hl3 Hmb. eexists. unfold rdt_calculate_changeset.
  rewrite Hname, String.eqb_refl. cbn [negb]. rewrite Hl3. cbn [mbind result_bind].
  rewrite Hmb. done.
Qed.

Lemma rdt_changeset_refl v :
  rdt_ok v → ∃ t, rdt_calculate_changeset v (Some v) = Ok (t, None).
Proof. intros [H1 H2]. by apply rdt_changeset_none; [|apply suballocation_refl..]. Qed.

Lemma rdt_changeset_stable new cur t c :
  rdt_ok new → rdt_calculate_changeset new (Some cur) = Ok (t, c) →
  ∃ t', rdt_calculate_changeset new (Some t) = Ok (t', None).
Proof.
  intros Hok. unfold rdt_calculate_changeset at 1.
  destruct (String.eqb (get_resgroup_name cur) (get_resgroup_name new)) eqn:Hname;
    cbn [negb]; [|intros [= <- <-]; by apply rdt_changeset_refl].
  to_prop. intros H. apply bind_Ok_iff in H as (b1 & Hb1 & H).
  apply bind_Ok_iff in H as (b2 & Hb2 & H). destruct Hok as [Hok1 Hok2].
  assert (t = rdt_copy cur (mkRDTAllocation (rdt_name (rv_allocation cur))
      (or_str (rdt_l3 (rv_allocation new)) (rdt_l3 (rv_allocation cur)))
      (or_str (rdt_mb (rv_allocation new)) (rdt_mb (rv_allocation cur)))) None None) as ->
    by (destruct (_ || _); by injection H).
  apply rdt_changeset_none; [exact Hname|simpl; by eapply suballocation_merged..].
Qed.
End rdt_laws.

(** ** Properties: shared groups *)

Section groups_spec.
  Context {F : Type}.
  Implicit Types (w : world F) (ref : nat) (names : list string).

(** As long as validation succeeds, the resource groups in use stay
    within the number of CLOSids of the platform, and a validation that would
    exceed it is rejected as invalid. *)
Theorem rdt_groups_within_closids ref name w g :
  w_rdt_groups w !! ref = Some g →
  ∃ r w' g', rdt_groups_validate ref name w = (r, w') ∧ w_fs w' = w_fs w ∧
    w_rdt_groups w' !! ref = Some g' ∧ closids_limit g' = closids_limit g ∧
    existing_groups g' = {[name]} ∪ existing_groups g ∧
    (r = Ok tt ↔ Z.of_nat (size (existing_groups g')) ≤ closids_limit g') ∧
    (r = Ok tt ∨ r = Raise InvalidAllocations).
Proof.
  intros Hg. unfold rdt_groups_validate, with_rdt_groups. rewrite Hg.
  eexists _, _, (mkRDTGroups _ _ _). split; [done|]. split; [done|]. split.
  { simpl. apply list_lookup_insert_eq. by eapply lookup_lt_Some. }
  split; [done|]. split; [done|]. simpl.
  destruct (_ >? _) eqn:E; to_prop; split; [|by right| |by left]; split; done || lia.
Qed.
End groups_spec.

(** *** Rows that are never normalised *)

(** The value written by [perform_allocations] is the one validated: a request
    that is no multiple of the granularity is accepted, and stays as it is. *)
Definition info_gran10 : RDTInformation :=
  mkRDTInformation true true true true (Some "fffff") (Some "1") (Some 16) (Some 10) (Some 10).
Definition value_mb11 {F} : RDTAllocationValue F :=
  mkRDTAllocationValue "t1" (mkRDTAllocation None None (Some "MB:0=11")) (mkResGroup "t1")
    (mret []) 1 info_gran10 0%nat [] None.

Lemma mb_not_normalised :
  normalize_mb_string "MB:0=11" 1 (Some 10) (Some 10) = Ok "MB:0=20" ∧
  ∀ (fs : memfs), ∃ groups,
    rdt_validate value_mb11 (mkWorld fs [mkRDTGroups 16 ∅ ∅]) = (Ok tt, mkWorld fs groups) ∧
    rdt_mb (rv_allocation (value_mb11 (F := memfs))) = Some "MB:0=11".
Proof. split; [vm_compute; reflexivity|]. intros fs. by eexists. Qed.

(** ** Witnesses *)

(** Masks of the repository's tests, and others: the sign and texts that are no numbers. *)
Example masks_checked :
  check_cbm_mask "0x3c" "fffff" "2" = Ok tt ∧
  check_cbm_mask "f0f" "ffff" "1" = Raise InvalidAllocations ∧
  check_cbm_mask "0" "ffff" "1" = Raise InvalidAllocations ∧
  check_cbm_mask "0" "ffff" "0" = Ok tt ∧ check_cbm_mask "-3" "ffff" "2" = Ok tt ∧
  check_cbm_mask "ffffff" "ffff" "bigger" = Raise InvalidAllocations ∧
  check_cbm_mask "xyz" "ffff" "1" = Raise ValueError.
Proof. vm_compute. done. Qed.

Lemma normalize_mb_value_least_witness :
  (11 < 10 → normalize_mb_value 11 10 10 = Raise InvalidAllocations) ∧
  (10 ≤ 11 → ∃ r, normalize_mb_value 11 10 10 = Ok r ∧ 11 ≤ r < 11 + 10 ∧ (10 | r) ∧
                  normalize_mb_value r 10 10 = Ok r).
Proof. apply (normalize_mb_value_least 11 10 10); lia. Defined.

Lemma max_rdt_values_valid_witness :
  validate_l3_string "L3:0=fffff;1=fffff" 2 (Some "fffff") (Some "1") = Ok tt ∧
  is_Ok (normalize_mb_string "MB:0=100;1=100" 2 (Some 10) (Some 10)) = true.
Proof.
  apply (max_rdt_values_valid "fffff" 2 "1" 10 10); [done|done|reflexivity|reflexivity|lia|lia|].
  reflexivity.
Defined.

Definition example_groups : RDTGroups := mkRDTGroups 1 ∅ {["a"]}.

Lemma rdt_groups_within_closids_witness :
  let w := mkWorld (mkMem ∅ ∅) [example_groups] in
  ∃ r w' g', rdt_groups_validate 0 "b" w = (r, w') ∧ w_fs w' = w_fs w ∧
    w_rdt_groups w' !! 0%nat = Some g' ∧ closids_limit g' = closids_limit example_groups ∧
    existing_groups g' = {["b"]} ∪ existing_groups example_groups ∧
    (r = Ok tt ↔ Z.of_nat (size (existing_groups g')) ≤ closids_limit g') ∧
    (r = Ok tt ∨ r = Raise InvalidAllocations).
Proof.
  apply (rdt_groups_within_closids 0 "b" (mkWorld (mkMem ∅ ∅) [example_groups]) example_groups).
  reflexivity.
Defined.
