(* ===== verification/ResctrlShared.v ===== *)
(** * RDT allocations that share one RDTGroups object

    [src/wca/resctrl_allocations.py]: the values of one iteration share an [RDTGroups] object,
    which lets only the first value of a resource group write its schemata file.  Performing
    them is compared with a reference in which nothing is shared. *)
From S2P Require Export ResctrlAllocations.

(** ** Operations on the file system do not see the shared objects of the world *)
Section shared.
  Context {F : Type} `{FileSystem F}.
  Implicit Types (v : RDTAllocationValue F) (w : world F).

(** [m] in the world does what [m'] does on its file system. *)
Definition acts {A} (m : M (world F) A) (m' : M F A) : Prop := ∀ w, m w = on_fs m' w.

Lemma acts_ret {A} (a : A) : acts (mret a) (mret a).
Proof. by intros [fs gs]. Qed.
Lemma acts_lift {A} (r : result A) : acts (lift r) (lift r).
Proof. by intros [fs gs]. Qed.
Lemma acts_raise {A} e : acts (raise e : M (world F) A) (raise e).
Proof. by intros [fs gs]. Qed.
Lemma acts_bind {A B} (m : M (world F) A) m' (f : A → M (world F) B) f' :
  acts m m' → (∀ a, acts (f a) (f' a)) → acts (m ≫= f) (m' ≫= f').
Proof.
  intros Hm Hf w. unfold mbind, M_bind. rewrite Hm. unfold on_fs.
  destruct (m' (w_fs w)) as [[a|e] fs]; [|done]. by rewrite Hf.
Qed.
Lemma acts_try {A} (m : M (world F) A) m' h h' :
  acts m m' → (∀ e, match h e, h' e with
                    | Some k, Some k' => acts k k'
                    | None, None => True
                    | _, _ => False
                    end) → acts (try_except m h) (try_except m' h').
Proof.
  intros Hm Hh w. unfold try_except. rewrite Hm. unfold on_fs.
  destruct (m' (w_fs w)) as [[a|e] fs]; [done|]. specialize (Hh e).
  destruct (h e) as [k|], (h' e) as [k'|]; [apply Hh|done..].
Qed.
Lemma acts_ignore m m' : acts m m' → acts (ignore_OSError m) (ignore_OSError m').
Proof. intros Hm. apply acts_try; [done|]. intros e. destruct (is_OSError e); [apply acts_ret|exact I]. Qed.
Lemma acts_finally {A} (m : M (world F) A) m' k k' :
  acts m m' → acts k k' → acts (try_finally m k) (try_finally m' k').
Proof.
  intros Hm Hk w. unfold try_finally. rewrite Hm. unfold on_fs.
  destruct (m' (w_fs w)) as [r fs]. rewrite Hk. unfold on_fs. cbn. by destruct (k' fs) as [[|] fs'].
Qed.
Lemma acts_forM {B} (l : list B) (f : B → M (world F) unit) f' :
  (∀ x, acts (f x) (f' x)) → acts (forM_ l f) (forM_ l f').
Proof. intros Hf. induction l as [|x l IH]; [apply acts_ret|]. by apply acts_bind. Qed.
Lemma acts_if {A} (b : bool) (m1 m2 : M (world F) A) m1' m2' :
  acts m1 m1' → acts m2 m2' → acts (if b then m1 else m2) (if b then m1' else m2').
Proof. by destruct b. Qed.
Lemma acts_fs {A} (m : M F A) : acts (on_fs m) m.
Proof. by intros w. Qed.
Lemma acts_list_dir path : acts (list_dir path) (list_dir path).
Proof. by intros [fs gs]. Qed.
Lemma acts_on_state {A} (m : world F → M (world F) A) m' :
  (∀ w, acts (m w) (m' (w_fs w))) → acts (s ← get_state; m s) (s ← get_state; m' s).
Proof. intros Hm w. unfold mbind, M_bind, get_state. apply (Hm w). Qed.

Create HintDb acts.
#[local] Hint Resolve acts_ret acts_lift acts_raise acts_bind acts_ignore acts_finally acts_forM acts_if
  acts_list_dir : acts.
#[local] Hint Extern 9 (acts _ _) => exact (acts_fs _) : acts.

Lemma acts_add_pids self pids name :
  acts (add_pids self pids name) (add_pids (W := F) self pids name).
Proof.
  assert (Hfile : ∀ path, acts (add_pids_to_tasks_file pids path) (add_pids_to_tasks_file (W := F) pids path)).
  { intros path. unfold add_pids_to_tasks_file. destruct pids; [apply acts_ret|].
    apply acts_bind; [|intros opened; apply acts_if; auto with acts].
    apply acts_try; [auto with acts|]. intros e. destruct (is_OSError e); auto with acts. }
  unfold add_pids, create_controlgroup_directory, make_mongroup.
  apply acts_bind; [auto with acts|intros _]. apply acts_bind.
  { apply acts_if; [auto with acts|]. apply acts_try; [apply acts_fs|]. intros e.
    destruct (bool_decide _); auto with acts. }
  intros _. apply acts_bind; [done|intros _]. apply acts_bind; [|auto].
  apply acts_try; [apply acts_fs|]. intros e. destruct (_ || _); auto with acts.
Qed.

Lemma acts_remove self name : acts (resgroup_remove self name) (resgroup_remove (W := F) self name).
Proof.
  unfold resgroup_remove, get_mon_groups. apply acts_bind; [auto 6 with acts|]. intros dir.
  apply acts_on_state. intros w. apply acts_if; auto with acts.
Qed.

Lemma acts_write_schemata self lines :
  acts (write_schemata self lines) (write_schemata (W := F) self lines).
Proof. unfold write_schemata. auto 7 with acts. Qed.

(** The lines of a value for the schemata file; its move to another group and its write, on
    the file system alone, with the pids of its container. *)
Definition rdt_lines v : list string :=
  let a := rv_allocation v in
  let info := rv_rdt_information v in
  (if str_true (rdt_l3 a) && rdt_cache_control_enabled info then [default "" (rdt_l3 a)] else [])
  ++ (if str_true (rdt_mb a) && rdt_mb_control_enabled info then [default "" (rdt_mb a)] else []).

Definition rdt_move v (pids : M F (list string)) : M F unit :=
  match rv_source_resgroup v with
  | Some source =>
      pids ← pids;
      _ ← add_pids (rv_resgroup v) pids (rv_container_name v);
      groups ← get_mon_groups source;
      if Nat.eqb (length groups) 1 then resgroup_remove source (rv_container_name v) else mret tt
  | None => mret tt
  end.

Definition rdt_write v : M F unit :=
  match rdt_lines v with [] => mret tt | lines => write_schemata (rv_resgroup v) lines end.

(** The values in their order, when the write belongs to the first one of each group and
    nothing is shared: [seen] are the groups that have had theirs. *)
Fixpoint perform_firsts (seen : list string) (values : list (RDTAllocationValue F * M F (list string)))
    : M F unit :=
  match values with
  | [] => mret tt
  | (v, pids) :: values =>
      _ ← rdt_move v pids;
      _ ← (if decide (get_resgroup_name v ∈ seen) then mret tt else rdt_write v : M F unit);
      perform_firsts (get_resgroup_name v :: seen) values
  end.

Lemma rdt_perform_parts v pids w :
  acts (rv_get_pids v) pids →
  rdt_perform_allocations v w =
    (_ ← on_fs (rdt_move v pids);
     write ← should_perform_schemata_write (rv_rdt_groups v) (get_resgroup_name v);
     if write : bool then on_fs (rdt_write v) else mret tt) w.
Proof.
  intros Hpids. unfold rdt_perform_allocations. fold (rdt_lines v).
  assert (Hmove : acts (match rv_source_resgroup v with
      | Some source =>
          pids ← rv_get_pids v;
          _ ← add_pids (rv_resgroup v) pids (rv_container_name v);
          groups ← get_mon_groups source;
          if Nat.eqb (length groups) 1 then resgroup_remove source (rv_container_name v)
          else mret tt
      | None => mret tt
      end) (rdt_move v pids)).
  { unfold rdt_move. destruct (rv_source_resgroup v); [|apply acts_ret].
    apply acts_bind; [done|intros ps]. apply acts_bind; [apply acts_add_pids|intros _].
    apply acts_bind; [apply acts_list_dir|intros gs]. apply acts_if; [apply acts_remove|apply acts_ret]. }
  assert (Hwrite : acts (match rdt_lines v with
                         | [] => mret tt
                         | _ => write_schemata (rv_resgroup v) (rdt_lines v)
                         end) (rdt_write v)).
  { unfold rdt_write. destruct (rdt_lines v); [apply acts_ret|apply acts_write_schemata]. }
  unfold mbind, M_bind. rewrite Hmove. destruct (on_fs _ w) as [[[]|e] w1]; [|done].
  destruct (should_perform_schemata_write _ _ w1) as [[[]|e] w2]; [|done..].
  exact (Hwrite w2).
Qed.

(** C11 (equivalence): performing, one after the other, RDT allocations that share one new
    [RDTGroups] object (the current allocations and the new ones each have their own), with
    pids that are read from the file system, does to the file system, with the same outcome,
    what performing them without a shared object does when the schemata file of each resource
    group is written for the first value of the group alone, with the lines of this value
    (nothing if it has none); the later values of the group only move their pids. *)
Theorem schemata_written_once ref values w g r w' :
  w_rdt_groups w !! ref = Some g → already_executed_resgroup_names g = ∅ →
  (∀ v pids, (v, pids) ∈ values → rv_rdt_groups v = ref ∧ acts (rv_get_pids v) pids) →
  forM_ values.*1 rdt_perform_allocations w = (r, w') →
  perform_firsts [] values (w_fs w) = (r, w_fs w').
Proof.
  intros Hg Hempty. assert (Hseen : ∀ name, name ∈ already_executed_resgroup_names g ↔ name ∈ @nil string).
  { intros name. rewrite Hempty. set_solver. }
  clear Hempty. revert w g Hg Hseen. generalize (@nil string) as seen.
  induction values as [|[v pids] values IH]; intros seen w g Hg Hseen Hv Hrun.
  { by injection Hrun as <- <-. }
  destruct (Hv v pids) as [Href Hpids]; [by left|]. rewrite fmap_cons in Hrun.
  cbn [forM_ perform_firsts fst] in *. unfold mbind at 1, M_bind at 1 in Hrun.
  rewrite (rdt_perform_parts v pids w Hpids), Href in Hrun.
  unfold mbind, M_bind, on_fs in *. destruct (rdt_move v pids (w_fs w)) as [[[]|e] fs1];
    [|by injection Hrun as <- <-].
  unfold should_perform_schemata_write, with_rdt_groups in Hrun. cbn [w_rdt_groups w_fs] in Hrun.
  rewrite Hg in Hrun. specialize (IH (get_resgroup_name v :: seen)).
  assert (Hv' : ∀ v pids, (v, pids) ∈ values → rv_rdt_groups v = ref ∧ acts (rv_get_pids v) pids).
  { intros ?? Hin. apply Hv. by right. }
  case_bool_decide as Hin; cbn [w_rdt_groups w_fs] in Hrun.
  - rewrite (list_insert_id _ _ _ Hg) in Hrun. rewrite decide_True by by apply Hseen.
    apply (IH (mkWorld fs1 (w_rdt_groups w)) g Hg); [|done|exact Hrun].
    intros name. rewrite elem_of_cons, Hseen. split; [by right|]. intros [->|]; [by apply Hseen|done].
  - rewrite decide_False by by rewrite <-Hseen.
    destruct (rdt_write v fs1) as [[[]|e] fs2]; [|by injection Hrun as <- <-].
    eapply (IH (mkWorld fs2 _)); [|..|exact Hrun]; [|cbn|done].
    + cbn. apply list_lookup_insert_eq. by eapply lookup_lt_Some.
    + intros name. rewrite elem_of_cons, <-Hseen. set_solver.
Qed.
End shared.

(** ** A concrete run

    Two tasks in one group and a third one in a group of its own; the second task of the
    shared group asks for another mask. *)
Definition shared_info : RDTInformation :=
  mkRDTInformation true true true true (Some "fffff") (Some "1") (Some 16) (Some 10) (Some 10).
Definition shared_value (task group : string) (l3 : option string) : RDTAllocationValue memfs :=
  mkRDTAllocationValue task (mkRDTAllocation (Some group) l3 None) (mkResGroup group)
    (on_fs (mret [])) 1 shared_info 0%nat [] None.
Definition shared_values : list (RDTAllocationValue memfs * M memfs (list string)) :=
  (λ v, (v, mret [])) <$>
  [shared_value "t1" "hp" (Some "L3:0=f"); shared_value "t2" "hp" (Some "L3:0=ff");
   shared_value "t3" "be" (Some "L3:0=3")].
Definition shared_world : world memfs :=
  mkWorld (mkMem (list_to_map [("/sys/fs/resctrl/hp/schemata", ""); ("/sys/fs/resctrl/be/schemata", "")]) ∅)
    [mkRDTGroups 16 ∅ ∅].

Lemma schemata_written_once_witness :
  let w' := (forM_ shared_values.*1 rdt_perform_allocations shared_world).2 in
  fs_read "/sys/fs/resctrl/hp/schemata" (w_fs w') = Ok ("L3:0=f" +:+ String newline "") ∧
  fs_read "/sys/fs/resctrl/be/schemata" (w_fs w') = Ok ("L3:0=3" +:+ String newline "") ∧
  perform_firsts [] shared_values (w_fs shared_world) = (Ok tt, w_fs w').
Proof.
  split; [vm_compute; reflexivity|]. split; [vm_compute; reflexivity|].
  apply (schemata_written_once 0 shared_values shared_world (mkRDTGroups 16 ∅ ∅) (Ok tt)).
  - reflexivity.
  - reflexivity.
  - intros v pids Hin. unfold shared_values in Hin. apply list_elem_of_fmap in Hin as (u & [= -> ->] & Hu).
    assert (Hu' : rv_rdt_groups u = 0%nat ∧ rv_get_pids u = on_fs (mret [])) by set_solver.
    destruct Hu' as [-> ->]. by split.
  - apply outcome_is. vm_compute. reflexivity.
Defined.

(** A value without lines uses up the write of its group: the lines of a later task in the
    group are never written. *)
Example write_used_up :
  let vs := [shared_value "t1" "hp" None; shared_value "t2" "hp" (Some "L3:0=ff")] in
  let o := forM_ vs rdt_perform_allocations shared_world in
  o.1 = Ok tt ∧ fs_read "/sys/fs/resctrl/hp/schemata" (w_fs o.2) = Ok "".
Proof. vm_compute. done. Qed.
