(* ===== verification/CgroupsAllocations.v ===== *)
(** * Allocations through control groups

    [src/wca/cgroups_allocations.py]: quota, shares, cpusets, memory migration and
    page migration as allocation values.  What they need of a container is the
    record [ContainerInterface]; [src/wca/containers.py] provides it. *)
From S2P Require Export World Allocations.

(** src/wca/containers.py:60-107 [ContainerInterface], the part the allocations use *)
Record ContainerInterface (W : Type) := mkContainerInterface {
  ci_name : string;
  ci_cgroup : Cgroup;
  ci_subcgroups : list Cgroup;
  ci_get_pids : bool → M W (list string);
  ci_resgroup : ResGroup;
  ci_get_allocations : M W TaskAllocations;
  ci_platform : Platform
}.
Arguments mkContainerInterface {W} _ _ _ _ _ _ _.
Arguments ci_name {W} _.
Arguments ci_cgroup {W} _.
Arguments ci_subcgroups {W} _.
Arguments ci_get_pids {W} _ _.
Arguments ci_resgroup {W} _.
Arguments ci_get_allocations {W} _.
Arguments ci_platform {W} _.

(** src/wca/cgroups_allocations.py:80-88 [ListFormatBasedAllocationValue.__init__] *)
Record ListFormatValue := mkListFormatValue {
  lf_value : string;
  lf_cgroup : Cgroup;
  lf_subcgroups : list Cgroup;
  lf_labels : dict string string;
  lf_max_value : Z
}.

(** The classes of the module, each with the attributes its methods read. *)
Inductive cgroup_value (W : Type) : Type :=
  | QuotaAllocationValue (b : BoxedNumeric) (cgroup : Cgroup) (subcgroups : list Cgroup)
  | SharesAllocationValue (b : BoxedNumeric) (cgroup : Cgroup)
  | CPUSetCPUSAllocationValue (l : ListFormatValue)
  | CPUSetMEMSAllocationValue (l : ListFormatValue)
  | CPUSetMemoryMigrateAllocationValue (b : BoxedNumeric) (cgroup : Cgroup)
  | MigratePagesAllocationValue (b : BoxedNumeric) (container : ContainerInterface W)
      (platform : Platform).
Arguments QuotaAllocationValue {W} _ _ _.
Arguments SharesAllocationValue {W} _ _.
Arguments CPUSetCPUSAllocationValue {W} _.
Arguments CPUSetMEMSAllocationValue {W} _.
Arguments CPUSetMemoryMigrateAllocationValue {W} _ _.
Arguments MigratePagesAllocationValue {W} _ _ _.

(** ** Construction *)
Section make.
  Context {W : Type}.
  Implicit Types (container : ContainerInterface W) (common_labels : dict string string).

Definition boxed (value : num) common_labels (min_value max_value : option num) : BoxedNumeric :=
  boxed_numeric value common_labels min_value max_value VALUE_CHANGE_SENSITIVITY.

(** src/wca/cgroups_allocations.py:40-45 [QuotaAllocationValue.__init__] *)
Definition make_quota (normalized_quota : num) container common_labels : cgroup_value W :=
  QuotaAllocationValue
    (boxed normalized_quota common_labels (Some (PInt 0)) (Some (PFloat (float_of_ratio 1 1))))
    (ci_cgroup container) (ci_subcgroups container).

(** src/wca/cgroups_allocations.py:62-66 [SharesAllocationValue.__init__] *)
Definition make_shares (normalized_shares : num) container common_labels : cgroup_value W :=
  SharesAllocationValue (boxed normalized_shares common_labels (Some (PInt 0)) None)
    (ci_cgroup container).

(** src/wca/cgroups_allocations.py:130-132 [CPUSetCPUSAllocationValue.__init__] *)
Definition make_cpuset_cpus (value : string) container common_labels : result (cgroup_value W) :=
  p ← or_raise AttributeError (cg_platform (ci_cgroup container));
  Ok (CPUSetCPUSAllocationValue (mkListFormatValue value (ci_cgroup container)
        (ci_subcgroups container) common_labels (cpus p - 1))).

(** src/wca/cgroups_allocations.py:157-159 [CPUSetMEMSAllocationValue.__init__] *)
Definition make_cpuset_mems (value : string) container common_labels : result (cgroup_value W) :=
  p ← or_raise AttributeError (cg_platform (ci_cgroup container));
  Ok (CPUSetMEMSAllocationValue (mkListFormatValue value (ci_cgroup container)
        (ci_subcgroups container) common_labels (Z.of_nat (length (node_cpus p)) - 1))).

(** src/wca/cgroups_allocations.py:184-187 [CPUSetMemoryMigrateAllocationValue.__init__] *)
Definition make_memory_migrate (value : num) container common_labels : cgroup_value W :=
  CPUSetMemoryMigrateAllocationValue
    (boxed value common_labels (Some (PInt 0)) (Some (PInt 1))) (ci_cgroup container).

(** src/wca/cgroups_allocations.py:203-208 [MigratePagesAllocationValue.__init__] *)
Definition make_migrate_pages (value : num) container common_labels : result (cgroup_value W) :=
  p ← or_raise AttributeError (cg_platform (ci_cgroup container));
  Ok (MigratePagesAllocationValue
        (boxed value common_labels (Some (PInt 0)) (Some (PInt (numa_nodes p - 1)))) container p).
End make.

(** ** List format values *)

(** src/wca/cgroups_allocations.py:90-93 [ListFormatBasedAllocationValue.__eq__] *)
Definition listformat_eq (self other : ListFormatValue) : result bool :=
  a ← decode_listformat (lf_value self);
  b ← decode_listformat (lf_value other);
  Ok (bool_decide (a = b)).

(** src/wca/cgroups_allocations.py:109-122 [ListFormatBasedAllocationValue.validate] *)
Definition listformat_validate (self : ListFormatValue) : result unit :=
  value ← catch (decode_listformat (lf_value self))
            (λ e, match e with ValueError => Some (Raise InvalidAllocations) | _ => None end);
  let as_sorted_list := sorted_Z (elements value) in
  if String.eqb (lf_value self) "" then Ok tt
  else
    first ← or_raise IndexError (head as_sorted_list);
    last ← or_raise IndexError (last as_sorted_list);
    if (first <? 0) || (last >? lf_max_value self) then Raise InvalidAllocations else Ok tt.

(** ** Metrics *)

(** A boxed number's metric, renamed for its class. *)
Definition named_numeric_metrics (b : BoxedNumeric) (t : AllocationType) : list Metric :=
  (λ m, mkMetric ("allocation_" +:+ AllocationType_value t) (m_value m)
          (dset (m_labels m) "allocation_type" (AllocationType_value t))
          (m_unit m) (m_type m) (m_help m) (m_granularity m)) <$> boxed_generate_metrics b.

Definition listformat_metrics (l : ListFormatValue) (name : string) (t : AllocationType)
    : result (list Metric) :=
  ints ← decode_listformat (lf_value l);
  Ok (update_labels (lf_labels l)
        [mkMetric name (MNum (PInt (Z.of_nat (size ints))))
           [("allocation_type", AllocationType_value t)] None (Some GAUGE) None None]).

(** src/wca/cgroups_allocations.py:47-52 [QuotaAllocationValue.generate_metrics] *)
Definition quota_metrics (b : BoxedNumeric) : list Metric := named_numeric_metrics b QUOTA.
(** src/wca/cgroups_allocations.py:68-73 [SharesAllocationValue.generate_metrics] *)
Definition shares_metrics (b : BoxedNumeric) : list Metric := named_numeric_metrics b SHARES.
(** src/wca/cgroups_allocations.py:189-194 [CPUSetMemoryMigrateAllocationValue.generate_metrics] *)
Definition memory_migrate_metrics (b : BoxedNumeric) : list Metric :=
  named_numeric_metrics b CPUSET_MEMORY_MIGRATE.
(** src/wca/cgroups_allocations.py:210-215 [MigratePagesAllocationValue.generate_metrics] *)
Definition migrate_pages_metrics (b : BoxedNumeric) : list Metric :=
  named_numeric_metrics b MIGRATE_PAGES.
(** src/wca/cgroups_allocations.py:134-143 [CPUSetCPUSAllocationValue.generate_metrics] *)
Definition cpuset_cpus_metrics (l : ListFormatValue) : result (list Metric) :=
  listformat_metrics l "allocation_cpuset_cpus_number_of_cpus" CPUSET_CPUS.
(** src/wca/cgroups_allocations.py:161-170 [CPUSetMEMSAllocationValue.generate_metrics] *)
Definition cpuset_mems_metrics (l : ListFormatValue) : result (list Metric) :=
  listformat_metrics l "allocation_cpuset_mems_number_of_mems" CPUSET_MEMS.

(** ** Page migration *)

(** An argument passed as [c_ulong]. *)
Definition c_ulong (n : Z) : Z := n mod 2 ^ 64.

(** src/wca/cgroups_allocations.py:233-239 [_migrate_pages], the two masks *)
Definition migrate_masks (to_node number_of_nodes : Z) : Z * Z :=
  let mask_all_nodes := 2 ^ number_of_nodes - 1 in
  let mask_without_to_node := mask_all_nodes - 2 ^ to_node in
  (mask_without_to_node, 2 ^ to_node).

Section perform.
  Context {W : Type} `{FileSystem W} `{PyFloatRepr} `{Syscalls W}.

(** src/wca/cgroups_allocations.py:254-270 [_migrate_page_call] *)
Definition migrate_page_call (pid : string) (max_node old_nodes new_node : Z) : M W Z :=
  pid ← lift (py_int pid);
  r ← sys_migrate_pages pid (c_ulong (max_node + 1)) (c_ulong old_nodes) (c_ulong new_node);
  if r =? -1 then raise UnableToMigratePages else mret r.

(** src/wca/cgroups_allocations.py:231-251 [_migrate_pages]
    The mask of a node that is not a non-negative integer is a float, which
    [c_ulong] refuses after [int(pid)] has been evaluated. *)
Definition migrate_pages (task_pids : list string) (to_node : num) (number_of_nodes : Z)
    : M W unit :=
  forM_ task_pids (λ pid,
    try_except
      (match to_node with
       | PInt node =>
           if 0 <=? node then
             let '(old, new) := migrate_masks node number_of_nodes in
             _ ← migrate_page_call pid number_of_nodes old new; mret tt
           else _ ← lift (py_int pid); raise TypeError
       | PFloat _ => _ ← lift (py_int pid); raise TypeError
       end)
      (λ e, match e with UnableToMigratePages => Some (mret tt) | _ => None end)).

(** ** The operations of the classes *)

(** src/wca/cgroups_allocations.py:54-57 [QuotaAllocationValue.perform_allocations] *)
Definition quota_perform (b : BoxedNumeric) (cgroup : Cgroup) (subcgroups : list Cgroup) : M W unit :=
  _ ← set_quota cgroup (bn_value b);
  forM_ subcgroups (λ subcgroup, set_quota subcgroup QUOTA_NORMALIZED_MAX).

(** src/wca/cgroups_allocations.py:75-76 [SharesAllocationValue.perform_allocations] *)
Definition shares_perform (b : BoxedNumeric) (cgroup : Cgroup) : M W unit :=
  set_shares cgroup (bn_value b).

(** src/wca/cgroups_allocations.py:145-152 [CPUSetCPUSAllocationValue.perform_allocations] *)
Definition cpuset_cpus_perform (l : ListFormatValue) : M W unit :=
  cpus ← lift (decode_listformat (lf_value l));
  match lf_subcgroups l with
  | [] => set_cpuset_cpus (lf_cgroup l) cpus
  | subcgroups => forM_ subcgroups (λ subcgroup, set_cpuset_cpus subcgroup cpus)
  end.

(** src/wca/cgroups_allocations.py:172-179 [CPUSetMEMSAllocationValue.perform_allocations] *)
Definition cpuset_mems_perform (l : ListFormatValue) : M W unit :=
  mems ← lift (decode_listformat (lf_value l));
  match lf_subcgroups l with
  | [] => set_cpuset_mems (lf_cgroup l) mems
  | subcgroups => forM_ subcgroups (λ subcgroup, set_cpuset_mems subcgroup mems)
  end.

(** src/wca/cgroups_allocations.py:196-197 [CPUSetMemoryMigrateAllocationValue.perform_allocations] *)
Definition memory_migrate_perform (b : BoxedNumeric) (cgroup : Cgroup) : M W unit :=
  set_memory_migrate cgroup (bn_value b).

(** src/wca/cgroups_allocations.py:217-222 [MigratePagesAllocationValue.perform_allocations] *)
Definition migrate_pages_perform (b : BoxedNumeric) (container : ContainerInterface W)
    (platform : Platform) : M W unit :=
  pids ← ci_get_pids container false;
  migrate_pages pids (bn_value b) (numa_nodes platform).

(** src/wca/cgroups_allocations.py:224-228 [MigratePagesAllocationValue.validate] *)
Definition migrate_pages_validate (b : BoxedNumeric) (platform : Platform) : result unit :=
  _ ← boxed_validate b;
  if swap_enabled platform then Raise InvalidAllocations else Ok tt.

Definition cgroup_value_perform (v : cgroup_value W) : M W unit :=
  match v with
  | QuotaAllocationValue b c subs => quota_perform b c subs
  | SharesAllocationValue b c => shares_perform b c
  | CPUSetCPUSAllocationValue l => cpuset_cpus_perform l
  | CPUSetMEMSAllocationValue l => cpuset_mems_perform l
  | CPUSetMemoryMigrateAllocationValue b c => memory_migrate_perform b c
  | MigratePagesAllocationValue b c p => migrate_pages_perform b c p
  end.
End perform.

Section ops.
  Context {W : Type}.
  Implicit Types (v cur : cgroup_value W).

Definition cgroup_value_validate v : result unit :=
  match v with
  | QuotaAllocationValue b _ _ | SharesAllocationValue b _
  | CPUSetMemoryMigrateAllocationValue b _ => boxed_validate b
  | CPUSetCPUSAllocationValue l | CPUSetMEMSAllocationValue l => listformat_validate l
  | MigratePagesAllocationValue b _ p => migrate_pages_validate b p
  end.

Definition cgroup_value_metrics v : result (list Metric) :=
  match v with
  | QuotaAllocationValue b _ _ => Ok (quota_metrics b)
  | SharesAllocationValue b _ => Ok (shares_metrics b)
  | CPUSetCPUSAllocationValue l => cpuset_cpus_metrics l
  | CPUSetMEMSAllocationValue l => cpuset_mems_metrics l
  | CPUSetMemoryMigrateAllocationValue b _ => Ok (memory_migrate_metrics b)
  | MigratePagesAllocationValue b _ _ => Ok (migrate_pages_metrics b)
  end.

(** The [BoxedNumeric] part of a value, where its class has one. *)
Definition boxed_part v : option BoxedNumeric :=
  match v with
  | QuotaAllocationValue b _ _ | SharesAllocationValue b _
  | CPUSetMemoryMigrateAllocationValue b _ | MigratePagesAllocationValue b _ _ => Some b
  | _ => None
  end.

(** [self == other]: numbers compare with any boxed number, list formats only
    with the same class. *)
Definition cgroup_value_eq v cur : result bool :=
  match v, cur with
  | CPUSetCPUSAllocationValue a, CPUSetCPUSAllocationValue b
  | CPUSetMEMSAllocationValue a, CPUSetMEMSAllocationValue b => listformat_eq a b
  | _, _ => match boxed_part v, boxed_part cur with
            | Some a, Some b => boxed_eq a b
            | _, _ => Raise AssertionError
            end
  end.

(** src/wca/cgroups_allocations.py:95-107 [calculate_changeset]
    [ListFormatBasedAllocationValue] and [BoxedNumeric] decide alike. *)
Definition cgroup_value_changeset v (current : option (cgroup_value W))
    : result (cgroup_value W * option (cgroup_value W)) :=
  match current with
  | None => Ok (v, Some v)
  | Some cur => same ← cgroup_value_eq v cur;
                Ok (if same : bool then (cur, None) else (v, Some v))
  end.

(** What validated values satisfy and comparisons need. *)
Definition cgroup_value_ok v : Prop :=
  match v with
  | CPUSetCPUSAllocationValue l | CPUSetMEMSAllocationValue l =>
      is_Ok (decode_listformat (lf_value l)) = true
  | _ => ∀ b, boxed_part v = Some b → boxed_ok b
  end.

Lemma cgroup_value_eq_refl v : cgroup_value_ok v → cgroup_value_eq v v = Ok true.
Proof.
  assert (Hl : ∀ l, is_Ok (decode_listformat (lf_value l)) = true → listformat_eq l l = Ok true).
  { intros l (s & Hs)%is_Ok_true. unfold listformat_eq. rewrite Hs. simpl.
    by rewrite bool_decide_true. }
  assert (Hb : ∀ b, boxed_ok b → boxed_eq b b = Ok true).
  { intros b [Hv Ht]. by apply nisclose_refl. }
  destruct v; simpl; intros Hok; auto.
Qed.

Lemma cgroup_value_changeset_refl v :
  cgroup_value_ok v → ∃ t, cgroup_value_changeset v (Some v) = Ok (t, None).
Proof. intros Hok. exists v. simpl. by rewrite cgroup_value_eq_refl. Qed.

Lemma cgroup_value_changeset_stable v cur t c :
  cgroup_value_ok v → cgroup_value_changeset v (Some cur) = Ok (t, c) →
  ∃ t', cgroup_value_changeset v (Some t) = Ok (t', None).
Proof.
  intros Hok. simpl. destruct (cgroup_value_eq v cur) as [[|]|e] eqn:E; simpl; intros [= <- <-].
  - exists cur. by rewrite E.
  - exists v. by rewrite cgroup_value_eq_refl.
Qed.
End ops.

(** ** Properties *)

Lemma sorted_head_le (l : list Z) x y : StronglySorted Z.le l → head l = Some x → y ∈ l → x ≤ y.
Proof.
  destruct 1 as [|z l Hl Hall]; simpl; [done|]. intros [= ->] [->|Hin]%elem_of_cons; [lia|].
  rewrite Forall_forall in Hall. auto.
Qed.

Lemma sorted_le_last (l : list Z) x y : StronglySorted Z.le l → last l = Some x → y ∈ l → y ≤ x.
Proof.
  induction 1 as [|z l Hl IH Hall]; [done|]. rewrite last_cons. rewrite Forall_forall in Hall.
  destruct (last l) as [w|] eqn:E.
  - intros [= ->] [->|Hin]%elem_of_cons; [|auto].
    apply Hall. apply last_Some in E as [l' ->]. set_solver.
  - apply last_None in E as ->. intros [= ->] Hin. set_solver by lia.
Qed.

(** A cpuset given as a list of CPUs or nodes is accepted exactly
    when every number of it lies between 0 and the largest CPU or node of the
    platform; otherwise it is rejected as invalid (the empty set given by the
    empty string is accepted). *)
Theorem listformat_validate_range l s :
  decode_listformat (lf_value l) = Ok s → lf_value l = "" ∨ s ≠ ∅ →
  (listformat_validate l = Ok tt ↔ ∀ n, n ∈ s → 0 ≤ n ≤ lf_max_value l) ∧
  (listformat_validate l = Ok tt ∨ listformat_validate l = Raise InvalidAllocations).
Proof.
  intros Hs Hcase. unfold listformat_validate. rewrite Hs. cbn [catch mbind result_bind].
  destruct (String.eqb (lf_value l) "") eqn:He; to_prop.
  { rewrite He in Hs. injection Hs as <-. split; [|by left]. split; [set_solver|done]. }
  destruct Hcase as [|Hne]; [done|].
  pose proof (elements_sorted_Z s) as Hel. pose proof (py_sorted_Z_sorted (elements s)) as Hsort.
  fold (sorted_Z (elements s)) in Hsort. set (ns := sorted_Z (elements s)) in *.
  destruct (head ns) as [lo|] eqn:Hhd.
  2: { apply head_None in Hhd. rewrite Hhd in Hel. destruct Hne. apply set_eq. set_solver. }
  destruct (last ns) as [hi|] eqn:Hlast.
  2: { apply last_None in Hlast. rewrite Hlast in Hel. destruct Hne. apply set_eq. set_solver. }
  assert (Hlo : lo ∈ s) by (apply Hel; by apply head_Some_elem_of).
  assert (Hhi : hi ∈ s).
  { apply Hel. apply last_Some in Hlast as [l' ->]. set_solver. }
  cbn [or_raise mbind result_bind].
  destruct ((lo <? 0) || (hi >? lf_max_value l)) eqn:Hout.
  - split; [|by right]. split; [done|]. intros Hall. exfalso.
    apply orb_true_iff in Hout as [Hx|Hx]; to_prop.
    + specialize (Hall _ Hlo). lia.
    + specialize (Hall _ Hhi). lia.
  - split; [|by left]. split; [|done]. intros _ n Hn. to_prop.
    apply Hel in Hn. pose proof (sorted_head_le _ _ _ Hsort Hhd Hn).
    pose proof (sorted_le_last _ _ _ Hsort Hlast Hn). lia.
Qed.

(** A value of blanks is neither empty nor a list: the first element of the
    sorted list does not exist. *)
Lemma listformat_validate_blank cg labels m :
  listformat_validate (mkListFormatValue " " cg [] labels m) = Raise IndexError.
Proof. reflexivity. Qed.

(** C10 (bounds): for a target node below the number of nodes (at most 64), the
    masks given to [migrate_pages] fit in 64 bits; the new mask has the bit of the
    target node only, the old mask the bits of all the other nodes. *)
Theorem migrate_masks_bits to_node n old new :
  0 ≤ to_node < n → n ≤ 64 → migrate_masks to_node n = (old, new) →
  c_ulong old = old ∧ c_ulong new = new ∧
  ∀ i, 0 ≤ i → Z.testbit new i = (i =? to_node) ∧
               Z.testbit old i = ((i <? n) && negb (i =? to_node)).
Proof.
  intros Hto Hn [= <- <-].
  assert (Hpow : 0 < 2 ^ to_node) by (apply Z.pow_pos_nonneg; lia).
  assert (Hlt : 2 ^ to_node < 2 ^ n) by (apply Z.pow_lt_mono_r; lia).
  assert (Hle : 2 ^ n ≤ 2 ^ 64) by (apply Z.pow_le_mono_r; lia).
  assert (Hones : 2 ^ n - 1 = Z.ones n) by (rewrite Z.ones_equiv; lia).
  assert (Hsub : 2 ^ n - 1 - 2 ^ to_node = Z.ldiff (Z.ones n) (2 ^ to_node)).
  { rewrite Hones. apply Z.sub_nocarry_ldiff. apply Z.bits_inj'. intros i Hi.
    rewrite Z.ldiff_spec, Z.bits_0, Z.testbit_ones_nonneg, Z.pow2_bits_eqb by lia.
    destruct (to_node =? i) eqn:E; to_prop; [|done]. subst.
    by rewrite (proj2 (Z.ltb_lt i n)) by lia. }
  split; [apply Z.mod_small; lia|]. split; [apply Z.mod_small; lia|]. intros i Hi.
  rewrite Hsub, Z.ldiff_spec, Z.testbit_ones_nonneg, !Z.pow2_bits_eqb by lia.
  rewrite (Z.eqb_sym to_node i). done.
Qed.

(** ** Allocations that settle

    What has been performed is read back as an equal value, so the same allocation in the
    next iteration changes nothing. *)
Section settles.
  Context {W : Type} `{FileSystem W} `{!ControlFiles W} `{PyFloatRepr} `{Syscalls W}.

(** The cgroups that a cpuset is written to. *)
Definition cpuset_targets (l : ListFormatValue) : list Cgroup :=
  match lf_subcgroups l with [] => [lf_cgroup l] | subcgroups => subcgroups end.

Definition cpuset_path (c : Cgroup) (r : CgroupResource) : string :=
  get_proper_path c (resource_file r) CT_CPUSET.

Lemma write_listformat_written c ints r w w' :
  write_listformat c ints r CT_CPUSET w = (Ok tt, w') →
  ∃ out, cgroup_write c r (encode_listformat ints) CT_CPUSET w = (out, w') ∧
         (out = Ok tt ∨ out = Raise PermissionError).
Proof.
  unfold write_listformat, try_except.
  destruct (cgroup_write _ _ _ _ w) as [[[]|e] w1]; [intros [= <-]; eauto|].
  destruct e; try done. intros [= <-]. eauto.
Qed.

(** In a run of the writes to [cs], the kernel denied a write to the cpuset file of [c]. *)
Definition cpuset_denied (ints : gset Z) (r : CgroupResource) (cs : list Cgroup) (c : Cgroup) (w : W) : Prop :=
  ∃ before c' after w1, cs = before ++ c' :: after ∧
    forM_ before (λ c, write_listformat c ints r CT_CPUSET) w = (Ok tt, w1) ∧
    cpuset_path c' r = cpuset_path c r ∧
    (cgroup_write c' r (encode_listformat ints) CT_CPUSET w1).1 = Raise PermissionError.

Lemma cpuset_denied_later ints r c1 cs c w w1 :
  write_listformat c1 ints r CT_CPUSET w = (Ok tt, w1) →
  cpuset_denied ints r cs c w1 → cpuset_denied ints r (c1 :: cs) c w.
Proof.
  intros Hw (before & c' & after & w2 & -> & Hb & Hp & Hd). exists (c1 :: before), c', after, w2.
  split; [done|]. split; [|done]. cbn [forM_]. apply M_bind_Ok_iff. eauto.
Qed.

Lemma listformat_loop_written ints r cs w w' :
  forM_ cs (λ c, write_listformat c ints r CT_CPUSET) w = (Ok tt, w') →
  ∀ c, c ∈ cs ∨ fs_read (cpuset_path c r) w = Ok (encode_listformat ints) →
       cpuset_denied ints r cs c w ∨ fs_read (cpuset_path c r) w' = Ok (encode_listformat ints).
Proof.
  revert w. induction cs as [|c1 cs IH]; intros w Hl c Hc.
  { apply M_ret_Ok_iff in Hl as [_ ->]. destruct Hc as [?%not_elem_of_nil|]; [done|by right]. }
  cbn [forM_] in Hl. apply M_bind_Ok_iff in Hl as ([] & w1 & Hw & Hl).
  assert (Hrest : c ∈ cs ∨ fs_read (cpuset_path c r) w1 = Ok (encode_listformat ints) →
    cpuset_denied ints r (c1 :: cs) c w ∨ fs_read (cpuset_path c r) w' = Ok (encode_listformat ints)).
  { intros Hc'. destruct (IH _ Hl _ Hc') as [Hd|]; [left|by right]. by eapply cpuset_denied_later. }
  destruct (write_listformat_written _ _ _ _ _ Hw) as (out & Hout & Hok).
  destruct (decide (cpuset_path c1 r = cpuset_path c r)) as [Heq|Hne].
  - destruct Hok as [->| ->].
    + apply Hrest. right. rewrite <-Heq. by apply cgroup_write_reads in Hout.
    + left. exists [], c1, cs, w. by rewrite Hout.
  - apply Hrest. destruct Hc as [[->|Hin]%elem_of_cons|Hr]; [done|by left|right].
    by rewrite (read_other _ _ _ _ _ _ Hout Hne).
Qed.

Lemma listformat_read_back c ints r w :
  (∀ n, n ∈ ints → 0 ≤ n) →
  fs_read (cpuset_path c r) w = Ok (encode_listformat ints) →
  read_listformat c r CT_CPUSET w = (Ok (encode_listformat ints), w).
Proof.
  intros Hints Hr. unfold read_listformat. apply M_bind_Ok_iff. eexists _, _. split.
  - apply cgroup_read_raw_Ok_iff. split; [exact Hr|done].
  - rewrite strip_encode_listformat, decode_encode_listformat by done. done.
Qed.

(** The resource and the constructor of the two kinds of cpusets. *)
Definition cpuset_resource (v : cgroup_value W) : option (CgroupResource * ListFormatValue) :=
  match v with
  | CPUSetCPUSAllocationValue l => Some (R_CPUSET_CPUS, l)
  | CPUSetMEMSAllocationValue l => Some (R_CPUSET_MEMS, l)
  | _ => None
  end.
Definition with_cpuset (v : cgroup_value W) (value : string) : cgroup_value W :=
  let set l := mkListFormatValue value (lf_cgroup l) (lf_subcgroups l) (lf_labels l) (lf_max_value l) in
  match v with
  | CPUSetCPUSAllocationValue l => CPUSetCPUSAllocationValue (set l)
  | CPUSetMEMSAllocationValue l => CPUSetMEMSAllocationValue (set l)
  | v => v
  end.

(** C18 (roundtrip): a cpuset of CPUs or of memory nodes, none of them negative, that is
    performed settles: every cgroup it is for (that of the task, or those of all its
    containers) then reads back the same set, and a value made from what is read equals the
    one performed, so the same allocation in the next iteration makes no changeset; the only
    cgroups excepted are those for which the kernel denied a write of their cpuset file in
    this run (PermissionError), which the code passes over. *)
Theorem cpuset_settles v r l ints w w' :
  cpuset_resource v = Some (r, l) → decode_listformat (lf_value l) = Ok ints → (∀ n, n ∈ ints → 0 ≤ n) →
  cgroup_value_perform v w = (Ok tt, w') →
  ∀ c, c ∈ cpuset_targets l → cpuset_denied ints r (cpuset_targets l) c w ∨ ∃ raw,
    read_listformat c r CT_CPUSET w' = (Ok raw, w') ∧ decode_listformat raw = Ok ints ∧
    cgroup_value_changeset v (Some (with_cpuset v raw)) = Ok (with_cpuset v raw, None).
Proof.
  intros Hv Hdec Hints Hp c Hc.
  assert (Hraw : decode_listformat (encode_listformat ints) = Ok ints) by (by apply decode_encode_listformat).
  assert (Hwritten : cpuset_denied ints r (cpuset_targets l) c w ∨
                     fs_read (cpuset_path c r) w' = Ok (encode_listformat ints)).
  { apply (listformat_loop_written ints r (cpuset_targets l) w); [|by left]. clear Hc.
    destruct v; try done; injection Hv as <- <-; cbn in Hp;
      unfold cpuset_cpus_perform, cpuset_mems_perform, cpuset_targets in *; rewrite Hdec in Hp;
      apply M_bind_Ok_iff in Hp as (? & ? & [[= <-] ->]%lift_Ok_iff & Hp);
      (destruct (lf_subcgroups _) as [|s subs]; [|exact Hp]);
      cbn [forM_]; apply M_bind_Ok_iff; by exists tt, w'. }
  destruct Hwritten as [Hd|Hwritten]; [by left|right]. exists (encode_listformat ints).
  split; [by apply listformat_read_back|]. split; [done|].
  destruct v; try done; injection Hv as <- <-; cbn; unfold listformat_eq; cbn;
    rewrite Hdec, Hraw; cbn; by rewrite bool_decide_true.
Qed.

(** The same for the flag of memory migration, given as an integer. *)
Lemma memory_migrate_settles (n : Z) container labels w w' :
  0 ≤ n → boxed_ok (boxed (PInt n) labels (Some (PInt 0)) (Some (PInt 1))) →
  cgroup_value_perform (make_memory_migrate (PInt n) container labels) w = (Ok tt, w') →
  get_memory_migrate (ci_cgroup container) w' = (Ok n, w') ∧
  cgroup_value_changeset (make_memory_migrate (W := W) (PInt n) container labels)
    (Some (make_memory_migrate (PInt n) container labels)) = Ok (make_memory_migrate (PInt n) container labels, None).
Proof.
  intros Hn Hok Hp. split.
  - unfold get_memory_migrate, cgroup_read. apply cgroup_write_reads in Hp. apply M_bind_Ok_iff.
    exists (str_of_Z n), w'. split; [by apply cgroup_read_raw_Ok_iff|]. unfold lift. by rewrite py_int_str_of_Z.
  - unfold cgroup_value_changeset. rewrite cgroup_value_eq_refl; [done|]. by intros b [= <-].
Qed.
End settles.

(** ** Witnesses *)

Definition example_cpus : ListFormatValue :=
  mkListFormatValue "0-1,3" example_cgroup [] [] 3.

Lemma listformat_validate_range_witness :
  (listformat_validate example_cpus = Ok tt ↔ ∀ n, n ∈ ({[0; 1; 3]} : gset Z) → 0 ≤ n ≤ 3) ∧
  (listformat_validate example_cpus = Ok tt ∨
   listformat_validate example_cpus = Raise InvalidAllocations).
Proof.
  apply (listformat_validate_range example_cpus {[0; 1; 3]}); [vm_compute; reflexivity|].
  right. set_solver.
Defined.

Definition example_settles : cgroup_value memfs := CPUSetCPUSAllocationValue (mkListFormatValue "0-1,3" example_cgroup [] [] 3).
#[local] Instance settles_syscalls : Syscalls memfs := λ _ _ _ _, mret 0.
#[local] Instance settles_repr : PyFloatRepr := λ _, "0.0".

Lemma cpuset_settles_witness :
  ∃ raw, read_listformat example_cgroup R_CPUSET_CPUS CT_CPUSET (cgroup_value_perform example_settles example_fs).2 =
           (Ok raw, (cgroup_value_perform example_settles example_fs).2) ∧
    decode_listformat raw = Ok {[0; 1; 3]} ∧
    cgroup_value_changeset example_settles (Some (with_cpuset example_settles raw)) =
      Ok (with_cpuset example_settles raw, None).
Proof.
  destruct (cpuset_settles example_settles R_CPUSET_CPUS (mkListFormatValue "0-1,3" example_cgroup [] [] 3)
              {[0; 1; 3]} example_fs (cgroup_value_perform example_settles example_fs).2) with (c := example_cgroup)
    as [(before & c & after & w1 & _ & _ & _ & Hd)|Hs]; [done|..].
  - vm_compute. reflexivity.
  - set_solver by lia.
  - apply outcome_is. vm_compute. reflexivity.
  - left.
  - exfalso. revert Hd. unfold cgroup_write, fs_write, mbind, M_bind. cbn.
    destruct (mem_files w1 !! _); cbn; [|done]. by rewrite lookup_insert_eq.
  - exact Hs.
Defined.

Lemma migrate_masks_bits_witness :
  c_ulong 11 = 11 ∧ c_ulong 4 = 4 ∧
  ∀ i, 0 ≤ i → Z.testbit 4 i = (i =? 2) ∧ Z.testbit 11 i = ((i <? 4) && negb (i =? 2)).
Proof. apply (migrate_masks_bits 2 4); [lia|lia|reflexivity]. Defined.
