(* ===== verification/Tasks.v ===== *)
(** * Tasks and anomalies

    [src/wca/nodes.py], [src/wca/detectors.py], the QoS predicates of
    [src/wca/kubernetes.py] and the anomaly statistics of
    [src/wca/runners/detection.py].  The hash behind the identifier of an anomaly
    is a parameter. *)
From S2P Require Export PyStr PyDict PyNum Metrics Platforms Allocations.

(** [Union[float, int, str]] *)
Inductive resource_value := ResNum (n : num) | ResStr (s : string).

(** src/wca/nodes.py:33-61 [Task] *)
Record Task := mkTask {
  task_name : string;
  task_id : string;
  task_cgroup_path : string;
  task_subcgroups_paths : list string;
  task_labels : dict string string;
  task_resources : dict string resource_value
}.

(** src/wca/nodes.py:61-62 [Task.__eq__]: a task is identified by its id. *)
Definition task_eq (a b : Task) : bool := String.eqb (task_id a) (task_id b).

(** src/wca/detectors.py:43-46 [TaskData] *)
Record TaskData := mkTaskData {
  td_task : Task;
  td_measurements : measurements;
  td_allocations : option TaskAllocations
}.

(** src/wca/detectors.py:49-49 [TasksData] *)
Definition TasksData : Type := dict string TaskData.

(** ** Quality of service labels *)

(** src/wca/kubernetes.py:68-68 [QOS_LABELNAME] *)
Definition QOS_LABELNAME : string := "app_kubernetes_io__qos_class".

(** src/wca/kubernetes.py:357-358 [have_tasks_qos_label] *)
Definition have_tasks_qos_label (tasks : list Task) : bool :=
  forallb (λ task, dmem (task_labels task) QOS_LABELNAME) tasks.

(** src/wca/kubernetes.py:361-365 [are_all_tasks_of_single_qos] *)
Definition are_all_tasks_of_single_qos (tasks : list Task) : result bool :=
  qos ← mapM (λ task, dgetitem (task_labels task) QOS_LABELNAME) tasks;
  Ok (Nat.leb (length (py_set qos)) 1).

(** ** Anomalies *)

(** src/wca/detectors.py:58-63 [ContendedResource] *)
Inductive ContendedResource := MEMORY_BW | LLC | CR_CPUS | TDP | UNKN.
Definition ContendedResource_value (r : ContendedResource) : string :=
  match r with
  | MEMORY_BW => "memory bandwidth" | LLC => "cache" | CR_CPUS => "cpus"
  | TDP => "thermal design power" | UNKN => "unknown resource"
  end.

(** src/wca/detectors.py:82-91 [ContentionAnomaly] *)
Record ContentionAnomaly := mkContentionAnomaly {
  an_resource : ContendedResource;
  contended_task_id : string;
  contending_task_ids : list string;
  an_metrics : list Metric
}.

Definition label_metric (m : Metric) (labels : dict string string) : Metric :=
  mkMetric (m_name m) (m_value m) (dupdate (m_labels m) labels) (m_unit m) (m_type m) (m_help m)
    (m_granularity m).

Section anomalies.
  (** [str(uuid.UUID(bytes=sha256(text).digest()[:16]))] *)
  Context (uuid_of : string → string).

(** src/wca/detectors.py:66-71 [_create_uuid_from_tasks_ids] *)
Definition create_uuid_from_tasks_ids (task_ids : list string) : string :=
  uuid_of (str_join "," (py_sorted String.ltb task_ids)).

(** src/wca/detectors.py:162-164 [ContentionAnomaly._uuid] *)
Definition anomaly_uuid (a : ContentionAnomaly) : string :=
  create_uuid_from_tasks_ids (contended_task_id a :: contending_task_ids a).

(** src/wca/detectors.py:93-160 [ContentionAnomaly.generate_metrics] *)
Definition anomaly_generate_metrics (a : ContentionAnomaly) : list Metric :=
  ((λ task_id,
     mkMetric "anomaly" (MNum (PInt 1))
       [("contended_task_id", contended_task_id a); ("contending_task_id", task_id);
        ("resource", ContendedResource_value (an_resource a)); ("uuid", anomaly_uuid a);
        ("type", "contention")] None (Some COUNTER) None None) <$> contending_task_ids a)
  ++ ((λ m, label_metric m [("uuid", anomaly_uuid a); ("type", "anomaly")]) <$> an_metrics a).

(** src/wca/detectors.py:199-211 [convert_anomalies_to_metrics], one metric *)
Definition label_anomaly_metric (tasks_data : TasksData) (m : Metric) : result Metric :=
  m ← match dget (m_labels m) "contended_task_id" with
      | Some id => data ← dgetitem tasks_data id; Ok (label_metric m (task_labels (td_task data)))
      | None => Ok m
      end;
  match dget (m_labels m) "contending_task_id" with
  | Some id =>
      data ← dgetitem tasks_data id;
      Ok (label_metric m [("contending_workload_instance",
            default "workload not found" (dget (task_labels (td_task data)) "workload_instance"))])
  | None => Ok m
  end.

(** src/wca/detectors.py:187-212 [convert_anomalies_to_metrics] *)
Definition convert_anomalies_to_metrics (anomalies : list ContentionAnomaly)
    (tasks_data : TasksData) : result (list Metric) :=
  mapM (label_anomaly_metric tasks_data) (anomalies ≫= anomaly_generate_metrics).
End anomalies.

(** src/wca/detectors.py:215-223 [update_anomalies_metrics_with_task_information] *)
Definition update_anomalies_metrics_with_task_information (anomaly_metrics : list Metric)
    (tasks_data : TasksData) : result (list Metric) :=
  mapM (λ m, match dget (m_labels m) "contended_task_id" with
             | Some id => data ← dgetitem tasks_data id;
                          Ok (label_metric m (task_labels (td_task data)))
             | None => Ok m
             end) anomaly_metrics.

(** src/wca/runners/detection.py:31-35 [AnomalyStatistics] *)
Record AnomalyStatistics := mkAnomalyStatistics {
  anomaly_last_occurrence : option float;
  anomaly_counter : Z
}.

Definition counter_metric (name : string) (value : num) : Metric :=
  mkMetric name (MNum value) [] None (Some COUNTER) None None.

(** src/wca/runners/detection.py:40-58 [AnomalyStatistics.get_metrics] *)
Definition anomaly_statistics_metrics (now : float) (st : AnomalyStatistics)
    (anomalies : list ContentionAnomaly) : list Metric * AnomalyStatistics :=
  let st := match anomalies with
            | [] => st
            | _ => mkAnomalyStatistics (Some now)
                     (anomaly_counter st + Z.of_nat (length anomalies))
            end in
  (counter_metric "anomaly_count" (PInt (anomaly_counter st)) ::
   match anomaly_last_occurrence st with
   | Some t => if feqb t fzero then [] else [counter_metric "anomaly_last_occurrence" (PFloat t)]
   | None => []
   end, st).
