(* ===== verification/Json.v ===== *)
(** * JSON values

    The values [requests], Prometheus and the Kubernetes API hand to the code:
    nested dictionaries, lists, strings and numbers, with the two ways Python
    reads a dictionary. *)
From S2P Require Export PyStr PyDict PyNum.

#[warnings="-register-all"]
Inductive json : Type :=
  | JNull
  | JBool (b : bool)
  | JNum (n : num)
  | JStr (s : string)
  | JList (l : list json)
  | JObj (d : list (string * json)).

(** [v.get(k, d)]: an [AttributeError] when [v] is no dictionary. *)
Definition jget (v : json) (k : string) (d : json) : result json :=
  match v with
  | JObj o => Ok (default d (dget o k))
  | _ => Raise AttributeError
  end.

(** [v[k]] with a string key *)
Definition jitem (v : json) (k : string) : result json :=
  match v with
  | JObj o => dgetitem o k
  | _ => Raise TypeError
  end.

(** [v[i]] of a list *)
Definition jnth (v : json) (i : nat) : result json :=
  match v with
  | JList l => or_raise IndexError (l !! i)
  | _ => Raise TypeError
  end.

(** [list(v)] and [for x in v] over a list *)
Definition jiter (v : json) : result (list json) :=
  match v with
  | JList l => Ok l
  | _ => Raise TypeError
  end.

(** The string where the code needs one. *)
Definition jstr (v : json) : result string :=
  match v with JStr s => Ok s | _ => Raise TypeError end.

(** Truth value *)
Definition jtrue (v : json) : bool :=
  match v with
  | JNull => false
  | JBool b => b
  | JNum n => num_true n
  | JStr s => negb (String.eqb s "")
  | JList l => match l with [] => false | _ => true end
  | JObj d => match d with [] => false | _ => true end
  end.

(** [k in v] of a dictionary *)
Definition jmem (v : json) (k : string) : result bool :=
  match v with JObj o => Ok (dmem o k) | _ => Raise TypeError end.
