(* ===== verification/Kubernetes.v ===== *)
(** * Kubernetes

    [src/wca/kubernetes.py] and [src/wca/resources.py]: the pods a kubelet or the
    API server reports, as tasks.  The HTTP request is a parameter that returns the
    list of pods as JSON; a lost connection and a timeout are exceptions of it. *)
From S2P Require Export Config Tasks Json PyFloat FileSys Cgroups.

(** ** Resources of a pod *)

(** src/wca/resources.py:20-27 [_MEMORY_UNITS, _CPU_UNITS, _UNITS] *)
Definition MEMORY_UNITS : dict string num :=
  [("Ki", PInt 1024); ("Mi", PInt (1024 ^ 2)); ("Gi", PInt (1024 ^ 3)); ("Ti", PInt (1024 ^ 4));
   ("K", PInt 1000); ("M", PInt (1000 ^ 2)); ("G", PInt (1000 ^ 3)); ("T", PInt (1000 ^ 4))].
Definition CPU_UNITS : dict string num := [("m", PFloat (float_of_ratio 1 1000))].
Definition UNITS : dict string (dict string num) :=
  [("memory", MEMORY_UNITS); ("ephemeral-storage", MEMORY_UNITS); ("cpu", CPU_UNITS)].
Definition RESOURCE_TYPES : list string := ["requests"; "limits"].
Definition RESOURCE_MAPPING : dict string string :=
  [("requests_memory", "mem"); ("ephemeral-storage", "disk"); ("requests_cpu", "cpus")].

(** src/wca/resources.py:67-71 [calculate_pod_resources], the value with its unit
    [s.split(unit)[0]] is the part before the first occurrence of the unit. *)
Fixpoint with_unit (units : dict string num) (resource_value : string) : result (option num) :=
  match units with
  | [] => Ok None
  | (unit, multiplier) :: units =>
      if endswith unit resource_value then
        part ← or_raise IndexError (split_sub unit resource_value !! 0%nat);
        x ← py_float part;
        v ← nmul (PFloat x) multiplier;
        Ok (Some v)
      else with_unit units resource_value
  end.

(** src/wca/resources.py:65-77 [calculate_pod_resources], one resource *)
Definition resource_amount (resource_name : string) (resource_value : json) : result float :=
  units ← or_raise AttributeError (dget UNITS resource_name);
  text ← match resource_value with JStr s => Ok s | _ => Raise AttributeError end;
  v ← with_unit units text;
  match v with Some n => to_float n | None => py_float text end.

(** src/wca/resources.py:73-77 [calculate_pod_resources] *)
Definition add_resource (resource_type : string) (resources : dict string float)
    (nv : string * json) : result (dict string float) :=
  let '(resource_name, resource_value) := nv in
  value ← resource_amount resource_name resource_value;
  let resource_key := resource_type +:+ "_" +:+ resource_name in
  Ok (dset resources resource_key
        match dget resources resource_key with Some r => fadd r value | None => value end).

(** src/wca/resources.py:56-77 [calculate_pod_resources], one container *)
Definition container_resources (resources : dict string float) (container : json)
    : result (dict string float) :=
  spec ← jget container "resources" JNull;
  if negb (jtrue spec) then Ok resources
  else foldM (λ resources resource_type,
         present ← jmem spec resource_type;
         if present : bool then
           items ← jget spec resource_type JNull;
           match items with
           | JObj d => foldM (add_resource resource_type) resources d
           | _ => Raise AttributeError
           end
         else Ok resources) resources RESOURCE_TYPES.

(** src/wca/resources.py:50-86 [calculate_pod_resources] *)
Definition calculate_pod_resources (containers_spec : json) : result (dict string float) :=
  containers ← jiter containers_spec;
  resources ← foldM container_resources [] containers;
  let mapped_resources :=
    foldl (λ m '(original_resource, mapped_resource),
      match dget resources original_resource with
      | Some v => dset m mapped_resource v
      | None => m
      end) [] RESOURCE_MAPPING in
  Ok (dupdate resources mapped_resources).

(** ** Paths and labels *)

(** src/wca/kubernetes.py:62-64 [CgroupDriverType] *)
Inductive CgroupDriverType := SYSTEMD | CGROUPFS.

(** src/wca/kubernetes.py:346-347 [_sanitize_label] *)
Definition sanitize_label (label_key : string) : string :=
  str_replace "/" "__" (str_replace "-" "_" (str_replace "." "_" label_key)).

Definition MissingCgroupException : exn := OtherException "MissingCgroupException".
Definition TaskSynchronizationException : exn := OtherException "TaskSynchronizationException".

(** src/wca/kubernetes.py:340-343 [_build_cgroup_path], the end *)
Definition drop_last_slash (result : string) : string :=
  if (py_len result >? 1) && endswith "/" result
  then str_take (pred (String.length result)) result else result.

(** src/wca/kubernetes.py:318-324 [_build_cgroup_path], the directory of a pod *)
Definition pod_path (qos pod_id : string) : string :=
  path_join (path_join "/kubepods" (if String.eqb qos "guaranteed" then "" else qos))
    ("pod" +:+ pod_id).

(** src/wca/kubernetes.py:299-343 [_build_cgroup_path] *)
Definition build_cgroup_path {W} `{FileSystem W} (cgroup_driver : CgroupDriverType)
    (qos pod_id container_id : string) : M W string :=
  match cgroup_driver with
  | SYSTEMD =>
      let pod_id := str_replace "-" "_" pod_id in
      let container_id := if String.eqb container_id "" then ""
                          else "docker-" +:+ container_id +:+ ".scope" in
      mret (drop_last_slash
        (path_join (path_join (path_join (path_join "/kubepods.slice" ("kubepods-" +:+ qos +:+ ".slice"))
           ("kubepods-" +:+ qos +:+ "-pod" +:+ pod_id +:+ ".slice")) container_id) ""))
  | CGROUPFS =>
      let p := pod_path qos pod_id in
      let cutted := pod_path qos (str_replace "-" "" pod_id) in
      fs ← get_state;
      if fs_exists (CgroupSubsystem.CPU +:+ p) fs
      then mret (drop_last_slash (path_join (path_join p container_id) ""))
      else if fs_exists (CgroupSubsystem.CPU +:+ cutted) fs
      then mret (drop_last_slash (path_join (path_join cutted container_id) ""))
      else raise MissingCgroupException
  end.

(** src/wca/kubernetes.py:40-50 [KubernetesTask] *)
Record KubernetesTask := mkKubernetesTask { kt_task : Task; kt_qos : string }.

(** src/wca/kubernetes.py:71-78 [QosClass] *)
Definition QosClass_has_value (value : string) : bool :=
  bool_decide (value ∈ ["besteffort"; "burstable"; "guaranteed"]).

(** src/wca/kubernetes.py:128-143 [KubernetesNode], the fields that are not connection
    settings *)
Record KubernetesNode := mkKubernetesNode {
  kn_cgroup_driver : CgroupDriverType;
  kn_kubelet_enabled : bool;
  kn_node_ip : option string;
  kn_monitored_namespaces : list string
}.

(** A string, or the exception of using something else as one. *)
Definition jstr_or (e : exn) (v : json) : result string :=
  match v with JStr s => Ok s | _ => Raise e end.

(** ** Tasks *)
Section node.
  Context {W : Type} `{FileSystem W}.
  Context (self : KubernetesNode) (request : M W json).

(** src/wca/kubernetes.py:202-212 [KubernetesNode.get_tasks], the request *)
Definition request_pods : M W json :=
  try_except
    (response ← request;
     if kn_kubelet_enabled self then mret response
     else match kn_node_ip self with Some _ => mret response | None => raise ValueError end)
    (λ e, if bool_decide (e = OtherException "ConnectionError") ||
             bool_decide (e = OtherException "ReadTimeout")
          then Some (raise TaskSynchronizationException) else None).

(** src/wca/kubernetes.py:217-245 [KubernetesNode.get_tasks]
    Whether the pod runs here, with its container statuses. *)
Definition pod_statuses (pod : json) : result (option (list json)) :=
  status ← jitem pod "status"; container_statuses ← jget status "containerStatuses" JNull;
  status ← jitem pod "status"; host_ip ← jget status "hostIP" JNull;
  metadata ← jitem pod "metadata"; pod_id ← jget metadata "uid" JNull;
  metadata ← jitem pod "metadata"; pod_name ← jget metadata "name" JNull;
  if negb (jtrue container_statuses) then Ok None
  else
    here ← (if kn_kubelet_enabled self then
              namespace ← jget metadata "namespace" JNull;
              Ok match namespace with
                 | JStr s => bool_decide (s ∈ kn_monitored_namespaces self)
                 | _ => false
                 end
            else match host_ip with
                 | JNull => Ok false
                 | JStr ip => node_ip ← or_raise AttributeError (kn_node_ip self);
                              Ok (String.eqb ip (strip node_ip))
                 | _ => _ ← or_raise AttributeError (kn_node_ip self); Ok false
                 end);
    if here : bool then l ← jiter container_statuses; Ok (Some l) else Ok None.

(** src/wca/kubernetes.py:251-257 [KubernetesNode.get_tasks] *)
Definition pod_labels (metadata : json) (qos : string) : result (dict string json) :=
  labels ← jget metadata "labels" JNull;
  sanitized ← (if jtrue labels then
                 match labels with
                 | JObj d => Ok (dict_of ((λ kv, (sanitize_label kv.1, kv.2)) <$> d))
                 | _ => Raise AttributeError
                 end
               else Ok []);
  Ok (dset sanitized (sanitize_label QOS_LABELNAME) (JStr qos)).

(** src/wca/kubernetes.py:265-276 [KubernetesNode.get_tasks], one container status:
    [None] when the container is not ready. *)
Definition container_cgroup_path (qos : string) (pod_id container : json) : M W (option string) :=
  ready ← lift (jget container "ready" JNull);
  if jtrue ready then
    id ← lift (jget container "containerID" JNull);
    id ← lift (jstr_or AttributeError id);
    id ← lift (or_raise IndexError (split_sub "://" id !! 1%nat));
    uid ← lift (jstr_or AttributeError pod_id);
    path ← build_cgroup_path (kn_cgroup_driver self) qos uid id;
    mret (Some path)
  else
    state ← lift (jget container "state" JNull);
    _ ← lift match state with
             | JObj d => or_raise IndexError (d !! 0%nat)
             | _ => Raise AttributeError
             end;
    mret None.

(** src/wca/kubernetes.py:262-278 [KubernetesNode.get_tasks], all containers of a pod *)
Fixpoint containers_cgroups (qos : string) (pod_id : json) (statuses : list json)
    : M W (option (list string)) :=
  match statuses with
  | [] => mret (Some [])
  | container :: statuses =>
      path ← container_cgroup_path qos pod_id container;
      match path with
      | None => mret None
      | Some path =>
          rest ← containers_cgroups qos pod_id statuses;
          mret ((λ rest, path :: rest) <$> rest)
      end
  end.

(** src/wca/kubernetes.py:283-288 [KubernetesNode.get_tasks], the task of a ready pod *)
Definition make_pod_task (pod : json) (qos task_name : string) (labels : dict string json)
    (pod_id : json) (subcgroups_paths : list string) : M W KubernetesTask :=
  spec ← lift (jget pod "spec" JNull);
  containers ← lift (jget spec "containers" JNull);
  resources ← lift (calculate_pod_resources containers);
  uid ← lift (jstr_or AttributeError pod_id);
  path ← build_cgroup_path (kn_cgroup_driver self) qos uid "";
  labels ← lift (dmapM (jstr_or ValidationError) labels);
  mret (mkKubernetesTask
          (mkTask task_name uid path subcgroups_paths labels
             ((λ kv, (kv.1, ResNum (PFloat kv.2))) <$> resources)) qos).

(** src/wca/kubernetes.py:215-288 [KubernetesNode.get_tasks], one pod *)
Definition pod_task (pod : json) : M W (option KubernetesTask) :=
  statuses ← lift (pod_statuses pod);
  match statuses with
  | None => mret None
  | Some statuses =>
      status ← lift (jget pod "status" JNull);
      qos_class ← lift (jget status "qosClass" JNull);
      qos_class ← lift (jstr_or AttributeError qos_class);
      let qos := str_lower qos_class in
      metadata ← lift (jget pod "metadata" JNull);
      namespace ← lift (jget metadata "namespace" JNull);
      namespace ← lift (jstr_or TypeError namespace);
      pod_name ← lift (jget metadata "name" JNull);
      pod_name ← lift (jstr_or TypeError pod_name);
      _ ← lift (py_assert (QosClass_has_value qos));
      labels ← lift (pod_labels metadata qos);
      pod_id ← lift (jget metadata "uid" JNull);
      paths ← containers_cgroups qos pod_id statuses;
      match paths with
      | None => mret None
      | Some paths =>
          task ← make_pod_task pod qos (namespace +:+ "/" +:+ pod_name) labels pod_id paths;
          mret (Some task)
      end
  end.

(** src/wca/kubernetes.py:200-292 [KubernetesNode.get_tasks] *)
Definition get_tasks : M W (list KubernetesTask) :=
  response ← request_pods;
  pods ← lift (jiter response);
  foldMS (λ tasks pod, t ← pod_task pod;
                       mret match t with Some t => tasks ++ [t] | None => tasks end) [] pods.
End node.


Section node_spec.
  Context {W : Type} `{FileSystem W}.
  Context (self : KubernetesNode) (request : M W json).












End node_spec.

(** ** A concrete pod *)
Definition example_pod (ready : bool) : json :=
  JObj [("metadata", JObj [("uid", JStr "1-2"); ("name", JStr "p"); ("namespace", JStr "default");
                           ("labels", JObj [("app.kubernetes.io/name", JStr "redis")])]);
        ("spec", JObj [("containers", JList [JObj [("resources",
            JObj [("requests", JObj [("cpu", JStr "250m"); ("memory", JStr "1Ki")])])]])]);
        ("status", JObj [("qosClass", JStr "Burstable"); ("containerStatuses", JList
            [JObj [("ready", JBool ready); ("containerID", JStr "docker://c0");
                   ("state", JObj [("waiting", JNull)])]])])].
Definition example_node : KubernetesNode := mkKubernetesNode SYSTEMD true None ["default"].
Definition example_request : M memfs json := mret (JList [example_pod true; example_pod false]).

Definition example_tasks : list KubernetesTask :=
  result_get [] (get_tasks example_node example_request (mkMem ∅ ∅)).1.

Example example_tasks_value :
  example_tasks =
  [mkKubernetesTask
     (mkTask "default/p" "1-2" "/kubepods.slice/kubepods-burstable.slice/kubepods-burstable-pod1_2.slice"
        ["/kubepods.slice/kubepods-burstable.slice/kubepods-burstable-pod1_2.slice/docker-c0.scope"]
        [("app_kubernetes_io__name", "redis"); ("app_kubernetes_io__qos_class", "burstable")]
        [("requests_cpu", ResNum (PFloat (float_of_ratio 1 4)));
         ("requests_memory", ResNum (PFloat (float_of_ratio 1024 1)));
         ("mem", ResNum (PFloat (float_of_ratio 1024 1)));
         ("cpus", ResNum (PFloat (float_of_ratio 1 4)))]) "burstable"].
Proof. vm_compute. reflexivity. Qed.

