(* ===== verification/Storage.v ===== *)
(** * Storing metrics

    [src/wca/storage.py]: packages of metrics, the text format of Prometheus, the
    filter in front of other storages, and the division of long messages for Kafka.
    [repr] of a float, the size of a Python string and the Kafka producer are
    parameters. *)
From Stdlib Require Import OrdersEx.
From S2P Require Export Tasks PyFloat Cgroups.

(** ** Packages and filters *)
Section package.
  Context {W : Type}.

(** src/wca/storage.py:512-522 [MetricPackage.add_metrics, MetricPackage.send] *)
Definition package_send (store : list Metric → M W unit) (metrics : list (list Metric))
    (common_labels : dict string string) : M W unit :=
  store ((λ m, label_metric m common_labels) <$> concat metrics).

(** src/wca/storage.py:543-547 [FilterStorage.store] *)
Definition filter_store (storages : list (list Metric → M W unit)) (filter : option (list string))
    (metrics : list Metric) : M W unit :=
  let metrics := match filter with
                 | Some names => List.filter (λ m, bool_decide (m_name m ∈ names)) metrics
                 | None => metrics
                 end in
  forM_ storages (λ store, store metrics).
End package.

(** ** Text format *)

Definition char_between (a b c : ascii) : bool :=
  Nat.leb (nat_of_ascii a) (nat_of_ascii c) && Nat.leb (nat_of_ascii c) (nat_of_ascii b).
Definition is_letter (c : ascii) : bool := char_between "a" "z" c || char_between "A" "Z" c.

(** A match of [^F R*$]: the dollar also accepts one line feed at the end. *)
Definition re_name (first rest : ascii → bool) (s : string) : bool :=
  match s with
  | EmptyString => false
  | String c s' => first c && (str_forallb rest s' ||
      match str_rev s' with
      | String nl r => ascii_eqb nl newline && str_forallb rest r
      | EmptyString => false
      end)
  end.

(** src/wca/storage.py:154-156 [_METRIC_NAME_RE, _METRIC_LABEL_NAME_RE,
    _RESERVED_METRIC_LABEL_NAME_RE] *)
Definition METRIC_NAME_RE : string → bool :=
  re_name (λ c, is_letter c || ascii_eqb c "_" || ascii_eqb c ":")
          (λ c, is_letter c || is_decimal_char c || ascii_eqb c "_" || ascii_eqb c ":").
Definition METRIC_LABEL_NAME_RE : string → bool :=
  re_name (λ c, is_letter c || ascii_eqb c "_")
          (λ c, is_letter c || is_decimal_char c || ascii_eqb c "_").
Definition RESERVED_METRIC_LABEL_NAME_RE : string → bool := startswith "__".

(** src/wca/storage.py:163-201 [is_convertable_to_prometheus_exposition_format]
    Labels are strings and types are gauge or counter by construction. *)
Definition is_convertable (metrics : list Metric) : bool :=
  forallb (λ m,
    METRIC_NAME_RE (m_name m) &&
    forallb (λ kv, METRIC_LABEL_NAME_RE kv.1 && negb (RESERVED_METRIC_LABEL_NAME_RE kv.1))
      (m_labels m) &&
    match m_value m with MNum _ => true | _ => false end) metrics.

(** A label value in the natural order: digits count as a number. *)
Inductive natural := NatInt (z : Z) | NatStr (s : string).

(** src/wca/storage.py:211-217 [group_metrics_by_name], the sorting key *)
Definition natural_value (v : string) : result natural :=
  if is_decimal v then z ← py_int v; Ok (NatInt z) else Ok (NatStr v).
Definition sorting_key_for_metrics (m : Metric) : result (list (string * natural)) :=
  mapM (λ kv, n ← natural_value kv.2; Ok (kv.1, n))
    (py_sorted (λ a b, String.ltb a.1 b.1) (m_labels m)).

(** The order of two keys as Python compares lists of pairs: [None] where a
    number meets a string. *)
Fixpoint compare_keys (a b : list (string * natural)) : option comparison :=
  match a, b with
  | [], [] => Some Eq
  | [], _ => Some Lt
  | _, [] => Some Gt
  | (k1, v1) :: a', (k2, v2) :: b' =>
      if String.eqb k1 k2 then
        match v1, v2 with
        | NatInt x, NatInt y => match x ?= y with Eq => compare_keys a' b' | c => Some c end
        | NatStr x, NatStr y => match String.compare x y with
                                | Eq => compare_keys a' b'
                                | c => Some c
                                end
        | _, _ => None
        end
      else Some (String.compare k1 k2)
  end.

(** src/wca/storage.py:211-226 [group_metrics_by_name], the metrics of one name
    [sorted(metrics, key=...)]: any comparison sort has to compare two neighbours of
    its result, so it meets a number and a string under the same label whenever the
    metrics hold both after equal labels, and then raises [TypeError]. *)
Definition sort_by_labels (metrics : list Metric) : result (list Metric) :=
  keyed ← mapM (λ m, k ← sorting_key_for_metrics m; Ok (k, m)) metrics;
  if forallb (λ a, forallb (λ b, match compare_keys a.1 b.1 with None => false | _ => true end)
                     keyed) keyed
  then Ok (snd <$> py_sorted (λ a b, match compare_keys a.1 b.1 with Some Lt => true | _ => false end)
                     keyed)
  else Raise TypeError.

(** [itertools.groupby(metrics, key=name)]: runs of one name *)
Fixpoint group_runs (metrics : list Metric) : list (string * list Metric) :=
  match metrics with
  | [] => []
  | m :: metrics' =>
      match group_runs metrics' with
      | (name, g) :: gs => if String.eqb (m_name m) name then (name, m :: g) :: gs
                           else (m_name m, [m]) :: (name, g) :: gs
      | [] => [(m_name m, [m])]
      end
  end.

(** src/wca/storage.py:204-232 [group_metrics_by_name] *)
Definition group_metrics_by_name (metrics : list Metric) : result (list (string * list Metric)) :=
  mapM (λ g, ms ← sort_by_labels g.2; Ok (g.1, ms))
    (group_runs (py_sorted (λ a b, String.ltb (m_name a) (m_name b)) metrics)).

Definition backslash : ascii := "092"%char.
Definition quote : ascii := "034"%char.
Definition str1 (c : ascii) : string := String c "".

(** src/wca/storage.py:274-274 [convert_to_prometheus_exposition_format], a label value *)
Definition escape_label (v : string) : string :=
  str_replace quote (String backslash (str1 quote))
    (str_replace newline (String backslash "n")
       (str_replace backslash (String backslash (str1 backslash)) v)).

(** src/wca/storage.py:250-252 [convert_to_prometheus_exposition_format], the help *)
Definition escape_help (v : string) : string :=
  str_replace newline (String backslash "n")
    (str_replace backslash (String backslash (str1 backslash)) v).

Definition MetricType_value (t : MetricType) : string :=
  match t with GAUGE => "gauge" | COUNTER => "counter" end.

(** [if s:] of an optional string *)
Definition nonempty (s : option string) : bool :=
  match s with Some s => negb (String.eqb s "") | None => false end.

Section text.
  Context `{PyFloatRepr}.

(** src/wca/storage.py:271-283 [convert_to_prometheus_exposition_format], the labels *)
Definition label_text (filter_labels : option (list string)) (labels : dict string string) : string :=
  let kept := List.filter (λ kv, match filter_labels with
                                 | None => true
                                 | Some l => bool_decide (kv.1 ∈ l)
                                 end)
                (py_sorted (λ a b, String.ltb a.1 b.1) labels) in
  let text := str_join "," ((λ kv, kv.1 +:+ "=" +:+ str1 quote +:+ escape_label kv.2 +:+ str1 quote)
                              <$> kept) in
  if String.eqb text "" then "" else "{" +:+ text +:+ "}".

(** src/wca/storage.py:269-296 [convert_to_prometheus_exposition_format], one metric *)
Definition metric_line (timestamp : option string) (filter_labels : option (list string)) (m : Metric)
    : result string :=
  value_str ← match m_value m with
              | MNum n => Ok (num_str n)
              | _ => Raise AssertionError
              end;
  Ok (m_name m +:+ label_text filter_labels (m_labels m) +:+ " " +:+ value_str +:+
      match timestamp with Some t => " " +:+ t | None => "" end +:+ str1 newline).

(** src/wca/storage.py:244-296 [convert_to_prometheus_exposition_format], one group;
    the separator in front of the next group without help and type is carried on *)
Definition group_text (timestamp : option string) (filter_labels : option (list string))
    (acc : string * string * bool) (group : string * list Metric) : result (string * string * bool) :=
  let '(output, group_separator, first) := acc in
  first_metric ← or_raise IndexError (head group.2);
  let group_separator := if nonempty (m_help first_metric)
                         then (if first then "" else str1 newline) else group_separator in
  let help := if nonempty (m_help first_metric)
              then group_separator +:+ "# HELP " +:+ m_name first_metric +:+ " " +:+
                   escape_help (default "" (m_help first_metric)) +:+ str1 newline
              else "" in
  let type := match m_type first_metric with
              | Some t => "# TYPE " +:+ m_name first_metric +:+ " " +:+ MetricType_value t +:+
                          str1 newline
              | None => ""
              end in
  let plain := negb (nonempty (m_help first_metric)) &&
               match m_type first_metric with None => true | Some _ => false end in
  _ ← py_assert (forallb (λ m, bool_decide (m_type m = m_type first_metric)) group.2);
  _ ← py_assert (forallb (λ m, bool_decide (m_help m = m_help first_metric)) group.2);
  lines ← mapM (metric_line timestamp filter_labels) group.2;
  Ok (output +:+ help +:+ type +:+ (if plain then group_separator else "") +:+ str_join "" lines,
      if plain then group_separator else "", false).

(** src/wca/storage.py:235-298 [convert_to_prometheus_exposition_format] *)
Definition convert_to_prometheus_exposition_format (metrics : list Metric)
    (timestamp : option string) (filter_labels : option (list string)) : result string :=
  grouped_metrics ← group_metrics_by_name metrics;
  r ← foldM (group_text timestamp filter_labels) ("", "", true) grouped_metrics;
  Ok r.1.1.
End text.

(** ** Kafka *)

(** src/wca/storage.py:424-424 [KafkaStorage.divide_message] *)
Definition MAX_SIZE : Z := 10 ^ 5.

(** src/wca/storage.py:433-437 [KafkaStorage.divide_message]
    The comments in front of a line and the line, from the lines left. *)
Fixpoint metric_block (lines : list string) : result string :=
  match lines with
  | [] => Raise IndexError
  | line :: lines' =>
      if startswith "#" line then
        rest ← metric_block lines'; Ok (line +:+ str1 newline +:+ rest)
      else Ok (line +:+ str1 newline)
  end.

Section kafka.
  Context (getsizeof : string → Z).

(** src/wca/storage.py:432-443 [KafkaStorage.divide_message]
    The index of the loop is not the one the inner loop advances. *)
Fixpoint divide_lines (lines : list string) (new_message : string) (devided_message : list string)
    : result (list string) :=
  match lines with
  | [] => Ok devided_message
  | _ :: lines' =>
      new_metric ← metric_block lines;
      if (getsizeof (new_message +:+ new_metric) >? MAX_SIZE) && negb (String.eqb new_message "")
      then divide_lines lines' new_metric (devided_message ++ [new_message])
      else divide_lines lines' (new_message +:+ new_metric) devided_message
  end.

(** src/wca/storage.py:420-445 [KafkaStorage.divide_message] *)
Definition divide_message (msg : string) : result (list string) :=
  if getsizeof msg <? MAX_SIZE then Ok [msg]
  else divide_lines (split_on newline msg) "" [].

Section store.
  Context {W : Type} `{PyFloatRepr}.
  (** producing a message; flushing gives what is left in the queue; taking the
      error a delivery callback recorded; the clock *)
  Context (produce : string → M W unit) (flush : M W Z) (take_error : M W bool) (now : M W float).

Definition FailedDeliveryException : exn := OtherException "FailedDeliveryException".
Definition InconvertibleException : exn :=
  OtherException "InconvertibleToPrometheusExpositionFormat".

(** src/wca/storage.py:147-149 [get_current_time] *)
Definition get_current_time : M W string :=
  t ← now;
  ms ← lift (x ← nmul (PFloat t) (PInt 1000); num_trunc x);
  mret (str_of_Z ms).

(** src/wca/storage.py:447-501 [KafkaStorage.store] *)
Definition kafka_store (metrics : list Metric) : M W unit :=
  match metrics with
  | [] => mret tt
  | _ =>
      if is_convertable metrics then
        timestamp ← get_current_time;
        msg ← lift (convert_to_prometheus_exposition_format metrics (Some timestamp) None);
        messages ← lift (divide_message msg);
        forM_ messages (λ message,
          _ ← produce message;
          r ← flush;
          _ ← (if r >? 0 then raise FailedDeliveryException else mret tt : M W unit);
          failed ← take_error;
          if failed : bool then raise FailedDeliveryException else mret tt)
      else raise InconvertibleException
  end.
End store.
End kafka.

(** ** Escaping *)

Lemma str_replace_cons a b c s :
  str_replace a b (String c s) = (if ascii_eqb c a then b else str1 c) +:+ str_replace a b s.
Proof.
  unfold str_replace. cbn [split_on]. pose proof (split_on_not_nil a s) as Hne.
  destruct (split_on a s) as [|w ws] eqn:E; [done|].
  destruct (ascii_eqb c a); [done|]. by destruct ws.
Qed.

Lemma str_replace_app a b s1 s2 :
  str_replace a b (s1 +:+ s2) = str_replace a b s1 +:+ str_replace a b s2.
Proof.
  induction s1 as [|c s1 IH]; [done|]. change (String c s1 +:+ s2) with (String c (s1 +:+ s2)).
  rewrite !str_replace_cons, IH, str_app_assoc. done.
Qed.

(** How one character is written in a label. *)
Definition escape_char (c : ascii) : string :=
  if ascii_eqb c backslash then String backslash (str1 backslash)
  else if ascii_eqb c newline then String backslash "n"
  else if ascii_eqb c quote then String backslash (str1 quote)
  else str1 c.

Lemma escape_label_cons c s : escape_label (String c s) = escape_char c +:+ escape_label s.
Proof.
  unfold escape_label. rewrite (str_replace_cons backslash), !str_replace_app.
  f_equal. unfold escape_char. destruct (ascii_eqb c backslash) eqn:Eb; [reflexivity|].
  change (str1 c) with (String c ""). rewrite (str_replace_cons newline). destruct (ascii_eqb c newline) eqn:En.
  - reflexivity.
  - change (str_replace newline (String backslash "n") "") with "". rewrite str_app_nil_r.
    change (str1 c) with (String c ""). rewrite str_replace_cons.
    change (str_replace quote (String backslash (str1 quote)) "") with "". by rewrite str_app_nil_r.
Qed.

(** *** Reading the labels back, as the text format defines them

    A value ends at the first quote without a backslash, and may not go over the end of its
    line; after a backslash stands a backslash, a quote or an [n]. *)
Definition unescaped (d : ascii) : option ascii :=
  if ascii_eqb d backslash then Some backslash
  else if ascii_eqb d "n" then Some newline
  else if ascii_eqb d quote then Some quote
  else None.

Fixpoint read_value (s : string) : option (string * string) :=
  match s with
  | EmptyString => None
  | String c s' =>
      if ascii_eqb c quote then Some (EmptyString, s')
      else if ascii_eqb c newline then None
      else if ascii_eqb c backslash then
        match s' with
        | String d s'' => x ← unescaped d; '(v, rest) ← read_value s''; Some (String x v, rest)
        | EmptyString => None
        end
      else '(v, rest) ← read_value s'; Some (String c v, rest)
  end.

(** A name and its equals sign. *)
Fixpoint read_name (s : string) : option (string * string) :=
  match s with
  | EmptyString => None
  | String c s' =>
      if ascii_eqb c "=" then Some (EmptyString, s')
      else '(name, rest) ← read_name s'; Some (String c name, rest)
  end.

(** Pairs up to the closing brace; there are no more pairs than characters. *)
Fixpoint read_pairs (fuel : nat) (s : string) : option (list (string * string) * string) :=
  match fuel with
  | O => None
  | S fuel =>
      '(name, s) ← read_name s;
      match s with
      | String q s =>
          if ascii_eqb q quote then
            '(value, s) ← read_value s;
            match s with
            | String c s =>
                if ascii_eqb c "," then '(l, rest) ← read_pairs fuel s; Some ((name, value) :: l, rest)
                else if ascii_eqb c "}" then Some ([(name, value)], s)
                else None
            | EmptyString => None
            end
          else None
      | EmptyString => None
      end
  end.

Definition read_labels (s : string) : option (list (string * string) * string) :=
  match s with
  | String c s' => if ascii_eqb c "{" then read_pairs (String.length s') s' else Some ([], s)
  | EmptyString => Some ([], s)
  end.

Lemma escape_label_plain v : no_char newline (escape_label v) = true.
Proof.
  unfold no_char. induction v as [|c v IH]; [done|].
  rewrite escape_label_cons, str_forallb_app, IH. unfold escape_char.
  destruct (ascii_eqb c backslash); [done|]. destruct (ascii_eqb c newline) eqn:En; [done|].
  destruct (ascii_eqb c quote); [done|]. simpl. by rewrite En.
Qed.

Lemma read_value_escape v rest : read_value (escape_label v +:+ String quote rest) = Some (v, rest).
Proof.
  induction v as [|c v IH]; [done|]. rewrite escape_label_cons. unfold escape_char.
  destruct (ascii_eqb c backslash) eqn:Eb; [apply ascii_eqb_eq in Eb as ->; simpl; by rewrite IH|].
  destruct (ascii_eqb c newline) eqn:En; [apply ascii_eqb_eq in En as ->; simpl; by rewrite IH|].
  destruct (ascii_eqb c quote) eqn:Eq; [apply ascii_eqb_eq in Eq as ->; simpl; by rewrite IH|].
  change (str1 c +:+ escape_label v) with (String c (escape_label v)).
  change (String c (escape_label v) +:+ String quote rest) with (String c (escape_label v +:+ String quote rest)).
  cbn [read_value]. by rewrite Eq, En, Eb, IH.
Qed.

(** A name as the pattern of label names has it, without the line feed that its dollar sign
    lets stand at the end. *)
Definition label_name (s : string) : bool :=
  str_forallb (λ c, is_letter c || is_decimal_char c || ascii_eqb c "_") s.

(** The dollar sign lets a line feed stand at the end of a name, which ends the line in the
    middle of a metric. *)
Example name_with_line_feed :
  METRIC_LABEL_NAME_RE ("a" +:+ str1 newline) = true ∧ METRIC_NAME_RE ("m" +:+ str1 newline) = true.
Proof. done. Qed.

Lemma label_name_no_char c s :
  is_letter c || is_decimal_char c || ascii_eqb c "_" = false → label_name s = true → no_char c s = true.
Proof.
  intros Hc. unfold label_name, no_char. induction s as [|x s IH]; [done|]. simpl.
  intros [Hx Hs]%andb_true_iff. rewrite IH by done. destruct (ascii_eqb x c) eqn:E; [|done].
  apply ascii_eqb_eq in E as ->. congruence.
Qed.

Lemma read_name_equals name rest :
  no_char "=" name = true → read_name (name +:+ String "=" rest) = Some (name, rest).
Proof.
  unfold no_char. induction name as [|c name IH]; [done|]. simpl. intros [Hc Hn]%andb_true_iff.
  apply negb_true_iff in Hc. by rewrite Hc, IH.
Qed.

Definition pair_text (kv : string * string) : string :=
  kv.1 +:+ "=" +:+ str1 quote +:+ escape_label kv.2 +:+ str1 quote.

Lemma pair_text_app kv rest :
  pair_text kv +:+ rest = kv.1 +:+ String "=" (String quote (escape_label kv.2 +:+ String quote rest)).
Proof. unfold pair_text, str1. by rewrite !str_app_assoc. Qed.

Lemma read_pairs_text fuel kv l rest :
  label_name kv.1 = true → Forall (λ kv, label_name kv.1 = true) l → (length l < fuel)%nat →
  read_pairs fuel (str_join "," (pair_text <$> kv :: l) +:+ String "}" rest) = Some (kv :: l, rest).
Proof.
  revert fuel kv. induction l as [|kv' l IH]; intros fuel kv Hkv Hl Hfuel;
    (destruct fuel as [|fuel]; [simpl in Hfuel; lia|]); destruct kv as [k v]; cbn [fst] in Hkv.
  - rewrite fmap_cons. cbn [str_join fmap list_fmap]. rewrite pair_text_app. cbn [read_pairs fst snd].
    rewrite read_name_equals by by apply label_name_no_char. cbn [mbind option_bind].
    rewrite read_value_escape. done.
  - apply Forall_cons in Hl as [Hkv' Hl]. rewrite fmap_cons.
    change (str_join "," (pair_text (k, v) :: (pair_text <$> kv' :: l)))
      with (pair_text (k, v) +:+ "," +:+ str_join "," (pair_text <$> kv' :: l)).
    rewrite !str_app_assoc, pair_text_app. cbn [read_pairs fst snd].
    rewrite read_name_equals by by apply label_name_no_char. cbn [mbind option_bind].
    rewrite read_value_escape. change ("," +:+ ?x) with (String "," x). cbn [ascii_eqb mbind option_bind].
    simpl in Hfuel. rewrite (IH fuel kv') by (done || lia). done.
Qed.

Lemma str_length_app s1 s2 : String.length (s1 +:+ s2) = (String.length s1 + String.length s2)%nat.
Proof. induction s1 as [|c s1 IH]; [done|]. simpl. by rewrite IH. Qed.

Lemma filter_perm {A} (p : A → bool) l l' : l ≡ₚ l' → List.filter p l ≡ₚ List.filter p l'.
Proof.
  induction 1 as [|x l l' _ IH|x y l|l1 l2 l3 _ IH1 _ IH2]; simpl; [done|..].
  - destruct (p x); by rewrite ?IH.
  - destruct (p x), (p y); try done. apply Permutation_swap.
  - by etrans.
Qed.

Lemma pairs_length kv l : (length l < String.length (str_join "," (pair_text <$> kv :: l)))%nat.
Proof.
  revert kv. induction l as [|kv' l IH]; intros kv; rewrite fmap_cons.
  - unfold pair_text. simpl. destruct kv as [[|]]; simpl; lia.
  - change (str_join "," (pair_text kv :: (pair_text <$> kv' :: l)))
      with (pair_text kv +:+ "," +:+ str_join "," (pair_text <$> kv' :: l)).
    rewrite !str_length_app. specialize (IH kv'). change (String.length ",") with 1%nat.
    change (length (kv' :: l)) with (S (length l)). lia.
Qed.

Lemma no_char_pairs l :
  Forall (λ kv, label_name kv.1 = true) l → no_char newline (str_join "," (pair_text <$> l)) = true.
Proof.
  assert (Hpair : ∀ kv, label_name kv.1 = true → no_char newline (pair_text kv) = true).
  { intros kv Hkv. apply (label_name_no_char newline) in Hkv; [|done].
    pose proof (escape_label_plain kv.2) as Hv. unfold no_char, pair_text in *.
    by rewrite !str_forallb_app, Hkv, Hv. }
  unfold no_char in *. induction 1 as [|kv l Hkv Hl IH]; [done|]. destruct l as [|kv' l]; [by apply Hpair|].
  change (str_join "," (pair_text <$> kv :: kv' :: l))
    with (pair_text kv +:+ "," +:+ str_join "," (pair_text <$> kv' :: l)).
  by rewrite !str_forallb_app, Hpair, IH.
Qed.

(** The labels that the filter keeps. *)
Definition kept_labels (filter_labels : option (list string)) (labels : dict string string)
    : list (string * string) :=
  List.filter (λ kv, match filter_labels with
                     | None => true
                     | Some l => bool_decide (kv.1 ∈ l)
                     end) labels.

(** C23 (roundtrip): the text of the labels of a metric (names of letters, digits and
    underscores, without the line feed that the check before lets stand at the end) is on one line, and what reads it as the text format
    defines it, in front of the blank and the value, finds exactly the labels that the filter
    keeps, with their values, whatever backslashes, quotes and line feeds these contain. *)
Theorem label_text_round_trip filter_labels (labels : dict string string) rest :
  Forall (λ kv, label_name kv.1 = true) labels →
  let text := label_text filter_labels labels in
  no_char newline text = true ∧
  ∃ read, read_labels (text +:+ String " " rest) = Some (read, String " " rest) ∧
          read ≡ₚ kept_labels filter_labels labels.
Proof.
  intros Hnames text. subst text. unfold label_text.
  fold (kept_labels filter_labels (py_sorted (λ a b, String.ltb a.1 b.1) labels)). fold pair_text.
  set (kept := kept_labels filter_labels (py_sorted _ labels)).
  assert (Hperm : kept ≡ₚ kept_labels filter_labels labels).
  { unfold kept, kept_labels. apply filter_perm, py_sorted_Permutation. }
  assert (Hkept : Forall (λ kv, label_name kv.1 = true) kept).
  { rewrite Hperm. unfold kept_labels. rewrite Forall_forall in *. intros kv Hin.
    apply list_elem_of_In, filter_In in Hin as [Hin _]. by apply Hnames, list_elem_of_In. }
  cbv zeta. clearbody kept. destruct kept as [|kv l].
  { split; [done|]. by exists []. }
  destruct (String.eqb _ "") eqn:E.
  { to_prop. pose proof (pairs_length kv l) as Hlen. rewrite E in Hlen. simpl in Hlen. lia. }
  split; [|exists (kv :: l); split; [|done]].
  - apply no_char_pairs in Hkept. unfold no_char in *. rewrite !str_forallb_app, Hkept. done.
  - apply Forall_cons in Hkept as [Hkv Hl].
    change ("{" +:+ ?x) with (String "{" x). cbn [read_labels String.append].
    change (ascii_eqb "{" "{") with true. cbv iota.
    rewrite str_app_assoc. change ("}" +:+ String " " rest) with (String "}" (String " " rest)).
    rewrite read_pairs_text; [done..|]. rewrite str_length_app. pose proof (pairs_length kv l). lia.
Qed.

(** Two of three labels, with a quote, a backslash and a line feed in their values. *)
Definition example_labels : dict string string :=
  [("task", "a" +:+ str1 quote +:+ "b"); ("app", str1 backslash +:+ "n" +:+ str1 newline); ("cpu", "0")].

Lemma label_text_round_trip_witness :
  let text := label_text (Some ["app"; "task"]) example_labels in
  no_char newline text = true ∧
  ∃ read, read_labels (text +:+ String " " "1.0") = Some (read, String " " "1.0") ∧
          read ≡ₚ kept_labels (Some ["app"; "task"]) example_labels.
Proof. apply (label_text_round_trip (Some ["app"; "task"]) example_labels "1.0"). by repeat constructor. Defined.

(** ** Grouping *)

Definition str_le (a b : string) : Prop := String.ltb b a = false.

Lemma ltb_lt a b : String.ltb a b = true ↔ OrdersEx.String_as_OT.lt a b.
Proof.
  unfold String.ltb. change (OrdersEx.String_as_OT.lt a b) with (String.compare a b = Lt).
  by destruct (String.compare a b).
Qed.

Lemma str_le_cases a b : str_le a b ↔ a = b ∨ String.ltb a b = true.
Proof.
  unfold str_le, String.ltb. rewrite (String.compare_antisym b a).
  destruct (String.compare a b) eqn:E; simpl; [|naive_solver|].
  - apply String.compare_eq_iff in E as ->. naive_solver.
  - split; [done|]. intros [->|]; [|done]. pose proof (String.compare_antisym b b) as Hr. by rewrite E in Hr.
Qed.

Lemma ltb_trans a b c : String.ltb a b = true → String.ltb b c = true → String.ltb a c = true.
Proof. rewrite !ltb_lt. apply OrdersEx.String_as_OT.lt_strorder. Qed.

Lemma ltb_irrefl a : String.ltb a a = false.
Proof.
  destruct (String.ltb a a) eqn:E; [|done]. apply ltb_lt in E.
  by apply (RelationClasses.StrictOrder_Irreflexive (R := OrdersEx.String_as_OT.lt)) in E.
Qed.

Lemma str_le_refl a : str_le a a.
Proof. apply ltb_irrefl. Qed.

Lemma str_le_antisym a b : str_le a b → str_le b a → a = b.
Proof.
  rewrite !str_le_cases. intros [->|H1] [Heq|H2]; try done.
  pose proof (ltb_trans _ _ _ H1 H2) as H. by rewrite ltb_irrefl in H.
Qed.

Lemma str_le_trans a b c : str_le a b → str_le b c → str_le a c.
Proof.
  rewrite !str_le_cases. intros [->|H1] [->|H2]; auto. right. by eapply ltb_trans.
Qed.

Lemma group_runs_concat ms : concat (group_runs ms).*2 = ms.
Proof.
  induction ms as [|m ms IH]; [done|]. cbn [group_runs].
  destruct (group_runs ms) as [|[name g] gs]; [simpl in *; by subst|].
  destruct (String.eqb (m_name m) name); simpl in *; by f_equal.
Qed.

Lemma group_runs_names ms :
  Forall (λ ng, ng.2 ≠ [] ∧ Forall (λ m, m_name m = ng.1) ng.2) (group_runs ms).
Proof.
  induction ms as [|m ms IH]; [constructor|]. cbn [group_runs].
  destruct (group_runs ms) as [|[name g] gs]; [repeat constructor; done|].
  destruct (String.eqb (m_name m) name) eqn:E; to_prop.
  - inversion IH as [|? ? [H1 H2] H3]; subst. constructor; [|done]. split; [done|]. by constructor.
  - constructor; [|done]. split; [done|]. by constructor.
Qed.

(** The first run has the name of the first metric. *)
Lemma group_runs_head m ms : ∃ g gs, group_runs (m :: ms) = (m_name m, g) :: gs.
Proof.
  cbn [group_runs]. destruct (group_runs ms) as [|[name g] gs]; [by eexists _, _|].
  destruct (String.eqb (m_name m) name) eqn:E; to_prop; subst; by eexists _, _.
Qed.

Lemma group_runs_name_in ms name : name ∈ (group_runs ms).*1 → ∃ m, m ∈ ms ∧ m_name m = name.
Proof.
  intros ([n g] & -> & Hin)%list_elem_of_fmap.
  pose proof (group_runs_names ms) as Hall. rewrite Forall_forall in Hall.
  destruct (Hall _ Hin) as [Hne Hnames]. destruct g as [|m g]; [done|].
  exists m. split; [|by inversion Hnames]. rewrite <-(group_runs_concat ms).
  apply list_elem_of_In, in_concat. exists (m :: g). split; [|by left].
  apply list_elem_of_In, list_elem_of_fmap. by exists (n, m :: g).
Qed.

Lemma group_runs_NoDup ms :
  StronglySorted (λ a b, str_le (m_name a) (m_name b)) ms → NoDup (group_runs ms).*1.
Proof.
  induction 1 as [|m ms Hs IH Hall]; [constructor|]. cbn [group_runs].
  destruct (group_runs ms) as [|[name g] gs] eqn:E; [apply NoDup_singleton|].
  destruct (String.eqb (m_name m) name) eqn:En; [exact IH|]. to_prop.
  change (NoDup (m_name m :: ((name, g) :: gs).*1)). apply NoDup_cons. split; [|exact IH].
  intros Hin. destruct ms as [|m1 ms]; [done|].
  destruct (group_runs_head m1 ms) as (g1 & gs1 & Hh). rewrite Hh in E. injection E as Hn Hg Hgs.
  assert (Hex : ∃ m2, m2 ∈ m1 :: ms ∧ m_name m2 = m_name m).
  { apply group_runs_name_in. rewrite Hh. by subst. }
  destruct Hex as (m2 & Hm2 & Heq). apply En. rewrite <-Hn.
  apply str_le_antisym; [inversion Hall; by subst|]. rewrite <-Heq.
  apply elem_of_cons in Hm2 as [->|Hm2]; [apply str_le_refl|].
  inversion Hs as [|? ? _ Hall1]; subst. rewrite Forall_forall in Hall1. by apply Hall1.
Qed.

Lemma mapM_snd {A B} (f : A → result B) l keyed :
  mapM (λ a, k ← f a; Ok (k, a)) l = Ok keyed → keyed.*2 = l.
Proof.
  intros Hm%mapM_Ok_Forall2. induction Hm as [|a [k a'] l keyed Ha _ IH]; [done|].
  apply bind_Ok_iff in Ha as (k' & _ & [= _ <-]). rewrite fmap_cons. by rewrite IH.
Qed.

Lemma sort_by_labels_perm ms ms' : sort_by_labels ms = Ok ms' → ms' ≡ₚ ms.
Proof.
  unfold sort_by_labels. intros Hs. apply bind_Ok_iff in Hs as (keyed & Hk & Hs).
  apply mapM_snd in Hk. destruct (forallb _ keyed); [|done]. injection Hs as <-.
  by rewrite py_sorted_Permutation, Hk.
Qed.

(** Grouping the metrics for the text format loses none and
    duplicates none: there is one group for every name, all metrics of the name are
    in it, so the help and type lines appear once per name. *)
Theorem group_metrics_by_name_partition ms gs :
  group_metrics_by_name ms = Ok gs →
  concat gs.*2 ≡ₚ ms ∧ NoDup gs.*1 ∧
  ∀ name g, (name, g) ∈ gs → g ≠ [] ∧ ∀ m, m ∈ g → m_name m = name.
Proof.
  unfold group_metrics_by_name. set (sorted := py_sorted _ ms). intros Hm%mapM_Ok_Forall2.
  assert (Hsorted : StronglySorted (λ a b, str_le (m_name a) (m_name b)) sorted).
  { apply py_sorted_sorted; [intros x y z; apply str_le_trans|intros x y Hlt|done].
    apply str_le_cases. by right. }
  pose proof (group_runs_NoDup _ Hsorted) as Hnd. pose proof (group_runs_names sorted) as Hnames.
  assert (Hperm : concat (group_runs sorted).*2 ≡ₚ ms).
  { rewrite group_runs_concat. apply py_sorted_Permutation. }
  assert (Hrel : concat gs.*2 ≡ₚ concat (group_runs sorted).*2 ∧ gs.*1 = (group_runs sorted).*1 ∧
    Forall (λ ng, ng.2 ≠ [] ∧ Forall (λ m, m_name m = ng.1) ng.2) gs).
  { clear Hnd Hperm. induction Hm as [|[n g] [n' g'] runs gs Hg _ IH]; [done|].
    inversion Hnames as [|? ? [Hne Hall] Hrest]; subst. destruct (IH Hrest) as (IH1 & IH2 & IH3).
    apply bind_Ok_iff in Hg as (g1 & Hg & [= <- <-]). apply sort_by_labels_perm in Hg.
    cbn [fst snd] in *. rewrite !fmap_cons. cbn [concat fst snd]. split_and!.
    - by rewrite Hg, IH1.
    - by rewrite IH2.
    - constructor; [|done]. cbn [fst snd]. split; [|by rewrite Hg].
      intros ->. apply Hne. by apply Permutation_nil. }
  destruct Hrel as (Hc & Hn & Hall). rewrite Hc, Hn. split; [done|]. split; [done|].
  intros name g Hin. rewrite Forall_forall in Hall. destruct (Hall _ Hin) as [Hne Hg].
  split; [done|]. by apply Forall_forall.
Qed.

Definition example_metric (name task : string) : Metric :=
  mkMetric name (MNum (PInt 1)) [("task_id", task)] None (Some GAUGE) (Some "help") None.
Definition example_metrics : list Metric :=
  [example_metric "b" "10"; example_metric "a" "x"; example_metric "b" "9"].

Lemma group_metrics_by_name_partition_witness :
  (result_get [] (group_metrics_by_name example_metrics)).*1 = ["a"; "b"] ∧
  concat (result_get [] (group_metrics_by_name example_metrics)).*2 ≡ₚ example_metrics ∧
  NoDup (result_get [] (group_metrics_by_name example_metrics)).*1 ∧
  ∀ name g, (name, g) ∈ result_get [] (group_metrics_by_name example_metrics) →
    g ≠ [] ∧ ∀ m, m ∈ g → m_name m = name.
Proof.
  split; [vm_compute; reflexivity|].
  apply (group_metrics_by_name_partition example_metrics
           (result_get [] (group_metrics_by_name example_metrics))).
  vm_compute. reflexivity.
Defined.

(** Two tasks, one called by a number: the metrics cannot be sorted. *)
Example mixed_labels_raise :
  group_metrics_by_name [example_metric "a" "1"; example_metric "a" "x"] = Raise TypeError.
Proof. vm_compute. reflexivity. Qed.

(** ** Dividing messages *)

Lemma app_newline_inj c s1 s2 : s1 +:+ String c "" = s2 +:+ String c "" → s1 = s2.
Proof.
  revert s2. induction s1 as [|x s1 IH]; intros [|y s2] Heq; [done|..]; injection Heq as Hc Hs.
  - by destruct s2.
  - by destruct s1.
  - subst y. f_equal. by apply IH.
Qed.

(** Each line with its line feed. *)
Definition lines_text (lines : list string) : string := str_join "" ((λ l, l +:+ str1 newline) <$> lines).

Lemma str_join_nil_cons x l : str_join "" (x :: l) = x +:+ str_join "" l.
Proof. destruct l; simpl; [by rewrite str_app_nil_r|done]. Qed.

Lemma lines_text_cons line lines : lines_text (line :: lines) = line +:+ str1 newline +:+ lines_text lines.
Proof. unfold lines_text. rewrite fmap_cons, str_join_nil_cons. apply str_app_assoc. Qed.

Lemma lines_text_split s : lines_text (split_on newline s) = s +:+ str1 newline.
Proof.
  rewrite <-(join_split newline s) at 2. pose proof (split_on_not_nil newline s) as Hne.
  destruct (split_on newline s) as [|w ws]; [done|]. clear Hne. revert w.
  induction ws as [|w' ws IH]; intros w.
  - unfold lines_text. simpl. done.
  - rewrite lines_text_cons, IH. cbn [str_join]. by rewrite !str_app_assoc.
Qed.

Lemma str_join_app l1 l2 : str_join "" (l1 ++ l2) = str_join "" l1 +:+ str_join "" l2.
Proof.
  induction l1 as [|x l1 IH]; [done|]. change ((x :: l1) ++ l2) with (x :: (l1 ++ l2)).
  rewrite !str_join_nil_cons, IH. by rewrite str_app_assoc.
Qed.

(** Without comments every line is a block of its own; what is collected last is in no
    chunk.  [l] is this text without its final line feed: it is empty only where the line feed
    would have made the chunk before too long. *)
Definition unsent (getsizeof : string → Z) (divided : list string) (l : string) : Prop :=
  l = "" → divided = [] ∨ ∃ c, last divided = Some c ∧ MAX_SIZE < getsizeof (c +:+ str1 newline).

Lemma divide_lines_collected getsizeof lines l divided :
  Forall (λ l, startswith "#" l = false) lines → unsent getsizeof divided l →
  ∃ chunks lost, divide_lines getsizeof lines (l +:+ str1 newline) divided = Ok chunks ∧
    str_join "" divided +:+ (l +:+ str1 newline) +:+ lines_text lines =
      str_join "" chunks +:+ lost +:+ str1 newline ∧
    unsent getsizeof chunks lost.
Proof.
  intros Hl. revert l divided. induction Hl as [|line lines Hline _ IH]; intros l divided Hu.
  - exists divided, l. split; [done|]. split; [|done]. unfold lines_text. simpl. by rewrite str_app_nil_r.
  - assert (Hsome : String.eqb (l +:+ str1 newline) "" = false) by (by destruct l).
    cbn [divide_lines metric_block]. rewrite Hline. cbn [mbind result_bind]. rewrite Hsome, andb_true_r.
    rewrite lines_text_cons. destruct (_ >? MAX_SIZE) eqn:Hbig.
    + destruct (IH line (divided ++ [l +:+ str1 newline])) as (chunks & lost & -> & Heq & Hlost).
      { intros ->. right. exists (l +:+ str1 newline). rewrite last_snoc. split; [done|].
        by apply Z.gtb_lt in Hbig. }
      exists chunks, lost. split; [done|]. split; [|done].
      rewrite <-Heq, str_join_app. cbn [str_join]. by rewrite !str_app_assoc.
    + rewrite <-str_app_assoc. destruct (IH ((l +:+ str1 newline) +:+ line) divided) as (chunks & lost & -> & Heq & Hlost).
      { intros He. by destruct l. }
      exists chunks, lost. split; [done|]. split; [|done]. rewrite <-Heq. by rewrite !str_app_assoc.
Qed.

(** C30 (error): the division of a long message for Kafka loses its end: a message without
    comment lines that is too long to be sent as it is divides into chunks that are a prefix of
    the text, and the rest of it is in no chunk; nothing is missing only where the last chunk
    with one more line feed exceeds the limit. *)
Theorem divide_message_loses_end getsizeof msg :
  MAX_SIZE ≤ getsizeof msg → msg ≠ "" → Forall (λ l, startswith "#" l = false) (split_on newline msg) →
  ∃ chunks lost, divide_message getsizeof msg = Ok chunks ∧ msg = str_join "" chunks +:+ lost ∧
    (lost = "" → ∃ c, last chunks = Some c ∧ MAX_SIZE < getsizeof (c +:+ str1 newline)).
Proof.
  intros Hsize Hne Hl. unfold divide_message. rewrite (proj2 (Z.ltb_ge _ _) Hsize).
  pose proof (lines_text_split msg) as Htext. pose proof (split_on_not_nil newline msg) as Hnn.
  destruct (split_on newline msg) as [|line lines]; [done|].
  apply Forall_cons in Hl as [Hline Hl]. cbn [divide_lines metric_block]. rewrite Hline.
  cbn [mbind result_bind]. rewrite andb_false_r.
  destruct (divide_lines_collected getsizeof lines line [] Hl) as (chunks & lost & Hd & Heq & Hlost); [by left|].
  exists chunks, lost. split; [exact Hd|]. rewrite lines_text_cons in Htext.
  assert (Hmsg : msg = str_join "" chunks +:+ lost).
  { apply (app_newline_inj newline). rewrite str_app_assoc. change (String newline "") with (str1 newline).
    rewrite <-Heq, <-Htext. simpl. by rewrite str_app_assoc. }
  split; [done|]. intros He. destruct (Hlost He) as [->|Hc]; [|done].
  exfalso. apply Hne. by rewrite Hmsg, He.
Qed.

(** A size of 49 bytes and one per character, as for ASCII text; here scaled so that
    a short text is already too long. *)
Definition example_size (s : string) : Z := 49 + 100000 * py_len s.

Lemma divide_message_loses_end_witness :
  divide_message example_size "a 1" = Ok [] ∧
  ∃ chunks lost, divide_message example_size "a 1" = Ok chunks ∧ "a 1" = str_join "" chunks +:+ lost ∧
    (lost = "" → ∃ c, last chunks = Some c ∧ MAX_SIZE < example_size (c +:+ str1 newline)).
Proof.
  split; [vm_compute; reflexivity|].
  apply (divide_message_loses_end example_size "a 1").
  - vm_compute. discriminate.
  - discriminate.
  - repeat constructor.
Defined.

(** A text of exactly the limit that ends in a line feed is sent whole. *)
Example whole_at_the_limit :
  let size s := 99998 + py_len s in
  MAX_SIZE ≤ size (lines_text ["a"]) ∧ divide_message size (lines_text ["a"]) = Ok [lines_text ["a"]].
Proof. vm_compute. done. Qed.
