(* ===== verification/LogStorage.v ===== *)
(** * Metrics in a file or on a stream

    [LogStorage] of [src/wca/storage.py]: the file of the last metrics, which is
    replaced as a whole through a temporary file, or a stream that grows.  Renaming a
    file and printing are the operations of the machine it adds to the file system. *)
From S2P Require Export Storage Config.

(** [Path.rename] and [print(msg, file=output, flush=True)] *)
Class Output (F : Type) : Type := {
  fs_rename : string → string → M F unit;
  out_print : string → M F unit
}.

(** ** Names *)

(** [PurePath.with_suffix(suffix)], on the last component of the path *)
Fixpoint last_dot (s : string) (i : Z) (found : option Z) : option Z :=
  match s with
  | EmptyString => found
  | String c s => last_dot s (i + 1) (if ascii_eqb c "." then Some i else found)
  end.

Definition name_stem (name : string) : string :=
  match last_dot name 0 None with
  | Some i => if (0 <? i) && (i <? py_len name - 1) then str_take (Z.to_nat i) name else name
  | None => name
  end.

Definition with_suffix (path suffix : string) : result string :=
  match rev (split_on "/" path) with
  | [] => Raise ValueError
  | name :: dirs =>
      if String.eqb name "" then Raise ValueError
      else Ok (str_join "/" (rev dirs ++ [name_stem name +:+ suffix]))
  end.

(** ** The storage *)

(** src/wca/storage.py:87-90 [LogStorage] *)
Record LogStorage := mkLogStorage {
  ls_output_filename : option string; ls_overwrite : bool;
  ls_include_timestamp : bool; ls_filter_labels : option (list string)
}.

(** src/wca/storage.py:92-107 [LogStorage.__post_init__]
    Opening the file for appending is left to the stream. *)
Definition make_LogStorage (output_filename : option string) (overwrite : bool)
    (include_timestamp : option bool) (filter_labels : option (list string)) : result LogStorage :=
  let include_timestamp := default (negb overwrite) include_timestamp in
  match output_filename with
  | None => if overwrite then Raise (OtherException "Exception")
            else Ok (mkLogStorage None overwrite include_timestamp filter_labels)
  | Some _ => Ok (mkLogStorage output_filename overwrite include_timestamp filter_labels)
  end.

Section log_storage.
  Context {W : Type} `{FileSystem W} `{Output W} `{PyFloatRepr}.
  Context (now : M W float) (self : LogStorage).

(** src/wca/storage.py:120-124 [LogStorage.store], the text *)
Definition log_message (metrics : list Metric) : M W string :=
  timestamp ← (if ls_include_timestamp self then t ← get_current_time now; mret (Some t)
               else mret None : M W (option string));
  lift (convert_to_prometheus_exposition_format metrics timestamp (ls_filter_labels self)).

(** src/wca/storage.py:129-133 [LogStorage.store], the replacement of the file *)
Definition replace_file (output_filename msg : string) : M W unit :=
  p_tmp ← lift (with_suffix output_filename ".tmp");
  _ ← fs_write p_tmp msg;
  fs_rename p_tmp output_filename.

(** [print] ends the text with a newline. *)
Definition print_line (msg : string) : M W unit := out_print (msg +:+ str1 newline).

(** src/wca/storage.py:109-136 [LogStorage.store] *)
Definition log_store (metrics : list Metric) : M W unit :=
  if is_convertable metrics then
    msg ← log_message metrics;
    if ls_overwrite self then
      output_filename ← lift (or_raise TypeError (ls_output_filename self));
      replace_file output_filename msg
    else print_line msg
  else raise InconvertibleException.
End log_storage.

(** ** The file is replaced as a whole *)

(** Renaming moves the content, or fails and changes nothing. *)
Class OutputLaws (F : Type) `{FileSystem F} `{Output F} : Prop := {
  rename_Ok old new fs fs' :
    fs_rename old new fs = (Ok tt, fs') → fs_read new fs' = fs_read old fs;
  rename_fails old new fs e fs' path :
    fs_rename old new fs = (Raise e, fs') → fs_read path fs' = fs_read path fs;
  print_keeps msg fs path : fs_read path (out_print msg fs).2 = fs_read path fs
}.

Section replaced.
  Context {W : Type} `{FileSystem W} `{!ControlFiles W} `{Output W} `{!OutputLaws W} `{PyFloatRepr}.
  Context (now : M W float) (now_keeps : ∀ w, (now w).2 = w) (self : LogStorage).

Lemma replace_file_whole p p_tmp msg w r w' :
  with_suffix p ".tmp" = Ok p_tmp → p_tmp ≠ p → replace_file p msg w = (r, w') →
  (r = Ok tt ∧ fs_read p w' = Ok msg) ∨ ((∃ e, r = Raise e) ∧ fs_read p w' = fs_read p w).
Proof.
  intros Hs Hne. unfold replace_file, mbind, M_bind, lift. rewrite Hs.
  destruct (fs_write p_tmp msg w) as [[[]|e] w1] eqn:Ew.
  - destruct (fs_rename p_tmp p w1) as [[[]|e] w2] eqn:Er; intros [= <- <-].
    + left. split; [done|]. rewrite (rename_Ok _ _ _ _ Er). by apply (read_after_write _ _ _ _ Ew).
    + right. split; [eauto|]. rewrite (rename_fails _ _ _ _ _ p Er). by apply (read_other _ _ _ _ _ _ Ew).
  - intros [= <- <-]. right. split; [eauto|]. by apply (read_other _ _ _ _ _ _ Ew).
Qed.

Lemma log_message_keeps metrics : within eq (log_message now self metrics).
Proof.
  assert (Hnow : within eq now) by (intros w; by rewrite now_keeps).
  unfold log_message, get_current_time. within.
Qed.

(** C25 (safety): with [overwrite], an output file whose temporary file is another file (so its
    name does not end in .tmp: such a file is written in place) and a clock that only tells the
    time: after storing, the file holds the whole text of the metrics when storing has
    succeeded, and exactly what it held before when anything has failed (the check of the
    metrics, their conversion, the writing of the temporary file or the renaming). *)
Theorem overwrite_all_or_nothing p p_tmp metrics w r w' :
  ls_overwrite self = true → ls_output_filename self = Some p →
  with_suffix p ".tmp" = Ok p_tmp → p_tmp ≠ p →
  log_store now self metrics w = (r, w') →
  (r = Ok tt ∧ ∃ msg, (log_message now self metrics w).1 = Ok msg ∧ fs_read p w' = Ok msg) ∨
  ((∃ e, r = Raise e) ∧ fs_read p w' = fs_read p w).
Proof.
  intros Ho Hf Hs Hne. unfold log_store, mbind, M_bind. rewrite Ho, Hf. cbn [or_raise lift].
  destruct (is_convertable metrics); [|intros [= <- <-]; right; eauto].
  pose proof (log_message_keeps metrics w) as Hk.
  destruct (log_message now self metrics w) as [[msg|e] w1]; cbn in Hk; subst w1.
  - intros Hr. apply (replace_file_whole _ _ _ _ _ _ Hs Hne) in Hr as [[-> Hr]|Hr]; [left|by right].
    split; [done|]. by exists msg.
  - intros [= <- <-]. right. eauto.
Qed.

(** Metrics that cannot be converted leave the machine as it is. *)
Lemma inconvertible_not_stored metrics w :
  is_convertable metrics = false → log_store now self metrics w = (Raise InconvertibleException, w).
Proof. intros Hc. unfold log_store. by rewrite Hc. Qed.
End replaced.

(** ** A file in memory *)
#[local] Instance example_output : Output memfs := {
  fs_rename old new m :=
    match mem_files m !! old with
    | Some c => (Ok tt, mkMem (<[new := c]> (delete old (mem_files m))) (mem_dirs m))
    | None => (Raise FileNotFoundError, m)
    end;
  out_print _ m := (Ok tt, m)
}.
#[local] Instance example_output_laws : OutputLaws memfs.
Proof.
  split.
  - intros old new m m'. cbn. destruct (mem_files m !! old); [|done]. intros [= <-]. cbn. by rewrite lookup_insert_eq.
  - intros old new m e m' path. cbn. destruct (mem_files m !! old); [done|]. by intros [= _ <-].
  - done.
Qed.
#[local] Instance example_repr : PyFloatRepr := λ _, "x".
Definition example_log : LogStorage := mkLogStorage (Some "/var/wca.prom") true false None.
Definition example_fs : memfs := mkMem {["/var/wca.prom" := "old"; "/var/wca.tmp" := ""]} ∅.
Definition example_now : M memfs float := mret fzero.
Definition example_stored : result unit * memfs :=
  log_store example_now example_log [example_metric "m" "t"] example_fs.

Example with_suffix_examples :
  with_suffix "/var/wca.prom" ".tmp" = Ok "/var/wca.tmp" ∧ with_suffix "a.b.c" ".tmp" = Ok "a.b.tmp" ∧
  with_suffix "/var/.wca" ".tmp" = Ok "/var/.wca.tmp" ∧ with_suffix "m" ".tmp" = Ok "m.tmp".
Proof. vm_compute. done. Qed.

Lemma overwrite_all_or_nothing_witness :
  example_stored.1 = Ok tt ∧
  ((example_stored.1 = Ok tt ∧
    ∃ msg, (log_message example_now example_log [example_metric "m" "t"] example_fs).1 = Ok msg ∧
           fs_read "/var/wca.prom" example_stored.2 = Ok msg) ∨
   ((∃ e, example_stored.1 = Raise e) ∧
    fs_read "/var/wca.prom" example_stored.2 = fs_read "/var/wca.prom" example_fs)).
Proof.
  split; [vm_compute; reflexivity|].
  apply (overwrite_all_or_nothing example_now (λ w, eq_refl) example_log "/var/wca.prom" "/var/wca.tmp"
           [example_metric "m" "t"] example_fs).
  - reflexivity.
  - reflexivity.
  - vm_compute. reflexivity.
  - discriminate.
  - apply surjective_pairing.
Defined.

(** A file that is itself called [.tmp] is written in place. *)
Example tmp_in_place : with_suffix "/var/wca.tmp" ".tmp" = Ok "/var/wca.tmp".
Proof. vm_compute. done. Qed.
