(* ===== verification/Containers.v ===== *)
(** * Containers

    [src/wca/containers.py]: a task's container, alone ([Container]) or a pod with
    the containers inside it ([ContainerSet]), and the [ContainerManager] that keeps
    containers, tasks and resctrl groups together.  The manager's objects are values
    in a dictionary keyed by the task: two tasks never share a container unless they
    share a cgroup path, and then the operations of one iteration treat the copies
    alike. *)
From S2P Require Export Tasks World CgroupsAllocations PerfDerived SysStats Wss.

(** ** Names and measurements *)

(** src/wca/containers.py:42-49 [flatten_measurements] *)
Definition flatten_measurements (l : list measurements) : result measurements :=
  foldM (λ all m,
    _ ← py_assert (negb (existsb (λ k, dmem all k) (dkeys m)));
    Ok (dupdate all m)) [] l.

(** [s.replace('/', '-')] *)
Definition slash_to_dash (s : string) : string := str_join "-" (split_on "/" s).

(** src/wca/containers.py:52-57 [_sanitize_cgroup_path] *)
Definition sanitize_cgroup_path (cgroup_path : string) : result string :=
  _ ← py_assert (startswith "/" cgroup_path);
  Ok (slash_to_dash (str_drop 1 cgroup_path)).

(** ** Objects *)

(** The option [sched]: off, on, or on for the keys a pattern matches. *)
Inductive sched_option := SchedOff | SchedOn | SchedPattern (m : matches).

(** src/wca/containers.py:451-471 [ContainerManager.__init__], the configuration *)
Record ContainerConfig := mkContainerConfig {
  cc_platform : Platform;
  cc_allocation_configuration : option AllocationConfiguration;
  cc_event_names : list string;
  cc_enable_derived_metrics : bool;
  cc_wss : WSSConfig;
  cc_perf_aggregate_cpus : bool;
  cc_sched : sched_option
}.

(** src/wca/containers.py:281-338 [Container], the attributes that change *)
Record Container := mkContainer {
  ct_name : string;
  ct_cgroup : Cgroup;
  ct_resgroup : option ResGroup;
  ct_wss : option WSS;
  ct_perf : option nat;
  ct_derived : option derived_state
}.

(** src/wca/containers.py:110-167 [ContainerSet] *)
Record ContainerSet := mkContainerSet {
  cs_name : string;
  cs_cgroup : Cgroup;
  cs_resgroup : option ResGroup;
  cs_wss : option WSS;
  cs_subcontainers : dict string Container
}.

Inductive container := CSingle (c : Container) | CSet (s : ContainerSet).

(** src/wca/containers.py:183-193 [ContainerSet.get_cgroup_path, get_name, get_resgroup] *)
Definition container_path (c : container) : string :=
  cgroup_path match c with CSingle c => ct_cgroup c | CSet s => cs_cgroup s end.
Definition container_name (c : container) : string :=
  match c with CSingle c => ct_name c | CSet s => cs_name s end.
Definition container_resgroup (c : container) : option ResGroup :=
  match c with CSingle c => ct_resgroup c | CSet s => cs_resgroup s end.
Definition container_cgroup (c : container) : Cgroup :=
  match c with CSingle c => ct_cgroup c | CSet s => cs_cgroup s end.

(** src/wca/containers.py:176-178 [ContainerSet.get_subcgroups]; a single container
    has none. *)
Definition get_subcgroups (c : container) : list Cgroup :=
  match c with CSingle _ => [] | CSet s => ct_cgroup <$> dvalues (cs_subcontainers s) end.

(** src/wca/containers.py:180-181 [ContainerSet.set_resgroup] *)
Definition set_resgroup (r : ResGroup) (c : container) : container :=
  match c with
  | CSingle c => CSingle (mkContainer (ct_name c) (ct_cgroup c) (Some r) (ct_wss c) (ct_perf c)
                            (ct_derived c))
  | CSet s => CSet (mkContainerSet (cs_name s) (cs_cgroup s) (Some r) (cs_wss s) (cs_subcontainers s))
  end.

Definition set_ct_wss (w : option WSS) (c : Container) : Container :=
  mkContainer (ct_name c) (ct_cgroup c) (ct_resgroup c) w (ct_perf c) (ct_derived c).
Definition set_ct_derived (d : option derived_state) (c : Container) : Container :=
  mkContainer (ct_name c) (ct_cgroup c) (ct_resgroup c) (ct_wss c) (ct_perf c) d.
Definition set_cs_wss (w : option WSS) (s : ContainerSet) : ContainerSet :=
  mkContainerSet (cs_name s) (cs_cgroup s) (cs_resgroup s) w (cs_subcontainers s).
Definition set_cs_subcontainers (d : dict string Container) (s : ContainerSet) : ContainerSet :=
  mkContainerSet (cs_name s) (cs_cgroup s) (cs_resgroup s) (cs_wss s) d.

Section containers.
  Context {W : Type} `{FileSystem W} `{PyFloatRepr} `{Md : Metadata} `{PerfBackend W}.
  Context (now : M W float) (set_order : list string → list string) (cfg : ContainerConfig).

(** [platform.rdt_information], and whether it is monitored. *)
Definition rdt_monitored : option RDTInformation :=
  match rdt_information (cc_platform cfg) with
  | Some r => if is_monitoring_enabled r then Some r else None
  | None => None
  end.
Definition rdt_present : bool :=
  match rdt_information (cc_platform cfg) with Some _ => true | None => false end.

(** ** Creation *)

Definition make_wss (enabled : bool) : M W (option WSS) :=
  match wss_reset_cycles (cc_wss cfg) with
  | Some _ => if enabled then t ← now; mret (Some (wss_init t)) else mret None
  | None => mret None
  end.

(** src/wca/containers.py:282-338 [Container.__init__]
    The containers of a set are created without working set size. *)
Definition make_container (with_wss : bool) (path : string) : M W Container :=
  name ← lift (sanitize_cgroup_path path);
  _ ← lift (py_assert (negb (String.eqb name "")));
  cgroup ← lift (make_cgroup path (cc_allocation_configuration cfg) (Some (cc_platform cfg)));
  wss ← make_wss with_wss;
  perf ← match cc_event_names cfg with
         | [] => mret None
         | names => h ← perf_open path names (cc_perf_aggregate_cpus cfg); mret (Some h)
         end;
  mret (mkContainer name cgroup None wss perf
          (if cc_enable_derived_metrics cfg then Some derived_init else None)).

(** src/wca/containers.py:111-167 [ContainerSet.__init__] *)
Definition make_container_set (path : string) (paths : list string) : M W ContainerSet :=
  name ← lift (sanitize_cgroup_path path);
  cgroup ← lift (make_cgroup path (cc_allocation_configuration cfg) (Some (cc_platform cfg)));
  wss ← make_wss true;
  subs ← foldMS (λ subs path, c ← make_container false path; mret (dset subs path c)) [] paths;
  mret (mkContainerSet name cgroup None wss subs).

(** src/wca/containers.py:340-344 [Container.reset_counters] *)
Definition single_reset_counters (c : Container) : M W unit := reset_counters (ct_cgroup c).

(** src/wca/containers.py:172-174 [ContainerSet.reset_counters] *)
Definition container_reset_counters (c : container) : M W unit :=
  match c with
  | CSingle c => single_reset_counters c
  | CSet s => forM_ (dvalues (cs_subcontainers s)) single_reset_counters
  end.

(** src/wca/containers.py:473-508 [ContainerManager._create_container] *)
Definition create_container (task : Task) : M W container :=
  c ← match task_subcgroups_paths task with
      | [] => c ← make_container true (task_cgroup_path task); mret (CSingle c)
      | paths => s ← make_container_set (task_cgroup_path task) paths; mret (CSet s)
      end;
  _ ← container_reset_counters c;
  mret c.

(** ** Operations *)

(** src/wca/containers.py:369-370 [Container.get_pids] *)
Definition single_get_pids (c : Container) (include_threads : bool) : M W (list string) :=
  cgroup_get_pids (ct_cgroup c) include_threads.

(** src/wca/containers.py:195-199 [ContainerSet.get_pids] *)
Definition get_pids (c : container) (include_threads : bool) : M W (list string) :=
  match c with
  | CSingle c => single_get_pids c include_threads
  | CSet s =>
      foldMS (λ all_pids c, pids ← single_get_pids c include_threads;
                            mret (all_pids ++ pids)) [] (dvalues (cs_subcontainers s))
  end.

(** src/wca/containers.py:372-376 [Container.sync] *)
Definition single_sync (c : Container) : M W unit :=
  if rdt_present then
    resgroup ← lift (or_raise AttributeError (ct_resgroup c));
    pids ← cgroup_get_pids (ct_cgroup c) true;
    add_pids resgroup pids (ct_name c)
  else mret tt.

(** src/wca/containers.py:201-205 [ContainerSet.sync] *)
Definition set_sync (s : ContainerSet) : M W unit :=
  if rdt_present then
    resgroup ← lift (or_raise AttributeError (cs_resgroup s));
    pids ← get_pids (CSet s) true;
    add_pids resgroup pids (cs_name s)
  else mret tt.

Definition container_sync (c : container) : M W unit :=
  match c with CSingle c => single_sync c | CSet s => set_sync s end.

Definition remove_resgroup (c : container) : M W unit :=
  match container_resgroup c with
  | Some r => if rdt_present then resgroup_remove r (container_name c) else mret tt
  | None => mret tt
  end.

(** src/wca/containers.py:428-432 [Container.cleanup] *)
Definition cleanup_single (c : Container) : M W unit :=
  _ ← match cc_event_names cfg with
      | [] => mret tt
      | _ => h ← lift (or_raise AttributeError (ct_perf c)); perf_cleanup h
      end : M W unit;
  remove_resgroup (CSingle c).

(** src/wca/containers.py:231-235 [ContainerSet.cleanup] *)
Definition container_cleanup (c : container) : M W unit :=
  match c with
  | CSingle c => cleanup_single c
  | CSet s => _ ← forM_ (dvalues (cs_subcontainers s)) cleanup_single; remove_resgroup (CSet s)
  end.

(** src/wca/containers.py:237-261 [ContainerSet.get_subcgroups_cpuset_allocations]
    Every cpuset is read; the first one counts, a different one is only logged. *)
Definition subcgroups_cpuset_allocations (s : ContainerSet) : M W TaskAllocations :=
  foldMS (λ allocations c,
    cpus ← get_cpuset_cpus (ct_cgroup c);
    mems ← get_cpuset_mems (ct_cgroup c);
    let allocations := if dmem allocations CPUSET_CPUS then allocations
                       else dset allocations CPUSET_CPUS (RawStr cpus) in
    mret (if dmem allocations CPUSET_MEMS then allocations
          else dset allocations CPUSET_MEMS (RawStr mems))) [] (dvalues (cs_subcontainers s)).

(** The allocations of the resctrl group are added when RDT is controlled. *)
Definition with_resgroup_allocations (resgroup : option ResGroup) (allocations : TaskAllocations)
    : M W TaskAllocations :=
  match rdt_information (cc_platform cfg) with
  | Some r =>
      if is_control_enabled r then
        resgroup ← lift (or_raise AttributeError resgroup);
        rdt ← resgroup_get_allocations resgroup;
        mret (dupdate allocations rdt)
      else mret allocations
  | None => mret allocations
  end.

(** src/wca/containers.py:434-444 [Container.get_allocations] *)
Definition single_get_allocations (c : Container) : M W TaskAllocations :=
  own ← cgroup_get_allocations (ct_cgroup c);
  with_resgroup_allocations (ct_resgroup c) (dupdate [] own).

(** src/wca/containers.py:263-274 [ContainerSet.get_allocations] *)
Definition set_get_allocations (s : ContainerSet) : M W TaskAllocations :=
  own ← cgroup_get_allocations (cs_cgroup s);
  subs ← subcgroups_cpuset_allocations s;
  with_resgroup_allocations (cs_resgroup s) (dupdate (dupdate [] own) subs).

Definition container_get_allocations (c : container) : M W TaskAllocations :=
  match c with CSingle c => single_get_allocations c | CSet s => set_get_allocations s end.

(** ** Measurements *)

Definition resgroup_measurements (r : ResGroup) (name : string) (info : RDTInformation)
    : M W measurements :=
  resgroup_get_measurements r name (rdt_mb_monitoring_enabled info)
    (rdt_cache_monitoring_enabled info).

(** src/wca/containers.py:411-418 [Container._get_measurements], sched *)
Definition sched_measurements (c : Container) : M W measurements :=
  match cc_sched cfg with
  | SchedOff => mret []
  | o => raw ← cgroup_get_pids (ct_cgroup c) true;
         pids ← lift (mapM py_int raw);
         get_pids_sched_measurements set_order pids
           match o with SchedPattern m => Some m | _ => None end
  end.

(** src/wca/containers.py:383-426 [Container._get_measurements]
    With a working set size but no resctrl group a variable stays unbound. *)
Definition raw_measurements : M (Container * W) measurements :=
  st ← get_state;
  let c : Container := st.1 in
  cgroup_measurements ← on_snd (cgroup_get_measurements (ct_cgroup c));
  perf_measurements ← match cc_event_names cfg with
                      | [] => mret []
                      | _ => h ← lift (or_raise AttributeError (ct_perf c));
                             on_snd (perf_get_measurements h)
                      end : M (Container * W) measurements;
  rdt_measurements ← match ct_resgroup c, rdt_monitored with
                     | Some r, Some info => on_snd (resgroup_measurements r (ct_name c) info)
                     | _, _ => mret []
                     end : M (Container * W) measurements;
  wss_measurements ← match ct_wss c with
                     | Some wss =>
                         match ct_resgroup c with
                         | Some _ => λ st,
                             let '(r, (wss', w)) :=
                               wss_get_measurements now (get_pids (CSingle c)) set_order (cc_wss cfg)
                                 rdt_measurements (wss, st.2) in
                             (Some <$> r, (set_ct_wss (Some wss') st.1, w))
                         | None => mret None
                         end
                     | None => mret (Some [])
                     end : M (Container * W) (option measurements);
  sched ← on_snd (sched_measurements c);
  wss ← lift (or_raise UnboundLocalError wss_measurements);
  lift (flatten_measurements [cgroup_measurements; rdt_measurements; perf_measurements; wss; sched]).

(** The derived metrics of the container's generator. *)
Definition derived_step (ms : measurements) (d : derived_state) (t : float)
    : M (Container * W) measurements :=
  λ st, let '(r, d') := get_measurements_with_derived perf_derive t ms d in
        (r, (set_ct_derived (Some d') st.1, st.2)).

(** src/wca/containers.py:378-381 [Container.get_measurements] *)
Definition single_get_measurements : M (Container * W) measurements :=
  ms ← raw_measurements;
  st ← get_state;
  match ct_derived (st.1 : Container) with
  | None => mret ms
  | Some d => t ← on_snd now; derived_step ms d t
  end.

(** src/wca/containers.py:226-227 [ContainerSet.get_measurements], the subcontainers *)
Definition subcontainers_measurements (keys : list string)
    : M (ContainerSet * W) (list measurements) :=
  foldMS (λ l key st,
    match dget (cs_subcontainers st.1) key with
    | None => (Raise KeyError, st)
    | Some c =>
        let '(r, (c', w)) := single_get_measurements (c, st.2) in
        ((λ m, l ++ [m]) <$> r, (set_cs_subcontainers (dset (cs_subcontainers st.1) key c') st.1, w))
    end) [] keys.

(** src/wca/containers.py:207-229 [ContainerSet.get_measurements] *)
Definition set_get_measurements : M (ContainerSet * W) measurements :=
  st ← get_state;
  let s : ContainerSet := st.1 in
  ms ← match rdt_monitored with
       | Some info => r ← lift (or_raise AssertionError (cs_resgroup s));
                      on_snd (resgroup_measurements r (cs_name s) info)
       | None => mret []
       end : M (ContainerSet * W) measurements;
  ms ← match cs_wss s with
       | Some wss => λ st,
           let '(r, (wss', w)) :=
             wss_get_measurements now (get_pids (CSet s)) set_order (cc_wss cfg) ms (wss, st.2) in
           (dupdate ms <$> r, (set_cs_wss (Some wss') st.1, w))
       | None => mret ms
       end : M (ContainerSet * W) measurements;
  subs ← subcontainers_measurements (dkeys (cs_subcontainers s));
  merged ← lift (merge_measurements set_order subs);
  mret (dupdate ms merged).

(** [container.get_measurements()] of either class *)
Definition container_get_measurements : M (container * W) measurements :=
  λ st, match st.1 with
        | CSingle c => let '(r, (c', w)) := single_get_measurements (c, st.2) in (r, (CSingle c', w))
        | CSet s => let '(r, (s', w)) := set_get_measurements (s, st.2) in (r, (CSet s', w))
        end.
End containers.
