(* ===== verification/ContainerManager.v ===== *)
(** * The container manager

    [ContainerManager] of [src/wca/containers.py]: one iteration brings the watched
    containers, the tasks of the orchestrator and the resctrl groups together.
    [self.containers] is a list of pairs of a task and its container, with distinct
    task ids; updating an existing key keeps the old task object. *)
From S2P Require Export Containers.

(** ** Dictionaries keyed by tasks *)
Definition by_task (A : Type) : Type := list (Task * A).

Fixpoint tget {A} (d : by_task A) (id : string) : option A :=
  match d with
  | [] => None
  | (t, a) :: d' => if decide (task_id t = id) then Some a else tget d' id
  end.

(** [d[task] = a] *)
Fixpoint tset {A} (d : by_task A) (task : Task) (a : A) : by_task A :=
  match d with
  | [] => [(task, a)]
  | (t, a') :: d' => if decide (task_id t = task_id task) then (t, a) :: d'
                     else (t, a') :: tset d' task a
  end.

Definition tids {A} (d : by_task A) : list string := (λ ta, task_id ta.1) <$> d.

(** src/wca/containers.py:618-648 [_find_new_and_dead_tasks] *)
Definition find_new_and_dead_tasks (discovered_tasks : list Task) (known_containers : list container)
    : list Task * list container :=
  let discovered_task_cgroup_paths := task_cgroup_path <$> discovered_tasks in
  let containers_cgroup_paths := container_path <$> known_containers in
  (List.filter (λ task, negb (bool_decide (task_cgroup_path task ∈ containers_cgroup_paths)))
     discovered_tasks,
   List.filter (λ c, negb (bool_decide (container_path c ∈ discovered_task_cgroup_paths)))
     known_containers).

(** src/wca/containers.py:540-548 [ContainerManager.sync_containers_state]
    Known containers under the new task objects; the last match counts. *)
Definition recreate_containers (tasks : list Task) (containers : by_task container)
    : by_task container :=
  foldl (λ d task,
    foldl (λ d '(known_task, c),
      if String.eqb (task_cgroup_path task) (task_cgroup_path known_task) then tset d task c else d)
      d containers) [] tasks.

(** src/wca/containers.py:569-574 [ContainerManager.sync_containers_state] *)
Definition container_name_to_ctrl_group (mon_groups_relation : dict string (list string))
    : dict string string :=
  foldl (λ d '(ctrl_group, container_names),
    foldl (λ d container_name, dset d container_name ctrl_group) d container_names)
    [] mon_groups_relation.

(** [set(a) != set(b)] *)
Definition set_neqb (a b : list string) : bool :=
  negb (forallb (λ x, bool_decide (x ∈ b)) a && forallb (λ x, bool_decide (x ∈ a)) b).

Section manager.
  Context {W : Type} `{FileSystem W} `{PyFloatRepr} `{Md : Metadata} `{PerfBackend W}.
  Context (now : M W float) (cfg : ContainerConfig).

(** The manager's dictionary and the machine. *)
Definition manager : Type := by_task container * W.
Definition on_sys {A} (m : M W A) : M manager A := on_snd m.
Definition watched : M manager (by_task container) := λ st, (Ok st.1, st).
Definition watch (f : by_task container → by_task container) : M manager unit :=
  λ st, (Ok tt, (f st.1, st.2)).

(** src/wca/containers.py:555-576 [ContainerManager.sync_containers_state]
    Removing the groups without tasks, and the group of every container. *)
Definition ctrl_groups : M W (dict string string) :=
  match rdt_information (cc_platform cfg) with
  | None => mret []
  | Some info =>
      _ ← lift (py_assert (is_monitoring_enabled info));
      relation ← read_mon_groups_relation;
      _ ← clean_taskless_groups relation;
      relation ← read_mon_groups_relation;
      mret (container_name_to_ctrl_group relation)
  end.

(** src/wca/containers.py:579-580 [ContainerManager.sync_containers_state], one new task *)
Definition watch_new (task : Task) : M manager unit :=
  c ← on_sys (create_container now cfg task);
  watch (λ d, tset d task c).

(** src/wca/containers.py:583-593 [ContainerManager.sync_containers_state]
    A container whose subcontainers are not those of the task is made anew. *)
Definition refresh (task : Task) (c : container) : M manager unit :=
  if set_neqb (task_subcgroups_paths task) (cgroup_path <$> get_subcgroups c) then
    _ ← on_sys (container_cleanup cfg c);
    watch_new task
  else mret tt.

(** src/wca/containers.py:597-606 [ContainerManager.sync_containers_state] *)
Definition assign_resgroup (groups : dict string string) (task : Task) (c : container)
    : M manager unit :=
  if rdt_present cfg then
    let c' := set_resgroup (mkResGroup (default "" (dget groups (container_name c)))) c in
    _ ← watch (λ d, tset d task c');
    on_sys (container_sync cfg c')
  else on_sys (container_sync cfg c).

(** A loop over [self.containers.items()] whose body only replaces values. *)
Definition for_containers (f : Task → container → M manager unit) : M manager unit :=
  items ← watched; forM_ items (λ '(task, c), f task c).

(** src/wca/containers.py:511-611 [ContainerManager.sync_containers_state] *)
Definition sync_containers_state (tasks : list Task) : M manager (by_task container) :=
  known ← watched;
  let '(new_tasks, containers_to_cleanup) := find_new_and_dead_tasks tasks known.*2 in
  _ ← forM_ containers_to_cleanup (λ c, on_sys (container_cleanup cfg c));
  _ ← watch (recreate_containers tasks);
  groups ← on_sys ctrl_groups;
  _ ← forM_ new_tasks watch_new;
  _ ← for_containers refresh;
  _ ← for_containers (assign_resgroup groups);
  watched.

(** src/wca/containers.py:613-615 [ContainerManager.cleanup] *)
Definition manager_cleanup : M manager unit :=
  for_containers (λ _ c, on_sys (container_cleanup cfg c)).
End manager.

(** ** Lemmas on the dictionary *)
Section by_task.
  Context {A : Type}.
  Implicit Types (d : by_task A).

Lemma tset_fresh d t a : task_id t ∉ tids d → tset d t a = d ++ [(t, a)].
Proof.
  induction d as [|[t' a'] d IH]; [done|]. unfold tids. rewrite fmap_cons, not_elem_of_cons.
  intros [Hne Hni]. cbn in Hne. cbn [tset]. rewrite decide_False by congruence. by rewrite IH.
Qed.

Lemma tset_middle d1 d2 t a a' :
  task_id t ∉ tids d1 → tset (d1 ++ (t, a) :: d2) t a' = d1 ++ (t, a') :: d2.
Proof.
  induction d1 as [|[t1 a1] d1 IH]; unfold tids.
  - intros _. simpl. by rewrite decide_True.
  - rewrite fmap_cons, not_elem_of_cons. intros [Hne Hni]. cbn in Hne. simpl.
    rewrite decide_False by congruence. by rewrite IH.
Qed.

Lemma tids_app d1 d2 : tids (d1 ++ d2) = tids d1 ++ tids d2.
Proof. apply fmap_app. Qed.

Lemma tids_tasks d : tids d = task_id <$> d.*1.
Proof. unfold tids. by rewrite <-list_fmap_compose. Qed.
End by_task.

(** ** The relation between tasks and containers *)

(** The invariant of the manager: one container per task id, at the task's path. *)
Definition manager_ok (d : by_task container) : Prop :=
  NoDup (tids d) ∧ ∀ t c, (t, c) ∈ d → container_path c = task_cgroup_path t.

(** The assumptions the code documents on the tasks of an orchestrator. *)
Definition tasks_ok (tasks : list Task) : Prop :=
  NoDup (task_id <$> tasks) ∧ NoDup (task_cgroup_path <$> tasks).

Definition known_path (containers : by_task container) (task : Task) : bool :=
  existsb (λ kc, String.eqb (task_cgroup_path task) (task_cgroup_path kc.1)) containers.

Definition recreate_step (containers : by_task container) (d : by_task container) (task : Task) :=
  foldl (λ d '(known_task, c),
      if String.eqb (task_cgroup_path task) (task_cgroup_path known_task) then tset d task c else d)
    d containers.

Lemma recreate_step_bound containers d task c0 :
  task_id task ∉ tids d →
  ∃ c, recreate_step containers (d ++ [(task, c0)]) task = d ++ [(task, c)] ∧
       (c = c0 ∨ ∃ k, (k, c) ∈ containers ∧ task_cgroup_path k = task_cgroup_path task).
Proof.
  intros Hni. revert c0. induction containers as [|[k c1] containers IH]; intros c0.
  - exists c0. auto.
  - unfold recreate_step in *. cbn [foldl].
    destruct (String.eqb _ _) eqn:E; to_prop.
    + rewrite tset_middle by done. destruct (IH c1) as (c & -> & Hc). exists c. split; [done|].
      right. destruct Hc as [->|(k' & Hin & Hp)]; [exists k|exists k']; split; try done; set_solver.
    + destruct (IH c0) as (c & -> & Hc). exists c. split; [done|].
      destruct Hc as [->|(k' & Hin & Hp)]; [by left|right; exists k'; split; [set_solver|done]].
Qed.

Lemma recreate_step_spec containers d task :
  task_id task ∉ tids d →
  if known_path containers task
  then ∃ c k, recreate_step containers d task = d ++ [(task, c)] ∧
              (k, c) ∈ containers ∧ task_cgroup_path k = task_cgroup_path task
  else recreate_step containers d task = d.
Proof.
  intros Hni. induction containers as [|[k c1] containers IH]; [done|].
  unfold known_path, recreate_step in *. cbn [existsb foldl fst].
  destruct (String.eqb _ _) eqn:E; to_prop; cbn [orb].
  - rewrite tset_fresh by done.
    destruct (recreate_step_bound containers d task c1 Hni) as (c & Hr & Hc).
    unfold recreate_step in Hr. rewrite Hr.
    destruct Hc as [->|(k' & Hin & Hp)]; [exists c1, k|exists c, k']; split_and!; try done; set_solver.
  - destruct (existsb _ containers); [|done].
    destruct IH as (c & k' & Hr & Hin & Hp). exists c, k'. split_and!; [done|set_solver|done].
Qed.

Lemma recreate_containers_spec containers tasks d :
  NoDup (tids d ++ (task_id <$> tasks)) →
  (∀ t c, (t, c) ∈ containers → container_path c = task_cgroup_path t) →
  (∀ t c, (t, c) ∈ d → container_path c = task_cgroup_path t) →
  let d' := foldl (recreate_step containers) d tasks in
  d'.*1 = d.*1 ++ List.filter (known_path containers) tasks ∧
  ∀ t c, (t, c) ∈ d' → container_path c = task_cgroup_path t.
Proof.
  intros Hnd Hcont. revert d Hnd. induction tasks as [|task tasks IH]; intros d Hnd Hd.
  - simpl. by rewrite app_nil_r.
  - cbn [foldl List.filter]. rewrite fmap_cons in Hnd.
    assert (Hni : task_id task ∉ tids d).
    { apply NoDup_app in Hnd as (_ & Hdisj & _). intros Hin. apply (Hdisj _ Hin). set_solver. }
    pose proof (recreate_step_spec containers d task Hni) as Hs.
    destruct (known_path containers task).
    + destruct Hs as (c & k & -> & Hin & Hp).
      destruct (IH (d ++ [(task, c)])) as [IH1 IH2].
      * rewrite tids_app, <-app_assoc. exact Hnd.
      * intros t c' [Hin'|[= -> ->]%list_elem_of_singleton]%elem_of_app; [by apply Hd|].
        rewrite <-Hp. by apply Hcont.
      * split; [|done]. rewrite IH1, fmap_app, <-app_assoc. done.
    + rewrite Hs. apply IH; [|done].
      rewrite !NoDup_app, NoDup_cons in Hnd. rewrite NoDup_app.
      destruct Hnd as (Hnd1 & Hdisj & _ & Hnd2). split_and!; [done| |done].
      intros x Hx Hin. apply (Hdisj x Hx). set_solver.
Qed.

Lemma set_neqb_false a b : set_neqb a b = false ↔ ∀ x, x ∈ a ↔ x ∈ b.
Proof.
  unfold set_neqb. rewrite negb_false_iff, andb_true_iff, !forallb_forall. split.
  - intros [Ha Hb] x. split; intros Hx.
    + apply list_elem_of_In, Ha in Hx. by apply bool_decide_eq_true in Hx.
    + apply list_elem_of_In, Hb in Hx. by apply bool_decide_eq_true in Hx.
  - intros Hx. split; intros x Hin; apply bool_decide_eq_true, Hx; by apply list_elem_of_In.
Qed.

Section manager_spec.
  Context {W : Type} `{FileSystem W} `{PyFloatRepr} `{Md : Metadata} `{PerfBackend W}.
  Context (now : M W float) (cfg : ContainerConfig).

(** A container is made at the paths of its task. *)
Lemma make_cgroup_path p conf pl cg : make_cgroup p conf pl = Ok cg → cgroup_path cg = p.
Proof. unfold make_cgroup. intros Hm. by inv_ok. Qed.

Lemma make_container_path b p (w : W) c w' :
  make_container now cfg b p w = (Ok c, w') → cgroup_path (ct_cgroup c) = p.
Proof.
  unfold make_container. intros Hm. inv_M. simpl. by eapply make_cgroup_path.
Qed.

Lemma make_subcontainers_paths paths (w : W) acc subs w' :
  foldMS (λ subs path, c ← make_container now cfg false path; mret (dset subs path c)) acc paths w
    = (Ok subs, w') →
  (∀ p c, (p, c) ∈ acc → cgroup_path (ct_cgroup c) = p) →
  (∀ p c, (p, c) ∈ subs → cgroup_path (ct_cgroup c) = p) ∧
  (∀ p, p ∈ dkeys subs ↔ p ∈ dkeys acc ∨ p ∈ paths).
Proof.
  revert acc w. induction paths as [|p paths IH]; intros acc w Hf Hacc.
  - apply M_ret_Ok_iff in Hf as [<- ->]. split; [done|]. set_solver.
  - cbn [foldMS] in Hf. apply M_bind_Ok_iff in Hf as (acc1 & w1 & H1' & Hf).
    apply M_bind_Ok_iff in H1' as (c & w2 & Hc & H1'). apply M_ret_Ok_iff in H1' as [<- ->].
    apply make_container_path in Hc. apply IH in Hf as [Hin Hk].
    + split; [done|]. intros q. rewrite Hk, dkeys_dset_elem, elem_of_cons. tauto.
    + intros q c' Hq. apply elem_of_dset in Hq as [[-> ->]|Hq]; [done|by apply Hacc].
Qed.

Definition subcgroups_match (task : Task) (c : container) : Prop :=
  ∀ p, p ∈ task_subcgroups_paths task ↔ p ∈ cgroup_path <$> get_subcgroups c.

Lemma create_container_spec task (w : W) c w' :
  create_container now cfg task w = (Ok c, w') →
  container_path c = task_cgroup_path task ∧ subcgroups_match task c.
Proof.
  unfold create_container, subcgroups_match. intros Hc.
  apply M_bind_Ok_iff in Hc as (c1 & w1 & H1' & Hc).
  assert (c1 = c) as ->.
  { apply M_bind_Ok_iff in Hc as ([] & w2 & _ & Hc). by apply M_ret_Ok_iff in Hc as [-> _]. }
  destruct (task_subcgroups_paths task) as [|p0 paths] eqn:Hpaths.
  - apply M_bind_Ok_iff in H1' as (c2 & w2 & H2 & H1'). apply M_ret_Ok_iff in H1' as [<- _].
    apply make_container_path in H2. split; [done|]. intros p. simpl. set_solver.
  - rewrite <-Hpaths in *. clear Hpaths.
    apply M_bind_Ok_iff in H1' as (s & w2 & H2 & H1'). apply M_ret_Ok_iff in H1' as [<- _].
    unfold make_container_set in H2.
    apply M_bind_Ok_iff in H2 as (name & s1 & _ & H2). apply M_bind_Ok_iff in H2 as (cg & s2 & Hcg & H2).
    apply lift_Ok_iff in Hcg as [Hcg _]. apply make_cgroup_path in Hcg.
    apply M_bind_Ok_iff in H2 as (wss & s3 & _ & H2). apply M_bind_Ok_iff in H2 as (subs & s4 & Hs & H2).
    apply M_ret_Ok_iff in H2 as [<- _]. apply make_subcontainers_paths in Hs as [Hin Hk]; [|set_solver].
    split; [done|]. intros p. transitivity (p ∈ dkeys subs); [rewrite Hk; set_solver|].
    simpl. unfold dvalues, dkeys. rewrite <-!list_fmap_compose, !list_elem_of_fmap.
    split; intros ([q c'] & -> & Hq); exists (q, c'); pose proof (Hin _ _ Hq); by simpl in *.
Qed.

(** A loop over the watched containers that replaces each container by one that is
    related to it. *)
Lemma for_containers_spec (R : Task → container → container → Prop) (f : Task → container → M manager unit)
    d (w : W) d' w' :
  (∀ t c st st', f t c st = (Ok tt, st') →
     ∃ c', R t c c' ∧ (st'.1 = tset st.1 t c' ∨ c' = c ∧ st'.1 = st.1)) →
  NoDup (tids d) → for_containers f (d, w) = (Ok tt, (d', w')) →
  Forall2 (λ tc tc', tc'.1 = tc.1 ∧ R tc.1 tc.2 tc'.2) d d'.
Proof.
  intros Hf Hnd Hloop. unfold for_containers in Hloop.
  apply M_bind_Ok_iff in Hloop as (items & st & [= <- <-] & Hloop).
  assert (Hgen : ∀ rest done w, NoDup (tids (done ++ rest)) →
    forM_ rest (λ '(task, c), f task c) (done ++ rest, w) = (Ok tt, (d', w')) →
    ∃ rest', d' = done ++ rest' ∧ Forall2 (λ tc tc', tc'.1 = tc.1 ∧ R tc.1 tc.2 tc'.2) rest rest').
  { clear Hnd Hloop w. induction rest as [|[t c] rest IH]; intros done w Hnd Hloop.
    - apply M_ret_Ok_iff in Hloop as [_ [= -> ->]]. exists []. by split.
    - cbn [forM_] in Hloop. apply M_bind_Ok_iff in Hloop as ([] & [d1 w1] & H1' & Hloop).
      destruct (Hf _ _ _ _ H1') as (c' & HR & Hd1). cbn [fst] in Hd1.
      assert (Hni : task_id t ∉ tids done).
      { rewrite tids_app in Hnd. apply NoDup_app in Hnd as (_ & Hdisj & _).
        intros Hin. apply (Hdisj _ Hin). unfold tids. set_solver. }
      assert (Hd1' : d1 = (done ++ [(t, c')]) ++ rest).
      { rewrite <-app_assoc. destruct Hd1 as [->|[-> ->]]; [by apply tset_middle|done]. }
      subst d1. apply IH in Hloop as (rest' & -> & Hall).
      + exists ((t, c') :: rest'). rewrite <-app_assoc. split; [done|]. by constructor.
      + revert Hnd. unfold tids. rewrite !fmap_app. simpl. by rewrite <-!app_assoc. }
  by destruct (Hgen d [] w Hnd Hloop) as (rest' & -> & Hall).
Qed.

Lemma watch_new_spec task (d : by_task container) (w : W) d' w' :
  watch_new now cfg task (d, w) = (Ok tt, (d', w')) →
  ∃ c, d' = tset d task c ∧ container_path c = task_cgroup_path task ∧ subcgroups_match task c.
Proof.
  unfold watch_new. intros Hw. apply M_bind_Ok_iff in Hw as (c & [d1 w1] & Hc & [= <- <-]).
  unfold on_sys, on_snd in Hc. simpl in Hc.
  destruct (create_container now cfg task w) as [r w2] eqn:E. injection Hc as -> <- <-.
  exists c. split; [done|]. by eapply create_container_spec.
Qed.

Lemma watch_new_tasks new (d : by_task container) (w : W) d' w' :
  NoDup (tids d ++ (task_id <$> new)) →
  forM_ new (watch_new now cfg) (d, w) = (Ok tt, (d', w')) →
  d'.*1 = d.*1 ++ new ∧
  ((∀ t c, (t, c) ∈ d → container_path c = task_cgroup_path t) →
   ∀ t c, (t, c) ∈ d' → container_path c = task_cgroup_path t).
Proof.
  revert d w. induction new as [|task new IH]; intros d w Hnd Hloop.
  - apply M_ret_Ok_iff in Hloop as [_ [= -> ->]]. by rewrite app_nil_r.
  - cbn [forM_] in Hloop. apply M_bind_Ok_iff in Hloop as ([] & [d1 w1] & Hw & Hloop).
    apply watch_new_spec in Hw as (c & -> & Hp & _). rewrite fmap_cons in Hnd.
    rewrite tset_fresh in Hloop.
    2: { apply NoDup_app in Hnd as (_ & Hdisj & _). intros Hin. apply (Hdisj _ Hin). set_solver. }
    apply IH in Hloop as [IH1 IH2]; [|by rewrite tids_app, <-app_assoc].
    split; [by rewrite IH1, fmap_app, <-app_assoc|]. intros Hd. apply IH2.
    intros t c' [Hin|[= -> ->]%list_elem_of_singleton]%elem_of_app; [by apply Hd|done].
Qed.

(** What a refreshed container satisfies, given one at the task's path. *)
Definition refreshed (t : Task) (c c' : container) : Prop :=
  (container_path c = task_cgroup_path t → container_path c' = task_cgroup_path t) ∧
  subcgroups_match t c'.

Lemma refresh_spec t c (st st' : manager (W := W)) :
  refresh now cfg t c st = (Ok tt, st') →
  ∃ c', refreshed t c c' ∧ (st'.1 = tset st.1 t c' ∨ c' = c ∧ st'.1 = st.1).
Proof.
  unfold refresh. destruct (set_neqb _ _) eqn:E; intros Hr.
  - apply M_bind_Ok_iff in Hr as ([] & [d1 w1] & Hclean & Hr). destruct st as [d w], st' as [d' w'].
    unfold on_sys, on_snd in Hclean. simpl in Hclean. destruct (container_cleanup cfg c w).
    injection Hclean as _ <- <-. apply watch_new_spec in Hr as (c' & -> & Hp & Hs).
    exists c'. split; [by split|by left].
  - apply M_ret_Ok_iff in Hr as [_ ->]. exists c. split; [|by right]. split; [done|].
    exact (proj1 (set_neqb_false _ _) E).
Qed.

Definition grouped (groups : dict string string) (t : Task) (c c' : container) : Prop :=
  container_path c' = container_path c ∧ get_subcgroups c' = get_subcgroups c ∧
  (rdt_present cfg = true →
   container_resgroup c' = Some (mkResGroup (default "" (dget groups (container_name c'))))).

Lemma set_resgroup_facts r c :
  container_path (set_resgroup r c) = container_path c ∧
  get_subcgroups (set_resgroup r c) = get_subcgroups c ∧
  container_name (set_resgroup r c) = container_name c ∧
  container_resgroup (set_resgroup r c) = Some r.
Proof. by destruct c. Qed.

Lemma assign_resgroup_spec groups t c (st st' : manager (W := W)) :
  assign_resgroup cfg groups t c st = (Ok tt, st') →
  ∃ c', grouped groups t c c' ∧ (st'.1 = tset st.1 t c' ∨ c' = c ∧ st'.1 = st.1).
Proof.
  unfold assign_resgroup, grouped. intros Hr. destruct st as [d w], st' as [d' w'].
  destruct (rdt_present cfg).
  - set (c' := set_resgroup _ c) in *. pose proof (set_resgroup_facts
      (mkResGroup (default "" (dget groups (container_name c)))) c) as (Hp & Hs & Hn & Hg).
    exists c'. apply M_bind_Ok_iff in Hr as ([] & st1 & [= <-] & Hr).
    unfold on_sys, on_snd in Hr. simpl in Hr. destruct (container_sync cfg c' w).
    injection Hr as _ <- <-. split; [|by left]. fold c' in Hp, Hs, Hn, Hg. by rewrite Hn.
  - exists c. unfold on_sys, on_snd in Hr. simpl in Hr. destruct (container_sync cfg c w).
    injection Hr as _ <- <-. split; [by split_and!|by right].
Qed.

Lemma Forall2_tasks (R : Task → container → container → Prop) d d' :
  Forall2 (λ tc tc', tc'.1 = tc.1 ∧ R tc.1 tc.2 tc'.2) d d' →
  d'.*1 = d.*1 ∧ ∀ t c', (t, c') ∈ d' → ∃ c, (t, c) ∈ d ∧ R t c c'.
Proof.
  induction 1 as [|[t c] [t' c'] d d' [Ht HR] _ [IH1 IH2]]; [set_solver|].
  cbn [fst snd] in *. subst t'. split; [by rewrite !fmap_cons, IH1|]. intros t' c'' [[= -> ->]|Hin]%elem_of_cons.
  - exists c. split; [set_solver|done].
  - destruct (IH2 _ _ Hin) as (c1 & Hin1 & HR1). exists c1. split; [set_solver|done].
Qed.
Lemma filter_complement_perm {A} (p q : A → bool) l :
  (∀ x, x ∈ l → q x = negb (p x)) → List.filter p l ++ List.filter q l ≡ₚ l.
Proof.
  induction l as [|x l IH]; intros Hq; [done|]. cbn [List.filter]. rewrite (Hq x) by set_solver.
  assert (Hl : List.filter p l ++ List.filter q l ≡ₚ l) by (apply IH; intros; apply Hq; set_solver).
  destruct (p x); simpl; [by rewrite Hl|]. by rewrite <-Permutation_middle, Hl.
Qed.

Lemma known_path_iff d task :
  (∀ t c, (t, c) ∈ d → container_path c = task_cgroup_path t) →
  known_path d task = bool_decide (task_cgroup_path task ∈ container_path <$> d.*2).
Proof.
  intros Hd. apply eq_true_iff_eq. rewrite bool_decide_eq_true. unfold known_path.
  rewrite existsb_exists, <-list_fmap_compose, list_elem_of_fmap. split.
  - intros ([t c] & Hin & He). apply list_elem_of_In in Hin. to_prop. exists (t, c). simpl in *.
    by rewrite (Hd _ _ Hin).
  - intros ([t c] & He & Hin). exists (t, c). split; [by apply list_elem_of_In|]. simpl in *.
    apply String.eqb_eq. by rewrite He, (Hd _ _ Hin).
Qed.

(** After a successful synchronisation the manager watches exactly
    the tasks of the orchestrator, one container for each, at the cgroup path of
    its task and with exactly the subcontainers of the task; with RDT every container
    is in the control group that its monitoring group was found in, or in the root
    group; and the invariant of the manager holds again. *)
Theorem sync_watches_exactly_tasks tasks d (w : W) r d' w' :
  tasks_ok tasks → manager_ok d →
  sync_containers_state now cfg tasks (d, w) = (Ok r, (d', w')) →
  r = d' ∧ manager_ok d' ∧ d'.*1 ≡ₚ tasks ∧
  (∀ t c, (t, c) ∈ d' → subcgroups_match t c) ∧
  ∃ groups w1 w2, ctrl_groups cfg w1 = (Ok groups, w2) ∧
    (rdt_present cfg = true → ∀ t c, (t, c) ∈ d' →
       container_resgroup c = Some (mkResGroup (default "" (dget groups (container_name c))))).
Proof.
  intros [Hids Hpaths] [Hnd Hd] Hsync. unfold sync_containers_state in Hsync.
  apply M_bind_Ok_iff in Hsync as (known & st & [= <- <-] & Hsync).
  destruct (find_new_and_dead_tasks tasks d.*2) as [new dead] eqn:Hfind. injection Hfind as Hnew Hdead.
  apply M_bind_Ok_iff in Hsync as ([] & [d0 w0] & Hdeadloop & Hsync).
  assert (d0 = d) as ->.
  { clear -Hdeadloop. revert w Hdeadloop. induction dead as [|c dead IH]; intros w Hl.
    - by apply M_ret_Ok_iff in Hl as [_ [= -> ->]].
    - cbn [forM_] in Hl. apply M_bind_Ok_iff in Hl as ([] & [d1 w1] & Hc & Hl).
      unfold on_sys, on_snd in Hc. simpl in Hc. destruct (container_cleanup cfg c w).
      injection Hc as _ <- <-. by eapply IH. }
  apply M_bind_Ok_iff in Hsync as ([] & st & [= <-] & Hsync). cbn [fst snd] in Hsync.
  destruct (recreate_containers_spec d tasks []) as [Hrec Hrecp]; [done|done|set_solver|].
  change (foldl (recreate_step d) [] tasks) with (recreate_containers tasks d) in *.
  apply M_bind_Ok_iff in Hsync as (groups & [d1 w1] & Hgroups & Hsync).
  unfold on_sys, on_snd in Hgroups. simpl in Hgroups. destruct (ctrl_groups cfg w0) as [g w2] eqn:Hg.
  injection Hgroups as -> <- <-.
  apply M_bind_Ok_iff in Hsync as ([] & [d2 w3] & Hnewloop & Hsync).
  assert (Hperm : List.filter (known_path d) tasks ++ new ≡ₚ tasks).
  { subst new. apply filter_complement_perm. intros t _. by rewrite known_path_iff. }
  simpl in Hrec. apply watch_new_tasks in Hnewloop as [Hd2 Hd2p].
  2: { rewrite tids_tasks, Hrec, <-fmap_app. by rewrite Hperm. }
  specialize (Hd2p Hrecp). rewrite Hrec in Hd2.
  assert (Hnd2 : NoDup (tids d2)) by (rewrite tids_tasks, Hd2; by rewrite Hperm).
  apply M_bind_Ok_iff in Hsync as ([] & [d3 w4] & Hrefresh & Hsync).
  apply (for_containers_spec refreshed) in Hrefresh as [Hd3 Hd3p]%Forall2_tasks;
    [|intros; by eapply refresh_spec|done].
  apply M_bind_Ok_iff in Hsync as ([] & [d4 w5] & Hassign & Hsync).
  apply (for_containers_spec (grouped groups)) in Hassign as [Hd4 Hd4p]%Forall2_tasks;
    [|intros; by eapply assign_resgroup_spec|by rewrite tids_tasks, Hd3, <-tids_tasks].
  injection Hsync as <- <- <-.
  assert (Hall : d4.*1 ≡ₚ tasks) by (by rewrite Hd4, Hd3, Hd2, Hperm).
  split; [done|]. split; [split|split_and!].
  - rewrite tids_tasks. by rewrite Hall.
  - intros t c (c3 & Hc3 & Hp & _)%Hd4p. rewrite Hp.
    apply Hd3p in Hc3 as (c2 & Hc2 & Href & _). by apply Href, Hd2p.
  - done.
  - intros t c (c3 & Hc3 & Hp & Hs & _)%Hd4p. apply Hd3p in Hc3 as (c2 & Hc2 & _ & Hm).
    unfold subcgroups_match in *. by rewrite Hs.
  - exists groups, w0, w2. split; [done|]. intros Hrdt t c (c3 & _ & _ & _ & Hr)%Hd4p. by apply Hr.
Qed.
End manager_spec.

(** ** A concrete machine *)
Section example.
#[local] Instance example_perf : PerfBackend memfs := {
  perf_open _ _ _ := mret 0%nat;
  perf_get_measurements _ := mret [];
  perf_cleanup _ := mret tt
}.
#[local] Instance example_float_repr : PyFloatRepr := λ _, "0.0".

Definition example_config : ContainerConfig :=
  mkContainerConfig example_platform None [] false (mkWSSConfig 5 None 0 None) true SchedOff.
Definition example_pod_task : Task := mkTask "pod" "1" "/pod" ["/t1"] [] [].
Definition example_old_task : Task := mkTask "old" "0" "/old" [] [] [].
Definition example_watched : by_task container :=
  [(example_old_task, CSingle (mkContainer "old" (mkCgroup "/old" None (Some example_platform))
                                 None None None None))].
Definition example_sync : result (by_task container) * manager (W := memfs) :=
  sync_containers_state (mret fzero) example_config [example_pod_task] (example_watched, example_fs).

Lemma sync_watches_exactly_tasks_witness :
  result_get [] example_sync.1 = example_sync.2.1 ∧ manager_ok example_sync.2.1 ∧
  example_sync.2.1.*1 ≡ₚ [example_pod_task] ∧
  (∀ t c, (t, c) ∈ example_sync.2.1 → subcgroups_match t c) ∧
  ∃ groups w1 w2, ctrl_groups (W := memfs) example_config w1 = (Ok groups, w2) ∧
    (rdt_present example_config = true → ∀ t c, (t, c) ∈ example_sync.2.1 →
       container_resgroup c = Some (mkResGroup (default "" (dget groups (container_name c))))).
Proof.
  apply (sync_watches_exactly_tasks (mret fzero) example_config [example_pod_task] example_watched
           example_fs _ example_sync.2.1 example_sync.2.2).
  - split; apply NoDup_singleton.
  - split; [apply NoDup_singleton|]. by intros t c [= -> ->]%list_elem_of_singleton.
  - rewrite <-surjective_pairing. apply outcome_Ok. vm_compute. reflexivity.
Defined.
End example.
