(* ===== verification/MeasurementRunner.v ===== *)
(** * The measurement runner

    [src/wca/runners/measurement.py], with the profiler of [src/wca/profiling.py] and
    the check of privileges of [src/wca/security.py]: one iteration finds the tasks,
    brings the containers in line with them, measures the platform and the tasks,
    runs the body of another runner and sends all metrics.  The clock, the node, the
    storage, the environment of the process and regular expressions are parameters. *)
From S2P Require Export ContainerManager PerfUncore Storage Kubernetes Config.

(** ** Labels of tasks *)

(** src/wca/runners/measurement.py:63-91 [TaskLabelRegexGenerator, TaskLabelResourceGenerator]
    [sub] is [re.sub] with the pattern and the replacement of the generator. *)
Inductive TaskLabelGenerator :=
  | RegexGenerator (sub : string → result string) (source : string)
  | ResourceGenerator (resource_name : string).

Definition resource_str `{PyFloatRepr} (v : resource_value) : string :=
  match v with ResNum n => num_str n | ResStr s => s end.

(** src/wca/runners/measurement.py:76-91 [TaskLabelRegexGenerator.generate, TaskLabelResourceGenerator.generate] *)
Definition generate `{PyFloatRepr} (g : TaskLabelGenerator) (labels : dict string string)
    (resources : dict string resource_value) : result (option string) :=
  match g with
  | RegexGenerator sub source =>
      match dget labels source with
      | None => Ok None
      | Some source_val => Some <$> sub source_val
      end
  | ResourceGenerator resource_name =>
      Ok (Some match dget resources resource_name with Some v => resource_str v | None => "unknown" end)
  end.

(** src/wca/runners/measurement.py:704-723 [append_additional_labels_to_tasks], one task *)
Definition additional_labels `{PyFloatRepr} (task_label_generators : dict string TaskLabelGenerator)
    (task : Task) : result (dict string string) :=
  foldM (λ labels '(target, generator),
    if dmem labels target then Ok labels
    else val ← generate generator labels (task_resources task);
         Ok match val with None => labels | Some v => dset labels target v end)
    (dset (dset (task_labels task) "task_id" (task_id task)) "task_name" (task_name task))
    task_label_generators.

Definition set_task_labels (labels : dict string string) (t : Task) : Task :=
  mkTask (task_name t) (task_id t) (task_cgroup_path t) (task_subcgroups_paths t) labels (task_resources t).

(** src/wca/runners/measurement.py:702-723 [append_additional_labels_to_tasks] *)
Definition append_additional_labels_to_tasks `{PyFloatRepr}
    (task_label_generators : dict string TaskLabelGenerator) (tasks : list Task) : result (list Task) :=
  mapM (λ task, labels ← additional_labels task_label_generators task; Ok (set_task_labels labels task)) tasks.

(** ** Uncore events of the configuration *)

(** src/wca/runners/measurement.py:495-511 [MeasurementRunner._parse_uncore_event_input] *)
Record event_config := mkEventConfig { ec_event : Z; ec_umask : Z; ec_config : Z; ec_config1 : Z }.

(** src/wca/runners/measurement.py:495-511 [MeasurementRunner._parse_uncore_event_input], one pair *)
Definition event_key (c : event_config) (key_and_value : string) : result event_config :=
  let separate := split_on "=" key_and_value in
  key ← or_raise IndexError (separate !! 0%nat);
  value ← or_raise IndexError (separate !! 1%nat);
  if String.eqb key "event" then
    v ← py_int16 value; Ok (mkEventConfig v (ec_umask c) (ec_config c) (ec_config1 c))
  else if String.eqb key "umask" then
    v ← py_int16 value; Ok (mkEventConfig (ec_event c) v (ec_config c) (ec_config1 c))
  else if String.eqb key "config" then
    v ← py_int16 value; Ok (mkEventConfig (ec_event c) (ec_umask c) v (ec_config1 c))
  else if String.eqb key "config1" then
    v ← py_int16 value; Ok (mkEventConfig (ec_event c) (ec_umask c) (ec_config c) v)
  else Raise UncoreEventConfigError.

(** src/wca/runners/measurement.py:473-513 [MeasurementRunner._parse_uncore_event_input]
    Name, type and configuration. *)
Definition parse_uncore_event_input (event : string) : result (string * string * event_config) :=
  _ ← py_assert (negb (String.eqb event ""));
  let configuration := split_on "/" event in
  _ ← py_assert (3 <=? Z.of_nat (length configuration));
  type ← or_raise IndexError (configuration !! 1%nat);
  if negb (bool_decide (type ∈ ["uncore_imc"; "uncore_cha"; "uncore_upi"])) then Raise UncoreEventConfigError
  else
    keys ← or_raise IndexError (configuration !! 2%nat);
    if negb (str_contains "event=" keys) && negb (str_contains "config=" keys) then Raise UncoreEventConfigError
    else
      name ← or_raise IndexError (configuration !! 0%nat);
      _ ← py_assert (negb (String.eqb name ""));
      c ← foldM event_key (mkEventConfig 0 0 0 0) (split_on "," keys);
      Ok (name, type, c).

(** src/wca/runners/measurement.py:516-527 [MeasurementRunner._get_event_if_known] *)
Definition get_event_if_known (event : string) : result (option (Event * string)) :=
  _ ← py_assert (negb (String.eqb event ""));
  name ← or_raise IndexError (split_on "/" event !! 0%nat);
  Ok match dget UNCORE_IMC_EVENTS name with
     | Some e => Some (e, "uncore_imc")
     | None => match dget UNCORE_UPI_EVENTS name with
               | Some e => Some (e, "uncore_upi")
               | None => None
               end
     end.

(** src/wca/runners/measurement.py:533-539 [MeasurementRunner._get_unknown_event], the metadata *)
Definition user_event_metadata : MetricMetadata :=
  mkMetadata "Uncore metric provided by user" GAUGE (Some U_NUMERIC) S_PERF_SUBSYSTEM_UNCORE G_PLATFORM
    ["socket"; "pmu_type"] "yes".

(** src/wca/runners/measurement.py:529-541 [MeasurementRunner._get_unknown_event]
    The event, and the table with its metric. *)
Definition get_unknown_event (event_name : string) (c : event_config) (table : Metadata)
    : result (Event * Metadata) :=
  e ← make_event event_name (ec_event c) (ec_umask c) (ec_config c) (ec_config1 c);
  table ← add_metric event_name user_event_metadata table;
  Ok (e, table).

(** src/wca/runners/measurement.py:547-553 [MeasurementRunner._prepare_events], one event *)
Definition prepare_event (table : Metadata) (event : string) : result (Event * string * Metadata) :=
  known ← get_event_if_known event;
  match known with
  | Some e => Ok (e, table)
  | None =>
      input ← parse_uncore_event_input event;
      let '(name, type, c) := input in
      et ← get_unknown_event name c table;
      Ok (et.1, type, et.2)
  end.

(** The events of the memory controllers, of the caches and of the links. *)
Definition sorted_events : Type := list Event * list Event * list Event.
(** src/wca/runners/measurement.py:554-559 [MeasurementRunner._prepare_events], the lists *)
Definition sort_event (e : Event) (event_type : string) (events : sorted_events) : sorted_events :=
  let '(imc_events, cha_events, upi_events) := events in
  if String.eqb event_type "uncore_imc" then (imc_events ++ [e], cha_events, upi_events)
  else if String.eqb event_type "uncore_cha" then (imc_events, cha_events ++ [e], upi_events)
  else if String.eqb event_type "uncore_upi" then (imc_events, cha_events, upi_events ++ [e])
  else (imc_events, cha_events, upi_events).

(** src/wca/runners/measurement.py:543-560 [MeasurementRunner._prepare_events] *)
Definition prepare_events (table : Metadata) (uncore_events : list string)
    : result (sorted_events * Metadata) :=
  foldM (λ acc event,
    r ← prepare_event acc.2 event;
    let '(e, event_type, table) := r in
    Ok (sort_event e event_type acc.1, table)) ([], [], [], table) uncore_events.

(** ** The table of metrics when the runner is made *)

(** src/wca/runners/measurement.py:269-281 [MeasurementRunner.__init__], a raw event *)
Definition raw_event_metadata : MetricMetadata :=
  mkMetadata "Hardware PMU counter (raw event)" COUNTER (Some U_NUMERIC) S_PERF_SUBSYSTEM_WITH_CGROUPS
    G_TASK [] "no (event_names)".
Definition add_raw_events (event_names : list string) (table : Metadata) : Metadata :=
  foldl (λ table name, if str_contains "__r" name then dset table name raw_event_metadata else table)
    table event_names.

(** src/wca/runners/measurement.py:286-290 [MeasurementRunner.__init__], one entry *)
Definition enable_cpu_level (m : MetricMetadata) : MetricMetadata :=
  match md_source m with
  | S_PERF_SUBSYSTEM_WITH_CGROUPS | S_DERIVED_PERF_WITH_CGROUPS => with_levels ["cpu"] m
  | _ => m
  end.

(** src/wca/runners/measurement.py:266-290 [MeasurementRunner.__init__], the table of metrics *)
Definition runner_metadata (event_names : list string) (perf_aggregate_cpus : bool) (table : Metadata)
    : Metadata :=
  let table := add_raw_events event_names table in
  if perf_aggregate_cpus then table else dmap enable_cpu_level table.

(** ** Profiler *)

(** src/wca/profiling.py:26-29 [Profiler] *)
Record Profiler := mkProfiler {
  pr_durations : dict string float; pr_call_counts : dict string Z; pr_totals : dict string float
}.

(** src/wca/profiling.py:69-72 [Profiler.register_duration]
    A sum starts from the integer 0. *)
Definition register_duration (function_name : string) (duration : float) (p : Profiler) : Profiler :=
  mkProfiler (dset (pr_durations p) function_name duration)
    (dset (pr_call_counts p) function_name (default 0 (dget (pr_call_counts p) function_name) + 1))
    (dset (pr_totals p) function_name (fadd (default fzero (dget (pr_totals p) function_name)) duration)).

(** src/wca/profiling.py:74-88 [Profiler.get_metrics] *)
Definition profiler_metrics (p : Profiler) : result (list Metric) :=
  l ← mapM (λ '(function_name, last_duration_value),
    total ← dgetitem (pr_totals p) function_name;
    count ← dgetitem (pr_call_counts p) function_name;
    avg ← ndiv (PFloat total) (PInt count);
    let metric name value :=
      mkMetric name (MNum value) [("function", function_name)] None (Some GAUGE) None None in
    Ok [metric MetricName.WCA_DURATION_SECONDS (PFloat last_duration_value);
        metric MetricName.WCA_DURATION_SECONDS_AVG avg])
    (py_sorted (λ a b, String.ltb a.1 b.1) (pr_durations p));
  Ok (concat l).

(** ** Privileges *)

(** The identity of the process: [capget] returns an error code and the effective
    capabilities, [prctl] the value of an option. *)
Class Process (W : Type) : Type := {
  sys_geteuid : M W Z;
  sys_capget : M W (Z * Z);
  sys_prctl : Z → M W Z
}.

(** src/wca/security.py:78-79 [GettingCapabilitiesFailed] *)
Definition GettingCapabilitiesFailed : exn := OtherException "GettingCapabilitiesFailed".

(** src/wca/security.py:39-57 [CAP_DAC_OVERRIDE, CAP_SETUID, PR_GET_SECUREBITS,
    SECBIT_NO_SETUID_FIXUP] *)
Definition CAP_DAC_OVERRIDE : Z := 2.
Definition CAP_SETUID : Z := 128.
Definition PR_GET_SECUREBITS : Z := 27.
Definition SECBIT_NO_SETUID_FIXUP : Z := 4.

(** src/wca/security.py:130-132 [_get_securebits] *)
Definition get_securebits {W} `{Process W} : M W Z := sys_prctl PR_GET_SECUREBITS.

(** src/wca/security.py:135-143 [_get_capabilities], the effective ones *)
Definition get_capabilities {W} `{Process W} : M W Z :=
  r ← sys_capget;
  if negb (r.1 =? 0) then raise GettingCapabilitiesFailed else mret r.2.

(** src/wca/security.py:146-148 [_read_paranoid] *)
Definition read_paranoid {W} `{FileSystem W} : M W Z :=
  content ← read_file "/proc/sys/kernel/perf_event_paranoid"; lift (py_int content).

(** [capabilities.effective & cap == cap] *)
Definition has_cap (effective cap : Z) : bool := Z.land effective cap =? cap.

(** src/wca/security.py:82-127 [are_privileges_sufficient] *)
Definition are_privileges_sufficient {W} `{FileSystem W} `{Process W}
    (write_to_cgroup use_resctrl use_perf : bool) : M W bool :=
  if negb (write_to_cgroup || use_resctrl || use_perf) then mret true
  else
    uid ← sys_geteuid;
    if uid =? 0 then mret true
    else
      effective ← get_capabilities;
      let ok_cgroup := negb write_to_cgroup || has_cap effective CAP_DAC_OVERRIDE in
      ok_resctrl ← (if use_resctrl then
                      secure_bits ← get_securebits;
                      mret (has_cap effective CAP_SETUID &&
                            negb (Z.land secure_bits SECBIT_NO_SETUID_FIXUP =? 0))
                    else mret true : M W bool);
      ok_perf ← (if use_perf then paranoid ← read_paranoid; mret (paranoid <=? 0)
                 else mret true : M W bool);
      mret (ok_cgroup && ok_resctrl && ok_perf).

(** ** The runner *)

(** Uncore counters with the events they count and the generator of derived metrics. *)
Record uncore_unit := mkUncoreUnit {
  uu_counters : UncorePerfCounters;
  uu_events : dict Z (list Event);
  uu_topology : topology_t;
  uu_derived : option derived_state
}.

(** src/wca/runners/measurement.py:228-350 [MeasurementRunner.__init__], the configuration
    The pattern of zoneinfo is there when the collection is enabled. *)
Record RunnerConfig := mkRunnerConfig {
  rc_interval : num;
  rc_gather_hw_mm_topology : option bool;
  rc_extra_labels : dict string string;
  rc_event_names : list string;
  rc_perf_aggregate_cpus : bool;
  rc_enable_derived_metrics : bool;
  rc_uncore_events : list (list string);
  rc_task_label_generators : dict string TaskLabelGenerator;
  rc_allocation_configuration : option AllocationConfiguration;
  rc_wss : WSSConfig;
  rc_zoneinfo : option (string → option (string * string));
  rc_vmstat : option (option matches);
  rc_sched : sched_option
}.

(** The table of metrics that a runner with this configuration leaves when it is made. *)
Definition config_metadata (rc : RunnerConfig) : Metadata :=
  runner_metadata (rc_event_names rc) (rc_perf_aggregate_cpus rc) METRICS_METADATA.

(** The attributes that change from iteration to iteration. *)
Record RunnerState := mkRunnerState {
  rs_containers : by_task container;
  rs_last_iteration : float;
  rs_cached_bandwidth : option measurements;
  rs_uncore : list uncore_unit;
  rs_static : static_state;
  rs_profiler : Profiler
}.

Definition set_containers (f : by_task container → by_task container) (s : RunnerState) : RunnerState :=
  mkRunnerState (f (rs_containers s)) (rs_last_iteration s) (rs_cached_bandwidth s) (rs_uncore s)
    (rs_static s) (rs_profiler s).
Definition set_last_iteration (t : float) (s : RunnerState) : RunnerState :=
  mkRunnerState (rs_containers s) t (rs_cached_bandwidth s) (rs_uncore s) (rs_static s) (rs_profiler s).
Definition set_cached_bandwidth (b : option measurements) (s : RunnerState) : RunnerState :=
  mkRunnerState (rs_containers s) (rs_last_iteration s) b (rs_uncore s) (rs_static s) (rs_profiler s).
Definition set_uncore (u : list uncore_unit) (s : RunnerState) : RunnerState :=
  mkRunnerState (rs_containers s) (rs_last_iteration s) (rs_cached_bandwidth s) u (rs_static s) (rs_profiler s).
Definition set_static_state (st : static_state) (s : RunnerState) : RunnerState :=
  mkRunnerState (rs_containers s) (rs_last_iteration s) (rs_cached_bandwidth s) (rs_uncore s) st (rs_profiler s).
Definition set_profiler (f : Profiler → Profiler) (s : RunnerState) : RunnerState :=
  mkRunnerState (rs_containers s) (rs_last_iteration s) (rs_cached_bandwidth s) (rs_uncore s)
    (rs_static s) (f (rs_profiler s)).

(** [max(0., x)] *)
Definition max0 (x : float) : float := if fltb fzero x then x else fzero.

Section runner.
  Context {W : Type} `{FileSystem W} `{PyFloatRepr} `{Md : Metadata} `{PerfBackend W} `{PerfKernel W}.
  Context (now : M W float) (sleep : float → M W unit).
  Context (node_get_tasks : M W (list Task)) (store : list Metric → M W unit).
  Context (the_environment : M W environment) (ipmctl : M W (option (string * string))).
  Context (rusage : M W (Z * Z)) (logging_metrics : M W (list Metric)).
  Context (set_order : list string → list string).
  Context (rc : RunnerConfig) (rdt_enabled : bool) (cfg : ContainerConfig).

Definition rstate : Type := RunnerState * W.
Definition on_machine_r {A} (m : M W A) : M rstate A := on_snd m.
Definition rget {A} (f : RunnerState → A) : M rstate A := λ st, (Ok (f st.1), st).
Definition rset (f : RunnerState → RunnerState) : M rstate unit := λ st, (Ok tt, (f st.1, st.2)).

(** The container manager inside the runner. *)
Definition on_manager {A} (m : M (manager (W := W)) A) : M rstate A :=
  λ st, let '(r, (d, w)) := m (rs_containers st.1, st.2) in (r, (set_containers (λ _, d) st.1, w)).

(** The static information of the platform module inside the runner. *)
Definition on_static {A} (m : M (W * static_state) A) : M rstate A :=
  λ st, let '(r, (w, s)) := m (st.2, rs_static st.1) in (r, (set_static_state s st.1, w)).

(** src/wca/profiling.py:55-65 [Profiler.profile_duration] *)
Definition profiled {A} (name : string) (m : M rstate A) : M rstate A :=
  start ← on_machine_r now;
  a ← m;
  t ← on_machine_r now;
  _ ← rset (set_profiler (register_duration name (fsub t start)));
  mret a.

(** src/wca/platforms.py:615-619 [collect_platform_information], the profiled call without
    optional labels *)
Definition platform_information (rdt : bool) (gather_hw_mm_topology : option bool)
    (extra : option measurements) : M rstate (Platform * list Metric * dict string string) :=
  profiled "collect_platform_information"
    (env ← on_machine_r the_environment;
     on_static (collect_platform_information env rdt gather_hw_mm_topology extra false)).

(** src/wca/runners/measurement.py:358-368 [MeasurementRunner._wait] *)
Definition wait : M rstate unit :=
  profiled "sleep"
    (t ← on_machine_r now;
     last ← rget rs_last_iteration;
     interval ← lift (to_float (rc_interval rc));
     let residual_time := max0 (fsub interval (fsub t last)) in
     _ ← on_machine_r (sleep residual_time);
     t ← on_machine_r now;
     rset (set_last_iteration t)).

(** ** The tasks *)

Definition resource_measurement (v : resource_value) : mval :=
  match v with ResNum n => MNum n | ResStr s => MStr s end.

(** src/wca/runners/measurement.py:745-756 [_prepare_tasks_data]
    A resource given as text stays text. *)
Definition task_measurements (task : Task) (now : float) (ms : measurements) : measurements :=
  let ms := dset ms MetricName.TASK_UP (MNum (PInt 1)) in
  let ms := dset ms MetricName.TASK_LAST_SEEN (MNum (PFloat now)) in
  let ms := dset ms MetricName.TASK_SUBCONTAINERS
              (MNum (PInt (Z.of_nat (length (task_subcgroups_paths task))))) in
  let ms := match dget (task_resources task) "cpus" with
            | Some v => dset ms MetricName.TASK_REQUESTED_CPUS (resource_measurement v)
            | None => ms
            end in
  match dget (task_resources task) "mem" with
  | Some v => dset ms MetricName.TASK_REQUESTED_MEM_BYTES (resource_measurement v)
  | None => ms
  end.

(** [container.get_measurements()] of a container of the manager *)
Definition measure_container (task : Task) (c : container) : M (manager (W := W)) measurements :=
  λ st, let '(r, (c', w)) := container_get_measurements now set_order cfg (c, st.2) in
        (r, (tset st.1 task c', w)).

(** src/wca/runners/measurement.py:736-766 [_prepare_tasks_data], one task
    A missing measurement is raised again. *)
Definition prepare_task (now : float) (tasks_data : TasksData) (task_container : Task * container)
    : M (manager (W := W)) TasksData :=
  let '(task, container) := task_container in
  ms ← measure_container task container;
  mret (dset tasks_data (task_id task) (mkTaskData task (task_measurements task now ms) None)).

(** src/wca/runners/measurement.py:726-768 [_prepare_tasks_data] *)
Definition prepare_tasks_data (containers : by_task container) : M rstate TasksData :=
  profiled "prepare_tasks_data"
    (t ← on_machine_r now;
     on_manager (foldMS (prepare_task t) [] containers)).

(** src/wca/runners/measurement.py:776-780 [_build_tasks_metrics], one task *)
Definition data_metrics (data : TaskData) : result (list Metric) :=
  ms ← export_metrics_from_measurements (td_measurements data);
  Ok (List.map (λ m, label_metric m (task_labels (td_task data))) ms).

(** src/wca/runners/measurement.py:771-784 [_build_tasks_metrics] *)
Definition build_tasks_metrics (tasks_data : TasksData) : result (list Metric) :=
  per_task ← mapM data_metrics (dvalues tasks_data); Ok (concat per_task).

(** src/wca/runners/measurement.py:787-802 [_get_internal_metrics] *)
Definition get_internal_metrics (tasks : list Task) : M W (list Metric) :=
  rss ← rusage;
  t ← now;
  mret [create_metric_with_metadata MetricName.WCA_UP (MNum (PFloat t)) [] None;
        create_metric_with_metadata MetricName.WCA_TASKS (MNum (PInt (Z.of_nat (length tasks)))) [] None;
        create_metric_with_metadata MetricName.WCA_MEM_USAGE_BYTES (MNum (PInt ((rss.1 + rss.2) * 1024))) [] None].

(** ** One iteration *)

(** [uncore_get_measurements()] of one unit, with the derived metrics if wanted. *)
Definition measure_unit (u : uncore_unit) : M W (measurements * uncore_unit) :=
  ms ← uncore_get_measurements (uu_topology u) (uu_events u) (uu_counters u);
  match uu_derived u with
  | None => mret (ms, u)
  | Some d =>
      t ← now;
      let '(r, d') := get_measurements_with_derived uncore_derive t ms d in
      ms ← lift r;
      mret (ms, mkUncoreUnit (uu_counters u) (uu_events u) (uu_topology u) (Some d'))
  end.

(** src/wca/runners/measurement.py:628-646 [MeasurementRunner._iterate], the measurements
    added to those of the platform *)
Definition extra_platform_measurements : M rstate measurements :=
  units ← rget rs_uncore;
  measured ← on_machine_r (foldMS (λ '(extra, units) u,
    r ← measure_unit u; mret (dupdate extra r.1, units ++ [r.2])) ([], []) units);
  let '(extra, units) := (measured : measurements * list uncore_unit) in
  _ ← rset (set_uncore units);
  cached ← rget rs_cached_bandwidth;
  bandwidth ← (match cached with
               | Some b => mret b
               | None => out ← on_machine_r ipmctl; b ← lift (get_bandwidth out);
                         _ ← rset (set_cached_bandwidth (Some b)); mret b
               end : M rstate measurements);
  let extra := dupdate extra bandwidth in
  extra ← (match rc_zoneinfo rc with
           | Some regexp => ms ← on_machine_r (get_zoneinfo_measurements regexp); mret (dupdate extra ms)
           | None => mret extra
           end : M rstate measurements);
  match rc_vmstat rc with
  | Some regexp =>
      node ← on_machine_r (parse_node_vmstat_keys regexp);
      proc ← on_machine_r (parse_proc_vmstat_keys regexp);
      mret (dupdate (dupdate extra node) proc)
  | None => mret extra
  end.

(** src/wca/runners/measurement.py:649-653 [MeasurementRunner._iterate] *)
Definition measure_platform (extra : measurements) : M rstate (Platform * list Metric * dict string string) :=
  platform_information rdt_enabled (rc_gather_hw_mm_topology rc) (Some extra).

(** The body of another runner: it is given the containers, the platform, the tasks
    and the common labels, and may change what is known of the tasks. *)
Context (iterate_body_callback :
  option (by_task container → Platform → TasksData → dict string string → M rstate TasksData)).

(** src/wca/runners/measurement.py:674-681 [MeasurementRunner._iterate] *)
Definition send_metrics (tasks : list Task) (platform_metrics : list Metric) (tasks_data : TasksData)
    (common_labels : dict string string) : M rstate unit :=
  internal ← on_machine_r (get_internal_metrics tasks);
  task_metrics ← lift (build_tasks_metrics tasks_data);
  p ← rget rs_profiler;
  profiling ← lift (profiler_metrics p);
  logging ← on_machine_r logging_metrics;
  on_machine_r (package_send store [internal; platform_metrics; task_metrics; profiling; logging] common_labels).

(** src/wca/runners/measurement.py:621-681 [MeasurementRunner._iterate], with the tasks *)
Definition iterate_tasks (iteration_start : float) (tasks : list Task) : M rstate unit :=
  tasks ← lift (append_additional_labels_to_tasks (rc_task_label_generators rc) tasks);
  containers ← profiled "sync_containers_state" (on_manager (sync_containers_state now cfg tasks));
  extra ← extra_platform_measurements;
  platform_information ← measure_platform extra;
  let '(platform, platform_metrics, platform_labels) := platform_information in
  let common_labels := dupdate platform_labels (rc_extra_labels rc) in
  tasks_data ← try_except (d ← prepare_tasks_data containers; mret (Some d))
                 (λ e, if bool_decide (e = MissingMeasurementException) then Some (_ ← wait; mret None)
                       else None);
  match tasks_data with
  | None => mret tt
  | Some tasks_data =>
      tasks_data ← (match iterate_body_callback with
                    | Some body => body containers platform tasks_data common_labels
                    | None => mret tasks_data
                    end : M rstate TasksData);
      _ ← wait;
      t ← on_machine_r now;
      _ ← rset (set_profiler (register_duration "iteration" (fsub t iteration_start)));
      send_metrics tasks platform_metrics tasks_data common_labels
  end.

(** src/wca/runners/measurement.py:607-681 [MeasurementRunner._iterate] *)
Definition measurement_iterate : M rstate unit :=
  iteration_start ← on_machine_r now;
  tasks ← try_except (tasks ← on_machine_r node_get_tasks; mret (Some tasks))
            (λ e, if bool_decide (e = TaskSynchronizationException) then Some (_ ← wait; mret None)
                  else None);
  match tasks with
  | None => mret tt
  | Some tasks => iterate_tasks iteration_start tasks
  end.

(** src/wca/runners/measurement.py:691-699 [MeasurementRunner.run], the loop that ends
    when the runner is told to finish after [n] more iterations *)
Fixpoint iterations (n : nat) : M rstate unit :=
  match n with
  | O => measurement_iterate
  | S n => _ ← measurement_iterate; iterations n
  end.

Definition run_loop (n : nat) : M rstate Z :=
  _ ← iterations n; _ ← on_manager (manager_cleanup cfg); mret 0.
End runner.

(** ** Start *)

(** What the start leaves behind: whether RDT is used, the configuration of the
    containers and the table of metrics, which does not change any more. *)
Record Initialized := mkInitialized {
  in_rdt_enabled : bool; in_config : ContainerConfig; in_metadata : Metadata
}.

Definition without_rdt (p : Platform) : Platform :=
  mkPlatform (sockets p) (cores p) (cpus p) (numa_nodes p) (topology p) (cpu_model p) (cpu_model_number p)
    (cpu_codename p) (timestamp p) None (node_cpus p) (node_distances p) (platform_measurements p)
    (swap_enabled p).

Section start.
  Context {W : Type} `{FileSystem W} `{Md : Metadata} `{PerfKernel W} `{Process W}.
  Context (now : M W float) (set_order : list Z → list Z) (the_environment : M W environment).
  Context (rc : RunnerConfig) (rdt_enabled : option bool).
  Context (initialize_rdt_callback : option (M (rstate (W := W)) bool)).

(** src/wca/runners/measurement.py:571-605 [MeasurementRunner._init_uncore_pmu_events], one group *)
Definition init_uncore_group (platform : Platform) (table : Metadata) (event_group : list string)
    : M W (uncore_unit * Metadata) :=
  r ← lift (prepare_events table event_group);
  let '(imc_events, cha_events, upi_events, table) := r in
  imc ← discover_pmu_uncore_config set_order imc_events "uncore_imc_";
  upi ← discover_pmu_uncore_config set_order upi_events "uncore_upi_";
  cha ← discover_pmu_uncore_config set_order cha_events "uncore_cha_";
  let pmu_events := dupdate (dupdate (dupdate [] imc.2) upi.2) cha.2 in
  counters ← make_uncore (set_order (py_set (imc.1 ++ upi.1))) pmu_events;
  mret (mkUncoreUnit counters pmu_events (topology platform)
          (if rc_enable_derived_metrics rc then Some derived_init else None), table).

(** src/wca/runners/measurement.py:562-605 [MeasurementRunner._init_uncore_pmu_events]
    The configuration may also give a single group. *)
Definition init_uncore_pmu_events (platform : Platform) : M W (list uncore_unit * Metadata) :=
  foldMS (λ '(units, table) group,
    u ← init_uncore_group platform table group; mret (units ++ [u.1], u.2)) ([], metrics_metadata)
    (rc_uncore_events rc).

(** src/wca/runners/measurement.py:401-417 [MeasurementRunner._initialize], RDT and the
    monitoring of the platform: [None] when the runner has to stop *)
Definition settle_rdt (resctrl_available : bool) (platform : Platform) : result (option (bool * Platform)) :=
  let enabled := default resctrl_available rdt_enabled in
  if enabled then
    info ← or_raise AttributeError (rdt_information platform);
    Ok (if is_monitoring_enabled info then Some (true, platform)
        else match rdt_enabled with
             | None => Some (false, without_rdt platform)
             | Some _ => None
             end)
  else Ok (Some (false, platform)).

(** src/wca/runners/measurement.py:424-470 [MeasurementRunner._initialize], the rest *)
Definition initialize_rest (enabled : bool) (platform : Platform) : M (rstate (W := W)) (Z + Initialized) :=
  event_names ← lift (filter_out_event_names_for_cpu (rc_event_names rc) (cpu_codename platform));
  if match event_names with [] => false | _ => true end &&
     negb (check_perf_event_count_limit event_names (cpus platform) (cores platform))
  then mret (inl 1)
  else
    sufficient ← on_machine_r (are_privileges_sufficient
                   match rc_allocation_configuration rc with Some _ => true | None => false end
                   enabled match event_names with [] => false | _ => true end);
    if negb sufficient then mret (inl 1)
    else
      rdt_ok ← (match enabled, initialize_rdt_callback with
                | true, Some callback => callback
                | _, _ => mret true
                end : M (rstate (W := W)) bool);
      if negb rdt_ok then mret (inl 1)
      else
        units ← on_machine_r (init_uncore_pmu_events platform);
        _ ← rset (set_uncore units.1);
        mret (inr (mkInitialized enabled
          (mkContainerConfig platform (rc_allocation_configuration rc) event_names
             (rc_enable_derived_metrics rc) (rc_wss rc) (rc_perf_aggregate_cpus rc) (rc_sched rc))
          units.2)).

(** src/wca/runners/measurement.py:370-470 [MeasurementRunner._initialize]
    An error code stops the runner. *)
Definition initialize : M (rstate (W := W)) (Z + Initialized) :=
  resctrl_available ← on_machine_r check_resctrl;
  if bool_decide (rdt_enabled = Some true) && negb resctrl_available then mret (inl 1)
  else
    p ← platform_information now the_environment resctrl_available (rc_gather_hw_mm_topology rc) None;
    settled ← lift (settle_rdt resctrl_available p.1.1);
    match settled with
    | None => mret (inl 1)
    | Some (enabled, platform) => initialize_rest enabled platform
    end.
End start.

(** src/wca/runners/measurement.py:228-350 [MeasurementRunner.__init__], the state
    [t0] is the time of the construction of the runner. *)
Definition new_runner (t0 : float) (static : static_state) (profiler : Profiler) : RunnerState :=
  mkRunnerState [] t0 None [] static profiler.

(** src/wca/runners/measurement.py:683-699 [MeasurementRunner.run]
    [n] is how many iterations follow the first before it is told to finish; the body of
    another runner looks at what the start has settled.  The table of metrics is at first
    the one that the constructor leaves. *)
Definition measurement_run {W} `{FileSystem W} `{PyFloatRepr} `{PerfBackend W} `{PerfKernel W} `{Process W}
    (now : M W float) (sleep : float → M W unit) (node_get_tasks : M W (list Task))
    (store : list Metric → M W unit) (the_environment : M W environment)
    (ipmctl : M W (option (string * string))) (rusage : M W (Z * Z)) (logging_metrics : M W (list Metric))
    (set_order : list string → list string) (set_order_Z : list Z → list Z) (rc : RunnerConfig)
    (rdt_enabled : option bool) (initialize_rdt_callback : option (M (rstate (W := W)) bool))
    (iterate_body_callback : Initialized → option (by_task container → Platform → TasksData →
                               dict string string → M (rstate (W := W)) TasksData))
    (n : nat) : M (rstate (W := W)) Z :=
  initialized ← initialize (Md := config_metadata rc) now set_order_Z the_environment rc rdt_enabled
                  initialize_rdt_callback;
  match initialized with
  | inl code => mret code
  | inr init =>
      run_loop (Md := in_metadata init) now sleep node_get_tasks store the_environment ipmctl rusage logging_metrics set_order rc
        (in_rdt_enabled init) (in_config init) (iterate_body_callback init) n
  end.

(** ** The table of metrics *)

Lemma add_raw_events_lookup names table name :
  dget (add_raw_events names table) name =
    if bool_decide (name ∈ names) && str_contains "__r" name then Some raw_event_metadata else dget table name.
Proof.
  revert table. induction names as [|n names IH]; intros table; [done|]. cbn [add_raw_events foldl].
  fold (add_raw_events names). unfold add_raw_events in IH. rewrite IH.
  destruct (decide (name = n)) as [<-|Hne].
  - rewrite (bool_decide_true (name ∈ name :: names)) by left. cbn [andb].
    destruct (str_contains "__r" name); [|by rewrite andb_false_r].
    rewrite andb_true_r. destruct (bool_decide (name ∈ names)); [done|]. apply dget_dset_eq.
  - rewrite (bool_decide_ext (name ∈ n :: names) (name ∈ names)) by set_solver.
    destruct (_ && _); [done|]. destruct (str_contains "__r" n); [by rewrite dget_dset_ne|done].
Qed.

(** What the table says of any name when the runner is made. *)
Lemma runner_metadata_lookup names aggregate table name :
  dget (runner_metadata names aggregate table) name =
    (if aggregate then id else fmap enable_cpu_level)
      (if bool_decide (name ∈ names) && str_contains "__r" name then Some raw_event_metadata
       else dget table name).
Proof.
  unfold runner_metadata. rewrite <-add_raw_events_lookup. destruct aggregate; [done|]. apply dget_dmap.
Qed.

(** Preparing events leaves what the table says of the metrics of the program. *)
Lemma prepare_event_table table event r : prepare_event table event = Ok r →
  ∀ name, name ∈ MetricName.members → dget r.2 name = dget table name.
Proof.
  unfold prepare_event, get_unknown_event. intros (known & _ & Hp)%bind_Ok_iff name Hname.
  destruct known as [[e ty]|]; [by injection Hp as <-|].
  apply bind_Ok_iff in Hp as ([[n ty] c] & _ & Hp). apply bind_Ok_iff in Hp as ([e t] & Hu & [= <-]).
  apply bind_Ok_iff in Hu as (e' & _ & Hu). apply bind_Ok_iff in Hu as (t' & Ht & [= _ <-]).
  apply add_metric_Ok in Ht as [Hn ->]. cbn. apply dget_dset_ne. by intros ->.
Qed.

Lemma prepare_events_table table events r : prepare_events table events = Ok r →
  ∀ name, name ∈ MetricName.members → dget r.2 name = dget table name.
Proof.
  intros Hp name Hname. revert Hp. unfold prepare_events. change table with (([], [], [], table) : sorted_events * Metadata).2 at 2.
  apply (foldM_inv (λ acc : sorted_events * Metadata, dget acc.2 name = dget table name)); [|done].
  intros acc event acc' _ Hacc (r' & Hr & Hacc')%bind_Ok_iff. pose proof (prepare_event_table _ _ _ Hr name Hname) as Hn.
  destruct r' as [[e ty] t]. injection Hacc' as <-. cbn in *. congruence.
Qed.

(** A prepared event that the program does not know has the levels of an uncore metric. *)
Lemma unknown_event_levels table event e ty (t : Metadata) : get_event_if_known event = Ok None →
  prepare_event table event = Ok (e, ty, t) → levels_of (ev_name e) = ["socket"; "pmu_type"].
Proof.
  intros Hk. unfold prepare_event, get_unknown_event. rewrite Hk. cbn [mbind result_bind].
  intros ([[n ty'] c] & _ & Hp)%bind_Ok_iff. apply bind_Ok_iff in Hp as ([e' t'] & Hu & [= -> _ ->]).
  apply bind_Ok_iff in Hu as (e2 & He & Hu). apply bind_Ok_iff in Hu as (t2 & Ht & [= -> ->]).
  apply add_metric_Ok in Ht as [_ ->]. unfold levels_of, metadata_of, metrics_metadata.
  assert (ev_name e = n) as -> by (revert He; unfold make_event; intros; inv_ok; done).
  by rewrite dget_dset_eq.
Qed.

(** ** Labels identify tasks *)

(** A task keeps its labels, and whatever the generators are, it is labelled with its
    own id and name. *)
Lemma additional_labels_keep `{PyFloatRepr} generators task labels :
  additional_labels generators task = Ok labels →
  dget labels "task_id" = Some (task_id task) ∧ dget labels "task_name" = Some (task_name task) ∧
  ∀ k v, dget (task_labels task) k = Some v → k ≠ "task_id" → k ≠ "task_name" → dget labels k = Some v.
Proof.
  unfold additional_labels. apply (foldM_inv (λ labels : dict string string,
    dget labels "task_id" = Some (task_id task) ∧ dget labels "task_name" = Some (task_name task) ∧
    ∀ k v, dget (task_labels task) k = Some v → k ≠ "task_id" → k ≠ "task_name" → dget labels k = Some v)).
  - intros l [target g] l' _ (Hid & Hname & Hkeep) Hf.
    destruct (dmem l target) eqn:Em; [by injection Hf as <-|].
    apply bind_Ok_iff in Hf as (val & _ & [= <-]). destruct val as [v|]; [|done].
    assert (Hne : ∀ k x, dget l k = Some x → dget (dset l target v) k = Some x).
    { intros k x Hk. rewrite dget_dset_ne; [done|]. intros ->. unfold dmem in Em. by rewrite Hk in Em. }
    split; [by apply Hne|]. split; [by apply Hne|]. intros k x Hk H1 H2. apply Hne. by apply Hkeep.
  - split; [by rewrite dget_dset_ne, dget_dset_eq|]. split; [by rewrite dget_dset_eq|].
    intros k v Hk H1 H2. by rewrite !dget_dset_ne by done.
Qed.

(** What all metrics of a task carry. *)
Definition carries (labels : dict string string) (m : Metric) : Prop :=
  ∀ k v, dget labels k = Some v → dget (m_labels m) k = Some v.

Lemma label_metric_carries m labels : dict_wf labels → carries labels (label_metric m labels).
Proof. intros Hwf k v Hk. unfold label_metric. cbn. rewrite dget_dupdate by done. by rewrite Hk. Qed.

(** Every metric of the tasks carries the labels of a task that is measured. *)
Lemma build_tasks_metrics_carry `{Metadata} tasks_data metrics :
  build_tasks_metrics tasks_data = Ok metrics →
  (∀ id data, (id, data) ∈ tasks_data → dict_wf (task_labels (td_task data))) →
  ∀ m, m ∈ metrics → ∃ id data, (id, data) ∈ tasks_data ∧ carries (task_labels (td_task data)) m.
Proof.
  unfold build_tasks_metrics. intros (l & Hl & [= <-])%bind_Ok_iff Hwf m Hm.
  apply list_elem_of_In, in_concat in Hm as (ms & Hms & Hm).
  apply mapM_Ok_Forall2 in Hl. apply list_elem_of_In, list_elem_of_lookup in Hms as [i Hi].
  apply (Forall2_lookup_r _ _ _ _ _ Hl) in Hi as (data & Hd & Hms).
  apply list_elem_of_lookup_2 in Hd. unfold dvalues in Hd. apply list_elem_of_fmap in Hd as ([id d] & -> & Hin).
  exists id, d. split; [done|]. unfold data_metrics in Hms. apply bind_Ok_iff in Hms as (exported & _ & [= <-]).
  apply in_map_iff in Hm as (m0 & <- & _). apply label_metric_carries. by apply (Hwf id).
Qed.

(** ** Data of the tasks *)

Lemma task_measurements_up task t ms : dget (task_measurements task t ms) MetricName.TASK_UP = Some (MNum (PInt 1)).
Proof.
  unfold task_measurements. destruct (dget (task_resources task) "cpus"), (dget (task_resources task) "mem");
    by rewrite ?dget_dset_ne, ?dget_dset_eq by done.
Qed.

(** A text that is the CPUs of a task is measured as it is. *)
Lemma task_measurements_text task t ms s : dget (task_resources task) "cpus" = Some (ResStr s) →
  dget (task_measurements task t ms) MetricName.TASK_REQUESTED_CPUS = Some (MStr s).
Proof.
  intros Hs. unfold task_measurements. rewrite Hs. destruct (dget (task_resources task) "mem");
    by rewrite ?dget_dset_ne, ?dget_dset_eq by done.
Qed.

(** A measurement that is a text goes into a metric that no storage of Prometheus texts
    takes: the whole list of an iteration is refused. *)
Lemma text_measurement_refused `{Metadata} (tasks_data : TasksData) id data name s metrics :
  (id, data) ∈ tasks_data → levels_of name = [] → dget (td_measurements data) name = Some (MStr s) →
  build_tasks_metrics tasks_data = Ok metrics → is_convertable metrics = false.
Proof.
  intros Hin Hlevels Hs (per_task & Hl & [= <-])%bind_Ok_iff. apply mapM_Ok_Forall2 in Hl.
  assert (Hd : data ∈ dvalues tasks_data) by (unfold dvalues; apply list_elem_of_fmap; by exists (id, data)).
  apply list_elem_of_lookup in Hd as [i Hi]. apply (Forall2_lookup_l _ _ _ _ _ Hl) in Hi as (ms & Hi & Hms).
  apply bind_Ok_iff in Hms as (exported & He & [= <-]).
  unfold export_metrics_from_measurements in He. destruct (mapM _ _) as [parts|] eqn:Hparts in He; [|done]. injection He as <-.
  apply mapM_Ok_Forall2 in Hparts. apply dget_Some_in, list_elem_of_lookup in Hs as [j Hj].
  apply (Forall2_lookup_l _ _ _ _ _ Hparts) in Hj as (part & Hj & Hpart). cbn in Hpart. rewrite Hlevels in Hpart.
  injection Hpart as <-. unfold is_convertable.
  destruct (forallb _ _) eqn:Hf; [exfalso|done]. rewrite forallb_forall in Hf.
  set (m := create_metric_with_metadata name (MStr s) [] None) in *.
  assert (Hm : m_value (label_metric m (task_labels (td_task data))) = MStr s).
  { unfold m, create_metric_with_metadata. by destruct (metadata_of name). }
  specialize (Hf (label_metric m (task_labels (td_task data)))). rewrite Hm, !andb_false_r in Hf.
  cut (In (label_metric m (task_labels (td_task data))) (concat per_task)); [by intros Hx%Hf|].
  apply in_concat. eexists. split; [eapply list_elem_of_In, list_elem_of_lookup_2, Hi|].
  apply (in_map (λ m, label_metric m (task_labels (td_task data)))), in_concat. exists [m]. split; [|by left]. by eapply list_elem_of_In, list_elem_of_lookup_2.
Qed.

Section data.
  Context {W : Type} `{FileSystem W} `{PyFloatRepr} `{Md : Metadata} `{PerfBackend W} `{PerfKernel W}.
  Context (now : M W float) (set_order : list string → list string) (cfg : ContainerConfig).

(** What the data of a task says about the container it was measured from. *)
Definition data_of (containers : by_task container) (id : string) (data : TaskData) : Prop :=
  ∃ task c, (task, c) ∈ containers ∧ id = task_id task ∧ td_task data = task ∧
    td_allocations data = None ∧ dget (td_measurements data) MetricName.TASK_UP = Some (MNum (PInt 1)).

Lemma prepare_loop t containers acc st data st' :
  foldMS (prepare_task now set_order cfg t) acc containers st = (Ok data, st') →
  (∀ id td, (id, td) ∈ data → (id, td) ∈ acc ∨ data_of containers id td) ∧
  (∀ id, id ∈ dkeys data ↔ id ∈ dkeys acc ∨ id ∈ tids containers).
Proof.
  revert acc st. induction containers as [|[task c] containers IH]; intros acc st Hf.
  { apply M_ret_Ok_iff in Hf as [<- _]. split; [by left|]. intros id. set_solver. }
  cbn [foldMS] in Hf. apply M_bind_Ok_iff in Hf as (acc1 & st1 & Hp & Hf).
  apply IH in Hf as [Hdata Hkeys]. unfold prepare_task in Hp.
  apply M_bind_Ok_iff in Hp as (ms & st2 & _ & Hp). apply M_ret_Ok_iff in Hp as [<- ->].
  pose proof (task_measurements_up task t ms) as Hms. split.
  - intros id td [Hin|(task' & c' & Hin & Hrest)]%Hdata.
    + apply elem_of_dset in Hin as [[-> ->]|Hin]; [|by left]. right. exists task, c. split; [by left|done].
    + right. exists task', c'. split; [by right|done].
  - intros id. rewrite Hkeys. unfold tids at 2. rewrite fmap_cons. fold (tids containers). cbn [fst].
    rewrite dkeys_dset_elem, elem_of_cons. naive_solver.
Qed.
End data.

(** ** Iterations without tasks *)
Section outcomes.
  Context {W : Type} `{FileSystem W} `{PyFloatRepr} `{Md : Metadata} `{PerfBackend W} `{PerfKernel W}.
  Context (now : M W float) (sleep : float → M W unit).
  Context (node_get_tasks : M W (list Task)) (store : list Metric → M W unit).
  Context (the_environment : M W environment) (ipmctl : M W (option (string * string))).
  Context (rusage : M W (Z * Z)) (logging_metrics : M W (list Metric)).
  Context (set_order : list string → list string).
  Context (rc : RunnerConfig) (rdt_enabled : bool) (cfg : ContainerConfig).
  Context (body : option (by_task container → Platform → TasksData → dict string string →
                          M (rstate (W := W)) TasksData)).

Lemma wait_keeps_containers st st' r :
  wait now sleep rc st = (r, st') → rs_containers st'.1 = rs_containers st.1.
Proof.
  unfold wait, profiled, mbind, M_bind, on_machine_r, on_snd, rget, rset, lift. cbn.
  destruct (now st.2) as [[t1|e] w1]; cbn; [|by intros [= _ <-]].
  destruct (now w1) as [[t2|e] w2]; cbn; [|by intros [= _ <-]].
  destruct (to_float (rc_interval rc)) as [i|e]; cbn; [|by intros [= _ <-]].
  destruct (sleep _ w2) as [[[]|e] w3]; cbn; [|by intros [= _ <-]].
  destruct (now w3) as [[t3|e] w4]; cbn; [|by intros [= _ <-]].
  destruct (now w4) as [[t4|e] w5]; cbn; by intros [= _ <-].
Qed.

(** When the orchestrator cannot be asked for tasks the iteration only waits: the
    containers stay and nothing is measured or stored. *)
Lemma iterate_skips rs w t w1 w2 st' :
  now w = (Ok t, w1) → node_get_tasks w1 = (Raise TaskSynchronizationException, w2) →
  measurement_iterate now sleep node_get_tasks store the_environment ipmctl rusage logging_metrics set_order
    rc rdt_enabled cfg body (rs, w) = (Ok tt, st') →
  wait now sleep rc (rs, w2) = (Ok tt, st') ∧ rs_containers st'.1 = rs_containers rs.
Proof.
  intros Hnow Hnode. unfold measurement_iterate, try_except, mbind, M_bind, on_machine_r, on_snd. cbn.
  rewrite Hnow. cbn. rewrite Hnode. cbn. rewrite bool_decide_true by done.
  destruct (wait now sleep rc (rs, w2)) as [[[]|e] st2] eqn:E; cbn; [|by intros [=]].
  intros [= <-]. split; [done|]. by apply wait_keeps_containers in E.
Qed.

(** The waiting time is never negative. *)
Lemma max0_nonneg x : fltb (max0 x) fzero = false.
Proof. unfold max0. destruct (fltb fzero x) eqn:E; [|done].
  destruct x as [[]|[]| |[]]; (reflexivity || discriminate E).
Qed.
End outcomes.

(** RDT switched off by the configuration while the kernel has it: the platform of the
    containers still has the RDT information, so they go on using it. *)
Lemma disabled_rdt_still_used available platform :
  settle_rdt (Some false) available platform = Ok (Some (false, platform)).
Proof. done. Qed.

(** ** Examples *)
Section examples.
#[local] Instance example_repr : PyFloatRepr := λ _, "8.0".

Example labels_of_a_task :
  additional_labels [("task_id", ResourceGenerator "cpus"); ("load", RegexGenerator (λ s, Ok (str_take 5 s)) "task_name");
                     ("cpu", ResourceGenerator "cpus"); ("none", RegexGenerator (λ s, Ok s) "missing")]
    (mkTask "redis-6379" "id1" "/t" [] [("app", "redis")] [("cpus", ResNum (PFloat (f64 8)))]) =
  Ok [("app", "redis"); ("task_id", "id1"); ("task_name", "redis-6379"); ("load", "redis"); ("cpu", "8.0")].
Proof. vm_compute. done. Qed.
End examples.

Example uncore_inputs :
  parse_uncore_event_input "name/uncore_imc/event=0x3,umask=0xf/" =
    Ok ("name", "uncore_imc", mkEventConfig 3 15 0 0) ∧
  parse_uncore_event_input "name/uncore_xxx/event=0x3/" = Raise UncoreEventConfigError ∧
  parse_uncore_event_input "name/uncore_cha/event" = Raise UncoreEventConfigError ∧
  prepare_event METRICS_METADATA "own/uncore_imc/config=0x1,event=0x2/" = Raise AssertionError ∧
  prepare_event METRICS_METADATA "task_cycles/uncore_imc/event=0x2/" = Raise AttributeError.
Proof. vm_compute. done. Qed.
