(* ===== verification/RunnerLoop.v ===== *)
(** * The loop of the measurement runner

    What an iteration of [src/wca/runners/measurement.py] keeps and what it brings about,
    over any number of iterations and for any body of another runner: the containers that
    are watched are those of the tasks of the node. *)
From S2P Require Export MeasurementRunner.

(** ** What a measurement leaves of a container

    Measuring changes the counters inside a container; its name, its cgroup, its resctrl
    group and the cgroups inside it are its shape. *)
Definition container_shape (c : container)
    : string * Cgroup * option ResGroup * option (list (string * Cgroup)) :=
  match c with
  | CSingle c => (ct_name c, ct_cgroup c, ct_resgroup c, None)
  | CSet s => (cs_name s, cs_cgroup s, cs_resgroup s,
               Some ((λ kc, (kc.1, ct_cgroup kc.2)) <$> cs_subcontainers s))
  end.

Lemma same_shape c c' :
  container_shape c = container_shape c' →
  container_path c = container_path c' ∧ get_subcgroups c = get_subcgroups c' ∧
  container_name c = container_name c' ∧ container_resgroup c = container_resgroup c' ∧
  container_cgroup c = container_cgroup c'.
Proof.
  destruct c as [c|s], c' as [c'|s']; unfold container_path; cbn; intros Hs; simplify_eq.
  - by repeat match goal with Hx : _ = _ |- _ => rewrite Hx; clear Hx end.
  - match goal with Hx : _ <$> _ = _ <$> _ |- _ =>
      apply (f_equal (fmap snd)) in Hx; rewrite <-!list_fmap_compose in Hx end.
    unfold dvalues. rewrite <-!list_fmap_compose. split_and!; congruence || done.
Qed.

(** The image of a dictionary under [f] stays when a value is replaced by one with the
    same image. *)
Lemma dset_same_image {K V T} `{EqDecision K} (f : V → T) (d : dict K V) k v v0 :
  dget d k = Some v0 → f v = f v0 →
  (λ kv, (kv.1, f kv.2)) <$> dset d k v = (λ kv, (kv.1, f kv.2)) <$> d.
Proof.
  intros Hk Hf. induction d as [|[k1 v1] d IH]; [done|]. cbn [dget dset] in *.
  case_decide; subst; [injection Hk as ->; rewrite !fmap_cons; cbn; by rewrite Hf|].
  rewrite !fmap_cons. by rewrite IH.
Qed.

Section measuring.
  Context {W : Type} `{FileSystem W} `{PyFloatRepr} `{Md : Metadata} `{PerfBackend W}.
  Context (now : M W float) (set_order : list string → list string) (cfg : ContainerConfig).

Lemma single_measurements_shape :
  within (keeps (λ st, container_shape (CSingle st.1))) (single_get_measurements now set_order cfg).
Proof.
  assert (Hderived : ∀ ms d t, within (keeps (λ st : Container * W, container_shape (CSingle st.1)))
                                 (derived_step ms d t)).
  { intros ms d t st. unfold derived_step. by destruct (get_measurements_with_derived _ _ _ _). }
  unfold single_get_measurements, raw_measurements. within.
  intros st. by destruct (wss_get_measurements _ _ _ _ _ _) as [? [? ?]].
Qed.

Lemma set_measurements_shape :
  within (keeps (λ st, container_shape (CSet st.1))) (set_get_measurements now set_order cfg).
Proof.
  unfold set_get_measurements, subcontainers_measurements. within.
  - intros st. by destruct (wss_get_measurements _ _ _ _ _ _) as [? [? ?]].
  - intros [s w]. unfold keeps. cbn. destruct (dget (cs_subcontainers s) x) as [c|] eqn:E; [|done].
    pose proof (single_measurements_shape (c, w)) as Hc.
    destruct (single_get_measurements now set_order cfg (c, w)) as [r [c' w']]. cbn.
    injection Hc as _ Hcg _. by rewrite (dset_same_image ct_cgroup _ _ _ _ E Hcg).
Qed.

Lemma container_measurements_shape :
  within (keeps (λ st, container_shape st.1)) (container_get_measurements now set_order cfg).
Proof.
  intros [[c|s] w]; unfold container_get_measurements; cbn [fst snd].
  - pose proof (single_measurements_shape (c, w)) as Hc.
    by destruct (single_get_measurements now set_order cfg (c, w)) as [r [c' w']].
  - pose proof (set_measurements_shape (s, w)) as Hc.
    by destruct (set_get_measurements now set_order cfg (s, w)) as [r [c' w']].
Qed.
End measuring.

(** ** What the manager watches *)
Definition watch_shape (d : by_task container) := (λ tc, (tc.1, container_shape tc.2)) <$> d.

Lemma watch_shape_tasks d d' : watch_shape d = watch_shape d' → d.*1 = d'.*1.
Proof.
  intros Hs%(f_equal (fmap fst)). unfold watch_shape in Hs. by rewrite <-!list_fmap_compose in Hs.
Qed.

Lemma watch_shape_elem d d' t c :
  watch_shape d = watch_shape d' → (t, c) ∈ d' → ∃ c0, (t, c0) ∈ d ∧ container_shape c0 = container_shape c.
Proof.
  intros Hs Hin. assert (Hx : (t, container_shape c) ∈ watch_shape d).
  { rewrite Hs. unfold watch_shape. apply list_elem_of_fmap. by exists (t, c). }
  unfold watch_shape in Hx. apply list_elem_of_fmap in Hx as ([t0 c0] & [= -> Hc] & Hin0).
  by exists c0.
Qed.

Lemma manager_ok_shape d d' : watch_shape d = watch_shape d' → manager_ok d → manager_ok d'.
Proof.
  intros Hs [Hnd Hp]. split.
  - rewrite tids_tasks, <-(watch_shape_tasks _ _ Hs), <-tids_tasks. done.
  - intros t c Hin. destruct (watch_shape_elem _ _ _ _ Hs Hin) as (c0 & Hin0 & Hc).
    apply same_shape in Hc as (<- & _). by apply Hp.
Qed.

Lemma tset_same_shape d t c c' :
  NoDup (tids d) → (t, c) ∈ d → container_shape c' = container_shape c →
  watch_shape (tset d t c') = watch_shape d.
Proof.
  intros Hnd Hin Hc. apply list_elem_of_split in Hin as (d1 & d2 & ->).
  rewrite tset_middle; [unfold watch_shape; rewrite !fmap_app, !fmap_cons; cbn; by rewrite Hc|].
  rewrite tids_app in Hnd. apply NoDup_app in Hnd as (_ & Hdisj & _).
  intros Hin. apply (Hdisj _ Hin). left.
Qed.

(** Relations on the state of the runner: nothing the manager watches changes, and [S] is
    what it goes on watching. *)
Definition same_watch {W} : relation (rstate (W := W)) := keeps (λ st, watch_shape (rs_containers st.1)).
Definition watching {W} (d : by_task container) : relation (rstate (W := W)) :=
  stable (λ st, watch_shape (rs_containers st.1) = watch_shape d).
#[export] Instance same_watch_preorder {W} : PreOrder (same_watch (W := W)) := keeps_preorder _.
#[export] Instance watching_preorder {W} d : PreOrder (watching (W := W) d) := stable_preorder _.

Lemma within_watching {W A} d (m : M (rstate (W := W)) A) : within same_watch m → within (watching d) m.
Proof. apply within_keeps_stable. Qed.

Section steps.
  Context {W : Type}.

Lemma within_machine_r {A} (m : M W A) : within same_watch (on_machine_r m).
Proof. apply within_on_snd. done. Qed.
Lemma within_rget {A} (f : RunnerState → A) : within same_watch (rget (W := W) f).
Proof. by intros st. Qed.
Lemma within_rset f :
  (∀ s, rs_containers (f s) = rs_containers s) → within same_watch (rset (W := W) f).
Proof. intros Hf [s w]. unfold same_watch, keeps. cbn. by rewrite Hf. Qed.
Lemma within_on_static {A} (m : M (W * static_state) A) : within same_watch (on_static m).
Proof. intros [s w]. unfold on_static. cbn. by destruct (m _) as [r [w' st]]. Qed.
End steps.
#[export] Hint Resolve within_machine_r within_rget within_on_static : wca.
#[export] Hint Extern 1 (within same_watch (rset _)) => apply within_rset; reflexivity : wca.

Lemma within_profiled {W A} (now : M W float) name (m : M (rstate (W := W)) A) R `{!PreOrder R} :
  (∀ B (k : M (rstate (W := W)) B), within same_watch k → within R k) →
  within R m → within R (profiled now name m).
Proof. intros HR Hm. unfold profiled. within; try done; apply HR; within. Qed.

Section loop.
  Context {W : Type} `{FileSystem W} `{PyFloatRepr} `{Md : Metadata} `{PerfBackend W} `{PerfKernel W}.
  Context (now : M W float) (sleep : float → M W unit).
  Context (node_get_tasks : M W (list Task)) (store : list Metric → M W unit).
  Context (the_environment : M W environment) (ipmctl : M W (option (string * string))).
  Context (rusage : M W (Z * Z)) (logging_metrics : M W (list Metric)).
  Context (set_order : list string → list string).
  Context (rc : RunnerConfig) (rdt_enabled : bool) (cfg : ContainerConfig).
  Context (body : option (by_task container → Platform → TasksData → dict string string →
                          M (rstate (W := W)) TasksData)).
  (** The body of the other runner leaves the watched containers alone. *)
  Hypothesis body_keeps : ∀ f, body = Some f → ∀ c p d l, within same_watch (f c p d l).
  (** What the code documents of the tasks of a node. *)
  Hypothesis node_tasks_ok : ∀ w tasks w', node_get_tasks w = (Ok tasks, w') → tasks_ok tasks.

Lemma wait_watch : within same_watch (wait now sleep rc).
Proof. unfold wait, profiled. within. Qed.
Lemma platform_information_watch rdt gather extra :
  within same_watch (platform_information now the_environment rdt gather extra).
Proof. unfold platform_information, profiled. within. Qed.
Hint Resolve wait_watch platform_information_watch : wca.

Lemma extra_platform_watch : within same_watch (extra_platform_measurements now ipmctl rc).
Proof. unfold extra_platform_measurements. within. Qed.
Lemma send_watch tasks ms data labels :
  within same_watch (send_metrics now store rusage logging_metrics tasks ms data labels).
Proof. unfold send_metrics. within. Qed.
Hint Resolve extra_platform_watch send_watch : wca.

(** Measuring the tasks goes on watching the containers it measures. *)
Lemma prepare_task_watch containers t acc tc :
  NoDup (tids containers) → tc ∈ containers →
  within (stable (λ st, watch_shape st.1 = watch_shape containers)) (prepare_task now set_order cfg t acc tc).
Proof.
  destruct tc as [task c]. intros Hnd Hin. unfold prepare_task. within. intros [d w] Hd. cbn [fst] in Hd.
  unfold measure_container; cbn. pose proof (container_measurements_shape now set_order cfg (c, w)) as Hc.
  destruct (container_get_measurements now set_order cfg (c, w)) as [r [c' w']]. unfold keeps in Hc. cbn in *.
  destruct (watch_shape_elem d containers task c Hd Hin) as (c0 & Hin0 & Hc0).
  rewrite (tset_same_shape d task c0); [done| |done|congruence].
  by rewrite tids_tasks, (watch_shape_tasks _ _ Hd), <-tids_tasks.
Qed.

Lemma within_on_manager {A} containers (m : M (manager (W := W)) A) :
  within (stable (λ st, watch_shape st.1 = watch_shape containers)) m →
  within (watching containers) (on_manager m).
Proof.
  intros Hm [rs w] Hrs. specialize (Hm (rs_containers rs, w) Hrs). unfold on_manager. cbn in *.
  by destruct (m (rs_containers rs, w)) as [r [d w']].
Qed.

Lemma prepare_watch containers :
  NoDup (tids containers) → within (watching containers) (prepare_tasks_data now set_order cfg containers).
Proof.
  intros Hnd. apply within_profiled; [typeclasses eauto|intros; by apply within_watching|]. within.
  - apply within_watching. auto with wca.
  - apply within_on_manager, within_foldMS_elem; [typeclasses eauto|]. intros. by apply prepare_task_watch.
Qed.

(** [except E: wait and skip] *)
Lemma skipping_watch {A} containers e0 (m : M (rstate (W := W)) A) :
  within (watching containers) m →
  within (watching containers)
    (try_except (a ← m; mret (Some a))
       (λ e, if bool_decide (e = e0) then Some (_ ← wait now sleep rc; mret None) else None)).
Proof.
  intros Hm. apply within_try; [typeclasses eauto|by within|]. intros e k.
  destruct (bool_decide _); [|done]. intros [= <-]. apply within_watching. within.
Qed.

Lemma labelled_tasks_ok tasks labelled :
  append_additional_labels_to_tasks (rc_task_label_generators rc) tasks = Ok labelled →
  task_id <$> labelled = task_id <$> tasks ∧ task_cgroup_path <$> labelled = task_cgroup_path <$> tasks.
Proof.
  unfold append_additional_labels_to_tasks. intros Hl%mapM_Ok_Forall2.
  induction Hl as [|t t' tasks labelled Ht _ [IH1 IH2]]; [done|].
  apply bind_Ok_iff in Ht as (labels & _ & [= <-]). rewrite !fmap_cons, IH1, IH2. done.
Qed.

(** What a complete iteration brings about: the labelled tasks are synchronised and their
    containers are watched from then on. *)
Definition synchronised (tasks : list Task) (st st' : rstate (W := W)) : Prop :=
  ∃ labelled containers w0 w1,
    append_additional_labels_to_tasks (rc_task_label_generators rc) tasks = Ok labelled ∧
    tasks_ok labelled ∧
    sync_containers_state now cfg labelled (rs_containers st.1, w0) = (Ok containers, (containers, w1)) ∧
    watch_shape (rs_containers st'.1) = watch_shape containers.

Lemma iterate_tasks_synchronises start tasks st st' :
  tasks_ok tasks → manager_ok (rs_containers st.1) →
  iterate_tasks now sleep store the_environment ipmctl rusage logging_metrics set_order rc rdt_enabled cfg
    body start tasks st = (Ok tt, st') →
  synchronised tasks st st'.
Proof.
  intros [Hids Hpaths] Hmok. unfold iterate_tasks. intros Hit.
  apply M_bind_Ok_iff in Hit as (labelled & st1 & [Hlab ->]%lift_Ok_iff & Hit).
  destruct (labelled_tasks_ok _ _ Hlab) as [Hids' Hpaths'].
  assert (Hlok : tasks_ok labelled) by (split; congruence).
  apply M_bind_Ok_iff in Hit as (containers & st2 & Hsync & Hit).
  assert (Hs : ∃ w0 w1, sync_containers_state now cfg labelled (rs_containers st.1, w0) =
                          (Ok containers, (containers, w1)) ∧ rs_containers st2.1 = containers).
  { unfold profiled in Hsync. apply M_bind_Ok_iff in Hsync as (t0 & st3 & Ht0 & Hsync).
    apply M_bind_Ok_iff in Hsync as (cs & st4 & Hm & Hsync).
    apply M_bind_Ok_iff in Hsync as (t1 & st5 & Ht1 & Hsync).
    apply M_bind_Ok_iff in Hsync as ([] & st6 & [= <-] & Hsync). apply M_ret_Ok_iff in Hsync as [-> ->].
    unfold on_machine_r, on_snd in Ht0, Ht1. destruct (now st.2) as [r0 w0]. injection Ht0 as -> <-.
    destruct (now st4.2) as [r1 w1]. injection Ht1 as -> <-. unfold on_manager in Hm. cbn in Hm.
    destruct (sync_containers_state now cfg labelled (rs_containers st.1, w0)) as [r [d w]] eqn:E.
    injection Hm as -> <-. exists w0, w.
    destruct (sync_watches_exactly_tasks now cfg labelled _ _ _ _ _ Hlok Hmok E) as (-> & _). done. }
  destruct Hs as (w0 & w1 & Hs & Hcont).
  exists labelled, containers, w0, w1. split_and!; [done..|].
  pose proof (sync_watches_exactly_tasks now cfg labelled _ _ _ _ _ Hlok Hmok Hs) as (_ & [Hnd _] & _).
  assert (Hw : ∀ A (k : M (rstate (W := W)) A), within same_watch k → within (watching containers) k)
    by (intros; by apply within_watching).
  revert Hit. match goal with |- ?m st2 = _ → _ => intros Hit; apply (within_outcome (watching containers) m st2 _ st') in Hit end.
  - by apply Hit; rewrite Hcont.
  - within. apply skipping_watch. by apply prepare_watch.
Qed.

(** The containers [d] are those of the listed tasks: one for each, at its path, with its
    subcontainers and in the control group that its monitoring group was found in. *)
Definition watches_tasks (tasks : list Task) (d : by_task container) : Prop :=
  ∃ labelled groups w1 w2,
    append_additional_labels_to_tasks (rc_task_label_generators rc) tasks = Ok labelled ∧
    d.*1 ≡ₚ labelled ∧ ctrl_groups cfg w1 = (Ok groups, w2) ∧
    ∀ t c, (t, c) ∈ d → container_path c = task_cgroup_path t ∧ subcgroups_match t c ∧
      (rdt_present cfg = true →
       container_resgroup c = Some (mkResGroup (default "" (dget groups (container_name c))))).

Lemma watches_tasks_shape tasks d d' :
  watch_shape d = watch_shape d' → watches_tasks tasks d → watches_tasks tasks d'.
Proof.
  intros Hw (labelled & groups & w1 & w2 & Hlab & Hperm & Hg & Hd). exists labelled, groups, w1, w2.
  rewrite <-(watch_shape_tasks _ _ Hw). split_and!; [done..|]. intros t c Hin.
  destruct (watch_shape_elem d d' t c Hw Hin) as (c0 & Hin0 & (Hp & Hs & Hn & Hr & _)%same_shape).
  unfold subcgroups_match. rewrite <-Hp, <-Hs, <-Hn, <-Hr. by apply Hd.
Qed.

Lemma synchronised_watches tasks st st' :
  manager_ok (rs_containers st.1) → synchronised tasks st st' →
  manager_ok (rs_containers st'.1) ∧ watches_tasks tasks (rs_containers st'.1).
Proof.
  intros Hmok (labelled & d & w0 & w1 & Hlab & Hlok & Hs & Hw).
  destruct (sync_watches_exactly_tasks now cfg labelled _ _ _ _ _ Hlok Hmok Hs)
    as (_ & Hd & Hperm & Hsub & groups & wa & wb & Hg & Hres).
  split; [by eapply manager_ok_shape|]. apply (watches_tasks_shape _ d); [done|].
  exists labelled, groups, wa, wb. split_and!; [done..|]. intros t c Hin. destruct Hd as [_ Hd].
  split_and!; [by apply Hd|by apply (Hsub t c)|intros; by apply (Hres ltac:(done) t c)].
Qed.

#[local] Abbreviation iterate := (measurement_iterate now sleep node_get_tasks store the_environment ipmctl rusage
  logging_metrics set_order rc rdt_enabled cfg body).

(** What is watched after an iteration from [st], which lists the tasks [r]. *)
Definition watched_after (st st' : rstate (W := W)) (r : result (list Task)) : Prop :=
  match r with
  | Ok tasks => watches_tasks tasks (rs_containers st'.1)
  | Raise e => e = TaskSynchronizationException ∧ same_watch st st'
  end.

Lemma iterate_watches st st' :
  manager_ok (rs_containers st.1) → iterate st = (Ok tt, st') →
  manager_ok (rs_containers st'.1) ∧
  ∃ t w1 r w2, now st.2 = (Ok t, w1) ∧ node_get_tasks w1 = (r, w2) ∧ watched_after st st' r.
Proof.
  intros Hmok Hit. unfold measurement_iterate in Hit.
  apply M_bind_Ok_iff in Hit as (t & st1 & Ht & Hit). unfold on_machine_r, on_snd in Ht.
  destruct (now st.2) as [r0 w1] eqn:En. injection Ht as -> <-.
  unfold mbind at 1, M_bind at 1, try_except, mbind at 1, M_bind at 1, on_machine_r at 1, on_snd in Hit.
  cbn [fst snd] in Hit. destruct (node_get_tasks w1) as [[tasks|e] w2] eqn:Eg.
  - cbn in Hit. apply iterate_tasks_synchronises in Hit; [|by eapply node_tasks_ok|done].
    apply synchronised_watches in Hit as [Hm Hw]; [|done]. split; [done|]. by exists t, w1, (Ok tasks), w2.
  - destruct (bool_decide (e = TaskSynchronizationException)) eqn:Ee; [|done]. to_prop. subst e.
    pose proof (wait_watch (st.1, w2)) as Hk. unfold mbind, M_bind in Hit.
    destruct (wait now sleep rc (st.1, w2)) as [[[]|e] st2]; [|done]. cbn in Hit. injection Hit as <-.
    split; [eapply manager_ok_shape; [symmetry; exact Hk|done]|].
    by exists t, w1, (Raise TaskSynchronizationException), w2.
Qed.

#[local] Abbreviation iterations := (iterations now sleep node_get_tasks store the_environment ipmctl rusage
  logging_metrics set_order rc rdt_enabled cfg body).

(** From [st], [n] iterations lead to [st']. *)
Definition after_iterations (n : nat) (st st' : rstate (W := W)) : Prop :=
  match n with
  | O => st' = st
  | S n => iterations n st = (Ok tt, st')
  end.

Lemma after_iterations_S n st st1 st' :
  iterate st = (Ok tt, st1) → after_iterations n st1 st' → after_iterations (S n) st st'.
Proof.
  intros Hit Hafter. destruct n as [|n]; cbn in *; [by subst|].
  apply M_bind_Ok_iff. by exists tt, st1.
Qed.

(** What the last of the iterations has listed is what is watched. *)
Lemma iterations_watch n st st' :
  manager_ok (rs_containers st.1) → iterations n st = (Ok tt, st') →
  manager_ok (rs_containers st'.1) ∧
  ∃ st1 t w1 r w2, after_iterations n st st1 ∧ iterate st1 = (Ok tt, st') ∧
    now st1.2 = (Ok t, w1) ∧ node_get_tasks w1 = (r, w2) ∧ watched_after st1 st' r.
Proof.
  revert st. induction n as [|n IH]; intros st Hmok Hit; cbn [MeasurementRunner.iterations] in Hit.
  - destruct (iterate_watches _ _ Hmok Hit) as (Hm & t & w1 & r & w2 & ? & ? & ?). split; [done|].
    by exists st, t, w1, r, w2.
  - apply M_bind_Ok_iff in Hit as ([] & st0 & H1' & Hit). destruct (iterate_watches _ _ Hmok H1') as [Hm _].
    apply IH in Hit as (? & st1 & t & w1 & r & w2 & Hafter & Hrest); [|done]. split; [done|].
    exists st1, t, w1, r, w2. split; [|done]. by eapply after_iterations_S.
Qed.
End loop.

(** ** The whole run *)
Section run.
  Context {W : Type} `{FileSystem W} `{PyFloatRepr} `{PerfBackend W} `{PerfKernel W} `{Process W}.
  Context (now : M W float) (sleep : float → M W unit).
  Context (node_get_tasks : M W (list Task)) (store : list Metric → M W unit).
  Context (the_environment : M W environment) (ipmctl : M W (option (string * string))).
  Context (rusage : M W (Z * Z)) (logging_metrics : M W (list Metric)).
  Context (set_order : list string → list string) (set_order_Z : list Z → list Z).
  Context (rc : RunnerConfig) (rdt_enabled : option bool).
  Context (callback : option (M (rstate (W := W)) bool)).
  Context (body : Initialized → option (by_task container → Platform → TasksData → dict string string →
                                        M (rstate (W := W)) TasksData)).
  Hypothesis callback_keeps : ∀ m, callback = Some m → within same_watch m.
  Hypothesis body_keeps : ∀ init f, body init = Some f → ∀ c p d l, within same_watch (f c p d l).
  Hypothesis node_tasks_ok : ∀ w tasks w', node_get_tasks w = (Ok tasks, w') → tasks_ok tasks.

Lemma initialize_watch `{Md : Metadata} :
  within same_watch (initialize now set_order_Z the_environment rc rdt_enabled callback).
Proof.
  pose proof (platform_information_watch now the_environment) as Hp.
  unfold initialize, initialize_rest. within.
Qed.

Lemma cleanup_watch cfg : within same_watch (on_manager (W := W) (manager_cleanup cfg)).
Proof.
  assert (Hc : within (keeps fst) (manager_cleanup (W := W) cfg)).
  { assert (Hw : within (keeps fst) (watched (W := W))) by (by intros st).
    unfold manager_cleanup, for_containers, on_sys. within. }
  intros [rs w]. specialize (Hc (rs_containers rs, w)). unfold on_manager. cbn.
  destruct (manager_cleanup cfg (rs_containers rs, w)) as [r [d w']]. unfold keeps in Hc. cbn in Hc. by subst d.
Qed.

Lemma initialize_code `{Md : Metadata} st code st' :
  initialize now set_order_Z the_environment rc rdt_enabled callback st = (Ok (inl code), st') → code = 1.
Proof.
  assert (Hret : ∀ B (c : Z) (s s' : rstate (W := W)), (mret (inl c : Z + B) : M _ _) s = (Ok (inl code), s') → code = c).
  { intros B c s s' [[= ->] _]%M_ret_Ok_iff. done. }
  unfold initialize, initialize_rest. intros (available & s1 & _ & Hi)%M_bind_Ok_iff.
  destruct (_ && _); [by apply Hret in Hi|].
  apply M_bind_Ok_iff in Hi as (p & s2 & _ & Hi). apply M_bind_Ok_iff in Hi as (settled & s3 & _ & Hi).
  destruct settled as [[enabled platform]|]; [|by apply Hret in Hi].
  apply M_bind_Ok_iff in Hi as (names & s4 & _ & Hi). destruct (_ && _); [by apply Hret in Hi|].
  apply M_bind_Ok_iff in Hi as (sufficient & s5 & _ & Hi). destruct (negb _); [by apply Hret in Hi|].
  apply M_bind_Ok_iff in Hi as (ok & s6 & _ & Hi). destruct (negb _); [by apply Hret in Hi|].
  apply M_bind_Ok_iff in Hi as (units & s7 & _ & Hi). apply M_bind_Ok_iff in Hi as ([] & s8 & _ & Hi).
  by apply M_ret_Ok_iff in Hi as [[=] _].
Qed.

(** The start of the run, one iteration, and several, as [measurement_run] calls them. *)
Definition run_initialize : M (rstate (W := W)) (Z + Initialized) :=
  initialize (Md := config_metadata rc) now set_order_Z the_environment rc rdt_enabled callback.
Definition run_iterate (init : Initialized) : M (rstate (W := W)) unit :=
  measurement_iterate (Md := in_metadata init) now sleep node_get_tasks store the_environment ipmctl rusage
    logging_metrics set_order rc (in_rdt_enabled init) (in_config init) (body init).
Definition run_after (init : Initialized) : nat → relation (rstate (W := W)) :=
  after_iterations (Md := in_metadata init) now sleep node_get_tasks store the_environment ipmctl rusage
    logging_metrics set_order rc (in_rdt_enabled init) (in_config init) (body init).

(** A run that ends has either failed to start, with code 1 and without ever watching a
    container, or it has started and ends with code 0 after its last iteration, which has
    left the containers of the tasks it has listed. *)
Definition run_watches (n : nat) (st : rstate (W := W)) (code : Z) (st' : rstate (W := W)) : Prop :=
  ∃ started st0, run_initialize st = (Ok started, st0) ∧
    match started with
    | inl failure => failure = 1 ∧ code = 1 ∧ st' = st0 ∧ rs_containers st'.1 = []
    | inr init =>
        code = 0 ∧ manager_ok (rs_containers st'.1) ∧
        ∃ st1 st2 t w1 listed w2,
          run_after init n st0 st1 ∧ run_iterate init st1 = (Ok tt, st2) ∧
          on_manager (manager_cleanup (in_config init)) st2 = (Ok tt, st') ∧
          now st1.2 = (Ok t, w1) ∧ node_get_tasks w1 = (listed, w2) ∧
          watched_after rc (in_config init) st1 st' listed
    end.

Lemma measurement_run_watches n st code st' :
  rs_containers st.1 = [] →
  measurement_run now sleep node_get_tasks store the_environment ipmctl rusage logging_metrics set_order
    set_order_Z rc rdt_enabled callback body n st = (Ok code, st') →
  run_watches n st code st'.
Proof.
  intros Hempty Hrun. unfold measurement_run in Hrun.
  apply M_bind_Ok_iff in Hrun as (initialized & st0 & Hinit & Hrun).
  pose proof (within_outcome _ _ _ _ _ initialize_watch Hinit) as Hw0. unfold same_watch, keeps in Hw0.
  assert (Hst0 : rs_containers st0.1 = []).
  { rewrite Hempty in Hw0. by apply fmap_nil_inv in Hw0. }
  destruct initialized as [code0|init].
  { apply M_ret_Ok_iff in Hrun as [<- ->]. exists (inl code0), st0. split; [done|].
    pose proof (initialize_code _ _ _ Hinit) as ->. done. }
  exists (inr init), st0. split; [done|]. unfold run_loop in Hrun. apply M_bind_Ok_iff in Hrun as ([] & st2 & Hloop & Hrun).
  apply M_bind_Ok_iff in Hrun as ([] & st3 & Hclean & Hrun). apply M_ret_Ok_iff in Hrun as [<- ->].
  pose proof Hclean as Hkeep.
  apply (within_outcome _ _ _ _ _ (cleanup_watch (in_config init))) in Hkeep. unfold same_watch, keeps in Hkeep.
  apply iterations_watch in Hloop as (Hmok & st1 & t & w1 & r & w2 & Hn & Hit & Ht & Hg & Hafter);
    [|by apply body_keeps|done|rewrite Hst0; split; [constructor|by intros ? ? ?%not_elem_of_nil]].
  split; [done|]. split; [by eapply manager_ok_shape|]. exists st1, st2, t, w1, r, w2. split_and!; [done..|].
  destruct r as [tasks|e]; cbn in *; [|destruct Hafter as [-> Ha]; split; [done|];
    unfold same_watch, keeps in *; congruence].
  by apply (watches_tasks_shape _ _ _ _ _ (eq_sym Hkeep)).
Qed.
End run.
