(* ===== verification/Detection.v ===== *)
(** * The detection runner

    [src/wca/runners/detection.py]: the body of an iteration that asks the detector
    for anomalies and stores them, run inside the measurement runner.  The detector,
    the storage and the clock are parameters; the statistics of the runner are a part
    of the state, reached through the interface [HoldsStatistics]. *)
From S2P Require Export MeasurementRunner.

(** Where the statistics of the runner are kept. *)
Class HoldsStatistics (W : Type) : Type := {
  stats_of : W → AnomalyStatistics;
  set_stats : AnomalyStatistics → W → W
}.

Class HoldsStatisticsLaws (W : Type) `{HoldsStatistics W} : Prop :=
  stats_of_set st w : stats_of (set_stats st w) = st.

(** src/wca/runners/detection.py:33-35 [AnomalyStatistics.__init__] *)
Definition no_statistics : AnomalyStatistics := mkAnomalyStatistics None 0.

(** src/wca/detectors.py:178-184 [NOPAnomalyDetector.detect] *)
Definition nop_detect {W} (_ : Platform) (_ : TasksData)
    : M W (list ContentionAnomaly * list Metric) := mret ([], []).

Section detection.
  Context {W : Type} `{HoldsStatistics W}.
  Context (now : M W float) (store : list Metric → M W unit).
  Context (detect : Platform → TasksData → M W (list ContentionAnomaly * list Metric)).
  Context (uuid_of : string → string).

(** A change of the statistics that gives a value. *)
Definition update_stats {A} (f : AnomalyStatistics → A * AnomalyStatistics) : M W A :=
  λ w, (Ok (f (stats_of w)).1, set_stats (f (stats_of w)).2 w).

(** src/wca/runners/detection.py:40-57 [AnomalyStatistics.get_metrics], on the state of
    the runner; the clock is read when there are anomalies. *)
Definition statistics_metrics (anomalies : list ContentionAnomaly) : M W (list Metric) :=
  t ← (match anomalies with [] => mret fzero | _ => now end : M W float);
  update_stats (λ st, anomaly_statistics_metrics t st anomalies).

(** src/wca/runners/detection.py:107-118 [DetectionRunner._iterate_body], the output *)
Definition send_anomalies (anomalies : list ContentionAnomaly) (extra_metrics : list Metric)
    (tasks_data : TasksData) (common_labels : dict string string) : M W unit :=
  anomaly_metrics ← lift (convert_anomalies_to_metrics uuid_of anomalies tasks_data);
  anomaly_metrics ← lift (update_anomalies_metrics_with_task_information anomaly_metrics tasks_data);
  statistics ← statistics_metrics anomalies;
  package_send store [anomaly_metrics; extra_metrics; statistics] common_labels.

(** src/wca/runners/detection.py:96-118 [DetectionRunner._iterate_body] *)
Definition detection_body (_ : by_task container) (platform : Platform) (tasks_data : TasksData)
    (common_labels : dict string string) : M (rstate (W := W)) TasksData :=
  detection_start ← on_machine_r now;
  detected ← on_machine_r (detect platform tasks_data);
  t ← on_machine_r now;
  _ ← rset (set_profiler (register_duration "detect" (fsub t detection_start)));
  _ ← on_machine_r (send_anomalies detected.1 detected.2 tasks_data common_labels);
  mret tasks_data.

(** src/wca/runners/detection.py:93-94 [DetectionRunner.run]
    The value of the measurement runner is dropped: the result is [None]. *)
Definition detection_run {S} (measurement_runner_run : M S Z) : M S (option Z) :=
  _ ← measurement_runner_run; mret None.

(** src/wca/runners/allocation.py:242-243 [AllocationRunner.run], the same *)
Definition allocation_run {S} (measurement_runner_run : M S Z) : M S (option Z) :=
  _ ← measurement_runner_run; mret None.
End detection.

(** ** Properties *)

(** The counter is what was detected, and the time is the one of the last anomaly. *)
Lemma anomaly_statistics_counter t st anomalies metrics st' :
  anomaly_statistics_metrics t st anomalies = (metrics, st') →
  anomaly_counter st' = anomaly_counter st + Z.of_nat (length anomalies) ∧
  (anomaly_last_occurrence st' = match anomalies with [] => anomaly_last_occurrence st | _ => Some t end) ∧
  head metrics = Some (counter_metric "anomaly_count" (PInt (anomaly_counter st'))).
Proof.
  unfold anomaly_statistics_metrics. destruct anomalies as [|a l]; intros [= <- <-]; cbn; repeat split; lia.
Qed.

Section detection_spec.
  Context {W : Type} `{HoldsStatisticsLaws W}.
  Context (now : M W float) (store : list Metric → M W unit).
  Context (detect : Platform → TasksData → M W (list ContentionAnomaly * list Metric)).
  Context (uuid_of : string → string).
  Hypothesis now_keeps : ∀ w, stats_of (now w).2 = stats_of w.
  Hypothesis store_keeps : ∀ metrics w, stats_of (store metrics w).2 = stats_of w.
  Hypothesis detect_keeps : ∀ p d w, stats_of (detect p d w).2 = stats_of w.

Lemma statistics_metrics_counter anomalies w metrics w' :
  statistics_metrics now anomalies w = (Ok metrics, w') →
  anomaly_counter (stats_of w') = anomaly_counter (stats_of w) + Z.of_nat (length anomalies) ∧
  head metrics = Some (counter_metric "anomaly_count" (PInt (anomaly_counter (stats_of w')))).
Proof.
  unfold statistics_metrics. intros (t & w1 & Ht & Hm)%M_bind_Ok_iff.
  assert (Hw1 : stats_of w1 = stats_of w).
  { destruct anomalies; [by apply M_ret_Ok_iff in Ht as [_ ->]|].
    rewrite <-(now_keeps w). by rewrite Ht. }
  unfold update_stats in Hm. destruct (anomaly_statistics_metrics t (stats_of w1) anomalies) as [ms st'] eqn:E.
  injection Hm as <- <-. rewrite stats_of_set, <-Hw1.
  by apply anomaly_statistics_counter in E as (? & _ & ?).
Qed.

(** After an iteration the counter has grown by the anomalies the detector found, and
    the tasks are given back unchanged; the only other change is the duration. *)
Lemma detection_body_counts containers p data labels rs w data' rs' w' :
  detection_body now store detect uuid_of containers p data labels (rs, w) = (Ok data', (rs', w')) →
  ∃ anomalies extra w1 w2 d,
    detect p data w1 = (Ok (anomalies, extra), w2) ∧ data' = data ∧
    rs' = set_profiler (register_duration "detect" d) rs ∧
    anomaly_counter (stats_of w') = anomaly_counter (stats_of w) + Z.of_nat (length anomalies).
Proof.
  unfold detection_body, mbind, M_bind, on_machine_r, on_snd, rset. cbn.
  destruct (now w) as [[t0|] w1] eqn:E0; cbn; [|done].
  destruct (detect p data w1) as [[[anomalies extra]|] w2] eqn:E1; cbn; [|done].
  destruct (now w2) as [[t1|] w3] eqn:E2; cbn; [|done].
  destruct (send_anomalies now store uuid_of anomalies extra data labels w3) as [[[]|] w4] eqn:E3; cbn; [|done].
  intros [= <- <- <-]. exists anomalies, extra, w1, w2, (fsub t1 t0). split_and!; [done..|].
  pose proof (now_keeps w) as K0. pose proof (detect_keeps p data w1) as K1. pose proof (now_keeps w2) as K2.
  rewrite E0 in K0. rewrite E1 in K1. rewrite E2 in K2. cbn in *.
  unfold send_anomalies in E3. apply M_bind_Ok_iff in E3 as (m1 & w5 & Hm1 & E3).
  apply lift_Ok_iff in Hm1 as [_ ->]. apply M_bind_Ok_iff in E3 as (m2 & w6 & Hm2 & E3).
  apply lift_Ok_iff in Hm2 as [_ ->]. apply M_bind_Ok_iff in E3 as (m3 & w7 & Hm3 & E3).
  apply statistics_metrics_counter in Hm3 as [Hc _]. unfold package_send in E3.
  pose proof (store_keeps ((λ m, label_metric m labels) <$> concat [m2; extra; m3]) w7) as K4.
  rewrite E3 in K4. cbn in K4. by rewrite K4, Hc, K2, K1, K0.
Qed.

(** An anomaly about a task that is not measured stops the output: nothing is stored
    or counted. *)
Lemma unknown_task_not_counted anomalies extra data labels w e :
  convert_anomalies_to_metrics uuid_of anomalies data = Raise e →
  send_anomalies now store uuid_of anomalies extra data labels w = (Raise e, w).
Proof. intros Hc. unfold send_anomalies, mbind, M_bind, lift. by rewrite Hc. Qed.
End detection_spec.

(** ** A concrete run: two iterations, of which the first has an anomaly *)
Record example_world := mkExampleWorld { xw_stats : AnomalyStatistics; xw_stored : list (list Metric) }.
#[export] Instance example_statistics : HoldsStatistics example_world := {
  stats_of := xw_stats; set_stats st w := mkExampleWorld st (xw_stored w)
}.
#[export] Instance example_statistics_laws : HoldsStatisticsLaws example_world.
Proof. by intros st w. Qed.
Definition example_clock : M example_world float := mret (float_of_ratio 5 1).
Definition example_anomaly_store (metrics : list Metric) : M example_world unit :=
  λ w, (Ok tt, mkExampleWorld (xw_stats w) (xw_stored w ++ [metrics])).
Definition example_found : ContentionAnomaly := mkContentionAnomaly LLC "t1" ["t2"] [].
Definition example_task_data (id : string) : string * TaskData :=
  (id, mkTaskData (mkTask id id id [] [("app", id)] []) [] None).

Definition example_send (anomalies : list ContentionAnomaly) (w : example_world) : example_world :=
  (send_anomalies example_clock example_anomaly_store (λ ids, ids) anomalies []
     [example_task_data "t1"; example_task_data "t2"] [("node", "n")] w).2.

Example detection_run_counts :
  let w1 := example_send [example_found] (mkExampleWorld no_statistics []) in
  let w2 := example_send [] w1 in
  xw_stats w2 = mkAnomalyStatistics (Some (float_of_ratio 5 1)) 1 ∧
  map (map m_name) (xw_stored w2) =
    [["anomaly"; "anomaly_count"; "anomaly_last_occurrence"]; ["anomaly_count"; "anomaly_last_occurrence"]].
Proof. vm_compute. done. Qed.
