(* ===== verification/Startup.v ===== *)
(** * Start-up

    [src/wca/main.py] and the parts of [src/wca/logger.py] that keep state: the checks
    of the configuration file, the levels of the loggers, the counting of the logged
    records and the order of the steps up to the exit code.  [exit(code)] raises
    [SystemExit]; the parsed arguments, the loading of the configuration and the
    runner are parameters. *)
From S2P Require Export Config Metrics Detection.

(** [exit(code)] *)
Definition SystemExit : Z → exn := λ code, OtherException ("SystemExit " +:+ str_of_Z code).
Definition ConfigLoadError : exn := OtherException "ConfigLoadError".

(** ** Levels of the loggers *)

(** src/wca/logger.py:26-27 [TRACE, DEFAULT_MODULE] *)
Definition DEFAULT_MODULE : string := "wca".
Definition TRACE : Z := 9.
Definition WARNING : Z := 30.
Definition ERROR : Z := 40.

(** src/wca/logger.py:67-75 [parse_loggers_from_list], one argument *)
Definition parse_logger (log_levels_dict : dict string string) (log_level : string)
    : result (dict string string) :=
  if has_char ":" log_level then
    match split_on ":" log_level with
    | [module; log_level] => Ok (dset log_levels_dict module log_level)
    | _ => Raise (SystemExit 1)
    end
  else Ok (dset log_levels_dict DEFAULT_MODULE log_level).

(** src/wca/logger.py:63-76 [parse_loggers_from_list] *)
Definition parse_loggers_from_list (log_levels_list : list string) : result (dict string string) :=
  foldM parse_logger [] log_levels_list.

(** src/wca/main.py:98-101 [main], the default of the command line *)
Definition with_default_level (log_levels : dict string string) : dict string string :=
  if dmem log_levels DEFAULT_MODULE then log_levels else dset log_levels DEFAULT_MODULE "info".

(** [dict(a, **b)] of src/wca/main.py:141-141 [main] *)
Definition merge_levels (log_levels_config log_levels : dict string string) : dict string string :=
  dupdate log_levels_config log_levels.

(** ** Counting of the logged records *)

(** src/wca/logger.py:31-31 [_module_record_counters] *)
Definition record_counters : Type := dict string (dict Z Z).

(** src/wca/logger.py:39-40 [CountingHandler.emit] *)
Definition emit (name : string) (levelno : Z) (counters : record_counters) : record_counters :=
  let counter := default [] (dget counters name) in
  dset counters name (dset counter levelno (dget0 counter levelno + 1)).

(** src/wca/logger.py:43-60 [get_logging_metrics]
    A missing level of a [Counter] is 0. *)
Definition get_logging_metrics (counters : record_counters) : list Metric :=
  flat_map (λ '(logger_name, counter),
    let metric name level :=
      mkMetric name (MNum (PInt (dget0 counter level))) [("module", logger_name)] None (Some COUNTER)
        None None in
    [metric "wca_warning_count" WARNING; metric "wca_error_count" ERROR]) counters.

(** ** The configuration file *)

(** What [os.stat] says of a file. *)
Class FileStat (W : Type) : Type := {
  stat_uid : string → W → result Z;
  stat_mode : string → W → result Z;
  current_uid : W → Z;
  current_euid : W → Z
}.

(** src/wca/main.py:38-59 [valid_config_file]
    [S_IMODE] keeps the twelve low bits. *)
Definition valid_config_file {W} `{FileStat W} (config : string) (w : W) : result unit :=
  if negb (isabs config) then Raise (SystemExit 1)
  else
    file_owner_uid ← stat_uid config w;
    let user_uid := current_uid w in
    if negb (user_uid =? file_owner_uid) && negb (user_uid =? 0) then Raise (SystemExit 1)
    else
      mode ← stat_mode config w;
      let other_write_mode := Z.land (Z.land mode 4095) 2 in
      if negb (other_write_mode =? 0) then Raise (SystemExit 1) else Ok tt.

(** ** The main function *)

(** src/wca/main.py:62-88 [main], the parsed arguments *)
Record arguments := mkArguments {
  arg_config : string; arg_levels : list string; arg_components : list string;
  arg_is_root_allowed : bool
}.

(** The configuration: the loggers, as a dictionary, and the runner; [None] for a
    runner is a value of another class. *)
Record configuration (R : Type) := mkConfiguration {
  cf_keys : list string;
  cf_loggers : option (dict string string);
  cf_runner : option R
}.
Arguments mkConfiguration {R} _ _ _.
Arguments cf_keys {R} _.
Arguments cf_loggers {R} _.
Arguments cf_runner {R} _.

(** What a runner's [run] gives to [exit]. *)
Definition exit_status (exit_code : option Z) : Z := default 0 exit_code.

Section main.
  Context {W R : Type} `{FileStat W}.
  Context (configure_loggers : dict string string → M W unit).
  Context (register_components : list string → M W unit).
  Context (load_config : string → M W (configuration R)).
  Context (run : R → M W (option Z)).

(** src/wca/main.py:113-120 [main], the loading *)
Definition load (config : string) : M W (configuration R) :=
  try_except (load_config config)
    (λ e, if bool_decide (e = ConfigLoadError) then Some (raise (SystemExit 1)) else None).

(** src/wca/main.py:122-130 [main], the checks *)
Definition check_configuration (c : configuration R) : result unit :=
  _ ← (if existsb (λ key, negb (String.eqb key "loggers") && negb (String.eqb key "runner")) (cf_keys c)
       then Raise (SystemExit 1) else Ok tt);
  py_assert (bool_decide ("runner" ∈ cf_keys c)).

(** src/wca/main.py:90-157 [main] after the arguments are parsed, with the exit code
    as its value *)
Definition main (args : arguments) : M W Z :=
  uid ← (λ w, (Ok (current_euid w), w));
  _ ← (if (uid =? 0) && negb (arg_is_root_allowed args) then raise (SystemExit 2) else mret tt : M W unit);
  log_levels ← lift (parse_loggers_from_list (arg_levels args));
  _ ← configure_loggers (with_default_level log_levels);
  _ ← register_components (arg_components args);
  _ ← (λ w, (valid_config_file (arg_config args) w, w)) : M W unit;
  c ← load (arg_config args);
  _ ← lift (check_configuration c);
  _ ← (match cf_loggers c with
       | Some log_levels_config => configure_loggers (merge_levels log_levels_config log_levels)
       | None => mret tt
       end : M W unit);
  runner ← lift (or_raise ValidationError (cf_runner c));
  exit_code ← run runner;
  mret (exit_status exit_code).
End main.

(** ** Properties *)

Lemma other_write_bit mode : (Z.land (Z.land mode 4095) 2 =? 0) = negb (Z.testbit mode 1).
Proof.
  replace (Z.land (Z.land mode 4095) 2) with (Z.land mode (2 ^ 1)) by (rewrite <-Z.land_assoc; done).
  destruct (Z.testbit mode 1) eqn:E; cbn [negb].
  - apply Z.eqb_neq. intros H0. apply (f_equal (λ z, Z.testbit z 1)) in H0.
    by rewrite Z.land_spec, E, Z.pow2_bits_true, Z.bits_0 in H0.
  - apply Z.eqb_eq, Z.bits_inj'. intros i Hi. rewrite Z.land_spec, Z.bits_0.
    destruct (decide (i = 1)) as [->|Hne]; [by rewrite E|].
    by rewrite Z.pow2_bits_false, andb_false_r by lia.
Qed.

(** Bit 1 of the mode: other users may write. *)
Lemma valid_config_file_Ok {W} `{FileStat W} config (w : W) :
  valid_config_file config w = Ok tt ↔
  isabs config = true ∧
  (∃ owner, stat_uid config w = Ok owner ∧ (current_uid w = owner ∨ current_uid w = 0)) ∧
  (∃ mode, stat_mode config w = Ok mode ∧ Z.testbit mode 1 = false).
Proof.
  unfold valid_config_file. destruct (isabs config); cbn [negb]; [|split; [done|by intros [? _]]].
  rewrite bind_Ok_iff. split.
  - intros (owner & Ho & Hv).
    destruct (negb (current_uid w =? owner) && negb (current_uid w =? 0)) eqn:E; [discriminate Hv|].
    apply bind_Ok_iff in Hv as (mode & Hm & Hv). rewrite other_write_bit in Hv.
    destruct (Z.testbit mode 1) eqn:Em; [discriminate Hv|]. split; [done|]. split; [|by exists mode].
    exists owner. split; [done|]. apply andb_false_iff in E as [E|E]; to_prop; [by left|by right].
  - intros (_ & (owner & Ho & Hu) & (mode & Hm & Hb)). exists owner. split; [done|].
    replace (negb (current_uid w =? owner) && negb (current_uid w =? 0)) with false.
    + apply bind_Ok_iff. exists mode. split; [done|]. by rewrite other_write_bit, Hb.
    + symmetry. apply andb_false_iff. rewrite !negb_false_iff, !Z.eqb_eq. done.
Qed.

Section main_spec.
  Context {W R : Type} `{FileStat W}.
  Context (configure_loggers : dict string string → M W unit).
  Context (register_components : list string → M W unit).
  Context (load_config : string → M W (configuration R)).
  Context (run : R → M W (option Z)).
  #[local] Abbreviation main := (main configure_loggers register_components load_config run).

(** Root is refused before anything is done. *)
Lemma main_refuses_root args w :
  current_euid w = 0 → arg_is_root_allowed args = false → main args w = (Raise (SystemExit 2), w).
Proof. intros Hroot Hargs. unfold Startup.main, mbind, M_bind. cbn. by rewrite Hroot, Hargs. Qed.

(** When [main] gives an exit code, root was allowed, the configuration file passed
    its checks before it was loaded, nothing but a runner and loggers was configured,
    and the code is the one of the runner. *)
Lemma main_checks args w code w' :
  main args w = (Ok code, w') →
  (current_euid w ≠ 0 ∨ arg_is_root_allowed args = true) ∧
  ∃ w1 w2 w3 c runner exit_code,
    valid_config_file (arg_config args) w1 = Ok tt ∧ load_config (arg_config args) w1 = (Ok c, w2) ∧
    (∀ key, key ∈ cf_keys c → key = "loggers" ∨ key = "runner") ∧ "runner" ∈ cf_keys c ∧
    cf_runner c = Some runner ∧ run runner w3 = (Ok exit_code, w') ∧ code = exit_status exit_code.
Proof.
  unfold Startup.main. intros (uid & w0 & Huid & Hm)%M_bind_Ok_iff. injection Huid as <- <-.
  apply M_bind_Ok_iff in Hm as ([] & wa & Hroot & Hm).
  assert (Hallowed : (current_euid w ≠ 0 ∨ arg_is_root_allowed args = true) ∧ wa = w).
  { destruct (Z.eqb_spec (current_euid w) 0), (arg_is_root_allowed args); cbn in Hroot;
      try discriminate Hroot; apply M_ret_Ok_iff in Hroot as [_ ->]; naive_solver. }
  destruct Hallowed as [Hallowed ->]. split; [done|].
  apply M_bind_Ok_iff in Hm as (levels & wb & _ & Hm). apply M_bind_Ok_iff in Hm as ([] & wc & _ & Hm).
  apply M_bind_Ok_iff in Hm as ([] & wd & _ & Hm). apply M_bind_Ok_iff in Hm as ([] & we & Hv & Hm).
  injection Hv as Hv <-. apply M_bind_Ok_iff in Hm as (c & wf & Hl & Hm).
  apply M_bind_Ok_iff in Hm as ([] & wg & Hc & Hm). apply lift_Ok_iff in Hc as [Hc ->].
  apply M_bind_Ok_iff in Hm as ([] & wh & _ & Hm). apply M_bind_Ok_iff in Hm as (runner & wi & Hr & Hm).
  apply lift_Ok_iff in Hr as [Hr ->]. apply or_raise_Ok in Hr.
  apply M_bind_Ok_iff in Hm as (exit_code & wj & Hrun & Hm). apply M_ret_Ok_iff in Hm as [<- ->].
  exists wd, wf, wh, c, runner, exit_code. split; [done|].
  assert (Hload : load_config (arg_config args) wd = (Ok c, wf)).
  { unfold load, try_except in Hl. destruct (load_config _ wd) as [[c'|e] wl]; [done|].
    destruct (bool_decide (e = ConfigLoadError)); discriminate Hl. }
  split; [done|]. unfold check_configuration in Hc. apply bind_Ok_iff in Hc as ([] & Hkeys & Hrunner).
  apply py_assert_Ok, bool_decide_eq_true in Hrunner. split; [|done].
  intros key Hkey. destruct (existsb _ (cf_keys c)) eqn:E; [discriminate Hkeys|].
  destruct (decide (key = "loggers")); [by left|]. right.
  destruct (decide (key = "runner")) as [|Hne]; [done|]. exfalso.
  enough (existsb (λ key, negb (String.eqb key "loggers") && negb (String.eqb key "runner")) (cf_keys c) = true)
    by congruence.
  apply existsb_exists. exists key. split; [by apply list_elem_of_In|].
  apply andb_true_iff; split; apply negb_true_iff, String.eqb_neq; done.
Qed.

(** The exit code of a failed start is lost by the detection and allocation runners. *)
Lemma failed_start_is_lost {S} (measurement_runner_run : M S Z) st code st' :
  measurement_runner_run st = (Ok code, st') →
  detection_run measurement_runner_run st = (Ok None, st') ∧
  allocation_run measurement_runner_run st = (Ok None, st') ∧ exit_status None = 0.
Proof. intros Hm. unfold detection_run, allocation_run, mbind, M_bind. by rewrite Hm. Qed.
End main_spec.

(** ** Counting *)

Lemma emit_counts name level counters name' level' :
  dget0 (default [] (dget (emit name level counters) name')) level' =
  dget0 (default [] (dget counters name')) level' +
  (if bool_decide (name = name' ∧ level = level') then 1 else 0).
Proof.
  unfold emit. destruct (decide (name = name')) as [<-|Hn].
  - rewrite dget_dset_eq. cbn. unfold dget0 at 1. destruct (decide (level = level')) as [<-|Hl].
    + rewrite dget_dset_eq, bool_decide_true by done. done.
    + rewrite dget_dset_ne, bool_decide_false by naive_solver. unfold dget0. lia.
  - rewrite dget_dset_ne, bool_decide_false by naive_solver. lia.
Qed.

(** Every module that logged has one counter of warnings and one of errors. *)
Lemma logging_metrics_names counters :
  m_name <$> get_logging_metrics counters =
  flat_map (λ _, ["wca_warning_count"; "wca_error_count"]) counters.
Proof.
  unfold get_logging_metrics. induction counters as [|[name c] l IH]; [done|]. cbn. by rewrite <-IH.
Qed.

Example parse_loggers_levels :
  parse_loggers_from_list ["debug"; "wca.storage:error"] = Ok [("wca", "debug"); ("wca.storage", "error")] ∧
  parse_loggers_from_list ["a:b:c"] = Raise (SystemExit 1) ∧
  with_default_level [("x", "debug")] = [("x", "debug"); ("wca", "info")].
Proof. vm_compute. done. Qed.
