(* ===== verification/Logging.v ===== *)
(** * Logging

    [src/wca/logger.py]: the loggers of the packages with their handlers, the counting of
    the records that reach them and the tracing of calls.  The tree of the logging library
    is kept as far as the code uses it; formatting and colours are left out. *)
From S2P Require Export Startup.

Definition upper_char (c : ascii) : ascii :=
  let n := nat_of_ascii c in if ((97 <=? n) && (n <=? 122))%nat then ascii_of_nat (n - 32) else c.
Fixpoint str_upper (s : string) : string :=
  match s with EmptyString => EmptyString | String c s' => String (upper_char c) (str_upper s') end.

(** ** The tree of the loggers *)

(** The two handlers a package gets: one that writes, one that counts. *)
Inductive handler := StreamHandler | CountingHandler.
#[export] Instance handler_eq_dec : EqDecision handler.
Proof. solve_decision. Defined.

(** A logger; level 0 is NOTSET. *)
Record logger := mkLogger { lo_level : Z; lo_handlers : list handler; lo_propagate : bool }.

(** The loggers by name, the root without one; the names of the levels; the counters; what
    was written, as name and level of the records. *)
Record logging := mkLogging {
  lg_loggers : dict string logger; lg_levels : dict string Z; lg_counters : record_counters;
  lg_written : list (string * Z)
}.

Definition new_logger : logger := mkLogger 0 [] true.
Definition initial_logging : logging :=
  mkLogging [("", mkLogger WARNING [] true)]
    [("CRITICAL", 50); ("FATAL", 50); ("ERROR", ERROR); ("WARN", WARNING); ("WARNING", WARNING); ("INFO", 20);
     ("DEBUG", 10); ("NOTSET", 0)] [] [].

(** A logger that has not been asked for has neither handlers nor a level. *)
Definition logger_of (l : logging) (name : string) : logger := default new_logger (dget (lg_loggers l) name).

(** The names above a name, the nearest first; the last is the root. *)
Fixpoint prefixes (before : string) (parts : list string) : list string :=
  match parts with
  | [] | [_] => []
  | p :: parts => let name := if String.eqb before "" then p else before +:+ "." +:+ p in
                  prefixes name parts ++ [name]
  end.
Definition ancestors (name : string) : list string :=
  if String.eqb name "" then [] else prefixes "" (split_on "." name) ++ [""].

(** [getEffectiveLevel] *)
Definition effective_level (l : logging) (name : string) : Z :=
  default 0 (head (filter (λ level, level ≠ 0) ((λ n, lo_level (logger_of l n)) <$> (name :: ancestors name)))).

(** The handlers a record of a logger reaches: its own and those above, up to the first
    logger that does not propagate. *)
Fixpoint handlers_from (l : logging) (names : list string) : list handler :=
  match names with
  | [] => []
  | n :: names => let lo := logger_of l n in
                  lo_handlers lo ++ (if lo_propagate lo then handlers_from l names else [])
  end.
Definition handlers_of (l : logging) (name : string) : list handler := handlers_from l (name :: ancestors name).

(** What a handler does with a record. *)
Definition handle (name : string) (levelno : Z) (l : logging) (h : handler) : logging :=
  match h with
  | StreamHandler => mkLogging (lg_loggers l) (lg_levels l) (lg_counters l) (lg_written l ++ [(name, levelno)])
  | CountingHandler => mkLogging (lg_loggers l) (lg_levels l) (emit name levelno (lg_counters l)) (lg_written l)
  end.

(** [getLogger(name).log(levelno, ...)]
    A record that finds no handler goes to the handler of last resort of the library, which
    writes those of level WARNING and above. *)
Definition log_record (name : string) (levelno : Z) (l : logging) : logging :=
  if effective_level l name <=? levelno then
    match handlers_of l name with
    | [] => if WARNING <=? levelno then handle name levelno l StreamHandler else l
    | handlers => foldl (handle name levelno) l handlers
    end
  else l.

Definition set_logger (name : string) (lo : logger) (l : logging) : logging :=
  mkLogging (dset (lg_loggers l) name lo) (lg_levels l) (lg_counters l) (lg_written l).

(** ** Configuration *)

Definition LOGGER_MODULE : string := "wca.logger".

(** src/wca/logger.py:85-120 [init_logging]
    The handlers are replaced before the level is looked up; an unknown level raises. *)
Definition init_logging (level package_name : string) : M logging unit :=
  let level := str_upper level in
  _ ← modify (λ l, mkLogging (lg_loggers l) (dset (lg_levels l) "TRACE" TRACE) (lg_counters l) (lg_written l));
  _ ← modify (λ l, set_logger package_name
                     (mkLogger (lo_level (logger_of l package_name)) [StreamHandler; CountingHandler] false) l);
  l ← get_state;
  levelno ← lift (or_raise ValueError (dget (lg_levels l) level));
  _ ← modify (λ l, let lo := logger_of l package_name in
                   set_logger package_name (mkLogger levelno (lo_handlers lo) (lo_propagate lo)) l);
  _ ← modify (log_record package_name TRACE);
  modify (log_record LOGGER_MODULE 10).

(** src/wca/logger.py:79-82 [configure_loggers_from_dict] *)
Definition configure_loggers_from_dict (loggers : dict string string) : M logging unit :=
  forM_ loggers (λ '(module, log_level), init_logging log_level module).

(** ** Tracing *)

(** src/wca/logger.py:164-170 [trace]
    The level at which a call is logged, and whether with its arguments and result. *)
Definition trace_level (l : logging) (log : string) (verbose : option bool) : Z * bool :=
  match verbose with
  | Some v => (if v then 10 else TRACE, v)
  | None => let enabled := effective_level l log =? TRACE in (if enabled then TRACE else 10, enabled)
  end.

(** src/wca/logger.py:160-188 [trace]
    The call between two records; an exception leaves the second one out. *)
Definition trace {S A} (log : string) (verbose : option bool) (func : M (logging * S) A) : M (logging * S) A :=
  level ← on_fst (l ← get_state; mret (trace_level l log verbose).1);
  _ ← on_fst (modify (log_record log level));
  rv ← func;
  _ ← on_fst (modify (log_record log level));
  mret rv.

(** ** Every record is written and counted once *)

(** Loggers with handlers have both handlers, and keep their records to themselves. *)
Definition logging_ok (l : logging) : Prop :=
  ∀ name, lo_handlers (logger_of l name) = [] ∧ lo_propagate (logger_of l name) = true ∨
          lo_handlers (logger_of l name) = [StreamHandler; CountingHandler] ∧ lo_propagate (logger_of l name) = false.

Lemma initial_logging_ok : logging_ok initial_logging.
Proof. intros name. left. unfold logger_of. cbn. by case_decide. Qed.

Lemma handle_loggers name levelno l hs : lg_loggers (foldl (handle name levelno) l hs) = lg_loggers l.
Proof. revert l. induction hs as [|[] hs IH]; intros l; [done|by cbn; rewrite IH..]. Qed.
Lemma log_record_loggers name levelno l : lg_loggers (log_record name levelno l) = lg_loggers l.
Proof.
  unfold log_record. destruct (_ <=? _); [|done]. destruct (handlers_of l name) as [|h hs].
  - by destruct (_ <=? _).
  - apply handle_loggers.
Qed.

Lemma logger_of_set name lo l n :
  logger_of (set_logger name lo l) n = if decide (n = name) then lo else logger_of l n.
Proof. unfold logger_of. cbn. rewrite dget_dset. destruct (decide (name = n)), (decide (n = name)); naive_solver. Qed.

Lemma logging_ok_loggers l l' : lg_loggers l' = lg_loggers l → logging_ok l → logging_ok l'.
Proof. unfold logging_ok, logger_of. by intros ->. Qed.

Lemma set_logger_ok name level l :
  logging_ok l → logging_ok (set_logger name (mkLogger level [StreamHandler; CountingHandler] false) l).
Proof. intros Hl n. rewrite logger_of_set. case_decide; [by right|apply Hl]. Qed.

Lemma set_level_ok name level l :
  logging_ok l →
  logging_ok (set_logger name (mkLogger level (lo_handlers (logger_of l name)) (lo_propagate (logger_of l name))) l).
Proof. intros Hl n. rewrite logger_of_set. case_decide; [exact (Hl name)|apply Hl]. Qed.

(** A logger that has been configured: its name, or one above it, has handlers. *)
Definition configured (l : logging) (names : list string) : bool :=
  existsb (λ n, match lo_handlers (logger_of l n) with [] => false | _ => true end) names.

(** The handlers of a configured tree are both or none. *)
Lemma handlers_once l names :
  logging_ok l → handlers_from l names = if configured l names then [StreamHandler; CountingHandler] else [].
Proof.
  intros Hl. induction names as [|n names IH]; [done|]. cbn [handlers_from configured existsb].
  destruct (Hl n) as [[-> ->]|[-> ->]]; [exact IH|done].
Qed.

Lemma init_logging_ok level package_name : within (stable logging_ok) (init_logging level package_name).
Proof.
  unfold init_logging. repeat first [apply within_bind; [typeclasses eauto| |intros ?] | within_step].
  all: apply within_modify; intros l Hl; try (by apply set_logger_ok); try (by apply set_level_ok).
  all: by revert Hl; apply logging_ok_loggers; rewrite ?log_record_loggers.
Qed.

Lemma configure_ok loggers : within (stable logging_ok) (configure_loggers_from_dict loggers).
Proof. apply within_forM; [typeclasses eauto|]. intros [module level]. apply init_logging_ok. Qed.

(** A package that has been configured has its level and both handlers, once, however often
    it was configured before. *)
Lemma init_logging_logger level package_name l l' :
  init_logging level package_name l = (Ok tt, l') → ∃ levelno,
    dget (dset (lg_levels l) "TRACE" TRACE) (str_upper level) = Some levelno ∧
    logger_of l' package_name = mkLogger levelno [StreamHandler; CountingHandler] false.
Proof.
  unfold init_logging. intros Hm. apply M_bind_Ok_iff in Hm as (? & l1 & [= _ <-] & Hm).
  apply M_bind_Ok_iff in Hm as (? & l2 & [= _ <-] & Hm). apply M_bind_Ok_iff in Hm as (? & l3 & [= <- <-] & Hm).
  apply M_bind_Ok_iff in Hm as (levelno & l4 & [Hlevel%or_raise_Ok ->]%lift_Ok_iff & Hm).
  apply M_bind_Ok_iff in Hm as (? & l5 & [= _ <-] & Hm). apply M_bind_Ok_iff in Hm as (? & l6 & [= _ <-] & [= <-]).
  exists levelno. split; [exact Hlevel|]. unfold logger_of at 1. rewrite !log_record_loggers.
  cbn [set_logger lg_loggers]. rewrite dget_dset_eq. cbn [from_option]. by rewrite logger_of_set, decide_True.
Qed.

Definition counted (l : logging) (name : string) (levelno : Z) : Z :=
  dget0 (default [] (dget (lg_counters l) name)) levelno.

Lemma counted_emit counters name levelno n k :
  dget0 (default [] (dget (emit name levelno counters) n)) k =
  dget0 (default [] (dget counters n)) k + (if decide (n = name ∧ k = levelno) then 1 else 0).
Proof.
  unfold emit. rewrite dget_dset. destruct (decide (name = n)) as [->|Hn].
  - cbn [from_option]. unfold id, dget0 at 1. rewrite dget_dset. destruct (decide (levelno = k)) as [->|Hk].
    + by rewrite decide_True.
    + rewrite decide_False by naive_solver. cbn. unfold dget0. lia.
  - rewrite decide_False by naive_solver. lia.
Qed.

(** C38 (invariant): whatever loggers have been configured, and however often, a record of at
    least the level of its logger is written once and counted once when its logger or one
    above it is configured; otherwise it is not counted, and written, by the handler of last
    resort, exactly when its level is WARNING or above.  A record below the level of its
    logger leaves everything as it was. *)
Theorem record_counted_once configurations r l name levelno :
  forM_ configurations configure_loggers_from_dict initial_logging = (r, l) →
  let l' := log_record name levelno l in
  if effective_level l name <=? levelno then
    if configured l (name :: ancestors name) then
      lg_written l' = lg_written l ++ [(name, levelno)] ∧
      ∀ n k, counted l' n k = counted l n k + (if decide (n = name ∧ k = levelno) then 1 else 0)
    else lg_counters l' = lg_counters l ∧
         lg_written l' = lg_written l ++ (if WARNING <=? levelno then [(name, levelno)] else [])
  else l' = l.
Proof.
  intros Hc l'. subst l'. assert (Hok : logging_ok l).
  { assert (within (stable logging_ok) (forM_ configurations configure_loggers_from_dict)) as Hw
      by (apply within_forM; [typeclasses eauto|apply configure_ok]).
    specialize (Hw initial_logging). rewrite Hc in Hw. apply Hw, initial_logging_ok. }
  unfold log_record. destruct (effective_level l name <=? levelno); [|done].
  unfold handlers_of. rewrite (handlers_once l (name :: ancestors name) Hok).
  destruct (configured l (name :: ancestors name)).
  - split; [done|]. intros n k. apply counted_emit.
  - destruct (WARNING <=? levelno); [done|]. by rewrite app_nil_r.
Qed.

(** ** Tracing is transparent *)

(** A traced call returns and raises what the call does, and leaves the rest of the state
    as the call leaves it when the call does not look at the logging. *)
Lemma trace_transparent {S A} log verbose (func : M S A) l s :
  let r := trace log verbose (on_snd func) (l, s) in r.1 = (func s).1 ∧ r.2.2 = (func s).2.
Proof.
  cbn zeta. unfold trace, on_fst, on_snd, mbind, M_bind, modify, get_state, mret, M_ret. cbn.
  by destruct (func s) as [[a|e] s'].
Qed.

(** ** Concrete loggers *)
Definition example_configurations : list (dict string string) :=
  [[("wca", "info")]; [("wca", "info"); ("wca.storage", "trace")]].
Definition example_loggers : logging :=
  (forM_ example_configurations configure_loggers_from_dict initial_logging).2.

Lemma example_loggers_run :
  forM_ example_configurations configure_loggers_from_dict initial_logging = (Ok tt, example_loggers).
Proof. vm_compute. reflexivity. Qed.

(** A record of a configured package, and one of a library that nobody configured. *)
Lemma record_counted_once_witness :
  counted (log_record "wca.runners.measurement" WARNING example_loggers) "wca.runners.measurement" WARNING = 1 ∧
  (λ l, (lg_counters l, lg_written l)) (log_record "kazoo.client" 50 example_loggers) =
  (lg_counters example_loggers, lg_written example_loggers ++ [("kazoo.client", 50)]).
Proof.
  split.
  - pose proof (record_counted_once _ _ _ "wca.runners.measurement" WARNING example_loggers_run) as H. cbv zeta in H.
    rewrite (eq_refl : (effective_level example_loggers "wca.runners.measurement" <=? WARNING) = true) in H.
    rewrite (eq_refl : configured example_loggers ("wca.runners.measurement" ::
                         ancestors "wca.runners.measurement") = true) in H.
    rewrite (proj2 H). vm_compute. reflexivity.
  - pose proof (record_counted_once _ _ _ "kazoo.client" 50 example_loggers_run) as H. cbv zeta in H.
    rewrite (eq_refl : (effective_level example_loggers "kazoo.client" <=? 50) = true) in H.
    rewrite (eq_refl : configured example_loggers ("kazoo.client" :: ancestors "kazoo.client") = false) in H.
    cbv beta. rewrite (proj1 H), (proj2 H). reflexivity.
Defined.

(** A level below that of the logger, a library that nobody configured, an unknown level. *)
Example records_not_counted :
  log_record "wca.main" 10 example_loggers = example_loggers ∧
  log_record "kazoo.client" 20 example_loggers = example_loggers ∧
  counted (log_record "kazoo.client" 50 example_loggers) "kazoo.client" 50 = 0 ∧
  (init_logging "loud" "wca" initial_logging).1 = Raise ValueError.
Proof. vm_compute. done. Qed.

Example ancestors_of_name : ancestors "wca.runners.measurement" = ["wca.runners"; "wca"; ""].
Proof. vm_compute. reflexivity. Qed.
