(* ===== verification/Services.v ===== *)
(** * Start of the services

    [src/wca/scheduler/main.py] and [src/wca/admission_controller/main.py] with their
    components.py: both services configure the loggers, register their classes, load their
    configuration and hand it to the service.  The state is that of the logging, the
    registered classes and the files. *)
From S2P Require Export Logging ConfigLoad.

Section services.
  Context {W : Type} `{FileSystem W}.
  Context (access : string → Z → bool) (environ : string → option string) (yaml_nodes : string → result ynode).
  (** the class of a name *)
  Context (spec_of : string → class_spec).

Definition service_state : Type := (logging * registry) * W.
Definition on_logging {A} (m : M logging A) : M service_state A := on_fst (on_fst m).
Definition on_registry {A} (m : M registry A) : M service_state A := on_fst (on_snd m).
Definition log_to (name : string) (level : Z) : M service_state unit := on_logging (modify (log_record name level)).
Definition exit_with (code : Z) {A} : M service_state A := raise (SystemExit code).

(** src/wca/scheduler/components.py:31-39 [register_algorithms] *)
Definition register_algorithms : M registry unit :=
  forM_ ["Fit"; "LeastUsedBAR"; "LeastUsed"; "BAR"; "HierBAR"; "StaticAssigner"; "Score"; "DramHitRatioProvision"]
    (λ name, register true (spec_of name)).
(** src/wca/scheduler/components.py:42-47 [register_dataproviders] *)
Definition register_dataproviders : M registry unit :=
  forM_ ["Kubeapi"; "Prometheus"; "Queries"; "ClusterDataProvider"; "ClusterScoreDataProvider"]
    (λ name, register true (spec_of name)).
(** src/wca/admission_controller/components.py:20-23 [register_components] *)
Definition register_admission_components : M registry unit :=
  forM_ ["Prometheus"; "AppDataProvider"; "Queries"] (λ name, register true (spec_of name)).

(** [configuration[key]] of the mapping a file holds *)
Definition config_get (configuration : pyval) (key : string) : result (option pyval) :=
  match configuration with
  | VDict d => Ok (snd <$> head (filter (λ kv : pyval * pyval, text_of kv.1 = Some key) d))
  | _ => Raise TypeError
  end.
Definition config_item (configuration : pyval) (key : string) : result pyval :=
  o ← config_get configuration key; or_raise KeyError o.

(** [dict(log_levels, **log_levels_config)] of texts *)
Definition levels_of (v : pyval) : result (dict string string) :=
  match v with
  | VDict d => mapM (λ kv, k ← or_raise TypeError (text_of kv.1); l ← or_raise AttributeError (text_of kv.2); Ok (k, l)) d
  | _ => Raise TypeError
  end.

(** src/wca/scheduler/main.py:41-55 [main]
    The part both services have in common: the configuration, with the levels of its
    loggers set; those of the file replace the default.  The levels that are checked are
    those of the program, which are a dictionary. *)
Definition load_service_config (DEFAULT_MODULE config : string) : M service_state pyval :=
  let log_levels := [(DEFAULT_MODULE, "info")] in
  configuration ← try_except
    (registered ← (λ s, (Ok s.1.2, s)); on_snd (load_config access environ yaml_nodes registered config))
    (λ e, if bool_decide (e = Config.ConfigLoadError)
          then Some (_ ← log_to (DEFAULT_MODULE +:+ ".main") ERROR; exit_with 1) else None);
  loggers ← lift (config_get configuration "loggers");
  _ ← match loggers with
      | Some log_levels_config =>
          levels ← lift (levels_of log_levels_config);
          on_logging (configure_loggers_from_dict (merge_levels log_levels levels))
      | None => mret tt
      end;
  mret configuration.

Definition start_service (DEFAULT_MODULE : string) (components : M registry unit) (config : string)
    : M service_state pyval :=
  _ ← on_logging (configure_loggers_from_dict [(DEFAULT_MODULE, "info")]);
  _ ← log_to (DEFAULT_MODULE +:+ ".main") WARNING;
  _ ← log_to (DEFAULT_MODULE +:+ ".main") 10;
  _ ← log_to (DEFAULT_MODULE +:+ ".main") 20;
  _ ← on_registry components;
  load_service_config DEFAULT_MODULE config.

(** src/wca/scheduler/server.py:56-67 [Server.__init__]
    The algorithm, the client of Kubernetes and, when it is not empty, the interval of the
    thread that is started. *)
Record Server := mkServer { sv_algorithm : pyval; sv_kubeapi : pyval; sv_reschedule_interval : option pyval }.
Definition py_true (v : pyval) : bool :=
  match v with
  | VNone => false | VBool b => b | VNum n => num_true n | VStr s => negb (String.eqb s "")
  | VList l => match l with [] => false | _ => true end
  | VDict d => match d with [] => false | _ => true end
  | VStrEnum _ _ s => negb (String.eqb s "") | VNumEnum _ _ n => num_true n | VEnum _ _ _ | VObj _ _ => true
  end.
Definition new_server (configuration : pyval) : result Server :=
  algorithm ← config_item configuration "algorithm";
  kubeapi ← config_item configuration "kubeapi";
  reschedule_interval ← config_get configuration "reschedule_interval";
  Ok (mkServer algorithm kubeapi
        (match reschedule_interval with Some v => if py_true v then Some v else None | None => None end)).

(** src/wca/scheduler/main.py:27-60 [main] *)
Definition scheduler_main (config : string) : M service_state Server :=
  configuration ← start_service "wca.scheduler" (register_algorithms ≫= λ _, register_dataproviders) config;
  lift (new_server configuration).

(** src/wca/admission_controller/main.py:28-61 [main]
    [run] makes the service from the configuration and serves. *)
Definition admission_main (run : pyval → M W unit) (config : string) : M service_state unit :=
  configuration ← start_service "wca.admission_controller" register_admission_components config;
  on_snd (run configuration).

(** ** Theorems *)

Lemma within_on_logging {A} (m : M logging A) (P : logging → Prop) :
  within (stable P) m → within (stable (λ s : service_state, P s.1.1)) (on_logging m).
Proof.
  intros Hm [[l r] w] Hl. unfold on_logging, on_fst. cbn. specialize (Hm l Hl). by destruct (m l).
Qed.
Lemma within_on_registry {A} (m : M registry A) (P : logging → Prop) :
  within (stable (λ s : service_state, P s.1.1)) (on_registry m).
Proof. intros [[l r] w] Hl. unfold on_registry, on_fst, on_snd. cbn. by destruct (m r). Qed.
Lemma within_on_files {A} (m : M W A) (P : logging → Prop) :
  within (stable (λ s : service_state, P s.1.1)) (on_snd m).
Proof. intros [[l r] w] Hl. unfold on_snd. cbn. by destruct (m w). Qed.

Lemma within_log_to name level : within (stable (λ s : service_state, logging_ok s.1.1)) (log_to name level).
Proof.
  apply within_on_logging, within_modify. intros l Hl. by apply (logging_ok_loggers l); [apply log_record_loggers|].
Qed.

(** However a service starts or fails to, every record that is logged afterwards is written
    and counted once at most. *)
Lemma start_keeps_logging DEFAULT_MODULE components config :
  within (stable (λ s : service_state, logging_ok s.1.1)) (start_service DEFAULT_MODULE components config).
Proof.
  unfold start_service, load_service_config. repeat (apply within_bind; [typeclasses eauto| |intros ?]).
  all: try apply within_on_logging, configure_ok.
  all: try apply within_log_to.
  all: try apply within_on_registry.
  all: try (within; fail).
  - apply within_try; [typeclasses eauto| |].
    + apply within_bind; [typeclasses eauto| |intros ?]; [by intros s|apply within_on_files].
    + intros e k. destruct (bool_decide _); [|done]. intros [= <-].
      apply within_bind; [typeclasses eauto|apply within_log_to|intros ?]. by intros s.
  - case_match; [|within]. apply within_bind; [typeclasses eauto|within|intros ?].
    apply within_on_logging, configure_ok.
Qed.
End services.

(** ** A concrete start *)
Definition service_files : memfs := mkMem {["/etc/wca/scheduler.yaml" := "scheduler"]} ∅.
Definition service_spec (name : string) : class_spec := mkClass name [] (λ _, Ok (VObj name [])).
Definition service_nodes (text : string) : result ynode :=
  Ok (YMap [("algorithm", YTagMap "BAR" []); ("kubeapi", YTagScalar "Kubeapi" "");
            ("reschedule_interval", YScalar (VNum (PInt 60)));
            ("loggers", YMap [("wca.scheduler", YScalar (VStr "warning"))])]).
Definition example_start (file : string) : result Server * service_state :=
  scheduler_main (λ _ _, true) (λ _, None) service_nodes service_spec file ((initial_logging, []), service_files).

Example scheduler_starts :
  (example_start "/etc/wca/scheduler.yaml").1 =
    Ok (mkServer (VObj "BAR" []) (VObj "Kubeapi" []) (Some (VNum (PInt 60)))) ∧
  lo_level (logger_of (example_start "/etc/wca/scheduler.yaml").2.1.1 "wca.scheduler") = WARNING ∧
  (example_start "/etc/wca/missing.yaml").1 = Raise (SystemExit 1) ∧
  counted (example_start "/etc/wca/missing.yaml").2.1.1 "wca.scheduler.main" ERROR = 1.
Proof. vm_compute. done. Qed.
