(* ===== verification/NumaAllocator.v ===== *)
(** * The NUMA allocator

    [src/wca/extra/numa_allocator.py]: once per iteration one unpinned task is pinned
    to the processors of a NUMA node, and pages of pinned tasks that lie on other
    nodes are migrated.  The logarithms of the C library are parameters, and so is
    the order in which Python iterates over a set of node numbers. *)
From S2P Require Export PyStr PyDict PyNum Metrics Platforms Allocations Tasks.

(** src/wca/extra/numa_allocator.py:42-47 [NUMAAlgorithm] *)
Inductive NUMAAlgorithm := FILL_BIGGEST_FIRST | MINIMIZE_MIGRATIONS.

(** src/wca/extra/numa_allocator.py:33-39 [Preferences, BalancedMemory, TaskMemory] *)
Definition Preferences : Type := dict Z num.
Definition BalancedMemory : Type := dict Z (list (string * num)).
Definition TaskMemory : Type := string * num * Preferences.

(** src/wca/extra/numa_allocator.py:115-127 [NUMAAllocator] *)
Record NumaConfig := mkNumaConfig {
  numa_algorithm : NUMAAlgorithm;
  loop_min_task_balance : num;
  free_space_check : bool;
  nc_migrate_pages : bool;
  migrate_pages_min_task_balance : option num;
  cgroups_memory_binding : bool;
  cgroups_memory_migrate : bool;
  numa_dryrun : bool
}.

(** ** Measurements by node *)

(** [measurements[name].items()], numbers by node. *)
Definition numa_items (ms : measurements) (name : string) : result (dict mkey num) :=
  v ← dgetitem ms name;
  match v with
  | MDict d => mapM (λ kv, match kv.2 with MNum n => Ok (kv.1, n) | _ => Raise TypeError end) d
  | _ => Raise AttributeError
  end.

(** src/wca/extra/numa_allocator.py:376-378 [_get_platform_total_memory] *)
Definition get_platform_total_memory (platform : Platform) : result num :=
  free ← numa_items (platform_measurements platform) MetricName.PLATFORM_MEM_NUMA_FREE_BYTES;
  free ← nsum (dvalues free);
  used ← numa_items (platform_measurements platform) MetricName.PLATFORM_MEM_NUMA_USED_BYTES;
  used ← nsum (dvalues used);
  nadd free used.

(** src/wca/extra/numa_allocator.py:391-395 [_get_task_memory_limit], the order of the limits *)
Definition limits_order : list string :=
  [MetricName.TASK_MEM_LIMIT_BYTES; MetricName.TASK_MEM_SOFT_LIMIT_BYTES;
   MetricName.TASK_MEM_MAX_USAGE_BYTES; MetricName.TASK_MEM_USAGE_BYTES].

(** src/wca/extra/numa_allocator.py:396-405 [_get_task_memory_limit], the loop *)
Fixpoint first_limit (limits : list string) (ms : measurements) (total_memory : num) : result num :=
  match limits with
  | [] => Ok (PInt 0)
  | limit :: limits =>
      match dget ms limit with
      | None => first_limit limits ms total_memory
      | Some (MNum v) => if ngtb v total_memory then first_limit limits ms total_memory else Ok v
      | Some _ => Raise TypeError
      end
  end.

(** src/wca/extra/numa_allocator.py:381-405 [_get_task_memory_limit]
    A limit that is text raises [TypeError] at once; the code raises it when limits are
    compared or added, which only a dry run over unpinned tasks gets around. *)
Definition get_task_memory_limit (ms : measurements) (total_memory : num)
    (resources : dict string resource_value) : result num :=
  match dget resources "mem" with
  | Some (ResNum mem) => Ok mem
  | Some (ResStr _) => Raise TypeError
  | None => first_limit limits_order ms total_memory
  end.

Definition int_of_key (k : mkey) : result Z :=
  match k with KInt z => Ok z | KStr s => py_int s end.

Definition round_n (n : Z) (x : num) : num :=
  match x with PInt z => PInt z | PFloat f => PFloat (float_round_n n f) end.

(** src/wca/extra/numa_allocator.py:408-417 [_get_numa_node_preferences] *)
Definition get_numa_node_preferences (ms : measurements) (numa_nodes : Z) : result Preferences :=
  let ret := (λ i, (Z.of_nat i, PInt 0)) <$> seq 0 (Z.to_nat numa_nodes) in
  if dmem ms MetricName.TASK_MEM_NUMA_PAGES then
    items ← numa_items ms MetricName.TASK_MEM_NUMA_PAGES;
    metrics_val_sum ← nsum (dvalues items);
    let divisor := if ngtb metrics_val_sum (PInt 1) then metrics_val_sum else PInt 1 in
    foldM (λ ret '(node_id, metric_val),
      share ← ndiv metric_val divisor;
      node ← int_of_key node_id;
      Ok (dset ret node (round_n 4 share))) ret items
  else Ok ret.

(** ** Choosing nodes *)

(** [sorted(d.items(), reverse=True, key=value)[0]], the first of the greatest; or of
    the least. *)
Definition greatest {K} (l : list (K * num)) : result (K * num) :=
  match py_sorted (λ a b, nltb b.2 a.2) l with [] => Raise IndexError | x :: _ => Ok x end.
Definition least {K} (l : list (K * num)) : result (K * num) :=
  match py_sorted (λ a b, nltb a.2 b.2) l with [] => Raise IndexError | x :: _ => Ok x end.
(** [{x[0] for x in l if x[1] == z}] *)
Definition with_value {K} (l : list (K * num)) (z : num) : list K :=
  fst <$> List.filter (λ kv, neqb kv.2 z) l.

(** src/wca/extra/numa_allocator.py:420-421 [_get_most_used_node] *)
Definition get_most_used_node (preferences : Preferences) : result Z :=
  fst <$> greatest preferences.

(** src/wca/extra/numa_allocator.py:434-437 [_get_least_used_node] *)
Definition get_least_used_node (platform : Platform) : result mkey :=
  free ← numa_items (platform_measurements platform) MetricName.PLATFORM_MEM_NUMA_FREE_BYTES;
  fst <$> greatest free.

(** The number of the node whose processors the task has, or -1. *)
Fixpoint find_node (node_cpus : dict Z (gset Z)) (cpus_assigned : gset Z) : Z :=
  match node_cpus with
  | [] => -1
  | (node, cpus) :: rest => if decide (cpus = cpus_assigned) then node else find_node rest cpus_assigned
  end.

(** src/wca/extra/numa_allocator.py:440-445 [_get_current_node] *)
Definition get_current_node (allocations : option TaskAllocations) (platform : Platform) : result Z :=
  allocations ← or_raise TypeError allocations;
  value ← dgetitem allocations CPUSET_CPUS;
  cpus_assigned ← match value with RawStr s => decode_listformat s | _ => Raise AttributeError end;
  Ok (find_node (node_cpus platform) cpus_assigned).

(** [sum([k[1] for k in balanced_memory[node]])] *)
Definition pinned_memory (tasks : list (string * num)) : result num := nsum tasks.*2.

(** src/wca/extra/numa_allocator.py:448-457 [_get_best_memory_node] *)
Definition get_best_memory_node (memory_limit : num) (balanced_memory : BalancedMemory) : result Z :=
  nodes_scores ← mapM (λ '(node, tasks),
    sum ← pinned_memory tasks; total ← nadd sum memory_limit; score ← ndiv memory_limit total;
    Ok (node, round_n 4 score)) balanced_memory;
  fst <$> greatest nodes_scores.

(** src/wca/extra/numa_allocator.py:471-476 [_get_most_free_memory_node]
    The node whose free memory the limit takes the least part of; nothing calls it. *)
Definition get_most_free_memory_node (memory_limit : num) (node_memory_free : dict mkey num)
    : result mkey :=
  d ← mapM (λ '(node, free), share ← ndiv memory_limit free; Ok (node, round_n 4 share)) node_memory_free;
  fst <$> least d.

(** The functions of the C library behind [math.log10] and [math.log1p]. *)
Class MathLog : Type := { math_log10 : num → result float; math_log1p : num → result float }.

Section numa.
  Context `{MathLog} (set_order : list Z → list Z) (cfg : NumaConfig).

(** src/wca/extra/numa_allocator.py:424-431 [_get_most_used_nodes] *)
Definition get_most_used_nodes (preferences : Preferences) : result (list Z) :=
  d ← mapM (λ '(node, preference),
        x ← nmul preference (PInt 1000); l ← math_log1p x; r ← float_round l; Ok (node, PInt r))
        preferences;
  z ← greatest d;
  Ok (with_value d z.2).

(** src/wca/extra/numa_allocator.py:460-468 [_get_best_memory_nodes] *)
Definition get_best_memory_nodes (memory_limit : num) (balanced_memory : BalancedMemory)
    : result (list Z) :=
  d ← mapM (λ '(node, tasks),
        sum ← pinned_memory tasks; total ← nadd sum memory_limit; l ← math_log10 total;
        Ok (node, PFloat (float_round_n 1 l))) balanced_memory;
  z ← least d;
  Ok (with_value d z.2).

(** src/wca/extra/numa_allocator.py:479-492 [_get_most_free_memory_nodes]
    The set is only intersected with sets of numbers. *)
Definition get_most_free_memory_nodes (memory_limit : num) (node_memory_free : dict mkey num)
    : result (list Z) :=
  d ← foldM (λ d '(node, free),
        if ngeb memory_limit free then Ok d
        else rest ← nsub free memory_limit; l ← math_log10 rest;
             Ok (d ++ [(node, PFloat (float_round_n 1 l))])) [] node_memory_free;
  match d with
  | [] => Ok []
  | _ => z ← greatest d;
         Ok (omap (λ k, match k with KInt n => Some n | KStr _ => None end) (with_value d z.2))
  end.

(** [list(a.intersection(b))] *)
Definition set_meet (a b : list Z) : list Z :=
  set_order (py_set (List.filter (λ n, bool_decide (n ∈ b)) a)).

(** src/wca/extra/numa_allocator.py:315-333 [migration_minimizer_core] *)
Definition migration_minimizer_core (most_used_nodes best_memory_nodes most_free_memory_nodes : list Z)
    : option Z :=
  match set_meet most_used_nodes best_memory_nodes with
  | node :: _ => Some node
  | [] => match set_meet most_used_nodes most_free_memory_nodes with
          | node :: _ => Some node
          | [] => match set_meet best_memory_nodes most_free_memory_nodes with
                  | node :: _ => Some node
                  | [] => None
                  end
          end
  end.

(** src/wca/extra/numa_allocator.py:205-225 [NUMAAllocator.migration_minimizer] *)
Definition migration_minimizer (memory : num) (preferences : Preferences)
    (balanced_memory : BalancedMemory) (platform : Platform) : result (option Z) :=
  free ← numa_items (platform_measurements platform) MetricName.PLATFORM_MEM_NUMA_FREE_BYTES;
  most_used_nodes ← get_most_used_nodes preferences;
  best_memory_nodes ← get_best_memory_nodes memory balanced_memory;
  most_free_memory_nodes ← get_most_free_memory_nodes memory free;
  node ← get_most_used_node preferences;
  preference ← dgetitem preferences node;
  Ok (if nltb preference (loop_min_task_balance cfg) then None
      else migration_minimizer_core most_used_nodes best_memory_nodes most_free_memory_nodes).

(** src/wca/extra/numa_allocator.py:508-513 [pages_to_bytes, get_page_size] *)
Definition pages_to_bytes (pages : num) : result num := nmul (PInt 4096) pages.

(** src/wca/extra/numa_allocator.py:495-505 [_is_enough_memory_on_target] *)
Definition is_enough_memory_on_target (memory_limit : num) (target_node : Z) (platform : Platform)
    (ms : measurements) : result bool :=
  task_numa_stat ← numa_items ms MetricName.TASK_MEM_NUMA_PAGES;
  pages ← dgetitem task_numa_stat (KInt target_node);
  bytes ← pages_to_bytes pages;
  max_memory_to_move ← nsub memory_limit bytes;
  free ← numa_items (platform_measurements platform) MetricName.PLATFORM_MEM_NUMA_FREE_BYTES;
  platform_free_memory ← dgetitem free (KInt target_node);
  Ok (nltb max_memory_to_move platform_free_memory).

(** ** The state of the system *)

(** src/wca/extra/numa_allocator.py:336-345 [_build_tasks_memory] *)
Definition build_tasks_memory (tasks_data : TasksData) (platform : Platform)
    : result (list TaskMemory) :=
  total_memory ← get_platform_total_memory platform;
  tasks_memory ← mapM (λ '(task, data),
    limit ← get_task_memory_limit (td_measurements data) total_memory (task_resources (td_task data));
    preferences ← get_numa_node_preferences (td_measurements data) (numa_nodes platform);
    Ok (task, limit, preferences)) tasks_data;
  Ok (py_sorted (λ a b, nltb b.1.2 a.1.2) tasks_memory).

Definition current_node_of (tasks_data : TasksData) (platform : Platform) (task : string) : result Z :=
  data ← dgetitem tasks_data task;
  get_current_node (td_allocations data) platform.

(** src/wca/extra/numa_allocator.py:348-361 [_build_balanced_memory] *)
Definition build_balanced_memory (tasks_memory : list TaskMemory) (tasks_data : TasksData)
    (platform : Platform) : result BalancedMemory :=
  foldM (λ balanced '(task, memory, _),
    current_node ← current_node_of tasks_data platform task;
    if current_node >=? 0 then
      tasks ← dgetitem balanced current_node;
      Ok (dset balanced current_node (tasks ++ [(task, memory)]))
    else Ok balanced)
    ((λ i, (Z.of_nat i, [])) <$> seq 0 (Z.to_nat (numa_nodes platform))) tasks_memory.

(** src/wca/extra/numa_allocator.py:364-373 [_get_pages_to_move] *)
Definition get_pages_to_move (task : string) (tasks_data : TasksData) (target_node : Z) : result num :=
  data ← dgetitem tasks_data task;
  items ← numa_items (td_measurements data) MetricName.TASK_MEM_NUMA_PAGES;
  nsum (snd <$> List.filter (λ kv, negb (bool_decide (kv.1 = KInt target_node))) items).

Definition plain_metric (name : string) (value : num) (labels : dict string string) : Metric :=
  mkMetric name (MNum value) labels None None None None.

(** src/wca/extra/numa_allocator.py:543-561 [_log_initial_state] *)
Definition log_initial_state (tasks_data : TasksData) (balanced_memory : BalancedMemory)
    : result (list Metric) :=
  per_node ← mapM (λ '(node, tasks),
    size ← pinned_memory tasks;
    Ok [plain_metric "numa__balanced_memory_tasks" (PInt (Z.of_nat (length tasks)))
          [("numa_node", str_of_Z node)];
        plain_metric "numa__balanced_memory_size" size [("numa_node", str_of_Z node)];
        plain_metric "numa__task_tasks_count" (PInt (Z.of_nat (length tasks_data))) []])
    balanced_memory;
  Ok (concat per_node).

(** src/wca/extra/numa_allocator.py:532-540 [_log_task_basic_info] *)
Definition log_task_basic_info (data : TaskData) (current_node : Z) : result Metric :=
  items ← numa_items (td_measurements data) MetricName.TASK_MEM_NUMA_PAGES;
  _ ← mapM pages_to_bytes (dvalues items);
  Ok (plain_metric "numa__task_current_node" (PInt current_node) (task_labels (td_task data))).

(** ** One iteration *)

(** [self._pages_to_move] *)
Definition pages_t : Type := dict string num.
Definition the_pages : M pages_t pages_t := λ d, (Ok d, d).

(** src/wca/extra/numa_allocator.py:516-529 [_is_task_pinned, _is_ghost_task] *)
Definition is_task_pinned (current_node : Z) : bool := current_node >=? 0.
Definition is_ghost_task (memory : num) : bool := neqb memory (PInt 0).

(** src/wca/extra/numa_allocator.py:162-179 [NUMAAllocator.allocate], choosing the node
    of a task, if any *)
Definition choose_node (data : TaskData) (memory_limit : num) (preferences : Preferences)
    (balanced_memory : BalancedMemory) (platform : Platform) : result (option Z) :=
  chosen ← match numa_algorithm cfg with
           | MINIMIZE_MIGRATIONS => migration_minimizer memory_limit preferences balanced_memory platform
           | FILL_BIGGEST_FIRST => Some <$> get_best_memory_node memory_limit balanced_memory
           end;
  match chosen with
  | None => Ok None
  | Some node =>
      if free_space_check cfg then
        enough ← is_enough_memory_on_target memory_limit node platform (td_measurements data);
        Ok (if enough : bool then Some node else None)
      else Ok (Some node)
  end.

(** src/wca/extra/numa_allocator.py:150-179 [NUMAAllocator.allocate], one task: the
    task to balance, if it is already known, and the metrics. *)
Definition analyse_task (tasks_data : TasksData) (balanced_memory : BalancedMemory)
    (platform : Platform) (acc : option (string * Z) * list Metric) (task_memory : TaskMemory)
    : M pages_t (option (string * Z) * list Metric) :=
  let '(task, memory_limit, preferences) := task_memory in
  _ ← modify (λ d, if dmem d task then d else dset d task (PInt 0));
  data ← lift (dgetitem tasks_data task);
  current_node ← lift (get_current_node (td_allocations data) platform);
  metric ← lift (log_task_basic_info data current_node);
  let metrics := acc.2 ++ [metric] in
  if is_task_pinned current_node || is_ghost_task memory_limit then mret (acc.1, metrics)
  else match acc.1 with
       | Some _ => mret (acc.1, metrics)
       | None =>
           node ← lift (choose_node data memory_limit preferences balanced_memory platform);
           mret ((λ n, (task, n)) <$> node, metrics)
       end.

(** [self._pages_to_move[task] += pages] *)
Definition add_pages (task : string) (pages : num) : M pages_t unit :=
  d ← the_pages;
  old ← lift (dgetitem d task);
  new ← lift (nadd old pages);
  modify (λ d, dset d task new).

(** src/wca/extra/numa_allocator.py:232-253 [NUMAAllocator._allocate_task]
    [AllocationType] has no attribute [CPUSET_MEM_MIGRATE]. *)
Definition allocate_task (task : string) (node : Z) (tasks_data : TasksData) (platform : Platform)
    : M pages_t TaskAllocations :=
  cpus ← lift (dgetitem (node_cpus platform) node);
  let allocations := [(CPUSET_CPUS, RawStr (encode_listformat cpus))] in
  allocations ← (if cgroups_memory_binding cfg then
                   let allocations := dset allocations CPUSET_MEMS (RawStr (encode_listformat {[node]})) in
                   if cgroups_memory_migrate cfg then raise AttributeError else mret allocations
                 else mret allocations : M pages_t TaskAllocations);
  if nc_migrate_pages cfg then
    pages ← lift (get_pages_to_move task tasks_data node);
    _ ← add_pages task pages;
    mret (dset allocations MIGRATE_PAGES (RawNum (PInt node)))
  else mret allocations.

(** src/wca/extra/numa_allocator.py:255-259 [NUMAAllocator._update_pages_to_move] *)
Definition update_pages_to_move (tasks_data : TasksData) : M pages_t unit :=
  modify (List.filter (λ kv, dmem tasks_data kv.1)).

(** src/wca/extra/numa_allocator.py:280-289 [NUMAAllocator._remigrate_pages_of_unbalanced_tasks]
    The pinned tasks with too many pages elsewhere, and their nodes. *)
Definition tasks_to_balance (min_balance : num) (tasks_data : TasksData) (platform : Platform)
    (tasks_memory : list TaskMemory) : result (list (string * Z)) :=
  foldM (λ acc '(task, _, preferences),
    current_node ← current_node_of tasks_data platform task;
    if current_node >=? 0 then
      preference ← dgetitem preferences current_node;
      Ok (if nltb preference min_balance then acc ++ [(task, current_node)] else acc)
    else Ok acc) [] tasks_memory.

(** src/wca/extra/numa_allocator.py:296-304 [NUMAAllocator._remigrate_pages_of_unbalanced_tasks], one task *)
Definition remigrate_task (least_used_node : mkey) (tasks_data : TasksData)
    (allocations : TasksAllocations) (task_node : string * Z) : M pages_t TasksAllocations :=
  let '(task, current_node) := task_node in
  if bool_decide (KInt current_node = least_used_node) then
    d ← the_pages;
    _ ← lift (dgetitem d task);
    pages ← lift (get_pages_to_move task tasks_data current_node);
    _ ← add_pages task pages;
    mret (dset allocations task
            (dset (default [] (dget allocations task)) MIGRATE_PAGES (RawNum (PInt current_node))))
  else mret allocations.

(** src/wca/extra/numa_allocator.py:275-305 [NUMAAllocator._remigrate_pages_of_unbalanced_tasks] *)
Definition remigrate_pages_of_unbalanced_tasks (min_balance : num) (allocations : TasksAllocations)
    (tasks_data : TasksData) (tasks_memory : list TaskMemory) (platform : Platform)
    : M pages_t TasksAllocations :=
  to_balance ← lift (tasks_to_balance min_balance tasks_data platform tasks_memory);
  least_used_node ← lift (get_least_used_node platform);
  foldMS (remigrate_task least_used_node tasks_data) allocations to_balance.

(** src/wca/extra/numa_allocator.py:261-273 [NUMAAllocator._log_moved_pages] *)
Definition log_moved_pages (tasks_data : TasksData) : M pages_t (list Metric) :=
  d ← the_pages;
  per_task ← lift (mapM (λ '(task, pages),
    data ← dgetitem tasks_data task;
    Ok (plain_metric "numa__task_pages_to_move" pages (task_labels (td_task data)))) d);
  total ← lift (nsum (dvalues d));
  mret (per_task ++ [plain_metric "numa__total_pages_to_move" total []]).

(** src/wca/extra/numa_allocator.py:132-203 [NUMAAllocator.allocate] *)
Definition numa_allocate (platform : Platform) (tasks_data : TasksData)
    : M pages_t (TasksAllocations * list Metric) :=
  tasks_memory ← lift (build_tasks_memory tasks_data platform);
  balanced_memory ← lift (build_balanced_memory tasks_memory tasks_data platform);
  initial_metrics ← lift (log_initial_state tasks_data balanced_memory);
  if numa_dryrun cfg then mret ([], initial_metrics)
  else
    analysed ← foldMS (analyse_task tasks_data balanced_memory platform) (None, initial_metrics)
                 tasks_memory;
    _ ← update_pages_to_move tasks_data;
    allocations ← match analysed.1 with
                  | Some (task, node) => a ← allocate_task task node tasks_data platform; mret [(task, a)]
                  | None => mret []
                  end : M pages_t TasksAllocations;
    allocations ← (if nc_migrate_pages cfg then
                     match migrate_pages_min_task_balance cfg with
                     | Some min_balance => remigrate_pages_of_unbalanced_tasks min_balance allocations
                                             tasks_data tasks_memory platform
                     | None => mret allocations
                     end
                   else mret allocations : M pages_t TasksAllocations);
    moved ← log_moved_pages tasks_data;
    mret (allocations, analysed.2 ++ moved).
End numa.
