(* ===== verification/NumaSpec.v ===== *)
(** * What the NUMA allocator allocates

    An iteration pins at most one task, an unpinned one, to the processors of one
    node, and otherwise only migrates pages of tasks that are pinned to the node with
    the most free memory.  With the default algorithm every iteration makes progress
    as long as a task waits. *)
From S2P Require Export NumaAllocator.

Section spec.
  Context `{MathLog} (set_order : list Z → list Z) (cfg : NumaConfig).
  Context (platform : Platform) (tasks_data : TasksData).

(** The allocations of a task that is pinned for the first time. *)
Definition pins (task : string) (a : TaskAllocations) : Prop :=
  ∃ current node cpus,
    current_node_of tasks_data platform task = Ok current ∧ current < 0 ∧
    dget (node_cpus platform) node = Some cpus ∧
    dget a CPUSET_CPUS = Some (RawStr (encode_listformat cpus)) ∧
    dget a CPUSET_MEMS = (if cgroups_memory_binding cfg then Some (RawStr (encode_listformat {[node]})) else None) ∧
    dget a MIGRATE_PAGES = (if nc_migrate_pages cfg then Some (RawNum (PInt node)) else None).

(** The allocations of a pinned task whose pages follow it. *)
Definition remigrates (task : string) (a : TaskAllocations) : Prop :=
  ∃ node, current_node_of tasks_data platform task = Ok node ∧ 0 ≤ node ∧
    get_least_used_node platform = Ok (KInt node) ∧ a = [(MIGRATE_PAGES, RawNum (PInt node))].

(** A task that waits to be pinned. *)
Definition waits (tm : TaskMemory) : bool :=
  match current_node_of tasks_data platform tm.1.1 with
  | Ok current => negb (is_task_pinned current || is_ghost_task tm.1.2)
  | Raise _ => false
  end.

(** *** The analysis *)

Lemma analyse_task_Ok balanced acc task limit prefs d acc' d' :
  analyse_task set_order cfg tasks_data balanced platform acc (task, limit, prefs) d = (Ok acc', d') →
  ∃ data current,
    dget tasks_data task = Some data ∧ current_node_of tasks_data platform task = Ok current ∧
    match acc.1 with
    | Some tn => acc'.1 = Some tn
    | None => if waits (task, limit, prefs)
              then ∃ o, choose_node set_order cfg data limit prefs balanced platform = Ok o ∧
                        acc'.1 = (λ n, (task, n)) <$> o
              else acc'.1 = None
    end.
Proof.
  unfold analyse_task. intros Ha.
  apply M_bind_Ok_iff in Ha as (u & d1 & _ & Ha).
  apply M_bind_Ok_iff in Ha as (data & d2 & Hd & Ha). apply lift_Ok_iff in Hd as [Hd ->].
  apply or_raise_Ok in Hd.
  apply M_bind_Ok_iff in Ha as (current & d3 & Hc & Ha). apply lift_Ok_iff in Hc as [Hc ->].
  apply M_bind_Ok_iff in Ha as (metric & d4 & _ & Ha).
  assert (Hcur : current_node_of tasks_data platform task = Ok current).
  { unfold current_node_of, dgetitem. by rewrite Hd. }
  exists data, current. split; [done|]. split; [done|]. unfold waits. cbn [fst snd]. rewrite Hcur.
  destruct (is_task_pinned current || is_ghost_task limit).
  - apply M_ret_Ok_iff in Ha as [<- _]. cbn. by destruct acc.1.
  - destruct acc.1 as [tn|]; [apply M_ret_Ok_iff in Ha as [<- _]; done|]. cbn [negb].
    apply M_bind_Ok_iff in Ha as (o & d5 & Ho & Ha). apply lift_Ok_iff in Ho as [Ho _].
    apply M_ret_Ok_iff in Ha as [<- _]. by exists o.
Qed.

Lemma analyse_known balanced tn metrics tms d acc' d' :
  foldMS (analyse_task set_order cfg tasks_data balanced platform) (Some tn, metrics) tms d = (Ok acc', d') →
  acc'.1 = Some tn.
Proof.
  revert metrics d. induction tms as [|[[task limit] prefs] tms IH]; intros metrics d Hf.
  { by apply M_ret_Ok_iff in Hf as [<- _]. }
  cbn [foldMS] in Hf. apply M_bind_Ok_iff in Hf as ([o metrics1] & d1 & H1 & Hf).
  apply analyse_task_Ok in H1 as (data & current & _ & _ & Ho). cbn in Ho. subst o. by apply IH in Hf.
Qed.

(** The chosen task is one that waits. *)
Lemma analyse_chosen balanced metrics tms d acc' d' task node :
  foldMS (analyse_task set_order cfg tasks_data balanced platform) (None, metrics) tms d = (Ok acc', d') →
  acc'.1 = Some (task, node) →
  ∃ current, current_node_of tasks_data platform task = Ok current ∧ current < 0.
Proof.
  revert metrics d. induction tms as [|[[task1 limit] prefs] tms IH]; intros metrics d Hf.
  { by apply M_ret_Ok_iff in Hf as [<- _]. }
  cbn [foldMS] in Hf. apply M_bind_Ok_iff in Hf as ([o metrics1] & d1 & H1 & Hf).
  apply analyse_task_Ok in H1 as (data & current & _ & Hcur & Ho). cbn in Ho.
  destruct o as [tn|]; [|intros Heq; by eapply IH].
  destruct (waits (task1, limit, prefs)) eqn:Hw; [|done].
  destruct Ho as (o & _ & Ho). destruct o as [n|]; [|done]. injection Ho as ->.
  apply analyse_known in Hf as ->. intros [= <- <-]. exists current. split; [done|].
  unfold waits in Hw. cbn [fst snd] in Hw. rewrite Hcur in Hw. to_prop. unfold is_task_pinned in *. lia.
Qed.


(** *** The allocations *)

Lemma allocate_task_pins task node d a d' current :
  current_node_of tasks_data platform task = Ok current → current < 0 →
  allocate_task cfg task node tasks_data platform d = (Ok a, d') → pins task a.
Proof.
  intros Hcur Hlt Ha. unfold allocate_task in Ha.
  apply M_bind_Ok_iff in Ha as (cpus & d1 & Hc & Ha). apply lift_Ok_iff in Hc as [Hc ->].
  apply or_raise_Ok in Hc. apply M_bind_Ok_iff in Ha as (a1 & d2 & H1 & Ha).
  exists current, node, cpus. split; [done|]. split; [done|]. split; [done|].
  assert (Hend : a = if nc_migrate_pages cfg then dset a1 MIGRATE_PAGES (RawNum (PInt node)) else a1).
  { destruct (nc_migrate_pages cfg); [|by apply M_ret_Ok_iff in Ha as [<- _]].
    apply M_bind_Ok_iff in Ha as (pages & d3 & _ & Ha). apply M_bind_Ok_iff in Ha as (u & d4 & _ & Ha).
    by apply M_ret_Ok_iff in Ha as [<- _]. }
  destruct (cgroups_memory_binding cfg); [destruct (cgroups_memory_migrate cfg); [done|]|];
    apply M_ret_Ok_iff in H1 as [<- _]; subst a; by destruct (nc_migrate_pages cfg).
Qed.


(** What may stand in the result. *)
Definition entry_ok (task : string) (a : TaskAllocations) : Prop := pins task a ∨ remigrates task a.

Definition all_ok (allocations : TasksAllocations) : Prop :=
  ∀ task a, dget allocations task = Some a → entry_ok task a.

Lemma tasks_to_balance_nodes min_balance tms l :
  tasks_to_balance min_balance tasks_data platform tms = Ok l →
  ∀ task node, (task, node) ∈ l → current_node_of tasks_data platform task = Ok node ∧ 0 ≤ node.
Proof.
  apply (foldM_inv (λ l, ∀ task node, (task, node) ∈ l →
    current_node_of tasks_data platform task = Ok node ∧ 0 ≤ node)).
  2: { intros task node Hin. by apply not_elem_of_nil in Hin. }
  intros acc [[task limit] prefs] acc' _ Hacc Hf. apply bind_Ok_iff in Hf as (current & Hc & Hf).
  destruct (current >=? 0) eqn:E; [|by injection Hf as <-].
  apply bind_Ok_iff in Hf as (p & _ & Hf). injection Hf as <-. destruct (nltb p min_balance); [|done].
  intros task' node [Hin|[= -> ->]%list_elem_of_singleton]%elem_of_app; [by apply Hacc|].
  split; [done|]. to_prop. lia.
Qed.

(** Entries change for pinned tasks only. *)
Definition same_unless_pinned (allocations allocations' : TasksAllocations) : Prop :=
  ∀ t, dget allocations' t = dget allocations t ∨
       ∃ node, current_node_of tasks_data platform t = Ok node ∧ 0 ≤ node.

Lemma remigrate_task_ok least allocations task node d allocations' d' :
  get_least_used_node platform = Ok least →
  current_node_of tasks_data platform task = Ok node → 0 ≤ node → all_ok allocations →
  remigrate_task least tasks_data allocations (task, node) d = (Ok allocations', d') →
  all_ok allocations' ∧ same_unless_pinned allocations allocations'.
Proof.
  intros Hleast Hcur Hpos Hok Hr. unfold remigrate_task in Hr.
  case_bool_decide as Heq; [|apply M_ret_Ok_iff in Hr as [<- _]; split; [done|by left]].
  apply M_bind_Ok_iff in Hr as (ps & d1 & _ & Hr). apply M_bind_Ok_iff in Hr as (old & d2 & _ & Hr).
  apply M_bind_Ok_iff in Hr as (pages & d3 & _ & Hr). apply M_bind_Ok_iff in Hr as (u & d4 & _ & Hr).
  apply M_ret_Ok_iff in Hr as [<- _].
  assert (Hentry : dset (default [] (dget allocations task)) MIGRATE_PAGES (RawNum (PInt node)) =
                   [(MIGRATE_PAGES, RawNum (PInt node))]).
  { destruct (dget allocations task) as [a|] eqn:E; [|done]. apply Hok in E as [Hp|Hm].
    - destruct Hp as (current & n & cpus & Hc & Hlt & _). rewrite Hcur in Hc. injection Hc as <-. lia.
    - destruct Hm as (n & Hc & _ & _ & ->). rewrite Hcur in Hc. injection Hc as <-. done. }
  rewrite Hentry. split; intros t; rewrite dget_dset; case_decide as Ht; try subst t.
  - intros a [= <-]. right. exists node. by subst least.
  - apply Hok.
  - right. by exists node.
  - by left.
Qed.

Lemma remigrate_ok min_balance allocations tms d allocations' d' :
  all_ok allocations →
  remigrate_pages_of_unbalanced_tasks min_balance allocations tasks_data tms platform d = (Ok allocations', d') →
  all_ok allocations' ∧ same_unless_pinned allocations allocations'.
Proof.
  intros Hok Hr. unfold remigrate_pages_of_unbalanced_tasks in Hr.
  apply M_bind_Ok_iff in Hr as (l & d1 & Hl & Hr). apply lift_Ok_iff in Hl as [Hl ->].
  apply M_bind_Ok_iff in Hr as (least & d2 & Hleast & Hr). apply lift_Ok_iff in Hleast as [Hleast ->].
  pose proof (tasks_to_balance_nodes _ _ _ Hl) as Hnodes. clear Hl.
  revert allocations d Hok Hr. induction l as [|[task node] l IH]; intros allocations d Hok Hr.
  { apply M_ret_Ok_iff in Hr as [<- _]. split; [done|by left]. }
  cbn [foldMS] in Hr. apply M_bind_Ok_iff in Hr as (allocations1 & d2 & H1 & Hr).
  destruct (Hnodes task node) as [Hcur Hpos]; [by left|].
  apply remigrate_task_ok in H1 as [Hok1 Hsame1]; [|done..].
  destruct (IH ltac:(intros; apply Hnodes; by right) allocations1 d2 Hok1 Hr) as [Hok2 Hsame2].
  split; [done|]. intros t. destruct (Hsame2 t) as [->|?]; [apply Hsame1|by right].
Qed.

(** The three parts of an iteration that is no dry run. *)
Lemma numa_allocate_steps d allocations metrics d' :
  numa_dryrun cfg = false →
  numa_allocate set_order cfg platform tasks_data d = (Ok (allocations, metrics), d') →
  ∃ tms balanced metrics0 d1 acc d2 initial,
    build_tasks_memory tasks_data platform = Ok tms ∧
    build_balanced_memory tms tasks_data platform = Ok balanced ∧
    foldMS (analyse_task set_order cfg tasks_data balanced platform) (None, metrics0) tms d1 = (Ok acc, d2) ∧
    match acc.1 with
    | Some (task, node) => ∃ a d3 d4,
        allocate_task cfg task node tasks_data platform d3 = (Ok a, d4) ∧ pins task a ∧ initial = [(task, a)]
    | None => initial = []
    end ∧ all_ok allocations ∧ same_unless_pinned initial allocations.
Proof.
  intros Hdry Hn. unfold numa_allocate in Hn.
  apply M_bind_Ok_iff in Hn as (tms & d1 & Htms & Hn). apply lift_Ok_iff in Htms as [Htms ->].
  apply M_bind_Ok_iff in Hn as (balanced & d2 & Hbal & Hn). apply lift_Ok_iff in Hbal as [Hbal ->].
  apply M_bind_Ok_iff in Hn as (metrics0 & d3 & _ & Hn). rewrite Hdry in Hn.
  apply M_bind_Ok_iff in Hn as (acc & d4 & Hacc & Hn).
  apply M_bind_Ok_iff in Hn as (u & d5 & _ & Hn).
  apply M_bind_Ok_iff in Hn as (initial & d6 & Hinit & Hn).
  apply M_bind_Ok_iff in Hn as (final & d7 & Hfinal & Hn).
  apply M_bind_Ok_iff in Hn as (moved & d8 & _ & Hn). apply M_ret_Ok_iff in Hn as [[= <- <-] _].
  exists tms, balanced, metrics0, d3, acc, d4, initial. split; [done|]. split; [done|]. split; [done|].
  assert (Hi : match acc.1 with
    | Some (task, node) => ∃ a d3 d4,
        allocate_task cfg task node tasks_data platform d3 = (Ok a, d4) ∧ pins task a ∧ initial = [(task, a)]
    | None => initial = []
    end).
  { destruct acc.1 as [[task node]|] eqn:E; [|by apply M_ret_Ok_iff in Hinit as [<- _]].
    apply M_bind_Ok_iff in Hinit as (a & d9 & Ha & Hinit). apply M_ret_Ok_iff in Hinit as [<- _].
    destruct (analyse_chosen _ _ _ _ _ _ _ _ Hacc E) as (current & Hcur & Hlt).
    exists a, d5, d9. split; [done|]. split; [by eapply allocate_task_pins|done]. }
  split; [done|].
  assert (Hok : all_ok initial).
  { intros task a Hget. destruct acc.1 as [[task1 node]|]; [|by subst initial].
    destruct Hi as (a1 & d9 & d10 & _ & Hp & ->). cbn in Hget. case_decide; [|done].
    injection Hget as ->. subst task1. by left. }
  assert (Hsame : same_unless_pinned initial initial) by (intros t; by left).
  destruct (nc_migrate_pages cfg); [|by apply M_ret_Ok_iff in Hfinal as [<- _]].
  destruct (migrate_pages_min_task_balance cfg); [|by apply M_ret_Ok_iff in Hfinal as [<- _]].
  by apply remigrate_ok in Hfinal.
Qed.

Lemma pins_unpinned task a node :
  pins task a → current_node_of tasks_data platform task = Ok node → 0 ≤ node → False.
Proof. intros (current & n & cpus & Hc & Hlt & _) Hn Hpos. rewrite Hc in Hn. injection Hn as <-. lia. Qed.

(** C34 (safety): every allocation the NUMA allocator returns either pins a task that
    is on no node to exactly the processors of one node (with memory bound to that
    node and pages migrated there, as configured), or migrates the pages of a task
    already pinned to the node with the most free memory, and nothing else; no
    iteration pins more than one task. *)
Theorem numa_allocations_effect d allocations metrics d' :
  numa_allocate set_order cfg platform tasks_data d = (Ok (allocations, metrics), d') →
  (∀ task a, dget allocations task = Some a → pins task a ∨ remigrates task a) ∧
  (∀ t1 a1 t2 a2, dget allocations t1 = Some a1 → dget allocations t2 = Some a2 →
     pins t1 a1 → pins t2 a2 → t1 = t2).
Proof.
  intros Hn. destruct (numa_dryrun cfg) eqn:Hdry.
  { unfold numa_allocate in Hn. rewrite Hdry in Hn.
    apply M_bind_Ok_iff in Hn as (tms & d1 & _ & Hn). apply M_bind_Ok_iff in Hn as (balanced & d2 & _ & Hn).
    apply M_bind_Ok_iff in Hn as (metrics0 & d3 & _ & Hn). by apply M_ret_Ok_iff in Hn as [[= <- <-] _]. }
  apply numa_allocate_steps in Hn as (tms & bal & ms0 & d1 & acc & d2 & initial & _ & _ & _ & Hi & Hok & Hsame);
    [|done].
  split; [exact Hok|]. intros t1 a1 t2 a2 Hg1 Hg2 Hp1 Hp2.
  assert (Hin : ∀ t a, dget allocations t = Some a → pins t a → is_Some (dget initial t)).
  { intros t a Hg Hp. destruct (Hsame t) as [Heq|(node & Hc & Hpos)]; [by rewrite <-Heq, Hg|].
    by destruct (pins_unpinned t a node Hp Hc Hpos). }
  apply (Hin t1 a1) in Hg1 as [x1 H1]; [|done]. apply (Hin t2 a2) in Hg2 as [x2 H2]; [|done].
  destruct acc.1 as [[task node]|]; [|by subst initial].
  destruct Hi as (a & d3 & d4 & _ & _ & ->). cbn in H1, H2. repeat case_decide; congruence.
Qed.


End spec.

(** ** A node with two NUMA nodes, a pinned task and a waiting one *)

(** Logarithms rounded down to whole numbers. *)
#[export] Instance whole_log : MathLog := {|
  math_log10 := λ x, match x with
    | PInt z => if z <=? 0 then Raise ValueError else float_of_Z (Z.log2 z * 3 / 10)
    | PFloat f => n ← float_trunc f; if n <=? 0 then Raise ValueError else float_of_Z (Z.log2 n * 3 / 10)
    end;
  math_log1p := λ x, match x with
    | PInt z => if z <=? -1 then Raise ValueError else float_of_Z (Z.log2 (z + 1) * 7 / 10)
    | PFloat f => n ← float_trunc f; if n <=? -1 then Raise ValueError else float_of_Z (Z.log2 (n + 1) * 7 / 10)
    end
|}.

Definition by_node (name : string) (n0 n1 : Z) : measurements :=
  [(name, MDict [(KInt 0, MNum (PInt n0)); (KInt 1, MNum (PInt n1))])].

Definition numa_platform : Platform :=
  mkPlatform 2 4 4 2 [] "" 0 UNKNOWN fzero None
    [(0, {[0; 1]}); (1, {[2; 3]})] []
    (by_node MetricName.PLATFORM_MEM_NUMA_FREE_BYTES 900 500 ++
     by_node MetricName.PLATFORM_MEM_NUMA_USED_BYTES 100 500) false.

Definition numa_task (name cpus : string) (mem p0 p1 : Z) : string * TaskData :=
  (name, mkTaskData (mkTask name name ("/" +:+ name) [] [("task_id", name)] [("mem", ResNum (PInt mem))])
           (by_node MetricName.TASK_MEM_NUMA_PAGES p0 p1)
           (Some [(CPUSET_CPUS, RawStr cpus)])).

Definition numa_tasks : TasksData :=
  [numa_task "small" "0-3" 100 5 5; numa_task "pinned" "0,1" 200 6 4; numa_task "big" "0-3" 300 8 2].

Definition numa_cfg (algorithm : NUMAAlgorithm) (migrate : bool) : NumaConfig :=
  mkNumaConfig algorithm (PInt 0) false true (Some (PInt 1)) true migrate false.

Definition numa_run (cfg : NumaConfig) : result (TasksAllocations * list Metric) * pages_t :=
  numa_allocate (λ l, l) cfg numa_platform numa_tasks [].

(** The biggest waiting task goes to the emptier node, and the pinned one gets its pages. *)
Example numa_run_allocations :
  fst <$> (numa_run (numa_cfg FILL_BIGGEST_FIRST false)).1 =
  Ok [("big", [(CPUSET_CPUS, RawStr "2,3"); (CPUSET_MEMS, RawStr "1"); (MIGRATE_PAGES, RawNum (PInt 1))]);
      ("pinned", [(MIGRATE_PAGES, RawNum (PInt 0))])].
Proof. vm_compute. reflexivity. Qed.

(** Migration of memory through cgroups ends every iteration that pins a task. *)
Example memory_migrate_raises : (numa_run (numa_cfg FILL_BIGGEST_FIRST true)).1 = Raise AttributeError.
Proof. vm_compute. reflexivity. Qed.

Lemma numa_allocations_effect_witness :
  let r := result_get ([], []) (numa_run (numa_cfg MINIMIZE_MIGRATIONS false)).1 in
  length r.1 = 2%nat ∧
  (∀ task a, dget r.1 task = Some a →
     pins (numa_cfg MINIMIZE_MIGRATIONS false) numa_platform numa_tasks task a ∨
     remigrates numa_platform numa_tasks task a) ∧
  (∀ t1 a1 t2 a2, dget r.1 t1 = Some a1 → dget r.1 t2 = Some a2 →
     pins (numa_cfg MINIMIZE_MIGRATIONS false) numa_platform numa_tasks t1 a1 →
     pins (numa_cfg MINIMIZE_MIGRATIONS false) numa_platform numa_tasks t2 a2 → t1 = t2).
Proof.
  intros r. split; [vm_compute; reflexivity|].
  apply (numa_allocations_effect (λ l, l) (numa_cfg MINIMIZE_MIGRATIONS false) numa_platform numa_tasks
           [] r.1 r.2 (numa_run (numa_cfg MINIMIZE_MIGRATIONS false)).2).
  apply outcome_Ok_pair. vm_compute. reflexivity.
Defined.

