(* ===== verification/StaticAllocator.v ===== *)
(** * The static allocator

    [src/wca/extra/static_allocator.py]: allocations written as rules.  Rules apply
    in their order, and what a later rule says of a task replaces what an earlier one
    said.  [re.match] and the iteration order of a set of names are parameters. *)
From S2P Require Export PyStr PyDict Metrics Allocations Tasks.

(** The value of an allocation in a rule: RDT may be given as a dictionary. *)
Inductive rule_value :=
  | RuleRaw (v : raw_value)
  | RuleMap (d : dict string string).

Definition RuleAllocations : Type := dict AllocationType rule_value.
Definition RulesAllocations : Type := dict string RuleAllocations.

(** src/wca/extra/static_allocator.py:118-131 [StaticAllocator]
    A rule; [None] stands for a key that is missing, labels hold the text of the
    regular expressions. *)
Record Rule := mkRule {
  rule_allocations : option RuleAllocations;
  rule_task_id : option string;
  rule_labels : option (dict string string)
}.

(** src/wca/extra/static_allocator.py:32-41 [merge_rules] *)
Definition merge_rules (existing_tasks_allocations new_tasks_allocations : RulesAllocations)
    : RulesAllocations :=
  let merged := foldl (λ merged '(task_id, task_allocations),
      dset merged task_id
        (dupdate (default [] (dget existing_tasks_allocations task_id)) task_allocations))
    [] new_tasks_allocations in
  foldl (λ merged '(task_id, task_allocations),
      if dmem merged task_id then merged else dset merged task_id task_allocations)
    merged existing_tasks_allocations.

(** [RDTAllocation( **d )] *)
Definition rdt_of_map (d : dict string string) : result RDTAllocation :=
  if forallb (λ k, bool_decide (k ∈ ["name"; "l3"; "mb"])) (dkeys d)
  then Ok (mkRDTAllocation (dget d "name") (dget d "l3") (dget d "mb"))
  else Raise TypeError.

(** src/wca/extra/static_allocator.py:61-64 [_build_allocations_from_rules]
    The conversion changes the dictionary of the rule itself. *)
Definition convert_rdt (allocations : RuleAllocations) : result RuleAllocations :=
  match dget allocations RDT with
  | Some (RuleMap d) => rdt ← rdt_of_map d; Ok (dset allocations RDT (RuleRaw (RawRDT rdt)))
  | _ => Ok allocations
  end.

Section static.
  Context (re_match : string → string → result bool) (set_order : list string → list string).

(** src/wca/extra/static_allocator.py:78-83 [_build_allocations_from_rules], one task *)
Definition labels_match (labels task_labels : dict string string) : result bool :=
  let matching_label_names :=
    set_order (List.filter (λ name, dmem labels name) (dkeys task_labels)) in
  foldM (λ found name,
    pattern ← dgetitem labels name; value ← dgetitem task_labels name;
    m ← re_match pattern value; Ok (found || m)) false matching_label_names.

(** src/wca/extra/static_allocator.py:66-89 [_build_allocations_from_rules] *)
Definition match_task_ids (tasks_data : TasksData) (rule : Rule) : result (list string) :=
  match rule_task_id rule, rule_labels rule with
  | Some task_id, _ => Ok [task_id]
  | None, Some labels =>
      found ← foldM (λ found '(task, data),
        m ← labels_match labels (task_labels (td_task data));
        Ok (if m : bool then found ++ [task] else found)) [] tasks_data;
      Ok (set_order found)
  | None, None => Ok (dkeys tasks_data)
  end.

(** src/wca/extra/static_allocator.py:49-102 [_build_allocations_from_rules], one rule:
    the allocations with it, and the rule afterwards *)
Definition apply_rule (tasks_data : TasksData) (tasks_allocations : RulesAllocations) (rule : Rule)
    : result RulesAllocations * Rule :=
  match rule_allocations rule with
  | None | Some [] => (Ok tasks_allocations, rule)
  | Some allocations =>
      match convert_rdt allocations with
      | Raise e => (Raise e, rule)
      | Ok new_task_allocations =>
          (ids ← match_task_ids tasks_data rule;
           Ok (merge_rules tasks_allocations
                 (dict_of ((λ id, (id, new_task_allocations)) <$> ids))),
           mkRule (Some new_task_allocations) (rule_task_id rule) (rule_labels rule))
      end
  end.

(** src/wca/extra/static_allocator.py:44-104 [_build_allocations_from_rules] *)
Fixpoint build_allocations_from_rules (tasks_data : TasksData) (tasks_allocations : RulesAllocations)
    (rules : list Rule) : result RulesAllocations * list Rule :=
  match rules with
  | [] => (Ok tasks_allocations, [])
  | rule :: rules =>
      let '(r, rule) := apply_rule tasks_data tasks_allocations rule in
      match r with
      | Raise e => (Raise e, rule :: rules)
      | Ok tasks_allocations =>
          let '(r, rules) := build_allocations_from_rules tasks_data tasks_allocations rules in
          (r, rule :: rules)
      end
  end.

(** src/wca/extra/static_allocator.py:151-181 [StaticAllocator.allocate]
    [self.rules] is the state; [config] is what the configuration file holds, read
    anew in every call, when it is given and exists. *)
Definition static_allocate (config : option (result (list Rule))) (tasks_data : TasksData)
    : M (list Rule) RulesAllocations := λ self_rules,
  match default (Ok []) config with
  | Raise e => (Raise e, self_rules)
  | Ok config_rules =>
      let '(r, rules) := build_allocations_from_rules tasks_data [] (self_rules ++ config_rules) in
      (r, take (length self_rules) rules)
  end.

(** ** The last matching rule counts *)

(** The rule applies to the task. *)
Definition rule_applies (tasks_data : TasksData) (rule : Rule) (task : string) : bool :=
  match rule_task_id rule, rule_labels rule with
  | Some id, _ => String.eqb id task
  | None, Some labels =>
      match dget tasks_data task with
      | Some data => existsb (λ name,
          match dget labels name, dget (task_labels (td_task data)) name with
          | Some pattern, Some value => match re_match pattern value with Ok b => b | Raise _ => false end
          | _, _ => false
          end) (dkeys (task_labels (td_task data)))
      | None => false
      end
  | None, None => dmem tasks_data task
  end.

(** What the rule says of an allocation. *)
Definition rule_says (rule : Rule) (t : AllocationType) : option rule_value :=
  allocations ← rule_allocations rule;
  match convert_rdt allocations with Ok a => dget a t | Raise _ => None end.

(** The reference: the last rule that applies to the task and speaks of the allocation. *)
Definition last_word (tasks_data : TasksData) (rules : list Rule) (task : string) (t : AllocationType)
    : option rule_value :=
  foldl (λ word rule,
    if rule_applies tasks_data rule task then
      match rule_says rule t with Some v => Some v | None => word end
    else word) None rules.

Definition allocated (allocations : RulesAllocations) (task : string) (t : AllocationType)
    : option rule_value := dget allocations task ≫= λ a, dget a t.
End static.

(** ** Lemmas on dictionaries *)
Lemma dget_fold_dset {K V W} `{EqDecision K} (f : K → V → W) (m : dict K W) (l : dict K V) k :
  dict_wf l →
  dget (foldl (λ m '(k, a), dset m k (f k a)) m l) k =
    match dget l k with Some a => Some (f k a) | None => dget m k end.
Proof.
  unfold dict_wf, dkeys. revert m. induction l as [|[k' a] l IH]; intros m; [done|].
  rewrite fmap_cons, NoDup_cons. intros [Hni Hnd]. cbn [foldl dget fst] in *. rewrite IH by done.
  case_decide as Heq.
  - subst k'. assert (dget l k = None) as -> by (by apply dget_None). apply dget_dset_eq.
  - destruct (dget l k); [done|]. by apply dget_dset_ne.
Qed.

Lemma dget_fold_fill {K V} `{EqDecision K} (m l : dict K V) k :
  dget (foldl (λ m '(k, a), if dmem m k then m else dset m k a) m l) k =
    match dget m k with Some a => Some a | None => dget l k end.
Proof.
  revert m. induction l as [|[k' a] l IH]; intros m; cbn [foldl dget]; [by destruct (dget m k)|].
  rewrite IH. unfold dmem. destruct (dget m k') eqn:E.
  - destruct (dget m k) eqn:E2; [done|]. by rewrite decide_False by congruence.
  - rewrite dget_dset. destruct (decide (k' = k)) as [->|Hne]; [by rewrite E, decide_True|].
    destruct (dget m k); [done|]. by rewrite decide_False by congruence.
Qed.

Lemma dget_same_for_all {V} (ids : list string) (v : V) id :
  dget (dict_of ((λ id, (id, v)) <$> ids)) id = if decide (id ∈ ids) then Some v else None.
Proof.
  unfold dict_of. assert (Hgen : ∀ d, dget (foldl (λ d kv, dset d kv.1 kv.2) d ((λ id, (id, v)) <$> ids)) id =
    if decide (id ∈ ids) then Some v else dget d id).
  { induction ids as [|id' ids IH]; intros d; [by rewrite decide_False by apply not_elem_of_nil|].
    rewrite fmap_cons. cbn [foldl fst snd]. rewrite IH. destruct (decide (id ∈ ids)) as [Hin|Hni].
    - by rewrite decide_True by set_solver.
    - rewrite dget_dset. destruct (decide (id' = id)) as [->|Hne];
        [by rewrite decide_True by set_solver|by rewrite decide_False by set_solver]. }
  apply (Hgen []).
Qed.

Lemma merge_rules_allocated existing new task t :
  dict_wf new → (∀ a, dget new task = Some a → dict_wf a) →
  allocated (merge_rules existing new) task t =
    match allocated new task t with Some v => Some v | None => allocated existing task t end.
Proof.
  intros Hnew Ha. unfold allocated, merge_rules, RulesAllocations, RuleAllocations in *. rewrite dget_fold_fill.
  rewrite (dget_fold_dset (λ id a, dupdate (default [] (dget existing id)) a)) by done.
  destruct (dget new task) as [a|] eqn:E; [|done]. cbn [mbind option_bind]. rewrite dget_dupdate by auto.
  destruct (dget a t); [done|]. by destruct (dget existing task).
Qed.

(** ** Matching *)
Section rules.
  Context (re_match : string → string → result bool) (set_order : list string → list string).
  Hypothesis set_order_same : ∀ l, set_order l ≡ₚ l.
  Context (tasks_data : TasksData).
  Hypothesis tasks_wf : dict_wf tasks_data.

(** The label [name] of a task matches. *)
Definition label_match (labels tl : dict string string) (name : string) : bool :=
  match dget labels name, dget tl name with
  | Some pattern, Some value => match re_match pattern value with Ok b => b | Raise _ => false end
  | _, _ => false
  end.

Lemma labels_match_any labels tl b :
  labels_match re_match set_order labels tl = Ok b → b = existsb (label_match labels tl) (dkeys tl).
Proof.
  unfold labels_match. intros Hf.
  assert (Hany : ∀ names found, foldM (λ found name,
      pattern ← dgetitem labels name; value ← dgetitem tl name;
      m ← re_match pattern value; Ok (found || m)) found names = Ok b →
      b = found || existsb (label_match labels tl) names).
  { clear Hf. induction names as [|name names IH]; intros found Hf; cbn [foldM existsb] in *.
    { injection Hf as <-. by rewrite orb_false_r. }
    apply bind_Ok_iff in Hf as (found' & Hn & Hf). apply IH in Hf as ->. unfold label_match.
    apply bind_Ok_iff in Hn as (p & Hp & Hn). apply or_raise_Ok in Hp as ->.
    apply bind_Ok_iff in Hn as (v & Hv & Hn). apply or_raise_Ok in Hv as ->.
    apply bind_Ok_iff in Hn as (m & -> & [= <-]). by rewrite orb_assoc. }
  apply Hany in Hf. cbn [orb] in Hf. rewrite Hf. apply eq_true_iff_eq.
  rewrite !existsb_exists. split; intros (name & Hin & Hm); exists name; (split; [|done]).
  - apply list_elem_of_In in Hin. rewrite set_order_same in Hin.
    apply list_elem_of_In in Hin. by apply filter_In in Hin as [? _].
  - apply list_elem_of_In. rewrite set_order_same. apply list_elem_of_In, filter_In. split; [done|].
    unfold label_match in Hm. unfold dmem. by destruct (dget labels name).
Qed.

Lemma labels_loop labels (data : TasksData) (found ids : list string) :
  foldM (λ found '(task, data),
    m ← labels_match re_match set_order labels (task_labels (td_task data));
    Ok (if m : bool then found ++ [task] else found)) found data = Ok ids →
  ∀ task, task ∈ ids ↔ task ∈ found ∨ ∃ td, (task, td) ∈ data ∧
    existsb (label_match labels (task_labels (td_task td))) (dkeys (task_labels (td_task td))) = true.
Proof.
  revert found. induction data as [|[task1 td1] data IH]; intros found Hf task; cbn [foldM] in Hf.
  { injection Hf as <-. split; [by left|]. by intros [?|(td & []%not_elem_of_nil & _)]. }
  apply bind_Ok_iff in Hf as (found' & Hm & Hf). apply bind_Ok_iff in Hm as (m & Hm & [= <-]).
  apply labels_match_any in Hm. rewrite (IH _ Hf task).
  assert (Hone : task ∈ (if m then found ++ [task1] else found) ↔
    task ∈ found ∨ (task = task1 ∧ m = true)) by (destruct m; [rewrite elem_of_app, list_elem_of_singleton|]; naive_solver).
  rewrite Hone. split.
  - intros [[Hin|[-> ->]]|(td & Hin & He)]; [by left| |by right; exists td; split; [by right|]].
    right. exists td1. split; [by left|done].
  - intros [Hin|(td & [[= -> ->]|Hin]%elem_of_cons & He)]; [by left; left|left; right|right; by exists td].
    by rewrite Hm.
Qed.

Lemma match_task_ids_applies rule ids :
  match_task_ids re_match set_order tasks_data rule = Ok ids →
  ∀ task, task ∈ ids ↔ rule_applies re_match tasks_data rule task = true.
Proof.
  unfold match_task_ids, rule_applies. intros Hids task.
  destruct (rule_task_id rule) as [id|].
  { injection Hids as <-. rewrite list_elem_of_singleton, String.eqb_eq. naive_solver. }
  destruct (rule_labels rule) as [labels|]; [|injection Hids as <-; by rewrite dmem_true].
  apply bind_Ok_iff in Hids as (found & Hf & [= <-]). rewrite set_order_same.
  rewrite (labels_loop _ _ _ _ Hf task). split.
  - intros [[]%not_elem_of_nil|(td & Hin & Hm)]. by rewrite (dget_in _ _ _ tasks_wf Hin).
  - destruct (dget tasks_data task) as [td|] eqn:E; [|done]. intros Hm. right. exists td.
    split; [by apply dget_Some_in|done].
Qed.

(** ** One rule, all rules *)

Definition rules_wf (rules : list Rule) : Prop :=
  Forall (λ r, dict_wf (default [] (rule_allocations r))) rules.

Lemma convert_rdt_wf a a' : dict_wf a → convert_rdt a = Ok a' → dict_wf a'.
Proof.
  unfold convert_rdt. intros Hwf. destruct (dget a RDT) as [[v|d]|]; [by intros [= <-]| |by intros [= <-]].
  intros (rdt & _ & [= <-])%bind_Ok_iff. by apply dset_wf.
Qed.

(** Converting twice is converting once. *)
Lemma convert_rdt_idemp a a' : convert_rdt a = Ok a' → convert_rdt a' = Ok a'.
Proof.
  unfold convert_rdt at 1. destruct (dget a RDT) as [[v|d]|] eqn:E.
  - intros [= <-]. unfold convert_rdt. by rewrite E.
  - intros (rdt & _ & [= <-])%bind_Ok_iff. unfold convert_rdt. by rewrite dget_dset_eq.
  - intros [= <-]. unfold convert_rdt. by rewrite E.
Qed.

Lemma apply_rule_allocated acc rule acc' rule' task t :
  dict_wf (default [] (rule_allocations rule)) →
  apply_rule re_match set_order tasks_data acc rule = (Ok acc', rule') →
  allocated acc' task t =
    if rule_applies re_match tasks_data rule task then
      match rule_says rule t with Some v => Some v | None => allocated acc task t end
    else allocated acc task t.
Proof.
  unfold apply_rule, rule_says. intros Hwf Ha. destruct (rule_allocations rule) as [a|].
  2: { injection Ha as <- _. by destruct (rule_applies _ _ _ _). }
  destruct (decide (a = [])) as [->|Hne].
  { injection Ha as <- _. by destruct (rule_applies _ _ _ _). }
  assert (Hc : ∃ new ids, convert_rdt a = Ok new ∧ match_task_ids re_match set_order tasks_data rule = Ok ids ∧
    acc' = merge_rules acc (dict_of ((λ id, (id, new)) <$> ids))).
  { destruct a; [done|]. destruct (convert_rdt _) as [new|]; [|done].
    injection Ha as Ha _. apply bind_Ok_iff in Ha as (ids & Hids & [= <-]). by exists new, ids. }
  destruct Hc as (new & ids & Hnew & Hids & ->). cbn in Hwf. apply convert_rdt_wf in Hnew as Hnwf; [|done].
  pose proof (match_task_ids_applies _ _ Hids task) as Happ.
  rewrite merge_rules_allocated by (auto with wca || (intros a'; rewrite dget_same_for_all; case_decide; naive_solver)).
  cbn [mbind option_bind]. rewrite Hnew. unfold allocated at 1. rewrite dget_same_for_all.
  destruct (rule_applies re_match tasks_data rule task); case_decide; naive_solver.
Qed.

Lemma build_allocated rules acc result rules' task t :
  rules_wf rules →
  build_allocations_from_rules re_match set_order tasks_data acc rules = (Ok result, rules') →
  allocated result task t =
    foldl (λ word rule,
      if rule_applies re_match tasks_data rule task then
        match rule_says rule t with Some v => Some v | None => word end
      else word) (allocated acc task t) rules.
Proof.
  intros Hwf. revert acc rules'. induction Hwf as [|rule rules Hr Hrs IH]; intros acc rules' Hb.
  { by injection Hb as <- _. }
  cbn [build_allocations_from_rules] in Hb. cbn [foldl].
  destruct (apply_rule re_match set_order tasks_data acc rule) as [[acc1|e] rule1] eqn:E; [|done].
  destruct (build_allocations_from_rules re_match set_order tasks_data acc1 rules) as [r rs] eqn:E2.
  injection Hb as -> <-. rewrite (IH _ _ E2). by rewrite (apply_rule_allocated _ _ _ _ _ _ Hr E).
Qed.

(** ** Later iterations *)

Lemma apply_rule_again acc rule acc' rule' :
  apply_rule re_match set_order tasks_data acc rule = (Ok acc', rule') →
  apply_rule re_match set_order tasks_data acc rule' = (Ok acc', rule').
Proof.
  unfold apply_rule. destruct (rule_allocations rule) as [[|kv a]|] eqn:E; [by intros [= <- <-]; rewrite E| |
    by intros [= <- <-]; rewrite E].
  destruct (convert_rdt (kv :: a)) as [new|] eqn:Hc; [|done]. intros [= Hm <-]. cbn [rule_allocations].
  assert (new ≠ []).
  { intros ->. unfold convert_rdt in Hc. destruct (dget (kv :: a) RDT) as [[]|]; [done| |done].
    apply bind_Ok_iff in Hc as (rdt & _ & [= Hc]). destruct kv as [k v]. cbn in Hc. by case_decide. }
  destruct new as [|kv' new]; [done|]. apply convert_rdt_idemp in Hc. rewrite Hc. f_equal. exact Hm.
Qed.

Lemma build_app acc l1 l2 result l' :
  build_allocations_from_rules re_match set_order tasks_data acc (l1 ++ l2) = (Ok result, l') ↔
  ∃ acc1 l1' l2', build_allocations_from_rules re_match set_order tasks_data acc l1 = (Ok acc1, l1') ∧
    build_allocations_from_rules re_match set_order tasks_data acc1 l2 = (Ok result, l2') ∧ l' = l1' ++ l2'.
Proof.
  revert acc l'. induction l1 as [|rule l1 IH]; intros acc l'; cbn [app build_allocations_from_rules].
  { split; [intros Hb; by exists acc, [], l'|]. by intros (acc1 & l1' & l2' & [= <- <-] & Hb & ->). }
  destruct (apply_rule _ _ _ acc rule) as [[acc0|e] rule']; [|by split; [|intros (?&?&?&?&?)]].
  specialize (IH acc0). destruct (build_allocations_from_rules _ _ _ acc0 (l1 ++ l2)) as [r rs].
  destruct (build_allocations_from_rules _ _ _ acc0 l1) as [r1 rs1]. split.
  - intros [= -> <-]. destruct (proj1 (IH rs) eq_refl) as (acc1 & l1' & l2' & [= -> ->] & Hb & ->).
    by exists acc1, (rule' :: l1'), l2'.
  - intros (acc1 & l1' & l2' & [= -> <-] & Hb & ->).
    assert (Heq : (r, rs) = (Ok result, rs1 ++ l2')) by (apply IH; by exists acc1, rs1, l2').
    by injection Heq as -> ->.
Qed.

Lemma build_again acc rules result rules' :
  build_allocations_from_rules re_match set_order tasks_data acc rules = (Ok result, rules') →
  build_allocations_from_rules re_match set_order tasks_data acc rules' = (Ok result, rules') ∧
  length rules' = length rules.
Proof.
  revert acc rules'. induction rules as [|rule rules IH]; intros acc rules' Hb; [by injection Hb as <- <-|].
  cbn [build_allocations_from_rules] in Hb.
  destruct (apply_rule re_match set_order tasks_data acc rule) as [[acc1|e] rule'] eqn:E; [|done].
  destruct (build_allocations_from_rules re_match set_order tasks_data acc1 rules) as [r rs] eqn:E2.
  injection Hb as -> <-. apply apply_rule_again in E. apply IH in E2 as [E2 Hlen].
  cbn [build_allocations_from_rules]. rewrite E, E2. split; [done|]. cbn. by rewrite Hlen.
Qed.

(** C36 (equivalence): the allocations of the static allocator are, for every task and
    every allocation, what the last rule that applies to the task and speaks of the
    allocation says; and although the first call changes the rules it was given, every
    later call with the same tasks returns the same. *)
Theorem static_last_rule_wins config config_rules self_rules result self_rules' :
  default (Ok []) config = Ok config_rules → rules_wf (self_rules ++ config_rules) →
  static_allocate re_match set_order config tasks_data self_rules = (Ok result, self_rules') →
  (∀ task t, allocated result task t = last_word re_match tasks_data (self_rules ++ config_rules) task t) ∧
  static_allocate re_match set_order config tasks_data self_rules' = (Ok result, self_rules').
Proof.
  unfold static_allocate. intros -> Hwf Hs.
  destruct (build_allocations_from_rules re_match set_order tasks_data [] (self_rules ++ config_rules))
    as [r rules'] eqn:E. injection Hs as -> <-. split.
  { intros task t. by rewrite (build_allocated _ _ _ _ task t Hwf E). }
  apply build_app in E as (acc1 & l1' & l2' & H1 & H2 & ->). apply build_again in H1 as [H1 Hlen].
  rewrite <-Hlen, take_app_length.
  assert (Hboth : build_allocations_from_rules re_match set_order tasks_data [] (l1' ++ config_rules) =
    (Ok result, l1' ++ l2')) by (apply build_app; by exists acc1, l1', l2').
  by rewrite Hboth, take_app_length.
Qed.
End rules.

(** ** Three rules *)

(** A regular expression that is a plain text matches at the beginning. *)
Definition prefix_match (pattern value : string) : result bool := Ok (startswith pattern value).

Definition static_tasks : TasksData :=
  (λ '(id, app), (id, mkTaskData (mkTask id id ("/" +:+ id) [] [("app", app)] []) [] None)) <$>
  [("t1", "redis-1"); ("t2", "mysql"); ("t3", "redis-2")].

Definition static_rules : list Rule :=
  [mkRule (Some [(SHARES, RuleRaw (RawNum (PInt 2))); (RDT, RuleMap [("name", "be"); ("l3", "L3:0=f")])]) None None;
   mkRule (Some [(SHARES, RuleRaw (RawNum (PInt 5)))]) None (Some [("app", "redis"); ("zone", ".*")]);
   mkRule (Some [(QUOTA, RuleRaw (RawNum (PInt 1)))]) (Some "t3") None;
   mkRule None None None].

Definition static_run : result RulesAllocations * list Rule :=
  static_allocate prefix_match (λ l, l) None static_tasks static_rules.

Lemma static_last_rule_wins_witness :
  allocated (result_get [] static_run.1) "t3" SHARES = Some (RuleRaw (RawNum (PInt 5))) ∧
  allocated (result_get [] static_run.1) "t2" RDT =
    Some (RuleRaw (RawRDT (mkRDTAllocation (Some "be") (Some "L3:0=f") None))) ∧
  (∀ task t, allocated (result_get [] static_run.1) task t =
     last_word prefix_match static_tasks (static_rules ++ []) task t) ∧
  static_allocate prefix_match (λ l, l) None static_tasks static_run.2 =
    (Ok (result_get [] static_run.1), static_run.2).
Proof.
  split; [vm_compute; reflexivity|]. split; [vm_compute; reflexivity|].
  apply (static_last_rule_wins prefix_match (λ l, l) (λ l, reflexivity l) static_tasks
           ltac:(vm_compute; apply (bool_decide_unpack _); vm_compute; exact I) None [] static_rules).
  - reflexivity.
  - apply (bool_decide_unpack _). vm_compute. exact I.
  - apply outcome_Ok. vm_compute. reflexivity.
Defined.

(** A rule for a single task is kept although no such task runs. *)
Example rule_for_unknown_task :
  (static_allocate prefix_match (λ l, l) None static_tasks
     [mkRule (Some [(QUOTA, RuleRaw (RawNum (PInt 1)))]) (Some "gone") None]).1 =
  Ok [("gone", [(QUOTA, RuleRaw (RawNum (PInt 1)))])].
Proof. vm_compute. reflexivity. Qed.
