(* ===== verification/Nodes.v ===== *)
(** * Other nodes

    [src/wca/extra/static_node.py] finds tasks in the cgroup file system by their
    names, [src/wca/mesos.py] among the tasks a Mesos agent has launched.  The request
    to the agent is a parameter that returns JSON. *)
From S2P Require Export Tasks Json PyFloat FileSys Metrics Kubernetes.

(** ** Static node *)

(** src/wca/extra/static_node.py:54-60 [StaticNode] *)
Record StaticNode := mkStaticNode {
  sn_tasks : list string;
  require_pids : bool;
  default_labels : dict string string;
  default_resources : dict string resource_value;
  tasks_labels : option (dict string (dict string string));
  sn_directory : option string
}.

(** src/wca/extra/static_node.py:62-63 [StaticNode] *)
Definition BASE_CGROUP_PATH : string := "/sys/fs/cgroup".
Definition REQUIRED_CONTROLLERS : list string := ["cpu"; "cpuacct"; "memory"].

Section static_node.
  Context {W : Type} `{FileSystem W} (self : StaticNode).

(** src/wca/extra/static_node.py:71-82 [StaticNode.get_tasks] *)
Definition task_names : M W (list string) :=
  match sn_directory self with
  | None => mret (sn_tasks self)
  | Some directory =>
      let base_path := path_join (path_join BASE_CGROUP_PATH "cpu") directory in
      entries ← list_dir base_path;
      w ← get_state;
      let dirs := List.filter (λ entry, fs_isdir (path_join base_path entry) w) entries in
      mret (sn_tasks self ++ (path_join directory <$> dirs))
  end.

(** src/wca/extra/static_node.py:87-97 [StaticNode.get_tasks]
    Whether the loop over the controllers ends without [break]. *)
Fixpoint has_controllers (controllers : list string) (name : string) : M W bool :=
  match controllers with
  | [] => mret true
  | required_controller :: controllers =>
      let full_cgroup_path :=
        path_join (path_join (path_join BASE_CGROUP_PATH required_controller) name) "tasks" in
      w ← get_state;
      if negb (fs_exists full_cgroup_path w) then mret false
      else if require_pids self then
        content ← read_file full_cgroup_path;
        match readlines content with
        | [] => mret false
        | _ => has_controllers controllers name
        end
      else has_controllers controllers name
  end.

(** src/wca/extra/static_node.py:99-111 [StaticNode.get_tasks]
    [labels.update(None)] of a task without labels of its own raises. *)
Definition static_task (name : string) : result Task :=
  labels ← match tasks_labels self with
           | None | Some [] => Ok (default_labels self)
           | Some d => l ← or_raise TypeError (dget d name); Ok (dupdate (default_labels self) l)
           end;
  Ok (mkTask name name ("/" +:+ name) [] labels (default_resources self)).

(** src/wca/extra/static_node.py:70-112 [StaticNode.get_tasks] *)
Definition static_node_get_tasks : M W (list Task) :=
  names ← task_names;
  foldMS (λ tasks name,
    ok ← has_controllers REQUIRED_CONTROLLERS name;
    if ok : bool then t ← lift (static_task name); mret (tasks ++ [t]) else mret tasks) [] names.
End static_node.

(** ** Mesos *)

(** src/wca/resources.py:36-47 [calculate_scalar_resources] *)
Definition json_float (v : json) : result float :=
  match v with
  | JNum n => to_float n
  | JStr s => py_float s
  | JBool b => float_of_Z (if b then 1 else 0)
  | _ => Raise TypeError
  end.

(** src/wca/resources.py:30-47 [calculate_scalar_resources] *)
Definition calculate_scalar_resources (task_resources : json) : result (dict string float) :=
  items ← jiter task_resources;
  resources ← foldM (λ resources resource,
    type ← jitem resource "type";
    match type with
    | JStr "SCALAR" =>
        scalar ← jitem resource "scalar"; value ← jitem scalar "value"; x ← json_float value;
        name ← jitem resource "name"; name ← jstr name;
        Ok (dset resources name x)
    | _ => Ok resources
    end) [] items;
  foldM (λ resources res,
    x ← dgetitem resources res; m ← float_of_Z (1000 ^ 2); Ok (dset resources res (fmul x m)))
    resources ["disk"; "mem"].

(** src/wca/mesos.py:221-221 [MESOS_LABELS_PREFIXES_TO_DROP] *)
Definition MESOS_LABELS_PREFIXES_TO_DROP : list string := ["org.apache."; "aurora.metadata."].

(** src/wca/mesos.py:224-236 [sanitize_label] *)
Definition mesos_sanitize_label (label_key : string) : string :=
  str_replace "." "_"
    (foldl (λ label_key unwanted_prefix,
       if startswith unwanted_prefix label_key
       then str_join "" (split_sub unwanted_prefix label_key) else label_key)
       label_key MESOS_LABELS_PREFIXES_TO_DROP).

(** src/wca/mesos.py:209-218 [create_metrics] *)
Definition mesos_create_metrics `{Metadata} (task_measurements : measurements) : list Metric :=
  (λ '(name, value), create_metric_with_metadata name value [] None) <$> task_measurements.

(** src/wca/mesos.py:35-37 [MesosCgroupNotFoundException] *)
Definition MesosCgroupNotFoundException : exn := OtherException "MesosCgroupNotFoundException".

(** src/wca/mesos.py:41-46 [MesosTask] *)
Record MesosTask := mkMesosTask {
  mt_task : Task;
  mt_executor_pid : Z;
  mt_container_id : string;
  mt_executor_id : string;
  mt_agent_id : string
}.

(** src/wca/mesos.py:75-90 [find_cgroup], the lines of the file *)
Fixpoint cpu_cgroup (lines : list string) : result string :=
  match lines with
  | [] => Raise MesosCgroupNotFoundException
  | line :: lines =>
      match split_on ":" (strip line) with
      | [_; subsystems; path] =>
          if bool_decide ("cpu" ∈ split_on "," subsystems) then
            if String.eqb path "/" then Raise MesosCgroupNotFoundException else Ok path
          else cpu_cgroup lines
      | _ => Raise ValueError
      end
  end.

Section mesos.
  Context {W : Type} `{FileSystem W} (request : M W json).

(** src/wca/mesos.py:68-94 [find_cgroup]
    Entries of [/proc] for processes are numbers: there is no file for another value. *)
Definition find_cgroup (pid : json) : M W string :=
  match pid with
  | JNum (PInt n) =>
      try_except (content ← read_file ("/proc/" +:+ str_of_Z n +:+ "/cgroup");
                  lift (cpu_cgroup (readlines content)))
        (λ e, if bool_decide (e = FileNotFoundError) then Some (raise MesosCgroupNotFoundException)
              else None)
  | _ => raise MesosCgroupNotFoundException
  end.

(** src/wca/mesos.py:161-167 [MesosNode.get_tasks], the last status of a task that runs *)
Definition running_status (launched_task : json) : result (option json) :=
  present ← jmem launched_task "statuses";
  if negb present then Ok None
  else
    statuses ← jitem launched_task "statuses";
    match statuses with
    | JList [] | JObj [] | JStr "" => Ok None
    | JList (s :: l) =>
        let last_status := List.last (s :: l) s in
        state ← jitem last_status "state";
        Ok match state with JStr "TASK_RUNNING" => Some last_status | _ => None end
    | JObj _ => Raise KeyError
    | _ => Raise TypeError
    end.

(** src/wca/mesos.py:185-186 [MesosNode.get_tasks] *)
Definition mesos_labels (launched_task : json) : result (dict string json) :=
  labels ← jitem launched_task "labels"; labels ← jitem labels "labels"; items ← jiter labels;
  pairs ← mapM (λ label, value ← jitem label "value"; key ← jitem label "key";
                key ← jstr_or AttributeError key; Ok (mesos_sanitize_label key, value)) items;
  Ok (dict_of pairs).

Definition value_of (status : json) (key : string) : result json := v ← jitem status key; jitem v "value".

(** src/wca/mesos.py:48-58 [MesosTask.__post_init__]
    The checks of what was read from JSON; the path, the list of paths, the resources and
    the process have their types where they come from. *)
Definition mesos_post_init (name task_id : json) (cgroup_path : string) (labels : dict string json)
    (resources : dict string resource_value) (executor_pid : Z) (container_id executor_id agent_id : json)
    : result MesosTask :=
  name ← jstr_or ValidationError name;
  task_id ← jstr_or ValidationError task_id;
  labels ← dmapM (jstr_or ValidationError) labels;
  container_id ← jstr_or ValidationError container_id;
  executor_id ← jstr_or ValidationError executor_id;
  agent_id ← jstr_or ValidationError agent_id;
  Ok (mkMesosTask (mkTask name task_id cgroup_path [] labels resources)
        executor_pid container_id executor_id agent_id).

(** src/wca/mesos.py:188-204 [MesosNode.get_tasks], the task *)
Definition make_mesos_task (launched_task last_status name : json) (pid : Z) (cgroup_path : string)
    (labels : dict string json) : result MesosTask :=
  resources ← jitem launched_task "resources";
  resources ← calculate_scalar_resources resources;
  container_status ← jitem last_status "container_status";
  container_id ← value_of container_status "container_id";
  task_id ← value_of last_status "task_id";
  agent_id ← value_of last_status "agent_id";
  executor_id ← value_of last_status "executor_id";
  mesos_post_init name task_id cgroup_path labels ((λ kv, (kv.1, ResNum (PFloat kv.2))) <$> resources)
    pid container_id executor_id agent_id.

(** src/wca/mesos.py:161-204 [MesosNode.get_tasks], one launched task *)
Definition mesos_task (launched_task : json) : M W (option MesosTask) :=
  status ← lift (running_status launched_task);
  match status with
  | None => mret None
  | Some last_status =>
      container_status ← lift (jitem last_status "container_status");
      present ← lift (jmem container_status "executor_pid");
      if negb present then
        _ ← lift (value_of last_status "task_id"); _ ← lift (value_of last_status "agent_id"); mret None
      else
        executor_pid ← lift (jitem container_status "executor_pid");
        name ← lift (jitem launched_task "name");
        path ← try_except (p ← find_cgroup executor_pid; mret (Some p))
                 (λ e, if bool_decide (e = MesosCgroupNotFoundException) then Some (mret None) else None);
        match path, executor_pid with
        | Some path, JNum (PInt pid) =>
            labels ← lift (mesos_labels launched_task);
            t ← lift (make_mesos_task launched_task last_status name pid path labels); mret (Some t)
        | _, _ => mret None
        end
  end.

(** src/wca/mesos.py:129-206 [MesosNode.get_tasks] *)
Definition mesos_get_tasks : M W (list MesosTask) :=
  state ← try_except request (λ e,
    if bool_decide (e = OtherException "ConnectionError") then Some (raise TaskSynchronizationException)
    else None);
  tasks ← lift (s ← jitem state "get_state"; jitem s "get_tasks");
  present ← lift (jmem tasks "launched_tasks");
  if negb present then mret []
  else
    launched ← lift (jitem tasks "launched_tasks"); launched ← lift (jiter launched);
    foldMS (λ tasks launched_task, t ← mesos_task launched_task;
                                   mret match t with Some t => tasks ++ [t] | None => tasks end)
      [] launched.
End mesos.

(** ** What the nodes return *)

(** A loop that collects what its body finds and leaves the machine alone. *)
Lemma collect_inv {S A B} (f : B → M S (option A)) (P : A → B → Prop) (l : list B) (acc r : list A) s s' :
  (∀ b o s', b ∈ l → f b s = (Ok o, s') → s' = s ∧ ∀ a, o = Some a → P a b) →
  foldMS (λ acc b, o ← f b; mret match o with Some a => acc ++ [a] | None => acc end) acc l s = (Ok r, s') →
  s' = s ∧ ∀ a, a ∈ r → a ∈ acc ∨ ∃ b, b ∈ l ∧ P a b.
Proof.
  revert acc. induction l as [|b l IH]; intros acc Hf Hl.
  { apply M_ret_Ok_iff in Hl as [<- ->]. split; [done|by left]. }
  cbn [foldMS] in Hl. apply M_bind_Ok_iff in Hl as (acc1 & s1 & H1 & Hl).
  apply M_bind_Ok_iff in H1 as (o & s2 & Ho & H1). apply M_ret_Ok_iff in H1 as [<- ->].
  apply Hf in Ho as [-> Ho]; [|by left].
  apply IH in Hl as [-> Hl]; [|intros b' o' s0' Hb'; apply Hf; by right]. split; [done|].
  intros a [Hin|(b' & Hin & HP)]%Hl; [|right; exists b'; split; [by right|done]].
  destruct o as [a'|]; [|by left]. apply elem_of_app in Hin as [Hin| ->%list_elem_of_singleton]; [by left|].
  right. exists b. split; [by left|by apply Ho].
Qed.

Section static_spec.
  Context {W : Type} `{FileSystem W} (self : StaticNode).

Lemma has_controllers_exist controllers name w w' :
  has_controllers self controllers name w = (Ok true, w') →
  w' = w ∧ ∀ c, c ∈ controllers →
    fs_exists (path_join (path_join (path_join BASE_CGROUP_PATH c) name) "tasks") w = true.
Proof.
  induction controllers as [|c controllers IH]; intros Hc.
  { apply M_ret_Ok_iff in Hc as [_ ->]. split; [done|]. by intros c []%not_elem_of_nil. }
  cbn [has_controllers] in Hc. apply M_bind_Ok_iff in Hc as (w0 & w1 & [= -> ->] & Hc).
  destruct (fs_exists _ w1) eqn:E; cbn [negb] in Hc; [|by inv_M].
  assert (Hrest : has_controllers self controllers name w1 = (Ok true, w')).
  { destruct (require_pids self); [|done].
    apply M_bind_Ok_iff in Hc as (content & w2 & Hr & Hc). apply read_file_Ok_iff in Hr as [_ ->].
    destruct (readlines content); [by inv_M|done]. }
  apply IH in Hrest as [-> Hrest]. split; [done|].
  intros c' [->|Hin]%elem_of_cons; [done|by apply Hrest].
Qed.
End static_spec.

(** The file of a pid names the cgroup in a line of the cpu controller. *)
Lemma cpu_cgroup_line lines path :
  cpu_cgroup lines = Ok path →
  path ≠ "/" ∧ ∃ line id subsystems, line ∈ lines ∧ split_on ":" (strip line) = [id; subsystems; path] ∧
    "cpu" ∈ split_on "," subsystems.
Proof.
  induction lines as [|line lines IH]; [done|]. cbn [cpu_cgroup].
  destruct (split_on ":" (strip line)) as [|id [|subsystems [|p [|? ?]]]] eqn:E; try done.
  case_bool_decide as Hin.
  - destruct (String.eqb p "/") eqn:Ep; [done|]. intros [= ->]. split; [by apply String.eqb_neq|].
    exists line, id, subsystems. split; [by left|done].
  - intros (Hne & line' & id' & sub' & Hl & Hs & Hc)%IH. split; [done|].
    exists line', id', sub'. split; [by right|done].
Qed.

Section mesos_spec.
  Context {W : Type} `{FileSystem W} (request : M W json).

(** What a Mesos task says about the launched task it was made from. *)
Definition task_of_launched (w : W) (t : MesosTask) (launched : json) : Prop :=
  ∃ status content, running_status launched = Ok (Some status) ∧
    jitem status "state" = Ok (JStr "TASK_RUNNING") ∧
    fs_read ("/proc/" +:+ str_of_Z (mt_executor_pid t) +:+ "/cgroup") w = Ok content ∧
    cpu_cgroup (readlines content) = Ok (task_cgroup_path (mt_task t)) ∧
    task_subcgroups_paths (mt_task t) = [].

Lemma running_status_runs launched status :
  running_status launched = Ok (Some status) → jitem status "state" = Ok (JStr "TASK_RUNNING").
Proof.
  unfold running_status. intros (present & _ & Hs)%bind_Ok_iff. destruct (negb present); [done|].
  apply bind_Ok_iff in Hs as (statuses & _ & Hs).
  assert (Hl : ∀ s, (state ← jitem s "state";
      Ok match state with JStr "TASK_RUNNING" => Some s | _ => None end) = Ok (Some status) →
      jitem status "state" = Ok (JStr "TASK_RUNNING")).
  { intros s (state & Hstate & Heq)%bind_Ok_iff. injection Heq as Heq.
    assert (state = JStr "TASK_RUNNING" ∧ s = status) as [-> ->]; [|done].
    destruct state as [| | |t| |]; try done.
    do 12 (destruct t as [|[[] [] [] [] [] [] [] []] t]; try done). destruct t; [|done].
    by injection Heq as ->. }
  destruct statuses as [| | |s|l|d]; try done.
  - by destruct s.
  - destruct l as [|s l]; [done|]. by apply Hl in Hs.
  - by destruct d.
Qed.

Lemma find_cgroup_Ok pid w path w' :
  find_cgroup pid w = (Ok path, w') →
  w' = w ∧ ∃ n content, pid = JNum (PInt n) ∧
    fs_read ("/proc/" +:+ str_of_Z n +:+ "/cgroup") w = Ok content ∧
    cpu_cgroup (readlines content) = Ok path.
Proof.
  unfold find_cgroup. destruct pid as [| |[n|]| | |]; try done. unfold try_except, read_file.
  unfold mbind, M_bind. destruct (fs_read _ w) as [content|e] eqn:E; cbn.
  - unfold lift. destruct (cpu_cgroup (readlines content)) as [p|e] eqn:Ec.
    + intros [= <- <-]. split; [done|]. by exists n, content.
    + by case_bool_decide.
  - by case_bool_decide.
Qed.

Lemma make_mesos_task_Ok launched status name pid path labels t :
  make_mesos_task launched status name pid path labels = Ok t →
  mt_executor_pid t = pid ∧ task_cgroup_path (mt_task t) = path ∧ task_subcgroups_paths (mt_task t) = [].
Proof.
  unfold make_mesos_task. intros Ht.
  do 13 (apply bind_Ok_iff in Ht as (? & _ & Ht)). by injection Ht as <-.
Qed.

Lemma mesos_task_facts launched w o w' :
  mesos_task launched w = (Ok o, w') → w' = w ∧ ∀ t, o = Some t → task_of_launched w t launched.
Proof.
  unfold mesos_task. intros Hm. apply M_bind_Ok_iff in Hm as (status & w1 & Hs & Hm).
  apply lift_Ok_iff in Hs as [Hs ->]. destruct status as [status|]; [|by apply M_ret_Ok_iff in Hm as [<- ->]].
  apply M_bind_Ok_iff in Hm as (cs & w1 & Hcs & Hm). apply lift_Ok_iff in Hcs as [_ ->].
  apply M_bind_Ok_iff in Hm as (present & w1 & Hp & Hm). apply lift_Ok_iff in Hp as [_ ->].
  destruct (negb present).
  { do 2 (apply M_bind_Ok_iff in Hm as (? & ? & H1 & Hm); apply lift_Ok_iff in H1 as [_ ->]).
    by apply M_ret_Ok_iff in Hm as [<- ->]. }
  do 2 (apply M_bind_Ok_iff in Hm as (? & ? & H1 & Hm); apply lift_Ok_iff in H1 as [_ ->]).
  apply M_bind_Ok_iff in Hm as (path & w1 & Hpath & Hm).
  assert (Hw : w1 = w ∧ ∀ p, path = Some p → find_cgroup x w = (Ok p, w)).
  { unfold try_except, mbind, M_bind in Hpath. destruct (find_cgroup x w) as [[p|e] w2] eqn:E.
    - injection Hpath as <- <-. apply find_cgroup_Ok in E as E'. destruct E' as [-> _].
      split; [done|]. by intros p' [= ->].
    - case_bool_decide; [|done]. apply M_ret_Ok_iff in Hpath as [<- ->]. split; [|done].
      revert E. unfold find_cgroup. destruct x as [| |[n|]| | |]; try (by intros [= _ ->]).
      unfold try_except, read_file, mbind, M_bind. destruct (fs_read _ w) as [content|e']; cbn.
      + unfold lift. destruct (cpu_cgroup (readlines content)); [done|].
        case_bool_decide; by intros [= _ ->].
      + case_bool_decide; by intros [= _ ->]. }
  destruct Hw as [-> Hfind]. destruct path as [path|]; [|by apply M_ret_Ok_iff in Hm as [<- ->]].
  destruct (find_cgroup_Ok _ _ _ _ (Hfind path eq_refl)) as (_ & n & content & -> & Hread & Hcpu).
  apply M_bind_Ok_iff in Hm as (labels & w1 & Hl & Hm). apply lift_Ok_iff in Hl as [_ ->].
  apply M_bind_Ok_iff in Hm as (t & w1 & Ht & Hm). apply lift_Ok_iff in Ht as [Ht ->].
  apply M_ret_Ok_iff in Hm as [<- ->]. split; [done|]. intros t' [= <-].
  apply make_mesos_task_Ok in Ht as (<- & <- & Hsub). exists status, content.
  split; [done|]. split; [by eapply running_status_runs|done].
Qed.

(** Every task of a Mesos node comes from a launched task that runs, with the cpu
    cgroup of its executor. *)
Lemma mesos_get_tasks_running w tasks w' :
  mesos_get_tasks request w = (Ok tasks, w') →
  ∀ t, t ∈ tasks → ∃ launched, task_of_launched w' t launched.
Proof.
  unfold mesos_get_tasks. intros Hg.
  apply M_bind_Ok_iff in Hg as (state & w1 & _ & Hg).
  apply M_bind_Ok_iff in Hg as (ts & w2 & Hts & Hg). apply lift_Ok_iff in Hts as [_ ->].
  apply M_bind_Ok_iff in Hg as (present & w2 & Hp & Hg). apply lift_Ok_iff in Hp as [_ ->].
  destruct (negb present); [apply M_ret_Ok_iff in Hg as [<- ->]; by intros t []%not_elem_of_nil|].
  do 2 (apply M_bind_Ok_iff in Hg as (? & ? & H1 & Hg); apply lift_Ok_iff in H1 as [_ ->]).
  apply (collect_inv _ (λ t launched, task_of_launched w1 t launched)) in Hg as [-> Hall].
  2: { intros launched o s' _. apply mesos_task_facts. }
  - intros t [[]%not_elem_of_nil|(launched & _ & Ht)]%Hall. by exists launched.
Qed.
End mesos_spec.

(** ** Examples *)
Definition node_fs : memfs :=
  mkMem (list_to_map ((λ c, (path_join BASE_CGROUP_PATH (c +:+ "/t1/tasks"), "7" +:+ String newline "")) <$>
           REQUIRED_CONTROLLERS ++ ["perf_event"]) ∪
         {["/proc/12/cgroup" := "3:memory:/m" +:+ String newline "2:cpuacct,cpu:/mesos/1" +:+ String newline ""]}) ∅.

Example static_node_finds :
  (static_node_get_tasks (mkStaticNode ["t1"; "t2"] true [("a", "b")] [] None None) node_fs).1 =
  Ok [mkTask "t1" "t1" "/t1" [] [("a", "b")] []].
Proof. vm_compute. reflexivity. Qed.

(** Labels for some tasks only: a task without labels of its own ends the discovery. *)
Example static_node_labels_raise :
  (static_node_get_tasks (mkStaticNode ["t1"] true [] [] (Some [("t2", [])]) None) node_fs).1 = Raise TypeError.
Proof. vm_compute. reflexivity. Qed.

Definition scalar (name : string) (v : Z) : json :=
  JObj [("name", JStr name); ("type", JStr "SCALAR"); ("scalar", JObj [("value", JNum (PInt v))])].
Definition jval (s : string) : json := JObj [("value", JStr s)].
Definition mesos_state : json :=
  JObj [("get_state", JObj [("get_tasks", JObj [("launched_tasks", JList [JObj
    [("name", JStr "job"); ("resources", JList [scalar "mem" 2; scalar "disk" 1; scalar "cpus" 1]);
     ("labels", JObj [("labels", JList [JObj [("key", JStr "org.apache.aurora.metadata.env"); ("value", JStr "prod")]])]);
     ("statuses", JList [JObj [("state", JStr "TASK_RUNNING"); ("task_id", jval "id"); ("agent_id", jval "a");
        ("executor_id", jval "e"); ("container_status",
          JObj [("executor_pid", JNum (PInt 12)); ("container_id", jval "c")])]])]])])])].

Example mesos_node_finds :
  (λ t, (task_cgroup_path (mt_task t), task_labels (mt_task t))) <$>
    result_get [] (mesos_get_tasks (mret mesos_state) node_fs).1 = [("/mesos/1", [("env", "prod")])].
Proof. vm_compute. reflexivity. Qed.
