(* ===== verification/AllocationRunner.v ===== *)
(** * The allocation runner

    [src/wca/runners/allocation.py]: boxing raw allocations, start-up of RDT and
    the body of one iteration, which asks the allocator for new allocations,
    validates them, computes what changes with respect to the current ones and
    performs only the change.  The allocator and the storages are parameters. *)
From S2P Require Export World Allocations CgroupsAllocations ResctrlAllocations Tasks.

(** ** All allocation values *)
Inductive alloc_value (F : Type) : Type :=
  | CgroupV (v : cgroup_value (world F))
  | RdtV (v : RDTAllocationValue F).
Arguments CgroupV {F} _.
Arguments RdtV {F} _.

Definition map_changeset {A B} (f : A → B) (tc : A * option A) : B * option B :=
  (f tc.1, f <$> tc.2).

Section values.
  Context {F : Type} `{FileSystem F} `{PyFloatRepr} `{Syscalls F}.
  Implicit Types (v cur : alloc_value F).

(** Dynamic dispatch on the class of the value; comparing values of unrelated
    classes fails the assertions of the code. *)
Definition alloc_changeset v (current : option (alloc_value F))
    : result (alloc_value F * option (alloc_value F)) :=
  match v, current with
  | CgroupV a, None => map_changeset CgroupV <$> cgroup_value_changeset a None
  | CgroupV a, Some (CgroupV b) => map_changeset CgroupV <$> cgroup_value_changeset a (Some b)
  | RdtV a, None => map_changeset RdtV <$> rdt_calculate_changeset a None
  | RdtV a, Some (RdtV b) => map_changeset RdtV <$> rdt_calculate_changeset a (Some b)
  | _, _ => Raise AssertionError
  end.

#[export] Instance alloc_value_AllocationValue : AllocationValue (world F) (alloc_value F) := {
  calculate_changeset := alloc_changeset;
  generate_metrics v := match v with
                        | CgroupV a => cgroup_value_metrics a
                        | RdtV a => rdt_generate_metrics a
                        end;
  validate v := match v with
                | CgroupV a => lift (cgroup_value_validate a)
                | RdtV a => rdt_validate a
                end;
  perform_allocations v := match v with
                           | CgroupV a => cgroup_value_perform a
                           | RdtV a => rdt_perform_allocations a
                           end
}.

Definition alloc_ok v : Prop :=
  match v with CgroupV a => cgroup_value_ok a | RdtV a => rdt_ok a end.

Lemma alloc_changeset_refl v :
  alloc_ok v → ∃ t, alloc_changeset v (Some v) = Ok (t, None).
Proof.
  destruct v as [a|a]; intros Hok.
  - destruct (cgroup_value_changeset_refl a Hok) as [t Ht].
    exists (CgroupV t). cbn [alloc_changeset]. by rewrite Ht.
  - destruct (rdt_changeset_refl a Hok) as [t Ht].
    exists (RdtV t). cbn [alloc_changeset]. by rewrite Ht.
Qed.

Lemma map_changeset_Ok {A B} (f : A → B) r t c :
  map_changeset f <$> r = Ok (t, c) → ∃ t0 c0, r = Ok (t0, c0) ∧ t = f t0.
Proof. destruct r as [[t0 c0]|]; [intros [= <- _]; eauto|done]. Qed.

Lemma alloc_changeset_stable v cur t c :
  alloc_ok v → alloc_changeset v (Some cur) = Ok (t, c) →
  ∃ t', alloc_changeset v (Some t) = Ok (t', None).
Proof.
  destruct v as [a|a], cur as [b|b]; intros Hok Hc; try done;
    cbn [alloc_changeset] in Hc; apply map_changeset_Ok in Hc as (t0 & c0 & Hc & ->).
  - destruct (cgroup_value_changeset_stable a b t0 c0 Hok Hc) as [t' Ht'].
    exists (CgroupV t'). cbn [alloc_changeset]. by rewrite Ht'.
  - destruct (rdt_changeset_stable a b t0 c0 Hok Hc) as [t' Ht'].
    exists (RdtV t'). cbn [alloc_changeset]. by rewrite Ht'.
Qed.

#[export] Instance alloc_value_laws : AllocationValueLaws (world F) (alloc_value F) := {
  value_ok := alloc_ok;
  changeset_refl := alloc_changeset_refl;
  changeset_stable := alloc_changeset_stable
}.

Definition TaskAllocationsValues : Type := dict AllocationType (alloc_value F).
Definition TasksAllocationsValues : Type := dict string TaskAllocationsValues.

(** ** Boxing *)

(** src/wca/runners/allocation.py:100-127 [registry]
    The constructor of an allocation type; [rdt] carries what the closure of the
    RDT constructor captures, when RDT is enabled. *)
Definition registry (rdt : option (Z * RDTInformation * nat)) (t : AllocationType)
    : option (raw_value → ContainerInterface (world F) → dict string string →
              result (alloc_value F)) :=
  let number (f : num → ContainerInterface (world F) → dict string string →
                  result (cgroup_value (world F))) raw container labels :=
    match raw with
    | RawNum n => CgroupV <$> f n container labels
    | _ => Raise AssertionError
    end in
  let listformat (f : string → ContainerInterface (world F) → dict string string →
                      result (cgroup_value (world F))) raw container labels :=
    match raw with
    | RawStr s => CgroupV <$> f s container labels
    | _ => Raise AssertionError
    end in
  match t with
  | QUOTA => Some (number (λ n c l, Ok (make_quota n c l)))
  | SHARES => Some (number (λ n c l, Ok (make_shares n c l)))
  | CPUSET_CPUS => Some (listformat make_cpuset_cpus)
  | CPUSET_MEMS => Some (listformat make_cpuset_mems)
  | CPUSET_MEMORY_MIGRATE => Some (number (λ n c l, Ok (make_memory_migrate n c l)))
  | MIGRATE_PAGES => Some (number make_migrate_pages)
  | RDT =>
      match rdt with
      | None => None
      | Some (platform_sockets, info, rdt_groups) =>
          Some (λ raw container labels,
            match raw with
            | RawRDT a =>
                Ok (RdtV (mkRDTAllocationValue (ci_name container) a (ci_resgroup container)
                     (ci_get_pids container true) platform_sockets info rdt_groups labels None))
            | _ => Raise AssertionError
            end)
      end
  end.

(** src/wca/runners/allocation.py:58-75 [TaskAllocationsValues.create] *)
Definition TaskAllocationsValues_create (rdt : option (Z * RDTInformation * nat))
    (task_allocations : TaskAllocations) (container : ContainerInterface (world F))
    (common_labels : dict string string) : result TaskAllocationsValues :=
  foldM (λ simple_dict '(allocation_type, raw_value),
    match registry rdt allocation_type with
    | None => Raise InvalidAllocations
    | Some constructor =>
        allocation_value ← constructor raw_value container common_labels;
        Ok (dset simple_dict allocation_type allocation_value)
    end) [] task_allocations.

(** The containers of the runner: [Dict[Task, ContainerInterface]]. *)
Definition containers_t : Type := list (Task * ContainerInterface (world F)).

(** [RDTGroups(closids_limit=...)] *)
Definition new_rdt_groups (limit : Z) : M (world F) nat :=
  λ w, (Ok (length (w_rdt_groups w)),
        mkWorld (w_fs w) (w_rdt_groups w ++ [mkRDTGroups limit ∅ ∅])).

(** src/wca/runners/allocation.py:109-127 [TasksAllocationsValues.create], the shared groups *)
Definition create_rdt_groups (rdt_enabled : bool) (platform : Platform)
    : M (world F) (option (Z * RDTInformation * nat)) :=
  if rdt_enabled then
    info ← lift (or_raise AttributeError (rdt_information platform));
    limit ← lift (or_raise AssertionError (num_closids info));
    ref ← new_rdt_groups limit;
    mret (Some (sockets platform, info, ref))
  else mret None.

(** src/wca/runners/allocation.py:133-145 [TasksAllocationsValues.create], one task *)
Definition create_task_values (rdt_enabled : bool) (rdt : option (Z * RDTInformation * nat))
    (containers : containers_t) (simple_dict : TasksAllocationsValues)
    (ta : string * TaskAllocations) : M (world F) TasksAllocationsValues :=
  let '(id, task_allocations) := ta in
  let task_id_to_containers := dict_of ((λ tc, (task_id tc.1, tc.2)) <$> containers) in
  let task_id_to_labels := dict_of ((λ tc, (task_id tc.1, task_labels tc.1)) <$> containers) in
  match dget task_id_to_containers id with
  | None => raise InvalidAllocations
  | Some container =>
      _ ← lift (py_assert (Bool.eqb
             (match rdt_information (ci_platform container) with Some _ => true | None => false end)
             rdt_enabled));
      labels ← lift (dgetitem task_id_to_labels id);
      let extra_labels := dupdate [("container_name", ci_name container); ("task", id)] labels in
      allocation_value ← lift (TaskAllocationsValues_create rdt task_allocations container extra_labels);
      _ ← validate allocation_value;
      mret (dset simple_dict id allocation_value)
  end.

(** src/wca/runners/allocation.py:85-147 [TasksAllocationsValues.create] *)
Definition TasksAllocationsValues_create (rdt_enabled : bool)
    (tasks_allocations : TasksAllocations) (containers : containers_t) (platform : Platform)
    : M (world F) TasksAllocationsValues :=
  rdt ← create_rdt_groups rdt_enabled platform;
  foldMS (create_task_values rdt_enabled rdt containers) [] tasks_allocations.

(** src/wca/runners/allocation.py:150-162 [validate_shares_allocation_for_kubernetes] *)
Definition validate_shares_allocation_for_kubernetes (tasks : list Task)
    (allocations : TasksAllocations) : result unit :=
  if negb (have_tasks_qos_label tasks) then Ok tt
  else
    single ← are_all_tasks_of_single_qos tasks;
    if single : bool then Ok tt
    else if existsb (λ allocation, dmem allocation SHARES) (dvalues allocations)
    then Raise InvalidAllocations
    else Ok tt.

(** src/wca/runners/allocation.py:397-408 [_get_tasks_allocations] *)
Definition get_tasks_allocations (containers : containers_t) : M (world F) TasksAllocations :=
  foldMS (λ tasks_allocations '(task, container),
    try_except
      (a ← ci_get_allocations container; mret (dset tasks_allocations (task_id task) a))
      (λ e, match e with MissingAllocationException => Some (mret tasks_allocations) | _ => None end))
    [] containers.

(** src/wca/runners/allocation.py:437-442 [_update_tasks_data_with_allocations] *)
Definition update_tasks_data_with_allocations (tasks_data : TasksData)
    (current_allocations : TasksAllocations) : TasksData :=
  (λ '(task, data),
     (task, match dget current_allocations task with
            | Some a => mkTaskData (td_task data) (td_measurements data) (Some a)
            | None => data
            end)) <$> tasks_data.

(** src/wca/runners/allocation.py:411-427 [_get_allocations_statistics_metrics] *)
Definition get_allocations_statistics_metrics (allocations_count allocations_errors : Z)
    (allocation_duration : option num) : list Metric :=
  [counter_metric "allocations_count" (PInt allocations_count);
   counter_metric "allocations_errors" (PInt allocations_errors)] ++
  match allocation_duration with
  | Some d => [mkMetric "allocation_duration" (MNum d) [] None (Some GAUGE) None None]
  | None => []
  end.
End values.
Arguments TaskAllocationsValues F : clear implicits.
Arguments TasksAllocationsValues F : clear implicits.
Arguments containers_t F : clear implicits.

(** ** The runner *)

(** Attributes of the runner that change, and the world. *)
Record runner (F : Type) := mkRunner {
  rn_allocations_counter : Z;
  rn_allocations_errors : Z;
  rn_anomalies_statistics : AnomalyStatistics;
  rn_world : world F
}.
Arguments mkRunner {F} _ _ _ _.
Arguments rn_allocations_counter {F} _.
Arguments rn_allocations_errors {F} _.
Arguments rn_anomalies_statistics {F} _.
Arguments rn_world {F} _.

Definition on_world {F A} (m : M (world F) A) : M (runner F) A :=
  λ r, let '(x, w) := m (rn_world r) in
       (x, mkRunner (rn_allocations_counter r) (rn_allocations_errors r)
             (rn_anomalies_statistics r) w).

(** src/wca/allocators.py:127-133 [NOPAllocator.allocate] *)
Definition nop_allocate {W} (_ : Platform) (_ : TasksData)
    : M W (TasksAllocations * list ContentionAnomaly * list Metric) := mret ([], [], []).

Section initialize.
  Context {F : Type} `{FileSystem F}.

(** src/wca/runners/allocation.py:245-300 [AllocationRunner._initialize_rdt] *)
Definition initialize_rdt (platform : Platform) (conf : AllocationConfiguration)
    (rdt_cache_control_required rdt_mb_control_required remove_all_resctrl_groups : bool)
    : M F bool :=
  info ← lift (or_raise AttributeError (rdt_information platform));
  if rdt_cache_control_required && negb (rdt_cache_control_enabled info) then mret false
  else if rdt_mb_control_required && negb (rdt_mb_control_enabled info) then mret false
  else
    let '(l3, mb) := get_max_rdt_values (cbm_mask info) (sockets platform)
                       (rdt_mb_control_enabled info) (rdt_cache_control_enabled info) in
    let root_rdt_l3 := match default_rdt_l3 conf with
                       | Some d => if rdt_cache_control_enabled info then Some d else l3
                       | None => l3
                       end in
    let root_rdt_mb := match default_rdt_mb conf with
                       | Some d => if rdt_mb_control_enabled info then Some d else mb
                       | None => mb
                       end in
    try_except
      (_ ← lift match root_rdt_l3 with
                | Some l3 => validate_l3_string l3 (sockets platform) (cbm_mask info)
                               (min_cbm_bits info)
                | None => Ok tt
                end;
       mb ← lift match root_rdt_mb with
                 | Some mb => Some <$> normalize_mb_string mb (sockets platform)
                                         (mb_min_bandwidth info) (mb_bandwidth_gran info)
                 | None => Ok None
                 end;
       _ ← cleanup_resctrl root_rdt_l3 mb remove_all_resctrl_groups;
       mret true)
      (λ e, match e with InvalidAllocations => Some (mret false) | _ => None end).
End initialize.

Section iterate.
  Context {F : Type} `{FileSystem F} `{PyFloatRepr} `{Syscalls F}.
  (** the allocator callback, the two storages, the clock and the hash *)
  Context (allocate : Platform → TasksData →
                      M (world F) (TasksAllocations * list ContentionAnomaly * list Metric)).
  Context (store_anomalies store_allocations : list Metric → M (world F) unit).
  Context (now : M (world F) float).
  Context (uuid_of : string → string).

(** src/wca/runners/allocation.py:336-349 [AllocationRunner._iterate_body]
    The part of the [try] block that gives target and changeset. *)
Definition prepare_allocations (rdt_enabled : bool) (tasks : list Task) (managed : containers_t F)
    (platform : Platform) (new_allocations : TasksAllocations)
    (current_allocations_values : TasksAllocationsValues F)
    : M (world F) (TasksAllocationsValues F * option (TasksAllocationsValues F)) :=
  _ ← lift (validate_shares_allocation_for_kubernetes tasks new_allocations);
  new_allocations_values ←
    TasksAllocationsValues_create rdt_enabled new_allocations managed platform;
  _ ← validate new_allocations_values;
  lift (calculate_changeset (world F) new_allocations_values (Some current_allocations_values)).

(** [except InvalidAllocations] *)
Definition on_invalid {A} (m : M (world F) A) : M (world F) (option A) :=
  try_except (a ← m; mret (Some a))
    (λ e, match e with InvalidAllocations => Some (mret None) | _ => None end).

(** src/wca/runners/allocation.py:332-360 [AllocationRunner._iterate_body]
    Target, changeset and whether the new allocations were valid.  The
    changeset survives an error raised by the validation of the target. *)
Definition decide_allocations (rdt_enabled : bool) (tasks : list Task) (managed : containers_t F)
    (platform : Platform) (new_allocations : TasksAllocations)
    (current_allocations_values : TasksAllocationsValues F)
    : M (world F) (TasksAllocationsValues F * option (TasksAllocationsValues F) * bool) :=
  prepared ← on_invalid (prepare_allocations rdt_enabled tasks managed platform new_allocations
                           current_allocations_values);
  match prepared with
  | None => mret (current_allocations_values, None, false)
  | Some (target, changeset) =>
      validated ← on_invalid (validate target);
      match validated with
      | Some _ => mret (target, changeset, true)
      | None => mret (current_allocations_values, changeset, false)
      end
  end.

(** src/wca/storage.py:512-522 [MetricPackage.send] *)
Definition send_package (store : list Metric → M (world F) unit) (metrics : list Metric)
    (common_labels : dict string string) : M (world F) unit :=
  store ((λ m, label_metric m common_labels) <$> metrics).

Definition count_outcome (valid : bool) (n : nat) : M (runner F) unit :=
  modify (λ r,
    if valid then mkRunner (rn_allocations_counter r + Z.of_nat n) (rn_allocations_errors r)
                    (rn_anomalies_statistics r) (rn_world r)
    else mkRunner (rn_allocations_counter r) (rn_allocations_errors r + 1)
           (rn_anomalies_statistics r) (rn_world r)).

Definition set_statistics (st : AnomalyStatistics) : M (runner F) unit :=
  modify (λ r, mkRunner (rn_allocations_counter r) (rn_allocations_errors r) st (rn_world r)).

(** src/wca/runners/allocation.py:369-394 [AllocationRunner._iterate_body]
    Metrics of anomalies and allocations, labelled and stored. *)
Definition report (anomalies : list ContentionAnomaly) (extra_metrics : list Metric)
    (tasks_data : TasksData) (target : TasksAllocationsValues F) (allocate_duration : float)
    (common_labels : dict string string) : M (runner F) unit :=
  anomaly_metrics ← lift (convert_anomalies_to_metrics uuid_of anomalies tasks_data);
  anomaly_metrics ← lift (update_anomalies_metrics_with_task_information anomaly_metrics tasks_data);
  t ← on_world now;
  r ← get_state;
  let '(statistics, st) := anomaly_statistics_metrics t (rn_anomalies_statistics r) anomalies in
  _ ← set_statistics st;
  _ ← on_world (send_package store_anomalies (anomaly_metrics ++ extra_metrics ++ statistics)
                  common_labels);
  allocations_metrics ← lift (generate_metrics (world F) target);
  r ← get_state;
  on_world (send_package store_allocations
    (allocations_metrics ++ extra_metrics ++
     get_allocations_statistics_metrics (rn_allocations_counter r) (rn_allocations_errors r)
       (Some (PFloat allocate_duration))) common_labels).

(** src/wca/runners/allocation.py:302-394 [AllocationRunner._iterate_body] *)
Definition iterate_body (rdt_enabled : bool) (managed containers : containers_t F)
    (platform : Platform) (tasks_data : TasksData) (common_labels : dict string string)
    : M (runner F) unit :=
  current_allocations ← on_world (get_tasks_allocations containers);
  let tasks_data := update_tasks_data_with_allocations tasks_data current_allocations in
  allocate_start ← on_world now;
  answer ← on_world (allocate platform tasks_data);
  let '(new_allocations, anomalies, extra_metrics) := answer in
  allocate_end ← on_world now;
  current_allocations_values ← on_world
    (TasksAllocationsValues_create rdt_enabled current_allocations managed platform);
  decision ← on_world (decide_allocations rdt_enabled (fst <$> containers) managed platform
                         new_allocations current_allocations_values);
  let '(target, changeset, valid) := decision in
  _ ← count_outcome valid (length new_allocations);
  _ ← on_world match changeset with
               | Some c => perform_allocations c
               | None => mret tt
               end;
  report anomalies extra_metrics tasks_data target (fsub allocate_end allocate_start) common_labels.
End iterate.

(** ** Properties *)

(** [within (keeps w_fs) m]: [m] leaves the file system as it is, whatever its outcome. *)
Lemma keeps_with_rdt_groups {F A} ref (f : RDTGroups → result A * RDTGroups) :
  within (keeps w_fs) (with_rdt_groups (F := F) ref f).
Proof.
  intros w. unfold with_rdt_groups. destruct (w_rdt_groups w !! ref) as [g|]; [|done].
  by destruct (f g).
Qed.
#[export] Hint Resolve keeps_with_rdt_groups : wca.

Section validation_is_pure.
  Context {F : Type} `{FileSystem F} `{PyFloatRepr} `{Syscalls F}.

Lemma keeps_validate_value (v : alloc_value F) : within (keeps w_fs) (validate v).
Proof. destruct v as [a|a]; simpl; [|unfold rdt_validate]; within. Qed.
Hint Resolve keeps_validate_value : wca.

Lemma keeps_validate_task (d : TaskAllocationsValues F) : within (keeps w_fs) (validate d).
Proof. unfold validate; simpl. unfold dict_validate. within. Qed.
Hint Resolve keeps_validate_task : wca.

Lemma keeps_validate_tasks (d : TasksAllocationsValues F) : within (keeps w_fs) (validate d).
Proof. unfold validate; simpl. unfold dict_validate. within. Qed.
Hint Resolve keeps_validate_tasks : wca.

Lemma keeps_create rdt_enabled tas (containers : containers_t F) platform :
  within (keeps w_fs) (TasksAllocationsValues_create rdt_enabled tas containers platform).
Proof.
  assert (Hnew : ∀ limit, within (keeps w_fs) (new_rdt_groups (F := F) limit)) by (by intros limit w).
  unfold TasksAllocationsValues_create, create_rdt_groups. within.
  unfold create_task_values. within.
Qed.
Hint Resolve keeps_create : wca.

Lemma keeps_prepare rdt_enabled tasks (managed : containers_t F) platform new cur :
  within (keeps w_fs) (prepare_allocations rdt_enabled tasks managed platform new cur).
Proof. unfold prepare_allocations. within.
Qed.
Hint Resolve keeps_prepare : wca.

Lemma keeps_on_invalid {A} (m : M (world F) A) : within (keeps w_fs) m → within (keeps w_fs) (on_invalid m).
Proof.
  intros Hm. apply within_try; [typeclasses eauto|by within|]. intros e k. by destruct e; intros [= <-].
Qed.
Hint Resolve keeps_on_invalid : wca.

Lemma keeps_decide rdt_enabled tasks (managed : containers_t F) platform new cur :
  within (keeps w_fs) (decide_allocations rdt_enabled tasks managed platform new cur).
Proof. unfold decide_allocations. within. Qed.
End validation_is_pure.

Section iteration_spec.
  Context {F : Type} `{FileSystem F} `{PyFloatRepr} `{Syscalls F}.
  Context (allocate : Platform → TasksData →
                      M (world F) (TasksAllocations * list ContentionAnomaly * list Metric)).
  Context (store_anomalies store_allocations : list Metric → M (world F) unit).
  Context (now : M (world F) float).
  Context (uuid_of : string → string).

(** The steps of an iteration up to the boxed current allocations. *)
Definition callback_done rdt_enabled managed containers platform tasks_data (w w' : world F)
    new anomalies extra (cur : TasksAllocations) duration cv : Prop :=
  ∃ w1 w2 w3 w4 t0 t1,
    get_tasks_allocations containers w = (Ok cur, w1) ∧ now w1 = (Ok t0, w2) ∧
    allocate platform (update_tasks_data_with_allocations tasks_data cur) w2 =
      (Ok (new, anomalies, extra), w3) ∧
    now w3 = (Ok t1, w4) ∧ duration = fsub t1 t0 ∧
    TasksAllocationsValues_create rdt_enabled cur managed platform w4 = (Ok cv, w').

(** After the callback, an iteration decides, counts, performs the changeset and
    reports. *)
Lemma iterate_after_callback rdt_enabled managed containers platform tasks_data labels
    (r : runner F) w' new anomalies extra cur duration cv :
  callback_done rdt_enabled managed containers platform tasks_data (rn_world r) w'
    new anomalies extra cur duration cv →
  iterate_body allocate store_anomalies store_allocations now uuid_of rdt_enabled managed containers
    platform tasks_data labels r =
  (decision ← on_world (decide_allocations rdt_enabled (fst <$> containers) managed platform new cv);
   let '(target, changeset, valid) := decision in
   _ ← count_outcome valid (length new);
   _ ← on_world match changeset with Some c => perform_allocations c | None => mret tt end;
   report store_anomalies store_allocations now uuid_of anomalies extra
     (update_tasks_data_with_allocations tasks_data cur) target duration labels)
    (mkRunner (rn_allocations_counter r) (rn_allocations_errors r)
       (rn_anomalies_statistics r) w').
Proof.
  intros (w1 & w2 & w3 & w4 & t0 & t1 & H1' & H2' & H3' & H4' & -> & H5').
  unfold iterate_body, mbind at 1, M_bind at 1, on_world at 1. rewrite H1'.
  unfold mbind at 1, M_bind at 1, on_world at 1. cbn [rn_world]. rewrite H2'.
  unfold mbind at 1, M_bind at 1, on_world at 1. cbn [rn_world]. rewrite H3'.
  unfold mbind at 1, M_bind at 1, on_world at 1. cbn [rn_world]. rewrite H4'.
  unfold mbind at 1, M_bind at 1, on_world at 1. cbn [rn_world]. rewrite H5'.
  reflexivity.
Qed.

(** C2 (error): when the allocations of the allocator are invalid, the iteration
    performs none of them: validation leaves the file system untouched, the
    errors are counted by one and the successes not at all, and the metrics
    reported are those of the current allocations. *)
Theorem invalid_allocations_ignored rdt_enabled managed containers platform tasks_data labels
    (r : runner F) w' new anomalies extra cur duration cv w'' :
  callback_done rdt_enabled managed containers platform tasks_data (rn_world r) w'
    new anomalies extra cur duration cv →
  prepare_allocations rdt_enabled (fst <$> containers) managed platform new cv w' =
    (Raise InvalidAllocations, w'') →
  w_fs w'' = w_fs w' ∧
  iterate_body allocate store_anomalies store_allocations now uuid_of rdt_enabled managed containers
    platform tasks_data labels r =
  report store_anomalies store_allocations now uuid_of anomalies extra
    (update_tasks_data_with_allocations tasks_data cur) cv duration labels
    (mkRunner (rn_allocations_counter r) (rn_allocations_errors r + 1)
       (rn_anomalies_statistics r) w'').
Proof.
  intros Hcb Hprep. split.
  - pose proof (keeps_prepare rdt_enabled (fst <$> containers) managed platform new cv w') as Hk.
    by rewrite Hprep in Hk.
  - rewrite (iterate_after_callback _ _ _ _ _ _ _ _ _ _ _ _ _ _ Hcb).
    assert (Hd : decide_allocations rdt_enabled (fst <$> containers) managed platform new cv w' =
                 (Ok (cv, None, false), w'')).
    { unfold decide_allocations, on_invalid, mbind, M_bind, try_except. by rewrite Hprep. }
    unfold mbind at 1, M_bind at 1, on_world at 1. cbn [rn_world]. rewrite Hd. reflexivity.
Qed.

(** C1 (functional): when the allocations are valid, exactly the changeset is
    performed, nothing at all when there is none, the successes are counted and
    the metrics reported are those of the target; deciding alone never writes a
    file. *)
Theorem valid_allocations_performed rdt_enabled managed containers platform tasks_data labels
    (r : runner F) w' new anomalies extra cur duration cv target changeset w1 w2 :
  callback_done rdt_enabled managed containers platform tasks_data (rn_world r) w'
    new anomalies extra cur duration cv →
  prepare_allocations rdt_enabled (fst <$> containers) managed platform new cv w' =
    (Ok (target, changeset), w1) →
  validate target w1 = (Ok tt, w2) →
  w_fs w2 = w_fs w' ∧
  iterate_body allocate store_anomalies store_allocations now uuid_of rdt_enabled managed containers
    platform tasks_data labels r =
  (_ ← on_world match changeset with Some c => perform_allocations c | None => mret tt end;
   report store_anomalies store_allocations now uuid_of anomalies extra
     (update_tasks_data_with_allocations tasks_data cur) target duration labels)
    (mkRunner (rn_allocations_counter r + Z.of_nat (length new)) (rn_allocations_errors r)
       (rn_anomalies_statistics r) w2).
Proof.
  intros Hcb Hprep Hval. split.
  - pose proof (keeps_prepare rdt_enabled (fst <$> containers) managed platform new cv w') as Hk.
    rewrite Hprep in Hk. pose proof (keeps_validate_tasks target w1) as Hk'.
    rewrite Hval in Hk'. simpl in *. congruence.
  - rewrite (iterate_after_callback _ _ _ _ _ _ _ _ _ _ _ _ _ _ Hcb).
    assert (Hd : decide_allocations rdt_enabled (fst <$> containers) managed platform new cv w' =
                 (Ok (target, changeset, true), w2)).
    { unfold decide_allocations, on_invalid, mbind, M_bind, try_except. rewrite Hprep. simpl.
      unfold mbind, M_bind. cbn in Hval. by rewrite Hval. }
    unfold mbind at 1, M_bind at 1, on_world at 1. cbn [rn_world]. rewrite Hd. reflexivity.
Qed.
End iteration_spec.

Section changes.
  Context {F : Type} `{FileSystem F} `{PyFloatRepr} `{Syscalls F}.
  Implicit Types (new cur t : TasksAllocationsValues F).

(** C3 (invariant): allocations that have been merged into the target need no
    further change: computing the changeset of the same allocations against the
    target of the previous computation gives no changeset, for all kinds of
    allocations and over all tasks. *)
Theorem reapplied_allocations_no_change new cur t c :
  value_ok (W := world F) new →
  calculate_changeset (world F) new (Some cur) = Ok (t, c) →
  ∃ t', calculate_changeset (world F) new (Some t) = Ok (t', None).
Proof. apply changeset_stable. Qed.

(** C4 (functional): target and changeset are computed task by task: a task
    without new allocations keeps its current ones and is not in the changeset,
    a task without current ones is taken over entirely, and a task with both has
    the target and the change of its own allocations. *)
Theorem tasks_changeset_pointwise new cur t c :
  dict_wf new → calculate_changeset (world F) new (Some cur) = Ok (t, c) →
  ∀ id, match dget new id, dget cur id with
        | None, o => dget t id = o ∧ dget (default [] c) id = None
        | Some v, None => dget t id = Some v ∧ dget (default [] c) id = Some v
        | Some v, Some cv => ∃ tv vc,
            calculate_changeset (world F) v (Some cv) = Ok (tv, vc) ∧
            dget t id = Some tv ∧ dget (default [] c) id = vc
        end.
Proof.
  intros Hwf (cs & Hf & Hc)%dict_changeset_Ok id.
  pose proof (changeset_fold_spec _ _ _ _ _ _ Hwf Hf id) as Hid.
  assert (Hcs : dget (default [] c) id = dget cs id) by (subst c; by destruct cs).
  rewrite Hcs. unfold merged in Hid. destruct (dget new id) as [v|].
  - destruct Hid as (tv & vc & Hm & Ht & Hcs'). destruct (dget cur id) as [cv|].
    + exists tv, vc. split_and!; [done..|]. rewrite Hcs'. by destruct vc.
    + injection Hm as <- <-. done.
  - destruct Hid as [-> ->]. by destruct (dget cur id).
Qed.
End changes.

(** A malformed row raises [ValueError], which the iteration does not turn into
    an error of the allocations. *)
Definition value_bad_row {F} : RDTAllocationValue F :=
  mkRDTAllocationValue "t1" (mkRDTAllocation None (Some "L3:0=ff;") None) (mkResGroup "t1")
    (mret []) 1 info_gran10 0%nat [] None.

Lemma malformed_row_escapes {F} (w : world F) :
  on_invalid (rdt_validate value_bad_row) w = (Raise ValueError, w).
Proof. reflexivity. Qed.

(** ** A concrete iteration, for the witnesses *)
Section example.
#[local] Instance example_repr : PyFloatRepr := λ _, "0.0".
#[local] Instance example_syscalls : Syscalls memfs := λ _ _ _ _, mret 0.

Definition example_container : ContainerInterface (world memfs) :=
  mkContainerInterface "t1" example_cgroup [] (cgroup_get_pids example_cgroup) (mkResGroup "")
    (cgroup_get_allocations example_cgroup) example_platform.

Definition example_task : Task := mkTask "t1" "t1" "/t1" [] [] [].
Definition example_containers : containers_t memfs := [(example_task, example_container)].

Definition example_allocate (quota : num) (_ : Platform) (_ : TasksData)
    : M (world memfs) (TasksAllocations * list ContentionAnomaly * list Metric) :=
  mret ([("t1", [(QUOTA, RawNum quota)])], [], []).

Definition example_now : M (world memfs) float := mret fzero.
Definition example_store (_ : list Metric) : M (world memfs) unit := mret tt.
Definition example_runner : runner memfs :=
  mkRunner 0 0 (mkAnomalyStatistics None 0) (mkWorld example_fs []).

Definition example_current : TasksAllocations :=
  [("t1", [(QUOTA, RawNum QUOTA_NORMALIZED_MAX); (SHARES, RawNum (PFloat (float_of_ratio 1024 1000)));
           (CPUSET_CPUS, RawStr "0,1,2,3"); (CPUSET_MEMS, RawStr "0");
           (CPUSET_MEMORY_MIGRATE, RawNum (PInt 0))])].
Definition example_world : world memfs := mkWorld example_fs [].
Definition example_created : result (TasksAllocationsValues memfs) * world memfs :=
  TasksAllocationsValues_create false example_current example_containers example_platform example_world.
Definition example_values : TasksAllocationsValues memfs := result_get [] example_created.1.
Definition example_duration : float := fsub fzero fzero.

Lemma example_callback q :
  callback_done (example_allocate q) example_now false example_containers example_containers
    example_platform [] example_world example_created.2 [("t1", [(QUOTA, RawNum q)])] [] []
    example_current example_duration example_values.
Proof.
  exists example_world, example_world, example_world, example_world, fzero, fzero.
  split_and!; [vm_compute; reflexivity|reflexivity..|].
  apply outcome_Ok. vm_compute. reflexivity.
Qed.

Definition example_prepared (q : num)
    : result (TasksAllocationsValues memfs * option (TasksAllocationsValues memfs)) * world memfs :=
  prepare_allocations false [example_task] example_containers example_platform
    [("t1", [(QUOTA, RawNum q)])] example_values example_created.2.
Definition half : num := PFloat (float_of_ratio 1 2).
Definition example_target : TasksAllocationsValues memfs := (result_get ([], None) (example_prepared half).1).1.
Definition example_changeset : option (TasksAllocationsValues memfs) :=
  (result_get ([], None) (example_prepared half).1).2.
Definition example_validated : result unit * world memfs :=
  validate example_target (example_prepared half).2.

Lemma invalid_allocations_ignored_witness :
  w_fs (example_prepared (PInt 2)).2 = w_fs example_created.2 ∧
  iterate_body (example_allocate (PInt 2)) example_store example_store example_now id
    false example_containers example_containers example_platform [] [] example_runner =
  report example_store example_store example_now id [] []
     (update_tasks_data_with_allocations [] example_current) example_values example_duration []
    (mkRunner (rn_allocations_counter example_runner) (rn_allocations_errors example_runner + 1)
       (rn_anomalies_statistics example_runner) (example_prepared (PInt 2)).2).
Proof.
  apply (invalid_allocations_ignored (example_allocate (PInt 2)) example_store example_store
    example_now id false example_containers example_containers example_platform [] [] example_runner
    example_created.2 [("t1", [(QUOTA, RawNum (PInt 2))])] [] [] example_current example_duration
    example_values (example_prepared (PInt 2)).2).
  - apply example_callback.
  - apply outcome_is. vm_compute. reflexivity.
Defined.

Lemma valid_allocations_performed_witness :
  w_fs example_validated.2 = w_fs example_created.2 ∧
  iterate_body (example_allocate half) example_store example_store example_now id
    false example_containers example_containers example_platform [] [] example_runner =
  (_ ← on_world match example_changeset with Some c => perform_allocations c | None => mret tt end;
   report example_store example_store example_now id [] []
     (update_tasks_data_with_allocations [] example_current) example_target example_duration [])
    (mkRunner (rn_allocations_counter example_runner + Z.of_nat (length [("t1", [(QUOTA, RawNum half)])]))
       (rn_allocations_errors example_runner) (rn_anomalies_statistics example_runner)
       example_validated.2).
Proof.
  apply (valid_allocations_performed (example_allocate half) example_store example_store
    example_now id false example_containers example_containers example_platform [] [] example_runner
    example_created.2 [("t1", [(QUOTA, RawNum half)])] [] [] example_current example_duration example_values example_target
    example_changeset (example_prepared half).2 example_validated.2).
  - apply example_callback.
  - apply outcome_Ok_pair. vm_compute. reflexivity.
  - apply outcome_is. vm_compute. reflexivity.
Defined.

(** The iteration with a share of one half writes the quota 0.5 * 1000 * 4 CPUs. *)
Example example_iteration_writes :
  fs_read "/sys/fs/cgroup/cpu/t1/cpu.cfs_quota_us"
    (rn_world (iterate_body (example_allocate half) example_store example_store example_now id
       false example_containers example_containers example_platform [] [] example_runner).2) =
  Ok "2000".
Proof. vm_compute. reflexivity. Qed.


Definition example_new : TasksAllocationsValues memfs :=
  [("t1", [(QUOTA, CgroupV (make_quota half example_container []))])].
Definition example_changes
    : result (TasksAllocationsValues memfs * option (TasksAllocationsValues memfs)) :=
  calculate_changeset (world memfs) example_new (Some example_values).

Lemma singleton_dict_ok {K W V} `{EqDecision K} `{AllocationValueLaws W V} (k : K) (v : V) :
  value_ok v → dict_ok [(k, v)].
Proof.
  intros Hv. split; [apply NoDup_singleton|]. intros k' v'. cbn [dget].
  by case_decide; [intros [= <-]|].
Qed.

Lemma reapplied_allocations_no_change_witness :
  ∃ t', calculate_changeset (world memfs) example_new
          (Some (result_get ([], None) example_changes).1) = Ok (t', None).
Proof.
  apply (reapplied_allocations_no_change example_new example_values _
           (result_get ([], None) example_changes).2).
  - apply singleton_dict_ok, singleton_dict_ok. intros b [= <-]. vm_compute. eauto.
  - apply result_Ok_pair. vm_compute. reflexivity.
Defined.

Lemma tasks_changeset_pointwise_witness :
  match dget example_new "t1", dget example_values "t1" with
  | None, o => dget (result_get ([], None) example_changes).1 "t1" = o ∧
               dget (default [] (result_get ([], None) example_changes).2) "t1" = None
  | Some v, None => dget (result_get ([], None) example_changes).1 "t1" = Some v ∧
                    dget (default [] (result_get ([], None) example_changes).2) "t1" = Some v
  | Some v, Some cv => ∃ tv vc,
      calculate_changeset (world memfs) v (Some cv) = Ok (tv, vc) ∧
      dget (result_get ([], None) example_changes).1 "t1" = Some tv ∧
      dget (default [] (result_get ([], None) example_changes).2) "t1" = vc
  end.
Proof.
  apply (tasks_changeset_pointwise example_new example_values
           (result_get ([], None) example_changes).1 (result_get ([], None) example_changes).2).
  - apply NoDup_singleton.
  - apply result_Ok_pair. vm_compute. reflexivity.
Defined.
End example.
