(* ===== verification/Agent.v ===== *)
(** * The agent with allocations

    [src/wca/runners/allocation.py] on top of [src/wca/runners/measurement.py]: the
    allocation runner registers two callbacks with the measurement runner, which calls
    them at the start and in every iteration.  Both work on one state: the runner of
    measurements with its containers, the counters of the allocation runner and the
    machine. *)
From S2P Require Export RunnerLoop AllocationRunner Detection.

(** ** The machine below the allocation runner *)
#[export] Instance runner_fs {F} `{FileSystem F} : FileSystem (runner F) := {
  fs_read path r := fs_read path (rn_world r);
  fs_listdir path r := fs_listdir path (rn_world r);
  fs_isdir path r := fs_isdir path (rn_world r);
  fs_exists path r := fs_exists path (rn_world r);
  fs_open_w path := on_world (fs_open_w path);
  fs_append path data := on_world (fs_append path data);
  fs_close path := on_world (fs_close path);
  fs_makedirs path := on_world (fs_makedirs path);
  fs_rmdir path := on_world (fs_rmdir path)
}.
#[export] Instance runner_perf {F} `{PerfBackend (world F)} : PerfBackend (runner F) := {
  perf_open path names aggregate := on_world (perf_open path names aggregate);
  perf_get_measurements h := on_world (perf_get_measurements h);
  perf_cleanup h := on_world (perf_cleanup h)
}.
#[export] Instance runner_kernel {F} `{PerfKernel (world F)} : PerfKernel (runner F) := {
  sys_perf_event_open attr pid cpu group flags := on_world (sys_perf_event_open attr pid cpu group flags);
  sys_ioctl fd request := on_world (sys_ioctl fd request);
  sys_open_dir path := on_world (sys_open_dir path);
  sys_close fd := on_world (sys_close fd);
  sys_read_longs fd := on_world (sys_read_longs fd)
}.
#[export] Instance runner_process {F} `{Process (world F)} : Process (runner F) := {
  sys_geteuid := on_world sys_geteuid;
  sys_capget := on_world sys_capget;
  sys_prctl option := on_world (sys_prctl option)
}.

(** ** The callbacks *)
Section callbacks.
  Context {F : Type} `{FileSystem F} `{PyFloatRepr} `{Syscalls F}.
  Context (allocate : Platform → TasksData →
                      M (world F) (TasksAllocations * list ContentionAnomaly * list Metric)).
  Context (store_anomalies store_allocations : list Metric → M (world F) unit).
  Context (now : M (world F) float) (uuid_of : string → string).

(** src/wca/containers.py:176-205 [ContainerSet.get_subcgroups, get_pids, get_name, get_cgroup]
    A container as the allocations see it.  Without RDT no allocation asks for the
    resctrl group. *)
Definition container_interface (cfg : ContainerConfig) (c : container) : ContainerInterface (world F) :=
  mkContainerInterface (container_name c) (container_cgroup c) (get_subcgroups c) (get_pids c)
    (default (mkResGroup "") (container_resgroup c)) (container_get_allocations cfg c) (cc_platform cfg).

Definition interfaces (cfg : ContainerConfig) (d : by_task container) : containers_t F :=
  (λ tc, (tc.1, container_interface cfg tc.2)) <$> d.

(** src/wca/runners/allocation.py:302-394 [AllocationRunner._iterate_body], called with
    the containers of the manager of the measurement runner *)
Definition agent_body (init : Initialized) (containers : by_task container) (platform : Platform)
    (tasks_data : TasksData) (common_labels : dict string string)
    : M (rstate (W := runner F)) TasksData :=
  managed ← rget rs_containers;
  _ ← on_machine_r (iterate_body allocate store_anomalies store_allocations now uuid_of
        (in_rdt_enabled init) (interfaces (in_config init) managed) (interfaces (in_config init) containers)
        platform tasks_data common_labels);
  mret tasks_data.

(** src/wca/runners/allocation.py:245-300 [AllocationRunner._initialize_rdt]
    The platform is collected again. *)
Definition agent_initialize_rdt `{Md : Metadata} (the_environment : M (world F) environment) (conf : AllocationConfiguration)
    (cache_required mb_required remove_all : bool) : M (rstate (W := runner F)) bool :=
  p ← platform_information (on_world now) (on_world the_environment) true (Some false) None;
  on_machine_r (initialize_rdt p.1.1 conf cache_required mb_required remove_all).

(** src/wca/runners/allocation.py:206-221 [AllocationRunner.__init__], the configuration *)
Definition with_allocation_configuration (rc : RunnerConfig) : RunnerConfig :=
  mkRunnerConfig (rc_interval rc) (rc_gather_hw_mm_topology rc) (rc_extra_labels rc) (rc_event_names rc)
    (rc_perf_aggregate_cpus rc) (rc_enable_derived_metrics rc) (rc_uncore_events rc)
    (rc_task_label_generators rc)
    (Some (default default_AllocationConfiguration (rc_allocation_configuration rc)))
    (rc_wss rc) (rc_zoneinfo rc) (rc_vmstat rc) (rc_sched rc).

(** src/wca/runners/allocation.py:227-232 [AllocationRunner.__init__], the counters *)
Definition new_allocation_runner (w : world F) : runner F := mkRunner 0 0 no_statistics w.
End callbacks.

(** src/wca/runners/allocation.py:239-243 [AllocationRunner.run]
    The measurement runner with both callbacks. *)
Definition agent_run {F} `{FileSystem F} `{PyFloatRepr} `{Syscalls F} `{PerfBackend (world F)}
    `{PerfKernel (world F)} `{Process (world F)}
    (allocate : Platform → TasksData → M (world F) (TasksAllocations * list ContentionAnomaly * list Metric))
    (store_anomalies store_allocations store_metrics : list Metric → M (world F) unit)
    (now : M (world F) float) (uuid_of : string → string) (sleep : float → M (world F) unit)
    (node_get_tasks : M (world F) (list Task)) (the_environment : M (world F) environment)
    (check_output : string → M (world F) string) (rusage : M (world F) (Z * Z))
    (logging_metrics : M (world F) (list Metric)) (set_order : list string → list string)
    (set_order_Z : list Z → list Z) (rc : RunnerConfig) (rdt_enabled : option bool)
    (cache_required mb_required remove_all : bool) (n : nat) : M (rstate (W := runner F)) (option Z) :=
  let rc := with_allocation_configuration rc in
  allocation_run (measurement_run (on_world now) (λ t, on_world (sleep t)) (on_world node_get_tasks)
    (λ ms, on_world (store_metrics ms)) (on_world the_environment) (on_world (get_ipmctl check_output)) (on_world rusage)
    (on_world logging_metrics) set_order set_order_Z rc rdt_enabled
    (Some (agent_initialize_rdt (Md := config_metadata rc) now the_environment
             (default default_AllocationConfiguration (rc_allocation_configuration rc))
             cache_required mb_required remove_all))
    (λ init, Some (agent_body allocate store_anomalies store_allocations now uuid_of init)) n).

(** ** Properties *)
Section agent_spec.
  Context {F : Type} `{FileSystem F} `{PyFloatRepr} `{Syscalls F} `{PerfBackend (world F)}
    `{PerfKernel (world F)} `{Process (world F)}.
  Context (allocate : Platform → TasksData →
                      M (world F) (TasksAllocations * list ContentionAnomaly * list Metric)).
  Context (store_anomalies store_allocations store_metrics : list Metric → M (world F) unit).
  Context (now : M (world F) float) (uuid_of : string → string) (sleep : float → M (world F) unit).
  Context (node_get_tasks : M (world F) (list Task)) (the_environment : M (world F) environment).
  Context (check_output : string → M (world F) string) (rusage : M (world F) (Z * Z)).
  Context (logging_metrics : M (world F) (list Metric)).
  Context (set_order : list string → list string) (set_order_Z : list Z → list Z).

Lemma on_world_Ok {A} (m : M (world F) A) r a r' :
  on_world m r = (Ok a, r') → ∃ w', m (rn_world r) = (Ok a, w') ∧ rn_world r' = w'.
Proof. unfold on_world. destruct (m (rn_world r)) as [x w']. intros [= -> <-]. by exists w'. Qed.

Lemma agent_body_watch init containers p data labels :
  within same_watch (agent_body allocate store_anomalies store_allocations now uuid_of init containers p data labels).
Proof. unfold agent_body. within. Qed.

Lemma agent_initialize_rdt_watch `{Md : Metadata} conf cache mb remove_all :
  within same_watch (agent_initialize_rdt now the_environment conf cache mb remove_all).
Proof.
  pose proof (platform_information_watch (on_world now) (on_world the_environment)) as Hp.
  unfold agent_initialize_rdt. within.
Qed.

(** What [run_watches] says of the parts of a run of the agent. *)
Definition agent_run_watches rc rdt_enabled cache mb remove_all n :
    rstate (W := runner F) → Z → rstate (W := runner F) → Prop :=
  let rc := with_allocation_configuration rc in
  run_watches (on_world now) (λ t, on_world (sleep t)) (on_world node_get_tasks)
    (λ ms, on_world (store_metrics ms)) (on_world the_environment) (on_world (get_ipmctl check_output)) (on_world rusage)
    (on_world logging_metrics) set_order set_order_Z rc rdt_enabled
    (Some (agent_initialize_rdt (Md := config_metadata rc) now the_environment
             (default default_AllocationConfiguration (rc_allocation_configuration rc))
             cache mb remove_all))
    (λ init, Some (agent_body allocate store_anomalies store_allocations now uuid_of init)) n.

(** C21 (invariant): suppose that the node lists tasks with different ids and different cgroup
    paths, as the code assumes, and that no container is watched yet. A run of the agent with
    allocations that ends without an exception first initializes; when this fails the run ends
    there, with code 1 and no container watched; otherwise it makes n + 1 iterations from the
    state the initialization leaves, and after the clean-up that follows the last of them the
    containers are exactly those of the tasks this last iteration has listed: one for each
    task, at its path, with its subcontainers and in its control group; when the tasks could
    not be listed the containers are those from before this iteration. Neither the allocations
    that are performed nor the measurements in between change what is watched. *)
Theorem agent_run_watches_tasks rc rdt_enabled cache mb remove_all n (st : rstate (W := runner F)) r st' :
  (∀ w tasks w', node_get_tasks w = (Ok tasks, w') → tasks_ok tasks) →
  rs_containers st.1 = [] →
  agent_run allocate store_anomalies store_allocations store_metrics now uuid_of sleep node_get_tasks
    the_environment check_output rusage logging_metrics set_order set_order_Z rc rdt_enabled cache mb remove_all n st
    = (Ok r, st') →
  r = None ∧ ∃ code, agent_run_watches rc rdt_enabled cache mb remove_all n st code st'.
Proof.
  intros Hnode Hempty Hrun. unfold agent_run, allocation_run in Hrun.
  apply M_bind_Ok_iff in Hrun as (code & st2 & Hrun & Hr). apply M_ret_Ok_iff in Hr as [<- ->].
  split; [done|]. exists code. apply measurement_run_watches in Hrun; [done|..|done].
  - intros m [= <-]. apply agent_initialize_rdt_watch.
  - intros init f [= <-] c p d l. apply agent_body_watch.
  - intros w tasks w' Hl. apply on_world_Ok in Hl as (w2 & Hl & _). by eapply Hnode.
Qed.

(** With RDT switched off by the configuration although the kernel has it, the containers
    still have a platform with RDT, and boxing the allocations of any task fails an
    assertion: every iteration with a task ends the agent. *)
Lemma disabled_rdt_asserts cfg info d id allocations rest platform (w : world F) :
  rdt_information (cc_platform cfg) = Some info → NoDup (tids d) → id ∈ tids d →
  TasksAllocationsValues_create false ((id, allocations) :: rest) (interfaces cfg d) platform w =
    (Raise AssertionError, w).
Proof.
  intros Hinfo Hnd Hid. unfold TasksAllocationsValues_create, mbind, M_bind. cbn [create_rdt_groups mret M_ret foldMS].
  unfold mbind, M_bind, create_task_values.
  set (items := fmap (M:=list) (λ tc : Task * ContainerInterface (world F), (task_id tc.1, tc.2)) (interfaces cfg d)).
  assert (Hkeys : items.*1 = tids d).
  { unfold items, tids, interfaces. by rewrite <-!list_fmap_compose. }
  rewrite dict_of_NoDup by (unfold dict_wf, dkeys; by rewrite Hkeys).
  destruct (dget _ id) as [c|] eqn:E.
  - apply dget_Some_in, list_elem_of_fmap in E as ([t ci] & [= _ ->] & Hin).
    unfold interfaces in Hin. apply list_elem_of_fmap in Hin as ([t0 c0] & [= _ ->] & _).
    unfold lift, mbind, M_bind. cbn. by rewrite Hinfo.
  - exfalso. apply dget_None in E. unfold dkeys in E. by rewrite Hkeys in E.
Qed.
End agent_spec.

(** ** A concrete run

    A machine with four processors, one task in the cgroup [/t1], and an allocator that
    asks for half of the processors in every iteration. *)
Section example.
#[local] Instance example_repr : PyFloatRepr := λ _, "0.0".
#[local] Instance example_syscalls : Syscalls memfs := λ _ _ _ _, mret 0.
#[local] Instance example_perf : PerfBackend (world memfs) := {
  perf_open _ _ _ := mret 0%nat; perf_get_measurements _ := mret []; perf_cleanup _ := mret tt
}.
#[local] Instance example_kernel : PerfKernel (world memfs) := {
  sys_perf_event_open _ _ _ _ _ := mret 3; sys_ioctl _ _ := mret 0; sys_open_dir _ := mret 4;
  sys_close _ := mret tt; sys_read_longs _ := mret []
}.
#[local] Instance example_process : Process (world memfs) := {
  sys_geteuid := mret 0; sys_capget := mret (0, 0); sys_prctl _ := mret 0
}.

Definition lines (l : list string) : string := str_join (String newline "") l.
Definition tab (a b : string) : string := a +:+ String (ascii_of_nat 9) ": " +:+ b.
Definition example_processor (id : Z) : string :=
  lines [tab "processor" (str_of_Z id); tab "physical id" "0"; tab "core id" (str_of_Z (id / 2));
         tab "model name" "cpu"; tab "model" "85"; tab "stepping" "4"].

Definition example_proc : gmap string string := list_to_map
  [("/proc/cpuinfo", str_join (String newline (String newline "")) (example_processor <$> [0; 1; 2; 3]));
   ("/proc/stat", lines ["cpu  4 0 0 0 0 0 0 0 0 0"; "cpu0 1 0 0 0 0 0 0 0 0 0"; "cpu1 1 0 0 0 0 0 0 0 0 0";
                         "cpu2 1 0 0 0 0 0 0 0 0 0"; "cpu3 1 0 0 0 0 0 0 0 0 0"; "ctxt 1"]);
   ("/proc/meminfo", lines ["MemTotal: 1000 kB"; "MemFree: 500 kB"; "Buffers: 10 kB"; "Cached: 10 kB"; "SwapTotal: 0 kB"]);
   ("/proc/vmstat", lines ["numa_pages_migrated 0"; "pgfault 7"]);
   ("/sys/devices/system/node/node0/meminfo", lines ["Node 0 MemFree: 500 kB"; "Node 0 MemUsed: 500 kB"]);
   ("/sys/devices/system/node/node0/cpulist", "0-3"); ("/sys/devices/system/node/node0/distance", "10")].

Definition example_machine : memfs :=
  mkMem (mem_files example_fs ∪ example_proc)
    ({["/sys/devices/system/node"; "/sys/devices/system/node/node0"]} ∪ mem_dirs example_fs).

Definition example_environment : environment :=
  mkEnv fzero "host" "1.0" (Raise FileNotFoundError) (Raise FileNotFoundError).
Definition example_runner_config : RunnerConfig :=
  mkRunnerConfig (PFloat (f64 1)) (Some false) [] [] true false [] [] None (mkWSSConfig 5 None 0 None) None None SchedOff.

(** No command is installed. *)
Definition no_command (_ : string) : M (world memfs) string := raise FileNotFoundError.

Definition example_agent (quota : num) (n : nat) : M (rstate (W := runner memfs)) (option Z) :=
  agent_run (AllocationRunner.example_allocate quota) AllocationRunner.example_store
    AllocationRunner.example_store AllocationRunner.example_store AllocationRunner.example_now id
    (λ _, mret tt) (mret [AllocationRunner.example_task]) (mret example_environment) no_command (mret (0, 0)) (mret [])
    (λ l, l) (λ l, l) example_runner_config None false false false n.

Definition example_start : rstate (W := runner memfs) :=
  (new_runner fzero (mkStatic false []) (mkProfiler [] [] []), new_allocation_runner (mkWorld example_machine [])).
Definition example_outcome (quota : num) (n : nat) := example_agent quota n example_start.

Lemma example_tasks_ok (w : world memfs) tasks w' :
  (mret [AllocationRunner.example_task] : M (world memfs) (list Task)) w = (Ok tasks, w') → tasks_ok tasks.
Proof. intros [<- _]%M_ret_Ok_iff. split; apply NoDup_singleton. Qed.

Lemma agent_run_watches_tasks_witness :
  let st' := (example_outcome AllocationRunner.half 2).2 in
  task_id ∘ fst <$> rs_containers st'.1 = ["t1"] ∧
  ∃ code, agent_run_watches (AllocationRunner.example_allocate AllocationRunner.half)
    AllocationRunner.example_store AllocationRunner.example_store AllocationRunner.example_store
    AllocationRunner.example_now id (λ _, mret tt) (mret [AllocationRunner.example_task]) (mret example_environment)
    no_command (mret (0, 0)) (mret []) (λ l, l) (λ l, l) example_runner_config None false false false 2
    example_start code st'.
Proof.
  intros st'. split; [vm_compute; reflexivity|].
  apply (agent_run_watches_tasks (AllocationRunner.example_allocate AllocationRunner.half)
    AllocationRunner.example_store AllocationRunner.example_store AllocationRunner.example_store
    AllocationRunner.example_now id (λ _, mret tt) (mret [AllocationRunner.example_task]) (mret example_environment)
    no_command (mret (0, 0)) (mret []) (λ l, l) (λ l, l) example_runner_config None false false false 2
    example_start None st').
  - apply example_tasks_ok.
  - reflexivity.
  - change (example_outcome AllocationRunner.half 2 = (Ok None, (example_outcome AllocationRunner.half 2).2)).
    apply outcome_is. vm_compute. reflexivity.
Defined.

(** Three iterations: the task is watched, its quota is half of 4 * 1000 microseconds, and
    every iteration has counted the allocation and been profiled. *)
Example example_agent_run :
  let st := (example_outcome AllocationRunner.half 2).2 in
  (task_id ∘ fst <$> rs_containers st.1, rn_allocations_counter st.2, rn_allocations_errors st.2,
   fs_read "/sys/fs/cgroup/cpu/t1/cpu.cfs_quota_us" st.2, pr_call_counts (rs_profiler st.1)) =
  (["t1"], 3, 0, Ok "2000",
   [("collect_platform_information", 4); ("sync_containers_state", 3); ("prepare_tasks_data", 3);
    ("sleep", 3); ("iteration", 3)]).
Proof. vm_compute. reflexivity. Qed.

(** A tenth of four processors is below the smallest quota: one quarter is what is read
    back, and as that is another value, the quota is written again in every iteration. *)
Example small_quota_never_settles :
  let container := AllocationRunner.example_container in
  let v := make_quota (PFloat (float_of_ratio 1 10)) container [] in
  let w := (cgroup_value_perform v AllocationRunner.example_world).2 in
  (fs_read "/sys/fs/cgroup/cpu/t1/cpu.cfs_quota_us" w, (get_normalized_quota (ci_cgroup container) w).1) =
    (Ok "1000", Ok (PFloat (float_of_ratio 1 4))) ∧
  cgroup_value_changeset v (Some (make_quota (PFloat (float_of_ratio 1 4)) container [])) = Ok (v, Some v).
Proof. vm_compute. done. Qed.
End example.
