(* ===== verification/SchedBase.v ===== *)
(** * The scheduler: resources and the common algorithm

    [src/wca/scheduler/types.py], [utils.py], [metrics.py] and
    [algorithms/base.py]: arithmetic on resource dictionaries, the registry of
    scheduler metrics, and filtering and prioritising nodes with the callbacks of
    a concrete algorithm.

    Python iterates over sets of resource types in an order of its own: it is the
    argument [set_order] of the operations where it shows. *)
From S2P Require Export PyStr PyDict PyNum Metrics Json.

(** ** Types *)

(** src/wca/scheduler/types.py:79-91 [ResourceType] *)
Inductive ResourceType := MEM | CPU | MEMBW_WRITE | MEMBW_READ | WSS | MEMBW | MEMBW_FLAT.
#[export] Instance ResourceType_eq : EqDecision ResourceType.
Proof. solve_decision. Defined.
Definition ResourceType_value (r : ResourceType) : string :=
  match r with
  | MEM => "mem" | CPU => "cpu" | MEMBW_WRITE => "membw_write" | MEMBW_READ => "membw_read"
  | WSS => "wss" | MEMBW => "membw" | MEMBW_FLAT => "membw_flat"
  end.

(** src/wca/scheduler/types.py:103-106 [Apps, AppsCount, Resources, NodeCapacities] *)
Definition Resources : Type := dict ResourceType num.
Definition Apps : Type := dict string (list string).
Definition AppsCount : Type := dict string Z.
Definition NodeCapacities : Type := dict string Resources.

(** src/wca/scheduler/types.py:63-68 [ExtenderArgs] *)
Record ExtenderArgs := mkExtenderArgs { ea_Pod : json; ea_NodeNames : list string }.

(** Why a node was refused: the message of the result, in structured form. *)
#[warnings="-register-all"]
Inductive failure :=
  | MissingCapacity (broken : Resources)
  | NotSpecified | CountReached | DramHitRatio | NotBestClass
  | FailText (causes : list failure).

(** src/wca/scheduler/types.py:36-49 [ExtenderFilterResult] *)
Record ExtenderFilterResult := mkExtenderFilterResult {
  efr_NodeNames : list string;
  efr_FailedNodes : dict string failure
}.

(** src/wca/scheduler/types.py:53-60 [HostPriority] *)
Record HostPriority := mkHostPriority { hp_Host : string; hp_Score : Z }.

(** src/wca/scheduler/utils.py:20-28 [extract_common_input] *)
Definition extract_common_input (a : ExtenderArgs)
    : result (json * list string * json * json) :=
  let nodes := ea_NodeNames a in
  metadata ← jget (ea_Pod a) "metadata" (JObj []);
  labels ← jget metadata "labels" (JObj []);
  name ← jget metadata "name" (JStr "");
  namespace ← jget metadata "namespace" (JStr "");
  app ← jget labels "app" JNull;
  Ok (app, nodes, namespace, name).

(** A look-up by application: only strings are keys. *)
Definition app_key (app : json) : result string :=
  match app with JStr s => Ok s | JList _ | JObj _ => Raise TypeError | _ => Raise KeyError end.

(** ** Metrics of the scheduler *)

(** [d1 == d2] on dictionaries: the order does not matter. *)
Definition dict_eqb {K V} `{EqDecision K} `{EqDecision V} (d1 d2 : dict K V) : bool :=
  Nat.eqb (length d1) (length d2) &&
  forallb (λ kv, bool_decide (dget d2 kv.1 = Some kv.2)) d1.

(** src/wca/scheduler/metrics.py:55-58 [MetricRegistry] *)
Definition MetricRegistry : Type := dict string (list Metric).

(** src/wca/scheduler/metrics.py:48-52 [check_metric_metadata] *)
Definition check_metric_metadata (first second : Metric) : result unit :=
  _ ← py_assert (bool_decide (m_help first = m_help second));
  _ ← py_assert (bool_decide (m_unit first = m_unit second));
  _ ← py_assert (bool_decide (m_type first = m_type second));
  py_assert (bool_decide (m_granularity first = m_granularity second)).

Definition with_value (m : Metric) (v : mval) : Metric :=
  mkMetric (m_name m) v (m_labels m) (m_unit m) (m_type m) (m_help m) (m_granularity m).

Definition mval_add (a b : mval) : result mval :=
  match a, b with MNum x, MNum y => MNum <$> nadd x y | _, _ => Raise TypeError end.

(** src/wca/scheduler/metrics.py:70-83 [MetricRegistry.add], one registered metric *)
Definition update_registered (metric registered : Metric) : result Metric :=
  if dict_eqb (m_labels registered) (m_labels metric) then
    _ ← check_metric_metadata registered metric;
    match m_type metric with
    | Some GAUGE => Ok (with_value registered (m_value metric))
    | Some COUNTER => v ← mval_add (m_value registered) (m_value metric);
                      Ok (with_value registered v)
    | None => Ok registered
    end
  else Ok registered.

(** src/wca/scheduler/metrics.py:64-91 [MetricRegistry.add] *)
Definition registry_add (storage : MetricRegistry) (metric : Metric) : result MetricRegistry :=
  match dget storage (m_name metric) with
  | None => Ok (dset storage (m_name metric) [metric])
  | Some registered =>
      updated ← mapM (update_registered metric) registered;
      let metric_already_here :=
        existsb (λ r, dict_eqb (m_labels r) (m_labels metric)) registered in
      Ok (dset storage (m_name metric)
            (if metric_already_here then updated else updated ++ [metric]))
  end.

(** src/wca/scheduler/metrics.py:60-62 [MetricRegistry.extend] *)
Definition registry_extend (storage : MetricRegistry) (metrics : list Metric)
    : result MetricRegistry :=
  foldM registry_add storage metrics.

(** src/wca/scheduler/metrics.py:104-105 [MetricRegistry.get_names] *)
Definition registry_get_names (set_order : list string → list string) (storage : MetricRegistry)
    : list string := set_order (py_set (dkeys storage)).

Definition sched_gauge (name : string) (value : num) (labels : dict string string) : Metric :=
  mkMetric name (MNum value) labels None (Some GAUGE) None None.

(** src/wca/scheduler/metrics.py:23-42 [MetricName] *)
Definition sched_metric (suffix : string) : string := "wca_scheduler_" +:+ suffix.

(** ** Resource arithmetic *)

(** src/wca/scheduler/algorithms/base.py:164-173 [used_resources_on_node] *)
Definition used_resources_on_node (dimensions : list ResourceType)
    (assigned_apps_counts : AppsCount) (apps_spec : dict string Resources) : result Resources :=
  let used := dict_of ((λ dim, (dim, PInt 0)) <$> dimensions) in
  foldM (λ used '(app, count),
    foldM (λ used dim,
      cur ← dgetitem used dim;
      spec ← dgetitem apps_spec app;
      v ← dgetitem spec dim;
      x ← nmul v (PInt count);
      y ← nadd cur x;
      Ok (dset used dim y)) used dimensions) used assigned_apps_counts.

Definition same_keys (a b : Resources) : bool :=
  forallb (dmem b) (dkeys a) && forallb (dmem a) (dkeys b).

(** src/wca/scheduler/algorithms/base.py:176-180 [_check_keys] *)
Definition check_keys (a b : Resources) : result unit :=
  if same_keys a b then Ok tt else Raise ValueError.

(** src/wca/scheduler/algorithms/base.py:183-188 [sum_resources] *)
Definition sum_resources (a b : Resources) : result Resources :=
  _ ← check_keys a b;
  foldM (λ c '(resource, x), y ← dgetitem b resource; s ← nadd x y; Ok (dset c resource s)) [] a.

Definition is_membw_rw (r : ResourceType) : bool :=
  match r with MEMBW_READ | MEMBW_WRITE => true | _ => false end.

(** src/wca/scheduler/algorithms/base.py:191-209 [subtract_resources] *)
Definition subtract_resources (a b : Resources) (membw_read_write_ratio : option float)
    : result Resources :=
  _ ← check_keys a b;
  c ← foldM (λ c '(dimension, x),
        if negb (is_membw_rw dimension) ||
           match membw_read_write_ratio with None => true | Some _ => false end
        then y ← dgetitem b dimension; d ← nsub x y; Ok (dset c dimension d)
        else Ok c) a a;
  match membw_read_write_ratio with
  | Some ratio =>
      if dmem a MEMBW_READ then
        _ ← py_assert (dmem a MEMBW_WRITE);
        ar ← dgetitem a MEMBW_READ; aw ← dgetitem a MEMBW_WRITE;
        br ← dgetitem b MEMBW_READ; bw ← dgetitem b MEMBW_WRITE;
        x ← nmul bw (PFloat ratio); x ← nadd br x; r ← nsub ar x;
        let c := dset c MEMBW_READ r in
        y ← ndiv br (PFloat ratio); y ← nadd bw y; w ← nsub aw y;
        Ok (dset c MEMBW_WRITE w)
      else Ok c
  | None => Ok c
  end.

(** [float(x) / float(y)] *)
Definition float_quot (x y : num) : result float :=
  x ← to_float x; y ← to_float y; fdiv x y.

(** src/wca/scheduler/algorithms/base.py:212-218 [calculate_read_write_ratio] *)
Definition calculate_read_write_ratio (capacity : Resources) : result (option float) :=
  if dmem capacity MEMBW_READ then
    _ ← py_assert (dmem capacity MEMBW_WRITE);
    r ← dgetitem capacity MEMBW_READ; w ← dgetitem capacity MEMBW_WRITE;
    Some <$> float_quot r w
  else Ok None.

(** src/wca/scheduler/algorithms/base.py:221-233 [flat_membw_read_write] *)
Definition flat_membw_read_write (a : Resources) (membw_read_write_ratio : option float)
    : result Resources :=
  if dmem a MEMBW_READ then
    _ ← py_assert (dmem a MEMBW_WRITE);
    ratio ← or_raise AssertionError membw_read_write_ratio;
    let b := ddel (ddel a MEMBW_READ) MEMBW_WRITE in
    r ← dgetitem a MEMBW_READ; w ← dgetitem a MEMBW_WRITE;
    x ← nmul (PFloat ratio) w; flat ← nadd r x;
    Ok (dset b MEMBW_FLAT flat)
  else Ok a.

Section set_order.
  Context (set_order : list ResourceType → list ResourceType).

(** src/wca/scheduler/algorithms/base.py:236-251 [divide_resources] *)
Definition divide_resources (a b : Resources) (membw_read_write_ratio : option float)
    : result Resources :=
  _ ← py_assert (same_keys a b);
  let flatten := dmem a MEMBW_READ &&
                 match membw_read_write_ratio with Some _ => true | None => false end in
  a ← (if flatten then flat_membw_read_write a membw_read_write_ratio else Ok a);
  b ← (if flatten then flat_membw_read_write b membw_read_write_ratio else Ok b);
  foldM (λ c dimension,
    x ← dgetitem a dimension; y ← dgetitem b dimension;
    q ← float_quot x y; Ok (dset c dimension (PFloat q))) [] (set_order (dkeys a)).
End set_order.

(** src/wca/scheduler/algorithms/base.py:368-378 [enough_resources_on_node]
    The capacities that are broken (with their absolute values) and what is free. *)
Definition enough_resources_on_node (capacity used : Resources)
    (membw_read_write_ratio : option float) : result (bool * Resources * Resources) :=
  free ← subtract_resources capacity used membw_read_write_ratio;
  let broken_capacities :=
    (λ rv, (rv.1, match rv.2 with PInt z => PInt (Z.abs z) | PFloat f => PFloat (fabs f) end))
      <$> List.filter (λ rv, nltb rv.2 (PInt 0)) free in
  Ok (match broken_capacities with [] => true | _ => false end, broken_capacities, free).

(** src/wca/scheduler/algorithms/base.py:349-365 [get_nodes_used_resources] *)
Definition get_nodes_used_resources (dimensions : list ResourceType)
    (apps_on_node : dict string Apps) (apps_spec : dict string Resources)
    : result (dict string Resources) :=
  foldM (λ nodes_used_resources '(node, apps),
    let appscount := dmap (λ tasks, Z.of_nat (length tasks)) apps in
    used ← used_resources_on_node dimensions appscount apps_spec;
    Ok (dset nodes_used_resources node used)) [] apps_on_node.

(** ** Resources in the context of a node and an application *)

Definition resource_metrics (name : string) (labels : dict string string) (rs : Resources)
    : list Metric :=
  (λ rv, sched_gauge (sched_metric name) rv.2
           (dset labels "resource" (ResourceType_value rv.1))) <$> rs.

(** The results of [used_free_requested]. *)
Record node_context := mkNodeContext {
  nc_used : Resources; nc_free : Resources; nc_requested : Resources;
  nc_capacity : Resources; nc_ratio : option float; nc_metrics : list Metric
}.

(** src/wca/scheduler/algorithms/base.py:254-314 [used_free_requested] *)
Definition used_free_requested (node_name app_name : string) (dimensions : list ResourceType)
    (nodes_capacities : dict string Resources) (assigned_apps : dict string Apps)
    (apps_spec : dict string Resources) : result node_context :=
  capacity ← dgetitem nodes_capacities node_name;
  ratio ← calculate_read_write_ratio capacity;
  apps ← dgetitem assigned_apps node_name;
  let appscount := dmap (λ tasks, Z.of_nat (length tasks)) apps in
  used ← used_resources_on_node dimensions appscount apps_spec;
  requested ← dgetitem apps_spec app_name;
  free ← subtract_resources capacity used ratio;
  free_membw_flat ← flat_membw_read_write free ratio;
  let metrics :=
    resource_metrics "node_used_resource" [("node", node_name)] used ++
    resource_metrics "node_free_resource" [("node", node_name)] free ++
    ((λ rv, sched_gauge (sched_metric "app_requested_resource") rv.2
              [("resource", ResourceType_value rv.1); ("app", app_name)]) <$> requested) ++
    ((λ rv, sched_gauge (sched_metric "node_capacity_resource") rv.2
              [("resource", ResourceType_value rv.1); ("node", node_name)]) <$> capacity) ++
    match dget free_membw_flat MEMBW_FLAT with
    | Some v => [sched_gauge (sched_metric "fit_predicted_membw_flat_usage") v
                   [("app", app_name); ("node", node_name)]]
    | None => []
    end in
  Ok (mkNodeContext used free requested capacity ratio metrics).

Definition DataMissingException : exn := OtherException "DataMissingException".

(** [except ValueError: raise DataMissingException] *)
Definition sum_or_missing (a b : Resources) : result Resources :=
  catch (sum_resources a b)
    (λ e, match e with ValueError => Some (Raise DataMissingException) | _ => None end).

(** src/wca/scheduler/algorithms/base.py:317-346 [get_requested_fraction] *)
Definition get_requested_fraction (set_order : list ResourceType → list ResourceType)
    (app_name : string) (apps_spec : dict string Resources) (assigned_apps : dict string Apps)
    (node_name : string) (nodes_capacities : dict string Resources)
    (dimensions : list ResourceType) : result (Resources * list Metric) :=
  ctx ← used_free_requested node_name app_name dimensions nodes_capacities assigned_apps apps_spec;
  requested_and_used ← sum_or_missing (nc_requested ctx) (nc_used ctx);
  requested_fraction ← divide_resources set_order requested_and_used (nc_capacity ctx) (nc_ratio ctx);
  Ok (requested_fraction,
      nc_metrics ctx ++
      ((λ rv, sched_gauge (sched_metric "bar_requested_fraction") rv.2
                [("app", app_name); ("resource", ResourceType_value rv.1)]) <$> requested_fraction)).

(** ** Data providers and algorithms *)

(** src/wca/scheduler/data_providers/__init__.py:22-49 [DataProvider]
    What an algorithm may ask about the cluster. *)
Class DataProvider (S : Type) : Type := {
  get_nodes_capacities : list ResourceType → M S (dict string Resources);
  get_apps_counts : M S (dict string Apps * AppsCount);
  get_apps_requested_resources : list ResourceType → M S (dict string Resources);
  get_dram_hit_ratio : M S (dict string num);
  get_pmem_nodes : M S (list string)
}.

(** src/wca/scheduler/algorithms/base.py:26-31 [QueryDataProviderInfo] *)
Record QueryDataProviderInfo := mkQuery {
  q_nodes_capacities : dict string Resources;
  q_assigned_apps : dict string Apps;
  q_apps_spec : dict string Resources;
  q_apps_unassigned : AppsCount
}.

(** The state of an algorithm: its metrics, and the provider's own. *)
Record alg_state (S : Type) := mkAlgState { as_metrics : MetricRegistry; as_provider : S }.
Arguments mkAlgState {S} _ _.
Arguments as_metrics {S} _.
Arguments as_provider {S} _.

Definition on_provider {S A} (m : M S A) : M (alg_state S) A :=
  λ a, let '(r, s) := m (as_provider a) in (r, mkAlgState (as_metrics a) s).

(** [self.metrics.extend(metrics)]: metrics added before a failed assertion stay. *)
Definition extend_metrics {S} (metrics : list Metric) : M (alg_state S) unit :=
  forM_ metrics (λ m a,
    match registry_add (as_metrics a) m with
    | Ok reg => (Ok tt, mkAlgState reg (as_provider a))
    | Raise e => (Raise e, a)
    end).

(** The callbacks of a concrete algorithm. *)
Record Algorithm (S : Type) := mkAlgorithm {
  alg_dimensions : list ResourceType;
  alg_max_node_score : num;
  app_fit_node : string → json → QueryDataProviderInfo → M (alg_state S) (bool * failure);
  app_fit_nodes : list string → json → QueryDataProviderInfo →
                  M (alg_state S) (list string * dict string failure);
  priority_for_node : string → json → QueryDataProviderInfo → M (alg_state S) num;
  alg_reschedule : M (alg_state S) (list string)
}.
Arguments mkAlgorithm {S} _ _ _ _ _ _.
Arguments alg_dimensions {S} _.
Arguments alg_max_node_score {S} _.
Arguments app_fit_node {S} _ _ _ _.
Arguments app_fit_nodes {S} _ _ _ _.
Arguments priority_for_node {S} _ _ _ _.
Arguments alg_reschedule {S} _.

(** src/wca/scheduler/algorithms/base.py:33-36 [DEFAULT_DIMENSIONS] *)
Definition DEFAULT_DIMENSIONS : list ResourceType := [CPU; MEM].

Section base_algorithm.
  Context {S : Type} `{DataProvider S}.
  Implicit Types (self : Algorithm S).

(** src/wca/scheduler/algorithms/base.py:40-44 [query_data_provider] *)
Definition query_data_provider (dimensions : list ResourceType)
    : M (alg_state S) QueryDataProviderInfo :=
  apps ← on_provider get_apps_counts;
  nodes_capacities ← on_provider (get_nodes_capacities dimensions);
  apps_spec ← on_provider (get_apps_requested_resources dimensions);
  mret (mkQuery nodes_capacities apps.1 apps_spec apps.2).

(** src/wca/scheduler/algorithms/base.py:79-89 [BaseAlgorithm.filter], the first pass *)
Definition first_pass self (app_name : json) (q : QueryDataProviderInfo)
    (acc : list string * dict string failure) (node_name : string)
    : M (alg_state S) (list string * dict string failure) :=
  fit ← app_fit_node self node_name app_name q;
  let '(accepted, message) := fit in
  mret (if accepted : bool then (acc.1 ++ [node_name], acc.2)
        else (acc.1, dset acc.2 node_name message)).

(** src/wca/scheduler/algorithms/base.py:69-103 [BaseAlgorithm.filter] *)
Definition alg_filter self (extender_args : ExtenderArgs)
    : M (alg_state S) ExtenderFilterResult :=
  input ← lift (extract_common_input extender_args);
  let '(app_name, nodes_names, _, _) := input in
  q ← query_data_provider (alg_dimensions self);
  pass1 ← foldMS (first_pass self app_name q) ([], []) nodes_names;
  let '(accepted_node_names, failed_nodes) := pass1 in
  pass2 ← match accepted_node_names with
          | [] => mret ([], failed_nodes)
          | _ => r ← app_fit_nodes self accepted_node_names app_name q;
                 mret (r.1, dupdate failed_nodes r.2)
          end : M (alg_state S) (list string * dict string failure);
  mret (mkExtenderFilterResult pass2.1 pass2.2).

(** src/wca/scheduler/algorithms/base.py:114-117 [BaseAlgorithm.prioritize], one node *)
Definition score_node self (app_name : json) (q : QueryDataProviderInfo)
    (priorities : list HostPriority) (node_name : string) : M (alg_state S) (list HostPriority) :=
  priority ← priority_for_node self node_name app_name q;
  priority_scaled ← lift (x ← nmul priority (alg_max_node_score self); num_trunc x);
  mret (priorities ++ [mkHostPriority node_name priority_scaled]).

(** src/wca/scheduler/algorithms/base.py:105-120 [BaseAlgorithm.prioritize] *)
Definition alg_prioritize self (extender_args : ExtenderArgs)
    : M (alg_state S) (list HostPriority) :=
  input ← lift (extract_common_input extender_args);
  let '(app_name, nodes_names, _, _) := input in
  q ← query_data_provider (alg_dimensions self);
  foldMS (score_node self app_name q) [] (py_sorted String.ltb nodes_names).

(** src/wca/scheduler/algorithms/base.py:140-147 [BaseAlgorithm.app_fit_nodes] *)
Definition default_app_fit_nodes (node_names : list string) (_ : json)
    (_ : QueryDataProviderInfo) : M (alg_state S) (list string * dict string failure) :=
  mret (node_names, []).

(** src/wca/scheduler/algorithms/base.py:149-161 [BaseAlgorithm.reschedule], with the
    default [reschedule_with_metrics]. *)
Definition default_reschedule (dimensions : list ResourceType) : M (alg_state S) (list string) :=
  q ← query_data_provider dimensions; mret [].
End base_algorithm.

(** ** Properties of the common algorithm *)

(** What the second pass has to promise: it splits the nodes it is given. *)
Class SplitsNodes {S} (self : Algorithm S) : Prop :=
  splits_nodes names app q st names' failed st' :
    app_fit_nodes self names app q st = (Ok (names', failed), st') → NoDup names →
    (∀ n, n ∈ names ↔ n ∈ names' ∨ n ∈ dkeys failed) ∧
    (∀ n, n ∈ names' → n ∉ dkeys failed).

Section base_spec.
  Context {S : Type} `{DataProvider S}.
  Implicit Types (self : Algorithm S) (st : alg_state S).

Lemma first_pass_splits self app q nodes acc st r st' :
  NoDup (acc.1 ++ dkeys acc.2 ++ nodes) →
  foldMS (first_pass self app q) acc nodes st = (Ok r, st') →
  NoDup (r.1 ++ dkeys r.2) ∧
  ∀ n, n ∈ r.1 ++ dkeys r.2 ↔ n ∈ acc.1 ++ dkeys acc.2 ++ nodes.
Proof.
  revert acc st. induction nodes as [|node nodes IH]; intros [acc failed] st Hnd Hf; cbn [fst snd] in *.
  - apply M_ret_Ok_iff in Hf as [<- ->]. cbn [fst snd]. by rewrite app_nil_r in *.
  - cbn [foldMS] in Hf. apply M_bind_Ok_iff in Hf as (acc1 & s1 & H1 & Hf).
    unfold first_pass in H1. apply M_bind_Ok_iff in H1 as ([b m] & s2 & _ & H1).
    apply M_ret_Ok_iff in H1 as [Hacc1 ->].
    assert (Hnode : node ∉ dkeys failed).
    { apply NoDup_app in Hnd as (_ & _ & Hnd). apply NoDup_app in Hnd as (_ & Hd & _).
      intros Hin. apply (Hd _ Hin). set_solver. }
    assert (Hperm : acc1.1 ++ dkeys acc1.2 ++ nodes ≡ₚ acc ++ dkeys failed ++ node :: nodes).
    { subst acc1. destruct b; cbn [fst snd].
      - rewrite <-app_assoc. f_equiv. simpl. by rewrite Permutation_middle.
      - rewrite dset_fresh by done. unfold dkeys. rewrite fmap_app. simpl.
        rewrite <-app_assoc. done. }
    destruct (IH acc1 s2) as [Hnd' Hin']; [by rewrite Hperm|done|].
    split; [done|]. intros n. by rewrite Hin', Hperm.
Qed.

Lemma dkeys_dupdate {K V} `{EqDecision K} (d d2 : dict K V) k :
  k ∈ dkeys (dupdate d d2) ↔ k ∈ dkeys d ∨ k ∈ dkeys d2.
Proof.
  unfold dupdate. revert d. induction d2 as [|[k' v'] d2 IH]; intros d; simpl; [set_solver|].
  rewrite IH, dkeys_dset_elem. set_solver.
Qed.

(** C15 (invariant): filtering splits the nodes of the request: each node is either
    in [NodeNames] or in [FailedNodes], never in both, for every algorithm whose
    second pass splits the nodes it is given. *)
Theorem filter_partitions_nodes self `{!SplitsNodes self} args st r st' :
  NoDup (ea_NodeNames args) → alg_filter self args st = (Ok r, st') →
  (∀ n, n ∈ ea_NodeNames args ↔ n ∈ efr_NodeNames r ∨ n ∈ dkeys (efr_FailedNodes r)) ∧
  (∀ n, n ∈ efr_NodeNames r → n ∉ dkeys (efr_FailedNodes r)).
Proof.
  intros Hnd Hf. unfold alg_filter in Hf.
  apply M_bind_Ok_iff in Hf as ([[[app names] ns] nm] & s1 & Hin & Hf).
  apply lift_Ok_iff in Hin as [Hin ->].
  assert (Hnames : names = ea_NodeNames args).
  { unfold extract_common_input in Hin. by inv_ok. }
  subst names. apply M_bind_Ok_iff in Hf as (q & s2 & _ & Hf).
  apply M_bind_Ok_iff in Hf as ([acc failed] & s3 & H1 & Hf).
  apply first_pass_splits in H1 as [Hnd1 Hin1]; [|done]. cbn [fst snd] in *.
  apply M_bind_Ok_iff in Hf as ([acc2 failed2] & s4 & H2 & Hf).
  apply M_ret_Ok_iff in Hf as [<- ->]. cbn [fst snd efr_NodeNames efr_FailedNodes].
  apply NoDup_app in Hnd1 as (Hacc & Hdisj & _).
  assert (Hsplit : ∀ n, n ∈ ea_NodeNames args ↔ n ∈ acc ∨ n ∈ dkeys failed).
  { intros n. rewrite <-elem_of_app, Hin1. set_solver. }
  destruct acc as [|a acc].
  - apply M_ret_Ok_iff in H2 as [[= <- <-] _]. set_solver.
  - apply M_bind_Ok_iff in H2 as ([names' failed'] & s5 & H2 & H3).
    apply M_ret_Ok_iff in H3 as [[= <- <-] _]. cbn [fst snd] in *.
    destruct (splits_nodes _ _ _ _ _ _ _ H2 Hacc) as [Hs1 Hs2].
    split; intros n; rewrite dkeys_dupdate.
    + rewrite Hsplit, Hs1. tauto.
    + intros Hn [Hin'|Hin']; [|by apply (Hs2 n)]. apply (Hdisj n); [|done]. apply Hs1. by left.
Qed.

Lemma score_nodes_hosts self ap q acc nodes st r st' :
  foldMS (score_node self ap q) acc nodes st = (Ok r, st') →
  hp_Host <$> r = (hp_Host <$> acc) ++ nodes.
Proof.
  revert acc st. induction nodes as [|node nodes IH]; intros acc st Hf.
  - apply M_ret_Ok_iff in Hf as [<- _]. by rewrite app_nil_r.
  - cbn [foldMS] in Hf. apply M_bind_Ok_iff in Hf as (acc1 & s3 & H1 & Hf).
    apply M_bind_Ok_iff in H1 as (p & s4 & _ & H1). apply M_bind_Ok_iff in H1 as (sc & s5 & _ & H1).
    apply M_ret_Ok_iff in H1 as [<- ->]. rewrite (IH _ _ Hf), fmap_app, <-app_assoc. done.
Qed.

(** Prioritising gives exactly one score to every node of the
    request, in the order of the node names. *)
Theorem prioritize_scores_every_node self args st r st' :
  alg_prioritize self args st = (Ok r, st') →
  hp_Host <$> r = py_sorted String.ltb (ea_NodeNames args) ∧
  (hp_Host <$> r) ≡ₚ ea_NodeNames args.
Proof.
  intros Hf. unfold alg_prioritize in Hf.
  apply M_bind_Ok_iff in Hf as ([[[app names] ns] nm] & s1 & Hin & Hf).
  apply lift_Ok_iff in Hin as [Hin ->].
  assert (Hnames : names = ea_NodeNames args).
  { unfold extract_common_input in Hin. by inv_ok. }
  subst names. apply M_bind_Ok_iff in Hf as (q & s2 & _ & Hf).
  apply score_nodes_hosts in Hf. simpl in Hf. rewrite Hf.
  split; [done|apply py_sorted_Permutation].
Qed.
End base_spec.
