(* ===== verification/SchedAlgorithms.v ===== *)
(** * Scheduling algorithms

    [src/wca/scheduler/algorithms]: [fit.py], [least_used.py], [bar.py],
    [least_used_bar.py], [nop_algorithm.py], [static_assigner.py] and
    [dram_hit_ratio_provision.py], as instances of the common algorithm. *)
From S2P Require Export SchedBase.

(** ** Fit *)

(** src/wca/scheduler/algorithms/fit.py:30-61 [app_fits] *)
Definition app_fits (node_name app_name : string) (dimensions : list ResourceType)
    (nodes_capacities : dict string Resources) (assigned_apps : dict string Apps)
    (apps_spec : dict string Resources) : result (bool * failure * list Metric) :=
  ctx ← used_free_requested node_name app_name dimensions nodes_capacities assigned_apps apps_spec;
  let metrics := nc_metrics ctx ++ nc_metrics ctx in
  requested_and_used ← sum_or_missing (nc_requested ctx) (nc_used ctx);
  enough ← enough_resources_on_node (nc_capacity ctx) requested_and_used (nc_ratio ctx);
  let '(fits, broken_capacities, _) := enough in
  Ok (fits, MissingCapacity broken_capacities, metrics).

(** src/wca/scheduler/algorithms/fit.py:82-86 [Fit.app_fit_node], scaled CPU capacities *)
Definition scale_capacities (pmem_nodes : list string) (cpu_scale_factor : num)
    (nodes_capacities : dict string Resources) : result (dict string Resources) :=
  foldM (λ caps '(node, capacity),
    if bool_decide (node ∈ pmem_nodes) then
      cpu ← dgetitem capacity CPU;
      scaled ← nmul cpu cpu_scale_factor;
      Ok (dset caps node (dset capacity CPU scaled))
    else Ok caps) nodes_capacities nodes_capacities.

Section algorithms.
  Context {S : Type} `{DataProvider S}.

(** src/wca/scheduler/algorithms/fit.py:78-92 [Fit.app_fit_node] *)
Definition fit_app_fit_node (dimensions : list ResourceType) (pmem_nodes : list string)
    (cpu_scale_factor : num) (node_name : string) (app : json) (q : QueryDataProviderInfo)
    : M (alg_state S) (bool * failure) :=
  new_nodes_capacities ← lift (scale_capacities pmem_nodes cpu_scale_factor (q_nodes_capacities q));
  app_name ← lift (app_key app);
  r ← lift (app_fits node_name app_name dimensions new_nodes_capacities (q_assigned_apps q)
              (q_apps_spec q));
  let '(fits, message, metrics) := r in
  _ ← extend_metrics metrics;
  mret (fits, message).

(** src/wca/scheduler/algorithms/fit.py:99-101 [Fit.reschedule_with_metrics] *)
Definition fit_reschedule (dimensions : list ResourceType) : M (alg_state S) (list string) :=
  q ← query_data_provider dimensions; mret [].

(** src/wca/scheduler/algorithms/fit.py:94-97 [Fit.priority_for_node] *)
Definition fit_priority (_ : string) (_ : json) (_ : QueryDataProviderInfo)
    : M (alg_state S) num := mret (PFloat fzero).

(** src/wca/scheduler/algorithms/fit.py:64-76 [Fit] *)
Definition Fit (dimensions : list ResourceType) (max_node_score : num) (pmem_nodes : list string)
    (cpu_scale_factor : num) : Algorithm S :=
  mkAlgorithm dimensions max_node_score (fit_app_fit_node dimensions pmem_nodes cpu_scale_factor)
    default_app_fit_nodes fit_priority (fit_reschedule dimensions).

(** ** Least used *)

(** src/wca/scheduler/algorithms/least_used.py:28-37 [calculate_least_used_score] *)
Definition calculate_least_used_score (requested_fraction : Resources) (weights : Resources)
    : result (Resources * num) :=
  weights_sum ← nsum (dvalues weights);
  free_fraction ← foldM (λ c '(dim, fraction),
    x ← nsub (PFloat (float_of_ratio 1 1)) fraction; Ok (dset c dim x)) [] requested_fraction;
  terms ← mapM (λ '(dim, free), w ← dgetitem weights dim; nmul free w) free_fraction;
  total ← nsum terms;
  score ← ndiv total weights_sum;
  Ok (free_fraction, score).

(** src/wca/scheduler/algorithms/least_used.py:48-52 [LeastUsed.__init__], the weights *)
Definition least_used_weights (dimensions : list ResourceType) (given : option Resources)
    : Resources :=
  match given with
  | None => dset (dict_of ((λ dim, (dim, PInt 1)) <$> dimensions)) MEMBW_FLAT (PInt 1)
  | Some w => w
  end.

Section priorities.
  Context (set_order : list ResourceType → list ResourceType).

(** The fraction of a node an application would use, its metrics recorded. *)
Definition recorded_fraction (dimensions : list ResourceType) (node_name app_name : string)
    (q : QueryDataProviderInfo) : M (alg_state S) Resources :=
  r ← lift (get_requested_fraction set_order app_name (q_apps_spec q) (q_assigned_apps q)
              node_name (q_nodes_capacities q) dimensions);
  _ ← extend_metrics r.2;
  mret r.1.

(** src/wca/scheduler/algorithms/least_used.py:54-84 [LeastUsed.priority_for_node] *)
Definition least_used_priority (dimensions : list ResourceType) (weights : Resources)
    (node_name : string) (app : json) (q : QueryDataProviderInfo) : M (alg_state S) num :=
  app_name ← lift (app_key app);
  requested_fraction ← recorded_fraction dimensions node_name app_name q;
  score ← lift (calculate_least_used_score requested_fraction weights);
  _ ← extend_metrics [sched_gauge (sched_metric "bar_least_used_score") score.2
                        [("app", app_name); ("node", node_name)]];
  mret score.2.

(** src/wca/scheduler/algorithms/least_used.py:40-52 [LeastUsed] *)
Definition LeastUsed (dimensions : list ResourceType) (max_node_score : num)
    (pmem_nodes : list string) (weights : option Resources) : Algorithm S :=
  mkAlgorithm dimensions max_node_score
    (fit_app_fit_node dimensions pmem_nodes (PFloat (float_of_ratio 1 1)))
    default_app_fit_nodes (least_used_priority dimensions (least_used_weights dimensions weights))
    (fit_reschedule dimensions).

(** ** Balanced allocation of resources *)

(** src/wca/scheduler/algorithms/bar.py:41-50 [calculate_variance], the value *)
Definition variance_value (requested_fraction : Resources) (mean : num) (bar_weights : Resources)
    : result num :=
  let n := PInt (Z.of_nat (length requested_fraction)) in
  match dvalues requested_fraction with
  | [] | [_] => Ok (PInt 0)
  | [v0; v1] => d ← nsub v0 v1;
                Ok match d with PInt z => PInt (Z.abs z) | PFloat f => PFloat (fabs f) end
  | _ =>
      terms ← mapM (λ '(rt, fraction),
        d1 ← nsub fraction mean; d2 ← nsub fraction mean; sq ← nmul d1 d2;
        nmul sq (default (PInt 1) (dget bar_weights rt))) requested_fraction;
      total ← nsum terms; ndiv total n
  end.

(** src/wca/scheduler/algorithms/bar.py:29-59 [calculate_variance] *)
Definition calculate_variance (app_name node_name : string) (requested_fraction : Resources)
    (bar_weights : Resources) : result (num * list Metric) :=
  total ← nsum (dvalues requested_fraction);
  mean ← ndiv total (PInt (Z.of_nat (length requested_fraction)));
  variance ← variance_value requested_fraction mean bar_weights;
  let labels := [("app", app_name); ("node", node_name)] in
  Ok (variance, [sched_gauge (sched_metric "bar_mean") mean labels;
                 sched_gauge (sched_metric "bar_variance") variance labels]).

(** src/wca/scheduler/algorithms/bar.py:73-94 [BAR.priority_for_node] *)
Definition bar_priority (dimensions : list ResourceType) (bar_weights : Resources)
    (node_name : string) (app : json) (q : QueryDataProviderInfo) : M (alg_state S) num :=
  app_name ← lift (app_key app);
  requested_fraction ← recorded_fraction dimensions node_name app_name q;
  v ← lift (calculate_variance app_name node_name requested_fraction bar_weights);
  _ ← extend_metrics v.2;
  bar_score ← lift (nsub (PFloat (float_of_ratio 1 1)) v.1);
  _ ← extend_metrics [sched_gauge (sched_metric "bar_score") bar_score
                        [("app", app_name); ("node", node_name)]];
  mret bar_score.

(** src/wca/scheduler/algorithms/bar.py:62-71 [BAR] *)
Definition BAR (dimensions : list ResourceType) (max_node_score : num)
    (pmem_nodes : list string) (bar_weights : option Resources) : Algorithm S :=
  mkAlgorithm dimensions max_node_score
    (fit_app_fit_node dimensions pmem_nodes (PFloat (float_of_ratio 1 1)))
    default_app_fit_nodes (bar_priority dimensions (default [] bar_weights))
    (fit_reschedule dimensions).

(** src/wca/scheduler/algorithms/least_used_bar.py:46-61 [LeastUsedBAR.priority_for_node] *)
Definition least_used_bar_priority (dimensions : list ResourceType) (weights bar_weights : Resources)
    (least_used_weight : num) (node_name : string) (app : json) (q : QueryDataProviderInfo)
    : M (alg_state S) num :=
  least_used_score ← least_used_priority dimensions weights node_name app q;
  bar_score ← bar_priority dimensions bar_weights node_name app q;
  result ← lift (x ← nmul least_used_score least_used_weight; nadd x bar_score);
  app_name ← lift (app_key app);
  _ ← extend_metrics [sched_gauge (sched_metric "bar_result") result
                        [("app", app_name); ("node", node_name)]];
  mret result.

(** src/wca/scheduler/algorithms/least_used_bar.py:25-38 [LeastUsedBAR] *)
Definition LeastUsedBAR (dimensions : list ResourceType) (max_node_score : num)
    (pmem_nodes : list string) (weights bar_weights : option Resources) (least_used_weight : num)
    : Algorithm S :=
  mkAlgorithm dimensions max_node_score
    (fit_app_fit_node dimensions pmem_nodes (PFloat (float_of_ratio 1 1)))
    default_app_fit_nodes
    (least_used_bar_priority dimensions (least_used_weights dimensions weights)
       (default [] bar_weights) least_used_weight)
    (fit_reschedule dimensions).
End priorities.

(** ** Other algorithms *)

(** src/wca/scheduler/algorithms/nop_algorithm.py:21-38 [NOPAlgorithm] *)
Definition NOPAlgorithm : Algorithm S :=
  mkAlgorithm DEFAULT_DIMENSIONS (PFloat (float_of_ratio 10 1))
    (λ _ _ _, mret (true, FailText [])) default_app_fit_nodes (λ _ _ _, mret (PInt 0))
    (default_reschedule DEFAULT_DIMENSIONS).

(** src/wca/scheduler/algorithms/static_assigner.py:33-61 [StaticAssigner.app_fit_node] *)
Definition static_app_fit_node (targets : dict string (dict string Z)) (node_name : string)
    (app : json) (q : QueryDataProviderInfo) : M (alg_state S) (bool * failure) :=
  match dget targets node_name with
  | None => mret (false, NotSpecified)
  | Some counts =>
      match app with
      | JStr app_name =>
          match dget counts app_name with
          | None => mret (false, NotSpecified)
          | Some target =>
              assigned ← lift (dgetitem (q_assigned_apps q) node_name);
              match dget assigned app_name with
              | None => mret (if target >? 0 then (true, FailText []) else (false, CountReached))
              | Some tasks =>
                  let count := Z.of_nat (length tasks) in
                  if count <? target then mret (true, FailText [])
                  else _ ← lift (py_assert (count =? target)); mret (false, CountReached)
              end
          end
      | JList _ | JObj _ => raise TypeError
      | _ => mret (false, NotSpecified)
      end
  end.

(** src/wca/scheduler/algorithms/static_assigner.py:24-31 [StaticAssigner] *)
Definition StaticAssigner (dimensions : list ResourceType) (targets : dict string (dict string Z))
    : Algorithm S :=
  mkAlgorithm dimensions (PFloat (float_of_ratio 10 1)) (static_app_fit_node targets)
    default_app_fit_nodes (λ _ _ _, mret (PFloat fzero)) (default_reschedule dimensions).

(** src/wca/scheduler/algorithms/dram_hit_ratio_provision.py:40-58 [DramHitRatioProvision.app_fit_node] *)
Definition dram_app_fit_node (threshold : num) (node_name : string) (_ : json)
    (_ : QueryDataProviderInfo) : M (alg_state S) (bool * failure) :=
  dram_hit_ratio ← on_provider get_dram_hit_ratio;
  ratio ← lift (r ← dgetitem dram_hit_ratio node_name; to_float r);
  let ratio_below_threshold := nltb (PFloat ratio) threshold in
  _ ← extend_metrics [sched_gauge (sched_metric "node_dram_hit_ratio_can_schedule")
                        (PInt (if ratio_below_threshold then 0 else 1)) [("node", node_name)]];
  mret (if ratio_below_threshold then (false, DramHitRatio) else (true, FailText [])).

(** src/wca/scheduler/algorithms/dram_hit_ratio_provision.py:28-38 [DramHitRatioProvision] *)
Definition DramHitRatioProvision (dimensions : list ResourceType) (max_node_score threshold : num)
    : Algorithm S :=
  mkAlgorithm dimensions max_node_score (dram_app_fit_node threshold) default_app_fit_nodes
    (λ _ _ _, mret (PFloat fzero)) (default_reschedule dimensions).

(** The default second pass accepts all nodes. *)
Lemma default_splits (alg : Algorithm S) :
  app_fit_nodes alg = default_app_fit_nodes → SplitsNodes alg.
Proof.
  intros Heq names app q st names' failed st' Hf _. rewrite Heq in Hf.
  apply M_ret_Ok_iff in Hf as [[= <- <-] ->]. split; [set_solver|intros n _; set_solver].
Qed.

#[export] Instance Fit_splits dims m pm f : SplitsNodes (Fit dims m pm f).
Proof. by apply default_splits. Qed.
#[export] Instance NOP_splits : SplitsNodes NOPAlgorithm.
Proof. by apply default_splits. Qed.
#[export] Instance Static_splits dims t : SplitsNodes (StaticAssigner dims t).
Proof. by apply default_splits. Qed.
#[export] Instance LeastUsedBAR_splits so dims m pm w bw luw :
  SplitsNodes (LeastUsedBAR so dims m pm w bw luw).
Proof. by apply default_splits. Qed.
End algorithms.
