(* ===== verification/SchedFit.v ===== *)
(** * Fit on whole numbers

    What [Fit] decides, when resources are integers and memory bandwidth is not among the
    dimensions (for it [Fit] compares floats made with the ratio of reads and writes): an
    application is accepted by a node exactly when its request and the demand of the tasks
    already there stay within the capacity, in every dimension; and scheduling one task after
    another never exceeds the capacity of a node. *)
From S2P Require Export SchedAlgorithms.

(** ** Integer resources *)

(** A dictionary with exactly the dimensions [dims] and the integers [f]. *)
Definition ints_on (dims : list ResourceType) (r : Resources) (f : ResourceType → Z) : Prop :=
  dict_wf r ∧ ∀ dim, dget r dim = if decide (dim ∈ dims) then Some (PInt (f dim)) else None.

(** The demand of the tasks of a node in one dimension. *)
Definition demand (spec : string → ResourceType → Z) (apps : Apps) (dim : ResourceType) : Z :=
  foldr (λ '(app, tasks) acc, spec app dim * Z.of_nat (length tasks) + acc) 0 apps.

Section ints.
  Context (dims : list ResourceType).
  Implicit Types (r a b : Resources) (f g : ResourceType → Z).

Lemma ints_on_get r f dim : ints_on dims r f → dim ∈ dims → dget r dim = Some (PInt (f dim)).
Proof. intros [_ Hr] Hin. by rewrite Hr, decide_True. Qed.

Lemma ints_on_getitem r f dim : ints_on dims r f → dim ∈ dims → dgetitem r dim = Ok (PInt (f dim)).
Proof. intros Hr Hin. unfold dgetitem. by rewrite (ints_on_get r f). Qed.

Lemma ints_on_keys r f dim : ints_on dims r f → dim ∈ dkeys r ↔ dim ∈ dims.
Proof.
  intros [_ Hr]. rewrite <-dget_is_Some, Hr. case_decide; unfold is_Some; naive_solver.
Qed.

Lemma ints_on_elem r f dim v : ints_on dims r f → (dim, v) ∈ r → v = PInt (f dim) ∧ dim ∈ dims.
Proof.
  intros [Hwf Hr] Hin. apply (dget_in _ _ _ Hwf) in Hin. rewrite Hr in Hin.
  case_decide; naive_solver.
Qed.

Lemma ints_on_no_dim r f dim : ints_on dims r f → dim ∉ dims → dmem r dim = false.
Proof. intros [_ Hr] Hni. unfold dmem. by rewrite Hr, decide_False. Qed.

Lemma ints_on_ext r f g : (∀ dim, dim ∈ dims → f dim = g dim) → ints_on dims r f → ints_on dims r g.
Proof.
  intros Hfg [Hwf Hr]. split; [done|]. intros dim. rewrite Hr. case_decide; [|done].
  by rewrite Hfg.
Qed.

Lemma ints_on_dset r f dim z :
  dim ∈ dims → ints_on dims r f →
  ints_on dims (dset r dim (PInt z)) (λ d, if decide (d = dim) then z else f d).
Proof.
  intros Hin [Hwf Hr]. split; [by apply dset_wf|]. intros d. rewrite dget_dset, Hr.
  repeat case_decide; congruence || by subst.
Qed.

Lemma ints_on_same_keys a b f g : ints_on dims a f → ints_on dims b g → same_keys a b = true.
Proof.
  intros Ha Hb. unfold same_keys. apply andb_true_iff.
  split; apply forallb_forall; intros dim Hin; apply dmem_true; apply list_elem_of_In in Hin.
  - apply (ints_on_keys b g _ Hb). by apply (ints_on_keys a f).
  - apply (ints_on_keys a f _ Ha). by apply (ints_on_keys b g).
Qed.

Lemma ints_on_loop (h : ResourceType → num → result num) f g a c0 :
  ints_on dims a f → (∀ dim, dim ∈ dims → h dim (PInt (f dim)) = Ok (PInt (g dim))) →
  dict_wf c0 → (∀ dim, dim ∉ dims → dget c0 dim = None) →
  ∃ c, foldM (λ c '(dim, x), y ← h dim x; Ok (dset c dim y)) c0 a = Ok c ∧ ints_on dims c g.
Proof.
  intros Ha Hh Hwf Hc0.
  destruct (foldM_dset_map h (λ dim, PInt (g dim)) c0 a) as (c & Hc & Hcwf & Hget);
    [apply Ha|done|..].
  { intros dim v Hin. destruct (ints_on_elem _ _ _ _ Ha Hin) as [-> ?]. by apply Hh. }
  exists c. split; [done|]. split; [done|]. intros dim. rewrite Hget.
  destruct (decide (dim ∈ dims)) as [Hd|Hd].
  - rewrite decide_True; [done|]. by apply (ints_on_keys a f).
  - rewrite decide_False; [by apply Hc0|]. by rewrite (ints_on_keys a f).
Qed.

(** Adding the resources of one application, [count] times. *)
Lemma add_app_resources (apps_spec : dict string Resources) app spec g count dims' used f :
  dgetitem apps_spec app = Ok spec → NoDup dims' → dims' ⊆ dims → ints_on dims used f → ints_on dims spec g →
  ∃ used', foldM (λ used dim, cur ← dgetitem used dim; spec ← dgetitem apps_spec app; v ← dgetitem spec dim;
                    x ← nmul v (PInt count); y ← nadd cur x; Ok (dset used dim y)) used dims' = Ok used' ∧
    ints_on dims used' (λ dim, if decide (dim ∈ dims') then f dim + g dim * count else f dim).
Proof.
  intros Happ Hnd. revert used f. induction Hnd as [|d dims' Hd Hnd IH]; intros used f Hsub Hused Hspec.
  - exists used. split; [done|]. eapply ints_on_ext; [|exact Hused].
    intros dim _. rewrite decide_False; set_solver.
  - assert (Hdin : d ∈ dims) by set_solver.
    cbn [foldM]. rewrite (ints_on_getitem _ _ _ Hused Hdin), Happ. cbn [mbind result_bind].
    rewrite (ints_on_getitem _ _ _ Hspec Hdin). cbn [mbind result_bind nmul nadd num_op].
    destruct (IH (dset used d (PInt (f d + g d * count)))
                (λ x, if decide (x = d) then f d + g d * count else f x)) as (used' & H1 & H2);
      [set_solver|by apply ints_on_dset|done|].
    rewrite Happ in H1. exists used'. split; [exact H1|]. eapply ints_on_ext; [|exact H2].
    intros dim _. cbn beta. destruct (decide (dim = d)) as [->|Hne].
    + rewrite (decide_True (P:=d ∈ d :: dims')) by set_solver. by rewrite decide_False.
    + destruct (decide (dim ∈ dims')) as [H|H].
      * by rewrite decide_True by set_solver.
      * by rewrite decide_False by set_solver.
Qed.

Lemma ints_on_display f : NoDup dims → ints_on dims ((λ dim, (dim, PInt (f dim))) <$> dims) f.
Proof.
  intros Hnd. split; [by unfold dict_wf, dkeys; rewrite <-list_fmap_compose, list_fmap_id|].
  intros dim. clear Hnd. induction dims as [|d l IH]; [done|].
  rewrite fmap_cons. cbn [dget]. rewrite IH. repeat case_decide; set_solver.
Qed.

Lemma used_resources_demand (spec : string → ResourceType → Z) apps_spec (apps : Apps) :
  NoDup dims →
  (∀ app tasks, (app, tasks) ∈ apps → ∃ r, dget apps_spec app = Some r ∧ ints_on dims r (spec app)) →
  ∃ used, used_resources_on_node dims (dmap (λ tasks, Z.of_nat (length tasks)) apps) apps_spec = Ok used ∧
          ints_on dims used (demand spec apps).
Proof.
  intros Hnd Hspec. unfold used_resources_on_node.
  assert (H0 : ints_on dims (dict_of ((λ dim, (dim, PInt 0)) <$> dims)) (λ _, 0)).
  { pose proof (ints_on_display (λ _, 0) Hnd) as Hd.
    rewrite dict_of_NoDup; [exact Hd|apply Hd]. }
  revert H0. generalize (dict_of ((λ dim, (dim, PInt 0)) <$> dims)) as used.
  assert (Hgen : ∀ used f, ints_on dims used f → ∃ used',
    foldM (λ used '(app, count),
      foldM (λ used dim, cur ← dgetitem used dim; spec ← dgetitem apps_spec app;
        v ← dgetitem spec dim; x ← nmul v (PInt count); y ← nadd cur x; Ok (dset used dim y)) used dims)
      used (dmap (λ tasks, Z.of_nat (length tasks)) apps) = Ok used' ∧
    ints_on dims used' (λ dim, f dim + demand spec apps dim)).
  { induction apps as [|[app tasks] apps IH]; intros used f Hused.
    - exists used. split; [done|]. eapply ints_on_ext; [|exact Hused]. simpl. intros; lia.
    - destruct (Hspec app tasks) as (r & Hr & Hri); [set_solver|].
      destruct (add_app_resources apps_spec app r (spec app) (Z.of_nat (length tasks)) dims used f)
        as (used1 & H1 & H1i); [by unfold dgetitem; rewrite Hr|done|done|done|done|].
      destruct (IH ltac:(set_solver) used1 _ H1i) as (used2 & H2 & H2i).
      exists used2. split.
      + unfold dmap in *. rewrite fmap_cons. cbn [foldM].
        apply bind_Ok_iff. exists used1. split; [exact H1|exact H2].
      + eapply ints_on_ext; [|exact H2i]. intros dim Hdim. cbn beta.
        rewrite decide_True by done. unfold demand. cbn [foldr]. by rewrite Z.add_assoc. }
  intros used Hused. destruct (Hgen used _ Hused) as (used' & H1 & H2).
  exists used'. split; [exact H1|]. eapply ints_on_ext; [|exact H2]. intros; cbn beta; lia.
Qed.

Lemma sum_resources_ints a b f g :
  ints_on dims a f → ints_on dims b g →
  ∃ c, sum_resources a b = Ok c ∧ ints_on dims c (λ dim, f dim + g dim).
Proof.
  intros Ha Hb. unfold sum_resources, check_keys. rewrite (ints_on_same_keys a b f g) by done.
  cbn [mbind result_bind].
  destruct (ints_on_loop (λ dim x, y ← dgetitem b dim; nadd x y) f (λ dim, f dim + g dim) a [])
    as (c & Hc & Hci); [done|..].
  - intros dim Hdim. by rewrite (ints_on_getitem b g).
  - constructor.
  - done.
  - exists c. split; [|done]. etrans; [|exact Hc]. apply foldM_ext. intros c' [dim x] _.
    by destruct (dgetitem b dim).
Qed.

Lemma subtract_resources_ints a b f g :
  ints_on dims a f → ints_on dims b g →
  ∃ c, subtract_resources a b None = Ok c ∧ ints_on dims c (λ dim, f dim - g dim).
Proof.
  intros Ha Hb. unfold subtract_resources, check_keys. rewrite (ints_on_same_keys a b f g) by done.
  cbn [mbind result_bind].
  destruct (ints_on_loop (λ dim x, y ← dgetitem b dim; nsub x y) f (λ dim, f dim - g dim) a a)
    as (c & Hc & Hci); [done|..].
  - intros dim Hdim. by rewrite (ints_on_getitem b g).
  - apply Ha.
  - intros dim Hdim. destruct Ha as [_ Ha]. by rewrite Ha, decide_False.
  - exists c. split; [|done].
    apply bind_Ok_iff. exists c. split; [|done]. etrans; [|exact Hc]. apply foldM_ext.
    intros c' [dim x] _. rewrite orb_true_r. by destruct (dgetitem b dim).
Qed.
End ints.

(** ** The decision of [Fit] *)
Section fit.
  Context (dims : list ResourceType).

(** [g <= f] in every dimension. *)
Definition all_le (g f : ResourceType → Z) : bool := forallb (λ dim, g dim <=? f dim) dims.

Lemma all_le_true g f : all_le g f = true ↔ ∀ dim, dim ∈ dims → g dim ≤ f dim.
Proof.
  unfold all_le. rewrite forallb_forall. split; intros Hall dim Hd.
  - apply Z.leb_le, Hall. by apply list_elem_of_In.
  - apply Z.leb_le, Hall. by apply list_elem_of_In.
Qed.

Lemma filter_negative r f :
  ints_on dims r f →
  match List.filter (λ rv, nltb rv.2 (PInt 0)) r with [] => true | _ => false end =
  all_le (λ _, 0) f.
Proof.
  intros Hr. destruct (List.filter _ r) as [|[dim v] l] eqn:E; symmetry.
  - apply all_le_true. intros dim Hdim.
    destruct (Z_lt_le_dec (f dim) 0) as [Hlt|]; [|done]. exfalso.
    assert (Hin : In (dim, PInt (f dim)) (List.filter (λ rv, nltb rv.2 (PInt 0)) r)).
    { apply filter_In. split; [|by apply Z.ltb_lt].
      by apply list_elem_of_In, dget_Some_in, (ints_on_get dims). }
    by rewrite E in Hin.
  - apply not_true_iff_false. rewrite all_le_true. intros Hall.
    assert (Hin : In (dim, v) (List.filter (λ rv, nltb rv.2 (PInt 0)) r)) by (rewrite E; by left).
    apply filter_In in Hin as [Hin Hlt]. apply list_elem_of_In in Hin.
    destruct (ints_on_elem dims _ _ _ _ Hr Hin) as [-> Hd].
    apply Z.ltb_lt in Hlt. specialize (Hall dim Hd). cbn beta in Hall. lia.
Qed.

Lemma enough_ints cap used f g :
  ints_on dims cap f → ints_on dims used g →
  ∃ broken free, enough_resources_on_node cap used None = Ok (all_le g f, broken, free).
Proof.
  intros Hc Hu. destruct (subtract_resources_ints dims cap used f g Hc Hu) as (free & Hf & Hfi).
  unfold enough_resources_on_node. rewrite Hf. cbn [mbind result_bind].
  eexists _, free. f_equal. f_equal. f_equal.
  transitivity (all_le (λ _, 0) (λ dim, f dim - g dim)).
  - rewrite <-(filter_negative free) by done. by destruct (List.filter _ free).
  - apply eq_true_iff_eq. rewrite !all_le_true.
    split; intros Hall dim Hd; specialize (Hall dim Hd); cbn beta in *; lia.
Qed.

Lemma ratio_None r f : MEMBW_READ ∉ dims → ints_on dims r f → calculate_read_write_ratio r = Ok None.
Proof. intros Hd Hr. unfold calculate_read_write_ratio. by rewrite (ints_on_no_dim dims r f). Qed.

(** The specification of a cluster in whole numbers. *)
Record int_cluster (spec capacity : string → ResourceType → Z)
    (apps_spec nodes_capacities : dict string Resources) : Prop := mkIntCluster {
  ic_nodes : dict_wf nodes_capacities;
  ic_spec : ∀ app r, dget apps_spec app = Some r → ints_on dims r (spec app);
  ic_capacity : ∀ node c, dget nodes_capacities node = Some c → ints_on dims c (capacity node)
}.

Definition known_apps (apps_spec : dict string Resources) (apps : Apps) : Prop :=
  ∀ app, app ∈ dkeys apps → is_Some (dget apps_spec app).

  Context (Hnd : NoDup dims) (Hread : MEMBW_READ ∉ dims).

Lemma app_fits_decision spec apps_spec nodes_capacities cap capacity assigned node app apps :
  (∀ app r, dget apps_spec app = Some r → ints_on dims r (spec app)) →
  dget nodes_capacities node = Some cap → ints_on dims cap capacity → dget assigned node = Some apps →
  known_apps apps_spec apps → is_Some (dget apps_spec app) →
  ∃ message metrics,
    app_fits node app dims nodes_capacities assigned apps_spec =
    Ok (all_le (λ dim, spec app dim + demand spec apps dim) capacity, message, metrics).
Proof.
  intros Hspec Hc Hci Happs Hknown [req Hreq]. pose proof (Hspec _ _ Hreq) as Hri.
  destruct (used_resources_demand dims spec apps_spec apps Hnd) as (used & Hu & Hui).
  { intros a tasks Hin. destruct (Hknown a) as [r Hr]; [|eauto].
    apply list_elem_of_fmap. by exists (a, tasks). }
  destruct (subtract_resources_ints dims _ _ _ _ Hci Hui) as (free & Hf & Hfi).
  destruct (sum_resources_ints dims _ _ _ _ Hri Hui) as (total & Ht & Hti).
  destruct (enough_ints _ _ _ _ Hci Hti) as (broken & free' & He).
  unfold app_fits, used_free_requested, dgetitem. rewrite Hc. cbn [or_raise mbind result_bind].
  rewrite (ratio_None cap capacity) by done. cbn [mbind result_bind]. rewrite Happs.
  cbn [or_raise mbind result_bind]. rewrite Hu. cbn [mbind result_bind]. rewrite Hreq.
  cbn [or_raise mbind result_bind]. rewrite Hf. cbn [mbind result_bind].
  unfold flat_membw_read_write. rewrite (ints_on_no_dim dims free _ _ Hfi) by done.
  cbn [mbind result_bind nc_requested nc_used nc_capacity nc_ratio nc_metrics].
  unfold sum_or_missing. rewrite Ht. cbn [catch mbind result_bind]. rewrite He. eauto.
Qed.

(** *** The CPU capacity of PMEM nodes *)
  Context (pmem_nodes : list string) (cpu_scale_factor : num).

Lemma scale_loop (acc l caps : dict string Resources) :
  NoDup (dkeys l) →
  foldM (λ caps '(node, capacity),
    if bool_decide (node ∈ pmem_nodes) then
      cpu ← dgetitem capacity CPU;
      scaled ← nmul cpu cpu_scale_factor;
      Ok (dset caps node (dset capacity CPU scaled))
    else Ok caps) acc l = Ok caps →
  (∀ node c, (node, c) ∈ l → dget acc node = Some c) →
  ∀ node, if decide (node ∈ dkeys l ∧ node ∈ pmem_nodes)
          then ∃ (c : Resources) cpu scaled, dget acc node = Some c ∧ dget c CPU = Some cpu ∧
                 nmul cpu cpu_scale_factor = Ok scaled ∧ dget caps node = Some (dset c CPU scaled)
          else dget caps node = dget acc node.
Proof.
  revert acc. induction l as [|[n c] l IH]; intros acc Hwf Hf Hacc node.
  - injection Hf as <-. rewrite decide_False; [done|]. intros [H%not_elem_of_nil _]. done.
  - cbn [dkeys fmap list_fmap fst] in Hwf |- *. apply NoDup_cons in Hwf as [Hni Hwf]. cbn [foldM] in Hf.
    case_bool_decide as Hp.
    + apply bind_Ok_iff in Hf as (acc' & Hstep & Hf). unfold dgetitem in Hstep.
      apply bind_Ok_iff in Hstep as (x & Hx%or_raise_Ok & Hstep).
      apply bind_Ok_iff in Hstep as (x0 & Hx0 & [= <-]).
      assert (Hn : dget acc n = Some c) by (apply Hacc; by left).
      specialize (IH _ Hwf Hf). destruct (decide (node = n)) as [->|Hne].
      * rewrite decide_True by (split; [by left|done]).
        specialize (IH ltac:(intros n' c' Hin; rewrite dget_dset_ne; [apply Hacc; by right|];
          intros ->; apply Hni, list_elem_of_fmap; by exists (n', c')) n).
        rewrite decide_False in IH by naive_solver. rewrite dget_dset_eq in IH.
        by exists c, x, x0.
      * specialize (IH ltac:(intros n' c' Hin; rewrite dget_dset_ne; [apply Hacc; by right|];
          intros ->; apply Hni, list_elem_of_fmap; by exists (n', c')) node).
        rewrite dget_dset_ne in IH by done.
        destruct (decide (node ∈ dkeys l ∧ node ∈ pmem_nodes)) as [[H1 H2]|H].
        -- rewrite decide_True; [done|]. split; [by right|done].
        -- rewrite decide_False; [done|]. intros [[?|?]%elem_of_cons ?]; naive_solver.
    + cbn [mbind result_bind] in Hf. specialize (IH _ Hwf Hf ltac:(intros; apply Hacc; by right) node).
      destruct (decide (node ∈ dkeys l ∧ node ∈ pmem_nodes)) as [[H1 H2]|H].
      * rewrite decide_True; [done|]. split; [by right|done].
      * rewrite decide_False; [done|]. intros [[->|?]%elem_of_cons ?]; naive_solver.
Qed.

(** The factor is a whole number on this node: it is not a PMEM node, or the factor is [k]. *)
Definition whole (k : Z) (node : string) : Prop := node ∈ pmem_nodes → cpu_scale_factor = PInt k.

(** The capacity that [Fit] works with. *)
Definition fit_capacity (k : Z) (capacity : string → ResourceType → Z) (node : string)
    (dim : ResourceType) : Z :=
  if decide (dim = CPU ∧ node ∈ pmem_nodes) then capacity node dim * k else capacity node dim.

Lemma scale_capacities_ints k capacity nodes_capacities caps node :
  dict_wf nodes_capacities →
  (∀ node c, dget nodes_capacities node = Some c → ints_on dims c (capacity node)) →
  scale_capacities pmem_nodes cpu_scale_factor nodes_capacities = Ok caps → whole k node →
  is_Some (dget nodes_capacities node) →
  ∃ c, dget caps node = Some c ∧ ints_on dims c (fit_capacity k capacity node).
Proof.
  intros Hwf Hcap Hs Hk [c Hc]. pose proof (Hcap _ _ Hc) as Hci.
  pose proof (scale_loop _ _ _ Hwf Hs ltac:(by intros; apply dget_in) node) as Hl.
  unfold fit_capacity. destruct (decide (node ∈ pmem_nodes)) as [Hp|Hp].
  - rewrite decide_True in Hl by (split; [by apply dget_is_Some; eexists|done]).
    destruct Hl as (c' & cpu & scaled & Hc' & Hcpu & Hmul & Hget).
    assert (c' = c) as -> by congruence.
    assert (HCPU : CPU ∈ dims) by (apply (ints_on_keys dims c _ CPU Hci), dget_is_Some; by eexists).
    rewrite (ints_on_get dims c _ _ Hci HCPU) in Hcpu. injection Hcpu as <-.
    rewrite (Hk Hp) in Hmul. injection Hmul as <-. exists (dset c CPU (PInt (capacity node CPU * k))).
    split; [done|]. eapply ints_on_ext; [|by apply ints_on_dset]. intros dim _. cbn beta.
    destruct (decide (dim = CPU)) as [->|]; [by rewrite decide_True|]. rewrite decide_False; naive_solver.
  - rewrite decide_False in Hl by naive_solver. exists c. split; [by rewrite Hl|].
    eapply ints_on_ext; [|exact Hci]. intros dim _. by rewrite decide_False by naive_solver.
Qed.

(** What [Fit] answers for an application on a node. *)
Lemma fit_app_fit_node_decision {S} k spec capacity (q : QueryDataProviderInfo) caps node app apps :
  int_cluster spec capacity (q_apps_spec q) (q_nodes_capacities q) →
  scale_capacities pmem_nodes cpu_scale_factor (q_nodes_capacities q) = Ok caps → whole k node →
  is_Some (dget (q_nodes_capacities q) node) → dget (q_assigned_apps q) node = Some apps →
  known_apps (q_apps_spec q) apps → is_Some (dget (q_apps_spec q) app) →
  ∃ message metrics, ∀ st : alg_state S,
    fit_app_fit_node dims pmem_nodes cpu_scale_factor node (JStr app) q st =
    (_ ← extend_metrics metrics;
     mret (all_le (λ dim, spec app dim + demand spec apps dim) (fit_capacity k capacity node), message)) st.
Proof.
  intros [Hwf Hspec Hcap] Hs Hk Hn Ha Hkn Happ.
  destruct (scale_capacities_ints k capacity _ caps node Hwf Hcap Hs Hk Hn) as (c & Hc & Hci).
  destruct (app_fits_decision _ _ _ _ _ _ _ _ _ Hspec Hc Hci Ha Hkn Happ) as (message & metrics & He).
  exists message, metrics. intros st. unfold fit_app_fit_node. rewrite Hs. cbn [app_key].
  unfold mbind at 1 2 3, M_bind, lift. rewrite He. done.
Qed.

(** C8 (functional): with whole numbers, distinct dimensions and no memory bandwidth among
    them (the default dimensions are processors and memory), and the applications on the node
    known, [Fit] answers for an application on a node (but for an exception of the registry
    of its metrics): it fits exactly when in every dimension its request together with
    the demand of the tasks on the node is at most the node's capacity, that of processors
    multiplied by the scale factor on PMEM nodes (where the factor is a whole number too). *)
Theorem fit_accepts_iff_capacity {S} k spec capacity (q : QueryDataProviderInfo) caps node app apps :
  int_cluster spec capacity (q_apps_spec q) (q_nodes_capacities q) →
  scale_capacities pmem_nodes cpu_scale_factor (q_nodes_capacities q) = Ok caps → whole k node →
  is_Some (dget (q_nodes_capacities q) node) → dget (q_assigned_apps q) node = Some apps →
  known_apps (q_apps_spec q) apps → is_Some (dget (q_apps_spec q) app) →
  ∃ fits message metrics,
    (∀ st : alg_state S, fit_app_fit_node dims pmem_nodes cpu_scale_factor node (JStr app) q st =
       (_ ← extend_metrics metrics; mret (fits, message)) st) ∧
    (fits = true ↔ ∀ dim, dim ∈ dims →
       spec app dim + demand spec apps dim ≤
       if decide (dim = CPU ∧ node ∈ pmem_nodes) then capacity node dim * k else capacity node dim).
Proof.
  intros Hic Hs Hk Hn Ha Hkn Happ.
  destruct (fit_app_fit_node_decision (S:=S) k _ _ _ _ _ _ _ Hic Hs Hk Hn Ha Hkn Happ) as (message & metrics & He).
  eexists _, message, metrics. split; [exact He|]. apply all_le_true.
Qed.

(** ** Scheduling one task after another *)

(** A task joins, or leaves, the tasks of a node. *)
Definition assign_task (assigned : dict string Apps) (node : string) (apps : Apps) (app task : string)
    : dict string Apps :=
  dset assigned node (dset apps app (default [] (dget apps app) ++ [task])).
Definition remove_task (assigned : dict string Apps) (node : string) (apps : Apps) (app : string)
    (rest : list string) : dict string Apps :=
  dset assigned node (dset apps app rest).

(** The cluster under a scheduler that follows [Fit], whatever its metrics are: an accepted
    application gets a task on the node that accepted it; tasks finish at any time. *)
Inductive fit_step {S} (nodes_capacities apps_spec : dict string Resources)
    : dict string Apps → dict string Apps → Prop :=
  | fit_bind assigned unassigned (st st' : alg_state S) node app task apps message :
      fit_app_fit_node dims pmem_nodes cpu_scale_factor node (JStr app)
        (mkQuery nodes_capacities assigned apps_spec unassigned) st = (Ok (true, message), st') →
      dget assigned node = Some apps →
      fit_step nodes_capacities apps_spec assigned (assign_task assigned node apps app task)
  | fit_finish assigned node app apps tasks task rest :
      dget assigned node = Some apps → dget apps app = Some tasks → tasks ≡ₚ task :: rest →
      fit_step nodes_capacities apps_spec assigned (remove_task assigned node apps app rest).

Definition within_capacity (k : Z) (spec capacity : string → ResourceType → Z)
    (apps_spec : dict string Resources) (assigned : dict string Apps) : Prop :=
  ∀ node apps, dget assigned node = Some apps →
    known_apps apps_spec apps ∧
    (whole k node → ∀ dim, dim ∈ dims → demand spec apps dim ≤ fit_capacity k capacity node dim).

Lemma demand_cons spec app tasks apps dim :
  demand spec ((app, tasks) :: apps) dim =
  spec app dim * Z.of_nat (length tasks) + demand spec apps dim.
Proof. done. Qed.

Lemma demand_dset spec apps app tasks dim :
  demand spec (dset apps app tasks) dim =
  demand spec apps dim +
  spec app dim * (Z.of_nat (length tasks) - Z.of_nat (length (default [] (dget apps app)))).
Proof.
  induction apps as [|[a ts] apps IH]; [unfold demand; simpl; lia|].
  rewrite demand_cons. cbn [dset dget].
  destruct (decide (app = a)) as [->|Hne]; rewrite demand_cons; [change (default [] (Some ts)) with ts; lia|].
  rewrite IH. lia.
Qed.

Lemma known_apps_dset apps_spec apps app tasks :
  known_apps apps_spec apps → is_Some (dget apps_spec app) → known_apps apps_spec (dset apps app tasks).
Proof. intros Hk Ha a [->|Hin]%dkeys_dset_elem; auto. Qed.

Lemma app_fits_known nodes_capacities apps_spec assigned node app r :
  app_fits node app dims nodes_capacities assigned apps_spec = Ok r →
  is_Some (dget nodes_capacities node) ∧ is_Some (dget apps_spec app).
Proof.
  intros H. unfold app_fits, used_free_requested, dgetitem in H. inv_ok. by split; eexists.
Qed.

Lemma fit_node_known {S} (q : QueryDataProviderInfo) node app r (st st' : alg_state S) :
  dict_wf (q_nodes_capacities q) →
  fit_app_fit_node dims pmem_nodes cpu_scale_factor node (JStr app) q st = (Ok r, st') →
  is_Some (dget (q_nodes_capacities q) node) ∧ is_Some (dget (q_apps_spec q) app) ∧
  ∃ caps, scale_capacities pmem_nodes cpu_scale_factor (q_nodes_capacities q) = Ok caps.
Proof.
  intros Hwf H. unfold fit_app_fit_node in H.
  apply M_bind_Ok_iff in H as (caps & st1 & Hs & H). apply lift_Ok_iff in Hs as [Hs ->].
  apply M_bind_Ok_iff in H as (name & st2 & Hk & H). apply lift_Ok_iff in Hk as [[= <-] ->].
  apply M_bind_Ok_iff in H as (r' & st3 & Hf & _). apply lift_Ok_iff in Hf as [Hf ->].
  apply app_fits_known in Hf as [Hc Ha]. split_and!; [|done|eauto].
  pose proof (scale_loop _ _ _ Hwf Hs ltac:(by intros; apply dget_in) node) as Hl.
  case_decide; [|by rewrite <-Hl]. destruct Hl as (c & ? & ? & Hget & _). by eexists.
Qed.

Lemma extend_mret_Ok {S} metrics (b : bool) (message : failure) r (st st' : alg_state S) :
  (_ ← extend_metrics metrics; mret (b, message)) st = (Ok r, st') → r = (b, message).
Proof. intros (? & ? & _ & H)%M_bind_Ok_iff. by apply M_ret_Ok_iff in H as [-> _]. Qed.

Lemma fit_step_within {S} k spec capacity nodes_capacities apps_spec s s' :
  int_cluster spec capacity apps_spec nodes_capacities → (∀ app dim, 0 ≤ spec app dim) →
  fit_step (S:=S) nodes_capacities apps_spec s s' →
  within_capacity k spec capacity apps_spec s → within_capacity k spec capacity apps_spec s'.
Proof.
  intros Hic Hpos [assigned unassigned st st' node app task apps message Hfit Happs
                  |assigned node app apps tasks task rest Happs Htasks Hperm] Hs node' apps' Hget;
    unfold assign_task, remove_task in Hget; rewrite dget_dset in Hget;
    (destruct (decide (node = node')) as [<-|]; [|by apply Hs]); injection Hget as <-;
    destruct (Hs _ _ Happs) as [Hk Hd].
  - destruct (fit_node_known (mkQuery nodes_capacities assigned apps_spec unassigned)
      node app _ st st' (ic_nodes _ _ _ _ Hic) Hfit) as (Hn & Ha & caps & Hscale).
    split; [by apply known_apps_dset|]. intros Hwhole dim Hdim. rewrite demand_dset, length_app.
    destruct (fit_app_fit_node_decision (S:=S) k spec capacity
      (mkQuery nodes_capacities assigned apps_spec unassigned) caps node app apps Hic Hscale Hwhole Hn Happs Hk Ha)
      as (m & ms & He).
    rewrite He in Hfit. apply extend_mret_Ok in Hfit. injection Hfit as He' _. symmetry in He'.
    rewrite all_le_true in He'. specialize (He' dim Hdim). cbn beta in He'. simpl length. lia.
  - split; [apply known_apps_dset; [done|]; apply Hk, dget_is_Some; by eexists|].
    intros Hwhole dim Hdim. rewrite demand_dset, Htasks. simpl default.
    rewrite Hperm. specialize (Hd Hwhole dim Hdim). specialize (Hpos app dim). simpl length. lia.
Qed.

(** C7 (safety): with whole numbers that are not negative for requests, distinct dimensions
    and no memory bandwidth among them (the default dimensions are processors and memory), from
    an assignment of known applications that is within the capacities: when tasks are placed one after the other on nodes that [Fit] accepted, and finish at any
    time, no reachable assignment exceeds the capacity of a node in any of these dimensions
    (that of processors multiplied by the scale factor on PMEM nodes, where this factor
    has to be a whole number). *)
Theorem fit_never_exceeds_capacity {S} k spec capacity nodes_capacities apps_spec s s' :
  int_cluster spec capacity apps_spec nodes_capacities → (∀ app dim, 0 ≤ spec app dim) →
  within_capacity k spec capacity apps_spec s →
  rtc (fit_step (S:=S) nodes_capacities apps_spec) s s' →
  ∀ node apps, dget s' node = Some apps → whole k node →
    ∀ dim, dim ∈ dims → demand spec apps dim ≤ fit_capacity k capacity node dim.
Proof.
  intros Hic Hpos Hs Hrtc. assert (Hs' : within_capacity k spec capacity apps_spec s').
  { induction Hrtc; [done|]. eapply IHHrtc, fit_step_within; eauto. }
  intros node apps Hget. by apply (Hs' node apps).
Qed.
End fit.

(** ** A concrete cluster *)
Definition example_dims : list ResourceType := [CPU; MEM].
Definition example_spec (app : string) (dim : ResourceType) : Z :=
  match dim with CPU => 2 | MEM => 16 | _ => 0 end.
Definition example_capacity (node : string) (dim : ResourceType) : Z :=
  match dim with CPU => 4 | MEM => 64 | _ => 0 end.
Definition display (f : ResourceType → Z) : Resources := (λ dim, (dim, PInt (f dim))) <$> example_dims.
Definition example_apps_spec : dict string Resources := [("redis", display (example_spec "redis"))].
Definition example_capacities : dict string Resources :=
  [("n0", display (example_capacity "n0")); ("p0", display (example_capacity "p0"))].
Definition example_apps : Apps := [("redis", ["redis-0"])].
Definition example_assigned : dict string Apps := [("n0", example_apps); ("p0", [])].
Definition example_query : QueryDataProviderInfo :=
  mkQuery example_capacities example_assigned example_apps_spec [].

Lemma example_dims_NoDup : NoDup example_dims.
Proof. apply (bool_decide_eq_true_1 _). reflexivity. Qed.

Lemma example_int_cluster :
  int_cluster example_dims example_spec example_capacity example_apps_spec example_capacities.
Proof.
  split; [apply (bool_decide_eq_true_1 _); reflexivity|..];
    intros k r; simpl; repeat (case_decide; [|]); intros [= <-];
    apply (ints_on_display example_dims), example_dims_NoDup.
Qed.

Lemma example_known_apps : known_apps example_apps_spec example_apps.
Proof. intros app Hin. apply list_elem_of_singleton in Hin as ->. by eexists. Qed.

(** On the PMEM node the processors count three times. *)
Lemma fit_accepts_iff_capacity_witness :
  ∃ fits message metrics,
    (∀ st : alg_state unit,
       fit_app_fit_node example_dims ["p0"] (PInt 3) "p0" (JStr "redis") example_query st =
       (_ ← extend_metrics metrics; mret (fits, message)) st) ∧
    (fits = true ↔ ∀ dim, dim ∈ example_dims →
       example_spec "redis" dim + demand example_spec [] dim ≤
       if decide (dim = CPU ∧ "p0" ∈ ["p0"]) then example_capacity "p0" dim * 3
       else example_capacity "p0" dim).
Proof.
  eapply (fit_accepts_iff_capacity example_dims example_dims_NoDup ltac:(set_solver) ["p0"] (PInt 3) 3
           example_spec example_capacity example_query _ "p0" "redis" [] example_int_cluster);
    [vm_compute; reflexivity|done|by eexists|done| |by eexists].
  intros app Hin. by apply not_elem_of_nil in Hin.
Defined.

Lemma example_within :
  within_capacity example_dims ["p0"] (PInt 3) 3 example_spec example_capacity example_apps_spec
    example_assigned.
Proof.
  intros node apps; simpl. case_decide as Hn; [|case_decide; [|done]]; intros [= <-].
  - split; [exact example_known_apps|]. intros _ [] _; subst node; vm_compute; discriminate.
  - split; [|intros _ [] _; subst node; vm_compute; discriminate].
    intros app Hin. by apply not_elem_of_nil in Hin.
Qed.

(** One more task is accepted: the node is then full. *)
Definition example_next : dict string Apps :=
  assign_task example_assigned "n0" example_apps "redis" "redis-1".

Lemma example_step :
  rtc (fit_step (S:=unit) example_dims ["p0"] (PInt 3) example_capacities example_apps_spec)
    example_assigned example_next.
Proof.
  apply rtc_once. eapply fit_bind with (unassigned := []) (st := mkAlgState [] tt); [|done].
  vm_compute. reflexivity.
Qed.

Lemma fit_never_exceeds_capacity_witness :
  demand example_spec (default [] (dget example_next "n0")) CPU = 4 ∧
  ∀ node apps, dget example_next node = Some apps → whole ["p0"] (PInt 3) 3 node →
    ∀ dim, dim ∈ example_dims → demand example_spec apps dim ≤ fit_capacity ["p0"] 3 example_capacity node dim.
Proof.
  split; [reflexivity|].
  apply (fit_never_exceeds_capacity (S:=unit) example_dims example_dims_NoDup ltac:(set_solver)
           ["p0"] (PInt 3) 3 example_spec example_capacity example_capacities example_apps_spec
           example_assigned example_next example_int_cluster).
  - intros app []; vm_compute; discriminate.
  - exact example_within.
  - exact example_step.
Defined.

(** A provider that always gives the same answers. *)
#[export] Instance example_provider : DataProvider unit := {
  get_nodes_capacities := λ _, mret example_capacities;
  get_apps_counts := mret (example_assigned, []);
  get_apps_requested_resources := λ _, mret example_apps_spec;
  get_dram_hit_ratio := mret [];
  get_pmem_nodes := mret []
}.
Definition example_fit : Algorithm unit :=
  Fit example_dims (PInt 10) [] (PFloat (float_of_ratio 1 1)).
Definition example_args : ExtenderArgs :=
  mkExtenderArgs (JObj [("metadata", JObj [("labels", JObj [("app", JStr "redis")])])]) ["n0"].
Definition example_alg_state : alg_state unit := mkAlgState [] tt.

Lemma filter_partitions_nodes_witness :
  let o := alg_filter example_fit example_args example_alg_state in
  let r := result_get (mkExtenderFilterResult [] []) o.1 in
  (∀ n, n ∈ ea_NodeNames example_args ↔ n ∈ efr_NodeNames r ∨ n ∈ dkeys (efr_FailedNodes r)) ∧
  (∀ n, n ∈ efr_NodeNames r → n ∉ dkeys (efr_FailedNodes r)).
Proof.
  intros o r. apply (filter_partitions_nodes example_fit example_args example_alg_state r o.2).
  - apply (bool_decide_eq_true_1 _). reflexivity.
  - apply outcome_Ok. vm_compute. reflexivity.
Defined.

Lemma prioritize_scores_every_node_witness :
  let o := alg_prioritize example_fit example_args example_alg_state in
  let r := result_get [] o.1 in
  hp_Host <$> r = py_sorted String.ltb (ea_NodeNames example_args) ∧
  (hp_Host <$> r) ≡ₚ ea_NodeNames example_args.
Proof.
  intros o r. apply (prioritize_scores_every_node example_fit example_args example_alg_state r o.2).
  apply outcome_Ok. vm_compute. reflexivity.
Defined.
