(* ===== verification/Simulator.v ===== *)
(** * The cluster simulator

    [src/wca/scheduler/cluster_simulator.py]: tasks that a scheduling algorithm binds
    to nodes, iteration by iteration.  Tasks and nodes are objects compared by
    identity: they are positions in the lists of the simulator.  The algorithm asks a
    data provider that may look at the simulator. *)
From S2P Require Export SchedFit.

(** ** Resources *)

(** src/wca/scheduler/cluster_simulator.py:37-39 [Resources.create_empty] *)
Definition create_empty (dimensions : list ResourceType) : Resources :=
  dict_of ((λ d, (d, PInt 0)) <$> dimensions).

(** src/wca/scheduler/cluster_simulator.py:46-47 [Resources.__bool__] *)
Definition res_bool (a : Resources) : bool :=
  forallb (λ v, ngtb v (PInt 0) || nltb (nabs v) (PFloat (float_of_ratio 1 10000))) (dvalues a).

(** [for key in self.data.keys(): self.data[key] op= b.data[key]] *)
Definition res_zip (op : num → num → result num) (a b : Resources) : result Resources :=
  _ ← py_assert (same_keys a b);
  foldM (λ c '(key, x), y ← dgetitem b key; z ← op x y; Ok (dset c key z)) a a.

(** src/wca/scheduler/cluster_simulator.py:54-58 [Resources.subtract] *)
Definition res_subtract (a b : Resources) : result Resources := res_zip nsub a b.

(** src/wca/scheduler/cluster_simulator.py:86-90 [Resources.add] *)
Definition res_add (a b : Resources) : result Resources := res_zip nadd a b.

(** src/wca/scheduler/cluster_simulator.py:104-107 [Resources.divide] *)
Definition res_divide (a b : Resources) : result Resources := res_zip ndiv a b.

(** src/wca/scheduler/cluster_simulator.py:92-97 [Resources.sum] *)
Definition res_sum (array : list Resources) : result Resources :=
  match array with
  | [] => Raise IndexError
  | first :: _ => foldM res_add (create_empty (dkeys first)) array
  end.

(** src/wca/scheduler/cluster_simulator.py:60-79 [Resources.subtract_aep_aware] *)
Definition subtract_aep_aware (a b : Resources) (membw_read_write_ratio : num) : result Resources :=
  _ ← py_assert (same_keys a b);
  c ← foldM (λ c '(key, x),
        if is_membw_rw key then Ok c
        else y ← dgetitem b key; z ← nsub x y; Ok (dset c key z)) a a;
  if dmem a MEMBW_READ && dmem a MEMBW_WRITE then
    xr ← dgetitem c MEMBW_READ; yr ← dgetitem b MEMBW_READ; yw ← dgetitem b MEMBW_WRITE;
    r1 ← nsub xr yr; r2 ← nmul yw membw_read_write_ratio; r ← nsub r1 r2;
    let c := dset c MEMBW_READ r in
    xw ← dgetitem c MEMBW_WRITE;
    w1 ← nsub xw yw; w2 ← ndiv yr membw_read_write_ratio; w ← nsub w1 w2;
    Ok (dset c MEMBW_WRITE w)
  else Ok c.

(** ** Tasks and nodes *)

(** src/wca/scheduler/cluster_simulator.py:110-120 [Task]
    The assignment is the position of a node. *)
Record SimTask := mkSimTask {
  st_name : string; st_requested : Resources; st_duration : option Z;
  st_assignment : option nat; st_node_name : option string; st_life_time : Z
}.
Definition set_assignment (a : option nat) (t : SimTask) : SimTask :=
  mkSimTask (st_name t) (st_requested t) (st_duration t) a (st_node_name t) (st_life_time t).
Definition set_node_name (n : option string) (t : SimTask) : SimTask :=
  mkSimTask (st_name t) (st_requested t) (st_duration t) (st_assignment t) n (st_life_time t).
Definition set_life_time (l : Z) (t : SimTask) : SimTask :=
  mkSimTask (st_name t) (st_requested t) (st_duration t) (st_assignment t) (st_node_name t) l.

(** The text before the first occurrence of [sep]. *)
Fixpoint text_before (sep s : string) : option string :=
  if startswith sep s then Some ""
  else match s with
       | EmptyString => None
       | String c s' => String c <$> text_before sep s'
       end.

(** src/wca/scheduler/cluster_simulator.py:133-138 [Task.get_core_name] *)
Definition get_core_name (t : SimTask) : string := default (st_name t) (text_before "___" (st_name t)).

(** src/wca/scheduler/cluster_simulator.py:140-146 [Task.update] *)
Definition task_update (t : SimTask) : SimTask :=
  match st_assignment t with
  | None => t
  | Some _ =>
      let t := set_life_time (st_life_time t + 1) t in
      match st_duration t with
      | Some d => if st_life_time t >? d then set_assignment None t else t
      | None => t
      end
  end.

(** src/wca/scheduler/cluster_simulator.py:157-166 [Node] *)
Record SimNode := mkSimNode { sn_name : string; sn_initial : Resources }.

(** src/wca/scheduler/cluster_simulator.py:171-175 [Node.get_membw_read_write_ratio] *)
Definition node_ratio (n : SimNode) : result num :=
  if dmem (sn_initial n) MEMBW_READ && dmem (sn_initial n) MEMBW_WRITE then
    r ← dgetitem (sn_initial n) MEMBW_READ; w ← dgetitem (sn_initial n) MEMBW_WRITE; ndiv r w
  else Ok (PInt 1).

(** src/wca/scheduler/cluster_simulator.py:177-183 [Node._calculate_unassigned]
    The node stands at position [i]. *)
Definition calculate_unassigned (i : nat) (n : SimNode) (tasks : list SimTask) : result Resources :=
  foldM (λ unassigned task,
    if bool_decide (st_assignment task = Some i)
    then ratio ← node_ratio n; subtract_aep_aware unassigned (st_requested task) ratio
    else Ok unassigned) (sn_initial n) tasks.

(** src/wca/scheduler/cluster_simulator.py:185-189 [Node.validate_assignment] *)
Definition validate_assignment (i : nat) (n : SimNode) (tasks : list SimTask) (new_task : SimTask)
    : result bool :=
  unassigned ← calculate_unassigned i n tasks;
  ratio ← node_ratio n;
  unassigned ← subtract_aep_aware unassigned (st_requested new_task) ratio;
  Ok (res_bool unassigned).

(** ** The simulator *)

(** src/wca/scheduler/cluster_simulator.py:192-202 [ClusterSimulator], what changes *)
Record Sim := mkSim {
  sim_tasks : list SimTask; sim_nodes : list SimNode; sim_rough : dict nat Z
}.
Record SimConfig := mkSimConfig { allow_rough_assignment : bool; retry_scheduling : bool }.

Definition set_tasks (f : list SimTask → list SimTask) (s : Sim) : Sim :=
  mkSim (f (sim_tasks s)) (sim_nodes s) (sim_rough s).
Definition set_rough (f : dict nat Z → dict nat Z) (s : Sim) : Sim :=
  mkSim (sim_tasks s) (sim_nodes s) (f (sim_rough s)).
(** A change of the task at position [i]. *)
Definition set_task (i : nat) (f : SimTask → SimTask) (s : Sim) : Sim := set_tasks (alter f i) s.

(** src/wca/scheduler/cluster_simulator.py:201-202 [ClusterSimulator.__post_init__] *)
Definition sim_init (tasks : list SimTask) (nodes : list SimNode) : Sim :=
  mkSim tasks nodes ((λ i, (i, 0)) <$> seq 0 (length nodes)).

(** The positions of the elements that satisfy [p]. *)
Definition positions {A} (p : A → bool) (l : list A) : list nat :=
  fst <$> List.filter (λ ix, p ix.2) (imap (λ i x, (i, x)) l).

(** [filtered = [...]; assert len(filtered) == 1; return filtered[0]] *)
Definition the_one (l : list nat) : result nat :=
  match l with [i] => Ok i | _ => Raise AssertionError end.

(** src/wca/scheduler/cluster_simulator.py:204-207 [ClusterSimulator.get_task_by_name] *)
Definition get_task_by_name (s : Sim) (name : string) : result nat :=
  the_one (positions (λ t, String.eqb (st_name t) name) (sim_tasks s)).

(** src/wca/scheduler/cluster_simulator.py:209-212 [ClusterSimulator.get_node_by_name] *)
Definition get_node_by_name (s : Sim) (name : string) : result nat :=
  the_one (positions (λ n, String.eqb (sn_name n) name) (sim_nodes s)).

(** src/wca/scheduler/cluster_simulator.py:217-232 [ClusterSimulator.per_node_resource_usage]
    A task of another simulator's node raises [KeyError]. *)
Definition per_node_resource_usage (s : Sim) (if_percentage : bool) : result (dict nat Resources) :=
  dims ← match sim_nodes s with [] => Raise IndexError | n :: _ => Ok (dkeys (sn_initial n)) end;
  usage ← foldM (λ usage task,
            match st_assignment task with
            | None => Ok usage
            | Some i => u ← dgetitem usage i; u ← res_add u (st_requested task); Ok (dset usage i u)
            end) ((λ i, (i, create_empty dims)) <$> seq 0 (length (sim_nodes s))) (sim_tasks s);
  if if_percentage : bool then
    mapM (λ '(i, u), n ← or_raise KeyError (sim_nodes s !! i); p ← res_divide u (sn_initial n); Ok (i, p)) usage
  else Ok usage.

(** src/wca/scheduler/cluster_simulator.py:234-240 [ClusterSimulator.cluster_resource_usage] *)
Definition cluster_resource_usage (s : Sim) (if_percentage : bool) : result Resources :=
  usage ← per_node_resource_usage s false;
  r ← res_sum (dvalues usage);
  if if_percentage : bool then total ← res_sum (sn_initial <$> sim_nodes s); res_divide r total
  else Ok r.

(** The element with the greatest score, the first of them. *)
Fixpoint best_priority (best : HostPriority) (l : list HostPriority) : HostPriority :=
  match l with
  | [] => best
  | x :: l' => best_priority (if hp_Score best <? hp_Score x then x else best) l'
  end.

Section simulator.
  Context `{DataProvider Sim} (cfg : SimConfig) (alg : Algorithm Sim).

Definition sim_state : Type := alg_state Sim.
Definition the_sim : M sim_state Sim := λ st, (Ok (as_provider st), st).
Definition change_sim (f : Sim → Sim) : M sim_state unit :=
  λ st, (Ok tt, mkAlgState (as_metrics st) (f (as_provider st))).

(** src/wca/scheduler/cluster_simulator.py:242-244 [ClusterSimulator.update_tasks_life] *)
Definition update_tasks_life : M sim_state unit := change_sim (set_tasks (fmap task_update)).

(** src/wca/scheduler/cluster_simulator.py:246-255 [ClusterSimulator.perform_assignment] *)
Definition perform_assignment (task node : nat) : M sim_state bool :=
  s ← the_sim;
  t ← lift (or_raise IndexError (sim_tasks s !! task));
  n ← lift (or_raise IndexError (sim_nodes s !! node));
  task_fits_node ← lift (validate_assignment node n (sim_tasks s) t);
  if task_fits_node || allow_rough_assignment cfg then
    _ ← change_sim (set_task task (set_assignment (Some node)));
    _ ← (if task_fits_node then mret tt
         else rough ← lift (dgetitem (sim_rough s) node);
              change_sim (set_rough (λ d, dset d node (rough + 1))) : M sim_state unit);
    mret true
  else mret false.

(** The pod that stands for a task. *)
Definition task_pod (t : SimTask) : json :=
  JObj [("metadata", JObj [("labels", JObj [("app", JStr (get_core_name t))]);
                           ("name", JStr (st_name t)); ("namespace", JStr "default")])].

(** src/wca/scheduler/cluster_simulator.py:257-288 [ClusterSimulator.call_scheduler] *)
Definition call_scheduler (task : nat) : M sim_state (option nat) :=
  s ← the_sim;
  t ← lift (or_raise IndexError (sim_tasks s !! task));
  let node_names := sn_name <$> sim_nodes s in
  filtered ← alg_filter alg (mkExtenderArgs (task_pod t) node_names);
  let filtered_nodes := List.filter (λ n, negb (dmem (efr_FailedNodes filtered) n)) node_names in
  prioritized ← alg_prioritize alg (mkExtenderArgs (task_pod t) filtered_nodes);
  match prioritized with
  | [] => mret None
  | p :: ps => s ← the_sim; i ← lift (get_node_by_name s (hp_Host (best_priority p ps))); mret (Some i)
  end.

(** src/wca/scheduler/cluster_simulator.py:296-305 [ClusterSimulator.iterate], one new task;
    the positions of new tasks left to the scheduler. *)
Definition add_new_task (new_unassigned_tasks : list nat) (new_task : SimTask)
    : M sim_state (list nat) :=
  s ← the_sim;
  let i := length (sim_tasks s) in
  _ ← change_sim (set_tasks (λ l, l ++ [new_task]));
  match st_node_name new_task with
  | Some node_name =>
      s ← the_sim;
      node ← lift (get_node_by_name s node_name);
      _ ← change_sim (set_task i (λ t, set_node_name None (set_assignment (Some node) t)));
      mret new_unassigned_tasks
  | None => mret (new_unassigned_tasks ++ [i])
  end.

(** src/wca/scheduler/cluster_simulator.py:319-323 [ClusterSimulator.iterate], one task *)
Definition schedule_task (assigned_count : Z) (task : nat) : M sim_state Z :=
  node ← call_scheduler task;
  match node with
  | Some node => ok ← perform_assignment task node; mret (assigned_count + (if ok : bool then 1 else 0))
  | None => mret assigned_count
  end.

(** src/wca/scheduler/cluster_simulator.py:327-333 [ClusterSimulator.iterate], rescheduling *)
Definition sim_reschedule : M sim_state unit :=
  reschedule_result ← alg_reschedule alg;
  forM_ reschedule_result (λ name,
    s ← the_sim; task ← lift (get_task_by_name s name);
    change_sim (set_task task (set_assignment None))).

(** src/wca/scheduler/cluster_simulator.py:290-339 [ClusterSimulator.iterate] *)
Definition iterate (new_tasks : list SimTask) : M sim_state Z :=
  new_unassigned_tasks ← foldMS add_new_task [] new_tasks;
  s ← the_sim;
  let unassigned_tasks :=
    match new_unassigned_tasks with
    | [] => if retry_scheduling cfg
            then positions (λ t, bool_decide (st_assignment t = None)) (sim_tasks s) else []
    | _ => new_unassigned_tasks
    end in
  assigned_count ←
    match unassigned_tasks, new_tasks with
    | _ :: _, _ => foldMS schedule_task 0 unassigned_tasks
    | [], [] => _ ← sim_reschedule; mret 0
    | [], _ => mret 0
    end : M sim_state Z;
  _ ← update_tasks_life;
  mret assigned_count.

(** src/wca/scheduler/cluster_simulator.py:341-350 [ClusterSimulator.iterate_single_task] *)
Definition iterate_single_task (new_task : option SimTask) : M sim_state Z :=
  match new_task with
  | None => iterate []
  | Some t =>
      s ← the_sim;
      _ ← lift (py_assert (negb (existsb (λ t', String.eqb (st_name t') (st_name t)) (sim_tasks s))));
      iterate [t]
  end.
End simulator.

(** ** The data provider that looks at a simulator *)

(** src/tests/scheduler/simulator/data_provider.py:97-106 [ClusterSimulatorDataProvider.get_nodes_capacities] *)
Definition sim_nodes_capacities (resources : list ResourceType) (s : Sim)
    : result (dict string Resources) :=
  foldM (λ r node,
    caps ← mapM (λ d, v ← dgetitem (sn_initial node) d; Ok (d, v)) resources;
    Ok (dset r (sn_name node) (dict_of caps))) [] (sim_nodes s).

(** src/tests/scheduler/simulator/data_provider.py:108-125 [ClusterSimulatorDataProvider.get_apps_counts] *)
Definition sim_apps_counts (s : Sim) : result (dict string Apps * AppsCount) :=
  foldM (λ acc task,
    let app_name := get_core_name task in
    match st_assignment task with
    | Some i =>
        node ← or_raise KeyError (sn_name <$> sim_nodes s !! i);
        apps ← dgetitem acc.1 node;
        Ok (dset acc.1 node (dset apps app_name (default [] (dget apps app_name) ++ [st_name task])), acc.2)
    | None => Ok (acc.1, dset acc.2 app_name (default 0 (dget acc.2 app_name) + 1))
    end) (dict_of ((λ n, (sn_name n, [])) <$> sim_nodes s), []) (sim_tasks s).

(** src/tests/scheduler/simulator/data_provider.py:127-135 [ClusterSimulatorDataProvider.get_apps_requested_resources] *)
Definition sim_apps_requested (resources : list ResourceType) (s : Sim)
    : result (dict string Resources) :=
  foldM (λ r task,
    reqs ← mapM (λ d, v ← dgetitem (st_requested task) d; Ok (d, v)) resources;
    Ok (dset r (get_core_name task) (dict_of reqs))) [] (sim_tasks s).

(** src/tests/scheduler/simulator/data_provider.py:91-161 [ClusterSimulatorDataProvider]
    The hit ratio is 1 for every node. *)
Definition simulator_provider : DataProvider Sim := {|
  get_nodes_capacities := λ resources s, (sim_nodes_capacities resources s, s);
  get_apps_counts := λ s, (sim_apps_counts s, s);
  get_apps_requested_resources := λ resources s, (sim_apps_requested resources s, s);
  get_dram_hit_ratio := λ s, (Ok ((λ n, (sn_name n, PInt 1)) <$> sim_nodes s), s);
  get_pmem_nodes := λ s, (Ok [], s)
|}.
