(* ===== verification/SimulatorSpec.v ===== *)
(** * What the simulator promises

    Abstractly a cluster is a placement of task names on nodes; a task is placed only
    where the node's capacity has room for it, or on the node that it names itself, and may
    leave at any time.  With integer resources other than memory bandwidth and without rough
    assignments, every iteration of the simulator is a sequence of such steps, whatever
    scheduling algorithm it calls, if this algorithm only reads the simulator. *)
From stdpp Require Import gmap relations.
From S2P Require Export Simulator.

(** ** The abstract cluster *)
Abbreviation placement := (gmap string nat).

Section cluster.
  Context (dims : list ResourceType) (req : string → ResourceType → Z) (cap : nat → ResourceType → Z).
  (** The node that a task names, and the names of the nodes. *)
  Context (bound_to : string → option string) (node_names : list string).

(** The demand of the tasks placed on a node. *)
Definition placed_load (l : list (string * nat)) (n : nat) (dim : ResourceType) : Z :=
  foldr (λ tn acc, (if decide (tn.2 = n) then req tn.1 dim else 0) + acc) 0 l.
Definition load (pl : placement) : nat → ResourceType → Z := placed_load (map_to_list pl).

Inductive cluster_step : placement → placement → Prop :=
  | place pl t n :
      pl !! t = None → (∀ dim, dim ∈ dims → load pl n dim + req t dim ≤ cap n dim) →
      cluster_step pl (<[t := n]> pl)
  | bind pl t n node_name :
      pl !! t = None → bound_to t = Some node_name → node_names !! n = Some node_name →
      cluster_step pl (<[t := n]> pl)
  | leave pl t : cluster_step pl (delete t pl).

#[export] Instance placed_load_proper :
  Proper ((≡ₚ) ==> eq ==> eq ==> eq) placed_load.
Proof.
  intros l1 l2 Hl n ? <- dim ? <-. unfold placed_load. induction Hl; simpl; lia || congruence.
Qed.

Lemma load_insert pl t n n' dim :
  pl !! t = None →
  load (<[t := n]> pl) n' dim = (if decide (n = n') then req t dim else 0) + load pl n' dim.
Proof.
  intros Ht. unfold load.
  by rewrite (placed_load_proper _ _ (map_to_list_insert pl t n Ht) n' n' eq_refl dim dim eq_refl).
Qed.

Lemma load_delete pl t n n' dim :
  pl !! t = Some n →
  load pl n' dim = (if decide (n = n') then req t dim else 0) + load (delete t pl) n' dim.
Proof.
  intros Ht. rewrite <-(insert_delete_id pl t n Ht) at 1. rewrite load_insert; [done|].
  apply lookup_delete_eq.
Qed.

(** Dropping tasks is a sequence of steps. *)
Lemma sub_placement_rtc pl pl' : pl' ⊆ pl → rtc cluster_step pl pl'.
Proof.
  intros Hsub.
  assert (Heq : pl' = foldr delete pl (elements (dom pl ∖ dom pl'))).
  { apply map_eq. intros t. destruct (decide (t ∈ dom pl ∖ dom pl')) as [Hin|Hni].
    - rewrite lookup_foldr_delete by by apply elem_of_elements.
      apply not_elem_of_dom. set_solver.
    - rewrite lookup_foldr_delete_not_elem_of by by rewrite elem_of_elements.
      destruct (pl' !! t) as [n|] eqn:E; [symmetry; by eapply lookup_weaken|].
      symmetry. apply not_elem_of_dom. apply not_elem_of_dom in E. set_solver. }
  rewrite Heq. generalize (elements (dom pl ∖ dom pl')). clear.
  induction l as [|t l IH]; simpl; [done|]. eapply rtc_r; [exact IH|]. apply leave.
Qed.

(** A node that no task names. *)
Definition unnamed (n : nat) : Prop :=
  ∀ t node_name, bound_to t = Some node_name → node_names !! n ≠ Some node_name.

Definition fits_on (n : nat) (pl : placement) : Prop :=
  ∀ dim, dim ∈ dims → load pl n dim ≤ cap n dim.

Lemma cluster_step_fits n pl pl' :
  (∀ t dim, 0 ≤ req t dim) → unnamed n → cluster_step pl pl' → fits_on n pl → fits_on n pl'.
Proof.
  intros Hpos Hn [pl1 t n1 Ht Hroom|pl1 t n1 nm Ht Hb Hnm|pl1 t] Hfits dim Hdim.
  - rewrite load_insert by done. specialize (Hfits dim Hdim). specialize (Hroom dim Hdim).
    case_decide; subst; lia.
  - rewrite load_insert by done. rewrite decide_False by (intros ->; by apply (Hn t nm)).
    by apply Hfits.
  - specialize (Hfits dim Hdim). specialize (Hpos t dim). destruct (pl1 !! t) as [n'|] eqn:E.
    + rewrite (load_delete _ _ _ _ _ E) in Hfits. case_decide; lia.
    + by rewrite delete_id.
Qed.

Lemma cluster_steps_fit n pl pl' :
  (∀ t dim, 0 ≤ req t dim) → unnamed n → rtc cluster_step pl pl' → fits_on n pl → fits_on n pl'.
Proof. intros Hpos Hn. induction 1; eauto using cluster_step_fits. Qed.
End cluster.

(** ** The simulator's placement *)
Definition placed (t : SimTask) : option (string * nat) := n ← st_assignment t; Some (st_name t, n).
Definition abs (s : Sim) : placement := list_to_map (omap placed (sim_tasks s)).

Lemma placed_names tasks : (omap placed tasks).*1 `sublist_of` (st_name <$> tasks).
Proof.
  induction tasks as [|t tasks IH]; [done|]. cbn [omap list_omap fmap list_fmap].
  unfold placed at 1. destruct (st_assignment t); simpl; by constructor.
Qed.

Lemma placed_NoDup tasks : NoDup (st_name <$> tasks) → NoDup (omap placed tasks).*1.
Proof. intros Hnd. eapply sublist_NoDup; [done|apply placed_names]. Qed.

Lemma abs_lookup s name n :
  NoDup (st_name <$> sim_tasks s) →
  abs s !! name = Some n ↔ ∃ i t, sim_tasks s !! i = Some t ∧ st_name t = name ∧ st_assignment t = Some n.
Proof.
  intros Hnd. unfold abs. rewrite <-elem_of_list_to_map by by apply placed_NoDup.
  rewrite list_elem_of_omap. unfold placed. split.
  - intros (t & Hin & Ht). apply list_elem_of_lookup in Hin as [i Hi].
    destruct (st_assignment t) eqn:E; [|done]. injection Ht as <- <-. eauto.
  - intros (i & t & Hi & <- & Ht). exists t. split; [by eapply list_elem_of_lookup_2|]. by rewrite Ht.
Qed.

(** ** Integer clusters *)
Section refinement.
  Context (dims : list ResourceType) (req : string → ResourceType → Z) (cap : nat → ResourceType → Z).
  Context (bound_to : string → option string) (node_names : list string).
  Context (Hread : MEMBW_READ ∉ dims) (Hwrite : MEMBW_WRITE ∉ dims).

Definition task_ok (t : SimTask) : Prop := ints_on dims (st_requested t) (req (st_name t)).

(** The invariant of the simulator: unique names of tasks, integer resources, and the same
    nodes all the time. *)
Record sim_ok (s : Sim) : Prop := mkSimOk {
  ok_names : NoDup (st_name <$> sim_tasks s);
  ok_tasks : Forall task_ok (sim_tasks s);
  ok_nodes : ∀ i n, sim_nodes s !! i = Some n → ints_on dims (sn_initial n) (cap i);
  ok_node_names : sn_name <$> sim_nodes s = node_names
}.

(** The demand of the tasks of a node in the simulator's list. *)
Definition tasks_load (tasks : list SimTask) (i : nat) (dim : ResourceType) : Z :=
  placed_load req (omap placed tasks) i dim.

Lemma tasks_load_cons t tasks i dim :
  tasks_load (t :: tasks) i dim =
  (if decide (st_assignment t = Some i) then req (st_name t) dim else 0) + tasks_load tasks i dim.
Proof.
  unfold tasks_load. cbn [omap list_omap]. unfold placed at 1.
  destruct (st_assignment t) as [n|]; [|by rewrite decide_False].
  cbn [mbind option_bind placed_load foldr fst snd].
  destruct (decide (n = i)) as [->|Hne]; [by rewrite (decide_True (P:=Some i = Some i))|].
  by rewrite (decide_False (P:=Some n = Some i)) by congruence.
Qed.

Lemma abs_load s i dim :
  NoDup (st_name <$> sim_tasks s) → load req (abs s) i dim = tasks_load (sim_tasks s) i dim.
Proof.
  intros Hnd. apply placed_load_proper; [|done..]. by apply map_to_list_to_map, placed_NoDup.
Qed.

Lemma node_ratio_ints n f : ints_on dims (sn_initial n) f → node_ratio n = Ok (PInt 1).
Proof. intros Hn. unfold node_ratio. by rewrite (ints_on_no_dim dims _ f). Qed.

Lemma subtract_aep_ints a b f g r :
  ints_on dims a f → ints_on dims b g →
  ∃ c, subtract_aep_aware a b r = Ok c ∧ ints_on dims c (λ dim, f dim - g dim).
Proof.
  intros Ha Hb. unfold subtract_aep_aware. rewrite (ints_on_same_keys dims a b f g) by done.
  cbn [mbind result_bind py_assert].
  destruct (ints_on_loop dims (λ dim x, y ← dgetitem b dim; nsub x y) f (λ dim, f dim - g dim) a a)
    as (c & Hc & Hci); [done|..].
  - intros dim Hdim. by rewrite (ints_on_getitem dims b g).
  - apply Ha.
  - intros dim Hdim. destruct Ha as [_ Ha]. by rewrite Ha, decide_False.
  - exists c. split; [|done]. apply bind_Ok_iff. exists c. split.
    + etrans; [|exact Hc]. apply foldM_ext. intros c' [dim x] Hin.
      apply (ints_on_elem dims _ _ _ _ Ha) in Hin as [_ Hdim].
      replace (is_membw_rw dim) with false by (destruct dim; done).
      by destruct (dgetitem b dim).
    + by rewrite (ints_on_no_dim dims a f).
Qed.

Lemma calculate_unassigned_ints i n tasks f :
  ints_on dims (sn_initial n) f → Forall task_ok tasks →
  ∃ u, calculate_unassigned i n tasks = Ok u ∧ ints_on dims u (λ dim, f dim - tasks_load tasks i dim).
Proof.
  intros Hn Htasks. unfold calculate_unassigned.
  assert (Hgen : ∀ u g, ints_on dims u g → ∃ u', foldM (λ unassigned task,
    if bool_decide (st_assignment task = Some i)
    then ratio ← node_ratio n; subtract_aep_aware unassigned (st_requested task) ratio
    else Ok unassigned) u tasks = Ok u' ∧ ints_on dims u' (λ dim, g dim - tasks_load tasks i dim)).
  2: { by apply Hgen. }
  induction Htasks as [|t tasks Ht _ IH]; intros u g Hu.
  - exists u. split; [done|]. eapply ints_on_ext; [|exact Hu]. intros dim _. unfold tasks_load. simpl. lia.
  - cbn [foldM]. case_bool_decide as Ha.
    + destruct (subtract_aep_ints u (st_requested t) g (req (st_name t)) (PInt 1) Hu Ht) as (u1 & H1 & Hu1).
      destruct (IH u1 _ Hu1) as (u' & Hu' & Hi). exists u'. split.
      { apply bind_Ok_iff. exists u1. split; [|exact Hu']. by rewrite (node_ratio_ints n f Hn). }
      eapply ints_on_ext; [|exact Hi]. intros dim _. cbn beta. rewrite tasks_load_cons, decide_True by done. lia.
    + destruct (IH u g Hu) as (u' & Hu' & Hi). exists u'. split; [exact Hu'|].
      eapply ints_on_ext; [|exact Hi]. intros dim _. cbn beta. rewrite tasks_load_cons, decide_False by done. lia.
Qed.

(** Without fractions, "enough" is "not negative". *)
Lemma enough_int z : ngtb (PInt z) (PInt 0) || nltb (nabs (PInt z)) (PFloat (float_of_ratio 1 10000)) = (0 <=? z).
Proof.
  unfold ngtb. rewrite nltb_PInt. destruct z as [|p|p]; [done|done|].
  replace (float_of_ratio 1 10000) with (S754_finite false 7378697629483821 (-66)) by (vm_compute; reflexivity).
  assert (Hc : ncompare (nabs (PInt (Zneg p))) (PFloat (S754_finite false 7378697629483821 (-66))) = Some Gt).
  { change (Some (Zpos p * 2 ^ 66 ?= 7378697629483821) = Some Gt). f_equal. apply Z.compare_gt_iff. lia. }
  unfold nltb. by rewrite Hc.
Qed.

Lemma res_bool_ints a f : ints_on dims a f → res_bool a = all_le dims (λ _, 0) f.
Proof.
  intros Ha. apply eq_true_iff_eq. rewrite all_le_true. unfold res_bool. rewrite forallb_forall. split.
  - intros Hall dim Hdim. pose proof (ints_on_get dims a f dim Ha Hdim) as Hg. apply dget_Some_in in Hg.
    specialize (Hall (PInt (f dim))). rewrite enough_int in Hall. apply Z.leb_le, Hall.
    apply list_elem_of_In, list_elem_of_fmap. by exists (dim, PInt (f dim)).
  - intros Hall v Hin. apply list_elem_of_In, list_elem_of_fmap in Hin as ([dim v'] & -> & Hin).
    apply (ints_on_elem dims _ _ _ _ Ha) in Hin as [-> Hdim]. cbn [snd]. rewrite enough_int.
    by apply Z.leb_le, Hall.
Qed.

Lemma validate_assignment_ints s i n t :
  sim_ok s → sim_nodes s !! i = Some n → task_ok t →
  ∃ b, validate_assignment i n (sim_tasks s) t = Ok b ∧
    (b = true ↔ ∀ dim, dim ∈ dims → load req (abs s) i dim + req (st_name t) dim ≤ cap i dim).
Proof.
  intros [Hnd Htasks Hnodes _] Hn Ht. pose proof (Hnodes _ _ Hn) as Hi.
  destruct (calculate_unassigned_ints i n (sim_tasks s) _ Hi Htasks) as (u & Hu & Hui).
  destruct (subtract_aep_ints _ _ _ _ (PInt 1) Hui Ht) as (u' & Hu' & Hui').
  exists (res_bool u'). unfold validate_assignment. rewrite Hu. cbn [mbind result_bind].
  rewrite (node_ratio_ints n _ Hi). cbn [mbind result_bind]. rewrite Hu'. split; [done|].
  rewrite (res_bool_ints _ _ Hui'), all_le_true. apply forall_proper. intros dim.
  rewrite abs_load by done. split; intros Hle Hdim; specialize (Hle Hdim); lia.
Qed.
(** *** Changes of the task list *)

(** Only assignments change, and only to nothing. *)
Definition weaker (t t' : SimTask) : Prop :=
  st_name t' = st_name t ∧ st_requested t' = st_requested t ∧
  (st_assignment t' = st_assignment t ∨ st_assignment t' = None).

Lemma weaker_refl t : weaker t t.
Proof. split_and!; auto. Qed.

Lemma task_update_weaker t : weaker t (task_update t).
Proof.
  destruct t as [name r duration [n|] node_name life]; [|apply weaker_refl].
  unfold task_update. cbn. destruct duration as [d|]; [|by split_and!; auto].
  destruct (_ >? _); split_and!; auto.
Qed.

Lemma weaker_names tasks tasks' : Forall2 weaker tasks tasks' → st_name <$> tasks' = st_name <$> tasks.
Proof. induction 1 as [|t t' ? ? (Hn & _) _ IH]; [done|]. by rewrite !fmap_cons, Hn, IH. Qed.

Lemma weaker_ok s f :
  sim_ok s → Forall2 weaker (sim_tasks s) (f (sim_tasks s)) →
  sim_ok (set_tasks f s) ∧ rtc (cluster_step dims req cap bound_to node_names) (abs s) (abs (set_tasks f s)).
Proof.
  intros [Hnd Htasks Hnodes Hnn] Hw. pose proof (weaker_names _ _ Hw) as Hnames. split.
  - split; cbn [set_tasks sim_tasks sim_nodes]; [by rewrite Hnames| |done..].
    clear Hnd Hnodes Hnn Hnames. generalize dependent (f (sim_tasks s)). intros l Hw.
    induction Hw as [|t t' ? ? (Hn & Hr & _) _ IH]; [done|].
    apply Forall_cons in Htasks as [Ht Htasks]. constructor; [|by apply IH].
    unfold task_ok in *. by rewrite Hn, Hr.
  - apply sub_placement_rtc, map_subseteq_spec. intros name n.
    rewrite !abs_lookup by (cbn [set_tasks sim_tasks]; by rewrite ?Hnames). cbn [set_tasks sim_tasks].
    intros (j & t' & Hj & <- & Ha).
    destruct (Forall2_lookup_r _ _ _ _ _ Hw Hj) as (t & Ht & Hn & _ & [Hsame|Hnone]); [|congruence].
    exists j, t. split_and!; congruence.
Qed.

Lemma alter_names (i : nat) g (tasks : list SimTask) :
  (∀ t, st_name (g t) = st_name t) → st_name <$> alter g i tasks = st_name <$> tasks.
Proof.
  intros Hg. apply list_eq. intros j. rewrite !list_lookup_fmap.
  destruct (decide (i = j)) as [->|Hne].
  - rewrite list_lookup_alter_eq. destruct (tasks !! j); simpl; [by rewrite Hg|done].
  - by rewrite list_lookup_alter_ne.
Qed.

(** A waiting task gets on a node. *)
Lemma assign_ok s i t n g :
  sim_ok s → sim_tasks s !! i = Some t → st_assignment t = None →
  (∀ t, st_name (g t) = st_name t) → (∀ t, st_requested (g t) = st_requested t) →
  (∀ t, st_assignment (g t) = Some n) →
  (abs s !! st_name t = None →
   cluster_step dims req cap bound_to node_names (abs s) (<[st_name t := n]> (abs s))) →
  let s' := set_task i g s in
  sim_ok s' ∧ rtc (cluster_step dims req cap bound_to node_names) (abs s) (abs s').
Proof.
  intros [Hnd Htasks Hnodes Hnn] Hi Ha Hgn Hgr Hga Hstep s'.
  assert (Hnames : st_name <$> sim_tasks s' = st_name <$> sim_tasks s) by by apply alter_names.
  assert (Hs' : sim_ok s').
  { split; [by rewrite Hnames| |done..]. apply Forall_lookup. intros j t'. cbn [s' set_task set_tasks sim_tasks].
    rewrite Forall_lookup in Htasks. destruct (decide (i = j)) as [<-|Hne].
    - rewrite list_lookup_alter_eq, Hi. intros [= <-]. unfold task_ok. rewrite Hgn, Hgr. apply (Htasks _ _ Hi).
    - rewrite list_lookup_alter_ne by done. apply Htasks. }
  split; [done|].
  assert (Heq : abs s' = <[st_name t := n]> (abs s)).
  { apply map_eq. intros name. apply option_eq. intros n'.
    rewrite abs_lookup by by rewrite Hnames. cbn [s' set_task set_tasks sim_tasks].
    destruct (decide (st_name t = name)) as [<-|Hne].
    - rewrite lookup_insert_eq. split.
      + intros (j & t' & Hj & Hn & Ht'). destruct (decide (i = j)) as [<-|Hne].
        * rewrite list_lookup_alter_eq, Hi in Hj. injection Hj as <-. by rewrite Hga in Ht'.
        * rewrite list_lookup_alter_ne in Hj by done. exfalso. apply Hne.
          apply (NoDup_lookup (st_name <$> sim_tasks s) i j (st_name t)); [done|..];
            rewrite list_lookup_fmap; [by rewrite Hi|by rewrite Hj; simpl; f_equal].
      + intros [= <-]. exists i, (g t). by rewrite list_lookup_alter_eq, Hi.
    - rewrite lookup_insert_ne, abs_lookup by done. split; intros (j & t' & Hj & Hn & Ht'); exists j, t'.
      + destruct (decide (i = j)) as [<-|Hij].
        * rewrite list_lookup_alter_eq, Hi in Hj. injection Hj as <-. rewrite Hgn in Hn. congruence.
        * by rewrite list_lookup_alter_ne in Hj.
      + split; [|done]. rewrite list_lookup_alter_ne; [done|]. intros <-. congruence. }
  rewrite Heq. apply rtc_once, Hstep.
  destruct (abs s !! st_name t) as [n'|] eqn:E; [|done].
  apply abs_lookup in E as (j & t' & Hj & Hn & Ht'); [|done].
  assert (j = i) as ->; [|congruence].
  apply (NoDup_lookup (st_name <$> sim_tasks s) j i (st_name t)); [done|..];
    rewrite list_lookup_fmap; [rewrite Hj; simpl; by f_equal|by rewrite Hi].
Qed.

(** A task that may be handed to the simulator: new, and of known resources. *)
Definition new_task_ok (t : SimTask) : Prop :=
  task_ok t ∧ st_assignment t = None ∧ st_node_name t = bound_to (st_name t).

Lemma append_ok s t :
  sim_ok s → new_task_ok t → st_name t ∉ (st_name <$> sim_tasks s) →
  let s' := set_tasks (λ l, l ++ [t]) s in sim_ok s' ∧ abs s' = abs s.
Proof.
  intros [Hnd Htasks Hnodes Hnn] (Ht & Ha & _) Hfresh s'. split.
  - split; cbn [s' set_tasks sim_tasks sim_nodes]; [|apply Forall_app; split; [done|by apply Forall_singleton]|done..].
    rewrite fmap_app. apply NoDup_app. split_and!; [done|set_solver|apply NoDup_singleton].
  - unfold abs. cbn [s' set_tasks sim_tasks]. rewrite omap_app. cbn [omap list_omap].
    unfold placed at 2. rewrite Ha. cbn [mbind option_bind]. by rewrite app_nil_r.
Qed.
(** *** Operations *)

(** The algorithm only reads the simulator. *)
Record ReadsOnly (alg : Algorithm Sim) `{DataProvider Sim} : Prop := mkReadsOnly {
  filter_reads args st : as_provider (alg_filter alg args st).2 = as_provider st;
  prioritize_reads args st : as_provider (alg_prioritize alg args st).2 = as_provider st;
  reschedule_reads st : as_provider (alg_reschedule alg st).2 = as_provider st
}.

(** Whatever the outcome, the state moves by abstract steps. *)
Definition moves (st st' : sim_state) : Prop :=
  sim_ok (as_provider st') ∧ rtc (cluster_step dims req cap bound_to node_names) (abs (as_provider st)) (abs (as_provider st')).

Lemma moves_refl st : sim_ok (as_provider st) → moves st st.
Proof. by split. Qed.

Lemma moves_same st st' : as_provider st' = as_provider st → sim_ok (as_provider st) → moves st st'.
Proof. intros Heq Hok. split; rewrite Heq; done. Qed.

Lemma moves_trans st1 st2 st3 : moves st1 st2 → moves st2 st3 → moves st1 st3.
Proof. intros [_ H12] [Hok H23]. split; [done|by etrans]. Qed.

Lemma moves_bind {A B} (m : M sim_state A) (f : A → M sim_state B) st :
  moves st (m st).2 → (∀ a st', moves st st' → moves st' (f a st').2) → moves st ((m ≫= f) st).2.
Proof.
  intros Hm Hf. unfold mbind, M_bind. destruct (m st) as [[a|e] st']; [|done].
  eapply moves_trans; [exact Hm|by apply Hf].
Qed.

Lemma bind_run {A B} (m : M sim_state A) (f : A → M sim_state B) st a st' :
  m st = (Ok a, st') → (m ≫= f) st = f a st'.
Proof. intros Hm. unfold mbind, M_bind. by rewrite Hm. Qed.

Context `{DataProvider Sim} (cfg : SimConfig) (alg : Algorithm Sim).
Context (Hreads : ReadsOnly alg) (Hstrict : allow_rough_assignment cfg = false).

Lemma call_scheduler_reads task st : as_provider (call_scheduler alg task st).2 = as_provider st.
Proof.
  unfold call_scheduler, mbind, M_bind, the_sim, lift. cbn [as_provider].
  destruct (or_raise IndexError _) as [t|e]; [|done].
  pose proof (filter_reads alg Hreads (mkExtenderArgs (task_pod t) (sn_name <$> sim_nodes (as_provider st))) st) as H1.
  destruct (alg_filter _ _ st) as [[filtered|e] st1]; [|done]. cbn [snd] in H1.
  match goal with |- context [alg_prioritize alg ?a st1] => pose proof (prioritize_reads alg Hreads a st1) as H2 end.
  destruct (alg_prioritize _ _ st1) as [[[|p ps]|e] st2]; cbn [snd] in H2 |- *; [exact (eq_trans H2 H1)| |exact (eq_trans H2 H1)].
  unfold mbind, M_bind, the_sim, lift. cbn [as_provider].
  destruct (get_node_by_name _ _); exact (eq_trans H2 H1).
Qed.

(** The tasks still to be scheduled: their positions are distinct and they are on no node. *)
Definition waiting (l : list nat) (st : sim_state) : Prop :=
  NoDup l ∧ ∀ i, i ∈ l → ∃ t, sim_tasks (as_provider st) !! i = Some t ∧ st_assignment t = None.

Lemma perform_assignment_moves task node st l :
  sim_ok (as_provider st) → waiting (task :: l) st →
  moves st (perform_assignment cfg task node st).2 ∧ waiting l (perform_assignment cfg task node st).2.
Proof.
  intros Hok [[Hni Hnd]%NoDup_cons Hwait]. destruct (Hwait task) as (t & Ht & Ha); [by left|].
  assert (Hstay : moves st st ∧ waiting l st).
  { split; [by apply moves_refl|]. split; [done|]. intros i Hi. apply Hwait. by right. }
  unfold perform_assignment, mbind, M_bind, the_sim, lift. cbn [as_provider]. rewrite Ht.
  cbn [or_raise]. destruct (sim_nodes (as_provider st) !! node) as [n|] eqn:Hn; [|done]. cbn [or_raise].
  assert (Htok : task_ok t) by (pose proof (ok_tasks _ Hok) as Hall; rewrite Forall_lookup in Hall; by eapply Hall).
  destruct (validate_assignment_ints _ _ _ t Hok Hn Htok) as (b & -> & Hb). rewrite Hstrict, orb_false_r.
  destruct b; [|done]. cbn [change_sim snd as_provider fst].
  destruct (assign_ok _ _ _ node (set_assignment (Some node)) Hok Ht Ha) as [Hok' Hrtc]; [done..| |].
  { intros Habs. apply place; [done|by apply Hb]. }
  split; [done|]. split; [done|]. intros i Hi. destruct (Hwait i) as (t' & Ht' & Ha'); [by right|].
  exists t'. split; [|done].
  change (alter (set_assignment (Some node)) task (sim_tasks (as_provider st)) !! i = Some t').
  rewrite list_lookup_alter_ne; [done|]. by intros <-.
Qed.

Lemma schedule_task_moves count task st l :
  sim_ok (as_provider st) → waiting (task :: l) st →
  moves st (schedule_task cfg alg count task st).2 ∧ waiting l (schedule_task cfg alg count task st).2.
Proof.
  intros Hok Hw. unfold schedule_task, mbind, M_bind.
  pose proof (call_scheduler_reads task st) as Hc.
  assert (Hw1 : ∀ st1, as_provider st1 = as_provider st → waiting (task :: l) st1) by (intros st1 E; unfold waiting; by rewrite E).
  destruct (call_scheduler alg task st) as [[[node|]|e] st1]; cbn [snd] in *.
  - pose proof (perform_assignment_moves task node st1 l) as Hp. rewrite Hc in Hp.
    destruct (Hp Hok (Hw1 st1 Hc)) as [Hm Hl].
    destruct (perform_assignment cfg task node st1) as [[b|e] st2]; cbn [snd] in *;
      (split; [by eapply moves_trans; [by apply moves_same|]|done]).
  - split; [by apply moves_same|]. destruct (Hw1 st1 Hc) as [Hnd Hall]. apply NoDup_cons in Hnd as [_ Hnd].
    split; [done|]. intros i Hi. apply Hall. by right.
  - split; [by apply moves_same|]. destruct (Hw1 st1 Hc) as [Hnd Hall]. apply NoDup_cons in Hnd as [_ Hnd].
    split; [done|]. intros i Hi. apply Hall. by right.
Qed.

Lemma schedule_tasks_move l count st :
  sim_ok (as_provider st) → waiting l st → moves st (foldMS (schedule_task cfg alg) count l st).2.
Proof.
  revert count st. induction l as [|task l IH]; intros count st Hok Hw; [by apply moves_refl|].
  cbn [foldMS]. unfold mbind, M_bind. destruct (schedule_task_moves count task st l Hok Hw) as [Hm Hl].
  destruct (schedule_task cfg alg count task st) as [[c|e] st1]; cbn [snd] in *; [|done].
  eapply moves_trans; [done|]. apply IH; [apply Hm|done].
Qed.

Lemma change_weaker_moves f st :
  sim_ok (as_provider st) →
  Forall2 weaker (sim_tasks (as_provider st)) (f (sim_tasks (as_provider st))) →
  moves st (change_sim (set_tasks f) st).2.
Proof. intros Hok Hw. by apply weaker_ok. Qed.

Lemma update_tasks_life_moves st : sim_ok (as_provider st) → moves st (update_tasks_life st).2.
Proof.
  intros Hok. apply change_weaker_moves; [done|]. apply Forall2_fmap_r, Forall2_same_length_lookup_2; [done|].
  intros i t t' -> [= <-]. apply task_update_weaker.
Qed.

Lemma sim_reschedule_moves st : sim_ok (as_provider st) → moves st (sim_reschedule alg st).2.
Proof.
  intros Hok. unfold sim_reschedule, mbind, M_bind. pose proof (reschedule_reads alg Hreads st) as Hr.
  destruct (alg_reschedule alg st) as [[names|e] st1]; cbn [snd] in Hr; [|by apply moves_same].
  apply (moves_trans st st1); [by apply moves_same|]. rewrite <-Hr in Hok. clear Hr st. revert st1 Hok.
  induction names as [|name names IH]; intros st Hok; [by apply moves_refl|].
  cbn [forM_]. unfold mbind, M_bind, the_sim, lift. cbn [as_provider].
  destruct (get_task_by_name _ name) as [i|e]; [|by apply moves_refl].
  assert (Hm : moves st (change_sim (set_task i (set_assignment None)) st).2).
  { apply change_weaker_moves; [done|]. apply Forall2_same_length_lookup_2; [by rewrite length_alter|].
    intros j t t' Ht. rewrite list_lookup_alter. case_decide as Hj; [subst j|].
    - rewrite Ht. intros [= <-]. split_and!; auto.
    - rewrite Ht. intros [= <-]. apply weaker_refl. }
  eapply moves_trans; [exact Hm|]. apply IH, Hm.
Qed.

Lemma positions_elem {A} (p : A → bool) l i :
  i ∈ positions p l → ∃ x, l !! i = Some x ∧ p x = true.
Proof.
  intros ([j x] & -> & Hin)%list_elem_of_fmap. apply list_elem_of_In, filter_In in Hin as [Hin Hp].
  apply list_elem_of_In, elem_of_lookup_imap in Hin as (k & y & [= -> ->] & Hl). by exists y.
Qed.

Lemma positions_NoDup {A} (p : A → bool) l : NoDup (positions p l).
Proof.
  unfold positions. assert (Hnd : NoDup (imap (λ i x, (i, x)) l).*1).
  { rewrite fmap_imap. apply NoDup_alt. intros i j k Hi Hj.
    rewrite list_lookup_imap in Hi, Hj. destruct (l !! i), (l !! j); naive_solver. }
  induction (imap (λ i x, (i, x)) l) as [|[i x] l' IH]; [constructor|].
  rewrite fmap_cons in Hnd. apply NoDup_cons in Hnd as [Hi Hnd]. cbn [List.filter].
  destruct (p _); [|by apply IH]. rewrite fmap_cons. apply NoDup_cons. split; [|by apply IH].
  intros ([i' x'] & Heq & Hin)%list_elem_of_fmap. apply Hi. apply list_elem_of_fmap.
  exists (i', x'). split; [done|]. apply list_elem_of_In, filter_In in Hin as [Hin _].
  by apply list_elem_of_In.
Qed.

Lemma get_node_by_name_Ok s name i :
  get_node_by_name s name = Ok i → (sn_name <$> sim_nodes s) !! i = Some name.
Proof.
  unfold get_node_by_name. intros Hone.
  assert (Hin : i ∈ positions (λ n, String.eqb (sn_name n) name) (sim_nodes s)).
  { destruct (positions _ _) as [|j [|]]; try done. injection Hone as ->. by left. }
  apply positions_elem in Hin as (n & Hn & He). apply String.eqb_eq in He as <-.
  by rewrite list_lookup_fmap, Hn.
Qed.

Lemma waiting_stable l st st' :
  (∀ i t, i ∈ l → sim_tasks (as_provider st) !! i = Some t → sim_tasks (as_provider st') !! i = Some t) →
  waiting l st → waiting l st'.
Proof. intros Hstable [Hnd Hall]. split; [done|]. intros i Hi. destruct (Hall i Hi) as (t & Ht & Ha). eauto. Qed.

(** A new task with a fresh name is appended; it waits, or is on the node that it names, or
    this name is not that of one node and raises. *)
Lemma add_new_task_moves acc t st :
  sim_ok (as_provider st) → waiting acc st → new_task_ok t →
  st_name t ∉ (st_name <$> sim_tasks (as_provider st)) →
  let r := add_new_task acc t st in
  moves st r.2 ∧ st_name <$> sim_tasks (as_provider r.2) = (st_name <$> sim_tasks (as_provider st)) ++ [st_name t] ∧
  ∀ acc', r.1 = Ok acc' → waiting acc' r.2.
Proof.
  intros Hok Hw Ht Hfresh r. subst r. set (s := as_provider st) in *.
  destruct (append_ok s t Hok Ht Hfresh) as [Hok' Habs]. set (s' := set_tasks (λ l, l ++ [t]) s) in *.
  assert (Hlast : sim_tasks s' !! length (sim_tasks s) = Some t) by by apply list_lookup_middle.
  assert (Hlt : ∀ i t', sim_tasks s !! i = Some t' → i ≠ length (sim_tasks s)).
  { intros i t' Hi%lookup_lt_Some. lia. }
  assert (Hnames : st_name <$> sim_tasks s' = (st_name <$> sim_tasks s) ++ [st_name t])
    by by cbn [s' set_tasks sim_tasks]; rewrite fmap_app.
  unfold add_new_task. rewrite (bind_run _ _ st s st) by done. cbv zeta.
  rewrite (bind_run _ _ st tt (mkAlgState (as_metrics st) s')) by done.
  set (st1 := mkAlgState (as_metrics st) s').
  assert (Hm1 : moves st st1) by (split; [done|]; cbn [st1 as_provider]; by rewrite Habs).
  assert (Hw1 : waiting acc st1).
  { eapply waiting_stable; [|exact Hw]. intros i t' _ Hi. by apply lookup_app_l_Some. }
  destruct Ht as (_ & Ha & Hb). destruct (st_node_name t) as [nm|] eqn:Enm.
  - rewrite (bind_run _ _ st1 s' st1) by done. unfold lift at 1, mbind at 1, M_bind at 1. 
    destruct (get_node_by_name s' nm) as [node|e] eqn:Eg; [|done].
    set (g := λ t, set_node_name None (set_assignment (Some node) t)).
    destruct (assign_ok s' _ t node g Hok' Hlast Ha) as [Hok2 Hrtc]; [done..| |].
    { intros Hnone. apply (bind _ _ _ _ _ _ _ _ nm); [done|by rewrite <-Hb|].
      rewrite <-(ok_node_names _ Hok'). by apply get_node_by_name_Ok. }
    split_and!.
    + split; [exact Hok2|]. etrans; [apply Hm1|exact Hrtc].
    + etrans; [|exact Hnames]. by apply alter_names.
    + intros acc' [= <-]. destruct Hw as [Hnd Hall]. split; [done|]. intros i Hi.
      destruct (Hall i Hi) as (t' & Ht' & Ha'). exists t'. split; [|done].
      etrans; [apply list_lookup_alter_ne|by apply lookup_app_l_Some].
      intros <-. by apply (Hlt _ _ Ht').
  - split_and!; [exact Hm1|exact Hnames|]. intros acc' [= <-]. destruct Hw as [Hnd Hall]. split.
    + apply NoDup_app. split_and!; [done| |apply NoDup_singleton]. intros i Hi Hs%list_elem_of_singleton.
      destruct (Hall i Hi) as (t' & Ht' & _). by apply (Hlt _ _ Ht').
    + intros i [Hi| ->%list_elem_of_singleton]%elem_of_app; [by apply Hw1|]. by exists t.
Qed.

(** New tasks with fresh names, up to the one that raises. *)
Lemma add_new_tasks_moves new acc st :
  sim_ok (as_provider st) → waiting acc st → Forall new_task_ok new →
  NoDup ((st_name <$> sim_tasks (as_provider st)) ++ (st_name <$> new)) →
  let r := foldMS add_new_task acc new st in
  moves st r.2 ∧ ∀ acc', r.1 = Ok acc' → waiting acc' r.2.
Proof.
  intros Hok Hw Hnew. revert acc st Hok Hw. induction Hnew as [|t new Ht _ IH]; intros acc st Hok Hw Hnd.
  { split; [by apply moves_refl|]. by intros acc' [= <-]. }
  rewrite fmap_cons in Hnd. cbn [foldMS]. unfold mbind, M_bind.
  destruct (add_new_task_moves acc t st Hok Hw Ht) as (Hm & Hnames & Hwait);
    [apply NoDup_app in Hnd as (_ & Hd & _); set_solver|].
  destruct (add_new_task acc t st) as [[acc1|e] st1]; cbn [fst snd] in *; [|done].
  destruct (IH acc1 st1) as [Hm' Hw']; [apply Hm|by apply Hwait|by rewrite Hnames, <-app_assoc|].
  split; [by eapply moves_trans|done].
Qed.

Lemma positions_waiting st :
  waiting (positions (λ t, bool_decide (st_assignment t = None)) (sim_tasks (as_provider st))) st.
Proof.
  split; [apply positions_NoDup|]. intros i (t & Ht & Ha)%positions_elem.
  apply bool_decide_eq_true in Ha. eauto.
Qed.

(** One iteration moves by abstract steps, also when it raises half way. *)
Lemma iterate_moves new st :
  sim_ok (as_provider st) → Forall new_task_ok new →
  NoDup ((st_name <$> sim_tasks (as_provider st)) ++ (st_name <$> new)) →
  moves st (iterate cfg alg new st).2.
Proof.
  intros Hok Hnew Hnd.
  destruct (add_new_tasks_moves new [] st Hok) as [Hm Hwait]; [|done|done|].
  { split; [constructor|]. intros i Hi. by apply not_elem_of_nil in Hi. }
  unfold iterate. unfold mbind at 1, M_bind at 1.
  destruct (foldMS add_new_task [] new st) as [[waits|e] st1]; cbn [fst snd] in *; [|exact Hm].
  pose proof (Hwait _ eq_refl) as Hw. rewrite (bind_run _ _ st1 (as_provider st1) st1) by done.
  eapply moves_trans; [exact Hm|]. destruct Hm as [Hok1 _]. cbv zeta.
  set (todo := match waits with [] => _ | _ => _ end).
  assert (Htodo : waiting todo st1).
  { subst todo. destruct waits; [|done]. destruct (retry_scheduling cfg); [apply positions_waiting|].
    split; [constructor|]. intros i Hi. by apply not_elem_of_nil in Hi. }
  apply moves_bind.
  - destruct todo as [|i todo]; [destruct new|].
    + apply moves_bind; [by apply sim_reschedule_moves|]. intros _ st2 Hm. apply moves_refl, Hm.
    + by apply moves_refl.
    + by apply schedule_tasks_move.
  - intros c st2 [Hok2 _]. apply moves_bind; [by apply update_tasks_life_moves|].
    intros _ st3 Hm. apply moves_refl, Hm.
Qed.

(** *** Runs *)

(** One call of [iterate_single_task] after the other, as the experiments do. *)
Definition run (rounds : list (option SimTask)) (st : sim_state) : sim_state :=
  foldl (λ st new, (iterate_single_task cfg alg new st).2) st rounds.

Definition round_ok (new : option SimTask) : Prop := from_option new_task_ok True new.

Lemma iterate_single_task_moves new st :
  sim_ok (as_provider st) → round_ok new → moves st (iterate_single_task cfg alg new st).2.
Proof.
  intros Hok Hnew. destruct new as [t|]; cbn [iterate_single_task].
  - rewrite (bind_run _ _ st (as_provider st) st) by done.
    destruct (existsb _ _) eqn:E; [by apply moves_refl|]. rewrite (bind_run _ _ st tt st) by done.
    apply iterate_moves; [done|by apply Forall_singleton|].
    apply NoDup_app. split_and!; [apply Hok| |apply NoDup_singleton].
    intros name Hin ->%list_elem_of_singleton. apply list_elem_of_fmap in Hin as (t' & Hn & Hin).
    assert (existsb (λ t', String.eqb (st_name t') (st_name t)) (sim_tasks (as_provider st)) = true); [|congruence].
    apply existsb_exists. exists t'. split; [by apply list_elem_of_In|]. by apply String.eqb_eq.
  - apply iterate_moves; [done|constructor|]. rewrite app_nil_r. apply Hok.
Qed.

Lemma run_moves rounds st :
  sim_ok (as_provider st) → Forall round_ok rounds → moves st (run rounds st).
Proof.
  intros Hok Hr. revert st Hok. induction Hr as [|new rounds Hn _ IH]; intros st Hok; [by apply moves_refl|].
  pose proof (iterate_single_task_moves new st Hok Hn) as Hm.
  eapply moves_trans; [exact Hm|]. apply IH, Hm.
Qed.

(** C31 (refinement): the simulator implements the abstract cluster: with strict
    assignments, whole numbers and dimensions without memory bandwidth, whatever algorithm
    that only reads the simulator (as Fit and Score are shown to do) chooses the nodes and
    whatever raises on the way, every run that adds new tasks one by one is a sequence of
    abstract steps (a task is placed where it fits beside the tasks of the node, or on the node
    that it names itself, or a task leaves), and names stay unique.  It starts with unique
    names, and a new task is on no node yet. *)
Theorem simulator_refines_cluster rounds st :
  sim_ok (as_provider st) → Forall round_ok rounds →
  rtc (cluster_step dims req cap bound_to node_names) (abs (as_provider st)) (abs (as_provider (run rounds st))) ∧
  NoDup (st_name <$> sim_tasks (as_provider (run rounds st))).
Proof.
  intros Hok Hr. destruct (run_moves rounds st Hok Hr) as [Hok' Hrtc]. split; [done|apply Hok'].
Qed.

(** C32 (safety): so, under the same conditions and with requests that are not negative, no
    run of the simulator loads a node that no task names itself and that starts within its
    capacity, in any of these dimensions, with more than its capacity, counted over the tasks in the simulator's own list. *)
Theorem simulator_never_overloads rounds st i :
  (∀ t dim, 0 ≤ req t dim) → unnamed bound_to node_names i →
  sim_ok (as_provider st) → Forall round_ok rounds →
  (∀ dim, dim ∈ dims → tasks_load (sim_tasks (as_provider st)) i dim ≤ cap i dim) →
  ∀ dim, dim ∈ dims → tasks_load (sim_tasks (as_provider (run rounds st))) i dim ≤ cap i dim.
Proof.
  intros Hpos Hi Hok Hr Hfits dim Hdim. destruct (run_moves rounds st Hok Hr) as [Hok' Hrtc].
  rewrite <-abs_load by apply Hok'.
  apply (cluster_steps_fit dims req cap _ _ i _ _ Hpos Hi Hrtc); [|done].
  intros dim' Hdim'. rewrite abs_load by apply Hok. by apply Hfits.
Qed.
End refinement.

(** ** Tasks that end *)

Lemma iter_update_life n t i d :
  st_assignment t = Some i → st_duration t = Some d →
  Nat.iter n task_update t =
  if decide (st_life_time t + Z.of_nat n ≤ d ∨ n = 0%nat) then set_life_time (st_life_time t + Z.of_nat n) t
  else set_assignment None (set_life_time (Z.max (d + 1) (st_life_time t + 1)) t).
Proof.
  intros Ha Hd. induction n as [|n IH].
  - rewrite decide_True by auto. cbn. rewrite Z.add_0_r. by destruct t.
  - change (Nat.iter (S n) task_update t) with (task_update (Nat.iter n task_update t)). rewrite IH. clear IH.
    destruct t as [name r duration assignment node_name life]. cbn in Ha, Hd |- *. subst.
    destruct (decide (life + Z.of_nat n ≤ d ∨ n = 0%nat)) as [Hle|Hgt].
    + unfold task_update. cbn -[Z.of_nat Z.gtb]. rewrite Z.gtb_ltb. destruct (Z.ltb_spec d (life + Z.of_nat n + 1)).
      * rewrite decide_False by lia. unfold set_assignment, set_life_time. cbn. f_equal. lia.
      * rewrite decide_True by lia. unfold set_life_time. cbn. f_equal. lia.
    + rewrite decide_False by lia. done.
Qed.

(** C33 (liveness): a task with a duration that starts on a node is on that node for
    [duration] updates of the simulator and has left it after one more, and it is on
    no node after any later update. *)
Theorem task_leaves_after_duration n (st : sim_state) i t node d :
  sim_tasks (as_provider st) !! i = Some t →
  st_assignment t = Some node → st_life_time t = 0 → st_duration t = Some d → 0 ≤ d →
  let st' := Nat.iter n (λ st, (update_tasks_life st).2) st in
  ∃ t', sim_tasks (as_provider st') !! i = Some t' ∧ st_name t' = st_name t ∧
    st_assignment t' = if Z.of_nat n <=? d then Some node else None.
Proof.
  intros Hi Ha Hl Hd Hpos st'.
  assert (Hiter : sim_tasks (as_provider st') = Nat.iter n task_update <$> sim_tasks (as_provider st)).
  { subst st'. clear. induction n as [|n IH]; [by rewrite list_fmap_id|].
    etrans; [exact (f_equal (fmap task_update) IH)|]. by rewrite <-list_fmap_compose. }
  exists (Nat.iter n task_update t). rewrite Hiter, list_lookup_fmap, Hi. split; [done|].
  rewrite (iter_update_life n t node d Ha Hd), Hl.
  destruct (Z.leb_spec (Z.of_nat n) d); [rewrite decide_True by lia|rewrite decide_False by lia]; done.
Qed.
