(* ===== verification/SimulatorFit.v ===== *)
(** * The simulator with Fit

    Algorithms that only read the simulator through its data provider, and a run of
    the simulator with [Fit]. *)
From S2P Require Export SimulatorSpec.

(** ** Read-only computations *)
#[local] Existing Instance simulator_provider.

Definition reads {A} (m : M sim_state A) : Prop := ∀ st, as_provider (m st).2 = as_provider st.

Lemma reads_ret {A} (a : A) : reads (mret a).
Proof. done. Qed.
Lemma reads_raise {A} e : reads (raise e : M sim_state A).
Proof. done. Qed.
Lemma reads_lift {A} (r : result A) : reads (lift r).
Proof. by destruct r. Qed.

Lemma reads_bind {A B} (m : M sim_state A) (f : A → M sim_state B) :
  reads m → (∀ a, reads (f a)) → reads (m ≫= f).
Proof.
  intros Hm Hf st. unfold mbind, M_bind. specialize (Hm st). destruct (m st) as [[a|e] st1]; [|done].
  rewrite (Hf a st1). exact Hm.
Qed.

Lemma reads_foldMS {A B} (f : A → B → M sim_state A) acc l :
  (∀ a b, reads (f a b)) → reads (foldMS f acc l).
Proof.
  intros Hf. revert acc. induction l as [|b l IH]; intros acc; [apply reads_ret|].
  cbn [foldMS]. apply reads_bind; [apply Hf|intros a; apply IH].
Qed.

Lemma reads_forM {B} (f : B → M sim_state unit) l : (∀ b, reads (f b)) → reads (forM_ l f).
Proof.
  intros Hf. induction l as [|b l IH]; [apply reads_ret|]. cbn [forM_]. by apply reads_bind.
Qed.

Lemma reads_extend_metrics ms : reads (extend_metrics ms).
Proof. apply reads_forM. intros m st. by destruct (registry_add _ m). Qed.

Lemma reads_query dims : reads (query_data_provider dims).
Proof. repeat (apply reads_bind; [done|intros ?]). apply reads_ret. Qed.

#[export] Hint Resolve reads_ret reads_raise reads_lift reads_extend_metrics reads_query : wca.

(** An algorithm whose callbacks only read leaves the simulator alone. *)
Lemma callbacks_read_only (alg : Algorithm Sim) :
  (∀ n a q, reads (app_fit_node alg n a q)) → (∀ ns a q, reads (app_fit_nodes alg ns a q)) →
  (∀ n a q, reads (priority_for_node alg n a q)) → reads (alg_reschedule alg) →
  @ReadsOnly alg simulator_provider.
Proof.
  intros Hfit Hfits Hprio Hre. split; [..|exact Hre].
  - intros args. change (reads (@alg_filter _ simulator_provider alg args)). unfold alg_filter.
    apply reads_bind; [apply reads_lift|]. intros [[[app nodes] ns] name].
    apply reads_bind; [apply reads_query|]. intros q.
    apply reads_bind; [|intros [acc failed]].
    { apply reads_foldMS. intros acc n. unfold first_pass. apply reads_bind; [apply Hfit|].
      intros [ok m]. apply reads_ret. }
    apply reads_bind; [|intros p; apply reads_ret]. destruct acc as [|n acc]; [apply reads_ret|].
    apply reads_bind; [apply Hfits|]. intros r. apply reads_ret.
  - intros args. change (reads (@alg_prioritize _ simulator_provider alg args)). unfold alg_prioritize.
    apply reads_bind; [apply reads_lift|]. intros [[[app nodes] ns] name].
    apply reads_bind; [apply reads_query|]. intros q. apply reads_foldMS. intros acc n.
    unfold score_node. apply reads_bind; [apply Hprio|]. intros p.
    apply reads_bind; [apply reads_lift|]. intros z. apply reads_ret.
Qed.

Lemma Fit_read_only dims m pm f : @ReadsOnly (@Fit Sim simulator_provider dims m pm f) simulator_provider.
Proof.
  apply callbacks_read_only.
  - intros n a q. cbn. unfold fit_app_fit_node. apply reads_bind; [apply reads_lift|]. intros caps.
    apply reads_bind; [apply reads_lift|]. intros name. apply reads_bind; [apply reads_lift|].
    intros [[fits msg] ms]. apply reads_bind; [apply reads_extend_metrics|]. intros _. apply reads_ret.
  - intros ns a q. apply reads_ret.
  - intros n a q. apply reads_ret.
  - apply reads_bind; [apply reads_query|]. intros q. apply reads_ret.
Qed.

(** ** Two nodes and a queue of tasks *)
Definition sim_fit : Algorithm Sim :=
  @Fit Sim simulator_provider example_dims (PInt 10) [] (PFloat (float_of_ratio 1 1)).
Definition sim_cfg : SimConfig := mkSimConfig false false.
Definition sim_cap (i : nat) (dim : ResourceType) : Z := example_capacity "" dim.
Definition sim_req (name : string) (dim : ResourceType) : Z := example_spec name dim.
Definition sim_node (name : string) : SimNode := mkSimNode name (display (sim_cap 0)).
Definition sim_task (name : string) : SimTask :=
  mkSimTask name (display (sim_req name)) (Some 5) None None 0.
Definition sim_start : alg_state Sim := mkAlgState [] (sim_init [] [sim_node "n0"; sim_node "n1"]).
(** The last task names its node. *)
Definition bound_task (name node : string) : SimTask := set_node_name (Some node) (sim_task name).
Definition sim_rounds : list (option SimTask) :=
  ((λ name, Some (sim_task name)) <$> ["a___0"; "a___1"; "a___2"; "a___3"; "a___4"]) ++
  [Some (bound_task "b___0" "n1")].
Definition sim_bound (name : string) : option string := if String.eqb name "b___0" then Some "n1" else None.
Definition sim_names : list string := ["n0"; "n1"].

Lemma sim_start_ok : sim_ok example_dims sim_req sim_cap sim_names (as_provider sim_start).
Proof.
  split; [constructor|constructor| |done]. intros [|[|i]] n Hn; [..|done]; injection Hn as <-;
    apply (ints_on_display example_dims), example_dims_NoDup.
Qed.

Lemma sim_task_ok name : task_ok example_dims sim_req (sim_task name).
Proof. apply (ints_on_display example_dims), example_dims_NoDup. Qed.

Lemma sim_rounds_ok : Forall (round_ok example_dims sim_req sim_bound) sim_rounds.
Proof.
  repeat (apply Forall_cons; split; [split; [apply sim_task_ok|done]|]). by apply Forall_nil.
Qed.

Definition sim_end : alg_state Sim := run sim_cfg sim_fit sim_rounds sim_start.

(** Two tasks fill a node; the fifth finds no room; the sixth is put where it says, and the
    first has ended. *)
Example sim_end_assignments :
  st_assignment <$> sim_tasks (as_provider sim_end) =
  [None; Some 0%nat; Some 1%nat; Some 1%nat; None; Some 1%nat].
Proof. vm_compute. reflexivity. Qed.

Lemma simulator_refines_cluster_witness :
  size (abs (as_provider sim_end)) = 4%nat ∧
  rtc (cluster_step example_dims sim_req sim_cap sim_bound sim_names)
    (abs (as_provider sim_start)) (abs (as_provider sim_end)) ∧
  NoDup (st_name <$> sim_tasks (as_provider sim_end)).
Proof.
  split; [vm_compute; reflexivity|].
  apply (simulator_refines_cluster example_dims sim_req sim_cap sim_bound sim_names
           ltac:(set_solver) ltac:(set_solver)
           sim_cfg sim_fit (Fit_read_only _ _ _ _) eq_refl sim_rounds sim_start).
  - exact sim_start_ok.
  - exact sim_rounds_ok.
Defined.

(** The node that a task names is loaded with more than it has; the other is not. *)
Lemma simulator_never_overloads_witness :
  tasks_load sim_req (sim_tasks (as_provider sim_end)) 1 CPU = 6 ∧
  tasks_load sim_req (sim_tasks (as_provider sim_end)) 0 CPU = 2 ∧
  ∀ dim, dim ∈ example_dims → tasks_load sim_req (sim_tasks (as_provider sim_end)) 0 dim ≤ sim_cap 0 dim.
Proof.
  split; [vm_compute; reflexivity|]. split; [vm_compute; reflexivity|].
  apply (simulator_never_overloads example_dims sim_req sim_cap sim_bound sim_names
           ltac:(set_solver) ltac:(set_solver)
           sim_cfg sim_fit (Fit_read_only _ _ _ _) eq_refl sim_rounds sim_start 0%nat).
  - intros t []; vm_compute; discriminate.
  - intros t name. unfold sim_bound. by destruct (String.eqb t "b___0"); intros [= <-].
  - exact sim_start_ok.
  - exact sim_rounds_ok.
  - intros [] _; vm_compute; discriminate.
Defined.

Definition one_task : alg_state Sim :=
  mkAlgState [] (sim_init [set_assignment (Some 0%nat) (sim_task "a___0")] [sim_node "n0"]).

Lemma task_leaves_after_duration_witness :
  ∃ t', sim_tasks (as_provider (Nat.iter 6 (λ st, (update_tasks_life st).2) one_task)) !! 0%nat = Some t' ∧
    st_name t' = "a___0" ∧ st_assignment t' = if Z.of_nat 6 <=? 5 then Some 0%nat else None.
Proof.
  apply (task_leaves_after_duration 6 one_task 0
           (set_assignment (Some 0%nat) (sim_task "a___0")) 0%nat 5); [done..|lia].
Defined.

(** With [retry_scheduling] a task that has ended is taken for an unassigned one and
    scheduled again. *)
Example ended_task_scheduled_again :
  (iterate (mkSimConfig false true) sim_fit []
     (mkAlgState [] (sim_init [set_life_time 6 (sim_task "a___0")] [sim_node "n0"]))).1 = Ok 1.
Proof. vm_compute. reflexivity. Qed.
