(* ===== verification/SchedScore.v ===== *)
(** * The Score algorithm

    [src/wca/scheduler/algorithms/score.py]: applications are steered to nodes with
    or without persistent memory by their profile, and tasks on nodes of the other
    type are rescheduled. *)
From S2P Require Export SchedFit.

(** src/wca/scheduler/data_providers/score/__init__.py:22-28 [NodeType] *)
Inductive NodeType := PMEM | DRAM | UNKNOWN.
#[export] Instance NodeType_eq : EqDecision NodeType.
Proof. solve_decision. Defined.

(** src/wca/scheduler/data_providers/score/__init__.py:31-32 [AppsProfile, NodesType] *)
Definition AppsProfile : Type := dict string num.
Definition NodesType : Type := dict string NodeType.

(** src/wca/scheduler/data_providers/score/__init__.py:35-42 [ScoreDataProvider] *)
Class ScoreDataProvider (S : Type) : Type := {
  score_provider :: DataProvider S;
  get_apps_profile : M S AppsProfile;
  get_nodes_type : M S NodesType
}.

(** src/wca/scheduler/algorithms/score.py:31-31 [MIN_APP_PROFILES] *)
Definition MIN_APP_PROFILES : Z := 2.

(** src/wca/scheduler/algorithms/score.py:33-34 [RescheduleApps] *)
Definition RescheduleApps : Type := dict string (dict string (list string)).

(** [sorted(apps_profile.items(), key=lambda x: x[1], reverse=False)] *)
Definition sorted_apps_profile (apps_profile : AppsProfile) : list (string * num) :=
  py_sorted (λ a b, nltb a.2 b.2) apps_profile.

(** A key that may be any value of a pod's label. *)
Definition json_get {A} (d : dict string A) (key : json) : result (option A) :=
  match key with
  | JStr s => Ok (dget d s)
  | JList _ | JObj _ => Raise TypeError
  | _ => Ok None
  end.

(** [v == s] for the string [s] *)
Definition json_is (v : json) (s : string) : bool :=
  match v with JStr s' => String.eqb s' s | _ => false end.

(** src/wca/scheduler/algorithms/score.py:44-46 [_get_app_node_type], the best application *)
Definition is_best_app (apps_profile : AppsProfile) (app_name : json) : result NodeType :=
  match sorted_apps_profile apps_profile with
  | [] => Raise IndexError
  | (best, _) :: _ => Ok (if json_is app_name best then PMEM else DRAM)
  end.

(** src/wca/scheduler/algorithms/score.py:37-49 [_get_app_node_type] *)
Definition get_app_node_type (apps_profile : AppsProfile) (app_name : json)
    (score_target : option num) : result NodeType :=
  if Z.of_nat (length apps_profile) >? MIN_APP_PROFILES then
    match score_target with
    | Some target =>
        if num_true target then
          score ← json_get apps_profile app_name;
          Ok match score with
             | Some score => if nleb score target then PMEM else DRAM
             | None => DRAM
             end
        else is_best_app apps_profile app_name
    | None => is_best_app apps_profile app_name
    end
  else Ok DRAM.

(** src/wca/scheduler/algorithms/score.py:79-94 [Score._app_fit_node_type] *)
Definition app_fit_node_type (score_target : option num) (apps_profile : AppsProfile)
    (app_name : json) (node_type : NodeType) : result bool :=
  app_type ← get_app_node_type apps_profile app_name score_target;
  Ok (bool_decide (node_type = app_type)).

(** ** Rescheduling *)

(** [if app not in d: d[app] = {}; if node not in d[app]: d[app][node] = [];
    d[app][node] = tasks] *)
Definition note_tasks (d : RescheduleApps) (app node : string) (tasks : list string)
    : RescheduleApps :=
  dset d app (dset (default [] (dget d app)) node tasks).

(** src/wca/scheduler/algorithms/score.py:129-152 [Score.reschedule], one application of a node *)
Definition note_misplaced (score_target : option num) (apps_profile : AppsProfile)
    (node : string) (node_type : NodeType) (acc : RescheduleApps * RescheduleApps)
    (app_tasks : string * list string) : result (RescheduleApps * RescheduleApps) :=
  let '(app, tasks) := app_tasks in
  let '(reschedule, consider) := acc in
  app_correct_placement ← app_fit_node_type score_target apps_profile (JStr app) node_type;
  Ok (if app_correct_placement : bool then acc
      else match node_type with
           | PMEM => (note_tasks reschedule app node tasks, consider)
           | DRAM => (reschedule, note_tasks consider app node tasks)
           | UNKNOWN => acc
           end).

(** src/wca/scheduler/algorithms/score.py:125-152 [Score.reschedule], the two dictionaries *)
Definition misplaced (score_target : option num) (nodes_type : NodesType)
    (apps_profile : AppsProfile) (apps_on_node : dict string Apps)
    : result (RescheduleApps * RescheduleApps) :=
  foldM (λ acc '(node, apps),
    node_type ← dgetitem nodes_type node;
    foldM (note_misplaced score_target apps_profile node node_type) acc apps) ([], []) apps_on_node.

(** The entries of a dictionary by node whose node is of persistent memory. *)
Definition on_pmem {A} (nodes_type : NodesType) (d : dict string A) : result (dict string A) :=
  foldM (λ d' '(node, a),
    node_type ← dgetitem nodes_type node;
    Ok (if bool_decide (node_type = PMEM) then dset d' node a else d')) [] d.

(** src/wca/scheduler/algorithms/score.py:179-192 [Score._get_tasks_to_reschedule]
    The resources of the tasks that leave, and the tasks. *)
Definition free_pmem_nodes (apps_spec : dict string Resources) (reschedule : RescheduleApps)
    (used : dict string Resources) : result (dict string Resources * list string) :=
  foldM (λ acc '(app, nodes),
    foldM (λ acc '(node, tasks),
      if dmem acc.1 node then
        foldM (λ acc task,
          r ← dgetitem acc.1 node; spec ← dgetitem apps_spec app;
          freed ← subtract_resources r spec None;
          Ok (dset acc.1 node freed, acc.2 ++ [task])) acc tasks
      else Raise (OtherException "RuntimeError")) acc nodes) (used, []) reschedule.

(** src/wca/scheduler/algorithms/score.py:196-203 [Score._get_tasks_to_reschedule] *)
Definition sort_consider (profile : list (string * num)) (consider : RescheduleApps)
    : dict string (list string) :=
  foldl (λ d '(app, _),
    match dget consider app with
    | Some nodes => dset d app (py_sorted String.ltb (concat (dvalues nodes)))
    | None => d
    end) [] profile.

(** src/wca/scheduler/algorithms/score.py:220-239 [Score._get_tasks_to_reschedule], one task *)
Definition move_task (apps_spec nodes_capacities : dict string Resources)
    (ratios : dict string (option float)) (app : string)
    (acc : dict string Resources * list string) (task : string)
    : result (dict string Resources * list string) :=
  foldM (λ acc node,
    used ← dgetitem acc.1 node; spec ← dgetitem apps_spec app;
    requested_and_used ← sum_resources used spec;
    capacity ← dgetitem nodes_capacities node; ratio ← dgetitem ratios node;
    enough ← enough_resources_on_node capacity requested_and_used ratio;
    Ok (if enough.1.1 : bool then (dset acc.1 node requested_and_used, acc.2 ++ [task]) else acc))
    acc (dkeys acc.1).

(** src/wca/scheduler/algorithms/score.py:217-239 [Score._get_tasks_to_reschedule] *)
Definition move_tasks (apps_spec nodes_capacities : dict string Resources)
    (ratios : dict string (option float)) (profile : list (string * num))
    (sorted_consider : dict string (list string)) (acc : dict string Resources * list string)
    : result (dict string Resources * list string) :=
  foldM (λ acc '(app, _),
    match dget sorted_consider app with
    | Some tasks => foldM (move_task apps_spec nodes_capacities ratios app) acc tasks
    | None => Ok acc
    end) acc profile.

Section score.
  Context {S : Type} `{ScoreDataProvider S}.
  Context (dimensions : list ResourceType) (score_target : option num) (nodes_type : NodesType).

(** src/wca/scheduler/algorithms/score.py:159-241 [Score._get_tasks_to_reschedule] *)
Definition get_tasks_to_reschedule (reschedule consider : RescheduleApps)
    (apps_profile : AppsProfile) (apps_on_node : dict string Apps)
    : M (alg_state S) (list string) :=
  match consider with
  | [] => mret []
  | _ =>
      apps_spec ← on_provider (get_apps_requested_resources dimensions);
      apps_on_pmem_nodes ← lift (on_pmem nodes_type apps_on_node);
      used ← lift (get_nodes_used_resources dimensions apps_on_pmem_nodes apps_spec);
      freed ← lift (free_pmem_nodes apps_spec reschedule used);
      let profile := sorted_apps_profile apps_profile in
      let sorted_consider := sort_consider profile consider in
      nodes_capacities ← on_provider (get_nodes_capacities dimensions);
      pmem_nodes_capacities ← lift (on_pmem nodes_type nodes_capacities);
      ratios ← lift (mapM (λ nc, r ← calculate_read_write_ratio nc.2; Ok (nc.1, r))
                       pmem_nodes_capacities);
      moved ← lift (move_tasks apps_spec nodes_capacities ratios profile sorted_consider freed);
      mret moved.2
  end.

(** src/wca/scheduler/algorithms/score.py:121-157 [Score.reschedule] *)
Definition score_reschedule : M (alg_state S) (list string) :=
  counts ← on_provider get_apps_counts;
  apps_profile ← on_provider get_apps_profile;
  found ← lift (misplaced score_target nodes_type apps_profile counts.1);
  get_tasks_to_reschedule found.1 found.2 apps_profile counts.1.

(** ** Filtering *)

(** src/wca/scheduler/algorithms/score.py:70-77 [Score.app_fit_node] *)
Definition score_app_fit_node (pmem_nodes : list string) (cpu_scale_factor threshold : num)
    (node_name : string) (app : json) (q : QueryDataProviderInfo) : M (alg_state S) (bool * failure) :=
  fit ← fit_app_fit_node dimensions pmem_nodes cpu_scale_factor node_name app q;
  node_type ← lift (dgetitem nodes_type node_name);
  dram ← (if bool_decide (node_type = PMEM) then dram_app_fit_node threshold node_name app q
          else mret (true, FailText []) : M (alg_state S) (bool * failure));
  mret (fit.1 && dram.1, FailText [fit.2; dram.2]).

(** src/wca/scheduler/algorithms/score.py:96-119 [Score.app_fit_nodes] *)
Definition score_app_fit_nodes (strict_mode_placement : bool) (node_names : list string)
    (app_name : json) (_ : QueryDataProviderInfo)
    : M (alg_state S) (list string * dict string failure) :=
  match node_names with
  | [] => mret ([], [])
  | _ =>
      nodes_type ← on_provider get_nodes_type;
      apps_profile ← on_provider get_apps_profile;
      fit_nodes ← lift (foldM (λ fit_nodes node,
                    node_type ← dgetitem nodes_type node;
                    fit ← app_fit_node_type score_target apps_profile app_name node_type;
                    Ok (if fit : bool then fit_nodes ++ [node] else fit_nodes)) [] node_names);
      mret (if bool_decide (fit_nodes = []) && negb strict_mode_placement then (node_names, [])
            else (fit_nodes, []))
  end.

(** src/wca/scheduler/algorithms/score.py:52-68 [Score.__init__], the parts a call needs *)
Definition Score (max_node_score : num) (pmem_nodes : list string)
    (cpu_scale_factor threshold : num) (strict_mode_placement : bool) : Algorithm S :=
  mkAlgorithm dimensions max_node_score
    (score_app_fit_node pmem_nodes cpu_scale_factor threshold)
    (score_app_fit_nodes strict_mode_placement) fit_priority score_reschedule.
End score.

(** ** Only misplaced tasks are rescheduled *)
Section misplaced.
  Context (score_target : option num) (nodes_type : NodesType)
          (profile : AppsProfile) (apps_on_node : dict string Apps).

(** A task of an application on a node of type [ty], which is not the type the
    application belongs to. *)
Definition misplaced_task (ty : NodeType) (task : string) : Prop :=
  ∃ node apps app tasks app_type,
    (node, apps) ∈ apps_on_node ∧ (app, tasks) ∈ apps ∧ task ∈ tasks ∧
    dget nodes_type node = Some ty ∧
    get_app_node_type profile (JStr app) score_target = Ok app_type ∧ app_type ≠ ty.

Definition all_misplaced (ty : NodeType) (d : RescheduleApps) : Prop :=
  ∀ app nodes node tasks task,
    (app, nodes) ∈ d → (node, tasks) ∈ nodes → task ∈ tasks → misplaced_task ty task.

Lemma note_tasks_misplaced ty d app node tasks :
  all_misplaced ty d → (∀ task, task ∈ tasks → misplaced_task ty task) →
  all_misplaced ty (note_tasks d app node tasks).
Proof.
  intros Hd Ht app' nodes' node' tasks' task Hin Hn Htask.
  apply elem_of_dset in Hin as [[-> ->]|Hin]; [|by eapply Hd].
  apply elem_of_dset in Hn as [[-> ->]|Hn]; [by apply Ht|].
  destruct (dget d app) as [nodes|] eqn:E; [|by apply not_elem_of_nil in Hn].
  apply dget_Some_in in E. by eapply Hd.
Qed.

Definition found_ok (found : RescheduleApps * RescheduleApps) : Prop :=
  all_misplaced PMEM found.1 ∧ all_misplaced DRAM found.2.

Lemma misplaced_found r :
  misplaced score_target nodes_type profile apps_on_node = Ok r → found_ok r.
Proof.
  apply (foldM_inv found_ok).
  2: { split; intros app nodes node tasks task Hin; by apply not_elem_of_nil in Hin. }
  intros acc [node apps] acc' Hnode Hacc Hf. apply bind_Ok_iff in Hf as (ty & Hty & Hf).
  apply or_raise_Ok in Hty. revert Hf. apply (foldM_inv found_ok); [|done]. clear acc acc' Hacc.
  intros [re co] [app tasks] acc' Happ [Hre Hco] Hf. unfold note_misplaced, app_fit_node_type in Hf.
  apply bind_Ok_iff in Hf as (fits & Hfits & Hf).
  apply bind_Ok_iff in Hfits as (app_type & Htype & [= <-]).
  case_bool_decide as Hne; injection Hf as <-; [done|].
  assert (Hall : ∀ task, task ∈ tasks → misplaced_task ty task).
  { intros task Htask. exists node, apps, app, tasks, app_type. naive_solver. }
  destruct ty; cbn [fst snd]; split; try done; by apply note_tasks_misplaced.
Qed.

(** The tasks listed so far satisfy [P]. *)
Definition tasks_ok {A} (P : string → Prop) (acc : A * list string) : Prop := ∀ task, task ∈ acc.2 → P task.

Lemma tasks_ok_app {A} P (a : A) (acc : A * list string) task :
  tasks_ok P acc → P task → tasks_ok P (a, acc.2 ++ [task]).
Proof. intros Hacc Ht t [Hin| ->%list_elem_of_singleton]%elem_of_app; [by apply Hacc|done]. Qed.

Lemma free_pmem_nodes_tasks apps_spec reschedule used r :
  all_misplaced PMEM reschedule → free_pmem_nodes apps_spec reschedule used = Ok r →
  tasks_ok (misplaced_task PMEM) r.
Proof.
  intros Hre. apply (foldM_inv (tasks_ok (misplaced_task PMEM))).
  2: { intros task Hin. by apply not_elem_of_nil in Hin. }
  intros acc [app nodes] acc' Happ Hacc. apply (foldM_inv (tasks_ok _)); [|done].
  clear acc acc' Hacc. intros acc [node tasks] acc' Hnode Hacc Hf. destruct (dmem _ _); [|done].
  revert Hf. apply (foldM_inv (tasks_ok _)); [|done]. clear acc acc' Hacc.
  intros acc task acc' Htask Hacc Hf. inv_ok. apply tasks_ok_app; [done|]. by eapply Hre.
Qed.

Lemma sort_consider_tasks profile' consider :
  all_misplaced DRAM consider →
  ∀ app tasks task, (app, tasks) ∈ sort_consider profile' consider → task ∈ tasks →
    misplaced_task DRAM task.
Proof.
  intros Hco. unfold sort_consider.
  assert (Hnil : ∀ app tasks task, (app, tasks) ∈ ([] : dict string (list string)) → task ∈ tasks →
    misplaced_task DRAM task) by (intros app tasks task Hin; by apply not_elem_of_nil in Hin).
  revert Hnil. generalize ([] : dict string (list string)).
  induction profile' as [|[a p] l IH]; intros d Hd; simpl; [done|]. apply IH.
  intros app tasks task Hin Htask. destruct (dget consider a) as [nodes|] eqn:E; [|by eapply Hd].
  apply elem_of_dset in Hin as [[-> ->]|Hin]; [|by eapply Hd].
  apply py_sorted_elem, list_elem_of_In, in_concat in Htask as (ts & Hts & Htask).
  apply list_elem_of_In in Hts, Htask.
  apply list_elem_of_fmap in Hts as ([node ts'] & -> & Hn). apply dget_Some_in in E. by eapply Hco.
Qed.

Lemma move_tasks_tasks (P : string → Prop) apps_spec caps ratios profile' sorted_consider acc r :
  (∀ app tasks task, (app, tasks) ∈ sorted_consider → task ∈ tasks → P task) →
  tasks_ok P acc →
  move_tasks apps_spec caps ratios profile' sorted_consider acc = Ok r → tasks_ok P r.
Proof.
  intros Hco Hacc. refine (foldM_inv (tasks_ok P) _ _ _ _ _ Hacc).
  clear acc Hacc r. intros acc [app p] acc' _ Hacc.
  destruct (dget sorted_consider app) as [tasks|] eqn:E; [|by intros [= <-]].
  apply dget_Some_in in E. refine (foldM_inv (tasks_ok P) _ _ _ _ _ Hacc). clear acc acc' Hacc.
  intros acc task acc' Htask Hacc. refine (foldM_inv (tasks_ok P) _ _ _ _ _ Hacc).
  intros acc1 node acc2 _ Hacc1 Hf. inv_ok. case_match; [|done].
  apply tasks_ok_app; [done|]. by eapply Hco.
Qed.
End misplaced.

(** ** The result of rescheduling *)
Section reschedule.
  Context {S : Type} `{ScoreDataProvider S}.

Lemma on_provider_Ok {A} (m : M S A) st a st' :
  on_provider m st = (Ok a, st') → m (as_provider st) = (Ok a, as_provider st').
Proof. unfold on_provider. destruct (m (as_provider st)) as [r s]. by intros [= -> <-]. Qed.

(** C28 (safety): rescheduling removes only misplaced tasks: each is a task of an
    application of the cluster's assignment, on a node with persistent memory or
    without, while the profiles put its application on nodes of another type. *)
Theorem score_reschedules_misplaced dims score_target nodes_type (st st' : alg_state S) tasks :
  score_reschedule dims score_target nodes_type st = (Ok tasks, st') →
  ∃ apps_on_node counts profile s1 s2,
    get_apps_counts (as_provider st) = (Ok (apps_on_node, counts), s1) ∧
    get_apps_profile s1 = (Ok profile, s2) ∧
    ∀ task, task ∈ tasks →
      misplaced_task score_target nodes_type profile apps_on_node PMEM task ∨
      misplaced_task score_target nodes_type profile apps_on_node DRAM task.
Proof.
  unfold score_reschedule. intros Hs.
  apply M_bind_Ok_iff in Hs as ([aon counts] & st1 & Hc & Hs). apply on_provider_Ok in Hc.
  apply M_bind_Ok_iff in Hs as (profile & st2 & Hp & Hs). apply on_provider_Ok in Hp.
  apply M_bind_Ok_iff in Hs as (found & st3 & Hf & Hs). apply lift_Ok_iff in Hf as [Hf ->].
  apply misplaced_found in Hf as [Hre Hco].
  exists aon, counts, profile, (as_provider st1), (as_provider st2). split; [done|]. split; [done|].
  unfold get_tasks_to_reschedule in Hs. destruct found as [re co]. cbn [fst snd] in *.
  destruct co as [|c co]; [by apply M_ret_Ok_iff in Hs as [<- _]; intros t Ht%not_elem_of_nil|].
  inv_M. match goal with
  | Hfree : free_pmem_nodes _ _ _ = Ok _, Hmove : move_tasks _ _ _ _ _ _ = Ok _ |- _ =>
      apply (free_pmem_nodes_tasks _ _ _ _ _ _ _ _ Hre) in Hfree;
      revert Hmove; apply (move_tasks_tasks (λ task, _ task ∨ _ task))
  end.
  - intros app ts task Hin Htask. right. by eapply sort_consider_tasks.
  - intros task Htask. left. auto.
Qed.
End reschedule.

(** ** A cluster with one node of each type *)
Definition example_nodes_type : NodesType := [("n0", DRAM); ("p0", PMEM); ("p1", PMEM)].
Definition example_profile : AppsProfile := [("big", PInt 1); ("a", PInt 2); ("b", PInt 3)].
Definition example_placement : dict string Apps :=
  [("n0", [("big", ["big-0"])]); ("p0", [("a", ["a-0"])]); ("p1", [])].
Definition score_spec : dict string Resources :=
  [("big", [(CPU, PInt 1); (MEM, PInt 1)]); ("a", [(CPU, PInt 1); (MEM, PInt 1)])].
Definition score_capacities : dict string Resources :=
  (λ n, (n, [(CPU, PInt 4); (MEM, PInt 4)])) <$> ["n0"; "p0"; "p1"].

Definition score_example_provider : DataProvider bool := {|
  get_nodes_capacities := λ _, mret score_capacities;
  get_apps_counts := mret (example_placement, []);
  get_apps_requested_resources := λ _, mret score_spec;
  get_dram_hit_ratio := mret [];
  get_pmem_nodes := mret []
|}.
#[export] Instance score_example : ScoreDataProvider bool := {|
  score_provider := score_example_provider;
  get_apps_profile := mret example_profile;
  get_nodes_type := mret example_nodes_type
|}.

(** The task that moves to persistent memory is listed once for every node that has
    room for it. *)
Example task_listed_per_node :
  (score_reschedule [CPU; MEM] None example_nodes_type (mkAlgState [] true)).1 =
    Ok ["a-0"; "big-0"; "big-0"].
Proof. vm_compute. reflexivity. Qed.

Lemma score_reschedules_misplaced_witness :
  ∃ apps_on_node counts profile s1 s2,
    get_apps_counts true = (Ok (apps_on_node, counts), s1) ∧
    get_apps_profile s1 = (Ok profile, s2) ∧
    ∀ task, task ∈ ["a-0"; "big-0"; "big-0"] →
      misplaced_task None example_nodes_type profile apps_on_node PMEM task ∨
      misplaced_task None example_nodes_type profile apps_on_node DRAM task.
Proof.
  apply (score_reschedules_misplaced [CPU; MEM] None example_nodes_type (mkAlgState [] true)
           (mkAlgState [] true) ["a-0"; "big-0"; "big-0"]).
  vm_compute. reflexivity.
Defined.

(** The second pass forgets the nodes it does not take. *)
Example second_pass_forgets :
  (score_app_fit_nodes None true ["n0"; "p0"] (JStr "big") (mkQuery [] [] [] [])
     (mkAlgState [] true)).1 = Ok (["p0"], []).
Proof. vm_compute. reflexivity. Qed.
