(* ===== verification/SchedHierBar.v ===== *)
(** * Hierarchical BAR

    [src/wca/scheduler/algorithms/hierbar.py]: nodes are classed by the shape of
    their capacities and the second pass keeps the nodes of the best class that has
    any.

    Python chooses the order of sets: [set_order] of resource types and
    [name_order] of node names. *)
From stdpp Require Import sorting.
From S2P Require Export PyStats SchedAlgorithms.

(** src/wca/scheduler/algorithms/hierbar.py:30-32 [Shape, ShapeToNodes] *)
Definition Shape : Type := list (ResourceType * Z).
Definition ShapeToNodes : Type := dict Shape (list string).

(** [sorted(resources.items())]: the types are strings and distinct. *)
Definition by_type {A} (l : list (ResourceType * A)) : list (ResourceType * A) :=
  py_sorted (λ a b, String.ltb (ResourceType_value a.1) (ResourceType_value b.1)) l.

(** src/wca/scheduler/algorithms/hierbar.py:47-50 [_resources_to_shape] *)
Definition resources_to_shape (resources : Resources) : result Shape :=
  by_type <$> mapM (λ '(r, v), z ← num_trunc v; Ok (r, z)) resources.

Definition shape_resources (shape : Shape) : Resources := (λ rz, (rz.1, PInt rz.2)) <$> shape.

(** src/wca/scheduler/algorithms/hierbar.py:174-180 [reverse_node_shapes] *)
Definition reverse_node_shapes (node_shapes : dict string Shape) : ShapeToNodes :=
  foldl (λ d '(node_name, shape), dset d shape (default [] (dget d shape) ++ [node_name]))
    [] node_shapes.

(** src/wca/scheduler/algorithms/hierbar.py:183-187 [_create_shapes_from_nodes] *)
Definition create_shapes_from_nodes (node_capacities : NodeCapacities) : result (dict string Shape) :=
  mapM (λ nc, shape ← resources_to_shape nc.2; Ok (nc.1, shape)) node_capacities.

(** src/wca/scheduler/algorithms/hierbar.py:123-124 [shape_to_str] *)
Definition shape_to_str (pairs : Resources) : result string :=
  words ← mapM (λ '(r, v), text ← format_0f v; Ok (ResourceType_value r +:+ "=" +:+ text)) pairs;
  Ok (str_join "," words).

(** src/wca/scheduler/algorithms/hierbar.py:127-128 [resource_to_str] *)
Definition resource_to_str (resources : Resources) : result string :=
  shape_to_str (by_type resources).

Section hierbar.
  Context (set_order : list ResourceType → list ResourceType)
          (name_order : list string → list string).

(** src/wca/scheduler/algorithms/hierbar.py:35-44 [_calc_average_resources] *)
Definition calc_average_resources (list_of_resources : list Resources) : result Resources :=
  match list_of_resources with
  | [] => Ok []
  | r :: rs =>
      sum_of_resources ← foldM sum_resources r rs;
      divide_resources set_order sum_of_resources
        (dmap (λ _, PInt (Z.of_nat (length list_of_resources))) sum_of_resources) None
  end.

(** src/wca/scheduler/algorithms/hierbar.py:66-81 [create_new_shape] *)
Definition create_new_shape (shapes_to_nodes : ShapeToNodes) (node_capacities : NodeCapacities)
    (shapes : list Shape) : result (Shape * list string) :=
  names ← mapM (dgetitem shapes_to_nodes) shapes;
  let node_names_for_new_shape := concat names in
  nodes ← mapM (dgetitem node_capacities) node_names_for_new_shape;
  avg_resources ← calc_average_resources nodes;
  new_shape ← resources_to_shape avg_resources;
  Ok (new_shape, node_names_for_new_shape).

(** src/wca/scheduler/algorithms/hierbar.py:94-106 [_merge_shapes], one shape: above or
    below the threshold, or of no memory bandwidth and ignored *)
Definition threshold_side (merge_threshold : num) (acc : list Shape * list Shape) (shape : Shape)
    : result (list Shape * list Shape) :=
  ratio ← calculate_read_write_ratio (shape_resources shape);
  Ok match ratio with
     | None => acc
     | Some ratio => if nltb merge_threshold (PFloat ratio) then (acc.1 ++ [shape], acc.2)
                     else (acc.1, acc.2 ++ [shape])
     end.

(** src/wca/scheduler/algorithms/hierbar.py:84-120 [_merge_shapes] *)
Definition merge_shapes (merge_threshold : num) (node_capacities : NodeCapacities)
    (shapes_to_nodes : ShapeToNodes) : result ShapeToNodes :=
  if Z.of_nat (length shapes_to_nodes) <? 2 then Ok shapes_to_nodes
  else
    sides ← foldM (threshold_side merge_threshold) ([], []) (dkeys shapes_to_nodes);
    above ← create_new_shape shapes_to_nodes node_capacities sides.1;
    below ← create_new_shape shapes_to_nodes node_capacities sides.2;
    let add d (sn : Shape * list string) :=
      match sn.1 with [] => d | _ => dset d sn.1 sn.2 end in
    Ok (add (add [] above) below).

(** src/wca/scheduler/algorithms/hierbar.py:140-150 [calculate_class_variances], one class *)
Definition class_variance (node_capacities : NodeCapacities) (requested : Resources)
    (node_names : list string) : result float :=
  capacities ← mapM (dgetitem node_capacities) node_names;
  averaged ← calc_average_resources capacities;
  ratio ← calculate_read_write_ratio averaged;
  fraction ← divide_resources set_order requested averaged ratio;
  values ← mapM to_float (dvalues fraction);
  stdev values.

(** src/wca/scheduler/algorithms/hierbar.py:156-170 [calculate_class_variances], the metrics *)
Definition class_metrics (app_name : string) (requested : Resources) (shape : Shape)
    (variance : float) (number : Z) : result (list Metric) :=
  shape_str ← shape_to_str (shape_resources shape);
  requested_str ← resource_to_str requested;
  Ok [mkMetric (sched_metric "hierbar_node_shape_app_variance") (MNum (PFloat variance))
        [("app", app_name); ("app_requested", requested_str); ("shape", shape_str)]
        None None None None;
      mkMetric (sched_metric "hierbar_node_shape_numbers") (MNum (PInt number))
        [("shape", shape_str)] None None None None].

(** src/wca/scheduler/algorithms/hierbar.py:131-171 [calculate_class_variances] *)
Definition calculate_class_variances (app_name : string) (node_capacities : NodeCapacities)
    (requested : Resources) (shapes_to_nodes : ShapeToNodes)
    : result (dict Shape float * list Metric) :=
  foldM (λ acc '(shape, node_names),
    variance ← class_variance node_capacities requested node_names;
    metrics ← class_metrics app_name requested shape variance (Z.of_nat (length node_names));
    Ok (dset acc.1 shape variance, acc.2 ++ metrics)) ([], []) shapes_to_nodes.

(** src/wca/scheduler/algorithms/hierbar.py:218-228 [HierBAR.app_fit_nodes]
    The classes of nodes, and the class of every node. *)
Definition node_classes (merge_threshold : option num) (node_capacities : NodeCapacities)
    : result (dict string Shape * ShapeToNodes) :=
  node_shapes ← create_shapes_from_nodes node_capacities;
  let shapes_to_nodes := reverse_node_shapes node_shapes in
  match merge_threshold with
  | None => Ok (node_shapes, shapes_to_nodes)
  | Some threshold =>
      merged ← merge_shapes threshold node_capacities shapes_to_nodes;
      Ok (foldl (λ d '(shape, nodes), foldl (λ d node, dset d node shape) d nodes) [] merged, merged)
  end.

(** [set(a) & set(b)] as a list *)
Definition intersection (a b : list string) : list string :=
  name_order (py_set (List.filter (λ n, bool_decide (n ∈ b)) a)).
Definition difference (a b : list string) : list string :=
  name_order (py_set (List.filter (λ n, bool_decide (n ∉ b)) a)).

(** src/wca/scheduler/algorithms/hierbar.py:246-264 [HierBAR.app_fit_nodes]
    The nodes of the first class that has one of them, and its variance. *)
Fixpoint best_class (node_names : list string) (shapes_to_nodes : ShapeToNodes)
    (classes : list (Shape * float)) : result (list string * float) :=
  match classes with
  | [] => Raise AssertionError
  | (shape, variance) :: classes' =>
      nodes ← dgetitem shapes_to_nodes shape;
      match intersection node_names nodes with
      | [] => best_class node_names shapes_to_nodes classes'
      | accepted => Ok (accepted, variance)
      end
  end.

(** src/wca/scheduler/algorithms/hierbar.py:266-270 [HierBAR.app_fit_nodes], the failed nodes *)
Definition failed_classes (node_shapes : dict string Shape) (class_variances : dict Shape float)
    (failed_names : list string) : result (dict string failure) :=
  foldM (λ failed name,
    shape ← dgetitem node_shapes name;
    _ ← dgetitem class_variances shape;
    Ok (dset failed name NotBestClass)) [] failed_names.

Section algorithm.
  Context {S : Type} `{DataProvider S}.

(** src/wca/scheduler/algorithms/hierbar.py:210-279 [HierBAR.app_fit_nodes] *)
Definition hierbar_app_fit_nodes (merge_threshold : option num) (node_names : list string)
    (app : json) (q : QueryDataProviderInfo)
    : M (alg_state S) (list string * dict string failure) :=
  classes ← lift (node_classes merge_threshold (q_nodes_capacities q));
  let '(node_shapes, shapes_to_nodes) := classes in
  app_name ← lift (app_key app);
  requested ← lift (dgetitem (q_apps_spec q) app_name);
  variances ← lift (calculate_class_variances app_name (q_nodes_capacities q) requested
                      shapes_to_nodes);
  _ ← extend_metrics variances.2;
  _ ← lift (resources_to_shape requested);
  best ← lift (best_class node_names shapes_to_nodes
                 (py_sorted (λ a b, fltb a.2 b.2) variances.1));
  failed ← lift (failed_classes node_shapes variances.1 (difference node_names best.1));
  mret (best.1, failed).

(** src/wca/scheduler/algorithms/hierbar.py:190-201 [HierBAR] *)
Definition HierBAR (dimensions : list ResourceType) (max_node_score : num)
    (pmem_nodes : list string) (merge_threshold : option num) : Algorithm S :=
  mkAlgorithm dimensions max_node_score
    (fit_app_fit_node dimensions pmem_nodes (PFloat (float_of_ratio 1 1)))
    (hierbar_app_fit_nodes merge_threshold)
    (least_used_bar_priority set_order dimensions (least_used_weights dimensions None) [] (PInt 1))
    (fit_reschedule dimensions).
End algorithm.
End hierbar.

(** ** The class that is taken *)
Section spec.
  Context (set_order : list ResourceType → list ResourceType)
          (name_order : list string → list string).
  Context (Hname : ∀ l, name_order l ≡ₚ l).

Lemma intersection_elem a b n : n ∈ intersection name_order a b ↔ n ∈ a ∧ n ∈ b.
Proof.
  unfold intersection, py_set. rewrite Hname, elem_of_remove_dups.
  rewrite !list_elem_of_In, filter_In, <-!list_elem_of_In, bool_decide_eq_true. done.
Qed.

Lemma difference_elem a b n : n ∈ difference name_order a b ↔ n ∈ a ∧ n ∉ b.
Proof.
  unfold difference, py_set. rewrite Hname, elem_of_remove_dups.
  rewrite !list_elem_of_In, filter_In, <-!list_elem_of_In, bool_decide_eq_true. done.
Qed.

(** The chosen class is the first with one of the nodes. *)
Lemma best_class_spec names shapes_to_nodes classes accepted best :
  best_class name_order names shapes_to_nodes classes = Ok (accepted, best) →
  ∃ before shape nodes after,
    classes = before ++ (shape, best) :: after ∧ dget shapes_to_nodes shape = Some nodes ∧
    accepted = intersection name_order names nodes ∧ accepted ≠ [] ∧
    ∀ shape' v', (shape', v') ∈ before → ∃ nodes', dget shapes_to_nodes shape' = Some nodes' ∧
      ∀ n, n ∈ nodes' → n ∉ names.
Proof.
  induction classes as [|[shape v] classes IH]; intros Hb; [done|]. cbn [best_class] in Hb.
  apply bind_Ok_iff in Hb as (nodes & Hn & Hb). apply or_raise_Ok in Hn.
  destruct (intersection name_order names nodes) as [|a l] eqn:E.
  - apply IH in Hb as (before & s & ns & after & -> & Hs & Hacc & Hne & Hbefore).
    exists ((shape, v) :: before), s, ns, after. split_and!; try done.
    intros shape' v' [[= -> ->]|Hin]%elem_of_cons; [|by apply (Hbefore _ v')].
    exists nodes. split; [done|]. intros n Hin Hnames.
    apply (not_elem_of_nil n). rewrite <-E. by apply intersection_elem.
  - injection Hb as <- <-. exists [], shape, nodes, classes. rewrite E. split_and!; try done.
    intros shape' v' Hin. by apply not_elem_of_nil in Hin.
Qed.

Lemma failed_classes_keys node_shapes class_variances names failed :
  failed_classes node_shapes class_variances names = Ok failed →
  ∀ n, n ∈ dkeys failed ↔ n ∈ names.
Proof.
  unfold failed_classes.
  assert (Hgen : ∀ acc, foldM (λ failed name, shape ← dgetitem node_shapes name;
    _ ← dgetitem class_variances shape; Ok (dset failed name NotBestClass)) acc names = Ok failed →
    ∀ n, n ∈ dkeys failed ↔ n ∈ dkeys acc ∨ n ∈ names).
  { induction names as [|name names IH]; intros acc; cbn [foldM].
    - intros [= ->] n. rewrite elem_of_nil. naive_solver.
    - intros (acc' & Ha & Hf)%bind_Ok_iff n. inv_ok. rewrite (IH _ Hf), dkeys_dset_elem, elem_of_cons.
      naive_solver. }
  intros Hf n. rewrite (Hgen _ Hf). split; [intros [Hin|Hin]; [by apply not_elem_of_nil in Hin|done]|auto].
Qed.

Section algorithm.
  Context {S : Type} `{DataProvider S}.

Lemma hierbar_steps mt names app q (st : alg_state S) accepted failed st' :
  hierbar_app_fit_nodes set_order name_order mt names app q st = (Ok (accepted, failed), st') →
  ∃ node_shapes classes app_name requested variances best,
    node_classes set_order mt (q_nodes_capacities q) = Ok (node_shapes, classes) ∧
    app_key app = Ok app_name ∧ dget (q_apps_spec q) app_name = Some requested ∧
    calculate_class_variances set_order app_name (q_nodes_capacities q) requested classes = Ok variances ∧
    best_class name_order names classes (py_sorted (λ a b, fltb a.2 b.2) variances.1) =
      Ok (accepted, best) ∧
    ∀ n, n ∈ dkeys failed ↔ n ∈ names ∧ n ∉ accepted.
Proof.
  intros Hh. unfold hierbar_app_fit_nodes in Hh.
  apply M_bind_Ok_iff in Hh as ([node_shapes classes] & s1 & H1 & Hh). apply lift_Ok_iff in H1 as [H1 ->].
  apply M_bind_Ok_iff in Hh as (app_name & s2 & H2 & Hh). apply lift_Ok_iff in H2 as [H2 ->].
  apply M_bind_Ok_iff in Hh as (requested & s3 & H3 & Hh). apply lift_Ok_iff in H3 as [H3 ->].
  apply M_bind_Ok_iff in Hh as (variances & s4 & H4 & Hh). apply lift_Ok_iff in H4 as [H4 ->].
  apply M_bind_Ok_iff in Hh as (u & s5 & _ & Hh).
  apply M_bind_Ok_iff in Hh as (u' & s5' & _ & Hh).
  apply M_bind_Ok_iff in Hh as ([acc best] & s6 & H6 & Hh). apply lift_Ok_iff in H6 as [H6 ->].
  apply M_bind_Ok_iff in Hh as (f & s7 & H7 & Hh). apply lift_Ok_iff in H7 as [H7 ->].
  apply M_ret_Ok_iff in Hh as [[= <- <-] ->]. apply or_raise_Ok in H3.
  exists node_shapes, classes, app_name, requested, variances, best. split_and!; try done.
  intros n. rewrite (failed_classes_keys _ _ _ _ H7). apply difference_elem.
Qed.

#[export] Instance HierBAR_splits dims m pm mt :
  SplitsNodes (HierBAR (S := S) set_order name_order dims m pm mt).
Proof.
  intros names app q st accepted failed st' Hh _.
  apply hierbar_steps in Hh as (ns & classes & a & r & vs & best & _ & _ & _ & _ & Hb & Hf).
  apply best_class_spec in Hb as (before & shape & nodes & after & _ & _ & Hacc & _ & _).
  split; intros n; rewrite Hf; [|naive_solver].
  assert (n ∈ accepted → n ∈ names) by (rewrite Hacc, intersection_elem; naive_solver).
  destruct (decide (n ∈ accepted)); naive_solver.
Qed.

(** C29 (functional): the second pass of HierBAR keeps exactly the requested nodes of
    one class of node shapes, at least one; every class that fits the application
    better (less variance of the requested fraction) has none of the requested nodes.
    All other requested nodes are reported as failed. *)
Theorem hierbar_takes_best_class mt names app q (st : alg_state S) accepted failed st' :
  hierbar_app_fit_nodes set_order name_order mt names app q st = (Ok (accepted, failed), st') →
  ∃ node_shapes classes app_name requested variances shape nodes best,
    node_classes set_order mt (q_nodes_capacities q) = Ok (node_shapes, classes) ∧
    app_key app = Ok app_name ∧ dget (q_apps_spec q) app_name = Some requested ∧
    calculate_class_variances set_order app_name (q_nodes_capacities q) requested classes = Ok variances ∧
    dget classes shape = Some nodes ∧ (shape, best) ∈ variances.1 ∧
    accepted ≠ [] ∧ (∀ n, n ∈ accepted ↔ n ∈ names ∧ n ∈ nodes) ∧
    (∀ n, n ∈ dkeys failed ↔ n ∈ names ∧ n ∉ accepted) ∧
    (Forall (λ sv, is_nan sv.2 = false) variances.1 →
     ∀ shape' v', (shape', v') ∈ variances.1 → fltb v' best = true →
       ∃ nodes', dget classes shape' = Some nodes' ∧ ∀ n, n ∈ nodes' → n ∉ names).
Proof.
  intros Hh.
  apply hierbar_steps in Hh as (ns & classes & a & r & vs & best & H1 & H2 & H3 & H4 & Hb & Hf).
  apply best_class_spec in Hb as (before & shape & nodes & after & Hs & Hn & Hacc & Hne & Hbefore).
  exists ns, classes, a, r, vs, shape, nodes, best.
  assert (Hin : (shape, best) ∈ vs.1).
  { apply (py_sorted_elem (λ a b, fltb a.2 b.2)). rewrite Hs. set_solver. }
  split_and!; try done; [intros n; rewrite Hacc; apply intersection_elem|].
  intros Hnan shape' v' Hin' Hlt.
  assert (Hsorted : StronglySorted (λ a b, fle a.2 b.2) (py_sorted (λ a b, fltb a.2 b.2) vs.1)).
  { apply (py_sorted_sorted_on _ _ (λ sv, is_nan sv.2 = false)); [|..|done].
    - intros x y z _ _ _. apply key_le_trans.
    - intros x y. apply fltb_true_fle.
    - intros x y Hx Hy. by apply fltb_false_fle. }
  apply (py_sorted_elem (λ a b, fltb a.2 b.2)) in Hin'. rewrite Hs in Hin', Hsorted.
  rewrite Forall_forall in Hnan. apply elem_of_app in Hin' as [Hin'|Hin']; [by apply (Hbefore _ v')|].
  exfalso. apply StronglySorted_app_1_r in Hsorted. inversion Hsorted as [|? ? _ Hall]; subst.
  assert (Hfle : fle best v').
  { apply elem_of_cons in Hin' as [[= -> ->]|Hin']; [|by rewrite Forall_forall in Hall; apply (Hall _ Hin')].
    apply fltb_false_fle; [by apply (Hnan (shape, best))..|].
    destruct (fltb best best) eqn:E; [|done].
    assert (is_nan best = false) by (by apply (Hnan (shape, best))).
    rewrite fltb_key in E by done. unfold key_compare in E. by rewrite !Z.compare_refl in E. }
  apply fltb_false_fle in Hfle; [congruence| |by apply (Hnan (shape, best))].
  apply (Hnan (shape', v')), (py_sorted_elem (λ a b, fltb a.2 b.2)). rewrite Hs. set_solver.
Qed.
End algorithm.
End spec.

(** ** Two classes of nodes *)
Definition hierbar_capacities : NodeCapacities :=
  [("a", [(CPU, PInt 4); (MEM, PInt 8)]); ("b", [(CPU, PInt 4); (MEM, PInt 64)]);
   ("c", [(CPU, PInt 4); (MEM, PInt 8)])].
Definition hierbar_query : QueryDataProviderInfo :=
  mkQuery hierbar_capacities [] [("redis", [(CPU, PInt 1); (MEM, PInt 2)])] [].
Definition hierbar_run : result (list string * dict string failure) * alg_state unit :=
  hierbar_app_fit_nodes id id None ["a"; "b"] (JStr "redis") hierbar_query (mkAlgState [] tt).

Lemma hierbar_takes_best_class_witness :
  let r := result_get ([], []) hierbar_run.1 in
  r = (["a"], [("b", NotBestClass)]) ∧
  ∃ node_shapes classes app_name requested variances shape nodes best,
    node_classes id None hierbar_capacities = Ok (node_shapes, classes) ∧
    app_key (JStr "redis") = Ok app_name ∧
    dget (q_apps_spec hierbar_query) app_name = Some requested ∧
    calculate_class_variances id app_name hierbar_capacities requested classes = Ok variances ∧
    dget classes shape = Some nodes ∧ (shape, best) ∈ variances.1 ∧
    r.1 ≠ [] ∧ (∀ n, n ∈ r.1 ↔ n ∈ ["a"; "b"] ∧ n ∈ nodes) ∧
    (∀ n, n ∈ dkeys r.2 ↔ n ∈ ["a"; "b"] ∧ n ∉ r.1) ∧
    (Forall (λ sv, is_nan sv.2 = false) variances.1 →
     ∀ shape' v', (shape', v') ∈ variances.1 → fltb v' best = true →
       ∃ nodes', dget classes shape' = Some nodes' ∧ ∀ n, n ∈ nodes' → n ∉ ["a"; "b"]).
Proof.
  intros r. split; [vm_compute; reflexivity|].
  apply (hierbar_takes_best_class id id (λ l, reflexivity l) None ["a"; "b"] (JStr "redis")
           hierbar_query (mkAlgState [] tt) r.1 r.2 hierbar_run.2).
  unfold r. fold hierbar_run. apply outcome_Ok_pair. vm_compute. reflexivity.
Defined.

(** With a threshold but without memory bandwidth among the dimensions no class is
    left when the nodes differ. *)
Example threshold_without_membw :
  (hierbar_app_fit_nodes id id (Some (PInt 1)) ["a"; "b"] (JStr "redis") hierbar_query
     (mkAlgState [] tt)).1 = Raise AssertionError.
Proof. vm_compute. reflexivity. Qed.
