(* ===== verification/SimulatorScore.v ===== *)
(** * The simulator with Score

    [src/tests/scheduler/simulator/data_provider.py]: the profiles of applications and the
    types of nodes that the data provider of the simulator computes for the Score
    algorithm, and what Score does in the simulator with them. *)
From S2P Require Export SchedScore SchedHierBar SimulatorFit.

(** ** The provider *)

(** src/tests/scheduler/simulator/data_provider.py:26-32 [_is_aep] *)
Definition is_aep (node_name : string) (node_capacity : Resources) (dimensions : list ResourceType)
    : result bool :=
  if bool_decide (MEMBW_READ ∈ dimensions) then
    _ ← py_assert (bool_decide (MEMBW_WRITE ∈ dimensions));
    ratio ← calculate_read_write_ratio node_capacity;
    Ok match ratio with Some f => negb (feqb f (float_of_ratio 1 1)) | None => true end
  else Ok (startswith "aep_" node_name).

(** src/tests/scheduler/simulator/data_provider.py:35-38 [normalize_by] *)
Definition normalize_by (resources : Resources) (dimension : ResourceType) : result Resources :=
  foldM (λ r dim,
    if dmem resources dim then
      x ← dgetitem resources dim; y ← dgetitem resources dimension; q ← ndiv x y; Ok (dset r dim q)
    else Ok r) [] [CPU; MEM; MEMBW_WRITE; MEMBW_READ; WSS].

(** [max(l) if l else 0], the first of the greatest *)
Definition max_or_0 (l : list num) : num :=
  match l with
  | [] => PInt 0
  | x :: l => foldl (λ m y, if ngtb y m then y else m) x l
  end.
(** [max([r[d] for d in dims if d in r])] or 0 *)
Definition greatest_of (r : Resources) (dims : list ResourceType) : num :=
  max_or_0 (omap (dget r) dims).

(** src/tests/scheduler/simulator/data_provider.py:70-85 [_calculate_score_for_apps], the score *)
Definition app_score (normalization_dimension : ResourceType) (r : Resources) : result num :=
  match normalization_dimension with
  | CPU => positive ← dgetitem r MEM; nsub positive (greatest_of r [MEMBW_READ; MEMBW_WRITE; WSS])
  | MEM => Ok (greatest_of r [CPU; MEMBW_READ; MEMBW_WRITE; WSS])
  | _ => Ok (PInt 0)
  end.

Section provider.
  Context (set_order : list ResourceType → list ResourceType) (normalization_dimension : ResourceType).

(** src/tests/scheduler/simulator/data_provider.py:41-88 [_calculate_score_for_apps] *)
Definition calculate_score_for_apps (app_requested_resources : dict string Resources)
    (dimensions : list ResourceType) (node_capacities : dict string Resources) : result AppsProfile :=
  aep_capacities ← foldM (λ l '(node_name, capacity),
    aep ← is_aep node_name capacity dimensions; Ok (if aep : bool then l ++ [capacity] else l))
    [] node_capacities;
  match aep_capacities with
  | [] => Ok []
  | _ =>
      aep_average_resources ← calc_average_resources set_order aep_capacities;
      aep_node_profile ← normalize_by aep_average_resources normalization_dimension;
      profiles ← mapM (λ '(app, requested), p ← normalize_by requested normalization_dimension; Ok (app, p))
                   app_requested_resources;
      by_aep ← mapM (λ '(app, p), d ← divide_resources set_order p aep_node_profile None; Ok (app, d))
                 profiles;
      mapM (λ '(app, r), s ← app_score normalization_dimension r; Ok (app, s)) by_aep
  end.

(** src/wca/scheduler/cluster_simulator.py:214-215 [ClusterSimulator._get_dimensions_from_first_node] *)
Definition get_dimensions_from_first_node (s : Sim) : result (list ResourceType) :=
  match sim_nodes s with [] => Raise IndexError | n :: _ => Ok (dkeys (sn_initial n)) end.

(** src/tests/scheduler/simulator/data_provider.py:137-145 [ClusterSimulatorDataProvider.get_apps_profile] *)
Definition sim_apps_profile (s : Sim) : result AppsProfile :=
  dimensions ← get_dimensions_from_first_node s;
  app_requested_resources ← sim_apps_requested dimensions s;
  node_capacities ← sim_nodes_capacities dimensions s;
  calculate_score_for_apps app_requested_resources dimensions node_capacities.

(** src/tests/scheduler/simulator/data_provider.py:147-153 [ClusterSimulatorDataProvider.get_nodes_type] *)
Definition sim_nodes_type (s : Sim) : result NodesType :=
  dimensions ← get_dimensions_from_first_node s;
  node_capacities ← sim_nodes_capacities dimensions s;
  mapM (λ '(node_name, node_resource),
    aep ← is_aep node_name node_resource dimensions;
    Ok (node_name, if aep : bool then SchedScore.PMEM else SchedScore.DRAM)) node_capacities.

(** src/tests/scheduler/simulator/data_provider.py:91-161 [ClusterSimulatorDataProvider], for Score *)
Definition simulator_score_provider : ScoreDataProvider Sim := {|
  score_provider := simulator_provider;
  get_apps_profile := λ s, (sim_apps_profile s, s);
  get_nodes_type := λ s, (sim_nodes_type s, s)
|}.

(** Score as it is made for a simulator: it asks for the types of the nodes once. *)
Definition sim_score (dimensions : list ResourceType) (score_target : option num) (max_node_score : num)
    (cpu_scale_factor threshold : num) (strict : bool) (s : Sim) : result (Algorithm Sim) :=
  nodes_type ← sim_nodes_type s;
  Ok (Score (H := simulator_score_provider) dimensions score_target nodes_type max_node_score []
        cpu_scale_factor threshold strict).
End provider.

(** ** Score only reads the simulator *)
#[local] Existing Instance simulator_provider.

Lemma reads_provider {A} (m : Sim → result A) : reads (on_provider (λ s, (m s, s))).
Proof. intros st. unfold on_provider. done. Qed.
#[export] Hint Resolve reads_provider : wca.

Lemma reads_get_tasks so nd dims nodes_type re consider profile counts :
  reads (get_tasks_to_reschedule (H := simulator_score_provider so nd) dims nodes_type re consider profile counts).
Proof.
  unfold get_tasks_to_reschedule. destruct consider as [|c cs]; [apply reads_ret|].
  repeat (apply reads_bind; [first [apply reads_lift|apply reads_provider]|intros ?]). apply reads_ret.
Qed.

Lemma Score_read_only so nd dims target nodes_type m pm f thr strict :
  @ReadsOnly (@Score Sim (simulator_score_provider so nd) dims target nodes_type m pm f thr strict)
    simulator_provider.
Proof.
  apply callbacks_read_only.
  - intros n a q. cbn. unfold score_app_fit_node. apply reads_bind; [|intros [fits msg]].
    { unfold fit_app_fit_node. apply reads_bind; [apply reads_lift|]. intros caps.
      apply reads_bind; [apply reads_lift|]. intros name. apply reads_bind; [apply reads_lift|].
      intros [[fits msg] ms]. apply reads_bind; [apply reads_extend_metrics|]. intros _. apply reads_ret. }
    apply reads_bind; [apply reads_lift|]. intros ty. apply reads_bind; [|intros ?; apply reads_ret].
    destruct (bool_decide _); [|apply reads_ret]. unfold dram_app_fit_node.
    apply reads_bind; [apply (reads_provider (λ s, Ok _))|]. intros ratios.
    apply reads_bind; [apply reads_lift|]. intros ratio. apply reads_bind; [apply reads_extend_metrics|].
    intros _. apply reads_ret.
  - intros ns a q. cbn. unfold score_app_fit_nodes. destruct ns as [|n ns]; [apply reads_ret|].
    apply reads_bind; [apply reads_provider|]. intros types.
    apply reads_bind; [apply reads_provider|]. intros profile.
    apply reads_bind; [apply reads_lift|]. intros fit. apply reads_ret.
  - intros n a q. apply reads_ret.
  - cbn. unfold score_reschedule. apply reads_bind; [apply reads_provider|]. intros counts.
    apply reads_bind; [apply reads_provider|]. intros profile.
    apply reads_bind; [apply reads_lift|]. intros found. apply reads_get_tasks.
Qed.

(** A simulator with strict assignment never loads a node that no task names with more than
    its capacity while Score schedules and reschedules its tasks. *)
Lemma score_run_fits dims req cap bound_to node_names so nd sdims target nodes_type m pm f thr strict cfg rounds st i :
  MEMBW_READ ∉ dims → MEMBW_WRITE ∉ dims → allow_rough_assignment cfg = false →
  (∀ t dim, 0 ≤ req t dim) → unnamed bound_to node_names i →
  sim_ok dims req cap node_names (as_provider st) → Forall (round_ok dims req bound_to) rounds →
  (∀ dim, dim ∈ dims → tasks_load req (sim_tasks (as_provider st)) i dim ≤ cap i dim) →
  let score := @Score Sim (simulator_score_provider so nd) sdims target nodes_type m pm f thr strict in
  ∀ dim, dim ∈ dims →
    tasks_load req (sim_tasks (as_provider (run cfg score rounds st))) i dim ≤ cap i dim.
Proof.
  intros Hr Hw Hcfg Hpos Hi Hok Hrounds Hfits score dim Hdim.
  destruct (run_moves dims req cap bound_to node_names Hr Hw cfg score
              (Score_read_only _ _ _ _ _ _ _ _ _ _) Hcfg rounds st Hok Hrounds) as [Hok' Hrtc].
  rewrite <-(abs_load req) by apply Hok'. apply (cluster_steps_fit dims req cap _ _ i _ _ Hpos Hi Hrtc); [|done].
  intros dim' Hdim'. rewrite (abs_load req) by apply Hok. by apply Hfits.
Qed.

(** ** A cluster without persistent memory *)

Lemma no_profile_dram app target : get_app_node_type [] app target = Ok SchedScore.DRAM.
Proof. done. Qed.

Lemma misplaced_none target nodes_type counts r :
  (∀ node ty, dget nodes_type node = Some ty → ty = SchedScore.DRAM) →
  misplaced target nodes_type [] counts = Ok r → r = ([], []).
Proof.
  intros Htypes. unfold misplaced. apply (foldM_inv (λ acc, acc = ([], []))); [|done].
  intros acc [node apps] acc' _ -> (ty & Hty%or_raise_Ok & Hf)%bind_Ok_iff. apply Htypes in Hty as ->.
  revert Hf. apply (foldM_inv (λ acc, acc = ([], []))); [|done].
  intros acc [app tasks] acc2 _ -> Hf. unfold note_misplaced, app_fit_node_type in Hf.
  rewrite no_profile_dram in Hf. cbn in Hf. by injection Hf as <-.
Qed.

(** When no node has persistent memory there are no profiles, every application belongs on
    DRAM and nothing is rescheduled. *)
Lemma dram_cluster_keeps_tasks so nd dims target nodes_type st tasks st' :
  sim_nodes_type (as_provider st) = Ok nodes_type →
  (∀ node ty, (node, ty) ∈ nodes_type → ty = SchedScore.DRAM) →
  score_reschedule (H := simulator_score_provider so nd) dims target nodes_type st = (Ok tasks, st') →
  tasks = [] ∧ st' = st.
Proof.
  intros Htypes Hdram Hs. unfold score_reschedule in Hs.
  assert (Hprofile : ∀ p, sim_apps_profile so nd (as_provider st) = Ok p → p = []).
  { intros p. unfold sim_apps_profile, sim_nodes_type in *.
    destruct (get_dimensions_from_first_node (as_provider st)) as [ds|]; [|done]. cbn in *.
    intros (reqs & _ & Hp)%bind_Ok_iff. destruct (sim_nodes_capacities ds (as_provider st)) as [caps|]; [|done].
    cbn in *. unfold calculate_score_for_apps in Hp. apply bind_Ok_iff in Hp as (aeps & Haeps & Hp).
    assert (aeps = []) as ->; [|by injection Hp as <-]. apply mapM_Ok_Forall2 in Htypes.
    revert Haeps. apply (foldM_inv (λ l : list Resources, l = [])); [|done].
    intros l [node cap] l' Hin -> (aep & Haep & [= <-])%bind_Ok_iff. destruct aep; [exfalso|done].
    apply list_elem_of_lookup in Hin as [i Hi].
    apply (Forall2_lookup_l _ _ _ _ _ Htypes) in Hi as ([node' ty] & Hi & Hty).
    rewrite Haep in Hty. cbn in Hty. injection Hty as <- <-. apply list_elem_of_lookup_2 in Hi.
    by apply Hdram in Hi. }
  apply M_bind_Ok_iff in Hs as ([counts n] & st1 & Hc & Hs).
  assert (st1 = st) as ->.
  { unfold on_provider in Hc. cbn in Hc. injection Hc as _ <-. by destruct st. }
  apply M_bind_Ok_iff in Hs as (profile & st2 & Hp & Hs).
  assert (st2 = st ∧ profile = []) as [-> ->].
  { unfold on_provider in Hp. cbn in Hp. injection Hp as Hp <-. split; [by destruct st|by apply Hprofile]. }
  apply M_bind_Ok_iff in Hs as (found & st3 & [Hf ->]%lift_Ok_iff & Hs).
  apply misplaced_none in Hf as ->; [|intros node ty Hd%dget_Some_in; by eapply Hdram].
  by apply M_ret_Ok_iff in Hs as [<- ->].
Qed.

(** ** One node with persistent memory and one without

    By the normalisation with memory, the application that reads and writes least for its
    memory belongs on persistent memory. *)
Definition bandwidth_node (name : string) (mem read write : Z) : SimNode :=
  mkSimNode name [(CPU, PInt 16); (MEM, PInt mem); (MEMBW_READ, PInt read); (MEMBW_WRITE, PInt write)].
Definition bandwidth_task (name : string) (mem bw : Z) (node : option nat) : SimTask :=
  mkSimTask name [(CPU, PInt 1); (MEM, PInt mem); (MEMBW_READ, PInt bw); (MEMBW_WRITE, PInt bw)] None node None 0.
Definition score_sim : Sim := sim_init
  [bandwidth_task "big___0" 100 1 (Some 1%nat); bandwidth_task "a___0" 10 5 (Some 0%nat); bandwidth_task "b___0" 10 8 None]
  [bandwidth_node "aep_0" 400 40 10; bandwidth_node "n0" 200 100 100].
Definition score_dims : list ResourceType := [CPU; MEM; MEMBW_READ; MEMBW_WRITE].

Example score_sim_types :
  sim_nodes_type score_sim = Ok [("aep_0", SchedScore.PMEM); ("n0", SchedScore.DRAM)].
Proof. vm_compute. reflexivity. Qed.
Example score_sim_profile :
  dkeys <$> (sorted_apps_profile <$> sim_apps_profile id MEM score_sim) = Ok ["big"; "a"; "b"].
Proof. vm_compute. reflexivity. Qed.

(** An iteration without new tasks takes both misplaced tasks off their nodes. *)
Example score_sim_reschedules :
  (alg ← sim_score id MEM score_dims None (PInt 10) (PInt 1) (PFloat fzero) false score_sim;
   let st := (iterate (mkSimConfig false false) alg [] (mkAlgState [] score_sim)).2 in
   Ok ((λ t, (st_name t, st_assignment t)) <$> sim_tasks (as_provider st))) =
  Ok [("big___0", None); ("a___0", None); ("b___0", None)].
Proof. vm_compute. reflexivity. Qed.

(** The simulator looks only at the nodes that are reported as failed, and the second pass
    of Score reports none: in the next iteration the application of DRAM goes back to the
    node it was taken off. *)
Example score_sim_returns :
  (alg ← sim_score id MEM score_dims None (PInt 10) (PInt 1) (PFloat fzero) false score_sim;
   let step cfg st := (iterate cfg alg [] st).2 in
   let st := step (mkSimConfig false true) (step (mkSimConfig false false) (mkAlgState [] score_sim)) in
   Ok ((λ t, (st_name t, st_assignment t)) <$> sim_tasks (as_provider st))) =
  Ok [("big___0", Some 0%nat); ("a___0", Some 0%nat); ("b___0", Some 1%nat)].
Proof. vm_compute. reflexivity. Qed.
