(* ===== verification/ClusterData.v ===== *)
(** * Data of the cluster

    [src/wca/prometheus.py], [src/wca/scheduler/kubeapi.py],
    [src/wca/scheduler/data_providers/cluster_data_provider.py] and
    [score/cluster.py]: the interface of a data provider, implemented with queries to
    Prometheus and to the API of Kubernetes.  The requests themselves are a parameter
    that gives the status and the JSON of the response. *)
From S2P Require Export SchedScore Kubernetes Storage.

(** ** Requests *)

(** A response: [r.ok] and [r.json()]. *)
Record response := mkResponse { r_ok : bool; r_json : result json }.

Definition RequestException : exn := OtherException "RequestException".
Definition HTTPError : exn := OtherException "HTTPError".
Definition PrometheusDataProviderException : exn := OtherException "PrometheusDataProviderException".

(** [requests.get(url)] and [requests.delete(url)], with the token of the
    authorization where there is one. *)
Class Requests (W : Type) : Type := {
  requests_get : option string → string → M W response;
  requests_delete : option string → string → M W response
}.

(** [r.raise_for_status()] *)
Definition raise_for_status {W} (r : response) : M W unit :=
  if r_ok r then mret tt else raise HTTPError.

(** [requests.exceptions.RequestException], of which [HTTPError] is a subclass *)
Definition is_RequestException (e : exn) : bool :=
  bool_decide (e = RequestException) || bool_decide (e = HTTPError).

(** ** Prometheus *)

(** src/wca/prometheus.py:32-37 [Prometheus]
    [p_ssl] says whether certificates are configured. *)
Record Prometheus := mkPrometheus {
  p_host : string; p_port : Z; p_ssl : bool; p_time : option string
}.

(** src/wca/prometheus.py:23-24 [QUERY_PATH, URL_TPL] *)
Definition QUERY_PATH : string := "/api/v1/query".

(** src/wca/prometheus.py:41-47 [Prometheus.do_query], the address *)
Definition query_url (self : Prometheus) (query : string) (use_time : bool) : string :=
  let url := p_host self +:+ ":" +:+ str_of_Z (p_port self) +:+ QUERY_PATH +:+ "?query=" +:+ query in
  match p_time self with
  | Some time => if negb (String.eqb time "") && use_time then url +:+ "&time=" +:+ time else url
  | None => url
  end.

(** src/wca/prometheus.py:39-64 [Prometheus.do_query]
    With certificates the code reads [self.ip], an attribute the class has not. *)
Definition do_query {W} `{Requests W} (self : Prometheus) (query : string) (use_time : bool) : M W json :=
  let url := query_url self query use_time in
  response ← try_except
    (if p_ssl self then raise AttributeError
     else r ← requests_get None url; _ ← raise_for_status r; mret r)
    (λ e, if is_RequestException e then Some (raise PrometheusDataProviderException) else None);
  lift (body ← r_json response; data ← jitem body "data"; jitem data "result").

(** ** The API of Kubernetes *)

(** src/wca/scheduler/kubeapi.py:30-47 [Kubeapi] *)
Record Kubeapi := mkKubeapi {
  k_endpoint : string; k_service_token : string; k_monitored_namespaces : list string
}.

(** src/wca/scheduler/kubeapi.py:41-47 [Kubeapi.__post_init__] *)
Definition make_Kubeapi {W} `{FileSystem W} (host port client_token_path : string)
    (monitored_namespaces : list string) : M W Kubeapi :=
  let endpoint := "https://" +:+ host +:+ ":" +:+ port in
  service_token ← read_file client_token_path;
  mret (mkKubeapi endpoint service_token monitored_namespaces).

(** [urljoin(endpoint, target)] of a target that is an absolute path *)
Definition urljoin (endpoint target : string) : string := endpoint +:+ target.

(** src/wca/scheduler/kubeapi.py:49-68 [Kubeapi.request_kubeapi] *)
Definition request_kubeapi {W} `{Requests W} (self : Kubeapi) (target : string) : M W json :=
  r ← requests_get (Some ("Bearer " +:+ k_service_token self)) (urljoin (k_endpoint self) target);
  _ ← raise_for_status r;
  lift (r_json r).

(** src/wca/scheduler/kubeapi.py:70-88 [Kubeapi.delete] *)
Definition kubeapi_delete {W} `{Requests W} (self : Kubeapi) (target : string) : M W json :=
  r ← requests_delete (Some ("Bearer " +:+ k_service_token self)) (urljoin (k_endpoint self) target);
  _ ← raise_for_status r;
  lift (r_json r).

(** ** Reading the rows *)

(** [float(v)] of a JSON value *)
Definition jfloat (v : json) : result float :=
  match v with
  | JStr s => py_float s
  | JNum n => to_float n
  | JBool b => to_float (PInt (if b then 1 else 0))
  | _ => Raise TypeError
  end.

(** [float(row['value'][1])] *)
Definition row_value (row : json) : result float :=
  value ← jitem row "value"; v ← jnth value 1; jfloat v.

(** [row['metric'][label]] *)
Definition row_metric (row : json) (label : string) : result string :=
  metric ← jitem row "metric"; v ← jitem metric label; jstr v.

(** [{key(row): value(row) for row in rows}]: the value is evaluated before the key. *)
Definition rows_dict {A} (key : json → result string) (value : json → result A) (rows : list json)
    : result (dict string A) :=
  foldM (λ d row, v ← value row; k ← key row; Ok (dset d k v)) [] rows.

(** src/wca/scheduler/data_providers/cluster_data_provider.py:31-56 [Queries] *)
Record Queries := mkQueries {
  APP_REQUESTED_RESOURCES_QUERY_MAP : dict ResourceType string;
  NODE_CAPACITY_RESOURCES_QUERY_MAP : dict ResourceType string;
  NODES_PMM_MEMORY_MODE : string;
  NODES_DRAM_HIT_RATIO : string
}.

Definition in_quotes (s : string) : string := str1 quote +:+ s +:+ str1 quote.

(** src/wca/scheduler/data_providers/cluster_data_provider.py:41-56 [Queries], the defaults *)
Definition default_queries : Queries :=
  let app_req dim := "app_req{dim=" +:+ in_quotes dim +:+ "}" in
  let node_capacity dim := "node_capacity{dim=" +:+ in_quotes dim +:+ "}" in
  mkQueries
    [(CPU, app_req "cpu"); (MEM, app_req "mem"); (MEMBW_FLAT, app_req "mbw_flat"); (WSS, app_req "wss")]
    [(MEMBW_READ, node_capacity "mbw_read"); (MEMBW_WRITE, node_capacity "mbw_write");
     (MEMBW_FLAT, node_capacity "mbw_flat"); (WSS, node_capacity "wss")]
    "sum(platform_mem_mode_size_bytes) by (node) != 0" "platform_dram_hit_ratio".

(** src/wca/scheduler/data_providers/cluster_data_provider.py:59-63 [_convert_k8s_memory_capacity]
    [memory[:-2]] without the unit *)
Definition convert_k8s_memory_capacity (memory : string) : result Z :=
  _ ← py_assert (endswith "Ki" memory);
  amount ← py_int (str_take (String.length memory - 2) memory);
  bytes ← float_of_Z (amount * 1024);
  gb ← fdiv bytes (float_of_ratio 1000000000 1);
  float_trunc gb.

Definition MissingBasicResources : exn := OtherException "MissingBasicResources".
Definition MissingQueryForResource : exn := OtherException "MissingQueryForResource".

(** [not in node['metadata']['labels']] of the label of masters *)
Definition is_worker (node : json) : result bool :=
  metadata ← jitem node "metadata"; labels ← jitem metadata "labels";
  master ← jmem labels "node-role.kubernetes.io/master"; Ok (negb master).

(** [node['metadata']['name']] *)
Definition node_name_of (node : json) : result string :=
  metadata ← jitem node "metadata"; name ← jitem metadata "name"; jstr name.

(** src/wca/scheduler/data_providers/cluster_data_provider.py:116-119 [ClusterDataProvider.get_nodes_capacities] *)
Definition basic_capacity (node : json) : result Resources :=
  status ← jitem node "status"; capacity ← jitem status "capacity";
  cpu_text ← jitem capacity "cpu"; cpu ← jfloat cpu_text;
  memory ← jitem capacity "memory"; memory ← jstr memory; mem ← convert_k8s_memory_capacity memory;
  Ok [(CPU, PFloat cpu); (MEM, PInt mem)].

(** src/wca/scheduler/data_providers/cluster_data_provider.py:114-122 [ClusterDataProvider.get_nodes_capacities] *)
Definition basic_capacities (nodes : list json) : result (dict string Resources) :=
  foldM (λ node_capacities node,
    worker ← is_worker node;
    if worker : bool then
      v ← basic_capacity node; k ← node_name_of node; Ok (dset node_capacities k v)
    else Ok node_capacities) [] nodes.

(** src/wca/scheduler/data_providers/cluster_data_provider.py:95-104 [ClusterDataProvider._get_nodes_capacities_from_query] *)
Definition capacities_of_rows (nodes : list string) (resources : list ResourceType) (rows : list json)
    : result (dict string Resources) :=
  foldM (λ node_capacities row,
    node ← row_metric row "node";
    if bool_decide (node ∈ nodes) then
      value ← row_value row;
      foldM (λ node_capacities resource,
        v ← float_trunc value; caps ← dgetitem node_capacities node;
        Ok (dset node_capacities node (dset caps resource (PInt v)))) node_capacities resources
    else Ok node_capacities) (dict_of ((λ node, (node, [])) <$> nodes)) rows.

(** src/wca/scheduler/data_providers/cluster_data_provider.py:126-129 [update_subdicts] *)
Definition update_subdicts (main sub : dict string Resources) : result (dict string Resources) :=
  foldM (λ main key,
    m ← dgetitem main key; s ← dgetitem sub key; Ok (dset main key (dupdate m s))) main (dkeys main).

(** [d.get(k)] of a JSON object, as an optional string *)
Definition jget_str (v : json) (k : string) : result json := jget v k JNull.

(** The counts of one pass over the pods: assigned and unassigned. *)
Definition apps_counts : Type := dict string Apps * AppsCount.

(** src/wca/scheduler/data_providers/cluster_data_provider.py:181-184 [ClusterDataProvider.get_apps_counts] *)
Definition assign_app (assigned_apps : dict string Apps) (node app name : string)
    : result (dict string Apps) :=
  apps ← dgetitem assigned_apps node;
  Ok (dset assigned_apps node (dset apps app (default [] (dget apps app) ++ [name]))).

(** src/wca/scheduler/data_providers/cluster_data_provider.py:166-184 [ClusterDataProvider.get_apps_counts], one pod *)
Definition count_pod (counts : apps_counts) (pod : json) : result apps_counts :=
  metadata ← jitem pod "metadata";
  name ← jitem metadata "name"; name ← jstr name;
  labels ← jitem metadata "labels"; app ← jget_str labels "app";
  if negb (jtrue app) then Ok counts
  else
    app ← jstr app;
    spec ← jitem pod "spec"; node ← jget_str spec "nodeName";
    status ← jitem pod "status"; host_ip ← jget_str status "hostIP";
    if negb (jtrue node && jtrue host_ip) then
      Ok (counts.1, dset counts.2 app (dget0 counts.2 app + 1))
    else
      node ← jstr node; assigned ← assign_app counts.1 node app name; Ok (assigned, counts.2).

(** src/wca/scheduler/data_providers/cluster_data_provider.py:200-204 [ClusterDataProvider.get_apps_requested_resources] *)
Definition request_of_row (resource : ResourceType) (requested : dict string Resources) (row : json)
    : result (dict string Resources) :=
  metric ← jitem row "metric"; app ← jget_str metric "app"; value ← row_value row;
  if jtrue app then
    app ← jstr app;
    Ok (dset requested app (dset (default [] (dget requested app)) resource (PFloat value)))
  else Ok requested.

Section provider.
  Context {W : Type} `{Requests W}.
  Context (kubeapi : Kubeapi) (prometheus : Prometheus) (queries : Queries).

Definition query_rows (query : string) : M W (list json) :=
  rows ← do_query prometheus query true; lift (jiter rows).

(** [list(self.kubeapi.request_kubeapi(target)['items'])] *)
Definition kube_items (target : string) : M W (list json) :=
  r ← request_kubeapi kubeapi target; lift (items ← jitem r "items"; jiter items).

(** src/wca/scheduler/data_providers/cluster_data_provider.py:80-86 [ClusterDataProvider.get_pmem_nodes] *)
Definition cluster_pmem_nodes : M W (list string) :=
  query_result ← query_rows (NODES_PMM_MEMORY_MODE queries);
  lift (mapM (λ row, row_metric row "node") query_result).

(** src/wca/scheduler/data_providers/cluster_data_provider.py:88-104 [ClusterDataProvider._get_nodes_capacities_from_query] *)
Definition get_nodes_capacities_from_query (nodes : list string) (resources : list ResourceType)
    (query : string) : M W (dict string Resources) :=
  rows ← query_rows query; lift (capacities_of_rows nodes resources rows).

(** src/wca/scheduler/data_providers/cluster_data_provider.py:131-143 [ClusterDataProvider.get_nodes_capacities], one resource *)
Definition add_resource_capacity (nodes : list string) (node_capacities : dict string Resources)
    (resource : ResourceType) : M W (dict string Resources) :=
  if bool_decide (resource ∈ [CPU; MEM]) then mret node_capacities
  else
    query ← lift (or_raise MissingQueryForResource
                    (dget (NODE_CAPACITY_RESOURCES_QUERY_MAP queries) resource));
    sub ← get_nodes_capacities_from_query nodes [resource] query;
    lift (update_subdicts node_capacities sub).

(** src/wca/scheduler/data_providers/cluster_data_provider.py:106-147 [ClusterDataProvider.get_nodes_capacities] *)
Definition cluster_nodes_capacities (resources : list ResourceType) : M W (dict string Resources) :=
  if negb (bool_decide (CPU ∈ resources)) || negb (bool_decide (MEM ∈ resources)) then
    raise MissingBasicResources
  else
    kubeapi_nodes_data ← kube_items "/api/v1/nodes";
    node_capacities ← lift (basic_capacities kubeapi_nodes_data);
    foldMS (add_resource_capacity (dkeys node_capacities)) node_capacities resources.

(** src/wca/scheduler/data_providers/cluster_data_provider.py:154-160 [ClusterDataProvider.get_apps_counts] *)
Definition worker_names (nodes_data : list json) : result (list string) :=
  foldM (λ names node,
    worker ← is_worker node;
    if worker : bool then name ← node_name_of node; Ok (names ++ [name]) else Ok names) [] nodes_data.

(** src/wca/scheduler/data_providers/cluster_data_provider.py:162-184 [ClusterDataProvider.get_apps_counts], one namespace *)
Definition count_namespace (counts : apps_counts) (namespace : string) : M W apps_counts :=
  pods_data ← kube_items ("/api/v1/namespaces/" +:+ namespace +:+ "/pods");
  lift (foldM count_pod counts pods_data).

(** src/wca/scheduler/data_providers/cluster_data_provider.py:149-191 [ClusterDataProvider.get_apps_counts] *)
Definition cluster_apps_counts : M W (dict string Apps * AppsCount) :=
  nodes_data ← kube_items "/api/v1/nodes";
  node_names ← lift (worker_names nodes_data);
  let assigned_apps := dict_of ((λ node_name, (node_name, [])) <$> node_names) in
  foldMS count_namespace (assigned_apps, []) (k_monitored_namespaces kubeapi).

(** src/wca/scheduler/data_providers/cluster_data_provider.py:193-208 [ClusterDataProvider.get_apps_requested_resources] *)
Definition cluster_apps_requested_resources (resources : list ResourceType)
    : M W (dict string Resources) :=
  foldMS (λ requested resource,
    query ← lift (dgetitem (APP_REQUESTED_RESOURCES_QUERY_MAP queries) resource);
    query_result ← query_rows query;
    lift (foldM (request_of_row resource) requested query_result)) [] resources.

(** src/wca/scheduler/data_providers/cluster_data_provider.py:210-216 [ClusterDataProvider.get_dram_hit_ratio] *)
Definition cluster_dram_hit_ratio : M W (dict string num) :=
  query_result ← query_rows (NODES_DRAM_HIT_RATIO queries);
  lift (rows_dict (λ row, row_metric row "node") (λ row, PFloat <$> row_value row) query_result).

(** src/wca/scheduler/data_providers/cluster_data_provider.py:74-78 [ClusterDataProvider] *)
Definition ClusterDataProvider : DataProvider W := {|
  get_nodes_capacities := cluster_nodes_capacities;
  get_apps_counts := cluster_apps_counts;
  get_apps_requested_resources := cluster_apps_requested_resources;
  get_dram_hit_ratio := cluster_dram_hit_ratio;
  get_pmem_nodes := cluster_pmem_nodes
|}.

(** src/wca/scheduler/data_providers/score/cluster.py:25-29 [ClusterScoreDataProvider.get_apps_profile] *)
Definition cluster_apps_profile : M W AppsProfile :=
  query_result ← query_rows "app_profile";
  lift (rows_dict (λ row, row_metric row "app") (λ row, PFloat <$> row_value row) query_result).

(** src/wca/scheduler/data_providers/score/__init__.py:22-26 [NodeType]
    The label of a row as a type.  A text that is none of the values stays text in the
    code, where it differs from [PMEM] and [DRAM] as [UNKNOWN] does. *)
Definition NodeType_of (s : string) : NodeType :=
  if String.eqb s "pmem" then SchedScore.PMEM
  else if String.eqb s "dram" then SchedScore.DRAM else SchedScore.UNKNOWN.

(** src/wca/scheduler/data_providers/score/cluster.py:31-34 [ClusterScoreDataProvider.get_nodes_type] *)
Definition cluster_nodes_type : M W NodesType :=
  query_result ← query_rows "node_type";
  lift (rows_dict (λ row, row_metric row "node") (λ row, NodeType_of <$> row_metric row "nodetype")
          query_result).

(** src/wca/scheduler/data_providers/score/cluster.py:20-23 [ClusterScoreDataProvider] *)
Definition ClusterScoreDataProvider : ScoreDataProvider W := {|
  score_provider := ClusterDataProvider;
  get_apps_profile := cluster_apps_profile;
  get_nodes_type := cluster_nodes_type
|}.
End provider.

(** ** Properties *)

(** The class [Prometheus] has no attribute [ip]: with certificates every query fails. *)
Lemma ssl_query_fails {W} `{Requests W} prometheus query use_time (w : W) :
  p_ssl prometheus = true → do_query prometheus query use_time w = (Raise AttributeError, w).
Proof. intros Hssl. unfold do_query, try_except, mbind, M_bind, raise. by rewrite Hssl. Qed.

(** *** Conservation of pods *)

Definition zsum {A} (f : A → Z) (l : list A) : Z := foldr (λ x s, f x + s) 0 l.

Lemma zsum_app {A} (f : A → Z) l1 l2 : zsum f (l1 ++ l2) = zsum f l1 + zsum f l2.
Proof. unfold zsum. induction l1 as [|x l1 IH]; cbn; [done|]. rewrite IH. lia. Qed.

(** A sum over the values of a dictionary, after an assignment. *)
Lemma zsum_dset {K V} `{EqDecision K} (f : V → Z) (d : dict K V) k v :
  zsum (λ kv, f kv.2) (dset d k v) =
  zsum (λ kv, f kv.2) d - default 0 (f <$> dget d k) + f v.
Proof.
  unfold zsum. induction d as [|[k' v'] d IH]; cbn; [lia|].
  destruct (decide (k = k')); cbn; rewrite ?IH; lia.
Qed.

Definition apps_tasks (apps : Apps) : Z := zsum (λ at_, Z.of_nat (length at_.2)) apps.
Definition assigned_total (assigned : dict string Apps) : Z := zsum (λ na, apps_tasks na.2) assigned.
Definition unassigned_total (unassigned : AppsCount) : Z := zsum (λ ac, ac.2) unassigned.
Definition counts_total (c : apps_counts) : Z := assigned_total c.1 + unassigned_total c.2.

(** Whether a pod carries the label of an application. *)
Definition labelled (pod : json) : bool :=
  match (metadata ← jitem pod "metadata"; labels ← jitem metadata "labels"; jget_str labels "app") with
  | Ok app => jtrue app
  | Raise _ => false
  end.

Lemma apps_tasks_dset apps app tasks :
  apps_tasks (dset apps app tasks) =
  apps_tasks apps - default 0 ((λ l, Z.of_nat (length l)) <$> dget apps app) + Z.of_nat (length tasks).
Proof. exact (zsum_dset (λ l, Z.of_nat (length l)) apps app tasks). Qed.

Lemma assign_app_total assigned node app name assigned' :
  assign_app assigned node app name = Ok assigned' → assigned_total assigned' = assigned_total assigned + 1.
Proof.
  unfold assign_app. intros (apps & Happs & [= <-])%bind_Ok_iff. apply or_raise_Ok in Happs.
  unfold assigned_total at 1. rewrite (zsum_dset apps_tasks), Happs, apps_tasks_dset, length_app.
  cbn. unfold assigned_total. destruct (dget apps app); cbn; lia.
Qed.

Lemma count_pod_total counts pod counts' :
  count_pod counts pod = Ok counts' →
  counts_total counts' = counts_total counts + (if labelled pod then 1 else 0).
Proof.
  unfold count_pod, labelled. intros (metadata & -> & Hc)%bind_Ok_iff. cbn [mbind result_bind].
  apply bind_Ok_iff in Hc as (name & _ & Hc). apply bind_Ok_iff in Hc as (name' & _ & Hc).
  apply bind_Ok_iff in Hc as (labels & -> & Hc). cbn [mbind result_bind].
  apply bind_Ok_iff in Hc as (app & -> & Hc). destruct (jtrue app); cbn [negb] in Hc; [|inv_ok; lia].
  apply bind_Ok_iff in Hc as (app' & _ & Hc). apply bind_Ok_iff in Hc as (spec & _ & Hc).
  apply bind_Ok_iff in Hc as (node & _ & Hc). apply bind_Ok_iff in Hc as (status & _ & Hc).
  apply bind_Ok_iff in Hc as (host_ip & _ & Hc). unfold counts_total.
  destruct (jtrue node && jtrue host_ip); cbn [negb] in Hc.
  - apply bind_Ok_iff in Hc as (node' & _ & Hc). apply bind_Ok_iff in Hc as (assigned & Ha & [= <-]).
    apply assign_app_total in Ha. cbn [fst snd]. lia.
  - injection Hc as <-. cbn [fst snd]. unfold unassigned_total at 1. rewrite (zsum_dset (λ z, z)).
    unfold dget0, unassigned_total. destruct (dget counts.2 app'); cbn; lia.
Qed.

Lemma count_pods_total pods counts counts' :
  foldM count_pod counts pods = Ok counts' →
  counts_total counts' = counts_total counts + zsum (λ pod, if labelled pod then 1 else 0) pods.
Proof.
  revert counts. induction pods as [|pod pods IH]; cbn; intros counts Hf; [inv_ok; lia|].
  apply bind_Ok_iff in Hf as (counts1 & H1 & Hf). apply count_pod_total in H1. apply IH in Hf.
  unfold zsum in *. lia.
Qed.

Lemma worker_names_total names : assigned_total (dict_of ((λ n, (n, [])) <$> names)) = 0.
Proof.
  unfold dict_of. set (d := []). assert (Hd : ∀ d : dict string Apps,
    Forall (λ na, na.2 = []) d → assigned_total d = 0 ∧
    Forall (λ na, na.2 = []) (foldl (λ d kv, dset d kv.1 kv.2) d ((λ n, (n, [])) <$> names))).
  { intros d0 Hd0. split.
    - unfold assigned_total. induction Hd0 as [|[n a] l Ha Hl IH]; [done|]. cbn in *. subst a. done.
    - revert d0 Hd0. induction names as [|n names IH]; intros d0 Hd0; [done|]. cbn. apply IH.
      apply Forall_forall. intros [k v] [[-> ->]|Hin]%elem_of_dset; [done|].
      by rewrite Forall_forall in Hd0; apply (Hd0 (k, v)). }
  apply Hd. apply Hd. constructor.
Qed.

Section cluster_spec.
  Context {W : Type} `{Requests W}.
  Context (kubeapi : Kubeapi) (prometheus : Prometheus) (queries : Queries).

Lemma count_namespaces_total namespaces counts w counts' w' :
  foldMS (count_namespace kubeapi) counts namespaces w = (Ok counts', w') →
  ∃ pods : list (list json),
    Forall2 (λ ns ps, ∃ w1 w2, kube_items kubeapi ("/api/v1/namespaces/" +:+ ns +:+ "/pods") w1 = (Ok ps, w2))
      namespaces pods ∧
    counts_total counts' = counts_total counts + zsum (λ pod, if labelled pod then 1 else 0) (concat pods).
Proof.
  revert counts w. induction namespaces as [|ns namespaces IH]; cbn; intros counts w Hf.
  { apply M_ret_Ok_iff in Hf as [<- _]. exists []. split; [constructor|cbn; lia]. }
  apply M_bind_Ok_iff in Hf as (counts1 & w1 & H1 & Hf).
  apply M_bind_Ok_iff in H1 as (ps & w2 & Hps & H1). apply lift_Ok_iff in H1 as [H1 ->].
  apply count_pods_total in H1. apply IH in Hf as (pods & Hpods & Hf).
  exists (ps :: pods). split; [constructor; [by exists w, w2|done]|].
  cbn [concat]. rewrite zsum_app. lia.
Qed.

(** C27 (invariant): counting the applications of the cluster loses and invents no pod:
    the assigned tasks and the unassigned counts together are as many as the pods of the
    monitored namespaces that carry the label of an application. *)
Theorem apps_counts_every_pod w assigned unassigned w' :
  cluster_apps_counts kubeapi w = (Ok (assigned, unassigned), w') →
  ∃ pods : list (list json),
    Forall2 (λ ns ps, ∃ w1 w2, kube_items kubeapi ("/api/v1/namespaces/" +:+ ns +:+ "/pods") w1 = (Ok ps, w2))
      (k_monitored_namespaces kubeapi) pods ∧
    assigned_total assigned + unassigned_total unassigned =
      zsum (λ pod, if labelled pod then 1 else 0) (concat pods).
Proof.
  unfold cluster_apps_counts. intros (nodes & w1 & _ & Hf)%M_bind_Ok_iff.
  apply M_bind_Ok_iff in Hf as (names & w2 & _ & Hf). apply count_namespaces_total in Hf as (pods & Hp & Hf).
  exists pods. split; [done|]. unfold counts_total in Hf. cbn [fst snd] in Hf.
  rewrite worker_names_total in Hf. exact Hf.
Qed.

(** *** Capacities *)

(** What every node of the answer has. *)
Definition has_basic (caps : Resources) : Prop := CPU ∈ dkeys caps ∧ MEM ∈ dkeys caps.
Definition all_basic (d : dict string Resources) : Prop := ∀ node caps, (node, caps) ∈ d → has_basic caps.

Lemma all_basic_dset d node caps : all_basic d → has_basic caps → all_basic (dset d node caps).
Proof. intros Hd Hc n c [[-> ->]|Hin]%elem_of_dset; [done|by apply (Hd n)]. Qed.

Lemma basic_capacity_has node caps : basic_capacity node = Ok caps → has_basic caps.
Proof. unfold basic_capacity. intros Hb. inv_ok. split; cbn; set_solver. Qed.

Lemma basic_capacities_names nodes acc names r :
  foldM (λ node_capacities node,
    worker ← is_worker node;
    if worker : bool then
      v ← basic_capacity node; k ← node_name_of node; Ok (dset node_capacities k v)
    else Ok node_capacities) acc nodes = Ok r →
  all_basic acc → (∀ n, n ∈ dkeys acc ↔ n ∈ names) →
  all_basic r ∧ ∃ names', foldM (λ names node,
    worker ← is_worker node;
    if worker : bool then name ← node_name_of node; Ok (names ++ [name]) else Ok names) names nodes = Ok names' ∧
    ∀ n, n ∈ dkeys r ↔ n ∈ names'.
Proof.
  revert acc names. induction nodes as [|node nodes IH]; cbn; intros acc names Hf Hb Hn.
  { injection Hf as <-. eauto. }
  apply bind_Ok_iff in Hf as (acc1 & H1 & Hf). destruct (is_worker node) as [[]|]; cbn in *; [| |done].
  - apply bind_Ok_iff in H1 as (v & Hv & H1). apply bind_Ok_iff in H1 as (k & -> & [= <-]). cbn.
    apply basic_capacity_has in Hv. apply (IH _ (names ++ [k])) in Hf; [done|by apply all_basic_dset|].
    intros n. rewrite dkeys_dset_elem, Hn. set_solver.
  - injection H1 as <-. by apply (IH _ names) in Hf.
Qed.

Lemma update_subdicts_keeps main sub main' :
  update_subdicts main sub = Ok main' → all_basic main →
  all_basic main' ∧ ∀ n, n ∈ dkeys main' ↔ n ∈ dkeys main.
Proof.
  unfold update_subdicts. intros Hf Hb. revert Hf.
  apply (foldM_inv (λ m, all_basic m ∧ ∀ n, n ∈ dkeys m ↔ n ∈ dkeys main)); [|done].
  intros m key m' _ [Hm Hk] H1.
  apply bind_Ok_iff in H1 as (caps & Hc & H1). apply bind_Ok_iff in H1 as (s & _ & [= <-]).
  apply or_raise_Ok in Hc. split.
  - apply all_basic_dset; [done|]. apply dget_Some_in, Hm in Hc as [H1 H2].
    split; apply dkeys_dupdate; by left.
  - intros n. rewrite dkeys_dset_elem, Hk. split; [|tauto]. intros [->|]; [|done].
    apply Hk, dget_is_Some. eauto.
Qed.

Lemma add_resource_capacity_keeps nodes caps resource w caps' w' :
  add_resource_capacity prometheus queries nodes caps resource w = (Ok caps', w') → all_basic caps →
  all_basic caps' ∧ ∀ n, n ∈ dkeys caps' ↔ n ∈ dkeys caps.
Proof.
  unfold add_resource_capacity. case_bool_decide; intros Hf Hb.
  - by apply M_ret_Ok_iff in Hf as [<- _].
  - apply M_bind_Ok_iff in Hf as (q & w1 & _ & Hf). apply M_bind_Ok_iff in Hf as (sub & w2 & _ & Hf).
    apply lift_Ok_iff in Hf as [Hf _]. by apply (update_subdicts_keeps _ _ _ Hf).
Qed.

(** Exactly the nodes of the cluster without the label of a master are answered, and
    each of them has its CPU and its memory. *)
Lemma nodes_capacities_workers resources w caps w' :
  cluster_nodes_capacities kubeapi prometheus queries resources w = (Ok caps, w') →
  CPU ∈ resources ∧ MEM ∈ resources ∧ all_basic caps ∧
  ∃ nodes names w1,
    kube_items kubeapi "/api/v1/nodes" w = (Ok nodes, w1) ∧ worker_names nodes = Ok names ∧
    ∀ n, n ∈ dkeys caps ↔ n ∈ names.
Proof.
  unfold cluster_nodes_capacities. intros Hf.
  destruct (negb _ || negb _) eqn:E; [discriminate Hf|]. apply orb_false_iff in E as [E1 E2].
  to_prop. split; [done|]. split; [done|].
  apply M_bind_Ok_iff in Hf as (nodes & w1 & Hn & Hf). apply M_bind_Ok_iff in Hf as (d & w2 & Hd & Hf).
  apply lift_Ok_iff in Hd as [Hd ->]. apply (basic_capacities_names _ _ []) in Hd as [Hb (names & Hnames & Hk)];
    [|intros ?? []%not_elem_of_nil|done].
  assert (Hkeep : ∀ l acc st r st', foldMS (add_resource_capacity prometheus queries (dkeys d)) acc l st = (Ok r, st') →
    all_basic acc → all_basic r ∧ ∀ n, n ∈ dkeys r ↔ n ∈ dkeys acc).
  { induction l as [|x l IH]; cbn; intros acc st r st' Hl Ha; [by apply M_ret_Ok_iff in Hl as [<- _]|].
    apply M_bind_Ok_iff in Hl as (acc1 & s1 & H1 & Hl).
    apply add_resource_capacity_keeps in H1 as [Ha1 Hk1]; [|done].
    apply IH in Hl as [Hr Hkr]; [|done]. split; [done|]. intros n. by rewrite Hkr. }
  apply Hkeep in Hf as [Hr Hkr]; [|done]. split; [done|].
  exists nodes, names, w1. split_and!; [done..|]. intros n. by rewrite Hkr.
Qed.
End cluster_spec.

(** ** A cluster with a worker, a master and two pods *)
Definition jobj1 (k : string) (v : json) : json := JObj [(k, v)].
Definition example_node_json (name : string) (labels : list (string * json)) : json :=
  JObj [("metadata", JObj [("name", JStr name); ("labels", JObj labels)]);
        ("status", jobj1 "capacity" (JObj [("cpu", JStr "8"); ("memory", JStr "7812500Ki")]))].
Definition example_pod_json (name app : string) (node : option string) : json :=
  JObj [("metadata", JObj [("name", JStr name); ("labels", jobj1 "app" (JStr app))]);
        ("spec", JObj (match node with Some n => [("nodeName", JStr n)] | None => [] end));
        ("status", JObj (match node with Some _ => [("hostIP", JStr "10.0.0.1")] | None => [] end))].
Definition example_row (label key value : string) : json :=
  JObj [("metric", jobj1 label (JStr key)); ("value", JList [JNum (PInt 0); JStr value])].
Definition example_rows (rows : list json) : json := jobj1 "data" (jobj1 "result" (JList rows)).
Definition query_is (dim url : string) : bool := str_contains (in_quotes dim) url.

Definition example_http (url : string) : response :=
  mkResponse true
    (if endswith "/api/v1/nodes" url then
       Ok (jobj1 "items" (JList [example_node_json "w1" []; example_node_json "w2" [];
                                 example_node_json "m" [("node-role.kubernetes.io/master", JStr "")]]))
     else if endswith "/pods" url then
       Ok (jobj1 "items" (JList [example_pod_json "a-0" "a" (Some "w1"); example_pod_json "a-1" "a" None;
                                 example_pod_json "b-0" "b" (Some "w1")]))
     else if str_contains "app_req" url && query_is "cpu" url then
       Ok (example_rows [example_row "app" "a" "3.0"; example_row "app" "b" "4.0"])
     else if str_contains "app_req" url && query_is "mem" url then
       Ok (example_rows [example_row "app" "a" "1.0"; example_row "app" "b" "2.0"])
     else Ok (example_rows [])).
#[export] Instance example_requests : Requests unit := {
  requests_get _ url := mret (example_http url); requests_delete _ url := mret (example_http url)
}.
Definition example_kubeapi : Kubeapi := mkKubeapi "https://k8s:6443" "token" ["default"].
Definition example_prometheus : Prometheus := mkPrometheus "http://prom" 9090 false None.
#[export] Instance example_cluster : DataProvider unit :=
  ClusterDataProvider example_kubeapi example_prometheus default_queries.

Example cluster_counts :
  (get_apps_counts tt).1 =
    Ok ([("w1", [("a", ["a-0"]); ("b", ["b-0"])]); ("w2", [])], [("a", 1)]) ∧
  (get_nodes_capacities [CPU; MEM] tt).1 =
    Ok [("w1", [(CPU, PFloat (float_of_ratio 8 1)); (MEM, PInt 8)]);
        ("w2", [(CPU, PFloat (float_of_ratio 8 1)); (MEM, PInt 8)])] ∧
  (get_nodes_capacities [CPU] tt).1 = Raise MissingBasicResources.
Proof. vm_compute. done. Qed.

(** The whole way from the JSON of the cluster to the answer of the scheduler: another
    task of [a] does not fit on the worker that runs [a] and [b]. *)
Example filter_cluster :
  (alg_filter (Fit [CPU; MEM] (PInt 10) [] (PInt 1))
     (mkExtenderArgs (jobj1 "metadata" (JObj [("labels", jobj1 "app" (JStr "a"))])) ["w1"; "w2"])
     (mkAlgState [] tt)).1 =
  Ok (mkExtenderFilterResult ["w2"] [("w1", MissingCapacity [(CPU, PFloat (float_of_ratio 2 1))])]).
Proof. vm_compute. done. Qed.

(** A pod on a node that is no worker has no entry to be counted in. *)
Example pod_on_master_fails :
  foldM count_pod ([("w1", []); ("w2", [])], []) [example_pod_json "a-0" "a" (Some "m")] = Raise KeyError.
Proof. vm_compute. done. Qed.

Lemma apps_counts_every_pod_witness :
  ∃ pods : list (list json),
    Forall2 (λ ns ps, ∃ w1 w2 : unit,
      kube_items example_kubeapi ("/api/v1/namespaces/" +:+ ns +:+ "/pods") w1 = (Ok ps, w2)) ["default"] pods ∧
    2 + 1 = zsum (λ pod, if labelled pod then 1 else 0) (concat pods).
Proof.
  apply (apps_counts_every_pod example_kubeapi tt [("w1", [("a", ["a-0"]); ("b", ["b-0"])]); ("w2", [])]
           [("a", 1)] tt).
  vm_compute. reflexivity.
Defined.
