(* ===== verification/SchedServer.v ===== *)
(** * The scheduler service

    [src/wca/scheduler/server.py]: the handlers of the extender of the Kubernetes
    scheduler, on the state of the algorithm and the requests of the cluster, and the
    text of its metrics ([src/wca/scheduler/metrics.py]).  Flask is a parameter: a
    handler takes the JSON of the request and gives the value it answers. *)
From S2P Require Export ClusterData.

(** ** Arguments of the extender *)

Definition UnsupportedCase : exn := OtherException "UnsupportedCase".

(** [assure_type(v, List[str])] *)
Definition json_names (v : json) : result (list string) :=
  match v with
  | JList l => mapM (λ x, match x with JStr s => Ok s | _ => Raise ValidationError end) l
  | _ => Raise ValidationError
  end.

(** src/wca/scheduler/types.py:64-75 [ExtenderArgs]
    from the keyword arguments [**request.get_json()] *)
Definition ExtenderArgs_of_json (v : json) : result ExtenderArgs :=
  match v with
  | JObj o =>
      if negb (forallb (λ k, bool_decide (k ∈ ["Nodes"; "Pod"; "NodeNames"])) (dkeys o)) then Raise TypeError
      else
        nodes ← or_raise TypeError (dget o "Nodes");
        pod ← or_raise TypeError (dget o "Pod");
        names ← or_raise TypeError (dget o "NodeNames");
        if jtrue nodes then Raise UnsupportedCase
        else
          _ ← (match pod with JObj _ => Ok tt | _ => Raise ValidationError end);
          names ← json_names names;
          Ok (mkExtenderArgs pod names)
  | _ => Raise TypeError
  end.

(** [extender_args.Pod['metadata'][k]] *)
Definition pod_metadata (args : ExtenderArgs) (k : string) : result json :=
  metadata ← jitem (ea_Pod args) "metadata"; jitem metadata k.

(** ** Handlers *)

(** What a handler gives to [jsonify]. *)
Inductive reply :=
  | ReplyTrue
  | ReplyText (s : string)
  | ReplyFilter (r : ExtenderFilterResult)
  | ReplyPriorities (l : list HostPriority).

(** src/wca/scheduler/server.py:31-33 [DEFAULT_NAMESPACE, KUBEAPI_DELETE_POD_QUERY] *)
Definition DEFAULT_NAMESPACE : string := "default".
Definition delete_pod_query (namespace task : string) : string :=
  "/api/v1/namespaces/" +:+ namespace +:+ "/pods/" +:+ task.

Definition count_metric (suffix : string) : Metric :=
  mkMetric (sched_metric suffix) (MNum (PInt 1)) [] None (Some COUNTER) None None.

(** src/wca/scheduler/metrics.py:107-122 [MetricRegistry.prometheus_exposition] *)
Definition prometheus_exposition `{PyFloatRepr} (storage : MetricRegistry) : result string :=
  let metrics := concat (dvalues storage) in
  if is_convertable metrics then convert_to_prometheus_exposition_format metrics None None else Ok "".

Section server.
  Context {S : Type} `{DataProvider S} `{Requests S} `{PyFloatRepr}.
  Context (alg : Algorithm S) (kubeapi : Kubeapi).

(** src/wca/scheduler/server.py:38-49 [Server.reschedule_once] *)
Definition reschedule_once : M (alg_state S) reply :=
  reschedule_result ← alg_reschedule alg;
  _ ← forM_ reschedule_result (λ task,
    _ ← on_provider (kubeapi_delete kubeapi (delete_pod_query DEFAULT_NAMESPACE task)); mret tt);
  mret ReplyTrue.

(** src/wca/scheduler/server.py:51-54 [Server.reschedule_interval]
    The thread of the interval: [Server] has no method [reschedule]. *)
Definition reschedule_interval (sleep : M (alg_state S) unit) : M (alg_state S) unit :=
  _ ← raise (S := alg_state S) (A := unit) AttributeError; sleep.

(** src/wca/scheduler/server.py:77-83 [Server.__init__.metrics] *)
Definition serve_metrics : M (alg_state S) reply :=
  registry ← (λ a, (Ok (as_metrics a), a));
  text ← lift (prometheus_exposition registry);
  mret (ReplyText text).

(** src/wca/scheduler/server.py:85-120 [Server.__init__.filter] *)
Definition serve_filter (request : json) : M (alg_state S) reply :=
  extender_args ← lift (ExtenderArgs_of_json request);
  pod_namespace ← lift (pod_metadata extender_args "namespace");
  _ ← lift (pod_metadata extender_args "name");
  if json_is pod_namespace DEFAULT_NAMESPACE then
    result ← alg_filter alg extender_args;
    _ ← extend_metrics [count_metric "filter"];
    mret (ReplyFilter result)
  else
    _ ← extend_metrics [count_metric "pod_ignore_filter"];
    mret (ReplyFilter (mkExtenderFilterResult (ea_NodeNames extender_args) [])).

(** src/wca/scheduler/server.py:122-160 [Server.__init__.prioritize] *)
Definition serve_prioritize (request : json) : M (alg_state S) reply :=
  extender_args ← lift (ExtenderArgs_of_json request);
  pod_namespace ← lift (pod_metadata extender_args "namespace");
  _ ← lift (pod_metadata extender_args "name");
  if json_is pod_namespace DEFAULT_NAMESPACE then
    priorities ← alg_prioritize alg extender_args;
    _ ← extend_metrics [count_metric "prioritize"];
    mret (ReplyPriorities priorities)
  else
    _ ← extend_metrics [count_metric "pod_ignore_prioritize"];
    mret (ReplyPriorities []).

(** The routes of the service. *)
Inductive call := CallReschedule | CallStatus | CallMetrics | CallFilter (v : json) | CallPrioritize (v : json).

(** src/wca/scheduler/server.py:69-160 [Server.__init__], the routes *)
Definition serve (c : call) : M (alg_state S) reply :=
  match c with
  | CallReschedule => reschedule_once
  | CallStatus => mret ReplyTrue
  | CallMetrics => serve_metrics
  | CallFilter v => serve_filter v
  | CallPrioritize v => serve_prioritize v
  end.

(** The calls one after another: a call that raises is answered with an error and the
    service goes on. *)
Fixpoint serve_all (calls : list call) (a : alg_state S) : list (result reply) * alg_state S :=
  match calls with
  | [] => ([], a)
  | c :: calls =>
      let '(r, a1) := serve c a in
      let '(rs, a2) := serve_all calls a1 in (r :: rs, a2)
  end.
End server.

(** ** Counters of the service *)

(** The metrics the service itself keeps. *)
Definition service_suffixes : list string :=
  ["filter"; "pod_ignore_filter"; "prioritize"; "pod_ignore_prioritize"].
Definition service_metric (name : string) : Prop := name ∈ sched_metric <$> service_suffixes.

(** A counter without labels, registered at most once, with its value. *)
Definition counter_is (reg : MetricRegistry) (name : string) (n : Z) : Prop :=
  match dget reg name with
  | None => n = 0
  | Some ms => ms = [mkMetric name (MNum (PInt n)) [] None (Some COUNTER) None None]
  end.

Lemma counter_add reg suffix n :
  counter_is reg (sched_metric suffix) n →
  ∃ reg', registry_add reg (count_metric suffix) = Ok reg' ∧
    counter_is reg' (sched_metric suffix) (n + 1) ∧
    ∀ name, name ≠ sched_metric suffix → dget reg' name = dget reg name.
Proof.
  unfold counter_is, registry_add. cbn [m_name count_metric]. intros Hn.
  destruct (dget reg (sched_metric suffix)) as [ms|] eqn:E.
  - subst ms. cbn. eexists. split; [reflexivity|]. split; [|intros; by rewrite dget_dset_ne].
    by rewrite dget_dset_eq.
  - subst n. eexists. split; [reflexivity|]. split; [|intros; by rewrite dget_dset_ne].
    by rewrite dget_dset_eq.
Qed.

(** A counter that another entry of the registry is added to stays. *)
Lemma registry_add_other reg m reg' name :
  registry_add reg m = Ok reg' → name ≠ m_name m → dget reg' name = dget reg name.
Proof.
  unfold registry_add. destruct (dget reg (m_name m)); intros Hr Hne; inv_ok; by rewrite dget_dset_ne.
Qed.

Section leaves.
  Context {S : Type}.

(** The counters of the service are the same: code within this relation leaves them alone,
    whatever its outcome. *)
Definition same_counters : relation (alg_state S) :=
  λ a a', ∀ name, service_metric name → dget (as_metrics a') name = dget (as_metrics a) name.
#[export] Instance same_counters_preorder : PreOrder same_counters.
Proof.
  split; [by intros a name|]. intros a1 a2 a3 H1 H2 name Hn. by rewrite (H2 name Hn), (H1 name Hn).
Qed.

Lemma leaves_on_provider {A} (m : M S A) : within same_counters (on_provider m).
Proof. intros a name _. unfold on_provider. by destruct (m (as_provider a)). Qed.
Lemma leaves_extend_metrics metrics :
  Forall (λ m, ¬ service_metric (m_name m)) metrics → within same_counters (extend_metrics metrics).
Proof.
  unfold extend_metrics. induction 1 as [|m metrics Hm _ IH]; [by intros s|].
  cbn [forM_]. apply within_bind; [typeclasses eauto| |done]. intros s name Hn.
  destruct (registry_add (as_metrics s) m) eqn:E; cbn; [|done].
  eapply registry_add_other; [exact E|]. by intros ->.
Qed.
End leaves.
#[export] Hint Resolve leaves_on_provider leaves_extend_metrics : wca.

Section algorithms_keep.
  Context {S : Type} `{DataProvider S}.

(** What the callbacks of an algorithm have to promise. *)
Class KeepsCounters (alg : Algorithm S) : Prop := {
  fit_node_keeps n app q : within same_counters (app_fit_node alg n app q);
  fit_nodes_keeps ns app q : within same_counters (app_fit_nodes alg ns app q);
  priority_keeps n app q : within same_counters (priority_for_node alg n app q);
  reschedule_keeps : within same_counters (alg_reschedule alg)
}.

#[local] Hint Resolve fit_node_keeps fit_nodes_keeps priority_keeps reschedule_keeps : wca.

Lemma query_keeps dims : within same_counters (query_data_provider (S := S) dims).
Proof. unfold query_data_provider. within. Qed.
#[local] Hint Resolve query_keeps : wca.

Lemma alg_filter_keeps alg `{!KeepsCounters alg} args : within same_counters (alg_filter alg args).
Proof. unfold alg_filter. within; unfold first_pass; within. Qed.

Lemma alg_prioritize_keeps alg `{!KeepsCounters alg} args : within same_counters (alg_prioritize alg args).
Proof. unfold alg_prioritize. within. unfold score_node. within. Qed.

#[export] Instance NOP_keeps : KeepsCounters NOPAlgorithm.
Proof. split; intros; cbn; unfold default_reschedule; within. Qed.

Lemma context_metrics_other node app dims caps assigned spec ctx :
  used_free_requested node app dims caps assigned spec = Ok ctx →
  Forall (λ m, ¬ service_metric (m_name m)) (nc_metrics ctx).
Proof.
  assert (Hres : ∀ suffix labels rs, ¬ service_metric (sched_metric suffix) →
    Forall (λ m, ¬ service_metric (m_name m)) (resource_metrics suffix labels rs)).
  { intros suffix labels rs Hs. unfold resource_metrics. apply Forall_fmap, Forall_forall. by intros. }
  assert (Hno : ∀ suffix, bool_decide (sched_metric suffix ∈ sched_metric <$> service_suffixes) = false →
    ¬ service_metric (sched_metric suffix)) by (intros suffix ?%bool_decide_eq_false; done).
  unfold used_free_requested. intros Hc. inv_ok. cbn [nc_metrics].
  repeat (apply Forall_app; split); try (apply Hres; by apply Hno).
  - apply Forall_fmap, Forall_forall. intros ? _. by apply Hno.
  - apply Forall_fmap, Forall_forall. intros ? _. by apply Hno.
  - destruct (dget _ MEMBW_FLAT); repeat constructor. by apply Hno.
Qed.

#[export] Instance Fit_keeps dims m pm f : KeepsCounters (Fit dims m pm f).
Proof.
  split; intros; cbn; [|unfold fit_reschedule; within..].
  unfold fit_app_fit_node. do 2 (apply within_bind; [typeclasses eauto|within|intros ?]).
  intros s. unfold mbind, M_bind, lift.
  destruct (app_fits n _ dims _ _ _) as [[[fits msg] ms]|e] eqn:E; [|done].
  apply (within_bind _ (extend_metrics ms) (λ _, mret (fits, msg))); [|within].
  apply leaves_extend_metrics. unfold app_fits in E. apply bind_Ok_iff in E as (ctx & Hc & E).
  apply context_metrics_other in Hc. apply bind_Ok_iff in E as (sp & _ & E).
  apply bind_Ok_iff in E as ([[b br] fr] & _ & [= _ _ <-]). by apply Forall_app.
Qed.
End algorithms_keep.

(** ** What the counters count *)

Definition in_default_namespace (v : json) : bool :=
  match (args ← ExtenderArgs_of_json v; pod_metadata args "namespace") with
  | Ok ns => json_is ns DEFAULT_NAMESPACE
  | Raise _ => false
  end.

(** The counters an answered call belongs to. *)
Definition counted (cr : call * result reply) : list string :=
  match cr with
  | (CallFilter v, Ok _) => [if in_default_namespace v then "filter" else "pod_ignore_filter"]
  | (CallPrioritize v, Ok _) => [if in_default_namespace v then "prioritize" else "pod_ignore_prioritize"]
  | _ => []
  end.
Definition hits (suffix : string) (l : list string) : Z :=
  zsum (λ s, if bool_decide (s = suffix) then 1 else 0) l.

Section service_counters.
  Context {S : Type}.

Definition counters (a : alg_state S) (n : string → Z) : Prop :=
  ∀ suffix, suffix ∈ service_suffixes → counter_is (as_metrics a) (sched_metric suffix) (n suffix).

Lemma sched_metric_inj s1 s2 : sched_metric s1 = sched_metric s2 → s1 = s2.
Proof. unfold sched_metric. cbn. by intros [= ->]. Qed.

Lemma extend_count suffix (a : alg_state S) n :
  suffix ∈ service_suffixes → counters a n →
  ∃ a', extend_metrics [count_metric suffix] a = (Ok tt, a') ∧
    counters a' (λ s, n s + hits s [suffix]).
Proof.
  intros Hs Hn. destruct (counter_add _ _ _ (Hn suffix Hs)) as (reg' & Hadd & Hc & Hother).
  exists (mkAlgState reg' (as_provider a)). split.
  - unfold extend_metrics. cbn [forM_]. unfold mbind, M_bind. rewrite Hadd. done.
  - intros s Hin. unfold hits, zsum. cbn. case_bool_decide as He; [subst s|].
    + by replace (n suffix + (1 + 0)) with (n suffix + 1) by lia.
    + replace (n s + (0 + 0)) with (n s) by lia. unfold counter_is. rewrite Hother; [by apply Hn|].
      intros Heq. by apply He, eq_sym, sched_metric_inj.
Qed.

Lemma leaves_counters {A} (m : M (alg_state S) A) a r a' n :
  within same_counters m → m a = (r, a') → counters a n → counters a' n.
Proof.
  intros Hm Hr Hn s Hs. unfold counter_is.
  replace (dget (as_metrics a') (sched_metric s)) with (dget (as_metrics a) (sched_metric s)); [by apply Hn|].
  symmetry. replace a' with (m a).2 by (by rewrite Hr). apply Hm. unfold service_metric.
  by apply list_elem_of_fmap_2.
Qed.

(** A handler that runs the algorithm and then counts. *)
Lemma counts_after {A} (m : M (alg_state S) A) (f : A → reply) suffix a r a' n :
  suffix ∈ service_suffixes → within same_counters m → counters a n →
  (x ← m; _ ← extend_metrics [count_metric suffix]; mret (f x)) a = (r, a') →
  counters a' (λ s, n s + hits s (match r with Ok _ => [suffix] | Raise _ => [] end)).
Proof.
  intros Hs Hm Hn. unfold mbind, M_bind. destruct (m a) as [[x|e] a1] eqn:E.
  - destruct (extend_count suffix a1 n Hs) as (a2 & -> & Hn2); [by eapply leaves_counters|].
    cbn. by intros [= <- <-].
  - intros [= <- <-]. intros s Hin. cbn. rewrite Z.add_0_r.
    by apply (leaves_counters _ _ _ _ _ Hm E Hn).
Qed.
End service_counters.

Section service_spec.
  Context {S : Type} `{DataProvider S} `{Requests S} `{PyFloatRepr}.
  Context (alg : Algorithm S) `{!KeepsCounters alg} (kubeapi : Kubeapi).

Lemma counters_same (a : alg_state S) n l :
  (∀ s, hits s l = 0) → counters a n → counters a (λ s, n s + hits s l).
Proof. intros Hl Hn s Hs. rewrite Hl, Z.add_0_r. by apply Hn. Qed.

Lemma reschedule_once_keeps : within same_counters (reschedule_once alg kubeapi).
Proof. unfold reschedule_once. within. apply reschedule_keeps. Qed.

(** The common shape of the two handlers of the extender. *)
Lemma extender_counts v {A} (m : ExtenderArgs → M (alg_state S) A) (f : A → reply)
    (g : ExtenderArgs → reply) s1 s2 a r a' n :
  (∀ args, within same_counters (m args)) → s1 ∈ service_suffixes → s2 ∈ service_suffixes → counters a n →
  (extender_args ← lift (ExtenderArgs_of_json v);
   pod_namespace ← lift (pod_metadata extender_args "namespace");
   _ ← lift (pod_metadata extender_args "name");
   if json_is pod_namespace DEFAULT_NAMESPACE then
     x ← m extender_args; _ ← extend_metrics [count_metric s1]; mret (f x)
   else _ ← extend_metrics [count_metric s2]; mret (g extender_args)) a = (r, a') →
  counters a' (λ s, n s + hits s (match r with
                                  | Ok _ => [if in_default_namespace v then s1 else s2]
                                  | Raise _ => []
                                  end)).
Proof.
  intros Hm Hs1 Hs2 Hn. unfold in_default_namespace, mbind at 1 2 3, M_bind at 1 2 3, lift.
  unfold mbind at 4, result_bind.
  destruct (ExtenderArgs_of_json v) as [args|e].
  2: { intros [= <- <-]. by apply counters_same. }
  destruct (pod_metadata args "namespace") as [ns|e].
  2: { intros [= <- <-]. by apply counters_same. }
  destruct (pod_metadata args "name") as [nm|e].
  2: { intros [= <- <-]. by apply counters_same. }
  destruct (json_is ns DEFAULT_NAMESPACE).
  - by apply counts_after.
  - by apply (counts_after (mret tt) (λ _, g args) s2 a r a' n Hs2 (within_ret _ tt) Hn).
Qed.

Lemma serve_counts c a r a' n :
  counters a n → serve alg kubeapi c a = (r, a') →
  counters a' (λ s, n s + hits s (counted (c, r))).
Proof.
  intros Hn. destruct c; cbn [serve]; intros Hs.
  - apply counters_same; [done|]. by apply (leaves_counters _ _ _ _ _ reschedule_once_keeps Hs).
  - injection Hs as <- <-. by apply counters_same.
  - apply counters_same; [done|]. revert Hs. unfold serve_metrics, mbind, M_bind, lift.
    destruct (prometheus_exposition _); by intros [= <- <-].
  - apply (extender_counts v (alg_filter alg) ReplyFilter
             (λ args, ReplyFilter (mkExtenderFilterResult (ea_NodeNames args) [])) _ _ _ _ _ n) in Hs;
      [destruct r; exact Hs|intros; by apply alg_filter_keeps|set_solver|set_solver|done].
  - apply (extender_counts v (alg_prioritize alg) ReplyPriorities (λ _, ReplyPriorities []) _ _ _ _ _ n) in Hs;
      [destruct r; exact Hs|intros; by apply alg_prioritize_keeps|set_solver|set_solver|done].
Qed.

(** C13 (invariant): whatever calls the service gets, and whichever of them fail, its
    counters say how many pods were filtered and scored and how many were ignored for
    their namespace, for every algorithm that leaves the counters of the service alone. *)
Theorem service_counters_count calls a rs a' n :
  counters a n → serve_all alg kubeapi calls a = (rs, a') →
  length rs = length calls ∧
  counters a' (λ s, n s + hits s (flat_map counted (zip calls rs))).
Proof.
  revert a rs n. induction calls as [|c calls IH]; cbn [serve_all]; intros a rs n Hn Hs.
  { injection Hs as <- <-. split; [done|]. by apply counters_same. }
  destruct (serve alg kubeapi c a) as [r a1] eqn:E1.
  destruct (serve_all alg kubeapi calls a1) as [rs1 a2] eqn:E2. injection Hs as <- <-.
  apply (serve_counts _ _ _ _ _ Hn) in E1. destruct (IH _ _ _ E1 E2) as [Hlen Hc].
  split; [cbn; by rewrite Hlen|]. intros s Hin. specialize (Hc s Hin).
  cbn [zip zip_with flat_map]. unfold hits at 1. rewrite zsum_app. unfold hits in Hc.
  by rewrite <-Z.add_assoc in Hc.
Qed.

(** A pod of another namespace is ignored: every node fits it, none is scored, and the
    provider is not asked. *)
Lemma other_namespace_ignored v args ns nm a n :
  ExtenderArgs_of_json v = Ok args → pod_metadata args "namespace" = Ok ns →
  pod_metadata args "name" = Ok nm → json_is ns DEFAULT_NAMESPACE = false → counters a n →
  ∃ a1 a2,
    serve_filter alg v a = (Ok (ReplyFilter (mkExtenderFilterResult (ea_NodeNames args) [])), a1) ∧
    serve_prioritize alg v a = (Ok (ReplyPriorities []), a2) ∧
    as_provider a1 = as_provider a ∧ as_provider a2 = as_provider a.
Proof.
  intros Hv Hns Hnm Hj Hn. unfold serve_filter, serve_prioritize, mbind, M_bind, lift.
  rewrite Hv, Hns, Hnm, Hj.
  assert (Hext : ∀ suffix, suffix ∈ service_suffixes →
    ∃ reg', extend_metrics [count_metric suffix] a = (Ok tt, mkAlgState reg' (as_provider a))).
  { intros suffix Hs. destruct (counter_add _ _ _ (Hn suffix Hs)) as (reg' & Hadd & _).
    exists reg'. unfold extend_metrics. cbn [forM_]. unfold mbind, M_bind. by rewrite Hadd. }
  destruct (Hext "pod_ignore_filter") as [reg1 ->]; [set_solver|].
  destruct (Hext "pod_ignore_prioritize") as [reg2 ->]; [set_solver|]. cbn. eauto 10.
Qed.

(** The thread of [reschedule_interval] dies in its first turn. *)
Lemma reschedule_interval_dies (sleep : M (alg_state S) unit) a :
  reschedule_interval sleep a = (Raise AttributeError, a).
Proof. done. Qed.
End service_spec.

(** ** The service of the example cluster *)
#[local] Instance example_repr : PyFloatRepr := λ _, "x".
Definition example_pod_request (namespace : string) : json :=
  JObj [("Nodes", JNull);
        ("Pod", jobj1 "metadata" (JObj [("labels", jobj1 "app" (JStr "a")); ("name", JStr "p");
                                        ("namespace", JStr namespace)]));
        ("NodeNames", JList [JStr "w1"; JStr "w2"])].
Definition example_calls : list call :=
  [CallFilter (example_pod_request "default"); CallFilter (example_pod_request "kube-system");
   CallPrioritize (example_pod_request "default"); CallFilter JNull; CallReschedule;
   CallFilter (example_pod_request "default")].
Definition example_service : Algorithm unit := Fit [CPU; MEM] (PInt 10) [] (PInt 1).

Example service_replies :
  (serve_all example_service example_kubeapi example_calls (mkAlgState [] tt)).1 =
  [Ok (ReplyFilter (mkExtenderFilterResult ["w2"] [("w1", MissingCapacity [(CPU, PFloat (float_of_ratio 2 1))])]));
   Ok (ReplyFilter (mkExtenderFilterResult ["w1"; "w2"] []));
   Ok (ReplyPriorities [mkHostPriority "w1" 0; mkHostPriority "w2" 0]);
   Raise TypeError; Ok ReplyTrue;
   Ok (ReplyFilter (mkExtenderFilterResult ["w2"] [("w1", MissingCapacity [(CPU, PFloat (float_of_ratio 2 1))])]))].
Proof. vm_compute. done. Qed.

Lemma service_counters_count_witness :
  let run := serve_all example_service example_kubeapi example_calls (mkAlgState [] tt) in
  counters run.2 (λ s, 0 + hits s (flat_map counted (zip example_calls run.1))) ∧
  hits "filter" (flat_map counted (zip example_calls run.1)) = 2 ∧
  hits "pod_ignore_filter" (flat_map counted (zip example_calls run.1)) = 1.
Proof.
  split; [|vm_compute; done].
  apply (service_counters_count example_service example_kubeapi example_calls (mkAlgState [] tt)
           (serve_all example_service example_kubeapi example_calls (mkAlgState [] tt)).1
           (serve_all example_service example_kubeapi example_calls (mkAlgState [] tt)).2 (λ _, 0)).
  - by intros s _.
  - apply surjective_pairing.
Defined.
