(* ===== verification/Analyzer.v ===== *)
(** * The analyzer: metrics, queries and their results

    [src/examples/kubernetes/scripts/analyzer]: connection.py, metrics.py, model.py and
    serializator.py.  The analyzer asks Prometheus for the performance of the tasks and
    nodes of an experiment and keeps the answers in objects of the model, which the
    reports of [AnalyzerReport] are made from.  The requests are the class [Requests]. *)
From S2P Require Export ClusterData PyStats PerfEvents.

(** ** Metrics *)
Module AnalyzerMetric.
(** src/examples/kubernetes/scripts/analyzer/metrics.py:18-62 [Metric]
    TASK_MEM_MBW_LOCAL and TASK_MEM_MBW_REMOTE have the values of the two members before
    them, which makes them aliases. *)
Inductive t :=
  | TASK_THROUGHPUT | TASK_LATENCY | TASK_MEM_BANDWIDTH_LOCAL | TASK_MEM_BANDWIDTH_REMOTE
  | TASK_UP | WCA_UP | PLATFORM_MEM_USAGE | PLATFORM_CPU_REQUESTED | PLATFORM_CPU_UTIL
  | PLATFORM_MBW_READS | PLATFORM_MBW_WRITES | PLATFORM_WSS_USED | TASK_MEM_NUMA_PAGES
  | PLATFORM_CAS_COUNT_READS | PLATFORM_CAS_COUNT_WRITES | PLATFORM_PMM_BANDWIDTH_READS
  | PLATFORM_PMM_BANDWIDTH_WRITES | PLATFORM_UPI_RXL_FLITS | PLATFORM_UPI_TXL_FLITS
  | PLATFORM_RPQ_OCCUPANCY | PLATFORM_RPQ_INSERTS | PLATFORM_IMC_CLOCKTICKS
  | PLATFORM_PMM_READS_BYTES_PER_SECOND | PLATFORM_PMM_WRITES_BYTES_PER_SECOND
  | PLATFORM_PMM_TOTAL_BYTES_PER_SECOND | PLATFORM_DRAM_READS_BYTES_PER_SECOND
  | PLATFORM_DRAM_WRITES_BYTES_PER_SECOND | PLATFORM_DRAM_TOTAL_BYTES_PER_SECOND
  | PLATFORM_DRAM_HIT_RATIO | PLATFORM_UPI_BANDWIDTH_BYTES_PER_SECOND
  | PLATFORM_RPQ_READ_LATENCY_SECONDS.
Definition TASK_MEM_MBW_LOCAL : t := TASK_MEM_BANDWIDTH_LOCAL.
Definition TASK_MEM_MBW_REMOTE : t := TASK_MEM_BANDWIDTH_REMOTE.
End AnalyzerMetric.
Import AnalyzerMetric.
Abbreviation analyzer_metric := AnalyzerMetric.t.

#[export] Instance analyzer_metric_eq_dec : EqDecision analyzer_metric.
Proof. solve_decision. Defined.

(** [metric.name] *)
Definition analyzer_metric_name (m : analyzer_metric) : string :=
  match m with
  | TASK_THROUGHPUT => "TASK_THROUGHPUT"
  | TASK_LATENCY => "TASK_LATENCY"
  | TASK_MEM_BANDWIDTH_LOCAL => "TASK_MEM_BANDWIDTH_LOCAL"
  | TASK_MEM_BANDWIDTH_REMOTE => "TASK_MEM_BANDWIDTH_REMOTE"
  | TASK_UP => "TASK_UP"
  | WCA_UP => "WCA_UP"
  | PLATFORM_MEM_USAGE => "PLATFORM_MEM_USAGE"
  | PLATFORM_CPU_REQUESTED => "PLATFORM_CPU_REQUESTED"
  | PLATFORM_CPU_UTIL => "PLATFORM_CPU_UTIL"
  | PLATFORM_MBW_READS => "PLATFORM_MBW_READS"
  | PLATFORM_MBW_WRITES => "PLATFORM_MBW_WRITES"
  | PLATFORM_WSS_USED => "PLATFORM_WSS_USED"
  | TASK_MEM_NUMA_PAGES => "TASK_MEM_NUMA_PAGES"
  | PLATFORM_CAS_COUNT_READS => "PLATFORM_CAS_COUNT_READS"
  | PLATFORM_CAS_COUNT_WRITES => "PLATFORM_CAS_COUNT_WRITES"
  | PLATFORM_PMM_BANDWIDTH_READS => "PLATFORM_PMM_BANDWIDTH_READS"
  | PLATFORM_PMM_BANDWIDTH_WRITES => "PLATFORM_PMM_BANDWIDTH_WRITES"
  | PLATFORM_UPI_RXL_FLITS => "PLATFORM_UPI_RXL_FLITS"
  | PLATFORM_UPI_TXL_FLITS => "PLATFORM_UPI_TXL_FLITS"
  | PLATFORM_RPQ_OCCUPANCY => "PLATFORM_RPQ_OCCUPANCY"
  | PLATFORM_RPQ_INSERTS => "PLATFORM_RPQ_INSERTS"
  | PLATFORM_IMC_CLOCKTICKS => "PLATFORM_IMC_CLOCKTICKS"
  | PLATFORM_PMM_READS_BYTES_PER_SECOND => "PLATFORM_PMM_READS_BYTES_PER_SECOND"
  | PLATFORM_PMM_WRITES_BYTES_PER_SECOND => "PLATFORM_PMM_WRITES_BYTES_PER_SECOND"
  | PLATFORM_PMM_TOTAL_BYTES_PER_SECOND => "PLATFORM_PMM_TOTAL_BYTES_PER_SECOND"
  | PLATFORM_DRAM_READS_BYTES_PER_SECOND => "PLATFORM_DRAM_READS_BYTES_PER_SECOND"
  | PLATFORM_DRAM_WRITES_BYTES_PER_SECOND => "PLATFORM_DRAM_WRITES_BYTES_PER_SECOND"
  | PLATFORM_DRAM_TOTAL_BYTES_PER_SECOND => "PLATFORM_DRAM_TOTAL_BYTES_PER_SECOND"
  | PLATFORM_DRAM_HIT_RATIO => "PLATFORM_DRAM_HIT_RATIO"
  | PLATFORM_UPI_BANDWIDTH_BYTES_PER_SECOND => "PLATFORM_UPI_BANDWIDTH_BYTES_PER_SECOND"
  | PLATFORM_RPQ_READ_LATENCY_SECONDS => "PLATFORM_RPQ_READ_LATENCY_SECONDS"
  end.

(** src/examples/kubernetes/scripts/analyzer/metrics.py:65-75 [platform_metrics] *)
Definition platform_metrics : list analyzer_metric :=
  [PLATFORM_PMM_READS_BYTES_PER_SECOND; PLATFORM_PMM_WRITES_BYTES_PER_SECOND;
   PLATFORM_PMM_TOTAL_BYTES_PER_SECOND; PLATFORM_DRAM_READS_BYTES_PER_SECOND;
   PLATFORM_DRAM_WRITES_BYTES_PER_SECOND; PLATFORM_DRAM_TOTAL_BYTES_PER_SECOND;
   PLATFORM_DRAM_HIT_RATIO; PLATFORM_UPI_BANDWIDTH_BYTES_PER_SECOND; PLATFORM_RPQ_READ_LATENCY_SECONDS].

(** A legend: unit, helper and name. *)
Record legend := mkLegend { lg_unit : string; lg_helper : string; lg_name : string }.

(** src/examples/kubernetes/scripts/analyzer/metrics.py:77-96 [MetricLegends] *)
Definition MetricLegends : dict analyzer_metric legend :=
  [(PLATFORM_PMM_READS_BYTES_PER_SECOND, mkLegend "GB/s" "1e9" "pmm reads");
   (PLATFORM_PMM_WRITES_BYTES_PER_SECOND, mkLegend "GB/s" "1e9" "pmm writes");
   (PLATFORM_PMM_TOTAL_BYTES_PER_SECOND, mkLegend "GB/s" "1e9" "pmm total");
   (PLATFORM_DRAM_READS_BYTES_PER_SECOND, mkLegend "GB/s" "1e9" "dram reads ");
   (PLATFORM_DRAM_WRITES_BYTES_PER_SECOND, mkLegend "GB/s" "1e9" "dram writes");
   (PLATFORM_DRAM_TOTAL_BYTES_PER_SECOND, mkLegend "GB/s" "1e9" "dram total");
   (PLATFORM_DRAM_HIT_RATIO, mkLegend "ratio" "1" "dram hit ratio");
   (PLATFORM_UPI_BANDWIDTH_BYTES_PER_SECOND, mkLegend "GB/s" "1e9" "upi bandwidth ");
   (PLATFORM_RPQ_READ_LATENCY_SECONDS, mkLegend "nanosecond" "1e-12" "rpq read latency")].

Definition by_socket (function name : string) : string :=
  function +:+ "(" +:+ name +:+ "{}) by (__name__, nodename, socket)".

(** src/examples/kubernetes/scripts/analyzer/metrics.py:99-157 [MetricsQueries] *)
Definition MetricsQueries (m : analyzer_metric) : string :=
  match m with
  | TASK_THROUGHPUT => "apm_sli2"
  | TASK_LATENCY => "apm_sli"
  | TASK_MEM_BANDWIDTH_LOCAL => "task_mem_bandwidth_local_bytes"
  | TASK_MEM_BANDWIDTH_REMOTE => "task_mem_bandwidth_remote_bytes"
  | TASK_UP => "task_up"
  | WCA_UP => "wca_up"
  | PLATFORM_MEM_USAGE => "sum(task_requested_mem_bytes) by (nodename) / 1e9"
  | PLATFORM_CPU_REQUESTED => "sum(task_requested_cpus) by (nodename)"
  | PLATFORM_CPU_UTIL => "sum(1-rate(node_cpu_seconds_total{mode='idle'}[10s])) " +:+
                         "by(nodename) / sum(platform_topology_cpus) by (nodename)"
  | PLATFORM_MBW_READS => "sum(platform_dram_reads_bytes_per_second + " +:+
                          "platform_pmm_reads_bytes_per_second) by (nodename) / 1e9"
  | PLATFORM_MBW_WRITES => "sum(platform_dram_writes_bytes_per_second + " +:+
                           "platform_pmm_writes_bytes_per_second) by (nodename) / 1e9"
  | PLATFORM_WSS_USED => "sum(avg_over_time(task_wss_referenced_bytes[15s])) by (nodename) / 1e9"
  | TASK_MEM_NUMA_PAGES => "task_mem_numa_pages{host=" +:+ in_quotes "nodename" +:+ "} * 4096"
  | PLATFORM_CAS_COUNT_READS => "platform_cas_count_reads"
  | PLATFORM_CAS_COUNT_WRITES => "platform_cas_count_writes"
  | PLATFORM_PMM_BANDWIDTH_READS => "platform_pmm_bandwidth_reads"
  | PLATFORM_PMM_BANDWIDTH_WRITES => "platform_pmm_bandwidth_writes"
  | PLATFORM_UPI_RXL_FLITS => "platform_upi_rxl_flits"
  | PLATFORM_UPI_TXL_FLITS => "platform_upi_txl_flits"
  | PLATFORM_RPQ_OCCUPANCY => "platform_rpq_occupancy"
  | PLATFORM_RPQ_INSERTS => "platform_rpq_inserts"
  | PLATFORM_IMC_CLOCKTICKS => "platform_imc_clockticks"
  | PLATFORM_PMM_READS_BYTES_PER_SECOND => by_socket "sum" "platform_pmm_reads_bytes_per_second"
  | PLATFORM_PMM_WRITES_BYTES_PER_SECOND => by_socket "sum" "platform_pmm_writes_bytes_per_second"
  | PLATFORM_PMM_TOTAL_BYTES_PER_SECOND => by_socket "sum" "platform_pmm_total_bytes_per_second"
  | PLATFORM_DRAM_READS_BYTES_PER_SECOND => by_socket "sum" "platform_dram_reads_bytes_per_second"
  | PLATFORM_DRAM_WRITES_BYTES_PER_SECOND => by_socket "sum" "platform_dram_writes_bytes_per_second"
  | PLATFORM_DRAM_TOTAL_BYTES_PER_SECOND => by_socket "sum" "platform_dram_total_bytes_per_second"
  | PLATFORM_DRAM_HIT_RATIO => by_socket "avg" "platform_dram_hit_ratio"
  | PLATFORM_UPI_BANDWIDTH_BYTES_PER_SECOND => by_socket "sum" "platform_upi_bandwidth_bytes_per_second"
  | PLATFORM_RPQ_READ_LATENCY_SECONDS => by_socket "avg" "platform_rpq_read_latency_seconds"
  end.

(** src/examples/kubernetes/scripts/analyzer/metrics.py:160-164 [Function] *)
Inductive Function := AVG | QUANTILE | STDEV | RATE.
Definition Function_value (f : Function) : string :=
  match f with AVG => "avg_over_time" | QUANTILE => "quantile_over_time" | STDEV => "stddev_over_time" | RATE => "rate" end.
(** src/examples/kubernetes/scripts/analyzer/metrics.py:167-172 [FunctionsDescription] *)
Definition FunctionsDescription (f : Function) : string :=
  match f with AVG => "avg" | QUANTILE => "q" | STDEV => "stdev" | RATE => "rate" end.

(** ** The client of Prometheus *)

(** [urllib.parse.quote_plus] of Python 3.6 *)
Definition hex_digit (n : nat) : string := String (default "0"%char (String.get n "0123456789ABCDEF")) "".
Definition quote_char (c : ascii) : string :=
  let n := nat_of_ascii c in
  if (is_digit_char c || ((65 <=? n) && (n <=? 90))%nat || ((97 <=? n) && (n <=? 122))%nat
      || bool_decide (c ∈ ["_"; "."; "-"]%char))%bool
  then String c ""
  else if Ascii.eqb c " "%char then "+"
  else "%" +:+ hex_digit (n / 16) +:+ hex_digit (n mod 16).
Fixpoint quote_plus (s : string) : string :=
  match s with EmptyString => "" | String c s' => quote_char c +:+ quote_plus s' end.
(** [urllib.parse.urlencode] of a dictionary of texts *)
Definition urlencode (d : dict string string) : string :=
  str_join "&" ((λ kv : string * string, quote_plus kv.1 +:+ "=" +:+ quote_plus kv.2) <$> d).

Definition ConnectionError : exn := OtherException "ConnectionError".
(** [raise Exception(...)] *)
Definition PlainException : exn := OtherException "Exception".

Section client.
  Context {W : Type} `{Requests W} `{PyFloatRepr}.

(** src/examples/kubernetes/scripts/analyzer/connection.py:30-55 [PrometheusClient.instant_query]
    The result of a vector is a list. *)
Definition instant_query (base_url query : string) (time : num) : M W (list json) :=
  let urli := base_url +:+ "/api/v1/query?" +:+ urlencode [("query", query); ("time", num_str time)] in
  answer ← try_except (r ← requests_get None urli; mret (Some r))
             (λ e, if bool_decide (e = ConnectionError) then Some (mret None) else None);
  match answer with
  | None => mret []
  | Some r =>
      if negb (r_ok r) then raise PlainException
      else lift (j ← r_json r;
                 status ← jitem j "status";
                 _ ← py_assert (negb (json_is status "error"));
                 data ← jitem j "data";
                 result_type ← jitem data "resultType";
                 _ ← py_assert (json_is result_type "vector");
                 rows ← jitem data "result"; jiter rows)
  end.
End client.

(** [d[k].append(v)] of a [defaultdict(list)] *)
Definition dappend (d : dict string (list json)) (k : string) (v : json) : dict string (list json) :=
  dset d k (default [] (dget d k) ++ [v]).

(** [metric.items()] *)
Definition jitems (v : json) : result (list (string * json)) :=
  match v with JObj d => Ok d | _ => Raise AttributeError end.

Section to_dict.
  Context (pd_Timestamp : json → result json).

(** src/examples/kubernetes/scripts/analyzer/connection.py:65-69 [PrometheusClient.convert_result_to_dict]
    One sample with the labels of its series. *)
Definition append_sample (labels : list (string * json)) (d : dict string (list json)) (sample : json)
    : result (dict string (list json)) :=
  let d := foldl (λ d '(label_name, label_value), dappend d label_name label_value) d labels in
  pair ← jiter sample;
  match pair with
  | [timestamp; value] => t ← pd_Timestamp timestamp; Ok (dappend (dappend d "value" value) "timestamp" t)
  | _ => Raise ValueError
  end.

(** src/examples/kubernetes/scripts/analyzer/connection.py:57-81 [PrometheusClient.convert_result_to_dict] *)
Definition convert_result_to_dict (rows : list json) : result (dict string (list json)) :=
  foldM (λ d series,
    metric ← jitem series "metric";
    instant ← jmem series "value";
    if (instant : bool) then
      labels ← jitems metric; sample ← jitem series "value"; append_sample labels d sample
    else
      range ← jmem series "values";
      if (range : bool) then
        samples ← jitem series "values"; samples ← jiter samples;
        foldM (λ d sample, labels ← jitems metric; append_sample labels d sample) d samples
      else Raise PlainException) [] rows.
End to_dict.

(** ** The model *)

(** src/examples/kubernetes/scripts/analyzer/model.py:28-33 [ClusterInfoLoader.__init__]
    The contents of nodes.json and workloads.json. *)
Record AnalyzerInfo := mkAnalyzerInfo {
  ai_nodes : dict string (dict string num); ai_workloads : dict string (dict string num)
}.

(** src/examples/kubernetes/scripts/analyzer/model.py:46-47 [ClusterInfoLoader.get_workloads_names] *)
Definition get_workloads_names (self : AnalyzerInfo) : list string := dkeys (ai_workloads self).
(** src/examples/kubernetes/scripts/analyzer/model.py:52-53 [ClusterInfoLoader.get_nodes_names] *)
Definition get_nodes_names (self : AnalyzerInfo) : list string := dkeys (ai_nodes self).
(** src/examples/kubernetes/scripts/analyzer/model.py:55-57 [ClusterInfoLoader.get_aep_nodes] *)
Definition analyzer_aep_nodes (self : AnalyzerInfo) : result (list string) :=
  foldM (λ acc '(node, capacity),
    r ← dgetitem capacity "membw_read"; w ← dgetitem capacity "membw_write";
    Ok (if ngtb r w then acc ++ [node] else acc)) [] (ai_nodes self).

(** What is known of a metric: a value for each aggregation, NUMA node or moment. *)
Definition values_t : Type := dict string json.

(** src/examples/kubernetes/scripts/analyzer/model.py:83-88 [Task] *)
Record AnalyzerTask := mkAnalyzerTask {
  at_name : string; at_workload_name : string; at_node : string;
  at_performance_metrics : dict analyzer_metric values_t
}.
Definition set_task_metrics (pm : dict analyzer_metric values_t) (t : AnalyzerTask) : AnalyzerTask :=
  mkAnalyzerTask (at_name t) (at_workload_name t) (at_node t) pm.

(** src/examples/kubernetes/scripts/analyzer/model.py:90-91 [Task.if_aep] *)
Definition if_aep (info : AnalyzerInfo) (self : AnalyzerTask) : result bool :=
  nodes ← analyzer_aep_nodes info; Ok (bool_decide (at_node self ∈ nodes)).

Definition task_value (m : analyzer_metric) (subvalue : string) (self : AnalyzerTask) : result (option float) :=
  match dget (at_performance_metrics self) m with
  | Some values => v ← dgetitem values subvalue; Some <$> jfloat v
  | None => Ok None
  end.
(** src/examples/kubernetes/scripts/analyzer/model.py:93-97 [Task.get_throughput] *)
Definition get_throughput (self : AnalyzerTask) (subvalue : string) : result (option float) :=
  task_value TASK_THROUGHPUT subvalue self.
(** src/examples/kubernetes/scripts/analyzer/model.py:99-103 [Task.get_latency] *)
Definition get_latency (self : AnalyzerTask) (subvalue : string) : result (option float) :=
  task_value TASK_LATENCY subvalue self.
(** src/examples/kubernetes/scripts/analyzer/model.py:105-112 [Task.has_metrics] *)
Definition has_metrics (self : AnalyzerTask) : result bool :=
  throughput ← get_throughput self "avg";
  latency ← get_latency self "avg";
  Ok match throughput, latency with Some _, Some _ => true | _, _ => false end.

(** The keys of the metrics of a node: a socket, a member of [Metric] or a name. *)
Inductive node_key := KSocket (socket : Z) | KMetric (m : analyzer_metric) | KName (name : string).
#[export] Instance node_key_eq_dec : EqDecision node_key.
Proof. solve_decision. Defined.

(** src/examples/kubernetes/scripts/analyzer/model.py:122-126 [Node] *)
Record AnalyzerNode := mkAnalyzerNode { an_name : string; an_performance_metrics : dict node_key values_t }.
Definition set_node_values (k : node_key) (v : values_t) (n : AnalyzerNode) : AnalyzerNode :=
  mkAnalyzerNode (an_name n) (dset (an_performance_metrics n) k v).

(** A cell of a table. *)
Inductive cell := CText (s : string) | CNum (x : num).
Definition row : Type := dict string cell.

(** [round(x, n)] *)
Definition py_round (n : Z) (x : num) : num :=
  match x with PInt z => PInt z | PFloat f => PFloat (float_round_n n f) end.

(** [float(self.performance_metrics[m]['instant'])] *)
Definition instant (self : AnalyzerNode) (m : analyzer_metric) : result num :=
  values ← dgetitem (an_performance_metrics self) (KMetric m);
  v ← dgetitem values "instant"; PFloat <$> jfloat v.

(** src/examples/kubernetes/scripts/analyzer/model.py:128-172 [Node.to_dict] *)
Definition node_to_dict (nodes_capacities : dict string (dict string num)) (self : AnalyzerNode) : result row :=
  capacity ← dgetitem nodes_capacities (an_name self);
  node_cpu ← dgetitem capacity "cpu";
  capacity ← dgetitem nodes_capacities (an_name self);
  node_mem ← dgetitem capacity "mem";
  if negb (dmem (an_performance_metrics self) (KMetric PLATFORM_CPU_REQUESTED)) then Ok []
  else
    let hundred := PInt 100 in
    cpu_requested ← instant self PLATFORM_CPU_REQUESTED;
    cpu_percent ← (x ← ndiv cpu_requested node_cpu; nmul x hundred);
    cpu_util ← instant self PLATFORM_CPU_UTIL;
    mem_requested ← instant self PLATFORM_MEM_USAGE;
    mem_percent ← (x ← ndiv mem_requested node_mem; nmul x hundred);
    mbw_reads ← instant self PLATFORM_MBW_READS;
    mbw_writes ← instant self PLATFORM_MBW_WRITES;
    mbw_flat ← (x ← nmul (PFloat (float_of_ratio 37 10)) mbw_writes; nadd x mbw_reads);
    hit_ratio ← (x ← instant self PLATFORM_DRAM_HIT_RATIO; nmul x hundred);
    wss_used ← instant self PLATFORM_WSS_USED;
    mem_per_cpu ← ndiv mem_requested cpu_requested;
    let rounded := λ x, CNum (py_round 2 x) in
    Ok [("name", CText (an_name self));
        ("cpu_requested", rounded cpu_requested); ("cpu_requested [%]", rounded cpu_percent);
        ("cpu_util [experimental]", rounded cpu_util);
        ("mem_requested", rounded mem_requested); ("mem_requested [%]", rounded mem_percent);
        ("mbw_reads [GB]", rounded mbw_reads); ("mbw_writes [GB]", rounded mbw_writes);
        ("mbw_flat [GB]", rounded mbw_flat); ("dram_hit_ratio [%]", rounded hit_ratio);
        ("wss_used (aprox)", rounded wss_used); ("mem/cpu (requested)", rounded mem_per_cpu)].

(** src/examples/kubernetes/scripts/analyzer/model.py:179-185 [Stat] *)
Record Stat := mkStat { st_avg : num; st_min : num; st_max : num; st_stdev : num }.
(** src/examples/kubernetes/scripts/analyzer/model.py:188-194 [WStat] *)
Record WStat := mkWStat { ws_name : string; ws_latency : Stat; ws_throughput : Stat; ws_count : Z }.

(** src/examples/kubernetes/scripts/analyzer/model.py:196-212 [WStat.to_dict] *)
Definition wstat_to_dict (self : WStat) : result row :=
  let rounded := λ x, CNum (py_round 2 x) in
  let percent (s : Stat) := x ← ndiv (st_stdev s) (st_avg s); nmul x (PInt 100) in
  l_percent ← percent (ws_latency self);
  t_percent ← percent (ws_throughput self);
  Ok [("LB_min", rounded (st_min (ws_latency self))); ("LB_avg", rounded (st_avg (ws_latency self)));
      ("LB_max", rounded (st_max (ws_latency self))); ("L_stdev", rounded (st_stdev (ws_latency self)));
      ("L_stdev[%]", rounded l_percent);
      ("TB_min", rounded (st_min (ws_throughput self))); ("TB_avg", rounded (st_avg (ws_throughput self)));
      ("TB_max", rounded (st_max (ws_throughput self))); ("T_stdev", rounded (st_stdev (ws_throughput self)));
      ("T_stdev[%]", rounded t_percent);
      ("B_count", CNum (PInt (ws_count self))); ("app", CText (ws_name self))].

(** ** The queries *)

(** [s.replace(a, b)] of a text [a] *)
Definition replace_sub (a b s : string) : string := str_join b (split_sub a s).

(** src/examples/kubernetes/scripts/analyzer/serializator.py:21-22 [build_function_call_id] *)
Definition build_function_call_id (function : Function) (arg : string) : string :=
  FunctionsDescription function +:+ arg.

(** [row['value'][1]] *)
Definition row_raw_value (row : json) : result json := value ← jitem row "value"; jnth value 1.

(** Every task by its name. *)
Definition tasks_t : Type := dict string AnalyzerTask.

(** src/examples/kubernetes/scripts/analyzer/serializator.py:131-136 [AnalyzerQueries.query_task_performance_metrics]
    What one row tells of a task; a task that is not known is passed over. *)
Definition record_task_value (metric : analyzer_metric) (aggregation_name : string) (tasks : tasks_t)
    (per_app_result : json) : result tasks_t :=
  task_name ← row_metric per_app_result "task_name";
  value ← row_raw_value per_app_result;
  match dget tasks task_name with
  | None => Ok tasks
  | Some task =>
      let pm := at_performance_metrics task in
      let values := match dget pm metric with
                    | Some values => dset values aggregation_name value
                    | None => [(aggregation_name, value)]
                    end in
      Ok (dset tasks task_name (set_task_metrics (dset pm metric values) task))
  end.

(** The answers to the queries: a list of rows for each metric and aggregation. *)
Definition answers_t : Type := dict analyzer_metric (dict string (list json)).

(** src/examples/kubernetes/scripts/analyzer/serializator.py:128-136 [AnalyzerQueries.query_task_performance_metrics] *)
Definition record_answers (answers : answers_t) (tasks : tasks_t) : result tasks_t :=
  foldM (λ tasks '(metric, query_result),
    foldM (λ tasks '(aggregation_name, rows),
      foldM (record_task_value metric aggregation_name) tasks rows) tasks query_result) tasks answers.

(** src/examples/kubernetes/scripts/analyzer/serializator.py:118-119 [AnalyzerQueries.query_task_performance_metrics] *)
Definition gauge_function_args : list (Function * string) := [(AVG, ""); (QUANTILE, "0.1,"); (QUANTILE, "0.9,")].
(** src/examples/kubernetes/scripts/analyzer/serializator.py:120-120 [AnalyzerQueries.query_task_performance_metrics] *)
Definition counter_function_args : list (Function * string) := [(RATE, "")].
(** src/examples/kubernetes/scripts/analyzer/serializator.py:122-125 [AnalyzerQueries.query_task_performance_metrics] *)
Definition task_function_args : dict analyzer_metric (list (Function * string)) :=
  [(TASK_THROUGHPUT, gauge_function_args); (TASK_LATENCY, gauge_function_args);
   (TASK_MEM_MBW_LOCAL, counter_function_args); (TASK_MEM_MBW_REMOTE, counter_function_args)].

(** src/examples/kubernetes/scripts/analyzer/serializator.py:99-103 [AnalyzerQueries.query_performance_metrics] *)
Definition function_query (metric : analyzer_metric) (function : Function * string) (window_length : Z) : string :=
  Function_value function.1 +:+ "(" +:+ function.2 +:+ MetricsQueries metric +:+ "["
    +:+ str_of_Z window_length +:+ "s])".

(** src/examples/kubernetes/scripts/analyzer/serializator.py:138-148 [AnalyzerQueries.query_task_numa_pages]
    A task that is not known raises [KeyError]. *)
Definition record_numa_pages (tasks : tasks_t) (row : json) : result tasks_t :=
  task_name ← row_metric row "task_name";
  value ← row_raw_value row;
  numa_node ← row_metric row "numa_node";
  task ← dgetitem tasks task_name;
  let zero := JNum (PInt 0) in
  let pages := default [("0", zero); ("1", zero); ("2", zero); ("3", zero)]
                 (dget (at_performance_metrics task) TASK_MEM_NUMA_PAGES) in
  Ok (dset tasks task_name
        (set_task_metrics (dset (at_performance_metrics task) TASK_MEM_NUMA_PAGES (dset pages numa_node value)) task)).

(** The socket of a row, and the values of socket 0 and socket 1. *)
Definition row_socket (row : json) : result json := metric ← jitem row "metric"; jitem metric "socket".
Definition nth_row (rows : list json) (i : nat) : result json := or_raise IndexError (rows !! i).

(** src/examples/kubernetes/scripts/analyzer/serializator.py:71-78 [AnalyzerQueries.query_platform_performance_metric] *)
Definition socket_values (query_results : list json) : result (json * json) :=
  match query_results with
  | [] => Ok (JNum (PInt 0), JNum (PInt 0))
  | first :: _ =>
      socket ← row_socket first;
      if json_is socket "0" then
        a ← nth_row query_results 0; a ← row_raw_value a;
        b ← nth_row query_results 1; b ← row_raw_value b; Ok (a, b)
      else
        a ← nth_row query_results 1; a ← row_raw_value a;
        b ← nth_row query_results 0; b ← row_raw_value b; Ok (a, b)
  end.

Section queries.
  Context {W : Type} `{Requests W} `{PyFloatRepr}.
  Context (prometheus_url : string).

(** src/examples/kubernetes/scripts/analyzer/serializator.py:28-29 [AnalyzerQueries.__init__] *)
Definition ask (query : string) (time : num) : M W (list json) := instant_query prometheus_url query time.

(** src/examples/kubernetes/scripts/analyzer/serializator.py:31-38 [AnalyzerQueries.query_node_name_list] *)
Definition query_node_name_list (time : num) : M W (list string) :=
  query_result ← ask (MetricsQueries WCA_UP) time;
  lift (mapM (λ metric, row_metric metric "host") query_result).

(** src/examples/kubernetes/scripts/analyzer/serializator.py:66-78 [AnalyzerQueries.query_platform_performance_metric] *)
Definition query_platform_performance_metric (time : num) (metric : analyzer_metric) (node : string)
    : M W (json * json) :=
  let parametrize_query := replace_sub "{}" ("{nodename=" +:+ in_quotes node +:+ "}") (MetricsQueries metric) in
  query_results ← ask parametrize_query time;
  lift (socket_values query_results).

(** src/examples/kubernetes/scripts/analyzer/serializator.py:44-53 [AnalyzerQueries.query_node_list], one node *)
Definition query_node (time : num) (node_name : string) : M W AnalyzerNode :=
  sockets ← foldMS (λ (acc : values_t * values_t) metric,
      v ← query_platform_performance_metric time metric node_name;
      mret (dset acc.1 (analyzer_metric_name metric) v.1, dset acc.2 (analyzer_metric_name metric) v.2))
    ([], []) platform_metrics;
  mret (mkAnalyzerNode node_name [(KSocket 0, sockets.1); (KSocket 1, sockets.2)]).

(** src/examples/kubernetes/scripts/analyzer/serializator.py:40-54 [AnalyzerQueries.query_node_list] *)
Definition query_node_list (time : num) : M W (list AnalyzerNode) :=
  node_names ← query_node_name_list time;
  foldMS (λ nodes node_name, node ← query_node time node_name; mret (nodes ++ [node])) [] node_names.

(** src/examples/kubernetes/scripts/analyzer/serializator.py:56-64 [AnalyzerQueries.query_tasks_list] *)
Definition query_tasks_list (time : num) : M W tasks_t :=
  query_result ← ask (MetricsQueries TASK_UP) time;
  lift (foldM (λ tasks row,
    name ← row_metric row "task_name"; app ← row_metric row "app"; node ← row_metric row "nodename";
    Ok (dset tasks name (mkAnalyzerTask name app node []))) [] query_result).

(** src/examples/kubernetes/scripts/analyzer/serializator.py:80-91 [AnalyzerQueries.query_platform_performance_metrics]
    The value is read before the node is looked up. *)
Definition query_platform_performance_metrics (time : num) (nodes : dict string AnalyzerNode)
    : M W (dict string AnalyzerNode) :=
  foldMS (λ nodes metric,
    query_results ← ask (MetricsQueries metric) time;
    lift (foldM (λ nodes row,
      v ← row_raw_value row; name ← row_metric row "nodename"; node ← dgetitem nodes name;
      Ok (dset nodes name (set_node_values (KMetric metric) [("instant", v)] node))) nodes query_results))
    nodes [PLATFORM_MEM_USAGE; PLATFORM_CPU_REQUESTED; PLATFORM_CPU_UTIL; PLATFORM_DRAM_HIT_RATIO; PLATFORM_WSS_USED].

(** src/examples/kubernetes/scripts/analyzer/serializator.py:93-111 [AnalyzerQueries.query_performance_metrics] *)
Definition query_performance_metrics (time : num) (functions_args : dict analyzer_metric (list (Function * string)))
    (metrics : list analyzer_metric) (window_length : Z) : M W answers_t :=
  foldMS (λ answers metric,
    functions ← lift (dgetitem functions_args metric);
    foldMS (λ (answers : answers_t) function,
      query_result ← ask (function_query metric function window_length) time;
      let aggregation_name := build_function_call_id function.1 function.2 in
      mret (dset answers metric (dset (default [] (dget answers metric)) aggregation_name query_result)))
      answers functions) [] metrics.

(** src/examples/kubernetes/scripts/analyzer/serializator.py:113-136 [AnalyzerQueries.query_task_performance_metrics] *)
Definition query_task_performance_metrics (time : num) (tasks : tasks_t) (window_length : Z) : M W tasks_t :=
  query_results ← query_performance_metrics time task_function_args
    [TASK_THROUGHPUT; TASK_LATENCY; TASK_MEM_MBW_LOCAL; TASK_MEM_MBW_REMOTE] window_length;
  lift (record_answers query_results tasks).

(** src/examples/kubernetes/scripts/analyzer/serializator.py:138-148 [AnalyzerQueries.query_task_numa_pages] *)
Definition query_task_numa_pages (time : num) (tasks : tasks_t) : M W tasks_t :=
  query_result ← ask "task_mem_numa_pages" time;
  lift (foldM record_numa_pages tasks query_result).
End queries.

(** ** What is recorded of a task *)
Definition recorded (t : AnalyzerTask) (m : analyzer_metric) (aggregation : string) : option json :=
  dget (at_performance_metrics t) m ≫= λ values, dget values aggregation.

(** The value of the last row about a task. *)
Definition last_value (name : string) (rows : list json) : option json :=
  foldl (λ acc row,
    match row_metric row "task_name", row_raw_value row with
    | Ok n, Ok v => if decide (n = name) then Some v else acc
    | _, _ => acc
    end) None rows.

(** The value of a task in the answers. *)
Definition answered (answers : answers_t) (name : string) (m : analyzer_metric) (aggregation : string) : option json :=
  dget answers m ≫= λ q, dget q aggregation ≫= λ rows, last_value name rows.

(** [tasks'] has the tasks of [tasks], with the values [f] gives and the old ones elsewhere. *)
Definition overrides (f : string → analyzer_metric → string → option json) (tasks tasks' : tasks_t) : Prop :=
  dkeys tasks' = dkeys tasks ∧
  ∀ name t, dget tasks name = Some t → ∃ t', dget tasks' name = Some t' ∧
    at_name t' = at_name t ∧ at_workload_name t' = at_workload_name t ∧ at_node t' = at_node t ∧
    ∀ m a, recorded t' m a = match f name m a with Some v => Some v | None => recorded t m a end.

Lemma overrides_refl tasks : overrides (λ _ _ _, None) tasks tasks.
Proof. split; [done|]. intros name t Ht. by exists t. Qed.

Lemma overrides_trans f g h t1 t2 t3 :
  (∀ n m a, h n m a = match g n m a with Some v => Some v | None => f n m a end) →
  overrides f t1 t2 → overrides g t2 t3 → overrides h t1 t3.
Proof.
  intros Hh [Hk1 H1] [Hk2 H2]. split; [congruence|]. intros name t Ht.
  destruct (H1 _ _ Ht) as (u & Hu & Hn1 & Hw1 & Hd1 & Hr1). destruct (H2 _ _ Hu) as (v & Hv & Hn2 & Hw2 & Hd2 & Hr2).
  exists v. split_and!; try congruence. intros m a. rewrite Hh, Hr2, Hr1. by destruct (g name m a).
Qed.

Lemma record_one metric aggregation tasks row tasks' :
  record_task_value metric aggregation tasks row = Ok tasks' →
  ∃ n v, row_metric row "task_name" = Ok n ∧ row_raw_value row = Ok v ∧
    overrides (λ name m a, if decide (m = metric ∧ a = aggregation ∧ n = name) then Some v else None) tasks tasks'.
Proof.
  unfold record_task_value. intros (n & Hn & (v & Hv & Hr)%bind_Ok_iff)%bind_Ok_iff. exists n, v.
  split_and!; [done..|]. destruct (dget tasks n) as [t0|] eqn:E; injection Hr as <-.
  - split; [rewrite dkeys_dset, decide_True; [done|by apply dget_is_Some; eexists]|]. intros name t Ht.
    destruct (decide (name = n)) as [->|Hne].
    + rewrite E in Ht. injection Ht as ->. eexists. split; [apply dget_dset_eq|]. split_and!; [done..|].
      intros m a. unfold recorded. cbn [set_task_metrics at_performance_metrics].
      destruct (decide (m = metric)) as [->|Hm].
      * rewrite dget_dset_eq. cbn [mbind option_bind]. destruct (decide (a = aggregation)) as [->|Ha].
        -- rewrite decide_True by done. destruct (dget _ metric); [by rewrite dget_dset_eq|]. cbn. by rewrite decide_True.
        -- rewrite decide_False by naive_solver. destruct (dget _ metric); [by rewrite dget_dset_ne|].
           cbn. by rewrite decide_False.
      * rewrite dget_dset_ne, decide_False by naive_solver. done.
    + rewrite dget_dset_ne by done. exists t. split_and!; [done..|]. intros m a. by rewrite decide_False by naive_solver.
  - split; [done|]. intros name t Ht. exists t. split_and!; [done..|]. intros m a.
    rewrite decide_False; [done|]. intros (_ & _ & ->). congruence.
Qed.

Lemma last_value_app name rows row :
  last_value name (rows ++ [row]) =
  match row_metric row "task_name", row_raw_value row with
  | Ok n, Ok v => if decide (n = name) then Some v else last_value name rows
  | _, _ => last_value name rows
  end.
Proof. unfold last_value. by rewrite foldl_app. Qed.

Lemma record_rows metric aggregation rows tasks tasks' :
  foldM (record_task_value metric aggregation) tasks rows = Ok tasks' →
  overrides (λ name m a, if decide (m = metric ∧ a = aggregation) then last_value name rows else None) tasks tasks'.
Proof.
  revert tasks'. induction rows as [|row rows IH] using rev_ind; intros tasks' Hf.
  { injection Hf as <-. eapply overrides_trans; [|apply overrides_refl|apply overrides_refl].
    intros n m a. cbn. by destruct (decide _). }
  rewrite foldM_app in Hf. apply bind_Ok_iff in Hf as (tasks1 & H1 & Hf). cbn [foldM] in Hf.
  apply bind_Ok_iff in Hf as (tasks2 & H2 & [= <-]). apply IH in H1.
  apply record_one in H2 as (n & v & Hn & Hv & Ho). eapply overrides_trans; [|exact H1|exact Ho].
  intros name m a. rewrite last_value_app, Hn, Hv. cbn.
  destruct (decide (m = metric ∧ a = aggregation)) as [[-> ->]|Hne].
  - destruct (decide (n = name)) as [->|]; [by rewrite decide_True|by rewrite decide_False by naive_solver].
  - by rewrite decide_False by naive_solver.
Qed.

Lemma record_aggregations metric query_result tasks tasks' :
  dict_wf query_result →
  foldM (λ tasks '(aggregation_name, rows), foldM (record_task_value metric aggregation_name) tasks rows)
    tasks query_result = Ok tasks' →
  overrides (λ name m a, if decide (m = metric) then dget query_result a ≫= last_value name else None) tasks tasks'.
Proof.
  revert tasks. induction query_result as [|[agg rows] q IH]; intros tasks Hwf Hf.
  { injection Hf as <-. eapply overrides_trans; [|apply overrides_refl|apply overrides_refl].
    intros n m a. cbn. by destruct (decide _). }
  cbn [foldM] in Hf. apply bind_Ok_iff in Hf as (tasks1 & H1 & Hf). apply record_rows in H1.
  unfold dict_wf, dkeys in Hwf. rewrite fmap_cons in Hwf. apply NoDup_cons in Hwf as [Hni Hwf].
  apply IH in Hf; [|done]. eapply overrides_trans; [|exact H1|exact Hf].
  intros name m a. cbn [dget]. destruct (decide (m = metric)) as [->|Hm].
  - destruct (decide (agg = a)) as [->|Ha].
    + rewrite decide_True by done. cbn in Hni. rewrite (proj2 (dget_None q a)) by exact Hni. cbn.
      destruct (decide _) as [_|[]]; [by destruct (last_value name rows)|done].
    + rewrite (decide_False (P := _ ∧ a = agg)), (decide_False (P := a = agg)) by naive_solver.
      by destruct (dget q a ≫= last_value name).
  - by rewrite (decide_False (P := m = metric ∧ _)) by naive_solver.
Qed.

(** C19 (functional): after the performance of the tasks has been queried, the tasks are
    those of before with their names, workloads and nodes; for every metric and aggregation
    that was asked for, a task has the value of the last row about it, and where there is no
    row it has what it had; rows about other tasks are passed over. *)
Theorem record_answers_last answers tasks tasks' :
  dict_wf answers → (∀ m q, (m, q) ∈ answers → dict_wf q) → record_answers answers tasks = Ok tasks' →
  overrides (answered answers) tasks tasks'.
Proof.
  unfold record_answers. revert tasks. induction answers as [|[metric q] answers IH]; intros tasks Hwf Hq Hf.
  { injection Hf as <-. apply overrides_refl. }
  cbn [foldM] in Hf. apply bind_Ok_iff in Hf as (tasks1 & H1 & Hf).
  apply record_aggregations in H1; [|apply (Hq metric); left].
  unfold dict_wf, dkeys in Hwf. rewrite fmap_cons in Hwf. apply NoDup_cons in Hwf as [Hni Hwf].
  apply IH in Hf; [|done|intros m q' Hin; apply (Hq m); by right].
  eapply overrides_trans; [|exact H1|exact Hf]. intros name m a. unfold answered. cbn [dget].
  destruct (decide (metric = m)) as [->|Hm].
  - rewrite !decide_True by done. cbn in Hni. by rewrite (proj2 (dget_None answers m)) by exact Hni.
  - rewrite !decide_False by congruence. by destruct (dget answers m ≫= _).
Qed.

(** ** Rows that cannot be used *)

(** A machine with one socket: the second row is missing. *)
Lemma one_socket_raises socket v row :
  row_socket row = Ok socket → row_raw_value row = Ok v → socket_values [row] = Raise IndexError.
Proof.
  intros Hs Hv. unfold socket_values. rewrite Hs. cbn [mbind result_bind].
  destruct (json_is socket "0"); unfold nth_row; cbn; by rewrite ?Hv.
Qed.

(** With two sockets the values are those of socket 0 and socket 1 in either order. *)
Lemma two_sockets row0 row1 v0 v1 :
  row_socket row0 = Ok (JStr "0") → row_socket row1 = Ok (JStr "1") →
  row_raw_value row0 = Ok v0 → row_raw_value row1 = Ok v1 →
  socket_values [row0; row1] = Ok (v0, v1) ∧ socket_values [row1; row0] = Ok (v0, v1).
Proof.
  intros Hs0 Hs1 Hv0 Hv1. unfold socket_values, nth_row. rewrite Hs0, Hs1. cbn. by rewrite Hv0, Hv1.
Qed.

(** The NUMA pages of a task that was not found by the query for tasks stop the analysis,
    where its other values are passed over. *)
Lemma unknown_task_rows metric aggregation tasks row n v node :
  row_metric row "task_name" = Ok n → row_raw_value row = Ok v → row_metric row "numa_node" = Ok node →
  dget tasks n = None →
  record_numa_pages tasks row = Raise KeyError ∧ record_task_value metric aggregation tasks row = Ok tasks.
Proof.
  intros Hn Hv Hd Ht. unfold record_numa_pages, record_task_value. rewrite Hn, Hv, Hd. cbn.
  unfold dgetitem. rewrite Ht. done.
Qed.

(** ** A concrete analysis *)
Definition example_row (labels : list (string * string)) (value : string) : json :=
  JObj [("metric", JObj ((λ kv, (kv.1, JStr kv.2)) <$> labels)); ("value", JList [JNum (PInt 1600000000); JStr value])].
Definition example_answers : answers_t :=
  [(TASK_THROUGHPUT, [("avg", [example_row [("task_name", "t1")] "10"; example_row [("task_name", "t9")] "7";
                               example_row [("task_name", "t1")] "12"])]);
   (TASK_LATENCY, [("avg", [example_row [("task_name", "t2")] "0.5"]); ("q0.9,", [])])].
Definition example_tasks : tasks_t :=
  [("t1", mkAnalyzerTask "t1" "redis" "node1" []); ("t2", mkAnalyzerTask "t2" "pmbench" "node1" [])].

Lemma record_answers_last_witness :
  overrides (answered example_answers) example_tasks (result_get [] (record_answers example_answers example_tasks)) ∧
  answered example_answers "t1" TASK_THROUGHPUT "avg" = Some (JStr "12").
Proof.
  split; [|vm_compute; reflexivity].
  apply (record_answers_last example_answers example_tasks).
  - unfold dict_wf. vm_compute. repeat constructor; rewrite ?list_elem_of_singleton; set_solver.
  - intros m q Hin. unfold example_answers in Hin. rewrite !elem_of_cons in Hin.
    destruct Hin as [[= -> ->]|[[= -> ->]|?%not_elem_of_nil]]; [| |done];
      unfold dict_wf; vm_compute; repeat constructor; rewrite ?list_elem_of_singleton; set_solver.
  - vm_compute. reflexivity.
Defined.

Example encoded_query :
  urlencode [("query", function_query TASK_LATENCY (QUANTILE, "0.9,") 120); ("time", "1583395200")] =
  "query=quantile_over_time%280.9%2Capm_sli%5B120s%5D%29&time=1583395200".
Proof. vm_compute. reflexivity. Qed.

Example node_query :
  replace_sub "{}" ("{nodename=" +:+ in_quotes "node1" +:+ "}") (MetricsQueries PLATFORM_DRAM_HIT_RATIO) =
  "avg(platform_dram_hit_ratio{nodename=" +:+ in_quotes "node1" +:+ "}) by (__name__, nodename, socket)".
Proof. vm_compute. reflexivity. Qed.
