(* ===== verification/Admission.v ===== *)
(** * The admission controller

    [src/wca/admission_controller]: the service that annotates the pods of an
    application with the memory it needs.  Its data come from Prometheus; the
    difference of two documents ([jsonpatch]), its encoding and [str] of a float are
    parameters. *)
From S2P Require Export ClusterData.

(** ** The data of the applications *)

(** src/wca/admission_controller/app_data_provider.py:19-22 [Queries] *)
Definition APP_WSS : string := "app_req{dim=" +:+ in_quotes "wss" +:+ "}".
Definition APP_RSS : string := "app_req{dim=" +:+ in_quotes "mem" +:+ "}".

Section app_data.
  Context {W : Type} `{Requests W}.

(** src/wca/admission_controller/app_data_provider.py:37-43 [AppDataProvider._get_requested_app_metric] *)
Definition get_requested_app_metric (prometheus : Prometheus) (query : string) : M W (dict string float) :=
  rows ← do_query prometheus query true;
  lift (rows ← jiter rows; rows_dict (λ row, row_metric row "app") row_value rows).

(** src/wca/admission_controller/app_data_provider.py:31-35 [AppDataProvider.get_wss, AppDataProvider.get_rss]
    The queries of the class are used, not those the provider was given. *)
Definition get_wss (prometheus : Prometheus) : M W (dict string float) :=
  get_requested_app_metric prometheus APP_WSS.
Definition get_rss (prometheus : Prometheus) : M W (dict string float) :=
  get_requested_app_metric prometheus APP_RSS.
End app_data.

(** ** The service *)

(** src/wca/admission_controller/service.py:126-128 [MemoryType] *)
Definition DRAM_memory : string := "dram".
Definition HMEM_memory : string := "dram,pmem".

(** src/wca/admission_controller/service.py:40-48 [AnnotatingService.__init__] *)
Record AnnotatingService := mkAnnotatingService {
  sv_prometheus : Prometheus;
  sv_dram_only_threshold : float;
  sv_cold_start_duration : option Z;
  sv_if_toptier_limit : bool;
  sv_monitored_namespaces : list string
}.

(** src/wca/admission_controller/service.py:32-48 [AnnotatingService.__init__], from a configuration *)
Definition make_service (prometheus : Prometheus) (dram_threshold : option float)
    (monitored_namespaces : option (list string)) : AnnotatingService :=
  mkAnnotatingService prometheus (default (float_of_ratio 100 1) dram_threshold) None true
    (default ["default"] monitored_namespaces).

Definition TOPTIER_KEY : string := "toptierlimit.cri-resource-manager.intel.com/pod".
Definition MEMORY_TYPE_KEY : string := "cri-resource-manager.intel.com/memory-type".
Definition COLD_START_KEY : string := "cri-resource-manager.intel.com/cold-start".

(** [d[k] = v] of a JSON object *)
Definition jset (v : json) (k : string) (x : json) : result json :=
  match v with JObj o => Ok (JObj (dset o k x)) | _ => Raise TypeError end.

(** [v.update(d)] *)
Definition jupdate (v : json) (d : dict string json) : result json :=
  match v with JObj o => Ok (JObj (dupdate o d)) | _ => Raise AttributeError end.

Section service.
  Context {W : Type} `{Requests W} `{PyFloatRepr}.
  Context (self : AnnotatingService).

(** src/wca/admission_controller/service.py:67-79 [AnnotatingService._get_wss, AnnotatingService._get_rss] *)
Definition app_metric (get : Prometheus → M W (dict string float)) (app_name : json) : M W (option string) :=
  per_app ← get (sv_prometheus self);
  v ← lift (json_get per_app app_name);
  mret (float_repr <$> v).

(** src/wca/admission_controller/service.py:81-87 [AnnotatingService._get_memory_type] *)
Definition get_memory_type (wss rss : string) : result string :=
  w ← py_float wss; r ← py_float rss; q ← fdiv w r;
  Ok (if fltb (sv_dram_only_threshold self) (fmul q (float_of_ratio 100 1)) then DRAM_memory
      else HMEM_memory).

(** src/wca/admission_controller/service.py:105-116 [AnnotatingService._mutate_pod], the annotations *)
Definition make_annotations (wss rss : option string) : result (dict string json) :=
  let annotations :=
    match wss with
    | Some wss => if sv_if_toptier_limit self then [(TOPTIER_KEY, JStr (wss +:+ "G"))] else []
    | None => []
    end in
  match wss, rss with
  | Some wss, Some rss =>
      memory_type ← get_memory_type wss rss;
      let annotations := dset annotations MEMORY_TYPE_KEY (JStr memory_type) in
      Ok (match sv_cold_start_duration self with
          | Some duration =>
              if String.eqb memory_type HMEM_memory then
                dset annotations COLD_START_KEY (JObj [("duration", JNum (PInt duration))])
              else annotations
          | None => annotations
          end)
  | _, _ => Ok annotations
  end.

(** src/wca/admission_controller/service.py:118-121 [AnnotatingService._mutate_pod], the metadata *)
Definition annotate (metadata : json) (annotations : dict string json) : result json :=
  match annotations with
  | [] => _ ← jget metadata "annotations" JNull; Ok metadata
  | _ =>
      old ← jget metadata "annotations" JNull;
      let old := if jtrue old then old else JObj [] in
      new ← jupdate old annotations;
      jset metadata "annotations" new
  end.

(** src/wca/admission_controller/service.py:89-123 [AnnotatingService._mutate_pod]
    The pod of the request and the pod that the patch leads to. *)
Definition mutate_pod (request : json) : M W (json * json) :=
  body ← lift (jitem request "request");
  spec ← lift (jitem body "object");
  namespace ← lift (jitem body "namespace");
  if negb (existsb (json_is namespace) (sv_monitored_namespaces self)) then mret (spec, spec)
  else
    metadata ← lift (jitem spec "metadata");
    app_name ← lift (labels ← jitem metadata "labels"; jitem labels "app");
    wss ← app_metric get_wss app_name;
    rss ← app_metric get_rss app_name;
    annotations ← lift (make_annotations wss rss);
    metadata ← lift (annotate metadata annotations);
    modified_spec ← lift (jset spec "metadata" metadata);
    mret (spec, modified_spec).

(** src/wca/admission_controller/service.py:54-65 [AnnotatingService._create_patch] *)
Definition create_patch (patch_of : json → json → string) (pods : json * json) : json :=
  JObj [("response",
         JObj [("allowed", JBool true); ("status", JObj [("message", JStr "Patching pod")]);
               ("patch", JStr (patch_of pods.1 pods.2)); ("patchtype", JStr "JSONPatch")])].

(** src/wca/admission_controller/service.py:50-52 [AnnotatingService.__init__.mutate] *)
Definition mutate (patch_of : json → json → string) (request : json) : M W json :=
  pods ← mutate_pod request; mret (create_patch patch_of pods).
End service.

(** ** Properties *)

(** Whether the key belongs to the service. *)
Definition annotation_key (k : string) : Prop := k ∈ [TOPTIER_KEY; MEMORY_TYPE_KEY; COLD_START_KEY].

Lemma make_annotations_keys self wss rss annotations k :
  make_annotations self wss rss = Ok annotations → k ∈ dkeys annotations → annotation_key k.
Proof.
  unfold make_annotations, annotation_key. intros Hm Hk.
  destruct wss as [wss|], rss as [rss|]; inv_ok.
  - destruct (sv_if_toptier_limit self), (sv_cold_start_duration self);
      try destruct (String.eqb _ HMEM_memory);
      repeat (apply dkeys_dset_elem in Hk as [->|Hk]; [set_solver|]); cbn in Hk; set_solver.
  - destruct (sv_if_toptier_limit self); cbn in Hk; set_solver.
  - cbn in Hk. set_solver.
  - cbn in Hk. set_solver.
Qed.

Lemma annotate_other metadata annotations metadata' k :
  annotate metadata annotations = Ok metadata' → k ≠ "annotations" → jitem metadata' k = jitem metadata k.
Proof.
  unfold annotate, jset. intros Ha Hk. destruct annotations as [|kv annotations]; [by inv_ok|].
  apply bind_Ok_iff in Ha as (old & _ & Ha). apply bind_Ok_iff in Ha as (new & _ & Ha).
  destruct metadata; inv_ok. cbn. unfold dgetitem. by rewrite dget_dset_ne.
Qed.

(** The annotations of the pod: those of the service over those it had. *)
Lemma annotate_merges metadata annotations metadata' :
  annotations ≠ [] → dict_wf annotations → annotate metadata annotations = Ok metadata' →
  ∃ old new, jget metadata "annotations" JNull = Ok old ∧
    jitem metadata' "annotations" = Ok (JObj new) ∧
    ∀ k, dget new k = match dget annotations k with
                      | Some v => Some v
                      | None => match old with JObj o => dget o k | _ => None end
                      end.
Proof.
  unfold annotate. intros Hne Hwf Ha. destruct annotations as [|kv annotations]; [done|].
  apply bind_Ok_iff in Ha as (old & Hold & Ha). apply bind_Ok_iff in Ha as (new & Hnew & Ha).
  unfold jset in Ha. destruct metadata as [| | | | |o]; try discriminate Ha. injection Ha as <-.
  assert (Hcase : ∃ o', (∀ k, dget o' k = match old with JObj o => dget o k | _ => None end) ∧
    new = JObj (dupdate o' (kv :: annotations))).
  { destruct (jtrue old) eqn:E.
    - destruct old; try discriminate Hnew. injection Hnew as <-. eauto.
    - injection Hnew as <-. exists []. split; [|done]. intros k. by destruct old as [| | | | |[|]]. }
  destruct Hcase as (o' & Ho & ->). exists old, (dupdate o' (kv :: annotations)). split; [done|].
  split; [cbn; unfold dgetitem; by rewrite dget_dset_eq|]. intros k. by rewrite dget_dupdate, Ho.
Qed.

Lemma make_annotations_wf self wss rss annotations :
  make_annotations self wss rss = Ok annotations → dict_wf annotations.
Proof.
  unfold make_annotations. intros Hm.
  assert (H1 : ∀ w : string, dict_wf (if sv_if_toptier_limit self then [(TOPTIER_KEY, JStr (w +:+ "G"))] else [])).
  { intros w. destruct (sv_if_toptier_limit self); repeat constructor; set_solver. }
  destruct wss as [wss|], rss as [rss|]; inv_ok; [|by apply H1|constructor|constructor].
  destruct (sv_cold_start_duration self); try destruct (String.eqb _ HMEM_memory);
    repeat apply dset_wf; apply H1.
Qed.

Section service_spec.
  Context {W : Type} `{Requests W} `{PyFloatRepr}.
  Context (self : AnnotatingService).

(** A pod of a namespace that is not monitored is given back as it came. *)
Lemma unmonitored_unchanged request body spec namespace w :
  jitem request "request" = Ok body → jitem body "object" = Ok spec →
  jitem body "namespace" = Ok namespace →
  existsb (json_is namespace) (sv_monitored_namespaces self) = false →
  mutate_pod self request w = (Ok (spec, spec), w).
Proof.
  intros Hr Hs Hn He. unfold mutate_pod, mbind, M_bind, lift. by rewrite Hr, Hs, Hn, He.
Qed.

(** C12 (safety): the service touches nothing of a pod but the annotations of its own
    keys: every other field of the pod, every other field of its metadata and every
    annotation of somebody else is what it was. *)
Theorem mutate_only_annotates request w spec spec' w' :
  mutate_pod self request w = (Ok (spec, spec'), w') →
  spec' = spec ∨
  ∃ metadata metadata', jitem spec "metadata" = Ok metadata ∧ jitem spec' "metadata" = Ok metadata' ∧
    (∀ k, k ≠ "metadata" → jitem spec' k = jitem spec k) ∧
    (∀ k, k ≠ "annotations" → jitem metadata' k = jitem metadata k) ∧
    (metadata' = metadata ∨
     ∃ old new, jget metadata "annotations" JNull = Ok old ∧
       jitem metadata' "annotations" = Ok (JObj new) ∧
       ∀ k, ¬ annotation_key k → dget new k = match old with JObj o => dget o k | _ => None end).
Proof.
  unfold mutate_pod. intros Hm.
  apply M_bind_Ok_iff in Hm as (body & w1 & _ & Hm). apply M_bind_Ok_iff in Hm as (spec0 & w2 & _ & Hm).
  apply M_bind_Ok_iff in Hm as (ns & w3 & _ & Hm). destruct (negb _).
  { apply M_ret_Ok_iff in Hm as [[= -> ->] _]. by left. }
  apply M_bind_Ok_iff in Hm as (metadata & w4 & Hmeta & Hm). apply lift_Ok_iff in Hmeta as [Hmeta _].
  apply M_bind_Ok_iff in Hm as (app & w5 & _ & Hm). apply M_bind_Ok_iff in Hm as (wss & w6 & _ & Hm).
  apply M_bind_Ok_iff in Hm as (rss & w7 & _ & Hm). apply M_bind_Ok_iff in Hm as (annotations & w8 & Hann & Hm).
  apply lift_Ok_iff in Hann as [Hann _]. apply M_bind_Ok_iff in Hm as (metadata' & w9 & Hmeta' & Hm).
  apply lift_Ok_iff in Hmeta' as [Hmeta' _]. apply M_bind_Ok_iff in Hm as (spec1 & w10 & Hspec & Hm).
  apply lift_Ok_iff in Hspec as [Hspec _]. apply M_ret_Ok_iff in Hm as [[= -> ->] _].
  right. exists metadata, metadata'. split; [done|]. unfold jset in Hspec.
  destruct spec as [| | | | |o]; try discriminate Hspec. injection Hspec as <-.
  split; [cbn; unfold dgetitem; by rewrite dget_dset_eq|].
  split; [intros k Hk; cbn; unfold dgetitem; by rewrite dget_dset_ne|].
  split; [intros k; by apply (annotate_other _ _ _ _ Hmeta')|].
  destruct annotations as [|kv annotations].
  - left. unfold annotate in Hmeta'. apply bind_Ok_iff in Hmeta' as (? & _ & [= <-]). done.
  - right. apply annotate_merges in Hmeta' as (old & new & Hold & Hnew & Hk);
      [|done|by apply (make_annotations_wf _ _ _ _ Hann)].
    exists old, new. split; [done|]. split; [done|]. intros k Hkey. rewrite Hk.
    replace (dget (kv :: annotations) k) with (@None json); [done|]. symmetry. apply dget_None.
    intros Hin. by apply Hkey, (make_annotations_keys _ _ _ _ _ Hann).
Qed.
End service_spec.

(** ** A pod with annotations of its own *)
Definition example_admission_http (url : string) : response :=
  mkResponse true (Ok (example_rows
    (if query_is "wss" url then [example_row "app" "a" "2.0"]
     else [example_row "app" "a" "8.0"; example_row "app" "b" "1.0"]))).
#[local] Instance example_admission_requests : Requests bool := {
  requests_get _ url := mret (example_admission_http url);
  requests_delete _ url := mret (example_admission_http url)
}.
#[local] Instance example_admission_repr : PyFloatRepr :=
  λ f, if feqb f (float_of_ratio 2 1) then "2.0" else "8.0".
Definition example_request_json (app namespace : string) (annotations : list (string * json)) : json :=
  jobj1 "request" (JObj [("namespace", JStr namespace);
    ("object", JObj [("metadata", JObj [("labels", jobj1 "app" (JStr app)); ("annotations", JObj annotations)])])]).
Definition example_annotating (threshold : option float) : AnnotatingService :=
  make_service (mkPrometheus "http://prom" 9090 false None) threshold None.
Definition annotations_of (r : result (json * json)) : result json :=
  pods ← r; metadata ← jitem pods.2 "metadata"; jitem metadata "annotations".

Example annotated_pods :
  let run threshold app namespace :=
    annotations_of (mutate_pod (example_annotating threshold)
      (example_request_json app namespace [("owner", JStr "me")]) false).1 in
  run None "a" "default" =
    Ok (JObj [("owner", JStr "me"); (TOPTIER_KEY, JStr "2.0G"); (MEMORY_TYPE_KEY, JStr "dram,pmem")]) ∧
  run (Some (float_of_ratio 20 1)) "a" "default" =
    Ok (JObj [("owner", JStr "me"); (TOPTIER_KEY, JStr "2.0G"); (MEMORY_TYPE_KEY, JStr "dram")]) ∧
  run None "b" "default" = Ok (JObj [("owner", JStr "me")]) ∧
  run None "a" "other" = Ok (JObj [("owner", JStr "me")]).
Proof. vm_compute. done. Qed.

Definition example_mutated_pod : json * json :=
  result_get (JNull, JNull) (mutate_pod (example_annotating None)
    (example_request_json "a" "default" [("owner", JStr "me")]) false).1.

Lemma mutate_only_annotates_witness :
  example_mutated_pod.2 ≠ example_mutated_pod.1 ∧
  (example_mutated_pod.2 = example_mutated_pod.1 ∨
   ∃ metadata metadata', jitem example_mutated_pod.1 "metadata" = Ok metadata ∧
    jitem example_mutated_pod.2 "metadata" = Ok metadata' ∧
    (∀ k, k ≠ "metadata" → jitem example_mutated_pod.2 k = jitem example_mutated_pod.1 k) ∧
    (∀ k, k ≠ "annotations" → jitem metadata' k = jitem metadata k) ∧
    (metadata' = metadata ∨
     ∃ old new, jget metadata "annotations" JNull = Ok old ∧
       jitem metadata' "annotations" = Ok (JObj new) ∧
       ∀ k, ¬ annotation_key k → dget new k = match old with JObj o => dget o k | _ => None end)).
Proof.
  split; [vm_compute; discriminate|].
  apply (mutate_only_annotates (example_annotating None)
           (example_request_json "a" "default" [("owner", JStr "me")]) false
           example_mutated_pod.1 example_mutated_pod.2 false).
  vm_compute. reflexivity.
Defined.
