(* ===== verification/Base64.v ===== *)
(** * Base64 of the standard library

    [base64.b64encode] and [base64.b64decode] of Python, used by
    [src/wca/databases.py]: bytes are strings of 8-bit characters.  Decoding is the
    loop of [binascii.a2b_base64] of Python 3.6, which skips characters outside the
    alphabet and stops at the padding. *)
From S2P Require Export PyStr.

Definition b64_alphabet : string :=
  "ABCDEFGHIJKLMNOPQRSTUVWXYZabcdefghijklmnopqrstuvwxyz0123456789+/".
Definition b64_pad : ascii := "=".

Definition byte_val (c : ascii) : Z := Z.of_N (N_of_ascii c).
Definition byte_of (z : Z) : ascii := ascii_of_N (Z.to_N z).

(** The character of a group of six bits, and back. *)
Definition b64_char (i : Z) : ascii := default b64_pad (String.get (Z.to_nat i) b64_alphabet).
Definition b64_val (c : ascii) : option Z := Z.of_nat <$> find_char c b64_alphabet.

(** [base64.b64encode] *)
Fixpoint b64encode (s : string) : string :=
  match s with
  | "" => ""
  | String a "" =>
      let a := byte_val a in
      String (b64_char (a / 4)) (String (b64_char (a mod 4 * 16)) (String b64_pad (String b64_pad "")))
  | String a (String b "") =>
      let a := byte_val a in let b := byte_val b in
      String (b64_char (a / 4)) (String (b64_char (a mod 4 * 16 + b / 16))
        (String (b64_char (b mod 16 * 4)) (String b64_pad "")))
  | String a (String b (String c s)) =>
      let a := byte_val a in let b := byte_val b in let c := byte_val c in
      String (b64_char (a / 4)) (String (b64_char (a mod 4 * 16 + b / 16))
        (String (b64_char (b mod 16 * 4 + c / 64)) (String (b64_char (c mod 64)) (b64encode s))))
  end%string.

Definition BinasciiError : exn := OtherException "binascii.Error".

(** The next character that is not skipped. *)
Fixpoint next_valid (s : string) : option ascii :=
  match s with
  | "" => None
  | String c s => if ascii_eqb c b64_pad || match b64_val c with Some _ => true | None => false end
                  then Some c else next_valid s
  end%string.

(** The loop of [a2b_base64]: the position in the group of four, and the bits that are
    left over with their number. *)
Fixpoint b64_loop (s : string) (quad_pos leftchar leftbits : Z) : result string :=
  match s with
  | EmptyString => if leftbits =? 0 then Ok EmptyString else Raise BinasciiError
  | String c s =>
      if ascii_eqb c b64_pad then
        if (quad_pos <? 2) ||
           ((quad_pos =? 2) && negb (bool_decide (next_valid s = Some b64_pad)))
        then b64_loop s quad_pos leftchar leftbits
        else Ok EmptyString
      else
        match b64_val c with
        | None => b64_loop s quad_pos leftchar leftbits
        | Some v =>
            let quad_pos := (quad_pos + 1) mod 4 in
            let leftchar := leftchar * 64 + v in
            let leftbits := leftbits + 6 in
            if 8 <=? leftbits then
              let leftbits := leftbits - 8 in
              rest ← b64_loop s quad_pos (leftchar mod 2 ^ leftbits) leftbits;
              Ok (String (byte_of (leftchar / 2 ^ leftbits mod 256)) rest)
            else b64_loop s quad_pos leftchar leftbits
        end
  end.

(** [base64.b64decode] *)
Definition b64decode (s : string) : result string := b64_loop s 0 0 0.

(** ** Round trip *)

Lemma byte_val_bound c : 0 <= byte_val c < 256.
Proof. unfold byte_val. pose proof (N_ascii_bounded c). lia. Qed.

Lemma byte_of_val c z : z = byte_val c → byte_of z = c.
Proof. intros ->. unfold byte_of, byte_val. rewrite N2Z.id. apply ascii_N_embedding. Qed.

Definition b64_index_ok (i : Z) : bool :=
  bool_decide (b64_val (b64_char i) = Some i) && negb (ascii_eqb (b64_char i) b64_pad).

Lemma b64_index i : 0 <= i < 64 → b64_index_ok i = true.
Proof.
  intros Hi. assert (Hall : forallb (λ n, b64_index_ok (Z.of_nat n)) (seq 0 64) = true)
    by (vm_compute; reflexivity).
  rewrite forallb_forall in Hall. rewrite <-(Z2Nat.id i) by lia. apply Hall, in_seq. lia.
Qed.

Lemma b64_step i s q lc lb :
  0 <= i < 64 →
  b64_loop (String (b64_char i) s) q lc lb =
  if 8 <=? lb + 6 then
    rest ← b64_loop s ((q + 1) mod 4) ((lc * 64 + i) mod 2 ^ (lb + 6 - 8)) (lb + 6 - 8);
    Ok (String (byte_of ((lc * 64 + i) / 2 ^ (lb + 6 - 8) mod 256)) rest)
  else b64_loop s ((q + 1) mod 4) (lc * 64 + i) (lb + 6).
Proof.
  intros Hi. pose proof (b64_index i Hi) as Hok. unfold b64_index_ok in Hok.
  apply andb_true_iff in Hok as [Hv Hp]. apply bool_decide_eq_true in Hv. apply negb_true_iff in Hp.
  cbn [b64_loop]. by rewrite Hp, Hv.
Qed.

Ltac b64_arith := unfold byte_val in *; Z.div_mod_to_equations; lia.

(** The first two characters of a group give its first byte. *)
Lemma b64_first a x s :
  0 <= x < 16 →
  b64_loop (String (b64_char (byte_val a / 4)) (String (b64_char (byte_val a mod 4 * 16 + x)) s)) 0 0 0 =
  (rest ← b64_loop s 2 x 4; Ok (String a rest)).
Proof.
  intros Hx. pose proof (byte_val_bound a). rewrite !b64_step by b64_arith. cbn [Z.leb Z.compare].
  change (0 + 6) with 6. change (8 <=? 6) with false. cbv iota.
  change (6 + 6) with 12. change (8 <=? 12) with true. cbv iota.
  change ((0 + 1) mod 4) with 1. change ((1 + 1) mod 4) with 2. change (12 - 8) with 4. change (2 ^ 4) with 16.
  replace (((0 * 64 + byte_val a / 4) * 64 + (byte_val a mod 4 * 16 + x)) mod 16) with x by b64_arith.
  rewrite (byte_of_val a); [done|]. b64_arith.
Qed.

(** The third gives the second byte, and the fourth the third. *)
Lemma b64_second b y s :
  0 <= y < 4 →
  b64_loop (String (b64_char (byte_val b mod 16 * 4 + y)) s) 2 (byte_val b / 16) 4 =
  (rest ← b64_loop s 3 y 2; Ok (String b rest)).
Proof.
  intros Hy. pose proof (byte_val_bound b). rewrite b64_step by b64_arith.
  change (4 + 6) with 10. change (8 <=? 10) with true. cbv iota.
  change ((2 + 1) mod 4) with 3. change (10 - 8) with 2. change (2 ^ 2) with 4.
  replace ((byte_val b / 16 * 64 + (byte_val b mod 16 * 4 + y)) mod 4) with y by b64_arith.
  rewrite (byte_of_val b); [done|]. b64_arith.
Qed.

Lemma b64_third c s :
  b64_loop (String (b64_char (byte_val c mod 64)) s) 3 (byte_val c / 64) 2 =
  (rest ← b64_loop s 0 0 0; Ok (String c rest)).
Proof.
  pose proof (byte_val_bound c). rewrite b64_step by b64_arith.
  change (2 + 6) with 8. change (8 <=? 8) with true. cbv iota.
  change ((3 + 1) mod 4) with 0. change (8 - 8) with 0. change (2 ^ 0) with 1. rewrite Z.mod_1_r.
  rewrite (byte_of_val c); [done|]. b64_arith.
Qed.

Lemma b64decode_encode s : b64decode (b64encode s) = Ok s.
Proof.
  unfold b64decode. revert s. fix IH 1. intros [|a [|b [|c s]]]; cbn [b64encode].
  - done.
  - rewrite <-(Z.add_0_r (byte_val a mod 4 * 16)), b64_first by lia. vm_compute. done.
  - pose proof (byte_val_bound b). rewrite b64_first by b64_arith.
    rewrite <-(Z.add_0_r (byte_val b mod 16 * 4)), b64_second by lia. vm_compute. done.
  - pose proof (byte_val_bound b). pose proof (byte_val_bound c).
    rewrite b64_first, b64_second, b64_third by b64_arith. by rewrite IH.
Qed.

Example b64_examples :
  b64encode "sample" = "c2FtcGxl" ∧ b64encode "a" = "YQ==" ∧ b64decode "Y Q = =" = Ok "a" ∧
  b64decode "YQ" = Raise BinasciiError ∧ b64decode "YWI=rest" = Ok "ab".
Proof. vm_compute. done. Qed.
