(* ===== verification/Databases.v ===== *)
(** * Databases and security

    [src/wca/databases.py]: keys and values kept in files, in Zookeeper or in etcd,
    with the interface they share; and the configuration of certificates and the
    effective root user of [src/wca/security.py].  The Zookeeper client and the
    requests to etcd are parameters.  Bytes are strings of 8-bit characters. *)
From S2P Require Export Base64 FileSys Config Json.

(** ** Certificates *)

(** src/wca/security.py:168-181 [SSL]
    The server is verified by default, by no authority, or by a file. *)
Inductive server_verify_t := VerifyBool (b : bool) | VerifyPath (path : string).
Record SSL := mkSSL {
  server_verify : server_verify_t; client_cert_path : option string; client_key_path : option string
}.

Definition given (path : option string) : bool :=
  match path with Some p => negb (String.eqb p "") | None => false end.

(** src/wca/security.py:183-187 [SSL.__post_init__] *)
Definition ssl_post_init (self : SSL) : result unit :=
  if given (client_key_path self) && negb (given (client_cert_path self)) then Raise ValidationError else Ok tt.

(** What a request is given: one file or a pair of them. *)
Inductive client_certs := NoCerts | OneFile (path : string) | CertAndKey (cert key : string).

(** src/wca/security.py:189-197 [SSL.get_client_certs] *)
Definition get_client_certs (self : SSL) : client_certs :=
  match client_cert_path self, client_key_path self with
  | Some cert, Some key =>
      if given (Some cert) && given (Some key) then CertAndKey cert key else OneFile cert
  | Some cert, None => OneFile cert
  | None, _ => NoCerts
  end.

(** ** The effective user *)

(** The system calls. *)
Class EffectiveUser (W : Type) : Type := {
  sys_get_euid : W → Z;
  sys_set_euid : Z → M W unit
}.

(** src/wca/security.py:153-157 [SetEffectiveRootUid.__enter__] *)
Definition enter_root {W} `{EffectiveUser W} : M W Z := λ w,
  let uid := sys_get_euid w in
  if uid =? 0 then (Ok uid, w)
  else match sys_set_euid 0 w with
       | (Ok _, w1) => (Ok uid, w1)
       | (Raise e, w1) => (Raise e, w1)
       end.

(** src/wca/security.py:159-165 [SetEffectiveRootUid.__exit__] *)
Definition exit_root {W} `{EffectiveUser W} (uid : Z) : M W unit :=
  if uid =? 0 then mret tt else sys_set_euid uid.

(** [with SetEffectiveRootUid(): m] *)
Definition with_root {W A} `{EffectiveUser W} (m : M W A) : M W A :=
  uid ← enter_root; try_finally m (exit_root uid).

(** ** Keys *)

Definition InvalidKey : exn := OtherException "InvalidKey".
Definition TimeoutOnAllHosts : exn := OtherException "TimeoutOnAllHosts".

(** src/wca/databases.py:55-55 [_VALID_FILENAME_CHARACTERS] *)
Definition VALID_FILENAME_CHARACTERS : string :=
  "-_.abcdefghijklmnopqrstuvwxyzABCDEFGHIJKLMNOPQRSTUVWXYZ0123456789".

(** src/wca/databases.py:58-66 [_validate_key] *)
Definition validate_key (key : string) : result unit :=
  if negb ((0 <? py_len key) && (py_len key <=? 255)) then Raise InvalidKey
  else if str_forallb (λ c, has_char c VALID_FILENAME_CHARACTERS) key then Ok tt else Raise InvalidKey.

(** ** The interface *)

(** src/wca/databases.py:40-52 [Database] *)
Class Database (W : Type) : Type := {
  db_set : string → string → M W unit;
  db_get : string → M W (option string)
}.

(** What a database promises to its users: it is a map from keys to values.  A
    successful [db_set] changes one key of the map, an answered [db_get] reads it and
    changes nothing, and a key that is not valid is refused.  An empty value may be
    read as a missing one: etcd leaves it out of its answers. *)
Class DatabaseSpec (W : Type) `{Database W} : Type := {
  db_contents : W → string → option string;
  set_refines key value w w' :
    db_set key value w = (Ok tt, w') →
    ∀ k, validate_key k = Ok tt →
      db_contents w' k = if decide (k = key) then Some value else db_contents w k;
  get_refines key w r w' :
    db_get key w = (Ok r, w') →
    (r = db_contents w key ∨ db_contents w key = Some EmptyString ∧ r = None) ∧
    ∀ k, db_contents w' k = db_contents w k;
  invalid_refused key value w :
    validate_key key ≠ Ok tt → db_set key value w = (Raise InvalidKey, w) ∧ db_get key w = (Raise InvalidKey, w)
}.

(** ** Files *)
Section local.
  Context {W : Type} `{FileSystem W} (directory : string).

(** src/wca/databases.py:79-80 [LocalDatabase.__post_init__] *)
Definition local_init : M W unit := fs_makedirs directory.

(** src/wca/databases.py:82-91 [LocalDatabase.set] *)
Definition local_set (key value : string) : M W unit :=
  _ ← lift (validate_key key);
  fs_write (path_join directory key) value.

(** src/wca/databases.py:93-104 [LocalDatabase.get] *)
Definition local_get (key : string) : M W (option string) :=
  _ ← lift (validate_key key);
  let full_path := path_join directory key in
  exists_ ← (λ w, (Ok (fs_exists full_path w), w)) : M W bool;
  if exists_ : bool then data ← read_file full_path; mret (Some data) else mret None.

(** src/wca/databases.py:73-77 [LocalDatabase] *)
Definition LocalDatabase : Database W := {| db_set := local_set; db_get := local_get |}.
End local.

(** ** Zookeeper *)

Definition NoNodeError : exn := OtherException "NoNodeError".

(** The client of kazoo. *)
Class KazooClient (W : Type) : Type := {
  zk_ensure_path : string → M W unit;
  zk_set : string → string → M W unit;
  zk_get : string → M W string
}.

Section zookeeper.
  Context {W : Type} `{KazooClient W} (namespace : string).

(** src/wca/databases.py:150-160 [ZookeeperDatabase.set] *)
Definition zookeeper_set (key value : string) : M W unit :=
  _ ← lift (validate_key key);
  let full_path := path_join namespace key in
  _ ← zk_ensure_path full_path;
  zk_set full_path value.

(** src/wca/databases.py:162-174 [ZookeeperDatabase.get] *)
Definition zookeeper_get (key : string) : M W (option string) :=
  _ ← lift (validate_key key);
  let full_path := path_join namespace key in
  try_except (data ← zk_get full_path; mret (Some data))
    (λ e, if bool_decide (e = NoNodeError) then Some (mret None) else None).

(** src/wca/databases.py:107-113 [ZookeeperDatabase] *)
Definition ZookeeperDatabase : Database W := {| db_set := zookeeper_set; db_get := zookeeper_get |}.
End zookeeper.

(** ** etcd *)

(** [requests.exceptions.Timeout] *)
Definition Timeout : exn := OtherException "Timeout".

(** The address, the data and, with certificates, what verifies them; the JSON of a
    response without an error status. *)
Class EtcdRequests (W : Type) : Type :=
  etcd_post : option SSL → string → dict string string → M W json.

(** src/wca/databases.py:186-189 [EtcdDatabase] *)
Record Etcd := mkEtcd { e_hosts : list string; e_api_path : string; e_ssl : option SSL }.

Section etcd.
  Context {W : Type} `{EtcdRequests W} (self : Etcd).

(** src/wca/databases.py:191-219 [EtcdDatabase._send] *)
Fixpoint send_to (hosts : list string) (url : string) (data : dict string string) : M W json :=
  match hosts with
  | [] => mret JNull
  | host :: hosts =>
      response ← try_except
        (r ← etcd_post (e_ssl self) (host +:+ e_api_path self +:+ url) data; mret (Some r))
        (λ e, if bool_decide (e = Timeout) then Some (mret None) else None);
      match response with
      | Some r => mret r
      | None => send_to hosts url data
      end
  end.
Definition etcd_send : string → dict string string → M W json := send_to (e_hosts self).

(** src/wca/databases.py:221-227 [EtcdDatabase._format_data] *)
Definition format_data (data : dict string string) : dict string string := dmap b64encode data.

(** src/wca/databases.py:229-243 [EtcdDatabase.set] *)
Definition etcd_set (key value : string) : M W unit :=
  _ ← lift (validate_key key);
  response_data ← etcd_send "/kv/put" (format_data [("key", key); ("value", value)]);
  if negb (jtrue response_data) then raise TimeoutOnAllHosts else mret tt.

(** src/wca/databases.py:260-263 [EtcdDatabase.get], the value of the response *)
Definition etcd_value (response_data : json) : result (option string) :=
  has ← jmem response_data "kvs";
  if has : bool then
    kvs ← jitem response_data "kvs"; kv ← jnth kvs 0; has ← jmem kv "value";
    if has : bool then v ← jitem kv "value"; text ← jstr v; Some <$> b64decode text else Ok None
  else Ok None.

(** src/wca/databases.py:245-263 [EtcdDatabase.get] *)
Definition etcd_get (key : string) : M W (option string) :=
  _ ← lift (validate_key key);
  response_data ← etcd_send "/kv/range" (format_data [("key", key)]);
  if negb (jtrue response_data) then raise TimeoutOnAllHosts else lift (etcd_value response_data).

(** src/wca/databases.py:177-189 [EtcdDatabase] *)
Definition EtcdDatabase : Database W := {| db_set := etcd_set; db_get := etcd_get |}.
End etcd.

(** ** Properties of the keys *)

Lemma validate_key_cases key : validate_key key = Ok tt ∨ validate_key key = Raise InvalidKey.
Proof. unfold validate_key. destruct (negb _); [by right|]. destruct (str_forallb _ _); [by left|by right]. Qed.

Lemma lift_invalid {W A} key (f : unit → M W A) (w : W) :
  validate_key key ≠ Ok tt → (lift (validate_key key) ≫= f) w = (Raise InvalidKey, w).
Proof. intros Hk. unfold mbind, M_bind, lift. by destruct (validate_key_cases key) as [| ->]. Qed.

(** A valid key is one component of a path: it has no slash and is not empty. *)
Lemma valid_key_no_slash key : validate_key key = Ok tt → no_char "/" key = true.
Proof.
  unfold validate_key. destruct (negb _); [done|]. destruct (str_forallb _ _) eqn:E; [|done]. intros _.
  unfold no_char. revert E. apply str_forallb_impl. intros c Hc. apply negb_true_iff.
  destruct (ascii_eqb c "/") eqn:Ec; [|done]. apply ascii_eqb_eq in Ec as ->. vm_compute in Hc. discriminate.
Qed.

Lemma no_slash_relative key : no_char "/" key = true → startswith "/" key = false.
Proof.
  destruct key as [|c key]; [done|]. intros Hk. destruct (startswith "/" (String c key)) eqn:E; [|done].
  apply startswith_spec in E as [r [= -> _]]. discriminate Hk.
Qed.

(** The path of a key, with what stands before it. *)
Lemma path_join_key a key :
  no_char "/" key = true → path_join a key = path_join a "" +:+ key.
Proof.
  intros Hk. unfold path_join. rewrite (no_slash_relative key Hk). cbn [startswith].
  destruct (String.eqb a "" || endswith "/" a); [by rewrite str_app_nil_r|].
  by rewrite !str_app_assoc.
Qed.

Lemma str_app_inj s k k' : s +:+ k = s +:+ k' → k = k'.
Proof. induction s as [|c s IH]; cbn; [done|]. intros [= H]. by apply IH. Qed.

Lemma path_join_inj a k k' :
  no_char "/" k = true → no_char "/" k' = true → path_join a k = path_join a k' → k = k'.
Proof. intros H1 H2. rewrite (path_join_key a k), (path_join_key a k') by done. apply str_app_inj. Qed.

(** ** Files keep the promises *)

(** A file exists once it is written, and writing it makes no other appear. *)
Class RegularFiles (F : Type) `{FileSystem F} : Prop := {
  exists_after_write path data fs fs' :
    fs_write path data fs = (Ok tt, fs') → fs_exists path fs' = true;
  exists_other path path' data fs fs' :
    fs_write path data fs = (Ok tt, fs') → path ≠ path' → fs_exists path' fs' = fs_exists path' fs
}.

Section local_laws.
  Context {W : Type} `{FileSystem W} `{!ControlFiles W} `{!RegularFiles W} (directory : string).

Lemma local_set_Ok key value w w' :
  local_set directory key value w = (Ok tt, w') →
  no_char "/" key = true ∧ validate_key key = Ok tt ∧ fs_write (path_join directory key) value w = (Ok tt, w').
Proof.
  unfold local_set. intros ([] & w1 & Hk & Hw)%M_bind_Ok_iff. apply lift_Ok_iff in Hk as [Hk ->].
  split; [by apply valid_key_no_slash|done].
Qed.

(** What a successful or failing look-up depends on. *)
Lemma local_get_run key w :
  validate_key key = Ok tt →
  local_get directory key w =
  (if fs_exists (path_join directory key) w then Some <$> fs_read (path_join directory key) w else Ok None, w).
Proof.
  intros Hk. unfold local_get, mbind, M_bind, lift. rewrite Hk. unfold read_file.
  destruct (fs_exists _ w); [|done]. by destruct (fs_read _ w).
Qed.

(** A value that was set is got back, the empty one too. *)
Lemma local_get_after_set key value w w' :
  local_set directory key value w = (Ok tt, w') → local_get directory key w' = (Ok (Some value), w').
Proof.
  intros (_ & Hk & Hw)%local_set_Ok. rewrite local_get_run by done.
  rewrite (exists_after_write _ _ _ _ Hw), (read_after_write _ _ _ _ Hw). done.
Qed.

(** The map of the directory. *)
Definition local_contents (w : W) (key : string) : option string :=
  if fs_exists (path_join directory key) w then
    match fs_read (path_join directory key) w with Ok data => Some data | Raise _ => None end
  else None.

#[export] Instance local_spec : @DatabaseSpec W (LocalDatabase directory).
Proof.
  refine {| db_contents := local_contents |}; cbn.
  - intros key value w w' (Hslash & Hk & Hw)%local_set_Ok k Hk'. unfold local_contents.
    destruct (decide (k = key)) as [->|Hne].
    { by rewrite (exists_after_write _ _ _ _ Hw), (read_after_write _ _ _ _ Hw). }
    assert (Hpath : path_join directory key ≠ path_join directory k).
    { intros Heq. apply path_join_inj in Heq; [done..|]. by apply valid_key_no_slash. }
    by rewrite (exists_other _ _ _ _ _ Hw Hpath), (read_other _ _ _ _ _ _ Hw Hpath).
  - intros key w r w' Hg. destruct (validate_key_cases key) as [Hk|Hk].
    2: { unfold local_get in Hg. by rewrite lift_invalid in Hg by (by rewrite Hk). }
    rewrite local_get_run in Hg by done. injection Hg as Hr <-. split; [left|done].
    unfold local_contents. destruct (fs_exists _ w); [|congruence].
    destruct (fs_read _ w); cbn in Hr; congruence.
  - intros key value w Hk. split; by apply lift_invalid.
Defined.
End local_laws.

#[export] Instance memfs_regular : RegularFiles memfs.
Proof.
  split.
  - intros path data m m'. unfold fs_write, mbind, M_bind. simpl.
    destruct (mem_files m !! path); simpl; [|done].
    rewrite lookup_insert_eq. simpl. intros [= <-]. simpl. by rewrite lookup_insert_eq, orb_true_r.
  - intros path path' data m m'. unfold fs_write, mbind, M_bind. simpl.
    destruct (mem_files m !! path); simpl; [|done].
    rewrite lookup_insert_eq. simpl. intros [= <-] Hne. simpl. by rewrite !lookup_insert_ne.
Qed.

(** ** etcd keeps the promises *)

(** The store of the server, by encoded keys. *)
Class EtcdStore (W : Type) : Type := etcd_store : W → gmap string string.

(** What the documentation of the gateway says: a put that is answered has stored the
    pair, one that has timed out may have; a range gives the pair of the key, without
    an empty value. *)
Class EtcdServer (W : Type) `{EtcdRequests W} `{EtcdStore W} (self : Etcd) : Prop := {
  put_answer host key value w out w' :
    host ∈ e_hosts self →
    etcd_post (e_ssl self) (host +:+ e_api_path self +:+ "/kv/put") [("key", key); ("value", value)] w = (out, w') →
    etcd_store w' = <[key := value]> (etcd_store w) ∨ is_Ok out = false ∧ etcd_store w' = etcd_store w;
  range_answer host key w out w' :
    host ∈ e_hosts self →
    etcd_post (e_ssl self) (host +:+ e_api_path self +:+ "/kv/range") [("key", key)] w = (out, w') →
    etcd_store w' = etcd_store w ∧
    ∀ r, out = Ok r → ∃ o, r = JObj o ∧
      match etcd_store w !! key with
      | None => dget o "kvs" = None
      | Some v => ∃ kv more, dget o "kvs" = Some (JList (JObj kv :: more)) ∧
                    dget kv "value" = if decide (v = EmptyString) then None else Some (JStr v)
      end
}.

Section etcd_laws.
  Context {W : Type} `{EtcdRequests W} `{EtcdStore W} (self : Etcd) `{!EtcdServer W self}.

(** One attempt, and the hosts after it. *)
Lemma send_to_cons host hosts url data w r w' :
  send_to self (host :: hosts) url data w = (Ok r, w') →
  (etcd_post (e_ssl self) (host +:+ e_api_path self +:+ url) data w = (Ok r, w')) ∨
  ∃ w1, etcd_post (e_ssl self) (host +:+ e_api_path self +:+ url) data w = (Raise Timeout, w1) ∧
        send_to self hosts url data w1 = (Ok r, w').
Proof.
  cbn [send_to]. unfold try_except, mbind, M_bind.
  destruct (etcd_post _ _ data w) as [[r1|e] w1] eqn:E; cbn.
  - intros [= -> ->]. by left.
  - case_bool_decide as He; cbn; [|done]. subst e. right. by exists w1.
Qed.

Lemma send_put hosts key value w r w' :
  (∀ h, h ∈ hosts → h ∈ e_hosts self) →
  send_to self hosts "/kv/put" [("key", key); ("value", value)] w = (Ok r, w') → jtrue r = true →
  etcd_store w' = <[key := value]> (etcd_store w).
Proof.
  revert w. induction hosts as [|host hosts IH]; intros w Hin Hs Hr.
  { apply M_ret_Ok_iff in Hs as [<- _]. discriminate Hr. }
  apply send_to_cons in Hs as [Hp|(w1 & Hp & Hs)]; apply put_answer in Hp; [|set_solver|..|set_solver].
  - by destruct Hp as [|[? _]].
  - apply IH in Hs; [|set_solver|done]. rewrite Hs.
    destruct Hp as [->|[_ ->]]; [by rewrite insert_insert_eq|done].
Qed.

Lemma send_range hosts key w r w' :
  (∀ h, h ∈ hosts → h ∈ e_hosts self) →
  send_to self hosts "/kv/range" [("key", key)] w = (Ok r, w') →
  etcd_store w' = etcd_store w ∧
  (jtrue r = true → etcd_value r =
     match etcd_store w !! key with
     | None => Ok None
     | Some v => if decide (v = EmptyString) then Ok None else Some <$> b64decode v
     end).
Proof.
  revert w. induction hosts as [|host hosts IH]; intros w Hin Hs.
  { by apply M_ret_Ok_iff in Hs as [<- ->]. }
  apply send_to_cons in Hs as [Hp|(w1 & Hp & Hs)]; apply range_answer in Hp as [Hst Hr]; [|set_solver|..|set_solver].
  - split; [done|]. intros _. destruct (Hr r eq_refl) as (o & -> & Ho). unfold etcd_value, jmem, dmem, jitem, dgetitem.
    destruct (etcd_store w !! key) as [v|]; [|by rewrite Ho].
    destruct Ho as (kv & more & -> & Hv). cbn. unfold dmem, dgetitem. rewrite Hv.
    by destruct (decide (v = EmptyString)).
  - apply IH in Hs as [Hs1 Hs2]; [|set_solver]. by rewrite Hs1, Hst in *.
Qed.

Lemma b64encode_inj s1 s2 : b64encode s1 = b64encode s2 → s1 = s2.
Proof. intros Heq. pose proof (b64decode_encode s1) as H1. rewrite Heq, b64decode_encode in H1. by injection H1. Qed.
Lemma b64encode_empty s : b64encode s = EmptyString ↔ s = EmptyString.
Proof. destruct s as [|a [|b [|c s]]]; naive_solver. Qed.

(** The map of the server. *)
Definition etcd_contents (w : W) (key : string) : option string :=
  match etcd_store w !! b64encode key with
  | Some v => match b64decode v with Ok data => Some data | Raise _ => None end
  | None => None
  end.

#[export] Instance etcd_spec : @DatabaseSpec W (EtcdDatabase self).
Proof.
  refine {| db_contents := etcd_contents |}; cbn.
  - intros key value w w' Hs k _. unfold etcd_set in Hs.
    apply M_bind_Ok_iff in Hs as ([] & w1 & Hk & Hs). apply lift_Ok_iff in Hk as [Hk ->].
    apply M_bind_Ok_iff in Hs as (r & w2 & Hsend & Hs).
    destruct (jtrue r) eqn:Hr; [|discriminate Hs]. apply M_ret_Ok_iff in Hs as [_ ->].
    apply send_put in Hsend; [|done|done]. unfold etcd_contents. rewrite Hsend.
    destruct (decide (k = key)) as [->|Hne].
    { by rewrite lookup_insert_eq, b64decode_encode. }
    by rewrite lookup_insert_ne by (intros Heq; by apply Hne, eq_sym, b64encode_inj).
  - intros key w r w' Hg. unfold etcd_get in Hg.
    apply M_bind_Ok_iff in Hg as ([] & w1 & Hk & Hg). apply lift_Ok_iff in Hk as [Hk ->].
    apply M_bind_Ok_iff in Hg as (resp & w2 & Hsend & Hg). apply (send_range (e_hosts self) (b64encode key)) in Hsend as [Hst Hv]; [|done].
    destruct (jtrue resp) eqn:Hr; [|discriminate Hg]. cbn in Hg. apply lift_Ok_iff in Hg as [Hg ->].
    rewrite Hv in Hg by done. split; [|intros k; unfold etcd_contents; by rewrite Hst].
    unfold etcd_contents. revert Hg. destruct (etcd_store w !! b64encode key) as [v|]; [|intros Hg; left; congruence].
    destruct (decide (v = EmptyString)) as [->|]; intros Hg; [right; split; [done|congruence]|left].
    destruct (b64decode v); cbn in Hg; congruence.
  - intros key value w Hk. split; by apply lift_invalid.
Defined.
End etcd_laws.

(** The answer of [_send] is the one of the first host that does not time out. *)
Lemma send_first_answer {W} `{EtcdRequests W} self dead host alive url data w w1 r w' :
  (∀ h v, h ∈ dead → etcd_post (e_ssl self) (h +:+ e_api_path self +:+ url) data v = (Raise Timeout, v)) →
  w1 = w → etcd_post (e_ssl self) (host +:+ e_api_path self +:+ url) data w1 = (Ok r, w') →
  send_to self (dead ++ host :: alive) url data w = (Ok r, w').
Proof.
  intros Hdead -> Hp. induction dead as [|h dead IH]; cbn [app send_to]; unfold try_except, mbind, M_bind.
  - by rewrite Hp.
  - rewrite (Hdead h w) by set_solver. rewrite bool_decide_true by done. cbn. apply IH. set_solver.
Qed.

(** ** Users of a database, against the interface *)

Definition set_all {W} `{Database W} (l : list (string * string)) : M W unit :=
  forM_ l (λ kv, db_set kv.1 kv.2).

(** The value a list of assignments leaves for a key. *)
Definition last_value (key : string) (l : list (string * string)) (old : option string) : option string :=
  foldl (λ v kv, if decide (key = kv.1) then Some kv.2 else v) old l.

Section users.
  Context {W : Type} `{DatabaseSpec W}.

Lemma set_all_contents l w w' key :
  set_all l w = (Ok tt, w') → validate_key key = Ok tt →
  db_contents w' key = last_value key l (db_contents w key).
Proof.
  unfold set_all, last_value. revert w. induction l as [|[k v] l IH]; intros w Hs Hk.
  { by apply M_ret_Ok_iff in Hs as [_ ->]. }
  cbn [forM_] in Hs. apply M_bind_Ok_iff in Hs as ([] & w1 & H1 & Hs).
  rewrite (IH _ Hs Hk). cbn [foldl fst snd]. by rewrite (set_refines _ _ _ _ H1 _ Hk).
Qed.

(** Whatever was set before, a key answers the last value it was set to. *)
Lemma last_set_wins l key value w w1 r w2 :
  set_all l w = (Ok tt, w1) → last_value key l (db_contents w key) = Some value → value ≠ EmptyString →
  db_get key w1 = (Ok r, w2) → r = Some value.
Proof.
  intros Hs Hl Hv Hg. destruct (decide (validate_key key = Ok tt)) as [Hk|Hk].
  - apply (set_all_contents _ _ _ key) in Hs; [|done]. rewrite Hl in Hs.
    apply get_refines in Hg as [[->|[He _]] _]; [done|]. rewrite Hs in He. naive_solver.
  - destruct (invalid_refused key EmptyString w1 Hk) as [_ Hg']. rewrite Hg' in Hg. discriminate Hg.
Qed.
End users.

Lemma last_value_old key l old :
  last_value key l old = match last_value key l None with Some v => Some v | None => old end.
Proof.
  unfold last_value. induction l as [|[k v] l IH] using rev_ind; [done|].
  rewrite !foldl_app. cbn. destruct (decide (key = k)); [done|exact IH].
Qed.

(** What the server holds after a list of assignments. *)
Lemma etcd_set_store {W} `{EtcdRequests W} `{EtcdStore W} (self : Etcd) `{!EtcdServer W self} key value w w' :
  etcd_set self key value w = (Ok tt, w') →
  validate_key key = Ok tt ∧ etcd_store w' = <[b64encode key := b64encode value]> (etcd_store w).
Proof.
  intros Hs. unfold etcd_set in Hs.
  apply M_bind_Ok_iff in Hs as ([] & w1 & Hk & Hs). apply lift_Ok_iff in Hk as [Hk ->].
  apply M_bind_Ok_iff in Hs as (r & w2 & Hsend & Hs).
  destruct (jtrue r) eqn:Hr; [|discriminate Hs]. apply M_ret_Ok_iff in Hs as [_ ->].
  split; [done|]. by apply (send_put self) in Hsend.
Qed.

Lemma etcd_set_all_store {W} `{EtcdRequests W} `{EtcdStore W} (self : Etcd) `{!EtcdServer W self} l key w w' :
  @set_all W (EtcdDatabase self) l w = (Ok tt, w') →
  etcd_store w' !! b64encode key =
  match last_value key l None with
  | Some value => Some (b64encode value)
  | None => etcd_store w !! b64encode key
  end.
Proof.
  unfold set_all. revert w. induction l as [|[k v] l IH]; intros w Hs.
  { by apply M_ret_Ok_iff in Hs as [_ ->]. }
  cbn [forM_] in Hs. apply M_bind_Ok_iff in Hs as ([] & w1 & H1 & Hs).
  rewrite (IH _ Hs). unfold last_value. cbn [foldl fst snd]. fold (last_value key l).
  destruct (etcd_set_store self k v w w1 H1) as [_ ->].
  change (foldl _ ?o l) with (last_value key l o).
  destruct (decide (key = k)) as [->|Hne].
  - rewrite (last_value_old k l (Some v)). destruct (last_value k l None); [done|].
    by rewrite lookup_insert_eq.
  - destruct (last_value key l None); [done|].
    by rewrite lookup_insert_ne by (intros Heq; by apply Hne, eq_sym, b64encode_inj).
Qed.

Lemma etcd_get_empty {W} `{EtcdRequests W} `{EtcdStore W} (self : Etcd) `{!EtcdServer W self} key w r w' :
  etcd_store w !! b64encode key = Some EmptyString → etcd_get self key w = (Ok r, w') → r = None.
Proof.
  intros He Hg. unfold etcd_get in Hg.
  apply M_bind_Ok_iff in Hg as ([] & w1 & Hk & Hg). apply lift_Ok_iff in Hk as [_ ->].
  apply M_bind_Ok_iff in Hg as (resp & w2 & Hsend & Hg).
  apply (send_range self (e_hosts self) (b64encode key)) in Hsend as [_ Hv]; [|done].
  destruct (jtrue resp) eqn:Hr; [|discriminate Hg]. apply lift_Ok_iff in Hg as [Hg _].
  rewrite Hv, He in Hg by done. by injection Hg.
Qed.

(** C17 (refinement): on a cluster of etcd servers, some of which may time out, with or
    without having stored the pair, the answered look-up of a key gives the last value
    that was set for it, whatever bytes keys and values consist of; if this value is the
    empty text the answer is None, because etcd leaves an empty value out. *)
Theorem etcd_last_set_wins {W} `{EtcdRequests W} `{EtcdStore W} (self : Etcd) `{!EtcdServer W self}
    l key value w w1 r w2 :
  @set_all W (EtcdDatabase self) l w = (Ok tt, w1) →
  last_value key l None = Some value → etcd_get self key w1 = (Ok r, w2) →
  r = if decide (value = EmptyString) then None else Some value.
Proof.
  intros Hs Hl Hg. case_decide as Hv.
  - apply (etcd_set_all_store self l key) in Hs. rewrite Hl, Hv in Hs. by eapply etcd_get_empty.
  - apply (@last_set_wins W (EtcdDatabase self) _ _ key value _ _ _ _ Hs) in Hg; [done| |done].
    by rewrite last_value_old, Hl.
Qed.

(** ** The effective user *)

(** Setting the effective user sets it or fails and leaves it. *)
Class EffectiveUserLaws (W : Type) `{EffectiveUser W} : Prop := {
  set_euid_Ok uid w w' : sys_set_euid uid w = (Ok tt, w') → sys_get_euid w' = uid;
  set_euid_fails uid w e w' : sys_set_euid uid w = (Raise e, w') → sys_get_euid w' = sys_get_euid w
}.

(** The effective user is given back whatever happens inside, provided that what runs
    inside does not change it and that the user may be set back. *)
Lemma with_root_restores {W A} `{EffectiveUserLaws W} (m : M W A) w r w' :
  (∀ v, sys_get_euid (m v).2 = sys_get_euid v) →
  (∀ v, ∃ v', sys_set_euid (sys_get_euid w) v = (Ok tt, v')) →
  with_root m w = (r, w') → sys_get_euid w' = sys_get_euid w.
Proof.
  intros Hm Hback. unfold with_root, enter_root, exit_root, mbind, M_bind, try_finally.
  destruct (Z.eqb_spec (sys_get_euid w) 0) as [Hz|Hz].
  - specialize (Hm w). destruct (m w) as [r1 w1]. rewrite Hz. cbn in *. intros [= _ <-]. lia.
  - destruct (sys_set_euid 0 w) as [[[]|e] w1] eqn:E; [|intros [= _ <-]; by eapply set_euid_fails].
    destruct (m w1) as [r1 w2]. destruct (Hback w2) as [w3 Hw3].
    destruct (Z.eqb_spec (sys_get_euid w) 0); [done|]. rewrite Hw3. intros [= _ <-]. by eapply set_euid_Ok.
Qed.

(** A key without its certificate is refused; otherwise the pair is used only when
    both are given. *)
Lemma client_certs_pair self cert key :
  ssl_post_init self = Ok tt → get_client_certs self = CertAndKey cert key →
  client_cert_path self = Some cert ∧ client_key_path self = Some key ∧ cert ≠ "" ∧ key ≠ "".
Proof.
  unfold get_client_certs. intros _. destruct (client_cert_path self) as [c|], (client_key_path self) as [k|]; try done.
  destruct (given (Some c) && given (Some k)) eqn:E; [|done]. intros [= -> ->].
  apply andb_true_iff in E as [E1 E2]. cbn in E1, E2. to_prop. done.
Qed.

(** ** A cluster of which the first server never answers *)
#[local] Instance example_etcd_store : EtcdStore (gmap string string) := λ m, m.
#[local] Instance example_etcd_post : EtcdRequests (gmap string string) := λ _ url data m,
  if startswith "dead" url then (Raise Timeout, m)
  else match data with
       | [("key", k); ("value", v)] => (Ok (JObj [("header", JStr "h")]), <[k := v]> m)
       | [("key", k)] =>
           (Ok (JObj (("header", JStr "h") ::
              match m !! k with
              | Some v => [("kvs", JList [JObj (if decide (v = "") then [("key", JStr k)]
                                                else [("key", JStr k); ("value", JStr v)])])]
              | None => []
              end)), m)
       | _ => (Raise (OtherException "HTTPError"), m)
       end%string.
Definition example_etcd : Etcd := mkEtcd ["dead:1"; "live:2"] "/v3alpha" None.
#[local] Instance example_etcd_server : EtcdServer (gmap string string) example_etcd.
Proof.
  split; intros host key.
  - intros value w out w' Hh. unfold etcd_post, example_etcd_post.
    destruct (startswith _ _); intros [= <- <-]; [by right|by left].
  - intros w out w' Hh. unfold etcd_post, example_etcd_post, etcd_store, example_etcd_store.
    destruct (startswith _ _); intros [= <- <-]; (split; [done|]); [done|].
    intros r [= <-]. eexists. split; [reflexivity|]. destruct (w !! key) as [v|]; cbn; [|done].
    eexists _, []. split; [reflexivity|]. by destruct (decide (v = "")).
Qed.

Definition example_sets : list (string * string) := [("wca.lock", "first"); ("other", "x"); ("wca.lock", "second")].
Definition example_after : gmap string string :=
  (@set_all _ (EtcdDatabase example_etcd) example_sets ∅).2.

Lemma etcd_last_set_wins_witness :
  (etcd_get example_etcd "wca.lock" example_after).1 = Ok (Some "second") ∧ Some "second" = Some "second".
Proof.
  split; [vm_compute; reflexivity|].
  apply (etcd_last_set_wins example_etcd example_sets "wca.lock" "second" ∅ example_after (Some "second")
           example_after).
  - vm_compute. reflexivity.
  - reflexivity.
  - vm_compute. reflexivity.
Defined.

(** A key with a slash is refused; the directory itself and the one above are not. *)
Example keys_of_directories :
  validate_key "a/b" = Raise InvalidKey ∧ validate_key "" = Raise InvalidKey ∧
  validate_key "." = Ok tt ∧ validate_key ".." = Ok tt.
Proof. vm_compute. done. Qed.

(** An empty value is read as a missing one by etcd. *)
Example etcd_empty_value :
  let w := (etcd_set example_etcd "k" "" ∅).2 in (etcd_get example_etcd "k" w).1 = Ok None.
Proof. vm_compute. done. Qed.
