(* ===== verification/Transport.v ===== *)
(** * Requests over TLS

    How the nodes, the databases and the storage reach their servers: the requests of
    [src/wca/kubernetes.py], [src/wca/mesos.py] and [src/wca/databases.py] with the adapter
    of [src/wca/security.py], the connection of [src/wca/security_kazoo.py] and the
    configuration of Kafka of [src/wca/storage.py].  The requests library, sockets and the
    clock are the classes [Http] and [Sockets]. *)
From S2P Require Export ClusterData Databases Nodes.

(** ** Security of a connection *)

(** The flags of the ssl module that are used. *)
Inductive ssl_option := OP_NO_SSLv2 | OP_NO_SSLv3 | OP_NO_TLSv1 | OP_NO_TLSv1_1 | OP_NO_COMPRESSION.
#[export] Instance ssl_option_eq_dec : EqDecision ssl_option.
Proof. solve_decision. Defined.

(** src/wca/security.py:200-205 [SECURE_CIPHERS] *)
Definition SECURE_CIPHERS : string :=
  str_join ":" ["ECDHE-ECDSA-AES128-GCM-SHA256"; "ECDHE-ECDSA-AES128-SHA256"; "ECDHE-RSA-AES128-GCM-SHA256";
                "ECDHE-RSA-AES128-SHA256"].
(** src/wca/security.py:208-213 [SECURE_OPTIONS] *)
Definition SECURE_OPTIONS : list ssl_option :=
  [OP_NO_SSLv2; OP_NO_SSLv3; OP_NO_TLSv1; OP_NO_TLSv1_1; OP_NO_COMPRESSION].

(** A context of urllib3: options and ciphers. *)
Record urllib3_context := mkUrllib3Context { uc_options : list ssl_option; uc_ciphers : string }.

(** src/wca/security.py:219-227 [HTTPSAdapter.init_poolmanager, HTTPSAdapter.proxy_manager_for]
    The arguments of the pool of connections, or of a proxy: the context replaces another. *)
Definition adapter_arguments {V} (context : urllib3_context → V) (kwargs : dict string V) : dict string V :=
  dset kwargs "ssl_context" (context (mkUrllib3Context SECURE_OPTIONS SECURE_CIPHERS)).

(** ** Requests *)

(** A request: the method, the address, the text of the authorization, the JSON of the body
    or the data, the time to wait, what verifies the server, the certificates of the client
    and, of a session, the prefix of the addresses its adapter is for. *)
Record http_request := mkHttpRequest {
  rq_method : string; rq_url : string; rq_authorization : option string; rq_json : option json;
  rq_data : option json; rq_timeout : num; rq_verify : option server_verify_t; rq_cert : client_certs;
  rq_adapter : option string
}.
Class Http (W : Type) : Type := http_send : http_request → M W response.

(** [urljoin(base, path)] of an absolute path: scheme and authority are kept. *)
Fixpoint authority (s : string) : string :=
  match s with
  | EmptyString => EmptyString
  | String c s' => if bool_decide (c ∈ ["/"; "?"; "#"]%char) then EmptyString else String c (authority s')
  end.
Definition url_root (base : string) : string :=
  match split_sub "://" base with
  | scheme :: host :: rest => str_lower scheme +:+ "://" +:+ authority (str_join "://" (host :: rest))
  | _ => EmptyString
  end.
Definition url_of (base path : string) : string := url_root base +:+ path.

(** Whether the adapter of a session is used: its prefix begins the address. *)
Definition secured (rq : http_request) : bool :=
  match rq_adapter rq with
  | Some prefix => startswith (str_lower prefix) (str_lower (rq_url rq))
  | None => false
  end.

(** [r.raise_for_status(); r.json()] *)
Definition checked_json {W} (r : response) : M W json := _ ← raise_for_status r; lift (r_json r).

Section requests.
  Context {W : Type} `{Http W}.

(** A request as both kinds of nodes and the database make it: through a session with the
    secure adapter when certificates are configured. *)
Definition request_with (ssl : option SSL) (mount : string) (method url : string) (body data : option json)
    (timeout : num) : M W response :=
  match ssl with
  | Some ssl => http_send (mkHttpRequest method url None body data timeout (Some (server_verify ssl))
                             (get_client_certs ssl) (Some mount))
  | None => http_send (mkHttpRequest method url None body data timeout None NoCerts None)
  end.

Definition GET_STATE : json := JObj [("type", JStr "GET_STATE")].

(** ** Kubernetes *)

(** src/wca/kubernetes.py:129-143 [KubernetesNode]
    The settings of the connection. *)
Record KubernetesConnection := mkKubernetesConnection {
  kc_ssl : option SSL; kc_client_token_path : string; kc_server_cert_ca_path : string;
  kc_kubelet_endpoint : string; kc_kubeapi_host : string; kc_kubeapi_port : string; kc_timeout : num
}.

(** src/wca/kubernetes.py:154-163 [KubernetesNode._request_kubeapi]
    The request for the pods of one namespace. *)
Definition namespace_request (conn : KubernetesConnection) (service_token namespace : string) : http_request :=
  let kubeapi_endpoint := "https://" +:+ kc_kubeapi_host conn +:+ ":" +:+ kc_kubeapi_port conn in
  mkHttpRequest "GET" (url_of kubeapi_endpoint ("/api/v1/namespaces/" +:+ namespace +:+ "/pods"))
    (Some ("Bearer " +:+ service_token)) None None (kc_timeout conn)
    (Some (VerifyPath (kc_server_cert_ca_path conn))) NoCerts None.

(** src/wca/kubernetes.py:153-171 [KubernetesNode._request_kubeapi]
    The pods of one namespace. *)
Definition request_namespace (conn : KubernetesConnection) (service_token namespace : string) : M W (list json) :=
  r ← http_send (namespace_request conn service_token namespace);
  j ← checked_json r;
  lift (items ← jget j "items" JNull; jiter items).

(** src/wca/kubernetes.py:145-173 [KubernetesNode._request_kubeapi] *)
Definition request_kubeapi_pods `{FileSystem W} (conn : KubernetesConnection) (self : KubernetesNode) : M W json :=
  service_token ← read_file (kc_client_token_path conn);
  pods ← foldMS (λ pods namespace, items ← request_namespace conn service_token namespace; mret (pods ++ items)) []
           (kn_monitored_namespaces self);
  mret (JList pods).

(** src/wca/kubernetes.py:175-198 [KubernetesNode._request_kubelet] *)
Definition request_kubelet (conn : KubernetesConnection) : M W json :=
  let full_url := url_of (kc_kubelet_endpoint conn) "/pods" in
  r ← request_with (kc_ssl conn) (kc_kubelet_endpoint conn) "GET" full_url (Some GET_STATE) None (kc_timeout conn);
  j ← checked_json r;
  lift (jget j "items" JNull).

(** src/wca/kubernetes.py:203-208 [KubernetesNode.get_tasks]
    Which of the two is asked. *)
Definition kubernetes_request `{FileSystem W} (conn : KubernetesConnection) (self : KubernetesNode) : M W json :=
  if kn_kubelet_enabled self then request_kubelet conn else request_kubeapi_pods conn self.

Definition kubernetes_get_tasks `{FileSystem W} (conn : KubernetesConnection) (self : KubernetesNode)
    : M W (list KubernetesTask) := get_tasks self (kubernetes_request conn self).

(** ** Mesos *)

(** src/wca/mesos.py:131-152 [MesosNode.get_tasks] *)
Definition mesos_request (endpoint : string) (timeout : num) (ssl : option SSL) : M W json :=
  r ← request_with ssl endpoint "POST" (url_of endpoint "/api/v1") (Some GET_STATE) None timeout;
  checked_json r.

Definition mesos_node_get_tasks `{FileSystem W} (endpoint : string) (timeout : num) (ssl : option SSL)
    : M W (list MesosTask) := mesos_get_tasks (mesos_request endpoint timeout ssl).

(** ** etcd *)

(** src/wca/databases.py:197-213 [EtcdDatabase._send]
    The adapter is mounted for the host, which is the start of the address. *)
Definition http_etcd_post (timeout : num) (ssl : option SSL) (url : string) (data : dict string string) : M W json :=
  r ← request_with ssl url "POST" url None (Some (JObj (dmap JStr data))) timeout;
  checked_json r.
End requests.
(** ** Zookeeper *)

(** The arguments of [KazooClient]; [kz_secure] says whether its handler is
    [SecureSequentialThreadingHandler]. *)
Record kazoo_arguments := mkKazooArguments {
  kz_hosts : list string; kz_timeout : num; kz_secure : bool; kz_use_ssl : bool; kz_verify_certs : bool;
  kz_ca : option string; kz_certfile : option string; kz_keyfile : option string
}.

(** src/wca/databases.py:115-148 [ZookeeperDatabase.__post_init__]
    The client that is made and started; its own defaults verify the certificates. *)
Definition zookeeper_client (hosts : list string) (timeout : num) (ssl : option SSL) : kazoo_arguments :=
  match ssl with
  | Some ssl =>
      match server_verify ssl with
      | VerifyPath ca => mkKazooArguments hosts timeout true true true (Some ca) (client_cert_path ssl) (client_key_path ssl)
      | VerifyBool b => mkKazooArguments hosts timeout true true b None (client_cert_path ssl) (client_key_path ssl)
      end
  | None => mkKazooArguments hosts timeout false false true None None None
  end.

(** *** Connections *)

Inductive verify_mode_t := CERT_NONE | CERT_OPTIONAL | CERT_REQUIRED.
Inductive options_t := SetOptions (l : list ssl_option) | AddOptions (l : list ssl_option).
(** The context of a connection. *)
Record ssl_context := mkSslContext {
  sx_options : options_t; sx_ciphers : option string; sx_verify_mode : verify_mode_t;
  sx_ca : option string; sx_cert_chain : option (string * string * option string)
}.

(** The exceptions [create_connection] may raise: an [OSError] has a number, what has none
    cannot be indexed either. *)
Class Sockets (W : Type) (address : Type) (socket : Type) : Type := {
  sk_time : M W float;
  sk_default_timeout : M W (option float);
  (** [module.create_connection(address, timeout)] *)
  sk_create_connection : address → option float → M W socket;
  (** [getaddrinfo], [wrap_socket], [settimeout] and [connect] *)
  sk_connect_tls : ssl_context → address → option float → M W socket;
  sk_set_default_options : socket → M W unit
}.

(** [module.error], which is [OSError] *)
Definition socket_error : exn := OSError 0.
Definition EINTR : Z := 4.

(** src/wca/security_kazoo.py:48-72 [create_tcp_connection] *)
Definition tls_context (ca certfile keyfile keyfile_password : option string) (verify_certs : bool)
    (options : option (list ssl_option)) (ciphers : option string) : ssl_context :=
  let opts := match options with Some o => SetOptions o | None => AddOptions [OP_NO_SSLv2; OP_NO_SSLv3] end in
  let chain := match certfile, keyfile with
               | Some c, Some k => if given (Some c) && given (Some k) then Some (c, k, keyfile_password) else None
               | _, _ => None
               end in
  let mode := match verify_certs, chain with
              | false, _ => CERT_NONE | true, None => CERT_OPTIONAL | true, Some _ => CERT_REQUIRED
              end in
  mkSslContext opts (if given ciphers then ciphers else None) mode (if given ca then ca else None) chain.

(** What is common to all turns of the loop: the end of the time, and the context of a
    connection that uses TLS. *)
Record connection := mkConnection { cn_end : option float; cn_tls : option ssl_context }.

Section connections.
  Context {W address socket : Type} `{Sockets W address socket}.

(** src/wca/security_kazoo.py:85-94 [create_tcp_connection]
    One attempt without TLS: [None] when a signal interrupted it. *)
Definition try_connect (addr : address) (timeout_at : option float) : M W (option socket) :=
  try_except (sock ← sk_create_connection addr timeout_at; mret (Some sock))
    (λ e, match errno_of e with
          | Some n => if n =? EINTR then Some (mret None) else None
          | None => Some (raise TypeError)
          end).

(** src/wca/security_kazoo.py:40-44 [create_tcp_connection]
    The time that is left; [None] when it is over. *)
Definition time_left (end_ : option float) : M W (option (option float)) :=
  match end_ with
  | None => mret (Some None)
  | Some e => now ← sk_time;
              let left := fsub e now in
              mret (if fleb left fzero then None else Some (Some left))
  end.

(** src/wca/security_kazoo.py:39-94 [create_tcp_connection]
    The loop; [None] when the fuel is used up, otherwise the socket if there is one. *)
Fixpoint connect_loop (fuel : nat) (addr : address) (c : connection) : M W (option (option socket)) :=
  match fuel with
  | O => mret None
  | S fuel =>
      left ← time_left (cn_end c);
      match left with
      | None => mret (Some None)
      | Some timeout_at =>
          match cn_tls c with
          | Some ctx => sock ← sk_connect_tls ctx addr timeout_at; mret (Some (Some sock))
          | None =>
              sock ← try_connect addr timeout_at;
              match sock with Some sock => mret (Some (Some sock)) | None => connect_loop fuel addr c end
          end
      end
  end.

(** src/wca/security_kazoo.py:26-100 [create_tcp_connection]
    [None] when the fuel is used up. *)
Definition create_tcp_connection (fuel : nat) (addr : address) (timeout : option float) (tls : option ssl_context)
    : M W (option socket) :=
  timeout ← match timeout with Some t => mret (Some t) | None => sk_default_timeout end;
  end_ ← match timeout with Some t => now ← sk_time; mret (Some (fadd now t)) | None => mret None end;
  r ← connect_loop fuel addr (mkConnection end_ tls);
  match r with
  | None => mret None
  | Some None => raise socket_error
  | Some (Some sock) => _ ← sk_set_default_options sock; mret (Some sock)
  end.

(** src/wca/security.py:231-233 [SecureSequentialThreadingHandler.create_connection]
    The arguments of kazoo with the secure options and ciphers. *)
Definition secure_create_connection (fuel : nat) (addr : address) (timeout : option float) (use_ssl : bool)
    (ca certfile keyfile keyfile_password : option string) (verify_certs : bool) : M W (option socket) :=
  create_tcp_connection fuel addr timeout
    (if use_ssl
     then Some (tls_context ca certfile keyfile keyfile_password verify_certs (Some SECURE_OPTIONS) (Some SECURE_CIPHERS))
     else None).
End connections.

(** ** Kafka *)

Definition SSLConfigError : exn := OtherException "SSLConfigError".
Definition KafkaConsumerInitializationException : exn := OtherException "KafkaConsumerInitializationException".

(** src/wca/storage.py:368-407 [KafkaStorage._get_ssl_config]
    The configuration with the settings of the certificates; what was given before is
    replaced, but for the ciphers. *)
Definition get_ssl_config (ssl : option SSL) (extra_config : option (dict string string))
    : result (option (dict string string)) :=
  match ssl with
  | None => Ok extra_config
  | Some ssl =>
      let config := dset (default [] extra_config) "security.protocol" "ssl" in
      config ← match server_verify ssl with
               | VerifyPath ca => Ok (dset config "ssl.ca.location" ca)
               | VerifyBool true => Raise SSLConfigError
               | VerifyBool false => Ok config
               end;
      config ← match get_client_certs ssl with
               | CertAndKey cert key => Ok (dset (dset config "ssl.certificate.location" cert) "ssl.key.location" key)
               | _ => Raise SSLConfigError
               end;
      let config := if dmem config "ssl.cipher.suites" then config else dset config "ssl.cipher.suites" SECURE_CIPHERS in
      Ok (Some (ddel config "ssl.enabled.protocols"))
  end.

(** src/wca/storage.py:307-310 [create_kafka_consumer]
    The configuration of the producer; an empty dictionary counts as none. *)
Definition kafka_consumer_config (brokers_ips : list string) (extra_params : option (dict string string))
    : dict string string :=
  dset (default [] extra_params) "bootstrap.servers" (str_join "," brokers_ips).

(** src/wca/storage.py:355-366 [KafkaStorage.__post_init__]
    [installed] says whether confluent_kafka is there, [producer] makes the client. *)
Definition kafka_post_init {P} (installed : bool) (producer : dict string string → result P) (brokers_ips : list string)
    (extra_config : option (dict string string)) (ssl : option SSL) : result P :=
  if negb installed then Raise ValidationError
  else catch (config ← get_ssl_config ssl extra_config; producer (kafka_consumer_config brokers_ips config))
         (λ _, Some (Raise KafkaConsumerInitializationException)).

(** src/wca/storage.py:409-418 [KafkaStorage.callback_on_delivery]
    The error that is kept for [store]. *)
Definition callback_on_delivery {E} (err : option E) (error_from_callback : option E) : option E :=
  match err with Some e => Some e | None => error_from_callback end.

(** ** Theorems: requests *)

(** The prefix of the address is that of the adapter when the address of the kubelet is
    nothing but scheme and authority. *)
Lemma str_lower_app a b : str_lower (a +:+ b) = str_lower a +:+ str_lower b.
Proof. induction a as [|c a IH]; [done|]. cbn. by rewrite IH. Qed.

Lemma root_is_secured method endpoint path body data timeout verify cert :
  url_root endpoint = endpoint →
  secured (mkHttpRequest method (url_of endpoint path) None body data timeout verify cert (Some endpoint)) = true.
Proof. intros Hr. unfold secured, url_of. cbn. by rewrite Hr, str_lower_app, startswith_app. Qed.

(** The items of the answer to a request. *)
Definition items_of (r : response) : result (list json) :=
  if r_ok r then j ← r_json r; items ← jget j "items" JNull; jiter items else Raise HTTPError.

(** Lists that are collected one after the other. *)
Lemma collect_parts {S A B} (f : B → M S (list A)) l acc s r s' :
  foldMS (λ acc x, part ← f x; mret (acc ++ part)) acc l s = (Ok r, s') →
  ∃ parts, r = acc ++ concat parts ∧ Forall2 (λ x part, ∃ s1 s2, f x s1 = (Ok part, s2)) l parts.
Proof.
  revert acc s. induction l as [|x l IH]; intros acc s Hm.
  - apply M_ret_Ok_iff in Hm as [-> ->]. exists []. by rewrite app_nil_r.
  - cbn [foldMS] in Hm. apply M_bind_Ok_iff in Hm as (acc' & s1 & Hx & Hm).
    apply M_bind_Ok_iff in Hx as (part & s2 & Hx & [<- <-]%M_ret_Ok_iff).
    destruct (IH _ _ Hm) as (parts & -> & Hp). exists (part :: parts). cbn [concat]. rewrite app_assoc.
    split; [done|]. constructor; [by eexists _, _|done].
Qed.

Section kubeapi.
  Context {W : Type} `{Http W} `{FileSystem W} (conn : KubernetesConnection) (self : KubernetesNode).

Lemma request_namespace_Ok token namespace w pods w' :
  request_namespace conn token namespace w = (Ok pods, w') → ∃ r,
    http_send (namespace_request conn token namespace) w = (Ok r, w') ∧ items_of r = Ok pods.
Proof.
  unfold request_namespace, checked_json, raise_for_status, items_of. intros Hm.
  apply M_bind_Ok_iff in Hm as (r & w1 & Hs & Hm). exists r. rewrite Hs.
  apply M_bind_Ok_iff in Hm as (j & w2 & Hj & [Hl ->]%lift_Ok_iff).
  apply M_bind_Ok_iff in Hj as (u & w3 & Hr & [Hj ->]%lift_Ok_iff). destruct (r_ok r); [|done].
  apply M_ret_Ok_iff in Hr as [_ ->]. by rewrite Hj.
Qed.

(** The pods are those of the namespaces that are monitored, in their order, each namespace
    asked with the token of the file; when one request fails there is no answer at all. *)
Theorem kubeapi_all_namespaces w v w' :
  request_kubeapi_pods conn self w = (Ok v, w') → ∃ token parts,
    fs_read (kc_client_token_path conn) w = Ok token ∧ v = JList (concat parts) ∧
    Forall2 (λ namespace pods, ∃ w1 w2 r,
        http_send (namespace_request conn token namespace) w1 = (Ok r, w2) ∧ items_of r = Ok pods)
      (kn_monitored_namespaces self) parts.
Proof.
  unfold request_kubeapi_pods. intros Hm. apply M_bind_Ok_iff in Hm as (token & w1 & Ht%read_file_Ok_iff & Hm).
  destruct Ht as [Ht ->]. apply M_bind_Ok_iff in Hm as (pods & w2 & Hp & [<- _]%M_ret_Ok_iff).
  apply collect_parts in Hp as (parts & -> & Hp). exists token, parts. split_and!; [done..|].
  eapply Forall2_impl; [exact Hp|]. intros namespace pods (s1 & s2 & (r & ? & ?)%request_namespace_Ok). by eexists _, _, _.
Qed.
End kubeapi.

(** ** Theorems: the loop of a connection *)
Section loop.
  Context {W address socket : Type} `{Sockets W address socket}.
  (** A measure of the time that is left: no call takes it back, and reading the clock
      before the end makes it smaller. *)
  Context (end_ : float) (remaining : W → nat).
  Hypothesis time_passes : ∀ w now w', sk_time w = (Ok now, w') →
    (remaining w' ≤ remaining w)%nat ∧ (fleb (fsub end_ now) fzero = false → (remaining w' < remaining w)%nat).
  Hypothesis connecting_passes : ∀ addr t w r w', sk_create_connection addr t w = (r, w') →
    (remaining w' ≤ remaining w)%nat.

Lemma try_connect_passes addr t w r w' : try_connect addr t w = (r, w') → (remaining w' ≤ remaining w)%nat.
Proof.
  unfold try_connect, try_except, mbind, M_bind. destruct (sk_create_connection addr t w) as [[sock|e] w1] eqn:E;
    apply connecting_passes in E.
  - by intros [= <- <-].
  - destruct (errno_of e) as [n|]; [destruct (n =? EINTR)|]; by intros [= <- <-].
Qed.

(** A connection with a time limit is given up or made within as many
    attempts as the clock can be read before the limit, however often signals interrupt it. *)
Theorem connect_loop_ends addr tls fuel w w' :
  (remaining w < fuel)%nat → connect_loop fuel addr (mkConnection (Some end_) tls) w ≠ (Ok None, w').
Proof.
  revert w. induction fuel as [|fuel IH]; intros w Hf Hm; [lia|]. cbn [connect_loop cn_end cn_tls] in Hm.
  apply M_bind_Ok_iff in Hm as (left & w1 & Hl & Hm). unfold time_left in Hl.
  apply M_bind_Ok_iff in Hl as (now & w2 & Ht & [Hl ->]%M_ret_Ok_iff). apply time_passes in Ht as [_ Hlt].
  destruct (fleb (fsub end_ now) fzero); subst left; [by apply M_ret_Ok_iff in Hm as [? _]|].
  specialize (Hlt eq_refl). destruct tls as [ctx|].
  - apply M_bind_Ok_iff in Hm as (? & ? & _ & [? _]%M_ret_Ok_iff). done.
  - apply M_bind_Ok_iff in Hm as (sock & w3 & Hc%try_connect_passes & Hm).
    destruct sock; [by apply M_ret_Ok_iff in Hm as [? _]|]. revert Hm. apply IH. lia.
Qed.
End loop.

(** ** Theorems: Kafka *)

(** With certificates the producer speaks TLS with the pair of the client, is verified by
    the authority that was given and uses the secure ciphers unless others were
    configured; a choice of protocols is taken out; everything else is as configured. *)
Lemma ssl_config_secure ssl extra_config config :
  dict_wf (default [] extra_config) → get_ssl_config (Some ssl) extra_config = Ok (Some config) →
  ∃ cert key, get_client_certs ssl = CertAndKey cert key ∧
    dget config "security.protocol" = Some "ssl" ∧
    dget config "ssl.certificate.location" = Some cert ∧ dget config "ssl.key.location" = Some key ∧
    dget config "ssl.ca.location" =
      match server_verify ssl with VerifyPath ca => Some ca | VerifyBool _ => dget (default [] extra_config) "ssl.ca.location" end ∧
    dget config "ssl.cipher.suites" = Some (default SECURE_CIPHERS (dget (default [] extra_config) "ssl.cipher.suites")) ∧
    dget config "ssl.enabled.protocols" = None ∧
    ∀ k, startswith "ssl." k = false → k ≠ "security.protocol" → dget config k = dget (default [] extra_config) k.
Proof.
  intros Hwf. set (old := default [] extra_config) in *. unfold get_ssl_config. fold old.
  intros (c1 & H1 & H2)%bind_Ok_iff. apply bind_Ok_iff in H2 as (c2 & H2 & [= <-]).
  destruct (get_client_certs ssl) as [| |cert key]; [done|done|]. injection H2 as <-. exists cert, key.
  assert (Hc1 : dict_wf c1 ∧ dget c1 "security.protocol" = Some "ssl" ∧
    dget c1 "ssl.ca.location" = match server_verify ssl with VerifyPath ca => Some ca | VerifyBool _ => dget old "ssl.ca.location" end ∧
    ∀ k, k ≠ "security.protocol" → k ≠ "ssl.ca.location" → dget c1 k = dget old k).
  { destruct (server_verify ssl) as [[]|ca]; [done| |]; injection H1 as <-.
    - split_and!; [by apply dset_wf|by rewrite dget_dset_eq|by rewrite dget_dset_ne|].
      intros k ? ?. by rewrite dget_dset_ne.
    - split_and!; [by repeat apply dset_wf|by rewrite dget_dset_ne, dget_dset_eq|by rewrite dget_dset_eq|].
      intros k ? ?. by rewrite !dget_dset_ne. }
  destruct Hc1 as (Hwf1 & Hp & Hca & Hother). set (c2 := dset (dset c1 _ cert) _ key).
  assert (Hwf2 : dict_wf c2) by (by repeat apply dset_wf).
  assert (Hc2 : ∀ k, k ≠ "ssl.certificate.location" → k ≠ "ssl.key.location" → dget c2 k = dget c1 k)
    by (intros k ? ?; unfold c2; by rewrite !dget_dset_ne).
  unfold dmem. rewrite (Hc2 "ssl.cipher.suites") by done. rewrite Hother by done.
  destruct (dget old "ssl.cipher.suites") as [ciphers|] eqn:Ec.
  - split_and!; rewrite ?dget_ddel_eq, ?dget_ddel_ne, ?Hc2 by done; try done.
    + unfold c2. by rewrite dget_dset_ne, dget_dset_eq.
    + unfold c2. by rewrite dget_dset_eq.
    + by rewrite Hother.
    + intros k Hk Hs. assert (∀ k', startswith "ssl." k' = true → k' ≠ k) as Hne by (intros k' ? ->; congruence).
      rewrite dget_ddel_ne, Hc2, Hother; auto; apply not_eq_sym, Hne; done.
  - assert (dict_wf (dset c2 "ssl.cipher.suites" SECURE_CIPHERS)) by (by apply dset_wf).
    split_and!; rewrite ?dget_ddel_eq, ?dget_ddel_ne, ?dget_dset_eq by done; rewrite ?dget_dset_ne, ?Hc2 by done; try done.
    + unfold c2. by rewrite dget_dset_ne, dget_dset_eq.
    + unfold c2. by rewrite dget_dset_eq.
    + intros k Hk Hs. assert (∀ k', startswith "ssl." k' = true → k' ≠ k) as Hne by (intros k' ? ->; congruence).
      rewrite dget_ddel_ne, dget_dset_ne, Hc2, Hother; auto; try (apply not_eq_sym, Hne; done).
Qed.

(** ** Concrete connections *)

(** Seconds of the clock, which stops at 5, and the signals still to come. *)
Definition example_sockets : Type := nat * nat.
#[export] Instance example_Sockets : Sockets example_sockets string string := {|
  sk_time w := (Ok (float_of_ratio (Z.of_nat (Nat.min w.1 5)) 1), (S w.1, w.2));
  sk_default_timeout := mret None;
  sk_create_connection addr _ w :=
    match w.2 with O => (Ok addr, w) | S n => (Raise (OSError EINTR), (w.1, n)) end;
  sk_connect_tls _ addr _ := mret addr;
  sk_set_default_options _ := mret tt
|}.

Lemma connect_loop_ends_witness w :
  ¬ ∃ w', connect_loop (S (5 - w.1)) "etcd:2181" (mkConnection (Some (float_of_ratio 5 1)) None) w = (Ok None, w').
Proof.
  intros [w' Hm]. revert Hm. apply (connect_loop_ends (float_of_ratio 5 1) (λ w : example_sockets, (5 - w.1)%nat)); [| |cbn; lia].
  - intros [t n] now w1 [= <- <-]. split; [cbn; lia|]. destruct t as [|[|[|[|[|t]]]]]; cbn [fst]; try lia.
    intros Hf. exfalso. revert Hf. replace (Nat.min (S (S (S (S (S t))))) 5) with 5%nat by lia. vm_compute. done.
  - intros addr t [k [|n]] r w1 [= <- <-]; cbn; lia.
Qed.

(** Two signals are waited out; with nine the time is over first. *)
Example interrupted_connection :
  (create_tcp_connection 10 "etcd:2181" (Some (float_of_ratio 4 1)) None (0, 2)%nat).1 = Ok (Some "etcd:2181") ∧
  (create_tcp_connection 10 "etcd:2181" (Some (float_of_ratio 4 1)) None (0, 9)%nat).1 = Raise socket_error.
Proof. vm_compute. done. Qed.

Definition example_ssl : SSL := mkSSL (VerifyPath "/certs/ca.pem") (Some "/certs/client.pem") (Some "/certs/client.key").

Example kafka_config :
  get_ssl_config (Some example_ssl) (Some [("debug", "msg"); ("ssl.enabled.protocols", "SSLv3")]) =
  Ok (Some [("debug", "msg"); ("security.protocol", "ssl"); ("ssl.ca.location", "/certs/ca.pem");
            ("ssl.certificate.location", "/certs/client.pem"); ("ssl.key.location", "/certs/client.key");
            ("ssl.cipher.suites", SECURE_CIPHERS)]) ∧
  kafka_post_init true (λ c : dict string string, Ok c) ["b1:9092"; "b2:9092"] (Some []) None =
  Ok [("bootstrap.servers", "b1:9092,b2:9092")] ∧
  kafka_post_init true (λ c : dict string string, Ok c) ["b1:9092"] None (Some (mkSSL (VerifyBool true) None None)) =
  Raise KafkaConsumerInitializationException.
Proof. vm_compute. done. Qed.

(** An HTTP server that answers by address, and keeps what it was asked. *)
Definition example_server : Type := list http_request.
#[export] Instance example_Http : Http example_server := λ rq log,
  (Ok (mkResponse (negb (str_contains "secret" (rq_url rq)))
         (Ok (JObj [("items", JList [JStr (rq_url rq)])]))), log ++ [rq]).
Definition example_connection (endpoint : string) : KubernetesConnection :=
  mkKubernetesConnection (Some example_ssl) "token" "/certs/ca.crt" endpoint "k8s" "6443" (PInt 5).

(** The kubelet is asked through the secure adapter, but not when its address has a path:
    the adapter is for addresses that begin with the whole endpoint. *)
Example kubelet_requests :
  (λ rq, (rq_url rq, secured rq)) <$> (request_kubelet (example_connection "https://127.0.0.1:10250") []).2 =
  [("https://127.0.0.1:10250/pods", true)] ∧
  (λ rq, (rq_url rq, secured rq)) <$> (request_kubelet (example_connection "https://127.0.0.1:10250/node1") []).2 =
  [("https://127.0.0.1:10250/pods", false)].
Proof. vm_compute. done. Qed.

Example namespaces_asked :
  (foldMS (λ pods namespace, items ← request_namespace (example_connection "") "tok" namespace; mret (pods ++ items)) []
     ["default"; "kube-system"] []).1 =
  Ok [JStr "https://k8s:6443/api/v1/namespaces/default/pods"; JStr "https://k8s:6443/api/v1/namespaces/kube-system/pods"].
Proof. vm_compute. done. Qed.
