(* ===== verification/Regex.v ===== *)
(** * Regular expressions of the standard library

    [re.search], [re.match], [re.findall] and [re.finditer] of Python for the patterns
    written in the sources: classes of characters, sequences, alternatives, greedy and
    lazy repetition, named groups and the end of the text.  The matcher backtracks in
    the order of Python, so the groups are the ones Python gives; a declarative relation
    says what a pattern matches, and the matcher finds a match exactly when there is
    one. *)
From S2P Require Export PyStr PyDict.

Inductive regex :=
  | RClass (p : ascii → bool)
  | REps
  | RSeq (a b : regex)
  | RAlt (a b : regex)
  | RStar (greedy : bool) (a : regex)
  | RGroup (name : string) (a : regex)
  | REnd.

Definition groups : Type := dict string string.

Definition orelse {A} (o1 o2 : option A) : option A :=
  match o1 with Some _ => o1 | None => o2 end.

(** [$]: the end of the text, or before a newline that ends it *)
Definition at_end (s : string) : bool :=
  match s with EmptyString => true | String c EmptyString => ascii_eqb c newline | _ => false end.

(** What [s] has in front of its ending [s']. *)
Definition before (s s' : string) : string := str_take (String.length s - String.length s') s.

(** Matching [r] in front of [s] and then what the continuation wants.  An iteration of a
    repetition has to use a character, so the length of the text bounds them. *)
Section matcher.
  Context {A : Type}.

Fixpoint star_loop (step : (string → groups → option A) → string → groups → option A) (greedy : bool)
    (k : string → groups → option A) (n : nat) (s : string) (g : groups) : option A :=
  match n with
  | O => k s g
  | S n =>
      let more := step (λ s' g',
        if (String.length s' <? String.length s)%nat then star_loop step greedy k n s' g' else None) s g in
      if greedy then orelse more (k s g) else orelse (k s g) more
  end.

Fixpoint rmatch (r : regex) (k : string → groups → option A) (s : string) (g : groups) : option A :=
  match r with
  | RClass p => match s with
                | String c s' => if p c then k s' g else None
                | EmptyString => None
                end
  | REps => k s g
  | RSeq a b => rmatch a (rmatch b k) s g
  | RAlt a b => orelse (rmatch a k s g) (rmatch b k s g)
  | RStar greedy a => star_loop (rmatch a) greedy k (String.length s) s g
  | RGroup name a => rmatch a (λ s' g', k s' (dset g name (before s s'))) s g
  | REnd => if at_end s then k s g else None
  end.
End matcher.

(** A match: its groups and the text after it. *)
Definition re_match (r : regex) (s : string) : option (groups * string) :=
  rmatch r (λ s' g, Some (g, s')) s [].

Fixpoint re_search (r : regex) (s : string) : option (groups * string) :=
  orelse (re_match r s) (match s with EmptyString => None | String _ s' => re_search r s' end).

(** [re.finditer]: after an empty match the search goes on one character later. *)
Fixpoint finditer_from (n : nat) (r : regex) (s : string) : list groups :=
  match n with
  | O => []
  | S n =>
      match re_search r s with
      | None => []
      | Some (g, rest) =>
          g :: finditer_from n r (if (String.length rest <? String.length s)%nat then rest else str_drop 1 rest)
      end
  end.
Definition re_finditer (r : regex) (s : string) : list groups :=
  finditer_from (S (String.length s)) r s.

(** ** Building patterns *)
Definition rchar (c : ascii) : regex := RClass (ascii_eqb c).
Fixpoint rlit (s : string) : regex :=
  match s with EmptyString => REps | String c s => RSeq (rchar c) (rlit s) end.
(** [.]: everything but a newline *)
Definition rany : regex := RClass (λ c, negb (ascii_eqb c newline)).
Definition rdigit : regex := RClass is_decimal_char.
Definition rspace : regex := RClass is_space.
Definition rstar (a : regex) : regex := RStar true a.
Definition rlazy (a : regex) : regex := RStar false a.
Definition rplus (a : regex) : regex := RSeq a (rstar a).
Definition ropt (a : regex) : regex := RAlt a REps.
Fixpoint rseqs (l : list regex) : regex :=
  match l with [] => REps | [a] => a | a :: l => RSeq a (rseqs l) end.
Fixpoint ralts (l : list regex) : regex :=
  match l with [] => RClass (λ _, false) | [a] => a | a :: l => RAlt a (ralts l) end.

(** ** What a pattern matches *)

(** [lang r s s']: [r] matches the part of [s] in front of its ending [s']. *)
Inductive lang : regex → string → string → Prop :=
  | lang_class p c s : p c = true → lang (RClass p) (String c s) s
  | lang_eps s : lang REps s s
  | lang_seq a b s s1 s2 : lang a s s1 → lang b s1 s2 → lang (RSeq a b) s s2
  | lang_alt_l a b s s1 : lang a s s1 → lang (RAlt a b) s s1
  | lang_alt_r a b s s1 : lang b s s1 → lang (RAlt a b) s s1
  | lang_star_nil greedy a s : lang (RStar greedy a) s s
  | lang_star_cons greedy a s s1 s2 :
      lang a s s1 → lang (RStar greedy a) s1 s2 → lang (RStar greedy a) s s2
  | lang_group name a s s1 : lang a s s1 → lang (RGroup name a) s s1
  | lang_end s : at_end s = true → lang REnd s s.

Lemma lang_suffix r s s' : lang r s s' → ∃ w, s = w +:+ s'.
Proof.
  induction 1 as [p c s _|s|a b s s1 s2 _ [w1 ->] _ [w2 ->]|a b s s1 _ IH|a b s s1 _ IH|g a s
    |g a s s1 s2 _ [w1 ->] _ [w2 ->]|n a s s1 _ IH|s _]; try done; try (by exists "").
  - by exists (String c "").
  - exists (w1 +:+ w2). by rewrite str_app_assoc.
  - exists (w1 +:+ w2). by rewrite str_app_assoc.
Qed.

Lemma str_app_length w s : String.length (w +:+ s) = (String.length w + String.length s)%nat.
Proof. induction w as [|c w IH]; [done|]. cbn. by rewrite IH. Qed.

Lemma lang_length r s s' : lang r s s' → (String.length s' ≤ String.length s)%nat.
Proof. intros [w ->]%lang_suffix. rewrite str_app_length. lia. Qed.

Lemma lang_same r s s' : lang r s s' → String.length s' = String.length s → s' = s.
Proof.
  intros [w ->]%lang_suffix. rewrite str_app_length. destruct w; [done|]. cbn. lia.
Qed.

Lemma orelse_Some {A} (o1 o2 : option A) x : orelse o1 o2 = Some x → o1 = Some x ∨ o2 = Some x.
Proof. destruct o1; cbn; [by left|by right]. Qed.
Lemma orelse_None {A} (o1 o2 : option A) : orelse o1 o2 = None ↔ o1 = None ∧ o2 = None.
Proof. destruct o1; cbn; naive_solver. Qed.

(** What the matcher finds is a match, and the continuation has accepted what follows. *)
Lemma rmatch_sound {A} r (k : string → groups → option A) s g x :
  rmatch r k s g = Some x → ∃ s' g', lang r s s' ∧ k s' g' = Some x.
Proof.
  revert k s g x. induction r as [p| |a IHa b IHb|a IHa b IHb|greedy a IHa|name a IHa|];
    intros k s g x; cbn [rmatch]; intros Hm.
  - destruct s as [|c s]; [done|]. destruct (p c) eqn:E; [|done]. eauto using lang.
  - eauto using lang.
  - apply IHa in Hm as (s1 & g1 & H1 & Hm). apply IHb in Hm as (s2 & g2 & H2 & Hm). eauto using lang.
  - apply orelse_Some in Hm as [Hm|Hm]; [apply IHa in Hm|apply IHb in Hm];
      destruct Hm as (s1 & g1 & H1 & Hm); eauto using lang.
  - revert Hm. generalize (String.length s). intros n. revert s g.
    induction n as [|n IH]; intros s g Hm; [eauto using lang|]. cbn [star_loop] in Hm.
    match type of Hm with (if _ then orelse ?m ?c else _) = _ => assert (Hmore : m = Some x ∨ c = Some x) end.
    { destruct greedy; apply orelse_Some in Hm as [Hm|Hm]; eauto. }
    clear Hm. destruct Hmore as [Hm|Hm]; [|eauto using lang].
    apply IHa in Hm as (s1 & g1 & H1 & Hm).
    destruct (String.length s1 <? String.length s)%nat; [|done].
    apply IH in Hm as (s2 & g2 & H2 & Hm). eauto using lang.
  - apply IHa in Hm as (s1 & g1 & H1 & Hm). eauto using lang.
  - destruct (at_end s) eqn:E; [|done]. eauto using lang.
Qed.

(** A repetition needs only iterations that use a character. *)
Lemma lang_star_progress greedy a s s2 :
  lang (RStar greedy a) s s2 →
  s = s2 ∨ ∃ s1, lang a s s1 ∧ (String.length s1 < String.length s)%nat ∧ lang (RStar greedy a) s1 s2.
Proof.
  intros H. remember (RStar greedy a) as r eqn:Er. induction H; try discriminate Er; [by left|].
  injection Er as -> ->. specialize (IHlang2 eq_refl).
  destruct (decide (String.length s1 = String.length s)) as [Hl|Hl].
  - assert (s1 = s) as -> by (by eapply lang_same). exact IHlang2.
  - right. exists s1. pose proof (lang_length _ _ _ H). split; [done|]. split; [lia|done].
Qed.

(** If there is a match after which the continuation accepts any groups, one is found. *)
Lemma rmatch_complete {A} r (k : string → groups → option A) s s' g :
  lang r s s' → (∀ g', k s' g' ≠ None) → rmatch r k s g ≠ None.
Proof.
  revert k s s' g. induction r as [p| |a IHa b IHb|a IHa b IHb|greedy a IHa|name a IHa|];
    intros k s s' g Hl Hk; cbn [rmatch].
  - inversion Hl; subst. match goal with H : p _ = true |- _ => rewrite H end. apply Hk.
  - inversion Hl; subst. apply Hk.
  - inversion Hl; subst. eapply IHa; [eassumption|]. intros g'. by eapply IHb.
  - intros [Ha Hb]%orelse_None. inversion Hl; subst; [by eapply IHa in Ha|by eapply IHb in Hb].
  - assert (Hn : (String.length s ≤ String.length s)%nat) by lia. revert Hn.
    generalize (String.length s) at 2 3. intros n. revert s g Hl.
    induction n as [|n IH]; intros s g Hl Hn.
    { apply lang_star_progress in Hl as [->|(s1 & _ & Hlt & _)]; [apply Hk|lia]. }
    cbn [star_loop]. intros Hm.
    match type of Hm with (if _ then orelse ?m ?c else _) = _ => assert (Hboth : m = None ∧ c = None) end.
    { destruct greedy; apply orelse_None in Hm as [? ?]; eauto. }
    clear Hm. destruct Hboth as [Hmore Hstop].
    apply lang_star_progress in Hl as [->|(s1 & Ha & Hlt & Hl)]; [by eapply Hk|].
    eapply (IHa _ s s1 g Ha); [|exact Hmore]. intros g'. cbn beta.
    replace (String.length s1 <? String.length s)%nat with true by (symmetry; by apply Nat.ltb_lt).
    apply IH; [done|lia].
  - inversion Hl; subst. eapply IHa; [eassumption|]. intros g'. apply Hk.
  - inversion Hl; subst. match goal with H : at_end _ = true |- _ => rewrite H end. apply Hk.
Qed.

Lemma re_match_iff r s : (∃ m, re_match r s = Some m) ↔ ∃ s', lang r s s'.
Proof.
  unfold re_match. split.
  - intros [m (s' & g & Hl & _)%rmatch_sound]. eauto.
  - intros [s' Hl]. destruct (rmatch r _ s []) as [m|] eqn:E; [eauto|].
    exfalso. by eapply (rmatch_complete r (λ s' g, Some (g, s'))) in E.
Qed.

(** A search finds a match exactly when the pattern matches somewhere in the text. *)
Lemma re_search_iff r s : (∃ m, re_search r s = Some m) ↔ ∃ w s1 s2, s = w +:+ s1 ∧ lang r s1 s2.
Proof.
  induction s as [|c s IH]; cbn [re_search].
  - split.
    + intros [m [Hm|Hm]%orelse_Some]; [|done].
      destruct (proj1 (re_match_iff r "") (ex_intro _ m Hm)) as [s2 Hs2]. by exists "", "", s2.
    + intros (w & s1 & s2 & Hs & Hl). destruct w; [|done]. cbn in Hs. subst s1.
      destruct (proj2 (re_match_iff r "") (ex_intro _ s2 Hl)) as [m ->]. by exists m.
  - split.
    + intros [m [Hm|Hm]%orelse_Some].
      * destruct (proj1 (re_match_iff r _) (ex_intro _ m Hm)) as [s2 Hs2]. by exists "", (String c s), s2.
      * destruct (proj1 IH (ex_intro _ m Hm)) as (w & s1 & s2 & -> & Hl). by exists (String c w), s1, s2.
    + intros (w & s1 & s2 & Hs & Hl). destruct (re_match r (String c s)) as [m|] eqn:E; [by exists m|]. cbn.
      destruct w as [|c' w]; cbn in Hs.
      * subst s1. destruct (proj2 (re_match_iff r _) (ex_intro _ s2 Hl)) as [m Hm]. congruence.
      * injection Hs as -> ->. apply IH. by exists w, s1, s2.
Qed.

Example regex_examples :
  let number := rseqs [rplus rdigit; ropt (rseqs [rchar "."; rplus rdigit])] in
  (fst <$> re_search (RGroup "v" number) "x = 12.50;") = Some [("v", "12.50")] ∧
  re_finditer (rseqs [RGroup "n" (rplus (RClass (λ c, ascii_eqb c "a" || ascii_eqb c "b"))); rchar "=";
                      RGroup "v" number]) "a=1 ab=2.5 c=3" =
    [[("n", "a"); ("v", "1")]; [("n", "ab"); ("v", "2.5")]] ∧
  (fst <$> re_search (rseqs [rlit "<"; RGroup "x" (rlazy rany); rlit ">"]) "<a><b>") = Some [("x", "a")] ∧
  (fst <$> re_search (rseqs [rlit "<"; RGroup "x" (rstar rany); rlit ">"]) "<a><b>") = Some [("x", "a><b")].
Proof. vm_compute. done. Qed.
