(* ===== verification/Docs.v ===== *)
(** * Documentation of metrics and components

    [src/util/docs.py]: the table of all metrics as reStructuredText and as CSV, and the
    page of the components' docstrings.  The tables are read back here with a reader of
    quoted fields, which shows that no metric is lost or listed twice. *)
From stdpp Require Import sorting.
From S2P Require Export MetricsData Regex Storage.

Definition dquote : ascii := "034"%char.
Definition tab : ascii := "009"%char.
Definition nl : string := str1 newline.

(** ["{}".format(s)] between double quotes *)
Definition quoted (s : string) : string := String dquote (s +:+ str1 dquote).

(** ** Rows and tables *)

(** src/util/docs.py:188-196 [generate_docs], the tuple [data] *)
Record doc_row := mkRow {
  row_name : string; row_help : string; row_enabled : string; row_unit : string;
  row_type : string; row_source : string; row_levels : string
}.
#[export] Instance doc_row_eq : EqDecision doc_row.
Proof. solve_decision. Defined.

Definition row_fields (r : doc_row) : list string :=
  [row_name r; row_help r; row_enabled r; row_unit r; row_type r; row_source r; row_levels r].

Definition header_row : doc_row := mkRow "Name" "Help" "Enabled" "Unit" "Type" "Source" "Levels/Labels".

Definition header_line : string := str_join ", " (quoted <$> row_fields header_row).

(** src/util/docs.py:91-92 [prepare_csv_table], the format of a row; two blanks are
    in front of the type. *)
Definition row_text (r : doc_row) : string :=
  quoted (row_name r) +:+ ", " +:+ quoted (row_help r) +:+ ", " +:+ quoted (row_enabled r) +:+ ", " +:+
  quoted (row_unit r) +:+ ",  " +:+ quoted (row_type r) +:+ ", " +:+ quoted (row_source r) +:+ ", " +:+
  quoted (row_levels r).

(** src/util/docs.py:76-94 [prepare_csv_table] *)
Definition prepare_csv_table (data : list doc_row) (header csv_header : bool) : string :=
  let table :=
    if header then
      ".. csv-table::" +:+ nl +:+ str1 tab +:+ ":header: " +:+ header_line +:+ nl +:+
      str1 tab +:+ ":widths: 5, 5, 5, 5, 5, 5, 5 " +:+ nl +:+ nl +:+ str1 tab
    else if csv_header then header_line +:+ nl
    else "" in
  let pref := if header then str1 tab else "" in
  table +:+ str_join (nl +:+ pref) (row_text <$> data).

Fixpoint times (c : ascii) (n : nat) : string :=
  match n with O => EmptyString | S n => String c (times c n) end.

(** src/util/docs.py:97-98 [generate_title] *)
Definition generate_title (title : string) : string := title +:+ nl +:+ times "=" (String.length title).

(** src/util/docs.py:101-102 [generate_subtitle] *)
Definition generate_subtitle (subtitle : string) : string :=
  subtitle +:+ nl +:+ times "-" (String.length subtitle).

(** ** The table of metrics *)

(** src/wca/metrics.py:177-182 [MetricType], the values *)
Definition MetricType_value (t : MetricType) : string :=
  match t with GAUGE => "gauge" | COUNTER => "counter" end.

(** src/wca/metrics.py:197-206 [MetricUnit], the values *)
Definition MetricUnit_value (u : MetricUnit) : string :=
  match u with
  | U_BYTES => "bytes" | U_BYTES_PER_SECOND => "bytes_per_second" | U_SECONDS => "seconds"
  | U_NUMERIC => "numeric" | U_TIMESTAMP => "timestamp" | U_WATTS => "watts"
  end.

(** src/wca/metrics.py:209-224 [MetricSource], the values *)
Definition MetricSource_value (s : MetricSource) : string :=
  match s with
  | S_PERF_SUBSYSTEM_WITH_CGROUPS => "perf subsystem with cgroups"
  | S_PERF_SUBSYSTEM_UNCORE => "perf subsystem with dynamic PMUs (uncore)"
  | S_RESCTRL => "resctrl filesystem" | S_CGROUP => "cgroup filesystem"
  | S_PROCFS => "/proc filesystem" | S_SYSFS => "/sys filesystem" | S_INTERNAL => "internal"
  | S_DERIVED_PERF_WITH_CGROUPS => "derived from perf subsystem with cgroups"
  | S_DERIVED_PERF_UNCORE => "derived from perf uncore" | S_ORCHESTRATOR => "orchestrator"
  | S_DMIDECODE_BINARY => "dmidecode binary output" | S_IPMCTL_BINARY => "ipmctl binary output"
  | S_other text => text
  end.

(** src/util/docs.py:177-196 [generate_docs], the row of a metric *)
Definition row_of (metric : string) (metadata : MetricMetadata) : doc_row :=
  mkRow metric (md_help metadata) (md_enabled metadata)
    (match md_unit metadata with Some u => MetricUnit_value u | None => "None" end)
    (MetricType_value (md_type metadata)) (MetricSource_value (md_source metadata))
    (str_join ", " (md_levels metadata)).

Definition has_quotes (metadata : MetricMetadata) : bool :=
  has_char dquote (md_help metadata) || has_char dquote (md_enabled metadata) ||
  has_char dquote (MetricSource_value (md_source metadata)).

(** The rows of tasks, of platforms and of the agent itself. *)
Record doc_tables := mkTables { task_data : list doc_row; platform_data : list doc_row; internal_data : list doc_row }.

(** src/util/docs.py:198-207 [generate_docs], the check of a row and its table *)
Definition add_row (metric : string) (metadata : MetricMetadata) (t : doc_tables) : result doc_tables :=
  let data := row_of metric metadata in
  if has_quotes metadata then Raise (OtherException "Exception") else
  Ok match md_granularity metadata with
     | G_TASK => mkTables (task_data t ++ [data]) (platform_data t) (internal_data t)
     | G_PLATFORM => mkTables (task_data t) (platform_data t ++ [data]) (internal_data t)
     | G_INTERNAL => mkTables (task_data t) (platform_data t) (internal_data t ++ [data])
     end.

(** src/util/docs.py:164-207 [generate_docs], the loop over the names *)
Definition collect_rows (names : list string) (table : dict string MetricMetadata) : result doc_tables :=
  foldM (λ t metric, match dget table metric with
                     | None => Ok t
                     | Some metadata => add_row metric metadata t
                     end) (mkTables [] [] []) names.

(** src/util/docs.py:209-216 [generate_docs], one table of the text; the conditional
    expression covers the whole sum, so CSV has neither title nor blank line before it. *)
Definition docs_section (csv : bool) (title : string) (data : list doc_row) (csv_header : bool) : string :=
  (if csv then "" else generate_title title +:+ nl +:+ nl) +:+
  prepare_csv_table data (negb csv) csv_header +:+ nl +:+ nl.

(** src/util/docs.py:209-218 [generate_docs], the text *)
Definition docs_text (csv : bool) (t : doc_tables) : string :=
  docs_section csv "Task's metrics" (task_data t) csv +:+ nl +:+ nl +:+
  docs_section csv "Platform's metrics" (platform_data t) false +:+ nl +:+ nl +:+
  docs_section csv "Internal metrics" (internal_data t) false.

(** src/util/docs.py:162-218 [generate_docs] *)
Definition generate_docs (csv : bool) : result string :=
  docs_text csv <$> collect_rows MetricName.members METRICS_METADATA.

(** ** The page of components *)

(** The pattern of four blanks and the rest of the line, which is a group. *)
Definition indented : regex := RSeq (rlit "    ") (RGroup "1" (rstar rany)).

(** src/util/docs.py:221-226 [remove_trailing_whitespaces] *)
Definition remove_trailing_whitespaces (line : string) : string :=
  match re_search indented line with
  | Some (g, _) => default "" (dget g "1") +:+ nl
  | None => line
  end.

(** src/util/docs.py:42-44 [SKIPPED_COMPONENTS] *)
Definition SKIPPED_COMPONENTS : list string :=
  ["PerfCgroupDerivedMetricsGenerator"; "UncoreDerivedMetricsGenerator"; "CgroupDriverType"].

(** src/util/docs.py:52-71 [prepare_api_docs], one component; [str(None)] is the text None. *)
Definition component_docs (name : string) (doc : option string) : string :=
  let docstring := default "None" doc in
  let docstring := if startswith "rst" docstring then str_drop 3 docstring else docstring in
  let lines := remove_trailing_whitespaces <$> readlines docstring in
  generate_title name +:+ nl +:+
  (if Nat.eqb (length lines) 1 then nl +:+ str1 tab +:+ docstring else str_join "" lines) +:+ nl +:+ nl.

(** src/util/docs.py:47-73 [prepare_api_docs], on the components with their docstrings *)
Definition prepare_api_docs (components : list (string * option string)) : string :=
  str_join "" ((λ c : string * option string, component_docs c.1 c.2) <$>
    List.filter (λ c, negb (bool_decide (c.1 ∈ SKIPPED_COMPONENTS))) components).

(** ** The three files *)

(** src/util/docs.py:25-35 [API_INTRO] *)
Definition API_INTRO : string := str_join nl
  ["";
   "==============================";
   "Workload Collocation Agent API";
   "==============================";
   "";
   "**This software is pre-production and should not be deployed to production servers.**";
   "";
   ".. contents:: Table of Contents";
   "";
   "";
   ""].

(** src/util/docs.py:108-117 [INTRO] *)
Definition INTRO : string := str_join nl
  ["";
   "================================";
   "Available metrics";
   "================================";
   "";
   "**This software is pre-production and should not be deployed to production servers.**";
   "";
   ".. contents:: Table of Contents";
   "";
   ""].

(** src/util/docs.py:119-159 [METRICS_SOURCES] *)
Definition METRICS_SOURCES : string := str_join nl
  ["";
   "Metrics sources";
   "===============";
   "";
   "Check out `metrics sources documentation <metrics_sources.rst>`_ for more details how metrics ";
   "are measured and about labels/levels.";
   "";
   "For searchable list of metrics `metrics as csv file <metrics.csv>`_ .";
   "";
   "Legend	";
   "======";
   "";
   "- **Name**: is the name of metric that will be exported to Prometheus by using Prometheus ";
   "  exposition format but also the name of the key in ``Measurements`` dict-like ";
   "  type used in ``Detector`` and ``Allocator`` plugins,	";
   "- **Help**: information what metric represents and some ";
   "  details how metric was collected and known problems or limitations,	";
   "- **Unit**: unit of the metric (usually seconds or bytes),	";
   "- **Type**: only possible types are `gauge` and `counter` as described ";
   "  in `Prometheus metric types <https://prometheus.io/docs/concepts/metric_types/>`_.	";
   "- **Source**: short description about mechanics that was used to collect metric,	";
   "  for more detailed information check out `Metric sources documenation <metrics_sources.rst>`_.	";
   "- **Enabled** - column describes if metric is enabled by default and ";
   "  how to enable (option in ``MeasurementRunner`` responsible for configuring it. ";
   "  Please refer to `metrics sources documentation <metrics_sources.rst>`_ for more details.)	";
   "- **Levels/Labels** - some metrics have additional dimensions (more granularity than just ``Task`` ";
   "  or ``Platform``) e.g. ``task_mem_numa_pages`` can be collected per NUMA node - in this case	";
   "  this metrics have attached additional label like ``numa_node=0`` which creates new series in	";
   "  Prometheus nomenclature and represents more granular information about source of metric. ";
   "  When used in python API in ``Detector`` or ``Allocator`` classes this will be ";
   "  represented by nested dicts where each level have keys corresponding to " +:+ quoted "level" +:+ " (order is important).	";
   "  For example doubly nested perf uncore metrics like: ``platform_cas_count_reads`` ";
   "  have two levels: `socket` and `pmu_type` (which physically represents memory controller) ";
   "  will be encoded as::	";
   "";
   "    platform_cas_count_reads{socket=0, pmu_type=17} 12345	";
   "";
   "  and represented in Python API as::	";
   "";
   "    measurements = {'platform_cas_count_reads': {0: {17: 12345}}}	";
   ""].

(** src/util/docs.py:229-238 [__main__]: a file that has been opened is closed, also when
    the table of the metrics cannot be made. *)
Definition write_docs {W} `{FileSystem W} (components : list (string * option string)) : M W unit :=
  let written path texts :=
    _ ← fs_open_w path;
    try_finally (forM_ texts (λ text : result string, t ← lift text; fs_append path t)) (fs_close path) in
  _ ← written "docs/metrics.rst" [Ok INTRO; Ok METRICS_SOURCES; generate_docs false];
  _ ← written "docs/metrics.csv" [generate_docs true];
  written "docs/api.rst" [Ok API_INTRO; Ok (prepare_api_docs components)].

(** ** Reading the tables back *)

(** What stands between the quotes, in order. *)
Fixpoint between_quotes (pieces : list string) : list string :=
  match pieces with
  | _ :: field :: rest => field :: between_quotes rest
  | _ => []
  end.
Definition fields (text : string) : list string := between_quotes (split_on dquote text).

(** Seven fields make a row. *)
Fixpoint rows_of_fields (l : list string) : list doc_row :=
  match l with
  | a :: b :: c :: d :: e :: f :: g :: rest => mkRow a b c d e f g :: rows_of_fields rest
  | _ => []
  end.
Definition read_rows (text : string) : list doc_row := rows_of_fields (fields text).

Definition quote_free (s : string) : Prop := no_char dquote s = true.
Definition clean (r : doc_row) : Prop := Forall quote_free (row_fields r).

Lemma quote_free_app s t : quote_free (s +:+ t) ↔ quote_free s ∧ quote_free t.
Proof. unfold quote_free, no_char. by rewrite str_forallb_app, andb_true_iff. Qed.

Lemma fields_quoted pre s rest :
  quote_free pre → quote_free s → fields (pre +:+ quoted s +:+ rest) = s :: fields rest.
Proof.
  intros Hpre Hs. unfold fields, quoted.
  change (pre +:+ String dquote (s +:+ str1 dquote) +:+ rest)
    with (pre +:+ String dquote ((s +:+ str1 dquote) +:+ rest)).
  rewrite split_on_app_sep by done. rewrite str_app_assoc. cbn [str1 append].
  by rewrite split_on_app_sep.
Qed.

Lemma fields_skip pre rest : quote_free pre → fields (pre +:+ rest) = fields rest.
Proof.
  intros Hpre. unfold fields. induction pre as [|c pre IH]; [done|].
  unfold quote_free, no_char in *. cbn in Hpre |- *.
  apply andb_true_iff in Hpre as [->%negb_true_iff Hpre]. rewrite <-(IH Hpre).
  by destruct (split_on dquote (pre +:+ rest)) as [|? []] eqn:Hsp.
Qed.

Lemma fields_row pre r rest :
  quote_free pre → clean r → fields (pre +:+ row_text r +:+ rest) = row_fields r ++ fields rest.
Proof.
  intros Hpre Hr. unfold clean, row_fields in Hr. rewrite !Forall_cons in Hr. destruct_and!.
  unfold row_text. rewrite !str_app_assoc. unfold row_fields. cbn [app].
  by repeat (rewrite fields_quoted by done; f_equal).
Qed.

Lemma fields_rows sep pre data rest : quote_free sep → quote_free pre → Forall clean data →
  fields (pre +:+ str_join sep (row_text <$> data) +:+ rest) = concat (row_fields <$> data) ++ fields rest.
Proof.
  intros Hsep Hpre Hd. revert pre Hpre. induction Hd as [|r data Hr Hd IH]; intros pre Hpre.
  { by rewrite fields_skip. }
  destruct data as [|r' data].
  { cbn [fmap list_fmap str_join concat]. rewrite fields_row by done. by rewrite app_nil_r. }
  change (str_join sep (row_text <$> r :: r' :: data))
    with (row_text r +:+ sep +:+ str_join sep (row_text <$> r' :: data)).
  rewrite !str_app_assoc, fields_row, (IH sep) by done. cbn [fmap list_fmap concat]. by rewrite app_assoc.
Qed.

Lemma rows_of_row r l : rows_of_fields (row_fields r ++ l) = r :: rows_of_fields l.
Proof. by destruct r. Qed.
Lemma rows_of_rows data l : rows_of_fields (concat (row_fields <$> data) ++ l) = data ++ rows_of_fields l.
Proof.
  induction data as [|r data IH]; [done|]. cbn [fmap list_fmap concat].
  by rewrite <-(assoc_L (++)), rows_of_row, IH.
Qed.

Lemma fields_header pre rest :
  quote_free pre → fields (pre +:+ header_line +:+ rest) = row_fields header_row ++ fields rest.
Proof.
  intros Hpre. change header_line with (str_join ", " (quoted <$> row_fields header_row)).
  cbn [row_fields header_row fmap list_fmap str_join row_name row_help row_enabled row_unit row_type row_source
       row_levels app].
  rewrite !str_app_assoc. by repeat (rewrite fields_quoted by done; f_equal).
Qed.

(** A table read back is its header, where it has one, and its rows. *)
Lemma read_table pre data header csv_header rest : quote_free pre → Forall clean data →
  read_rows (pre +:+ prepare_csv_table data header csv_header +:+ rest) =
  (if header || csv_header then [header_row] else []) ++ data ++ read_rows rest.
Proof.
  intros Hpre Hd. unfold read_rows, prepare_csv_table. destruct header; [|destruct csv_header]; cbn [orb].
  - set (P := ".. csv-table::" +:+ nl +:+ str1 tab +:+ ":header: ").
    set (Q := nl +:+ str1 tab +:+ ":widths: 5, 5, 5, 5, 5, 5, 5 " +:+ nl +:+ nl +:+ str1 tab).
    transitivity (rows_of_fields (fields ((pre +:+ P) +:+ header_line +:+ Q +:+
                    str_join (nl +:+ str1 tab) (row_text <$> data) +:+ rest))).
    { unfold P, Q. by rewrite !str_app_assoc. }
    rewrite fields_header, rows_of_row by (by rewrite quote_free_app). cbn [app]. f_equal.
    rewrite fields_rows by done. by rewrite rows_of_rows.
  - rewrite !str_app_assoc, fields_header, rows_of_row by done. cbn [app]. f_equal.
    rewrite fields_rows by done. by rewrite rows_of_rows.
  - rewrite str_app_assoc. cbn [app]. change ("" +:+ ?s) with s. rewrite fields_rows by done. by rewrite rows_of_rows.
Qed.

(** The rows of one granularity, in the order of the names. *)
Definition documented (table : dict string MetricMetadata) (g : MetricGranularity) (names : list string) : list doc_row :=
  omap (λ n, match dget table n with
             | Some md => if bool_decide (md_granularity md = g) then Some (row_of n md) else None
             | None => None
             end) names.
Definition all_documented (table : dict string MetricMetadata) (names : list string) : list doc_row :=
  omap (λ n, row_of n <$> dget table n) names.

Lemma has_quotes_false md : has_quotes md = false ↔
  quote_free (md_help md) ∧ quote_free (md_enabled md) ∧ quote_free (MetricSource_value (md_source md)).
Proof.
  assert (Hq : ∀ s, has_char dquote s = false ↔ quote_free s).
  { intros s. unfold has_char, quote_free, no_char. induction s as [|c s IH]; cbn; [done|].
    destruct (ascii_eqb c dquote); cbn; [by split|]. rewrite <-IH. by destruct (find_char dquote s). }
  unfold has_quotes. rewrite !orb_false_iff, !Hq. naive_solver.
Qed.

Lemma add_row_spec metric md t t' : add_row metric md t = Ok t' ↔
  has_quotes md = false ∧
  t' = mkTables (task_data t ++ if bool_decide (md_granularity md = G_TASK) then [row_of metric md] else [])
         (platform_data t ++ if bool_decide (md_granularity md = G_PLATFORM) then [row_of metric md] else [])
         (internal_data t ++ if bool_decide (md_granularity md = G_INTERNAL) then [row_of metric md] else []).
Proof.
  unfold add_row. destruct (has_quotes md); [naive_solver|].
  destruct (md_granularity md); cbn; rewrite !app_nil_r; naive_solver.
Qed.

(** The loop puts the row of each name with metadata at the end of one table, and raises
    when it finds a quote. *)
Lemma collect_rows_from table names t t' :
  foldM (λ t metric, match dget table metric with None => Ok t | Some md => add_row metric md t end) t names = Ok t' →
  t' = mkTables (task_data t ++ documented table G_TASK names) (platform_data t ++ documented table G_PLATFORM names)
         (internal_data t ++ documented table G_INTERNAL names) ∧
  Forall (λ n, ∀ md, dget table n = Some md → has_quotes md = false) names.
Proof.
  revert t. induction names as [|n names IH]; intros t; cbn [foldM].
  { intros [= <-]. destruct t; cbn. by rewrite !app_nil_r. }
  intros (t1 & H1 & [-> Hn]%IH)%bind_Ok_iff. clear IH. unfold documented. cbn [omap list_omap].
  destruct (dget table n) as [md|] eqn:Hd.
  - apply add_row_spec in H1 as [Hq ->]. cbn [task_data platform_data internal_data]. split.
    + rewrite <-!(assoc_L (++)). by repeat case_bool_decide.
    + constructor; [|done]. intros ? Hx. rewrite Hd in Hx. by injection Hx as <-.
  - injection H1 as <-. split; [done|]. constructor; [|done]. intros ? Hx. by rewrite Hd in Hx.
Qed.

(** Each documented name has its row in exactly one of the tables. *)
Lemma documented_permutation table names :
  documented table G_TASK names ++ documented table G_PLATFORM names ++ documented table G_INTERNAL names
  ≡ₚ all_documented table names.
Proof.
  unfold documented, all_documented. induction names as [|n names IH]; [done|]. cbn [omap list_omap].
  destruct (dget table n) as [md|]; cbn [fmap option_fmap option_map]; [|done].
  rewrite <-IH. destruct (md_granularity md); cbn; solve_Permutation.
Qed.

Lemma str_join_quote_free sep l : quote_free sep → Forall quote_free l → quote_free (str_join sep l).
Proof.
  intros Hs Hl. induction Hl as [|x l Hx Hl IH]; [done|]. destruct l; [done|].
  change (quote_free (x +:+ sep +:+ str_join sep (s :: l))). by rewrite !quote_free_app.
Qed.

Lemma row_of_clean n md : quote_free n → Forall quote_free (md_levels md) → has_quotes md = false → clean (row_of n md).
Proof.
  intros Hn Hl (Hh & He & Hs)%has_quotes_false. unfold clean, row_fields, row_of; cbn.
  repeat constructor; try done.
  - by destruct (md_unit md) as [[]|].
  - by destruct (md_type md).
  - by apply str_join_quote_free.
Qed.

Lemma documented_clean table g names :
  Forall (λ n, quote_free n ∧ ∀ md, dget table n = Some md → Forall quote_free (md_levels md)) names →
  Forall (λ n, ∀ md, dget table n = Some md → has_quotes md = false) names →
  Forall clean (documented table g names).
Proof.
  intros H1 H2. unfold documented. induction names as [|n names IH]; [constructor|].
  apply Forall_cons in H1 as [[Hn Hl] H1]. apply Forall_cons in H2 as [Hq H2]. cbn [omap list_omap].
  destruct (dget table n) as [md|] eqn:Hd; [|by apply IH]. case_bool_decide; [|by apply IH].
  constructor; [|by apply IH]. apply row_of_clean; auto.
Qed.

Lemma read_section pre csv title data csv_header rest :
  quote_free pre → quote_free (generate_title title) → Forall clean data →
  read_rows (pre +:+ docs_section csv title data csv_header +:+ rest) =
  (if negb csv || csv_header then [header_row] else []) ++ data ++ read_rows rest.
Proof.
  intros Hpre Ht Hd. unfold docs_section. rewrite !str_app_assoc, <-(str_app_assoc pre).
  rewrite read_table; [|destruct csv; rewrite ?quote_free_app; done|done]. do 2 f_equal. unfold read_rows.
  rewrite <-str_app_assoc. by rewrite fields_skip.
Qed.

(** Names and levels hold no quote. *)
Definition names_ok (names : list string) (table : dict string MetricMetadata) : bool :=
  forallb (λ n, no_char dquote n &&
    match dget table n with Some md => forallb (no_char dquote) (md_levels md) | None => true end) names.
Lemma names_ok_spec names table : names_ok names table = true →
  Forall (λ n, quote_free n ∧ ∀ md, dget table n = Some md → Forall quote_free (md_levels md)) names.
Proof.
  unfold names_ok. rewrite forallb_forall, Forall_forall. intros H n Hn%list_elem_of_In. apply H in Hn.
  apply andb_true_iff in Hn as [Hn Hl]. split; [done|]. intros md Hd. rewrite Hd in Hl.
  apply Forall_forall. rewrite forallb_forall in Hl. intros l Hin%list_elem_of_In. by apply Hl.
Qed.

(** The documentation of the metrics loses none: when it is generated, no
    help, source or option holds a quote, and reading back the quoted fields of the text,
    as CSV or as page, gives a header and the row of every name that has metadata, each
    in exactly one of the three tables (of tasks, of platforms, of the agent). *)
Theorem docs_read_back names table csv t :
  Forall (λ n, quote_free n ∧ ∀ md, dget table n = Some md → Forall quote_free (md_levels md)) names →
  collect_rows names table = Ok t →
  read_rows (docs_text csv t) =
    header_row :: task_data t ++ (if csv then [] else [header_row]) ++ platform_data t ++
    (if csv then [] else [header_row]) ++ internal_data t ∧
  task_data t ++ platform_data t ++ internal_data t ≡ₚ all_documented table names ∧
  Forall (λ n, ∀ md, dget table n = Some md → has_quotes md = false) names.
Proof.
  intros Hn [-> Hq]%collect_rows_from. cbn [task_data platform_data internal_data app].
  split; [|split; [apply documented_permutation|done]].
  unfold docs_text. cbn [task_data platform_data internal_data].
  rewrite <-(str_app_nil_r (docs_section csv "Internal metrics" _ false)).
  rewrite <-2!(str_app_assoc nl nl).
  match goal with |- read_rows ?s = _ => change (read_rows ("" +:+ s) = header_row :: documented table G_TASK names ++
    (if csv then [] else [header_row]) ++ documented table G_PLATFORM names ++
    (if csv then [] else [header_row]) ++ documented table G_INTERNAL names) end.
  rewrite !read_section by (done || by apply documented_clean).
  change (read_rows "") with (@nil doc_row). rewrite app_nil_r. by destruct csv.
Qed.

Lemma docs_read_back_witness :
  generate_docs true = docs_text true <$> collect_rows MetricName.members METRICS_METADATA ∧
  ∃ t, collect_rows MetricName.members METRICS_METADATA = Ok t ∧
    read_rows (docs_text true t) = header_row :: task_data t ++ platform_data t ++ internal_data t.
Proof.
  split; [reflexivity|]. destruct (collect_rows MetricName.members METRICS_METADATA) as [t|e] eqn:Ht; [|by vm_compute in Ht].
  exists t. split; [reflexivity|]. refine (proj1 (docs_read_back MetricName.members METRICS_METADATA true t _ Ht)).
  apply names_ok_spec. vm_compute. reflexivity.
Defined.

(** *** Examples *)

(** Both texts are made; the CSV is the file [docs/metrics.csv] of the repository. *)
Example docs_generated :
  (length ∘ splitlines) <$> generate_docs true = Ok (length MetricName.members + 8)%nat ∧
  prod_map length length <$> ((λ text, (splitlines text, read_rows text)) <$> generate_docs false) =
    Ok (length MetricName.members + 28, length MetricName.members + 3)%nat.
Proof. split; vm_compute; reflexivity. Qed.

(** A line of a docstring loses its indentation, and with it whatever stands in front of
    four blanks in the middle of the line. *)
Example whitespaces_removed :
  remove_trailing_whitespaces ("    - `node`: type" +:+ nl) = "- `node`: type" +:+ nl ∧
  remove_trailing_whitespaces ("name    help" +:+ nl) = "help" +:+ nl ∧
  remove_trailing_whitespaces ("trailing   " +:+ nl) = "trailing   " +:+ nl.
Proof. repeat split; vm_compute; reflexivity. Qed.

(** A docstring of one line is written without the [rst] in front, a class without one as None. *)
Example api_docs :
  prepare_api_docs [("Node", Some "rst Nodes."); ("CgroupDriverType", Some "x"); ("B", None)] =
  "Node" +:+ nl +:+ "====" +:+ nl +:+ nl +:+ str1 tab +:+ " Nodes." +:+ nl +:+ nl +:+
  "B" +:+ nl +:+ "=" +:+ nl +:+ nl +:+ str1 tab +:+ "None" +:+ nl +:+ nl.
Proof. vm_compute. reflexivity. Qed.
