(* ===== verification/ExternalPackage.v ===== *)
(** * Examples of plugins and the manifest of the workloads

    [src/examples/external_package.py], [src/examples/http_storage.py] and
    [src/examples/workloads/common.py]: a detector and an allocator that a user may
    register, a storage behind HTTP, and the description of a pod that is made of the
    environment.  The clock, the hash of the host name, the post and the JSON parser are
    parameters. *)
From S2P Require Export Tasks Json Config.

(** ** The detector *)

Fixpoint repeat_str (n : nat) (s : string) : string :=
  match n with O => EmptyString | S n => s +:+ repeat_str n s end.

(** src/examples/external_package.py:62-95 [ExampleDetector.detect], numbers of tasks,
    resources and metrics of a phase *)
Definition phase (second_of_cycle : Z) : nat * nat * nat :=
  if second_of_cycle <? 10 then (1, 1, 1)%nat
  else if second_of_cycle <? 20 then (1, 2, 2)%nat
  else if second_of_cycle <? 30 then (1, 3, 2)%nat
  else if second_of_cycle <? 40 then (2, 2, 3)%nat
  else if second_of_cycle <? 50 then (3, 1, 1)%nat
  else (0, 0, 0)%nat.

(** src/examples/external_package.py:55-59 [ExampleDetector.detect] *)
Definition detector_resources : list ContendedResource := [CR_CPUS; LLC; MEMORY_BW].

(** [l[i:j]] *)
Definition slice {A} (i j : nat) (l : list A) : list A := take (j - i) (drop i l).

(** src/examples/external_package.py:101-108 [ExampleDetector.detect] *)
Definition detector_pairs (task_ids : list string) : result (list (string * list string)) :=
  t0 ← or_raise IndexError (task_ids !! 0%nat);
  t3 ← or_raise IndexError (task_ids !! 3%nat);
  t6 ← or_raise IndexError (task_ids !! 6%nat);
  Ok [(t0, slice 1 3 task_ids); (t3, slice 4 5 task_ids); (t6, slice 7 10 task_ids)].

(** src/examples/external_package.py:116-119 [ExampleDetector.detect]
    The value is a text: ["%d" % (i+1)*10] repeats the text of the number ten times. *)
Definition detector_metrics (metrics_count : nat) : list Metric :=
  (λ i, mkMetric ("cpu_threshold_" +:+ str_of_Z (Z.of_nat i)) (MStr (repeat_str 10 (str_of_Z (Z.of_nat i + 1))))
          [] None (Some GAUGE) None None) <$> seq 0 metrics_count.

(** src/examples/external_package.py:111-128 [ExampleDetector.detect], the two loops *)
Definition simulate (second_of_cycle : Z) (pairs : list (string * list string)) : result (list ContentionAnomaly) :=
  let '(tasks_count, resources_count, metrics_count) := phase second_of_cycle in
  @concat _ <$> mapM (λ resource_idx,
    mapM (λ task_pair_idx,
      pair ← or_raise IndexError (pairs !! task_pair_idx);
      resource ← or_raise IndexError (detector_resources !! resource_idx);
      Ok (mkContentionAnomaly resource pair.1 pair.2 (detector_metrics metrics_count)))
    (seq 0 tasks_count)) (seq 0 resources_count).

Record ExampleDetector := mkExampleDetector { cycle_length : Z; skew : bool }.

Section detector.
  Context {W : Type} (time : M W float) (host_digest : list Z).

(** src/examples/external_package.py:44-50 [ExampleDetector.detect] *)
Definition second_of_cycle (self : ExampleDetector) (t : float) : result Z :=
  let phase_skew := if skew self then foldr Z.add 0 host_digest else 0 in
  moment ← nadd (PFloat t) (PInt phase_skew);
  seconds ← num_trunc moment;
  if cycle_length self =? 0 then Raise ZeroDivisionError else Ok (seconds mod cycle_length self).

Definition second_metric (second : Z) : Metric :=
  mkMetric "second_of_cycle" (MNum (PInt second)) [] None (Some GAUGE) None None.

(** src/examples/external_package.py:36-140 [ExampleDetector.detect] *)
Definition example_detect (self : ExampleDetector) (tasks_data : TasksData) : M W (list ContentionAnomaly * list Metric) :=
  t ← time;
  second ← lift (second_of_cycle self t);
  anomalies ← lift (if (10 <=? length tasks_data)%nat
                    then pairs ← detector_pairs (py_sorted String.ltb (dkeys tasks_data)); simulate second pairs
                    else Ok []);
  mret (anomalies, [second_metric second]).
End detector.

(** ** The allocator *)

(** src/examples/external_package.py:145-155 [ExampleAllocator.allocate]
    It returns the data of the tasks, not allocations. *)
Definition example_allocate (tasks_data : TasksData) : TasksData :=
  match tasks_data with
  | [] => tasks_data
  | (task_id, data) :: rest =>
      (task_id, mkTaskData (td_task data) (td_measurements data)
        (Some [(QUOTA, RawNum (PFloat (float_of_ratio 1 2)));
               (RDT, RawRDT (mkRDTAllocation None (Some "L3:0=ffff0;1=ffff0") None))])) :: rest
  end.

(** ** Storage behind HTTP *)

(** src/examples/http_storage.py:28-37 [HTTPStorage.store]
    [post] sends a dictionary to the endpoint; of metrics with the same name the last one
    is sent.  Time-outs and refused connections are logged and dropped. *)
Definition http_store {W} (post : string → dict string mval → M W unit) (http_endpoint : string)
    (metrics : list Metric) : M W unit :=
  try_except (post http_endpoint (dict_of ((λ m, (m_name m, m_value m)) <$> metrics)))
    (λ e, if bool_decide (e = OtherException "ReadTimeout") || bool_decide (e = OtherException "ConnectionError")
          then Some (mret tt) else None).

(** ** The manifest of a workload *)

(** What the script of a workload appends: containers that run before it, mounts and words
    of its command. *)
Record additions := mkAdditions { ad_init : list json; ad_mounts : list json; ad_command : list string }.

Section manifest.
  Context (getenv : string → option string) (loads : string → result json).

Definition env_or (name default_value : string) : string := default default_value (getenv name).
(** A text in front of or behind [None] is a [TypeError]. *)
Definition env_text (name : string) : result string := or_raise TypeError (getenv name).
Definition json_env (name : string) : json := match getenv name with Some s => JStr s | None => JNull end.

(** ['replace('_', '-').replace('.', '-')'] *)
Definition dashed (s : string) : string := str_replace "." "-" (str_replace "_" "-" s).

(** src/examples/workloads/common.py:24-24 [workload_version_name] *)
Definition workload_version_name : string := env_or "workload_version_name" "default".

(** src/examples/workloads/common.py:72-90 [wrapper_labels] *)
Definition base_labels (workload_instance : string) : dict string json :=
  [("workload_name", json_env "workload_name");
   ("workload_version_name", JStr workload_version_name);
   ("workload_instance", JStr workload_instance);
   ("replica_index", match getenv "replica_index" with Some s => JStr s | None => JNum (PInt 0) end);
   ("name", json_env "job_name");
   ("job_name", json_env "job_name");
   ("application", json_env "application");
   ("application_version_name", JStr (env_or "application_version_name" workload_version_name));
   ("load_generator", json_env "load_generator");
   ("job_uniq_id", json_env "job_uniq_id");
   ("env_uniq_id", json_env "env_uniq_id");
   ("own_ip", json_env "own_ip");
   ("application_host_ip", json_env "application_host_ip");
   ("load_generator_host_ip", json_env "load_generator_host_ip")].

(** src/examples/workloads/common.py:69-91 [wrapper_labels]
    The extra labels are an object of JSON; another value that is no sequence of pairs is
    an error of [update]. *)
Definition wrapper_labels : result (dict string json) :=
  extra_labels ← loads (env_or "labels" "{}");
  workload_name ← env_text "workload_name";
  env_uniq_id ← env_text "env_uniq_id";
  job_uniq_id ← env_text "job_uniq_id";
  let labels := base_labels (str_join "--" [workload_name; workload_version_name; env_uniq_id; job_uniq_id]) in
  match extra_labels with
  | JObj d => Ok (dupdate labels d)
  | _ => Raise TypeError
  end.

(** src/examples/workloads/common.py:60-63 [pod_naming] *)
Definition pod_naming : result string :=
  let naming := env_or "k8s_pod_naming" "short" in
  if bool_decide (naming ∈ ["short"; "full"]) then Ok naming else Raise AssertionError.

(** src/examples/workloads/common.py:36-36 [role] *)
Definition role : option string := match getenv "role" with Some r => Some r | None => getenv "USER" end.

(** src/examples/workloads/common.py:116-120 [limits] *)
Definition limits : json :=
  JObj [("cpu", JStr (env_or "cpu" "1")); ("memory", JStr (env_or "ram" "1" +:+ "Gi"));
        ("ephemeral-storage", JStr (env_or "disk" "1" +:+ "Gi"))].

(** src/examples/workloads/common.py:127-137 [containers] *)
Definition container_json (name image : string) (volumeMounts : list json) (command : list string) : json :=
  JObj [("name", JStr name); ("image", JStr image); ("resources", JObj [("limits", limits)]);
        ("securityContext", JObj [("runAsUser", JNum (PInt 0))]); ("volumeMounts", JList volumeMounts);
        ("command", JList (JStr <$> ["sh"; "-c"] ++ command))].

(** src/examples/workloads/common.py:139-142 [pod_name] *)
Definition pod_name (naming env_uniq_id container_name : string) : result string :=
  let name := env_uniq_id +:+ "--" +:+ container_name in
  if String.eqb naming "full"
  then r ← or_raise TypeError role; Ok (env_or "cluster" "example" +:+ "--" +:+ r +:+ "--" +:+ name)
  else Ok name.

(** src/examples/workloads/common.py:144-163 [pod] *)
Definition pod_json (name : string) (labels : dict string json) (container : json) (initContainers : list json) : json :=
  JObj [("apiVersion", JStr "v1"); ("kind", JStr "Pod");
        ("metadata", JObj [("namespace", JStr (env_or "k8s_namespace" "default")); ("name", JStr name);
                           ("labels", JObj labels)]);
        ("spec", JObj [("volumes", JList [JObj [("name", JStr "shared-data")]]); ("hostNetwork", JBool true);
                       ("initContainers", JList initContainers); ("containers", JList [container]);
                       ("nodeSelector", JObj [("own_ip", json_env "own_ip")])])].

(** src/examples/workloads/common.py:127-142 [containers, pod_name]
    The module from its first line to its last, where what raises does so in this order,
    and then the script of a workload, which appends to the lists that the pod shares. *)
Definition manifest (script : dict string json → result additions) : result json :=
  env_uniq_id ← env_text "env_uniq_id";
  naming ← pod_naming;
  labels ← wrapper_labels;
  job_name ← or_raise AttributeError (getenv "job_name");
  image_name ← env_text "image_name";
  image_tag ← env_text "image_tag";
  name ← pod_name naming env_uniq_id (dashed job_name);
  more ← script labels;
  Ok (pod_json name labels
        (container_json (dashed job_name) (image_name +:+ ":" +:+ image_tag) (ad_mounts more) (ad_command more))
        (ad_init more)).
End manifest.

(** src/examples/workloads/common.py:100-103 [AddMetadata.pre_create_job]
    [add_metadata] is the method of the configuration of the job. *)
Definition pre_create_job {C} (add_metadata : string → json → C → C) (labels : dict string json) (config : C) : C :=
  foldl (λ c kv, add_metadata kv.1 kv.2 c) config labels.

(** src/examples/workloads/common.py:106-107 [dedent], behind [textwrap.dedent] *)
Definition dedent (textwrap_dedent : string → string) (s : string) : string :=
  str_replace "'" (String "034" "") (str_replace newline " " (textwrap_dedent s)).

(** ** Theorems *)

(** With ten tasks there are three pairs, of tasks of the input, and no task contends with
    itself. *)
Lemma detector_pairs_ok l : (10 ≤ length l)%nat → NoDup l →
  ∃ p0 p1 p2, detector_pairs l = Ok [p0; p1; p2] ∧
    Forall (λ p : string * list string, p.1 ∈ l ∧ p.2 ⊆ l ∧ p.1 ∉ p.2 ∧ p.2 ≠ []) [p0; p1; p2].
Proof.
  intros Hl Hnd. do 10 (destruct l as [|? l]; [cbn in Hl; lia|]). cbn. eexists _, _, _. split; [reflexivity|].
  rewrite !NoDup_cons in Hnd. destruct_and!. repeat (apply Forall_cons; split); [..|constructor]; cbn;
    (split; [set_solver|split; [set_solver|split; [set_solver|done]]]).
Qed.

(** In every phase there is an anomaly for each of its tasks and resources. *)
Lemma simulate_spec second p0 p1 p2 : ∃ anomalies,
  simulate second [p0; p1; p2] = Ok anomalies ∧
  (length anomalies = (phase second).1.1 * (phase second).1.2)%nat ∧
  Forall (λ a, ∃ p, p ∈ [p0; p1; p2] ∧ contended_task_id a = p.1 ∧ contending_task_ids a = p.2 ∧
                    length (an_metrics a) = (phase second).2) anomalies.
Proof.
  unfold simulate, phase. repeat match goal with |- context [if ?b then _ else _] => destruct b end;
    (eexists; split; [reflexivity|split; [reflexivity|]]); cbn;
    repeat (apply Forall_cons; split); try apply Forall_nil; try done;
    eexists; (split; [|done]); set_solver.
Qed.

(** With ten tasks, the detector never raises but for the moment of the cycle; as many
    anomalies as the phase has are about tasks it was given, and none blames a task for its
    own contention. *)
Theorem example_detect_anomalies {W} (time : M W float) digest self (tasks_data : TasksData) w t second :
  (10 <= length tasks_data)%nat → dict_wf tasks_data → time w = (Ok t, w) →
  second_of_cycle digest self t = Ok second →
  ∃ anomalies, example_detect time digest self tasks_data w = (Ok (anomalies, [second_metric second]), w) ∧
    (length anomalies = (phase second).1.1 * (phase second).1.2)%nat ∧
    Forall (λ a, contended_task_id a ∈ dkeys tasks_data ∧ contending_task_ids a ⊆ dkeys tasks_data ∧
                 contended_task_id a ∉ contending_task_ids a ∧ contending_task_ids a ≠ []) anomalies ∧
    (0 < cycle_length self → 0 <= second < cycle_length self).
Proof.
  intros Hl Hwf Ht Hs. set (l := py_sorted String.ltb (dkeys tasks_data)).
  assert (Hp : l ≡ₚ dkeys tasks_data) by apply py_sorted_Permutation.
  destruct (detector_pairs_ok l) as (p0 & p1 & p2 & Hpairs & Hall).
  { rewrite Hp. unfold dkeys. by rewrite length_fmap. }
  { by rewrite Hp. }
  destruct (simulate_spec second p0 p1 p2) as (anomalies & Hsim & Hlen & Hfa). exists anomalies. split.
  { apply Nat.leb_le in Hl. unfold example_detect. apply M_bind_Ok_iff. exists t, w. split; [done|].
    apply M_bind_Ok_iff. exists second, w. split; [by rewrite Hs|].
    apply M_bind_Ok_iff. exists anomalies, w. split; [|done]. rewrite Hl. fold l. rewrite Hpairs.
    change (lift (simulate second [p0; p1; p2]) w = (Ok anomalies, w)). by rewrite Hsim. }
  split; [done|]. split.
  - eapply Forall_impl; [exact Hfa|]. intros a (p & Hin & -> & -> & _).
    rewrite Forall_forall in Hall. destruct (Hall p Hin) as (H1 & H2 & H3 & H4).
    assert (Hin' : ∀ x, x ∈ l → x ∈ dkeys tasks_data) by (intros x; by rewrite Hp).
    split; [by apply Hin'|]. split; [|done]. intros x Hx. by apply Hin', H2.
  - unfold second_of_cycle in Hs. apply bind_Ok_iff in Hs as (m & _ & Hs).
    apply bind_Ok_iff in Hs as (z & _ & Hs). destruct (cycle_length self =? 0); [done|].
    injection Hs as <-. intros Hc. by apply Z.mod_pos_bound.
Qed.

Definition example_detector : ExampleDetector := mkExampleDetector 90 false.
Definition example_tasks : TasksData :=
  (λ id, (id, mkTaskData (mkTask id id "/" [] [] []) [] None)) <$>
  ["j"; "i"; "h"; "g"; "f"; "e"; "d"; "c"; "b"; "a"].

Lemma example_detect_anomalies_witness :
  ∃ anomalies, example_detect (mret (float_of_ratio 100 1)) [] example_detector example_tasks ()
                 = (Ok (anomalies, [second_metric 10]), ()) ∧ (length anomalies = 1 * 2)%nat.
Proof.
  destruct (example_detect_anomalies (W := unit) (mret (float_of_ratio 100 1)) [] example_detector example_tasks ()
              (float_of_ratio 100 1) 10) as (anomalies & H & Hl & _); [cbn; lia| |reflexivity|vm_compute; reflexivity|].
  { apply (bool_decide_unpack _). vm_compute. exact I. }
  exists anomalies. split; [exact H|exact Hl].
Defined.

(** The threshold of the second metric is the text of 2 ten times, not 20. *)
Example threshold_repeated :
  (λ m, (m_name m, m_value m)) <$> detector_metrics 2 =
  [("cpu_threshold_0", MStr "1111111111"); ("cpu_threshold_1", MStr "2222222222")].
Proof. reflexivity. Qed.

(** What the example allocator returns for a task is not of the type the runner checks. *)
Definition TasksAllocations_ty : ty :=
  TyDict (TyClass "str") (TyDict (TyClass "AllocationType")
    (TyUnion [TyClass "float"; TyClass "int"; TyClass "RDTAllocation"; TyClass "str"])).
Example example_allocate_rejected :
  assure_type (λ _ _, true) TasksAllocations_ty (VDict [(VStr "task", VObj "TaskData" ["Task"])]) = Raise ValidationError ∧
  assure_type (λ _ _, true) TasksAllocations_ty (VDict []) = Ok tt.
Proof. split; reflexivity. Qed.

(** *** The manifest *)

Lemma str_join_keeps_char c b ws :
  no_char c b = true → Forall (λ w, no_char c w = true) ws → no_char c (str_join b ws) = true.
Proof.
  intros Hb Hw. induction Hw as [|w ws Hw Hws IH]; [done|]. destruct ws as [|w' ws]; [done|].
  change (no_char c (w +:+ b +:+ str_join b (w' :: ws)) = true). unfold no_char in *.
  by rewrite !str_forallb_app, Hw, Hb, IH.
Qed.

Lemma split_on_keeps_char c a s : no_char c s = true → Forall (λ w, no_char c w = true) (split_on a s).
Proof.
  unfold no_char. induction s as [|x s IH]; cbn; [by repeat constructor|].
  intros [Hx Hs]%andb_true_iff. specialize (IH Hs). destruct (ascii_eqb x a); [by constructor|].
  destruct (split_on a s) as [|w ws]; [repeat constructor; cbn; by rewrite Hx|].
  apply Forall_cons in IH as [Hw Hws]. constructor; [|done]. cbn. by rewrite Hx, Hw.
Qed.

(** Neither underscore nor dot is left in the name of the container. *)
Lemma dashed_clean s : no_char "_" (dashed s) = true ∧ no_char "." (dashed s) = true.
Proof.
  unfold dashed, str_replace at 1 3. split; apply str_join_keeps_char; try done.
  - apply split_on_keeps_char, str_join_keeps_char; [done|]. apply split_on_words_no_char.
  - apply split_on_words_no_char.
Qed.

Lemma or_raise_is_Ok {A} e (o : option A) x : or_raise e o = Ok x ↔ o = Some x.
Proof. destruct o; naive_solver. Qed.

(** The manifest is made exactly when, besides its script, the variables that name the workload,
    its job and its image are set, the kind of names is known, the full name has a role, and the extra
    labels are an object of JSON. *)
Theorem manifest_made_iff getenv loads script :
  (∀ labels, ∃ more, script labels = Ok more) →
  (∃ pod, manifest getenv loads script = Ok pod) ↔
  Forall (λ name, is_Some (getenv name))
    ["env_uniq_id"; "workload_name"; "job_uniq_id"; "job_name"; "image_name"; "image_tag"] ∧
  env_or getenv "k8s_pod_naming" "short" ∈ ["short"; "full"] ∧
  (env_or getenv "k8s_pod_naming" "short" = "full" → is_Some (role getenv)) ∧
  (∃ d, loads (env_or getenv "labels" "{}") = Ok (JObj d)).
Proof.
  intros Hs. unfold manifest, wrapper_labels, env_text, pod_naming, pod_name.
  rewrite !Forall_cons, Forall_nil. split.
  - intros (pod & (e & ->%or_raise_is_Ok & H)%bind_Ok_iff). case_bool_decide as Hn; [|done].
    apply bind_Ok_iff in H as (naming & [= <-] & H).
    apply bind_Ok_iff in H as (labels & (x & Hx & Hl)%bind_Ok_iff & H).
    apply bind_Ok_iff in Hl as (w & ->%or_raise_is_Ok & Hl). apply bind_Ok_iff in Hl as (e' & _ & Hl).
    apply bind_Ok_iff in Hl as (ju & ->%or_raise_is_Ok & Hl).
    apply bind_Ok_iff in H as (jn & ->%or_raise_is_Ok & H). apply bind_Ok_iff in H as (im & ->%or_raise_is_Ok & H).
    apply bind_Ok_iff in H as (tag & ->%or_raise_is_Ok & H). apply bind_Ok_iff in H as (name & Hname & _).
    split; [by eauto 10|]. split; [done|]. split.
    + intros Hf. rewrite Hf in Hname. cbn in Hname.
      apply bind_Ok_iff in Hname as (r & ->%or_raise_is_Ok & _). by eexists.
    + destruct x; try done. by eexists.
  - intros (([e He] & [w Hw] & [ju Hju] & [jn Hjn] & [im Him] & [tag Htag] & _) & Hn & Hr & [d Hd]).
    rewrite He, Hw, Hju, Hjn, Him, Htag, bool_decide_eq_true_2 by done. cbn. rewrite Hd. cbn.
    match goal with |- context [script ?l] => destruct (Hs l) as [more ->] end.
    destruct (String.eqb_spec (env_or getenv "k8s_pod_naming" "short") "full") as [Hf|]; cbn; [|by eexists].
    destruct (Hr Hf) as [r ->]. by eexists.
Qed.

Definition example_env (name : string) : option string :=
  dget [("env_uniq_id", "12"); ("workload_name", "redis"); ("job_uniq_id", "3"); ("job_name", "redis_memtier.1");
        ("image_name", "wca/redis"); ("image_tag", "0.9"); ("k8s_pod_naming", "full"); ("USER", "root")] name.
Definition example_loads (text : string) : result json :=
  if String.eqb text "{}" then Ok (JObj []) else Raise ValueError.

Definition no_additions (_ : dict string json) : result additions := Ok (mkAdditions [] [] []).

Example manifest_example :
  (pod ← manifest example_env example_loads no_additions; m ← jitem pod "metadata"; jitem m "name") =
    Ok (JStr "example--root--12--redis-memtier-1") ∧
  manifest (λ name, if String.eqb name "image_tag" then None else example_env name) example_loads no_additions = Raise TypeError ∧
  manifest (λ name, if String.eqb name "k8s_pod_naming" then Some "long" else example_env name) example_loads no_additions =
    Raise AssertionError.
Proof. repeat split; vm_compute; reflexivity. Qed.

(** Metrics of the same name are sent once, and a refused connection is not an error. *)
Example http_store_last :
  http_store (λ _ d, λ _, (Ok tt, Some d)) "http://127.0.0.1:8000"
    [mkMetric "a" (MNum (PInt 1)) [("task", "x")] None None None None;
     mkMetric "a" (MNum (PInt 2)) [("task", "y")] None None None None] None =
    (Ok tt, Some [("a", MNum (PInt 2))]) ∧
  http_store (λ _ d, raise (OtherException "ConnectionError")) "" [] () = (Ok tt, ()).
Proof. split; reflexivity. Qed.
