(* ===== verification/Wrapper.v ===== *)
(** * The benchmark wrapper

    [src/examples/workloads/wrapper/wrapper/parser.py] and [wrapper_main.py]: the loop
    that reads the output of a workload with a parser, adds the service level metrics and
    stores them with retries.  The output of the workload is the list of the lines still
    to read, each with its newline; [readline] gives the empty string at the end.  What
    is printed on the console is left out. *)
From S2P Require Export Regex PyFloat Metrics Storage.

Definition StopIteration : exn := OtherException "StopIteration".

(** [Metric(name, value, labels=labels, type=..., help=...)] *)
Definition new_metric (name : string) (value : num) (labels : dict string string)
    (type : option MetricType) (help : option string) : Metric :=
  mkMetric name (MNum value) labels None type help None.

Definition readline : M (list string) string :=
  λ ls, match ls with [] => (Ok "", []) | l :: ls => (Ok l, ls) end.

(** src/examples/workloads/wrapper/wrapper/parser.py:38-45 [readline_with_check] *)
Definition readline_with_check (EOF_line : string) : M (list string) string :=
  new_line ← readline;
  if String.eqb new_line EOF_line then raise StopIteration else mret new_line.

(** [while not stop(new_line): input_lines.append(new_line); new_line = readline_with_check(input)] *)
Fixpoint read_until (stop : string → bool) (new_line : string) (input_lines ls : list string)
    : result (string * list string) * list string :=
  if stop new_line then (Ok (new_line, input_lines), ls)
  else match ls with
       | [] => (Raise StopIteration, [])
       | l :: ls => if String.eqb l "" then (Raise StopIteration, ls)
                    else read_until stop l (input_lines ++ [new_line]) ls
       end.

(** ** The default parser *)

(** The named groups of a pattern: the keys of [groupdict]. *)
Fixpoint group_names (r : regex) : list string :=
  match r with
  | RSeq a b | RAlt a b => group_names a ++ group_names b
  | RStar _ a => group_names a
  | RGroup name a => name :: group_names a
  | _ => []
  end.

(** [groupdict()[name]] used as a string: [None] for a group outside the match *)
Definition group_str (r : regex) (g : groups) (name : string) : result string :=
  match dget g name with
  | Some s => Ok s
  | None => Raise (if decide (name ∈ group_names r) then TypeError else KeyError)
  end.

(** [\w] *)
Definition is_word (c : ascii) : bool :=
  match digit_val c with Some _ => true | None => ascii_eqb c "_" end.

(** src/examples/workloads/wrapper/wrapper/parser.py:33-33 [DEFAULT_REGEXP] *)
Definition DEFAULT_REGEXP : regex :=
  rseqs [RGroup "name" (RSeq (RClass is_word) (rlazy (RClass is_word))); rchar "=";
         RGroup "value" (rseqs [rdigit; rlazy rdigit; ropt rany; rstar rdigit])].

(** src/examples/workloads/wrapper/wrapper/parser.py:78-84 [default_parse] *)
Definition found_metrics (regexp : regex) (labels : dict string string) (metric_name_prefix text : string)
    : result (list Metric) :=
  mapM (λ metric,
    name ← group_str regexp metric "name";
    text ← group_str regexp metric "value";
    value ← py_float text;
    Ok (new_metric (metric_name_prefix +:+ name) (PFloat value) labels None None))
  (re_finditer regexp text).

(** src/examples/workloads/wrapper/wrapper/parser.py:48-84 [default_parse] *)
Definition default_parse (regexp : regex) (separator : option regex) (labels : dict string string)
    (metric_name_prefix : string) : M (list string) (list Metric) :=
  new_line ← readline_with_check "";
  input_lines ←
    match separator with
    | Some separator =>
        '(_, input_lines) ← read_until (λ l, bool_decide (is_Some (re_match separator l)) || String.eqb l "")
                              new_line [];
        mret input_lines
    | None => mret [new_line]
    end : M (list string) (list string);
  lift (found_metrics regexp labels metric_name_prefix (str_join (str1 newline) input_lines)).

(** ** Service level metrics *)

(** src/examples/workloads/wrapper/wrapper/parser.py:105-108 [ServiceLevelArgs] *)
Record ServiceLevelArgs := mkServiceLevelArgs {
  slo : float;
  sli_metric_name : option string;
  inverse_sli_metric_value : bool;
  peak_load : option Z;
  load_metric_name : option string
}.

(** [float(metric.value)] and [float(peak_load)] *)
Definition float_of_value (v : mval) : result float :=
  match v with MNum n => to_float n | _ => Raise TypeError end.
Definition float_of_peak (p : option Z) : result float :=
  match p with Some z => float_of_Z z | None => Raise TypeError end.

Section service_level.
  Context (args : ServiceLevelArgs) (labels : dict string string).

Definition append (m : Metric) : M (list Metric) unit := modify (λ metrics, metrics ++ [m]).

Definition fone : float := float_of_ratio 1 1.

(** src/examples/workloads/wrapper/wrapper/parser.py:118-148 [append_service_level_metrics] *)
Definition append_sli (name : string) (metric : Metric) : M (list Metric) unit :=
  value ← lift (v ← float_of_value (m_value metric);
                if inverse_sli_metric_value args then fdiv fone v else Ok v);
  _ ← append (new_metric "slo" (PFloat (slo args)) labels (Some GAUGE)
                (Some ("Service Level Objective based on " +:+ name +:+ " metric")));
  _ ← append (new_metric "sli" (PFloat value) labels (Some GAUGE)
                (Some ("Service Level Indicator based on " +:+ name +:+ " metric")));
  normalized ← lift (fdiv value (slo args));
  append (new_metric "sli_normalized" (PFloat normalized) labels (Some GAUGE)
            (Some ("Normalized Service Level Indicator based on " +:+ name +:+ " metric and SLO"))).

(** src/examples/workloads/wrapper/wrapper/parser.py:151-159 [append_service_level_metrics] *)
Definition append_load (metric : Metric) : M (list Metric) unit :=
  value ← lift (float_of_value (m_value metric));
  peak_load ← lift (float_of_peak (peak_load args));
  _ ← append (new_metric "peak_load" (PFloat peak_load) labels None None);
  _ ← append (new_metric "load" (PFloat value) labels None None);
  normalized ← lift (fdiv value peak_load);
  append (new_metric "load_normalized" (PFloat normalized) labels None None).

Definition is_sli (name : string) : bool := bool_decide (sli_metric_name args = Some name).
Definition is_load (name : string) : bool :=
  bool_decide (load_metric_name args = Some name) && negb (String.eqb name "const").

(** src/examples/workloads/wrapper/wrapper/parser.py:118-159 [append_service_level_metrics]
    The body of the loop. *)
Definition service_level_step (metric : Metric) : M (list Metric) unit :=
  _ ← (if is_sli (m_name metric) then append_sli (m_name metric) metric else mret tt);
  if is_load (m_name metric) then append_load metric else mret tt.

(** src/examples/workloads/wrapper/wrapper/parser.py:161-167 [append_service_level_metrics] *)
Definition append_const : M (list Metric) unit :=
  if decide (load_metric_name args = Some "const") then
    peak_load ← lift (float_of_peak (peak_load args));
    _ ← append (new_metric "peak_load" (PFloat peak_load) labels None None);
    _ ← append (new_metric "load" (PFloat peak_load) labels None None);
    append (new_metric "load_normalized" (PFloat fone) labels None None)
  else mret tt.

(** src/examples/workloads/wrapper/wrapper/parser.py:117-159 [append_service_level_metrics]
    [for metric in metrics], which reads the list by position while the body appends to
    it; [None] when [n] steps do not finish it. *)
Fixpoint service_level_loop (n i : nat) (metrics : list Metric) : option (result unit * list Metric) :=
  match n with
  | O => None
  | S n =>
      match metrics !! i with
      | None => Some (Ok tt, metrics)
      | Some metric =>
          match service_level_step metric metrics with
          | (Ok _, metrics) => service_level_loop n (S i) metrics
          | (Raise e, metrics) => Some (Raise e, metrics)
          end
      end
  end.

(** src/examples/workloads/wrapper/wrapper/parser.py:111-167 [append_service_level_metrics] *)
Definition append_service_level_metrics (n : nat) (metrics : list Metric) : option (result unit * list Metric) :=
  match service_level_loop n 0 metrics with
  | Some (Ok _, metrics) => Some (append_const metrics)
  | r => r
  end.
End service_level.

(** ** Storing with retries, and the loop *)
Section parse_loop.
  (** the storage and the clock; the output of the workload with the state of the parser *)
  Context {W I : Type}.
  Context (sleep : Z → M W unit).

(** src/examples/workloads/wrapper/wrapper/parser.py:35-35 [MAX_ATTEMPTS] *)
Definition MAX_ATTEMPTS : nat := 5.

(** src/examples/workloads/wrapper/wrapper/parser.py:91-102 [store_with_retry]
    The attempts that are left. *)
Fixpoint store_attempts (store : list Metric → M W unit) (metrics : list Metric) (attempts : list nat) (backoff_delay : Z) : M W unit :=
  match attempts with
  | [] => mret tt
  | attempt :: attempts =>
      try_except (store metrics ≫= λ _, mret false)
        (λ e, if decide (e = FailedDeliveryException) then
                Some (if (attempt =? MAX_ATTEMPTS - 1)%nat then raise e
                      else sleep backoff_delay ≫= λ _, mret true)
              else None)
      ≫= λ again : bool, if again then store_attempts store metrics attempts (backoff_delay * 2) else mret tt
  end.

(** src/examples/workloads/wrapper/wrapper/parser.py:87-102 [store_with_retry] *)
Definition store_with_retry (store : list Metric → M W unit) (metrics : list Metric) : M W unit :=
  store_attempts store metrics (seq 0 MAX_ATTEMPTS) 1.

(** The attributes of the function that the HTTP server reads, the parser and the rest. *)
Record loop_state := mkLoopState {
  lp_metrics : list Metric;
  lp_last_valid : list Metric;
  lp_input : I;
  lp_world : W;
  lp_interrupted : bool
}.

Context (storage : option (list Metric → M W unit)) (parse : M I (list Metric)).
Context (append_func : list Metric → option (result unit * list Metric)).

(** src/examples/workloads/wrapper/wrapper/parser.py:179-189 [parse_loop]
    One pass of the loop; [None] when the appending does not end. *)
Definition parse_step (s : loop_state) : option (result unit * loop_state) :=
  match parse (lp_input s) with
  | (Raise e, i) => Some (Raise e, mkLoopState (lp_metrics s) (lp_last_valid s) i (lp_world s) (lp_interrupted s))
  | (Ok metrics, i) =>
      match metrics with
      | [] => Some (Ok tt, mkLoopState [] (lp_last_valid s) i (lp_world s) (lp_interrupted s))
      | _ =>
          match append_func metrics with
          | None => None
          | Some (Raise e, metrics) =>
              Some (Raise e, mkLoopState metrics (lp_last_valid s) i (lp_world s) (lp_interrupted s))
          | Some (Ok _, metrics) =>
              let '(r, w) := match storage with
                             | Some store => store_with_retry store metrics (lp_world s)
                             | None => (Ok tt, lp_world s)
                             end in
              Some (r, mkLoopState metrics metrics i w (lp_interrupted s))
          end
      end
  end.

(** src/examples/workloads/wrapper/wrapper/parser.py:178-193 [parse_loop]
    [n] passes: [None] when the loop is still running, or stuck. *)
Fixpoint parse_passes (n : nat) (s : loop_state) : option (exn * loop_state) :=
  match n with
  | O => None
  | S n =>
      match parse_step s with
      | None => None
      | Some (Raise e, s) => Some (e, mkLoopState (lp_metrics s) (lp_last_valid s) (lp_input s) (lp_world s) true)
      | Some (Ok _, s) => parse_passes n s
      end
  end.

(** src/examples/workloads/wrapper/wrapper/parser.py:170-193 [parse_loop] *)
Definition parse_loop (n : nat) (input : I) (w : W) : option (exn * loop_state) :=
  parse_passes n (mkLoopState [] [] input w false).
End parse_loop.
Arguments loop_state : clear implicits.

(** ** The arguments of the wrapper *)
Definition SystemExit : exn := OtherException "SystemExit".

Inductive wrapper_storage := KafkaBrokers (brokers_ips : list string) | LogFile (filename : option string).

(** src/examples/workloads/wrapper/wrapper/wrapper_main.py:42-50 [main]
    The service level arguments; [exit(1)] when only one of the name of the load and the
    peak load is given. *)
Definition service_level_args (slo : float) (sli_metric_name : option string) (inverse_sli_metric_value : bool)
    (peak_load : option Z) (load_metric_name : option string) : result ServiceLevelArgs :=
  if bool_decide (is_Some load_metric_name ∧ is_Some peak_load) ||
     bool_decide (load_metric_name = None ∧ peak_load = None) then
    Ok (mkServiceLevelArgs slo sli_metric_name inverse_sli_metric_value peak_load load_metric_name)
  else Raise SystemExit.

(** src/examples/workloads/wrapper/wrapper/wrapper_main.py:77-84 [main] *)
Definition choose_storage (kafka_brokers : string) (storage_output_filename : option string) : wrapper_storage :=
  let kafka_brokers_addresses := split_on "," (str_replace " " "" kafka_brokers) in
  if decide (kafka_brokers_addresses = [""]) then LogFile storage_output_filename
  else KafkaBrokers kafka_brokers_addresses.

(** A load that is asked for has a peak. *)
Lemma service_level_args_peak slo sli inv peak load args name :
  service_level_args slo sli inv peak load = Ok args → load_metric_name args = Some name →
  ∃ z, peak_load args = Some z.
Proof.
  unfold service_level_args. destruct load as [l|], peak as [z|]; cbn; intros [= <-]; cbn; eauto; done.
Qed.

(** ** Lemmas on the input *)

(** What a parser leaves of the lines. *)
Definition consumes (parse : M (list string) (list Metric)) : Prop :=
  ∀ ls ms ls', parse ls = (Ok ms, ls') → (length ls' < length ls)%nat.

Lemma readline_with_check_Ok EOF_line ls l ls' :
  readline_with_check EOF_line ls = (Ok l, ls') →
  l ≠ EOF_line ∧ (ls = l :: ls' ∨ ls = [] ∧ ls' = [] ∧ l = "").
Proof.
  unfold readline_with_check, readline, mbind, M_bind. destruct ls as [|l0 ls];
    match goal with |- context [String.eqb ?x ?y] => destruct (String.eqb_spec x y) end;
    intros [= <- <-]; eauto.
Qed.

Lemma readline_with_check_shorter ls l ls' :
  readline_with_check "" ls = (Ok l, ls') → ls = l :: ls'.
Proof. intros [Hne [?|(? & ? & ->)]]%readline_with_check_Ok; done. Qed.

Lemma read_until_unfold stop new_line lines ls :
  read_until stop new_line lines ls =
  (if stop new_line then mret (new_line, lines)
   else readline_with_check "" ≫= λ l, read_until stop l (lines ++ [new_line])) ls.
Proof.
  destruct ls as [|l ls]; cbn; destruct (stop new_line); try done;
    unfold readline_with_check, readline, mbind, M_bind; cbn.
  by destruct (String.eqb l "").
Qed.

(** The lines of the block, the one that ends it and what is left are the lines read. *)
Lemma read_until_Ok stop new_line lines ls l lines' ls' :
  read_until stop new_line lines ls = (Ok (l, lines'), ls') →
  stop l = true ∧ ∃ block, lines' = lines ++ block ∧ Forall (λ x, stop x = false) block ∧
  new_line :: ls = block ++ l :: ls'.
Proof.
  revert new_line lines. induction ls as [|l0 ls IH]; intros new_line lines; cbn.
  - destruct (stop new_line) eqn:E; [|done]. intros [= <- <- <-]. split; [done|].
    exists []. by rewrite app_nil_r.
  - destruct (stop new_line) eqn:E.
    + intros [= <- <- <-]. split; [done|]. exists []. by rewrite app_nil_r.
    + destruct (String.eqb l0 ""); [done|].
      intros (Hstop & block & -> & Hb & Hls)%IH. split; [done|]. exists (new_line :: block).
      split; [by rewrite <-app_assoc|]. split; [by constructor|]. by rewrite Hls.
Qed.

Lemma read_until_shorter stop new_line lines ls x ls' :
  read_until stop new_line lines ls = (Ok x, ls') → (length ls' ≤ length ls)%nat.
Proof.
  destruct x as [l lines']. intros (_ & block & _ & _ & Hls)%read_until_Ok.
  apply (f_equal length) in Hls. rewrite length_app in Hls. cbn in Hls. lia.
Qed.

Lemma default_parse_consumes regexp separator labels prefix :
  consumes (default_parse regexp separator labels prefix).
Proof.
  intros ls ms ls'. unfold default_parse. rewrite M_bind_Ok_iff.
  intros (l & ls1 & ->%readline_with_check_shorter & Hs). cbn [length].
  apply M_bind_Ok_iff in Hs as (lines & ls2 & Hr & [_ <-]%lift_Ok_iff).
  destruct separator as [sep|]; [|by injection Hr as _ <-; lia].
  apply M_bind_Ok_iff in Hr as ([x y] & ls3 & Hr%read_until_shorter & [_ <-]%M_ret_Ok_iff). lia.
Qed.

(** ** Lemmas on the service level metrics *)

(** The names of the metrics that are added. *)
Definition service_names : list string := ["slo"; "sli"; "sli_normalized"; "peak_load"; "load"; "load_normalized"].

(** [m] appends at most [k] service level metrics, whatever the list holds. *)
Definition appends (k : nat) (m : M (list Metric) unit) : Prop :=
  ∃ r added, (length added ≤ k)%nat ∧ Forall (λ x, m_name x ∈ service_names) added ∧
  ∀ l, m l = (r, l ++ added).

Lemma appends_ret : appends 0 (mret tt).
Proof. exists (Ok tt), []. split; [done|]. split; [constructor|]. intros l. by rewrite app_nil_r. Qed.

Lemma appends_append m : m_name m ∈ service_names → appends 1 (append m).
Proof. intros Hm. exists (Ok tt), [m]. split; [done|]. split; [by constructor|done]. Qed.

Lemma appends_lift {A} k (r : result A) f : (∀ a, r = Ok a → appends k (f a)) → appends k (lift r ≫= f).
Proof.
  intros Hf. destruct r as [a|e]; [by apply Hf|].
  exists (Raise e), []. split; [cbn; lia|]. split; [constructor|]. intros l. by rewrite app_nil_r.
Qed.

Lemma appends_seq k1 k2 m f : appends k1 m → appends k2 (f tt) → appends (k1 + k2) (m ≫= f).
Proof.
  intros (r1 & a1 & Hl1 & Hn1 & H1) (r2 & a2 & Hl2 & Hn2 & H2). destruct r1 as [[]|e].
  - exists r2, (a1 ++ a2). rewrite length_app. split; [lia|]. split; [by apply Forall_app|].
    intros l. unfold mbind, M_bind. by rewrite H1, H2, app_assoc.
  - exists (Raise e), a1. split; [lia|]. split; [done|]. intros l. unfold mbind, M_bind. by rewrite H1.
Qed.

Lemma appends_weaken k k' m : appends k m → (k ≤ k')%nat → appends k' m.
Proof. intros (r & a & Hl & Hn & Hm) Hk. exists r, a. split; [lia|done]. Qed.

Ltac appends_tac :=
  repeat first
    [ apply appends_lift; intros ? _
    | apply (appends_seq 1); [apply appends_append; cbn; set_solver|]
    | apply appends_append; cbn; set_solver
    | apply appends_ret ].

Lemma appends_sli args labels name metric : appends 3 (append_sli args labels name metric).
Proof. unfold append_sli. appends_tac. Qed.

Lemma appends_load args labels metric : appends 3 (append_load args labels metric).
Proof. unfold append_load. appends_tac. Qed.

Lemma appends_step args labels metric : appends 6 (service_level_step args labels metric).
Proof.
  apply (appends_seq 3 3).
  - destruct (is_sli _ _); [apply appends_sli|]. eapply appends_weaken; [apply appends_ret|lia].
  - destruct (is_load _ _); [apply appends_load|]. eapply appends_weaken; [apply appends_ret|lia].
Qed.

(** The added metrics do not start an addition themselves. *)
Definition separate_names (args : ServiceLevelArgs) : Prop :=
  ∀ name, name ∈ service_names → sli_metric_name args ≠ Some name ∧ load_metric_name args ≠ Some name.

Lemma separate_step args labels metric l :
  separate_names args → m_name metric ∈ service_names → service_level_step args labels metric l = (Ok tt, l).
Proof.
  intros Hs [H1 H2]%Hs. unfold service_level_step, is_sli, is_load.
  by rewrite (bool_decide_eq_false_2 _ H1), (bool_decide_eq_false_2 _ H2).
Qed.

(** Over metrics that start no addition the loop only walks. *)
Lemma loop_walks args labels added n i l :
  separate_names args → Forall (λ x, m_name x ∈ service_names) added → drop i l = added →
  (length added < n)%nat → service_level_loop args labels n i l = Some (Ok tt, l).
Proof.
  intros Hs Hn. revert n i. induction Hn as [|m added Hm _ IH]; intros n i Hd Hlen;
    (destruct n as [|n]; [cbn in Hlen; lia|]); cbn [service_level_loop].
  - assert (l !! i = None) as ->; [|done]. apply lookup_ge_None.
    apply (f_equal length) in Hd. rewrite length_drop in Hd. cbn in Hd. lia.
  - assert (l !! i = Some m) as ->.
    { rewrite <-(Nat.add_0_r i), <-lookup_drop, Hd. done. }
    rewrite separate_step by done. apply IH; [|cbn in Hlen; lia].
    replace (S i) with (i + 1)%nat by lia. rewrite <-drop_drop, Hd. done.
Qed.

(** The loop over the list that grows is the loop over the metrics it was called with. *)
Lemma loop_snapshot args labels rest added n i l :
  separate_names args → Forall (λ x, m_name x ∈ service_names) added → drop i l = rest ++ added →
  (length added + 7 * length rest < n)%nat →
  service_level_loop args labels n i l = Some (forM_ rest (service_level_step args labels) l).
Proof.
  intros Hs. revert added n i l. induction rest as [|m rest IH]; intros added n i l Hn Hd Hlen.
  { cbn in Hlen. apply loop_walks with added; [done..|lia]. }
  destruct n as [|n]; [lia|]. cbn [service_level_loop].
  assert (l !! i = Some m) as ->.
  { rewrite <-(Nat.add_0_r i), <-lookup_drop, Hd. done. }
  destruct (appends_step args labels m) as (r & a & Hl & Ha & Hstep).
  cbn [forM_]. unfold mbind at 1, M_bind at 1. rewrite Hstep. destruct r as [u|e]; [|done].
  apply (IH (added ++ a)); [by apply Forall_app| |rewrite length_app; cbn [length] in Hlen; lia].
  assert (i < length l)%nat.
  { apply (f_equal length) in Hd. rewrite length_drop, length_app in Hd. cbn in Hd. lia. }
  rewrite drop_app_le by lia. replace (S i) with (i + 1)%nat by lia.
  rewrite <-drop_drop, Hd. cbn. by rewrite app_assoc.
Qed.

Lemma append_service_level_snapshot args labels n metrics :
  separate_names args → (7 * length metrics < n)%nat →
  append_service_level_metrics args labels n metrics =
    Some ((forM_ metrics (service_level_step args labels) ≫= λ _, append_const args labels) metrics).
Proof.
  intros Hs Hn. unfold append_service_level_metrics.
  rewrite (loop_snapshot args labels metrics [] n 0 metrics) by
    (first [done|constructor|by rewrite drop_0, app_nil_r|cbn; lia]).
  unfold mbind, M_bind. by destruct (forM_ metrics _ metrics) as [[[]|e] l].
Qed.

(** ** The theorems *)

(** The service level metrics are appended to the list the loop walks
    over; when the names of the indicator and of the load are not themselves names of
    service level metrics, the loop ends and does what a loop over the parsed metrics
    alone does, every error included. *)
Theorem service_level_iterates_parsed args labels n metrics :
  separate_names args → (7 * length metrics < n)%nat →
  append_service_level_metrics args labels n metrics =
    Some ((forM_ metrics (service_level_step args labels) ≫= λ _, append_const args labels) metrics).
Proof. apply append_service_level_snapshot. Qed.

Definition qps_args : ServiceLevelArgs :=
  mkServiceLevelArgs (float_of_ratio 4 1) (Some "p99") false (Some 100) (Some "qps").

Lemma qps_args_separate : separate_names qps_args.
Proof. intros name Hn. split; intros [= <-]; revert Hn; vm_compute; set_solver. Qed.

Lemma service_level_iterates_parsed_witness :
  let metrics := [new_metric "p99" (PFloat fone) [] None None; new_metric "qps" (PFloat fone) [] None None] in
  append_service_level_metrics qps_args [] 15 metrics =
    Some ((forM_ metrics (service_level_step qps_args []) ≫= λ _, append_const qps_args []) metrics) ∧
  match append_service_level_metrics qps_args [] 15 metrics with
  | Some (Ok _, l) => m_name <$> l =
      ["p99"; "qps"; "slo"; "sli"; "sli_normalized"; "peak_load"; "load"; "load_normalized"]
  | _ => False
  end.
Proof.
  cbv zeta. split; [|by vm_compute].
  apply service_level_iterates_parsed; [apply qps_args_separate|cbn; lia].
Defined.

Definition float_metric (m : Metric) : Prop := ∃ f, m_value m = MNum (PFloat f).

(** An indicator named as a metric that its own addition appends. *)
Lemma sli_step_adds args labels m l :
  inverse_sli_metric_value args = false → is_zero (slo args) = false → load_metric_name args = None →
  float_metric m →
  ∃ added, service_level_step args labels m l = (Ok tt, l ++ added) ∧ Forall float_metric added ∧
  (is_sli args (m_name m) = true → ∀ name, name ∈ ["slo"; "sli"; "sli_normalized"] → ∃ x, x ∈ added ∧ m_name x = name).
Proof.
  intros Hinv Hslo Hload [f Hf]. unfold service_level_step, is_load. rewrite Hload. cbn [bool_decide andb].
  destruct (is_sli args (m_name m)) eqn:Es.
  - unfold append_sli. rewrite Hinv, Hf. unfold fdiv. rewrite Hslo.
    unfold mbind, M_bind. cbn.
    exists ([new_metric "slo" (PFloat (slo args)) labels (Some GAUGE)
               (Some ("Service Level Objective based on " +:+ m_name m +:+ " metric"))] ++
            [new_metric "sli" (PFloat f) labels (Some GAUGE)
               (Some ("Service Level Indicator based on " +:+ m_name m +:+ " metric"))] ++
            [new_metric "sli_normalized" (PFloat (fdiv_raw f (slo args))) labels (Some GAUGE)
               (Some ("Normalized Service Level Indicator based on " +:+ m_name m +:+ " metric and SLO"))]).
    split; [by rewrite <-!app_assoc|]. split.
    + repeat constructor; eexists; reflexivity.
    + intros _ name. set_unfold. naive_solver.
  - exists []. split; [by rewrite app_nil_r|]. split; [constructor|done].
Qed.

Lemma sli_loop_grows args labels name n i l :
  name ∈ ["slo"; "sli"; "sli_normalized"] → sli_metric_name args = Some name →
  inverse_sli_metric_value args = false → is_zero (slo args) = false → load_metric_name args = None →
  Forall float_metric l → (∃ m, m ∈ drop i l ∧ m_name m = name) →
  service_level_loop args labels n i l = None.
Proof.
  intros Hname Hsli Hinv Hslo Hload. revert i l. induction n as [|n IH]; intros i l Hfl (m & Hm & Hmn); [done|].
  cbn [service_level_loop]. destruct (l !! i) as [x|] eqn:Hx.
  2:{ apply lookup_ge_None in Hx. rewrite drop_ge in Hm by done. by apply elem_of_nil in Hm. }
  rewrite Forall_forall in Hfl.
  destruct (sli_step_adds args labels x l Hinv Hslo Hload) as (added & -> & Hadd & Hnew).
  { apply Hfl. by apply list_elem_of_lookup_2 in Hx. }
  pose proof (lookup_lt_Some _ _ _ Hx) as Hi.
  apply IH; [apply Forall_app; split; [by apply Forall_forall|done]|].
  rewrite (drop_S l x i Hx) in Hm. rewrite drop_app_le by lia.
  apply elem_of_cons in Hm as [->|Hm].
  - destruct (Hnew ltac:(unfold is_sli; apply bool_decide_eq_true_2; congruence) name Hname) as (y & Hy & Hyn).
    exists y. split; [set_solver|done].
  - exists m. split; [set_solver|done].
Qed.

(** When the service level indicator is named "slo", "sli" or
    "sli_normalized" and a parsed metric has that name, every pass over a metric of this
    name appends another one, so the loop over the list never ends. *)
Theorem own_indicator_loops args labels name n metrics :
  name ∈ ["slo"; "sli"; "sli_normalized"] → sli_metric_name args = Some name →
  inverse_sli_metric_value args = false → is_zero (slo args) = false → load_metric_name args = None →
  Forall float_metric metrics → (∃ m, m ∈ metrics ∧ m_name m = name) →
  append_service_level_metrics args labels n metrics = None.
Proof.
  intros Hname Hsli Hinv Hslo Hload Hfl Hm. unfold append_service_level_metrics.
  by rewrite (sli_loop_grows args labels name).
Qed.

Lemma own_indicator_loops_witness :
  append_service_level_metrics (mkServiceLevelArgs fone (Some "sli") false None None) [] 1000
    [new_metric "sli" (PFloat fone) [] None None] = None.
Proof.
  apply (own_indicator_loops _ _ "sli"); try done; [set_solver| |].
  - repeat constructor. by eexists.
  - eexists. split; [by left|done].
Defined.

(** A storage that answers its attempts in turn, and a clock that records the sleeps. *)
Definition storing (answers : nat → result unit) (metrics : list Metric) : M (nat * list Z) unit :=
  λ w, (answers w.1, (S w.1, w.2)).
Definition sleeping (d : Z) : M (nat * list Z) unit := λ w, (Ok tt, (w.1, w.2 ++ [d])).

Definition delays : list Z := [1; 2; 4; 8].

Lemma store_attempts_step answers metrics attempt attempts k slept d :
  store_attempts sleeping (storing answers) metrics (attempt :: attempts) d (k, slept) =
  match answers k with
  | Ok _ => (Ok tt, (S k, slept))
  | Raise e =>
      if decide (e = FailedDeliveryException) then
        if (attempt =? MAX_ATTEMPTS - 1)%nat then (Raise e, (S k, slept))
        else store_attempts sleeping (storing answers) metrics attempts (d * 2) (S k, slept ++ [d])
      else (Raise e, (S k, slept))
  end.
Proof.
  cbn [store_attempts]. unfold try_except, mbind, M_bind, storing at 1, raise, mret, M_ret. cbn [fst snd].
  destruct (answers k) as [[]|e]; [done|].
  destruct (decide (e = FailedDeliveryException)); [|done].
  by destruct (attempt =? MAX_ATTEMPTS - 1)%nat.
Qed.

(** A delivery that fails is repeated after 1, 2, 4 and 8 seconds; the
    first attempt that does not fail so decides the outcome, and the fifth failure is
    raised without another sleep. *)
Theorem store_retries_five_times answers metrics k :
  (k ≤ 5)%nat → (∀ i, (i < k)%nat → answers i = Raise FailedDeliveryException) →
  ((k < 5)%nat → answers k ≠ Raise FailedDeliveryException) →
  store_with_retry sleeping (storing answers) metrics (0%nat, []) =
    if (k =? 5)%nat then (Raise FailedDeliveryException, (5%nat, delays))
    else (answers k, (S k, take k delays)).
Proof.
  intros Hk Hf Hne. unfold store_with_retry. change (seq 0 MAX_ATTEMPTS) with [0; 1; 2; 3; 4]%nat.
  destruct (Nat.eqb_spec k 5) as [->|Hk5].
  - do 5 (rewrite store_attempts_step, Hf by lia; cbn [decide]; rewrite decide_True by done; cbn [Nat.eqb MAX_ATTEMPTS Nat.sub]).
    done.
  - specialize (Hne ltac:(lia)).
    assert (k = 0 ∨ k = 1 ∨ k = 2 ∨ k = 3 ∨ k = 4)%nat as Hc by lia.
    destruct Hc as [->|[->|[->|[->| ->]]]];
      repeat (rewrite store_attempts_step, Hf by lia; rewrite decide_True by done; cbn [Nat.eqb MAX_ATTEMPTS Nat.sub]);
      rewrite store_attempts_step; destruct (answers _) as [[]|e]; try done;
      (rewrite decide_False by congruence); done.
Qed.

Lemma store_retries_five_times_witness :
  store_with_retry sleeping (storing (λ i, if (i <? 2)%nat then Raise FailedDeliveryException else Ok tt)) []
    (0%nat, []) = (Ok tt, (3%nat, [1; 2])).
Proof.
  rewrite (store_retries_five_times _ [] 2); [done|lia|intros [|[|i]] Hi; [done|done|lia]|done].
Defined.

(** ** The loop ends *)
Section ends.
  Context {W : Type} (sleep : Z → M W unit) (storage : option (list Metric → M W unit)).
  Context (parse : M (list string) (list Metric)) (append_func : list Metric → option (result unit * list Metric)).

Lemma parse_step_input s r s' :
  consumes parse → parse_step sleep storage parse append_func s = Some (r, s') →
  (∃ e, r = Raise e) ∨ r = Ok tt ∧ (length (lp_input s') < length (lp_input s))%nat.
Proof.
  intros Hc. unfold parse_step. destruct (parse (lp_input s)) as [[ms|e] i] eqn:E.
  - apply Hc in E. destruct ms as [|m ms]; [intros [= <- <-]; by right|].
    destruct (append_func _) as [[[u|e] l]|]; [|intros [= <- <-]; by left; exists e|done].
    destruct (match storage with Some store => _ | None => _ end) as [[[]|e] w];
      intros [= <- <-]; [by right|left; by exists e].
  - intros [= <- <-]. left. by exists e.
Qed.

Lemma parse_passes_end n s :
  consumes parse → (∀ ms, append_func ms ≠ None) → (length (lp_input s) < n)%nat →
  ∃ e s', parse_passes sleep storage parse append_func n s = Some (e, s') ∧ lp_interrupted s' = true.
Proof.
  intros Hc Ha. revert s. induction n as [|n IH]; intros s Hn; [lia|]. cbn [parse_passes].
  destruct (parse_step _ _ _ _ s) as [[r s']|] eqn:E.
  - destruct (parse_step_input s r s' Hc E) as [[e ->]|[-> Hl]]; [by eexists _, _|].
    apply IH. lia.
  - exfalso. revert E. unfold parse_step. destruct (parse (lp_input s)) as [[[|m ms]|e] i]; try done.
    destruct (append_func _) as [[[u|e] l]|] eqn:Eq; [|done|by apply Ha in Eq].
    by destruct (match storage with Some store => _ | None => _ end).
Qed.
End ends.

(** The appending with the fuel that is enough. *)
Definition append_bounded (args : ServiceLevelArgs) (labels : dict string string) (metrics : list Metric) :=
  append_service_level_metrics args labels (S (7 * length metrics)) metrics.

(** C39 (termination): with the default parser, whatever the workload prints, the pattern,
    the separator and the storage, the loop ends after at most one pass more than there
    are lines, and it interrupts the main thread; the names of the indicator and of the
    load are not those of service level metrics. *)
Theorem parse_loop_ends {W} (sleep : Z → M W unit) storage regexp separator labels prefix args lines w :
  separate_names args →
  ∃ e s, parse_loop sleep storage (default_parse regexp separator labels prefix)
           (append_bounded args labels) (S (length lines)) lines w = Some (e, s) ∧
  lp_interrupted s = true.
Proof.
  intros Hs. apply parse_passes_end; [apply default_parse_consumes| |cbn; lia].
  intros ms. unfold append_bounded. rewrite append_service_level_snapshot by (done || lia). done.
Qed.

(** The output of the first two passes; the metrics that were read last stay available. *)
Lemma parse_loop_ends_witness :
  let lines := ["p99=2 qps=50 
"; "no metrics
"] in
  let run := parse_loop sleeping (Some (storing (λ _, Ok tt))) (default_parse DEFAULT_REGEXP None [] "")
    (append_bounded qps_args []) 3 lines (0%nat, []) in
  (∃ e s, run = Some (e, s) ∧ lp_interrupted s = true) ∧
  match run with
  | Some (e, s) => e = StopIteration ∧ lp_world s = (1%nat, []) ∧
      m_name <$> lp_last_valid s =
        ["p99"; "qps"; "slo"; "sli"; "sli_normalized"; "peak_load"; "load"; "load_normalized"]
  | None => False
  end.
Proof. cbv zeta. split; [apply parse_loop_ends, qps_args_separate|by vm_compute]. Defined.

(** The cases of the tests of the repository, and the decimal point of the default pattern,
    which also matches a comma: an integer in front of one stops the loop. *)
Definition parsed (r : result (list Metric) * list string) : option (list (string * mval)) :=
  match r.1 with Ok ms => Some ((λ m, (m_name m, m_value m)) <$> ms) | Raise _ => None end.
Definition pfloat (p q : Z) : mval := MNum (PFloat (float_of_ratio p q)).

Example default_parse_examples :
  parsed (default_parse DEFAULT_REGEXP None [] "mp_" ["x=4 y=5 
"; "x=2 y=6"]) = Some [("mp_x", pfloat 4 1); ("mp_y", pfloat 5 1)] ∧
  parsed (default_parse DEFAULT_REGEXP (Some (rlit "---")) [] "mp_" ["Metrics: x=4.5 y=5.4 
"; "z=1.337,w=6.66 
"; "---"]) = Some [("mp_x", pfloat 45 10); ("mp_y", pfloat 54 10); ("mp_z", pfloat 1337 1000); ("mp_w", pfloat 666 100)] ∧
  fst (default_parse DEFAULT_REGEXP (Some (rlit "---")) [] "" ["x=4
"]) = Raise StopIteration ∧
  fst (default_parse DEFAULT_REGEXP None [] "" ["x=4,y=5
"]) = Raise ValueError.
Proof. vm_compute. done. Qed.
