(* ===== verification/WrapperParsers.v ===== *)
(** * The parsers of the benchmarks

    [src/examples/workloads/wrapper/wrapper/parser_*.py]: one parser per benchmark, given
    to the loop of [Wrapper] in place of the default one.  Each reads from the lines left
    and returns the metrics it finds.  The parameters [regexp] and [separator] they all
    take and never use are left out. *)
From S2P Require Export Wrapper.

Section parsers.
  Context (labels : dict string string) (metric_name_prefix : string).

Definition gauge (name : string) (value : num) (help : string) : Metric :=
  new_metric (metric_name_prefix +:+ name) value labels (Some GAUGE) (Some help).
Definition fgauge (name : string) (value : float) (help : string) : Metric := gauge name (PFloat value) help.

(** [float(line[i])] *)
Definition float_word (line : list string) (i : nat) : result float :=
  w ← or_raise IndexError (line !! i); py_float w.

(** [read.group(1)] of a search that may find nothing *)
Definition group1 (m : option (groups * string)) : result string :=
  match m with Some (g, _) => or_raise KeyError (dget g "1") | None => Raise AttributeError end.

(** src/examples/workloads/wrapper/wrapper/parser_mutilate.py:48-93 [parse]
    The metrics of a line. *)
Definition mutilate_line (new_line : string) : result (list Metric) :=
  let line := words new_line in
  read ←
    (if decide ("read" ∈ line) then
       '(scan_prefix, qps) ←
         (if decide (length line = 11%nat) then
            qps ← float_word line 9;
            Ok ("scan_", [fgauge "scan_qps" qps "QPS"])
          else Ok ("", []));
       avg ← float_word line 1;
       p90 ← float_word line 6;
       p95 ← float_word line 7;
       p99 ← float_word line 8;
       Ok (qps ++ [fgauge (scan_prefix +:+ "read_avg") avg "Average";
                   fgauge (scan_prefix +:+ "read_p90") p90 "90th percentile of read latency";
                   fgauge (scan_prefix +:+ "read_p95") p95 "95th percentile of read latency";
                   fgauge (scan_prefix +:+ "read_p99") p99 "99th percentile of read latency"])
     else Ok []) : result (list Metric);
  total ←
    (if str_contains "Total QPS" new_line then
       match re_search (rseqs [rlit "Total QPS = ";
                               RGroup "1" (rseqs [rstar rdigit; rchar "."; rdigit])]) new_line with
       | Some m => qps ← (s ← group1 (Some m); py_float s); Ok [fgauge "qps" qps "QPS"]
       | None => Ok []
       end
     else Ok []) : result (list Metric);
  Ok (read ++ total).

(** src/examples/workloads/wrapper/wrapper/parser_mutilate.py:25-93 [parse] *)
Definition mutilate_parse : M (list string) (list Metric) :=
  new_line ← readline_with_check "Stop-Mutilate-Now"; lift (mutilate_line new_line).

(** src/examples/workloads/wrapper/wrapper/parser_cassandra_stress.py:51-66 [parse] *)
Definition cassandra_line (new_line : string) : result (list Metric) :=
  qps ←
    (if str_contains "Op rate" new_line then
       s ← group1 (re_search (rseqs [rlit "Op rate"; rstar (rchar " "); rchar ":"; rstar (rchar " ");
                                     RGroup "1" (rstar (RClass (λ c, is_decimal_char c || ascii_eqb c ",")));
                                     rlit " op/s"]) new_line);
       op_rate ← py_float (str_join "" (split_on "," s));
       Ok [fgauge "qps" op_rate "QPS"]
     else Ok []) : result (list Metric);
  p99 ←
    (if str_contains "Latency 99th percentile" new_line then
       s ← group1 (re_search (rseqs [rlit "Latency 99th percentile"; rstar (rchar " "); rchar ":"; rstar (rchar " ");
                                     RGroup "1" (rseqs [rstar rdigit; rchar "."; rstar rdigit]);
                                     rlit " ms"]) new_line);
       p99 ← py_float s;
       Ok [fgauge "p99" p99 "99th percentile"]
     else Ok []) : result (list Metric);
  Ok (qps ++ p99).

(** src/examples/workloads/wrapper/wrapper/parser_cassandra_stress.py:28-66 [parse] *)
Definition cassandra_parse : M (list string) (list Metric) :=
  new_line ← readline_with_check "Stop-Cassandra-Stress-Now"; lift (cassandra_line new_line).

(** src/examples/workloads/wrapper/wrapper/parser_mysql_tpm_gauge.py:34-46 [parse]
    [findall] of a pattern with one group gives its texts. *)
Definition mysql_line (new_line : string) : result (list Metric) :=
  if str_contains "TPM:" new_line then
    let regex := re_finditer (rseqs [rlit "TPM: "; RGroup "tpm" (rseqs [rstar rdigit; rany; rstar rdigit])]) new_line in
    first ← or_raise IndexError (head regex);
    s ← or_raise KeyError (dget first "tpm");
    tpm ← py_float s;
    Ok [fgauge "tpm" tpm "TPM (transaction per minute) from mysql"]
  else Ok [].

(** src/examples/workloads/wrapper/wrapper/parser_mysql_tpm_gauge.py:26-46 [parse] *)
Definition mysql_parse : M (list string) (list Metric) :=
  new_line ← readline_with_check "end"; lift (mysql_line new_line).

(** [dict(re.findall(...))] of a pattern with the groups "name" and "value": a later pair
    with the same name wins. *)
Definition dict_findall (r : regex) (s : string) : dict string string :=
  dict_of ((λ g, (default "" (dget g "name"), default "" (dget g "value"))) <$> re_finditer r s).

(** [float(percentiles[name])] of every name, in this order *)
Definition floats_of (d : dict string string) (names : list string) : result (list float) :=
  mapM (λ name, s ← dgetitem d name; py_float s) names.

(** A gauge per name, with its help. *)
Definition gauges_of (d : dict string string) (keys : list string) (names_help : list (string * string))
    : result (list Metric) :=
  values ← floats_of d keys;
  Ok (zip_with (λ (nh : string * string) v, fgauge nh.1 v nh.2) names_help values).

(** src/examples/workloads/wrapper/wrapper/parser_rpc_perf.py:45-96 [parse] *)
Definition rpc_perf_line (new_line : string) : result (list Metric) :=
  percentiles ←
    (if str_contains "[rpc-perf] Percentiles:" new_line then
       gauges_of (dict_findall (rseqs [RGroup "name" (ralts [rlit "min"; rlit "max"; RSeq (rchar "p") (rstar rdigit)]);
                                       rlit ": "; RGroup "value" (rplus rdigit)]) new_line)
         ["p9999"; "p999"; "p99"; "p90"; "p50"; "min"; "max"]
         [("p9999", "99.99th percentile of latency in rpc-perf"); ("p999", "99.9th percentile of latency in rpc-perf");
          ("p99", "99th percentile of latency in rpc-perf"); ("p90", "90th percentile of latency in rpc-perf");
          ("p50", "50th percentile of latency in rpc-perf"); ("min", "min of latency in rpc-perf");
          ("max", "max of latency in rpc-perf")]
     else Ok []) : result (list Metric);
  statistic ←
    (if str_contains "[rpc-perf] Rate:" new_line then
       gauges_of (dict_findall (rseqs [RGroup "name" (ralts [rlit "Hit Rate"; rlit "Success"; rlit "Rate"]);
                                       rlit ": "; RGroup "value" (rseqs [rplus rdigit; rany; rplus rdigit])]) new_line)
         ["Hit Rate"; "Success"; "Rate"]
         [("hit_rate", "Hit rate in rpc-perf"); ("success", "Success responses in rpc-perf"); ("rate", "Rate in rpc-perf")]
     else Ok []) : result (list Metric);
  Ok (percentiles ++ statistic).

(** src/examples/workloads/wrapper/wrapper/parser_rpc_perf.py:28-96 [parse] *)
Definition rpc_perf_parse : M (list string) (list Metric) :=
  new_line ← readline_with_check ""; lift (rpc_perf_line new_line).

(** [float(re.search(r, new_line).groupdict()["1"])] as a gauge, when the line holds [text] *)
Definition when_contains (text : string) (r : regex) (name help new_line : string) : result (list Metric) :=
  if str_contains text new_line then
    s ← group1 (re_search r new_line); v ← py_float s; Ok [fgauge name v help]
  else Ok [].

(** src/examples/workloads/wrapper/wrapper/parser_ycsb.py:43-72 [parse] *)
Definition ycsb_line (new_line : string) : result (list Metric) :=
  let latency op := rseqs [rlit ("[" +:+ op); rlazy rany; rlit "99.99="; RGroup "1" (rplus rdigit);
                           rlazy rany; rchar "]"] in
  operations ← when_contains "operations" (rseqs [RGroup "1" (rplus rdigit); rlit " operations;"])
                 "operations" "Done operations in Cassandra" new_line;
  ops_per_sec ← when_contains "current ops"
                  (rseqs [RGroup "1" (rseqs [rplus rdigit; ropt (rseqs [rchar "."; rplus rdigit])]);
                          rlit " current ops/sec"])
                  "ops_per_sec" "Ops per sec Cassandra" new_line;
  read ← when_contains "READ" (latency "READ") "read_p9999" "99.99th percentile of read latency in Cassandra" new_line;
  update ← when_contains "UPDATE" (latency "UPDATE") "update_p9999"
             "99.99th percentile of update latency in Cassandra" new_line;
  Ok (operations ++ ops_per_sec ++ read ++ update).

(** src/examples/workloads/wrapper/wrapper/parser_ycsb.py:28-72 [parse] *)
Definition ycsb_parse : M (list string) (list Metric) :=
  new_line ← readline_with_check ""; lift (ycsb_line new_line).

(** [data_frame[1][-3]] *)
Definition third_from_end (l : list string) : result string :=
  if (length l <? 3)%nat then Raise IndexError else or_raise IndexError (l !! (length l - 3)%nat).

(** src/examples/workloads/wrapper/wrapper/parser_specjbb.py:58-68 [parse] *)
Definition specjbb_table (input_lines : list string) : result (list Metric) :=
  let data_frame := (λ line, strip <$> split_on "," line) <$> input_lines in
  row ← or_raise IndexError (data_frame !! 1%nat);
  cell ← third_from_end row;
  metric_value ← py_float cell;
  Ok [fgauge "p99_total_purchase" metric_value "Specjbb2015 metric, Total Purchase, percentile 99"].

Definition matches (r : regex) (s : string) : bool := bool_decide (is_Some (re_match r s)).

(** src/examples/workloads/wrapper/wrapper/parser_specjbb.py:26-68 [parse] *)
Definition specjbb_parse : M (list string) (list Metric) :=
  new_line ← readline_with_check "";
  _ ← read_until (matches (rseqs [rstar rspace; rlit "Response times:"; rstar rspace; REnd])) new_line [];
  new_line ← readline_with_check "";
  '(_, input_lines) ← read_until (matches (rseqs [rstar rspace; REnd])) new_line [];
  lift (specjbb_table input_lines).

(** src/examples/workloads/wrapper/wrapper/parser_example_workload.py:23-26 [parse] *)
Definition example_parse : M (list string) (list Metric) :=
  mret [mkMetric "example" (MNum (PFloat (float_of_ratio 1337 1000))) [("test", "label")] None (Some GAUGE)
          (Some "Empty example metric") None].
End parsers.

(** ** stress-ng, which writes into the dictionary of labels it was given *)
Section stress_ng.
  Context (metric_name_prefix : string).

(** src/examples/workloads/wrapper/wrapper/parser_stress_ng.py:102-109 [parse] *)
Definition brief_pattern : regex :=
  let number name := RGroup name (rseqs [rplus rdigit; rany; rstar rdigit]) in
  let spaces := rplus (rchar " ") in
  rseqs [number "bogo_ops"; spaces; number "real_time"; spaces; number "user_time"; spaces;
         number "system_time"; spaces; number "bogo_ops_per_second_real_time"; spaces;
         number "bogo_ops_per_second_usr_sys_time"].

(** src/examples/workloads/wrapper/wrapper/parser_stress_ng.py:143-144 [parse] *)
Definition info_pattern : regex :=
  let digits name := RGroup name (rstar rdigit) in
  rseqs [rlit "stress-ng: info:  ["; digits "id"; rplus (rchar "]"); rlit " Time "; digits "time";
         rlit ", counter "; digits "counter"; rlit ", diff "; digits "diff"].

(** src/examples/workloads/wrapper/wrapper/parser_stress_ng.py:111-141 [parse] *)
Definition brief_names : list (string * string) :=
  [("bogo_ops", "Summary bogo ops"); ("real_time", "Summary real_time (secs)");
   ("user_time", "Summary user_time (secs)"); ("system_time", "Summary system_time (secs)");
   ("bogo_ops_per_second_real_time", "Summary bogo ops/s real time");
   ("bogo_ops_per_second_usr_sys_time", "Summary bogo ops/s usr+sys time")].

(** src/examples/workloads/wrapper/wrapper/parser_stress_ng.py:98-163 [parse]
    The state is the lines left and the labels; all metrics of a call refer to the one
    dictionary, so they carry the labels it has at the end. *)
Definition stress_ng_parse : M (list string * dict string string) (list Metric) :=
  λ '(ls, labels),
    match readline_with_check "..." ls with
    | (Raise e, ls) => (Raise e, (ls, labels))
    | (Ok new_line, ls) =>
        match (match re_search brief_pattern new_line with
               | Some (g, _) => floats_of g (fst <$> brief_names)
               | None => Ok []
               end) with
        | Raise e => (Raise e, (ls, labels))
        | Ok brief =>
            let gauges labels := zip_with (λ (nh : string * string) v, fgauge labels metric_name_prefix nh.1 v nh.2)
                                   brief_names brief in
            match re_search info_pattern new_line with
            | None => (Ok (gauges labels), (ls, labels))
            | Some (g, _) =>
                match (time ← dgetitem g "time"; id_proc ← dgetitem g "id";
                       counter ← (s ← dgetitem g "counter"; py_int s);
                       diff ← (s ← dgetitem g "diff"; py_int s);
                       Ok (time, id_proc, counter, diff)) with
                | Raise e => (Raise e, (ls, labels))
                | Ok (time, id_proc, counter, diff) =>
                    let labels := dset (dset labels "id_proc_stress_ng" id_proc) "stress_ng_time" time in
                    (Ok (gauges labels ++
                         [new_metric (metric_name_prefix +:+ "bogo_ops_counter") (PInt counter) labels (Some COUNTER)
                            (Some "Counter bogo ops per proc stress-ng, updated per 1 sec");
                          gauge labels metric_name_prefix "bogo_ops_gauge" (PInt diff)
                            "Gauge bogo ops per proc stress-ng, updated per 1 sec"]), (ls, labels))
                end
            end
        end
    end.
End stress_ng.

(** ** The cases of the tests of the repository *)
Definition one_line (parse : M (list string) (list Metric)) (l : string) := parsed (parse [l]).

Example mutilate_examples :
  one_line (mutilate_parse [] "t_") "   read  801.9 155.0 304.5 643.7 661.1 1017.8 1128.2 1386.5
" = Some [("t_read_avg", pfloat 8019 10); ("t_read_p90", pfloat 10178 10);
          ("t_read_p95", pfloat 11282 10); ("t_read_p99", pfloat 13865 10)] ∧
  one_line (mutilate_parse [] "t_") "read 76.3 346.3 21.1 23.5 24.5 34.3 38.7 2056.6 1002.0 1000" =
    Some [("t_scan_qps", pfloat 1002 1); ("t_scan_read_avg", pfloat 763 10); ("t_scan_read_p90", pfloat 343 10);
          ("t_scan_read_p95", pfloat 387 10); ("t_scan_read_p99", pfloat 20566 10)] ∧
  one_line (mutilate_parse [] "t_") "Total QPS = 159578.5 (1595835 / 10.0s)
" = Some [("t_qps", pfloat 1595785 10)].
Proof. vm_compute. done. Qed.

Example cassandra_examples :
  one_line (cassandra_parse [] "c_") "Op rate                   :   14,997 op/s  [WRITE: 14,997 op/s]
" = Some [("c_qps", pfloat 14997 1)] ∧
  one_line (cassandra_parse [] "c_") "Latency 99th percentile   :   74.0 ms [WRITE: 74.0 ms]
" = Some [("c_p99", pfloat 74 1)] ∧
  one_line (mysql_parse [] "h_") "        TPM: 53460.000000
" = Some [("h_tpm", pfloat 53460 1)].
Proof. vm_compute. done. Qed.

Example rpc_perf_examples :
  one_line (rpc_perf_parse [] "") "INFO  [rpc-perf] Rate: 15823.74 rps Success: 100.00 % Hit Rate: 31.12 %
" = Some [("hit_rate", pfloat 3112 100); ("success", pfloat 100 1); ("rate", pfloat 1582374 100)] ∧
  (parsed (rpc_perf_parse [] "" ["[rpc-perf] Percentiles: Response OK (us): min: 47 p50: 389 p90: 775 p99: 86436 p999: 89120 p9999: 89657 max: 89657"])
   = Some [("p9999", pfloat 89657 1); ("p999", pfloat 89120 1); ("p99", pfloat 86436 1); ("p90", pfloat 775 1);
           ("p50", pfloat 389 1); ("min", pfloat 47 1); ("max", pfloat 89657 1)]) ∧
  (** the sample of the documentation has no blank in [p99:86436] *)
  fst (rpc_perf_parse [] "" ["[rpc-perf] Percentiles: Response OK (us): min: 47 p50: 389 p90: 775 p99:86436 p999: 89120 p9999: 89657 max: 89657"])
   = Raise KeyError.
Proof. vm_compute. done. Qed.

Example ycsb_examples :
  one_line (ycsb_parse [] "c_") "25:811 581 sec: 581117 operations; 975 current ops/sec; [READ: 99.9=554, 99.99=554] [UPDATE: 99.9=589, 99.99=699] # noq"
   = Some [("c_operations", pfloat 581117 1); ("c_ops_per_sec", pfloat 975 1);
           ("c_read_p9999", pfloat 554 1); ("c_update_p9999", pfloat 699 1)].
Proof. vm_compute. done. Qed.

Example specjbb_examples :
  parsed (specjbb_parse [] "s_" ["Overall, 1
"; "        Response times:
"; " Request, min, p99, max, 
"; " TotalPurchase, 1300, 3800000, 4600000,
"; "
"; "next
"]) = Some [("s_p99_total_purchase", pfloat 3800000 1)].
Proof. vm_compute. done. Qed.

(** The summary at the end carries the labels of the last process that reported. *)
Example stress_ng_examples :
  let lines := ["stress-ng: info:  [99] Time 1546433449, counter 173, diff 33
"; "stress-ng: info:  [112] stream  2250   6.01  40.81  0.39   374.12  54.61
"; ""] in
  let '(r1, s1) := stress_ng_parse "s_" (lines, []) in
  let '(r2, s2) := stress_ng_parse "s_" s1 in
  (map (λ m, (m_name m, m_value m)) <$> r1) =
    Ok [("s_bogo_ops_counter", MNum (PInt 173)); ("s_bogo_ops_gauge", MNum (PInt 33))] ∧
  (map (λ m, (m_name m, m_value m)) <$> r2) =
    Ok [("s_bogo_ops", pfloat 2250 1); ("s_real_time", pfloat 601 100); ("s_user_time", pfloat 4081 100);
        ("s_system_time", pfloat 39 100); ("s_bogo_ops_per_second_real_time", pfloat 37412 100);
        ("s_bogo_ops_per_second_usr_sys_time", pfloat 5461 100)] ∧
  (map m_labels <$> r2) =
    Ok (replicate 6 [("id_proc_stress_ng", "99"); ("stress_ng_time", "1546433449")]).
Proof. vm_compute. done. Qed.

(** ** Where the parsers stop *)

Lemma one_line_consumes f :
  consumes (readline_with_check "" ≫= λ new_line, lift (f new_line)).
Proof.
  intros ls ms ls'. rewrite M_bind_Ok_iff. intros (l & ls1 & ->%readline_with_check_shorter & [_ ->]%lift_Ok_iff).
  cbn. lia.
Qed.

Lemma specjbb_consumes labels prefix : consumes (specjbb_parse labels prefix).
Proof.
  intros ls ms ls'. unfold specjbb_parse. rewrite M_bind_Ok_iff.
  intros (l & ls1 & ->%readline_with_check_shorter & Hs).
  apply M_bind_Ok_iff in Hs as (x1 & ls2 & Hr1%read_until_shorter & Hs).
  apply M_bind_Ok_iff in Hs as (l2 & ls3 & ->%readline_with_check_shorter & Hs).
  apply M_bind_Ok_iff in Hs as ([y z] & ls4 & Hr2%read_until_shorter & [_ ->]%lift_Ok_iff).
  cbn in *. lia.
Qed.

(** With the parsers of rpc-perf, YCSB and SPECjbb, which look for the
    end of the output, the loop ends within one pass more than there are lines. *)
Theorem benchmark_loop_ends {W} (sleep : Z → M W unit) storage parse labels prefix args lines w :
  parse ∈ [rpc_perf_parse labels prefix; ycsb_parse labels prefix; specjbb_parse labels prefix] →
  separate_names args →
  ∃ e s, parse_loop sleep storage parse (append_bounded args labels) (S (length lines)) lines w = Some (e, s) ∧
  lp_interrupted s = true.
Proof.
  intros Hp Hs. apply parse_passes_end; [| |cbn; lia].
  - apply elem_of_cons in Hp as [->|Hp]; [apply one_line_consumes|].
    apply elem_of_cons in Hp as [->|Hp]; [apply one_line_consumes|].
    apply list_elem_of_singleton in Hp as ->. apply specjbb_consumes.
  - intros ms. unfold append_bounded. by rewrite append_service_level_snapshot by (done || lia).
Qed.

Lemma benchmark_loop_ends_witness :
  ∃ e s, parse_loop sleeping None (ycsb_parse [] "") (append_bounded qps_args []) 2
           ["5 operations;"] (0%nat, []) = Some (e, s) ∧ lp_interrupted s = true.
Proof.
  apply (benchmark_loop_ends sleeping None _ [] "" qps_args ["5 operations;"]); [|apply qps_args_separate].
  apply elem_of_cons. right. by left.
Defined.

(** A parser with an end line of its own. *)
Section own_end.
  Context {W : Type} (sleep : Z → M W unit) (storage : option (list Metric → M W unit)).
  Context (EOF_line : string) (line : string → result (list Metric)).
  Context (append_func : list Metric → option (result unit * list Metric)).
  Hypothesis Hstore : ∀ store, storage = Some store → ∀ ms w, ∃ w', store ms w = (Ok tt, w').
  Hypothesis Happend : ∀ ms, ∃ l, append_func ms = Some (Ok tt, l).
  Hypothesis Hempty : line "" = Ok [].
  Hypothesis HEOF : EOF_line ≠ "".

Let parse : M (list string) (list Metric) := readline_with_check EOF_line ≫= λ new_line, lift (line new_line).

Lemma own_end_store ms w store :
  storage = Some store → ∃ w', store_with_retry sleep store ms w = (Ok tt, w').
Proof.
  intros Hs. destruct (Hstore store Hs ms w) as [w' Hw]. exists w'.
  unfold store_with_retry. cbn [seq MAX_ATTEMPTS store_attempts].
  unfold mbind, M_bind, try_except. by rewrite Hw.
Qed.

Lemma own_end_pass s ls' l ms :
  readline (lp_input s) = (Ok l, ls') → l ≠ EOF_line → line l = Ok ms →
  ∃ s', parse_step sleep storage parse append_func s = Some (Ok tt, s') ∧ lp_input s' = ls'.
Proof.
  intros Hr Hne Hl. unfold parse_step.
  assert (parse (lp_input s) = (Ok ms, ls')) as ->.
  { unfold parse, readline_with_check, mbind, M_bind. rewrite Hr.
    apply String.eqb_neq in Hne as ->. cbn. unfold lift. by rewrite Hl. }
  destruct ms as [|m ms]; [by eexists|].
  destruct (Happend (m :: ms)) as [l' ->].
  pose proof (own_end_store l' (lp_world s)) as Hst.
  destruct storage as [store|]; [|by eexists].
  destruct (Hst store eq_refl) as [w' ->]. by eexists.
Qed.

Lemma own_end_never_stops n s :
  Forall (λ l, l ≠ EOF_line ∧ is_Ok (line l) = true) (lp_input s) →
  parse_passes sleep storage parse append_func n s = None.
Proof.
  revert s. induction n as [|n IH]; intros s Hf; [done|]. cbn [parse_passes].
  destruct (lp_input s) as [|l ls] eqn:Ei.
  - destruct (own_end_pass s [] "" []) as (s' & -> & Hs'); [by rewrite Ei|congruence|done|].
    apply IH. by rewrite Hs'.
  - apply Forall_cons in Hf as [[Hne [ms Hms]%is_Ok_true] Hf].
    destruct (own_end_pass s ls l ms) as (s' & -> & Hs'); [by rewrite Ei|done|done|].
    apply IH. by rewrite Hs'.
Qed.
End own_end.

(** The parsers that compare a line with an end line of their own. *)
Inductive own_end_benchmark := Mutilate | Cassandra | Mysql.
Definition own_end_line (b : own_end_benchmark) : string :=
  match b with Mutilate => "Stop-Mutilate-Now" | Cassandra => "Stop-Cassandra-Stress-Now" | Mysql => "end" end.
Definition own_end_metrics (b : own_end_benchmark) : dict string string → string → string → result (list Metric) :=
  match b with Mutilate => mutilate_line | Cassandra => cassandra_line | Mysql => mysql_line end.
Definition own_end_parse (b : own_end_benchmark) : dict string string → string → M (list string) (list Metric) :=
  match b with Mutilate => mutilate_parse | Cassandra => cassandra_parse | Mysql => mysql_parse end.

(** The parsers of mutilate, cassandra-stress and mysql compare a line,
    its newline included, with an end line that has none: when every line of the output
    has a newline and none makes the parser fail, the loop never ends, neither at that
    line nor at the end of the output, where it reads the empty string for ever. *)
Theorem own_end_line_never_seen {W} (sleep : Z → M W unit) storage append_func b labels prefix lines n w :
  (∀ store, storage = Some store → ∀ ms w, ∃ w', store ms w = (Ok tt, w')) →
  (∀ ms, ∃ l, append_func ms = Some (Ok tt, l)) →
  Forall (λ l, endswith (str1 newline) l = true ∧ is_Ok (own_end_metrics b labels prefix l) = true) lines →
  parse_loop sleep storage (own_end_parse b labels prefix) append_func n lines w = None.
Proof.
  intros Hst Ha Hf. unfold parse_loop.
  assert (own_end_parse b labels prefix =
          (readline_with_check (own_end_line b) ≫= λ l, lift (own_end_metrics b labels prefix l))) as -> by (by destruct b).
  apply own_end_never_stops; [done|done|by destruct b|by destruct b|].
  eapply Forall_impl; [exact Hf|]. intros l [Hend Hok]. split; [|done].
  intros ->. by destruct b.
Qed.

Lemma own_end_line_never_seen_witness :
  parse_loop sleeping None (mutilate_parse [] "") (λ ms, Some (Ok tt, ms)) 1000
    ["Total QPS = 159578.5 (1595835 / 10.0s)
"; "Stop-Mutilate-Now
"] (0%nat, []) = None.
Proof.
  apply (own_end_line_never_seen sleeping None _ Mutilate); [done|by eexists|].
  repeat constructor.
Defined.

(** ** The table of SPECjbb *)

Lemma read_until_block stop new_line lines block l ls :
  Forall (λ x, stop x = false) block → stop l = true → Forall (λ x, x ≠ "") (block ++ [l]) →
  ∀ ls0, new_line :: ls0 = block ++ l :: ls →
  read_until stop new_line lines ls0 = (Ok (l, lines ++ block), ls).
Proof.
  intros Hb Hl. revert new_line lines. induction Hb as [|x block Hx Hb IH]; intros new_line lines Hne ls0.
  - intros [= -> ->]. rewrite app_nil_r. destruct ls; cbn; by rewrite Hl.
  - intros [= -> ->]. cbn in Hne. apply Forall_cons in Hne as [_ Hne].
    assert (∃ y rest, block ++ l :: ls = y :: rest ∧ y ≠ "") as (y & rest & Hy & Hy0).
    { destruct block as [|y block]; cbn in *; apply Forall_cons in Hne as [Hy _]; eauto. }
    rewrite Hy. cbn [read_until]. rewrite Hx. apply String.eqb_neq in Hy0 as ->.
    rewrite (IH y); [by rewrite <-app_assoc|done|done].
Qed.

(** The parser of SPECjbb skips the lines up to the heading of the
    response times, takes the lines of the table up to the first blank one and leaves
    what follows for the next call; the result is the one of the table alone. *)
Theorem specjbb_reads_table labels prefix skipped title table blank rest :
  let is_title := matches (rseqs [rstar rspace; rlit "Response times:"; rstar rspace; REnd]) in
  let is_blank := matches (rseqs [rstar rspace; REnd]) in
  Forall (λ x, x ≠ "") (skipped ++ title :: table ++ [blank]) →
  Forall (λ x, is_title x = false) skipped → is_title title = true →
  Forall (λ x, is_blank x = false) table → is_blank blank = true →
  specjbb_parse labels prefix (skipped ++ title :: table ++ blank :: rest) =
    (specjbb_table labels prefix table, rest).
Proof.
  intros is_title is_blank Hne Hs Ht Htab Hb.
  apply Forall_app in Hne as [Hne1 Hne2]. apply Forall_cons in Hne2 as [Hne2 Hne3].
  assert (readline_cons : ∀ l ls, l ≠ "" → readline_with_check "" (l :: ls) = (Ok l, ls)).
  { intros l ls Hl. unfold readline_with_check, readline, mbind, M_bind.
    by apply String.eqb_neq in Hl as ->. }
  assert (cons_split : ∀ block (l : string) ls, Forall (λ x, x ≠ "") (block ++ [l]) →
    ∃ y ys, block ++ l :: ls = y :: ys ∧ y ≠ "").
  { intros [|y block] l ls Hall; cbn in *; apply Forall_cons in Hall as [? _]; eauto. }
  unfold specjbb_parse.
  destruct (cons_split skipped title (table ++ blank :: rest)) as (y & ys & Hy & Hy0).
  { apply Forall_app. split; [done|by constructor]. }
  rewrite Hy. unfold mbind at 1, M_bind at 1. rewrite readline_cons by done.
  unfold mbind at 1, M_bind at 1.
  rewrite (read_until_block is_title y [] skipped title (table ++ blank :: rest));
    [|done|done|apply Forall_app; split; [done|by constructor]|done].
  destruct (cons_split table blank rest Hne3) as (z & zs & Hz & Hz0).
  rewrite Hz. unfold mbind at 1, M_bind at 1. rewrite readline_cons by done.
  unfold mbind at 1, M_bind at 1.
  rewrite (read_until_block is_blank z [] table blank rest) by done. done.
Qed.

Lemma specjbb_reads_table_witness :
  specjbb_parse [] "" ["x
"; "  Response times:
"; "Request, p99
"; "Total, 7, 8, 
"; "
"; "next
"] = (specjbb_table [] "" ["Request, p99
"; "Total, 7, 8, 
"], ["next
"]) ∧ parsed (specjbb_table [] "" ["Request, p99
"; "Total, 7, 8, 
"], []) = Some [("p99_total_purchase", pfloat 7 1)].
Proof.
  split; [|by vm_compute].
  apply (specjbb_reads_table [] "" ["x
"] "  Response times:
" ["Request, p99
"; "Total, 7, 8, 
"] "
" ["next
"]); repeat constructor; by vm_compute.
Defined.
