(* ===== verification/WrapperMain.v ===== *)
(** * The start of the benchmark wrapper

    [src/examples/workloads/wrapper/wrapper/wrapper_main.py]: the table of the arguments with
    their conversion, and the main function from the arguments to the end of the workload.
    The splitting of a command line into options, of a command into words and the reading of
    the labels belong to argparse, shlex and json: the options are given by name and text,
    the other two are parameters. *)
From S2P Require Export Wrapper.

(** ** Arguments *)

Inductive argtype := TStr | TInt | TFloat | TFlag.
Inductive argval := ANone | AStr (s : string) | AInt (z : Z) | AFloat (f : float) | ABool (b : bool).

(** An option: its name without dashes, its type, the values that may be chosen, whether it
    is required and its default. *)
Record option_spec := mkOption {
  op_name : string; op_type : argtype; op_choices : option (list string); op_required : bool; op_default : argval
}.

(** The text of [DEFAULT_REGEXP]. *)
Definition DEFAULT_REGEXP_text : string := "(?P<name>\w+?)=(?P<value>\d+?.?\d*)".

(** src/examples/workloads/wrapper/wrapper/wrapper_main.py:95-214 [prepare_argument_parser]
    The destination of an option has its name. *)
Definition argument_parser : list option_spec :=
  [mkOption "command" TStr None true ANone;
   mkOption "stderr" TInt None false (AInt 0);
   mkOption "regexp" TStr None false (AStr DEFAULT_REGEXP_text);
   mkOption "metric_name_prefix" TStr None false (AStr "");
   mkOption "separator" TStr None false ANone;
   mkOption "log_level" TStr (Some ["ERROR"; "WARNING"; "INFO"; "DEBUG"; "TRACE"]) false (AStr "ERROR");
   mkOption "labels" TStr None false (AStr "{}");
   mkOption "kafka_brokers" TStr None false (AStr "");
   mkOption "kafka_topic" TStr None false (AStr "wca_apms");
   mkOption "storage_output_filename" TStr None false ANone;
   mkOption "peak_load" TInt None false ANone;
   mkOption "load_metric_name" TStr None false ANone;
   mkOption "slo" TFloat None false (AFloat finf);
   mkOption "sli_metric_name" TStr None false ANone;
   mkOption "inverse_sli_metric_value" TFlag None false (ABool false);
   mkOption "subprocess_shell" TFlag None false (ABool false)].

(** [parser.error]: [exit(2)] *)
Definition argument_error : exn := OtherException "SystemExit 2".

(** The value of an option from its text; a flag has none. *)
Definition convert (spec : option_spec) (text : option string) : result argval :=
  match op_type spec, text with
  | TFlag, None => Ok (ABool true)
  | TStr, Some s =>
      match op_choices spec with
      | Some choices => if bool_decide (s ∈ choices) then Ok (AStr s) else Raise argument_error
      | None => Ok (AStr s)
      end
  | TInt, Some s => match py_int s with Ok z => Ok (AInt z) | Raise _ => Raise argument_error end
  | TFloat, Some s => match py_float s with Ok f => Ok (AFloat f) | Raise _ => Raise argument_error end
  | _, _ => Raise argument_error
  end.

Definition find_spec (specs : list option_spec) (name : string) : option option_spec :=
  head (filter (λ o, op_name o = name) specs).

(** [parser.parse_args()]: the last value of an option counts, an unknown option and a
    required one that is missing end the program. *)
Definition parse_args (specs : list option_spec) (options : list (string * option string)) : result (dict string argval) :=
  args ← foldM (λ args '(name, text),
    spec ← or_raise argument_error (find_spec specs name);
    v ← convert spec text; Ok (dset args name v)) (dict_of ((λ o, (op_name o, op_default o)) <$> specs)) options;
  if forallb (λ o, negb (op_required o) || bool_decide (op_name o ∈ options.*1)) specs then Ok args
  else Raise argument_error.

Definition arg_str (args : dict string argval) (name : string) : option string :=
  match dget args name with Some (AStr s) => Some s | _ => None end.
Definition arg_int (args : dict string argval) (name : string) : option Z :=
  match dget args name with Some (AInt z) => Some z | _ => None end.
Definition arg_flag (args : dict string argval) (name : string) : bool :=
  match dget args name with Some (ABool b) => b | _ => false end.
Definition arg_float (args : dict string argval) (name : string) : float :=
  match dget args name with Some (AFloat f) => f | _ => finf end.

(** ** The main function *)

(** The processes: the lines of standard output and standard error of one that is started. *)
Class Workloads (W : Type) : Type := {
  wl_popen : list string → bool → M W (list string * list string);
  wl_terminate : M W unit;
  wl_sleep : Z → M W unit;
  (** the storage for a choice of brokers or of a file *)
  wl_store : wrapper_storage → list Metric → M W unit
}.

Definition KeyboardInterrupt : exn := OtherException "KeyboardInterrupt".

Section main.
  Context {W : Type} `{Workloads W}.
  Context (shlex_split : string → list string) (json_loads : string → result (dict string string)).
  (** the parser: regular expression, separator, labels and prefix of the names *)
  Context (parse : string → option string → dict string string → string → M (list string) (list Metric)).

(** src/examples/workloads/wrapper/wrapper/wrapper_main.py:71-92 [main]
    The loop with [n] passes in a thread of its own; appending the metrics of the service
    level takes [n] steps at most.  When the loop has ended it has interrupted the main
    thread, which waits for it: [terminate] comes after the interrupt. *)
Definition run_parse_thread (n : nat) (args : dict string argval) (level : ServiceLevelArgs)
    (input : list string) (labels : dict string string) : M W (option unit) := λ w,
  let parse := parse (default "" (arg_str args "regexp")) (arg_str args "separator") labels
                 (default "" (arg_str args "metric_name_prefix")) in
  let storage := choose_storage (default "" (arg_str args "kafka_brokers")) (arg_str args "storage_output_filename") in
  match parse_loop wl_sleep (Some (wl_store storage)) parse (append_service_level_metrics level labels n) n input w with
  | None => (Ok None, w)
  | Some (_, s) =>
      (_ ← (if lp_interrupted s then raise KeyboardInterrupt else mret tt); _ ← wl_terminate; mret (Some tt))
        (lp_world s)
  end.

(** src/examples/workloads/wrapper/wrapper/wrapper_main.py:59-92 [main]
    The workload, and the loop over what it prints. *)
Definition run_workload (n : nat) (args : dict string argval) (level : ServiceLevelArgs) : M W (option unit) :=
  output ← wl_popen (shlex_split (default "" (arg_str args "command"))) (arg_flag args "subprocess_shell");
  labels ← lift (json_loads (default "" (arg_str args "labels")));
  let input := if num_true (PInt (default 0 (arg_int args "stderr"))) then output.2 else output.1 in
  run_parse_thread n args level input labels.

(** src/examples/workloads/wrapper/wrapper/wrapper_main.py:33-92 [main] *)
Definition wrapper_main (n : nat) (options : list (string * option string)) : M W (option unit) :=
  args ← lift (parse_args argument_parser options);
  level ← lift (service_level_args (arg_float args "slo") (arg_str args "sli_metric_name")
                  (arg_flag args "inverse_sli_metric_value") (arg_int args "peak_load") (arg_str args "load_metric_name"));
  run_workload n args level.
End main.

(** ** Properties *)

Lemma parse_passes_interrupted {W I} sleep storage (parse : M I (list Metric)) append_func n (s : loop_state W I) e s' :
  parse_passes sleep storage parse append_func n s = Some (e, s') → lp_interrupted s' = true.
Proof.
  revert s. induction n as [|n IH]; intros s; [done|]. cbn [parse_passes].
  destruct (parse_step sleep storage parse append_func s) as [[[u|e'] s1]|]; [apply IH| |done]. by intros [= _ <-].
Qed.

(** The end of the workload is never reached: the loop that is waited for only ends by an
    exception, with which it interrupts the main thread. *)
Lemma workload_not_terminated {W} `{Workloads W} shlex_split json_loads parse n args level (w : W) :
  (run_workload shlex_split json_loads parse n args level w).1 ≠ Ok (Some tt).
Proof.
  unfold run_workload, run_parse_thread, mbind, M_bind, lift.
  destruct (wl_popen _ _ w) as [[output|] w1]; [|done]. destruct (json_loads _) as [labels|]; [|done].
  match goal with |- context [parse_loop ?a ?b ?c ?d ?e ?f ?g] => destruct (parse_loop a b c d e f g) as [[x s]|] eqn:E end;
    [|done].
  unfold parse_loop in E. apply parse_passes_interrupted in E. by rewrite E.
Qed.

(** An option keeps its default unless it is given. *)
Lemma options_keep options args acc :
  foldM (λ args '(name, text),
    spec ← or_raise argument_error (find_spec argument_parser name);
    v ← convert spec text; Ok (dset args name v)) acc options = Ok args →
  ∀ name, name ∉ options.*1 → dget args name = dget acc name.
Proof.
  revert acc. induction options as [|[n t] options IH]; intros acc Hf name Hni; [by injection Hf as <-|].
  cbn [foldM] in Hf. apply bind_Ok_iff in Hf as (acc1 & H1 & Hf).
  apply bind_Ok_iff in H1 as (spec & _ & H1). apply bind_Ok_iff in H1 as (v & _ & [= <-]).
  cbn in Hni. apply not_elem_of_cons in Hni as [Hn Hni]. rewrite (IH _ Hf) by done. by apply dget_dset_ne.
Qed.

Lemma defaults_kept options args :
  parse_args argument_parser options = Ok args →
  "command" ∈ options.*1 ∧
  ∀ name, name ∉ options.*1 → dget args name = dget (dict_of ((λ o, (op_name o, op_default o)) <$> argument_parser)) name.
Proof.
  unfold parse_args. intros (args' & Hf & Hr)%bind_Ok_iff.
  destruct (forallb _ argument_parser) eqn:E; [|done]. injection Hr as ->. split; [|by eapply options_keep].
  cbn in E. apply andb_true_iff in E as [E _]. by apply bool_decide_eq_true in E.
Qed.

(** ** Concrete arguments *)
Example arguments_of_wrapper :
  (args ← parse_args argument_parser
     [("command", Some "stress-ng -c 1"); ("stderr", Some "1"); ("slo", Some "2.5"); ("inverse_sli_metric_value", None)];
   Ok (arg_str args "command", arg_int args "stderr", arg_float args "slo", arg_flag args "inverse_sli_metric_value",
       arg_str args "kafka_topic", arg_int args "peak_load")) =
  Ok (Some "stress-ng -c 1", Some 1, float_of_ratio 5 2, true, Some "wca_apms", None) ∧
  parse_args argument_parser [("stderr", Some "1")] = Raise argument_error ∧
  parse_args argument_parser [("command", Some "x"); ("log_level", Some "LOUD")] = Raise argument_error ∧
  parse_args argument_parser [("command", Some "x"); ("peak_load", Some "many")] = Raise argument_error ∧
  parse_args argument_parser [("command", Some "x"); ("verbose", None)] = Raise argument_error.
Proof. vm_compute. done. Qed.

(** The words a workload was started with, what it was told to do, the metrics stored. *)
Record host := mkHost { ho_started : list (list string); ho_terminated : bool; ho_stored : list (list (string * mval)) }.
#[export] Instance host_Workloads : Workloads host := {|
  wl_popen words _ := modify (λ h, mkHost (ho_started h ++ [words]) (ho_terminated h) (ho_stored h)) ≫= λ _,
                      mret (["qps=12.5"; "done"], ["err=1"]);
  wl_terminate := modify (λ h, mkHost (ho_started h) true (ho_stored h));
  wl_sleep _ := mret tt;
  wl_store _ ms := modify (λ h, mkHost (ho_started h) (ho_terminated h)
                                  (ho_stored h ++ [(λ m, (m_name m, m_value m)) <$> ms]))
|}.

(** The workload prints qps=12.5; the default pattern reads 12: its first part is as short
    as possible, the second digit is taken for the point. *)
Example wrapper_runs :
  wrapper_main words (λ _, Ok []) (λ _ _ labels prefix, default_parse DEFAULT_REGEXP None labels prefix) 10
    [("command", Some "stress-ng -c 1"); ("metric_name_prefix", Some "apm_")] (mkHost [] false []) =
  (Raise KeyboardInterrupt,
   mkHost [["stress-ng"; "-c"; "1"]] false [[("apm_qps", MNum (PFloat (float_of_ratio 12 1)))]]).
Proof. vm_compute. reflexivity. Qed.

Example load_without_peak :
  (wrapper_main words (λ _, Ok []) (λ _ _ labels prefix, default_parse DEFAULT_REGEXP None labels prefix) 10
    [("command", Some "x"); ("load_metric_name", Some "qps")] (mkHost [] false [])).1 = Raise SystemExit.
Proof. vm_compute. reflexivity. Qed.
