(* ===== verification/Manifests.v ===== *)
(** * The manifests of the benchmarks

    [src/examples/workloads/*/*.py]: each script completes the pod of
    [ExternalPackage.manifest] by a command, containers that run before it and mounts.
    The commands of the load generators start the wrapper of [WrapperMain]; they are read
    here as the shell and argparse read them, down to the metrics of the service level.
    [json.dumps] is a parameter. *)
From S2P Require Export ExternalPackage WrapperMain WrapperParsers.

Definition dquote : ascii := "034"%char.
Definition dq : string := String dquote "".
Definition cat (l : list string) : string := str_join "" l.

Section manifests.
  Context (getenv : string → option string) (dumps : dict string json → string).
  (** the labels that [common.py] has made *)
  Context (labels : dict string json).

(** ["%s"] of a variable that may be missing *)
Definition text_env (name : string) : string := env_or getenv name "None".
(** [int(os.environ.get(name) or n)] *)
Definition int_env (name : string) (n : Z) : result Z :=
  match getenv name with Some s => if String.eqb s "" then Ok n else py_int s | None => Ok n end.

Definition cpu_list : string := env_or getenv "cpu_list" "0-999".
Definition application_host_ip : string := text_env "application_host_ip".
(** src/examples/workloads/common.py:47-47 [slo] *)
Definition slo_text : string := env_or getenv "slo" "inf".
(** src/examples/workloads/common.py:66-68 [wrapper_kafka_brokers, wrapper_kafka_topic, wrapper_log_level] *)
Definition wrapper_kafka_brokers : string := env_or getenv "wrapper_kafka_brokers" "".
Definition wrapper_kafka_topic : string := env_or getenv "wrapper_kafka_topic" "".
Definition wrapper_log_level : string := env_or getenv "wrapper_log_level" "DEBUG".
Definition image : string := text_env "image_name" +:+ ":" +:+ text_env "image_tag".

(** A container that runs before the workload. *)
Definition init_container (name image command : string) (mounts : list json) : json :=
  JObj ([("name", JStr name); ("image", JStr image); ("securityContext", JObj [("runAsUser", JNum (PInt 0))]);
         ("command", JList [JStr "sh"; JStr "-c"; JStr command])] ++
        match mounts with [] => [] | _ => [("volumeMounts", JList mounts)] end).
Definition prep_mount : json := JObj [("name", JStr "shared-data"); ("mountPath", JStr "/prep_config")].

(** src/examples/workloads/cassandra/cassandra.py:26-72 [cmd, prep_cmd] *)
Definition cassandra : result additions :=
  let cassandra_port := env_or getenv "communication_port" "9042" in
  let jmx_port := env_or getenv "jmx_port" "7199" in
  let storage_port := env_or getenv "storage_port" "7000" in
  let prep_cmd :=
    cat ["
cd /prep_config && cp /etc/cassandra/cassandra.yaml . && cp ";
     "/etc/cassandra/cassandra-env.sh .  && sed -i 's/native_transport_port: ";
     "9042/native_transport_port: "; cassandra_port; "/' cassandra.yaml && sed -i "; dq;
     "s/storage_port: 7000/storage_port: "; storage_port; "/"; dq; " cassandra.yaml && sed -i 's/JMX_PORT=";
     dq; "7199"; dq; "/JMX_PORT="; dq; jmx_port; dq; "/' cassandra-env.sh
"] in
  ram ← py_int (env_or getenv "ram" "1");
  two_thirds ← fdiv (float_of_ratio 2 1) (float_of_ratio 3 1);
  size ← float_of_Z (ram * 1024);
  max_heap_size ← float_trunc (fmul two_thirds size);
  size ← float_of_Z max_heap_size;
  fifth ← fdiv size (float_of_ratio 5 1);
  heap_newsize ← float_trunc fifth;
  let cmd :=
    cat ["cp /prep_config/cassandra.yaml /etc/cassandra &&cp /prep_config/cassandra-env.sh ";
     "/etc/cassandra && MAX_HEAP_SIZE="; dq; str_of_Z max_heap_size; "M"; dq; " HEAP_NEWSIZE="; dq;
     str_of_Z heap_newsize; "M"; dq; " CASSANDRA_CONFIG="; dq; "/etc/cassandra"; dq; " /usr/bin/taskset -c ";
     cpu_list; " /docker-entrypoint.sh"] in
  Ok (mkAdditions [init_container "prep-config" image prep_cmd [prep_mount]] [prep_mount] [cmd]).

Definition wait_for_cassandra (communication_port : string) : string :=
  cat ["
          until nc -vz "; application_host_ip; " "; communication_port; "; do
            echo "; dq; "$(date) Waiting for cassandra to initialize itself."; dq; "
            sleep 3
          done"].

(** src/examples/workloads/cassandra_stress/cassandra_stress.py:24-84 [cmd] *)
Definition cassandra_stress : result additions :=
  let communication_port := env_or getenv "communication_port" "9042" in
  threads ← int_env "threads" 8;
  let cassandra_warmup_cmd :=
    cat ["cassandra-stress write n="; "100000"; "                         -node "; application_host_ip;
     " -port native="; communication_port; " -rate threads=14"] in
  let cassandra_stress_cmd :=
    cat [dq; "while true; do cassandra-stress mixed duration=90s -pop seq=1.."; "100000"; " -node ";
     application_host_ip; " -port native="; communication_port; " -rate threads="; str_of_Z threads;
     "; done"; dq] in
  let cmd :=
    cat ["/usr/bin/cassandra_stress_wrapper.pex --command '"; cassandra_stress_cmd;
     "' --metric_name_prefix 'cassandra_'  --stderr 0 --kafka_brokers '"; wrapper_kafka_brokers;
     "' --kafka_topic "; wrapper_kafka_topic; "  --log_level "; wrapper_log_level; "  --peak_load "; "10000";
     " --load_metric_name "; "cassandra_qps"; " --slo "; slo_text; " --sli_metric_name "; "cassandra_p99";
     "  --subprocess_shell  --labels '"; dumps labels; "'"] in
  Ok (mkAdditions [init_container "wait-for-cassandra" image (wait_for_cassandra communication_port) [];
                   init_container "cassandra-warmuper" image cassandra_warmup_cmd []] [] [cmd]).

(** src/examples/workloads/mutilate/mutilate.py:25-75 [mutilate_run_cmd] *)
Definition mutilate : result additions :=
  port ← int_env "communication_port" 11211;
  qps ← int_env "qps" 350000;
  sli_percentile ← int_env "sli_percentile" 99;
  time ← int_env "time" 90;
  threads ← int_env "threads" 8;
  connections ← int_env "connections" 24;
  warmup_time ← int_env "warmup_time" 30;
  let communication_port := str_of_Z port in
  let mutilate_scan := negb (String.eqb (env_or getenv "mutilate_scan" "") "") in
  let warmup :=
    cat ["/mutilate/mutilate -s "; application_host_ip; ":"; communication_port; " --time=";
     str_of_Z warmup_time; " -R 40000 --update=1 --threads=4 -C 4"] in
  let mutilate_cmd :=
    if mutilate_scan then
    cat [" "; dq; "while true; do /mutilate/mutilate -s "; application_host_ip; ":"; communication_port;
     "     --scan "; str_of_Z qps; ":"; str_of_Z qps; ":0 --time="; str_of_Z time;
     " --update=0.01 --threads="; str_of_Z threads; " -c "; str_of_Z connections; "; done"; dq; " "]
    else
    cat [" "; dq; "while true; do /mutilate/mutilate -s "; application_host_ip; ":"; communication_port;
     "     -Q "; str_of_Z qps; " --time="; str_of_Z time; " --update=0.01 --threads="; str_of_Z threads;
     " -c "; str_of_Z connections; "; done"; dq; " "] in
  app ← env_text getenv "application";
  let cmd :=
    cat ["/usr/bin/mutilate_wrapper.pex --command '"; mutilate_cmd; "' --metric_name_prefix "; (app +:+ "_");
     " --stderr 0 --kafka_brokers '"; wrapper_kafka_brokers; "' --kafka_topic "; wrapper_kafka_topic;
     " --log_level "; wrapper_log_level; " --slo "; slo_text; " --sli_metric_name "; app; "_read_p";
     str_of_Z sli_percentile; " --peak_load "; str_of_Z qps; " --load_metric_name "; app;
     "_qps --subprocess_shell --labels '"; dumps labels; "'"] in
  Ok (mkAdditions [init_container "mutilate-warmup" image warmup []] [] [cmd]).

(** src/examples/workloads/redis/redis.py:26-61 [cmdline_config]
    The image of the container that prepares the configuration has no tag. *)
Definition redis : result additions :=
  let communication_port := env_or getenv "communication_port" "11211" in
  let cmdline_config :=
    cat ["cd /prep_config && cp /etc/redis.conf . && sed -i 's/logfile.*/logfile "; dq; dq;
     "/'                    redis.conf && sed -i "; dq; "s/port 6379/port "; communication_port; "/"; dq;
     "                    redis.conf && sed -i "; dq; "s/bind 127.0.0.1/bind "; application_host_ip; "/"; dq;
     "                    redis.conf "] in
  Ok (mkAdditions [init_container "prep-config" (text_env "image_name") cmdline_config [prep_mount]] [prep_mount]
        [cat ["/usr/bin/taskset -c "; cpu_list; " redis-server /prep_config/redis.conf"]]).

(** src/examples/workloads/rpc_perf/rpc_perf.py:54-92 [cmd] *)
Definition rpc_perf : result additions :=
  let communication_port := env_or getenv "communication_port" "11211" in
  let app := text_env "application" in
  protocol ← (if String.eqb app "twemcache" then Ok "memcache" else if String.eqb app "redis" then Ok "redis"
              else Raise (OtherException "Exception")) : result string;
  let cmd :=
    cat ["rpc_perf_wrapper.pex --command 'rpc-perf --config /etc/rpc-perf.toml -p "; protocol; " --server ";
     application_host_ip; ":"; communication_port; "' --log_level "; wrapper_log_level;
     " --stderr 0 --labels '"; dumps labels; "' --metric_name_prefix '"; app; "_' --kafka_topic ";
     wrapper_kafka_topic; " --kafka_brokers "; wrapper_kafka_brokers; " --peak_load '"; "15000";
     "' --load_metric_name '"; (app +:+ "_rate"); "' --slo "; slo_text; " --sli_metric_name '";
     (app +:+ "_p99"); "'
"] in
  Ok (mkAdditions [] [] [cmd]).

(** [str.format] with named fields in braces; a brace that is not closed is an error. *)
Fixpoint format_fields (fields : dict string string) (field : option string) (s : string) : result string :=
  match s, field with
  | EmptyString, None => Ok ""
  | EmptyString, Some _ => Raise ValueError
  | String c s, None =>
      if ascii_eqb c "{" then format_fields fields (Some "") s
      else if ascii_eqb c "}" then Raise ValueError
      else String c <$> format_fields fields None s
  | String c s, Some name =>
      if ascii_eqb c "}" then
        v ← dgetitem fields (str_rev name); rest ← format_fields fields None s; Ok (v +:+ rest)
      else format_fields fields (Some (String c name)) s
  end.

(** src/examples/workloads/specjbb/specjbb.py:31-124 [controller_cmd, injector_cmd, backend_cmd]
    [config] is the text of the file specjbb/specjbb.config. *)
Definition specjbb (config : result string) : result additions :=
  controller_host_ip ← or_raise KeyError (getenv "controller_host_ip");
  let communication_port := env_or getenv "communication_port" "42000" in
  let qps := env_or getenv "qps" "1000" in
  component_type ← or_raise KeyError (getenv "specjbb_component_type");
  _ ← (if bool_decide (component_type ∈ ["controller"; "injector"; "backend"]) then Ok tt
       else Raise (OtherException "Exception")) : result unit;
  let config_path := "/prep_config/wca_config.raw" in
  let specjbb_jar := "/home/specjbb/specjbb2015.jar" in
  threads_count ← py_int (env_or getenv "cpu" "1");
  config_content ← config;
  config_content ← format_fields
    [("qps", qps); ("controller_host_ip", controller_host_ip); ("controller_listen_port", communication_port);
     ("config_path", config_path); ("threads_count", str_of_Z threads_count)] None config_content;
  let create :=
    cat ["cat >"; config_path; " <<EOF
"; config_content; "
EOF
cat "; config_path] in
  let controller_cmd :=
    cat ["java -Dspecjbb.forkjoin.workers="; str_of_Z threads_count; "  -Xms4g -Xmx4g -jar "; specjbb_jar;
     " -m distcontroller -p "; config_path] in
  let controller_cmd :=
    cat ["/usr/bin/specjbb_wrapper.pex"; " --command '"; controller_cmd;
     "' --stderr 0                              --kafka_brokers "; wrapper_kafka_brokers;
     " --log_level DEBUG                              --kafka_topic "; wrapper_kafka_topic;
     " --log_level DEBUG                              --metric_name_prefix 'specjbb_'                              ";
     "--labels '"; dumps labels; "'                              --peak_load "; dq; qps; dq;
     " --load_metric_name                               "; dq; "const"; dq; " --slo "; slo_text;
     " --sli_metric_name                               specjbb_p99_total_purchase"] in
  let injector_cmd :=
    cat ["java -jar "; specjbb_jar; " -m txinjector -p "; config_path; " -G GRP1 -J JVM_B"] in
  let backend_cmd :=
    cat ["
    /usr/bin/taskset -c "; cpu_list;
     "     java -Xms4g -Xmx4g -Xmn2g -XX:-UseBiasedLocking -XX:+UseParallelOldGC     -jar "; specjbb_jar;
     " -m backend -p "; config_path; " -G GRP1 -J JVM_A"] in
  Ok (mkAdditions [init_container "prep-config" image create [prep_mount]] [prep_mount]
        [if String.eqb component_type "controller" then controller_cmd
         else if String.eqb component_type "injector" then injector_cmd else backend_cmd]).

(** src/examples/workloads/stress_ng/stress_ng.py:25-50 [stress_ng_run_cmd] *)
Definition stress_ng : result additions :=
  timeout ← int_env "timeout" 30;
  let stressor := let s := env_or getenv "stressor" "" in if String.eqb s "" then "stream" else s in
  number_workers ← int_env "number_workers" 1;
  let stress_ng_cmd :=
    cat [dq; "while true; do /usr/bin/taskset -c "; cpu_list; " stress-ng --"; stressor; "=";
     str_of_Z number_workers; " --timeout="; str_of_Z timeout;
     " --metrics --metrics-brief -Y /dev/stdout;done"; dq] in
  app ← env_text getenv "application";
  let cmd :=
    cat ["/usr/bin/stress_ng_wrapper.pex --command '"; stress_ng_cmd; "' --metric_name_prefix "; (app +:+ "_");
     " --stderr 1 --kafka_brokers '"; wrapper_kafka_brokers; "' --kafka_topic "; wrapper_kafka_topic;
     " --log_level "; wrapper_log_level; " --subprocess_shell --labels '"; dumps labels; "' --slo ";
     slo_text; " --sli_metric_name '"; "stress_ng_bogo_ops_per_second_usr_sys_time"; "'"] in
  Ok (mkAdditions [] [] [cmd]).

(** src/examples/workloads/tensorflow_benchmark/tensorflow-benchmark-prediction.py:20-39 [command] *)
Definition tensorflow_prediction : result additions :=
  Ok (mkAdditions [] []
    [cat ["/usr/bin/taskset -c "; cpu_list;
     " /tensorflow_benchmark_prediction_wrapper.pex --command '/usr/bin/python3.5 -u ";
     "/root/benchmarks/scripts/tf_cnn_benchmarks/tf_cnn_benchmarks.py --eval=True ";
     "--datasets_use_prefetch=True --batch_group_size=1 --device=cpu --data_format=NHWC ";
     "--data_name=cifar10 --batch_size=8 --model=resnet56 --train_dir=/saved_model/ ";
     "--num_epochs=200 --num_intra_threads=1 --num_inter_threads=1' --metric_name_prefix ";
     "'tensorflow_benchmark_' --stderr 0 --kafka_brokers '"; wrapper_kafka_brokers; "' --kafka_topic ";
     wrapper_kafka_topic; " --log_level "; wrapper_log_level; " --slo "; slo_text;
     " --sli_metric_name tensorflow_benchmark_prediction_speed --inverse_sli_metric_value ";
     "--peak_load 1 --load_metric_name const --labels '"; dumps labels; "'"]]).

(** src/examples/workloads/tensorflow_benchmark/tensorflow-benchmark-training.py:21-40 [command] *)
Definition tensorflow_training : result additions :=
  Ok (mkAdditions [] []
    [cat ["/usr/bin/taskset -c "; cpu_list;
     " /tensorflow_benchmark_training_wrapper.pex --command '/usr/bin/python3.5 -u ";
     "/root/benchmarks/scripts/tf_cnn_benchmarks/tf_cnn_benchmarks.py ";
     "--datasets_use_prefetch=True --batch_group_size=1 --device=cpu --data_format=NHWC ";
     "--data_name=cifar10 --batch_size=64 --display_every=1 --model=resnet56 ";
     "--train_dir=/saved_model/ --num_epochs=100 --num_intra_threads=10 ";
     "--num_inter_threads=10' --metric_name_prefix 'tensorflow_benchmark_' --stderr 0 "; "--kafka_brokers '";
     wrapper_kafka_brokers; "' --kafka_topic "; wrapper_kafka_topic; " --log_level "; wrapper_log_level;
     " --slo "; slo_text;
     " --sli_metric_name tensorflow_benchmark_training_speed --inverse_sli_metric_value ";
     "--peak_load 1 --load_metric_name const --labels '"; dumps labels; "'"]]).

(** src/examples/workloads/twemcache/twemcache.py:25-42 [cmd] *)
Definition twemcache : result additions :=
  let communication_port := env_or getenv "communication_port" "11211" in
  worker_threads ← int_env "worker_threads" 1;
  max_memory ← int_env "max_memory" 1024;
  Ok (mkAdditions [] []
    [cat ["/usr/bin/taskset -c "; cpu_list; " twemcache --prealloc --hash-power=20 --max-memory=";
     str_of_Z max_memory; " --port="; communication_port; " --eviction-strategy=2 --verbosity=4 --threads=";
     str_of_Z worker_threads; " --backlog=128 -u twemcache --maximize-core-limit --slab-size=1048576 "]]).

(** src/examples/workloads/ycsb/ycsb.py:26-141 [ycsb_cassandra_run_cmd] *)
Definition ycsb : result additions :=
  let communication_port := env_or getenv "communication_port" "9042" in
  let ycsb_target := env_or getenv "ycsb_target" "1000" in
  let ycsb_thread_count := env_or getenv "ycsb_thread_count" "1" in
  let ycsb_period := env_or getenv "ycsb_period" "100" in
  let ycsb_amplitude := env_or getenv "ycsb_amplitude" "100" in
  let ycsb_operation_count := env_or getenv "ycsb_operation_count" "2147483647" in
  let create :=
    cat ["
            cqlsh --cqlversion 3.4.4 -e                 "; dq; "create keyspace ycsb WITH REPLICATION = {"; "
                'class' : 'SimpleStrategy', 'replication_factor': 1
                }"; ";"; dq; "                 "; application_host_ip; " "; communication_port; " || true
            cqlsh --cqlversion 3.4.4 -k ycsb -e                 "; dq;
     "create table usertable (y_id varchar primary key,
                field0 varchar, field1 varchar, field2 varchar,
                field3 varchar, field4 varchar, field5 varchar,
                field6 varchar, field7 varchar, field8 varchar,
                field9 varchar);"; dq; "                 "; application_host_ip; " "; communication_port;
     " || true
          "] in
  let load :=
    cat ["
            cd /opt/ycsb
            ./bin/ycsb load cassandra2-cql -s                 -P workloads/workloada                 ";
     "-p hosts="; application_host_ip; "                 -p port="; communication_port;
     "                 -p status.interval=1                 -p threadcount=20
          "] in
  target ← py_int ycsb_target;
  amplitude ← py_int ycsb_amplitude;
  let peak_load := target + amplitude in
  let cmd :=
    cat ["
            cd /opt/ycsb
            ycsb_wrapper.pex                 --command                     "; dq;
     "/opt/ycsb/bin/ycsb run cassandra2-cql -s                         -P workloads/workloada                         ";
     "-p hosts="; application_host_ip; "                         -p port="; communication_port;
     "                         -target "; ycsb_target;
     "                         -p status.interval=1                         -p threadcount=";
     ycsb_thread_count; "                         -p workload.peroid="; ycsb_period;
     "                         -p workload.amplitude="; ycsb_amplitude;
     "                         -p workload.phase=0                         -p operationcount=";
     ycsb_operation_count; dq;
     "                 --metric_name_prefix 'cassandra_'                 --stderr 1 "; "--kafka_brokers ";
     dq; wrapper_kafka_brokers; dq; "                 --kafka_topic "; wrapper_kafka_topic;
     "                 --log_level "; wrapper_log_level; "                 --labels '"; dumps labels;
     "'                 --peak_load "; str_of_Z peak_load; "                 --load_metric_name "; dq;
     "cassandra_ops_per_sec"; dq; "                 --slo "; slo_text; " --sli_metric_name "; dq;
     "cassandra_read_p9999"; dq; "
          "] in
  Ok (mkAdditions [init_container "ycsb-wait-for-cassandra" image (wait_for_cassandra communication_port) [];
                   init_container "ycsb-cassandra-create-structure" image create [];
                   init_container "ycsb-cassandra-load" image load []] [] [cmd]).
End manifests.

(** ** Reading a command *)

(** Where the reader is: outside of quotes, in single or double quotes, behind a backslash
    in one of these. *)
Inductive shlex_mode := MPlain | MSingle | MDouble | MEscape | MDoubleEscape.
Record shlex_state := mkShlex { sx_words : list string; sx_current : option string; sx_mode : shlex_mode }.

Definition shlex_blank (c : ascii) : bool := bool_decide (c ∈ [" "; "009"; "010"; "013"]%char).

(** One character of [shlex.split], which follows the quoting of the shell. *)
Definition shlex_step (st : shlex_state) (c : ascii) : shlex_state :=
  let '(mkShlex done current mode) := st in
  let add s m := mkShlex done (Some (default "" current +:+ s)) m in
  match mode with
  | MPlain =>
      if shlex_blank c then
        mkShlex (done ++ match current with Some w => [w] | None => [] end) None MPlain
      else if ascii_eqb c "'" then add "" MSingle
      else if ascii_eqb c dquote then add "" MDouble
      else if ascii_eqb c "\" then add "" MEscape
      else add (str1 c) MPlain
  | MSingle => if ascii_eqb c "'" then mkShlex done current MPlain else add (str1 c) MSingle
  | MDouble =>
      if ascii_eqb c dquote then mkShlex done current MPlain
      else if ascii_eqb c "\" then mkShlex done current MDoubleEscape
      else add (str1 c) MDouble
  | MEscape => add (str1 c) MPlain
  | MDoubleEscape =>
      if ascii_eqb c dquote || ascii_eqb c "\" then add (str1 c) MDouble
      else add (String "\" (str1 c)) MDouble
  end.
Fixpoint shlex_run (st : shlex_state) (s : string) : shlex_state :=
  match s with EmptyString => st | String c s => shlex_run (shlex_step st c) s end.
Definition shlex_start : shlex_state := mkShlex [] None MPlain.

(** [shlex.split(s)] *)
Definition shlex_split (s : string) : result (list string) :=
  let '(mkShlex done current mode) := shlex_run shlex_start s in
  match mode with
  | MPlain => Ok (done ++ match current with Some w => [w] | None => [] end)
  | _ => Raise ValueError
  end.

(** argparse on the words: a word that looks like an option is no value; abbreviations,
    values behind [=] and negative numbers are left out. *)
Definition looks_like_option (w : string) : bool :=
  startswith "-" w && negb (String.eqb w "-") && negb (has_char " " w).
Fixpoint read_options (specs : list option_spec) (words : list string) : result (list (string * option string)) :=
  match words with
  | [] => Ok []
  | w :: rest =>
      if negb (startswith "--" w) then Raise argument_error else
      spec ← or_raise argument_error (find_spec specs (str_drop 2 w));
      match op_type spec, rest with
      | TFlag, _ => options ← read_options specs rest; Ok ((op_name spec, None) :: options)
      | _, v :: rest =>
          if looks_like_option v then Raise argument_error else
          options ← read_options specs rest; Ok ((op_name spec, Some v) :: options)
      | _, [] => Raise argument_error
      end
  end.

(** What stands behind the program of the wrapper. *)
Fixpoint after_wrapper (words : list string) : list string :=
  match words with [] => [] | w :: rest => if endswith ".pex" w then rest else after_wrapper rest end.

(** The arguments that the wrapper gets from a command. *)
Definition wrapper_arguments (cmd : string) : result (dict string argval) :=
  words ← shlex_split cmd;
  options ← read_options argument_parser (after_wrapper words);
  parse_args argument_parser options.

(** The names of the metrics that the wrapper stores for lines its parser reads. *)
Definition reported (cmd : string) (parse : string → result (list Metric)) : result (list string) :=
  args ← wrapper_arguments cmd;
  level ← service_level_args (arg_float args "slo") (arg_str args "sli_metric_name")
            (arg_flag args "inverse_sli_metric_value") (arg_int args "peak_load") (arg_str args "load_metric_name");
  metrics ← parse (default "" (arg_str args "metric_name_prefix"));
  match append_service_level_metrics level [] 1000 metrics with
  | Some (Ok _, metrics) => Ok (m_name <$> metrics)
  | Some (Raise e, _) => Raise e
  | None => Raise (OtherException "out of fuel")
  end.

(** ** Quoting *)

Lemma shlex_run_app st a b : shlex_run st (a +:+ b) = shlex_run (shlex_run st a) b.
Proof. revert st. induction a as [|c a IH]; intros st; [done|apply IH]. Qed.

Lemma shlex_run_single done w s : no_char "'" s = true →
  shlex_run (mkShlex done (Some w) MSingle) s = mkShlex done (Some (w +:+ s)) MSingle.
Proof.
  unfold no_char. revert w. induction s as [|c s IH]; intros w; cbn; [by rewrite str_app_nil_r|].
  intros [Hc%negb_true_iff Hs]%andb_true_iff. rewrite Hc, IH by done. by rewrite str_app_assoc.
Qed.

(** A text between single quotes is one word, whatever it holds but a single quote. *)
Lemma shlex_quoted pre words s : no_char "'" s = true →
  shlex_run shlex_start pre = mkShlex words None MPlain →
  shlex_split (pre +:+ "'" +:+ s +:+ "'") = Ok (words ++ [s]).
Proof.
  intros Hs Hpre. unfold shlex_split. rewrite shlex_run_app, Hpre.
  change (shlex_run (mkShlex words None MPlain) ("'" +:+ s +:+ "'"))
    with (shlex_run (mkShlex words (Some "") MSingle) (s +:+ "'")).
  by rewrite shlex_run_app, shlex_run_single.
Qed.

Lemma cat_app l1 l2 : cat (l1 ++ l2) = cat l1 +:+ cat l2.
Proof.
  unfold cat. induction l1 as [|x l1 IH]; [done|]. destruct l1 as [|y l1].
  - destruct l2; [by rewrite str_app_nil_r|done].
  - change (x +:+ "" +:+ str_join "" ((y :: l1) ++ l2) = (x +:+ "" +:+ str_join "" (y :: l1)) +:+ str_join "" l2).
    rewrite IH. by rewrite !str_app_assoc.
Qed.

(** A command made of pieces whose last ones put a text in single quotes. *)
Lemma cat_quoted l front lit s : drop (length l - 3) l = [lit; s; "'"] → lit = front +:+ "'" →
  cat l = (cat (take (length l - 3) l) +:+ front) +:+ "'" +:+ s +:+ "'".
Proof.
  intros Hl ->. rewrite <-(take_drop (length l - 3) l) at 1. rewrite cat_app, Hl. unfold cat at 2. cbn.
  by rewrite !str_app_assoc.
Qed.

Ltac labels_last :=
  f_equal; eapply cat_quoted; [reflexivity|];
  match goal with |- ?lit = ?front +:+ _ =>
    let f := eval vm_compute in (str_take (pred (String.length lit)) lit) in unify front f; reflexivity
  end.

(** The commands that end with the labels hand them to the wrapper as they are, unless
    they hold a single quote. *)
Lemma last_labels_passed getenv dumps labels script more :
  script ∈ [cassandra_stress getenv dumps; mutilate getenv dumps; tensorflow_prediction getenv dumps;
            tensorflow_training getenv dumps] →
  script labels = Ok more → no_char "'" (dumps labels) = true →
  ∃ pre, ad_command more = [pre +:+ "'" +:+ dumps labels +:+ "'"] ∧
    ∀ words, shlex_run shlex_start pre = mkShlex words None MPlain →
      shlex_split (pre +:+ "'" +:+ dumps labels +:+ "'") = Ok (words ++ [dumps labels]).
Proof.
  intros Hin Hm Hl.
  assert (Hshape : ∃ pre, ad_command more = [pre +:+ "'" +:+ dumps labels +:+ "'"]).
  { rewrite !elem_of_cons, elem_of_nil in Hin. destruct Hin as [->|[->|[->|[->|[]]]]].
    - unfold cassandra_stress in Hm. apply bind_Ok_iff in Hm as (threads & _ & [= <-]).
      eexists. cbn [ad_command]. labels_last.
    - unfold mutilate in Hm. repeat (apply bind_Ok_iff in Hm as (? & _ & Hm)). injection Hm as <-.
      eexists. cbn [ad_command]. labels_last.
    - injection Hm as <-. eexists. cbn [ad_command]. labels_last.
    - injection Hm as <-. eexists. cbn [ad_command]. labels_last. }
  destruct Hshape as [pre ->]. exists pre. split; [done|]. intros words Hp. by apply shlex_quoted.
Qed.

(** *** mutilate *)

Lemma prefix_ne (app a b : string) : a ≠ b → app +:+ a ≠ app +:+ b.
Proof. intros Hab H. apply Hab. induction app as [|c app IH]; [done|]. by injection H. Qed.

(** When mutilate scans, none of its metrics has the name that the manifest gives for the
    indicator of the service level. *)
Lemma scan_without_sli labels (app percentile line : string) ms :
  length (words line) = 11%nat → mutilate_line labels (app +:+ "_") line = Ok ms →
  Forall (λ m, m_name m ≠ app +:+ "_read_p" +:+ percentile) ms.
Proof.
  intros Hl. unfold mutilate_line. intros (read & Hread & (total & Htotal & [= <-])%bind_Ok_iff)%bind_Ok_iff.
  apply Forall_app. split.
  - destruct (decide _); [|injection Hread as <-; constructor]. rewrite decide_True in Hread by done.
    apply bind_Ok_iff in Hread as ([scan qps] & Hq & Hread). apply bind_Ok_iff in Hq as (f & _ & [= <- <-]).
    repeat (apply bind_Ok_iff in Hread as (? & _ & Hread)). injection Hread as <-.
    repeat constructor; cbn; rewrite str_app_assoc; by apply prefix_ne.
  - destruct (str_contains _ _); [|injection Htotal as <-; constructor].
    destruct (re_search _ _); [|injection Htotal as <-; constructor].
    apply bind_Ok_iff in Htotal as (? & _ & [= <-]). repeat constructor; cbn. rewrite str_app_assoc. by apply prefix_ne.
Qed.

(** ** The manifests in a concrete environment *)

Definition cluster_env (changes : dict string string) (name : string) : option string :=
  dget (dupdate
    [("env_uniq_id", "12"); ("workload_name", "memcached"); ("job_uniq_id", "3"); ("job_name", "memcached_mutilate");
     ("image_name", "wca/image"); ("image_tag", "0.9"); ("application", "memcached"); ("application_host_ip", "10.0.0.1");
     ("wrapper_kafka_brokers", "10.0.0.9:9092"); ("wrapper_kafka_topic", "apms"); ("wrapper_log_level", "INFO");
     ("slo", "2.5"); ("controller_host_ip", "10.0.0.2"); ("specjbb_component_type", "controller")] changes) name.
Definition json_text (d : dict string json) : string :=
  cat ["{"; dq; "job"; dq; ": "; dq; "b c"; dq; "}"].
Definition command_of (r : result additions) : result string :=
  more ← r; or_raise IndexError (head (ad_command more)).
Definition reports (script : (string → option string) → (dict string json → string) → dict string json → result additions)
    (changes : dict string string) (parse : string → result (list Metric)) : result (list string) :=
  cmd ← command_of (script (cluster_env changes) json_text []); reported cmd parse.

Definition mutilate_lines (lines : list string) (prefix : string) : result (list Metric) :=
  @concat _ <$> mapM (mutilate_line [] prefix) lines.
Definition scan_line : string := "read 76.3 346.3 21.1 23.5 24.5 34.3 38.7 2056.6 1002.0 1000".

(** What mutilate prints while it keeps a rate gives indicator and load; what it prints while
    it scans gives no indicator. *)
Example mutilate_reports :
  reports mutilate [] (mutilate_lines ["read 801.9 155.0 304.5 643.7 661.1 1017.8 1128.2 1386.5";
                                       "Total QPS = 159578.5 (1595835 / 10.0s)"]) =
    Ok ["memcached_read_avg"; "memcached_read_p90"; "memcached_read_p95"; "memcached_read_p99"; "memcached_qps";
        "slo"; "sli"; "sli_normalized"; "peak_load"; "load"; "load_normalized"] ∧
  reports mutilate [("mutilate_scan", "1")] (mutilate_lines [scan_line]) =
    Ok ["memcached_scan_qps"; "memcached_scan_read_avg"; "memcached_scan_read_p90"; "memcached_scan_read_p95";
        "memcached_scan_read_p99"].
Proof. split; vm_compute; reflexivity. Qed.

(** The other load generators name metrics that their parsers make. *)
Example generators_report :
  reports cassandra_stress [] (λ prefix, ms1 ← cassandra_line [] prefix "Op rate   :   14,997 op/s  [WRITE: 14,997 op/s]";
      ms2 ← cassandra_line [] prefix "Latency 99th percentile   :   74.0 ms [WRITE: 74.0 ms]"; Ok (ms1 ++ ms2)) =
    Ok ["cassandra_qps"; "cassandra_p99"; "peak_load"; "load"; "load_normalized"; "slo"; "sli"; "sli_normalized"] ∧
  reports rpc_perf [("application", "redis")]
    (λ prefix, rpc_perf_line [] prefix "[rpc-perf] Rate: 15823.74 rps Success: 100.00 % Hit Rate: 31.12 %") =
    Ok ["redis_hit_rate"; "redis_success"; "redis_rate"; "peak_load"; "load"; "load_normalized"] ∧
  reports ycsb [] (λ prefix, ycsb_line [] prefix
      "581 sec: 581117 operations; 975 current ops/sec; [READ: 99.9=554, 99.99=554] [UPDATE: 99.9=589, 99.99=699]") =
    Ok ["cassandra_operations"; "cassandra_ops_per_sec"; "cassandra_read_p9999"; "cassandra_update_p9999";
        "peak_load"; "load"; "load_normalized"; "slo"; "sli"; "sli_normalized"] ∧
  reports (λ env d l, specjbb env d l (Ok "host={controller_host_ip}")) []
    (λ prefix, specjbb_table [] prefix ["a"; "x,1,2.5,y,z"]) =
    Ok ["specjbb_p99_total_purchase"; "slo"; "sli"; "sli_normalized"; "peak_load"; "load"; "load_normalized"].
Proof. repeat split; vm_compute; reflexivity. Qed.

(** Without a topic, which is the default, or with a quote in the labels, the wrapper
    refuses the command; rpc-perf and SPECjbb need brokers as well. *)
Example empty_topic_refused :
  reports mutilate [("wrapper_kafka_topic", "")] (mutilate_lines []) = Raise argument_error ∧
  reports stress_ng [("wrapper_kafka_topic", "")] (λ _, Ok []) = Raise argument_error ∧
  reports tensorflow_training [("wrapper_kafka_topic", "")] (λ _, Ok []) = Raise argument_error ∧
  reports mutilate [("wrapper_kafka_brokers", "")] (mutilate_lines []) = Ok [] ∧
  reports rpc_perf [("application", "redis"); ("wrapper_kafka_brokers", "")] (λ _, Ok []) = Raise argument_error ∧
  reported "x.pex --command ls --labels '{it's}'" (λ _, Ok []) = Raise ValueError.
Proof. repeat split; vm_compute; reflexivity. Qed.

(** stress-ng has metrics of the service level only for an application that is called
    [stress_ng]. *)
Example stress_ng_names :
  sli_metric_name <$> (cmd ← command_of (stress_ng (cluster_env []) json_text []); args ← wrapper_arguments cmd;
    service_level_args (arg_float args "slo") (arg_str args "sli_metric_name") false None None) =
    Ok (Some "stress_ng_bogo_ops_per_second_usr_sys_time") ∧
  (cmd ← command_of (stress_ng (cluster_env []) json_text []); args ← wrapper_arguments cmd;
   Ok (arg_str args "metric_name_prefix", arg_flag args "subprocess_shell", arg_str args "labels")) =
    Ok (Some "memcached_", true, Some (json_text [])).
Proof. split; vm_compute; reflexivity. Qed.

(** The pod of a workload: the containers in front of it, its command and its mounts. *)
Example cassandra_pod :
  (pod ← manifest (cluster_env [("ram", "3")]) example_loads (λ _, cassandra (cluster_env [("ram", "3")]));
   spec ← jitem pod "spec"; containers ← jitem spec "containers"; c ← jnth containers 0;
   command ← jitem c "command"; cmd ← jnth command 2; mounts ← jitem c "volumeMounts";
   init ← jitem spec "initContainers"; first ← jnth init 0; name ← jitem first "name"; Ok (cmd, mounts, name)) =
  Ok (JStr (cat ["cp /prep_config/cassandra.yaml /etc/cassandra &&cp /prep_config/cassandra-env.sh /etc/cassandra && ";
                 "MAX_HEAP_SIZE="; dq; "2048M"; dq; " HEAP_NEWSIZE="; dq; "409M"; dq; " CASSANDRA_CONFIG="; dq;
                 "/etc/cassandra"; dq; " /usr/bin/taskset -c 0-999 /docker-entrypoint.sh"]),
      JList [prep_mount], JStr "prep-config").
Proof. vm_compute. reflexivity. Qed.

Example other_manifests :
  (more ← redis (cluster_env []); Ok (length (ad_init more), ad_command more)) =
    Ok (1%nat, ["/usr/bin/taskset -c 0-999 redis-server /prep_config/redis.conf"]) ∧
  rpc_perf (cluster_env []) json_text [] = Raise (OtherException "Exception") ∧
  (twemcache (cluster_env [("worker_threads", "many")])) = Raise ValueError ∧
  specjbb (cluster_env [("specjbb_component_type", "none")]) json_text [] (Ok "") = Raise (OtherException "Exception").
Proof. repeat split; vm_compute; reflexivity. Qed.
