(* ===== verification/WorkloadTools.v ===== *)
(** * Scripts beside the benchmarks

    [src/examples/workloads/filter_plugins/workload_job_iterator.py], which lists the jobs
    of a playbook, [src/examples/workloads/mysql_tpm_gauge/mysql_tpm_gauge.py], which prints
    the transactions of a database for the wrapper, and
    [src/examples/kubernetes/scripts/generator_prometheus_rules.py].  The database, the
    clock and the files are parameters. *)
From S2P Require Export Json Regex WrapperParsers.

(** ** The jobs of a playbook *)

(** [int(v)] of a value of JSON *)
Definition json_int (v : json) : result Z :=
  match v with
  | JNum n => num_trunc n
  | JStr s => py_int s
  | JBool b => Ok (if b then 1 else 0)
  | _ => Raise TypeError
  end.

(** [range(v)] of a value of JSON: only integers count *)
Definition json_range (v : json) : result (list Z) :=
  match v with
  | JNum (PInt z) => Ok (Z.of_nat <$> seq 0 (Z.to_nat z))
  | JBool b => Ok (if b then [0] else [])
  | _ => Raise TypeError
  end.

Record job := mkJob { workload_instance_index : Z; job_version : string; job_replica_index : Z }.
#[export] Instance job_eq : EqDecision job.
Proof. solve_decision. Defined.

(** src/examples/workloads/filter_plugins/workload_job_iterator.py:36-41 [workload_job_iterator]
    The replicas of a job: one when they cannot be read, or when the version itself has no
    count. *)
Definition job_replica_count (workload_version : json) (job_id : string) : result Z :=
  let count := match (job ← jitem workload_version job_id; c ← jitem job "count"; json_int c) with
               | Ok n => n | Raise _ => 1 end in
  counted ← jmem workload_version "count";
  Ok (if (counted : bool) then count else 1).

(** src/examples/workloads/filter_plugins/workload_job_iterator.py:33-47 [workload_job_iterator],
    one version *)
Definition version_jobs (job_id workload_version_name : string) (workload_version : json) : result (list job) :=
  replicas ← job_replica_count workload_version job_id;
  count ← jitem workload_version "count";
  instances ← json_range count;
  Ok (instances ≫= λ i, (λ r, mkJob i workload_version_name (Z.of_nat r)) <$> seq 0 (Z.to_nat replicas)).

(** src/examples/workloads/filter_plugins/workload_job_iterator.py:16-48 [workload_job_iterator] *)
Definition workload_job_iterator (workloads_versions : dict string json) (job_id : string) : result (list job) :=
  @concat _ <$> mapM (λ kv : string * json, version_jobs job_id kv.1 kv.2) workloads_versions.

(** ** Transactions per minute *)
Section gauge.
  Context {W : Type} (connect : M W unit) (query : M W (list (list string))) (print_tpm : float → M W unit)
          (sleep : Z → M W unit).
Definition mysql_error : exn := OtherException "mysql.connector.Error".

(** src/examples/workloads/mysql_tpm_gauge/mysql_tpm_gauge.py:48-62 [main]
    [None] after [n] attempts; the branch behind [else] is never taken, because a
    successful attempt leaves the loop. *)
Fixpoint connect_database (n : nat) : W → option (result unit * W) := λ w,
  match n with
  | O => None
  | S n => match connect w with
           | (Ok _, w) => Some (Ok tt, w)
           | (Raise e, w) => if bool_decide (e = mysql_error) then connect_database n w else Some (Raise e, w)
           end
  end.

(** src/examples/workloads/mysql_tpm_gauge/mysql_tpm_gauge.py:66-68 [main], the sum of both counters *)
Definition transactions : M W Z :=
  result ← query;
  let cell i := row ← or_raise IndexError (result !! i); s ← or_raise IndexError (row !! 1%nat); py_int s in
  lift (a ← cell 0%nat; b ← cell 1%nat; Ok (a + b)).

(** src/examples/workloads/mysql_tpm_gauge/mysql_tpm_gauge.py:70-81 [main], one pass *)
Definition gauge_pass (interval before : Z) : M W Z :=
  now ← transactions;
  tpm ← lift (int_div ((now - before) * 60) interval);
  _ ← print_tpm tpm;
  _ ← sleep interval;
  mret now.

(** src/examples/workloads/mysql_tpm_gauge/mysql_tpm_gauge.py:66-81 [main], [n] passes *)
Fixpoint gauge_passes (n : nat) (interval before : Z) : M W Z :=
  match n with
  | O => mret before
  | S n => now ← gauge_pass interval before; gauge_passes n interval now
  end.

(** src/examples/workloads/mysql_tpm_gauge/mysql_tpm_gauge.py:22-81 [main] *)
Definition gauge_main (attempts n : nat) (interval_text : string) : W → option (result Z * W) := λ w,
  match py_int interval_text with
  | Raise e => Some (Raise e, w)
  | Ok interval =>
      match connect_database attempts w with
      | None => None
      | Some (Raise e, w) => Some (Raise e, w)
      | Some (Ok _, w) => Some ((before ← transactions; gauge_passes n interval before) w)
      end
  end.
End gauge.

(** ** Rules of Prometheus *)

(** The pattern of a bracket with seven days, and [re.sub] of it, which leaves the rest of
    the line. *)
Definition period_search : string := "[7d".
Definition replace_period (period line : string) : string :=
  str_join ("[" +:+ period) (split_sub period_search line).

(** src/examples/kubernetes/scripts/generator_prometheus_rules.py:25-41 [__main__], on the
    lines of the copied template *)
Definition generate_rules (period : string) (template : list string) : result (list string) :=
  _ ← py_assert (bool_decide (is_Some (re_match (rseqs [rplus rdigit; RClass is_word]) period)));
  Ok (replace_period period <$> template).

(** ** Theorems *)

(** A version has a job for every instance and replica, each once. *)
Lemma version_jobs_spec job_id name v jobs : version_jobs job_id name v = Ok jobs →
  ∃ replicas count, job_replica_count v job_id = Ok replicas ∧ (c ← jitem v "count"; json_range c) = Ok count ∧
    NoDup jobs ∧ length jobs = (length count * Z.to_nat replicas)%nat ∧
    ∀ j, j ∈ jobs ↔ job_version j = name ∧ workload_instance_index j ∈ count ∧ 0 <= job_replica_index j < replicas.
Proof.
  unfold version_jobs. intros (replicas & Hr & (c & Hc & (count & Hn & [= <-])%bind_Ok_iff)%bind_Ok_iff)%bind_Ok_iff.
  exists replicas, count. split; [done|]. split; [by rewrite Hc|].
  assert (Hnd : NoDup count).
  { unfold json_range in Hn. destruct c as [|[]|[z|]| | |]; try done; injection Hn as <-; try by repeat constructor.
    - apply NoDup_singleton.
    - apply NoDup_fmap_2_strong; [intros; lia|apply NoDup_seq]. }
  split; [|split].
  - apply NoDup_bind; [| |done].
    + intros i1 i2 j _ _ (r1 & -> & _)%list_elem_of_fmap (r2 & [= ->] & _)%list_elem_of_fmap. done.
    + intros i _. apply NoDup_fmap_2_strong; [intros r1 r2 _ _ [= ?]; lia|apply NoDup_seq].
  - clear Hnd Hn. induction count as [|i count IH]; [done|]. cbn [mbind list_bind].
    rewrite length_app, length_fmap, length_seq, IH. cbn. lia.
  - intros [i n r]. rewrite list_elem_of_bind. cbn. split.
    + intros (i' & (r' & [= -> -> ->] & Hr')%list_elem_of_fmap & Hi). apply elem_of_seq in Hr'.
      split; [done|]. split; [done|]. lia.
    + intros (-> & Hi & Hr'). exists i. split; [|done]. apply list_elem_of_fmap. exists (Z.to_nat r).
      split; [f_equal; lia|]. apply elem_of_seq. lia.
Qed.

(** ** Examples *)

Definition count_of (n : Z) : json := JObj [("count", JNum (PInt n))].
Definition version (n replicas : Z) : json := JObj [("count", JNum (PInt n)); ("job", count_of replicas)].

(** The instances of a second version start again at 0; a version without count raises,
    although the code looks for it. *)
Example jobs_of_versions :
  workload_job_iterator [("small", version 2 2); ("big", version 1 1)] "job" =
    Ok [mkJob 0 "small" 0; mkJob 0 "small" 1; mkJob 1 "small" 0; mkJob 1 "small" 1; mkJob 0 "big" 0] ∧
  workload_job_iterator [("small", version 2 3)] "other" = Ok [mkJob 0 "small" 0; mkJob 1 "small" 0] ∧
  workload_job_iterator [("small", JObj [("job", count_of 3)])] "job" = Raise KeyError.
Proof. repeat split; vm_compute; reflexivity. Qed.

(** The readings of a database still to come, attempts that are refused, and what was printed. *)
Record gauge_world := mkGauge { gw_refused : nat; gw_readings : list (list (list string)); gw_printed : list float }.
Definition gw_connect : M gauge_world unit := λ w,
  match gw_refused w with
  | O => (Ok tt, w)
  | S n => (Raise mysql_error, mkGauge n (gw_readings w) (gw_printed w))
  end.
Definition gw_query : M gauge_world (list (list string)) := λ w,
  match gw_readings w with
  | [] => (Raise mysql_error, w)
  | r :: rest => (Ok r, mkGauge (gw_refused w) rest (gw_printed w))
  end.
Definition gw_print (f : float) : M gauge_world unit :=
  modify (λ w, mkGauge (gw_refused w) (gw_readings w) (gw_printed w ++ [f])).
Definition reading (commits rollbacks : string) : list (list string) :=
  [["Com_commit"; commits]; ["Com_rollback"; rollbacks]].
Definition example_gauge : gauge_world := mkGauge 2 [reading "100" "1"; reading "110" "2"; reading "110" "2"] [].

Example gauge_prints :
  gauge_main gw_connect gw_query gw_print (λ _, mret tt) 3 2 "2" example_gauge =
    Some (Ok 112, mkGauge 0 [] [float_of_ratio 330 1; fzero]) ∧
  gauge_main gw_connect gw_query gw_print (λ _, mret tt) 2 2 "2" example_gauge = None ∧
  fst <$> gauge_main gw_connect gw_query gw_print (λ _, mret tt) 3 2 "0" example_gauge = Some (Raise ZeroDivisionError).
Proof. repeat split; vm_compute; reflexivity. Qed.

Example rules_of_period :
  generate_rules "14d" ["expr: max_over_time(x[7d:1h]) / avg(y[7d])"] =
    Ok ["expr: max_over_time(x[14d:1h]) / avg(y[14d])"] ∧
  generate_rules "week" [] = Raise AssertionError.
Proof. split; vm_compute; reflexivity. Qed.
