(* ===== verification/Experiments.v ===== *)
(** * The experiments on a cluster

    [src/examples/kubernetes/scripts/hmem_experiments]: the scripts that start workloads
    on a cluster with kubectl, in stages and scenarios, and record when each stage was
    measured.  Shell commands, the clock, the dashboard, files and the random numbers are
    the operations of the class [Lab]; a trace of commands is its instance. *)
From S2P Require Export PyStr PyDict PyNum PyFloat FileSys Json.

(** What the scripts use of the outside. *)
Class Lab (W : Type) := {
  shell_run : string → M W string;              (* standard output; raises when the command fails *)
  write_file : string → string → M W unit;
  write_json : string → json → M W unit;
  append_file : string → string → M W unit;
  make_dirs : string → M W unit;                (* os.makedirs when the directory is missing *)
  clock : M W float;
  sleep_seconds : Z → M W unit;
  annotate_dashboard : string → Z → M W unit;
  random_choice : list string → list num → M W string;
  random_shuffle : list string → M W (list string)
}.

(** src/examples/kubernetes/scripts/hmem_experiments/runner.py:135-137 [NodesClass] *)
Inductive NodesClass := N_1LM | N_2LM.
(** src/examples/kubernetes/scripts/hmem_experiments/runner.py:140-142 [OnOffState] *)
Inductive OnOffState := On | Off.
(** src/examples/kubernetes/scripts/hmem_experiments/runner.py:374-379 [RunMode] *)
Inductive RunMode := EQUAL_ON_ALL_NODES | RUN_ON_NODES_WHERE_ENOUGH_RESOURCES.

(** src/examples/kubernetes/scripts/hmem_experiments/runner.py:27-43 [ClusterInfoLoader]
    The contents of nodes.json and workloads.json. *)
Record ClusterInfo := mkClusterInfo {
  ci_nodes : dict string (dict string num);
  ci_workloads : dict string (dict string num)
}.

Section info.
  Context (info : ClusterInfo).

(** src/examples/kubernetes/scripts/hmem_experiments/runner.py:57-59 [ClusterInfoLoader.get_aep_nodes] *)
Definition get_aep_nodes : result (list string) :=
  foldM (λ acc (nc : string * dict string num),
    r ← dgetitem nc.2 "membw_read"; w ← dgetitem nc.2 "membw_write";
    Ok (if ngtb r w then acc ++ [nc.1] else acc)) [] (ci_nodes info).

(** [get_workloads()[workload][key]] *)
Definition workload_value (workload key : string) : result num :=
  w ← dgetitem (ci_workloads info) workload; dgetitem w key.

Definition float_lit (p q : Z) : num := PFloat (float_of_ratio p q).

(** [min(c[key] for n, c in nodes.items() if n in nodes)] *)
Definition min_capacity (nodes : list string) (key : string) : result num :=
  values ← mapM (λ nc : string * dict string num, dgetitem nc.2 key)
             (filter (λ nc, nc.1 ∈ nodes) (ci_nodes info));
  match values with
  | [] => Raise ValueError
  | v :: values => Ok (foldl (λ m v, if nltb v m then v else m) v values)
  end.

(** src/examples/kubernetes/scripts/hmem_experiments/runner.py:382-391 [get_max_count_per_smallest_node] *)
Definition get_max_count_per_smallest_node (workload : string) (nodes : list string) : result Z :=
  w_cpu ← workload_value workload "cpu";
  w_mem ← workload_value workload "mem";
  min_mem ← min_capacity nodes "mem";
  min_cpu ← min_capacity nodes "cpu";
  by_cpu ← (x ← nmul (float_lit 9 10) min_cpu; y ← ndiv x w_cpu; num_trunc y);
  by_mem ← (x ← nmul (float_lit 95 100) min_mem; y ← ndiv x w_mem; num_trunc y);
  Ok (Z.min by_cpu by_mem).

(** src/examples/kubernetes/scripts/hmem_experiments/runner.py:74-81 [random_with_total_utilization_specified]
    The capacity of the nodes without persistent memory. *)
Definition dram_capacity (nodes_capacities : dict string (dict string num)) : result (num * num) :=
  aep_nodes ← get_aep_nodes;
  foldM (λ (acc : num * num) (nc : string * dict string num),
    if decide (nc.1 ∈ aep_nodes) then Ok acc
    else c ← dgetitem nc.2 "cpu"; cpu_all ← nadd acc.1 c;
         m ← dgetitem nc.2 "mem"; mem_all ← nadd acc.2 m;
         Ok (cpu_all, mem_all)) (PInt 0, PInt 0) nodes_capacities.

(** [round(x, n)] of a number *)
Definition num_round (n : Z) (x : num) : num :=
  match x with PInt z => PInt z | PFloat f => PFloat (float_round_n n f) end.

(** src/examples/kubernetes/scripts/hmem_experiments/runner.py:91-94 [random_with_total_utilization_specified] *)
Definition choices_weights (workloads_set : dict string (dict string num)) : result (list num) :=
  weights ← mapM (λ w : dict string num,
    m ← dgetitem w "mem"; c ← dgetitem w "cpu"; q ← ndiv m c;
    s ← dgetitem w "scale_weights"; nmul q s) (dvalues workloads_set);
  mapM (λ val, x ← nadd val (PInt 5); Ok (num_round 2 x)) weights.

Section choosing.
  Context {W : Type} `{Lab W}.

(** A choice of workloads, and the resources it takes. *)
Record choice := mkChoice { ch_cpu : num; ch_mem : num; ch_workloads : dict string Z }.

(** src/examples/kubernetes/scripts/hmem_experiments/runner.py:105-112 [random_with_total_utilization_specified]
    [None] when [n] draws do not reach the targets. *)
Fixpoint draw_workloads (n : nat) (names : list string) (weights : list num) (cpu_target_l mem_target_l : num)
    (c : choice) : M W (option choice) :=
  if nltb (ch_cpu c) cpu_target_l || nltb (ch_mem c) mem_target_l then
    match n with
    | O => mret None
    | S n =>
        chosen ← random_choice names weights;
        cpu ← lift (workload_value chosen "cpu" ≫= nadd (ch_cpu c));
        mem ← lift (workload_value chosen "mem" ≫= nadd (ch_mem c));
        draw_workloads n names weights cpu_target_l mem_target_l
          (mkChoice cpu mem (dset (ch_workloads c) chosen (dget0 (ch_workloads c) chosen + 1)))
    end
  else mret (Some c).

(** src/examples/kubernetes/scripts/hmem_experiments/runner.py:114-119 [random_with_total_utilization_specified]
    The ratio of a choice that is not accepted is compared with the best one so far. *)
Definition note_best (cpu_all mem_all : num) (c : choice) (best_for_now : num * num) : result (num * num) :=
  mem ← ndiv (ch_mem c) mem_all;
  cpu ← ndiv (ch_cpu c) cpu_all;
  ratio ← ndiv mem cpu;
  best ← ndiv best_for_now.2 best_for_now.1;
  Ok (if ngtb ratio best then (num_round 4 cpu, num_round 4 mem) else best_for_now).

(** src/examples/kubernetes/scripts/hmem_experiments/runner.py:97-119 [random_with_total_utilization_specified] *)
Fixpoint search_workloads (m n : nat) (names : list string) (weights : list num)
    (cpu_all mem_all cpu_target_l cpu_target_r mem_target_l mem_target_r : num) (best_for_now : num * num)
    (iteration : Z) : M W (option (Z * choice)) :=
  match m with
  | O => mret None
  | S m =>
      found ← draw_workloads n names weights cpu_target_l mem_target_l (mkChoice (PInt 0) (PInt 0) []);
      match found with
      | None => mret None
      | Some c =>
          if nleb (ch_cpu c) cpu_target_r && nleb (ch_mem c) mem_target_r then mret (Some (iteration, c))
          else
            best_for_now ← lift (note_best cpu_all mem_all c best_for_now);
            search_workloads m n names weights cpu_all mem_all cpu_target_l cpu_target_r mem_target_l mem_target_r
              best_for_now (iteration + 1)
      end : M W (option (Z * choice))
  end.

(** src/examples/kubernetes/scripts/hmem_experiments/runner.py:62-132 [random_with_total_utilization_specified]
    [m] bounds the rejected choices and [n] the draws of one; [None] when they do not
    suffice, where the code goes on. *)
Definition random_with_total_utilization_specified (m n : nat) (cpu_limit mem_limit : num * num)
    (nodes_capacities workloads_set : dict string (dict string num))
    : M W (option (Z * dict string Z * dict string num)) :=
  '(cpu_all, mem_all) ← lift (dram_capacity nodes_capacities);
  cpu_target_l ← lift (nmul cpu_all cpu_limit.1);
  cpu_target_r ← lift (nmul cpu_all cpu_limit.2);
  mem_target_l ← lift (nmul mem_all mem_limit.1);
  mem_target_r ← lift (nmul mem_all mem_limit.2);
  weights ← lift (choices_weights workloads_set);
  found ← search_workloads m n (dkeys workloads_set) weights cpu_all mem_all
            cpu_target_l cpu_target_r mem_target_l mem_target_r (PInt 100, PInt 1) 0;
  match found with
  | None => mret None
  | Some (iteration, c) =>
      cpu ← lift (ndiv (ch_cpu c) cpu_all);
      mem ← lift (ndiv (ch_mem c) mem_all);
      mret (Some (iteration, ch_workloads c, [("cpu", cpu); ("mem", mem)]))
  end.
End choosing.
End info.

(** [d == d'] of two dictionaries, whatever their order *)
Definition dict_eqb {V} `{EqDecision V} (d d' : dict string V) : bool :=
  bool_decide (Forall (λ k, dget d k = dget d' k) (dkeys d ++ dkeys d')).

(** ** Commands *)
Section commands.
  Context {W : Type} `{Lab W}.

(** src/examples/kubernetes/scripts/hmem_experiments/runner.py:145-154 [default_shell_run]
    [DRY_RUN] is off. *)
Definition default_shell_run (command : string) : M W string := shell_run command.
Definition run_ (command : string) : M W unit := default_shell_run command ≫= λ _, mret tt.

(** src/examples/kubernetes/scripts/hmem_experiments/runner.py:274-275 [sleep] *)
Definition sleep_for (sleep_duration : Z) : M W unit := run_ ("sleep " +:+ str_of_Z sleep_duration).

Definition class_value (c : NodesClass) : string := match c with N_1LM => "1" | N_2LM => "2" end.

(** src/examples/kubernetes/scripts/hmem_experiments/runner.py:157-165 [taint_nodes_class] *)
Definition taint_nodes_class (nodes_class : NodesClass) (new_state : OnOffState) : M W unit :=
  let tweak_value := match new_state with On => "" | Off => "-" end in
  run_ ("kubectl taint node -l memory=" +:+ class_value nodes_class +:+ "lm run=taint:NoSchedule" +:+ tweak_value
        +:+ " --overwrite || true").

(** src/examples/kubernetes/scripts/hmem_experiments/runner.py:168-172 [scale_down_all_workloads] *)
Definition scale_down_all_workloads (wait_time : Z) : M W unit :=
  run_ ("kubectl scale sts --all --replicas=0 && sleep " +:+ str_of_Z wait_time).

(** src/examples/kubernetes/scripts/hmem_experiments/runner.py:183-199 [switch_extender]
    One try: whether the extender is in the wanted state. *)
Definition try_switch (new_state : OnOffState) : M W bool :=
  let '(replicas, sleep_time) := match new_state with On => (1, 5) | Off => (0, 1) end in
  _ ← run_ ("kubectl -n wca-scheduler scale deployment wca-scheduler --replicas=" +:+ str_of_Z replicas
            +:+ " && sleep " +:+ str_of_Z sleep_time);
  stdout ← default_shell_run "kubectl get pods -n wca-scheduler";
  mret match new_state with
       | On => str_contains "2/2" stdout && str_contains "Running" stdout
       | Off => negb (str_contains "Running" stdout)
       end.

(** src/examples/kubernetes/scripts/hmem_experiments/runner.py:175-199 [switch_extender]
    Repeated until it holds; after [n] tries the model gives up with [None]. *)
Fixpoint switch_extender (n : nat) (new_state : OnOffState) : M W (option unit) :=
  match n with
  | O => mret None
  | S n => try_switch new_state ≫= λ done : bool,
             if done then mret (Some tt) else switch_extender n new_state
  end.

(** src/examples/kubernetes/scripts/hmem_experiments/runner.py:204-205 [get_shuffled_workloads_order]
    Also the order of [run_workloads_equally_per_node]. *)
Definition workloads_in_order (workloads_counts : dict string Z) : list string :=
  concat ((λ wc : string * Z, replicate (Z.to_nat wc.2) wc.1) <$> workloads_counts).
(** src/examples/kubernetes/scripts/hmem_experiments/runner.py:202-207 [get_shuffled_workloads_order] *)
Definition get_shuffled_workloads_order (workloads_counts : dict string Z) : M W (list string) :=
  random_shuffle (workloads_in_order workloads_counts).

Definition cmd_run (workload_name : string) (replicas : Z) : string :=
  "kubectl scale sts " +:+ workload_name +:+ " --replicas=" +:+ str_of_Z replicas +:+ " && sleep 5".

(** src/examples/kubernetes/scripts/hmem_experiments/runner.py:216-223 [run_workloads]
    The order is given from its end, where the code pops. *)
Fixpoint run_order (order : list string) (workloads_counts workloads_counts_run : dict string Z) : M W unit :=
  match workloads_counts_run with
  | [] => mret tt
  | _ =>
      match order with
      | [] => raise IndexError
      | workload_name :: order =>
          started ← lift (dgetitem workloads_counts_run workload_name);
          let started := started + 1 in
          _ ← run_ (cmd_run workload_name started);
          count ← lift (dgetitem workloads_counts workload_name);
          let workloads_counts_run := dset workloads_counts_run workload_name started in
          run_order order workloads_counts
            (if started =? count then ddel workloads_counts_run workload_name else workloads_counts_run)
      end
  end.

(** src/examples/kubernetes/scripts/hmem_experiments/runner.py:210-223 [run_workloads] *)
Definition run_workloads (workloads_run_order : list string) (workloads_counts : dict string Z) : M W unit :=
  run_order (rev workloads_run_order) workloads_counts (dmap (λ _, 0) workloads_counts).

Definition cmd_scale (workload : string) (replicas : Z) : string :=
  "kubectl scale sts " +:+ workload +:+ " --replicas=" +:+ str_of_Z replicas.
Definition cmd_taint (node : string) : string :=
  "kubectl taint nodes " +:+ node +:+ " wca_runner=any:NoSchedule --overwrite".
Definition cmd_untaint (node : string) : string :=
  "kubectl taint nodes " +:+ node +:+ " wca_runner=any:NoSchedule- --overwrite".

(** src/examples/kubernetes/scripts/hmem_experiments/runner.py:258-261 [run_workloads_equally_per_node] *)
Definition scale_up (workloads_run_order : list string) (walker : dict string Z) : M W (dict string Z) :=
  foldMS (λ walker workload,
    let walker := dset walker workload (dget0 walker workload + 1) in
    _ ← run_ (cmd_scale workload (dget0 walker workload));
    mret walker) walker workloads_run_order.

(** src/examples/kubernetes/scripts/hmem_experiments/runner.py:251-267 [run_workloads_equally_per_node] *)
Definition run_on_node (all_nodes workloads_run_order : list string) (walker : dict string Z) (nodename : string)
    : M W (dict string Z) :=
  let others := filter (λ n, n ≠ nodename) all_nodes in
  _ ← forM_ others (λ n, run_ (cmd_taint n));
  _ ← sleep_for 5;
  walker ← scale_up workloads_run_order walker;
  _ ← sleep_for 10;
  _ ← forM_ others (λ n, run_ (cmd_untaint n));
  _ ← sleep_for 5;
  mret walker.

(** src/examples/kubernetes/scripts/hmem_experiments/runner.py:226-271 [run_workloads_equally_per_node]
    The names of [all_nodes] are those of the cluster; [None] stands for all of them. *)
Definition run_workloads_equally_per_node (all_nodes : list string) (workloads_counts : dict string Z)
    (nodes : option (list string)) : M W unit :=
  let nodes := default all_nodes nodes in
  let workloads_run_order := workloads_in_order workloads_counts in
  _ ← forM_ all_nodes (λ nodename, try_except (run_ (cmd_untaint nodename)) (λ _, Some (mret tt)));
  _ ← sleep_for 5;
  walker ← foldMS (run_on_node all_nodes workloads_run_order) (dmap (λ _, 0) workloads_counts) nodes;
  lift (py_assert (dict_eqb walker (dmap (λ count, Z.of_nat (length nodes) * count) workloads_counts))).

Definition PodNotFoundException : exn := OtherException "PodNotFoundException".

(** src/examples/kubernetes/scripts/hmem_experiments/runner.py:285-295 [copy_scheduler_logs] *)
Definition copy_scheduler_logs (log_file : string) : M W unit :=
  stdout ← default_shell_run "kubectl get pods -n wca-scheduler";
  pod_name ← lift (or_raise PodNotFoundException
                     (head (filter (λ word, str_contains "wca-scheduler-" word = true) (words stdout))));
  run_ ("kubectl logs -n wca-scheduler " +:+ pod_name +:+ " wca-scheduler > " +:+ log_file).
End commands.

(** ** Experiments *)
Section experiments.
  Context {W : Type} `{Lab W} (info : ClusterInfo).

(** Events with their times; how they are printed is left to the caller. *)
Definition event_log : Type := list (float * string).
Context (str_of_events : event_log → string) (str_of_counts : dict string Z → string)
  (str_of_list : list Z → string).

(** [events.append((datetime.now(), text))] *)
Definition note_event (text : string) (events : event_log) : M W event_log :=
  t ← clock; mret (events ++ [(t, text)]).

(** src/examples/kubernetes/scripts/hmem_experiments/runner.py:333-337 [single_3stage_experiment]
    The same lines of the other stages, and of the steps of the other experiment. *)
Definition measured_stage (stage verb : string) (run : M W unit) (stabilize scale_down : Z) (events : event_log)
    : M W event_log :=
  _ ← run;
  events ← note_event (stage +:+ " stage: after " +:+ verb +:+ " workloads") events;
  _ ← sleep_for stabilize;
  events ← note_event (stage +:+ " stage: before killing workloads") events;
  _ ← scale_down_all_workloads scale_down;
  mret events.

(** The wait periods: one for all stages or one for each. *)
Inductive stabilize_period := ForAll (z : Z) | ForEach (z1 z2 z3 : Z).
Definition three_periods (p : stabilize_period) : Z * Z * Z :=
  match p with ForAll z => (z, z, z) | ForEach z1 z2 z3 => (z1, z2, z3) end.

Definition minute : Z := 60.

(** [switch_extender] inside a computation: the loop that does not end is [None]. *)
Definition opt_bind {A B} (m : M W (option A)) (f : A → M W (option B)) : M W (option B) :=
  m ≫= λ o : option A, match o with Some a => f a | None => mret None end.

(** src/examples/kubernetes/scripts/hmem_experiments/runner.py:328-337 [single_3stage_experiment] *)
Definition first_stage (n : nat) (order : list string) (workloads : dict string Z) (stabilize scale_down : Z)
    (events : event_log) : M W (option event_log) :=
  opt_bind (switch_extender n Off) (λ _,
    _ ← taint_nodes_class N_2LM On;
    events ← measured_stage "first" "run" (run_workloads order workloads) stabilize scale_down events;
    mret (Some events)).

(** src/examples/kubernetes/scripts/hmem_experiments/runner.py:339-347 [single_3stage_experiment] *)
Definition second_stage (order : list string) (workloads : dict string Z) (stabilize scale_down : Z)
    (events : event_log) : M W (option event_log) :=
  _ ← taint_nodes_class N_2LM Off;
  events ← measured_stage "second" "run" (run_workloads order workloads) stabilize scale_down events;
  mret (Some events).

(** src/examples/kubernetes/scripts/hmem_experiments/runner.py:349-360 [single_3stage_experiment] *)
Definition third_stage (n : nat) (order : list string) (workloads : dict string Z) (stabilize scale_down : Z)
    (logs_file : string) (events : event_log) : M W (option event_log) :=
  _ ← taint_nodes_class N_2LM Off;
  opt_bind (switch_extender n On) (λ _,
    events ← measured_stage "third" "run" (run_workloads order workloads) stabilize scale_down events;
    _ ← copy_scheduler_logs logs_file;
    mret (Some events)).

Definition stage_if (b : bool) (stage : event_log → M W (option event_log)) (events : event_log)
    : M W (option event_log) :=
  if b then stage events else mret (Some events).

(** [with open(path, 'a')]: what was run and the events *)
Definition append_events (experiment_root_dir what : string) (events : event_log) : M W unit :=
  _ ← append_file (path_join experiment_root_dir "events.txt") (what +:+ String newline "");
  append_file (path_join experiment_root_dir "events.txt") (str_of_events events +:+ String newline "").

(** src/examples/kubernetes/scripts/hmem_experiments/runner.py:303-371 [single_3stage_experiment]
    [n] bounds the tries of switching the extender. *)
Definition single_3stage_experiment (n : nat) (experiment_id : string) (workloads : dict string Z)
    (stabilize : stabilize_period) (scale_down : Z) (stages : bool * bool * bool) (experiment_root_dir : string)
    : M W (option unit) :=
  let '(p1, p2, p3) := three_periods stabilize in
  let '(s1, s2, s3) := stages in
  _ ← scale_down_all_workloads scale_down;
  order ← get_shuffled_workloads_order workloads;
  _ ← annotate_dashboard ("Start experiment " +:+ experiment_id) 90;
  _ ← annotate_dashboard ("Start experiment " +:+ experiment_id) 70;
  opt_bind (stage_if s1 (first_stage n order workloads p1 scale_down) []) (λ events,
  opt_bind (stage_if s2 (second_stage order workloads p2 scale_down) events) (λ events,
  opt_bind (stage_if s3 (third_stage n order workloads p3 scale_down
      (path_join experiment_root_dir ("wca_scheduler_logs." +:+ experiment_id))) events) (λ events,
    _ ← append_events experiment_root_dir (str_of_counts workloads) events;
    _ ← annotate_dashboard ("End experiment " +:+ experiment_id) 90;
    _ ← annotate_dashboard ("End experiment " +:+ experiment_id) 70;
    _ ← sleep_for 100;
    mret (Some tt)))).

(** src/examples/kubernetes/scripts/hmem_experiments/runner.py:437-440 [single_step1workload_experiment]
    The nodes, out of those of the step before, with room for [count_per_node] instances. *)
Definition nodes_with_room (workload_cpu workload_mem : num) (count_per_node : Z) (nodes : list string)
    : result (list string) :=
  foldM (λ acc (nc : string * dict string num),
    if decide (nc.1 ∈ nodes) then
      need_cpu ← nmul (PInt count_per_node) workload_cpu;
      cpu ← dgetitem nc.2 "cpu";
      if nltb need_cpu cpu then
        need_mem ← nmul (PInt count_per_node) workload_mem;
        mem ← dgetitem nc.2 "mem";
        Ok (if nltb need_mem mem then acc ++ [nc.1] else acc)
      else Ok acc
    else Ok acc) [] (ci_nodes info).

(** [list(range(start, stop, step))] *)
Definition py_range (start stop step : Z) : result (list Z) :=
  if step =? 0 then Raise ValueError
  else
    let n := if 0 <? step then (stop - start + step - 1) / step else (start - stop - step - 1) / (- step) in
    Ok ((λ i, start + Z.of_nat i * step) <$> seq 0 (Z.to_nat n)).

(** src/examples/kubernetes/scripts/hmem_experiments/runner.py:415-415 [single_step1workload_experiment] *)
Definition default_counts (max_count : Z) : result (list Z) :=
  step ← (x ← int_div max_count 5; y ← nadd (PFloat x) (PInt 1); num_trunc y);
  py_range 1 (max_count + 1) step.

(** The names of the nodes of nodes.json. *)
Definition get_nodes_names : list string := dkeys (ci_nodes info).

(** src/examples/kubernetes/scripts/hmem_experiments/runner.py:426-459 [single_step1workload_experiment]
    [max_count] is what fits on the smallest node, in the mode that runs on all nodes. *)
Fixpoint run_steps (max_count : option Z) (workload : string) (workload_cpu workload_mem : num)
    (stabilize scale_down i : Z) (counts : list Z) (nodes : list string) (events : event_log) : M W event_log :=
  match counts with
  | [] => mret events
  | count_per_node :: counts =>
      let run nodes :=
        events ← measured_stage (str_of_Z i) "running"
                   (run_workloads_equally_per_node get_nodes_names [(workload, count_per_node)] (Some nodes))
                   stabilize scale_down events;
        run_steps max_count workload workload_cpu workload_mem stabilize scale_down (i + 1) counts nodes events in
      match max_count with
      | Some max_count' =>
          if count_per_node >? max_count' then
            run_steps max_count workload workload_cpu workload_mem stabilize scale_down (i + 1) counts nodes events
          else run nodes
      | None =>
          nodes ← lift (nodes_with_room workload_cpu workload_mem count_per_node nodes);
          match nodes with [] => mret events | _ => run nodes end
      end
  end.

(** src/examples/kubernetes/scripts/hmem_experiments/runner.py:394-468 [single_step1workload_experiment] *)
Definition single_step1workload_experiment (n : nat) (run_mode : RunMode) (workload : string)
    (count_per_node_list : option (list Z)) (stabilize scale_down : Z) (nodes : option (list string))
    (experiment_root_dir : string) : M W (option unit) :=
  let nodes := default get_nodes_names nodes in
  workload_cpu ← lift (workload_value info workload "cpu");
  workload_mem ← lift (workload_value info workload "mem");
  '(max_count, counts) ←
    match run_mode with
    | EQUAL_ON_ALL_NODES =>
        max_count ← lift (get_max_count_per_smallest_node info workload nodes);
        counts ← lift (match count_per_node_list with Some l => Ok l | None => default_counts max_count end);
        mret (Some max_count, Some counts)
    | RUN_ON_NODES_WHERE_ENOUGH_RESOURCES => mret (None, count_per_node_list)
    end : M W (option Z * option (list Z));
  opt_bind (switch_extender n Off) (λ _,
    _ ← taint_nodes_class N_2LM Off;
    _ ← scale_down_all_workloads 10;
    counts ← lift (or_raise TypeError counts);
    events ← run_steps max_count workload workload_cpu workload_mem stabilize scale_down 0 counts nodes [];
    _ ← append_events experiment_root_dir (workload +:+ str_of_list counts) events;
    _ ← sleep_for 100;
    mret (Some tt)).

(** src/examples/kubernetes/scripts/hmem_experiments/runner.py:480-488 [tune_stage]
    The time is the one that is written to a file. *)
Definition tune_stage (n : nat) (workloads : list string) (sleep_time : Z) : M W (option float) :=
  _ ← scale_down_all_workloads 20;
  opt_bind (switch_extender n Off) (λ _,
    _ ← taint_nodes_class N_2LM On;
    _ ← run_workloads workloads (dict_of ((λ w, (w, 1)) <$> workloads));
    _ ← sleep_for sleep_time;
    now ← clock;
    _ ← sleep_for 60;
    _ ← scale_down_all_workloads 20;
    mret (Some now)).
End experiments.

(** ** A trace of what is done *)
Inductive action :=
  | AShell (command : string)
  | AWrite (file text : string)
  | AWriteJson (file : string)
  | AAppend (file text : string)
  | ASleep (seconds : Z)
  | AAnnotate (text : string) (dashboard_id : Z).

(** Commands succeed and print [out]; the clock stands still; [pick] and [mix] are the
    random numbers. *)
Definition trace_lab (out : string → string) (pick : list string → string) (mix : list string → list string)
    : Lab (list action) :=
  {| shell_run c := λ tr, (Ok (out c), tr ++ [AShell c]);
     write_file f t := λ tr, (Ok tt, tr ++ [AWrite f t]);
     write_json f _ := λ tr, (Ok tt, tr ++ [AWriteJson f]);
     append_file f t := λ tr, (Ok tt, tr ++ [AAppend f t]);
     make_dirs d := λ tr, (Ok tt, tr);
     clock := λ tr, (Ok fzero, tr);
     sleep_seconds z := λ tr, (Ok tt, tr ++ [ASleep z]);
     annotate_dashboard t d := λ tr, (Ok tt, tr ++ [AAnnotate t d]);
     random_choice names _ := λ tr, (match names with [] => Raise IndexError | _ => Ok (pick names) end, tr);
     random_shuffle l := λ tr, (Ok (mix l), tr) |}.

(** ** Lemmas on counting *)

(** How often a name occurs. *)
Definition occ (w : string) (l : list string) : Z := Z.of_nat (length (filter (λ x, x = w) l)).

Lemma occ_cons w x l : occ w (x :: l) = (if decide (x = w) then 1 else 0) + occ w l.
Proof. unfold occ. rewrite filter_cons. destruct (decide (x = w)); cbn [length]; lia. Qed.

Lemma occ_app w l1 l2 : occ w (l1 ++ l2) = occ w l1 + occ w l2.
Proof. unfold occ. rewrite filter_app, length_app. lia. Qed.

Lemma occ_nonneg w l : 0 ≤ occ w l.
Proof. unfold occ. lia. Qed.

Lemma occ_Permutation w l1 l2 : l1 ≡ₚ l2 → occ w l1 = occ w l2.
Proof. intros Hp. unfold occ. by rewrite Hp. Qed.

Lemma occ_replicate w x n : occ w (replicate n x) = if decide (x = w) then Z.of_nat n else 0.
Proof.
  induction n as [|n IH]; [by destruct (decide _)|].
  cbn [replicate]. rewrite occ_cons, IH. destruct (decide (x = w)); lia.
Qed.

(** The expansion of the counts has every workload as often as it is counted. *)
Lemma occ_workloads_in_order w counts :
  dict_wf counts → (∀ k c, dget counts k = Some c → 0 ≤ c) →
  occ w (workloads_in_order counts) = default 0 (dget counts w).
Proof.
  unfold workloads_in_order. induction counts as [|[k c] counts IH]; intros Hwf Hc; [done|].
  apply NoDup_cons in Hwf as [Hk Hwf]. cbn [fmap list_fmap concat fst snd].
  rewrite occ_app, occ_replicate. rewrite IH; [|done|].
  - cbn [dget]. pose proof (Hc k c) as Hkc. cbn [dget] in Hkc. rewrite decide_True in Hkc by done.
    specialize (Hkc eq_refl). destruct (decide (k = w)) as [->|Hne].
    + rewrite decide_True by done. apply dget_None in Hk. cbn [fst] in Hk. rewrite Hk. cbn. lia.
    + rewrite decide_False by congruence. done.
  - intros k' c' Hk'. apply (Hc k'). cbn [dget]. destruct (decide (k' = k)) as [->|]; [|done].
    exfalso. apply Hk. apply dget_is_Some. by eexists.
Qed.

Lemma dget_all_None {V} (d : dict string V) : (∀ k, dget d k = None) → d = [].
Proof.
  destruct d as [|[k v] d]; [done|]. intros Hn. specialize (Hn k). cbn in Hn. by rewrite decide_True in Hn.
Qed.

(** The commands that start the workloads of [l], when those of [done] have been started. *)
Fixpoint start_commands (started l : list string) : list action :=
  match l with
  | [] => []
  | w :: l => AShell (cmd_run w (occ w started + 1)) :: start_commands (w :: started) l
  end.

(** What is still in the dictionary of the loop. *)
Definition still_running (counts : dict string Z) (started : list string) (run : dict string Z) : Prop :=
  dict_wf run ∧
  ∀ w, dget run w = match dget counts w with
                    | Some c => if (0 <? c) && (occ w started =? c) then None else Some (occ w started)
                    | None => None
                    end.

Lemma still_running_step counts started run w c :
  still_running counts started run → dget counts w = Some c → occ w started < c →
  still_running counts (w :: started)
    (if occ w started + 1 =? c then ddel (dset run w (occ w started + 1)) w else dset run w (occ w started + 1)).
Proof.
  intros [Hwf Hrun] Hc Hlt. pose proof (occ_nonneg w started).
  split; [case_match; auto using dset_wf, ddel_wf|]. intros w'. rewrite occ_cons.
  destruct (decide (w = w')) as [<-|Hne].
  - rewrite Hc. replace (0 <? c) with true by lia. cbn [andb].
    destruct (Z.eqb_spec (occ w started + 1) c) as [E|E].
    + rewrite dget_ddel_eq by auto using dset_wf. replace (1 + occ w started =? c) with true by lia. done.
    + rewrite dget_dset_eq. replace (1 + occ w started =? c) with false by lia. f_equal. lia.
  - rewrite Z.add_0_l, <-Hrun. destruct (occ w started + 1 =? c).
    + rewrite dget_ddel_ne, dget_dset_ne by done. done.
    + by rewrite dget_dset_ne.
Qed.

Lemma all_positive (counts : dict string Z) k c :
  forallb (λ kc, 0 <? kc.2) counts = true → dget counts k = Some c → (0 <? c) = true.
Proof.
  intros Hf Hc%dget_Some_in. rewrite forallb_forall in Hf. by apply list_elem_of_In, Hf in Hc.
Qed.

Lemma not_all_positive (counts : dict string Z) :
  forallb (λ kc, 0 <? kc.2) counts = false → ∃ k c, (k, c) ∈ counts ∧ c ≤ 0.
Proof.
  induction counts as [|[k c] counts IH]; [done|]. cbn [forallb snd]. intros Hf.
  destruct (Z.ltb_spec 0 c) as [Hlt|Hle].
  - destruct (IH Hf) as (k' & c' & Hin & Hc). exists k', c'. split; [by right|done].
  - exists k, c. split; [by left|done].
Qed.

Section trace.
  Context (out : string → string) (pick : list string → string) (mix : list string → list string).

Lemma run_order_trace counts l started run tr :
  dict_wf counts → still_running counts started run →
  (∀ w, occ w started + occ w l = default 0 (dget counts w)) →
  @run_order _ (trace_lab out pick mix) l counts run tr =
    (if forallb (λ kc, 0 <? kc.2) counts then Ok tt else Raise IndexError, tr ++ start_commands started l).
Proof.
  intros Hcw. revert started run tr. induction l as [|w l IH]; intros started run tr Hrun Hocc.
  - cbn [run_order start_commands]. rewrite app_nil_r. destruct Hrun as [Hwf Hrun].
    destruct (forallb _ counts) eqn:Ef.
    + enough (run = []) as -> by done. apply dget_all_None. intros k. rewrite Hrun.
      destruct (dget counts k) as [c|] eqn:Ec; [|done].
      specialize (Hocc k). rewrite Ec in Hocc. cbn in Hocc. rewrite (all_positive counts k c) by done.
      replace (occ k started =? c) with true by (unfold occ in *; cbn in *; lia). done.
    + apply not_all_positive in Ef as (k & c & Hin & Hc). apply dget_in in Hin; [|done].
      destruct run as [|kv run]; [|done]. specialize (Hrun k). rewrite Hin in Hrun.
      by replace (0 <? c) with false in Hrun by lia.
  - pose proof (Hocc w) as Hw. rewrite occ_cons, decide_True in Hw by done.
    pose proof (occ_nonneg w l). pose proof (occ_nonneg w started).
    destruct (dget counts w) as [c|] eqn:Hc; cbn in Hw; [|lia].
    assert (dget run w = Some (occ w started)) as Hr.
    { destruct Hrun as [_ Hrun]. rewrite Hrun, Hc. replace (occ w started =? c) with false by lia. by rewrite andb_false_r. }
    cbn [run_order]. destruct run as [|kv run]; [done|]. remember (kv :: run) as run0 eqn:E0.
    unfold dgetitem. rewrite Hr, Hc. cbn [or_raise].
    unfold mbind, M_bind. cbn [lift run_ default_shell_run shell_run trace_lab mret M_ret].
    unfold run_, default_shell_run, mbind, M_bind. cbn [shell_run trace_lab mret M_ret lift].
    rewrite (IH (w :: started)).
    + cbn [start_commands]. by rewrite <-app_assoc.
    + apply still_running_step with (c := c); [done|done|lia].
    + intros w'. specialize (Hocc w'). rewrite occ_cons in *. lia.
Qed.
End trace.

(** Starting the workloads in an order that has each as often as it is counted gives
    exactly one command for each, with the number of instances that it adds to; with a
    workload counted zero times the loop does not notice that it is done and takes from
    the empty list. *)
Theorem run_workloads_outcome out pick mix order counts tr :
  dict_wf counts → (∀ k c, dget counts k = Some c → 0 ≤ c) → order ≡ₚ workloads_in_order counts →
  @run_workloads _ (trace_lab out pick mix) order counts tr =
    (if forallb (λ kc, 0 <? kc.2) counts then Ok tt else Raise IndexError, tr ++ start_commands [] (rev order)).
Proof.
  intros Hwf Hc Ho. unfold run_workloads. apply run_order_trace; [done| |].
  - split; [unfold dict_wf; by rewrite dkeys_dmap|]. intros w. rewrite dget_dmap.
    destruct (dget counts w) as [c|] eqn:Ec; [|done]. cbn.
    specialize (Hc w c Ec). destruct (Z.ltb_spec 0 c); [|done]. cbn.
    destruct c; [lia|done|lia].
  - intros w. rewrite (occ_Permutation w (rev order) (workloads_in_order counts)).
    + by rewrite occ_workloads_in_order.
    + by rewrite <-Ho, <-Permutation_rev.
Qed.

Lemma run_workloads_outcome_witness :
  let lab := trace_lab (λ _, "") (λ _, "") id in
  run_workloads ["a"; "b"; "a"] [("a", 2); ("b", 1)] [] =
    (Ok tt, [AShell (cmd_run "a" 1); AShell (cmd_run "b" 1); AShell (cmd_run "a" 2)]) ∧
  fst (run_workloads ["a"] [("a", 1); ("b", 0)] []) = Raise IndexError.
Proof.
  intros lab. subst lab. split.
  - rewrite (run_workloads_outcome _ _ _ ["a"; "b"; "a"] [("a", 2); ("b", 1)] []); [done| | |].
    + by apply (bool_decide_unpack _).
    + intros k c. cbn. repeat case_match; intros; simplify_eq; lia.
    + vm_compute. apply Permutation_skip, Permutation_swap.
  - by vm_compute.
Defined.

(** ** Workloads on every node *)

(** The walker after [n] nodes. *)
Definition walked (counts : dict string Z) (n : Z) (walker : dict string Z) : Prop :=
  dkeys walker = dkeys counts ∧ ∀ w, dget walker w = (λ c, n * c) <$> dget counts w.

Lemma scale_up_trace out pick mix order walker tr :
  (∀ w, w ∈ order → w ∈ dkeys walker) →
  ∃ walker' tr', @scale_up _ (trace_lab out pick mix) order walker tr = (Ok walker', tr') ∧
  dkeys walker' = dkeys walker ∧ ∀ w, dget walker' w = (λ c, c + occ w order) <$> dget walker w.
Proof.
  revert walker tr. induction order as [|x order IH]; intros walker tr Hin.
  - exists walker, tr. split; [done|]. split; [done|]. intros w.
    destruct (dget walker w); cbn; [|done]. f_equal. unfold occ. cbn. lia.
  - assert (Hx : x ∈ dkeys walker) by (apply Hin; by left).
    assert (Hkeys : dkeys (dset walker x (dget0 walker x + 1)) = dkeys walker).
    { rewrite dkeys_dset, decide_True by done. done. }
    edestruct (IH (dset walker x (dget0 walker x + 1))) as (walker' & tr' & Hrun & Hk & Hget).
    { rewrite Hkeys. intros w Hw. apply Hin. by right. }
    exists walker', tr'. split; [exact Hrun|]. split; [by rewrite Hk|].
    intros w. rewrite Hget, dget_dset, occ_cons.
    destruct (decide (x = w)) as [->|Hne].
    + apply dget_is_Some in Hx as [c Hc]. unfold dget0. rewrite Hc. cbn.
      f_equal. lia.
    + by rewrite Z.add_0_l.
Qed.

Lemma forM_trace_Ok {S B} (l : list B) (f : B → M S unit) s :
  (∀ x s, ∃ s', f x s = (Ok tt, s')) → ∃ s', forM_ l f s = (Ok tt, s').
Proof.
  intros Hf. revert s. induction l as [|x l IH]; intros s; [by eexists|].
  destruct (Hf x s) as [s1 H1]. destruct (IH s1) as [s2 H2]. exists s2.
  cbn. unfold mbind, M_bind. by rewrite H1.
Qed.

(** A computation of type unit that does not raise, in front of another. *)
Lemma then_Ok {S A} (m : M S unit) (k : M S A) s P :
  (∃ s', m s = (Ok tt, s')) → (∀ s', ∃ a s'', k s' = (Ok a, s'') ∧ P a) →
  ∃ a s'', (m ≫= λ _, k) s = (Ok a, s'') ∧ P a.
Proof. intros [s' Hm] Hk. unfold mbind, M_bind. rewrite Hm. apply Hk. Qed.

Lemma run_on_node_walks out pick mix all_nodes order counts n walker node tr :
  dict_wf counts → (∀ k c, dget counts k = Some c → 0 ≤ c) → order = workloads_in_order counts →
  walked counts n walker →
  ∃ walker' tr', @run_on_node _ (trace_lab out pick mix) all_nodes order walker node tr = (Ok walker', tr') ∧
  walked counts (n + 1) walker'.
Proof.
  intros Hwf Hc -> [Hk Hw]. unfold run_on_node.
  apply then_Ok; [apply forM_trace_Ok; intros x s; by eexists|]. intros tr1.
  apply then_Ok; [by eexists|]. intros tr2.
  destruct (scale_up_trace out pick mix (workloads_in_order counts) walker tr2) as (walker' & tr3 & Hs & Hk' & Hg).
  { intros w Hin. rewrite Hk. apply dget_is_Some. pose proof (occ_workloads_in_order w counts Hwf Hc) as Ho.
    destruct (dget counts w) as [c|]; [by eexists|]. exfalso. unfold occ in Ho. cbn in Ho.
    assert (w ∈ filter (λ x, x = w) (workloads_in_order counts)) as Hf by (by apply list_elem_of_filter).
    destruct (filter _ _); [by apply elem_of_nil in Hf|cbn in Ho; lia]. }
  unfold mbind at 1, M_bind at 1. rewrite Hs.
  apply then_Ok; [by eexists|]. intros tr4.
  apply then_Ok; [apply forM_trace_Ok; intros x s; by eexists|]. intros tr5.
  apply then_Ok; [by eexists|]. intros tr6.
  exists walker', tr6. split; [done|]. split; [congruence|].
  intros w. rewrite Hg, Hw, occ_workloads_in_order by done.
  destruct (dget counts w) as [c|]; cbn; [|done]. f_equal. lia.
Qed.

(** When every command succeeds, running the workloads on each of the nodes ends with
    [len(nodes) * count] instances of each, so the assertion at the end holds. *)
Theorem run_equally_asserts out pick mix all_nodes counts nodes tr :
  dict_wf counts → (∀ k c, dget counts k = Some c → 0 ≤ c) →
  ∃ tr', @run_workloads_equally_per_node _ (trace_lab out pick mix) all_nodes counts nodes tr = (Ok tt, tr').
Proof.
  intros Hwf Hc. unfold run_workloads_equally_per_node. set (ns := default all_nodes nodes).
  enough (∃ a tr', (@run_workloads_equally_per_node _ (trace_lab out pick mix) all_nodes counts nodes) tr = (Ok a, tr') ∧ True)
    as ([] & tr' & Hr & _) by (by exists tr').
  unfold run_workloads_equally_per_node. fold ns.
  apply then_Ok; [apply forM_trace_Ok; intros x s; by eexists|]. intros tr1.
  apply then_Ok; [by eexists|]. intros tr2.
  assert (Hfold : ∀ l n walker tr, walked counts n walker → ∃ walker' tr',
    foldMS (@run_on_node _ (trace_lab out pick mix) all_nodes (workloads_in_order counts)) walker l tr =
      (Ok walker', tr') ∧ walked counts (n + Z.of_nat (length l)) walker').
  { induction l as [|node l IH]; intros n walker tr0 Hw.
    - exists walker, tr0. split; [done|]. cbn. by rewrite Z.add_0_r.
    - destruct (run_on_node_walks out pick mix all_nodes _ counts n walker node tr0 Hwf Hc eq_refl Hw)
        as (walker1 & tr3 & H1 & Hw1).
      destruct (IH (n + 1) walker1 tr3 Hw1) as (walker2 & tr4 & H2 & Hw2).
      exists walker2, tr4. cbn [foldMS]. unfold mbind, M_bind. rewrite H1. split; [done|].
      cbn [length]. by replace (n + Z.of_nat (S (length l))) with (n + 1 + Z.of_nat (length l)) by lia. }
  destruct (Hfold ns 0 (dmap (λ _, 0) counts) tr2) as (walker & tr3 & Hrun & [Hk Hw]).
  { split; [by rewrite dkeys_dmap|]. intros w. rewrite dget_dmap. by destruct (dget counts w). }
  unfold mbind, M_bind. rewrite Hrun. exists tt, tr3. split; [|done].
  unfold dict_eqb. rewrite bool_decide_eq_true_2; [done|].
  apply Forall_forall. intros k _. rewrite Hw, dget_dmap. f_equal.
Qed.

Lemma run_equally_asserts_witness :
  ∃ tr', @run_workloads_equally_per_node _ (trace_lab (λ _, "") (λ _, "") id) ["n1"; "n2"] [("a", 2)] None [] = (Ok tt, tr').
Proof.
  apply run_equally_asserts; [by apply (bool_decide_unpack _)|].
  intros k c. cbn. case_match; intros; simplify_eq; lia.
Defined.

(** ** The nodes with room, and the workloads that are chosen *)

(** Nodes only drop out: a later step with fewer instances does not come back to a node. *)
Lemma nodes_with_room_subset info cpu mem count nodes nodes' :
  nodes_with_room info cpu mem count nodes = Ok nodes' → nodes' ⊆ nodes.
Proof.
  unfold nodes_with_room.
  match goal with |- foldM ?f [] ?l = _ → _ =>
    enough (Hf : ∀ acc, acc ⊆ nodes → foldM f acc l = Ok nodes' → nodes' ⊆ nodes) by (apply Hf; set_solver)
  end.
  induction (ci_nodes info) as [|[name caps] l IH]; intros acc Hacc; cbn [foldM].
  { by intros [= <-]. }
  intros (acc1 & H1 & Hf)%bind_Ok_iff. eapply IH; [|exact Hf]. clear Hf IH. cbn [fst snd] in H1.
  destruct (decide (name ∈ nodes)) as [Hin|]; [|by injection H1 as <-].
  apply bind_Ok_iff in H1 as (x & _ & H1). apply bind_Ok_iff in H1 as (c & _ & H1).
  destruct (nltb x c); [|by injection H1 as <-].
  apply bind_Ok_iff in H1 as (y & _ & H1). apply bind_Ok_iff in H1 as (m & _ & H1).
  injection H1 as <-. destruct (nltb y m); set_solver.
Qed.

Section chosen.
  Context {W : Type} `{Lab W} (info : ClusterInfo).

Lemma draw_workloads_reach n names weights cl ml c w c' w' :
  draw_workloads info n names weights cl ml c w = (Ok (Some c'), w') →
  nltb (ch_cpu c') cl = false ∧ nltb (ch_mem c') ml = false.
Proof.
  revert c w. induction n as [|n IH]; intros c w; cbn [draw_workloads];
    destruct (nltb (ch_cpu c) cl || nltb (ch_mem c) ml) eqn:E.
  - done.
  - intros [= <- _]. by apply orb_false_iff in E.
  - intros (chosen & w1 & _ & Hs)%M_bind_Ok_iff. apply M_bind_Ok_iff in Hs as (cpu & w2 & _ & Hs).
    apply M_bind_Ok_iff in Hs as (mem & w3 & _ & Hs). eauto.
  - intros [= <- _]. by apply orb_false_iff in E.
Qed.

(** The resources of the workloads that are chosen are within the limits. *)
Lemma search_workloads_within m n names weights ca ma cl cr ml mr best it w it' c w' :
  search_workloads info m n names weights ca ma cl cr ml mr best it w = (Ok (Some (it', c)), w') →
  nltb (ch_cpu c) cl = false ∧ nleb (ch_cpu c) cr = true ∧
  nltb (ch_mem c) ml = false ∧ nleb (ch_mem c) mr = true.
Proof.
  revert best it w. induction m as [|m IH]; intros best it w; cbn [search_workloads]; [done|].
  intros (found & w1 & Hd & Hs)%M_bind_Ok_iff. destruct found as [c1|]; [|done].
  apply draw_workloads_reach in Hd as [Hc Hm].
  destruct (nleb (ch_cpu c1) cr && nleb (ch_mem c1) mr) eqn:E.
  - apply andb_true_iff in E as [E1 E2]. injection Hs as <- <- _. done.
  - apply M_bind_Ok_iff in Hs as (b & w2 & _ & Hs). eauto.
Qed.

(** The draws of a choice end: every workload needs at least one unit of both
    resources, and the targets are integers. *)
Definition at_least_one (names : list string) : Prop :=
  ∀ w, w ∈ names → ∃ c m, workload_value info w "cpu" = Ok (PInt c) ∧ workload_value info w "mem" = Ok (PInt m) ∧
  1 ≤ c ∧ 1 ≤ m.

Lemma draw_workloads_end n names weights cl ml cpu mem chosen w :
  at_least_one names → (∀ w, ∃ x w', random_choice names weights w = (Ok x, w') ∧ x ∈ names) →
  cl - cpu ≤ Z.of_nat n → ml - mem ≤ Z.of_nat n →
  ∃ c w', draw_workloads info n names weights (PInt cl) (PInt ml) (mkChoice (PInt cpu) (PInt mem) chosen) w =
    (Ok (Some c), w').
Proof.
  intros Hone Hrand. revert cpu mem chosen w. induction n as [|n IH]; intros cpu mem chosen w Hc Hm.
  - cbn [draw_workloads ch_cpu ch_mem]. unfold nltb. cbn [ncompare].
    destruct (Z.compare_spec cpu cl), (Z.compare_spec mem ml); try lia; cbn; by eexists _, _.
  - cbn [draw_workloads]. destruct (_ || _); [|by eexists _, _].
    destruct (Hrand w) as (x & w1 & Hx & Hin). destruct (Hone x Hin) as (c & m & Hcv & Hmv & Hc1 & Hm1).
    cbn [ch_cpu ch_mem ch_workloads]. unfold mbind, M_bind. rewrite Hx, Hcv, Hmv. cbn.
    apply IH; lia.
Qed.
End chosen.

(** A node without room for three instances is not used for one instance either. *)
Example dropped_node_stays_out :
  let caps c := [("cpu", PInt c); ("mem", PInt c)] in
  let info := mkClusterInfo [("n1", caps 10); ("n2", caps 2)] [("a", caps 1)] in
  nodes_with_room info (PInt 1) (PInt 1) 3 ["n1"; "n2"] = Ok ["n1"] ∧
  nodes_with_room info (PInt 1) (PInt 1) 1 ["n1"; "n2"] = Ok ["n1"; "n2"] ∧
  nodes_with_room info (PInt 1) (PInt 1) 1 ["n1"] = Ok ["n1"].
Proof. vm_compute. done. Qed.

(** A third stage alone: the extender is switched on, the workloads are started in the
    shuffled order from its end, and the log of the scheduler is copied. *)
Example third_stage_alone :
  let lab := trace_lab (λ _, "wca-scheduler-7 2/2 Running") (λ _, "") (@rev string) in
  single_3stage_experiment (λ _, "E") (λ _, "C") 1 "0" [("a", 1); ("b", 1)] (ForAll 60) 10 (false, false, true) "dir" [] =
  (Ok (Some tt),
   [AShell "kubectl scale sts --all --replicas=0 && sleep 10";
    AAnnotate "Start experiment 0" 90; AAnnotate "Start experiment 0" 70;
    AShell "kubectl taint node -l memory=2lm run=taint:NoSchedule- --overwrite || true";
    AShell "kubectl -n wca-scheduler scale deployment wca-scheduler --replicas=1 && sleep 5";
    AShell "kubectl get pods -n wca-scheduler";
    AShell (cmd_run "a" 1); AShell (cmd_run "b" 1);
    AShell "sleep 60";
    AShell "kubectl scale sts --all --replicas=0 && sleep 10";
    AShell "kubectl get pods -n wca-scheduler";
    AShell "kubectl logs -n wca-scheduler wca-scheduler-7 wca-scheduler > dir/wca_scheduler_logs.0";
    AAppend "dir/events.txt" ("C" +:+ String newline ""); AAppend "dir/events.txt" ("E" +:+ String newline "");
    AAnnotate "End experiment 0" 90; AAnnotate "End experiment 0" 70;
    AShell "sleep 100"]).
Proof. vm_compute. done. Qed.
