(* ===== verification/Scenarios.v ===== *)
(** * Scenarios of the memory experiments

    [src/examples/kubernetes/scripts/hmem_experiments]: scenarios.py is the table of the
    experiments, workload_runner.py and main.py run them, kernel_parameters.py sets the
    kernel up. *)
From S2P Require Export Experiments.

(** src/examples/kubernetes/scripts/hmem_experiments/scenarios.py:20-27 [ExperimentType] *)
Inductive ExperimentType :=
  DRAM | PMEM | HMEM_NUMA_BALANCING | HMEM_NO_NUMA_BALANCING | COLD_START | TOPTIER | TOPTIER_WITH_COLDSTART.
#[export] Instance ExperimentType_eq_dec : EqDecision ExperimentType.
Proof. solve_decision. Defined.

(** src/examples/kubernetes/scripts/hmem_experiments/scenarios.py:20-27 [ExperimentType]
    The value of each. *)
Definition type_value (t : ExperimentType) : string :=
  match t with
  | DRAM => "dram"
  | PMEM => "pmem"
  | HMEM_NUMA_BALANCING => "hmem_numa_balancing"
  | HMEM_NO_NUMA_BALANCING => "hmem_no_numa_balancig"
  | COLD_START => "cold_start"
  | TOPTIER => "toptier"
  | TOPTIER_WITH_COLDSTART => "toptier_with_coldstart"
  end.

(** src/examples/kubernetes/scripts/hmem_experiments/scenarios.py:30-41 [Scenario] *)
Record Scenario := mkScenario {
  sc_name : string;
  sc_workloads_count : list (dict string Z);
  sc_sleep_duration : Z;
  sc_experiment_type : ExperimentType;
  sc_reset_workloads_between_steps : bool
}.

(** src/examples/kubernetes/scripts/hmem_experiments/scenarios.py:70-70 [SLEEP_DURATION] *)
Definition SLEEP_DURATION : Z := 900.

(** src/examples/kubernetes/scripts/hmem_experiments/scenarios.py:46-46 [REDIS_MEMTIER_BIG_DRAM] *)
Definition REDIS_MEMTIER_BIG_DRAM : string := "redis-memtier-big-dram".
(** src/examples/kubernetes/scripts/hmem_experiments/scenarios.py:47-47 [REDIS_MEMTIER_BIG_PMEM] *)
Definition REDIS_MEMTIER_BIG_PMEM : string := "redis-memtier-big-pmem".
(** src/examples/kubernetes/scripts/hmem_experiments/scenarios.py:48-48 [REDIS_MEMTIER_BIG_DRAM_PMEM] *)
Definition REDIS_MEMTIER_BIG_DRAM_PMEM : string := "redis-memtier-big-dram-pmem".
(** src/examples/kubernetes/scripts/hmem_experiments/scenarios.py:49-49 [REDIS_MEMTIER_BIG_COLDSTART_TOPTIER] *)
Definition REDIS_MEMTIER_BIG_COLDSTART_TOPTIER : string := "redis-memtier-big-coldstart-toptier".
(** src/examples/kubernetes/scripts/hmem_experiments/scenarios.py:50-50 [REDIS_MEMTIER_BIG_TOPTIER] *)
Definition REDIS_MEMTIER_BIG_TOPTIER : string := "redis-memtier-big-toptier".
(** src/examples/kubernetes/scripts/hmem_experiments/scenarios.py:52-52 [REDIS_MEMTIER_BIG_WSS_DRAM] *)
Definition REDIS_MEMTIER_BIG_WSS_DRAM : string := "redis-memtier-big-wss-dram".
(** src/examples/kubernetes/scripts/hmem_experiments/scenarios.py:53-53 [REDIS_MEMTIER_BIG_WSS_PMEM] *)
Definition REDIS_MEMTIER_BIG_WSS_PMEM : string := "redis-memtier-big-wss-pmem".
(** src/examples/kubernetes/scripts/hmem_experiments/scenarios.py:54-54 [REDIS_MEMTIER_BIG_WSS_DRAM_PMEM] *)
Definition REDIS_MEMTIER_BIG_WSS_DRAM_PMEM : string := "redis-memtier-big-wss-dram-pmem".
(** src/examples/kubernetes/scripts/hmem_experiments/scenarios.py:55-55 [REDIS_MEMTIER_BIG_WSS_COLDSTART_TOPTIER] *)
Definition REDIS_MEMTIER_BIG_WSS_COLDSTART_TOPTIER : string := "redis-memtier-big-wss-coldstart-toptier".
(** src/examples/kubernetes/scripts/hmem_experiments/scenarios.py:56-56 [REDIS_MEMTIER_BIG_WSS_TOPTIER] *)
Definition REDIS_MEMTIER_BIG_WSS_TOPTIER : string := "redis-memtier-big-wss-toptier".
(** src/examples/kubernetes/scripts/hmem_experiments/scenarios.py:218-218 [PMBENCH_BIG_DRAM] *)
Definition PMBENCH_BIG_DRAM : string := "pmbench-big-dram".
(** src/examples/kubernetes/scripts/hmem_experiments/scenarios.py:219-219 [PMBENCH_BIG_PMEM] *)
Definition PMBENCH_BIG_PMEM : string := "pmbench-big-pmem".
(** src/examples/kubernetes/scripts/hmem_experiments/scenarios.py:220-220 [PMBENCH_BIG_DRAM_PMEM] *)
Definition PMBENCH_BIG_DRAM_PMEM : string := "pmbench-big-dram-pmem".
(** src/examples/kubernetes/scripts/hmem_experiments/scenarios.py:221-221 [PMBENCH_BIG_COLDSTART_TOPTIER] *)
Definition PMBENCH_BIG_COLDSTART_TOPTIER : string := "pmbench-big-coldstart-toptier".
(** src/examples/kubernetes/scripts/hmem_experiments/scenarios.py:222-222 [PMBENCH_BIG_TOPTIER] *)
Definition PMBENCH_BIG_TOPTIER : string := "pmbench-big-toptier".
(** src/examples/kubernetes/scripts/hmem_experiments/scenarios.py:315-315 [MEMCACHED_MUTILATE_BIG_DRAM] *)
Definition MEMCACHED_MUTILATE_BIG_DRAM : string := "memcached-mutilate-big-dram".
(** src/examples/kubernetes/scripts/hmem_experiments/scenarios.py:316-316 [MEMCACHED_MUTILATE_BIG_PMEM] *)
Definition MEMCACHED_MUTILATE_BIG_PMEM : string := "memcached-mutilate-big-pmem".
(** src/examples/kubernetes/scripts/hmem_experiments/scenarios.py:317-317 [MEMCACHED_MUTILATE_BIG_DRAM_PMEM] *)
Definition MEMCACHED_MUTILATE_BIG_DRAM_PMEM : string := "memcached-mutilate-big-dram-pmem".
(** src/examples/kubernetes/scripts/hmem_experiments/scenarios.py:318-318 [MEMCACHED_MUTILATE_BIG_COLDSTART_TOPTIER] *)
Definition MEMCACHED_MUTILATE_BIG_COLDSTART_TOPTIER : string := "memcached-mutilate-big-coldstart-toptier".
(** src/examples/kubernetes/scripts/hmem_experiments/scenarios.py:319-319 [MEMCACHED_MUTILATE_BIG_TOPTIER] *)
Definition MEMCACHED_MUTILATE_BIG_TOPTIER : string := "memcached-mutilate-big-toptier".

(** src/examples/kubernetes/scripts/hmem_experiments/scenarios.py:73-114 [REDIS_SCENARIOS] *)
Definition REDIS_SCENARIOS : list Scenario :=
  [mkScenario "redis-memtier-big-dram" [[(REDIS_MEMTIER_BIG_DRAM, 1)]; [(REDIS_MEMTIER_BIG_DRAM, 2)]]
     SLEEP_DURATION DRAM false;
   mkScenario "redis-memtier-big-pmem" [[(REDIS_MEMTIER_BIG_PMEM, 1)]; [(REDIS_MEMTIER_BIG_PMEM, 2)]]
     SLEEP_DURATION PMEM false;
   mkScenario "redis-memtier-big-first-touch-policy" [[(REDIS_MEMTIER_BIG_DRAM_PMEM, 1)]; [(REDIS_MEMTIER_BIG_DRAM_PMEM, 2)]; [(REDIS_MEMTIER_BIG_DRAM_PMEM, 3)]; [(REDIS_MEMTIER_BIG_DRAM_PMEM, 4)]]
     SLEEP_DURATION HMEM_NO_NUMA_BALANCING false;
   mkScenario "redis-memtier-big-numa-balancing" [[(REDIS_MEMTIER_BIG_DRAM_PMEM, 4)]]
     SLEEP_DURATION HMEM_NUMA_BALANCING true;
   mkScenario "redis-memtier-big-numa-balancing-one-by-one" [[(REDIS_MEMTIER_BIG_DRAM_PMEM, 1)]; [(REDIS_MEMTIER_BIG_DRAM_PMEM, 2)]; [(REDIS_MEMTIER_BIG_DRAM_PMEM, 3)]; [(REDIS_MEMTIER_BIG_DRAM_PMEM, 4)]]
     SLEEP_DURATION HMEM_NUMA_BALANCING false;
   mkScenario "redis-memtier-big-toptier-limit" [[(REDIS_MEMTIER_BIG_TOPTIER, 4)]]
     SLEEP_DURATION TOPTIER true;
   mkScenario "redis-memtier-big-toptier-limit-one-by-one" [[(REDIS_MEMTIER_BIG_TOPTIER, 1)]; [(REDIS_MEMTIER_BIG_TOPTIER, 2)]; [(REDIS_MEMTIER_BIG_TOPTIER, 3)]; [(REDIS_MEMTIER_BIG_TOPTIER, 4)]]
     SLEEP_DURATION TOPTIER false;
   mkScenario "redis-memtier-toptier-coldstart" [[(REDIS_MEMTIER_BIG_COLDSTART_TOPTIER, 4)]]
     SLEEP_DURATION TOPTIER_WITH_COLDSTART true].

(** src/examples/kubernetes/scripts/hmem_experiments/scenarios.py:115-162 [REDIS_WSS_SCENARIOS] *)
Definition REDIS_WSS_SCENARIOS : list Scenario :=
  [mkScenario "redis-memtier-big-wss-dram" [[(REDIS_MEMTIER_BIG_WSS_DRAM, 1)]; [(REDIS_MEMTIER_BIG_WSS_DRAM, 2)]]
     SLEEP_DURATION DRAM false;
   mkScenario "redis-memtier-big-wss-pmem" [[(REDIS_MEMTIER_BIG_WSS_PMEM, 1)]; [(REDIS_MEMTIER_BIG_WSS_PMEM, 2)]]
     SLEEP_DURATION PMEM false;
   mkScenario "redis-memtier-big-wss-first-touch-policy" [[(REDIS_MEMTIER_BIG_WSS_DRAM_PMEM, 1)]; [(REDIS_MEMTIER_BIG_WSS_DRAM_PMEM, 2)]; [(REDIS_MEMTIER_BIG_WSS_DRAM_PMEM, 3)]; [(REDIS_MEMTIER_BIG_WSS_DRAM_PMEM, 4)]]
     SLEEP_DURATION HMEM_NO_NUMA_BALANCING false;
   mkScenario "redis-memtier-big-wss-numa-balancing" [[(REDIS_MEMTIER_BIG_WSS_DRAM_PMEM, 4)]]
     SLEEP_DURATION HMEM_NUMA_BALANCING true;
   mkScenario "redis-memtier-big-wss-numa-balancing-one-by-one" [[(REDIS_MEMTIER_BIG_WSS_DRAM_PMEM, 1)]; [(REDIS_MEMTIER_BIG_WSS_DRAM_PMEM, 2)]; [(REDIS_MEMTIER_BIG_WSS_DRAM_PMEM, 3)]; [(REDIS_MEMTIER_BIG_WSS_DRAM_PMEM, 4)]]
     SLEEP_DURATION HMEM_NUMA_BALANCING false;
   mkScenario "redis-memtier-big-wss-toptier-limit" [[(REDIS_MEMTIER_BIG_WSS_TOPTIER, 4)]]
     SLEEP_DURATION TOPTIER true;
   mkScenario "redis-memtier-big-wss-toptier-limit-one-by-one" [[(REDIS_MEMTIER_BIG_WSS_TOPTIER, 1)]; [(REDIS_MEMTIER_BIG_WSS_TOPTIER, 2)]; [(REDIS_MEMTIER_BIG_WSS_TOPTIER, 3)]; [(REDIS_MEMTIER_BIG_WSS_TOPTIER, 4)]]
     SLEEP_DURATION TOPTIER false;
   mkScenario "redis-memtier-big-wss-toptier-coldstart" [[(REDIS_MEMTIER_BIG_WSS_COLDSTART_TOPTIER, 4)]]
     SLEEP_DURATION TOPTIER_WITH_COLDSTART true].

(** src/examples/kubernetes/scripts/hmem_experiments/scenarios.py:163-187 [BASE_REDIS_SCENARIOS] *)
Definition BASE_REDIS_SCENARIOS : list Scenario :=
  [mkScenario "redis-memtier-big-dram" [[(REDIS_MEMTIER_BIG_DRAM, 1)]]
     SLEEP_DURATION DRAM true;
   mkScenario "redis-memtier-big-pmem" [[(REDIS_MEMTIER_BIG_PMEM, 1)]]
     SLEEP_DURATION PMEM true;
   mkScenario "redis-memtier-big-first-touch-policy" [[(REDIS_MEMTIER_BIG_DRAM_PMEM, 1)]]
     SLEEP_DURATION HMEM_NO_NUMA_BALANCING false;
   mkScenario "redis-memtier-big-numa-balancing" [[(REDIS_MEMTIER_BIG_DRAM_PMEM, 1)]]
     SLEEP_DURATION HMEM_NUMA_BALANCING true;
   mkScenario "redis-memtier-big-toptier-limit" [[(REDIS_MEMTIER_BIG_TOPTIER, 1)]]
     SLEEP_DURATION TOPTIER true;
   mkScenario "redis-memtier-toptier-coldstart" [[(REDIS_MEMTIER_BIG_COLDSTART_TOPTIER, 1)]]
     SLEEP_DURATION TOPTIER_WITH_COLDSTART true].

(** src/examples/kubernetes/scripts/hmem_experiments/scenarios.py:189-214 [BASE_REDIS_WSS_SCENARIOS] *)
Definition BASE_REDIS_WSS_SCENARIOS : list Scenario :=
  [mkScenario "redis-memtier-big-wss-dram" [[(REDIS_MEMTIER_BIG_WSS_DRAM, 1)]]
     SLEEP_DURATION DRAM true;
   mkScenario "redis-memtier-big-wss-pmem" [[(REDIS_MEMTIER_BIG_WSS_PMEM, 1)]]
     SLEEP_DURATION PMEM true;
   mkScenario "redis-memtier-big-wss-first-touch-policy" [[(REDIS_MEMTIER_BIG_WSS_DRAM_PMEM, 1)]]
     SLEEP_DURATION HMEM_NO_NUMA_BALANCING false;
   mkScenario "redis-memtier-big-wss-numa-balancing" [[(REDIS_MEMTIER_BIG_WSS_DRAM_PMEM, 1)]]
     SLEEP_DURATION HMEM_NUMA_BALANCING true;
   mkScenario "redis-memtier-big-wss-toptier-limit" [[(REDIS_MEMTIER_BIG_WSS_TOPTIER, 1)]]
     SLEEP_DURATION TOPTIER true;
   mkScenario "redis-memtier-big-wss-toptier-coldstart" [[(REDIS_MEMTIER_BIG_WSS_COLDSTART_TOPTIER, 1)]]
     SLEEP_DURATION TOPTIER_WITH_COLDSTART true].

(** src/examples/kubernetes/scripts/hmem_experiments/scenarios.py:243-268 [BASE_PMBENCH_SCENARIOS] *)
Definition BASE_PMBENCH_SCENARIOS : list Scenario :=
  [mkScenario "pmbench-big-dram" [[(PMBENCH_BIG_DRAM, 1)]]
     SLEEP_DURATION DRAM true;
   mkScenario "pmbench-big-pmem" [[(PMBENCH_BIG_PMEM, 1)]]
     SLEEP_DURATION PMEM true;
   mkScenario "pmbench-big-first-touch-policy" [[(PMBENCH_BIG_DRAM_PMEM, 1)]]
     SLEEP_DURATION HMEM_NO_NUMA_BALANCING false;
   mkScenario "pmbench-big-numa-balancing" [[(PMBENCH_BIG_DRAM_PMEM, 1)]]
     SLEEP_DURATION HMEM_NUMA_BALANCING true;
   mkScenario "pmbench-big-toptier-limit" [[(PMBENCH_BIG_TOPTIER, 1)]]
     SLEEP_DURATION TOPTIER true;
   mkScenario "pmbench-toptier-coldstart" [[(PMBENCH_BIG_COLDSTART_TOPTIER, 1)]]
     SLEEP_DURATION TOPTIER_WITH_COLDSTART true].

(** src/examples/kubernetes/scripts/hmem_experiments/scenarios.py:270-311 [PMBENCH_SCENARIOS] *)
Definition PMBENCH_SCENARIOS : list Scenario :=
  [mkScenario "pmbench-big-dram" [[(PMBENCH_BIG_DRAM, 1)]; [(PMBENCH_BIG_DRAM, 2)]]
     SLEEP_DURATION DRAM false;
   mkScenario "pmbench-big-pmem" [[(PMBENCH_BIG_PMEM, 1)]; [(PMBENCH_BIG_PMEM, 2)]]
     SLEEP_DURATION PMEM false;
   mkScenario "pmbench-big-first-touch-policy" [[(PMBENCH_BIG_DRAM_PMEM, 1)]; [(PMBENCH_BIG_DRAM_PMEM, 2)]; [(PMBENCH_BIG_DRAM_PMEM, 3)]; [(PMBENCH_BIG_DRAM_PMEM, 4)]]
     SLEEP_DURATION HMEM_NO_NUMA_BALANCING false;
   mkScenario "pmbench-big-numa-balancing" [[(PMBENCH_BIG_DRAM_PMEM, 4)]]
     SLEEP_DURATION HMEM_NUMA_BALANCING true;
   mkScenario "pmbench-big-numa-balancing-one-by-one" [[(PMBENCH_BIG_DRAM_PMEM, 1)]; [(PMBENCH_BIG_DRAM_PMEM, 2)]; [(PMBENCH_BIG_DRAM_PMEM, 3)]; [(PMBENCH_BIG_DRAM_PMEM, 4)]]
     SLEEP_DURATION HMEM_NUMA_BALANCING false;
   mkScenario "pmbench-big-toptier-limit" [[(PMBENCH_BIG_TOPTIER, 4)]]
     SLEEP_DURATION TOPTIER true;
   mkScenario "pmbench-big-toptier-limit-one-by-one" [[(PMBENCH_BIG_TOPTIER, 1)]; [(PMBENCH_BIG_TOPTIER, 2)]; [(PMBENCH_BIG_TOPTIER, 3)]; [(PMBENCH_BIG_TOPTIER, 4)]]
     SLEEP_DURATION TOPTIER false;
   mkScenario "pmbench-toptier-coldstart" [[(PMBENCH_BIG_COLDSTART_TOPTIER, 4)]]
     SLEEP_DURATION TOPTIER_WITH_COLDSTART true].

(** src/examples/kubernetes/scripts/hmem_experiments/scenarios.py:340-365 [BASE_MEMCACHED_MUTILATE_SCENARIOS] *)
Definition BASE_MEMCACHED_MUTILATE_SCENARIOS : list Scenario :=
  [mkScenario "memcached-mutilate-big-dram" [[(MEMCACHED_MUTILATE_BIG_DRAM, 1)]]
     SLEEP_DURATION DRAM true;
   mkScenario "memcached-mutilate-big-pmem" [[(MEMCACHED_MUTILATE_BIG_PMEM, 1)]]
     SLEEP_DURATION PMEM true;
   mkScenario "memcached-mutilate-big-first-touch-policy" [[(MEMCACHED_MUTILATE_BIG_DRAM_PMEM, 1)]]
     SLEEP_DURATION HMEM_NO_NUMA_BALANCING false;
   mkScenario "memcached-mutilate-big-numa-balancing" [[(MEMCACHED_MUTILATE_BIG_DRAM_PMEM, 1)]]
     SLEEP_DURATION HMEM_NUMA_BALANCING true;
   mkScenario "memcached-mutilate-big-toptier-limit" [[(MEMCACHED_MUTILATE_BIG_TOPTIER, 1)]]
     SLEEP_DURATION TOPTIER true;
   mkScenario "memcached-mutilate-toptier-coldstart" [[(MEMCACHED_MUTILATE_BIG_COLDSTART_TOPTIER, 1)]]
     SLEEP_DURATION TOPTIER_WITH_COLDSTART true].

(** src/examples/kubernetes/scripts/hmem_experiments/scenarios.py:367-414 [MEMCACHED_MUTILATE_SCENARIOS] *)
Definition MEMCACHED_MUTILATE_SCENARIOS : list Scenario :=
  [mkScenario "memcached-mutilate-big-dram" [[(MEMCACHED_MUTILATE_BIG_DRAM, 1)]; [(MEMCACHED_MUTILATE_BIG_DRAM, 2)]]
     SLEEP_DURATION DRAM false;
   mkScenario "memcached-mutilate-big-pmem" [[(MEMCACHED_MUTILATE_BIG_PMEM, 1)]; [(MEMCACHED_MUTILATE_BIG_PMEM, 2)]]
     SLEEP_DURATION PMEM false;
   mkScenario "memcached-mutilate-big-first-touch-policy" [[(MEMCACHED_MUTILATE_BIG_DRAM_PMEM, 1)]; [(MEMCACHED_MUTILATE_BIG_DRAM_PMEM, 2)]; [(MEMCACHED_MUTILATE_BIG_DRAM_PMEM, 3)]; [(MEMCACHED_MUTILATE_BIG_DRAM_PMEM, 4)]]
     SLEEP_DURATION HMEM_NO_NUMA_BALANCING false;
   mkScenario "memcached-mutilate-big-numa-balancing" [[(MEMCACHED_MUTILATE_BIG_DRAM_PMEM, 4)]]
     SLEEP_DURATION HMEM_NUMA_BALANCING true;
   mkScenario "memcached-mutilate-big-numa-balancing-one-by-one" [[(MEMCACHED_MUTILATE_BIG_DRAM_PMEM, 1)]; [(MEMCACHED_MUTILATE_BIG_DRAM_PMEM, 2)]; [(MEMCACHED_MUTILATE_BIG_DRAM_PMEM, 3)]; [(MEMCACHED_MUTILATE_BIG_DRAM_PMEM, 4)]]
     SLEEP_DURATION HMEM_NUMA_BALANCING false;
   mkScenario "memcached-mutilate-big-toptier-limit" [[(MEMCACHED_MUTILATE_BIG_TOPTIER, 4)]]
     SLEEP_DURATION TOPTIER true;
   mkScenario "memcached-mutilate-big-toptier-limit-one-by-one" [[(MEMCACHED_MUTILATE_BIG_TOPTIER, 1)]; [(MEMCACHED_MUTILATE_BIG_TOPTIER, 2)]; [(MEMCACHED_MUTILATE_BIG_TOPTIER, 3)]; [(MEMCACHED_MUTILATE_BIG_TOPTIER, 4)]]
     SLEEP_DURATION TOPTIER false;
   mkScenario "memcached-mutilate-toptier-coldstart" [[(MEMCACHED_MUTILATE_BIG_COLDSTART_TOPTIER, 4)]]
     SLEEP_DURATION TOPTIER_WITH_COLDSTART true].

(** ** The kernel *)
Section kernel.
  Context {W : Type} `{Lab W}.

(** src/examples/kubernetes/scripts/hmem_experiments/kernel_parameters.py:20-42 [PARAMETER_VALUES] *)
Definition PARAMETER_VALUES : list (string * string) :=
  [("/proc/sys/kernel/numa_balancing_hot_threshold_ms", "1000");
   ("/proc/sys/kernel/numa_balancing_rate_limit_mbps", "0");
   ("/proc/sys/kernel/numa_balancing_scan_delay_ms", "1000");
   ("/proc/sys/kernel/numa_balancing_scan_period_max_ms", "60000");
   ("/proc/sys/kernel/numa_balancing_scan_period_min_ms", "1000");
   ("/proc/sys/kernel/numa_balancing_scan_size_mb", "256");
   ("/sys/kernel/debug/tracing/tracing_on", "0");
   ("/sys/devices/system/node/node0/migration_path", "2");
   ("/sys/devices/system/node/node1/migration_path", "3")].

(** src/examples/kubernetes/scripts/hmem_experiments/kernel_parameters.py:45-50 [check_if_pmem_nodes_are_present]
    on the output of numactl *)
Definition check_if_pmem_nodes_are_present (numactl_output : string) : result unit :=
  _ ← py_assert (str_contains "node 2" numactl_output);
  py_assert (str_contains "node 3" numactl_output).

(** src/examples/kubernetes/scripts/hmem_experiments/kernel_parameters.py:53-56 [set_necessary_parameters] *)
Definition set_necessary_parameters : M W unit :=
  forM_ PARAMETER_VALUES (λ fv : string * string, write_file fv.1 fv.2).

(** src/examples/kubernetes/scripts/hmem_experiments/kernel_parameters.py:64-69 [set_numa_balancing] *)
Definition set_numa_balancing (turned_on : bool) : M W unit :=
  write_file "/proc/sys/kernel/numa_balancing" (if turned_on then "2" else "0").

(** src/examples/kubernetes/scripts/hmem_experiments/kernel_parameters.py:72-76 [set_toptier_scale_factor] *)
Definition set_toptier_scale_factor (value : string) : M W unit :=
  write_file "/proc/sys/vm/toptier_scale_factor" value.
End kernel.

(** ** Running *)

(** src/examples/kubernetes/scripts/hmem_experiments/workload_runner.py:56-59 [ExperimentConfiguration] *)
Record ExperimentConfiguration := mkConf { numa_balancing : bool; toptier_scale_factor : string }.

(** src/examples/kubernetes/scripts/hmem_experiments/workload_runner.py:62-73 [EXPERIMENT_CONFS] *)
Definition EXPERIMENT_CONFS (t : ExperimentType) : ExperimentConfiguration :=
  match t with
  | DRAM | PMEM | HMEM_NO_NUMA_BALANCING => mkConf false "2000"
  | HMEM_NUMA_BALANCING | COLD_START => mkConf true "2000"
  | TOPTIER | TOPTIER_WITH_COLDSTART => mkConf true "10000"
  end.

(** src/examples/kubernetes/scripts/hmem_experiments/workload_runner.py:27-43 [EXPERIMENT_DESCRIPTION] *)
Definition EXPERIMENT_DESCRIPTION (t : ExperimentType) : string :=
  match t with
  | DRAM => "workloads running exclusively on dram"
  | PMEM => "workloads running exclusively on pmem"
  | HMEM_NUMA_BALANCING => "workloads running on dram and pmem with numa balancing turned on"
  | HMEM_NO_NUMA_BALANCING => "workloads running on dram and pmem with numa balancing turned off"
  | COLD_START => "workload starts to run on pmem and after set time passes can move to dram if necessary for workload performance"
  | TOPTIER => "workloads have toptier limit; if limit is exceeded some of the memory from dram goes to pmem"
  | TOPTIER_WITH_COLDSTART => "workload starts to run on pmem and after set time passes can move to dram if necessary for workload performance; workloads have toptier limit; if limit is exceeded some of the memory from dram goes to pmem"
  end.

(** src/examples/kubernetes/scripts/hmem_experiments/workload_runner.py:46-53 [Experiment] *)
Record Experiment := mkExperiment {
  ex_name : string;
  ex_number_of_workloads : dict string Z;
  ex_type : ExperimentType;
  ex_description : string;
  ex_start : float;
  ex_stop : float
}.

(** src/examples/kubernetes/scripts/hmem_experiments/workload_runner.py:76-89 [experiment_to_json] *)
Definition experiment_dict (e : Experiment) : json :=
  JObj [("meta", JObj [("name", JStr (ex_name e));
                       ("description", JStr (EXPERIMENT_DESCRIPTION (ex_type e)));
                       ("params", JObj [("workloads_count", JObj (dmap (λ z, JNum (PInt z)) (ex_number_of_workloads e)));
                                        ("type", JStr (type_value (ex_type e)))])]);
        ("experiment", JObj [("description", JStr (ex_description e));
                             ("start", JNum (PFloat (ex_start e)));
                             ("end", JNum (PFloat (ex_stop e)))])].

Section running.
  Context {W : Type} `{Lab W} (str_of_time : float → string).

(** src/examples/kubernetes/scripts/hmem_experiments/workload_runner.py:76-92 [experiment_to_json] *)
Definition experiment_to_json (e : Experiment) (output_file : string) : M W unit :=
  write_json output_file (experiment_dict e).

(** src/examples/kubernetes/scripts/hmem_experiments/workload_runner.py:95-98 [_scale_workload] *)
Definition scale_workload (workload_name : string) (number_of_workloads : Z) : M W unit :=
  run_ (cmd_scale workload_name number_of_workloads).

(** src/examples/kubernetes/scripts/hmem_experiments/workload_runner.py:101-103 [_set_configuration] *)
Definition set_configuration (configuration : ExperimentConfiguration) : M W unit :=
  _ ← set_numa_balancing (numa_balancing configuration);
  set_toptier_scale_factor (toptier_scale_factor configuration).

(** src/examples/kubernetes/scripts/hmem_experiments/workload_runner.py:106-114 [_run_workloads] *)
Definition run_counted_workloads (number_of_workloads : dict string Z) (sleep_duration : Z) (reset_workload : bool)
    : M W unit :=
  _ ← forM_ number_of_workloads (λ wn : string * Z, scale_workload wn.1 wn.2);
  _ ← sleep_seconds sleep_duration;
  if reset_workload then forM_ number_of_workloads (λ wn : string * Z, scale_workload wn.1 0) else mret tt.

(** src/examples/kubernetes/scripts/hmem_experiments/workload_runner.py:117-126 [run_experiment] *)
Definition run_experiment (scenario : Scenario) (number_of_workloads : dict string Z) : M W Experiment :=
  _ ← set_configuration (EXPERIMENT_CONFS (sc_experiment_type scenario));
  start_timestamp ← clock;
  _ ← annotate_dashboard ("Running experiment: " +:+ sc_name scenario) 90;
  _ ← run_counted_workloads number_of_workloads (sc_sleep_duration scenario)
        (sc_reset_workloads_between_steps scenario);
  stop_timestamp ← clock;
  mret (mkExperiment (sc_name scenario) number_of_workloads (sc_experiment_type scenario)
          (EXPERIMENT_DESCRIPTION (sc_experiment_type scenario)) start_timestamp stop_timestamp).

(** src/examples/kubernetes/scripts/hmem_experiments/main.py:28-36 [run_scenario] *)
Definition run_scenario (save_dir : string) (scenario : Scenario) : M W unit :=
  _ ← make_dirs save_dir;
  _ ← scale_down_all_workloads 10;
  _ ← forM_ (sc_workloads_count scenario) (λ workload_count,
        experiment ← run_experiment scenario workload_count;
        now ← clock;
        experiment_to_json experiment (save_dir +:+ "/" +:+ sc_name scenario +:+ "-" +:+ str_of_time now +:+ ".json"));
  scale_down_all_workloads 10.

(** src/examples/kubernetes/scripts/hmem_experiments/main.py:39-60 [main] *)
Definition main (numactl_output date : string) : M W unit :=
  _ ← lift (check_if_pmem_nodes_are_present numactl_output);
  _ ← set_necessary_parameters;
  _ ← forM_ BASE_PMBENCH_SCENARIOS (run_scenario ("pmbench_base_results_" +:+ date));
  _ ← forM_ PMBENCH_SCENARIOS (run_scenario ("pmbench_advanced_results_" +:+ date));
  _ ← forM_ BASE_REDIS_SCENARIOS (run_scenario ("redis_base_results_" +:+ date));
  _ ← forM_ REDIS_SCENARIOS (run_scenario ("redis_advanced_results_" +:+ date));
  _ ← forM_ BASE_MEMCACHED_MUTILATE_SCENARIOS (run_scenario ("memcached_base_results_" +:+ date));
  forM_ MEMCACHED_MUTILATE_SCENARIOS (run_scenario ("memcached_advanced_results_" +:+ date)).
End running.

(** ** The table of the scenarios *)
Definition ALL_SCENARIOS : list Scenario :=
  REDIS_SCENARIOS ++ REDIS_WSS_SCENARIOS ++ BASE_REDIS_SCENARIOS ++ BASE_REDIS_WSS_SCENARIOS ++
  BASE_PMBENCH_SCENARIOS ++ PMBENCH_SCENARIOS ++ BASE_MEMCACHED_MUTILATE_SCENARIOS ++ MEMCACHED_MUTILATE_SCENARIOS.

(** The memory a workload of an experiment is built for, by its name. *)
Definition type_suffix (t : ExperimentType) (workload : string) : bool :=
  match t with
  | DRAM => endswith "-dram" workload
  | PMEM => endswith "-pmem" workload && negb (endswith "-dram-pmem" workload)
  | HMEM_NUMA_BALANCING | HMEM_NO_NUMA_BALANCING => endswith "-dram-pmem" workload
  | COLD_START => endswith "-coldstart" workload
  | TOPTIER => endswith "-toptier" workload && negb (endswith "-coldstart-toptier" workload)
  | TOPTIER_WITH_COLDSTART => endswith "-coldstart-toptier" workload
  end.

(** Every scenario runs workloads that are built for its type. *)
Theorem scenarios_match_types sc counts workload :
  sc ∈ ALL_SCENARIOS → counts ∈ sc_workloads_count sc → workload ∈ dkeys counts →
  type_suffix (sc_experiment_type sc) workload = true.
Proof.
  assert (Forall (λ sc, Forall (λ counts, Forall (λ w, type_suffix (sc_experiment_type sc) w = true) (dkeys counts))
                          (sc_workloads_count sc)) ALL_SCENARIOS) as Hall.
  { apply (bool_decide_unpack _). vm_compute. done. }
  intros Hsc Hc Hw. rewrite Forall_forall in Hall. specialize (Hall _ Hsc). rewrite Forall_forall in Hall.
  specialize (Hall _ Hc). rewrite Forall_forall in Hall. auto.
Qed.

(** A cluster that understands the commands: the instances that run, and what is
    measured, with the setting of numa balancing and the scale factor, while the script
    sleeps. *)
Record sim_cluster := mkSim {
  sim_running : dict string Z;
  sim_files : dict string string;
  sim_measured : list (dict string Z * option string * option string)
}.

Definition kubectl (command : string) (running : dict string Z) : result (dict string Z) :=
  if startswith "kubectl scale sts --all --replicas=0" command then Ok []
  else match words command with
       | ["kubectl"; "scale"; "sts"; w; replicas] =>
           n ← py_int (str_drop 11 replicas);
           Ok (if n =? 0 then ddel running w else dset running w n)
       | _ => Raise ValueError
       end.

Definition sim_lab : Lab sim_cluster :=
  {| shell_run c := λ s, match kubectl c (sim_running s) with
                         | Ok r => (Ok "", mkSim r (sim_files s) (sim_measured s))
                         | Raise e => (Raise e, s)
                         end;
     write_file f t := λ s, (Ok tt, mkSim (sim_running s) (dset (sim_files s) f t) (sim_measured s));
     write_json _ _ := λ s, (Ok tt, s);
     append_file _ _ := λ s, (Ok tt, s);
     make_dirs _ := λ s, (Ok tt, s);
     clock := λ s, (Ok fzero, s);
     sleep_seconds _ := λ s,
       (Ok tt, mkSim (sim_running s) (sim_files s)
                 (sim_measured s ++ [(sim_running s, dget (sim_files s) "/proc/sys/kernel/numa_balancing",
                                      dget (sim_files s) "/proc/sys/vm/toptier_scale_factor")]));
     annotate_dashboard _ _ := λ s, (Ok tt, s);
     random_choice names _ := λ s, (or_raise IndexError (head names), s);
     random_shuffle l := λ s, (Ok l, s) |}.

(** What a scenario is meant to measure. *)
Definition meant (sc : Scenario) : list (dict string Z * option string * option string) :=
  (λ counts, (counts, Some (if numa_balancing (EXPERIMENT_CONFS (sc_experiment_type sc)) then "2" else "0"),
              Some (toptier_scale_factor (EXPERIMENT_CONFS (sc_experiment_type sc))))) <$> sc_workloads_count sc.

(** Whatever ran before, a scenario of the table measures exactly the instances of its
    steps, each under the kernel settings of its type, and leaves nothing running. *)
Theorem scenarios_measure_their_counts sc str_of_time save_dir running :
  sc ∈ ALL_SCENARIOS →
  let '(r, s) := @run_scenario _ sim_lab str_of_time save_dir sc (mkSim running [] []) in
  r = Ok tt ∧ sim_running s = [] ∧ sim_measured s = meant sc.
Proof.
  intros Hsc. cbv delta [ALL_SCENARIOS REDIS_SCENARIOS REDIS_WSS_SCENARIOS BASE_REDIS_SCENARIOS BASE_REDIS_WSS_SCENARIOS
    BASE_PMBENCH_SCENARIOS PMBENCH_SCENARIOS BASE_MEMCACHED_MUTILATE_SCENARIOS MEMCACHED_MUTILATE_SCENARIOS] in Hsc.
  cbn [app] in Hsc.
  repeat (apply elem_of_cons in Hsc as [->|Hsc]; [vm_compute; done|]). by apply elem_of_nil in Hsc.
Qed.

Lemma scenarios_measure_their_counts_witness :
  let '(r, s) := @run_scenario _ sim_lab (λ _, "") "results"
     (mkScenario "pmbench-big-pmem" [[(PMBENCH_BIG_PMEM, 1)]; [(PMBENCH_BIG_PMEM, 2)]] SLEEP_DURATION PMEM false)
     (mkSim [("other", 3)] [] []) in
  r = Ok tt ∧ sim_running s = [] ∧
  sim_measured s = [([(PMBENCH_BIG_PMEM, 1)], Some "0", Some "2000"); ([(PMBENCH_BIG_PMEM, 2)], Some "0", Some "2000")].
Proof.
  apply (scenarios_measure_their_counts
    (mkScenario "pmbench-big-pmem" [[(PMBENCH_BIG_PMEM, 1)]; [(PMBENCH_BIG_PMEM, 2)]] SLEEP_DURATION PMEM false)
    (λ _, "") "results" [("other", 3)]).
  do 5 (apply elem_of_app; right). apply elem_of_app; left. right. by left.
Defined.
