(* ===== verification/ExperimentSets.v ===== *)
(** * Sets of experiments

    [src/examples/kubernetes/scripts/hmem_experiments/runner.py]: the directory of a set of
    experiments, the changes of the configuration of the scheduler, the annotations of the
    dashboard and the sets that the script runs.  Regular expressions and the files are
    parameters. *)
From S2P Require Export Scenarios Transport.

(** Directories, files of lines and substitutions. *)
Class LabFiles (W : Type) : Type := {
  lf_isdir : string → M W bool;
  lf_rmtree : string → M W unit;
  lf_makedirs : string → M W unit;
  (** [fileinput.FileInput(path, inplace=True)]: every line is replaced by what is printed *)
  lf_edit_lines : string → (string → result string) → M W unit;
  lf_copyfile : string → string → M W unit
}.

(** [raise Exception(...)] *)
Definition GeneralException : exn := OtherException "Exception".

Section sets.
  Context {W : Type} `{Lab W} `{LabFiles W} (info : ClusterInfo).
  Context (str_of_events : event_log → string) (str_of_counts : dict string Z → string)
    (str_of_utilization : dict string num → string) (re_sub : string → string → string → result string).

(** src/examples/kubernetes/scripts/hmem_experiments/runner.py:524-531 [create_experiment_root_dir] *)
Definition create_experiment_root_dir (path : string) (overwrite : bool) : M W unit :=
  there ← (if overwrite then lf_isdir path else mret false);
  _ ← (if (there : bool) then lf_rmtree path else mret tt);
  there ← lf_isdir path;
  if (there : bool) then raise GeneralException else lf_makedirs path.

Definition scheduler_path : string := "../../wca-scheduler/".
Definition config_name : string := "config.yaml".

(** src/examples/kubernetes/scripts/hmem_experiments/runner.py:499-521 [modify_configmap]
    [None] when the extender is not switched off in [n] tries. *)
Definition modify_configmap (n : nat) (regexes : list (string * string)) (experiment_index : Z)
    (experiment_root_dir : string) : M W (option unit) :=
  _ ← forM_ regexes (λ regex, lf_edit_lines (scheduler_path +:+ config_name) (re_sub regex.1 regex.2));
  _ ← lf_copyfile (scheduler_path +:+ config_name)
        (experiment_root_dir +:+ "/wca_scheduler_config_" +:+ str_of_Z experiment_index +:+ "_" +:+ config_name);
  _ ← run_ ("kubectl apply -k " +:+ scheduler_path +:+ " && sleep 10s");
  switch_extender n Off.

(** How often loops without a bound are followed: the switching of the extender, the choices
    of workloads that are not accepted, the draws of one choice. *)
Record bounds := mkBounds { bd_switch : nat; bd_choices : nat; bd_draws : nat }.
Context (b : bounds).

(** src/examples/kubernetes/scripts/hmem_experiments/runner.py:582-601 [experimentset_main]
    One iteration. *)
Definition main_iteration (configmap_regex_parameters : dict Z (list (string * string))) (experiment_root_dir : string)
    (i : Z) : M W (option unit) :=
  opt_bind match dget configmap_regex_parameters i with
           | Some regexes => modify_configmap (bd_switch b) regexes i experiment_root_dir
           | None => mret (Some tt)
           end (λ _,
  opt_bind (random_with_total_utilization_specified info (bd_choices b) (bd_draws b)
              (float_lit 22 100, float_lit 46 100) (float_lit 75 100, float_lit 9 10) (ci_nodes info) (ci_workloads info))
    (λ '(_, workloads, utilization),
  _ ← append_file (path_join experiment_root_dir ("choosen_workloads_utilization." +:+ str_of_Z i +:+ ".txt"))
        (str_of_utilization utilization +:+ String newline "");
  single_3stage_experiment str_of_events str_of_counts (bd_switch b) (str_of_Z i) workloads (ForAll (minute * 15)) minute
    (true, true, true) experiment_root_dir)).

(** A loop of iterations, which ends where one does not come to its end. *)
Fixpoint iterations_from (one : Z → M W (option unit)) (indices : list Z) : M W (option unit) :=
  match indices with
  | [] => mret (Some tt)
  | i :: indices => opt_bind (one i) (λ _, iterations_from one indices)
  end.

(** src/examples/kubernetes/scripts/hmem_experiments/runner.py:569-601 [experimentset_main]
    The name of the number of iterations is used again inside the loop, whose range has
    been made before. *)
Definition experimentset_main (iterations : nat) (configmap_regex_parameters : dict Z (list (string * string)))
    (experiment_root_dir : string) (overwrite : bool) : M W (option unit) :=
  _ ← create_experiment_root_dir experiment_root_dir overwrite;
  iterations_from (main_iteration configmap_regex_parameters experiment_root_dir) (Z.of_nat <$> seq 0 iterations).

(** src/examples/kubernetes/scripts/hmem_experiments/runner.py:604-638 [experimentset_single_workload_at_once]
    The call in the loop has an argument the function does not take. *)
Definition experimentset_single_workload_at_once (experiment_root_dir : string) (overwrite : bool) : M W unit :=
  _ ← create_experiment_root_dir experiment_root_dir overwrite;
  let workloads := ["memcached-mutilate-big"; "redis-memtier-big"] in
  let count_per_node_list : dict string (list Z) := [("memcached-mutilate-big", [3]); ("redis-memtier-big", [2])] in
  forM_ workloads (λ workload, _ ← lift (dgetitem count_per_node_list workload); raise TypeError).

(** src/examples/kubernetes/scripts/hmem_experiments/runner.py:641-657 [experimentset_test] *)
Definition experimentset_test (experiment_root_dir : string) : M W (option unit) :=
  there ← lf_isdir experiment_root_dir;
  _ ← (if (there : bool) then mret tt else lf_makedirs experiment_root_dir);
  opt_bind (random_with_total_utilization_specified info (bd_choices b) (bd_draws b)
              (float_lit 25 100, float_lit 41 100) (float_lit 65 100, float_lit 29 10) (ci_nodes info) (ci_workloads info))
    (λ '(_, workloads, _),
  single_3stage_experiment str_of_events str_of_counts (bd_switch b) "0" workloads (ForAll minute) 10
    (false, false, true) experiment_root_dir).
End sets.

(** ** Annotations *)

Definition GRAFANA_URL : string := "http://100.64.176.12:3000".

Section annotate.
  Context {W : Type} `{Http W} (bearer_token : string).

(** src/examples/kubernetes/scripts/hmem_experiments/runner.py:534-559 [annotate]
    The answer; the headers for the types of the contents are left out. *)
Definition post_annotation (text : string) (tags : list string) (dashboard_id : Z) : M W response :=
  let data := JObj [("dashboardId", JNum (PInt dashboard_id)); ("tags", JList (JStr <$> tags)); ("text", JStr text)] in
  try_except
    (r ← http_send (mkHttpRequest "POST" (GRAFANA_URL +:+ "/api/annotations") (Some bearer_token) None (Some data)
                      (PInt 0) None NoCerts None);
     _ ← raise_for_status r; mret r)
    (λ e, if bool_decide (e = OtherException "ConnectionError") || bool_decide (e = HTTPError)
          then Some (raise GeneralException) else None).

(** src/examples/kubernetes/scripts/hmem_experiments/runner.py:534-565 [annotate]
    Whether the dashboard says that the annotation was added. *)
Definition lab_annotate (text : string) (tags : list string) (dashboard_id : Z) : M W bool :=
  r ← post_annotation text tags dashboard_id;
  lift (j ← r_json r; message ← jitem j "message";
        Ok match message with JStr s => String.eqb s "Annotation added" | _ => false end).
End annotate.

(** ** The directory of a set *)

(** What is relied on of the directories: looking changes nothing, a tree that was removed is
    gone. *)
Class LabDirectories (W : Type) `{LabFiles W} : Prop := {
  isdir_reads path w : ∃ there, lf_isdir path w = (Ok there, w);
  rmtree_gone path w w' : lf_rmtree path w = (Ok tt, w') → lf_isdir path w' = (Ok false, w')
}.

Section directory.
  Context {W : Type} `{LabFiles W} `{!LabDirectories W}.

(** A directory that is there is left alone, with an exception, unless it may be
    overwritten. *)
Lemma existing_directory_refused path w :
  lf_isdir path w = (Ok true, w) → create_experiment_root_dir path false w = (Raise GeneralException, w).
Proof.
  intros Hd. unfold create_experiment_root_dir, mbind, M_bind, mret, M_ret. cbn. by rewrite Hd.
Qed.

(** Otherwise the directory is made anew: it is not there when it is made. *)
Lemma directory_made path overwrite w w' :
  create_experiment_root_dir path overwrite w = (Ok tt, w') →
  ∃ w1, lf_isdir path w1 = (Ok false, w1) ∧ lf_makedirs path w1 = (Ok tt, w') ∧
    (overwrite = false ∨ lf_isdir path w = (Ok false, w) → w1 = w).
Proof.
  unfold create_experiment_root_dir. intros Hm. apply M_bind_Ok_iff in Hm as (there & w1 & H1 & Hm).
  apply M_bind_Ok_iff in Hm as (u & w2 & H2 & Hm). apply M_bind_Ok_iff in Hm as (there' & w3 & H3 & Hm).
  destruct (isdir_reads path w2) as [t Ht]. rewrite Ht in H3. injection H3 as -> <-.
  destruct there'; [done|]. exists w2. split_and!; [done..|]. intros Hor.
  destruct overwrite.
  - destruct Hor as [?|Hd]; [done|]. rewrite Hd in H1. injection H1 as <- <-. by apply M_ret_Ok_iff in H2 as [_ <-].
  - apply M_ret_Ok_iff in H1 as [<- <-]. by apply M_ret_Ok_iff in H2 as [_ <-].
Qed.
End directory.

Section sets_fail.
  Context {W : Type} `{Lab W} `{LabFiles W} (info : ClusterInfo).
  Context (str_of_events : event_log → string) (str_of_counts : dict string Z → string)
    (str_of_utilization : dict string num → string) (re_sub : string → string → string → result string) (b : bounds).

(** No experiment of the set of single workloads is ever run. *)
Lemma single_workloads_fail path overwrite w r w' :
  experimentset_single_workload_at_once path overwrite w = (r, w') → is_Ok r = false.
Proof.
  unfold experimentset_single_workload_at_once, mbind, M_bind.
  destruct (create_experiment_root_dir path overwrite w) as [[[]|e] w1]; [|by intros [= <- _]].
  cbn. by intros [= <- _].
Qed.

(** The set does nothing to the cluster when its directory is there and is to be kept. *)
Lemma main_keeps_directory iterations params path w :
  lf_isdir path w = (Ok true, w) →
  experimentset_main info str_of_events str_of_counts str_of_utilization re_sub b iterations params path false w =
  (Raise GeneralException, w).
Proof.
  intros Hd. unfold experimentset_main, mbind at 1, M_bind at 1.
  unfold create_experiment_root_dir, mbind, M_bind, mret, M_ret. by rewrite Hd.
Qed.
End sets_fail.

(** ** Directories of a test *)
Definition example_dirs : Type := list string.
#[export] Instance example_LabFiles : LabFiles example_dirs := {|
  lf_isdir path w := (Ok (bool_decide (path ∈ w)), w);
  lf_rmtree path w := (Ok tt, filter (λ p, p ≠ path) w);
  lf_makedirs path w := (Ok tt, path :: w);
  lf_edit_lines _ _ := mret tt; lf_copyfile _ _ := mret tt
|}.
#[export] Instance example_LabDirectories : LabDirectories example_dirs.
Proof.
  split.
  - intros path w. by eexists.
  - intros path w w' [= <-]. cbn. rewrite bool_decide_false; [done|]. by intros [? _]%list_elem_of_filter.
Qed.

Example directories :
  create_experiment_root_dir "results/tmp" false ["results/tmp"] = (Raise GeneralException, ["results/tmp"]) ∧
  create_experiment_root_dir "results/tmp" true ["results/tmp"] = (Ok tt, ["results/tmp"]) ∧
  create_experiment_root_dir "results/tmp" false [] = (Ok tt, ["results/tmp"]).
Proof. vm_compute. done. Qed.
