(* ===== verification/AnalyzerView.v ===== *)
(** * The analyzer: the reports of the stages

    [src/examples/kubernetes/scripts/analyzer/view.py]: the text, Excel and CSV files that
    are written from the data frames of an experiment in stages.  A data frame is the list
    of its rows; how pandas writes one as text is a parameter, and the files and directories
    are the class [ReportFiles]. *)
From S2P Require Export Analyzer.

Class ReportFiles (W : Type) : Type := {
  (** [os.path.isdir], [os.mkdir], [os.listdir], [os.remove], [os.path.isfile] *)
  rf_isdir : string → M W bool;
  rf_mkdir : string → M W unit;
  rf_listdir : string → M W (list string);
  rf_remove : string → M W unit;
  rf_isfile : string → M W bool;
  (** [open(path).readlines()] *)
  rf_readlines : string → M W (list string);
  (** [open(path, 'a+')], [write] and [close] *)
  rf_open_append : string → M W unit;
  rf_write : string → string → M W unit;
  rf_close : string → M W unit;
  (** a data frame written to a sheet of a workbook, at a row; [pd.ExcelWriter(path)], and
      what ends its block: the workbook is saved *)
  rf_excel_writer : string → M W unit;
  rf_to_excel : string → string → Z → list row → M W unit;
  rf_excel_save : string → M W unit;
  rf_to_csv : string → list row → M W unit
}.

(** [with enter: m], with [leave] at the end *)
Definition with_block {S} (enter m leave : M S unit) : M S unit := _ ← enter; try_finally m leave.

(** ** Data frames *)

(** A column, with [None] where a row has no value; a name no row has is no column. *)
Definition df_column (df : list row) (name : string) : option (list (option cell)) :=
  if existsb (λ r, dmem r name) df then Some ((λ r, dget r name) <$> df) else None.
(** [df[df.name.isin(values)]] *)
Definition df_isin (name : string) (values : list string) (df : list row) : result (list row) :=
  _ ← or_raise AttributeError (df_column df name);
  Ok (filter (λ r, match dget r name with Some (CText s) => bool_decide (s ∈ values) | _ => false end = true) df).
(** The truth value of a cell: a missing one is not a number, which is true. *)
Definition cell_true (c : option cell) : bool :=
  match c with Some (CText s) => negb (String.eqb s "") | Some (CNum x) => num_true x | None => true end.

(** ** Lists of texts *)

(** src/examples/kubernetes/scripts/analyzer/view.py:266-269 [TxtStagesExporter.print_n_per_row]
    The row that begins at place [k]. *)
Definition text_row (n : nat) (l : list string) (k : nat) : string :=
  let m := if (k + n <? length l)%nat then (k + n)%nat else length l in
  str_join ", " (take (m - k) (drop k l)) +:+ str1 newline.

(** src/examples/kubernetes/scripts/analyzer/view.py:263-270 [TxtStagesExporter.print_n_per_row]
    For [n] greater than 0. *)
Definition print_n_per_row (n : nat) (l : list string) : string :=
  foldl (λ r i, r +:+ text_row n l (i * n)) "" (seq 0 ((length l + 1) / n)).

(** ** The exporter *)

(** src/examples/kubernetes/scripts/analyzer/model.py:60-64 [ExperimentType] *)
Inductive RunType := SingleWorkloadsRun | SteppingSingleWorkloadsRun | ThreeStageStandardRun | Hmem.
#[export] Instance RunType_eq_dec : EqDecision RunType.
Proof. solve_decision. Defined.

(** src/examples/kubernetes/scripts/analyzer/model.py:67-77 [ExperimentMeta] *)
Record ExperimentMeta := mkExperimentMeta {
  em_data_path : string; em_title : string; em_description : string; em_params : dict string string;
  em_changelog : string; em_bugs : string; em_experiment_type : RunType; em_experiment_baseline_index : nat;
  em_commit_hash : string
}.

(** src/examples/kubernetes/scripts/analyzer/view.py:35-37 [TxtStagesExporter.__post_init__]
    The limits as they are written. *)
Definition limits : string := "{'L[%]': 150, 'T[%]': 80}".

Section exporter.
  Context {W : Type} `{ReportFiles W} {Time : Type}.
  (** [strftime("%d-%b-%Y (%H:%M:%S)")] and [DataFrame.to_string] *)
  Context (strftime : Time → string) (to_string : list row → string).

(** src/examples/kubernetes/scripts/analyzer/view.py:24-33 [TxtStagesExporter]
    Of an event only the time is used. *)
Record Exporter := mkExporter {
  ep_events : list Time; ep_workloads : dict string Z;
  ep_experiment_meta : ExperimentMeta; ep_experiment_index : Z;
  ep_export_file_path : string; ep_utilization_file_path : string;
  ep_workloads_summaries : list (list row); ep_tasks_summaries : list (list row); ep_node_summaries : list (list row)
}.

Definition nth_df (l : list (list row)) (i : nat) : result (list row) := or_raise IndexError (l !! i).

(** The directory of the reports, and the file of the texts. *)
Definition results_dir (self : Exporter) : string := path_join (em_data_path (ep_experiment_meta self)) "runner_analyzer".
Definition results_txt (self : Exporter) : string := path_join (results_dir self) "results.txt".

Section text.
  Context (self : Exporter).
Definition fwrite (s : string) : M W unit := rf_write (results_txt self) s.
Definition nl : string := str1 newline.

(** src/examples/kubernetes/scripts/analyzer/view.py:212-215 [TxtStagesExporter._seperator] *)
Definition seperator (ending : bool) : M W unit :=
  _ ← fwrite (String.concat "" (replicate 90 "*") +:+ nl);
  if ending then fwrite (nl +:+ nl) else mret tt.

(** src/examples/kubernetes/scripts/analyzer/view.py:226-228 [TxtStagesExporter._metadata]
    [print_n_per_row] is declared without [self]: the exporter itself is the number of
    texts in a row, which is given again by name. *)
Definition print_n_per_row_of_self (n : nat) (l : list string) : result string := Raise TypeError.

(** src/examples/kubernetes/scripts/analyzer/view.py:217-234 [TxtStagesExporter._metadata] *)
Definition metadata : M W unit :=
  _ ← fwrite ("Experiment index: " +:+ str_of_Z (ep_experiment_index self) +:+ nl);
  first ← lift (or_raise IndexError (head (ep_events self)));
  last ← lift (or_raise IndexError (last (ep_events self)));
  _ ← fwrite ("Time events from: " +:+ strftime first +:+ " to: " +:+ strftime last +:+ "." +:+ nl);
  let workloads_list := py_sorted String.ltb
        ((λ wc : string * Z, "(" +:+ wc.1 +:+ ", " +:+ str_of_Z wc.2 +:+ ")") <$> ep_workloads self) in
  rows ← lift (print_n_per_row_of_self 5 workloads_list);
  _ ← fwrite ("Workloads scheduled: " +:+ str_of_Z (Z.of_nat (length workloads_list)) +:+ nl +:+ rows);
  known ← rf_isfile (ep_utilization_file_path self);
  if (known : bool) then
    lines ← rf_readlines (ep_utilization_file_path self);
    line ← lift (or_raise IndexError (head lines));
    fwrite ("Utilization of resources: " +:+ rstrip_if is_space line +:+ nl)
  else fwrite ("Utilization of resources: unknown" +:+ nl).

Definition write_df (dfs : list (list row)) (stage_index : nat) : M W unit :=
  df ← lift (nth_df dfs stage_index); _ ← fwrite (to_string df); fwrite (nl +:+ nl).

(** src/examples/kubernetes/scripts/analyzer/view.py:236-243 [TxtStagesExporter._baseline] *)
Definition baseline (title : string) (stage_index : nat) : M W unit :=
  _ ← fwrite ("***" +:+ title +:+ "(stage_index=" +:+ str_of_Z (Z.of_nat stage_index) +:+ ")***" +:+ nl);
  _ ← write_df (ep_workloads_summaries self) stage_index;
  _ ← write_df (ep_node_summaries self) stage_index;
  write_df (ep_tasks_summaries self) stage_index.

(** src/examples/kubernetes/scripts/analyzer/view.py:253-255 [TxtStagesExporter._aep_tasks]
    How many tasks pass a limit. *)
Definition passed (istage : nat) (column name : string) : M W unit :=
  df ← lift (nth_df (ep_tasks_summaries self) istage);
  vals ← lift (or_raise KeyError (df_column df column));
  fwrite ("Passed " +:+ str_of_Z (Z.of_nat (length (filter (λ v, cell_true v = true) vals))) +:+ "/"
          +:+ str_of_Z (Z.of_nat (length vals)) +:+ " " +:+ name +:+ " limit >>" +:+ limits +:+ "<<" +:+ nl).

(** src/examples/kubernetes/scripts/analyzer/view.py:245-261 [TxtStagesExporter._aep_tasks] *)
Definition aep_tasks : M W unit :=
  forM_ [(1%nat, "KUBERNETES BASELINE"); (2%nat, "WCA-SCHEDULER")] (λ '(istage, title),
    _ ← fwrite (nl +:+ "***" +:+ title +:+ "***" +:+ nl);
    _ ← write_df (ep_node_summaries self) istage;
    _ ← write_df (ep_tasks_summaries self) istage;
    _ ← passed istage "pass_avg" "avg";
    _ ← passed istage "pass_nice" "optimistic";
    passed istage "pass_strict" "strict").

(** src/examples/kubernetes/scripts/analyzer/view.py:86-89 [TxtStagesExporter._print_summaries_in_stage] *)
Definition print_summaries_in_stage (df : list row) (title : string) : M W unit :=
  _ ← fwrite (nl +:+ title +:+ nl); _ ← fwrite (to_string df); fwrite nl.

(** src/examples/kubernetes/scripts/analyzer/view.py:91-97 [TxtStagesExporter._tasks_summaries_in_stage] *)
Definition tasks_summaries_in_stage (title : string) (stage_index : nat) (filter_nodes : option (list string)) : M W unit :=
  df ← lift (nth_df (ep_tasks_summaries self) stage_index);
  df ← lift match filter_nodes with Some nodes => df_isin "node" nodes df | None => Ok df end;
  print_summaries_in_stage df title.

(** src/examples/kubernetes/scripts/analyzer/view.py:99-105 [TxtStagesExporter._node_summaries_in_stage]
    Its callers always give the nodes. *)
Definition node_summaries_in_stage (title : string) (stage_index : nat) (filter_nodes : list string) : M W unit :=
  df ← lift (nth_df (ep_node_summaries self) stage_index);
  df ← lift (df_isin "name" filter_nodes df);
  print_summaries_in_stage df title.

Definition make_results_dir : M W unit :=
  there ← rf_isdir (results_dir self); if (there : bool) then mret tt else rf_mkdir (results_dir self).
Definition in_results_txt (m : M W unit) : M W unit :=
  _ ← make_results_dir; with_block (rf_open_append (results_txt self)) m (rf_close (results_txt self)).

(** src/examples/kubernetes/scripts/analyzer/view.py:39-56 [TxtStagesExporter.export_to_txt_single] *)
Definition export_to_txt_single : M W unit :=
  in_results_txt (
    _ ← seperator false;
    _ ← metadata;
    _ ← baseline "BASELINE" 1;
    _ ← tasks_summaries_in_stage "Task summaries for all tasks" 1 None;
    seperator true).

(** src/examples/kubernetes/scripts/analyzer/view.py:58-84 [TxtStagesExporter.export_to_txt_stepping_single] *)
Definition export_to_txt_stepping_single : M W unit :=
  in_results_txt (
    _ ← seperator false;
    _ ← metadata;
    _ ← seperator true;
    forM_ (seq 0 (length (ep_workloads_summaries self))) (λ stage_index,
      _ ← seperator false;
      _ ← baseline "DRAM workload summary" stage_index;
      _ ← tasks_summaries_in_stage "Task summaries for PMEM:node101" stage_index (Some ["node101"]);
      _ ← tasks_summaries_in_stage "Task summaries for DRAM:node103" stage_index (Some ["node103"]);
      _ ← node_summaries_in_stage "Node summaries for DRAM:node103" stage_index ["node103"];
      seperator true)).

(** src/examples/kubernetes/scripts/analyzer/view.py:192-210 [TxtStagesExporter.export_to_txt] *)
Definition export_to_txt : M W unit :=
  in_results_txt (
    _ ← seperator false;
    _ ← metadata;
    _ ← baseline "BASELINE" 0;
    _ ← aep_tasks;
    seperator true).

(** The stages of an experiment and their names. *)
Definition stage_names : list (nat * string) :=
  [(0%nat, "BASELINE"); (1%nat, "KUBERNETES_BASELINE"); (2%nat, "WCA-SCHEDULER")].

(** src/examples/kubernetes/scripts/analyzer/view.py:124-129 [TxtStagesExporter.export_to_xls]
    One workbook. *)
Definition export_workbook (name : string) (dfs : list (list row)) : M W unit :=
  let path := path_join (results_dir self) (name +:+ "_" +:+ str_of_Z (ep_experiment_index self) +:+ ".xlsx") in
  with_block (rf_excel_writer path)
    (forM_ stage_names (λ '(i, sheet), df ← lift (nth_df dfs i); rf_to_excel path sheet 0 df))
    (rf_excel_save path).

(** src/examples/kubernetes/scripts/analyzer/view.py:115-143 [TxtStagesExporter.export_to_xls] *)
Definition export_to_xls : M W unit :=
  _ ← make_results_dir;
  _ ← export_workbook "tasks_summaries" (ep_tasks_summaries self);
  _ ← export_workbook "node_summaries" (ep_node_summaries self);
  export_workbook "workloads_summaries" (ep_workloads_summaries self).

(** src/examples/kubernetes/scripts/analyzer/view.py:153-164 [TxtStagesExporter.export_to_csv]
    The files of one kind of summaries. *)
Definition export_csv_files (name : string) (dfs : list (list row)) : M W unit :=
  forM_ stage_names (λ '(i, stage),
    df ← lift (nth_df dfs i);
    rf_to_csv (path_join (results_dir self)
                 (name +:+ "_" +:+ str_of_Z (ep_experiment_index self) +:+ "_" +:+ stage +:+ ".csv")) df).

(** src/examples/kubernetes/scripts/analyzer/view.py:145-190 [TxtStagesExporter.export_to_csv] *)
Definition export_to_csv : M W unit :=
  _ ← make_results_dir;
  _ ← export_csv_files "tasks_summaries" (ep_tasks_summaries self);
  _ ← export_csv_files "node_summaries" (ep_node_summaries self);
  export_csv_files "workloads_summaries" (ep_workloads_summaries self).
End text.

(** src/examples/kubernetes/scripts/analyzer/view.py:107-113 [TxtStagesExporter.multiple_dfs] *)
Definition multiple_dfs (df_list : list (list row)) (sheets file_name : string) (spaces : Z) : M W unit :=
  _ ← rf_excel_writer file_name;
  _ ← foldMS (λ row dataframe,
        _ ← rf_to_excel file_name sheets row dataframe;
        mret (row + Z.of_nat (length dataframe) + spaces + 1)) 0 df_list;
  rf_excel_save file_name.

(** ** No text report is ever finished *)

(** No run of [m] ends without an exception. *)
Definition never {S A} (m : M S A) : Prop := ∀ s, is_Ok (m s).1 = false.

Lemma never_raise {S A} e : never (raise e : M S A).
Proof. done. Qed.
Lemma never_bind_l {S A B} (m : M S A) (k : A → M S B) : never m → never (m ≫= k).
Proof. intros Hm s. specialize (Hm s). unfold mbind, M_bind. by destruct (m s) as [[a|e] s']. Qed.
Lemma never_bind_r {S A B} (m : M S A) (k : A → M S B) : (∀ a, never (k a)) → never (m ≫= k).
Proof. intros Hk s. unfold mbind, M_bind. destruct (m s) as [[a|e] s']; [apply Hk|done]. Qed.
Lemma never_try_finally {S A} (m : M S A) f : never m → never (try_finally m f).
Proof.
  intros Hm s. specialize (Hm s). unfold try_finally. destruct (m s) as [[a|e] s1]; [done|].
  by destruct (f s1) as [[]].
Qed.

Lemma metadata_never self : never (metadata self).
Proof. do 4 (apply never_bind_r; intros ?). apply never_bind_l. by intros ?. Qed.

Lemma results_txt_never self m : never m → never (in_results_txt self m).
Proof. intros Hm. do 2 (apply never_bind_r; intros _). by apply never_try_finally. Qed.

(** Whatever the data and the files, each of the three reports in text ends in an exception:
    the list of workloads cannot be written. *)
Lemma text_reports_never self :
  never (export_to_txt self) ∧ never (export_to_txt_single self) ∧ never (export_to_txt_stepping_single self).
Proof.
  split_and!; apply results_txt_never, never_bind_r; intros _; apply never_bind_l, metadata_never.
Qed.
End exporter.

(** The last texts of a list that does not fill its rows are lost. *)
Lemma text_rows_lost n l : (length l + 1 < n)%nat → print_n_per_row n l = "".
Proof. intros Hl. unfold print_n_per_row. by rewrite Nat.div_small. Qed.

Example six_texts : print_n_per_row 5 ["a"; "b"; "c"; "d"; "e"; "f"] = "a, b, c, d, e" +:+ str1 newline.
Proof. vm_compute. reflexivity. Qed.
Example nine_texts :
  print_n_per_row 5 ["a"; "b"; "c"; "d"; "e"; "f"; "g"; "h"; "i"] =
  "a, b, c, d, e" +:+ str1 newline +:+ "f, g, h, i" +:+ str1 newline.
Proof. vm_compute. reflexivity. Qed.
