(* ===== verification/AnalyzerStages.v ===== *)
(** * The analyzer: experiments in stages

    [src/examples/kubernetes/scripts/analyzer/runner_analyzer.py]: the statistics of the
    workloads and tasks of every stage of an experiment, and the analysis that hands them to
    the exporter of [AnalyzerView].  The file of events is Python source; what [eval] makes
    of a line is a parameter, as are the conversions of times and the order of sets. *)
From S2P Require Export AnalyzerView.
Import AnalyzerMetric.

(** ** Summaries *)

(** src/examples/kubernetes/scripts/analyzer/runner_analyzer.py:35-35 [WINDOW_LENGTH] *)
Definition WINDOW_LENGTH : Z := 300.

(** A value of a task that has it. *)
Definition present (r : result (option float)) : result num := o ← r; x ← or_raise TypeError o; Ok (PFloat x).

(** [100 * a / b], taken in the order of the code *)
Definition percent (a b : num) : result num := q ← ndiv a b; nmul q (PInt 100).

(** src/examples/kubernetes/scripts/analyzer/runner_analyzer.py:70-71 [calculate_task_summaries] *)
Definition deviation_percent (avg stdev : result (option float)) : result num :=
  a ← present avg;
  if neqb a (PInt 0) then Ok (PInt (-1)) else s ← present stdev; a ← present avg; percent s a.

(** src/examples/kubernetes/scripts/analyzer/runner_analyzer.py:99-101 [calculate_task_summaries] *)
Definition round_cell (c : cell) : cell :=
  match c with CNum (PFloat f) => CNum (PFloat (float_round_n 3 f)) | _ => c end.

(** src/examples/kubernetes/scripts/analyzer/runner_analyzer.py:64-101 [calculate_task_summaries]
    The summary of a task. *)
Definition task_summary (task : AnalyzerTask) (workloads_baseline : dict string WStat) : result row :=
  let lat := get_latency task in
  let thr := get_throughput task in
  let key (m f unit : string) := m +:+ "[" +:+ f +:+ "][" +:+ str_of_Z WINDOW_LENGTH +:+ "s]" +:+ unit in
  let base (stat : WStat → Stat) (value : Stat → num) (r : result (option float)) :=
    x ← present r; b ← dgetitem workloads_baseline (at_workload_name task); percent x (value (stat b)) in
  l ← present (lat "avg"); l_avg ← present (lat "avg"); l_q01 ← present (lat "q0.1,"); l_q09 ← present (lat "q0.9,");
  l_stdev ← present (lat "stdev"); l_dev ← deviation_percent (lat "avg") (lat "stdev");
  t ← present (thr "avg"); t_avg ← present (thr "avg"); t_q09 ← present (thr "q0.9,"); t_q01 ← present (thr "q0.1,");
  t_stdev ← present (thr "stdev"); t_dev ← deviation_percent (thr "avg") (thr "stdev");
  l_nice ← base ws_latency st_max (lat "avg"); t_nice ← base ws_throughput st_min (thr "avg");
  l_mean ← base ws_latency st_avg (lat "avg"); t_mean ← base ws_throughput st_avg (thr "avg");
  l_strict ← base ws_latency st_min (lat "avg"); t_strict ← base ws_throughput st_max (thr "avg");
  Ok (dmap round_cell
        [("L", CNum l); (key "L" "avg" "", CNum l_avg); (key "L" "q0.1" "", CNum l_q01);
         (key "L" "q0.9" "", CNum l_q09); (key "L" "stdev" "", CNum l_stdev); (key "L" "stdev" "[%]", CNum l_dev);
         ("T", CNum t); (key "T" "avg" "", CNum t_avg); (key "T" "q0.9" "", CNum t_q09);
         (key "T" "q0.1" "", CNum t_q01); (key "T" "stdev" "", CNum t_stdev); (key "T" "stdev" "[%]", CNum t_dev);
         ("L_nice[%]", CNum l_nice); ("T_nice[%]", CNum t_nice); ("L_avg[%]", CNum l_mean);
         ("T_avg[%]", CNum t_mean); ("L_strict[%]", CNum l_strict); ("T_strict[%]", CNum t_strict);
         ("task", CText (at_name task)); ("app", CText (at_workload_name task)); ("node", CText (at_node task))]).

(** src/examples/kubernetes/scripts/analyzer/runner_analyzer.py:55-105 [calculate_task_summaries] *)
Definition calculate_task_summaries (tasks : list AnalyzerTask) (workloads_baseline : dict string WStat)
    : result (list row) :=
  foldM (λ tasks_summaries task,
    known ← has_metrics task;
    if (known : bool) then s ← task_summary task workloads_baseline; Ok (tasks_summaries ++ [s])
    else Ok tasks_summaries) [] tasks.

(** ** Stages *)

(** src/examples/kubernetes/scripts/analyzer/runner_analyzer.py:42-52 [Stage] *)
Record Stage := mkStage { sg_tasks : tasks_t; sg_nodes : dict string AnalyzerNode }.

(** A method called through its class, without an object: the first argument is taken for
    the object and another one is missing. *)
Definition through_class {A} : result A := Raise TypeError.

(** src/examples/kubernetes/scripts/analyzer/runner_analyzer.py:44-52 [Stage.__init__]
    [AnalyzerQueries] is the class, not an object of it, and has no [query_nodes_list]. *)
Definition new_stage (t_end : float) : result Stage :=
  let t_end := fsub t_end (f64 60) in
  tasks ← through_class;
  _ ← (through_class : result unit);
  nodes ← Raise AttributeError;
  _ ← (through_class : result unit);
  Ok (mkStage tasks nodes).

Definition get_stage (stages : list Stage) (i : nat) : result Stage := or_raise IndexError (stages !! i).

(** [int(v)] *)
Definition jint (v : json) : result Z :=
  match v with JStr s => py_int s | JNum n => num_trunc n | JBool b => Ok (if b then 1 else 0) | _ => Raise TypeError end.

(** src/examples/kubernetes/scripts/analyzer/runner_analyzer.py:126-130 [StagesAnalyzer.get_all_tasks_count_in_stage] *)
Definition get_all_tasks_count_in_stage (stages : list Stage) (i : nat) : result Z :=
  stage ← get_stage stages i;
  foldM (λ n node,
    match dget (an_performance_metrics node) (KName "platform_tasks_scheduled") with
    | Some values => v ← dgetitem values "instant"; k ← jint v; Ok (n + k)
    | None => Ok n
    end) 0 (dvalues (sg_nodes stage)).

(** src/examples/kubernetes/scripts/analyzer/runner_analyzer.py:135-136 [StagesAnalyzer.get_all_tasks_in_stage_on_nodes] *)
Definition get_all_tasks_in_stage_on_nodes (stages : list Stage) (i : nat) (nodes : list string)
    : result (list AnalyzerTask) :=
  stage ← get_stage stages i; Ok (filter (λ t, at_node t ∈ nodes) (dvalues (sg_tasks stage))).

(** src/examples/kubernetes/scripts/analyzer/runner_analyzer.py:138-139 [StagesAnalyzer.get_all_nodes_in_stage] *)
Definition get_all_nodes_in_stage (stages : list Stage) (i : nat) : result (list string) :=
  stage ← get_stage stages i; Ok (dkeys (sg_nodes stage)).

(** [min] of floats: a later one replaces the first when it is less. *)
Definition float_min (x : float) (l : list float) : float := foldl (λ m y, if fltb y m then y else m) x l.

(** Maximum, minimum, mean and deviation of several values. *)
Definition several (l : list float) : result Stat :=
  match l with
  | [] => Raise ValueError
  | x :: l' => avg ← mean l; dev ← stdev l;
      Ok (mkStat (PFloat avg) (PFloat (float_min x l')) (PFloat (float_max x l')) (PFloat dev))
  end.

(** src/examples/kubernetes/scripts/analyzer/runner_analyzer.py:162-177 [StagesAnalyzer.calculate_per_workload_wstats_per_stage]
    Latency and throughput; a single value of throughput stands for the latency too. *)
Definition stats_of (throughputs_list latencies_list : list float) : result (Stat * Stat) :=
  match throughputs_list with
  | [] => let s := mkStat (PFloat finf) (PFloat finf) (PFloat finf) (PFloat finf) in Ok (s, s)
  | [x] => let s := mkStat (PFloat x) (PFloat x) (PFloat x) (PInt 0) in Ok (s, s)
  | _ => t ← several throughputs_list; l ← several latencies_list; Ok (l, t)
  end.

(** src/examples/kubernetes/scripts/analyzer/runner_analyzer.py:156-160 [StagesAnalyzer.calculate_per_workload_wstats_per_stage]
    The values that are there. *)
Definition collect_values (value : AnalyzerTask → result (option float)) (tasks : list AnalyzerTask)
    : result (list float) :=
  foldM (λ acc task, v ← value task; match v with Some x => Ok (acc ++ [x]) | None => Ok acc end) [] tasks.

(** src/examples/kubernetes/scripts/analyzer/runner_analyzer.py:151-154 [StagesAnalyzer.calculate_per_workload_wstats_per_stage]
    The tasks of a workload outside of some nodes. *)
Definition tasks_of_workload (stage : Stage) (workload : string) (filter_nodes : list string) : list AnalyzerTask :=
  filter (λ t, at_node t ∉ filter_nodes) (filter (λ t, at_workload_name t = workload) (dvalues (sg_tasks stage))).

(** src/examples/kubernetes/scripts/analyzer/runner_analyzer.py:151-181 [StagesAnalyzer.calculate_per_workload_wstats_per_stage]
    The statistics of one workload. *)
Definition workload_wstat (stage : Stage) (filter_nodes : list string) (workload : string) : result WStat :=
  let tasks := tasks_of_workload stage workload filter_nodes in
  throughputs_list ← collect_values (λ t, get_throughput t "avg") tasks;
  latencies_list ← collect_values (λ t, get_latency t "avg") tasks;
  s ← stats_of throughputs_list latencies_list;
  Ok (mkWStat workload s.1 s.2 (Z.of_nat (length tasks))).

(** src/examples/kubernetes/scripts/analyzer/runner_analyzer.py:142-182 [StagesAnalyzer.calculate_per_workload_wstats_per_stage] *)
Definition calculate_per_workload_wstats_per_stage (stages : list Stage) (workloads : list string) (stage_index : nat)
    (filter_nodes : list string) : result (dict string WStat) :=
  foldM (λ wstats workload,
    stage ← get_stage stages stage_index;
    s ← workload_wstat stage filter_nodes workload; Ok (dset wstats workload s)) [] workloads.

Section analyzer.
  Context {W : Type} `{ReportFiles W} {Time : Type}.
  Context (strftime : Time → string) (timestamp : Time → float) (to_string : list row → string).
  Context (sort_by_node : list row → result (list row)) (set_order : list string → list string).
  (** [ClusterInfoLoader.get_instance()], and T_DELTA of the environment *)
  Context (instance : option AnalyzerInfo) (T_DELTA : option string).

(** src/examples/kubernetes/scripts/analyzer/runner_analyzer.py:132-133 [StagesAnalyzer.get_all_workloads_in_stage] *)
Definition get_all_workloads_in_stage (stages : list Stage) (i : nat) : result (list string) :=
  stage ← get_stage stages i; Ok (set_order (py_set (at_workload_name <$> dvalues (sg_tasks stage)))).

(** src/examples/kubernetes/scripts/analyzer/runner_analyzer.py:109-119 [StagesAnalyzer.__init__]
    A value of T_DELTA is a text, which cannot be added to a time. *)
Record StagesAnalyzer := mkStagesAnalyzer { sa_events : list Time; sa_workloads : dict string Z; sa_stages : list Stage }.
Definition new_stages_analyzer (events : list Time) (workloads : dict string Z) : result StagesAnalyzer :=
  _ ← py_assert (Nat.even (length events));
  stages ← foldM (λ stages i,
        e ← or_raise IndexError (events !! (i * 2 + 1)%nat);
        t_end ← match T_DELTA with Some _ => Raise TypeError | None => Ok (fadd (timestamp e) fzero) end;
        stage ← new_stage t_end; Ok (stages ++ [stage])) [] (seq 0 (Nat.div2 (length events)));
  Ok (mkStagesAnalyzer events workloads stages).

(** src/examples/kubernetes/scripts/analyzer/runner_analyzer.py:184-185 [StagesAnalyzer.get_stages_count] *)
Definition get_stages_count (self : StagesAnalyzer) : nat := Nat.div2 (length (sa_events self)).

Definition get_instance : result AnalyzerInfo := or_raise AttributeError instance.

(** src/examples/kubernetes/scripts/analyzer/runner_analyzer.py:228-239 [StagesAnalyzer.aep_report]
    The tasks and nodes of one stage; a node on which nothing ran has no summary. *)
Definition stage_summaries (self : StagesAnalyzer) (workloads_baseline : dict string WStat) (i : nat)
    : result (list row * list row) :=
  names ← get_all_nodes_in_stage (sa_stages self) i;
  tasks ← get_all_tasks_in_stage_on_nodes (sa_stages self) i names;
  tasks_summaries ← calculate_task_summaries tasks workloads_baseline;
  info ← get_instance;
  names ← get_all_nodes_in_stage (sa_stages self) i;
  nodes_summaries ← mapM (λ name,
    stage ← get_stage (sa_stages self) i; node ← dgetitem (sg_nodes stage) name;
    node_to_dict (ai_nodes info) node) names;
  Ok (tasks_summaries, filter (λ s, s ≠ []) nodes_summaries).

(** src/examples/kubernetes/scripts/analyzer/runner_analyzer.py:218-220 [StagesAnalyzer.aep_report]
    The nodes that do not count for the baseline. *)
Definition nodes_to_filter (aep_nodes names : list string) : list string :=
  filter (λ node, node ∈ aep_nodes ∨ startswith "node10" node = false) names.

(** src/examples/kubernetes/scripts/analyzer/runner_analyzer.py:196-250 [StagesAnalyzer.aep_report]
    Everything that is computed before the export: the statistics of the workloads, and the
    tasks and the nodes of every stage. *)
Definition aep_summaries (self : StagesAnalyzer) (experiment_meta : ExperimentMeta)
    : result (list (list row) * list (list row) * list (list row)) :=
  let count := get_stages_count self in
  let base := em_experiment_baseline_index experiment_meta in
  _ ← foldM (λ (_ : unit) _, check ← get_all_tasks_count_in_stage (sa_stages self) 0; py_assert (5 <? check)) tt
        (sa_stages self);
  info ← get_instance;
  aep_nodes ← analyzer_aep_nodes info;
  workloads_wstats ← mapM (λ i,
    workloads ← get_all_workloads_in_stage (sa_stages self) i;
    calculate_per_workload_wstats_per_stage (sa_stages self) workloads i aep_nodes) (seq 0 count);
  names ← get_all_nodes_in_stage (sa_stages self) base;
  workloads ← get_all_workloads_in_stage (sa_stages self) base;
  workloads_baseline ← calculate_per_workload_wstats_per_stage (sa_stages self) workloads base
    (nodes_to_filter aep_nodes names);
  summaries ← mapM (stage_summaries self workloads_baseline) (seq 0 count);
  workloads_dfs ← mapM (λ el, mapM wstat_to_dict (dvalues el)) workloads_wstats;
  tasks_dfs ← mapM sort_by_node summaries.*1;
  Ok (workloads_dfs, tasks_dfs, summaries.*2).

(** src/examples/kubernetes/scripts/analyzer/runner_analyzer.py:267-276 [StagesAnalyzer.aep_report]
    What is exported for each type of experiment. *)
Definition export_report (experiment_meta : ExperimentMeta) (e : Exporter) : M W unit :=
  match em_experiment_type experiment_meta with
  | ThreeStageStandardRun => _ ← export_to_txt strftime to_string e; _ ← export_to_xls e; export_to_csv e
  | SingleWorkloadsRun => export_to_txt_single strftime to_string e
  | SteppingSingleWorkloadsRun => export_to_txt_stepping_single strftime to_string e
  | Hmem => raise PlainException
  end.

(** src/examples/kubernetes/scripts/analyzer/runner_analyzer.py:187-276 [StagesAnalyzer.aep_report] *)
Definition aep_report (self : StagesAnalyzer) (experiment_meta : ExperimentMeta) (experiment_index : Z) : M W unit :=
  s ← lift (aep_summaries self experiment_meta);
  export_report experiment_meta
    (mkExporter (sa_events self) (sa_workloads self) experiment_meta experiment_index
       (path_join (path_join (em_data_path experiment_meta) "runner_analyzer") "results.txt")
       (path_join (em_data_path experiment_meta)
          ("chosen_workloads_utilization." +:+ str_of_Z experiment_index +:+ ".txt")) s.1.1 s.1.2 s.2).

(** src/examples/kubernetes/scripts/analyzer/runner_analyzer.py:278-294 [StagesAnalyzer.analyze_hmem_experiment]
    The statistics are asked for without [filter_nodes], which has no default. *)
Definition analyze_hmem_experiment (self : StagesAnalyzer) (experiment_meta : ExperimentMeta) : result unit :=
  match seq 0 (get_stages_count self) with
  | i :: _ => _ ← get_all_workloads_in_stage (sa_stages self) i; Raise TypeError
  | [] => _ ← get_all_workloads_in_stage (sa_stages self) (em_experiment_baseline_index experiment_meta);
          Raise TypeError
  end.

(** ** The file of events *)

(** What a line of it is: workloads, events or something else. *)
Inductive evaluated := EDict (workloads : dict string Z) | EList (events : list Time) | EOther.
Context (eval : string → result evaluated).

(** src/examples/kubernetes/scripts/analyzer/runner_analyzer.py:312-328 [load_events_file]
    The loop over the lines: workloads and events in turn. *)
Fixpoint load_lines (events_turn : bool) (lines : list string) (workloads_ : list (dict string Z))
    (events_ : list (list Time)) : result (list (dict string Z) * list (list Time)) :=
  match lines with
  | [] => Ok (workloads_, events_)
  | line :: rest =>
      v ← eval line;
      match events_turn, v with
      | false, EDict workloads => load_lines true rest (workloads_ ++ [workloads]) events_
      | true, EList events => load_lines false rest workloads_ (events_ ++ [events])
      | _, _ => Ok (workloads_, events_)
      end
  end.

(** src/examples/kubernetes/scripts/analyzer/runner_analyzer.py:309-330 [load_events_file] *)
Definition load_events (lines : list string) : result (list (dict string Z * list Time)) :=
  r ← load_lines false lines [] [];
  _ ← py_assert (bool_decide (length r.1 = length r.2));
  Ok (zip r.1 r.2).

(** src/examples/kubernetes/scripts/analyzer/runner_analyzer.py:121-124 [StagesAnalyzer.delete_report_files] *)
Definition delete_report_files (report_root_dir : string) : M W unit :=
  there ← rf_isdir report_root_dir;
  if (there : bool) then
    files ← rf_listdir report_root_dir; forM_ files (λ file_, rf_remove (path_join report_root_dir file_))
  else mret tt.

(** src/examples/kubernetes/scripts/analyzer/runner_analyzer.py:333-349 [analyze_3stage_experiment]
    [except Exception] is about the report only. *)
Definition analyze_3stage_experiment (experiment_meta : ExperimentMeta) : M W unit :=
  let events_file := path_join (em_data_path experiment_meta) "events.txt" in
  let report_root_dir := path_join (em_data_path experiment_meta) "runner_analyzer" in
  lines ← rf_readlines events_file;
  experiments ← lift (load_events lines);
  forM_ (imap pair experiments) (λ '(i, (workloads, events)),
    stages_analyzer ← lift (new_stages_analyzer events workloads);
    _ ← if (i =? 0)%nat then delete_report_files report_root_dir else mret tt;
    try_except (aep_report stages_analyzer experiment_meta (Z.of_nat i)) (λ _, Some (mret tt))).

(** ** What never happens *)

Lemma new_stages_analyzer_Ok events workloads self :
  new_stages_analyzer events workloads = Ok self → events = [] ∧ self = mkStagesAnalyzer [] workloads [].
Proof.
  unfold new_stages_analyzer. intros (u & He%py_assert_Ok & Hf)%bind_Ok_iff. destruct events as [|e1 [|e2 events]].
  - cbn in Hf. by injection Hf as <-.
  - done.
  - exfalso. cbn [length Nat.div2 seq foldM] in Hf. cbn in Hf. destruct T_DELTA; discriminate Hf.
Qed.

(** An experiment with events ends in a [TypeError] before anything is analysed. *)
Lemma staged_events_raise e1 e2 events workloads :
  Nat.even (length events) = true → new_stages_analyzer (e1 :: e2 :: events) workloads = Raise TypeError.
Proof.
  intros He. unfold new_stages_analyzer. cbn [length Nat.even]. rewrite He.
  cbn [py_assert mbind result_bind Nat.div2 seq foldM]. cbn. by destruct T_DELTA.
Qed.

Lemma no_stages_no_summaries workloads experiment_meta :
  is_Ok (aep_summaries (mkStagesAnalyzer [] workloads []) experiment_meta) = false.
Proof.
  unfold aep_summaries. cbn [sa_stages foldM mbind result_bind]. destruct get_instance as [info|]; [|done].
  cbn [mbind result_bind]. by destruct (analyzer_aep_nodes info).
Qed.

(** The analysis of an experiment in stages reports nothing: whatever the file
    of events holds, all it does to the files is to read that file, and to look for, list
    and remove earlier reports; it opens, writes and saves no file. *)
Theorem analyze_3stage_reports_nothing (R : relation W) `{!PreOrder R} experiment_meta :
  (∀ path, within R (rf_readlines path)) → (∀ path, within R (rf_isdir path)) →
  (∀ path, within R (rf_listdir path)) → (∀ path, within R (rf_remove path)) →
  within R (analyze_3stage_experiment experiment_meta).
Proof.
  intros Hread Hisdir Hlist Hremove. unfold analyze_3stage_experiment, delete_report_files.
  apply within_bind; [typeclasses eauto|apply Hread|intros lines].
  apply within_bind; [typeclasses eauto|within|intros experiments].
  apply within_forM; [typeclasses eauto|intros [i [workloads events]]].
  intros s. unfold lift at 1, mbind at 1, M_bind at 1.
  destruct (new_stages_analyzer events workloads) as [self|] eqn:E; [|reflexivity].
  apply new_stages_analyzer_Ok in E as [-> ->]. revert s.
  apply within_bind; [typeclasses eauto| |intros _].
  - destruct (i =? 0)%nat; within; auto.
  - apply within_try; [typeclasses eauto| |].
    + unfold aep_report. intros s. unfold lift, mbind, M_bind.
      pose proof (no_stages_no_summaries workloads experiment_meta). by destruct (aep_summaries _ _).
    + intros e k [= <-]. within.
Qed.
End analyzer.

(** ** Statistics: lemmas *)

(** A single value of throughput is reported as the latency, whatever the latencies. *)
Lemma single_value_latency x latencies_list :
  stats_of [x] latencies_list = Ok (mkStat (PFloat x) (PFloat x) (PFloat x) (PInt 0), mkStat (PFloat x) (PFloat x) (PFloat x) (PInt 0)).
Proof. done. Qed.

(** A task whose latency was measured has no summary without its deviation, which the
    queries for tasks do not ask for. *)
Lemma summary_needs_stdev task baseline values :
  dget (at_performance_metrics task) TASK_LATENCY = Some values → dget values "stdev" = None →
  is_Ok (task_summary task baseline) = false.
Proof.
  intros Hv Hs. destruct (task_summary task baseline) as [r|] eqn:E; [|done]. exfalso. unfold task_summary in E.
  do 4 apply bind_Ok_iff in E as (? & _ & E). apply bind_Ok_iff in E as (? & Hp & _).
  unfold present, get_latency, task_value in Hp. rewrite Hv in Hp. cbn [mbind result_bind] in Hp.
  unfold dgetitem in Hp. by rewrite Hs in Hp.
Qed.

(** No query for the values of tasks names a deviation. *)
Lemma no_stdev_query m f args : (m, args) ∈ task_function_args → f ∈ args → build_function_call_id f.1 f.2 ≠ "stdev".
Proof.
  unfold task_function_args, gauge_function_args, counter_function_args. intros Hm Hf.
  repeat (apply elem_of_cons in Hm as [[= -> ->]|Hm]); try by apply not_elem_of_nil in Hm.
  all: repeat (apply elem_of_cons in Hf as [->|Hf]; [done|]); by apply not_elem_of_nil in Hf.
Qed.

(** Every workload of a stage has its statistics, with the number of its tasks outside of
    the nodes that are filtered out. *)
Lemma wstats_of_workloads stages workloads i stage filter_nodes wstats :
  NoDup workloads → stages !! i = Some stage →
  calculate_per_workload_wstats_per_stage stages workloads i filter_nodes = Ok wstats →
  dkeys wstats = workloads ∧
  ∀ w, w ∈ workloads → ∃ s, dget wstats w = Some s ∧ workload_wstat stage filter_nodes w = Ok s ∧
    ws_count s = Z.of_nat (length (tasks_of_workload stage w filter_nodes)).
Proof.
  intros Hnd Hi. unfold calculate_per_workload_wstats_per_stage, get_stage. rewrite Hi. cbn [or_raise mbind result_bind].
  revert wstats. induction workloads as [|w workloads IH] using rev_ind; intros wstats Hf.
  { injection Hf as <-. split; [done|]. by intros w ?%not_elem_of_nil. }
  rewrite foldM_app in Hf. apply bind_Ok_iff in Hf as (wstats1 & H1 & Hf). cbn [foldM] in Hf.
  apply bind_Ok_iff in Hf as (wstats2 & H2 & [= <-]). apply bind_Ok_iff in H2 as (s & Hs & [= <-]).
  apply NoDup_app in Hnd as (Hnd & Hni & _). specialize (Hni w). destruct (IH Hnd _ H1) as [Hk Hw].
  assert (w ∉ workloads) as Hw' by (intros Hin; by apply (Hni Hin), list_elem_of_singleton).
  split; [by rewrite dkeys_dset, Hk, decide_False|]. intros w' [Hin|Hin]%elem_of_app.
  - rewrite dget_dset_ne by (intros ->; done). by apply Hw.
  - apply list_elem_of_singleton in Hin as ->. exists s. rewrite dget_dset_eq. split_and!; [done..|]. unfold workload_wstat in Hs.
    apply bind_Ok_iff in Hs as (? & _ & Hs). apply bind_Ok_iff in Hs as (? & _ & Hs).
    by apply bind_Ok_iff in Hs as (? & _ & [= <-]).
Qed.

(** ** A concrete analysis *)

(** Files: the lines of the file of events, the earlier reports and what is written. *)
Record files := mkFiles { fl_events : list string; fl_reports : list string; fl_written : list string }.
Definition fl_write (s : string) : M files unit :=
  modify (λ f, mkFiles (fl_events f) (fl_reports f) (fl_written f ++ [s])).
#[export] Instance files_ReportFiles : ReportFiles files := {|
  rf_isdir _ := mret true; rf_mkdir := fl_write;
  rf_listdir _ := f ← get_state; mret (fl_reports f);
  rf_remove path := modify (λ f, mkFiles (fl_events f) (filter (λ r, endswith r path = false) (fl_reports f)) (fl_written f));
  rf_isfile _ := mret false;
  rf_readlines _ := f ← get_state; mret (fl_events f);
  rf_open_append := fl_write; rf_write _ s := fl_write s; rf_close := fl_write;
  rf_excel_writer := fl_write; rf_to_excel path _ _ _ := fl_write path; rf_excel_save := fl_write;
  rf_to_csv path _ := fl_write path
|}.
Definition example_eval (line : string) : result (@evaluated Z) :=
  if String.eqb line "w" then Ok (EDict [("redis", 2)])
  else if String.eqb line "e" then Ok (EList [100; 700]) else Ok EOther.
Definition example_meta : ExperimentMeta :=
  mkExperimentMeta "/results" "" "" [] "" "" ThreeStageStandardRun 0 "unknown".
Definition example_analysis : M files unit :=
  analyze_3stage_experiment str_of_Z f64 (λ _, "") Ok id None None example_eval example_meta.
Definition example_files (lines : list string) : files := mkFiles lines ["results.txt"] [].

Lemma analyze_3stage_reports_nothing_witness :
  fl_written (example_analysis (example_files ["w"; "e"])).2 = [] ∧
  (example_analysis (example_files ["w"; "e"])).1 = Raise TypeError ∧
  (example_analysis (example_files ["w"])).1 = Raise AssertionError.
Proof.
  split; [|vm_compute; done].
  apply (analyze_3stage_reports_nothing str_of_Z f64 (λ _, "") Ok id None None example_eval (keeps fl_written)).
  all: by intros ? ?.
Defined.

Definition example_stage_task (name node latency throughput : string) : AnalyzerTask :=
  mkAnalyzerTask name "redis" node
    [(TASK_LATENCY, [("avg", JStr latency); ("q0.1,", JStr "1"); ("q0.9,", JStr "2"); ("stdev", JStr "0.5")]);
     (TASK_THROUGHPUT, [("avg", JStr throughput); ("q0.1,", JStr "1"); ("q0.9,", JStr "2"); ("stdev", JStr "0.5")])].
Definition example_stage_node (name : string) : AnalyzerNode :=
  mkAnalyzerNode name
    ((KName "platform_tasks_scheduled", [("instant", JStr "7")])
     :: ((λ m, (KMetric m, [("instant", JStr "4")])) <$>
           [PLATFORM_MEM_USAGE; PLATFORM_CPU_REQUESTED; PLATFORM_CPU_UTIL; PLATFORM_DRAM_HIT_RATIO; PLATFORM_WSS_USED;
            PLATFORM_MBW_READS; PLATFORM_MBW_WRITES])).
Definition example_stage : Stage :=
  mkStage [("t1", example_stage_task "t1" "node103" "2" "10"); ("t2", example_stage_task "t2" "node103" "4" "20")]
          [("node103", example_stage_node "node103")].
Definition example_info : AnalyzerInfo :=
  let capacity := λ r, [("cpu", PInt 8); ("mem", PInt 16); ("membw_read", PInt r); ("membw_write", PInt 10)] in
  mkAnalyzerInfo [("node101", capacity 20); ("node103", capacity 10)] [].
Definition example_stages_analyzer : StagesAnalyzer := mkStagesAnalyzer [100; 700] [("redis", 2)] [example_stage].

(** With stages made by hand the summaries are computed: latency and throughput of the two
    tasks against the best, mean and worst of both. *)
Example computed_summaries :
  match aep_summaries Ok id (Some example_info) example_stages_analyzer example_meta with
  | Ok ([[w]], [[t1; _]], [[n]]) =>
      (dget w "LB_max", dget t1 "L_nice[%]", dget t1 "T_strict[%]", dget t1 "L[stdev][300s][%]", dget n "mbw_flat [GB]")
  | _ => (None, None, None, None, None)
  end = (Some (CNum (PFloat (f64 4))), Some (CNum (PFloat (f64 50))), Some (CNum (PFloat (f64 50))),
         Some (CNum (PFloat (f64 25))), Some (CNum (PFloat (float_of_ratio 188 10)))).
Proof. vm_compute. reflexivity. Qed.

(** One task: its throughput of 10 is reported as the latency. *)
Example throughput_as_latency :
  st_avg (ws_latency (result_get (mkWStat "" (mkStat (PInt 0) (PInt 0) (PInt 0) (PInt 0)) (mkStat (PInt 0) (PInt 0) (PInt 0) (PInt 0)) 0)
    (workload_wstat (mkStage [("t1", example_stage_task "t1" "node103" "2" "10")] []) [] "redis"))) = PFloat (f64 10).
Proof. vm_compute. reflexivity. Qed.
