(* ===== verification/AnalyzerReport.v ===== *)
(** * The analyzer: reports

    [src/examples/kubernetes/scripts/analyzer]: results.py, the tables and the collected
    results of the document that main() writes for every set of experiments, and
    runner_analyzer.py with view.py, the older analysis in stages.  A document is the list
    of its elements and a data frame the list of its rows; LaTeX, pandas and matplotlib,
    which only draw them, are left out. *)
From S2P Require Export Analyzer Scenarios.
Import AnalyzerMetric.

(** ** Numbers in tables *)

(** Digits from the right, with a comma before every third. *)
Fixpoint commas (n : nat) (s : string) : string :=
  match s with
  | EmptyString => EmptyString
  | String c s' => if (n =? 3)%nat then String "," (String c (commas 1 s')) else String c (commas (S n) s')
  end.
Definition thousands (n : Z) : string := str_rev (commas 0 (str_rev (str_of_Z n))).

(** [format(x, ",.3f")] *)
Definition format_3f (x : float) : string :=
  let sign := if sign_bit x then "-" else "" in
  match float_me (fabs x) with
  | Some (m, e) =>
      let '(p, q) := shift_down m e in
      let k := round_half_even (p * 1000) q in
      sign +:+ thousands (k / 1000) +:+ "." +:+ str_drop 1 (str_of_Z (1000 + k mod 1000))
  | None => if is_nan x then "nan" else sign +:+ "inf"
  end.

(** src/examples/kubernetes/scripts/analyzer/results.py:101-108 [ExperimentResults.round_metric] *)
Definition round_metric (metric : float) : string :=
  let rounded_metric := float_round_n 3 metric in
  if fltb rounded_metric metric && feqb rounded_metric fzero then "> 0" else format_3f metric.

(** ** Names of tasks *)

(** src/examples/kubernetes/scripts/analyzer/results.py:62-62 [MEMORY_SUFFIXES] *)
Definition MEMORY_SUFFIXES : list string :=
  ["-dram"; "-pmem"; "-dram-pmem"; "-coldstart-toptier"; "-toptier"; "-coldstart"].

Fixpoint until_dash (s : string) : string :=
  match s with
  | EmptyString => EmptyString
  | String c s' => if Ascii.eqb c "-" then EmptyString else String c (until_dash s')
  end.

(** src/examples/kubernetes/scripts/analyzer/results.py:78-86 [ExperimentResults._get_task_index]
    From the last character to the second. *)
Definition get_task_index (task_name : string) : string :=
  str_rev (until_dash (str_rev (str_drop 1 task_name))).

(** src/examples/kubernetes/scripts/analyzer/results.py:88-93 [ExperimentResults._strip_memory_suffix] *)
Definition strip_memory_suffix (task_name : string) : string :=
  foldl (λ name memory_suffix, replace_sub memory_suffix "" name) task_name MEMORY_SUFFIXES.

(** src/examples/kubernetes/scripts/analyzer/results.py:95-99 [ExperimentResults._strip_task_name] *)
Definition strip_task_name (task_name : string) : string :=
  let index := get_task_index task_name in
  replace_sub ("-" +:+ index) "" (replace_sub "default/" "" task_name).

(** ** Metrics of a task *)

Definition pm_value (self : AnalyzerTask) (m : analyzer_metric) (key : string) : result float :=
  values ← dgetitem (at_performance_metrics self) m; v ← dgetitem values key; jfloat v.

(** The cells of a task. *)
Record task_cells := mkTaskCells {
  tc_average_latency : string; tc_average_throughput : string; tc_q09_latency : string;
  tc_q09_throughput : string; tc_numa_nodes : list string; tc_mbw_local : string; tc_mbw_remote : string
}.

(** src/examples/kubernetes/scripts/analyzer/results.py:110-136 [ExperimentResults.get_metrics] *)
Definition get_metrics (task : AnalyzerTask) : result task_cells :=
  let e6 := f64 (10 ^ 6) in
  let e9 := f64 (10 ^ 9) in
  average_latency ← pm_value task TASK_LATENCY "avg";
  q09_latency ← pm_value task TASK_LATENCY "q0.9,";
  let '(average_latency, q09_latency) :=
    if str_contains "pmbench" (at_workload_name task)
    then (fmul average_latency e6, fmul q09_latency e6) else (average_latency, q09_latency) in
  average_throughput ← pm_value task TASK_THROUGHPUT "avg";
  q09_throughput ← pm_value task TASK_THROUGHPUT "q0.9,";
  numa_nodes ← mapM (λ i,
    pages ← pm_value task TASK_MEM_NUMA_PAGES (str_of_Z i);
    value ← fdiv (fmul pages (f64 4096)) e9;
    Ok (round_metric value)) [0; 1; 2; 3];
  local ← pm_value task TASK_MEM_MBW_LOCAL "rate"; mbw_local ← fdiv local e9;
  remote ← pm_value task TASK_MEM_MBW_REMOTE "rate"; mbw_remote ← fdiv remote e9;
  Ok (mkTaskCells (round_metric average_latency) (round_metric average_throughput) (round_metric q09_latency)
        (round_metric q09_throughput) numa_nodes (round_metric mbw_local) (round_metric mbw_remote)).

(** ** The document *)
Inductive table_line := HLine | TRow (cells : list string).

(** src/examples/kubernetes/scripts/analyzer/results.py:138-152 [ExperimentResults.create_table] *)
Definition create_table : list table_line :=
  [HLine;
   TRow ["name"; "avg latency"; "avg throughput"; "q0.9 latency"; "q0.9 throughput"; "node0"; "node1"; "node2";
         "node3"; "mbw local"; "mbw remote"];
   HLine].

(** src/examples/kubernetes/scripts/analyzer/results.py:174-184 [ExperimentResults.create_nodes_table] *)
Definition create_nodes_table : result (list table_line) :=
  names ← mapM (λ metric, l ← dgetitem MetricLegends metric; Ok (lg_name l)) platform_metrics;
  Ok [HLine; TRow ("node" :: "socket" :: names); HLine].

(** src/examples/kubernetes/scripts/analyzer/results.py:54-60 [RESULTS_METADATA] *)
Definition RESULTS_METADATA : dict string (string * string) :=
  [("avg_latency", ("Average latency", "ms")); ("avg_throughput", ("Average throughput", "ops"));
   ("q09_latency", ("quantile 0.9 latency", "ms")); ("q09_throughput", ("quantile 0.9 throughput", "ops"));
   ("numa_pages", ("task numa pages", "GB")); ("mbw_local", ("memory mbw local", "GB/s"));
   ("mbw_remote", ("memory mbw remote", "GB/s"))].

Definition legend_table (rows : list (string * string)) : list table_line :=
  [HLine; TRow ("Metric" :: rows.*1); HLine; TRow ("Unit" :: rows.*2); HLine].
(** src/examples/kubernetes/scripts/analyzer/results.py:281-296 [ExperimentResults.create_unit_legend] *)
Definition create_unit_legend : list table_line := legend_table (dvalues RESULTS_METADATA).
(** src/examples/kubernetes/scripts/analyzer/results.py:298-314 [ExperimentResults.create_platform_unit_legend] *)
Definition create_platform_unit_legend : list table_line :=
  legend_table ((λ l, (lg_name l, lg_unit l)) <$> dvalues MetricLegends).

(** A section: what is written first, and for every experiment the tables of its tasks and
    of its nodes. *)
Record section := mkSection { sc_header : list string; sc_tables : list (list table_line * list table_line) }.

(** Results by metric, number of workloads, task and type of experiment. *)
Definition results_t : Type := dict string (dict Z (dict string (dict string string))).

(** src/examples/kubernetes/scripts/analyzer/results.py:66-76 [ExperimentResults.__init__] *)
Record ExperimentResults := mkExperimentResults {
  er_sections : dict string section; er_results_values : results_t; er_experiment_types : list string
}.
Definition new_results : ExperimentResults :=
  mkExperimentResults []
    ((λ name, (name, [])) <$> ["avg_latency"; "avg_throughput"; "q09_latency"; "q09_throughput"; "node0"; "node1";
                               "node2"; "node3"; "mbw_local"; "mbw_remote"]) [].

(** src/examples/kubernetes/scripts/analyzer/results.py:162-172 [ExperimentResults._keep_task_results]
    One of the values of a task; the dictionaries on the way are made when they are
    missing. *)
Definition keep_value (task_count : Z) (task_name_with_index experiment_type : string) (values : results_t)
    (metric_name metric_value : string) : result results_t :=
  by_count ← dgetitem values metric_name;
  let by_task := default ([] : dict string (dict string string)) (dget by_count task_count) in
  let by_type := default ([] : dict string string) (dget by_task task_name_with_index) in
  Ok (dset values metric_name
        (dset by_count task_count (dset by_task task_name_with_index (dset by_type experiment_type metric_value)))).

(** src/examples/kubernetes/scripts/analyzer/results.py:160-161 [ExperimentResults._keep_task_results]
    The name under which the values of a task are kept. *)
Definition kept_name (task task_name : string) : string :=
  strip_memory_suffix (task_name +:+ "-" +:+ get_task_index task).

(** src/examples/kubernetes/scripts/analyzer/results.py:156-159 [ExperimentResults._keep_task_results] *)
Definition task_results (cells : task_cells) : dict string string :=
  [("avg_latency", tc_average_latency cells); ("avg_throughput", tc_average_throughput cells);
   ("q09_latency", tc_q09_latency cells); ("q09_throughput", tc_q09_throughput cells)].

(** src/examples/kubernetes/scripts/analyzer/results.py:154-172 [ExperimentResults._keep_task_results] *)
Definition keep_task_results (values : results_t) (task task_name : string) (task_count : Z) (experiment_type : string)
    (cells : task_cells) : result results_t :=
  foldM (λ values '(metric_name, metric_value),
    keep_value task_count (kept_name task task_name) experiment_type values metric_name metric_value) values
    (task_results cells).

(** src/examples/kubernetes/scripts/analyzer/results.py:199-210 [ExperimentResults.discover_experiment_data]
    The row of a task and what is kept of it. *)
Definition task_row (experiment_type : string) (task_counts : dict string Z) (acc : list table_line * results_t)
    (task : string * AnalyzerTask) : result (list table_line * results_t) :=
  let task_name := strip_task_name task.1 in
  task_count ← dgetitem task_counts task_name;
  cells ← get_metrics task.2;
  let row := TRow ([replace_sub "default/" "" (at_name task.2); tc_average_latency cells; tc_average_throughput cells;
                    tc_q09_latency cells; tc_q09_throughput cells] ++ tc_numa_nodes cells
                   ++ [tc_mbw_local cells; tc_mbw_remote cells]) in
  values ← keep_task_results acc.2 task.1 task_name task_count experiment_type cells;
  Ok (acc.1 ++ [row; HLine], values).

(** src/examples/kubernetes/scripts/analyzer/results.py:216-225 [ExperimentResults.discover_experiment_data]
    The row of a socket of a node. *)
Definition node_row (node : AnalyzerNode) (socket : Z) : result (list table_line) :=
  cells ← mapM (λ metric,
    values ← dgetitem (an_performance_metrics node) (KSocket socket);
    v ← dgetitem values (analyzer_metric_name metric); v ← jfloat v;
    l ← dgetitem MetricLegends metric; helper ← py_float (lg_helper l);
    value ← fdiv v helper; Ok (round_metric value)) platform_metrics;
  Ok [TRow (an_name node :: str_of_Z socket :: cells); HLine].

(** src/examples/kubernetes/scripts/analyzer/results.py:214-225 [ExperimentResults.discover_experiment_data] *)
Definition node_rows (nodes : list AnalyzerNode) : result (list table_line) :=
  rows ← mapM (λ node, a ← node_row node 0; b ← node_row node 1; Ok (a ++ b)) nodes; Ok (concat rows).

Section report.
  (** [str(datetime.fromtimestamp(t))] *)
  Context (fromtimestamp : num → string).

(** src/examples/kubernetes/scripts/analyzer/results.py:186-231 [ExperimentResults.discover_experiment_data] *)
Definition discover_experiment_data (self : ExperimentResults) (experiment_name experiment_type : string)
    (tasks : tasks_t) (task_counts : dict string Z) (nodes : list AnalyzerNode) (description : string)
    (start_time : num) : result ExperimentResults :=
  let sec := default (mkSection [description; str1 newline +:+ "Experiment start time: " +:+ fromtimestamp start_time] [])
               (dget (er_sections self) experiment_name) in
  let types := if bool_decide (experiment_type ∈ er_experiment_types self) then er_experiment_types self
               else er_experiment_types self ++ [experiment_type] in
  r ← foldM (task_row experiment_type task_counts) (create_table, er_results_values self) tasks;
  node_table ← create_nodes_table;
  rows ← node_rows nodes;
  let sec := mkSection (sc_header sec) (sc_tables sec ++ [(r.1, node_table ++ rows)]) in
  Ok (mkExperimentResults (dset (er_sections self) experiment_name sec) r.2 types).

(** src/examples/kubernetes/scripts/analyzer/runner_analyzer.py:374-379 [main]
    What a file of an experiment says: start, end and description of the experiment, its
    name and type and the number of the tasks of every workload. *)
Record experiment_data := mkExperimentData {
  ed_start : num; ed_end : num; ed_description : string; ed_name : string; ed_type : string;
  ed_task_counts : dict string Z
}.
Definition jnum (v : json) : result num := match v with JNum x => Ok x | _ => Raise TypeError end.
Definition jcount (v : json) : result Z := match v with JNum (PInt n) => Ok n | _ => Raise TypeError end.
Definition jcounts (d : list (string * json)) : result (dict string Z) :=
  mapM (λ wc : string * json, n ← jcount wc.2; Ok (wc.1, n)) d.
(** src/examples/kubernetes/scripts/analyzer/runner_analyzer.py:374-379 [main] *)
Definition read_experiment_data (j : json) : result experiment_data :=
  e ← jitem j "experiment"; t_start ← jitem e "start"; t_start ← jnum t_start;
  e ← jitem j "experiment"; t_end ← jitem e "end"; t_end ← jnum t_end;
  e ← jitem j "experiment"; description ← jitem e "description"; description ← jstr description;
  m ← jitem j "meta"; name ← jitem m "name"; name ← jstr name;
  m ← jitem j "meta"; p ← jitem m "params"; type ← jitem p "type"; type ← jstr type;
  m ← jitem j "meta"; p ← jitem m "params"; counts ← jitem p "workloads_count"; counts ← jitems counts;
  counts ← jcounts counts;
  Ok (mkExperimentData t_start t_end description name type counts).

Section main.
  Context {W : Type} `{Requests W} `{PyFloatRepr} (prometheus_url : string).

(** src/examples/kubernetes/scripts/analyzer/runner_analyzer.py:373-386 [main]
    One file of the directory with the results. *)
Definition analyze_file (latex_file : ExperimentResults) (data : json) : M W ExperimentResults :=
  d ← lift (read_experiment_data data);
  nodes ← query_node_list prometheus_url (ed_end d);
  tasks ← query_tasks_list prometheus_url (ed_end d);
  tasks ← query_task_performance_metrics prometheus_url (ed_end d) tasks 120;
  tasks ← query_task_numa_pages prometheus_url (ed_end d) tasks;
  lift (discover_experiment_data latex_file (ed_name d) (ed_type d) tasks (ed_task_counts d) nodes
          (ed_description d) (ed_start d)).

(** src/examples/kubernetes/scripts/analyzer/runner_analyzer.py:368-386 [main]
    One of the documents. *)
Definition analyze_files (files : list json) : M W ExperimentResults := foldMS analyze_file new_results files.
End main.
End report.

(** The elements of a document. *)
Inductive doc_element := DTable (t : list table_line) | DSpace | DLineBreak | DSection (name : string) (s : section).

(** src/examples/kubernetes/scripts/analyzer/results.py:233-241 [ExperimentResults._generate_document] *)
Definition generate_document (self : ExperimentResults) : list doc_element :=
  [DTable create_unit_legend; DSpace; DLineBreak; DTable create_platform_unit_legend]
  ++ ((λ s, DSection s.1 s.2) <$> er_sections self).

(** ** Bars *)

(** src/examples/kubernetes/scripts/analyzer/results.py:246-263 [ExperimentResults.generate_bar_graph]
    For every workload its values, 0 where a type of experiment has none, and the names in
    the order in which values were found. *)
Definition bar_data (labels : list string) (workload_data : dict string (dict string string))
    : list (list (option string)) * list string :=
  foldl (λ acc label,
    (zip_with (λ bars (w : string * dict string string), bars ++ [dget w.2 label]) acc.1 workload_data,
     acc.2 ++ (filter (λ w : string * dict string string, is_Some (dget w.2 label)) workload_data).*1))
    (replicate (length workload_data) [], []) labels.

(** src/examples/kubernetes/scripts/analyzer/results.py:265-267 [ExperimentResults.generate_bar_graph]
    The bars with their labels. *)
Definition bars (labels : list string) (workload_data : dict string (dict string string))
    : result (list (string * list (option string))) :=
  let '(data_per_workload, workload_names) := bar_data labels workload_data in
  mapM (λ '(i, values), name ← or_raise IndexError (workload_names !! i); Ok (name, values))
    (imap pair data_per_workload).

(** A figure: the bars, the label of the axis, the legend and the caption. *)
Record figure := mkFigure {
  fg_bars : list (string * list (option string)); fg_label : string; fg_legend : list string; fg_caption : string
}.

(** src/examples/kubernetes/scripts/analyzer/results.py:243-279 [ExperimentResults.generate_bar_graph]
    The figures, one for each number of workloads. *)
Definition generate_bar_graph (self : ExperimentResults) (metric_name : string)
    (metric_values : dict Z (dict string (dict string string))) : result (list figure) :=
  mapM (λ workload_data,
    b ← bars (er_experiment_types self) workload_data;
    legend ← dgetitem RESULTS_METADATA metric_name;
    Ok (mkFigure b (legend.1 +:+ " (" +:+ legend.2 +:+ ")") (bar_data (er_experiment_types self) workload_data).2
          (str_of_Z (Z.of_nat (length workload_data)) +:+ " workload(s)"))) (dvalues metric_values).

(** ** Names of tasks: theorems *)

(** [sep] does not begin inside [w] when [tail] follows. *)
Fixpoint first_at (sep w tail : string) : bool :=
  match w with
  | EmptyString => true
  | String c w' => negb (startswith sep (w +:+ tail)) && first_at sep w' tail
  end.

Lemma split_sub_skip sep p s cur : split_sub_aux sep (String.length p) (p +:+ s) cur = split_sub_aux sep 0 s cur.
Proof. by induction p. Qed.

Lemma split_sub_first a sep w r cur :
  first_at (String a sep) w (String a sep +:+ r) = true →
  split_sub_aux (String a sep) 0 (w +:+ String a sep +:+ r) cur =
  (str_rev cur +:+ w) :: split_sub_aux (String a sep) 0 r "".
Proof.
  revert cur. induction w as [|c w IH]; intros cur Hf.
  - rewrite str_app_nil_r. cbn [String.append split_sub_aux]. change (String a (sep +:+ r)) with (String a sep +:+ r).
    rewrite startswith_app. cbn [String.length pred]. by rewrite split_sub_skip.
  - cbn [first_at] in Hf. apply andb_true_iff in Hf as [Hn Hf]. apply negb_true_iff in Hn.
    change (String c w +:+ String a sep +:+ r) with (String c (w +:+ String a sep +:+ r)) in *.
    cbn [split_sub_aux]. rewrite Hn, IH, str_rev_cons, str_app_assoc by done. done.
Qed.

Lemma split_sub_absent sep s cur : str_contains sep s = false → split_sub_aux sep 0 s cur = [str_rev cur +:+ s].
Proof.
  revert cur. induction s as [|c s IH]; intros cur Hc; [by rewrite str_app_nil_r|].
  cbn [str_contains] in Hc. apply orb_false_iff in Hc as [Hn Hc]. cbn [split_sub_aux].
  by rewrite Hn, IH, str_rev_cons, str_app_assoc.
Qed.

Lemma startswith_before d i w r : no_char d i = true → startswith i (w +:+ String d r) = true → startswith i w = true.
Proof.
  revert w. induction i as [|c i IH]; intros [|x w] Hi Hs; [done..| |].
  - cbn in Hi, Hs. destruct (ascii_eqb c d); [by cbn in Hi|done].
  - cbn in Hi, Hs |- *. apply andb_true_iff in Hi as [_ Hi]. apply andb_true_iff in Hs as [-> Hs]. by apply IH.
Qed.

Lemma first_at_dash d i w r :
  no_char d i = true → str_contains (String d i) w = false → first_at (String d i) w (String d r) = true.
Proof.
  intros Hi. induction w as [|c w IH]; intros Hc; [done|].
  cbn [str_contains] in Hc. apply orb_false_iff in Hc as [Hn Hc]. cbn [first_at]. rewrite IH, andb_true_r by done.
  apply negb_true_iff, not_true_iff_false. intros Hs. cbn in Hn, Hs. apply andb_true_iff in Hs as [Hd Hs].
  rewrite Hd in Hn. cbn in Hn. apply startswith_before in Hs; congruence.
Qed.

Lemma until_dash_no_char s : no_char "-" s = true → until_dash s = s.
Proof.
  induction s as [|c s IH]; [done|]. cbn. intros [Hc Hs]%andb_true_iff. apply negb_true_iff in Hc.
  unfold ascii_eqb in Hc. rewrite Hc. by rewrite IH.
Qed.
Lemma until_dash_app s r : no_char "-" s = true → until_dash (s +:+ "-" +:+ r) = s.
Proof.
  induction s as [|c s IH]; [done|]. cbn. intros [Hc Hs]%andb_true_iff. apply negb_true_iff in Hc.
  unfold ascii_eqb in Hc. rewrite Hc. f_equal. by apply IH.
Qed.

(** The name of a task: the namespace, its workload and its index. *)
Definition pod_name (workload index : string) : string := "default/" +:+ workload +:+ "-" +:+ index.

Lemma get_task_index_pod w i : no_char "-" i = true → get_task_index (pod_name w i) = i.
Proof.
  intros Hi. unfold get_task_index, pod_name. cbn [String.append str_drop pred].
  rewrite !str_rev_cons, !str_rev_append. change (String "-" i) with ("-" +:+ i).
  rewrite str_rev_append. change (str_rev "-") with "-". rewrite !str_app_assoc.
  rewrite until_dash_app; [apply str_rev_involutive|]. unfold no_char. by rewrite str_forallb_rev.
Qed.

Lemma strip_pod_name w i :
  no_char "-" i = true → str_contains ("-" +:+ i) w = false → str_contains "default/" (w +:+ "-" +:+ i) = false →
  strip_task_name (pod_name w i) = w.
Proof.
  intros Hi Hw Hd. unfold strip_task_name. rewrite get_task_index_pod by done. unfold replace_sub at 2, split_sub.
  assert (split_sub_aux "default/" 0 (pod_name w i) "" = [""; w +:+ "-" +:+ i]) as ->.
  { pose proof (split_sub_first "d" "efault/" "" (w +:+ "-" +:+ i) "" eq_refl) as Hs.
    rewrite (split_sub_absent _ (w +:+ "-" +:+ i)) in Hs by exact Hd. exact Hs. }
  cbn [str_join]. unfold replace_sub, split_sub.
  pose proof (split_sub_first "-" i w "" "") as Hs. rewrite str_app_nil_r in Hs.
  change ("" +:+ "" +:+ w +:+ "-" +:+ i) with (w +:+ String "-" i). cbn [String.append].
  rewrite Hs; [cbn; by rewrite str_app_nil_r|]. by apply first_at_dash.
Qed.

(** ** Results: theorems *)

(** The value kept of a metric for a number of workloads, a task and a type of experiment. *)
Definition kept (values : results_t) (metric : string) (count : Z) (name type : string) : option string :=
  dget values metric ≫= λ by_count, dget by_count count ≫= λ by_task, dget by_task name ≫= λ by_type, dget by_type type.

Lemma keep_value_kept c n t values m v values' :
  keep_value c n t values m v = Ok values' →
  ∀ m' c' n' t', kept values' m' c' n' t' =
    if decide (m' = m ∧ c' = c ∧ n' = n ∧ t' = t) then Some v else kept values m' c' n' t'.
Proof.
  unfold keep_value. intros (by_count & Hm%or_raise_Ok & [= <-])%bind_Ok_iff m' c' n' t'. unfold kept.
  destruct (decide (m' = m)) as [->|]; [|by rewrite dget_dset_ne, decide_False by naive_solver].
  rewrite dget_dset_eq, Hm. cbn [mbind option_bind].
  destruct (decide (c' = c)) as [->|]; [|by rewrite dget_dset_ne, decide_False by naive_solver].
  rewrite dget_dset_eq. cbn [mbind option_bind].
  destruct (decide (n' = n)) as [->|].
  - rewrite dget_dset_eq. cbn [mbind option_bind]. rewrite dget_dset.
    destruct (decide (t = t')) as [->|]; [by rewrite decide_True|]. rewrite decide_False by naive_solver.
    destruct (dget by_count c) as [d|]; [|done]. cbn. by destruct (dget d n).
  - rewrite dget_dset_ne, decide_False by naive_solver. by destruct (dget by_count c).
Qed.

Lemma keep_task_results_kept values task name count type cells values' :
  keep_task_results values task name count type cells = Ok values' →
  ∀ m c n t, kept values' m c n t =
    if decide (c = count ∧ n = kept_name task name ∧ t = type)
    then match dget (task_results cells) m with Some v => Some v | None => kept values m c n t end
    else kept values m c n t.
Proof.
  unfold keep_task_results. intros Hf m c n t. cbn [task_results foldM] in Hf.
  apply bind_Ok_iff in Hf as (v1 & H1 & Hf). apply bind_Ok_iff in Hf as (v2 & H2 & Hf).
  apply bind_Ok_iff in Hf as (v3 & H3 & Hf). apply bind_Ok_iff in Hf as (v4 & H4 & [= <-]).
  rewrite (keep_value_kept _ _ _ _ _ _ _ H4), (keep_value_kept _ _ _ _ _ _ _ H3), (keep_value_kept _ _ _ _ _ _ _ H2),
    (keep_value_kept _ _ _ _ _ _ _ H1).
  cbn [task_results dget].
  repeat case_decide; naive_solver.
Qed.

(** What is kept of a task: the number of tasks of its workload, its name and its values. *)
Definition task_entry (task_counts : dict string Z) (task : string * AnalyzerTask)
    : option (Z * string * dict string string) :=
  match dget task_counts (strip_task_name task.1), get_metrics task.2 with
  | Some count, Ok cells => Some (count, kept_name task.1 (strip_task_name task.1), task_results cells)
  | _, _ => None
  end.

(** The value of a metric in the last task with that number and name. *)
Definition reported (task_counts : dict string Z) (tasks : tasks_t) (metric : string) (count : Z) (name : string)
    : option string :=
  foldl (λ acc task,
    match task_entry task_counts task with
    | Some (c, n, values) => if decide (count = c ∧ name = n)
                             then match dget values metric with Some v => Some v | None => acc end else acc
    | None => acc
    end) None tasks.

Lemma reported_app task_counts tasks task count cells m c n :
  dget task_counts (strip_task_name task.1) = Some count → get_metrics task.2 = Ok cells →
  reported task_counts (tasks ++ [task]) m c n =
  if decide (c = count ∧ n = kept_name task.1 (strip_task_name task.1))
  then match dget (task_results cells) m with Some v => Some v | None => reported task_counts tasks m c n end
  else reported task_counts tasks m c n.
Proof. intros Hc Hm. unfold reported. rewrite foldl_app. cbn [foldl]. unfold task_entry at 1. by rewrite Hc, Hm. Qed.

Lemma task_rows_kept type task_counts tasks table values table' values' :
  foldM (task_row type task_counts) (table, values) tasks = Ok (table', values') →
  ∀ m c n t, kept values' m c n t =
    if decide (t = type) then match reported task_counts tasks m c n with Some v => Some v | None => kept values m c n t end
    else kept values m c n t.
Proof.
  revert table' values'. induction tasks as [|task tasks IH] using rev_ind; intros table' values' Hf m c n t.
  { injection Hf as <- <-. by case_decide. }
  rewrite foldM_app in Hf. apply bind_Ok_iff in Hf as ([table1 values1] & H1 & Hf). cbn [foldM] in Hf.
  apply bind_Ok_iff in Hf as ([table2 values2] & H2 & [= <- <-]). specialize (IH _ _ H1 m c n t).
  unfold task_row in H2. apply bind_Ok_iff in H2 as (count & Hc%or_raise_Ok & H2).
  apply bind_Ok_iff in H2 as (cells & Hm & H2). apply bind_Ok_iff in H2 as (values3 & H3 & [= <- <-]).
  rewrite (keep_task_results_kept _ _ _ _ _ _ _ H3), (reported_app _ _ _ _ _ _ _ _ Hc Hm). cbn [snd]. rewrite IH.
  repeat case_decide; try naive_solver; destruct (dget (task_results cells) m); naive_solver.
Qed.

(** When the data of an experiment has been taken into the document, the
    results kept for its type of experiment are those of its tasks, each under the number of
    tasks of its workload and its name without memory suffix, the last task winning where
    two have the same; results of other types of experiment, and those no task of this one
    speaks of, are kept as they were. *)
Theorem discover_keeps_results fromtimestamp self name type tasks task_counts nodes description start self' :
  discover_experiment_data fromtimestamp self name type tasks task_counts nodes description start = Ok self' →
  ∀ m c n t, kept (er_results_values self') m c n t =
    match (if decide (t = type) then reported task_counts tasks m c n else None) with
    | Some v => Some v
    | None => kept (er_results_values self) m c n t
    end.
Proof.
  unfold discover_experiment_data. intros ([table values] & Hf & Hr)%bind_Ok_iff m c n t.
  apply bind_Ok_iff in Hr as (nt & _ & Hr). apply bind_Ok_iff in Hr as (rows & _ & [= <-]).
  cbn [er_results_values snd]. rewrite (task_rows_kept _ _ _ _ _ _ _ Hf). by case_decide.
Qed.

(** What an experiment has written is read back by the analyzer. *)
Definition data_of_experiment (e : Experiment) : experiment_data :=
  mkExperimentData (PFloat (ex_start e)) (PFloat (ex_stop e)) (ex_description e) (ex_name e)
    (type_value (ex_type e)) (ex_number_of_workloads e).

Lemma read_counts (counts : dict string Z) :
  jcounts (dmap (λ z, JNum (PInt z)) counts) = Ok counts.
Proof. unfold jcounts. induction counts as [|[w n] counts IH]; [done|]. cbn. unfold dmap in IH. by rewrite IH. Qed.

Lemma experiment_read_back e : read_experiment_data (experiment_dict e) = Ok (data_of_experiment e).
Proof.
  change (read_experiment_data (experiment_dict e)) with
    (counts ← jcounts (dmap (λ z, JNum (PInt z)) (ex_number_of_workloads e));
     Ok (mkExperimentData (PFloat (ex_start e)) (PFloat (ex_stop e)) (ex_description e) (ex_name e)
           (type_value (ex_type e)) counts)).
  by rewrite read_counts.
Qed.

(** C24 (roundtrip): the tasks of an experiment that has been written to a file are found by
    the analyzer under the number with which their workload was started: the name of a pod
    of workload [w] is taken back to [w], unless the index with its dash occurs in [w]. *)
Theorem experiment_task_counts e d w i count task cells :
  read_experiment_data (experiment_dict e) = Ok d →
  dget (ex_number_of_workloads e) w = Some count →
  no_char "-" i = true → str_contains ("-" +:+ i) w = false → str_contains "default/" (w +:+ "-" +:+ i) = false →
  get_metrics task = Ok cells →
  task_entry (ed_task_counts d) (pod_name w i, task) =
    Some (count, strip_memory_suffix (w +:+ "-" +:+ i), task_results cells).
Proof.
  rewrite experiment_read_back. intros [= <-] Hw Hi Hn Hd Hc. unfold task_entry. cbn [fst snd].
  rewrite strip_pod_name by done. cbn [data_of_experiment ed_task_counts]. rewrite Hw, Hc.
  unfold kept_name. by rewrite get_task_index_pod.
Qed.

(** ** Bars: theorems *)
Lemma bar_data_app labels label workload_data :
  bar_data (labels ++ [label]) workload_data =
  (zip_with (λ bars (w : string * dict string string), bars ++ [dget w.2 label]) (bar_data labels workload_data).1
     workload_data,
   (bar_data labels workload_data).2
     ++ (filter (λ w : string * dict string string, is_Some (dget w.2 label)) workload_data).*1).
Proof. unfold bar_data. by rewrite foldl_app. Qed.

Lemma bar_values labels workload_data :
  (bar_data labels workload_data).1 = (λ w : string * dict string string, (λ l, dget w.2 l) <$> labels) <$> workload_data.
Proof.
  induction labels as [|l labels IH] using rev_ind.
  - cbn. by induction workload_data; cbn; f_equal.
  - rewrite bar_data_app. cbn [fst]. rewrite IH. clear IH. induction workload_data as [|w wd IH]; [done|].
    cbn. rewrite fmap_app. f_equal. exact IH.
Qed.

Lemma bar_names label labels workload_data :
  Forall (λ w : string * dict string string, is_Some (dget w.2 label)) workload_data →
  ∃ rest, (bar_data (label :: labels) workload_data).2 = workload_data.*1 ++ rest.
Proof.
  intros Hall. induction labels as [|l labels [rest IH]] using rev_ind.
  - exists []. unfold bar_data. cbn [foldl snd app]. rewrite app_nil_r. f_equal. induction Hall as [|w wd Hw Hall IH]; [done|].
    etransitivity; [exact (filter_cons_True _ w wd Hw)|by f_equal].
  - rewrite app_comm_cons, bar_data_app. cbn [snd]. rewrite IH. eexists. by rewrite <- app_assoc.
Qed.

(** When every workload has a result for the first type of experiment, a
    bar graph shows every workload under its own name with its results for all types, 0
    where there is none. *)
Theorem bars_own_names label labels workload_data :
  Forall (λ w : string * dict string string, is_Some (dget w.2 label)) workload_data →
  bars (label :: labels) workload_data =
  Ok ((λ w : string * dict string string, (w.1, (λ l, dget w.2 l) <$> label :: labels)) <$> workload_data).
Proof.
  intros Hall. unfold bars. destruct (bar_data _ _) as [data names] eqn:E.
  pose proof (bar_values (label :: labels) workload_data) as Hv. destruct (bar_names label labels _ Hall) as [rest Hn].
  rewrite E in Hv, Hn. cbn [fst snd] in Hv, Hn. subst data names.
  apply mapM_Ok_Forall2, Forall2_same_length_lookup_2; [by rewrite length_imap, !length_fmap|].
  intros i [j values] [name values'] Hi Hj. rewrite list_lookup_imap, list_lookup_fmap in Hi.
  rewrite list_lookup_fmap in Hj. destruct (workload_data !! i) as [w|] eqn:Hw; [|done].
  injection Hi as <- <-. injection Hj as <- <-.
  rewrite lookup_app_l by (rewrite length_fmap; by eapply lookup_lt_Some).
  by rewrite list_lookup_fmap, Hw.
Qed.

(** ** A concrete report *)
Definition example_values (l : list (string * string)) : values_t := (λ kv, (kv.1, JStr kv.2)) <$> l.
Definition example_task (name workload latency : string) : AnalyzerTask :=
  mkAnalyzerTask name workload "node101"
    [(TASK_LATENCY, example_values [("avg", latency); ("q0.1,", "0.1"); ("q0.9,", "0.25")]);
     (TASK_THROUGHPUT, example_values [("avg", "12345.6789"); ("q0.9,", "0.0001")]);
     (TASK_MEM_NUMA_PAGES, example_values [("0", "1000000"); ("1", "0"); ("2", "0"); ("3", "0")]);
     (TASK_MEM_MBW_LOCAL, example_values [("rate", "5e9")]); (TASK_MEM_MBW_REMOTE, example_values [("rate", "0")])].
Definition example_pods : tasks_t :=
  (λ nl : string * string, (pod_name nl.1 "0", example_task (pod_name nl.1 "0") nl.1 nl.2)) <$>
    [("redis-memtier-dram", "0.5"); ("pmbench-pmem", "0.000002")].
Definition example_experiment : Experiment :=
  mkExperiment "small" [("redis-memtier-dram", 1); ("pmbench-pmem", 2)] DRAM "on dram" (f64 1603291200) (f64 1603292400).
Definition example_socket : values_t :=
  example_values ((λ m, (analyzer_metric_name m, "2500000000")) <$> platform_metrics).
Definition example_node : AnalyzerNode :=
  mkAnalyzerNode "node101" [(KSocket 0, example_socket); (KSocket 1, example_socket)].
Definition example_start_text (_ : num) : string := "2020-10-21 16:40:00".
Definition example_report : result ExperimentResults :=
  discover_experiment_data example_start_text new_results "small" "dram" example_pods
    (ex_number_of_workloads example_experiment) [example_node] "on dram" (PInt 1603291200).

Lemma discover_keeps_results_witness :
  kept (er_results_values (result_get new_results example_report)) "avg_latency" 2 "pmbench-0" "dram" = Some "2.000" ∧
  kept (er_results_values (result_get new_results example_report)) "q09_throughput" 1 "redis-memtier-0" "dram" = Some "> 0".
Proof.
  assert (example_report = Ok (result_get new_results example_report)) as H by (vm_compute; reflexivity).
  split.
  - rewrite (discover_keeps_results _ _ _ _ _ _ _ _ _ _ H). vm_compute. reflexivity.
  - rewrite (discover_keeps_results _ _ _ _ _ _ _ _ _ _ H). vm_compute. reflexivity.
Defined.

Lemma experiment_task_counts_witness :
  task_entry (ed_task_counts (data_of_experiment example_experiment))
    (pod_name "pmbench-pmem" "0", example_task "default/pmbench-pmem-0" "pmbench-pmem" "0.5") =
  Some (2, "pmbench-0",
        task_results (result_get (mkTaskCells "" "" "" "" [] "" "")
                        (get_metrics (example_task "default/pmbench-pmem-0" "pmbench-pmem" "0.5")))).
Proof.
  apply (experiment_task_counts example_experiment (data_of_experiment example_experiment)); vm_compute; reflexivity.
Defined.

(** The index of a task is taken out of the whole name: the task with index 1 of a workload
    named with a 1 has no number of tasks. *)
Example index_inside_name : strip_task_name (pod_name "redis-1g-dram" "1") = "redisg-dram".
Proof. vm_compute. reflexivity. Qed.

Definition example_workload_data : dict string (dict string string) :=
  [("redis-0", [("dram", "1.000"); ("pmem", "2.000")]); ("pmbench-0", [("dram", "3.000")])].

Lemma bars_own_names_witness :
  bars ["dram"; "pmem"] example_workload_data =
  Ok [("redis-0", [Some "1.000"; Some "2.000"]); ("pmbench-0", [Some "3.000"; None])].
Proof. apply (bars_own_names "dram" ["pmem"]). repeat constructor; eexists; reflexivity. Defined.

(** Without a result for the first type the bars of one workload carry the name of another. *)
Example bars_of_another :
  bars ["pmem"; "dram"] (reverse example_workload_data) =
  Ok [("redis-0", [None; Some "3.000"]); ("pmbench-0", [Some "2.000"; Some "1.000"])].
Proof. vm_compute. reflexivity. Qed.

(** A single workload with no results has bars without a name. *)
Example bars_without_name : bars ["pmem"] [("pmbench-0", [("dram", "3.000")])] = Raise IndexError.
Proof. vm_compute. reflexivity. Qed.

Example rounded_metrics :
  map round_metric [float_of_ratio 1 10000; float_of_ratio 1234567891 1000; fzero; fneg (f64 1234)] =
  ["> 0"; "1,234,567.891"; "0.000"; "-1,234.000"].
Proof. vm_compute. reflexivity. Qed.
